(* ===== verification/_CoqProject ===== *)
-Q . S2P
Prelude.v
QmiTlv.v
CmTypes.v
QmiCompose.v
QmiComposeSpec.v
QmiThread.v
QmiRequests.v
QmiRequestsSpec.v
QmiRequestsInv.v
QmiSettingsSpec.v
QmiProxy.v
QmiProxySpec.v
CmMain.v
CmMainSpec.v
CmArgs.v
CmArgsSpec.v
Qmap.v
QmapSpec.v
AtTok.v
NetSys.v
Udhcpc.v
MbimProxy.v
MbimProxySpec.v
MhiPm.v
MhiPmSpec.v
MbimCm.v
MbimCmSpec.v
MbimCmInv.v
MbimSession.v
MbimIpSpec.v
AtTokSpec.v
AtChannel.v
AtReaderSpec.v
AtChannelSpec.v
Atc.v
AtcSpec.v
AtSettingsSpec.v
UdhcpcSpec.v
MhiRing.v
MhiChan.v
Cyclic.v
MhiRingSpec.v
MhiFlowSpec.v
MhiTransferSpec.v
MhiEventSpec.v
MhiChanSpec.v
AtProxy.v
AtProxySpec.v
MhiUci.v
MhiUciSpec.v
MhiUciErrSpec.v
MhiUciRing.v
LedNetdev.v
LedNetdevSpec.v
QmiReader.v
QmiReaderSpec.v
WwanFixup.v
WwanFixupSpec.v
WwanLink.v
WwanLinkSpec.v
WwanUsb.v
WwanUsbSpec.v
QmapMode.v
NetWorld.v
NetWorldSpec.v
