(* ===== verification/Prelude.v ===== *)
(** * The cellular-modem stack of BananaWRT

    BananaWRT ships an OpenWrt image for routers with 5G modems.  The program that
    brings the modem up is quectel-CM (5G-Modem/5G-Modem-Support/quectel_cm_5G/src):
    it speaks QMI, MBIM or AT commands to the modem over a character device, shares the
    device with others through a proxy, and runs on top of the network driver qmi_wwan_q
    (quectel_QMI_WWAN/src) for USB modems, or of the driver quectel_MHI for PCIe
    modems.  This library models these layers in C's own terms and proves what
    makes them correct.

    ** Conventions

    A C integer is a [Z]; where the code can wrap, the cast is written out ([u8],
    [u16], [u32], [s32]).  A buffer is a [list Z] of bytes, a pointer into it an
    offset, and a read or store outside it is [Fault].  Routines that change
    statics, the profile or a buffer are state passing with faults ([M]); a loop
    that is not structural has fuel, and [OutOfFuel] is its own result, so that
    termination is a theorem and not an assumption.  What is outside the
    repository is an argument: the transport below a request ([transport]), the
    device below the sender, the clock ([clk]), the table of requests of the main
    loop ([request_table]), the kernel's socket buffers (class [SkbOps] with the laws
    [SkbLaws], and [area] as an instance of both).  Printing is left out, except where
    the printing itself reads out of bounds.

    ** Files, and what they model

    - Prelude: integers, results, the state monad, little-endian fields, invariants
      over step relations, the [Pres] class that walks an invariant through a
      routine, automation.
    - QmiTlv (QMIThread.c, MPQMI.h, MPQCTL.h): header offsets, [GetTLV],
      [is_response].  [GetTLV] runs with one unit of fuel per message byte; every
      iteration moves at least three bytes ([GetTLV_terminates]).
    - CmTypes (QMIThread.h): the profile, addresses, QMAP settings, file-scope statics.
    - QmiCompose, QmiComposeSpec (QMIThread.c): transaction ids, [ComposeQMUXMsg] over its
      256-byte buffer, the request builders; each builder realises a list of TLVs
      ([Realises]), from which the round trip through [GetTLV] follows.
    - QmiThread (QMIThread.c, QmiWwanCM.c): [QmiThreadSendQMITimeout] with the messages
      the reader delivers while the caller waits, [QmiThreadRecvQMI], client ids.
    - QmiReader (QmiWwanCM.c): the thread that reads the device or the proxy, message by
      message, and the handshake that starts a session.  QmiReaderSpec: the stream of a
      proxy as the list of its messages, and what of it reaches the caller.
    - QmiRequests (QMIThread.c): the requests, one definition each.  QmiRequestsSpec: data
      calls, CDMA codes, SIM status, lost responses.  QmiRequestsInv: termination on
      every response and the bounds passed to the driver.  QmiSettingsSpec: profile
      synchronisation and addresses.
    - QmiProxy, QmiProxySpec (quectel-qmi-proxy.c): connections, clients, the queue of CTL
      requests, the static buffer that messages are read into ([view] is what is read
      through it); [pstep] are its steps, [fifo] the invariant.
    - MbimProxy, MbimProxySpec (quectel-mbim-proxy.c): client table and transaction ids,
      writes that fail or are cut short ([write_rets]); [mstep] are its steps, [table_ok] the
      invariant.
    - CmMain, CmMainSpec (main.c): [qmi_main], from set-up through the event loop to quit,
      over an arbitrary table of requests.
    - CmArgs, CmArgsSpec (main.c): [parse_user_input] against the documented options.
    - Qmap, QmapSpec (qmi_wwan_q.c): framing, uplink aggregation, decoding, the frames of
      the bridge.
    - WwanFixup (qmi_wwan_q.c): the fix-ups of outgoing and incoming buffers, with and
      without multiplexed devices, and the Ethernet address.  WwanFixupSpec: what is sent
      comes back, the bridge against its specification ([bridged]).
    - WwanLink (qmi_wwan_q.c): binding, registration, links, carriers and queues; [wstep] are
      the steps.  WwanLinkSpec: their invariant ([ports_ok]), and the decoder of Qmap on the
      devices that probing registered.
    - WwanUsb, WwanUsbSpec (qmi_wwan_q.c): the subdriver, suspend and resume, counters.
    - MhiPm, MhiPmSpec (quectel_MHI/src/core/mhi_pm.c, mhi_main.c): the power states of the
      PCIe driver, every routine that changes them, with the assignment of mhi_boot.c;
      [mhi_step] are its steps, [documented] the state machine of the comment above the table.
    - MhiRing (mhi_main.c, mhi_internal.h): the rings of the PCIe driver, doorbells, queueing,
      completion, commands, event rings.  A pointer is its address, the memory of a ring
      the list of its elements; what the driver does to the outside is a log ([dp_log]).
      MhiChan (mhi_main.c, mhi_init.c): start, stop and reset of channels.
      MhiRingSpec: a ring as a bounded queue ([ring_wf]), a channel as the list of the
      buffers in flight ([chan_rep]), queueing.  MhiFlowSpec: completion, reset, pointers
      that are no elements.  MhiTransferSpec: all channels together, as runs of the
      operations of clients, device and driver ([runs]).  MhiEventSpec: an event ring as
      the list of its events.  MhiChanSpec: start and stop.  Cyclic: lists in cyclic
      memory, for all of them.
    - MhiUci (mhi_uci.c): the character devices of the PCIe driver, over any channels (the
      class [Transfers]); a buffer that waits for user space is a reference into the array of
      pages or a copy.  MhiUciSpec: a device as a queue of transfers, over channels that keep
      the promise of [TransferLaws].  MhiUciRing: the channels of MhiRing keep it.
      MhiUciErrSpec: writes, errors, failed opens.
    - MbimCm (mbim-cm.c): the MBIM manager.  MbimCmSpec: UUIDs, the connect data, the
      cases of sending and receiving.  MbimCmInv: the session as steps ([session_step])
      and its invariant ([mbim_inv]).  MbimSession: commands of a session, alone and behind
      the proxy of MbimProxy, data calls, indications.  MbimIpSpec: addresses, with the
      reading of netmasks in udhcpc.c.
    - NetSys: the system the manager runs on, files, commands and devices, as a class.
      Udhcpc (udhcpc.c, util.c, qmap_bridge_mode.c): link state, addresses, routes, name
      servers, bridge mode, start and stop, over that class; QmapMode (qmap_bridge_mode.c):
      which multiplexed device belongs to a data connection.  UdhcpcSpec: text of addresses,
      commands, /etc/resolv.conf.
    - NetWorld: the class implemented by the driver of WwanLink, where [link_state] and the
      opening and closing of its devices are concerned, over any system for the rest.
      NetWorldSpec: several managers on one modem ([shared]).
    - AtTok, AtTokSpec (at_tok.c): the tokenizer of AT lines, over the text from the
      position on; numbers and fields as a modem prints them.
    - AtChannel (atchannel.c): the reader with its buffer ([readline], [readerLoop]), lines,
      commands.  AtReaderSpec: the reader against the splitting of the whole input
      ([lines_of]).  AtChannelSpec: commands and the lines that answer them.
    - Atc (atc.c): the AT manager, an instance of the request table of CmMain.  AtcSpec: SIM,
      registration, data calls, the thread of the port.  AtSettingsSpec: addresses and
      profile.
    - AtProxy, AtProxySpec (quectel-atc-proxy.c): several clients of one AT channel; [atc_inv]
      is the invariant of the connections.
    - LedNetdev (patch/kernel/files/stable/drivers/leds/trigger/ledtrig-netdev.c): the trigger
      that shows the link of a network device on a LED.  LedNetdevSpec: [lands] walks a
      postcondition through a routine; [led_inv] is the invariant of all operations,
      [after_op] the link after each of them, [shown] what the LED was last told to show.

    ** What the theorems show

    - Messages: composing and looking up are inverse for a request that fits its buffer of
      256 bytes, and one that does not overwrites what is behind it; TLV lookup finds the first of a
      type, transaction ids do not repeat within 65534 requests.
    - Transactions: a caller gets the response to its own request and to no other,
      and gets it when it arrives, whatever else arrives; the stream of a proxy is cut
      into its messages however they follow each other, so that an answer in it reaches
      the caller; what a time-out, a refusal and a vanished reader look like to the caller,
      and that the reader never faults and, once it opened its device or proxy, wakes the
      caller when it ends.
    - Requests: data calls start and stop the right session and keep the handle until
      the modem confirms; profile and addresses are read back as stored; loops
      over responses end on every response.
    - Proxies: CTL requests are answered in order to the client that asked, and sent once
      each, and once more for every CTL message of the modem that is no response; data
      messages reach the connections that hold a client for them; MBIM
      transaction ids survive multiplexing below 2^24, in every interleaving.
    - Main loop: DHCP runs exactly while a link is recorded, a check settles the link,
      failures are retried after 5, 10, 20, 40 and then 60 seconds, an idle loop keeps
      trying, with a data call as soon as it may, the authentication fallback restores what
      did not work.
    - Devices: managers that share a modem find each its own device and leave those of the
      others alone, through the text of the attribute and the state of the driver; the name
      servers of a device are those of the last update; an address comes out of the commands
      with the mask of the modem; every command fits its buffer.
    - USB driver: what is framed, aggregated and decoded is what was sent, in order, within
      the negotiated limits, from the Ethernet frame of one end to that of the other;
      decoding ends when probing registered every device; the bridge lets exactly one host
      through; carriers follow the links, no stopped queue is forgotten, suspend and resume
      are all or nothing.
    - MBIM manager: transaction ids stay within the 24 bits the proxy leaves it; behind the
      proxy, as in front of the device, a command gets its own response; a data call
      that returns 0 was confirmed by the modem; indications report exactly the changes.
    - AT manager: the tokenizer reads every field back; how the bytes of the channel are cut
      into reads makes no difference to the lines as long as a line fits the buffer; a
      command collects exactly the lines that are its own, in order, and every command
      returns; registration, data calls, addresses and the profile as functions of the
      lines of the modem.
    - PCIe driver: the power state moves along the documented transitions only, whatever the
      device, the workers and other threads do, except for the assignments of power-up and
      of the dump in a kernel panic; power down ends in DISABLE; suspend and
      resume return to M0 or say why not.  On every channel, whatever happens in whatever
      order, as long as the device points to elements in flight ([names_in_flight]), buffers
      come back once and in the order in which they were accepted, and
      the votes for power are those of the packets in flight; an event ring is the list of
      its events; a channel starts exactly when the device says so, and one that stops
      gives everything back.  A character device on these channels is a queue of the
      transfers of the modem, whatever the sizes of the reads, for transfers of a size that
      it takes; a write sends a prefix of what it is given.
    - AT proxy: every connection is closed once, and exactly the descriptors that were accepted
      without memory for a connection are left open; a command reaches the modem whole, and
      its lines reach all clients ([atc_response_lines]).
    - LED trigger: no operation faults, the references are one to the device shown and one for
      every activation that failed after taking it; an event of the device shown, and a new
      name, take over its carrier, speed and duplex; at rest the LED is
      lit and the counters are polled exactly when this link and the mode say so, but
      for the end of a blink ([led_lit_by_traffic]).
    - Where the code does less than it means to, a theorem states the exact behaviour
      ([GetTLV_overread], [start_request_overflow], [lost_response_looks_successful],
      [disconnect_misdelivers], [disconnect_stalls], [mbim_tid_collision],
      [qmap_decode_hangs], [first_link_lost], [registered_addresses], [arp_network],
      [wild_event_never_ends], [connect_data_overwritten],
      [at_address_reversed], the byte order of the MTU in
      [mbim_addresses], the fault in [sim_status_of_card], [reader_overflow],
      [at_registration_misread], [at_pin_never_accepted], and the results of
      [at_sim_status], [at_setup_data_call] and [at_profile_sync], a device in error
      ([uci_error_sticky]) and an open that failed ([uci_failed_open])).

    ** Interleaving

    The reader thread and the caller of a request share [s_pRequest] and
    [s_pResponse] under one mutex; a wait releases it, so a call is the script of the
    messages delivered during the wait ([deliver]); in QmiReaderSpec the deliveries are those
    of the reader itself, from its stream.  The proxies and the main loop
    have one thread: their interleaving is the order of the events of [poll], and is
    arbitrary in every theorem about reachable states.  The reader thread of the MBIM
    manager is the list of deliveries before and during each command ([exchange]), that of
    the AT channel the list of events before and during each wait ([at_exchange]); the
    waits of mhi_pm.c hand the state to other threads, which may do the same as the
    driver itself: go through [mhi_tryset_pm_state], or assign ([rely]).  The clients and the event handlers of a PCIe channel
    are operations in arbitrary order, each of them whole: the locks of the driver keep
    them apart, except that the test whether a ring is full is made before the lock is
    taken; a client that queues again from its callback does so after the event.  A
    wait of a character device is a function of the state, which other threads may have
    changed meanwhile.  In the AT proxy the reader thread runs between the steps of the loop
    and during the commands.  The driver serialises its
    aggregation with a spin lock; transmissions and timer runs are a sequence of
    arbitrary order.  So are the attributes and the events of the LED trigger, and the
    operations on the devices of the USB driver and those of the managers, each
    of them whole: the network core calls
    the transmit routine only while the queue runs, and usbnet schedules its tasklet when it
    starts the queue.

    ** Fuel

    [GetTLV] and the loop of [requestRegistrationState2] take the message length,
    which the termination theorems show to be enough; [requestGetProfile] takes the
    number of times the modem may answer that a profile must be created first, which
    nothing in the code bounds; [qmi_main] takes the number of SIM polls, which
    nothing bounds either; [rmnet_usb_tx_agg] needs two passes, which the
    losslessness theorem uses and never exhausts; [qmap_packet_decode] takes the
    number of bytes, enough when every device is registered
    ([probed_decoder_terminates]); the AT reader takes the
    number of bytes to come, which [reader_chunking] shows to be enough, and the
    [requestGetProfile] of AT the number of times the modem may answer without a line,
    which nothing bounds.  A completion takes one unit for each element completed and one
    more; it is enough when the device points to an element in flight
    ([transfers_fifo]), and nothing is when it points to none ([wild_event_never_ends]).
    The handlers of the event rings and the reset of a channel take one more than the
    elements in use.  A write to a character device takes the number of bytes
    ([uci_write_pieces]).  The deletion of default routes takes one more than there are
    ([ipv4_configured]); with /sbin/ip it is not needed ([shared_modem]).

    ** Not modelled

    Device discovery (sysfs, ioctl) and the GobiNet and QRTR transports are calls of the
    system with little state of their own; what the shell commands do to anything but the
    devices of the driver is an argument; the netlink and script variants of udhcpc.c are
    not compiled.  Of QMIThread.c the
    QoS, cell and signal reports are left out, of the PCIe driver the firmware loader, time
    synchronisation, the creation of devices and the network interface.  In the USB driver
    usbnet, cdc-wdm, the network core and the NSS driver are arguments, and the parts that
    CONFIG_BRIDGE_LAN and CONFIG_QCA_NSS_PACKET_FILTER switch on are off.  The older Fibocom
    driver follows the design of qmi_wwan_q; the web interface and the build scripts are no
    C. *)
From stdpp Require Export base list gmap strings option relations.
From coqutil Require Export Datatypes.RecordSetters.
Export TriangleBracketNotations.
From Stdlib Require Export ZArith Lia.
#[local] Open Scope Z_scope.

Declare Scope cm_scope.
Delimit Scope cm_scope with cm.

(** ** Machine integers

    A [w]-bit C integer is a [Z]; the casts write the wrap-around out. *)

(** Cast to [UCHAR]/[u8]. *)
Definition u8 (z : Z) : Z := z mod 256.
(** Cast to [USHORT]/[u16]. *)
Definition u16 (z : Z) : Z := z mod 65536.
(** Cast to [ULONG]/[UINT]/[u32]. *)
Definition u32 (z : Z) : Z := z mod 4294967296.
(** Cast to [int]. *)
Definition s32 (z : Z) : Z :=
  let w := u32 z in if w <? 2147483648 then w else w - 4294967296.

Definition byte_ok (z : Z) : Prop := 0 <= z < 256.
#[export] Instance byte_ok_dec z : Decision (byte_ok z).
Proof. unfold byte_ok. apply _. Defined.
Definition bytes_ok (l : list Z) : Prop := Forall byte_ok l.

#[export] Instance bytes_ok_dec l : Decision (bytes_ok l).
Proof. unfold bytes_ok. apply _. Defined.

(** C truth value of an integer expression. *)
Definition truth (z : Z) : bool := negb (z =? 0).
(** Value of a C comparison. *)
Definition b2z (b : bool) : Z := if b then 1 else 0.

(** ** Results

    [Ok] is a normal return, [Fault] an access outside the object a pointer
    points into (undefined behaviour in C, [skb_over_panic] in the kernel), and
    [OutOfFuel] the end of the fuel of a loop. *)
Inductive res (A : Type) : Type :=
  | Ok (a : A)
  | Fault
  | OutOfFuel.
Arguments Ok {A} a.
Arguments Fault {A}.
Arguments OutOfFuel {A}.

#[export] Instance res_ret : MRet res := fun A a => Ok a.
#[export] Instance res_bind : MBind res := fun A B f m =>
  match m with Ok a => f a | Fault => Fault | OutOfFuel => OutOfFuel end.

#[export] Instance res_eq_dec {A} `{EqDecision A} : EqDecision (res A).
Proof. solve_decision. Defined.

Definition of_option {A} (o : option A) : res A :=
  match o with Some a => Ok a | None => Fault end.

(** State passing with faults: the shape of every routine that updates
    statics, a profile or a buffer. *)
Definition M (S A : Type) : Type := S -> res (A * S).
#[export] Instance M_ret {S} : MRet (M S) := fun A a s => Ok (a, s).
#[export] Instance M_bind {S} : MBind (M S) := fun A B f m s =>
  match m s with Ok (a, s') => f a s' | Fault => Fault | OutOfFuel => OutOfFuel end.
Definition M_get {S} : M S S := fun s => Ok (s, s).
Definition M_put {S} (s : S) : M S unit := fun _ => Ok (tt, s).
Definition M_upd {S} (f : S -> S) : M S unit := fun s => Ok (tt, f s).
Definition M_lift {S A} (r : res A) : M S A := fun s =>
  match r with Ok a => Ok (a, s) | Fault => Fault | OutOfFuel => OutOfFuel end.
Definition M_when {S} (b : bool) (m : M S unit) : M S unit := if b then m else mret tt.

(** ** Little-endian fields of byte buffers *)

Definition enc16 (v : Z) : list Z := [v mod 256; v / 256 mod 256].
Definition enc32 (v : Z) : list Z :=
  [v mod 256; v / 256 mod 256; v / 65536 mod 256; v / 16777216 mod 256].

Definition rd8 (b : list Z) (o : nat) : res Z := of_option (b !! o).
Definition rd16 (b : list Z) (o : nat) : res Z :=
  x ← rd8 b o; y ← rd8 b (o + 1); mret (x + 256 * y).
Definition rd32 (b : list Z) (o : nat) : res Z :=
  x ← rd16 b o; y ← rd16 b (o + 2); mret (x + 65536 * y).
(** [memcpy] out of a buffer. *)
Definition rdn (b : list Z) (o n : nat) : res (list Z) :=
  if (o + n <=? length b)%nat then Ok (take n (drop o b)) else Fault.

(** Store of the bytes [bs] at offset [o]; a store past the end faults. *)
Definition wr (o : nat) (bs b : list Z) : res (list Z) :=
  if (o + length bs <=? length b)%nat
  then Ok (take o b ++ bs ++ drop (o + length bs) b) else Fault.

Definition zeros (n : nat) : list Z := replicate n 0.

Lemma length_zeros n : length (zeros n) = n.
Proof. apply length_replicate. Qed.
Lemma length_enc16 v : length (enc16 v) = 2%nat.
Proof. done. Qed.
Lemma length_enc32 v : length (enc32 v) = 4%nat.
Proof. done. Qed.

Lemma u8_id z : byte_ok z -> u8 z = z.
Proof. apply Z.mod_small. Qed.
Lemma u16_id z : 0 <= z < 65536 -> u16 z = z.
Proof. apply Z.mod_small. Qed.
Lemma u32_id z : 0 <= z < 4294967296 -> u32 z = z.
Proof. apply Z.mod_small. Qed.
Lemma u16_bound z : 0 <= u16 z < 65536.
Proof. by apply Z.mod_pos_bound. Qed.
Lemma u32_bound z : 0 <= u32 z < 4294967296.
Proof. by apply Z.mod_pos_bound. Qed.

Lemma enc16_ok v : bytes_ok (enc16 v).
Proof. repeat constructor; by apply Z.mod_pos_bound. Qed.
Lemma enc32_ok v : bytes_ok (enc32 v).
Proof. repeat constructor; by apply Z.mod_pos_bound. Qed.

(** Disjoint bits add up. *)
Lemma lor_high a b k : 0 <= k -> 0 <= a < 2 ^ k -> Z.lor a (b * 2 ^ k) = a + b * 2 ^ k.
Proof.
  intros Hk Ha. rewrite <- Z.shiftl_mul_pow2 by lia.
  rewrite <- Z.lxor_lor, Z.add_nocarry_lxor; [done|..]; apply Z.bits_inj'; intros n Hn;
    rewrite Z.land_spec, Z.bits_0, Z.shiftl_spec by lia; destruct (Z.ltb_spec n k).
  1,3: by rewrite (Z.testbit_neg_r _ (n - k)), andb_false_r by lia.
  all: rewrite <- (Z.mod_small a (2 ^ k)) by lia; by rewrite Z.mod_pow2_bits_high by lia.
Qed.
(** One byte of a word in its place. *)
Lemma land_byte a k : 0 <= k -> Z.land a (Z.shiftl (Z.ones 8) k) = a / 2 ^ k mod 256 * 2 ^ k.
Proof.
  intros Hk. change 256 with (2 ^ 8). rewrite <- (Z.land_ones _ 8) by lia.
  rewrite <- (Z.shiftr_div_pow2 a k), <- (Z.shiftl_mul_pow2 _ k) by lia.
  apply Z.bits_inj'. intros n Hn. rewrite Z.land_spec, !Z.shiftl_spec by lia.
  destruct (Z.ltb_spec n k).
  - rewrite !(Z.testbit_neg_r _ (n - k)) by lia. by rewrite andb_false_r.
  - rewrite Z.land_spec, Z.shiftr_spec by lia. by replace (n - k + k) with n by lia.
Qed.
Lemma enc16_value v : v mod 256 + 256 * (v / 256 mod 256) = u16 v.
Proof. unfold u16. rewrite <- Z.rem_mul_r; done. Qed.
Lemma enc32_value v :
  v mod 256 + 256 * (v / 256 mod 256)
  + 65536 * (v / 65536 mod 256 + 256 * (v / 16777216 mod 256)) = u32 v.
Proof.
  rewrite enc16_value. replace (v / 16777216) with (v / 65536 / 256).
  2: { rewrite Z.div_div; done. }
  rewrite enc16_value. unfold u16, u32.
  rewrite <- (Z.rem_mul_r v 65536 65536); done.
Qed.

Lemma rd8_bound b o v : bytes_ok b -> rd8 b o = Ok v -> byte_ok v.
Proof.
  intros Hb. unfold rd8, of_option. destruct (b !! o) eqn:E; [|done].
  intros [= <-]. by eapply Forall_lookup_1.
Qed.

Lemma rd8_app_r pre b o : rd8 (pre ++ b) (length pre + o) = rd8 b o.
Proof. unfold rd8. by rewrite lookup_app_r, Nat.add_comm, Nat.add_sub by lia. Qed.
Lemma rd8_app_l b post o : (o < length b)%nat -> rd8 (b ++ post) o = rd8 b o.
Proof. intros. unfold rd8. by rewrite lookup_app_l. Qed.

Lemma rd16_app_r pre b o : rd16 (pre ++ b) (length pre + o) = rd16 b o.
Proof. unfold rd16. rewrite rd8_app_r, <- Nat.add_assoc, rd8_app_r. done. Qed.
Lemma rd32_app_r pre b o : rd32 (pre ++ b) (length pre + o) = rd32 b o.
Proof. unfold rd32. rewrite rd16_app_r, <- Nat.add_assoc, rd16_app_r. done. Qed.
Lemma rd16_enc16 v post : rd16 (enc16 v ++ post) 0 = Ok (u16 v).
Proof. unfold rd16. cbn. by rewrite enc16_value. Qed.
Lemma rd32_enc32 v post : rd32 (enc32 v ++ post) 0 = Ok (u32 v).
Proof. unfold rd32, rd16. cbn. by rewrite enc32_value. Qed.

Lemma rdn_app pre b post : rdn (pre ++ b ++ post) (length pre) (length b) = Ok b.
Proof.
  unfold rdn. rewrite !length_app.
  destruct (Nat.leb_spec (length pre + length b) (length pre + (length b + length post)));
    [|lia].
  by rewrite drop_app_length, take_app_length.
Qed.

Lemma rd8_Ok b o : (o < length b)%nat -> exists v, rd8 b o = Ok v.
Proof.
  intros H. apply lookup_lt_is_Some_2 in H as [v E]. exists v. unfold rd8. by rewrite E.
Qed.
Lemma rd8_Fault b o : (length b <= o)%nat -> rd8 b o = Fault.
Proof. intros H. unfold rd8. by rewrite lookup_ge_None_2. Qed.
Lemma rd8_not_fuel b o : rd8 b o <> OutOfFuel.
Proof. unfold rd8, of_option. by destruct (b !! o). Qed.

(** Stores: overwriting a region, and filling the zeroed tail of a buffer. *)
Lemma wr_app pre old post bs :
  length bs = length old -> wr (length pre) bs (pre ++ old ++ post) = Ok (pre ++ bs ++ post).
Proof.
  intros H. unfold wr. rewrite !length_app.
  destruct (Nat.leb_spec (length pre + length bs) (length pre + (length old + length post)));
    [|lia].
  rewrite take_app_length, H, drop_app_add, drop_app_length. done.
Qed.

Lemma wr_zeros pre n bs :
  (length bs <= n)%nat ->
  wr (length pre) bs (pre ++ zeros n) = Ok (pre ++ bs ++ zeros (n - length bs)).
Proof.
  intros H. replace (zeros n) with (zeros (length bs) ++ zeros (n - length bs)).
  - apply wr_app. by rewrite length_zeros.
  - unfold zeros. rewrite <- replicate_add. f_equal. lia.
Qed.

Lemma wr_length o bs b b' : wr o bs b = Ok b' -> length b' = length b.
Proof.
  unfold wr. destruct (Nat.leb_spec (o + length bs) (length b)); [|done].
  intros [= <-]. rewrite !length_app, length_take, length_drop. lia.
Qed.

(** ** Invariants over step relations *)
Lemma inv_rtc {A} (R : relation A) (I : A -> Prop) :
  (forall x y, I x -> R x y -> I y) -> forall x y, rtc R x y -> I x -> I y.
Proof. intros Hstep x y H. induction H; eauto. Qed.

(** ** Invariants of state-passing routines

    [Pres I m]: whenever [m] returns, [I] holds after it if it held before.  The
    instances below let type class resolution walk through a routine. *)
Class Pres {S A} (I : S -> Prop) (m : M S A) : Prop :=
  pres : forall s a s', I s -> m s = Ok (a, s') -> I s'.
#[global] Hint Mode Pres ! ! ! ! : typeclass_instances.

Lemma pres_ret {S A} (I : S -> Prop) (a : A) : Pres I (M_ret A a).
Proof. by intros s b s' H [= _ <-]. Qed.
Lemma pres_bind {S A B} (I : S -> Prop) (m : M S A) (f : A -> M S B) :
  Pres I m -> (forall a, Pres I (f a)) -> Pres I (M_bind A B f m).
Proof.
  intros Hm Hf s b s' H. unfold M_bind. destruct (m s) as [[a s1]| |] eqn:E; [|done..].
  intros Hb. eapply (Hf a); [|exact Hb]. by eapply Hm.
Qed.
Lemma pres_if {S A} (I : S -> Prop) (b : bool) (m1 m2 : M S A) :
  Pres I m1 -> Pres I m2 -> Pres I (if b then m1 else m2).
Proof. by destruct b. Qed.
Lemma pres_upd {S} (I : S -> Prop) (f : S -> S) : (forall s, I s -> I (f s)) -> Pres I (M_upd f).
Proof. intros Hf s a s' H [= _ <-]. by apply Hf. Qed.
Lemma pres_lift {S A} (I : S -> Prop) (r : res A) : Pres I (M_lift r).
Proof. intros s a s' H. unfold M_lift. destruct r; [|done..]. by intros [= _ <-]. Qed.

(** ** Automation *)
Create HintDb cm.
Create Rewrite HintDb len.
#[export] Hint Resolve enc16_ok enc32_ok u16_bound u32_bound : cm.
#[export] Hint Rewrite @length_app @length_cons @length_nil @length_replicate
  length_zeros length_enc16 length_enc32 @length_insert @length_map : len.

(** Length side conditions. *)
Ltac len := autorewrite with len in *; simpl in *; lia.

(** Split the boolean tests of a C condition in hypotheses and goal. *)
Ltac bool_cases :=
  repeat match goal with
  | |- context [if ?b then _ else _] => let E := fresh "E" in destruct b eqn:E
  | H : context [if ?b then _ else _] |- _ => let E := fresh "E" in destruct b eqn:E
  end.

Ltac bool_prop :=
  rewrite ?andb_true_iff, ?orb_true_iff, ?andb_false_iff, ?orb_false_iff,
    ?negb_true_iff, ?negb_false_iff, ?Z.eqb_eq, ?Z.eqb_neq, ?Z.ltb_lt, ?Z.ltb_ge,
    ?Z.leb_le, ?Z.leb_gt in *.
