(* ===== verification/QmiTlv.v ===== *)
(** QMI messages and their TLVs: the packed layout of [QCQMIMSG] (MPQMI.h,
    MPQCTL.h, MPQMUX.h), [GetTLV] and the response matching of QMIThread.c, and
    the specification of a message as a list of TLVs. *)
From S2P Require Import Prelude.
#[local] Open Scope Z_scope.

(** ** Layout of [QCQMIMSG]

    All structures are [__attribute__((packed))], so the offset of a field is the
    sum of the sizes before it.  A message is the list of its bytes. *)
Definition OFF_IFType : nat := 0.
Definition OFF_Length : nat := 1.
Definition OFF_CtlFlags : nat := 3.
Definition OFF_QMIType : nat := 4.
Definition OFF_ClientId : nat := 5.
Definition SIZEOF_QCQMI_HDR : nat := 6.
(** [MUXMsg.QMUXHdr] *)
Definition OFF_MUX_CtlFlags : nat := 6.
Definition OFF_MUX_TransactionId : nat := 7.
Definition SIZEOF_QCQMUX_HDR : nat := 3.
(** [MUXMsg.QMUXMsgHdr] and [MUXMsg.QMUXMsgHdrResp] *)
Definition OFF_QMUXMsgHdr : nat := 9.
Definition OFF_MUX_Type : nat := 9.
Definition OFF_MUX_Length : nat := 11.
Definition SIZEOF_QCQMUX_MSG_HDR : nat := 4.
Definition OFF_MUX_QMUXResult : nat := 16.
Definition OFF_MUX_QMUXError : nat := 18.
(** [CTLMsg.QMICTLMsgHdr] and [CTLMsg.QMICTLMsgHdrRsp] *)
Definition OFF_CTL_CtlFlags : nat := 6.
Definition OFF_CTL_TransactionId : nat := 7.
Definition OFF_CTL_QMICTLType : nat := 8.
Definition OFF_CTL_Length : nat := 10.
Definition SIZEOF_QCQMICTL_MSG_HDR : nat := 6.
Definition OFF_CTL_QMUXResult : nat := 15.
Definition OFF_CTL_QMUXError : nat := 17.
(** [GetClientIdRsp] and [ReleaseClientIdRsp]: second TLV after the result *)
Definition OFF_CTL_RSP_QMIType : nat := 22.
Definition OFF_CTL_RSP_ClientId : nat := 23.

Definition SIZEOF_QMI_TLV_HDR : Z := 3.

(** [QMI_SERVICE_TYPE] *)
Definition QMUX_TYPE_CTL : Z := 0x00.
Definition QMUX_TYPE_WDS : Z := 0x01.
Definition QMUX_TYPE_DMS : Z := 0x02.
Definition QMUX_TYPE_NAS : Z := 0x03.
Definition QMUX_TYPE_QOS : Z := 0x04.
Definition QMUX_TYPE_UIM : Z := 0x0B.
Definition QMUX_TYPE_WDS_IPV6 : Z := 0x11.
Definition QMUX_TYPE_WDS_ADMIN : Z := 0x1A.
Definition QMUX_TYPE_ALL : Z := 0xFF.

(** The length a message announces: [le16_to_cpu(QMIHdr.Length) + 1]. *)
Definition qmi_len (m : list Z) : res Z := l ← rd16 m OFF_Length; mret (l + 1).

(** ** [GetTLV]

    [p] is the offset of [pTLVHdr] in the message.  [Length] is the [USHORT]
    local, so the subtraction wraps modulo 65536.  [TLVType] above 0x1000
    selects the TLV by its position. *)
Fixpoint GetTLV_loop (fuel : nat) (m : list Z) (TLVType : Z) (Length TLVFind : Z) (p : nat)
    : res (option nat) :=
  match fuel with
  | O => OutOfFuel
  | S fuel =>
      if Length <? SIZEOF_QMI_TLV_HDR then mret None
      else
        let TLVFind := TLVFind + 1 in
        found ← (if 0x1000 <? TLVType then mret (TLVFind + 0x1000 =? TLVType)
                 else t ← rd8 m p; mret (t =? TLVType));
        if (found : bool) then mret (Some p)
        else
          l ← rd16 m (p + 1);
          GetTLV_loop fuel m TLVType (u16 (Length - (l + SIZEOF_QMI_TLV_HDR))) TLVFind
            (p + (Z.to_nat l + 3))
  end.

(** The pointer moves by at least three bytes per iteration and every iteration
    that goes on reads the TLV length at the pointer, so a walk takes at most one
    iteration per byte of the message. *)
Definition GetTLV (m : list Z) (hdr : nat) (TLVType : Z) : res (option nat) :=
  Length ← rd16 m (hdr + 2);
  GetTLV_loop (length m + 1) m TLVType Length 0 (hdr + 4).

(** ** [is_response] *)
Definition is_response (req rsp : list Z) : res bool :=
  qt ← rd8 req OFF_QMIType; rt ← rd8 rsp OFF_QMIType;
  if negb (qt =? rt) then mret false
  else
    qc ← rd8 req OFF_ClientId; rc ← rd8 rsp OFF_ClientId;
    if negb (qc =? rc) then mret false
    else if qt =? QMUX_TYPE_CTL then
      a ← rd8 req OFF_CTL_TransactionId; b ← rd8 rsp OFF_CTL_TransactionId; mret (a =? b)
    else
      a ← rd16 req OFF_MUX_TransactionId; b ← rd16 rsp OFF_MUX_TransactionId; mret (a =? b).

(** ** Specification: a message body is a list of TLVs *)
Definition tlv : Type := Z * list Z.

Definition encode_tlv (t : tlv) : list Z :=
  t.1 :: enc16 (Z.of_nat (length t.2)) ++ t.2.
Definition encode_tlvs (ts : list tlv) : list Z := concat (encode_tlv <$> ts).

Definition tlv_ok (t : tlv) : Prop := byte_ok t.1 /\ bytes_ok t.2.

(** Offset of the first TLV of a type within the encoded list. *)
Fixpoint find_tlv (ty : Z) (ts : list tlv) : option nat :=
  match ts with
  | [] => None
  | t :: ts => if t.1 =? ty then Some 0%nat
               else (Nat.add (length (encode_tlv t))) <$> find_tlv ty ts
  end.
(** Offset of the [n]-th TLV (counting from one). *)
Fixpoint nth_tlv (n : Z) (ts : list tlv) : option nat :=
  match ts with
  | [] => None
  | t :: ts => if n =? 1 then Some 0%nat
               else (Nat.add (length (encode_tlv t))) <$> nth_tlv (n - 1) ts
  end.

(** A QMUX message with header bytes [h] (nine bytes up to the message header),
    message type [ty] and TLVs [ts]. *)
Definition mux_msg (h : list Z) (ty : Z) (ts : list tlv) : list Z :=
  h ++ enc16 ty ++ enc16 (Z.of_nat (length (encode_tlvs ts))) ++ encode_tlvs ts.

(** ** Lemmas *)
Create HintDb off.
#[export] Hint Unfold OFF_IFType OFF_Length OFF_CtlFlags OFF_QMIType OFF_ClientId
  SIZEOF_QCQMI_HDR OFF_MUX_CtlFlags OFF_MUX_TransactionId SIZEOF_QCQMUX_HDR OFF_QMUXMsgHdr
  OFF_MUX_Type OFF_MUX_Length SIZEOF_QCQMUX_MSG_HDR OFF_MUX_QMUXResult OFF_MUX_QMUXError
  OFF_CTL_CtlFlags OFF_CTL_TransactionId OFF_CTL_QMICTLType OFF_CTL_Length
  SIZEOF_QCQMICTL_MSG_HDR OFF_CTL_QMUXResult OFF_CTL_QMUXError OFF_CTL_RSP_QMIType
  OFF_CTL_RSP_ClientId SIZEOF_QMI_TLV_HDR : off.
Ltac off_len := autounfold with off in *; len.

Lemma length_encode_tlv t : length (encode_tlv t) = (length t.2 + 3)%nat.
Proof. unfold encode_tlv. len. Qed.
#[export] Hint Rewrite length_encode_tlv : len.

Lemma encode_tlvs_cons t ts : encode_tlvs (t :: ts) = encode_tlv t ++ encode_tlvs ts.
Proof. done. Qed.
Lemma encode_tlvs_app ts us : encode_tlvs (ts ++ us) = encode_tlvs ts ++ encode_tlvs us.
Proof. unfold encode_tlvs. by rewrite fmap_app, concat_app. Qed.

(** One iteration of the loop at a well-formed TLV. *)
Lemma rd_tlv_type pre t rest : rd8 (pre ++ encode_tlv t ++ rest) (length pre) = Ok t.1.
Proof. rewrite <- (Nat.add_0_r (length pre)), rd8_app_r. done. Qed.
Lemma rd_tlv_len pre t rest :
  Z.of_nat (length t.2) < 65536 ->
  rd16 (pre ++ encode_tlv t ++ rest) (length pre + 1) = Ok (Z.of_nat (length t.2)).
Proof.
  intros H. rewrite rd16_app_r. unfold encode_tlv.
  change (rd16 (enc16 (Z.of_nat (length t.2)) ++ t.2 ++ rest) 0 = Ok (Z.of_nat (length t.2))).
  rewrite rd16_enc16, u16_id by lia. done.
Qed.
Lemma rd_tlv_value pre t rest :
  rdn (pre ++ encode_tlv t ++ rest) (length pre + 3) (length t.2) = Ok t.2.
Proof.
  unfold encode_tlv.
  replace (pre ++ (t.1 :: enc16 (Z.of_nat (length t.2)) ++ t.2) ++ rest)
    with ((pre ++ (t.1 :: enc16 (Z.of_nat (length t.2)))) ++ t.2 ++ rest)
    by (rewrite <- !app_assoc; done).
  replace (length pre + 3)%nat with (length (pre ++ t.1 :: enc16 (Z.of_nat (length t.2))))
    by len.
  apply rdn_app.
Qed.

Lemma GetTLV_loop_find ts : forall fuel pre ty found,
  (length ts < fuel)%nat -> Z.of_nat (length (encode_tlvs ts)) < 65536 ->
  ty <= 0x1000 ->
  GetTLV_loop fuel (pre ++ encode_tlvs ts) ty (Z.of_nat (length (encode_tlvs ts))) found
    (length pre)
  = Ok (Nat.add (length pre) <$> find_tlv ty ts).
Proof.
  induction ts as [|t ts IH]; intros fuel pre ty found Hf Hl Hty;
    destruct fuel as [|fuel]; try (simpl in *; lia); [done|].
  rewrite encode_tlvs_cons in *. cbn [GetTLV_loop find_tlv].
  rewrite length_app, length_encode_tlv in *.
  destruct (Z.ltb_spec (Z.of_nat (length t.2 + 3 + length (encode_tlvs ts))) SIZEOF_QMI_TLV_HDR)
    as [?|_]; [unfold SIZEOF_QMI_TLV_HDR in *; lia|].
  destruct (Z.ltb_spec 0x1000 ty); [lia|].
  rewrite rd_tlv_type. cbn [mbind res_bind mret res_ret].
  destruct (t.1 =? ty); [cbn; rewrite Nat.add_0_r; done|].
  rewrite rd_tlv_len by lia. cbn [mbind res_bind mret res_ret].
  replace (u16 _) with (Z.of_nat (length (encode_tlvs ts)))
    by (unfold SIZEOF_QMI_TLV_HDR; rewrite u16_id; lia).
  rewrite Nat2Z.id, app_assoc.
  replace (length pre + (length t.2 + 3))%nat with (length (pre ++ encode_tlv t)) by len.
  rewrite IH by (simpl in *; lia). f_equal.
  destruct (find_tlv ty ts); [|done]. cbn [fmap option_fmap option_map].
  f_equal. len.
Qed.

Lemma GetTLV_loop_nth ts : forall fuel pre ty found,
  (length ts < fuel)%nat -> Z.of_nat (length (encode_tlvs ts)) < 65536 ->
  0x1000 < ty ->
  GetTLV_loop fuel (pre ++ encode_tlvs ts) ty (Z.of_nat (length (encode_tlvs ts))) found
    (length pre)
  = Ok (Nat.add (length pre) <$> nth_tlv (ty - 0x1000 - found) ts).
Proof.
  induction ts as [|t ts IH]; intros fuel pre ty found Hf Hl Hty;
    destruct fuel as [|fuel]; try (simpl in *; lia); [done|].
  rewrite encode_tlvs_cons in *. cbn [GetTLV_loop nth_tlv].
  rewrite length_app, length_encode_tlv in *.
  destruct (Z.ltb_spec (Z.of_nat (length t.2 + 3 + length (encode_tlvs ts))) SIZEOF_QMI_TLV_HDR)
    as [?|_]; [unfold SIZEOF_QMI_TLV_HDR in *; lia|].
  destruct (Z.ltb_spec 0x1000 ty); [|lia]. cbn [mbind res_bind mret res_ret].
  replace (found + 1 + 4096 =? ty) with (ty - 4096 - found =? 1)
    by (destruct (Z.eqb_spec (ty - 4096 - found) 1), (Z.eqb_spec (found + 1 + 4096) ty); lia).
  destruct (ty - 4096 - found =? 1); [cbn; rewrite Nat.add_0_r; done|].
  rewrite rd_tlv_len by lia. cbn [mbind res_bind mret res_ret].
  replace (u16 _) with (Z.of_nat (length (encode_tlvs ts)))
    by (unfold SIZEOF_QMI_TLV_HDR; rewrite u16_id; lia).
  rewrite Nat2Z.id, app_assoc.
  replace (length pre + (length t.2 + 3))%nat with (length (pre ++ encode_tlv t)) by len.
  rewrite IH by (simpl in *; lia).
  replace (ty - 4096 - (found + 1)) with (ty - 4096 - found - 1) by lia. f_equal.
  destruct (nth_tlv _ ts); [|done]. cbn [fmap option_fmap option_map]. f_equal. len.
Qed.

Lemma length_tlvs_le ts : (length ts <= length (encode_tlvs ts))%nat.
Proof.
  induction ts as [|t ts IH]; [done|]. rewrite encode_tlvs_cons. len.
Qed.

Lemma mux_msg_split h ty ts :
  mux_msg h ty ts
  = (h ++ enc16 ty ++ enc16 (Z.of_nat (length (encode_tlvs ts)))) ++ encode_tlvs ts.
Proof. unfold mux_msg. by rewrite <- !app_assoc. Qed.

Lemma rd_mux_length h ty ts :
  length h = 9%nat -> Z.of_nat (length (encode_tlvs ts)) < 65536 ->
  rd16 (mux_msg h ty ts) OFF_MUX_Length = Ok (Z.of_nat (length (encode_tlvs ts))).
Proof.
  intros Hh Hl. unfold mux_msg. rewrite app_assoc.
  replace OFF_MUX_Length with (length (h ++ enc16 ty) + 0)%nat by off_len.
  rewrite rd16_app_r, rd16_enc16, u16_id by lia. done.
Qed.

(** [GetTLV] on a message that is a list of TLVs, as a lookup. *)
Lemma GetTLV_mux h ty ts want :
  length h = 9%nat -> Z.of_nat (length (encode_tlvs ts)) < 65536 -> want <= 0x1000 ->
  GetTLV (mux_msg h ty ts) OFF_QMUXMsgHdr want
  = Ok (Nat.add 13 <$> find_tlv want ts).
Proof.
  intros Hh Hl Hw. unfold GetTLV.
  change (OFF_QMUXMsgHdr + 2)%nat with OFF_MUX_Length. rewrite rd_mux_length by done.
  cbn [mbind res_bind]. rewrite mux_msg_split.
  replace (OFF_QMUXMsgHdr + 4)%nat
    with (length (h ++ enc16 ty ++ enc16 (Z.of_nat (length (encode_tlvs ts))))) by off_len.
  rewrite GetTLV_loop_find; [| pose proof (length_tlvs_le ts); len | done..].
  do 3 f_equal. len.
Qed.

Lemma find_tlv_split ty ts o :
  find_tlv ty ts = Some o ->
  exists pre t post, ts = pre ++ t :: post /\ t.1 = ty /\ o = length (encode_tlvs pre)
    /\ Forall (fun u => u.1 <> ty) pre.
Proof.
  revert o. induction ts as [|t ts IH]; intros o; [done|]. cbn [find_tlv].
  destruct (Z.eqb_spec t.1 ty).
  - intros [= <-]. exists [], t, ts. done.
  - destruct (find_tlv ty ts) as [o'|]; [|done]. intros [= <-].
    destruct (IH _ eq_refl) as (pre & u & post & -> & Hu & -> & Hpre).
    exists (t :: pre), u, post. rewrite encode_tlvs_cons, length_app.
    repeat split; [done|]. by constructor.
Qed.

Lemma find_tlv_None ty ts : find_tlv ty ts = None <-> Forall (fun u => u.1 <> ty) ts.
Proof.
  induction ts as [|t ts IH]; [split; [constructor|done]|]. cbn [find_tlv].
  rewrite Forall_cons. destruct (Z.eqb_spec t.1 ty); [split; [done|tauto]|].
  rewrite fmap_None. tauto.
Qed.

Lemma GetTLV_loop_S fuel m ty Length found p :
  GetTLV_loop (S fuel) m ty Length found p
  = if Length <? SIZEOF_QMI_TLV_HDR then Ok None
    else
      f ← (if 0x1000 <? ty then mret (found + 1 + 0x1000 =? ty)
           else t ← rd8 m p; mret (t =? ty));
      if (f : bool) then Ok (Some p)
      else
        l ← rd16 m (p + 1);
        GetTLV_loop fuel m ty (u16 (Length - (l + SIZEOF_QMI_TLV_HDR))) (found + 1)
          (p + (Z.to_nat l + 3)).
Proof. done. Qed.

Lemma GetTLV_loop_fuel m ty : forall fuel Length found p,
  (length m + 1 <= fuel + p)%nat -> GetTLV_loop (S fuel) m ty Length found p <> OutOfFuel.
Proof.
  induction fuel as [|fuel IH]; intros Length found p Hf.
  - rewrite GetTLV_loop_S. destruct (Length <? SIZEOF_QMI_TLV_HDR); [done|].
    unfold rd16. rewrite !rd8_Fault by lia.
    destruct (4096 <? ty); cbn; [|done]. by destruct (_ =? ty).
  - rewrite GetTLV_loop_S. destruct (Length <? SIZEOF_QMI_TLV_HDR); [done|].
    assert (Hrest : (l ← rd16 m (p + 1);
       GetTLV_loop (S fuel) m ty (u16 (Length - (l + SIZEOF_QMI_TLV_HDR))) (found + 1)
         (p + (Z.to_nat l + 3))) <> OutOfFuel).
    { unfold rd16. destruct (rd8 m (p + 1)) eqn:E1; cbn;
        [|done|by apply rd8_not_fuel in E1].
      destruct (rd8 m (p + 1 + 1)) eqn:E2; cbn; [|done|by apply rd8_not_fuel in E2].
      apply IH. lia. }
    destruct (4096 <? ty).
    + cbn [mbind res_bind mret res_ret]. destruct (_ =? ty); [done|exact Hrest].
    + destruct (rd8 m p) eqn:E; cbn [mbind res_bind mret res_ret];
        [|done|by apply rd8_not_fuel in E]. destruct (_ =? ty); [done|exact Hrest].
Qed.

(** ** Properties *)

(** C25. [GetTLV] is a lookup: on a message whose body is a list of TLVs, it
    returns NULL exactly when no TLV has the type, and otherwise a pointer to the
    first one, at which the type, the length and the whole value can be read. *)
Theorem GetTLV_first h ty ts want
    (Hh : length h = 9%nat) (Hl : Z.of_nat (length (encode_tlvs ts)) < 65536)
    (Hw : 0 <= want <= 0x1000) :
  (Forall (fun t => t.1 <> want) ts /\ GetTLV (mux_msg h ty ts) OFF_QMUXMsgHdr want = Ok None)
  \/ exists pre t post o,
       ts = pre ++ t :: post /\ t.1 = want /\ Forall (fun u => u.1 <> want) pre
       /\ GetTLV (mux_msg h ty ts) OFF_QMUXMsgHdr want = Ok (Some o)
       /\ rd8 (mux_msg h ty ts) o = Ok want
       /\ rd16 (mux_msg h ty ts) (o + 1) = Ok (Z.of_nat (length t.2))
       /\ rdn (mux_msg h ty ts) (o + 3) (length t.2) = Ok t.2.
Proof.
  rewrite GetTLV_mux by lia. destruct (find_tlv want ts) as [o|] eqn:E.
  - right. destruct (find_tlv_split _ _ _ E) as (pre & t & post & -> & Ht & -> & Hpre).
    exists pre, t, post, (13 + length (encode_tlvs pre))%nat.
    rewrite encode_tlvs_app, encode_tlvs_cons, !length_app, length_encode_tlv in Hl.
    assert (Hm : exists p rest, mux_msg h ty (pre ++ t :: post) = p ++ encode_tlv t ++ rest
                   /\ length p = (13 + length (encode_tlvs pre))%nat).
    { rewrite mux_msg_split, encode_tlvs_app, encode_tlvs_cons, app_assoc.
      eexists _, _. split; [done|]. len. }
    destruct Hm as (p & rest & -> & Hp). rewrite <- Hp, rd_tlv_type, rd_tlv_len, rd_tlv_value by lia.
    subst want. repeat split; try done. cbn. by rewrite Hp.
  - left. split; [by apply find_tlv_None|done].
Qed.

Lemma GetTLV_first_witness :
  GetTLV (mux_msg (zeros 9) 0x22 [(2, [0;0;0;0]); (1, [2;0])]) OFF_QMUXMsgHdr 1 = Ok (Some 20%nat)
  /\ rdn (mux_msg (zeros 9) 0x22 [(2, [0;0;0;0]); (1, [2;0])]) 23 2 = Ok [2; 0].
Proof.
  destruct (GetTLV_first (zeros 9) 0x22 [(2, [0;0;0;0]); (1, [2;0])] 1)
    as [[H _]|(pre & t & post & o & _ & _ & _ & H & _)].
  - reflexivity.
  - vm_compute; reflexivity.
  - split; vm_compute; discriminate.
  - exfalso. rewrite !Forall_cons in H. destruct H as (_ & H & _). by apply H.
  - vm_compute in H |- *. done.
Defined.

(** A type above 0x1000 selects a TLV by position: [GetTLV] with
    [0x1000 + n] returns the [n]-th TLV of the body, NULL when there are fewer. *)
Theorem GetTLV_index h ty ts n
    (Hh : length h = 9%nat) (Hl : Z.of_nat (length (encode_tlvs ts)) < 65536) (Hn : 0 < n) :
  GetTLV (mux_msg h ty ts) OFF_QMUXMsgHdr (0x1000 + n)
  = Ok (if (Z.to_nat n <=? length ts)%nat
        then Some (13 + length (encode_tlvs (take (Z.to_nat n - 1) ts)))%nat else None).
Proof.
  unfold GetTLV. change (OFF_QMUXMsgHdr + 2)%nat with OFF_MUX_Length.
  rewrite rd_mux_length by done. cbn [mbind res_bind]. rewrite mux_msg_split.
  replace (OFF_QMUXMsgHdr + 4)%nat
    with (length (h ++ enc16 ty ++ enc16 (Z.of_nat (length (encode_tlvs ts))))) by off_len.
  rewrite GetTLV_loop_nth; [| pose proof (length_tlvs_le ts); len | lia..].
  replace (length (h ++ _)) with 13%nat by len.
  replace (4096 + n - 4096 - 0) with n by lia. clear Hh Hl. f_equal.
  revert n Hn. induction ts as [|t ts IH]; intros n Hn; cbn [nth_tlv].
  - by destruct (Nat.leb_spec (Z.to_nat n) (length (@nil tlv))); [simpl in *; lia|].
  - destruct (Z.eqb_spec n 1) as [->|?]; [done|].
    specialize (IH (n - 1) ltac:(lia)).
    replace (Z.to_nat n) with (S (Z.to_nat (n - 1))) by lia. cbn [length Nat.leb].
    replace (S (Z.to_nat (n - 1)) - 1)%nat with (S (Z.to_nat (n - 1) - 1)) by lia.
    cbn [take]. rewrite encode_tlvs_cons, length_app.
    destruct (nth_tlv (n - 1) ts), (_ <=? _)%nat; cbn in *; simplify_eq; [|done].
    by f_equal.
Qed.

Lemma GetTLV_index_witness :
  GetTLV (mux_msg (zeros 9) 0x22 [(2, [0;0;0;0]); (1, [2;0])]) OFF_QMUXMsgHdr 0x1002 = Ok (Some 20%nat).
Proof.
  apply (GetTLV_index (zeros 9) 0x22 [(2, [0;0;0;0]); (1, [2;0])] 2); vm_compute; reflexivity.
Defined.

(** The walk of [GetTLV] ends on every message, well formed or not: the fuel
    of one iteration per message byte is never used up. *)
Theorem GetTLV_terminates m hdr ty : GetTLV m hdr ty <> OutOfFuel.
Proof.
  unfold GetTLV. destruct (rd16 m (hdr + 2)) eqn:E; cbn [mbind res_bind]; [|done|].
  - rewrite Nat.add_comm. apply GetTLV_loop_fuel. lia.
  - exfalso. revert E. unfold rd16.
    destruct (rd8 m (hdr + 2)) eqn:E1; [|done|by apply rd8_not_fuel in E1].
    destruct (rd8 m (hdr + 2 + 1)) eqn:E2; cbn; [done|done|by apply rd8_not_fuel in E2].
Qed.

(** [GetTLV] trusts the TLV lengths: a body of one TLV header that claims a
    non-empty value makes the remaining [USHORT] length wrap below zero, and the
    walk leaves the message, although the message length itself is right. *)
Theorem GetTLV_overread h ty t l want
    (Hh : length h = 9%nat) (Hw : want <= 0x1000) (Ht : t <> want) (Hl : 0 < l <= 65533) :
  GetTLV (h ++ enc16 ty ++ enc16 3 ++ t :: enc16 l) OFF_QMUXMsgHdr want = Fault.
Proof.
  unfold GetTLV. autounfold with off.
  assert (Hm : h ++ enc16 ty ++ enc16 3 ++ t :: enc16 l
             = (h ++ enc16 ty ++ enc16 3) ++ t :: enc16 l) by (by rewrite <- !app_assoc).
  assert (Hlen : rd16 (h ++ enc16 ty ++ enc16 3 ++ t :: enc16 l) (9 + 2) = Ok 3).
  { rewrite app_assoc. replace (9 + 2)%nat with (length (h ++ enc16 ty) + 0)%nat by len.
    by rewrite rd16_app_r, rd16_enc16. }
  rewrite Hlen. cbn [mbind res_bind]. rewrite Hm.
  set (pre := h ++ enc16 ty ++ enc16 3). assert (Hp : length pre = 13%nat) by (subst pre; len).
  replace (9 + 4)%nat with (length pre) by lia.
  replace (length (pre ++ t :: enc16 l) + 1)%nat with 17%nat by len.
  change 17%nat with (S 16). rewrite GetTLV_loop_S.
  destruct (Z.ltb_spec 4096 want); [lia|].
  change (3 <? SIZEOF_QMI_TLV_HDR) with false. cbn iota.
  rewrite <- (Nat.add_0_r (length pre)) at 1. rewrite rd8_app_r. cbn [rd8 lookup list_lookup of_option].
  cbn [mbind res_bind mret res_ret]. destruct (Z.eqb_spec t want); [done|].
  rewrite rd16_app_r. change (rd16 (t :: enc16 l) 1) with (rd16 (enc16 l ++ []) 0).
  rewrite rd16_enc16, u16_id by lia. cbn [mbind res_bind].
  change 16%nat with (S 15). rewrite GetTLV_loop_S.
  replace (u16 _) with (65536 - l)
    by (unfold u16, SIZEOF_QMI_TLV_HDR; rewrite <- (Z.mod_add _ 1) by lia; rewrite Z.mod_small; lia).
  destruct (Z.ltb_spec (65536 - l) SIZEOF_QMI_TLV_HDR); [unfold SIZEOF_QMI_TLV_HDR in *; lia|].
  destruct (Z.ltb_spec 4096 want); [lia|].
  by rewrite rd8_Fault by len.
Qed.

Lemma GetTLV_overread_witness :
  GetTLV (zeros 9 ++ enc16 0x22 ++ enc16 3 ++ 5 :: enc16 1) OFF_QMUXMsgHdr 1 = Fault.
Proof. apply (GetTLV_overread (zeros 9) 0x22 5 1 1); [reflexivity | lia | lia | lia]. Defined.
