(* ===== verification/CmTypes.v ===== *)
(** The data of the connection manager (QMIThread.h): [PROFILE_T], the address
    and QMAP records, and the file-scope statics of QMIThread.c.  A [const char *]
    is [option (list Z)] (NULL or the bytes before the NUL), a [char[]] field the
    bytes before its NUL. *)
From S2P Require Import Prelude.
#[local] Open Scope Z_scope.

Definition cstr : Type := list Z.
(** Bytes that can stand before the terminating NUL. *)
Definition cstr_ok (s : cstr) : Prop := Forall (fun c => 0 < c < 256) s.

#[export] Instance cstr_ok_dec s : Decision (cstr_ok s).
Proof. unfold cstr_ok. apply _. Defined.

Definition bytes_of_string (s : string) : cstr :=
  (fun c => Z.of_N (Ascii.N_of_ascii c)) <$> String.list_ascii_of_string s.

Definition IpFamilyV4 : Z := 4.
Definition IpFamilyV6 : Z := 6.

Definition QWDS_PKT_DATA_UNKNOW : Z := 0.
Definition QWDS_PKT_DATA_DISCONNECTED : Z := 1.
Definition QWDS_PKT_DATA_CONNECTED : Z := 2.

Record IPV4_T := mkIPV4 {
  v4_Address : Z; v4_Gateway : Z; v4_SubnetMask : Z;
  v4_DnsPrimary : Z; v4_DnsSecondary : Z; v4_Mtu : Z }.
Definition IPV4_zero : IPV4_T := mkIPV4 0 0 0 0 0 0.

Record IPV6_T := mkIPV6 {
  v6_Address : list Z; v6_Gateway : list Z; v6_SubnetMask : list Z;
  v6_DnsPrimary : list Z; v6_DnsSecondary : list Z;
  v6_PrefixLengthIPAddr : Z; v6_PrefixLengthGateway : Z; v6_Mtu : Z }.
Definition IPV6_zero : IPV6_T :=
  mkIPV6 (zeros 16) (zeros 16) (zeros 16) (zeros 16) (zeros 16) 0 0 0.

Record QMAP_SETTING := mkQMAP {
  qs_size : Z; qs_rx_urb_size : Z; qs_ep_type : Z; qs_iface_id : Z; qs_MuxId : Z;
  qs_ul_data_aggregation_max_datagrams : Z; qs_ul_data_aggregation_max_size : Z;
  qs_dl_minimum_padding : Z }.
Definition QMAP_SETTING_zero : QMAP_SETTING := mkQMAP 0 0 0 0 0 0 0 0.
(** [sizeof(QMAP_SETTING)] *)
Definition SIZEOF_QMAP_SETTING : Z := 32.

(** [RMNET_INFO], as the driver describes its multiplexed devices. *)
Record RMNET_INFO := mkRMNET {
  ri_size : Z; ri_rx_urb_size : Z; ri_ep_type : Z; ri_iface_id : Z;
  rn_qmap_mode : Z; ri_qmap_version : Z; ri_dl_minimum_padding : Z;
  rn_ifname : list cstr; rn_mux_id : list Z }.
Definition RMNET_INFO_zero : RMNET_INFO := mkRMNET 0 0 0 0 0 0 0 (replicate 8 []) (zeros 8).

(** Which table [profile->request_ops] points to. *)
Inductive request_ops_id := qmi_request_ops | mbim_request_ops | atc_request_ops.
#[export] Instance request_ops_id_eq_dec : EqDecision request_ops_id.
Proof. solve_decision. Defined.

(** The enumeration of [hardware_interface] and [software_interface]. *)
Definition DRV_INVALID : Z := 0.
Definition SOFTWARE_QMI : Z := 1.
Definition SOFTWARE_MBIM : Z := 2.
Definition SOFTWARE_ECM_RNDIS_NCM : Z := 3.
Definition HARDWARE_PCIE : Z := 5.
Definition HARDWARE_USB : Z := 6.

Record PROFILE_T := mkPROFILE {
  apn : option cstr; user : option cstr; password : option cstr;
  auth : Z; iptype : Z; pincode : option cstr; proxy : cstr; pdp : Z;
  enable_bridge : Z; enable_ipv4 : Z; enable_ipv6 : Z;
  logfile : option cstr; usblogfile : option cstr; expect_adapter : cstr;
  kill_pdp : Z; replication_factor : Z;
  qmichannel : cstr; usbnet_adapter : cstr; qmapnet_adapter : cstr; driver_name : cstr;
  qmap_mode : Z; qmap_size : Z; qmap_version : Z;
  curIpFamily : Z; rawIP : Z; muxid : Z; wda_client : Z;
  ipv4 : IPV4_T; ipv6 : IPV6_T;
  PCSCFIpv4Addr1 : Z; PCSCFIpv4Addr2 : Z;
  PCSCFIpv6Addr1 : list Z; PCSCFIpv6Addr2 : list Z;
  hardware_interface : Z; software_interface : Z; loopback_state : Z;
  BaseBandVersion : cstr; old_apn : cstr; old_user : cstr; old_password : cstr;
  old_auth : Z; old_iptype : Z;
  request_ops : request_ops_id; rmnet_info : RMNET_INFO }.

(** [static PROFILE_T s_profile]: zero initialised. *)
Definition PROFILE_zero : PROFILE_T :=
  mkPROFILE None None None 0 0 None [] 0 0 0 0 None None [] 0 0 [] [] [] [] 0 0 0 0 0 0 0
    IPV4_zero IPV6_zero 0 0 (zeros 16) (zeros 16) 0 0 0 [] [] [] [] 0 0
    qmi_request_ops RMNET_INFO_zero.

(** The statics of QMIThread.c that outlive a request. *)
Record statics := mkStatics {
  TransactionId : Z;
  WdsConnectionIPv4Handle : Z; WdsConnectionIPv6Handle : Z;
  s_is_cdma : Z; s_5g_type : Z; s_hdr_personality : Z; s_9x07 : Z; s_qmap_version : Z }.
Definition statics_init : statics := mkStatics 0 0 0 0 0 0 1 5.
