(* ===== verification/QmiCompose.v ===== *)
(** Composition of QMI requests: the request builders of QMIThread.c, each writing
    its TLVs into the stack buffer of [ComposeQMUXMsg], and [ComposeQMUXMsg]
    itself.  A builder promises, through the class [Realises], the list of TLVs it
    writes; [ComposeQMUXMsg] is verified against that promise. *)
From S2P Require Import Prelude QmiTlv CmTypes.
#[local] Open Scope Z_scope.

(** [WDM_DEFAULT_BUFSIZE], the size of [QMIBuf] *)
Definition WDM_DEFAULT_BUFSIZE : nat := 256.
Definition USB_CTL_MSG_TYPE_QMI : Z := 1.
(** Offset in [QMIBuf] of the first TLV: [(UCHAR * )(&pMUXMsg->...Req + 1)]. *)
Definition OFF_TLV : nat := 13.

(** ** Stores into [QMIBuf] *)
Definition builder : Type := M (list Z) Z.

Definition st (o : nat) (bs : list Z) : M (list Z) unit := fun b =>
  b' ← wr o bs b; mret (tt, b').
Definition st8 (o : nat) (v : Z) : M (list Z) unit := st o [u8 v].
Definition st16 (o : nat) (v : Z) : M (list Z) unit := st o (enc16 v).
Definition st32 (o : nat) (v : Z) : M (list Z) unit := st o (enc32 v).
(** [qstrcpy]: the bytes and the terminating NUL. *)
Definition qstrcpy (o : nat) (s : cstr) : M (list Z) unit := st o (s ++ [0]).

(** A TLV header store, in the order of the source. *)
Definition st_hdr (o : nat) (ty len : Z) : M (list Z) unit :=
  _ ← st8 o ty; st16 (o + 1) len.

(** Whole TLVs stored at a fixed offset: [QMIWDS_ADMIN_SET_DATA_FORMAT_TLV_QOS],
    [QMIWDS_ADMIN_SET_DATA_FORMAT_TLV] and the end point identifier. *)
Definition st_tlv8 (o : nat) (ty v : Z) : M (list Z) unit :=
  _ ← st_hdr o ty 1; st8 (o + 3) v.
Definition st_tlv32 (o : nat) (ty v : Z) : M (list Z) unit :=
  _ ← st_hdr o ty 4; st32 (o + 3) v.
Definition st_ep (o : nat) (ty ep_type iface_id : Z) : M (list Z) unit :=
  _ ← st_hdr o ty 8; _ ← st32 (o + 3) ep_type; st32 (o + 7) iface_id.

(** One-byte TLV at [pTLV + TLVLength]; returns the advanced [TLVLength]. *)
Definition put_u8 (ty v : Z) (T : nat) : M (list Z) nat :=
  _ ← st_hdr (OFF_TLV + T) ty 1; _ ← st8 (OFF_TLV + T + 3) v;
  mret (T + (1 + 3))%nat.
(** String TLV at [pTLV + TLVLength]; the length is [cpu_to_le16(strlen(s))]. *)
Definition put_str (ty : Z) (s : cstr) (T : nat) : M (list Z) nat :=
  _ ← st_hdr (OFF_TLV + T) ty (Z.of_nat (length s)); _ ← qstrcpy (OFF_TLV + T + 3) s;
  mret (T + (Z.to_nat (u16 (Z.of_nat (length s))) + 3))%nat.
Definition put_opt_str (c : bool) (ty : Z) (s : option cstr) (T : nat) : M (list Z) nat :=
  match s with
  | Some s => if c then put_str ty s T else mret T
  | None => mret T
  end.

(** Both credentials present: the authentication TLV. *)
Definition put_auth (u pw : option cstr) (ty v : Z) (T : nat) : M (list Z) nat :=
  match u, pw with Some _, Some _ => put_u8 ty v T | _, _ => mret T end.

(** ** Builders of WDS requests *)

Definition null_or_empty (s : option cstr) : bool :=
  match s with None => true | Some s => match s with [] => true | _ => false end end.

(** The credentials [WdsStartNwInterfaceReq] uses: CDMA without user and password
    falls back to the China Telecom account. *)
Definition start_credentials (g : statics) (p : PROFILE_T) : option cstr * option cstr * Z :=
  if truth (s_is_cdma g) && null_or_empty (user p) && null_or_empty (password p)
  then (Some (bytes_of_string "ctnet@mycdma.cn"), Some (bytes_of_string "vnet.mobi"), 2)
  else (user p, password p, auth p).

(** The profile-index TLV, whose length is stored before its type. *)
Definition put_pdp (g : statics) (p : PROFILE_T) (T : nat) : M (list Z) nat :=
  if truth (pdp p) && negb (truth (s_is_cdma g)) then
    _ ← st16 (OFF_TLV + T + 1) 1; _ ← st8 (OFF_TLV + T) 0x31;
    _ ← st8 (OFF_TLV + T + 3) (pdp p);
    _ ← M_when (truth (s_is_cdma g) && (s_hdr_personality g =? 2))
          (_ ← st8 (OFF_TLV + T) 0x32; st8 (OFF_TLV + T + 3) 101);
    mret (T + (1 + 3))%nat
  else mret T.

Definition WdsStartNwInterfaceReq (g : statics) (p : PROFILE_T) : builder :=
  let '(profile_user, profile_password, profile_auth) := start_credentials g p in
  _ ← st16 OFF_MUX_Length 0;
  (* Set technology Preferece *)
  T ← put_u8 0x30 (if s_is_cdma g =? 0 then 0x01 else 0x02) 0;
  (* Set APN Name *)
  T ← put_opt_str (negb (truth (s_is_cdma g))) 0x14 (apn p) T;
  (* Set User Name *)
  T ← put_opt_str true 0x17 profile_user T;
  (* Set Password *)
  T ← put_opt_str true 0x18 profile_password T;
  (* Set Auth Protocol *)
  T ← put_auth profile_user profile_password 0x16 profile_auth T;
  (* Add IP Family Preference *)
  T ← put_u8 0x19 (curIpFamily p) T;
  (* Set Profile Index *)
  T ← put_pdp g p T;
  mret (u16 (4 + Z.of_nat T)).

Definition WdsStopNwInterfaceReq (g : statics) (family : Z) : builder :=
  _ ← st_hdr OFF_TLV 0x01 4;
  _ ← st32 (OFF_TLV + 3) (if family =? IpFamilyV4 then WdsConnectionIPv4Handle g
                          else WdsConnectionIPv6Handle g);
  mret 11.

Definition WdsSetClientIPFamilyPref (IpPreference : Z) : builder :=
  _ ← st_hdr OFF_TLV 0x01 1; _ ← st8 (OFF_TLV + 3) IpPreference; mret 8.

Definition WdsSetAutoConnect (autoconnect_setting : Z) : builder :=
  _ ← st_hdr OFF_TLV 0x01 1; _ ← st8 (OFF_TLV + 3) autoconnect_setting; mret 8.

Definition WdsSetQMUXBindMuxDataPort (q : QMAP_SETTING) : builder :=
  _ ← st_hdr OFF_TLV 0x10 8;
  _ ← st32 (OFF_TLV + 3) (qs_ep_type q); _ ← st32 (OFF_TLV + 7) (qs_iface_id q);
  _ ← st_hdr (OFF_TLV + 11) 0x11 1; _ ← st8 (OFF_TLV + 14) (qs_MuxId q);
  _ ← st_hdr (OFF_TLV + 15) 0x13 4; _ ← st32 (OFF_TLV + 18) 1;
  mret 26.

Definition WdaSetDataFormat (g : statics) (q : QMAP_SETTING) : builder :=
  if qs_rx_urb_size q =? 0 then
    _ ← st_tlv8 OFF_TLV 0x10 0;
    _ ← st_tlv32 (OFF_TLV + 4) 0x11 1;
    _ ← st_tlv32 (OFF_TLV + 11) 0x13 0;
    mret 22
  else
    _ ← st_tlv8 OFF_TLV 0x10 0;
    _ ← st_tlv32 (OFF_TLV + 4) 0x11 2;
    _ ← st_tlv32 (OFF_TLV + 11) 0x12 (s_qmap_version g);
    _ ← st_tlv32 (OFF_TLV + 18) 0x13 (s_qmap_version g);
    _ ← st_tlv32 (OFF_TLV + 25) 0x15 (qs_rx_urb_size q / 512);
    _ ← st_tlv32 (OFF_TLV + 32) 0x16 (qs_rx_urb_size q);
    _ ← st_ep (OFF_TLV + 39) 0x17 (qs_ep_type q) (qs_iface_id q);
    if qs_ul_data_aggregation_max_datagrams q =? 0 then mret 54
    else
      _ ← st_tlv32 (OFF_TLV + 50) 0x19 (qs_dl_minimum_padding q);
      _ ← st_tlv32 (OFF_TLV + 57) 0x1B (qs_ul_data_aggregation_max_datagrams q);
      _ ← st_tlv32 (OFF_TLV + 64) 0x1C (qs_ul_data_aggregation_max_size q);
      mret 75.

Definition WdsCreateProfileSettingsReqSend (p : PROFILE_T) : builder :=
  _ ← st16 OFF_MUX_Length 8;
  _ ← st_hdr OFF_TLV 0x01 1; _ ← st8 (OFF_TLV + 3) 0;
  _ ← st_hdr (OFF_TLV + 4) 0x25 1; _ ← st8 (OFF_TLV + 7) (pdp p);
  mret 12.

Definition WdsGetProfileSettingsReqSend (p : PROFILE_T) : builder :=
  _ ← st16 OFF_MUX_Length 5;
  _ ← st_hdr OFF_TLV 0x01 2; _ ← st8 (OFF_TLV + 3) 0; _ ← st8 (OFF_TLV + 4) (pdp p);
  mret 9.

Definition WdsModifyProfileSettingsReq (p : PROFILE_T) : builder :=
  _ ← st16 OFF_MUX_Length 5;
  _ ← st_hdr OFF_TLV 0x01 2; _ ← st8 (OFF_TLV + 3) 0; _ ← st8 (OFF_TLV + 4) (pdp p);
  (* pTLV is behind the five bytes of the fixed TLV *)
  T ← put_u8 0x11 (iptype p) 5;
  T ← put_opt_str true 0x14 (apn p) T;
  T ← put_opt_str true 0x1B (user p) T;
  T ← put_opt_str true 0x1C (password p) T;
  T ← put_auth (user p) (password p) 0x1D (auth p) T;
  mret (u16 (4 + Z.of_nat T)).

(** The mask bits of [QMIWDS_GET_RUNTIME_SETTINGS_REQ]. *)
Definition runtime_settings_mask : Z :=
  Z.lor (u32 (Z.lor (Z.lor (Z.lor (Z.shiftl 1 4) (Z.shiftl 1 8)) (Z.shiftl 1 13)) (Z.shiftl 1 9)))
    (Z.lor (Z.shiftl 1 11) (Z.shiftl 1 14)).
Definition WdsGetRuntimeSettingReq : builder :=
  _ ← st_hdr OFF_TLV 0x10 4; _ ← st32 (OFF_TLV + 3) runtime_settings_mask; mret 11.

(** ** Builders of DMS, UIM and WDA requests *)

Definition DmsUIMVerifyPinReqSend (pin : cstr) : builder :=
  _ ← st8 OFF_TLV 0x01; _ ← st8 (OFF_TLV + 3) 0x01;
  _ ← st8 (OFF_TLV + 4) (Z.of_nat (length pin)); _ ← qstrcpy (OFF_TLV + 5) pin;
  _ ← st16 (OFF_TLV + 1) (2 + Z.of_nat (length pin));
  mret (u16 (10 + (Z.of_nat (length pin) - 1))).

Definition UimVerifyPinReqSend (pin : cstr) : builder :=
  _ ← st_hdr OFF_TLV 0x01 2; _ ← st8 (OFF_TLV + 3) 0; _ ← st8 (OFF_TLV + 4) 0;
  _ ← st_hdr (OFF_TLV + 5) 0x02 (2 + Z.of_nat (length pin));
  _ ← st8 (OFF_TLV + 8) 0x01; _ ← st8 (OFF_TLV + 9) (Z.of_nat (length pin));
  _ ← qstrcpy (OFF_TLV + 10) pin;
  mret (u16 (15 + (Z.of_nat (length pin) - 1))).

Definition DmsSetOperatingModeReq (OperatingMode : Z) : builder :=
  _ ← st_hdr OFF_TLV 0x01 1; _ ← st8 (OFF_TLV + 3) OperatingMode; mret 8.

Definition UimSetCardSlotReq (slot : Z) : builder :=
  _ ← st_hdr OFF_TLV 0x01 1; _ ← st8 (OFF_TLV + 3) slot; mret 8.

Definition WdaSetLoopBackReq : builder :=
  _ ← st_hdr OFF_TLV 0x01 1; _ ← st_hdr (OFF_TLV + 4) 0x10 4; mret 15.

(** ** [GetQMUXTransactionId] and [ComposeQMUXMsg] *)

Definition GetQMUXTransactionId : M statics Z := fun g =>
  let t := TransactionId g + 1 in
  let t := if 0xFFFF <? t then 1 else t in
  Ok (u16 t, g <| TransactionId := t |>).

Definition no_builder : option builder := None.

(** The buffer part of [ComposeQMUXMsg]; [malloc] is taken to succeed. *)
Definition compose_buf (QMIType Type_ tid : Z) (custom : option builder) : res (list Z) :=
  let body : M (list Z) (list Z) :=
    _ ← st8 OFF_IFType USB_CTL_MSG_TYPE_QMI;
    _ ← st8 OFF_CtlFlags 0x00;
    _ ← st8 OFF_QMIType QMIType;
    _ ← st8 OFF_MUX_CtlFlags 0x00;
    _ ← st16 OFF_MUX_TransactionId tid;
    _ ← st16 OFF_MUX_Type Type_;
    _ ← (match custom with
         | Some f => r ← f; st16 OFF_MUX_Length (r - Z.of_nat SIZEOF_QCQMUX_MSG_HDR)
         | None => st16 OFF_MUX_Length 0
         end);
    b ← M_get; l ← M_lift (rd16 b OFF_MUX_Length);
    _ ← st16 OFF_Length (l + 4 + 3 + 6 - 1);
    b ← M_get; len ← M_lift (qmi_len b);
    M_lift (rdn b 0 (Z.to_nat len)) in
  r ← body (zeros WDM_DEFAULT_BUFSIZE); mret r.1.

Definition ComposeQMUXMsg (QMIType Type_ : Z) (custom : option builder) : M statics (list Z) :=
  tid ← GetQMUXTransactionId; M_lift (compose_buf QMIType Type_ tid custom).

(** ** What a builder promises

    [Realises b ts k]: run on a zeroed body with [k] bytes to spare, [b] writes exactly
    the TLVs [ts] and returns the size of message header and TLVs.  It may write
    the message length field, which [ComposeQMUXMsg] overwrites. *)
Class Realises (b : builder) (ts : list tlv) : Prop :=
  realises : forall pre lo hi n,
    length pre = 11%nat -> (length (encode_tlvs ts) < n < 4096)%nat ->
    exists lo' hi',
      b (pre ++ lo :: hi :: zeros n)
      = Ok (4 + Z.of_nat (length (encode_tlvs ts)),
            pre ++ lo' :: hi' :: encode_tlvs ts ++ zeros (n - length (encode_tlvs ts))).

(** [Appends m ts k]: at the current end of the TLVs, [m] appends [ts] and returns
    the advanced [TLVLength] when [k] bytes remain behind them, and faults when
    they do not. *)
Class Appends (m : nat -> M (list Z) nat) (ts : list tlv) (k : nat) : Prop :=
  appends : forall pre T n,
    length pre = (OFF_TLV + T)%nat -> (n < 4096)%nat ->
    m T (pre ++ zeros n)
    = if (length (encode_tlvs ts) + k <=? n)%nat
      then Ok ((T + length (encode_tlvs ts))%nat,
               pre ++ encode_tlvs ts ++ zeros (n - length (encode_tlvs ts)))
      else Fault.

Definition opt_tlv (c : bool) (ty : Z) (s : option cstr) : list tlv :=
  match s with Some s => if c then [(ty, s)] else [] | None => [] end.
Definition auth_tlv (u pw : option cstr) (ty v : Z) : list tlv :=
  match u, pw with Some _, Some _ => [(ty, [u8 v])] | _, _ => [] end.
Definition opt_slack (c : bool) (s : option cstr) : nat :=
  match s with Some _ => if c then 1 else 0 | None => 0 end.

(** The TLVs of [WdsStartNwInterfaceReq] for the statics [g] and profile [p]. *)
Definition start_tlvs (g : statics) (p : PROFILE_T) : list tlv :=
  let '(u, pw, au) := start_credentials g p in
  [(0x30, [u8 (if s_is_cdma g =? 0 then 1 else 2)])]
  ++ opt_tlv (negb (truth (s_is_cdma g))) 0x14 (apn p)
  ++ opt_tlv true 0x17 u ++ opt_tlv true 0x18 pw
  ++ auth_tlv u pw 0x16 au
  ++ [(0x19, [u8 (curIpFamily p)])]
  ++ (if truth (pdp p) && negb (truth (s_is_cdma g)) then [(0x31, [u8 (pdp p)])] else []).

(** The TLVs of [WdsModifyProfileSettingsReq]. *)
Definition modify_tlvs (p : PROFILE_T) : list tlv :=
  [(0x01, [0; u8 (pdp p)])] ++ [(0x11, [u8 (iptype p)])]
  ++ opt_tlv true 0x14 (apn p) ++ opt_tlv true 0x1B (user p)
  ++ opt_tlv true 0x1C (password p) ++ auth_tlv (user p) (password p) 0x1D (auth p).

(** The TLVs of the data format requests. *)
Definition tlv8 (ty v : Z) : tlv := (ty, [u8 v]).
Definition tlv32 (ty v : Z) : tlv := (ty, enc32 v).
Definition data_format_tlvs (g : statics) (q : QMAP_SETTING) : list tlv :=
  if qs_rx_urb_size q =? 0 then [tlv8 0x10 0; tlv32 0x11 1; tlv32 0x13 0]
  else
    [tlv8 0x10 0; tlv32 0x11 2; tlv32 0x12 (s_qmap_version g); tlv32 0x13 (s_qmap_version g);
     tlv32 0x15 (qs_rx_urb_size q / 512); tlv32 0x16 (qs_rx_urb_size q);
     (0x17, enc32 (qs_ep_type q) ++ enc32 (qs_iface_id q))]
    ++ (if qs_ul_data_aggregation_max_datagrams q =? 0 then []
        else [tlv32 0x19 (qs_dl_minimum_padding q);
              tlv32 0x1B (qs_ul_data_aggregation_max_datagrams q);
              tlv32 0x1C (qs_ul_data_aggregation_max_size q)]).

(** ** Lemmas *)
Lemma wr_zeros_fault pre n bs :
  (n < length bs)%nat -> wr (length pre) bs (pre ++ zeros n) = Fault.
Proof.
  intros H. unfold wr. destruct (Nat.leb_spec (length pre + length bs) (length (pre ++ zeros n)));
    [len|done].
Qed.

Lemma st_zeros o pre n bs :
  o = length pre ->
  st o bs (pre ++ zeros n)
  = if (length bs <=? n)%nat then Ok (tt, (pre ++ bs) ++ zeros (n - length bs)) else Fault.
Proof.
  intros ->. unfold st. destruct (Nat.leb_spec (length bs) n).
  - rewrite wr_zeros by done. cbn. by rewrite app_assoc.
  - by rewrite wr_zeros_fault.
Qed.

Lemma encode_tlvs_one t : encode_tlvs [t] = encode_tlv t.
Proof. unfold encode_tlvs. cbn. by rewrite app_nil_r. Qed.

(** Run the stores of a builder one after the other against the zeroed tail. *)
Ltac st_step :=
  unfold st_tlv8, st_tlv32, st_ep, st_hdr, st8, st16, st32, qstrcpy, mbind, M_bind, mret, M_ret; cbv beta;
  repeat (rewrite st_zeros by (unfold OFF_TLV in *; len);
    match goal with
    | |- context [(?a <=? ?b)%nat] => destruct (Nat.leb_spec a b); [|try len]
    end; cbv beta iota).

#[export] Instance Appends_u8 ty v : byte_ok ty -> Appends (put_u8 ty v) [(ty, [u8 v])] 0.
Proof.
  intros Hty pre T n Hp _. unfold put_u8. rewrite encode_tlvs_one, length_encode_tlv.
  cbn [length snd]. destruct (Nat.leb_spec (1 + 3 + 0) n).
  - st_step; try len. apply f_equal, pair_equal_spec. split; [len|].
    unfold encode_tlv. cbn [length fst snd].
    rewrite (u8_id ty) by done. rewrite <- !app_assoc. cbn [app length Nat.sub].
    rewrite <- app_assoc. cbn [app Z.of_nat Pos.of_succ_nat].
    do 5 f_equal. len.
  - st_step; try done. exfalso. len.
Qed.

#[export] Instance Appends_str ty s : byte_ok ty -> Appends (put_str ty s) [(ty, s)] 1.
Proof.
  intros Hty pre T n Hp Hn. unfold put_str. rewrite encode_tlvs_one, length_encode_tlv.
  cbn [snd]. destruct (Nat.leb_spec (length s + 3 + 1) n).
  - st_step; try len. rewrite (u16_id (Z.of_nat (length s))) by lia. rewrite Nat2Z.id.
    apply f_equal, pair_equal_spec. split; [len|].
    unfold encode_tlv. cbn [fst snd]. rewrite (u8_id ty) by done.
    rewrite <- !app_assoc. cbn [app length Nat.sub]. rewrite <- app_assoc, length_app.
    cbn [length app].
    replace (n - (length s + 3))%nat with (S (n - 1 - 2 - (length s + 1))) by len. done.
  - st_step; try done. exfalso. len.
Qed.

#[export] Instance Appends_ret : Appends (fun T => mret T) [] 0.
Proof.
  intros pre T n _ _. cbn. by rewrite Nat.add_0_r, Nat.sub_0_r.
Qed.

(** Composition; a fault of the first part may be hidden behind a longer second. *)
Lemma Appends_bind_max m1 m2 ts1 ts2 k1 k2 :
  Appends m1 ts1 k1 -> Appends m2 ts2 k2 ->
  Appends (fun T => T ← m1 T; m2 T) (ts1 ++ ts2)
    (Nat.max k2 (k1 - length (encode_tlvs ts2))).
Proof.
  intros H1 H2 pre T n Hp Hn. unfold mbind, M_bind. rewrite (H1 pre T n) by done.
  rewrite encode_tlvs_app, length_app.
  destruct (Nat.leb_spec (length (encode_tlvs ts1) + k1) n).
  - rewrite app_assoc, H2 by len.
    destruct (Nat.leb_spec (length (encode_tlvs ts2) + k2) (n - length (encode_tlvs ts1))),
      (Nat.leb_spec (length (encode_tlvs ts1) + length (encode_tlvs ts2)
                     + Nat.max k2 (k1 - length (encode_tlvs ts2))) n); try lia; [|done].
    apply f_equal, pair_equal_spec. split; [lia|].
    rewrite <- !app_assoc, <- Nat.sub_add_distr. done.
  - destruct (Nat.leb_spec (length (encode_tlvs ts1) + length (encode_tlvs ts2)
                     + Nat.max k2 (k1 - length (encode_tlvs ts2))) n); [lia|done].
Qed.
Lemma Appends_bind m1 m2 ts1 ts2 k1 k2 :
  Appends m1 ts1 k1 -> Appends m2 ts2 k2 -> (k1 <= length (encode_tlvs ts2) + k2)%nat ->
  Appends (fun T => T ← m1 T; m2 T) (ts1 ++ ts2) k2.
Proof.
  intros H1 H2 Hk. replace k2 with (Nat.max k2 (k1 - length (encode_tlvs ts2))) by lia.
  by apply Appends_bind_max.
Qed.

#[export] Instance Appends_opt_str c ty s :
  byte_ok ty -> Appends (put_opt_str c ty s) (opt_tlv c ty s) (opt_slack c s).
Proof.
  intros Hty. destruct s as [s|]; [destruct c|]; cbn [put_opt_str opt_tlv opt_slack].
  - by apply Appends_str.
  - apply Appends_ret.
  - apply Appends_ret.
Qed.

Lemma st_at o pre old post bs :
  o = length pre -> length bs = length old ->
  st o bs (pre ++ old ++ post) = Ok (tt, pre ++ bs ++ post).
Proof. intros -> H. unfold st. by rewrite wr_app. Qed.
Lemma st_fault o bs b : (length b < o + length bs)%nat -> st o bs b = Fault.
Proof.
  intros H. unfold st, wr. by destruct (Nat.leb_spec (o + length bs) (length b)); [lia|].
Qed.

#[local] Instance Appends_pdp g p :
  Appends (put_pdp g p)
    (if truth (pdp p) && negb (truth (s_is_cdma g)) then [(0x31, [u8 (pdp p)])] else []) 0.
Proof.
  unfold put_pdp. destruct (truth (pdp p)); [|apply Appends_ret].
  destruct (truth (s_is_cdma g)); cbn [andb negb]; [apply Appends_ret|].
  intros pre T n Hp _. rewrite encode_tlvs_one, length_encode_tlv.
  unfold M_when, st16, st8, mbind, M_bind, mret, M_ret. cbn [length snd].
  destruct n as [|[|[|[|n]]]];
    [ by rewrite st_fault by (unfold OFF_TLV in *; len) .. | | ].
  - change (zeros 3) with ([0] ++ [0;0] ++ []). rewrite app_assoc.
    rewrite (st_at _ (pre ++ [0]) [0;0] [] (enc16 1)) by (unfold OFF_TLV in *; len).
    cbv beta iota. rewrite <- app_assoc.
    rewrite (st_at _ pre [0] _ [u8 0x31]) by (unfold OFF_TLV in *; len). cbv beta iota.
    by rewrite st_fault by (unfold OFF_TLV in *; len).
  - change (zeros (S (S (S (S n))))) with ([0] ++ [0;0] ++ [0] ++ zeros n). rewrite app_assoc.
    rewrite (st_at _ (pre ++ [0]) [0;0] _ (enc16 1)) by (unfold OFF_TLV in *; len).
    cbv beta iota. rewrite <- app_assoc.
    rewrite (st_at _ pre [0] _ [u8 0x31]) by (unfold OFF_TLV in *; len). cbv beta iota.
    rewrite !app_assoc.
    rewrite <- (app_assoc _ [0]), (st_at _ _ [0] _ [u8 (pdp p)]) by (unfold OFF_TLV in *; len).
    cbv beta iota. cbn [Nat.leb Nat.add Nat.sub]. rewrite Nat.sub_0_r, <- !app_assoc. done.
Qed.

Lemma Appends_auth u pw ty v : byte_ok ty -> Appends (put_auth u pw ty v) (auth_tlv u pw ty v) 0.
Proof.
  intros Hty. destruct u; [destruct pw|]; cbn [put_auth auth_tlv];
    by (apply Appends_u8 || apply Appends_ret).
Qed.

Lemma opt_slack_le c s : (opt_slack c s <= 1)%nat.
Proof. destruct s; [destruct c|]; cbn; lia. Qed.

Lemma Appends_bind_opt c ty s m ts :
  byte_ok ty -> Appends m ts 0 -> (1 <= length (encode_tlvs ts))%nat ->
  Appends (fun T => T ← put_opt_str c ty s T; m T) (opt_tlv c ty s ++ ts) 0.
Proof.
  intros Hty Hm Hl. refine (Appends_bind _ _ _ _ _ _ (Appends_opt_str c ty s Hty) Hm _).
  pose proof (opt_slack_le c s). lia.
Qed.

Ltac byte_const := unfold byte_ok; lia.

(** Equality of two chains of the same stores, up to the nesting of the binds. *)
Ltac chain_eq :=
  unfold st_hdr, mbind, M_bind, mret, M_ret, OFF_TLV; cbv beta; cbn [Nat.add];
  repeat match goal with
  | |- context [match ?m with Ok _ => _ | Fault => _ | OutOfFuel => _ end] =>
      lazymatch m with
      | context [match _ with Ok _ => _ | Fault => _ | OutOfFuel => _ end] => fail
      | _ => destruct m as [[? ?]| |]; [|done|done]
      end
  end.

Lemma start_chain g p :
  exists m, (forall b, WdsStartNwInterfaceReq g p b
              = (_ ← st16 OFF_MUX_Length 0; T ← m 0%nat; mret (u16 (4 + Z.of_nat T))) b)
            /\ Appends m (start_tlvs g p) 0.
Proof.
  unfold WdsStartNwInterfaceReq, start_tlvs. destruct (start_credentials g p) as [[u pw] au].
  exists (fun T => T ← put_u8 0x30 (if s_is_cdma g =? 0 then 0x01 else 0x02) T;
    T ← put_opt_str (negb (truth (s_is_cdma g))) 0x14 (apn p) T;
    T ← put_opt_str true 0x17 u T; T ← put_opt_str true 0x18 pw T;
    T ← put_auth u pw 0x16 au T;
    T ← put_u8 0x19 (curIpFamily p) T; put_pdp g p T).
  split; [by intros b; chain_eq|].
  - refine (Appends_bind _ _ _ _ _ _ (Appends_u8 _ _ _) _ _); [byte_const| |lia].
    apply Appends_bind_opt; [byte_const| |].
    apply Appends_bind_opt; [byte_const| |].
    apply Appends_bind_opt; [byte_const| |].
    refine (Appends_bind _ _ _ _ _ _ (Appends_auth _ _ _ _ _) _ _); [byte_const| |lia].
    refine (Appends_bind _ _ _ _ _ _ (Appends_u8 _ _ _) (Appends_pdp _ _) _); [byte_const|lia].
    all: rewrite !encode_tlvs_app, !length_app, !encode_tlvs_one; len.
Qed.

(** The fixed profile-identifier TLV of [WdsModifyProfileSettingsReq]. *)
Lemma Appends_profile_id v :
  Appends (fun T => _ ← st_hdr (OFF_TLV + T) 0x01 2; _ ← st8 (OFF_TLV + T + 3) 0;
                    _ ← st8 (OFF_TLV + T + 4) v; mret (T + 5)%nat) [(0x01, [0; u8 v])] 0.
Proof.
  intros pre T n Hp _. rewrite encode_tlvs_one, length_encode_tlv.
  cbn [length snd]. destruct (Nat.leb_spec (2 + 3 + 0) n).
  - st_step; try len. apply f_equal, pair_equal_spec. split; [len|].
    unfold encode_tlv. cbn [length fst snd]. rewrite <- !app_assoc. cbn [app length Nat.sub].
    rewrite <- !app_assoc. cbn [app Z.of_nat Pos.of_succ_nat]. do 6 f_equal. len.
  - st_step; try done. exfalso. len.
Qed.

Lemma modify_chain p :
  exists m k, (forall b, WdsModifyProfileSettingsReq p b
              = (_ ← st16 OFF_MUX_Length 5; T ← m 0%nat; mret (u16 (4 + Z.of_nat T))) b)
            /\ (k <= 1)%nat /\ Appends m (modify_tlvs p) k.
Proof.
  eexists (fun T => T ← (_ ← st_hdr (OFF_TLV + T) 0x01 2; _ ← st8 (OFF_TLV + T + 3) 0;
                        _ ← st8 (OFF_TLV + T + 4) (pdp p); mret (T + 5)%nat);
    T ← put_u8 0x11 (iptype p) T;
    T ← put_opt_str true 0x14 (apn p) T;
    T ← put_opt_str true 0x1B (user p) T; T ← put_opt_str true 0x1C (password p) T;
    put_auth (user p) (password p) 0x1D (auth p) T), _.
  split; [by intros b; unfold WdsModifyProfileSettingsReq; chain_eq|].
  split; cycle 1.
  - refine (Appends_bind_max _ _ _ _ _ _ (Appends_profile_id _) _).
    refine (Appends_bind_max _ _ _ _ _ _ (Appends_u8 _ _ _) _); [byte_const|].
    do 3 (refine (Appends_bind_max _ _ _ _ _ _ (Appends_opt_str _ _ _ _) _); [byte_const|]).
    apply Appends_auth; byte_const.
  - pose proof (opt_slack_le true (apn p)). pose proof (opt_slack_le true (user p)).
    pose proof (opt_slack_le true (password p)). lia.
Qed.

(** A builder of fixed size runs by evaluation. *)
Ltac realises_fixed :=
  let pre := fresh "pre" in let Hp := fresh "Hp" in let Hn := fresh "Hn" in
  let m := fresh "m" in let E := fresh "E" in
  intros pre lo hi n Hp Hn;
  match type of Hn with (?k < _ < _)%nat =>
    let k' := eval vm_compute in k in
    change k with k' in Hn |- *;
    destruct (Nat.le_exists_sub k' n) as [m [E _]]; [lia|];
    rewrite Nat.add_comm in E; subst n; replace (k' + m - k')%nat with m by lia
  end;
  do 11 (destruct pre as [|? pre]; [discriminate Hp|]);
  destruct pre; [|discriminate Hp].

#[export] Instance Realises_stop g family :
  Realises (WdsStopNwInterfaceReq g family)
    [tlv32 0x01 (if family =? IpFamilyV4 then WdsConnectionIPv4Handle g
                 else WdsConnectionIPv6Handle g)].
Proof. realises_fixed; by do 2 eexists. Qed.
#[export] Instance Realises_ip_family v : Realises (WdsSetClientIPFamilyPref v) [tlv8 0x01 v].
Proof. realises_fixed; by do 2 eexists. Qed.
#[export] Instance Realises_auto_connect v : Realises (WdsSetAutoConnect v) [tlv8 0x01 v].
Proof. realises_fixed; by do 2 eexists. Qed.
#[export] Instance Realises_operating_mode v : Realises (DmsSetOperatingModeReq v) [tlv8 0x01 v].
Proof. realises_fixed; by do 2 eexists. Qed.
#[export] Instance Realises_card_slot v : Realises (UimSetCardSlotReq v) [tlv8 0x01 v].
Proof. realises_fixed; by do 2 eexists. Qed.
#[export] Instance Realises_runtime :
  Realises WdsGetRuntimeSettingReq [tlv32 0x10 runtime_settings_mask].
Proof. realises_fixed; by do 2 eexists. Qed.
#[export] Instance Realises_loopback : Realises WdaSetLoopBackReq [tlv8 0x01 0; tlv32 0x10 0].
Proof. realises_fixed; by do 2 eexists. Qed.
#[export] Instance Realises_create p :
  Realises (WdsCreateProfileSettingsReqSend p) [tlv8 0x01 0; tlv8 0x25 (pdp p)].
Proof. realises_fixed; by do 2 eexists. Qed.
#[export] Instance Realises_get_profile p :
  Realises (WdsGetProfileSettingsReqSend p) [(0x01, [0; u8 (pdp p)])].
Proof. realises_fixed; by do 2 eexists. Qed.
#[export] Instance Realises_bind_mux q :
  Realises (WdsSetQMUXBindMuxDataPort q)
    [(0x10, enc32 (qs_ep_type q) ++ enc32 (qs_iface_id q)); tlv8 0x11 (qs_MuxId q); tlv32 0x13 1].
Proof. realises_fixed; by do 2 eexists. Qed.

(** Equality of two byte lists that end in the zeroed tail. *)
Ltac tail_eq :=
  match goal with |- _ ++ zeros ?a = _ ++ zeros ?b => replace a with b by len end;
  repeat first [rewrite <- app_assoc | progress cbn [app enc16 enc32]]; reflexivity.

(** Whole TLVs stored at the end of the buffer. *)
Lemma st_tlv8_zeros o ty v pre n :
  o = length pre -> byte_ok ty -> (4 <= n)%nat ->
  st_tlv8 o ty v (pre ++ zeros n)
  = Ok (tt, (pre ++ encode_tlv (tlv8 ty v)) ++ zeros (n - 4)).
Proof.
  intros -> Hty Hn. st_step; try len. rewrite (u8_id ty) by done.
  unfold encode_tlv, tlv8. cbn [fst snd length Z.of_nat Pos.of_succ_nat].
  apply f_equal, pair_equal_spec. split; [done|tail_eq].
Qed.
Lemma st_tlv32_zeros o ty v pre n :
  o = length pre -> byte_ok ty -> (7 <= n)%nat ->
  st_tlv32 o ty v (pre ++ zeros n)
  = Ok (tt, (pre ++ encode_tlv (tlv32 ty v)) ++ zeros (n - 7)).
Proof.
  intros -> Hty Hn. st_step; try len. rewrite (u8_id ty) by done.
  unfold encode_tlv, tlv32. cbn [fst snd length enc32 Z.of_nat Pos.of_succ_nat].
  apply f_equal, pair_equal_spec. split; [done|tail_eq].
Qed.
Lemma st_ep_zeros o ty v w pre n :
  o = length pre -> byte_ok ty -> (11 <= n)%nat ->
  st_ep o ty v w (pre ++ zeros n)
  = Ok (tt, (pre ++ encode_tlv (ty, enc32 v ++ enc32 w)) ++ zeros (n - 11)).
Proof.
  intros -> Hty Hn. st_step; try len. rewrite (u8_id ty) by done.
  unfold encode_tlv. cbn [fst snd length app enc32 Z.of_nat Pos.of_succ_nat].
  apply f_equal, pair_equal_spec. split; [done|tail_eq].
Qed.

Ltac tlv_step :=
  first [rewrite st_tlv8_zeros | rewrite st_tlv32_zeros | rewrite st_ep_zeros];
  [cbv beta iota | unfold OFF_TLV, tlv8, tlv32 in *; len | byte_const | len].

#[export] Instance Realises_data_format g q :
  Realises (WdaSetDataFormat g q) (data_format_tlvs g q).
Proof.
  intros pre lo hi n Hp Hn. exists lo, hi.
  replace (pre ++ lo :: hi :: zeros n) with ((pre ++ [lo; hi]) ++ zeros n)
    by (by rewrite <- app_assoc).
  unfold WdaSetDataFormat, data_format_tlvs in *.
  destruct (qs_rx_urb_size q =? 0); [|destruct (qs_ul_data_aggregation_max_datagrams q =? 0)];
    match type of Hn with (?k < _ < _)%nat =>
      let k' := eval vm_compute in k in change k with k' in Hn |- * end;
    unfold mbind, M_bind; repeat tlv_step; unfold mret, M_ret; apply f_equal, pair_equal_spec; (split; [done|]);
    match goal with |- _ ++ zeros ?a = _ ++ _ :: _ :: _ ++ zeros ?b =>
      replace a with b by lia end;
    repeat first [rewrite <- app_assoc | progress cbn [app]]; reflexivity.
Qed.

(** PIN TLVs: the NUL that [qstrcpy] adds lands in the zeroed tail. *)
#[export] Instance Realises_uim_pin pin :
  Realises (UimVerifyPinReqSend pin)
    [(0x01, [0; 0]); (0x02, [1; u8 (Z.of_nat (length pin))] ++ pin)].
Proof.
  intros pre lo hi n Hp Hn. exists lo, hi.
  replace (pre ++ lo :: hi :: zeros n) with ((pre ++ [lo; hi]) ++ zeros n)
    by (by rewrite <- app_assoc).
  rewrite !encode_tlvs_cons, !length_app, !length_encode_tlv in *. cbn [snd] in *.
  unfold UimVerifyPinReqSend. st_step; try len.
  apply f_equal, pair_equal_spec. split; [rewrite u16_id; len|].
  rewrite app_nil_r. unfold encode_tlv. cbn [fst snd]. rewrite !length_app.
  replace (Z.of_nat (length [1; u8 (Z.of_nat (length pin))] + length pin))
    with (2 + Z.of_nat (length pin)) by len.
  repeat first [rewrite <- app_assoc | progress cbn [app enc16]].
  match goal with |- context [0 :: zeros ?a] => change (0 :: zeros a) with (zeros (S a)) end.
  repeat f_equal. len.
Qed.

#[export] Instance Realises_dms_pin pin :
  Realises (DmsUIMVerifyPinReqSend pin) [(0x01, [1; u8 (Z.of_nat (length pin))] ++ pin)].
Proof.
  intros pre lo hi n Hp Hn. exists lo, hi.
  rewrite encode_tlvs_one, length_encode_tlv in *. cbn [snd] in *.
  rewrite length_app in *. cbn [length] in *.
  do 5 (destruct n as [|n]; [lia|]).
  change (zeros (S (S (S (S (S n)))))) with ([0] ++ [0; 0] ++ [0] ++ [0] ++ zeros n).
  replace (pre ++ lo :: hi :: [0] ++ [0; 0] ++ [0] ++ [0] ++ zeros n)
    with ((pre ++ [lo; hi]) ++ [0] ++ [0; 0] ++ [0] ++ [0] ++ zeros n) by (by rewrite <- app_assoc).
  unfold DmsUIMVerifyPinReqSend, st8, st16, qstrcpy, mbind, M_bind.
  rewrite (st_at _ (pre ++ [lo; hi]) [0]) by (unfold OFF_TLV; len). cbv beta iota.
  replace ((pre ++ [lo; hi]) ++ [u8 1] ++ [0; 0] ++ [0] ++ [0] ++ zeros n)
    with ((pre ++ [lo; hi; u8 1; 0; 0]) ++ [0] ++ [0] ++ zeros n) by (by rewrite <- !app_assoc).
  rewrite (st_at _ (pre ++ [lo; hi; u8 1; 0; 0]) [0]) by (unfold OFF_TLV; len). cbv beta iota.
  rewrite app_assoc. rewrite (st_at _ _ [0]) by (unfold OFF_TLV; len). cbv beta iota.
  rewrite app_assoc, st_zeros by (unfold OFF_TLV; len).
  destruct (Nat.leb_spec (length (pin ++ [0])) n); [|len].
  cbv beta iota.
  match goal with |- context [st (OFF_TLV + 1) _ ?b] =>
    replace b with ((pre ++ [lo; hi; u8 1]) ++ [0; 0]
      ++ ([u8 1] ++ [u8 (Z.of_nat (length pin))] ++ pin ++ zeros (S (n - S (length pin)))))
  end.
  2: { rewrite length_app. cbn [length].
       replace (n - (length pin + 1))%nat with (n - S (length pin))%nat by lia.
       repeat first [rewrite <- app_assoc | progress cbn [app]]. reflexivity. }
  rewrite st_at by (unfold OFF_TLV; len). unfold mret, M_ret.
  apply f_equal, pair_equal_spec. split; [rewrite u16_id; len|].
  unfold encode_tlv. cbn [fst snd]. rewrite length_app. cbn [length].
  replace (Z.of_nat (2 + length pin)) with (2 + Z.of_nat (length pin)) by lia.
  replace (S (S (S (S (S n)))) - (2 + length pin + 3))%nat with (S (n - S (length pin)))
    by len.
  repeat first [rewrite <- app_assoc | progress cbn [app enc16]]. reflexivity.
Qed.

(** A chain of appending stores behind the store of the message length. *)
Lemma run_chain f v m ts k pre lo hi n :
  (forall b, f b = (_ ← st16 OFF_MUX_Length v; T ← m 0%nat; mret (u16 (4 + Z.of_nat T))) b) ->
  Appends m ts k -> length pre = 11%nat -> (n < 4096)%nat ->
  f (pre ++ lo :: hi :: zeros n)
  = if (length (encode_tlvs ts) + k <=? n)%nat
    then Ok (4 + Z.of_nat (length (encode_tlvs ts)),
             pre ++ enc16 v ++ encode_tlvs ts ++ zeros (n - length (encode_tlvs ts)))
    else Fault.
Proof.
  intros Hf Hm Hp Hn. rewrite Hf. unfold st16, mbind, M_bind.
  change (lo :: hi :: zeros n) with ([lo; hi] ++ zeros n).
  rewrite st_at by (autounfold with off; len). rewrite app_assoc, Hm by (unfold OFF_TLV; len).
  destruct (Nat.leb_spec (length (encode_tlvs ts) + k) n); [|done].
  unfold mret, M_ret. apply f_equal, pair_equal_spec.
  split; [rewrite u16_id; lia | by rewrite <- !app_assoc].
Qed.

Lemma Realises_chain f v m ts k :
  (forall b, f b = (_ ← st16 OFF_MUX_Length v; T ← m 0%nat; mret (u16 (4 + Z.of_nat T))) b) ->
  Appends m ts k -> (k <= 1)%nat -> Realises f ts.
Proof.
  intros Hf Hm Hk pre lo hi n Hp Hn. rewrite (run_chain f v m ts k) by (done || lia).
  destruct (Nat.leb_spec (length (encode_tlvs ts) + k) n); [|lia]. by do 2 eexists.
Qed.

#[export] Instance Realises_start g p : Realises (WdsStartNwInterfaceReq g p) (start_tlvs g p).
Proof. destruct (start_chain g p) as (m & Hf & Hm). eapply Realises_chain; eauto. Qed.
#[export] Instance Realises_modify p : Realises (WdsModifyProfileSettingsReq p) (modify_tlvs p).
Proof. destruct (modify_chain p) as (m & k & Hf & Hk & Hm). eapply Realises_chain; eauto. Qed.
