(* ===== verification/QmiComposeSpec.v ===== *)
(** Correctness of [ComposeQMUXMsg]: a builder that realises a list of TLVs makes
    it return the QMUX message of those TLVs, with consistent lengths, and the
    response-side lookup [GetTLV] finds every one of them again. *)
From S2P Require Import Prelude QmiTlv CmTypes QmiCompose.
#[local] Open Scope Z_scope.

(** The nine bytes in front of the message header of a request. *)
Definition req_hdr (QMIType tid : Z) (len : nat) : list Z :=
  [USB_CTL_MSG_TYPE_QMI] ++ enc16 (12 + Z.of_nat len) ++ [0; u8 QMIType; 0; 0] ++ enc16 tid.
Definition request_msg (QMIType Type_ tid : Z) (ts : list tlv) : list Z :=
  mux_msg (req_hdr QMIType tid (length (encode_tlvs ts))) Type_ ts.

(** The transaction id after [n] further calls of [GetQMUXTransactionId]. *)
Fixpoint tids (n : nat) (g : statics) : list Z :=
  match n with
  | O => []
  | S n => match GetQMUXTransactionId g with
           | Ok (t, g') => t :: tids n g'
           | _ => []
           end
  end.

Lemma length_req_hdr qt tid len : length (req_hdr qt tid len) = 9%nat.
Proof. done. Qed.
#[export] Hint Rewrite length_req_hdr : len.

Lemma length_request_msg qt ty tid ts :
  length (request_msg qt ty tid ts) = (13 + length (encode_tlvs ts))%nat.
Proof. unfold request_msg, mux_msg. len. Qed.

(** The stores in front of the call of the builder. *)
Definition compose_prefix (QMIType Type_ tid : Z) : list Z :=
  [USB_CTL_MSG_TYPE_QMI; 0; 0; 0; u8 QMIType; 0; 0] ++ enc16 tid ++ enc16 Type_.

Lemma compose_open qt ty tid {A} (k : M (list Z) A) :
  (_ ← st8 OFF_IFType USB_CTL_MSG_TYPE_QMI; _ ← st8 OFF_CtlFlags 0x00;
   _ ← st8 OFF_QMIType qt; _ ← st8 OFF_MUX_CtlFlags 0x00;
   _ ← st16 OFF_MUX_TransactionId tid; _ ← st16 OFF_MUX_Type ty; k) (zeros WDM_DEFAULT_BUFSIZE)
  = k (compose_prefix qt ty tid ++ 0 :: 0 :: zeros 243).
Proof. reflexivity. Qed.

(** The stores and the copy behind the builder. *)
Definition compose_close : M (list Z) (list Z) :=
  b ← M_get; l ← M_lift (rd16 b OFF_MUX_Length);
  _ ← st16 OFF_Length (l + 4 + 3 + 6 - 1);
  b ← M_get; len ← M_lift (qmi_len b); M_lift (rdn b 0 (Z.to_nat len)).

Lemma compose_close_ok qt ty tid ts rest :
  (length (encode_tlvs ts) < 4096)%nat ->
  exists b', compose_close (compose_prefix qt ty tid
      ++ enc16 (Z.of_nat (length (encode_tlvs ts))) ++ encode_tlvs ts ++ rest)
    = Ok (request_msg qt ty tid ts, b').
Proof.
  intros Hl. set (L := length (encode_tlvs ts)) in *. eexists.
  unfold compose_close, mbind at 1, M_bind at 1, M_get at 1. cbv beta iota.
  unfold mbind at 1, M_bind at 1, M_lift at 1.
  replace OFF_MUX_Length with (length (compose_prefix qt ty tid) + 0)%nat by done.
  rewrite rd16_app_r, rd16_enc16, u16_id by lia. cbv beta iota.
  unfold mbind at 1, M_bind at 1, st16, compose_prefix.
  change ([USB_CTL_MSG_TYPE_QMI; 0; 0; 0; u8 qt; 0; 0] ++ enc16 tid ++ enc16 ty)
    with ([USB_CTL_MSG_TYPE_QMI] ++ [0; 0] ++ [0; u8 qt; 0; 0] ++ enc16 tid ++ enc16 ty).
  rewrite <- !app_assoc, (st_at _ [USB_CTL_MSG_TYPE_QMI] [0; 0]) by done. cbv beta iota.
  unfold mbind at 1, M_bind at 1, M_get at 1. cbv beta iota.
  unfold mbind at 1, M_bind at 1, M_lift at 1, qmi_len.
  replace OFF_Length with (length [USB_CTL_MSG_TYPE_QMI] + 0)%nat by done.
  rewrite rd16_app_r, rd16_enc16, u16_id by lia. unfold mbind, res_bind, mret, res_ret.
  set (m := request_msg qt ty tid ts).
  replace ([USB_CTL_MSG_TYPE_QMI] ++ enc16 (Z.of_nat L + 4 + 3 + 6 - 1) ++ [0; u8 qt; 0; 0]
      ++ enc16 tid ++ enc16 ty ++ enc16 (Z.of_nat L) ++ encode_tlvs ts ++ rest)
    with ([] ++ m ++ rest).
  2: { unfold m, request_msg, mux_msg, req_hdr. rewrite <- !app_assoc.
       replace (12 + Z.of_nat (length (encode_tlvs ts))) with (Z.of_nat L + 4 + 3 + 6 - 1)
         by (subst L; lia). done. }
  unfold M_lift.
  replace (Z.to_nat _) with (length m) by (unfold m; rewrite length_request_msg; subst L; lia).
  pose proof (rdn_app [] m rest) as R. change (length []) with 0%nat in R. by rewrite R.
Qed.

(** Main lemma: [compose_buf] against the promise of the builder. *)
Lemma compose_buf_realises qt ty tid f ts :
  Realises f ts -> (length (encode_tlvs ts) < 243)%nat ->
  compose_buf qt ty tid (Some f) = Ok (request_msg qt ty tid ts).
Proof.
  intros Hf Hl. unfold compose_buf. rewrite compose_open.
  destruct (realises (compose_prefix qt ty tid) 0 0 243 eq_refl ltac:(lia)) as (lo & hi & E).
  set (rest := zeros (243 - length (encode_tlvs ts))) in *.
  unfold mbind at 2, M_bind at 1. unfold mbind at 2, M_bind at 1. rewrite E. cbv beta iota.
  unfold st16 at 1.
  change (lo :: hi :: encode_tlvs ts ++ rest) with ([lo; hi] ++ encode_tlvs ts ++ rest).
  rewrite st_at by done. cbv beta iota.
  replace (4 + Z.of_nat (length (encode_tlvs ts)) - Z.of_nat SIZEOF_QCQMUX_MSG_HDR)
    with (Z.of_nat (length (encode_tlvs ts))) by (autounfold with off; lia).
  destruct (compose_close_ok qt ty tid ts rest ltac:(lia)) as [b' E'].
  fold compose_close. rewrite E'. done.
Qed.

(** The same with no builder. *)
Lemma compose_buf_none qt ty tid : compose_buf qt ty tid None = Ok (request_msg qt ty tid []).
Proof.
  unfold compose_buf. rewrite compose_open. unfold mbind at 2, M_bind at 1. unfold st16 at 1.
  change (0 :: 0 :: zeros 243) with ([0; 0] ++ zeros 243). rewrite st_at by done. cbv beta iota.
  destruct (compose_close_ok qt ty tid [] (zeros 243) ltac:(simpl; lia)) as [b' E'].
  change (encode_tlvs [] ++ zeros 243) with (zeros 243) in E'.
  fold compose_close. change (enc16 (Z.of_nat (length (encode_tlvs [])))) with (enc16 0) in E'.
  by rewrite E'.
Qed.

Lemma GetQMUXTransactionId_next g :
  0 <= TransactionId g <= 65535 ->
  GetQMUXTransactionId g
  = Ok (1 + TransactionId g mod 65535, g <| TransactionId := 1 + TransactionId g mod 65535 |>).
Proof.
  intros H. unfold GetQMUXTransactionId.
  destruct (Z.ltb_spec 0xFFFF (TransactionId g + 1)).
  - replace (TransactionId g) with 65535 by lia. done.
  - rewrite Z.mod_small, u16_id, Z.add_comm by lia. done.
Qed.

Lemma tids_lookup n : forall g i t,
  0 <= TransactionId g <= 65535 -> tids n g !! i = Some t ->
  t = 1 + (TransactionId g + Z.of_nat i) mod 65535.
Proof.
  induction n as [|n IH]; intros g i t Hg; [done|]. cbn [tids].
  rewrite GetQMUXTransactionId_next by done.
  pose proof (Z.mod_pos_bound (TransactionId g) 65535).
  assert (Hs : forall v, TransactionId (g <| TransactionId := v |>) = v) by done.
  destruct i as [|i].
  - intros [= <-]. by rewrite Z.add_0_r.
  - cbn [lookup list_lookup]. intros Hi. apply IH in Hi.
    + rewrite Hi, Hs.
      replace (1 + TransactionId g mod 65535 + Z.of_nat i)
        with (TransactionId g mod 65535 + (1 + Z.of_nat i)) by lia.
      rewrite Zplus_mod_idemp_l. do 2 f_equal. lia.
    + rewrite Hs. lia.
Qed.

(** Lookup of a TLV whose type occurs once. *)
Lemma find_tlv_in ts ty v :
  NoDup (fst <$> ts) -> (ty, v) ∈ ts ->
  exists pre post, ts = pre ++ (ty, v) :: post /\ find_tlv ty ts = Some (length (encode_tlvs pre)).
Proof.
  intros Hnd Hin. destruct (find_tlv ty ts) as [o|] eqn:E.
  - destruct (find_tlv_split _ _ _ E) as (pre & t & post & -> & Ht & -> & Hpre).
    exists pre, post. split; [|done]. f_equal. f_equal.
    rewrite fmap_app, NoDup_app, fmap_cons, NoDup_cons in Hnd.
    destruct Hnd as (_ & Hd & Hn & _).
    apply elem_of_app in Hin as [Hin|Hin].
    + rewrite Forall_forall in Hpre. by destruct (Hpre _ Hin).
    + apply elem_of_cons in Hin as [->|Hin]; [done|]. destruct Hn. rewrite Ht.
      apply list_elem_of_fmap. by exists (ty, v).
  - apply find_tlv_None in E. rewrite Forall_forall in E. by destruct (E _ Hin).
Qed.

Lemma start_tlvs_NoDup g p : NoDup (fst <$> start_tlvs g p).
Proof.
  unfold start_tlvs, auth_tlv, opt_tlv. destruct (start_credentials g p) as [[u pw] au].
  destruct (truth (s_is_cdma g)), (apn p), u, pw, (truth (pdp p));
    refine (bool_decide_eq_true_1 _ _); vm_compute; reflexivity.
Qed.

Lemma start_tlvs_types g p t v : (t, v) ∈ start_tlvs g p -> t <= 0x1000.
Proof.
  unfold start_tlvs, auth_tlv, opt_tlv. destruct (start_credentials g p) as [[u pw] au].
  destruct (truth (s_is_cdma g)), (apn p), u, pw, (truth (pdp p)); cbn;
    rewrite ?elem_of_cons; intros H; destruct_or? H; simplify_eq; try lia; set_solver.
Qed.

Lemma GetTLV_found qt ty tid ts t v :
  NoDup (fst <$> ts) -> Z.of_nat (length (encode_tlvs ts)) < 65536 -> t <= 0x1000 -> (t, v) ∈ ts ->
  exists o, GetTLV (request_msg qt ty tid ts) OFF_QMUXMsgHdr t = Ok (Some o)
    /\ rd16 (request_msg qt ty tid ts) (o + 1) = Ok (Z.of_nat (length v))
    /\ rdn (request_msg qt ty tid ts) (o + 3) (length v) = Ok v.
Proof.
  intros Hnd Hl Ht Hin. destruct (find_tlv_in ts t v Hnd Hin) as (pre & post & Hts & E).
  exists (13 + length (encode_tlvs pre))%nat. unfold request_msg.
  rewrite GetTLV_mux by (done || lia). rewrite E. split; [done|].
  rewrite Hts in *. rewrite mux_msg_split, encode_tlvs_app, encode_tlvs_cons, app_assoc.
  rewrite encode_tlvs_app, encode_tlvs_cons in Hl.
  match goal with |- context [rd16 (?a ++ _) _] => set (p := a) end.
  replace (13 + length (encode_tlvs pre))%nat with (length p) by (subst p; len).
  split; [apply rd_tlv_len | apply rd_tlv_value]. cbn [snd]. len.
Qed.

(** The buffer of [ComposeQMUXMsg] filled to the last byte, or past it. *)
Lemma compose_start_exact g p tid :
  compose_buf QMUX_TYPE_WDS 0x20 tid (Some (WdsStartNwInterfaceReq g p))
  = if (length (encode_tlvs (start_tlvs g p)) <=? 243)%nat
    then Ok (request_msg QMUX_TYPE_WDS 0x20 tid (start_tlvs g p)) else Fault.
Proof.
  destruct (start_chain g p) as (m & Hf & Hm).
  pose proof (run_chain _ _ _ _ _ (compose_prefix QMUX_TYPE_WDS 0x20 tid) 0 0 243 Hf Hm eq_refl
                ltac:(lia)) as E.
  rewrite Nat.add_0_r in E. unfold compose_buf. rewrite compose_open.
  unfold mbind at 2, M_bind at 1. unfold mbind at 2, M_bind at 1. rewrite E.
  destruct (Nat.leb_spec (length (encode_tlvs (start_tlvs g p))) 243); [|done].
  cbv beta iota. unfold st16 at 1. rewrite st_at by done. cbv beta iota.
  replace (4 + Z.of_nat (length (encode_tlvs (start_tlvs g p))) - Z.of_nat SIZEOF_QCQMUX_MSG_HDR)
    with (Z.of_nat (length (encode_tlvs (start_tlvs g p)))) by (autounfold with off; lia).
  edestruct (compose_close_ok QMUX_TYPE_WDS 0x20 tid (start_tlvs g p)) as [b' E']; [lia|].
  fold compose_close. by rewrite E'.
Qed.

(** ** Properties *)

(** [ComposeQMUXMsg] is correct for every builder that keeps its promise: it
    takes the next transaction id, which is never zero, and returns the QMUX
    message of the builder's TLVs, with both length fields right, as long as the
    TLVs leave a byte of the 256-byte buffer free. *)
Theorem ComposeQMUXMsg_correct g qt ty f ts
    (Hf : Realises f ts) (Hl : (length (encode_tlvs ts) < 243)%nat)
    (Hg : 0 <= TransactionId g <= 65535) :
  exists tid g',
    ComposeQMUXMsg qt ty (Some f) g = Ok (request_msg qt ty tid ts, g')
    /\ tid = (if TransactionId g =? 65535 then 1 else TransactionId g + 1)
    /\ 1 <= tid <= 65535 /\ g' = g <| TransactionId := tid |>
    /\ qmi_len (request_msg qt ty tid ts) = Ok (Z.of_nat (length (request_msg qt ty tid ts))).
Proof.
  exists (1 + TransactionId g mod 65535), (g <| TransactionId := 1 + TransactionId g mod 65535 |>).
  unfold ComposeQMUXMsg, mbind, M_bind. rewrite GetQMUXTransactionId_next by done.
  rewrite (compose_buf_realises _ _ _ f ts) by done. unfold M_lift.
  pose proof (Z.mod_pos_bound (TransactionId g) 65535).
  repeat split; try lia.
  - destruct (Z.eqb_spec (TransactionId g) 65535) as [->|?]; [done|].
    rewrite Z.mod_small by lia. lia.
  - rewrite length_request_msg. unfold qmi_len, request_msg, mux_msg, req_hdr.
    rewrite <- app_assoc. autounfold with off.
    rewrite (rd16_app_r [USB_CTL_MSG_TYPE_QMI] _ 0), <- app_assoc, rd16_enc16, u16_id by lia.
    cbn [mbind res_bind mret res_ret]. f_equal. lia.
Qed.

Lemma ComposeQMUXMsg_correct_witness :
  exists tid g', ComposeQMUXMsg QMUX_TYPE_WDS 0x20 (Some (WdsSetAutoConnect 1)) statics_init
    = Ok (request_msg QMUX_TYPE_WDS 0x20 tid [tlv8 1 1], g') /\ tid = 1.
Proof.
  destruct (ComposeQMUXMsg_correct statics_init QMUX_TYPE_WDS 0x20 (WdsSetAutoConnect 1) [tlv8 1 1])
    as (tid & g' & E & Ht & _).
  - apply Realises_auto_connect.
  - vm_compute; lia.
  - vm_compute; split; discriminate.
  - exists tid, g'. split; [exact E|]. rewrite Ht. reflexivity.
Defined.

(** C20. Round trip of the start-network request.  If headers and TLVs fit the request buffer
    of 256 bytes, the message is composed, and every TLV that the statics and the profile
    ask for (technology, APN, user, password, authentication, IP family, profile index) is
    found again in it by [GetTLV], with its length and its value byte for byte.  If they do
    not fit, which a long APN, user or password brings about, composing it writes outside
    the buffer. *)
Theorem start_request_roundtrip g p tid :
  let compose := compose_buf QMUX_TYPE_WDS 0x20 tid (Some (WdsStartNwInterfaceReq g p)) in
  if (13 + length (encode_tlvs (start_tlvs g p)) <=? WDM_DEFAULT_BUFSIZE)%nat then
    exists m, compose = Ok m
    /\ forall t v, (t, v) ∈ start_tlvs g p -> exists o,
       GetTLV m OFF_QMUXMsgHdr t = Ok (Some o)
       /\ rd16 m (o + 1) = Ok (Z.of_nat (length v)) /\ rdn m (o + 3) (length v) = Ok v
  else compose = Fault.
Proof.
  cbv zeta. rewrite compose_start_exact. unfold WDM_DEFAULT_BUFSIZE.
  destruct (Nat.leb_spec (13 + length (encode_tlvs (start_tlvs g p))) 256);
    destruct (Nat.leb_spec (length (encode_tlvs (start_tlvs g p))) 243); try lia; [|done].
  eexists. split; [done|]. intros t v Hv.
  destruct (GetTLV_found QMUX_TYPE_WDS 0x20 tid (start_tlvs g p) t v) as (o & E);
    [apply start_tlvs_NoDup|lia|apply (start_tlvs_types g p t v Hv)|done|by exists o].
Qed.

Lemma start_request_found :
  let p := PROFILE_zero <| apn := Some (bytes_of_string "cmnet") |> <| pdp := 1 |> in
  compose_buf QMUX_TYPE_WDS 0x20 7 (Some (WdsStartNwInterfaceReq statics_init p))
  = Ok (request_msg QMUX_TYPE_WDS 0x20 7 (start_tlvs statics_init p))
  /\ (0x14, bytes_of_string "cmnet") ∈ start_tlvs statics_init p.
Proof. split; [reflexivity|]. refine (bool_decide_eq_true_1 _ _). vm_compute. reflexivity. Qed.

(** The exact capacity of the request buffer: composing the start-network
    request writes outside the 256-byte [QMIBuf] exactly when headers and TLVs
    together exceed it, which a long APN, user or password in the profile does
    (their lengths are nowhere checked). *)
Theorem start_request_overflow g p tid :
  compose_buf QMUX_TYPE_WDS 0x20 tid (Some (WdsStartNwInterfaceReq g p)) = Fault
  <-> (WDM_DEFAULT_BUFSIZE < 13 + length (encode_tlvs (start_tlvs g p)))%nat.
Proof.
  rewrite compose_start_exact. unfold WDM_DEFAULT_BUFSIZE.
  destruct (Nat.leb_spec (length (encode_tlvs (start_tlvs g p))) 243); split; (done || lia).
Qed.

(** Transaction ids: the ids drawn by any sequence of requests lie between 1
    and 65535, and two requests fewer than 65535 apart never share an id, so a
    response can be matched to its request by the id. *)
Theorem transaction_ids_distinct n g i j ti tj
    (Hg : 0 <= TransactionId g <= 65535)
    (Hi : tids n g !! i = Some ti) (Hj : tids n g !! j = Some tj) :
  1 <= ti <= 65535 /\ ((i < j)%nat -> Z.of_nat j < Z.of_nat i + 65535 -> ti <> tj).
Proof.
  apply tids_lookup in Hi, Hj; [|done..]. subst.
  pose proof (Z.mod_pos_bound (TransactionId g + Z.of_nat i) 65535).
  split; [lia|]. intros Hij Hd E.
  assert (Hm : (TransactionId g + Z.of_nat i) mod 65535 = (TransactionId g + Z.of_nat j) mod 65535)
    by lia.
  rewrite !Z.mod_eq in Hm by lia.
  set (a := (TransactionId g + Z.of_nat i) / 65535) in *.
  set (b := (TransactionId g + Z.of_nat j) / 65535) in *. lia.
Qed.

Lemma transaction_ids_distinct_witness :
  tids 2 (statics_init <| TransactionId := 65534 |>) = [65535; 1] /\ 65535 <> 1.
Proof.
  split; [reflexivity|].
  apply (transaction_ids_distinct 2 (statics_init <| TransactionId := 65534 |>) 0 1 65535 1);
    (lia || reflexivity || (vm_compute; split; discriminate)).
Defined.
