(* ===== verification/QmiThread.v ===== *)
(** The request/response pairing of QMIThread.c: [QmiThreadSendQMITimeout], run by
    the main thread, and [QmiThreadRecvQMI], run by the reader thread, share
    [s_pRequest] and [s_pResponse] under [cm_command_mutex].  Also the device
    side of QmiWwanCM.c that the pairing depends on: [QmiWwanSendQMI] rewrites the
    request in place, and the CTL messages that manage client ids. *)
From S2P Require Import Prelude QmiTlv CmTypes QmiCompose.
#[local] Open Scope Z_scope.

(** ** Events to the main thread *)
Inductive cm_event :=
  | MODEM_REPORT_RESET_EVENT
  | RIL_UNSOL_RESPONSE_VOICE_NETWORK_STATE_CHANGED
  | RIL_UNSOL_DATA_CALL_LIST_CHANGED
  | RIL_UNSOL_LOOPBACK_CONFIG_IND (SetLoopBackInd : list Z).
#[export] Instance cm_event_eq_dec : EqDecision cm_event.
Proof. solve_decision. Defined.

Definition QMICTL_REVOKE_CLIENT_ID_IND : Z := 0x24.
Definition QMINAS_SERVING_SYSTEM_IND : Z := 0x24.
Definition QMIWDS_GET_PKT_SRVC_STATUS_IND : Z := 0x22.
Definition QMINAS_SYS_INFO_IND : Z := 0x4E.
Definition QMI_WDA_SET_LOOPBACK_CONFIG_IND : Z := 0x2F.
(** [sizeof(QMI_WDA_SET_LOOPBACK_CONFIG_IND_MSG)] *)
Definition SIZEOF_LOOPBACK_IND : nat := 15.

Definition EINVAL : Z := 22.
Definition ENODEV : Z := 19.
Definition ETIMEDOUT : Z := 110.

(** ** The state shared by the two threads

    [s_pRequest] points to the caller's request, which the device may rewrite
    after the pointer is stored; [signalled] records a [pthread_cond_signal]
    since the last wait began. *)
Record cm_state := mkCM {
  s_pRequest : option (list Z); s_pResponse : option (list Z);
  signalled : bool; main_events : list cm_event }.
Definition cm_init : cm_state := mkCM None None false [].

Definition send_event (e : cm_event) : M cm_state unit :=
  M_upd (fun s => s <| main_events := main_events s ++ [e] |>).

(** The unsolicited messages the receiver reports to the main thread.  The
    CTL comparison is written inside [le16_to_cpu] in the source; on a
    little-endian host both readings agree. *)
Definition report_indication (pResponse : list Z) : M cm_state unit :=
  qt ← M_lift (rd8 pResponse OFF_QMIType);
  ct ← (if qt =? QMUX_TYPE_CTL then M_lift (rd16 pResponse OFF_CTL_QMICTLType) else mret 0);
  ty ← (if qt =? QMUX_TYPE_CTL then mret 0 else
        if (qt =? QMUX_TYPE_NAS) || (qt =? QMUX_TYPE_WDS) || (qt =? QMUX_TYPE_WDS_ADMIN)
        then M_lift (rd16 pResponse OFF_MUX_Type) else mret 0);
  if (qt =? QMUX_TYPE_CTL) && (ct =? QMICTL_REVOKE_CLIENT_ID_IND) then
    send_event MODEM_REPORT_RESET_EVENT
  else if (qt =? QMUX_TYPE_NAS) && (ty =? QMINAS_SERVING_SYSTEM_IND) then
    send_event RIL_UNSOL_RESPONSE_VOICE_NETWORK_STATE_CHANGED
  else if (qt =? QMUX_TYPE_WDS) && (ty =? QMIWDS_GET_PKT_SRVC_STATUS_IND) then
    send_event RIL_UNSOL_DATA_CALL_LIST_CHANGED
  else if (qt =? QMUX_TYPE_NAS) && (ty =? QMINAS_SYS_INFO_IND) then
    send_event RIL_UNSOL_RESPONSE_VOICE_NETWORK_STATE_CHANGED
  else if (qt =? QMUX_TYPE_WDS_ADMIN) && (ty =? QMI_WDA_SET_LOOPBACK_CONFIG_IND) then
    ind ← M_lift (rdn pResponse OFF_QMUXMsgHdr SIZEOF_LOOPBACK_IND);
    send_event (RIL_UNSOL_LOOPBACK_CONFIG_IND ind)
  else mret tt.

(** [QmiThreadRecvQMI]; [None] is the NULL the reader passes when it quits.  The
    message is the part of [cm_recv_buf] from [pResponse] on. *)
Definition QmiThreadRecvQMI (pResponse : option (list Z)) : M cm_state unit :=
  s ← M_get;
  match pResponse with
  | None =>
      match s_pRequest s with
      | Some _ => M_put (s <| s_pRequest := None |> <| s_pResponse := None |> <| signalled := true |>)
      | None => mret tt
      end
  | Some rsp =>
      matches ← (match s_pRequest s with
                 | Some req => M_lift (is_response req rsp)
                 | None => mret false end);
      if (matches : bool) then
        len ← M_lift (qmi_len rsp);
        copy ← M_lift (rdn rsp 0 (Z.to_nat len));
        M_put (s <| s_pRequest := None |> <| s_pResponse := Some copy |> <| signalled := true |>)
      else report_indication rsp
  end.

Definition deliver (script : list (option (list Z))) : M cm_state unit :=
  foldr (fun m k => _ ← QmiThreadRecvQMI m; k) (mret tt) script.

(** ** [QmiThreadSendQMITimeout]

    [qmidev_send] is the device's send routine: it may rewrite the request it is
    given.  While the caller waits on the condition variable the reader runs:
    [script] is the sequence of messages it delivers until the caller holds the
    mutex again, and [rc] the result of [pthread_cond_timeout_np] (0 after a
    signal or a spurious wake-up, positive [ETIMEDOUT] otherwise). *)
Section Send.
Context {D : Type} (qmidev_send : list Z -> M D (Z * list Z)).

Definition QmiThreadSendQMITimeout (pRequest : option (list Z)) (want : bool)
    (script : list (option (list Z))) (rc : Z) : M (cm_state * D) (Z * option (list Z)) :=
  fun '(s, d) =>
  match pRequest with
  | None => Ok ((- EINVAL, None), (s, d))
  | Some req =>
      match qmidev_send req d with
      | Ok ((ret, req'), d') =>
          let s := s <| s_pRequest := Some req' |> <| s_pResponse := None |>
                     <| signalled := false |> in
          if ret =? 0 then
            match deliver script s with
            | Ok (_, s') =>
                if rc =? 0 then
                  match s_pResponse s' with
                  | Some r => if want then Ok ((rc, Some r), (s', d'))
                              else Ok ((rc, None), (s' <| s_pResponse := None |>, d'))
                  | None => Ok ((rc, None), (s', d'))
                  end
                else Ok ((rc, None), (s', d'))
            | Fault => Fault
            | OutOfFuel => OutOfFuel
            end
          else Ok ((ret, None), (s, d'))
      | Fault => Fault
      | OutOfFuel => OutOfFuel
      end
  end.
End Send.

(** ** QmiWwanCM.c: client ids and the device node

    [wdm_fd] is [cdc_wdm_fd] (-1 when closed); [wdm_write] stands for [poll] and
    [write] on it: [Some n] for [n] bytes written, [None] when the node is not
    writable, with the result [poll] returned. *)
Record qmiwwan := mkWwan {
  cdc_wdm_fd : Z; qmiclientId : list Z; ctl_TransactionId : Z;
  wdm_poll : Z; wdm_write : option Z; wdm_out : list (list Z) }.

Definition QmiWwanSendQMI (pRequest : list Z) : M qmiwwan (Z * list Z) := fun d =>
  if cdc_wdm_fd d =? -1 then Ok ((- ENODEV, pRequest), d)
  else
    qt ← rd8 pRequest OFF_QMIType;
    r ← (if negb (qt =? QMUX_TYPE_CTL) then
           cid ← of_option (qmiclientId d !! Z.to_nat qt);
           req ← wr OFF_ClientId [cid] pRequest;
           if cid =? 0 then mret (false, req)
           else if qt =? QMUX_TYPE_WDS_IPV6 then
             req ← wr OFF_QMIType [QMUX_TYPE_WDS] req; mret (true, req)
           else mret (true, req)
         else mret (true, pRequest));
    let '(go, req) := r in
    if negb go then Ok ((- ENODEV, req), d)
    else
      match wdm_write d with
      | Some n =>
          nwrites ← qmi_len req;
          out ← rdn req 0 (Z.to_nat nwrites);
          Ok ((if n =? nwrites then 0 else n, req),
              d <| wdm_out := wdm_out d ++ [take (Z.to_nat n) out] |>)
      | None => Ok ((wdm_poll d, req), d)
      end.

(** [GetQCTLTransactionId]: a byte, never zero. *)
Definition GetQCTLTransactionId : M qmiwwan Z := fun d =>
  let t := ctl_TransactionId d + 1 in
  let t := if 0xFF <? t then 1 else t in
  Ok (u8 t, d <| ctl_TransactionId := t |>).

(** [QCQMICTL_MSG] bodies: the builders write behind the six header bytes. *)
Definition OFF_CTL_TLV : nat := 12.
Definition CtlGetVersionReq : builder :=
  _ ← st_hdr OFF_CTL_TLV 0x01 1; _ ← st8 (OFF_CTL_TLV + 3) QMUX_TYPE_ALL; mret 10.
Definition CtlGetClientIdReq (QMIType : Z) : builder :=
  _ ← st_hdr OFF_CTL_TLV 0x01 1; _ ← st8 (OFF_CTL_TLV + 3) QMIType; mret 10.
Definition CtlReleaseClientIdReq (QMIType ClientId : Z) : builder :=
  _ ← st_hdr OFF_CTL_TLV 0x01 2; _ ← st8 (OFF_CTL_TLV + 3) QMIType;
  _ ← st8 (OFF_CTL_TLV + 4) ClientId; mret 11.

(** [ComposeQCTLMsg]; [buf] is the stack buffer, which is not cleared. *)
Definition compose_ctl (buf : list Z) (QMICTLType tid : Z) (custom : option builder) : res (list Z) :=
  let body : M (list Z) (list Z) :=
    _ ← st8 OFF_IFType USB_CTL_MSG_TYPE_QMI; _ ← st8 OFF_CtlFlags 0;
    _ ← st8 OFF_QMIType QMUX_TYPE_CTL; _ ← st8 OFF_ClientId 0;
    _ ← st8 OFF_CTL_CtlFlags 0; _ ← st8 OFF_CTL_TransactionId tid;
    _ ← st16 OFF_CTL_QMICTLType QMICTLType;
    _ ← (match custom with
         | Some f => r ← f; st16 OFF_CTL_Length (r - Z.of_nat SIZEOF_QCQMICTL_MSG_HDR)
         | None => st16 OFF_CTL_Length 0
         end);
    b ← M_get; l ← M_lift (rd16 b OFF_CTL_Length);
    _ ← st16 OFF_Length (l + 6 + 6 - 1);
    b ← M_get; len ← M_lift (qmi_len b); M_lift (rdn b 0 (Z.to_nat len)) in
  r ← body buf; mret r.1.

Definition QMICTL_GET_CLIENT_ID_REQ : Z := 0x22.
Definition QMICTL_RELEASE_CLIENT_ID_REQ : Z := 0x23.

(** Client ids are obtained and released through [QmiThreadSendQMI]; [stack] is the
    content the stack buffer happens to have. *)
Section ClientIds.
Context (ctl_send : list Z -> M qmiwwan (Z * option (list Z))) (stack : list Z).

Definition ComposeQCTLMsg (QMICTLType : Z) (custom : option builder) : M qmiwwan (list Z) :=
  tid ← GetQCTLTransactionId; M_lift (compose_ctl stack QMICTLType tid custom).

Definition QmiWwanGetClientID (QMIType : Z) : M qmiwwan Z :=
  req ← ComposeQCTLMsg QMICTL_GET_CLIENT_ID_REQ (Some (CtlGetClientIdReq QMIType));
  r ← ctl_send req;
  match r.2 with
  | Some rsp =>
      QMUXResult ← M_lift (rd16 rsp OFF_CTL_QMUXResult);
      QMUXError ← M_lift (rd16 rsp OFF_CTL_QMUXError);
      ClientId ← M_lift (rd8 rsp OFF_CTL_RSP_ClientId);
      ty ← M_lift (rd8 rsp OFF_CTL_RSP_QMIType);
      mret (if negb (truth QMUXResult) && negb (truth QMUXError) && (QMIType =? ty)
            then ClientId else 0)
  | None => mret 0
  end.

Definition QmiWwanReleaseClientID (QMIType ClientId : Z) : M qmiwwan Z :=
  req ← ComposeQCTLMsg QMICTL_RELEASE_CLIENT_ID_REQ (Some (CtlReleaseClientIdReq QMIType ClientId));
  _ ← ctl_send req; mret 0.

(** [qmiclientId[ty] = id] *)
Definition set_client (ty id : Z) : M qmiwwan unit :=
  d ← M_get;
  if (Z.to_nat ty <? length (qmiclientId d))%nat
  then M_put (d <| qmiclientId := <[Z.to_nat ty := id]> (qmiclientId d) |>)
  else M_lift Fault.

(** The allocation part of [QmiWwanInit], after synchronisation and the version
    query. *)
Definition QmiWwanInit_clients (p : PROFILE_T) : M qmiwwan PROFILE_T :=
  c ← QmiWwanGetClientID QMUX_TYPE_WDS; _ ← set_client QMUX_TYPE_WDS c;
  _ ← M_when (truth (enable_ipv6 p))
        (c ← QmiWwanGetClientID QMUX_TYPE_WDS; set_client QMUX_TYPE_WDS_IPV6 c);
  c ← QmiWwanGetClientID QMUX_TYPE_DMS; _ ← set_client QMUX_TYPE_DMS c;
  c ← QmiWwanGetClientID QMUX_TYPE_NAS; _ ← set_client QMUX_TYPE_NAS c;
  c ← QmiWwanGetClientID QMUX_TYPE_UIM; _ ← set_client QMUX_TYPE_UIM c;
  c ← QmiWwanGetClientID QMUX_TYPE_WDS_ADMIN; _ ← set_client QMUX_TYPE_WDS_ADMIN c;
  mret (p <| wda_client := c |>).

(** The loop of [QmiWwanDeInit] from index [i] on. *)
Fixpoint QmiWwanDeInit_loop (n i : nat) : M qmiwwan unit :=
  match n with
  | O => mret tt
  | S n =>
      d ← M_get;
      id ← M_lift (of_option (qmiclientId d !! i));
      _ ← M_when (negb (id =? 0))
            (_ ← QmiWwanReleaseClientID (Z.of_nat i) id; set_client (Z.of_nat i) 0);
      QmiWwanDeInit_loop n (S i)
  end.
Definition QmiWwanDeInit : M qmiwwan Z :=
  d ← M_get; _ ← QmiWwanDeInit_loop (length (qmiclientId d)) 0; mret 0.
End ClientIds.

(** ** Lemmas *)

(** What the shared pair can be while a caller waits for the answer to [req]:
    still open, or closed with the answer or with nothing. *)
Definition waiting (req : list Z) (s : cm_state) : Prop :=
  s_pRequest s = Some req /\ s_pResponse s = None.
Definition answered (req : list Z) (script : list (option (list Z))) (s : cm_state) : Prop :=
  s_pRequest s = None
  /\ (s_pResponse s = None
      \/ exists rsp n, Some rsp ∈ script /\ is_response req rsp = Ok true
           /\ qmi_len rsp = Ok n /\ s_pResponse s = Some (take (Z.to_nat n) rsp)
           /\ (Z.to_nat n <= length rsp)%nat).

Lemma report_frame rsp s u s' :
  report_indication rsp s = Ok (u, s') ->
  s_pRequest s' = s_pRequest s /\ s_pResponse s' = s_pResponse s.
Proof.
  unfold report_indication, mbind, M_bind, M_lift, mret, M_ret, send_event, M_upd.
  intros H. repeat (case_match; simplify_eq; try done).
Qed.

Lemma recv_closed m s u s' :
  s_pRequest s = None -> QmiThreadRecvQMI m s = Ok (u, s') ->
  s_pRequest s' = None /\ s_pResponse s' = s_pResponse s.
Proof.
  intros E H. unfold QmiThreadRecvQMI, mbind, M_bind, M_get, mret, M_ret in H. rewrite E in H.
  destruct m as [rsp|].
  - apply report_frame in H. by rewrite E in H.
  - by simplify_eq.
Qed.

Lemma deliver_cons m script s :
  deliver (m :: script) s
  = match QmiThreadRecvQMI m s with
    | Ok (_, s') => deliver script s' | Fault => Fault | OutOfFuel => OutOfFuel end.
Proof. done. Qed.

Lemma deliver_closed script : forall s u s',
  s_pRequest s = None -> deliver script s = Ok (u, s') ->
  s_pRequest s' = None /\ s_pResponse s' = s_pResponse s.
Proof.
  induction script as [|m script IH]; intros s u s' E H;
    [by change (Ok (tt, s) = Ok (u, s')) in H; simplify_eq|].
  rewrite deliver_cons in H. destruct (QmiThreadRecvQMI m s) as [[u1 s1]| |] eqn:E1; try done.
  apply recv_closed in E1 as [E1 E2]; [|done]. apply IH in H as [H1 H2]; [|done].
  by rewrite H2, E2.
Qed.

Lemma rdn_take b n l : rdn b 0 n = Ok l -> l = take n b /\ (n <= length b)%nat.
Proof.
  unfold rdn. destruct (Nat.leb_spec (0 + n) (length b)); [|done]. intros [= <-]. by split; [|lia].
Qed.

(** One delivery to a waiting caller. *)
Lemma recv_waiting req m s u s' :
  waiting req s -> QmiThreadRecvQMI m s = Ok (u, s') ->
  waiting req s' \/ answered req [m] s'.
Proof.
  intros [E1 E2] H. unfold QmiThreadRecvQMI, mbind, M_bind, M_get, M_lift, mret, M_ret, M_put in H.
  rewrite E1 in H. destruct m as [rsp|].
  - destruct (is_response req rsp) as [[]| |] eqn:Em; try done.
    + destruct (qmi_len rsp) as [n| |] eqn:En; try done.
      destruct (rdn rsp 0 (Z.to_nat n)) as [copy| |] eqn:Er; try done.
      apply rdn_take in Er as [-> Hn].
      simplify_eq. right. split; [done|]. right. exists rsp, n. cbn. set_solver.
    + apply report_frame in H as [H1 H2]. left. split; congruence.
  - simplify_eq. right. split; [done|]. by left.
Qed.

Lemma answered_mono req script script' s :
  script ⊆ script' -> answered req script s -> answered req script' s.
Proof.
  intros Hs [H1 H2]. split; [done|]. destruct H2 as [|(rsp & n & Hin & ?)]; [by left|].
  right. exists rsp, n. split; [by apply Hs|done].
Qed.

Lemma deliver_waiting req script : forall s u s',
  waiting req s -> deliver script s = Ok (u, s') ->
  waiting req s' \/ answered req script s'.
Proof.
  induction script as [|m script IH]; intros s u s' Hw H;
    [by change (Ok (tt, s) = Ok (u, s')) in H; simplify_eq; left|].
  rewrite deliver_cons in H. destruct (QmiThreadRecvQMI m s) as [[u1 s1]| |] eqn:E1; try done.
  destruct (recv_waiting _ _ _ _ _ Hw E1) as [Hw1|Ha].
  - destruct (IH _ _ _ Hw1 H) as [|Ha]; [by left|]. right.
    eapply answered_mono; [|done]. set_solver.
  - right. destruct Ha as [Hr Hp]. pose proof (deliver_closed _ _ _ _ Hr H) as [H1 H2].
    eapply (answered_mono _ [m]); [set_solver|]. split; [done|]. by rewrite H2.
Qed.

(** A message long enough for the headers the receiver looks at. *)
Definition msg_ok (m : option (list Z)) : Prop :=
  match m with Some rsp => (24 <= length rsp)%nat | None => True end.

Lemma rd16_Ok b o : (o + 1 < length b)%nat -> exists v, rd16 b o = Ok v.
Proof.
  intros H. unfold rd16. destruct (rd8_Ok b o ltac:(lia)) as [x ->].
  destruct (rd8_Ok b (o + 1) ltac:(lia)) as [y ->]. by eexists.
Qed.

Lemma report_ok rsp s :
  (24 <= length rsp)%nat -> exists s', report_indication rsp s = Ok (tt, s').
Proof.
  intros H. unfold report_indication, mbind, M_bind, M_lift, mret, M_ret, send_event, M_upd.
  destruct (rd8_Ok rsp OFF_QMIType) as [qt ->]; [autounfold with off; lia|].
  destruct (rd16_Ok rsp OFF_CTL_QMICTLType) as [ct ->]; [autounfold with off; lia|].
  destruct (rd16_Ok rsp OFF_MUX_Type) as [ty ->]; [autounfold with off; lia|].
  assert (Hn : rdn rsp OFF_QMUXMsgHdr SIZEOF_LOOPBACK_IND
               = Ok (take SIZEOF_LOOPBACK_IND (drop OFF_QMUXMsgHdr rsp))).
  { unfold rdn. destruct (Nat.leb_spec (OFF_QMUXMsgHdr + SIZEOF_LOOPBACK_IND) (length rsp)); [done|].
    unfold SIZEOF_LOOPBACK_IND in *. off_len. }
  rewrite Hn. repeat case_match; simplify_eq; by eexists.
Qed.

Lemma deliver_closed_ok script : forall s,
  s_pRequest s = None -> Forall msg_ok script ->
  exists s', deliver script s = Ok (tt, s') /\ s_pResponse s' = s_pResponse s.
Proof.
  induction script as [|m script IH]; intros s E Hm; [by eexists|].
  apply Forall_cons in Hm as [Hm Hms]. rewrite deliver_cons.
  assert (exists s1, QmiThreadRecvQMI m s = Ok (tt, s1)) as [s1 E1].
  { unfold QmiThreadRecvQMI, mbind, M_bind, M_get, mret, M_ret. rewrite E.
    destruct m as [rsp|]; [by apply report_ok|by eexists]. }
  rewrite E1. apply recv_closed in E1 as [H1 H2]; [|done].
  destruct (IH s1 H1 Hms) as (s' & -> & Hr). exists s'. by rewrite Hr.
Qed.

(** Messages that are not the answer leave a waiting caller waiting. *)
Lemma deliver_skip req pre : forall s,
  waiting req s ->
  Forall (fun m => exists rsp, m = Some rsp /\ (24 <= length rsp)%nat
                               /\ is_response req rsp = Ok false) pre ->
  exists s', deliver pre s = Ok (tt, s') /\ waiting req s'.
Proof.
  induction pre as [|m pre IH]; intros s Hw Hp; [by exists s|].
  apply Forall_cons in Hp as [(rsp & -> & Hl & Hr) Hp]. rewrite deliver_cons.
  destruct (report_ok rsp s Hl) as [s1 E1].
  assert (E : QmiThreadRecvQMI (Some rsp) s = Ok (tt, s1)).
  { unfold QmiThreadRecvQMI, mbind, M_bind, M_get, M_lift. destruct Hw as [-> _]. by rewrite Hr. }
  rewrite E. apply report_frame in E1 as [H1 H2]. apply IH; [|done].
  destruct Hw. split; congruence.
Qed.

Lemma deliver_app a b s :
  deliver (a ++ b) s
  = match deliver a s with Ok (_, s') => deliver b s' | Fault => Fault | OutOfFuel => OutOfFuel end.
Proof.
  revert s. induction a as [|m a IH]; intros s; [done|]. cbn [app]. rewrite !deliver_cons.
  destruct (QmiThreadRecvQMI m s) as [[u s1]| |]; [apply IH|done..].
Qed.

(** [QmiWwanSendQMI] on a request of a service with a client. *)
Definition as_sent (qt cid : Z) (h : list Z) (rest : list Z) : list Z :=
  h ++ (if qt =? QMUX_TYPE_WDS_IPV6 then QMUX_TYPE_WDS else qt) :: cid :: rest.

Lemma QmiWwanSend_client d h qt cl rest cid :
  length h = 4%nat -> qt <> QMUX_TYPE_CTL -> cdc_wdm_fd d <> -1 ->
  qmiclientId d !! Z.to_nat qt = Some cid -> cid <> 0 ->
  QmiWwanSendQMI (h ++ qt :: cl :: rest) d
  = match wdm_write d with
    | Some n =>
        nwrites ← qmi_len (as_sent qt cid h rest);
        out ← rdn (as_sent qt cid h rest) 0 (Z.to_nat nwrites);
        Ok ((if n =? nwrites then 0 else n, as_sent qt cid h rest),
            d <| wdm_out := wdm_out d ++ [take (Z.to_nat n) out] |>)
    | None => Ok ((wdm_poll d, as_sent qt cid h rest), d)
    end.
Proof.
  intros Hh Hq Hfd Hid Hc. do 4 (destruct h as [|? h]; [discriminate Hh|]).
  destruct h; [|discriminate Hh]. unfold QmiWwanSendQMI, as_sent. cbn [app].
  destruct (Z.eqb_spec (cdc_wdm_fd d) (-1)); [done|].
  match goal with |- context [rd8 ?l OFF_QMIType] => change (rd8 l OFF_QMIType) with (Ok qt) end.
  unfold mbind at 1, res_bind at 1. destruct (Z.eqb_spec qt QMUX_TYPE_CTL); [done|]. cbn [negb].
  rewrite Hid. unfold mbind, res_bind, of_option, mret, res_ret. cbv beta iota.
  match goal with |- context [wr OFF_ClientId ?c ?l] =>
    change (wr OFF_ClientId c l) with (Ok (z :: z0 :: z1 :: z2 :: qt :: cid :: rest)) end.
  cbv beta iota. destruct (Z.eqb_spec cid 0); [done|].
  by destruct (Z.eqb_spec qt QMUX_TYPE_WDS_IPV6).
Qed.

Lemma QmiWwanSend_rewrites d h qt cl rest cid r :
  length h = 4%nat -> qt <> QMUX_TYPE_CTL -> cdc_wdm_fd d <> -1 ->
  qmiclientId d !! Z.to_nat qt = Some cid -> cid <> 0 ->
  QmiWwanSendQMI (h ++ qt :: cl :: rest) d = Ok r -> r.1.2 = as_sent qt cid h rest.
Proof.
  intros Hh Hq Hfd Hid Hc H. rewrite (QmiWwanSend_client _ _ _ _ _ cid) in H by done.
  destruct (wdm_write d); [|by simplify_eq]. unfold mbind, res_bind in H.
  destruct (qmi_len _) as [n| |]; try done.
  destruct (rdn _ 0 (Z.to_nat n)); try done. by simplify_eq.
Qed.

(** ** CTL messages *)
Definition ctl_bytes (tid ty : Z) (body : list Z) : list Z :=
  [1] ++ enc16 (11 + Z.of_nat (length body)) ++ [0; 0; 0; 0; u8 tid] ++ enc16 ty
  ++ enc16 (Z.of_nat (length body)) ++ body.

Lemma stack_split (stack : list Z) :
  length stack = 256%nat ->
  exists a0 a1 a2 a3 a4 a5 a6 a7 a8 a9 a10 a11 a12 a13 a14 a15 a16 rest,
    stack = a0 :: a1 :: a2 :: a3 :: a4 :: a5 :: a6 :: a7 :: a8 :: a9 :: a10 :: a11 :: a12 :: a13
            :: a14 :: a15 :: a16 :: rest.
Proof.
  intros H. do 17 (destruct stack as [|? stack]; [discriminate H|]). by repeat eexists.
Qed.

Lemma compose_release stack ty tid q c :
  length stack = 256%nat ->
  compose_ctl stack ty tid (Some (CtlReleaseClientIdReq q c))
  = Ok (ctl_bytes tid ty [1; 2; 0; u8 q; u8 c]).
Proof.
  intros H. apply stack_split in H as
    (a0 & a1 & a2 & a3 & a4 & a5 & a6 & a7 & a8 & a9 & a10 & a11 & a12 & a13 & a14 & a15 & a16
     & rest & ->). reflexivity.
Qed.
Lemma compose_get_client stack ty tid q :
  length stack = 256%nat ->
  compose_ctl stack ty tid (Some (CtlGetClientIdReq q)) = Ok (ctl_bytes tid ty [1; 1; 0; u8 q]).
Proof.
  intros H. apply stack_split in H as
    (a0 & a1 & a2 & a3 & a4 & a5 & a6 & a7 & a8 & a9 & a10 & a11 & a12 & a13 & a14 & a15 & a16
     & rest & ->). reflexivity.
Qed.

(** The service and client id a release message names. *)
Definition released (m : list Z) : option (Z * Z) :=
  t ← m !! 15%nat; c ← m !! 16%nat; Some (t, c).
(** What is left to release from index [i] on. *)
Fixpoint to_release (i : nat) (ids : list Z) : list (Z * Z) :=
  match ids with
  | [] => []
  | c :: ids => (if c =? 0 then [] else [(Z.of_nat i, c)]) ++ to_release (S i) ids
  end.

Section DeInit.
Context (ctl_send : list Z -> M qmiwwan (Z * option (list Z))) (stack : list Z).
Hypothesis stack_size : length stack = 256%nat.
(** The device takes every CTL message and answers or not. *)
Hypothesis ctl_send_logs : forall req d, exists r,
  ctl_send req d = Ok (r, d <| wdm_out := wdm_out d ++ [req] |>).

Lemma release_step t c d :
  byte_ok t -> byte_ok c ->
  exists d' m, QmiWwanReleaseClientID ctl_send stack t c d = Ok (0, d')
    /\ qmiclientId d' = qmiclientId d /\ wdm_out d' = wdm_out d ++ [m]
    /\ released m = Some (t, c).
Proof.
  intros Ht Hc. unfold QmiWwanReleaseClientID, ComposeQCTLMsg, GetQCTLTransactionId, mbind, M_bind,
    M_lift. rewrite compose_release by done. cbv beta iota.
  match goal with |- context [ctl_send ?r ?x] => destruct (ctl_send_logs r x) as [rr ->] end.
  eexists _, _. split; [reflexivity|]. split; [done|]. split; [done|].
  unfold released, ctl_bytes. cbn. by rewrite !u8_id.
Qed.

Lemma deinit_loop n : forall i d,
  (i + n)%nat = length (qmiclientId d) -> (i + n <= 256)%nat -> bytes_ok (qmiclientId d) ->
  exists d' ms, QmiWwanDeInit_loop ctl_send stack n i d = Ok (tt, d')
    /\ qmiclientId d' = take i (qmiclientId d) ++ replicate n 0
    /\ wdm_out d' = wdm_out d ++ ms
    /\ mapM released ms = Some (to_release i (drop i (qmiclientId d))).
Proof.
  induction n as [|n IH]; intros i d Hi Hn Hb.
  - exists d, []. rewrite drop_ge, take_ge by lia. by rewrite !app_nil_r.
  - destruct (lookup_lt_is_Some_2 (qmiclientId d) i ltac:(lia)) as [c Hc].
    rewrite (drop_S _ c) by done. cbn [to_release].
    unfold QmiWwanDeInit_loop; fold (QmiWwanDeInit_loop ctl_send stack).
    unfold mbind, M_bind, M_get, M_lift, of_option. rewrite Hc.
    destruct (Z.eqb_spec c 0) as [->|Hnz]; cbn [negb M_when].
    + destruct (IH (S i) d ltac:(lia) ltac:(lia) Hb) as (d' & ms & E & Hq & Ho & Hm).
      exists d', ms. unfold M_when, mret, M_ret. rewrite E. repeat split; try done.
      rewrite Hq, (take_S_r _ _ 0) by done. by rewrite <- app_assoc.
    + assert (Hcb : byte_ok c) by (by eapply Forall_lookup_1).
      destruct (release_step (Z.of_nat i) c d) as (d1 & m & E1 & Hq1 & Ho1 & Hm1);
        [unfold byte_ok; lia|done|].
      unfold M_when. rewrite E1. unfold set_client, mbind, M_bind, M_get, M_put. rewrite Nat2Z.id, Hq1.
      destruct (Nat.ltb_spec i (length (qmiclientId d))); [|lia].
      set (d2 := d1 <| qmiclientId := <[i := 0]> (qmiclientId d) |>).
      assert (Hq2 : qmiclientId d2 = <[i := 0]> (qmiclientId d)) by done.
      assert (Ho2 : wdm_out d2 = wdm_out d1) by done.
      destruct (IH (S i) d2) as (d' & ms & E & Hq & Ho & Hm);
        rewrite ?Hq2, ?length_insert; [lia..| |].
      { apply Forall_insert; [done|]. unfold byte_ok; lia. }
      exists d', (m :: ms). rewrite E, Hq2, Ho2 in *. repeat split.
      * rewrite Hq, (take_S_r _ _ 0) by (apply list_lookup_insert_eq; lia).
        rewrite take_insert_ge by lia. by rewrite <- app_assoc.
      * rewrite Ho, Ho1, <- app_assoc. done.
      * cbn [mapM]. rewrite Hm1. cbn. rewrite drop_insert_lt in Hm by lia. by rewrite Hm.
Qed.
End DeInit.

Definition dev_id (req : list Z) : M unit (Z * list Z) := fun d => Ok ((0, req), d).

(** ** Properties *)

(** What [is_response] accepts: the same service, client and transaction. *)
Lemma is_response_fields req rsp : is_response req rsp = Ok true -> exists qt c t,
  rd8 req OFF_QMIType = Ok qt /\ rd8 rsp OFF_QMIType = Ok qt
  /\ rd8 req OFF_ClientId = Ok c /\ rd8 rsp OFF_ClientId = Ok c
  /\ (if qt =? QMUX_TYPE_CTL then rd8 req OFF_CTL_TransactionId = Ok t /\ rd8 rsp OFF_CTL_TransactionId = Ok t
      else rd16 req OFF_MUX_TransactionId = Ok t /\ rd16 rsp OFF_MUX_TransactionId = Ok t).
Proof.
  unfold is_response, mbind, res_bind, mret, res_ret. intros H.
  destruct (rd8 req OFF_QMIType) as [qt| |]; try done. destruct (rd8 rsp OFF_QMIType) as [rt| |]; try done.
  destruct (Z.eqb_spec qt rt) as [E|]; [|done]. cbn [negb] in H. subst rt.
  destruct (rd8 req OFF_ClientId) as [c| |]; try done. destruct (rd8 rsp OFF_ClientId) as [rc| |]; try done.
  destruct (Z.eqb_spec c rc) as [E|]; [|done]. cbn [negb] in H. subst rc. exists qt, c.
  destruct (qt =? QMUX_TYPE_CTL).
  - destruct (rd8 req OFF_CTL_TransactionId) as [x| |]; try done. destruct (rd8 rsp OFF_CTL_TransactionId) as [y| |]; try done.
    injection H as ->%Z.eqb_eq. by exists y.
  - destruct (rd16 req OFF_MUX_TransactionId) as [x| |]; try done. destruct (rd16 rsp OFF_MUX_TransactionId) as [y| |]; try done.
    injection H as ->%Z.eqb_eq. by exists y.
Qed.

(** C10. A response is never delivered to the wrong request: whatever messages the
    reader thread delivers while the caller waits, and whatever was pending
    before, a response returned by [QmiThreadSendQMITimeout] was delivered during
    this very call, has the service, the client id and the transaction id of the
    request as the device sent it (one byte of transaction id for the service CTL,
    two for every other), is complete, and comes with the result 0. *)
Theorem send_returns_own_response {D} (dev : list Z -> M D (Z * list Z)) req want script rc s d
    err r st
    (H : QmiThreadSendQMITimeout dev (Some req) want script rc (s, d) = Ok ((err, Some r), st)) :
  err = 0
  /\ exists req' d' rsp n qt c t,
       dev req d = Ok ((0, req'), d') /\ Some rsp ∈ script
       /\ rd8 req' OFF_QMIType = Ok qt /\ rd8 rsp OFF_QMIType = Ok qt
       /\ rd8 req' OFF_ClientId = Ok c /\ rd8 rsp OFF_ClientId = Ok c
       /\ (if qt =? QMUX_TYPE_CTL then rd8 req' OFF_CTL_TransactionId = Ok t /\ rd8 rsp OFF_CTL_TransactionId = Ok t
           else rd16 req' OFF_MUX_TransactionId = Ok t /\ rd16 rsp OFF_MUX_TransactionId = Ok t)
       /\ qmi_len rsp = Ok n /\ r = take (Z.to_nat n) rsp /\ length r = Z.to_nat n.
Proof.
  unfold QmiThreadSendQMITimeout in H.
  destruct (dev req d) as [[[ret req'] d']| |] eqn:Ed; try done.
  destruct (Z.eqb_spec ret 0) as [->|]; [|done].
  destruct (deliver script _) as [[u s']| |] eqn:El; try done.
  destruct (Z.eqb_spec rc 0) as [->|]; [|done].
  apply (deliver_waiting req') in El; [|done].
  destruct (s_pResponse s') as [r'|] eqn:Er; [|done]. destruct want; [|done]. simplify_eq.
  split; [done|]. destruct El as [[_ ?]|[_ [?|(rsp & n & Hin & Hm & Hn & Hr & Hl)]]]; [congruence..|].
  destruct (is_response_fields _ _ Hm) as (qt & c & t & F1 & F2 & F3 & F4 & F5).
  exists req', d', rsp, n, qt, c, t. rewrite Hr in Er. simplify_eq.
  do 9 (split; [done|]). rewrite length_take. lia.
Qed.

Lemma send_returns_own_response_witness :
  exists req' d' rsp n qt,
    dev_id (zeros 13) tt = Ok ((0, req'), d') /\ Some rsp ∈ [Some ([1; 23; 0] ++ zeros 21)]
    /\ rd8 req' OFF_QMIType = Ok qt /\ rd8 rsp OFF_QMIType = Ok qt /\ qmi_len rsp = Ok n
    /\ [1; 23; 0] ++ zeros 21 = take (Z.to_nat n) rsp.
Proof.
  destruct (send_returns_own_response dev_id (zeros 13) true [Some ([1; 23; 0] ++ zeros 21)] 0
    cm_init tt 0 ([1; 23; 0] ++ zeros 21)
    (mkCM None (Some ([1; 23; 0] ++ zeros 21)) true [], tt)) as (_ & a & b & c & e & qt & cl & t & H).
  - vm_compute. reflexivity.
  - exists a, b, c, e, qt. destruct H as (H1 & H2 & H3 & H4 & _ & _ & _ & H5 & H6 & _). auto 10.
Defined.

(** The right response is always delivered: if the device accepts the request
    and the reader delivers, among other messages and indications in any number
    before and after it, one that matches, the caller woken by the signal gets
    exactly that message; nothing that arrives before the caller runs again can
    replace it. *)
Theorem send_gets_response {D} (dev : list Z -> M D (Z * list Z)) req req' d d' s pre rsp n post
    (Hd : dev req d = Ok ((0, req'), d'))
    (Hpre : Forall (fun m => exists x, m = Some x /\ (24 <= length x)%nat
                                       /\ is_response req' x = Ok false) pre)
    (Hr : is_response req' rsp = Ok true) (Hn : qmi_len rsp = Ok n)
    (Hl : (Z.to_nat n <= length rsp)%nat) (Hpost : Forall msg_ok post) :
  exists s', QmiThreadSendQMITimeout dev (Some req) true (pre ++ Some rsp :: post) 0 (s, d)
             = Ok ((0, Some (take (Z.to_nat n) rsp)), (s', d')).
Proof.
  unfold QmiThreadSendQMITimeout. rewrite Hd. cbn [Z.eqb].
  set (s0 := s <| s_pRequest := Some req' |> <| s_pResponse := None |> <| signalled := false |>).
  destruct (deliver_skip req' pre s0) as (s1 & E1 & Hw); [done..|].
  rewrite deliver_app, E1, deliver_cons.
  assert (E2 : QmiThreadRecvQMI (Some rsp) s1
    = Ok (tt, s1 <| s_pRequest := None |> <| s_pResponse := Some (take (Z.to_nat n) rsp) |>
                 <| signalled := true |>)).
  { unfold QmiThreadRecvQMI, mbind, M_bind, M_get, M_lift, M_put. destruct Hw as [-> _].
    rewrite Hr, Hn. unfold rdn. by destruct (Nat.leb_spec (0 + Z.to_nat n) (length rsp)); [|lia]. }
  rewrite E2.
  match goal with |- context [deliver post ?x] => destruct (deliver_closed_ok post x) as (s2 & -> & H2) end;
    [done..|]. rewrite H2. cbn. by eexists.
Qed.

Lemma send_gets_response_witness :
  exists s', QmiThreadSendQMITimeout dev_id (Some (zeros 13)) true
      [Some ([1; 23; 0; 0; 3] ++ zeros 19); Some ([1; 23; 0] ++ zeros 21); None] 0 (cm_init, tt)
    = Ok ((0, Some ([1; 23; 0] ++ zeros 21)), (s', tt)).
Proof.
  apply (send_gets_response dev_id (zeros 13) (zeros 13) tt tt cm_init
    [Some ([1; 23; 0; 0; 3] ++ zeros 19)] ([1; 23; 0] ++ zeros 21) 24 [None]);
    try reflexivity; try (vm_compute; lia); repeat constructor.
  exists ([1; 23; 0; 0; 3] ++ zeros 19). repeat split; vm_compute; (lia || reflexivity).
Defined.

(** A reader that gives up wakes the caller with the result 0 and no response,
    which the callers cannot tell from success by the result alone; a caller
    that times out gets the positive [ETIMEDOUT], and a device that refuses the
    request its own error. *)
Theorem send_without_response {D} (dev : list Z -> M D (Z * list Z)) req req' d d' s ret
    (Hd : dev req d = Ok ((ret, req'), d')) :
  (ret = 0 -> exists s', QmiThreadSendQMITimeout dev (Some req) true [None] 0 (s, d)
                         = Ok ((0, None), (s', d')))
  /\ (ret = 0 -> exists s', QmiThreadSendQMITimeout dev (Some req) true [] ETIMEDOUT (s, d)
                         = Ok ((ETIMEDOUT, None), (s', d')))
  /\ (ret <> 0 -> forall script rc,
        exists s', QmiThreadSendQMITimeout dev (Some req) true script rc (s, d)
                   = Ok ((ret, None), (s', d'))).
Proof.
  unfold QmiThreadSendQMITimeout. rewrite Hd. repeat split.
  - intros ->. by eexists.
  - intros ->. by eexists.
  - intros Hr script rc. destruct (Z.eqb_spec ret 0); [done|]. by eexists.
Qed.

Lemma send_without_response_witness :
  exists s', QmiThreadSendQMITimeout dev_id (Some (zeros 13)) true [None] 0 (cm_init, tt)
             = Ok ((0, None), (s', tt)).
Proof.
  destruct (send_without_response dev_id (zeros 13) (zeros 13) tt tt cm_init 0) as [H _];
    [reflexivity|]. exact (H eq_refl).
Defined.

(** What [QmiWwanSendQMI] sends and leaves behind for the matching: the client
    id of the service, and service WDS for the IPv6 data session.  A response
    that answers the IPv4 request never answers the IPv6 one, as long as the
    modem gave the two sessions different client ids, although both use
    service WDS on the wire. *)
Theorem wds_families_separated d h4 h6 c4 c6 cl4 cl6 rest4 rest6 rsp r4 r6 d4 d6
    (L4 : length h4 = 4%nat) (L6 : length h6 = 4%nat) (Hfd : cdc_wdm_fd d <> -1)
    (H4 : qmiclientId d !! 1%nat = Some c4) (H6 : qmiclientId d !! 17%nat = Some c6)
    (N4 : c4 <> 0) (N6 : c6 <> 0) (Hne : c4 <> c6)
    (S4 : QmiWwanSendQMI (h4 ++ QMUX_TYPE_WDS :: cl4 :: rest4) d = Ok r4)
    (S6 : QmiWwanSendQMI (h6 ++ QMUX_TYPE_WDS_IPV6 :: cl6 :: rest6) d = Ok r6)
    (D4 : d4 = r4.1.2) (D6 : d6 = r6.1.2) :
  rd8 d4 OFF_QMIType = Ok QMUX_TYPE_WDS /\ rd8 d6 OFF_QMIType = Ok QMUX_TYPE_WDS
  /\ rd8 d4 OFF_ClientId = Ok c4 /\ rd8 d6 OFF_ClientId = Ok c6
  /\ (is_response d4 rsp = Ok true -> is_response d6 rsp = Ok false).
Proof.
  apply (QmiWwanSend_rewrites _ _ _ _ _ c4) in S4; [|done..].
  apply (QmiWwanSend_rewrites _ _ _ _ _ c6) in S6; [|done..]. rewrite <- D4 in S4.
  rewrite <- D6 in S6.
  rewrite S4, S6. clear S4 S6 D4 D6 d4 d6.
  do 4 (destruct h4 as [|? h4]; [discriminate L4|]). destruct h4; [|discriminate L4].
  do 4 (destruct h6 as [|? h6]; [discriminate L6|]). destruct h6; [|discriminate L6].
  repeat split; try done. unfold is_response, as_sent, mbind, res_bind, mret, res_ret.
  cbn [app Z.eqb QMUX_TYPE_WDS QMUX_TYPE_WDS_IPV6 Pos.eqb]. change (rd8 _ OFF_QMIType) with (Ok 1) at 1.
  destruct (rd8 rsp OFF_QMIType) as [rt| |]; try done.
  change (rd8 (z3 :: _) OFF_QMIType) with (Ok 1).
  destruct (negb (1 =? rt)); [done|].
  change (rd8 (z :: _) OFF_ClientId) with (Ok c4). change (rd8 (z3 :: _) OFF_ClientId) with (Ok c6).
  destruct (rd8 rsp OFF_ClientId) as [rc| |]; try done.
  destruct (Z.eqb_spec c4 rc) as [->|]; [|done].
  destruct (Z.eqb_spec c6 rc); [congruence|]. intros _. by destruct (1 =? rt).
Qed.

Definition wwan_demo : qmiwwan :=
  mkWwan 5 (<[1%nat := 3]> (<[17%nat := 4]> (zeros 255))) 0 1 (Some 13) [].
Lemma wds_families_separated_witness :
  let rsp := [1; 12; 0; 0x80; 1; 3] ++ zeros 7 in
  is_response ([1; 12; 0; 0; 1; 3] ++ zeros 7) rsp = Ok true
  /\ is_response ([1; 12; 0; 0; 1; 4] ++ zeros 7) rsp = Ok false.
Proof.
  split; [reflexivity|].
  refine (proj2 (proj2 (proj2 (proj2 (wds_families_separated wwan_demo [1; 12; 0; 0] [1; 12; 0; 0]
    3 4 0 0 (zeros 7) (zeros 7) ([1; 12; 0; 0x80; 1; 3] ++ zeros 7)
    ((0, [1; 12; 0; 0; 1; 3] ++ zeros 7), wwan_demo <| wdm_out := [[1; 12; 0; 0; 1; 3] ++ zeros 7] |>)
    ((0, [1; 12; 0; 0; 1; 4] ++ zeros 7), wwan_demo <| wdm_out := [[1; 12; 0; 0; 1; 4] ++ zeros 7] |>)
    ([1; 12; 0; 0; 1; 3] ++ zeros 7) ([1; 12; 0; 0; 1; 4] ++ zeros 7) _ _ _ _ _ _ _ _ _ _ _ _)))) _);
    try reflexivity; vm_compute; discriminate.
Defined.

(** Closing the device gives every client id back: [QmiWwanDeInit] sends one
    release for each service index that holds an id, in order, naming that index
    and id, and leaves the table empty.  The client of the IPv6 session sits at
    index 0x11 but was allocated for service WDS, so its release names service
    0x11, for which no client was ever allocated. *)
Theorem deinit_releases_all ctl_send stack d
    (Hstack : length stack = 256%nat)
    (Hsend : forall req d, exists r, ctl_send req d = Ok (r, d <| wdm_out := wdm_out d ++ [req] |>))
    (Hlen : length (qmiclientId d) = 255%nat) (Hids : bytes_ok (qmiclientId d)) :
  exists d' ms,
    QmiWwanDeInit ctl_send stack d = Ok (0, d')
    /\ qmiclientId d' = zeros 255
    /\ wdm_out d' = wdm_out d ++ ms
    /\ mapM released ms = Some (to_release 0 (qmiclientId d))
    /\ (forall c, qmiclientId d !! 17%nat = Some c -> c <> 0 ->
         (0x11, c) ∈ to_release 0 (qmiclientId d)).
Proof.
  destruct (deinit_loop ctl_send stack Hstack Hsend 255 0 d) as (d' & ms & E & Hq & Ho & Hm);
    [lia..|done|].
  exists d', ms. unfold QmiWwanDeInit, mbind, M_bind, M_get. rewrite Hlen, E.
  repeat split; try done. intros c Hc Hnz.
  assert (Hgen : forall ids i k, ids !! k = Some c -> (Z.of_nat (i + k), c) ∈ to_release i ids).
  { clear -Hnz. induction ids as [|x ids IH]; intros i k Hk; [done|]. cbn [to_release].
    apply elem_of_app. destruct k as [|k].
    - left. cbn in Hk. simplify_eq. destruct (Z.eqb_spec c 0); [done|].
      rewrite Nat.add_0_r. set_solver.
    - right. replace (i + S k)%nat with (S i + k)%nat by lia. by apply IH. }
  exact (Hgen _ 0%nat 17%nat Hc).
Qed.

Lemma deinit_releases_all_witness :
  exists d' ms,
    QmiWwanDeInit (fun req d => Ok ((0, None), d <| wdm_out := wdm_out d ++ [req] |>)) (zeros 256)
      wwan_demo = Ok (0, d') /\ mapM released ms = Some [(1, 3); (17, 4)].
Proof.
  destruct (deinit_releases_all
    (fun req d => Ok ((0, None), d <| wdm_out := wdm_out d ++ [req] |>)) (zeros 256) wwan_demo)
    as (d' & ms & E & _ & _ & Hm & _).
  - reflexivity.
  - intros req d. exists (0, None). reflexivity.
  - reflexivity.
  - refine (bool_decide_eq_true_1 _ _). vm_compute. reflexivity.
  - exists d', ms. split; [exact E|]. rewrite Hm. vm_compute. reflexivity.
Defined.
