(* ===== verification/QmiRequests.v ===== *)
(** The [request*] operations of QMIThread.c ([qmi_request_ops]): each composes a
    request, sends it through the transport and interprets the response, updating
    the statics of the file and the profile.  The transport is a parameter, which
    [QmiThreadSendQMITimeout] instantiates. *)
From S2P Require Import Prelude QmiTlv CmTypes QmiCompose QmiThread.
#[local] Open Scope Z_scope.

(** ** C library: [atoi] on the bytes before the NUL *)
Definition is_digit (c : Z) : bool := (48 <=? c) && (c <=? 57).
Definition is_space (c : Z) : bool := ((9 <=? c) && (c <=? 13)) || (c =? 32).
Fixpoint atoi_digits (acc : Z) (s : cstr) : Z :=
  match s with
  | c :: s => if is_digit c then atoi_digits (10 * acc + (c - 48)) s else acc
  | [] => acc
  end.
Fixpoint number_of (s : cstr) : Z :=
  match s with
  | [] => 0
  | c :: s' => if is_space c then number_of s'
               else if c =? 45 then - atoi_digits 0 s'
               else if c =? 43 then atoi_digits 0 s'
               else atoi_digits 0 s
  end.
(** [strtol] in base 10 stays within a [long] of 64 bits; [atoi] is its value as an [int]. *)
Definition LONG_MAX : Z := 9223372036854775807.
Definition long_of (s : cstr) : Z := Z.max (- LONG_MAX - 1) (Z.min LONG_MAX (number_of s)).
Definition atoi (s : cstr) : Z := s32 (long_of s).
Lemma atoi_small s : -2147483648 <= number_of s < 2147483648 -> atoi s = number_of s.
Proof.
  intros H. unfold atoi, long_of, LONG_MAX. rewrite Z.min_r, Z.max_r by lia. unfold s32, u32.
  destruct (Z.leb_spec 0 (number_of s)).
  - rewrite Z.mod_small by lia. by rewrite (proj2 (Z.ltb_lt _ _)) by lia.
  - rewrite <- (Z.mod_add (number_of s) 1), Z.mod_small by lia. rewrite (proj2 (Z.ltb_ge _ _)) by lia. lia.
Qed.

(** Bytes up to the first NUL. *)
Fixpoint until_nul (b : list Z) : cstr :=
  match b with
  | [] => []
  | c :: b => if c =? 0 then [] else c :: until_nul b
  end.

(** [uchar2char] into a [char[64]]: copies at most 63 bytes and terminates them. *)
Definition uchar2char (dst_len : nat) (src : list Z) : cstr := until_nul (take (dst_len - 1) src).

(** ** Constants *)
Definition SIM_ABSENT : Z := 0.
Definition SIM_NOT_READY : Z := 1.
Definition SIM_READY : Z := 2.
Definition SIM_PIN : Z := 3.
Definition SIM_PUK : Z := 4.
Definition SIM_NETWORK_PERSONALIZATION : Z := 5.
Definition SIM_BAD : Z := 6.
Definition QMI_PIN_STATUS_NOT_INIT : Z := 0.
Definition QMI_PIN_STATUS_NOT_VERIF : Z := 1.
Definition QMI_PIN_STATUS_VERIFIED : Z := 2.
Definition QMI_PIN_STATUS_DISABLED : Z := 3.
Definition QMI_PIN_STATUS_BLOCKED : Z := 4.
Definition QMI_PIN_STATUS_PERM_BLOCKED : Z := 5.
Definition QMI_ERR_EXTENDED_INTERNAL : Z := 0x51.
Definition DEVICE_CLASS_CDMA : Z := 1.
Definition DEVICE_CLASS_GSM : Z := 2.
Definition WWAN_DATA_CLASS_NONE : Z := 0.
Definition WWAN_DATA_CLASS_GPRS : Z := 0x1.
Definition WWAN_DATA_CLASS_EDGE : Z := 0x2.
Definition WWAN_DATA_CLASS_UMTS : Z := 0x4.
Definition WWAN_DATA_CLASS_HSDPA : Z := 0x8.
Definition WWAN_DATA_CLASS_HSUPA : Z := 0x10.
Definition WWAN_DATA_CLASS_LTE : Z := 0x20.
Definition WWAN_DATA_CLASS_5G_NSA : Z := 0x40.
Definition WWAN_DATA_CLASS_5G_SA : Z := 0x80.
Definition WWAN_DATA_CLASS_1XRTT : Z := 0x10000.
Definition WWAN_DATA_CLASS_1XEVDO : Z := 0x20000.
Definition WWAN_DATA_CLASS_1XEVDO_REVA : Z := 0x40000.
Definition WWAN_DATA_CLASS_1XEVDV : Z := 0x80000.
Definition WWAN_DATA_CLASS_3XRTT : Z := 0x100000.
Definition WWAN_DATA_CLASS_1XEVDO_REVB : Z := 0x200000.
Definition WWAN_DATA_CLASS_UMB : Z := 0x400000.
Definition WWAN_DATA_CLASS_CUSTOM : Z := 0x80000000.

Definition class2str : list (Z * string) :=
  [(WWAN_DATA_CLASS_NONE, "UNKNOWN"); (WWAN_DATA_CLASS_GPRS, "GPRS");
   (WWAN_DATA_CLASS_EDGE, "EDGE"); (WWAN_DATA_CLASS_UMTS, "UMTS");
   (WWAN_DATA_CLASS_HSDPA, "HSDPA"); (WWAN_DATA_CLASS_HSUPA, "HSUPA");
   (WWAN_DATA_CLASS_LTE, "LTE"); (WWAN_DATA_CLASS_5G_NSA, "5G_NSA");
   (WWAN_DATA_CLASS_5G_SA, "5G_SA"); (WWAN_DATA_CLASS_1XRTT, "1XRTT");
   (WWAN_DATA_CLASS_1XEVDO, "1XEVDO"); (WWAN_DATA_CLASS_1XEVDO_REVA, "1XEVDO_REVA");
   (WWAN_DATA_CLASS_1XEVDV, "1XEVDV"); (WWAN_DATA_CLASS_3XRTT, "3XRTT");
   (WWAN_DATA_CLASS_1XEVDO_REVB, "1XEVDO_REVB"); (WWAN_DATA_CLASS_UMB, "UMB");
   (WWAN_DATA_CLASS_CUSTOM, "CUSTOM")]%string.
Definition wwan_data_class2str (class : Z) : string :=
  match list_find (fun e => (e : Z * string).1 = class) class2str with
  | Some (_, e) => e.2
  | None => "UNKNOWN"%string
  end.

(** ** Pure helpers *)

(** [quectel_convert_cdma_mcc_2_ascii_mcc]; [unsigned int] arithmetic. *)
Definition quectel_convert_cdma_mcc_2_ascii_mcc (mcc : Z) : Z :=
  if mcc =? 0x3FF then 3
  else
    let buf := u32 (mcc + 111) in
    let d3 := buf mod 10 in
    let buf := if d3 =? 0 then u32 (buf - 10) / 10 else buf / 10 in
    let d2 := buf mod 10 in
    let buf := if d2 =? 0 then u32 (buf - 10) / 10 else buf / 10 in
    let d1 := if buf =? 10 then 0 else buf in
    if (d1 <? 10) && (d2 <? 10) && (d3 <? 10) then u16 (d1 * 100 + d2 * 10 + d3) else 0.

Definition quectel_convert_cdma_mnc_2_ascii_mnc (imsi_11_12 : Z) : Z :=
  if imsi_11_12 =? 0x7F then 7
  else
    let buf := u32 (imsi_11_12 + 11) in
    let d2 := buf mod 10 in
    let buf := if d2 =? 0 then u32 (buf - 10) / 10 else buf / 10 in
    let d1 := if buf =? 10 then 0 else buf in
    if (d1 <? 10) && (d2 <? 10) then u16 (d1 * 10 + d2) else 0.

(** [char2ushort]: 0xFF bytes become NULs. *)
Definition char2ushort (str : list Z) : Z :=
  u16 (atoi (until_nul ((fun c => if c =? 0xFF then 0 else c) <$> str))).

Definition cap (list class : Z) : bool := truth (Z.land list class).

(** ** The state of a request and the transport *)

(** What a request makes visible beyond its result: the line of
    [requestRegistrationState] on the log and the [ioctl] that hands the
    negotiated aggregation to the driver. *)
Inductive effect :=
  | LogRegistration (mcc mnc : Z) (attached : bool) (DataCap : string)
  | SetDriverQmap (q : QMAP_SETTING).

Record rq (W : Type) := mkRq {
  rq_g : statics; rq_p : PROFILE_T; rq_w : W; rq_log : list effect }.
Arguments mkRq {W}.
Arguments rq_g {W}.
Arguments rq_p {W}.
Arguments rq_w {W}.
Arguments rq_log {W}.

(** The send routine of [cm_command_mutex]'s holder, as its callers see it: the
    result and the response, if any. *)
Definition transport (W : Type) : Type := list Z -> M W (Z * option (list Z)).

(** The locals of [requestRegistrationState2]; [g_ps] is [*pPSAttachedState]. *)
Record sysinfo := mkSysinfo {
  g_ps : Z; g_mcc : Z; g_mnc : Z; g_caps : Z; g_class : Z; g_lte : Z;
  g_endc_valid : Z; g_endc : Z; g_dcnr_valid : Z; g_dcnr : Z; g_str : string }.
Definition sysinfo_init : sysinfo := mkSysinfo 0 0 0 0 0 0 0 0 0 1 "UNKNOW"%string.

Section Requests.
Context {W : Type} (send : transport W).

Definition R (A : Type) : Type := M (rq W) A.
#[local] Instance R_ret : MRet R := @M_ret (rq W).
#[local] Instance R_bind : MBind R := @M_bind (rq W).

Definition getg : R statics := fun s => Ok (rq_g s, s).
Definition getp : R PROFILE_T := fun s => Ok (rq_p s, s).
Definition updg (f : statics -> statics) : R unit := M_upd (fun s => s <| rq_g := f (rq_g s) |>).
Definition updp (f : PROFILE_T -> PROFILE_T) : R unit :=
  M_upd (fun s => s <| rq_p := f (rq_p s) |>).
Definition emit (e : effect) : R unit := M_upd (fun s => s <| rq_log := rq_log s ++ [e] |>).
Definition lift {A} (r : res A) : R A := M_lift r.
Definition when (b : bool) (m : R unit) : R unit := if b then m else mret tt.

(** [ComposeQMUXMsg] then [QmiThreadSendQMI]. *)
Definition request (QMIType Type_ : Z) (custom : option builder) : R (Z * option (list Z)) :=
  fun s =>
  match ComposeQMUXMsg QMIType Type_ custom (rq_g s) with
  | Ok (req, g') =>
      match send req (rq_w s) with
      | Ok (r, w') => Ok (r, s <| rq_g := g' |> <| rq_w := w' |>)
      | Fault => Fault
      | OutOfFuel => OutOfFuel
      end
  | Fault => Fault
  | OutOfFuel => OutOfFuel
  end.

(** [qmi_rsp_check_and_return]: [k] is the rest of the routine, [ret] pairs an early
    result with the out parameters as they are at that point. *)
Definition rsp_check {B} (ret : Z -> B) (r : Z * option (list Z)) (k : list Z -> R B) : R B :=
  let '(err, pResponse) := r in
  match pResponse with
  | None => mret (ret err)
  | Some rsp =>
      if err <? 0 then mret (ret err)
      else
        QMUXResult ← lift (rd16 rsp OFF_MUX_QMUXResult);
        QMUXError ← (if truth QMUXResult then mret 0 else lift (rd16 rsp OFF_MUX_QMUXError));
        if truth QMUXResult || truth QMUXError
        then e ← lift (rd16 rsp OFF_MUX_QMUXError); mret (ret e)
        else k rsp
  end.
Definition qmi_rsp_check_and_return := rsp_check (fun e : Z => e).

Definition tlv_of (rsp : list Z) (ty : Z) : R (option nat) := lift (GetTLV rsp OFF_QMUXMsgHdr ty).
(** [if (pTLV) f pTLV] *)
Definition with_tlv (rsp : list Z) (ty : Z) (f : nat -> R unit) : R unit :=
  o ← tlv_of rsp ty; match o with Some o => f o | None => mret tt end.
Definition rd (f : res Z) : R Z := lift f.

(** ** [requestSetEthMode] *)
Definition HARDWARE_ep_type (p : PROFILE_T) : Z :=
  if hardware_interface p =? HARDWARE_PCIE then 3 else 2.

(** The settings prepared when QMAP is on, from the profile as it is then. *)
Definition qmap_request_settings (p : PROFILE_T) : QMAP_SETTING :=
  let q := mkQMAP SIZEOF_QMAP_SETTING (qmap_size p) (HARDWARE_ep_type p) 4 (muxid p) 11 (8 * 1024) 0 in
  if truth (ri_size (rmnet_info p)) then
    q <| qs_rx_urb_size := ri_rx_urb_size (rmnet_info p) |>
      <| qs_ep_type := ri_ep_type (rmnet_info p) |>
      <| qs_iface_id := ri_iface_id (rmnet_info p) |>
      <| qs_dl_minimum_padding := ri_dl_minimum_padding (rmnet_info p) |>
  else q.

(** The response of the data-format request. *)
Definition read_data_format (rsp : list Z) (q : QMAP_SETTING) : R QMAP_SETTING :=
  _ ← with_tlv rsp 0x11 (fun o =>
        v ← rd (rd32 rsp (o + 3));
        _ ← updp (fun p => p <| rawIP := b2z (v =? 2) |>);
        updg (fun g => g <| s_9x07 := b2z (v =? 2) |>));
  p ← getp;
  o ← tlv_of rsp 0x16;
  q ← (match o with
       | Some o => if truth (qmap_mode p) then
                     v ← rd (rd32 rsp (o + 3)); mret (q <| qs_rx_urb_size := v |>)
                   else mret q
       | None => mret q end);
  if truth (qs_ul_data_aggregation_max_datagrams q) then
    o ← tlv_of rsp 0x17;
    q ← (match o with
         | Some o => v ← rd (rd32 rsp (o + 3));
             mret (q <| qs_ul_data_aggregation_max_datagrams :=
                          Z.min (qs_ul_data_aggregation_max_datagrams q) v |>)
         | None => mret q end);
    o ← tlv_of rsp 0x18;
    q ← (match o with
         | Some o => v ← rd (rd32 rsp (o + 3));
             mret (q <| qs_ul_data_aggregation_max_size :=
                          Z.min (qs_ul_data_aggregation_max_size q) v |>)
         | None => mret q end);
    o ← tlv_of rsp 0x1A;
    q ← (match o with
         | Some o => v ← rd (rd32 rsp (o + 3)); mret (q <| qs_dl_minimum_padding := v |>)
         | None => mret q end);
    _ ← when (1 <? qs_ul_data_aggregation_max_datagrams q) (emit (SetDriverQmap q));
    mret q
  else mret q.

(** From the label [skip_WdaSetDataFormat] on. *)
Definition set_eth_mode_tail (q : QMAP_SETTING) : R Z :=
  p ← getp;
  let auto : R Z :=
    _ ← request QMUX_TYPE_WDS 0x51 (Some (WdsSetAutoConnect 0)); mret 0 in
  let part6 : R Z :=
    p ← getp;
    if truth (enable_ipv6 p) then
      let pref6 : R Z :=
        r ← request QMUX_TYPE_WDS_IPV6 0x4D (Some (WdsSetClientIPFamilyPref IpFamilyV6));
        qmi_rsp_check_and_return r (fun _ => auto) in
      match qmapnet_adapter p with
      | _ :: _ =>
          r ← request QMUX_TYPE_WDS_IPV6 0xA2 (Some (WdsSetQMUXBindMuxDataPort q));
          qmi_rsp_check_and_return r (fun _ => pref6)
      | [] => pref6
      end
    else auto in
  if truth (enable_ipv4 p) then
    let pref4 : R Z :=
      _ ← request QMUX_TYPE_WDS 0x4D (Some (WdsSetClientIPFamilyPref IpFamilyV4)); part6 in
    match qmapnet_adapter p with
    | _ :: _ =>
        r ← request QMUX_TYPE_WDS 0xA2 (Some (WdsSetQMUXBindMuxDataPort q));
        qmi_rsp_check_and_return r (fun _ => pref4)
    | [] => pref4
    end
  else part6.

Definition requestSetEthMode : R Z :=
  p ← getp;
  let format (q : QMAP_SETTING) : R Z :=
    g ← getg;
    r ← request QMUX_TYPE_WDS_ADMIN 0x20 (Some (WdaSetDataFormat g q));
    qmi_rsp_check_and_return r (fun rsp => q ← read_data_format rsp q; set_eth_mode_tail q) in
  if truth (qmap_mode p) then
    _ ← updp (fun p => p <| rawIP := 1 |>);
    _ ← updg (fun g => g <| s_9x07 := 1 |>);
    let v := if negb (qmap_version p =? 9) then 5 else qmap_version p in
    _ ← updp (fun p => p <| qmap_version := v |>);
    p ← getp;
    let q := qmap_request_settings p in
    _ ← updg (fun g => g <| s_qmap_version :=
               if truth (ri_size (rmnet_info p)) then ri_qmap_version (rmnet_info p)
               else qmap_version p |>);
    if wda_client p =? 0 then set_eth_mode_tail q else format q
  else format (QMAP_SETTING_zero <| qs_size := SIZEOF_QMAP_SETTING |>).

(** ** SIM *)

(** [requestGetPINStatus]: result and [*pSIMStatus]. *)
Definition requestGetPINStatus (SIMStatus : Z) : R (Z * Z) :=
  g ← getg;
  r ← (if truth (s_9x07 g) then request QMUX_TYPE_UIM 0x2F no_builder
       else request QMUX_TYPE_DMS 0x2B no_builder);
  rsp_check (fun e => (e, SIMStatus)) r (fun rsp =>
    o ← tlv_of rsp 0x11;
    match o with
    | Some o =>
        st ← rd (rd8 rsp (o + 3));
        mret (0, if st =? QMI_PIN_STATUS_NOT_VERIF then SIM_PIN
                 else if st =? QMI_PIN_STATUS_BLOCKED then SIM_PUK
                 else if st =? QMI_PIN_STATUS_PERM_BLOCKED then SIM_BAD
                 else SIMStatus)
    | None => mret (0, SIMStatus)
    end).

(** Card state and PIN1 state of the UIM response, with the defaults of the source. *)
Definition card_state (rsp : list Z) : R (Z * Z) :=
  o ← tlv_of rsp 0x10;
  match o with
  | Some o =>
      aid ← rd (rd8 rsp (o + 24));
      CardState ← rd (rd8 rsp (o + 12));
      if CardState =? 1 then
        let pPINState := (o + 25 + Z.to_nat aid)%nat in
        UnivPIN ← rd (rd8 rsp pPINState);
        PIN1State ← (if UnivPIN =? 1 then rd (rd8 rsp (o + 13)) else rd (rd8 rsp (pPINState + 1)));
        mret (CardState, PIN1State)
      else mret (CardState, QMI_PIN_STATUS_NOT_VERIF)
  | None => mret (1, QMI_PIN_STATUS_NOT_VERIF)
  end.

Definition sim_of_card (CardState PIN1State : Z) : Z :=
  if (CardState =? 1)
     && ((PIN1State =? QMI_PIN_STATUS_VERIFIED) || (PIN1State =? QMI_PIN_STATUS_DISABLED))
  then SIM_READY
  else if CardState =? 1 then
    let st := if PIN1State =? QMI_PIN_STATUS_NOT_VERIF then SIM_PIN else SIM_ABSENT in
    if PIN1State =? QMI_PIN_STATUS_BLOCKED then SIM_PUK
    else if PIN1State =? QMI_PIN_STATUS_PERM_BLOCKED then SIM_BAD
    else if (PIN1State =? QMI_PIN_STATUS_NOT_INIT) || (PIN1State =? QMI_PIN_STATUS_VERIFIED)
            || (PIN1State =? QMI_PIN_STATUS_DISABLED) then SIM_READY
    else st
  else SIM_ABSENT.

(** The log line indexes [SIM_Status_String], which has six entries. *)
Definition SIM_Status_String_len : Z := 6.
Definition requestGetSIMStatus (SIMStatus : Z) : R (Z * Z) :=
  g ← getg;
  r ← (if truth (s_9x07 g) then request QMUX_TYPE_UIM 0x2F no_builder
       else request QMUX_TYPE_DMS 0x44 no_builder);
  rsp_check (fun e => (e, SIMStatus)) r (fun rsp =>
    g ← getg;
    sim ← (if truth (s_9x07 g) then c ← card_state rsp; mret (sim_of_card c.1 c.2)
           else
             UIMState ← rd (rd8 rsp 23);
             if UIMState =? 0 then mret SIM_READY
             else if UIMState =? 1 then e ← requestGetPINStatus SIM_ABSENT; mret e.2
             else mret SIM_ABSENT);
    if sim <? SIM_Status_String_len then mret (0, sim) else lift Fault).

Definition requestEnterSimPin (pPinCode : cstr) : R Z :=
  g ← getg;
  r ← (if truth (s_9x07 g)
       then request QMUX_TYPE_UIM 0x26 (Some (UimVerifyPinReqSend pPinCode))
       else request QMUX_TYPE_DMS 0x28 (Some (DmsUIMVerifyPinReqSend pPinCode)));
  qmi_rsp_check_and_return r (fun _ => mret 0).

(** ** Registration *)

(** [requestGetHomeNetwork] with the out parameters that are not NULL. *)
Definition requestGetHomeNetwork (mcc_mnc sid_nid : option (Z * Z))
    : R (Z * option (Z * Z) * option (Z * Z)) :=
  r ← request QMUX_TYPE_NAS 0x25 no_builder;
  rsp_check (fun e => (e, mcc_mnc, sid_nid)) r (fun rsp =>
    o ← tlv_of rsp 0x01;
    a ← (match o, mcc_mnc with
         | Some o, Some _ => x ← rd (rd16 rsp (o + 3)); y ← rd (rd16 rsp (o + 5)); mret (Some (x, y))
         | _, _ => mret mcc_mnc end);
    o ← tlv_of rsp 0x10;
    b ← (match o, sid_nid with
         | Some o, Some _ => x ← rd (rd16 rsp (o + 3)); y ← rd (rd16 rsp (o + 5)); mret (Some (x, y))
         | _, _ => mret sid_nid end);
    mret (0, a, b)).

(** [if(!requestGetHomeNetwork(&cmda_mcc, &cdma_mnc,NULL, NULL) && cmda_mcc)]: the
    converted codes. *)
Definition cdma_home (MCC MNC : Z) : R (Z * Z) :=
  r ← requestGetHomeNetwork (Some (0, 0)) None;
  match r with
  | (err, Some (cmda_mcc, cdma_mnc), _) =>
      if (err =? 0) && truth cmda_mcc
      then mret (quectel_convert_cdma_mcc_2_ascii_mcc cmda_mcc,
                 quectel_convert_cdma_mnc_2_ascii_mnc cdma_mnc)
      else mret (MCC, MNC)
  | _ => mret (MCC, MNC)
  end.

Definition set_cdma (si : sysinfo) : R unit :=
  updg (fun g => g <| s_is_cdma := b2z (g_lte si =? 0) |>).
Definition not_cdma : R unit := updg (fun g => g <| s_is_cdma := 0 |>).

(** Service-status TLVs (0x10 to 0x14, 0x24, 0x4A, 0x4E, 0x4F). *)
Definition service_status (ty SrvStatus : Z) (si : sysinfo) : R sysinfo :=
  let on := SrvStatus =? 2 in
  if ty =? 0x10 then
    if on then
      _ ← set_cdma si;
      mret (si <| g_caps := foldr Z.lor 0 [WWAN_DATA_CLASS_1XRTT; WWAN_DATA_CLASS_1XEVDO;
                              WWAN_DATA_CLASS_1XEVDO_REVA; WWAN_DATA_CLASS_1XEVDV;
                              WWAN_DATA_CLASS_1XEVDO_REVB] |>
               <| g_class := DEVICE_CLASS_CDMA |>)
    else mret si
  else if ty =? 0x11 then
    if on then
      _ ← set_cdma si;
      mret (si <| g_caps := Z.lor WWAN_DATA_CLASS_3XRTT WWAN_DATA_CLASS_UMB |>
               <| g_class := DEVICE_CLASS_CDMA |>)
    else mret si
  else if ty =? 0x12 then
    mret (if on then si <| g_caps := Z.lor WWAN_DATA_CLASS_GPRS WWAN_DATA_CLASS_EDGE |>
                        <| g_class := DEVICE_CLASS_GSM |> else si)
  else if ty =? 0x13 then
    mret (if on then si <| g_caps := WWAN_DATA_CLASS_UMTS |> <| g_class := DEVICE_CLASS_GSM |>
          else si)
  else if ty =? 0x14 then
    if on then
      _ ← not_cdma;
      mret (si <| g_caps := WWAN_DATA_CLASS_LTE |> <| g_class := DEVICE_CLASS_GSM |> <| g_lte := 1 |>)
    else mret si
  else if ty =? 0x4A then
    if on then
      _ ← not_cdma;
      mret (si <| g_caps := Z.lor (g_caps si) WWAN_DATA_CLASS_5G_SA |>
               <| g_class := DEVICE_CLASS_GSM |> <| g_lte := 1 |>)
    else mret si
  else if ty =? 0x4E then mret (si <| g_endc_valid := 1 |> <| g_endc := SrvStatus |>)
  else if ty =? 0x4F then mret (si <| g_dcnr_valid := 1 |> <| g_dcnr := SrvStatus |>)
  else (* 0x24 *) mret (if on then si <| g_str := "TD-SCDMA"%string |> else si).

(** [SrvDomainValid == 1 && (SrvDomain & 2)] *)
Definition ps_domain (rsp : list Z) (p : nat) : R bool :=
  v ← rd (rd8 rsp (p + 3));
  if v =? 1 then d ← rd (rd8 rsp (p + 4)); mret (truth (Z.land d 2)) else mret false.
(** [NetworkIdValid] at [o], the two codes behind it. *)
Definition network_id (rsp : list Z) (o : nat) (si : sysinfo) : R sysinfo :=
  v ← rd (rd8 rsp o);
  if v =? 1 then
    mcc ← lift (rdn rsp (o + 1) 3); mnc ← lift (rdn rsp (o + 4) 3);
    mret (si <| g_mcc := char2ushort mcc |> <| g_mnc := char2ushort mnc |>)
  else mret si.

(** System-info TLVs (0x15 to 0x19, 0x25, 0x4B) at offset [p]. *)
Definition system_info (rsp : list Z) (p : nat) (ty : Z) (si : sysinfo) : R sysinfo :=
  ps ← ps_domain rsp p;
  if ty =? 0x15 then
    _ ← when ps (set_cdma si);
    network_id rsp (p + 38) (if (ps : bool) then si <| g_ps := 1 |> else si)
  else if ty =? 0x16 then
    _ ← when ps (set_cdma si);
    let si := if (ps : bool) then si <| g_ps := 1 |> else si in
    _ ← when (truth (g_ps si))
          (v ← rd (rd8 rsp (p + 13));
           when (v =? 1)
             (h ← rd (rd8 rsp (p + 14));
              when (h =? 3) (updg (fun g => g <| s_hdr_personality := 2 |>))));
    c ← cdma_home (g_mcc si) (g_mnc si);
    mret (si <| g_mcc := c.1 |> <| g_mnc := c.2 |>)
  else if ty =? 0x19 then
    _ ← when ps not_cdma;
    network_id rsp (p + 22) (if (ps : bool) then si <| g_ps := 1 |> <| g_lte := 1 |> else si)
  else (* 0x17, 0x18, 0x25, 0x4B *)
    network_id rsp (p + 22) (if (ps : bool) then si <| g_ps := 1 |> else si).

Definition one_of (ty : Z) (l : list Z) : bool := existsb (Z.eqb ty) l.

(** The loop of [requestRegistrationState2] over the TLVs of the response. *)
Fixpoint sys_info_loop (fuel : nat) (rsp : list Z) (p : nat) (remainingLen : Z) (si : sysinfo)
    : R sysinfo :=
  match fuel with
  | O => lift OutOfFuel
  | S fuel =>
      if remainingLen <=? 0 then mret si
      else
        ty ← rd (rd8 rsp p);
        si ← (if one_of ty [0x10; 0x11; 0x12; 0x13; 0x14; 0x4A; 0x4E; 0x4F; 0x24]
              then st ← rd (rd8 rsp (p + 3)); service_status ty st si
              else if one_of ty [0x15; 0x16; 0x17; 0x18; 0x19; 0x25; 0x4B]
              then system_info rsp p ty si
              else mret si);
        l ← rd (rd16 rsp (p + 1));
        sys_info_loop fuel rsp (p + (Z.to_nat l + 3)) (remainingLen - (l + 3)) si
  end.

(** The technology name logged, and the 5G type it sets. *)
Definition cdma_cap_str (personality caps : Z) (str : string) : string :=
  if personality =? 2 then "eHRPD"%string
  else if cap caps WWAN_DATA_CLASS_1XEVDO_REVB then wwan_data_class2str WWAN_DATA_CLASS_1XEVDO_REVB
  else if cap caps WWAN_DATA_CLASS_1XEVDO_REVA then wwan_data_class2str WWAN_DATA_CLASS_1XEVDO_REVA
  else if cap caps WWAN_DATA_CLASS_1XEVDO then wwan_data_class2str WWAN_DATA_CLASS_1XEVDO
  else if cap caps WWAN_DATA_CLASS_1XRTT then wwan_data_class2str WWAN_DATA_CLASS_1XRTT
  else if cap caps WWAN_DATA_CLASS_3XRTT then wwan_data_class2str WWAN_DATA_CLASS_3XRTT
  else if cap caps WWAN_DATA_CLASS_UMB then wwan_data_class2str WWAN_DATA_CLASS_UMB
  else str.
Definition gsm_cap_str (caps : Z) (str : string) : string :=
  if cap caps WWAN_DATA_CLASS_5G_SA then wwan_data_class2str WWAN_DATA_CLASS_5G_SA
  else if cap caps WWAN_DATA_CLASS_5G_NSA then wwan_data_class2str WWAN_DATA_CLASS_5G_NSA
  else if cap caps WWAN_DATA_CLASS_LTE then wwan_data_class2str WWAN_DATA_CLASS_LTE
  else if cap caps WWAN_DATA_CLASS_HSDPA && cap caps WWAN_DATA_CLASS_HSUPA then "HSDPA_HSUPA"%string
  else if cap caps WWAN_DATA_CLASS_HSDPA then wwan_data_class2str WWAN_DATA_CLASS_HSDPA
  else if cap caps WWAN_DATA_CLASS_HSUPA then wwan_data_class2str WWAN_DATA_CLASS_HSUPA
  else if cap caps WWAN_DATA_CLASS_UMTS then wwan_data_class2str WWAN_DATA_CLASS_UMTS
  else if cap caps WWAN_DATA_CLASS_EDGE then wwan_data_class2str WWAN_DATA_CLASS_EDGE
  else if cap caps WWAN_DATA_CLASS_GPRS then wwan_data_class2str WWAN_DATA_CLASS_GPRS
  else str.
Definition gsm_5g_type (caps old : Z) : Z :=
  if cap caps WWAN_DATA_CLASS_5G_SA then WWAN_DATA_CLASS_5G_SA
  else if cap caps WWAN_DATA_CLASS_5G_NSA then WWAN_DATA_CLASS_5G_NSA else old.
(** Dual connectivity: LTE with an unrestricted 5G leg is 5G NSA. *)
Definition with_endc (si : sysinfo) : Z :=
  if cap (g_caps si) WWAN_DATA_CLASS_LTE
     && (truth (g_endc_valid si) && truth (g_dcnr_valid si))
     && (truth (g_endc si) && negb (truth (g_dcnr si)))
  then Z.lor (g_caps si) WWAN_DATA_CLASS_5G_NSA else g_caps si.

(** [requestRegistrationState2]: result and [*pPSAttachedState]. *)
Definition requestRegistrationState2 : R (Z * Z) :=
  r ← request QMUX_TYPE_NAS 0x4D no_builder;
  rsp_check (fun e => (e, 0)) r (fun rsp =>
    remainingLen ← rd (rd16 rsp OFF_MUX_Length);
    _ ← updg (fun g => g <| s_is_cdma := 0 |> <| s_5g_type := WWAN_DATA_CLASS_NONE |>
                         <| s_hdr_personality := 0 |>);
    si ← sys_info_loop (length rsp + 1) rsp OFF_TLV remainingLen sysinfo_init;
    let caps := with_endc si in
    g ← getg;
    str ← (if g_class si =? DEVICE_CLASS_CDMA
           then mret (cdma_cap_str (s_hdr_personality g) caps (g_str si))
           else _ ← updg (fun g => g <| s_5g_type := gsm_5g_type caps (s_5g_type g) |>);
                mret (gsm_cap_str caps (g_str si)));
    _ ← emit (LogRegistration (g_mcc si) (g_mnc si) (g_ps si =? 1) str);
    mret (0, g_ps si)).

(** The technology of a serving-system response. *)
Definition data_cap_str (d : Z) : string :=
  if d =? 0x01 then "GPRS" else if d =? 0x02 then "EDGE" else if d =? 0x03 then "HSDPA"
  else if d =? 0x04 then "HSUPA" else if d =? 0x05 then "UMTS" else if d =? 0x06 then "1XRTT"
  else if d =? 0x07 then "1XEVDO" else if d =? 0x08 then "1XEVDO_REVA" else if d =? 0x09 then "GPRS"
  else if d =? 0x0A then "1XEVDO_REVB" else if d =? 0x0B then "LTE" else if d =? 0x0C then "HSDPA"
  else if d =? 0x0D then "HSDPA" else "UNKNOW".
Definition serving_data_cap (rsp : list Z) : R string :=
  o ← tlv_of rsp 0x11;
  match o with
  | Some o =>
      n ← rd (rd8 rsp (o + 3));
      if truth n then
        d0 ← rd (rd8 rsp (o + 4));
        d ← (if (n =? 2) && (d0 =? 0x06) then
               d1 ← rd (rd8 rsp (o + 5));
               mret (if (d1 =? 0x08) || (d1 =? 0x0A) then d1 else d0)
             else mret d0);
        mret (data_cap_str d)
      else mret "UNKNOW"%string
  | None => mret "UNKNOW"%string
  end.

(** [pServingSystem && RegistrationState == 1 && InUseRadioIF], with [RadioIF]. *)
Definition radio_if (rsp : list Z) (o : option nat) : R (option Z) :=
  match o with
  | Some o =>
      st ← rd (rd8 rsp (o + 3));
      if st =? 1 then
        u ← rd (rd8 rsp (o + 7));
        if truth u then i ← rd (rd8 rsp (o + 8)); mret (Some i) else mret None
      else mret None
  | None => mret None
  end.

Definition requestRegistrationState (PSAttachedState : Z) : R (Z * Z) :=
  g ← getg;
  if truth (s_9x07 g) then requestRegistrationState2
  else
    r ← request QMUX_TYPE_NAS 0x24 no_builder;
    rsp_check (fun e => (e, PSAttachedState)) r (fun rsp =>
      o ← tlv_of rsp 0x12;
      plmn ← (match o with
              | Some o => x ← rd (rd16 rsp (o + 3)); y ← rd (rd16 rsp (o + 5)); mret (x, y)
              | None => mret (0, 0) end);
      sv ← tlv_of rsp 0x01;
      ps ← (match sv with
            | Some o => st ← rd (rd8 rsp (o + 3));
                if st =? 1 then rd (rd8 rsp (o + 5)) else mret 2
            | None => mret 0 end);
      str ← serving_data_cap rsp;
      ri ← radio_if rsp sv;
      let str := if bool_decide (ri = Some 9) then "TD-SCDMA"%string else str in
      _ ← not_cdma;
      x ← (if bool_decide (ri = Some 1 \/ ri = Some 2) then
             _ ← updg (fun g => g <| s_is_cdma := 1 |>);
             c ← cdma_home plmn.1 plmn.2;
             t ← tlv_of rsp 0x23;
             h ← (match t with Some t => rd (rd8 rsp (t + 3)) | None => mret 0 end);
             _ ← updg (fun g => g <| s_hdr_personality := h |>);
             mret (c, if h =? 2 then "eHRPD"%string else str)
           else mret (plmn, str));
      _ ← emit (LogRegistration x.1.1 x.1.2 (ps =? 1) x.2);
      mret (0, ps)).

(** ** Data calls *)
Definition wds_of (curIpFamily : Z) : Z :=
  if curIpFamily =? IpFamilyV4 then QMUX_TYPE_WDS else QMUX_TYPE_WDS_IPV6.
Definition handle_of (curIpFamily : Z) (g : statics) : Z :=
  if curIpFamily =? IpFamilyV4 then WdsConnectionIPv4Handle g else WdsConnectionIPv6Handle g.
Definition set_handle (curIpFamily h : Z) : R unit :=
  updg (fun g => if curIpFamily =? IpFamilyV4 then g <| WdsConnectionIPv4Handle := h |>
                 else g <| WdsConnectionIPv6Handle := h |>).

(** [requestQueryDataCall]: result and [*pConnectionStatus]. *)
Definition requestQueryDataCall (ConnectionStatus curIpFamily : Z) : R (Z * Z) :=
  r ← request (wds_of curIpFamily) 0x22 no_builder;
  rsp_check (fun e => (e, ConnectionStatus)) r (fun rsp =>
    o ← tlv_of rsp 0x01;
    st ← (match o with
          | Some o =>
              st ← rd (rd8 rsp (o + 3));
              l ← rd (rd16 rsp (o + 1));
              if l =? 2 then
                rq ← rd (rd8 rsp (o + 4));
                mret (if rq =? 1 then QWDS_PKT_DATA_DISCONNECTED else st)
              else mret st
          | None => mret QWDS_PKT_DATA_DISCONNECTED end);
    _ ← when (st =? QWDS_PKT_DATA_DISCONNECTED) (set_handle curIpFamily 0);
    mret (0, st)).

(** [requestSetupDataCall].  The error is read from the response after it was
    freed; the model reads the value the response had. *)
Definition requestSetupDataCall (curIpFamily_ : Z) : R Z :=
  _ ← updp (fun p => p <| curIpFamily := curIpFamily_ |>);
  g ← getg; p ← getp;
  r ← request (wds_of curIpFamily_) 0x20 (Some (WdsStartNwInterfaceReq g p));
  match r with
  | (err, None) => mret err
  | (err, Some rsp) =>
      if err <? 0 then mret err
      else
        QMUXResult ← rd (rd16 rsp OFF_MUX_QMUXResult);
        QMUXError ← rd (rd16 rsp OFF_MUX_QMUXError);
        if truth QMUXResult || truth QMUXError then
          _ ← with_tlv rsp 0x10 (fun o => _ ← rd (rd16 rsp (o + 3)); mret tt);
          _ ← with_tlv rsp 0x11 (fun o =>
                _ ← rd (rd16 rsp (o + 3)); _ ← rd (rd16 rsp (o + 5)); mret tt);
          mret QMUXError
        else
          h ← rd (rd32 rsp 23);
          _ ← set_handle curIpFamily_ h; mret 0
  end.

Definition requestDeactivateDefaultPDP (curIpFamily : Z) : R Z :=
  g ← getg;
  if (curIpFamily =? IpFamilyV4) && (WdsConnectionIPv4Handle g =? 0) then mret 0
  else if (curIpFamily =? IpFamilyV6) && (WdsConnectionIPv6Handle g =? 0) then mret 0
  else
    r ← request (wds_of curIpFamily) 0x21 (Some (WdsStopNwInterfaceReq g curIpFamily));
    qmi_rsp_check_and_return r (fun _ => _ ← set_handle curIpFamily 0; mret 0).

(** ** [requestGetIPAddress] *)
Definition upd4 (f : IPV4_T -> IPV4_T) : R unit := updp (fun p => p <| ipv4 := f (ipv4 p) |>).
Definition upd6 (f : IPV6_T -> IPV6_T) : R unit := updp (fun p => p <| ipv6 := f (ipv6 p) |>).

Definition read_pcscf6 (rsp : list Z) : R unit :=
  with_tlv rsp 0x2E (fun o =>
    n ← rd (rd8 rsp (o + 3));
    if n =? 1 then a ← lift (rdn rsp (o + 4) 16); updp (fun p => p <| PCSCFIpv6Addr1 := a |>)
    else when (n =? 2)
      (a ← lift (rdn rsp (o + 4) 16); b ← lift (rdn rsp (o + 20) 16);
       updp (fun p => p <| PCSCFIpv6Addr1 := a |> <| PCSCFIpv6Addr2 := b |>))).
Definition read_pcscf4 (rsp : list Z) : R unit :=
  with_tlv rsp 0x23 (fun o =>
    n ← rd (rd8 rsp (o + 3));
    if n =? 1 then a ← rd (rd32 rsp (o + 4)); updp (fun p => p <| PCSCFIpv4Addr1 := a |>)
    else when (n =? 2)
      (a ← rd (rd32 rsp (o + 4)); b ← rd (rd32 rsp (o + 8));
       updp (fun p => p <| PCSCFIpv4Addr1 := a |> <| PCSCFIpv4Addr2 := b |>))).

Definition read_addr4 (rsp : list Z) (ty : Z) (f : Z -> IPV4_T -> IPV4_T) : R unit :=
  with_tlv rsp ty (fun o => v ← rd (rd32 rsp (o + 3)); upd4 (f v)).
Definition read_addr6 (rsp : list Z) (ty : Z) (f : list Z -> IPV6_T -> IPV6_T) : R unit :=
  with_tlv rsp ty (fun o => v ← lift (rdn rsp (o + 3) 16); upd6 (f v)).
Definition read_addr6_prefix (rsp : list Z) (ty : Z) (f : list Z -> Z -> IPV6_T -> IPV6_T) : R unit :=
  with_tlv rsp ty (fun o =>
    v ← lift (rdn rsp (o + 3) 16); l ← rd (rd8 rsp (o + 19)); upd6 (f v l)).

Definition read_runtime_settings (rsp : list Z) (curIpFamily : Z) : R unit :=
  _ ← read_pcscf6 rsp;
  _ ← read_pcscf4 rsp;
  _ ← read_addr4 rsp 0x15 (fun v a => a <| v4_DnsPrimary := v |>);
  _ ← read_addr4 rsp 0x16 (fun v a => a <| v4_DnsSecondary := v |>);
  _ ← read_addr4 rsp 0x20 (fun v a => a <| v4_Gateway := v |>);
  _ ← read_addr4 rsp 0x21 (fun v a => a <| v4_SubnetMask := v |>);
  _ ← read_addr4 rsp 0x1E (fun v a => a <| v4_Address := v |>);
  _ ← read_addr6 rsp 0x27 (fun v a => a <| v6_DnsPrimary := v |>);
  _ ← read_addr6 rsp 0x28 (fun v a => a <| v6_DnsSecondary := v |>);
  _ ← read_addr6_prefix rsp 0x26
        (fun v l a => a <| v6_Gateway := v |> <| v6_PrefixLengthGateway := l |>);
  _ ← read_addr6_prefix rsp 0x25
        (fun v l a => a <| v6_Address := v |> <| v6_PrefixLengthIPAddr := l |>);
  with_tlv rsp 0x29 (fun o =>
    v ← rd (rd32 rsp (o + 3));
    if curIpFamily =? IpFamilyV4 then upd4 (fun a => a <| v4_Mtu := v |>)
    else upd6 (fun a => a <| v6_Mtu := v |>)).

Definition requestGetIPAddress (curIpFamily : Z) : R Z :=
  _ ← (if curIpFamily =? IpFamilyV4 then upd4 (fun _ => IPV4_zero)
       else when (curIpFamily =? IpFamilyV6) (upd6 (fun _ => IPV6_zero)));
  g ← getg;
  if ((curIpFamily =? IpFamilyV4) && (WdsConnectionIPv4Handle g =? 0))
     || ((curIpFamily =? IpFamilyV6) && (WdsConnectionIPv6Handle g =? 0)) then mret 0
  else
    r ← request (wds_of curIpFamily) 0x2D (Some WdsGetRuntimeSettingReq);
    qmi_rsp_check_and_return r (fun rsp => _ ← read_runtime_settings rsp curIpFamily; mret 0).

(** ** Profiles *)

(** The log lines index [ipStr], which has four entries. *)
Definition ipStr_len : Z := 4.
Definition ipStr_ok (i : Z) : bool := (0 <=? i) && (i <? ipStr_len).
Definition str_or_empty (s : option cstr) : cstr := default [] s.

Definition profile_unchanged (p : PROFILE_T) : bool :=
  bool_decide (old_apn p = str_or_empty (apn p)) && bool_decide (old_user p = str_or_empty (user p))
  && bool_decide (old_password p = str_or_empty (password p))
  && (old_iptype p =? iptype p) && (old_auth p =? auth p).

Definition requestSetProfile : R Z :=
  p ← getp;
  if negb (ipStr_ok (iptype p)) then lift Fault
  else if pdp p =? 0 then mret (-1)
  else if profile_unchanged p then mret 0
  else
    r ← request QMUX_TYPE_WDS 0x28 (Some (WdsModifyProfileSettingsReq p));
    qmi_rsp_check_and_return r (fun _ => mret 1).

(** The string TLV at [o] copied into a [char[64]]. *)
Definition read_str (rsp : list Z) (o : option nat) (f : cstr -> PROFILE_T -> PROFILE_T) : R unit :=
  match o with
  | Some o =>
      l ← rd (rd16 rsp (o + 1));
      b ← lift (rdn rsp (o + 3) (Nat.min 63 (Z.to_nat l)));
      updp (f (uchar2char 64 b))
  | None => mret tt
  end.

Definition read_profile (rsp : list Z) : R Z :=
  oa ← tlv_of rsp 0x14; ou ← tlv_of rsp 0x1B; op ← tlv_of rsp 0x1C;
  oau ← tlv_of rsp 0x1D; oi ← tlv_of rsp 0x11;
  _ ← read_str rsp oa (fun v p => p <| old_apn := v |>);
  _ ← read_str rsp ou (fun v p => p <| old_user := v |>);
  _ ← read_str rsp op (fun v p => p <| old_password := v |>);
  _ ← (match oau with
       | Some o => v ← rd (rd8 rsp (o + 3)); updp (fun p => p <| old_auth := v |>)
       | None => mret tt end);
  _ ← (match oi with
       | Some o => v ← rd (rd8 rsp (o + 3)); updp (fun p => p <| old_iptype := v |>)
       | None => mret tt end);
  p ← getp;
  if ipStr_ok (old_iptype p) then mret 0 else lift Fault.

(** The jump back to [_re_check] after a profile was created is bounded by the
    modem's answers only; [fuel] bounds it here. *)
Fixpoint get_profile_loop (fuel : nat) : R Z :=
  match fuel with
  | O => lift OutOfFuel
  | S fuel =>
      p ← getp;
      r ← request QMUX_TYPE_WDS 0x2B (Some (WdsGetProfileSettingsReqSend p));
      missing ← (match r with
                 | (err, Some rsp) =>
                     if err =? 0 then
                       QMUXResult ← rd (rd16 rsp OFF_MUX_QMUXResult);
                       if truth QMUXResult then
                         e ← rd (rd16 rsp OFF_MUX_QMUXError); mret (e =? QMI_ERR_EXTENDED_INTERNAL)
                       else mret false
                     else mret false
                 | _ => mret false
                 end);
      if (missing : bool) then
        r ← request QMUX_TYPE_WDS 0x27 (Some (WdsCreateProfileSettingsReqSend p));
        qmi_rsp_check_and_return r (fun _ => get_profile_loop fuel)
      else qmi_rsp_check_and_return r read_profile
  end.

Definition wanted_iptype (p : PROFILE_T) : Z :=
  if truth (enable_ipv4 p) && truth (enable_ipv6 p) then 3
  else if truth (enable_ipv6 p) then 2 else 0.

(** The fields cleared and the IP type chosen before the modem is asked. *)
Definition fresh_profile (p : PROFILE_T) : PROFILE_T :=
  p <| old_apn := [] |> <| old_user := [] |> <| old_password := [] |>
    <| old_auth := 0 |> <| old_iptype := 0 |> <| iptype := wanted_iptype p |>.

Definition requestGetProfile (fuel : nat) : R Z :=
  _ ← updp fresh_profile;
  p ← getp;
  if pdp p =? 0 then mret 0 else get_profile_loop fuel.

(** ** Device *)
Definition requestBaseBandVersion : R Z :=
  r ← request QMUX_TYPE_DMS 0x23 no_builder;
  qmi_rsp_check_and_return r (fun rsp =>
    o ← tlv_of rsp 0x01;
    match o with
    | Some o =>
        l ← rd (rd16 rsp (o + 1));
        _ ← when (truth l) (read_str rsp (Some o) (fun v p => p <| BaseBandVersion := v |>));
        mret 0
    | None => mret 0
    end).

Definition requestRadioPower (state : Z) : R Z :=
  r ← request QMUX_TYPE_DMS 0x2E (Some (DmsSetOperatingModeReq (if truth state then 0 else 1)));
  qmi_rsp_check_and_return r (fun _ =>
    r ← request QMUX_TYPE_UIM (if truth state then 0x31 else 0x30) (Some (UimSetCardSlotReq 1));
    qmi_rsp_check_and_return r (fun _ => mret 0)).

(** The two values are stored into the composed message; the factor goes through
    [cpu_to_le16] into its four bytes. *)
Definition requestSetLoopBackState (loopback_state replication_factor : Z) : R Z := fun s =>
  match ComposeQMUXMsg QMUX_TYPE_WDS_ADMIN 0x2F (Some WdaSetLoopBackReq) (rq_g s) with
  | Ok (req, g') =>
      match (b ← wr 16 [u8 loopback_state] req; wr 20 (enc32 (u16 replication_factor)) b) with
      | Ok req =>
          match send req (rq_w s) with
          | Ok (r, w') => qmi_rsp_check_and_return r (fun _ => mret 0)
                            (s <| rq_g := g' |> <| rq_w := w' |>)
          | Fault => Fault
          | OutOfFuel => OutOfFuel
          end
      | Fault => Fault
      | OutOfFuel => OutOfFuel
      end
  | Fault => Fault
  | OutOfFuel => OutOfFuel
  end.
End Requests.
