(* ===== verification/QmiRequestsSpec.v ===== *)
(** Properties of the [request*] operations: data-call sessions, profile
    synchronisation, run-time settings, SIM status, the negotiated aggregation,
    termination, and the interface to the transport. *)
From S2P Require Import Prelude QmiTlv CmTypes QmiCompose QmiComposeSpec QmiThread QmiRequests.
#[local] Open Scope Z_scope.

(** ** Specification of responses

    A response is a QMUX message whose first TLV is the result code. *)
Definition result_tlv (res err : Z) : tlv := (2, enc16 res ++ enc16 err).
Definition rsp_msg (h : list Z) (ty res err : Z) (ts : list tlv) : list Z :=
  mux_msg h ty (result_tlv res err :: ts).

(** What a send returns: nothing (an error, a timeout, or 0 when the reader quits)
    or a response. *)
Inductive answer :=
  | NoResponse (err : Z)
  | Response (h : list Z) (res err : Z) (ts : list tlv).
Definition answer_val (ty : Z) (a : answer) : Z * option (list Z) :=
  match a with
  | NoResponse err => (err, None)
  | Response h res err ts => (0, Some (rsp_msg h ty res err ts))
  end.
Definition answer_ok (a : answer) : Prop :=
  match a with
  | NoResponse _ => True
  | Response h res err ts =>
      length h = 9%nat /\ 0 <= res < 65536 /\ 0 <= err < 65536
      /\ Z.of_nat (length (encode_tlvs (result_tlv res err :: ts))) < 65536
  end.
(** The modem confirmed the request. *)
Definition confirmed (a : answer) : bool :=
  match a with NoResponse _ => false | Response _ res err _ => (res =? 0) && (err =? 0) end.
(** What [qmi_rsp_check_and_return] returns otherwise. *)
Definition failure (a : answer) : Z :=
  match a with NoResponse err => err | Response _ _ err _ => err end.
Definition answer_msg (ty : Z) (a : answer) : list Z :=
  match a with NoResponse _ => [] | Response h res err ts => rsp_msg h ty res err ts end.

(** Value of the first TLV of a type. *)
Fixpoint tlv_val (ty : Z) (ts : list tlv) : option (list Z) :=
  match ts with
  | [] => None
  | t :: ts => if t.1 =? ty then Some t.2 else tlv_val ty ts
  end.
Definition dec32 (v : list Z) : Z :=
  match rd32 v 0 with Ok x => x | _ => 0 end.

(** The transport made of [QmiThreadSendQMITimeout] and a device, with the
    behaviour of the reader during each call as a list to be consumed. *)
Definition thread_world (D : Type) : Type := cm_state * D * list (list (option (list Z)) * Z).
Definition thread_send {D} (dev : list Z -> M D (Z * list Z)) : transport (thread_world D) :=
  fun req '(s, d, env) =>
  let '(script, rc, env') :=
    match env with (script, rc) :: env' => (script, rc, env') | [] => ([], ETIMEDOUT, []) end in
  match QmiThreadSendQMITimeout dev (Some req) true script rc (s, d) with
  | Ok (r, (s', d')) => Ok (r, (s', d', env'))
  | Fault => Fault
  | OutOfFuel => OutOfFuel
  end.

(** The transaction id the next request gets, and the statics after it. *)
Definition next_tid (g : statics) : Z := 1 + TransactionId g mod 65535.
Definition tick (g : statics) : statics := g <| TransactionId := next_tid g |>.
Definition tid_ok (g : statics) : Prop := 0 <= TransactionId g <= 65535.

Definition for_family (fam : Z) (p : PROFILE_T) : PROFILE_T := p <| curIpFamily := fam |>.

(** 3GPP2 codes: the digit 0 is coded as 10. *)
Definition digit3gpp2 (d : Z) : Z := if d =? 0 then 10 else d.
Definition mcc_code (d1 d2 d3 : Z) : Z :=
  100 * digit3gpp2 d1 + 10 * digit3gpp2 d2 + digit3gpp2 d3 - 111.
Definition mnc_code (d1 d2 : Z) : Z := 10 * digit3gpp2 d1 + digit3gpp2 d2 - 11.
Definition digits : list Z := [0; 1; 2; 3; 4; 5; 6; 7; 8; 9].

(** ** Lemmas on responses *)
Lemma find_tlv_val ty ts o :
  find_tlv ty ts = Some o ->
  exists pre v post, ts = pre ++ (ty, v) :: post /\ o = length (encode_tlvs pre)
    /\ tlv_val ty ts = Some v.
Proof.
  revert o. induction ts as [|[t v] ts IH]; intros o; [done|]. cbn [find_tlv tlv_val fst snd].
  destruct (Z.eqb_spec t ty) as [->|].
  - intros [= <-]. by exists [], v, ts.
  - destruct (find_tlv ty ts) as [o'|]; [|done]. intros [= <-].
    destruct (IH _ eq_refl) as (pre & w & post & -> & -> & Hv).
    exists ((t, v) :: pre), w, post. rewrite encode_tlvs_cons, length_app. done.
Qed.
Lemma find_tlv_none_val ty ts : find_tlv ty ts = None -> tlv_val ty ts = None.
Proof.
  induction ts as [|[t v] ts IH]; [done|]. cbn [find_tlv tlv_val fst snd].
  destruct (Z.eqb_spec t ty); [done|]. rewrite fmap_None. apply IH.
Qed.

(** Reading inside the value of the TLV found at [13 + o]. *)
Lemma mux_value h mty ts ty o :
  length h = 9%nat -> Z.of_nat (length (encode_tlvs ts)) < 65536 ->
  find_tlv ty ts = Some o ->
  exists v pre post, tlv_val ty ts = Some v /\ mux_msg h mty ts = pre ++ v ++ post
    /\ length pre = (13 + o + 3)%nat
    /\ rd16 (mux_msg h mty ts) (13 + o + 1) = Ok (Z.of_nat (length v)).
Proof.
  intros Hh Hl E. destruct (find_tlv_val _ _ _ E) as (p & v & q & -> & -> & Hv).
  rewrite encode_tlvs_app, encode_tlvs_cons, !length_app, length_encode_tlv in Hl. cbn in Hl.
  set (p0 := h ++ enc16 mty ++ enc16 (Z.of_nat (length (encode_tlvs (p ++ (ty, v) :: q))))
             ++ encode_tlvs p).
  assert (Hm : mux_msg h mty (p ++ (ty, v) :: q) = p0 ++ encode_tlv (ty, v) ++ encode_tlvs q).
  { unfold mux_msg, p0. rewrite encode_tlvs_app, encode_tlvs_cons, <- !app_assoc. done. }
  exists v, (p0 ++ ty :: enc16 (Z.of_nat (length v))), (encode_tlvs q).
  assert (Hp : length p0 = (13 + length (encode_tlvs p))%nat) by (unfold p0; len).
  split; [done|]. split; [|split].
  - rewrite Hm. unfold encode_tlv. cbn [fst snd]. rewrite <- !app_assoc. done.
  - rewrite length_app, Hp. len.
  - rewrite Hm, <- Hp. apply rd_tlv_len. cbn. lia.
Qed.

Lemma rd8_value pre v post k : (k < length v)%nat -> rd8 (pre ++ v ++ post) (length pre + k) = rd8 v k.
Proof. intros. rewrite rd8_app_r. by apply rd8_app_l. Qed.
Lemma rd16_value pre v post k :
  (k + 1 < length v)%nat -> rd16 (pre ++ v ++ post) (length pre + k) = rd16 v k.
Proof. intros. unfold rd16. rewrite <- Nat.add_assoc, !rd8_value by lia. done. Qed.
Lemma rd32_value pre v post k :
  (k + 3 < length v)%nat -> rd32 (pre ++ v ++ post) (length pre + k) = rd32 v k.
Proof. intros. unfold rd32. rewrite <- Nat.add_assoc, !rd16_value by lia. done. Qed.
Lemma rdn_value pre v post n :
  (n <= length v)%nat -> rdn (pre ++ v ++ post) (length pre) n = Ok (take n v).
Proof.
  intros H. pose proof (rdn_app pre (take n v) (drop n v ++ post)) as E.
  rewrite length_take_le, (app_assoc (take n v)), take_drop in E by done. done.
Qed.

Section Lemmas.
Context {W : Type} (send : transport W).

Lemma rd_result h ty res err ts :
  length h = 9%nat ->
  rd16 (rsp_msg h ty res err ts) OFF_MUX_QMUXResult = Ok (u16 res)
  /\ rd16 (rsp_msg h ty res err ts) OFF_MUX_QMUXError = Ok (u16 err).
Proof.
  intros H. do 9 (destruct h as [|? h]; [discriminate H|]). destruct h; [|discriminate H].
  unfold rsp_msg, mux_msg, result_tlv. rewrite encode_tlvs_cons. unfold encode_tlv.
  cbn [fst snd length app enc16]. unfold rd16, rd8, OFF_MUX_QMUXResult, OFF_MUX_QMUXError.
  split; cbn -[Z.add Z.mul Z.div Z.modulo]; by rewrite enc16_value.
Qed.

(** The check of a successful response continues, of a failed one returns the
    modem's error. *)
Lemma rsp_check_success {B} (ret : Z -> B) h ty ts k (s : rq W) :
  length h = 9%nat ->
  rsp_check ret (0, Some (rsp_msg h ty 0 0 ts)) k s = k (rsp_msg h ty 0 0 ts) s.
Proof.
  intros H. destruct (rd_result h ty 0 0 ts H) as [E1 E2].
  unfold rsp_check, mbind, R_bind, M_bind, lift, M_lift. cbn [Z.ltb Z.compare].
  rewrite E1. cbn. by rewrite E2.
Qed.
Lemma rsp_check_error {B} (ret : Z -> B) h ty res err ts k (s : rq W) :
  length h = 9%nat -> truth (u16 res) = true ->
  rsp_check ret (0, Some (rsp_msg h ty res err ts)) k s = Ok (ret (u16 err), s).
Proof.
  intros H Hr. destruct (rd_result h ty res err ts H) as [E1 E2].
  unfold rsp_check, mbind, R_bind, M_bind, lift, M_lift. cbn [Z.ltb Z.compare].
  rewrite E1, Hr. cbn. rewrite E2. done.
Qed.

Lemma rsp_check_answer {B} (ret : Z -> B) ty a k (s : rq W) :
  answer_ok a ->
  rsp_check ret (answer_val ty a) k s
  = if confirmed a then k (answer_msg ty a) s else Ok (ret (failure a), s).
Proof.
  destruct a as [err|h res err ts]; [done|]. intros (Hh & Hr & He & _). cbn [answer_val confirmed].
  destruct (rd_result h ty res err ts Hh) as [E1 E2].
  unfold rsp_check, mbind, R_bind, M_bind, lift, M_lift. cbn [Z.ltb Z.compare].
  rewrite u16_id in E1, E2 by lia. rewrite E1. unfold truth.
  destruct (Z.eqb_spec res 0) as [->|]; cbn [negb orb andb].
  - rewrite E2. destruct (Z.eqb_spec err 0) as [->|]; cbn [negb orb]; [done|]. by rewrite ?E2.
  - cbn. by rewrite E2.
Qed.

Lemma tlv_of_rsp h ty res err ts want (s : rq W) :
  length h = 9%nat -> Z.of_nat (length (encode_tlvs (result_tlv res err :: ts))) < 65536 ->
  want <= 0x1000 -> want <> 2 ->
  tlv_of (rsp_msg h ty res err ts) want s
  = Ok (Nat.add 13 <$> find_tlv want (result_tlv res err :: ts), s).
Proof.
  intros Hh Hl Hw H2. unfold tlv_of, lift, M_lift, rsp_msg. by rewrite GetTLV_mux.
Qed.

(** Access to the TLVs of a response by type. *)
Lemma tlv_access h ty res err ts want v (s : rq W) :
  answer_ok (Response h res err ts) -> want <= 0x1000 -> want <> 2 -> tlv_val want ts = Some v ->
  exists o pre post, tlv_of (rsp_msg h ty res err ts) want s = Ok (Some o, s)
    /\ rsp_msg h ty res err ts = pre ++ v ++ post /\ length pre = (o + 3)%nat
    /\ rd16 (rsp_msg h ty res err ts) (o + 1) = Ok (Z.of_nat (length v)).
Proof.
  intros (Hh & _ & _ & Hl) Hw H2 Hv. rewrite tlv_of_rsp by done.
  assert (Hv' : tlv_val want (result_tlv res err :: ts) = Some v).
  { cbn [tlv_val result_tlv fst]. by destruct (Z.eqb_spec 2 want); [congruence|]. }
  destruct (find_tlv want (result_tlv res err :: ts)) as [o|] eqn:E.
  2: { apply find_tlv_none_val in E. congruence. }
  destruct (mux_value h ty _ _ _ Hh Hl E) as (v' & pre & post & Hv2 & Hm & Hp & Hr).
  rewrite Hv' in Hv2. simplify_eq. exists (13 + o)%nat, pre, post. done.
Qed.
Lemma tlv_absent h ty res err ts want (s : rq W) :
  answer_ok (Response h res err ts) -> want <= 0x1000 -> want <> 2 -> tlv_val want ts = None ->
  tlv_of (rsp_msg h ty res err ts) want s = Ok (None, s).
Proof.
  intros (Hh & _ & _ & Hl) Hw H2 Hv. rewrite tlv_of_rsp by done.
  destruct (find_tlv want (result_tlv res err :: ts)) as [o|] eqn:E; [|done].
  destruct (find_tlv_val _ _ _ E) as (_ & v & _ & _ & _ & Hv2).
  cbn [tlv_val result_tlv fst] in Hv2. destruct (Z.eqb_spec 2 want); congruence.
Qed.

(** A request with a builder that keeps its promise, or with none. *)
Lemma request_run qt ty f ts (s : rq W) :
  Realises f ts -> (length (encode_tlvs ts) < 243)%nat -> tid_ok (rq_g s) ->
  request send qt ty (Some f) s
  = match send (request_msg qt ty (next_tid (rq_g s)) ts) (rq_w s) with
    | Ok (r, w') => Ok (r, s <| rq_g := tick (rq_g s) |> <| rq_w := w' |>)
    | Fault => Fault
    | OutOfFuel => OutOfFuel
    end.
Proof.
  intros Hf Hl Hg. unfold request, ComposeQMUXMsg, mbind, M_bind.
  rewrite GetQMUXTransactionId_next by done. unfold M_lift.
  rewrite (compose_buf_realises _ _ _ f ts) by done. done.
Qed.
Lemma request_run_none qt ty (s : rq W) :
  tid_ok (rq_g s) ->
  request send qt ty no_builder s
  = match send (request_msg qt ty (next_tid (rq_g s)) []) (rq_w s) with
    | Ok (r, w') => Ok (r, s <| rq_g := tick (rq_g s) |> <| rq_w := w' |>)
    | Fault => Fault
    | OutOfFuel => OutOfFuel
    end.
Proof.
  intros Hg. unfold request, ComposeQMUXMsg, no_builder, mbind, M_bind.
  rewrite GetQMUXTransactionId_next by done. unfold M_lift. by rewrite compose_buf_none.
Qed.

Lemma rd_handle h ty hd ts :
  length h = 9%nat -> rd32 (rsp_msg h ty 0 0 ((1, enc32 hd) :: ts)) 23 = Ok (u32 hd).
Proof.
  intros H. do 9 (destruct h as [|? h]; [discriminate H|]). destruct h; [|discriminate H].
  unfold rsp_msg, mux_msg, result_tlv. rewrite !encode_tlvs_cons. unfold encode_tlv.
  cbn [fst snd length app enc16 enc32]. unfold rd32, rd16, rd8.
  cbn -[Z.add Z.mul Z.div Z.modulo]. by rewrite enc32_value.
Qed.
End Lemmas.

(** ** Properties *)

(** C26. Starting a data session, for a profile whose request fits the buffer (its TLVs take
    less than 243 bytes; a longer APN, user or password overruns it).  The request sent is
    the start-network message of the profile for the address family, on the service of
    the family; on success, the session handle of that family is what the response holds
    right behind the result, where the code looks for it: the handle of the modem, if
    the modem puts its TLV there first.  The other family's handle is untouched, and the
    profile changes in [curIpFamily] only. *)
Theorem setup_data_call_ok {W} (send : transport W) (s : rq W) fam h x ts w'
    (Hg : tid_ok (rq_g s)) (Hh : length h = 9%nat)
    (Hl : (length (encode_tlvs (start_tlvs (rq_g s) (for_family fam (rq_p s)))) < 243)%nat)
    (Hx : rd32 (rsp_msg h 0x20 0 0 ts) 23 = Ok x)
    (Hs : send (request_msg (wds_of fam) 0x20 (next_tid (rq_g s))
                  (start_tlvs (rq_g s) (for_family fam (rq_p s)))) (rq_w s)
          = Ok ((0, Some (rsp_msg h 0x20 0 0 ts)), w')) :
  exists s',
    requestSetupDataCall send fam s = Ok (0, s')
    /\ handle_of fam (rq_g s') = x
    /\ (forall hd ts', ts = (1, enc32 hd) :: ts' -> 0 <= hd < 4294967296 -> handle_of fam (rq_g s') = hd)
    /\ (forall f, (f =? IpFamilyV4) <> (fam =? IpFamilyV4) ->
                  handle_of f (rq_g s') = handle_of f (rq_g s))
    /\ rq_p s' = for_family fam (rq_p s) /\ rq_w s' = w'.
Proof.
  assert (Hhd : forall hd ts', ts = (1, enc32 hd) :: ts' -> 0 <= hd < 4294967296 -> x = hd).
  { intros hd ts' -> Hhd. rewrite rd_handle, u32_id in Hx by done. by injection Hx. }
  unfold requestSetupDataCall, updp, getg, getp, mbind, R_bind, M_bind, M_upd.
  rewrite (request_run send _ _ _ (start_tlvs (rq_g s) (for_family fam (rq_p s))))
    by (done || apply Realises_start). cbn [rq_w rq_g].
  change (rq_w (s <| rq_p := _ |>)) with (rq_w s). change (rq_g (s <| rq_p := _ |>)) with (rq_g s).
  rewrite Hs. cbn [Z.ltb Z.compare]. unfold rd, lift, M_lift.
  destruct (rd_result h 0x20 0 0 ts Hh) as [-> ->].
  cbn [truth u16 Z.eqb negb orb Z.modulo Z.div_eucl]. rewrite Hx.
  unfold set_handle, updg, M_upd, handle_of. eexists. split; [reflexivity|].
  cbn. destruct (fam =? IpFamilyV4) eqn:E; cbn; repeat split; try done;
    intros f Hf; by destruct (f =? IpFamilyV4).
Qed.

Definition rq_demo : rq unit := mkRq statics_init PROFILE_zero tt [].
Lemma setup_data_call_ok_witness :
  exists s', requestSetupDataCall
      (fun _ w => Ok ((0, Some (rsp_msg (zeros 9) 0x20 0 0 [(1, enc32 77)])), w)) IpFamilyV4 rq_demo
    = Ok (0, s') /\ handle_of IpFamilyV4 (rq_g s') = 77.
Proof.
  destruct (setup_data_call_ok
    (fun _ w => Ok ((0, Some (rsp_msg (zeros 9) 0x20 0 0 [(1, enc32 77)])), w)) rq_demo IpFamilyV4
    (zeros 9) 77 [(1, enc32 77)] tt) as (s' & E & H & _); try reflexivity.
  - vm_compute. split; discriminate.
  - vm_compute. lia.
  - exists s'. exact (conj E H).
Defined.

(** Ending a data session: without a session nothing is sent; with one the
    stop request carries exactly the handle of the family, and the handle is
    cleared only when the modem confirmed the stop: after a modem error or a
    missing response it is kept, so that the stop can be repeated. *)
Theorem deactivate_data_call {W} (send : transport W) (s : rq W) fam a w'
    (Hg : tid_ok (rq_g s)) (Hf : fam = IpFamilyV4 \/ fam = IpFamilyV6) (Ha : answer_ok a)
    (Hs : send (request_msg (wds_of fam) 0x21 (next_tid (rq_g s))
                  [tlv32 1 (handle_of fam (rq_g s))]) (rq_w s) = Ok (answer_val 0x21 a, w')) :
  if handle_of fam (rq_g s) =? 0 then requestDeactivateDefaultPDP send fam s = Ok (0, s)
  else exists s', requestDeactivateDefaultPDP send fam s
                  = Ok (if confirmed a then 0 else failure a, s')
        /\ rq_w s' = w' /\ rq_p s' = rq_p s
        /\ handle_of fam (rq_g s') = (if confirmed a then 0 else handle_of fam (rq_g s)).
Proof.
  assert (Hq : request send (wds_of fam) 0x21 (Some (WdsStopNwInterfaceReq (rq_g s) fam)) s
    = Ok (answer_val 0x21 a, s <| rq_g := tick (rq_g s) |> <| rq_w := w' |>)).
  { rewrite (request_run send _ _ _ [tlv32 1 (handle_of fam (rq_g s))]); [|apply _|vm_compute; lia|done].
    by rewrite Hs. }
  unfold requestDeactivateDefaultPDP, getg.
  destruct Hf as [-> | ->]; unfold handle_of; cbn [Z.eqb IpFamilyV4 IpFamilyV6 Pos.eqb andb] in *;
    unfold mbind, R_bind, M_bind;
    (match goal with |- context [?h =? 0] => destruct (h =? 0) end; [done|]); cbv beta iota;
    rewrite Hq; unfold qmi_rsp_check_and_return; rewrite rsp_check_answer by done;
    destruct (confirmed a); by eexists.
Qed.

Lemma deactivate_data_call_witness :
  exists s', requestDeactivateDefaultPDP (fun _ w => Ok (answer_val 0x21 (NoResponse 110), w)) IpFamilyV4
      (mkRq (statics_init <| WdsConnectionIPv4Handle := 5 |>) PROFILE_zero tt []) = Ok (110, s')
    /\ handle_of IpFamilyV4 (rq_g s') = 5.
Proof.
  destruct (deactivate_data_call (fun _ w => Ok (answer_val 0x21 (NoResponse 110), w))
    (mkRq (statics_init <| WdsConnectionIPv4Handle := 5 |>) PROFILE_zero tt []) IpFamilyV4
    (NoResponse 110) tt) as (s' & E & _ & _ & H).
  - vm_compute. split; discriminate.
  - left. reflexivity.
  - exact I.
  - reflexivity.
  - exists s'. exact (conj E H).
Defined.

(** MCC and MNC in 3GPP2 coding are decoded right for every code: all three
    digits of the country code and both of the network code come back. *)
Theorem cdma_codes_roundtrip d1 d2 d3
    (H1 : d1 ∈ digits) (H2 : d2 ∈ digits) (H3 : d3 ∈ digits) :
  quectel_convert_cdma_mcc_2_ascii_mcc (mcc_code d1 d2 d3) = 100 * d1 + 10 * d2 + d3
  /\ quectel_convert_cdma_mnc_2_ascii_mnc (mnc_code d1 d2) = 10 * d1 + d2.
Proof.
  assert (Hall : forallb (fun a => forallb (fun b => forallb (fun c =>
      (quectel_convert_cdma_mcc_2_ascii_mcc (mcc_code a b c) =? 100 * a + 10 * b + c)
      && (quectel_convert_cdma_mnc_2_ascii_mnc (mnc_code a b) =? 10 * a + b)) digits) digits) digits
    = true) by (vm_compute; reflexivity).
  rewrite forallb_forall in Hall. apply list_elem_of_In in H1, H2, H3.
  specialize (Hall _ H1). rewrite forallb_forall in Hall. specialize (Hall _ H2).
  rewrite forallb_forall in Hall. specialize (Hall _ H3). cbv beta in Hall. bool_prop. exact Hall.
Qed.

Lemma cdma_codes_roundtrip_witness :
  mcc_code 4 6 0 = 359 /\ quectel_convert_cdma_mcc_2_ascii_mcc 359 = 460.
Proof.
  split; [reflexivity|].
  apply (cdma_codes_roundtrip 4 6 0); refine (bool_decide_eq_true_1 _ _); vm_compute; reflexivity.
Defined.

(** A request whose reader thread goes away is reported as done: the wake-up
    without a response has result 0, and the operations return it as their
    own.  Starting a data session, entering the PIN and switching the radio then
    return 0, although nothing was confirmed and no session handle was set. *)
Theorem lost_response_looks_successful {W} (send : transport W) (s : rq W) fam pin on
    (Hg : tid_ok (rq_g s))
    (Hlost : forall req w, exists w', send req w = Ok ((0, None), w'))
    (Hl : (length (encode_tlvs (start_tlvs (rq_g s) (for_family fam (rq_p s)))) < 243)%nat)
    (Hpin : (length pin <= 16)%nat) :
  (exists s', requestSetupDataCall send fam s = Ok (0, s')
              /\ forall f, handle_of f (rq_g s') = handle_of f (rq_g s))
  /\ (exists s', requestEnterSimPin send pin s = Ok (0, s'))
  /\ (exists s', requestRadioPower send on s = Ok (0, s')).
Proof.
  assert (Hreq : forall s qt ty f ts, Realises f ts -> (length (encode_tlvs ts) < 243)%nat ->
    tid_ok (rq_g s) -> exists w', request send qt ty (Some f) s
                       = Ok ((0, None), s <| rq_g := tick (rq_g s) |> <| rq_w := w' |>)).
  { intros t qt ty f ts Hf Hts Ht. rewrite (request_run send qt ty f ts) by done.
    destruct (Hlost (request_msg qt ty (next_tid (rq_g t)) ts) (rq_w t)) as [w' ->]. by exists w'. }
  repeat split.
  - unfold requestSetupDataCall, updp, getg, getp, mbind, R_bind, M_bind, M_upd.
    edestruct (Hreq (s <| rq_p := for_family fam (rq_p s) |>)) as [w' E];
      [apply (Realises_start (rq_g s) (for_family fam (rq_p s)))|done|done|].
    rewrite E. by eexists.
  - unfold requestEnterSimPin, getg, mbind, R_bind, M_bind. destruct (truth (s_9x07 (rq_g s))).
    + edestruct (Hreq s) as [w' E]; [apply (Realises_uim_pin pin)| |done|].
      { rewrite !encode_tlvs_cons. len. } rewrite E. by eexists.
    + edestruct (Hreq s) as [w' E]; [apply (Realises_dms_pin pin)| |done|].
      { rewrite !encode_tlvs_cons. len. } rewrite E. by eexists.
  - unfold requestRadioPower, mbind, R_bind, M_bind.
    edestruct (Hreq s) as [w' E]; [apply (Realises_operating_mode (if truth on then 0 else 1))| |done|].
    { vm_compute. lia. } rewrite E. by eexists.
Qed.

Lemma lost_response_looks_successful_witness :
  exists s', requestSetupDataCall (fun _ w => Ok ((0, None), w)) IpFamilyV4 rq_demo = Ok (0, s')
             /\ handle_of IpFamilyV4 (rq_g s') = 0.
Proof.
  destruct (lost_response_looks_successful (fun _ w => Ok ((0, None), w)) rq_demo IpFamilyV4 [] 1)
    as ((s' & E & H) & _).
  - vm_compute. split; discriminate.
  - intros req w. exists w. reflexivity.
  - vm_compute. lia.
  - simpl. lia.
  - exists s'. split; [exact E|]. rewrite H. reflexivity.
Defined.

(** SIM status from the card response, and the blocked card: the status is
    READY, PIN, PUK or ABSENT as the card and its PIN1 state say; for a
    permanently blocked PIN the code selects [SIM_BAD] and its log line then
    indexes the six-entry name table at 6. *)
Theorem sim_status_of_card {W} (send : transport W) (s : rq W) sim h ts w' v
    (Hg : tid_ok (rq_g s)) (H9 : s_9x07 (rq_g s) = 1)
    (Ha : answer_ok (Response h 0 0 ts))
    (Hs : send (request_msg QMUX_TYPE_UIM 0x2F (next_tid (rq_g s)) []) (rq_w s)
          = Ok (answer_val 0x2F (Response h 0 0 ts), w'))
    (Hv : tlv_val 0x10 ts = Some v) (Hlen : length v = 24%nat)
    (Hcard : v !! 9%nat = Some 1) (Haid : v !! 21%nat = Some 0) (Huniv : v !! 22%nat = Some 0) :
  match v !! 23%nat with
  | Some pin1 =>
      if pin1 =? QMI_PIN_STATUS_PERM_BLOCKED then requestGetSIMStatus send sim s = Fault
      else exists s', requestGetSIMStatus send sim s
        = Ok ((0, if (pin1 =? 2) || (pin1 =? 3) || (pin1 =? 0) then SIM_READY
                  else if pin1 =? 1 then SIM_PIN
                  else if pin1 =? 4 then SIM_PUK else SIM_ABSENT), s')
  | None => False
  end.
Proof.
  destruct (v !! 23%nat) as [pin1|] eqn:Hpin; [|apply lookup_ge_None in Hpin; lia].
  set (s1 := s <| rq_g := tick (rq_g s) |> <| rq_w := w' |>).
  assert (Hc : card_state (rsp_msg h 0x2F 0 0 ts) s1 = Ok ((1, pin1), s1)).
  { destruct (tlv_access h 0x2F 0 0 ts 0x10 v s1 Ha ltac:(lia) ltac:(lia) Hv)
      as (o & pre & post & E & Hm & Hp & _).
    assert (Hrd : forall k x, v !! k = Some x -> rd8 (rsp_msg h 0x2F 0 0 ts) (o + (3 + k)) = Ok x).
    { intros k x Hx. rewrite Hm, Nat.add_assoc, <- Hp, rd8_value by (by eapply lookup_lt_Some).
      unfold rd8. by rewrite Hx. }
    unfold card_state, mbind, R_bind, M_bind. rewrite E. unfold rd, lift, M_lift.
    change (o + 24)%nat with (o + (3 + 21))%nat. change (o + 12)%nat with (o + (3 + 9))%nat.
    rewrite (Hrd 21%nat 0), (Hrd 9%nat 1) by done. cbn [Z.eqb Pos.eqb].
    replace (o + 25 + Z.to_nat 0)%nat with (o + (3 + 22))%nat by lia. rewrite (Hrd 22%nat 0) by done.
    cbn [Z.eqb]. replace (o + (3 + 22) + 1)%nat with (o + (3 + 23))%nat by lia.
    by rewrite (Hrd 23%nat pin1). }
  unfold requestGetSIMStatus, getg, mbind, R_bind, M_bind. rewrite H9. cbn [truth Z.eqb negb].
  rewrite request_run_none, Hs by done. rewrite rsp_check_answer by done. cbn [confirmed Z.eqb andb].
  fold s1. change (rq_g s1) with (tick (rq_g s)). change (s_9x07 (tick (rq_g s))) with (s_9x07 (rq_g s)).
  rewrite H9. cbn [truth Z.eqb negb answer_msg]. rewrite Hc. unfold mret, R_ret, M_ret. cbn [fst snd].
  unfold sim_of_card, QMI_PIN_STATUS_PERM_BLOCKED. cbn [Z.eqb Pos.eqb andb orb].
  destruct (Z.eqb_spec pin1 5) as [->|]; [done|].
  destruct (Z.eqb_spec pin1 2) as [->|]; [by exists s1|].
  destruct (Z.eqb_spec pin1 3) as [->|]; [by exists s1|].
  destruct (Z.eqb_spec pin1 0) as [->|]; [by exists s1|].
  destruct (Z.eqb_spec pin1 1) as [->|]; [by exists s1|].
  destruct (Z.eqb_spec pin1 4) as [->|]; [by exists s1|].
  unfold QMI_PIN_STATUS_VERIFIED, QMI_PIN_STATUS_DISABLED, QMI_PIN_STATUS_BLOCKED,
    QMI_PIN_STATUS_NOT_INIT, QMI_PIN_STATUS_NOT_VERIF.
  repeat (match goal with |- context [pin1 =? ?k] => destruct (Z.eqb_spec pin1 k); [lia|] end).
  by exists s1.
Qed.

Definition card_demo (pin1 : Z) : list Z := replicate 9 0 ++ [1] ++ replicate 13 0 ++ [pin1].
Lemma sim_status_of_card_witness :
  requestGetSIMStatus
    (fun _ w => Ok (answer_val 0x2F (Response (zeros 9) 0 0 [(0x10, card_demo 5)]), w)) 0 rq_demo = Fault.
Proof.
  refine (sim_status_of_card
    (fun _ w => Ok (answer_val 0x2F (Response (zeros 9) 0 0 [(0x10, card_demo 5)]), w)) rq_demo 0
    (zeros 9) [(0x10, card_demo 5)] tt (card_demo 5) _ _ _ _ _ _ _ _ _); try reflexivity.
  - vm_compute. split; discriminate.
  - repeat split; vm_compute; (reflexivity || discriminate).
Defined.
