(* ===== verification/QmiRequestsInv.v ===== *)
(** Properties of the [request*] operations that hold on every path: termination
    (no operation runs out of fuel), and what is handed to the driver.  Both are
    proved compositionally, with one rule per construct of the request monad
    collected in the hint databases [fuel] and [log]. *)
From S2P Require Import Prelude QmiTlv CmTypes QmiCompose QmiComposeSpec QmiThread.
From S2P Require Import QmiRequests QmiRequestsSpec.
#[local] Open Scope Z_scope.

Create HintDb fuel.
Create HintDb log.

(** The computation never ends by lack of fuel. *)
Definition Total {W A} (m : M (rq W) A) : Prop := forall s, m s <> OutOfFuel.
(** The computation keeps [P] of every entry of the log and returns a value in [Q]. *)
Definition Keeps {W A} (P : effect -> Prop) (Q : A -> Prop) (m : M (rq W) A) : Prop :=
  forall s a s', Forall P (rq_log s) -> m s = Ok (a, s') -> Forall P (rq_log s') /\ Q a.

(** The aggregation the driver can be given. *)
Definition driver_bounds (e : effect) : Prop :=
  match e with
  | SetDriverQmap q =>
      1 < qs_ul_data_aggregation_max_datagrams q <= 11 /\ qs_ul_data_aggregation_max_size q <= 8192
  | LogRegistration _ _ _ _ => True
  end.

Section Rules.
Context {W : Type} (send : transport W).
Hypothesis send_total : forall req w, send req w <> OutOfFuel.

Lemma total_ret {A} (a : A) : Total (W:=W) (mret a).
Proof. done. Qed.
Lemma total_bind {A B} (m : M (rq W) A) (f : A -> M (rq W) B) :
  Total m -> (forall a, Total (f a)) -> Total (m ≫= f).
Proof.
  intros Hm Hf s. unfold mbind, M_bind. destruct (m s) as [[a s']| |] eqn:E; [apply Hf|done|].
  by apply Hm in E.
Qed.
Lemma total_lift {A} (r : res A) : r <> OutOfFuel -> Total (W:=W) (lift r).
Proof. intros H s. unfold lift, M_lift. by destruct r. Qed.
Lemma total_if {A} (b : bool) (m1 m2 : M (rq W) A) :
  Total m1 -> Total m2 -> Total (if b then m1 else m2).
Proof. by destruct b. Qed.
Lemma total_when b (m : M (rq W) unit) : Total m -> Total (when b m).
Proof. intros. by destruct b. Qed.
Lemma total_upd f : Total (W:=W) (M_upd f).
Proof. done. Qed.
Lemma total_getg : Total (W:=W) getg.
Proof. done. Qed.
Lemma total_getp : Total (W:=W) getp.
Proof. done. Qed.
Lemma total_option {A B} (o : option A) (f : A -> M (rq W) B) m :
  (forall a, Total (f a)) -> Total m ->
  Total (match o with Some a => f a | None => m end).
Proof. by destruct o. Qed.

Lemma rd8_fuel b o : rd8 b o <> OutOfFuel.
Proof. apply rd8_not_fuel. Qed.
Lemma rd16_fuel b o : rd16 b o <> OutOfFuel.
Proof.
  unfold rd16. destruct (rd8 b o) eqn:E; [|done|by apply rd8_fuel in E]. cbn.
  destruct (rd8 b (o + 1)) eqn:E1; [done|done|by apply rd8_fuel in E1].
Qed.
Lemma rd32_fuel b o : rd32 b o <> OutOfFuel.
Proof.
  unfold rd32. destruct (rd16 b o) eqn:E; [|done|by apply rd16_fuel in E]. cbn.
  destruct (rd16 b (o + 2)) eqn:E1; [done|done|by apply rd16_fuel in E1].
Qed.
Lemma rdn_fuel b o n : rdn b o n <> OutOfFuel.
Proof. unfold rdn. by destruct (_ <=? _)%nat. Qed.
Lemma wr_fuel o x b : wr o x b <> OutOfFuel.
Proof. unfold wr. by destruct (_ <=? _)%nat. Qed.
Lemma fault_fuel {A} : @Fault A <> OutOfFuel.
Proof. done. Qed.
Lemma tlv_fuel m h t : GetTLV m h t <> OutOfFuel.
Proof.
  unfold GetTLV. destruct (rd16 m (h + 2)) eqn:E; cbn; [|done|by apply rd16_fuel in E].
  rewrite Nat.add_comm. apply GetTLV_loop_fuel. lia.
Qed.
End Rules.

#[export] Hint Resolve total_ret total_bind total_lift total_if total_when total_upd total_getg
  total_getp total_option rd8_fuel rd16_fuel rd32_fuel rdn_fuel wr_fuel fault_fuel tlv_fuel : fuel.

Ltac total_step :=
  match goal with
  | |- forall _, _ => intros ?
  | |- Total (mbind _ _) => apply total_bind
  | |- Total (match ?o with Some _ => _ | None => _ end) => destruct o
  | |- Total (if ?b then _ else _) => apply total_if
  | |- Total (let _ := _ in _) => cbv zeta
  | |- Total (match ?x with (_, _) => _ end) => destruct x
  | |- Total (when _ _) => apply total_when
  | |- Total (updg _) => apply total_upd
  | |- Total (updp _) => apply total_upd
  | |- Total (emit _) => apply total_upd
  | |- Total (rd _) => apply total_lift
  | |- Total (tlv_of _ _) => apply total_lift
  | _ => solve [eauto with fuel]
  end.
Ltac total := repeat total_step.

Section TotalRequests.
Context {W : Type} (send : transport W).
Hypothesis send_total : forall req w, send req w <> OutOfFuel.

Lemma total_rsp_check {B} (ret : Z -> B) r (k : list Z -> M (rq W) B) :
  (forall rsp, Total (k rsp)) -> Total (rsp_check ret r k).
Proof.
  intros Hk. destruct r as [err [rsp|]]; cbn [rsp_check]; [|apply total_ret].
  apply total_if; [apply total_ret|]. total.
Qed.

Lemma total_request_none qt ty : Total (request send qt ty no_builder).
Proof.
  intros s. unfold request, ComposeQMUXMsg, no_builder, mbind, M_bind, M_lift.
  unfold GetQMUXTransactionId. rewrite compose_buf_none.
  destruct (send _ (rq_w s)) as [[r w]| |] eqn:E; [done|done|]. by apply send_total in E.
Qed.

Lemma total_cdma_home a b : Total (cdma_home send a b).
Proof.
  unfold cdma_home, requestGetHomeNetwork. apply total_bind.
  - apply total_bind; [apply total_request_none|]. intros r. apply total_rsp_check. intros rsp.
    total; destruct (Some (0, 0)); total.
  - intros [[err [[x y]|]] o]; total.
Qed.

Lemma total_service_status ty st si : Total (W:=W) (service_status ty st si).
Proof. unfold service_status, set_cdma, not_cdma. total. Qed.
Lemma total_network_id rsp o si : Total (W:=W) (network_id rsp o si).
Proof. unfold network_id. total. Qed.
Lemma total_system_info rsp p ty si : Total (system_info send rsp p ty si).
Proof.
  unfold system_info, ps_domain, set_cdma, not_cdma.
  total; try apply total_network_id; try apply total_cdma_home.
Qed.

Lemma total_sys_info_loop rsp : forall fuel p l si,
  (length rsp + 1 <= fuel + p)%nat -> Total (sys_info_loop send (S fuel) rsp p l si).
Proof.
  assert (Hbody : forall ty p si, Total
    (if one_of ty [0x10; 0x11; 0x12; 0x13; 0x14; 0x4A; 0x4E; 0x4F; 0x24]
     then st ← rd (rd8 rsp (p + 3)); service_status ty st si
     else if one_of ty [0x15; 0x16; 0x17; 0x18; 0x19; 0x25; 0x4B]
     then system_info send rsp p ty si else mret si)).
  { intros. total; [apply total_service_status|apply total_system_info]. }
  induction fuel as [|fuel IH]; intros p l si Hf; cbn [sys_info_loop].
  - destruct (l <=? 0); [apply total_ret|]. intros s. unfold rd, lift.
    unfold mbind at 1, R_bind, M_bind at 1, M_lift at 1. by rewrite rd8_Fault by lia.
  - destruct (l <=? 0); [apply total_ret|]. apply total_bind; [total|]. intros ty.
    apply total_bind; [apply Hbody|]. intros si'. apply total_bind; [total|]. intros x.
    apply IH. lia.
Qed.
End TotalRequests.

(** ** Rules for [Keeps] *)
Definition anything {A} (a : A) : Prop := True.
Definition within (q : QMAP_SETTING) : Prop :=
  qs_ul_data_aggregation_max_datagrams q <= 11 /\ qs_ul_data_aggregation_max_size q <= 8192.

Section Keeping.
Context {W : Type} (send : transport W) (P : effect -> Prop).

Lemma keeps_ret {A} (Q : A -> Prop) a : Q a -> Keeps (W:=W) P Q (mret a).
Proof. intros HQ s b s' Hs H. unfold mret, M_ret in H. by simplify_eq. Qed.
Lemma keeps_bind {A B} (Q : A -> Prop) (Q' : B -> Prop) (m : M (rq W) A) (f : A -> M (rq W) B) :
  Keeps P Q m -> (forall a, Q a -> Keeps P Q' (f a)) -> Keeps P Q' (m ≫= f).
Proof.
  intros Hm Hf s b s' Hs H. unfold mbind, M_bind in H.
  destruct (m s) as [[a s1]| |] eqn:E; [|done..]. destruct (Hm _ _ _ Hs E) as [H1 H2].
  by eapply Hf.
Qed.
Lemma keeps_lift {A} (r : res A) : Keeps (W:=W) P anything (lift r).
Proof. intros s a s' Hs H. unfold lift, M_lift in H. destruct r; by simplify_eq. Qed.
Lemma keeps_if {A} (Q : A -> Prop) (b : bool) (m1 m2 : M (rq W) A) :
  (b = true -> Keeps P Q m1) -> (b = false -> Keeps P Q m2) -> Keeps P Q (if b then m1 else m2).
Proof. destruct b; auto. Qed.
Lemma keeps_when (b : bool) (m : M (rq W) unit) :
  (b = true -> Keeps P anything m) -> Keeps P anything (when b m).
Proof. destruct b; [auto|]. intros _. by apply keeps_ret. Qed.
Lemma keeps_updg f : Keeps (W:=W) P anything (updg f).
Proof. intros s a s' Hs H. unfold updg, M_upd in H. by simplify_eq. Qed.
Lemma keeps_updp f : Keeps (W:=W) P anything (updp f).
Proof. intros s a s' Hs H. unfold updp, M_upd in H. by simplify_eq. Qed.
Lemma keeps_getg : Keeps (W:=W) P anything getg.
Proof. intros s a s' Hs H. unfold getg in H. by simplify_eq. Qed.
Lemma keeps_getp : Keeps (W:=W) P anything getp.
Proof. intros s a s' Hs H. unfold getp in H. by simplify_eq. Qed.
Lemma keeps_emit e : P e -> Keeps (W:=W) P anything (emit e).
Proof.
  intros He s a s' Hs H. unfold emit, M_upd in H. simplify_eq. split; [|done].
  cbn. apply Forall_app. auto.
Qed.
Lemma keeps_request qt ty b : Keeps P anything (request send qt ty b).
Proof.
  intros s a s' Hs H. unfold request in H.
  destruct (ComposeQMUXMsg qt ty b (rq_g s)) as [[req g]| |]; [|done..].
  destruct (send req (rq_w s)) as [[r w]| |]; [|done..]. by simplify_eq.
Qed.
Lemma keeps_check (r : Z * option (list Z)) (k : list Z -> M (rq W) Z) :
  (forall rsp, Keeps P anything (k rsp)) -> Keeps P anything (qmi_rsp_check_and_return r k).
Proof.
  intros Hk. unfold qmi_rsp_check_and_return. destruct r as [err [rsp|]]; cbn [rsp_check];
    [|by apply keeps_ret].
  apply keeps_if; intros _; [by apply keeps_ret|].
  eapply keeps_bind; [apply keeps_lift|]. intros res _.
  eapply (keeps_bind anything).
  { apply keeps_if; intros _; [by apply keeps_ret|apply keeps_lift]. }
  intros e _. apply keeps_if; intros _; [|apply Hk].
  eapply keeps_bind; [apply keeps_lift|]. intros; by apply keeps_ret.
Qed.
Lemma keeps_weaken {A} (Q : A -> Prop) (m : M (rq W) A) : Keeps P Q m -> Keeps P anything m.
Proof. intros H s a s' Hs E. by destruct (H _ _ _ Hs E). Qed.
End Keeping.

Ltac keep_step :=
  match goal with
  | |- forall _, _ => intros ?
  | |- _ -> _ => intros ?
  | |- Keeps _ _ (mbind _ _) => eapply (keeps_bind _ anything)
  | |- Keeps _ _ (if _ then _ else _) => apply keeps_if
  | |- Keeps _ _ (let _ := _ in _) => cbv zeta
  | |- Keeps _ _ (match ?l with [] => _ | _ :: _ => _ end) => destruct l
  | |- Keeps _ _ (match ?o with Some _ => _ | None => _ end) => destruct o
  | |- Keeps _ _ (qmi_rsp_check_and_return _ _) => apply keeps_check
  | |- Keeps _ anything (with_tlv _ _ _) => unfold with_tlv
  | |- Keeps _ anything (when _ _) => apply keeps_when
  | |- Keeps _ anything (request _ _ _ _) => apply keeps_request
  | |- Keeps _ anything (rd _) => apply keeps_lift
  | |- Keeps _ anything (tlv_of _ _) => apply keeps_lift
  | |- Keeps _ anything (lift _) => apply keeps_lift
  | |- Keeps _ anything (updg _) => apply keeps_updg
  | |- Keeps _ anything (updp _) => apply keeps_updp
  | |- Keeps _ anything getg => apply keeps_getg
  | |- Keeps _ anything getp => apply keeps_getp
  | |- Keeps _ anything (mret _) => apply keeps_ret; exact I
  end.

Lemma within_datagrams q v :
  within q ->
  within (q <| qs_ul_data_aggregation_max_datagrams :=
                 Z.min (qs_ul_data_aggregation_max_datagrams q) v |>).
Proof.
  intros [H1 H2]. split; [|done].
  change (Z.min (qs_ul_data_aggregation_max_datagrams q) v <= 11). lia.
Qed.
Lemma within_size q v :
  within q ->
  within (q <| qs_ul_data_aggregation_max_size := Z.min (qs_ul_data_aggregation_max_size q) v |>).
Proof.
  intros [H1 H2]. split; [done|].
  change (Z.min (qs_ul_data_aggregation_max_size q) v <= 8192). lia.
Qed.

Section DriverBounds.
Context {W : Type} (send : transport W).

(** A step of the response reader that replaces the settings within bounds. *)
Lemma keeps_setting (o : option nat) (q : QMAP_SETTING) rsp (f : Z -> QMAP_SETTING) :
  within q -> (forall v, within (f v)) ->
  Keeps (W:=W) driver_bounds within
    (match o with Some o => v ← rd (rd32 rsp (o + 3)); mret (f v) | None => mret q end).
Proof.
  intros Hq Hf. destruct o; [|by apply keeps_ret].
  eapply keeps_bind; [apply keeps_lift|]. intros v _. by apply keeps_ret.
Qed.

Lemma keeps_read_data_format rsp q :
  within q -> Keeps (W:=W) driver_bounds within (read_data_format rsp q).
Proof.
  intros Hq. unfold read_data_format.
  eapply (keeps_bind _ anything); [repeat keep_step|]. intros _ _.
  eapply (keeps_bind _ anything); [repeat keep_step|]. intros p _.
  eapply (keeps_bind _ anything); [repeat keep_step|]. intros o16 _.
  eapply (keeps_bind _ within).
  { destruct o16; [|by apply keeps_ret]. apply keeps_if; intros _; [|by apply keeps_ret].
    eapply (keeps_bind _ anything); [repeat keep_step|]. intros v _. by apply keeps_ret. }
  clear q Hq. intros q Hq. apply keeps_if; intros _; [|by apply keeps_ret].
  eapply (keeps_bind _ anything); [repeat keep_step|]. intros o17 _.
  eapply (keeps_bind _ within).
  { apply keeps_setting; [done|]. intros v. by apply within_datagrams. }
  clear q Hq. intros q Hq. eapply (keeps_bind _ anything); [repeat keep_step|]. intros o18 _.
  eapply (keeps_bind _ within).
  { apply keeps_setting; [done|]. intros v. by apply within_size. }
  clear q Hq. intros q Hq. eapply (keeps_bind _ anything); [repeat keep_step|]. intros o1A _.
  eapply (keeps_bind _ within).
  { apply keeps_setting; [done|]. intros v. by destruct Hq. }
  clear q Hq. intros q Hq. eapply (keeps_bind _ anything).
  { apply keeps_when. intros Hn%Z.ltb_lt. apply keeps_emit. destruct Hq. cbn. lia. }
  intros _ _. by apply keeps_ret.
Qed.

Lemma keeps_tail q : Keeps driver_bounds anything (set_eth_mode_tail send q).
Proof. unfold set_eth_mode_tail. repeat keep_step. Qed.
End DriverBounds.

(** ** Properties *)

(** Reading the registration state terminates on every response: the loop over
    the system-information TLVs, which skips by whatever length each TLV
    announces and sends another request for an HDR system in between, never runs
    longer than the response is, whether the response is well formed or not. *)
Theorem registration_state_terminates {W} (send : transport W) (s : rq W) ps
    (Hsend : forall req w, send req w <> OutOfFuel) :
  requestRegistrationState send ps s <> OutOfFuel.
Proof.
  revert s. change (Total (requestRegistrationState send ps)).
  unfold requestRegistrationState. apply total_bind; [apply total_getg|]. intros g.
  apply total_if.
  - unfold requestRegistrationState2. apply total_bind; [by apply total_request_none|].
    intros r. apply total_rsp_check. intros rsp. apply total_bind; [total|]. intros l.
    apply total_bind; [total|]. intros _. apply total_bind; [|intros; total].
    rewrite Nat.add_comm. apply total_sys_info_loop; [done|]. unfold OFF_TLV. lia.
  - apply total_bind; [by apply total_request_none|]. intros r. apply total_rsp_check. intros rsp.
    unfold serving_data_cap, radio_if, not_cdma. total; by apply total_cdma_home.
Qed.

Lemma registration_state_terminates_witness :
  requestRegistrationState
    (fun _ w => Ok ((0, Some (rsp_msg (zeros 9) 0x4D 0 0 [(0x14, [2; 2; 0])])), w)) 0 rq_demo
  <> OutOfFuel.
Proof. apply registration_state_terminates. intros req w. discriminate. Defined.

(** The aggregation handed to the network driver stays within what the driver
    was sized for: whatever values the modem answers with, [requestSetEthMode]
    passes a datagram count between 2 and 11 and a buffer size of at most 8 KiB,
    and it calls the driver in no other case. *)
Theorem set_eth_mode_driver_bounds {W} (send : transport W) (s s' : rq W) ret
    (Hs : Forall driver_bounds (rq_log s)) (H : requestSetEthMode send s = Ok (ret, s')) :
  Forall driver_bounds (rq_log s').
Proof.
  assert (Hformat : forall q, within q -> Keeps (W:=W) driver_bounds anything
    (g ← getg; r ← request send QMUX_TYPE_WDS_ADMIN 0x20 (Some (WdaSetDataFormat g q));
     qmi_rsp_check_and_return r (fun rsp => q ← read_data_format rsp q; set_eth_mode_tail send q))).
  { intros q Hq. do 2 (eapply (keeps_bind _ anything); [repeat keep_step|]; intros ? _).
    apply keeps_check. intros rsp. eapply keeps_bind; [by apply keeps_read_data_format|].
    intros q' _. apply keeps_tail. }
  assert (Hk : Keeps driver_bounds anything (requestSetEthMode send)).
  { unfold requestSetEthMode. eapply (keeps_bind _ anything); [repeat keep_step|]. intros p _.
    cbv zeta. apply keeps_if; intros _; [|by apply Hformat].
    do 3 (eapply (keeps_bind _ anything); [repeat keep_step|]; intros _ _).
    eapply (keeps_bind _ anything); [repeat keep_step|]. intros p' _.
    eapply (keeps_bind _ anything); [repeat keep_step|]. intros _ _.
    apply keeps_if; intros _; [apply keeps_tail|apply Hformat].
    unfold qmap_request_settings. by destruct (truth _). }
  by destruct (Hk _ _ _ Hs H).
Qed.

Lemma set_eth_mode_driver_bounds_witness :
  let p := PROFILE_zero <| qmap_mode := 1 |> <| wda_client := 2 |> <| enable_ipv4 := 1 |> in
  exists ret s',
    requestSetEthMode (fun _ w => Ok (answer_val 0x20 (Response (zeros 9) 0 0 [tlv32 0x17 20]), w))
      (mkRq statics_init p tt []) = Ok (ret, s') /\ Forall driver_bounds (rq_log s').
Proof.
  set (p := PROFILE_zero <| qmap_mode := 1 |> <| wda_client := 2 |> <| enable_ipv4 := 1 |>).
  set (send := fun (_ : list Z) (w : unit) =>
                 Ok (answer_val 0x20 (Response (zeros 9) 0 0 [tlv32 0x17 20]), w)).
  destruct (requestSetEthMode send (mkRq statics_init p tt [])) as [[ret s']| |] eqn:E.
  - exists ret, s'. split; [exact E|].
    apply (set_eth_mode_driver_bounds send (mkRq statics_init p tt []) s' ret); [constructor|exact E].
  - vm_compute in E. discriminate E.
  - vm_compute in E. discriminate E.
Defined.
