(* ===== verification/QmiSettingsSpec.v ===== *)
(** Properties of the profile and run-time-settings operations: the round trip of
    a profile through the modem, and the addresses read back. *)
From S2P Require Import Prelude QmiTlv CmTypes QmiCompose QmiComposeSpec QmiThread.
From S2P Require Import QmiRequests QmiRequestsSpec.
#[local] Open Scope Z_scope.

(** A profile string that fits the [char[64]] it is read back into. *)
Definition str_ok (s : option cstr) : Prop :=
  match s with Some s => cstr_ok s /\ (length s <= 63)%nat | None => True end.

(** The profile a modem stores after [WdsModifyProfileSettingsReq]: the TLVs behind
    the profile identifier. *)
Definition stored_tlvs (p : PROFILE_T) : list tlv := drop 1 (modify_tlvs p).

(** The addresses a run-time-settings response carries, zero where it has none. *)
Definition addr4 (ts : list tlv) (ty : Z) : Z := default 0 (dec32 <$> tlv_val ty ts).
Definition settings4 (ts : list tlv) : IPV4_T :=
  mkIPV4 (addr4 ts 0x1E) (addr4 ts 0x20) (addr4 ts 0x21) (addr4 ts 0x15) (addr4 ts 0x16)
    (addr4 ts 0x29).
Definition settings4_ok (ts : list tlv) : Prop :=
  Forall (fun ty => match tlv_val ty ts with Some v => length v = 4%nat | None => True end)
    [0x1E; 0x20; 0x21; 0x15; 0x16; 0x29]
  /\ Forall (fun ty => tlv_val ty ts = None) [0x2E; 0x23; 0x27; 0x28; 0x26; 0x25].

(** An update made only when a TLV is present. *)
Definition opt_upd {A T} (o : option A) (f : A -> T -> T) (x : T) : T :=
  match o with Some v => f v x | None => x end.
Lemma opt_upd_proj {A T B} (pr : T -> B) (o : option A) (f : A -> T -> T) x :
  (forall v x, pr (f v x) = pr x) -> pr (opt_upd o f x) = pr x.
Proof. intros H. destruct o; [apply H|done]. Qed.
Lemma opt_upd_set {A T B} (pr : T -> B) (k : A -> B) (o : option A) (f : A -> T -> T) d x :
  (forall v x, pr (f v x) = k v) -> pr x = d -> pr (opt_upd o f x) = default d (k <$> o).
Proof. intros H Hd. destruct o; [apply H|done]. Qed.
Lemma ipv4_ext a b :
  v4_Address a = v4_Address b -> v4_Gateway a = v4_Gateway b ->
  v4_SubnetMask a = v4_SubnetMask b -> v4_DnsPrimary a = v4_DnsPrimary b ->
  v4_DnsSecondary a = v4_DnsSecondary b -> v4_Mtu a = v4_Mtu b -> a = b.
Proof. destruct a, b. cbn. congruence. Qed.

Lemma until_nul_ok s : cstr_ok s -> until_nul s = s.
Proof.
  induction s as [|c s IH]; intros H; [done|]. apply Forall_cons in H as [Hc H]. cbn.
  destruct (Z.eqb_spec c 0); [lia|]. by rewrite IH.
Qed.

(** One step of a request. *)
Lemma bind_Ok {W A B} (m : M (rq W) A) (f : A -> M (rq W) B) s a s' :
  m s = Ok (a, s') -> (m ≫= f) s = f a s'.
Proof. intros H. unfold mbind, M_bind. by rewrite H. Qed.

Ltac field pr :=
  repeat rewrite (opt_upd_proj pr) by (intros; reflexivity);
  rewrite (opt_upd_set pr dec32 _ _ 0);
  [reflexivity | intros; reflexivity
  | repeat rewrite (opt_upd_proj pr) by (intros; reflexivity); reflexivity].

Lemma settings4_chain ts :
  opt_upd (tlv_val 0x29 ts) (fun v a => a <| v4_Mtu := dec32 v |>)
    (opt_upd (tlv_val 0x1E ts) (fun v a => a <| v4_Address := dec32 v |>)
    (opt_upd (tlv_val 0x21 ts) (fun v a => a <| v4_SubnetMask := dec32 v |>)
    (opt_upd (tlv_val 0x20 ts) (fun v a => a <| v4_Gateway := dec32 v |>)
    (opt_upd (tlv_val 0x16 ts) (fun v a => a <| v4_DnsSecondary := dec32 v |>)
    (opt_upd (tlv_val 0x15 ts) (fun v a => a <| v4_DnsPrimary := dec32 v |>) IPV4_zero)))))
  = settings4 ts.
Proof.
  apply ipv4_ext; [field v4_Address | field v4_Gateway | field v4_SubnetMask | field v4_DnsPrimary
    | field v4_DnsSecondary | field v4_Mtu].
Qed.

Section Reading.
Context {W : Type}.

(** Reading an optional string TLV into the profile. *)
Lemma read_str_tlv h ty ts want val :
  answer_ok (Response h 0 0 ts) -> want <= 0x1000 -> want <> 2 ->
  tlv_val want ts = val -> str_ok val ->
  forall s : rq W, exists o, tlv_of (rsp_msg h ty 0 0 ts) want s = Ok (o, s)
    /\ forall f (s' : rq W), read_str (rsp_msg h ty 0 0 ts) o f s'
       = Ok (tt, s' <| rq_p := opt_upd val f (rq_p s') |>).
Proof.
  intros Ha Hw H2 Hv Hok s. destruct val as [v|].
  - destruct (tlv_access h ty 0 0 ts want v s Ha Hw H2 Hv) as (o & pre & post & E & Hm & Hp & Hl).
    exists (Some o). split; [done|]. intros f s'. destruct Hok as [Hc Hn].
    unfold read_str, mbind, R_bind, M_bind, rd, lift, M_lift. rewrite Hl, Nat2Z.id, Nat.min_r by done.
    rewrite Hm, <- Hp, rdn_value, take_ge by lia.
    unfold uchar2char. rewrite take_ge, until_nul_ok by (done || lia). done.
  - exists None. split; [by apply tlv_absent|]. by intros f [].
Qed.

(** Reading an optional byte TLV. *)
Lemma read_byte_tlv h ty ts want (val : option Z) :
  answer_ok (Response h 0 0 ts) -> want <= 0x1000 -> want <> 2 ->
  tlv_val want ts = (fun x => [x]) <$> val ->
  forall s : rq W, exists o, tlv_of (rsp_msg h ty 0 0 ts) want s = Ok (o, s)
    /\ forall f (s' : rq W),
         (match o with
          | Some o => v ← rd (rd8 (rsp_msg h ty 0 0 ts) (o + 3)); updp (f v)
          | None => mret tt end) s'
         = Ok (tt, s' <| rq_p := opt_upd val f (rq_p s') |>).
Proof.
  intros Ha Hw H2 Hv s. destruct val as [x|]; cbn in Hv.
  - destruct (tlv_access h ty 0 0 ts want [x] s Ha Hw H2 Hv) as (o & pre & post & E & Hm & Hp & _).
    exists (Some o). split; [done|]. intros f s'.
    unfold mbind, R_bind, M_bind, rd, lift, M_lift, updp, M_upd.
    rewrite Hm, <- Hp, <- (Nat.add_0_r (length pre)). by rewrite rd8_value by (cbn; lia).
  - exists None. split; [by apply tlv_absent|]. by intros f [].
Qed.

(** Reading an optional 32-bit TLV. *)
Lemma read_addr4_tlv h ty ts want f (s : rq W) :
  answer_ok (Response h 0 0 ts) -> want <= 0x1000 -> want <> 2 ->
  match tlv_val want ts with Some v => length v = 4%nat | None => True end ->
  read_addr4 (rsp_msg h ty 0 0 ts) want f s
  = Ok (tt, s <| rq_p := (rq_p s) <| ipv4 := opt_upd (tlv_val want ts) (fun v => f (dec32 v))
                                               (ipv4 (rq_p s)) |> |>).
Proof.
  intros Ha Hw H2 Hl. unfold read_addr4, with_tlv, mbind, R_bind, M_bind.
  destruct (tlv_val want ts) as [v|] eqn:Hv; [|rewrite tlv_absent by done; by destruct s as [? [] ? ?]].
  destruct (tlv_access h ty 0 0 ts want v s Ha Hw H2 Hv) as (o & pre & post & -> & Hm & Hp & _).
  unfold rd, lift, M_lift. rewrite Hm, <- Hp, <- (Nat.add_0_r (length pre)), rd32_value by lia.
  unfold dec32. do 4 (destruct v as [|? v]; [discriminate Hl|]). destruct v; [|discriminate Hl].
  reflexivity.
Qed.
Lemma with_tlv_absent h ty ts want f (s : rq W) :
  answer_ok (Response h 0 0 ts) -> want <= 0x1000 -> want <> 2 -> tlv_val want ts = None ->
  with_tlv (rsp_msg h ty 0 0 ts) want f s = Ok (tt, s).
Proof. intros. unfold with_tlv, mbind, R_bind, M_bind. by rewrite tlv_absent. Qed.
End Reading.

(** The types stored by a modify request are read back one by one. *)
Lemma stored_vals p :
  tlv_val 0x14 (stored_tlvs p) = apn p /\ tlv_val 0x1B (stored_tlvs p) = user p
  /\ tlv_val 0x1C (stored_tlvs p) = password p
  /\ tlv_val 0x1D (stored_tlvs p)
     = (fun x => [x]) <$> (match user p, password p with
                          | Some _, Some _ => Some (u8 (auth p)) | _, _ => None end)
  /\ tlv_val 0x11 (stored_tlvs p) = (fun x => [x]) <$> Some (u8 (iptype p)).
Proof.
  unfold stored_tlvs, modify_tlvs, opt_tlv, auth_tlv.
  by destruct (apn p), (user p), (password p).
Qed.

Section Profile.
Context {W : Type} (send : transport W).

Lemma read_profile_stored h p (s : rq W) :
  answer_ok (Response h 0 0 (stored_tlvs p)) ->
  str_ok (apn p) -> str_ok (user p) -> str_ok (password p) ->
  byte_ok (auth p) -> ((user p = None \/ password p = None) -> auth p = 0) ->
  0 <= iptype p < 4 -> rq_p s = fresh_profile p -> iptype p = wanted_iptype p ->
  exists s', read_profile (rsp_msg h 0x2B 0 0 (stored_tlvs p)) s = Ok (0, s')
    /\ profile_unchanged (rq_p s') = true /\ iptype (rq_p s') = iptype p /\ pdp (rq_p s') = pdp p
    /\ rq_w s' = rq_w s /\ rq_g s' = rq_g s.
Proof.
  intros Ha H1 H2 H3 Hau Hau0 Hip Hp Hw.
  destruct (stored_vals p) as (V1 & V2 & V3 & V4 & V5).
  destruct (read_str_tlv h 0x2B _ 0x14 _ Ha ltac:(lia) ltac:(lia) V1 H1 s) as (o1 & E1 & R1).
  destruct (read_str_tlv h 0x2B _ 0x1B _ Ha ltac:(lia) ltac:(lia) V2 H2 s) as (o2 & E2 & R2).
  destruct (read_str_tlv h 0x2B _ 0x1C _ Ha ltac:(lia) ltac:(lia) V3 H3 s) as (o3 & E3 & R3).
  destruct (read_byte_tlv h 0x2B _ 0x1D _ Ha ltac:(lia) ltac:(lia) V4 s) as (o4 & E4 & R4).
  destruct (read_byte_tlv h 0x2B _ 0x11 _ Ha ltac:(lia) ltac:(lia) V5 s) as (o5 & E5 & R5).
  set (p5 := opt_upd (Some (u8 (iptype p))) (fun v p => p <| old_iptype := v |>)
    (opt_upd (match user p, password p with Some _, Some _ => Some (u8 (auth p)) | _, _ => None end)
       (fun v p => p <| old_auth := v |>)
    (opt_upd (password p) (fun v p => p <| old_password := v |>)
    (opt_upd (user p) (fun v p => p <| old_user := v |>)
    (opt_upd (apn p) (fun v p => p <| old_apn := v |>) (fresh_profile p)))))).
  assert (E : read_profile (rsp_msg h 0x2B 0 0 (stored_tlvs p)) s
    = (if ipStr_ok (old_iptype p5) then mret 0 else lift Fault) (s <| rq_p := p5 |>)).
  { unfold read_profile. do 5 (etransitivity; [eapply bind_Ok; eassumption|]).
    etransitivity; [eapply bind_Ok; apply R1|]. etransitivity; [eapply bind_Ok; apply R2|].
    etransitivity; [eapply bind_Ok; apply R3|]. etransitivity; [eapply bind_Ok; apply R4|].
    etransitivity; [eapply bind_Ok; apply R5|]. etransitivity; [eapply bind_Ok; reflexivity|].
    subst p5. rewrite <- Hp. reflexivity. }
  assert (Hi : old_iptype p5 = iptype p) by (subst p5; cbn; apply u8_id; unfold byte_ok; lia).
  assert (Hstr : ipStr_ok (old_iptype p5) = true)
    by (rewrite Hi; unfold ipStr_ok, ipStr_len; bool_prop; lia).
  exists (s <| rq_p := p5 |>). rewrite E, Hstr. split; [done|].
  assert (Hkeep : forall B (pr : PROFILE_T -> B),
    (forall v q, pr (q <| old_iptype := v |>) = pr q) -> (forall v q, pr (q <| old_auth := v |>) = pr q) ->
    (forall v q, pr (q <| old_password := v |>) = pr q) -> (forall v q, pr (q <| old_user := v |>) = pr q) ->
    (forall v q, pr (q <| old_apn := v |>) = pr q) -> pr p5 = pr (fresh_profile p)).
  { intros B pr K1 K2 K3 K4 K5. subst p5. by rewrite !opt_upd_proj. }
  change (rq_p (s <| rq_p := p5 |>)) with p5.
  split; [|split; [rewrite Hkeep by done; done | split; [by rewrite Hkeep by done|done]]].
  unfold profile_unchanged. rewrite Hi, (Hkeep _ iptype), (Hkeep _ apn), (Hkeep _ user),
    (Hkeep _ password), (Hkeep _ auth) by done. clear Hkeep.
  change (iptype (fresh_profile p)) with (wanted_iptype p). rewrite <- Hw, Z.eqb_refl.
  assert (F1 : old_apn p5 = str_or_empty (apn p)).
  { subst p5. rewrite !(opt_upd_proj old_apn) by done. rewrite (opt_upd_set old_apn (fun x => x) _ _ []) by done.
    by destruct (apn p). }
  assert (F2 : old_user p5 = str_or_empty (user p)).
  { subst p5. do 3 rewrite (opt_upd_proj old_user) by done.
    rewrite (opt_upd_set old_user (fun x => x) _ _ []); [by destruct (user p)|done|].
    by rewrite opt_upd_proj. }
  assert (F3 : old_password p5 = str_or_empty (password p)).
  { subst p5. do 2 rewrite (opt_upd_proj old_password) by done.
    rewrite (opt_upd_set old_password (fun x => x) _ _ []); [by destruct (password p)|done|].
    by rewrite !opt_upd_proj. }
  assert (F4 : old_auth p5 = auth p).
  { subst p5. rewrite (opt_upd_proj old_auth) by done. 
    rewrite (opt_upd_set old_auth (fun x => x) _ _ 0); [|done|by rewrite !(opt_upd_proj old_auth) by done].
    destruct (user p) eqn:Eu, (password p) eqn:Ew; cbn; [by apply u8_id|symmetry; apply Hau0; auto..]. }
  rewrite F1, F2, F3, F4. rewrite !bool_decide_true by done. cbn [andb]. apply Z.eqb_refl.
Qed.
End Profile.

(** ** Properties *)

(** Profile synchronisation is stable: when the modem reports the profile that
    [WdsModifyProfileSettingsReq] stored, [requestGetProfile] reads every field
    back (APN, user, password, authentication, IP type) and the
    [requestSetProfile] that follows finds nothing to change: it returns 0 and
    sends no request.  The strings must fit the 63 characters they are read
    back into, and a profile with authentication must have both credentials. *)
Theorem profile_sync_stable {W} (send : transport W) (s : rq W) h w'
    (p := fresh_profile (rq_p s)) (Hg : tid_ok (rq_g s))
    (Ha : answer_ok (Response h 0 0 (stored_tlvs p)))
    (H1 : str_ok (apn p)) (H2 : str_ok (user p)) (H3 : str_ok (password p))
    (Hau : byte_ok (auth p)) (Hau0 : (user p = None \/ password p = None) -> auth p = 0)
    (Hpdp : pdp p <> 0)
    (Hs : send (request_msg QMUX_TYPE_WDS 0x2B (next_tid (rq_g s)) [(0x01, [0; u8 (pdp p)])]) (rq_w s)
          = Ok (answer_val 0x2B (Response h 0 0 (stored_tlvs p)), w')) :
  exists s1, requestGetProfile send 1 s = Ok (0, s1) /\ rq_w s1 = w'
             /\ requestSetProfile send s1 = Ok (0, s1).
Proof.
  set (s0 := s <| rq_p := p |>). set (s1 := s0 <| rq_g := tick (rq_g s) |> <| rq_w := w' |>).
  assert (Hip : 0 <= iptype p < 4).
  { unfold p, fresh_profile, wanted_iptype. cbn. by destruct (truth _), (truth _). }
  destruct (read_profile_stored h p s1) as (s2 & E & Hun & Hi2 & Hp2 & Hw2 & Hg2); try done.
  exists s2. split; [|split].
  - unfold requestGetProfile. etransitivity; [eapply bind_Ok; reflexivity|].
    etransitivity; [eapply bind_Ok; reflexivity|]. cbv beta. fold p. fold s0.
    change (rq_p s0) with p.
    destruct (Z.eqb_spec (pdp p) 0); [done|]. cbn [get_profile_loop].
    etransitivity; [eapply bind_Ok; reflexivity|]. change (rq_p s0) with p.
    etransitivity.
    { eapply bind_Ok. rewrite (request_run send _ _ _ [(0x01, [0; u8 (pdp p)])]);
        [|apply _|vm_compute; lia|done]. change (rq_w s0) with (rq_w s).
      change (rq_g s0) with (rq_g s). rewrite Hs. reflexivity. }
    fold s1. cbn [answer_val].
    destruct (rd_result h 0x2B 0 0 (stored_tlvs p)) as [Er _]; [apply Ha|].
    etransitivity.
    { eapply (bind_Ok _ _ s1 false s1). cbn [Z.eqb].
      etransitivity; [eapply bind_Ok; unfold rd, lift, M_lift; rewrite Er; reflexivity|]. reflexivity. }
    cbv iota. etransitivity; [|exact E].
    apply (rsp_check_answer (fun e => e) 0x2B (Response h 0 0 (stored_tlvs p))). exact Ha.
  - by rewrite Hw2.
  - unfold requestSetProfile. etransitivity; [eapply bind_Ok; reflexivity|]. cbv beta.
    assert (Hstr : ipStr_ok (iptype (rq_p s2)) = true)
      by (rewrite Hi2; unfold ipStr_ok, ipStr_len; bool_prop; lia).
    rewrite Hstr, Hp2, Hun. cbn [negb]. by destruct (Z.eqb_spec (pdp p) 0).
Qed.

Lemma profile_sync_stable_witness :
  let p := PROFILE_zero <| apn := Some (bytes_of_string "cmnet") |> <| pdp := 1 |>
                        <| enable_ipv4 := 1 |> in
  let send := fun (_ : list Z) (w : unit) =>
    Ok (answer_val 0x2B (Response (zeros 9) 0 0 (stored_tlvs (fresh_profile p))), w) in
  exists s1, requestGetProfile send 1 (mkRq statics_init p tt []) = Ok (0, s1)
             /\ requestSetProfile send s1 = Ok (0, s1).
Proof.
  intros p send.
  destruct (profile_sync_stable send (mkRq statics_init p tt []) (zeros 9) tt)
    as (s1 & E1 & _ & E2).
  - vm_compute. split; discriminate.
  - repeat split; vm_compute; (reflexivity || discriminate).
  - split; [|vm_compute; lia]. refine (bool_decide_eq_true_1 _ _). vm_compute. reflexivity.
  - exact I.
  - exact I.
  - vm_compute. split; [discriminate|reflexivity].
  - reflexivity.
  - discriminate.
  - reflexivity.
  - exists s1. exact (conj E1 E2).
Defined.

(** Addresses of an IPv4 session: [requestGetIPAddress] clears the old record and
    takes address, gateway, subnet mask, both DNS servers and the MTU from the
    TLVs of the response, zero where the modem sent none, in whatever order and
    among whatever other TLVs they come. *)
Theorem get_ip_address_v4 {W} (send : transport W) (s : rq W) h ts w'
    (Hg : tid_ok (rq_g s)) (Hsess : WdsConnectionIPv4Handle (rq_g s) <> 0)
    (Ha : answer_ok (Response h 0 0 ts)) (Hok : settings4_ok ts)
    (Hs : send (request_msg QMUX_TYPE_WDS 0x2D (next_tid (rq_g s)) [tlv32 0x10 runtime_settings_mask])
            (rq_w s) = Ok (answer_val 0x2D (Response h 0 0 ts), w')) :
  exists s', requestGetIPAddress send IpFamilyV4 s = Ok (0, s')
    /\ ipv4 (rq_p s') = settings4 ts /\ ipv6 (rq_p s') = ipv6 (rq_p s) /\ rq_w s' = w'.
Proof.
  destruct Hok as [H4 H6]. rewrite !Forall_cons in H4, H6.
  destruct H4 as (A1 & A2 & A3 & A4 & A5 & A6 & _). destruct H6 as (N1 & N2 & N3 & N4 & N5 & N6 & _).
  assert (Hread : forall s1 : rq W, ipv4 (rq_p s1) = IPV4_zero ->
    exists s2, read_runtime_settings (rsp_msg h 0x2D 0 0 ts) IpFamilyV4 s1 = Ok (tt, s2)
      /\ ipv4 (rq_p s2) = settings4 ts /\ ipv6 (rq_p s2) = ipv6 (rq_p s1) /\ rq_w s2 = rq_w s1).
  { intros s1 Hz. eexists. split; [|split].
    - unfold read_runtime_settings, read_pcscf6, read_pcscf4, read_addr6, read_addr6_prefix.
      do 2 (etransitivity; [eapply bind_Ok; by apply with_tlv_absent|]).
      do 5 (etransitivity; [eapply bind_Ok; by apply read_addr4_tlv|]).
      do 4 (etransitivity; [eapply bind_Ok; by apply with_tlv_absent|]).
      apply (read_addr4_tlv h 0x2D ts 0x29 (fun v a => a <| v4_Mtu := v |>)); done.
    - rewrite <- settings4_chain, <- Hz. reflexivity.
    - done. }
  unfold requestGetIPAddress. set (s0 := s <| rq_p := (rq_p s) <| ipv4 := IPV4_zero |> |>).
  set (s1 := s0 <| rq_g := tick (rq_g s) |> <| rq_w := w' |>).
  destruct (Hread s1 eq_refl) as (s2 & E & R4 & R6 & Rw).
  exists s2. split; [|done]. etransitivity; [eapply bind_Ok; reflexivity|]. fold s0.
  etransitivity; [eapply bind_Ok; reflexivity|]. fold s0. cbv beta.
  change (IpFamilyV4 =? IpFamilyV4) with true. change (IpFamilyV4 =? IpFamilyV6) with false.
  cbn [andb]. rewrite orb_false_r.
  match goal with |- context [?x =? 0] => destruct (Z.eqb_spec x 0) as [e|] end; [by destruct Hsess|].
  etransitivity.
  { eapply bind_Ok. change (wds_of IpFamilyV4) with QMUX_TYPE_WDS.
    rewrite (request_run send _ _ _ [tlv32 0x10 runtime_settings_mask]); [|apply _|vm_compute; lia|done].
    change (rq_w s0) with (rq_w s). change (rq_g s0) with (rq_g s). rewrite Hs. reflexivity. }
  fold s1. etransitivity; [by apply (rsp_check_answer (fun e => e))|]. cbn [confirmed Z.eqb andb].
  etransitivity; [eapply bind_Ok; exact E|]. done.
Qed.

Lemma get_ip_address_v4_witness :
  let ts := [tlv32 0x20 9; tlv32 0x1E 7; tlv32 0x29 1500] in
  exists s', requestGetIPAddress (fun _ w => Ok (answer_val 0x2D (Response (zeros 9) 0 0 ts), w))
      IpFamilyV4 (mkRq (statics_init <| WdsConnectionIPv4Handle := 5 |>) PROFILE_zero tt []) = Ok (0, s')
    /\ ipv4 (rq_p s') = mkIPV4 7 9 0 0 0 1500.
Proof.
  intros ts. destruct (get_ip_address_v4
    (fun _ w => Ok (answer_val 0x2D (Response (zeros 9) 0 0 ts), w))
    (mkRq (statics_init <| WdsConnectionIPv4Handle := 5 |>) PROFILE_zero tt []) (zeros 9) ts tt)
    as (s' & E & H & _).
  - vm_compute. split; discriminate.
  - discriminate.
  - repeat split; vm_compute; (reflexivity || discriminate).
  - split; repeat constructor.
  - reflexivity.
  - exists s'. split; [exact E|]. rewrite H. vm_compute. reflexivity.
Defined.
