(* ===== verification/QmiProxy.v ===== *)
(** quectel-qmi-proxy.c: several connection managers share one QMI device.  The
    proxy queues the CTL requests of its clients and has one of them at a time in
    flight, learns from the CTL responses which client ids belong to which
    connection, and routes all other messages by service and client id. *)
From S2P Require Import Prelude QmiTlv.
#[local] Open Scope Z_scope.

Definition msg : Type := list Z.
Definition QMICTL_CTL_FLAG_RSP : Z := 1.
Definition QMICTL_SYNC_REQ : Z := 0x27.
Definition QMICTL_GET_CLIENT_ID_RESP : Z := 0x22.
Definition QMICTL_RELEASE_CLIENT_ID_RESP : Z := 0x23.
Definition QMICTL_REVOKE_IND : Z := 0x24.

(** [QMI_PROXY_CLINET], [QMI_PROXY_CONNECTION] and [QMI_PROXY_MSG] *)
Record client := mkClient { c_QMIType : Z; c_ClientId : Z }.
#[export] Instance client_eq_dec : EqDecision client.
Proof. solve_decision. Defined.
Record connection := mkConn { ClientFd : Z; client_qnode : list client }.

(** The statics of the proxy.  [pollout fd] says whether [poll] reports [fd]
    writable within its five seconds; [out] is what was written, to which
    descriptor, in order; [qmi_buf] is the static buffer that every message is read
    into, which keeps the bytes of earlier messages behind it. *)
Record proxy := mkProxy {
  cdc_fd : Z; server_fd : Z;
  conns : list connection; ctl_msg : list (Z * msg);
  modem_reset_flag : bool; qmi_sync_done : bool;
  pollout : Z -> bool; out : list (Z * msg); qmi_buf : list Z }.
Definition SIZEOF_qmi_buf : nat := 4096.
(** What is read through [pQMI]: the message, and behind it what the buffer held. *)
Definition view (m : msg) (s : proxy) : list Z := m ++ drop (length m) (qmi_buf s).

(** ** Operations *)

Definition write_to (fd : Z) (m : msg) (s : proxy) : proxy :=
  if pollout s fd then s <| out := out s ++ [(fd, m)] |> else s.
Definition send_qmi_to_cdc_wdm (m : msg) (s : proxy) : proxy := write_to (cdc_fd s) m s.
Definition send_qmi_to_client (m : msg) (clientFd : Z) (s : proxy) : proxy := write_to clientFd m s.

(** Without memory for a connection the descriptor stays open and nothing knows it. *)
Definition accept_qmi_connection (clientfd : Z) (malloc_ok : bool) (s : proxy) : proxy :=
  if malloc_ok then s <| conns := conns s ++ [mkConn clientfd []] |> else s.

(** Removal of the first element that satisfies a test. *)
Fixpoint remove_first {A} (f : A -> bool) (l : list A) : list A :=
  match l with
  | [] => []
  | x :: l => if f x then l else x :: remove_first f l
  end.

(** [cleanup_qmi_connection]: the first matching connection goes, its clients with
    it, and the first of its queued CTL messages. *)
Definition cleanup_qmi_connection (clientfd : Z) (s : proxy) : proxy :=
  if existsb (fun c => ClientFd c =? clientfd) (conns s) then
    s <| ctl_msg := remove_first (fun m => m.1 =? clientfd) (ctl_msg s) |>
      <| conns := remove_first (fun c => ClientFd c =? clientfd) (conns s) |>
  else s.

(** Result fields of a client-id response, in the buffer it was read into. *)
Definition client_rsp (m : msg) : res (option client) :=
  QMIResult ← rd16 m OFF_CTL_QMUXResult;
  QMIError ← rd16 m OFF_CTL_QMUXError;
  if (QMIResult =? 0) && (QMIError =? 0) then
    t ← rd8 m OFF_CTL_RSP_QMIType; c ← rd8 m OFF_CTL_RSP_ClientId; mret (Some (mkClient t c))
  else mret None.

Definition get_client_id (m : msg) (c : connection) : res connection :=
  r ← client_rsp m;
  mret (match r with Some cl => c <| client_qnode := client_qnode c ++ [cl] |> | None => c end).
Definition release_client_id (m : msg) (c : connection) : res connection :=
  r ← client_rsp m;
  mret (match r with
        | Some cl => c <| client_qnode := remove_first (fun x => bool_decide (x = cl)) (client_qnode c) |>
        | None => c end).

(** The CTL response in the buffer [b] seen by the connections that own the head request. *)
Definition ctl_response_one (b : list Z) (owner : Z) (ty : Z) (c : connection) : res connection :=
  if ClientFd c =? owner then
    if ty =? QMICTL_GET_CLIENT_ID_RESP then get_client_id b c
    else if (ty =? QMICTL_RELEASE_CLIENT_ID_RESP) || (ty =? QMICTL_REVOKE_IND) then release_client_id b c
    else mret c
  else mret c.

Fixpoint ctl_response (m : msg) (b : list Z) (owner : Z) (ty : Z) (cs : list connection) (s : proxy)
    : res (list connection * proxy) :=
  match cs with
  | [] => mret ([], s)
  | c :: cs =>
      let s := if ClientFd c =? owner then
                 let s := send_qmi_to_client m owner s in
                 if ty =? QMICTL_REVOKE_IND then s <| modem_reset_flag := true |> else s
               else s in
      c' ← ctl_response_one b owner ty c;
      r ← ctl_response m b owner ty cs s;
      mret (c' :: r.1, r.2)
  end.

(** The head request is sent once per connection with its descriptor. *)
Definition send_head (s : proxy) : proxy :=
  match ctl_msg s with
  | [] => s
  | (owner, m) :: _ =>
      foldl (fun s c => if ClientFd c =? owner then send_qmi_to_cdc_wdm m s else s) s (conns s)
  end.

Definition route (m : msg) (ty cid : Z) (s : proxy) : proxy :=
  foldl (fun s c =>
    foldl (fun s cl =>
      if (ty =? c_QMIType cl) && ((cid =? 0) || (cid =? c_ClientId cl))
      then send_qmi_to_client m (ClientFd c) s else s) s (client_qnode c)) s (conns s).

Definition recv_qmi_from_dev (m : msg) (s : proxy) : res proxy :=
  if server_fd s =? -1 then mret (s <| qmi_sync_done := true |>)
  else
    let b := view m s in
    ty ← rd8 b OFF_QMIType;
    if ty =? QMUX_TYPE_CTL then
      flags ← rd8 b OFF_CTL_CtlFlags;
      s ← (if flags =? QMICTL_CTL_FLAG_RSP then
             match ctl_msg s with
             | (owner, _) :: rest =>
                 cty ← rd16 b OFF_CTL_QMICTLType;
                 r ← ctl_response m b owner cty (conns s) s;
                 mret (r.2 <| conns := r.1 |> <| ctl_msg := rest |>)
             | [] => mret s
             end
           else mret s);
      mret (send_head s)
    else
      cid ← rd8 b OFF_ClientId;
      mret (route m ty cid s).

Definition recv_qmi_from_client (m : msg) (clientfd : Z) (s : proxy) : res proxy :=
  if server_fd s <=? 0 then mret (send_qmi_to_cdc_wdm m s)
  else
    let b := view m s in
    ty ← rd8 b OFF_QMIType;
    if ty =? QMUX_TYPE_CTL then
      cty ← rd16 b OFF_CTL_QMICTLType;
      if cty =? QMICTL_SYNC_REQ then mret s
      else
        let s := match ctl_msg s with [] => send_qmi_to_cdc_wdm m s | _ => s end in
        mret (s <| ctl_msg := ctl_msg s ++ [(clientfd, m)] |>)
    else mret (send_qmi_to_cdc_wdm m s).

(** ** The poll loop

    What one entry of [pollfds] reports.  [EvRead] carries the bytes read, empty
    when [read] returned zero or an error. *)
Inductive poll_event :=
  | EvError (fd : Z)
  | EvAccept (clientfd : Z) (malloc_ok : bool)
  | EvRead (fd : Z) (bytes : msg).

(** [Continue], [Break] out of the round, or leave the loop for good. *)
Inductive flow := Continue | Break | Exit.

(** [read] into the buffer, and whether the message is as long as it says. *)
Definition read_into (m : msg) (s : proxy) : proxy := s <| qmi_buf := view m s |>.
Definition complete (m : msg) (s : proxy) : res bool :=
  l ← qmi_len (view m s); mret (Z.of_nat (length m) =? l).

Definition handle_event (e : poll_event) (s : proxy) : res (flow * proxy) :=
  match e with
  | EvError fd =>
      if fd =? cdc_fd s then mret (Exit, s)
      else if fd =? server_fd s then mret (Continue, s)
      else mret (Continue, cleanup_qmi_connection fd s)
  | EvAccept clientfd malloc_ok => mret (Continue, accept_qmi_connection clientfd malloc_ok s)
  | EvRead fd bytes =>
      if fd =? cdc_fd s then
        match bytes with
        | [] => mret (Exit, s)
        | _ =>
            let s := read_into bytes s in
            ok ← complete bytes s;
            if (ok : bool) then
              s' ← recv_qmi_from_dev bytes s;
              mret (if modem_reset_flag s' then Exit else Continue, s')
            else mret (Continue, s)
        end
      else
        match bytes with
        | [] => mret (Break, cleanup_qmi_connection fd s)
        | _ =>
            let s := read_into bytes s in
            ok ← complete bytes s;
            if (ok : bool) then s' ← recv_qmi_from_client bytes fd s; mret (Continue, s')
            else mret (Continue, s)
        end
  end.

(** The [for] loop over the events of one [poll]. *)
Fixpoint handle_round (es : list poll_event) (s : proxy) : res (flow * proxy) :=
  match es with
  | [] => mret (Continue, s)
  | e :: es =>
      r ← handle_event e s;
      match r.1 with
      | Continue => handle_round es r.2
      | f => mret (f, r.2)
      end
  end.

(** The exit path: every connection is cleaned up. *)
Fixpoint close_all (n : nat) (s : proxy) : proxy :=
  match n, conns s with
  | S n, c :: _ => close_all n (cleanup_qmi_connection (ClientFd c) s)
  | _, _ => s
  end.

(** [qmi_proxy_loop] over the rounds until the quit flag is set; [None] is a failed
    [poll].  All ways out end in [qmi_proxy_loop_exit]. *)
Fixpoint qmi_proxy_loop (rounds : list (option (list poll_event))) (s : proxy) : res proxy :=
  let exit s := mret (close_all (length (conns s)) s) in
  if cdc_fd s <=? 0 then exit s
  else match rounds with
  | [] | None :: _ => exit s
  | Some r :: rounds =>
      x ← handle_round r s;
      match x.1 with
      | Exit => exit x.2
      | _ => qmi_proxy_loop rounds x.2
      end
  end.

(** [qmi_proxy_init]: up to ten SYNC requests, one a second; [answers i] are the
    messages the loop thread receives during the [i]-th second. *)
Definition SyncReq (i : Z) : msg :=
  [1] ++ enc16 (0 + 6 + 6 - 1) ++ [0; QMUX_TYPE_CTL; 0; 0; u8 (i + 1)] ++ enc16 QMICTL_SYNC_REQ ++ enc16 0.
Fixpoint recv_all (ms : list msg) (s : proxy) : res proxy :=
  match ms with
  | [] => mret s
  | m :: ms => s' ← recv_qmi_from_dev m s; recv_all ms s'
  end.
Fixpoint sync_loop (n : nat) (i : nat) (answers : nat -> list msg) (s : proxy) : res proxy :=
  match n with
  | O => mret s
  | S n =>
      if pollout s (cdc_fd s) then
        s' ← recv_all (answers i) (send_qmi_to_cdc_wdm (SyncReq (Z.of_nat i)) s);
        if qmi_sync_done s' then mret s' else sync_loop n (S i) answers s'
      else mret s
  end.
Definition qmi_proxy_init (answers : nat -> list msg) (s : proxy) : res (Z * proxy) :=
  s' ← sync_loop 10 0 answers (s <| qmi_sync_done := false |>);
  mret (if qmi_sync_done s' then 0 else -1, s').

(** The requests of clients, in the order in which they are read. *)
Fixpoint client_requests (l : list (Z * msg)) (s : proxy) : res proxy :=
  match l with
  | [] => mret s
  | (fd, m) :: l => s' ← recv_qmi_from_client m fd s; client_requests l s'
  end.

(** ** Specification of the CTL channel

    A run without disconnections, with the accepted requests [reqs] and the
    responses [rsps] of the modem as ghost history. *)
Definition is_ctl (m : msg) : Prop := m !! OFF_QMIType = Some QMUX_TYPE_CTL.
#[export] Instance is_ctl_dec m : Decision (is_ctl m).
Proof. unfold is_ctl. apply _. Defined.
(** A message with a header that is not a CTL message. *)
Definition is_data (m : msg) : Prop := (OFF_QMIType < length m)%nat /\ ~ is_ctl m.

Definition fds (s : proxy) : list Z := ClientFd <$> conns s.
Definition ctl_to_modem (s : proxy) : list msg :=
  snd <$> filter (fun x => is_ctl x.2 /\ x.1 = cdc_fd s) (out s).
Definition ctl_to_clients (s : proxy) : list (Z * msg) :=
  filter (fun x => is_ctl x.2 /\ x.1 <> cdc_fd s) (out s).

(** The ghost history: the accepted requests, the responses, and for every CTL message that
    was no response, while a request was in flight, the number of that request. *)
Definition pstate : Type := proxy * list (Z * msg) * list msg * list nat.
Inductive pstep : pstate -> pstate -> Prop :=
  | st_accept s reqs rsps inds fd ok :
      fd ∉ fds s -> fd <> cdc_fd s ->
      pstep (s, reqs, rsps, inds) (accept_qmi_connection fd ok s, reqs, rsps, inds)
  | st_request s s' reqs rsps inds fd m :
      fd ∈ fds s -> is_ctl m -> rd16 (view m s) OFF_CTL_QMICTLType <> Ok QMICTL_SYNC_REQ ->
      recv_qmi_from_client m fd s = Ok s' ->
      pstep (s, reqs, rsps, inds) (s', reqs ++ [(fd, m)], rsps, inds)
  | st_sync s s' reqs rsps inds fd m :
      is_ctl m -> rd16 (view m s) OFF_CTL_QMICTLType = Ok QMICTL_SYNC_REQ ->
      recv_qmi_from_client m fd s = Ok s' ->
      pstep (s, reqs, rsps, inds) (s', reqs, rsps, inds)
  | st_data s s' reqs rsps inds fd m :
      fd ∈ fds s -> is_data m -> recv_qmi_from_client m fd s = Ok s' ->
      pstep (s, reqs, rsps, inds) (s', reqs, rsps, inds)
  | st_response s s' reqs rsps inds m :
      is_ctl m -> rd8 (view m s) OFF_CTL_CtlFlags = Ok QMICTL_CTL_FLAG_RSP -> ctl_msg s <> [] ->
      recv_qmi_from_dev m s = Ok s' ->
      pstep (s, reqs, rsps, inds) (s', reqs, rsps ++ [m], inds)
  | st_ctl_other s s' reqs rsps inds m :
      is_ctl m -> rd8 (view m s) OFF_CTL_CtlFlags <> Ok QMICTL_CTL_FLAG_RSP -> ctl_msg s <> [] ->
      recv_qmi_from_dev m s = Ok s' ->
      pstep (s, reqs, rsps, inds) (s', reqs, rsps, inds ++ [length rsps])
  | st_stray s s' reqs rsps inds m :
      is_ctl m -> ctl_msg s = [] -> recv_qmi_from_dev m s = Ok s' ->
      pstep (s, reqs, rsps, inds) (s', reqs, rsps, inds)
  | st_indication s s' reqs rsps inds m :
      is_data m -> recv_qmi_from_dev m s = Ok s' ->
      pstep (s, reqs, rsps, inds) (s', reqs, rsps, inds)
  | st_read s reqs rsps inds m :
      pstep (s, reqs, rsps, inds) (read_into m s, reqs, rsps, inds).

Definition pwf (s : proxy) : Prop :=
  NoDup (fds s) /\ cdc_fd s ∉ fds s /\ 0 < server_fd s /\ (forall fd, pollout s fd = true)
  /\ Forall (fun x => x.1 ∈ fds s /\ is_ctl x.2) (ctl_msg s).

(** What the modem is sent for the requests [l]: each once, and once more for every CTL
    message that is no response and comes while the request is in flight. *)
Definition times (inds : list nat) (i : nat) : nat := S (length (filter (fun j => j = i) inds)).
Definition sent (inds : list nat) (l : list (Z * msg)) : list msg :=
  concat (imap (fun i x => replicate (times inds i) x.2) l).

(** The channel is a FIFO with one request in flight. *)
Definition fifo (st : pstate) : Prop :=
  let '(s, reqs, rsps, inds) := st in
  pwf s /\ (length rsps <= length reqs)%nat
  /\ Forall (fun i => (i <= length rsps)%nat /\ (i < length reqs)%nat) inds
  /\ ctl_msg s = drop (length rsps) reqs
  /\ ctl_to_modem s = sent inds (take (S (length rsps)) reqs)
  /\ ctl_to_clients s = zip (fst <$> take (length rsps) reqs) rsps.

Definition proxy_init : proxy := mkProxy 3 4 [] [] false true (fun _ => true) [] (zeros SIZEOF_qmi_buf).

(** ** Lemmas *)

(** What writing leaves alone. *)
Definition same_but_out (s s' : proxy) : Prop :=
  conns s' = conns s /\ ctl_msg s' = ctl_msg s /\ pollout s' = pollout s
  /\ cdc_fd s' = cdc_fd s /\ server_fd s' = server_fd s.
#[export] Instance same_but_out_preorder : PreOrder same_but_out.
Proof. split; [by intros ?|]. intros x y z (?&?&?&?&?) (?&?&?&?&?). repeat split; congruence. Qed.

Lemma write_to_same fd m s : same_but_out s (write_to fd m s).
Proof. unfold write_to. by destruct (pollout s fd). Qed.
Lemma write_to_out fd m s : pollout s fd = true -> out (write_to fd m s) = out s ++ [(fd, m)].
Proof. intros H. unfold write_to. by rewrite H. Qed.

(** Sending to the one connection with the owner's descriptor. *)
Lemma fold_owner (owner fd : Z) m cs : forall s,
  NoDup (ClientFd <$> cs) -> (forall fd, pollout s fd = true) ->
  let s' := foldl (fun s c => if ClientFd c =? owner then write_to fd m s else s) s cs in
  same_but_out s s'
  /\ out s' = out s ++ (if bool_decide (owner ∈ ClientFd <$> cs) then [(fd, m)] else []).
Proof.
  induction cs as [|c cs IH]; intros s Hnd Hp; cbn [foldl].
  - split; [done|]. rewrite bool_decide_false by set_solver. by rewrite app_nil_r.
  - rewrite fmap_cons, NoDup_cons in Hnd. destruct Hnd as [Hc Hnd].
    destruct (Z.eqb_spec (ClientFd c) owner) as [E|E].
    + destruct (IH (write_to fd m s) Hnd) as [H1 H2].
      { intros x. destruct (write_to_same fd m s) as (_ & _ & -> & _). apply Hp. }
      split; [etransitivity; [apply write_to_same|exact H1]|].
      rewrite H2, write_to_out by apply Hp. rewrite bool_decide_false by (rewrite <- E; done).
      rewrite bool_decide_true by (rewrite fmap_cons, E; set_solver). by rewrite app_nil_r.
    + destruct (IH s Hnd Hp) as [H1 H2]. split; [done|]. rewrite H2. f_equal.
      rewrite fmap_cons.
      destruct (decide (owner ∈ ClientFd <$> cs)).
      * rewrite !bool_decide_true by set_solver. done.
      * rewrite !bool_decide_false by set_solver. done.
Qed.

(** A CTL response goes to its owner once and changes only client lists. *)
Lemma ctl_response_spec m b owner ty cs : forall s cs' s',
  NoDup (ClientFd <$> cs) -> (forall fd, pollout s fd = true) ->
  ctl_response m b owner ty cs s = Ok (cs', s') ->
  same_but_out s s' /\ ClientFd <$> cs' = ClientFd <$> cs
  /\ out s' = out s ++ (if bool_decide (owner ∈ ClientFd <$> cs) then [(owner, m)] else []).
Proof.
  induction cs as [|c cs IH]; intros s cs' s' Hnd Hp H; cbn [ctl_response] in H.
  - unfold mret, res_ret in H. simplify_eq. split; [done|]. split; [done|].
    rewrite bool_decide_false by set_solver. by rewrite app_nil_r.
  - rewrite fmap_cons, NoDup_cons in Hnd. destruct Hnd as [Hc Hnd].
    set (s1 := if ClientFd c =? owner then _ else s) in H.
    assert (H1 : same_but_out s s1).
    { subst s1. destruct (ClientFd c =? owner); [|done]. unfold send_qmi_to_client.
      etransitivity; [apply (write_to_same owner m s)|].
      by destruct (ty =? QMICTL_REVOKE_IND). }
    assert (Ho : out s1 = out s ++ (if ClientFd c =? owner then [(owner, m)] else [])).
    { subst s1. destruct (ClientFd c =? owner); [|by rewrite app_nil_r].
      unfold send_qmi_to_client. rewrite <- write_to_out by apply Hp.
      by destruct (ty =? QMICTL_REVOKE_IND). }
    destruct (ctl_response_one b owner ty c) as [c'| |] eqn:Ec; [|done..].
    assert (Hc' : ClientFd c' = ClientFd c).
    { revert Ec. unfold ctl_response_one, get_client_id, release_client_id, mbind, res_bind, mret, res_ret.
      intros Ec. repeat case_match; simplify_eq; done. }
    unfold mbind, res_bind in H. destruct (ctl_response m b owner ty cs s1) as [[r1 r2]| |] eqn:E; [|done..].
    unfold mret, res_ret in H. simplify_eq. apply IH in E as (E1 & E2 & E3); [|done|].
    2: { intros x. destruct H1 as (_ & _ & -> & _). apply Hp. }
    split; [by etransitivity|]. split; [cbn; by rewrite E2, Hc'|].
    rewrite E3, Ho, <- app_assoc. f_equal. rewrite fmap_cons.
    destruct (Z.eqb_spec (ClientFd c) owner) as [Eo|Eo].
    + rewrite bool_decide_false by (by rewrite <- Eo). rewrite bool_decide_true by set_solver. done.
    + destruct (decide (owner ∈ ClientFd <$> cs)).
      * by rewrite !bool_decide_true by set_solver.
      * by rewrite !bool_decide_false by set_solver.
Qed.

(** Routing writes the routed message only. *)
Lemma route_spec m ty cid s :
  same_but_out s (route m ty cid s)
  /\ exists l, out (route m ty cid s) = out s ++ ((fun fd => (fd, m)) <$> l).
Proof.
  unfold route. generalize (conns s) as cs. intros cs. revert s.
  induction cs as [|c cs IH]; intros s; cbn [foldl].
  - split; [done|]. exists []. by rewrite app_nil_r.
  - set (s1 := foldl _ s (client_qnode c)).
    assert (H1 : same_but_out s s1 /\ exists l, out s1 = out s ++ ((fun fd => (fd, m)) <$> l)).
    { subst s1. clear IH. generalize (client_qnode c) as cls. intros cls. revert s.
      induction cls as [|cl cls IH]; intros s; cbn [foldl].
      - split; [done|]. exists []. by rewrite app_nil_r.
      - match goal with |- context [foldl _ ?x cls] => set (s1 := x) end.
        destruct (IH s1) as [H1 [l H2]].
        assert (H : same_but_out s s1 /\ exists l, out s1 = out s ++ ((fun fd => (fd, m)) <$> l)).
        { subst s1. destruct (_ && _); [|split; [done|]; exists []; by rewrite app_nil_r].
          split; [apply write_to_same|]. unfold send_qmi_to_client, write_to.
          destruct (pollout s (ClientFd c)); [by exists [ClientFd c]|exists []; by rewrite app_nil_r]. }
        destruct H as [H3 [l' H4]]. split; [by etransitivity|]. exists (l' ++ l).
        by rewrite H2, H4, fmap_app, app_assoc. }
    destruct H1 as [H1 [l1 H2]]. destruct (IH s1) as [H3 [l2 H4]].
    split; [by etransitivity|]. exists (l1 ++ l2). by rewrite H4, H2, fmap_app, app_assoc.
Qed.

Lemma is_ctl_rd m : is_ctl m <-> rd8 m OFF_QMIType = Ok QMUX_TYPE_CTL.
Proof.
  unfold is_ctl, rd8, of_option, msg in *. destruct (m !! OFF_QMIType); split; intros H; by inversion H.
Qed.

Lemma view_rd8 m s o : (o < length m)%nat -> rd8 (view m s) o = rd8 m o.
Proof. apply rd8_app_l. Qed.
Lemma ctl_view m s : is_ctl m -> rd8 (view m s) OFF_QMIType = Ok QMUX_TYPE_CTL.
Proof. intros H. rewrite view_rd8 by (by eapply lookup_lt_Some). by apply is_ctl_rd. Qed.
Lemma data_view m s : is_data m -> exists ty, rd8 (view m s) OFF_QMIType = Ok ty /\ (ty =? QMUX_TYPE_CTL) = false.
Proof.
  intros [H1 H2]. destruct (rd8_Ok m OFF_QMIType H1) as [ty E]. exists ty. split; [by rewrite view_rd8|].
  apply Z.eqb_neq. intros ->. by apply H2, is_ctl_rd.
Qed.

(** How the two CTL projections of the output grow. *)
Lemma ctl_grow s s' x :
  cdc_fd s' = cdc_fd s -> out s' = out s ++ x ->
  ctl_to_modem s' = ctl_to_modem s
    ++ (snd <$> filter (fun x => is_ctl x.2 /\ x.1 = cdc_fd s) x)
  /\ ctl_to_clients s' = ctl_to_clients s ++ filter (fun x => is_ctl x.2 /\ x.1 <> cdc_fd s) x.
Proof.
  intros Hc Ho. unfold ctl_to_modem, ctl_to_clients. by rewrite Hc, Ho, !filter_app, fmap_app.
Qed.
Lemma ctl_grow_none s s' m l :
  cdc_fd s' = cdc_fd s -> ~ is_ctl m -> out s' = out s ++ ((fun fd => (fd, m)) <$> l) ->
  ctl_to_modem s' = ctl_to_modem s /\ ctl_to_clients s' = ctl_to_clients s.
Proof.
  intros Hc Hm Ho. destruct (ctl_grow s s' _ Hc Ho) as [-> ->].
  clear Ho. induction l as [|fd l [IH1 IH2]]; [by rewrite !app_nil_r|]. rewrite fmap_cons.
  rewrite !filter_cons_False by (cbn; tauto). done.
Qed.

Lemma pwf_same s s' : same_but_out s s' -> pwf s -> pwf s'.
Proof.
  intros (H1 & H2 & H3 & H4 & H5). unfold pwf, fds. by rewrite H1, H2, H3, H4, H5.
Qed.

(** [send_head] writes the head request to the device, once. *)
Lemma send_head_spec s owner m rest :
  pwf s -> ctl_msg s = (owner, m) :: rest ->
  same_but_out s (send_head s) /\ out (send_head s) = out s ++ [(cdc_fd s, m)].
Proof.
  intros (Hnd & _ & _ & Hp & Hown) E. unfold send_head. rewrite E in *.
  apply Forall_cons in Hown as [[Hown _] _].
  assert (Hext : forall cs s0, cdc_fd s0 = cdc_fd s ->
    foldl (fun s c => if ClientFd c =? owner then send_qmi_to_cdc_wdm m s else s) s0 cs
    = foldl (fun s' c => if ClientFd c =? owner then write_to (cdc_fd s) m s' else s') s0 cs).
  { induction cs as [|c cs IH]; intros s0 H0; [done|]. cbn [foldl].
    unfold send_qmi_to_cdc_wdm at 2. rewrite H0. apply IH. destruct (ClientFd c =? owner); [|done].
    destruct (write_to_same (cdc_fd s) m s0) as (_ & _ & _ & -> & _). done. }
  rewrite Hext by done. destruct (fold_owner owner (cdc_fd s) m (conns s) s Hnd Hp) as [H1 H2].
  split; [done|]. rewrite H2, bool_decide_true; done.
Qed.
