(* ===== verification/QmiProxySpec.v ===== *)
(** Properties of quectel-qmi-proxy.c: the CTL channel is a FIFO with one request in
    flight as long as no client disconnects, what a disconnection breaks, the
    routing of all other messages, and the life of client ids. *)
From S2P Require Import Prelude QmiTlv QmiProxy.
#[local] Open Scope Z_scope.

Lemma drop_cons_lookup {A} (l : list A) n x rest :
  drop n l = x :: rest -> l !! n = Some x /\ drop (S n) l = rest /\ (n < length l)%nat.
Proof.
  intros H. assert (Hx : l !! n = Some x).
  { rewrite <- (Nat.add_0_r n), <- lookup_drop, H. done. }
  split; [done|]. split; [|by eapply lookup_lt_Some].
  rewrite (drop_S _ _ _ Hx) in H. by simplify_eq.
Qed.

(** *** What the modem is sent *)
Lemma sent_snoc inds l x : sent inds (l ++ [x]) = sent inds l ++ replicate (times inds (length l)) x.2.
Proof. unfold sent. rewrite imap_app, concat_app. cbn. by rewrite app_nil_r, Nat.add_0_r. Qed.
Lemma sent_ext inds inds' l : (forall i, (i < length l)%nat -> times inds i = times inds' i) -> sent inds l = sent inds' l.
Proof. intros H. unfold sent. f_equal. apply imap_ext. intros i x Hi. rewrite H; [done|]. by eapply lookup_lt_Some. Qed.
Lemma times_fresh inds k : Forall (fun i => i <> k) inds -> times inds k = 1%nat.
Proof.
  intros H. unfold times. induction H as [|i inds Hi _ IH]; [done|]. by rewrite filter_cons_False by done.
Qed.
Lemma times_snoc inds k i : times (inds ++ [k]) i = (times inds i + if decide (k = i) then 1 else 0)%nat.
Proof.
  unfold times. rewrite filter_app, length_app. destruct (decide (k = i)).
  - rewrite filter_cons_True by done. cbn. lia.
  - rewrite filter_cons_False by done. cbn. lia.
Qed.
(** The request in flight is sent once more. *)
Lemma sent_again inds l x : Forall (fun i => (i <= length l)%nat) inds ->
  sent (inds ++ [length l]) (l ++ [x]) = sent inds (l ++ [x]) ++ [x.2].
Proof.
  intros _. rewrite !sent_snoc, (sent_ext (inds ++ [length l]) inds).
  - rewrite times_snoc, decide_True, Nat.add_1_r, replicate_S_end by done. by rewrite app_assoc.
  - intros i Hi. rewrite times_snoc, decide_False by lia. lia.
Qed.

Lemma fifo_accept s reqs rsps inds fd ok :
  fifo (s, reqs, rsps, inds) -> fd ∉ fds s -> fd <> cdc_fd s ->
  fifo (accept_qmi_connection fd ok s, reqs, rsps, inds).
Proof.
  destruct ok; [|done].
  intros ((Hnd & Hc & Hs & Hp & Ho) & Hl & Hi & Hq & Hm & Hcl) Hfd Hne.
  assert (Hf : fds (accept_qmi_connection fd true s) = fds s ++ [fd])
    by (change (ClientFd <$> (conns s ++ [mkConn fd []]) = fds s ++ [fd]); by rewrite fmap_app).
  split; [|done]. unfold pwf. rewrite Hf. repeat split; try done.
  - apply NoDup_app. split; [done|]. split; [set_solver|apply NoDup_singleton].
  - set_solver.
  - eapply Forall_impl; [exact Ho|]. cbn. set_solver.
Qed.

(** The proxy after queueing a CTL request. *)
Definition queued (m : msg) (fd : Z) (s : proxy) : proxy :=
  let s1 := match ctl_msg s with [] => send_qmi_to_cdc_wdm m s | _ => s end in
  s1 <| ctl_msg := ctl_msg s1 ++ [(fd, m)] |>.
Lemma recv_request m fd s s' :
  0 < server_fd s -> is_ctl m -> rd16 (view m s) OFF_CTL_QMICTLType <> Ok QMICTL_SYNC_REQ ->
  recv_qmi_from_client m fd s = Ok s' -> s' = queued m fd s.
Proof.
  intros Hs Hctl Hty. unfold recv_qmi_from_client. destruct (Z.leb_spec (server_fd s) 0); [lia|].
  cbv zeta. rewrite (ctl_view m s Hctl). unfold mbind, res_bind.
  change (QMUX_TYPE_CTL =? QMUX_TYPE_CTL) with true. cbv iota.
  destruct (rd16 (view m s) OFF_CTL_QMICTLType) as [c| |]; [|done..].
  destruct (Z.eqb_spec c QMICTL_SYNC_REQ) as [->|]; [done|]. by intros [= <-].
Qed.

Lemma fifo_request s s' reqs rsps inds fd m :
  fifo (s, reqs, rsps, inds) -> fd ∈ fds s -> is_ctl m ->
  rd16 (view m s) OFF_CTL_QMICTLType <> Ok QMICTL_SYNC_REQ -> recv_qmi_from_client m fd s = Ok s' ->
  fifo (s', reqs ++ [(fd, m)], rsps, inds).
Proof.
  intros (Hwf & Hl & Hin & Hq & Hm & Hcl) Hfd Hctl Hty H.
  pose proof Hwf as (Hnd & Hc & Hs & Hp & Ho).
  apply recv_request in H as ->; [|done..]. unfold queued.
  set (s1 := match ctl_msg s with [] => send_qmi_to_cdc_wdm m s | _ => s end). cbv zeta.
  assert (H1 : same_but_out s s1).
  { subst s1. destruct (ctl_msg s); [apply write_to_same|done]. }
  destruct H1 as (E1 & E2 & E3 & E4 & E5).
  assert (Hlen : (length (reqs ++ [(fd, m)]) = S (length reqs))%nat) by (rewrite length_app; cbn; lia).
  split; [|split; [lia|split; [|split; [|split]]]].
  - unfold pwf, fds. change (conns (s1 <| ctl_msg := _ |>)) with (conns s1).
    change (cdc_fd (s1 <| ctl_msg := _ |>)) with (cdc_fd s1).
    change (server_fd (s1 <| ctl_msg := _ |>)) with (server_fd s1).
    change (pollout (s1 <| ctl_msg := _ |>)) with (pollout s1).
    change (ctl_msg (s1 <| ctl_msg := ctl_msg s1 ++ [(fd, m)] |>)) with (ctl_msg s1 ++ [(fd, m)]).
    rewrite E1, E2, E3, E4, E5. repeat split; try done.
    apply Forall_app. split; [done|]. by repeat constructor.
  - eapply Forall_impl; [exact Hin|]. cbn. intros i Hi. lia.
  - change (ctl_msg s1 ++ [(fd, m)] = drop (length rsps) (reqs ++ [(fd, m)])).
    rewrite E2, Hq, drop_app_le by lia. done.
  - change (ctl_to_modem s1 = sent inds (take (S (length rsps)) (reqs ++ [(fd, m)]))).
    subst s1. destruct (ctl_msg s) as [|x rest] eqn:Eq.
    + destruct (ctl_grow s (send_qmi_to_cdc_wdm m s) [(cdc_fd s, m)]) as [-> _];
        [apply write_to_same|by apply write_to_out|].
      rewrite Hm. rewrite filter_cons_True by done. symmetry in Hq. apply drop_nil_inv in Hq.
      rewrite !take_ge by (rewrite ?length_app; cbn; lia). rewrite sent_snoc, times_fresh; [done|].
      eapply Forall_impl; [exact Hin|]. cbn. intros i Hi. lia.
    + symmetry in Hq. apply drop_cons_lookup in Hq as (_ & _ & Hlt).
      rewrite Hm, take_app_le by lia. done.
  - change (ctl_to_clients s1 = zip (fst <$> take (length rsps) (reqs ++ [(fd, m)])) rsps).
    rewrite take_app_le by lia. subst s1. destruct (ctl_msg s) as [|x rest]; [|done].
    destruct (ctl_grow s (send_qmi_to_cdc_wdm m s) [(cdc_fd s, m)]) as [_ ->];
      [apply write_to_same|by apply write_to_out|].
    rewrite filter_cons_False by (cbn; tauto). by rewrite app_nil_r.
Qed.

(** Steps that write non-CTL messages only. *)
Lemma fifo_quiet s s' reqs rsps inds m l :
  fifo (s, reqs, rsps, inds) -> same_but_out s s' -> ~ is_ctl m ->
  out s' = out s ++ ((fun fd => (fd, m)) <$> l) -> fifo (s', reqs, rsps, inds).
Proof.
  intros (Hwf & Hl & Hi & Hq & Hm & Hcl) Hs Hn Ho.
  destruct (ctl_grow_none s s' m l) as [G1 G2]; [apply Hs|done..|].
  split; [by eapply pwf_same|]. split; [done|]. split; [done|]. destruct Hs as (_ & -> & _). by rewrite G1, G2.
Qed.

(** The proxy after a CTL response: the owner of the head got it, the head is gone
    and the next request is on its way. *)
Lemma recv_response_gen m s s' owner m0 rest :
  NoDup (fds s) -> 0 < server_fd s -> (forall fd, pollout s fd = true) -> owner ∈ fds s ->
  is_ctl m -> rd8 (view m s) OFF_CTL_CtlFlags = Ok QMICTL_CTL_FLAG_RSP ->
  ctl_msg s = (owner, m0) :: rest -> recv_qmi_from_dev m s = Ok s' ->
  exists s1, s' = send_head s1 /\ ctl_msg s1 = rest /\ fds s1 = fds s /\ cdc_fd s1 = cdc_fd s
    /\ server_fd s1 = server_fd s /\ pollout s1 = pollout s /\ out s1 = out s ++ [(owner, m)].
Proof.
  intros Hnd Hs Hp Hown Hctl Hf E H.
  unfold recv_qmi_from_dev in H. destruct (Z.eqb_spec (server_fd s) (-1)); [lia|].
  cbv zeta in H. rewrite (ctl_view m s Hctl), Hf in H. unfold mbind, res_bind in H.
  change (QMUX_TYPE_CTL =? QMUX_TYPE_CTL) with true in H.
  change (QMICTL_CTL_FLAG_RSP =? QMICTL_CTL_FLAG_RSP) with true in H. cbv iota in H. rewrite E in H.
  destruct (rd16 (view m s) OFF_CTL_QMICTLType) as [ty| |]; [|done..].
  destruct (ctl_response m (view m s) owner ty (conns s) s) as [[cs s1]| |] eqn:Er; [|done..].
  apply ctl_response_spec in Er as ((E1 & E2 & E3 & E4 & E5) & Hcs & Hout); [|done..].
  unfold mret, res_ret in H. injection H as <-.
  exists (s1 <| conns := cs |> <| ctl_msg := rest |>). repeat (split; [done|]).
  change (out s1 = out s ++ [(owner, m)]). rewrite Hout, bool_decide_true; done.
Qed.
Lemma recv_response m s s' owner m0 rest :
  pwf s -> is_ctl m -> rd8 (view m s) OFF_CTL_CtlFlags = Ok QMICTL_CTL_FLAG_RSP ->
  ctl_msg s = (owner, m0) :: rest -> recv_qmi_from_dev m s = Ok s' ->
  exists s1, s' = send_head s1 /\ pwf s1 /\ ctl_msg s1 = rest /\ cdc_fd s1 = cdc_fd s
    /\ out s1 = out s ++ [(owner, m)].
Proof.
  intros (Hnd & Hc & Hs & Hp & Ho) Hctl Hf E H.
  rewrite E in Ho. apply Forall_cons in Ho as [[Hown _] Ho].
  destruct (recv_response_gen m s s' owner m0 rest) as (s1 & -> & E1 & E2 & E3 & E4 & E5 & E6); [done..|].
  exists s1. split; [done|]. split; [|done]. unfold pwf. by rewrite E1, E2, E3, E4, E5.
Qed.

Lemma fifo_response s s' reqs rsps inds m :
  fifo (s, reqs, rsps, inds) -> is_ctl m -> rd8 (view m s) OFF_CTL_CtlFlags = Ok QMICTL_CTL_FLAG_RSP ->
  ctl_msg s <> [] -> recv_qmi_from_dev m s = Ok s' -> fifo (s', reqs, rsps ++ [m], inds).
Proof.
  intros (Hwf & Hl & Hin & Hq & Hm & Hcl) Hctl Hf Hne H.
  destruct (ctl_msg s) as [|[owner m0] rest] eqn:E; [done|]. symmetry in Hq.
  destruct (drop_cons_lookup _ _ _ _ Hq) as (Hlk & Hrest & Hlt).
  destruct (recv_response _ _ _ _ _ _ Hwf Hctl Hf E H) as (s1 & -> & Hwf1 & Hq1 & Hc1 & Ho1).
  assert (Howner : owner <> cdc_fd s).
  { destruct Hwf as (_ & Hc & _ & _ & Ho). rewrite E in Ho. apply Forall_cons in Ho as [[Ho _] _].
    intros ->. done. }
  destruct (ctl_grow s s1 [(owner, m)] Hc1 Ho1) as [G1 G2].
  rewrite filter_cons_False in G1 by (cbn; tauto). rewrite filter_cons_True in G2 by done.
  cbn [fmap list_fmap] in G1. rewrite app_nil_r in G1.
  assert (Hzip : zip (fst <$> take (S (length rsps)) reqs) (rsps ++ [m])
    = zip (fst <$> take (length rsps) reqs) rsps ++ [(owner, m)]).
  { rewrite (take_S_r _ _ _ Hlk), fmap_app, zip_with_app; [done|].
    rewrite length_fmap, length_take_le; lia. }
  unfold fifo. rewrite length_app. cbn [length]. rewrite Nat.add_1_r, Hzip.
  split; [|split; [lia|split]].
  { destruct rest as [|[o1 m1] rest']; [unfold send_head; by rewrite Hq1|].
    destruct (send_head_spec s1 o1 m1 rest' Hwf1 Hq1) as [Hsame _]. by eapply pwf_same. }
  { eapply Forall_impl; [exact Hin|]. cbn. intros i Hi. lia. }
  destruct rest as [|[o1 m1] rest'].
  - unfold send_head. rewrite Hq1, G1, G2, Hm, Hcl, Hrest. split; [done|]. split; [|done].
    apply drop_nil_inv in Hrest. rewrite !take_ge by lia. done.
  - destruct (send_head_spec s1 o1 m1 rest' Hwf1 Hq1) as [Hsame Hout].
    destruct (drop_cons_lookup _ _ _ _ Hrest) as (Hlk1 & _ & _).
    assert (Hm1 : is_ctl m1).
    { destruct Hwf1 as (_ & _ & _ & _ & Ho). rewrite Hq1 in Ho. by apply Forall_cons in Ho as [[_ ?] _]. }
    destruct (ctl_grow s1 (send_head s1) _ (proj1 (proj2 (proj2 (proj2 Hsame)))) Hout) as [K1 K2].
    rewrite filter_cons_True in K1 by done. rewrite filter_cons_False in K2 by (cbn; tauto).
    destruct Hsame as (_ & S2 & _). rewrite S2, Hq1, K1, K2, G1, G2, Hm, Hcl.
    split; [done|]. split; [|by rewrite app_nil_r].
    rewrite (take_S_r _ _ _ Hlk1), sent_snoc, length_take_le, times_fresh by
      (first [lia | eapply Forall_impl; [exact Hin|]; cbn; intros i Hi; lia]). done.
Qed.

(** A CTL message that is no response changes nothing but sends the head again. *)
Lemma recv_ctl_other m s s' : 0 < server_fd s -> is_ctl m -> rd8 (view m s) OFF_CTL_CtlFlags <> Ok QMICTL_CTL_FLAG_RSP ->
  recv_qmi_from_dev m s = Ok s' -> s' = send_head s.
Proof.
  intros Hs Hctl Hf. unfold recv_qmi_from_dev. destruct (Z.eqb_spec (server_fd s) (-1)); [lia|].
  cbv zeta. rewrite (ctl_view m s Hctl). unfold mbind, res_bind. change (QMUX_TYPE_CTL =? QMUX_TYPE_CTL) with true. cbv iota.
  destruct (rd8 (view m s) OFF_CTL_CtlFlags) as [f| |]; [|done..].
  destruct (Z.eqb_spec f QMICTL_CTL_FLAG_RSP) as [->|]; [done|]. by intros [= <-].
Qed.
Lemma fifo_ctl_other s s' reqs rsps inds m :
  fifo (s, reqs, rsps, inds) -> is_ctl m -> rd8 (view m s) OFF_CTL_CtlFlags <> Ok QMICTL_CTL_FLAG_RSP ->
  ctl_msg s <> [] -> recv_qmi_from_dev m s = Ok s' -> fifo (s', reqs, rsps, inds ++ [length rsps]).
Proof.
  intros (Hwf & Hl & Hin & Hq & Hm & Hcl) Hctl Hf Hne H. pose proof Hwf as (_ & _ & Hs & _).
  apply recv_ctl_other in H as ->; [|done..]. destruct (ctl_msg s) as [|[owner m0] rest] eqn:E; [done|]. symmetry in Hq.
  destruct (drop_cons_lookup _ _ _ _ Hq) as (Hlk & _ & Hlt).
  destruct (send_head_spec s owner m0 rest Hwf E) as [Hsame Hout].
  assert (Hm0 : is_ctl m0).
  { destruct Hwf as (_ & _ & _ & _ & Ho). rewrite E in Ho. by apply Forall_cons in Ho as [[_ ?] _]. }
  destruct (ctl_grow s (send_head s) _ (proj1 (proj2 (proj2 (proj2 Hsame)))) Hout) as [K1 K2].
  rewrite filter_cons_True in K1 by done. rewrite filter_cons_False in K2 by (cbn; tauto).
  split; [by eapply pwf_same|]. split; [done|]. split; [apply Forall_app; split; [done|apply Forall_singleton; lia]|].
  destruct Hsame as (_ & S2 & _). rewrite S2, E, K1, K2, Hm, Hcl. split; [done|]. split; [|by rewrite app_nil_r].
  assert (Htl : length (take (length rsps) reqs) = length rsps) by (rewrite length_take; lia).
  rewrite (take_S_r _ _ _ Hlk). rewrite <- Htl at 2. rewrite sent_again; [done|].
  rewrite Htl. eapply Forall_impl; [exact Hin|]. cbn. intros i Hi. lia.
Qed.

Lemma fifo_step st st' : fifo st -> pstep st st' -> fifo st'.
Proof.
  intros Hi Hst. destruct Hst.
  - by apply fifo_accept.
  - by eapply fifo_request.
  - destruct Hi as (Hwf & ?). pose proof Hwf as (_ & _ & Hs & _ & _).
    assert (s' = s) as ->; [|by split]. revert H1. unfold recv_qmi_from_client. destruct (Z.leb_spec (server_fd s) 0); [lia|].
    cbv zeta. rewrite (ctl_view m s H), H0. cbn. by intros [= <-].
  - destruct Hi as (Hwf & ?). pose proof Hwf as (_ & _ & Hs & Hp & _).
    assert (s' = send_qmi_to_cdc_wdm m s) as ->.
    { revert H1. unfold recv_qmi_from_client. destruct (Z.leb_spec (server_fd s) 0); [lia|]. cbv zeta.
      destruct (data_view m s H0) as (ty & -> & Ht). unfold mbind, res_bind. rewrite Ht. by intros [= <-]. }
    eapply (fifo_quiet s _ _ _ _ m [cdc_fd s]); [done|apply write_to_same|apply H0|by apply write_to_out].
  - by eapply fifo_response.
  - by eapply fifo_ctl_other.
  - assert (s' = s) as ->; [|done]. revert H1. unfold recv_qmi_from_dev.
    destruct Hi as ((_ & _ & Hs & _) & _). destruct (Z.eqb_spec (server_fd s) (-1)); [lia|].
    cbv zeta. rewrite (ctl_view m s H). unfold mbind, res_bind.
    change (QMUX_TYPE_CTL =? QMUX_TYPE_CTL) with true. cbv iota. rewrite H0.
    destruct (rd8 (view m s) OFF_CTL_CtlFlags) as [f| |]; [|done..]. unfold mret, res_ret, send_head.
    destruct (f =? QMICTL_CTL_FLAG_RSP); rewrite H0; by intros [= <-].
  - destruct Hi as (Hwf & ?). pose proof Hwf as (_ & _ & Hs & Hp & _).
    revert H0. unfold recv_qmi_from_dev. destruct (Z.eqb_spec (server_fd s) (-1)); [lia|]. cbv zeta.
    destruct (data_view m s H) as (ty & -> & Ht). unfold mbind, res_bind. rewrite Ht.
    destruct (rd8 (view m s) OFF_ClientId) as [c| |]; [|done..]. intros [= <-].
    destruct (route_spec m ty c s) as [R1 [l R2]]. eapply fifo_quiet; [by split|done|apply H|done].
  - exact Hi.
Qed.

(** C13. The CTL channel of the proxy, as long as nobody disconnects and every descriptor
    stays writable (a write is then a whole one).  In every reachable state (clients
    connecting, sending CTL and other messages, the modem answering and indicating): the
    queue holds exactly the unanswered requests in order of arrival; the modem was sent the
    answered ones and the oldest unanswered one, in order and nothing else, each once, and
    once more for every CTL message of the modem that was no response and came while it was
    in flight; and the [i]-th response was delivered to the client that sent the [i]-th
    request and to nobody else, and no other CTL message to anybody. *)
Theorem proxy_ctl_fifo s reqs rsps inds :
  rtc pstep (proxy_init, [], [], []) (s, reqs, rsps, inds) ->
  ctl_msg s = drop (length rsps) reqs
  /\ ctl_to_modem s = sent inds (take (S (length rsps)) reqs)
  /\ ctl_to_clients s = zip (fst <$> take (length rsps) reqs) rsps.
Proof.
  intros H. apply (inv_rtc pstep fifo fifo_step) in H.
  - by destruct H as (_ & _ & _ & ?).
  - split; [|done]. split; [apply NoDup_nil_2|]. split; [cbn; set_solver|]. done.
Qed.

(** *** Disconnections *)

Lemma remove_first_fds fd cs :
  NoDup (ClientFd <$> cs) -> fd ∈ ClientFd <$> cs ->
  NoDup (ClientFd <$> remove_first (fun c => ClientFd c =? fd) cs)
  /\ forall x, x ∈ ClientFd <$> remove_first (fun c => ClientFd c =? fd) cs
     <-> x ∈ ClientFd <$> cs /\ x <> fd.
Proof.
  induction cs as [|c cs IH]; intros Hnd Hin; [set_solver|].
  rewrite fmap_cons, NoDup_cons in Hnd. destruct Hnd as [Hc Hnd]. cbn [remove_first].
  destruct (Z.eqb_spec (ClientFd c) fd) as [E|E].
  - split; [done|]. intros x. rewrite fmap_cons, elem_of_cons. split; [|naive_solver].
    intros Hx. split; [by right|]. intros ->. by rewrite E in Hc.
  - rewrite fmap_cons, elem_of_cons in Hin. destruct Hin as [->|Hin]; [done|].
    destruct (IH Hnd Hin) as [H1 H2]. rewrite !fmap_cons. split.
    + apply NoDup_cons. split; [|done]. rewrite H2. tauto.
    + intros x. rewrite !elem_of_cons, H2. naive_solver.
Qed.

Lemma cleanup_eq fd s :
  fd ∈ fds s ->
  cleanup_qmi_connection fd s =
    s <| ctl_msg := remove_first (fun m => m.1 =? fd) (ctl_msg s) |>
      <| conns := remove_first (fun c => ClientFd c =? fd) (conns s) |>.
Proof.
  intros H. unfold cleanup_qmi_connection. apply list_elem_of_fmap in H as (c & -> & Hc).
  destruct (existsb _ (conns s)) eqn:E; [done|]. exfalso.
  rewrite <- not_true_iff_false in E. apply E. apply existsb_exists. exists c.
  split; [by apply list_elem_of_In|apply Z.eqb_refl].
Qed.

(** A disconnection with a request in flight misdelivers.  Client [a] has a CTL
    request in flight and [b] one waiting behind it; [a] disconnects.  The response
    of the modem to [a] is then delivered to [b], and the request of [b] leaves the
    queue without ever having been sent to the modem. *)
Theorem disconnect_misdelivers s a b ma mb rsp s' :
  pwf s -> a <> b -> ctl_msg s = [(a, ma); (b, mb)] ->
  is_ctl rsp -> rd8 (view rsp s) OFF_CTL_CtlFlags = Ok QMICTL_CTL_FLAG_RSP ->
  recv_qmi_from_dev rsp (cleanup_qmi_connection a s) = Ok s' ->
  out s' = out s ++ [(b, rsp)] /\ ctl_msg s' = [].
Proof.
  intros (Hnd & Hc & Hs & Hp & Ho) Hab E Hctl Hf. rewrite E in Ho.
  apply Forall_cons in Ho as [[Ha _] Ho]. apply Forall_cons in Ho as [[Hb Hmb] _]. cbn [fst snd] in *.
  rewrite (cleanup_eq a s Ha), E. cbn [remove_first fst].
  rewrite Z.eqb_refl. set (s1 := s <| ctl_msg := _ |> <| conns := _ |>). intros H.
  destruct (remove_first_fds a (conns s) Hnd Ha) as [H1 H2].
  assert (Hwf : pwf s1).
  { split; [exact H1|]. split; [intros Hx; by apply H2 in Hx as [Hx _]|]. split; [done|].
    split; [done|]. apply Forall_cons. split; [|constructor]. split; [|done]. apply H2. by split. }
  destruct (recv_response rsp s1 s' b mb [] Hwf Hctl Hf eq_refl H) as (s2 & -> & _ & Hq & _ & Hout).
  unfold send_head. rewrite Hq. split; [exact Hout|done].
Qed.

(** A head request without its connection is not sent. *)
Lemma send_head_dead s a m rest :
  ctl_msg s = (a, m) :: rest -> a ∉ fds s -> send_head s = s.
Proof.
  intros E Ha. unfold send_head, fds in *. rewrite E. clear E.
  induction (conns s) as [|c cs IH]; [done|]. cbn [foldl].
  rewrite fmap_cons, not_elem_of_cons in Ha. destruct Ha as [Hc Ha].
  destruct (Z.eqb_spec (ClientFd c) a); [by subst|by apply IH].
Qed.

Lemma view_rd16 m s o : (o + 1 < length m)%nat -> rd16 (view m s) o = rd16 m o.
Proof. intros H. unfold rd16. by rewrite !view_rd8 by lia. Qed.
(** Behind a non-empty queue requests are only queued. *)
Lemma requests_pile_up l : forall s s',
  0 < server_fd s -> ctl_msg s <> [] ->
  Forall (fun x => is_ctl x.2 /\ rd16 x.2 OFF_CTL_QMICTLType <> Ok QMICTL_SYNC_REQ /\
    (OFF_CTL_QMICTLType + 1 < length x.2)%nat) l ->
  client_requests l s = Ok s' -> out s' = out s /\ ctl_msg s' = ctl_msg s ++ l.
Proof.
  induction l as [|[fd m] l IH]; intros s s' Hs Hne Hl H; cbn [client_requests] in H.
  - injection H as <-. by rewrite app_nil_r.
  - apply Forall_cons in Hl as [(Hm & Ht & Hlen) Hl]. unfold mbind, res_bind in H. cbn [fst snd] in *.
    destruct (recv_qmi_from_client m fd s) as [s1| |] eqn:E1; [|done..].
    apply recv_request in E1; [|done|done|by rewrite view_rd16]. unfold queued in E1.
    destruct (ctl_msg s) as [|x rest] eqn:E; [done|]. subst s1.
    apply IH in H as [H1 H2]; [|done| |done].
    + split; [exact H1|]. rewrite H2.
      change ((ctl_msg s ++ [(fd, m)]) ++ l = (x :: rest) ++ (fd, m) :: l).
      by rewrite E, <- app_assoc.
    + change (ctl_msg s ++ [(fd, m)] <> []). by destruct (ctl_msg s).
Qed.

(** A disconnection of a client with two waiting requests stops the CTL channel.
    The clean-up drops only the first of them; once the request in flight is
    answered, the other is the head of the queue with no connection to send it for,
    and from then on no request of any client reaches the modem, however many are
    made: they pile up behind the dead head. *)
Theorem disconnect_stalls s a b mb m1 m2 rsp l s' s'' :
  pwf s -> a <> b -> ctl_msg s = [(b, mb); (a, m1); (a, m2)] ->
  is_ctl rsp -> rd8 (view rsp s) OFF_CTL_CtlFlags = Ok QMICTL_CTL_FLAG_RSP ->
  recv_qmi_from_dev rsp (cleanup_qmi_connection a s) = Ok s' ->
  Forall (fun x => is_ctl x.2 /\ rd16 x.2 OFF_CTL_QMICTLType <> Ok QMICTL_SYNC_REQ /\
    (OFF_CTL_QMICTLType + 1 < length x.2)%nat) l ->
  client_requests l s' = Ok s'' ->
  out s'' = out s ++ [(b, rsp)] /\ ctl_msg s'' = (a, m2) :: l.
Proof.
  intros (Hnd & Hc & Hs & Hp & Ho) Hab E Hctl Hf H Hl Hr. rewrite E in Ho.
  apply Forall_cons in Ho as [[Hb _] Ho]. apply Forall_cons in Ho as [[Ha _] _]. cbn [fst snd] in *.
  rewrite (cleanup_eq a s Ha), E in H. cbn [remove_first fst] in H.
  rewrite (proj2 (Z.eqb_neq b a)), Z.eqb_refl in H by congruence.
  set (s1 := s <| ctl_msg := _ |> <| conns := _ |>) in H.
  destruct (remove_first_fds a (conns s) Hnd Ha) as [H1 H2].
  destruct (recv_response_gen rsp s1 s' b mb [(a, m2)])
    as (s2 & -> & Q & F & _ & Sv & _ & Out); [done..|by apply H2|done|done|done|done|].
  rewrite (send_head_dead s2 a m2 []) in Hr; [|done|rewrite F; intros Hx; by apply H2 in Hx as [_ ?]].
  apply requests_pile_up in Hr as [-> ->]; [|by rewrite Sv|by rewrite Q|done].
  by rewrite Out, Q.
Qed.

(** *** Routing and client ids *)

Definition matches (ty cid : Z) (cl : client) : Prop :=
  ty = c_QMIType cl /\ (cid = 0 \/ cid = c_ClientId cl).
#[export] Instance matches_dec ty cid cl : Decision (matches ty cid cl).
Proof. unfold matches. apply _. Defined.

(** Who is to get a message: each connection once per matching client it holds. *)
Definition recipients (ty cid : Z) (cs : list connection) : list Z :=
  c ← cs; (fun _ => ClientFd c) <$> filter (matches ty cid) (client_qnode c).

Lemma matches_bool ty cid cl :
  (ty =? c_QMIType cl) && ((cid =? 0) || (cid =? c_ClientId cl)) = bool_decide (matches ty cid cl).
Proof.
  unfold matches. destruct (Z.eqb_spec ty (c_QMIType cl)), (Z.eqb_spec cid 0),
    (Z.eqb_spec cid (c_ClientId cl)); cbn; symmetry;
    first [apply bool_decide_eq_true; tauto|apply bool_decide_eq_false; tauto].
Qed.

Lemma route_one m fd ty cid cls : forall s,
  (forall fd, pollout s fd = true) ->
  let s' := foldl (fun s cl =>
      if (ty =? c_QMIType cl) && ((cid =? 0) || (cid =? c_ClientId cl))
      then send_qmi_to_client m fd s else s) s cls in
  same_but_out s s' /\ out s' = out s ++ ((fun _ => (fd, m)) <$> filter (matches ty cid) cls).
Proof.
  induction cls as [|cl cls IH]; intros s Hp; cbn [foldl].
  - split; [done|]. by rewrite app_nil_r.
  - rewrite matches_bool. destruct (decide (matches ty cid cl)) as [Hm|Hm].
    + rewrite bool_decide_true, filter_cons_True by done.
      destruct (IH (send_qmi_to_client m fd s)) as [H1 H2].
      { intros x. unfold send_qmi_to_client.
        destruct (write_to_same fd m s) as (_ & _ & -> & _). apply Hp. }
      split; [etransitivity; [apply write_to_same|exact H1]|].
      rewrite H2. unfold send_qmi_to_client. rewrite write_to_out by apply Hp.
      by rewrite <- app_assoc.
    + rewrite bool_decide_false, filter_cons_False by done. by apply IH.
Qed.

Lemma route_out m ty cid s :
  (forall fd, pollout s fd = true) ->
  out (route m ty cid s) = out s ++ ((fun fd => (fd, m)) <$> recipients ty cid (conns s)).
Proof.
  unfold route. generalize (conns s) as cs. intros cs. revert s.
  induction cs as [|c cs IH]; intros s Hp; cbn [foldl].
  - by rewrite app_nil_r.
  - destruct (route_one m (ClientFd c) ty cid (client_qnode c) s Hp) as [H1 H2].
    rewrite IH, H2.
    2: { intros x. destruct H1 as (_ & _ & -> & _). apply Hp. }
    unfold recipients. cbn [mbind list_bind]. rewrite fmap_app, <- app_assoc, <- list_fmap_compose. done.
Qed.

(** Routing of data messages.  A message that is not a CTL message is written to
    exactly the connections that hold a client of its service, once per client whose
    id it carries (every client when it carries the broadcast id 0), and changes
    nothing else. *)
Theorem recv_routes m s ty cid :
  pwf s -> rd8 (view m s) OFF_QMIType = Ok ty -> ty <> QMUX_TYPE_CTL -> rd8 (view m s) OFF_ClientId = Ok cid ->
  exists s', recv_qmi_from_dev m s = Ok s' /\ same_but_out s s'
    /\ out s' = out s ++ ((fun fd => (fd, m)) <$> recipients ty cid (conns s)).
Proof.
  intros (_ & _ & Hs & Hp & _) Ht Hn Hc. exists (route m ty cid s).
  split; [|split; [apply route_spec|by apply route_out]].
  unfold recv_qmi_from_dev. destruct (Z.eqb_spec (server_fd s) (-1)); [lia|].
  cbv zeta. rewrite Ht, Hc. unfold mbind, res_bind. by destruct (Z.eqb_spec ty QMUX_TYPE_CTL).
Qed.

Lemma ctl_response_conns m b owner ty cs : forall s cs' s',
  ctl_response m b owner ty cs s = Ok (cs', s') ->
  Forall2 (fun c c' => ctl_response_one b owner ty c = Ok c') cs cs'.
Proof.
  induction cs as [|c cs IH]; intros s cs' s' H; cbn [ctl_response] in H.
  - injection H as <- _. constructor.
  - destruct (ctl_response_one b owner ty c) as [c'| |] eqn:Ec; [|done..].
    unfold mbind, res_bind in H. cbv zeta in H.
    match type of H with context [ctl_response _ _ _ _ cs ?x] => set (s1 := x) in H end.
    destruct (ctl_response m b owner ty cs s1) as [[r1 r2]| |] eqn:E; [|done..].
    injection H as <- _. constructor; [done|by eapply IH].
Qed.

Lemma send_head_same s : same_but_out s (send_head s).
Proof.
  unfold send_head. destruct (ctl_msg s) as [|[owner m] rest]; [done|].
  generalize (conns s) as cs. intros cs. revert s.
  induction cs as [|c cs IH]; intros s; cbn [foldl]; [done|].
  etransitivity; [|apply IH]. destruct (ClientFd c =? owner); [apply write_to_same|done].
Qed.

(** The connections after the response to the head request. *)
Lemma recv_response_conns m s s' owner m0 rest ty :
  0 < server_fd s -> is_ctl m -> rd8 (view m s) OFF_CTL_CtlFlags = Ok QMICTL_CTL_FLAG_RSP ->
  rd16 (view m s) OFF_CTL_QMICTLType = Ok ty ->
  ctl_msg s = (owner, m0) :: rest -> recv_qmi_from_dev m s = Ok s' ->
  Forall2 (fun c c' => ctl_response_one (view m s) owner ty c = Ok c') (conns s) (conns s').
Proof.
  intros Hs Hctl Hf Ht E H.
  unfold recv_qmi_from_dev in H. destruct (Z.eqb_spec (server_fd s) (-1)); [lia|].
  cbv zeta in H. rewrite (ctl_view m s Hctl), Hf in H. unfold mbind, res_bind in H.
  change (QMUX_TYPE_CTL =? QMUX_TYPE_CTL) with true in H.
  change (QMICTL_CTL_FLAG_RSP =? QMICTL_CTL_FLAG_RSP) with true in H. cbv iota in H.
  rewrite E, Ht in H.
  destruct (ctl_response m (view m s) owner ty (conns s) s) as [[cs s1]| |] eqn:Er; [|done..].
  apply ctl_response_conns in Er. unfold mret, res_ret in H. injection H as <-.
  match goal with |- Forall2 _ _ (conns (send_head ?x)) =>
    destruct (send_head_same x) as (-> & _) end.
  exact Er.
Qed.

(** A client that asked for a client id gets its messages.  When the modem grants
    client id [c] of service [t] to the request at the head of the queue, every later
    message of that service with that id is routed to the connection that asked. *)
Theorem granted_client_is_routed m s s' owner m0 rest t c :
  pwf s -> is_ctl m -> rd8 (view m s) OFF_CTL_CtlFlags = Ok QMICTL_CTL_FLAG_RSP ->
  rd16 (view m s) OFF_CTL_QMICTLType = Ok QMICTL_GET_CLIENT_ID_RESP ->
  client_rsp (view m s) = Ok (Some (mkClient t c)) ->
  ctl_msg s = (owner, m0) :: rest -> recv_qmi_from_dev m s = Ok s' ->
  owner ∈ recipients t c (conns s').
Proof.
  intros (_ & _ & Hs & _ & Ho) Hctl Hf Ht Hr E H.
  rewrite E in Ho. apply Forall_cons in Ho as [[Hown _] _].
  pose proof (recv_response_conns _ _ _ _ _ _ _ Hs Hctl Hf Ht E H) as Hc.
  apply list_elem_of_fmap in Hown as (con & Eo & Hcon).
  apply list_elem_of_lookup in Hcon as [i Hi].
  destruct (Forall2_lookup_l _ _ _ _ _ Hc Hi) as (con' & Hi' & H1).
  unfold ctl_response_one, get_client_id in H1. cbn [fst] in Eo. rewrite <- Eo, Z.eqb_refl, Hr in H1.
  unfold mbind, res_bind in H1. change (QMICTL_GET_CLIENT_ID_RESP =? QMICTL_GET_CLIENT_ID_RESP) with true in H1.
  cbv iota in H1.
  injection H1 as <-. apply list_elem_of_lookup_2 in Hi'.
  unfold recipients. apply list_elem_of_bind.
  exists (con <| client_qnode := client_qnode con ++ [mkClient t c] |>). split; [|done].
  apply list_elem_of_fmap. exists (mkClient t c). split; [done|].
  apply list_elem_of_filter. split; [by split; [|right]|].
  apply elem_of_app. right. by apply list_elem_of_singleton.
Qed.

(** *** Witnesses *)

(** A GET_CLIENT_ID request with transaction [i], and the grant of client [c] of
    service WDS. *)
Definition get_client_req (i : Z) : msg := [1; 15; 0; 0; 0; 0; 0; i; 0x22; 0; 4; 0; 1; 1; 0; 1].
Definition get_client_rsp (i c : Z) : msg :=
  [1; 23; 0; 0x80; 0; 0; 1; i; 0x22; 0; 12; 0; 2; 4; 0; 0; 0; 0; 0; 1; 2; 0; 1; c].

(** A proxy with the clients 7 and 8 and the queue [q]. *)
Definition two_clients (q : list (Z * msg)) : proxy :=
  proxy_init <| conns := [mkConn 7 []; mkConn 8 []] |> <| ctl_msg := q |>.
Lemma two_clients_wf q :
  Forall (fun x => (x.1 = 7 \/ x.1 = 8) /\ is_ctl x.2) q -> pwf (two_clients q).
Proof.
  intros H. change (NoDup [7; 8] /\ 3 ∉ [7; 8] /\ 0 < 4 /\ (forall fd : Z, true = true)
    /\ Forall (fun x => x.1 ∈ [7; 8] /\ is_ctl x.2) q).
  split; [by apply (bool_decide_unpack _)|]. split; [set_solver|]. split; [done|]. split; [done|].
  eapply Forall_impl; [exact H|]. cbn. intros x [[->| ->] ?]; set_solver.
Qed.

(** Two clients connect and ask, the modem indicates something and then answers the first. *)
Definition ctl_indication : msg := [1; 11; 0; 0x80; 0; 0; 2; 0; 0x24; 0; 0; 0].
Definition fifo_demo : proxy :=
  proxy_init <| conns := [mkConn 7 [mkClient 1 3]; mkConn 8 []] |>
    <| ctl_msg := [(8, get_client_req 2)] |>
    <| out := [(3, get_client_req 1); (3, get_client_req 1); (7, get_client_rsp 1 3); (3, get_client_req 2)] |>.
Lemma proxy_ctl_fifo_witness :
  ctl_to_modem fifo_demo = [get_client_req 1; get_client_req 1; get_client_req 2]
  /\ ctl_to_clients fifo_demo = [(7, get_client_rsp 1 3)].
Proof.
  refine (proj2 (proxy_ctl_fifo fifo_demo [(7, get_client_req 1); (8, get_client_req 2)]
    [get_client_rsp 1 3] [0%nat] _)).
  eapply rtc_l; [apply (st_accept proxy_init [] [] [] 7 true); by apply (bool_decide_unpack _)|].
  eapply rtc_l; [apply (st_accept _ [] [] [] 8 true); by apply (bool_decide_unpack _)|].
  eapply rtc_l; [eapply (st_request _ _ [] [] [] 7 (get_client_req 1));
    [by apply (bool_decide_unpack _)|reflexivity|by vm_compute|reflexivity]|].
  eapply rtc_l; [eapply (st_request _ _ _ [] [] 8 (get_client_req 2));
    [by apply (bool_decide_unpack _)|reflexivity|by vm_compute|reflexivity]|].
  eapply rtc_l; [eapply (st_ctl_other _ _ _ [] [] ctl_indication); [reflexivity|by vm_compute|by vm_compute|reflexivity]|].
  eapply rtc_l; [eapply (st_response _ _ _ [] _ (get_client_rsp 1 3)); [reflexivity|reflexivity|by vm_compute|
    vm_compute; reflexivity]|].
  apply rtc_refl.
Defined.

Lemma disconnect_misdelivers_witness :
  exists s', recv_qmi_from_dev (get_client_rsp 1 3)
      (cleanup_qmi_connection 7 (two_clients [(7, get_client_req 1); (8, get_client_req 2)])) = Ok s'
    /\ out s' = [(8, get_client_rsp 1 3)] /\ ctl_msg s' = [].
Proof.
  eexists. split; [vm_compute; reflexivity|].
  apply (disconnect_misdelivers (two_clients [(7, get_client_req 1); (8, get_client_req 2)])
    7 8 (get_client_req 1) (get_client_req 2) (get_client_rsp 1 3));
    [|done|reflexivity|reflexivity|reflexivity|vm_compute; reflexivity].
  apply two_clients_wf. by apply (bool_decide_unpack _).
Defined.

Lemma disconnect_stalls_witness :
  exists s' s'', recv_qmi_from_dev (get_client_rsp 1 3) (cleanup_qmi_connection 8
      (two_clients [(7, get_client_req 1); (8, get_client_req 2); (8, get_client_req 3)])) = Ok s'
    /\ client_requests [(7, get_client_req 4)] s' = Ok s''
    /\ out s'' = [(7, get_client_rsp 1 3)]
    /\ ctl_msg s'' = [(8, get_client_req 3); (7, get_client_req 4)].
Proof.
  do 2 eexists. split; [vm_compute; reflexivity|]. split; [vm_compute; reflexivity|].
  eapply (disconnect_stalls (two_clients [(7, get_client_req 1); (8, get_client_req 2); (8, get_client_req 3)])
    8 7 (get_client_req 1) (get_client_req 2) (get_client_req 3) (get_client_rsp 1 3)
    [(7, get_client_req 4)]);
    [|done|reflexivity|reflexivity|reflexivity|vm_compute; reflexivity| |vm_compute; reflexivity].
  - apply two_clients_wf. by apply (bool_decide_unpack _).
  - repeat constructor. by vm_compute.
Defined.

Lemma recv_routes_witness :
  exists s', recv_qmi_from_dev [1; 12; 0; 0x80; 1; 3] fifo_demo = Ok s'
    /\ out s' = out fifo_demo ++ [(7, [1; 12; 0; 0x80; 1; 3])].
Proof.
  destruct (recv_routes [1; 12; 0; 0x80; 1; 3] fifo_demo 1 3) as (s' & H & _ & Ho);
    [|reflexivity|done|reflexivity|exists s'; by split].
  change (pwf (two_clients [(8, get_client_req 2)])). apply two_clients_wf. by apply (bool_decide_unpack _).
Defined.

Definition granted_demo : proxy :=
  proxy_init <| conns := [mkConn 7 [mkClient 1 3]; mkConn 8 []] |> <| out := [(7, get_client_rsp 1 3)] |>.
Lemma granted_client_is_routed_witness :
  recv_qmi_from_dev (get_client_rsp 1 3) (two_clients [(7, get_client_req 1)]) = Ok granted_demo
  /\ 7 ∈ recipients 1 3 (conns granted_demo).
Proof.
  split; [reflexivity|].
  apply (granted_client_is_routed (get_client_rsp 1 3)
    (two_clients [(7, get_client_req 1)]) granted_demo 7 (get_client_req 1) [] 1 3); try reflexivity.
  apply two_clients_wf. by apply (bool_decide_unpack _).
Defined.
