(* ===== verification/CmMain.v ===== *)
(** The main thread of the connection manager (main.c): the set-up sequence and the
    event loop of [qmi_main] as a state machine over signals and device events,
    [usbnet_link_change], the retry schedule of data calls, and the choice of the
    request table in [quectel_CM].

    The loop is written against the interface [request_ops], one field per entry of
    [struct request_ops] ([None] for a NULL entry); [qmi_ops_table] is the instance
    that QMIThread.c defines. *)
From S2P Require Import Prelude QmiTlv CmTypes QmiCompose QmiThread QmiRequests.
#[local] Open Scope Z_scope.

(** ** The interface to the modem *)
Record request_table (W : Type) := mkOps {
  op_BaseBandVersion : option (M (rq W) Z);
  op_SetEthMode : option (M (rq W) Z);
  op_SetLoopBackState : option (Z -> Z -> M (rq W) Z);
  op_GetSIMStatus : option (Z -> M (rq W) (Z * Z));
  op_EnterSimPin : option (cstr -> M (rq W) Z);
  op_SetProfile : option (M (rq W) Z);
  op_GetProfile : option (M (rq W) Z);
  op_RegistrationState : Z -> M (rq W) (Z * Z);
  op_SetupDataCall : Z -> M (rq W) Z;
  op_QueryDataCall : Z -> Z -> M (rq W) (Z * Z);
  op_DeactivateDefaultPDP : Z -> M (rq W) Z;
  op_GetIPAddress : Z -> M (rq W) Z;
  op_GetSignalInfo : option (M (rq W) Z);
  op_GetCellInfoList : option (M (rq W) Z);
  op_GetICCID : option (M (rq W) Z);
  op_GetIMSI : option (M (rq W) Z);
  op_GetCoexWWANState : option (M (rq W) Z);
  (** [qmi_ops->deinit] *)
  op_deinit : option (M (rq W) Z) }.
Arguments mkOps {W}.
Arguments op_BaseBandVersion {W}.
Arguments op_SetEthMode {W}.
Arguments op_SetLoopBackState {W}.
Arguments op_GetSIMStatus {W}.
Arguments op_EnterSimPin {W}.
Arguments op_SetProfile {W}.
Arguments op_GetProfile {W}.
Arguments op_RegistrationState {W}.
Arguments op_SetupDataCall {W}.
Arguments op_QueryDataCall {W}.
Arguments op_DeactivateDefaultPDP {W}.
Arguments op_GetIPAddress {W}.
Arguments op_GetSignalInfo {W}.
Arguments op_GetCellInfoList {W}.
Arguments op_GetICCID {W}.
Arguments op_GetIMSI {W}.
Arguments op_GetCoexWWANState {W}.
Arguments op_deinit {W}.

(** The table of QMIThread.c as its configuration compiles it. *)
Definition qmi_ops_table {W} (send : transport W) (fuel : nat) (deinit : option (M (rq W) Z))
    : request_table W :=
  {| op_BaseBandVersion := Some (requestBaseBandVersion send);
     op_SetEthMode := Some (requestSetEthMode send);
     op_SetLoopBackState := Some (requestSetLoopBackState send);
     op_GetSIMStatus := Some (requestGetSIMStatus send);
     op_EnterSimPin := Some (requestEnterSimPin send);
     op_SetProfile := Some (requestSetProfile send);
     op_GetProfile := Some (requestGetProfile send fuel);
     op_RegistrationState := requestRegistrationState send;
     op_SetupDataCall := requestSetupDataCall send;
     op_QueryDataCall := requestQueryDataCall send;
     op_DeactivateDefaultPDP := requestDeactivateDefaultPDP send;
     op_GetIPAddress := requestGetIPAddress send;
     op_GetSignalInfo := None; op_GetCellInfoList := None;
     op_GetICCID := None; op_GetIMSI := None; op_GetCoexWWANState := None;
     op_deinit := deinit |}.

(** ** State *)

Inductive sig_event := SIG_EVENT_START | SIG_EVENT_CHECK | SIG_EVENT_STOP.
#[export] Instance sig_event_eq_dec : EqDecision sig_event.
Proof. solve_decision. Defined.

(** What the reader thread writes to [qmidevice_control_fd]. *)
Inductive dev_event := RIL_INDICATE_DEVICE_DISCONNECTED | Report (e : cm_event).

(** What the loop makes visible: the DHCP client and the messages to the reader. *)
Inductive main_effect := Udhcpc_start | Udhcpc_stop | To_qmidevice_QUIT | To_qmidevice_STOP.
#[export] Instance main_effect_eq_dec : EqDecision main_effect.
Proof. solve_decision. Defined.

Definition QMI_ERR_OP_DEVICE_UNSUPPORTED : Z := 0x19.
Definition QMI_ERR_INVALID_QMI_CMD : Z := 0x47.

(** The locals of [qmi_main], the statics of main.c, the pending signals and device
    events, the armed alarm in seconds (0 when none) and the number of times the
    clock was read. *)
Record cm (W : Type) := mkCm {
  c_rq : rq W;
  SIMStatus : Z; PSAttachedState : Z;
  IPv4ConnectionStatus : Z; IPv6ConnectionStatus : Z;
  SetupCallFail : Z; SetupCallAllowTime : Z;
  s_link : Z; g_donot_exit_when_modem_hangup : Z;
  sig_q : list sig_event; dev_q : list dev_event;
  alarm_s : Z; ticks : nat; m_log : list main_effect }.
Arguments mkCm {W}.
Arguments c_rq {W}.
Arguments SIMStatus {W}.
Arguments PSAttachedState {W}.
Arguments IPv4ConnectionStatus {W}.
Arguments IPv6ConnectionStatus {W}.
Arguments SetupCallFail {W}.
Arguments SetupCallAllowTime {W}.
Arguments s_link {W}.
Arguments g_donot_exit_when_modem_hangup {W}.
Arguments sig_q {W}.
Arguments dev_q {W}.
Arguments alarm_s {W}.
Arguments ticks {W}.
Arguments m_log {W}.

(** [allow_time], and the 60 seconds after its end. *)
Definition allow_time : list Z := [5; 10; 20; 40; 60].
Definition allow_seconds (fail : Z) : Z :=
  if fail <? Z.of_nat (length allow_time) then default 60 (allow_time !! Z.to_nat fail) else 60.

Definition connected (st : Z) : bool := st =? QWDS_PKT_DATA_CONNECTED.
Definition disconnected (st : Z) : bool := st =? QWDS_PKT_DATA_DISCONNECTED.
(** Casts of [unsigned long] and of the argument of [alarm]. *)
Definition u64 (z : Z) : Z := z mod 18446744073709551616.

Section Main.
Context {W : Type} (ops : request_table W) (clk : nat -> Z).

Definition MM (A : Type) : Type := M (cm W) A.
#[local] Instance MM_ret : MRet MM := @M_ret (cm W).
#[local] Instance MM_bind : MBind MM := @M_bind (cm W).

Definition get {A} (f : cm W -> A) : MM A := fun s => Ok (f s, s).
Definition set (f : cm W -> cm W) : MM unit := M_upd f.
Definition prof : MM PROFILE_T := fun s => Ok (rq_p (c_rq s), s).
Definition whenM (b : bool) (m : MM unit) : MM unit := if b then m else mret tt.

(** A call through the table. *)
Definition call {A} (m : M (rq W) A) : MM A := fun s =>
  match m (c_rq s) with
  | Ok (a, r) => Ok (a, s <| c_rq := r |>)
  | Fault => Fault
  | OutOfFuel => OutOfFuel
  end.
(** [if (request_ops->op) request_ops->op(...)] *)
Definition call_if {A} (o : option (M (rq W) A)) : MM unit :=
  match o with Some m => _ ← call m; mret tt | None => mret tt end.

Definition set_profile (f : PROFILE_T -> PROFILE_T) : MM unit :=
  set (fun s => s <| c_rq := (c_rq s) <| rq_p := f (rq_p (c_rq s)) |> |>).
Definition clock_msec : MM Z := fun s => Ok (clk (ticks s), s <| ticks := S (ticks s) |>).
Definition alarm (n : Z) : MM unit := set (fun s => s <| alarm_s := n |>).
Definition send_signo_to_main (e : sig_event) : MM unit := set (fun s => s <| sig_q := sig_q s ++ [e] |>).
Definition effect_main (e : main_effect) : MM unit := set (fun s => s <| m_log := m_log s ++ [e] |>).

(** ** Operations *)

Definition usbnet_link_change (link : Z) : MM unit :=
  old ← get s_link;
  if old =? link then mret tt
  else
    _ ← set (fun s => s <| s_link := link |>);
    _ ← whenM (negb (truth (Z.land link (Z.shiftl 1 IpFamilyV4))))
          (set_profile (fun p => p <| ipv4 := IPV4_zero |>));
    _ ← whenM (negb (truth (Z.land link (Z.shiftl 1 IpFamilyV6))))
          (set_profile (fun p => p <| ipv6 := IPV6_zero |>));
    if truth link then effect_main Udhcpc_start else effect_main Udhcpc_stop.

Definition check_ipv4_address : MM Z :=
  p ← prof;
  let oldAddress := v4_Address (ipv4 p) in
  match request_ops p with
  | mbim_request_ops | atc_request_ops => mret 1
  | qmi_request_ops =>
      r ← call (op_GetIPAddress ops IpFamilyV4);
      if r =? 0 then p' ← prof; mret (b2z (v4_Address (ipv4 p') =? oldAddress)) else mret 0
  end.

Definition nonempty (s : option cstr) : bool := match s with Some (_ :: _) => true | _ => false end.

(** The IPv4 part of [SIG_EVENT_START], with the second attempt under the other
    authentication protocol. *)
Definition start_ipv4 : MM unit :=
  qmierr ← call (op_SetupDataCall ops IpFamilyV4);
  p ← prof;
  qmierr ← (if (0 <? qmierr) && nonempty (user p) && nonempty (password p) then
              let old_auto := auth p in
              _ ← set_profile (fun p => p <| auth := if auth p =? 1 then 2 else 1 |>);
              qmierr ← call (op_SetupDataCall ops IpFamilyV4);
              _ ← whenM (truth qmierr) (set_profile (fun p => p <| auth := old_auto |>));
              mret qmierr
            else mret qmierr);
  whenM (negb (truth qmierr))
    (qmierr ← call (op_GetIPAddress ops IpFamilyV4);
     whenM (negb (truth qmierr))
       (set (fun s => s <| IPv4ConnectionStatus := QWDS_PKT_DATA_CONNECTED |>))).

Definition start_ipv6 : MM unit :=
  p ← prof;
  if truth (enable_ipv4 p) && negb (bool_decide (request_ops p = qmi_request_ops)) then
    set (fun s => s <| IPv6ConnectionStatus := IPv4ConnectionStatus s |>)
  else
    qmierr ← call (op_SetupDataCall ops IpFamilyV6);
    whenM (negb (truth qmierr))
      (qmierr ← call (op_GetIPAddress ops IpFamilyV6);
       whenM (negb (truth qmierr))
         (set (fun s => s <| IPv6ConnectionStatus := QWDS_PKT_DATA_CONNECTED |>))).

(** An enabled family is down. *)
Definition want_call (p : PROFILE_T) (s : cm W) : bool :=
  (truth (enable_ipv4 p) && disconnected (IPv4ConnectionStatus s))
  || (truth (enable_ipv6 p) && disconnected (IPv6ConnectionStatus s)).

(** The end of [SIG_EVENT_START]: when to try again. *)
Definition schedule_retry : MM unit :=
  s ← get id; p ← prof;
  if want_call p s then
    let t := allow_seconds (SetupCallFail s) in
    _ ← set (fun s => s <| SetupCallFail := u32 (SetupCallFail s + 1) |>);
    _ ← alarm t;
    now ← clock_msec;
    set (fun s => s <| SetupCallAllowTime := t * 1000 + now |>)
  else whenM (connected (IPv4ConnectionStatus s) || connected (IPv6ConnectionStatus s))
    (_ ← set (fun s => s <| SetupCallFail := 0 |>);
     now ← clock_msec;
     set (fun s => s <| SetupCallAllowTime := now |>)).

Definition on_start : MM unit :=
  ps ← get PSAttachedState; p ← prof;
  if negb (ps =? 1) && (loopback_state p =? 0) then mret tt
  else
    now ← clock_msec; t ← get SetupCallAllowTime;
    if now <? t then now' ← clock_msec; alarm (u32 (u64 (t - now' + 999) / 1000))
    else
      p ← prof; st4 ← get IPv4ConnectionStatus;
      _ ← whenM (truth (enable_ipv4 p) && negb (connected st4)) start_ipv4;
      p ← prof; st6 ← get IPv6ConnectionStatus;
      _ ← whenM (truth (enable_ipv6 p) && negb (connected st6)) start_ipv6;
      schedule_retry.

(** The IPv4 part of [SIG_EVENT_CHECK]. *)
Definition check_ipv4 : MM unit :=
  p ← prof; st4 ← get IPv4ConnectionStatus;
  alive ← (if truth (enable_ipv4 p) && negb (disconnected st4) then
             r ← call (op_QueryDataCall ops st4 IpFamilyV4);
             _ ← set (fun s => s <| IPv4ConnectionStatus := r.2 |>);
             mret (negb (truth r.1))
           else mret false);
  if (alive : bool) then
    st4 ← get IPv4ConnectionStatus; p ← prof;
    _ ← whenM (connected st4 && (v4_Address (ipv4 p) =? 0))
          (qmierr ← call (op_GetIPAddress ops IpFamilyV4);
           whenM (truth qmierr) (set (fun s => s <| IPv4ConnectionStatus := QWDS_PKT_DATA_DISCONNECTED |>)));
    st4 ← get IPv4ConnectionStatus;
    if connected st4 then
      same ← check_ipv4_address;
      whenM (same =? 0)
        (_ ← call (op_DeactivateDefaultPDP ops IpFamilyV4);
         set (fun s => s <| IPv4ConnectionStatus := QWDS_PKT_DATA_DISCONNECTED |>))
    else mret tt
  else set (fun s => s <| IPv4ConnectionStatus := QWDS_PKT_DATA_DISCONNECTED |>).

Definition check_ipv6 : MM unit :=
  p ← prof; st6 ← get IPv6ConnectionStatus;
  if truth (enable_ipv6 p) && negb (disconnected st6) then
    if truth (enable_ipv4 p) && negb (bool_decide (request_ops p = qmi_request_ops)) then
      set (fun s => s <| IPv6ConnectionStatus := IPv4ConnectionStatus s |>)
    else
      r ← call (op_QueryDataCall ops st6 IpFamilyV6);
      set (fun s => s <| IPv6ConnectionStatus := r.2 |>)
  else set (fun s => s <| IPv6ConnectionStatus := QWDS_PKT_DATA_DISCONNECTED |>).

(** The link that the two connection states call for. *)
Definition link_of (st4 st6 : Z) : Z :=
  Z.lor (if connected st4 then Z.shiftl 1 IpFamilyV4 else 0)
        (if connected st6 then Z.shiftl 1 IpFamilyV6 else 0).
Definition update_link : MM unit :=
  st4 ← get IPv4ConnectionStatus; st6 ← get IPv6ConnectionStatus;
  if disconnected st4 && disconnected st6 then usbnet_link_change 0
  else if connected st4 || connected st6 then usbnet_link_change (link_of st4 st6)
  else mret tt.

Definition on_check : MM unit :=
  _ ← call_if (op_GetSignalInfo ops);
  _ ← call_if (op_GetCellInfoList ops);
  _ ← call_if (op_GetCoexWWANState ops);
  ps ← get PSAttachedState;
  _ ← whenM (negb (ps =? 1))
        (r ← call (op_RegistrationState ops ps); set (fun s => s <| PSAttachedState := r.2 |>));
  _ ← check_ipv4;
  _ ← check_ipv6;
  _ ← update_link;
  s ← get id; p ← prof;
  whenM (want_call p s) (send_signo_to_main SIG_EVENT_START).

Definition on_stop : MM unit :=
  p ← prof; st4 ← get IPv4ConnectionStatus;
  _ ← whenM (truth (enable_ipv4 p) && connected st4)
        (_ ← call (op_DeactivateDefaultPDP ops IpFamilyV4); mret tt);
  p ← prof; st6 ← get IPv6ConnectionStatus;
  _ ← whenM (truth (enable_ipv6 p) && connected st6
             && negb (truth (enable_ipv4 p) && negb (bool_decide (request_ops p = qmi_request_ops))))
        (_ ← call (op_DeactivateDefaultPDP ops IpFamilyV6); mret tt);
  _ ← usbnet_link_change 0;
  _ ← call_if (op_deinit ops);
  effect_main To_qmidevice_QUIT.

(** The result says whether the handler ends in [goto __main_quit]. *)
Definition on_signal (signo : sig_event) : MM bool :=
  _ ← alarm 0;
  match signo with
  | SIG_EVENT_START => _ ← on_start; mret false
  | SIG_EVENT_CHECK => _ ← on_check; mret false
  | SIG_EVENT_STOP => _ ← on_stop; mret true
  end.

Definition on_device (e : dev_event) : MM bool :=
  match e with
  | RIL_INDICATE_DEVICE_DISCONNECTED => _ ← usbnet_link_change 0; mret true
  | Report RIL_UNSOL_RESPONSE_VOICE_NETWORK_STATE_CHANGED =>
      ps ← get PSAttachedState;
      r ← call (op_RegistrationState ops ps);
      _ ← set (fun s => s <| PSAttachedState := r.2 |>);
      s ← get id; p ← prof;
      _ ← (if r.2 =? 1 then whenM (want_call p s) (send_signo_to_main SIG_EVENT_START)
           else now ← clock_msec; set (fun s => s <| SetupCallAllowTime := now |>));
      mret false
  | Report RIL_UNSOL_DATA_CALL_LIST_CHANGED =>
      st4 ← get IPv4ConnectionStatus; st6 ← get IPv6ConnectionStatus;
      _ ← whenM (connected st4 || connected st6)
            (now ← clock_msec; set (fun s => s <| SetupCallAllowTime := now + 1000 |>));
      _ ← send_signo_to_main SIG_EVENT_CHECK;
      mret false
  | Report MODEM_REPORT_RESET_EVENT =>
      _ ← effect_main To_qmidevice_QUIT;
      _ ← set (fun s => s <| g_donot_exit_when_modem_hangup := 1 |>);
      mret true
  | Report (RIL_UNSOL_LOOPBACK_CONFIG_IND ind) =>
      state ← M_lift (rd8 ind 7);
      factor ← M_lift (rd32 ind 11);
      _ ← set_profile (fun p => p <| loopback_state := state |> <| replication_factor := s32 factor |>);
      _ ← whenM (truth state) (send_signo_to_main SIG_EVENT_START);
      mret false
  end.

(** ** The loop

    What arrives before one [poll], and what it reports: [POLLERR] or [POLLNVAL]
    ([Some false]) or [POLLHUP] ([Some true]) on the two descriptors, or a failure. *)
Record round := mkRound {
  r_sigs : list sig_event; r_devs : list dev_event;
  r_bad0 : option bool; r_bad1 : option bool; r_fail : bool }.

Definition bad_fd (b : option bool) : MM bool :=
  match b with
  | None => mret false
  | Some hup => _ ← effect_main To_qmidevice_QUIT; mret hup
  end.

(** The body for the signal descriptor, then for the device descriptor. *)
Definition serve_signal (bad : option bool) (ready : bool) : MM bool :=
  quit ← bad_fd bad;
  if (quit : bool) then mret true
  else if ready then
    q ← get sig_q;
    match q with
    | signo :: q => _ ← set (fun s => s <| sig_q := q |>); on_signal signo
    | [] => mret false
    end
  else mret false.
Definition serve_device (bad : option bool) (ready : bool) : MM bool :=
  quit ← bad_fd bad;
  if (quit : bool) then mret true
  else if ready then
    q ← get dev_q;
    match q with
    | e :: q => _ ← set (fun s => s <| dev_q := q |>); on_device e
    | [] => mret false
    end
  else mret false.

Definition nonnil {A} (l : list A) : bool := match l with [] => false | _ => true end.

Definition main_round (r : round) : MM bool :=
  _ ← set (fun s => s <| sig_q := sig_q s ++ r_sigs r |> <| dev_q := dev_q s ++ r_devs r |>);
  if r_fail r then mret true
  else
    q0 ← get sig_q; q1 ← get dev_q;
    match nonnil q0, nonnil q1, r_bad0 r, r_bad1 r with
    | false, false, None, None => _ ← send_signo_to_main SIG_EVENT_CHECK; mret false
    | ready0, ready1, bad0, bad1 =>
        quit ← serve_signal bad0 ready0;
        if (quit : bool) then mret true else serve_device bad1 ready1
    end.

(** The loop over the rounds that happen, and [__main_quit]; [true] once it quit. *)
Fixpoint main_loop (rounds : list round) : MM bool :=
  match rounds with
  | [] => mret false
  | r :: rounds =>
      quit ← main_round r;
      if (quit : bool) then _ ← usbnet_link_change 0; mret true else main_loop rounds
  end.

(** ** The set-up sequence of [qmi_main], from [requestBaseBandVersion] on *)

(** The [while] loop that waits for a supported SIM interface. *)
Fixpoint wait_sim (fuel : nat) (get_sim : Z -> M (rq W) (Z * Z)) : MM Z :=
  match fuel with
  | O => fun _ => OutOfFuel
  | S fuel =>
      sim ← get SIMStatus;
      r ← call (get_sim sim);
      _ ← set (fun s => s <| SIMStatus := r.2 |>);
      if r.1 =? QMI_ERR_OP_DEVICE_UNSUPPORTED then wait_sim fuel get_sim else mret r.1
  end.

Definition setup_loopback : MM unit :=
  p ← prof;
  match op_SetLoopBackState ops with
  | Some f =>
      whenM (truth (loopback_state p))
        (qmierr ← call (f (loopback_state p) (replication_factor p));
         whenM (negb (qmierr =? QMI_ERR_INVALID_QMI_CMD))
           (set_profile (fun p => p <| loopback_state := 0 |>)))
  | None => mret tt
  end.

Definition setup_sim (fuel : nat) : MM unit :=
  match op_GetSIMStatus ops with
  | Some f =>
      _ ← wait_sim fuel f;
      sim ← get SIMStatus; p ← prof;
      match pincode p, op_EnterSimPin ops with
      | Some pin, Some enter => whenM (sim =? SIM_PIN) (_ ← call (enter pin); mret tt)
      | _, _ => mret tt
      end
  | None => mret tt
  end.

Definition setup_profile : MM unit :=
  _ ← call_if (op_GetProfile ops);
  p ← prof;
  whenM (match apn p, user p, password p with None, None, None => false | _, _, _ => true end)
    (call_if (op_SetProfile ops)).

Definition qmi_main_setup (fuel : nat) : MM unit :=
  now ← clock_msec;
  _ ← set (fun s => s <| SIMStatus := SIM_ABSENT |> <| PSAttachedState := 0 |>
         <| IPv4ConnectionStatus := QWDS_PKT_DATA_UNKNOW |>
         <| IPv6ConnectionStatus := QWDS_PKT_DATA_UNKNOW |>
         <| SetupCallFail := 0 |> <| SetupCallAllowTime := now |>);
  _ ← call_if (op_BaseBandVersion ops);
  _ ← call_if (op_SetEthMode ops);
  _ ← setup_loopback;
  _ ← setup_sim fuel;
  sim ← get SIMStatus;
  _ ← whenM (sim =? SIM_READY) (_ ← call_if (op_GetICCID ops); call_if (op_GetIMSI ops));
  _ ← setup_profile;
  ps ← get PSAttachedState;
  r ← call (op_RegistrationState ops ps);
  _ ← set (fun s => s <| PSAttachedState := r.2 |>);
  send_signo_to_main SIG_EVENT_CHECK.

Definition qmi_main (fuel : nat) (rounds : list round) : MM bool :=
  _ ← qmi_main_setup fuel; main_loop rounds.

(** The handler of signals. *)
Definition ql_sigaction (is_alarm : bool) : MM unit :=
  if is_alarm then send_signo_to_main SIG_EVENT_START
  else
    _ ← set (fun s => s <| g_donot_exit_when_modem_hangup := 0 |>);
    _ ← send_signo_to_main SIG_EVENT_STOP;
    effect_main To_qmidevice_STOP.
End Main.

(** ** [quectel_CM] *)

(** The table [quectel_CM] selects for a software interface; [None] when it gives up. *)
Definition select_request_ops (p : PROFILE_T) : option PROFILE_T :=
  if software_interface p =? SOFTWARE_MBIM then Some (p <| request_ops := mbim_request_ops |>)
  else if software_interface p =? SOFTWARE_QMI then Some (p <| request_ops := qmi_request_ops |>)
  else if software_interface p =? SOFTWARE_ECM_RNDIS_NCM then Some (p <| request_ops := atc_request_ops |>)
  else None.
