(* ===== verification/CmMainSpec.v ===== *)
(** Properties of the main loop (main.c): the DHCP client follows the link, a check
    settles link and pending work, failed data calls are retried on the documented
    schedule and never earlier, and an idle loop keeps trying. *)
From S2P Require Import Prelude QmiTlv CmTypes QmiCompose QmiThread QmiRequests CmMain.
#[local] Open Scope Z_scope.

(** ** Abstract view

    Whether the DHCP client runs, from the history of the loop. *)
Definition dhcp_step (on : bool) (e : main_effect) : bool :=
  match e with Udhcpc_start => true | Udhcpc_stop => false | _ => on end.
Definition dhcp_running (log : list main_effect) : bool := foldl dhcp_step false log.

(** The client runs exactly when a link is up; [s_link] is -1 before the first
    change. *)
Definition dhcp_inv {W} (s : cm W) : Prop :=
  dhcp_running (m_log s) = negb (s_link s =? 0) && negb (s_link s =? -1).

(** No event is waiting, and nothing happens until [poll] times out. *)
Definition idle_round : round := mkRound [] [] None None false.

Lemma dhcp_running_app log e : dhcp_running (log ++ [e]) = dhcp_step (dhcp_running log) e.
Proof. unfold dhcp_running. by rewrite foldl_app. Qed.

Lemma link_of_range st4 st6 : 0 <= link_of st4 st6.
Proof. unfold link_of. destruct (connected st4), (connected st6); done. Qed.

Section MainSpec.
Context {W : Type} (ops : request_table W) (clk : nat -> Z).

(** *** Frames: what the routines leave alone *)

(** Invariants that do not look at the fields a routine writes. *)
Class Ignores (I : cm W -> Prop) : Prop := {
  ig_rq s r : I s -> I (s <| c_rq := r |>);
  ig_sim s v : I s -> I (s <| SIMStatus := v |>);
  ig_ps s v : I s -> I (s <| PSAttachedState := v |>);
  ig_v4 s v : I s -> I (s <| IPv4ConnectionStatus := v |>);
  ig_v6 s v : I s -> I (s <| IPv6ConnectionStatus := v |>);
  ig_fail s v : I s -> I (s <| SetupCallFail := v |>);
  ig_time s v : I s -> I (s <| SetupCallAllowTime := v |>);
  ig_sig s v : I s -> I (s <| sig_q := v |>);
  ig_dev s v : I s -> I (s <| dev_q := v |>);
  ig_alarm s v : I s -> I (s <| alarm_s := v |>);
  ig_hang s v : I s -> I (s <| g_donot_exit_when_modem_hangup := v |>);
  ig_ticks s v : I s -> I (s <| ticks := v |>) }.

Section Frame.
Context (I : cm W -> Prop) `{HI : Ignores I}.

Lemma pres_call {A} (m : M (rq W) A) : Pres I (call m).
Proof.
  intros s a s' H. unfold call. destruct (m (c_rq s)) as [[b r]| |]; [|done..].
  intros [= _ <-]. by apply ig_rq.
Qed.
Lemma pres_get {A} (f : cm W -> A) : Pres I (get f).
Proof. by intros s a s' H [= _ <-]. Qed.
Lemma pres_prof : Pres I prof.
Proof. by intros s a s' H [= _ <-]. Qed.
Lemma pres_when b (m : MM unit) : Pres I m -> Pres I (whenM b m).
Proof. intros Hm. destruct b; [done|]. apply pres_ret. Qed.
Lemma pres_clock : Pres I (clock_msec clk).
Proof. intros s a s' H [= _ <-]. by apply ig_ticks. Qed.
Lemma pres_call_if {A} (o : option (M (rq W) A)) : Pres I (call_if o).
Proof.
  destruct o; [|apply pres_ret]. apply pres_bind; [apply pres_call|]. intros. apply pres_ret.
Qed.
End Frame.
End MainSpec.

(** Walk through a routine. *)
Ltac pres_step :=
  match goal with
  | |- forall _, _ => intros
  | |- Pres _ (mret _) => apply pres_ret
  | |- Pres _ (M_ret _ _) => apply pres_ret
  | |- Pres _ (mbind _ _) => apply pres_bind
  | |- Pres _ (M_bind _ _ _ _) => apply pres_bind
  | |- Pres _ (call _) => apply pres_call
  | |- Pres _ (call_if _) => apply pres_call_if
  | |- Pres _ (get _) => apply pres_get
  | |- Pres _ prof => apply pres_prof
  | |- Pres _ (clock_msec _) => apply pres_clock
  | |- Pres _ (whenM _ _) => apply pres_when
  | |- Pres _ (M_lift _) => apply pres_lift
  | |- Pres _ (CmMain.set _) => apply pres_upd
  | |- Pres _ (if _ then _ else _) => apply pres_if
  | |- Pres _ (match ?x with _ => _ end) => destruct x
  end.
Ltac ignores :=
  first [ apply ig_rq | apply ig_sim | apply ig_ps | apply ig_v4 | apply ig_v6 | apply ig_fail
        | apply ig_time | apply ig_sig | apply ig_dev | apply ig_alarm | apply ig_hang | apply ig_ticks ].
Ltac pres_walk := repeat pres_step; try (repeat ignores; assumption).

#[export] Instance dhcp_inv_ignores {W} : Ignores (@dhcp_inv W).
Proof. by split. Qed.
(** The link and the history stay as they are. *)
Definition same_link {W} (s0 s : cm W) : Prop := s_link s = s_link s0 /\ m_log s = m_log s0.
#[export] Instance same_link_ignores {W} (s0 : cm W) : Ignores (same_link s0).
Proof. by split. Qed.

Section MainInv.
Context {W : Type} (ops : request_table W) (clk : nat -> Z).

(** [usbnet_link_change] in one equation. *)
Definition clear_addresses (link : Z) (p : PROFILE_T) : PROFILE_T :=
  let p := if truth (Z.land link 16) then p else p <| ipv4 := IPV4_zero |> in
  if truth (Z.land link 64) then p else p <| ipv6 := IPV6_zero |>.
Lemma link_change_eq link (s : cm W) :
  usbnet_link_change link s =
    if s_link s =? link then Ok (tt, s)
    else Ok (tt, s <| s_link := link |>
                   <| c_rq := (c_rq s) <| rq_p := clear_addresses link (rq_p (c_rq s)) |> |>
                   <| m_log := m_log s ++ [if truth link then Udhcpc_start else Udhcpc_stop] |>).
Proof.
  unfold usbnet_link_change, mbind, MM_bind, M_bind, get, whenM, set_profile, set, effect_main, M_upd.
  destruct (s_link s =? link); [reflexivity|]. unfold clear_addresses.
  change (Z.shiftl 1 IpFamilyV4) with 16. change (Z.shiftl 1 IpFamilyV6) with 64.
  destruct s as [[]]. destruct (truth (Z.land link 16)), (truth (Z.land link 64)), (truth link); reflexivity.
Qed.

Lemma pres_link link : 0 <= link -> Pres (@dhcp_inv W) (usbnet_link_change link).
Proof.
  intros Hl s a s' H E. rewrite link_change_eq in E. destruct (Z.eqb_spec (s_link s) link) as [|Hne].
  - by injection E as _ <-.
  - injection E as _ <-. unfold dhcp_inv.
    change (dhcp_running (m_log s ++ [if truth link then Udhcpc_start else Udhcpc_stop])
      = negb (link =? 0) && negb (link =? -1)).
    rewrite dhcp_running_app. unfold truth.
    destruct (Z.eqb_spec link 0), (Z.eqb_spec link (-1)); try lia; done.
Qed.
Lemma pres_quit_message e : e = To_qmidevice_QUIT \/ e = To_qmidevice_STOP ->
  Pres (@dhcp_inv W) (effect_main e).
Proof.
  intros He s a s' H [= _ <-]. unfold dhcp_inv.
  change (dhcp_running (m_log s ++ [e]) = negb (s_link s =? 0) && negb (s_link s =? -1)).
  rewrite dhcp_running_app, H. by destruct He as [->| ->].
Qed.

(** The calls of the modem change neither link nor history. *)
Section Quiet.
Context (I : cm W -> Prop) `{HI : Ignores W I}.
Lemma pres_check_address : Pres I (check_ipv4_address ops).
Proof. unfold check_ipv4_address. pres_walk. Qed.
Lemma pres_start : Pres I (on_start ops clk).
Proof. unfold on_start, start_ipv4, start_ipv6, schedule_retry, alarm, set_profile. pres_walk. Qed.
Lemma pres_check_ipv4 : Pres I (check_ipv4 ops).
Proof. unfold check_ipv4. repeat first [apply pres_check_address|pres_step]; repeat ignores; done. Qed.
Lemma pres_check_ipv6 : Pres I (check_ipv6 ops).
Proof. unfold check_ipv6. pres_walk. Qed.
End Quiet.

Lemma pres_update_link : Pres (@dhcp_inv W) update_link.
Proof.
  unfold update_link. repeat pres_step; apply pres_link; [lia|apply link_of_range].
Qed.
Lemma pres_check : Pres (@dhcp_inv W) (on_check ops).
Proof.
  unfold on_check, send_signo_to_main.
  repeat first [apply pres_check_ipv4|apply pres_check_ipv6|apply pres_update_link|pres_step];
    repeat ignores; try done; apply _.
Qed.
Lemma pres_signal signo : Pres (@dhcp_inv W) (on_signal ops clk signo).
Proof.
  unfold on_signal, alarm, on_stop.
  repeat first [apply pres_start|apply pres_check|apply pres_link; lia
               |apply pres_quit_message; tauto|pres_step]; repeat ignores; try done; apply _.
Qed.
Lemma pres_device e : Pres (@dhcp_inv W) (on_device ops clk e).
Proof.
  unfold on_device, send_signo_to_main, set_profile.
  repeat first [apply pres_link; lia|apply pres_quit_message; tauto|pres_step];
    repeat ignores; try done; apply _.
Qed.
Lemma pres_round r : Pres (@dhcp_inv W) (main_round ops clk r).
Proof.
  unfold main_round, serve_signal, serve_device, bad_fd, send_signo_to_main.
  repeat first [apply pres_signal|apply pres_device|apply pres_quit_message; tauto|pres_step];
    repeat ignores; try done; apply _.
Qed.
Lemma pres_wait_sim f : forall fuel, Pres (@dhcp_inv W) (wait_sim fuel f).
Proof.
  induction fuel as [|fuel IH]; [by intros s a s'|]. cbn [wait_sim].
  repeat first [exact IH|pres_step]; repeat ignores; try done; apply _.
Qed.
Lemma pres_setup fuel : Pres (@dhcp_inv W) (qmi_main_setup ops clk fuel).
Proof.
  unfold qmi_main_setup, setup_loopback, setup_sim, setup_profile, set_profile, send_signo_to_main.
  repeat first [apply pres_wait_sim|pres_step]; repeat ignores; try done; apply _.
Qed.

Lemma link_down (s s' : cm W) a : usbnet_link_change 0 s = Ok (a, s') -> s_link s' = 0.
Proof.
  rewrite link_change_eq. destruct (Z.eqb_spec (s_link s) 0); intros H; by injection H as _ <-.
Qed.
Lemma loop_inv rounds : forall (s s' : cm W) quit,
  dhcp_inv s -> main_loop ops clk rounds s = Ok (quit, s') ->
  dhcp_inv s' /\ (quit = true -> s_link s' = 0).
Proof.
  induction rounds as [|r rounds IH]; intros s s' quit H E; cbn [main_loop] in E.
  - by injection E as <- <-.
  - unfold mbind, MM_bind, M_bind in E.
    destruct (main_round ops clk r s) as [[q s1]| |] eqn:Er; [|done..].
    pose proof (pres_round r _ _ _ H Er) as H1.
    destruct q; [|by apply (IH s1)].
    destruct (usbnet_link_change 0 s1) as [[u s2]| |] eqn:El; [|done..]. injection E as <- <-.
    split; [by apply (pres_link 0 ltac:(lia) _ _ _ H1 El)|]. intros _. by eapply link_down.
Qed.
End MainInv.

(** C14. The DHCP client follows the link.  Whatever the modem answers and whatever
    signals and events arrive, at every point of a run of [qmi_main] the DHCP client
    has been started last exactly when [s_link] records a link, and when the loop
    has quit, the link is down and the client stopped. *)
Theorem dhcp_follows_link {W} (ops : request_table W) clk fuel rounds (s s' : cm W) quit :
  dhcp_inv s -> qmi_main ops clk fuel rounds s = Ok (quit, s') ->
  dhcp_running (m_log s') = negb (s_link s' =? 0) && negb (s_link s' =? -1)
  /\ (quit = true -> s_link s' = 0 /\ dhcp_running (m_log s') = false).
Proof.
  unfold qmi_main, mbind, MM_bind, M_bind. intros H E.
  destruct (qmi_main_setup ops clk fuel s) as [[u s1]| |] eqn:Es; [|done..].
  pose proof (pres_setup ops clk fuel _ _ _ H Es) as H1.
  apply loop_inv in E as [Hinv Hq]; [|done]. split; [exact Hinv|].
  intros Hquit. specialize (Hq Hquit). split; [done|]. by rewrite Hinv, Hq.
Qed.

(** *** The check *)
Lemma update_link_eq {W} (s s' : cm W) a :
  update_link s = Ok (a, s') ->
  let st4 := IPv4ConnectionStatus s in let st6 := IPv6ConnectionStatus s in
  IPv4ConnectionStatus s' = st4 /\ IPv6ConnectionStatus s' = st6 /\ sig_q s' = sig_q s
  /\ s_link s' = (if disconnected st4 && disconnected st6 then 0
                  else if connected st4 || connected st6 then link_of st4 st6 else s_link s).
Proof.
  unfold update_link, mbind, MM_bind, M_bind, get. cbv zeta.
  destruct (disconnected _ && _); [|destruct (connected _ || _)]; rewrite ?link_change_eq.
  3: { intros H. by injection H as _ <-. }
  all: match goal with |- context [s_link ?x =? ?l] => destruct (Z.eqb_spec (s_link x) l) end;
    intros H; injection H as _ <-; done.
Qed.

Lemma post_start_eq {W} (s s' : cm W) :
  whenM (want_call (rq_p (c_rq s)) s) (send_signo_to_main SIG_EVENT_START) s = Ok (tt, s') ->
  IPv4ConnectionStatus s' = IPv4ConnectionStatus s /\ IPv6ConnectionStatus s' = IPv6ConnectionStatus s
  /\ s_link s' = s_link s /\ c_rq s' = c_rq s
  /\ sig_q s' = sig_q s ++ (if want_call (rq_p (c_rq s)) s then [SIG_EVENT_START] else [])
  /\ dev_q s' = dev_q s.
Proof.
  unfold whenM, send_signo_to_main, set, M_upd. destruct (want_call _ s); intros H; injection H as <-;
    rewrite ?app_nil_r; done.
Qed.
Lemma want_call_ext {W} p (s s' : cm W) :
  IPv4ConnectionStatus s' = IPv4ConnectionStatus s -> IPv6ConnectionStatus s' = IPv6ConnectionStatus s ->
  want_call p s' = want_call p s.
Proof. intros E4 E6. unfold want_call. by rewrite E4, E6. Qed.
Lemma link_of_cases st4 st6 :
  connected st4 || connected st6 = true -> disconnected st4 && disconnected st6 = false.
Proof.
  unfold connected, disconnected, QWDS_PKT_DATA_CONNECTED, QWDS_PKT_DATA_DISCONNECTED.
  destruct (Z.eqb_spec st4 2), (Z.eqb_spec st6 2), (Z.eqb_spec st4 1), (Z.eqb_spec st6 1); try lia; done.
Qed.

(** A check settles the link.  After [SIG_EVENT_CHECK] the link is down if both
    families are disconnected, and otherwise has exactly the bits of the connected
    families; and if an enabled family is down, a [SIG_EVENT_START] is pending. *)
Theorem check_settles_link {W} (ops : request_table W) (s s' : cm W) :
  on_check ops s = Ok (tt, s') ->
  let st4 := IPv4ConnectionStatus s' in let st6 := IPv6ConnectionStatus s' in
  (disconnected st4 && disconnected st6 = true -> s_link s' = 0)
  /\ (connected st4 || connected st6 = true -> s_link s' = link_of st4 st6)
  /\ (want_call (rq_p (c_rq s')) s' = true -> last (sig_q s') = Some SIG_EVENT_START).
Proof.
  unfold on_check, mbind, MM_bind, M_bind, get, prof. intros H.
  repeat match type of H with
  | match ?m ?x with _ => _ end = _ => destruct (m x) as [[? ?]| |] eqn:?; [|done..]
  end.
  apply post_start_eq in H as (P4 & P6 & Pl & Pr & Pq & _).
  match goal with E : update_link _ = Ok _ |- _ => apply update_link_eq in E as (E4 & E6 & _ & El) end.
  cbv zeta. rewrite (want_call_ext _ _ _ P4 P6), P4, P6, Pl, Pr, Pq, E4, E6, El.
  split; [by intros ->|]. split.
  - intros Hc. by rewrite (link_of_cases _ _ Hc), Hc.
  - intros ->. apply last_snoc.
Qed.

(** *** Starting data calls *)

(** The counter of failures and the clock as they were. *)
Definition same_retry {W} (s0 s : cm W) : Prop :=
  SetupCallFail s = SetupCallFail s0 /\ ticks s = ticks s0.
Lemma pres_call_retry {W A} (s0 : cm W) (m : M (rq W) A) : Pres (same_retry s0) (call m).
Proof.
  intros s a s' H. unfold call. destruct (m (c_rq s)) as [[b r]| |]; [|done..]. by intros [= _ <-].
Qed.
Lemma pres_start_v4 {W} (ops : request_table W) s0 b : Pres (same_retry s0) (whenM b (start_ipv4 ops)).
Proof.
  unfold start_ipv4, set_profile. repeat first [apply pres_call_retry|pres_step]; done.
Qed.
Lemma pres_start_v6 {W} (ops : request_table W) s0 b : Pres (same_retry s0) (whenM b (start_ipv6 ops)).
Proof.
  unfold start_ipv6, set_profile. repeat first [apply pres_call_retry|pres_step]; done.
Qed.

Lemma allow_seconds_range n : 0 <= n -> 5 <= allow_seconds n <= 60.
Proof.
  intros H. unfold allow_seconds. cbn [length allow_time].
  destruct (Z.ltb_spec n (Z.of_nat 5)); [|lia].
  assert (n = 0 \/ n = 1 \/ n = 2 \/ n = 3 \/ n = 4) as [->|[->|[->|[->| ->]]]] by lia; by vm_compute.
Qed.

(** The state after a failed attempt. *)
Lemma schedule_retry_fail {W} clk (s s' : cm W) :
  schedule_retry clk s = Ok (tt, s') -> want_call (rq_p (c_rq s')) s' = true ->
  let t := allow_seconds (SetupCallFail s) in
  alarm_s s' = t /\ SetupCallFail s' = u32 (SetupCallFail s + 1)
  /\ SetupCallAllowTime s' = t * 1000 + clk (ticks s) /\ ticks s' = S (ticks s).
Proof.
  unfold schedule_retry, mbind, MM_bind, M_bind, get, prof, id.
  destruct (want_call (rq_p (c_rq s)) s) eqn:Ew.
  - intros H. injection H as <-. done.
  - unfold whenM. destruct (_ || _); intros H; injection H as <-; intros Hw; exfalso;
      (enough (want_call (rq_p (c_rq s)) s = true) by congruence); exact Hw.
Qed.

(** A START before the allowed time sets the alarm and asks the modem nothing. *)
Lemma on_start_early {W} (ops : request_table W) clk (s s' : cm W) :
  clk (ticks s) < SetupCallAllowTime s -> on_start ops clk s = Ok (tt, s') -> c_rq s' = c_rq s.
Proof.
  intros Ht. unfold on_start, mbind, MM_bind, M_bind, get, prof.
  destruct (_ && _); [intros H; by injection H as <-|].
  unfold clock_msec. change (SetupCallAllowTime (s <| ticks := S (ticks s) |>)) with (SetupCallAllowTime s).
  destruct (Z.ltb_spec (clk (ticks s)) (SetupCallAllowTime s)); [|lia].
  intros H1. by injection H1 as <-.
Qed.

(** Neither attached nor in loopback. *)
Definition detached {W} (s : cm W) : bool :=
  negb (PSAttachedState s =? 1) && (loopback_state (rq_p (c_rq s)) =? 0).
Lemma on_start_detached {W} (ops : request_table W) clk (s s' : cm W) :
  detached s = true -> on_start ops clk s = Ok (tt, s') -> s' = s.
Proof.
  unfold detached, on_start, mbind, MM_bind, M_bind, get, prof. intros ->. intros H. by injection H as <-.
Qed.
Lemma on_start_waits {W} (ops : request_table W) clk (s s' : cm W) :
  detached s = false -> clk (ticks s) < SetupCallAllowTime s -> on_start ops clk s = Ok (tt, s') ->
  c_rq s' = c_rq s /\ alarm_s s' = u32 (u64 (SetupCallAllowTime s - clk (S (ticks s)) + 999) / 1000).
Proof.
  unfold detached, on_start, mbind, MM_bind, M_bind, get, prof. intros -> Ht.
  unfold clock_msec. change (SetupCallAllowTime (s <| ticks := S (ticks s) |>)) with (SetupCallAllowTime s).
  rewrite (proj2 (Z.ltb_lt _ _) Ht). intros H. by injection H as <-.
Qed.

(** A permitted START in its three parts. *)
Lemma on_start_permitted {W} (ops : request_table W) clk (s s1 : cm W) :
  on_start ops clk s = Ok (tt, s1) ->
  PSAttachedState s = 1 \/ loopback_state (rq_p (c_rq s)) <> 0 -> SetupCallAllowTime s <= clk (ticks s) ->
  let s0 := s <| ticks := S (ticks s) |> in
  exists s4 s6,
    whenM (truth (enable_ipv4 (rq_p (c_rq s))) && negb (connected (IPv4ConnectionStatus s))) (start_ipv4 ops) s0 = Ok (tt, s4)
    /\ whenM (truth (enable_ipv6 (rq_p (c_rq s4))) && negb (connected (IPv6ConnectionStatus s4))) (start_ipv6 ops) s4 = Ok (tt, s6)
    /\ schedule_retry clk s6 = Ok (tt, s1).
Proof.
  intros H Hps Ht. revert H. unfold on_start at 1, mbind, MM_bind, M_bind, get, prof.
  destruct (negb (PSAttachedState s =? 1) && _) eqn:E;
    [exfalso; rewrite andb_true_iff, negb_true_iff, Z.eqb_neq, Z.eqb_eq in E; tauto|]. clear E.
  unfold clock_msec. change (SetupCallAllowTime (s <| ticks := S (ticks s) |>)) with (SetupCallAllowTime s).
  destruct (Z.ltb_spec (clk (ticks s)) (SetupCallAllowTime s)); [lia|].
  set (s0 := s <| ticks := S (ticks s) |>). intros Hrun.
  repeat match type of Hrun with
  | match ?m ?x with _ => _ end = _ => destruct (m x) as [[[] ?]| |] eqn:?; [|done..]
  end.
  by eexists _, _.
Qed.
(** What they leave alone. *)
Lemma schedule_retry_keeps {W} clk (s s' : cm W) : schedule_retry clk s = Ok (tt, s') ->
  IPv4ConnectionStatus s' = IPv4ConnectionStatus s /\ IPv6ConnectionStatus s' = IPv6ConnectionStatus s.
Proof.
  unfold schedule_retry, mbind, MM_bind, M_bind, get, prof, id, whenM.
  destruct (want_call _ s); [|destruct (_ || _)]; intros H; by injection H as <-.
Qed.
Lemma start_ipv6_keeps {W} (ops : request_table W) b (s s' : cm W) :
  whenM b (start_ipv6 ops) s = Ok (tt, s') -> IPv4ConnectionStatus s' = IPv4ConnectionStatus s.
Proof.
  assert (P : Pres (fun x : cm W => IPv4ConnectionStatus x = IPv4ConnectionStatus s) (whenM b (start_ipv6 ops))).
  { assert (Pc : forall A (m : M (rq W) A), Pres (fun x : cm W => IPv4ConnectionStatus x = IPv4ConnectionStatus s) (call m)).
    { intros A m x a x' H. unfold call. destruct (m (c_rq x)) as [[? ?]| |]; [|done..]. by intros [= _ <-]. }
    unfold start_ipv6, set_profile. repeat first [apply Pc|pres_step]; done. }
  by apply P.
Qed.

(** The family a START asks a data call for first. *)
Definition first_call {W} (s : cm W) : option Z :=
  let p := rq_p (c_rq s) in
  if truth (enable_ipv4 p) && negb (connected (IPv4ConnectionStatus s)) then Some IpFamilyV4
  else if truth (enable_ipv6 p) && negb (connected (IPv6ConnectionStatus s))
          && (negb (truth (enable_ipv4 p)) || bool_decide (request_ops p = qmi_request_ops)) then Some IpFamilyV6
  else None.
Definition family_status {W} (f : Z) (s : cm W) : Z :=
  if f =? IpFamilyV4 then IPv4ConnectionStatus s else IPv6ConnectionStatus s.
(** The call was made, and with an address after it the family is connected. *)
Definition call_made {W} (ops : request_table W) (f : Z) (r0 : rq W) (s : cm W) : Prop :=
  exists e r, op_SetupDataCall ops f r0 = Ok (e, r)
    /\ (e = 0 -> exists a r', op_GetIPAddress ops f r = Ok (a, r')
                  /\ (a = 0 -> family_status f s = QWDS_PKT_DATA_CONNECTED)).
Lemma start_ipv4_calls {W} (ops : request_table W) (s s' : cm W) :
  start_ipv4 ops s = Ok (tt, s') -> call_made ops IpFamilyV4 (c_rq s) s'.
Proof.
  unfold start_ipv4, call_made, mbind, MM_bind, M_bind, call at 1, prof.
  destruct (op_SetupDataCall ops IpFamilyV4 (c_rq s)) as [[e r]| |]; [|done..]. intros H.
  exists e, r. split; [done|]. intros ->. change (0 <? 0) with false in H. cbn [andb] in H.
  unfold mret, MM_ret, M_ret, whenM, call in H. cbn [truth negb Z.eqb] in H.
  change (c_rq (s <| c_rq := r |>)) with r in H.
  destruct (op_GetIPAddress ops IpFamilyV4 r) as [[a r']| |]; [|done..]. exists a, r'. split; [done|]. intros ->.
  by injection H as <-.
Qed.
Lemma start_ipv6_calls {W} (ops : request_table W) (s s' : cm W) :
  let p := rq_p (c_rq s) in
  start_ipv6 ops s = Ok (tt, s') ->
  if truth (enable_ipv4 p) && negb (bool_decide (request_ops p = qmi_request_ops))
  then IPv6ConnectionStatus s' = IPv4ConnectionStatus s
  else call_made ops IpFamilyV6 (c_rq s) s'.
Proof.
  cbv zeta. unfold start_ipv6, call_made, mbind, MM_bind, M_bind, prof. destruct (_ && negb _).
  { intros H. by injection H as <-. }
  unfold call at 1. destruct (op_SetupDataCall ops IpFamilyV6 (c_rq s)) as [[e r]| |]; [|done..]. intros H.
  exists e, r. split; [done|]. intros ->. unfold whenM, call in H. cbn [truth negb Z.eqb] in H.
  change (c_rq (s <| c_rq := r |>)) with r in H.
  destruct (op_GetIPAddress ops IpFamilyV6 r) as [[a r']| |]; [|done..]. exists a, r'. split; [done|]. intros ->.
  by injection H as <-.
Qed.
Lemma call_made_ext {W} (ops : request_table W) f r0 (s s' : cm W) :
  family_status f s' = family_status f s -> call_made ops f r0 s -> call_made ops f r0 s'.
Proof. unfold call_made. by intros ->. Qed.

(** What a START does for an enabled family that is down. *)
Lemma on_start_calls {W} (ops : request_table W) clk (s s1 : cm W) :
  on_start ops clk s = Ok (tt, s1) ->
  PSAttachedState s = 1 \/ loopback_state (rq_p (c_rq s)) <> 0 -> SetupCallAllowTime s <= clk (ticks s) ->
  want_call (rq_p (c_rq s)) s = true ->
  match first_call s with
  | Some f => call_made ops f (c_rq s) s1
  | None => IPv6ConnectionStatus s1 = QWDS_PKT_DATA_CONNECTED
  end.
Proof.
  intros H Hps Ht Hw. destruct (on_start_permitted ops clk s s1 H Hps Ht) as (s4 & s6 & E4 & E6 & Er). clear H.
  destruct (schedule_retry_keeps clk _ _ Er) as [K4 K6]. unfold first_call.
  set (s0 := s <| ticks := _ |>) in E4. assert (Eq : c_rq s0 = c_rq s) by done.
  assert (E0 : IPv6ConnectionStatus s0 = IPv6ConnectionStatus s /\ IPv4ConnectionStatus s0 = IPv4ConnectionStatus s) by done.
  destruct E0 as [Es6 Es4]. clearbody s0.
  destruct (truth (enable_ipv4 (rq_p (c_rq s))) && negb (connected (IPv4ConnectionStatus s))) eqn:Ed.
  - apply start_ipv4_calls in E4. apply start_ipv6_keeps in E6. rewrite Eq in E4. apply (call_made_ext _ _ _ s4); [|exact E4].
    change (IPv4ConnectionStatus s1 = IPv4ConnectionStatus s4). congruence.
  - injection E4 as <-. rewrite Eq, Es6 in E6.
    assert (Hd6 : truth (enable_ipv6 (rq_p (c_rq s))) && negb (connected (IPv6ConnectionStatus s)) = true).
    { unfold want_call, connected, disconnected, QWDS_PKT_DATA_CONNECTED, QWDS_PKT_DATA_DISCONNECTED in *.
      destruct (truth (enable_ipv4 _)), (truth (enable_ipv6 _)), (Z.eqb_spec (IPv4ConnectionStatus s) 1),
        (Z.eqb_spec (IPv4ConnectionStatus s) 2), (Z.eqb_spec (IPv6ConnectionStatus s) 1),
        (Z.eqb_spec (IPv6ConnectionStatus s) 2); cbn in Ed, Hw |- *; (done || lia). }
    rewrite Hd6 in E6 |- *. cbn [whenM] in E6. apply start_ipv6_calls in E6.
    rewrite Eq in E6.
    destruct (truth (enable_ipv4 _)), (bool_decide _); cbn [negb andb orb] in E6, Ed |- *;
      try (apply (call_made_ext _ _ _ s6); [exact K6|exact E6]).
    rewrite K6, E6, Es4. apply negb_false_iff, Z.eqb_eq in Ed. exact Ed.
Qed.

(** A START for an enabled family that is down, on every branch. *)
Lemma on_start_cases {W} (ops : request_table W) clk (s s' : cm W) :
  on_start ops clk s = Ok (tt, s') -> want_call (rq_p (c_rq s)) s = true ->
  if detached s then s' = s
  else if clk (ticks s) <? SetupCallAllowTime s
  then c_rq s' = c_rq s /\ alarm_s s' = u32 (u64 (SetupCallAllowTime s - clk (S (ticks s)) + 999) / 1000)
  else match first_call s with
       | Some f => call_made ops f (c_rq s) s'
       | None => IPv6ConnectionStatus s' = QWDS_PKT_DATA_CONNECTED
       end.
Proof.
  intros H Hw. destruct (detached s) eqn:Ea; [exact (on_start_detached ops clk _ _ Ea H)|].
  destruct (Z.ltb_spec (clk (ticks s)) (SetupCallAllowTime s)) as [Hl|Hl]; [exact (on_start_waits ops clk _ _ Ea Hl H)|].
  apply (on_start_calls _ _ _ _ H); [|done..].
  apply andb_false_iff in Ea as [Ea|Ea]; [left; by apply negb_false_iff, Z.eqb_eq in Ea|right; by apply Z.eqb_neq].
Qed.

(** The retry schedule.  When a permitted [SIG_EVENT_START] leaves an enabled
    family down, the next attempt is allowed 5, 10, 20, 40, then 60 seconds after a
    clock reading of this attempt, the alarm is set to that delay and the failure is
    counted; and no [SIG_EVENT_START] that is handled before that time sends anything
    to the modem. *)
Theorem retry_backoff {W} (ops : request_table W) clk (s s1 : cm W) :
  on_start ops clk s = Ok (tt, s1) ->
  PSAttachedState s = 1 \/ loopback_state (rq_p (c_rq s)) <> 0 ->
  SetupCallAllowTime s <= clk (ticks s) ->
  0 <= SetupCallFail s < 4294967295 ->
  want_call (rq_p (c_rq s1)) s1 = true ->
  let t := allow_seconds (SetupCallFail s) in
  5 <= t <= 60 /\ alarm_s s1 = t /\ SetupCallFail s1 = SetupCallFail s + 1
  /\ SetupCallAllowTime s1 = t * 1000 + clk (S (ticks s))
  /\ (forall s2 s3, SetupCallAllowTime s2 = SetupCallAllowTime s1 ->
        clk (ticks s2) < t * 1000 + clk (S (ticks s)) ->
        on_start ops clk s2 = Ok (tt, s3) -> c_rq s3 = c_rq s2).
Proof.
  intros H Hps Ht Hf Hw. cbv zeta. split; [apply allow_seconds_range; lia|].
  destruct (on_start_permitted ops clk s s1 H Hps Ht) as (s4 & s6 & E4 & E6 & Hrun). set (s0 := s <| ticks := _ |>) in *.
  pose proof (pres_start_v4 ops s0 _ _ _ _ (conj eq_refl eq_refl) E4) as F4.
  destruct (pres_start_v6 ops s0 _ _ _ _ F4 E6) as [Ff Fk].
  destruct (schedule_retry_fail clk _ _ Hrun Hw) as (A1 & A2 & A3 & _).
  rewrite Ff in A1, A2, A3. rewrite Fk in A3. split; [exact A1|].
  change (SetupCallFail s0) with (SetupCallFail s) in *. rewrite u32_id in A2 by lia.
  split; [exact A2|]. split; [exact A3|]. intros s2 s3 E2 Hlt. apply on_start_early. rewrite E2, A3. exact Hlt.
Qed.

(** The authentication fallback.  When the first IPv4 attempt is refused and the
    profile has user and password, the call is tried once more with the other of PAP
    and CHAP; if that fails too, the configured protocol is restored in the profile
    and IPv4 keeps its state, and if it succeeds, the new protocol stays. *)
Theorem auth_fallback {W} (ops : request_table W) (s s' : cm W) e1 e2 r1 r2 :
  let other := if auth (rq_p r1) =? 1 then 2 else 1 in
  op_SetupDataCall ops IpFamilyV4 (c_rq s) = Ok (e1, r1) -> 0 < e1 ->
  nonempty (user (rq_p r1)) = true -> nonempty (password (rq_p r1)) = true ->
  op_SetupDataCall ops IpFamilyV4 (r1 <| rq_p := (rq_p r1) <| auth := other |> |>) = Ok (e2, r2) ->
  start_ipv4 ops s = Ok (tt, s') ->
  (e2 <> 0 -> auth (rq_p (c_rq s')) = auth (rq_p r1)
              /\ IPv4ConnectionStatus s' = IPv4ConnectionStatus s)
  /\ (e2 = 0 -> exists e3, op_GetIPAddress ops IpFamilyV4 r2 = Ok (e3, c_rq s')
       /\ (e3 = 0 -> IPv4ConnectionStatus s' = QWDS_PKT_DATA_CONNECTED)
       /\ (e3 <> 0 -> IPv4ConnectionStatus s' = IPv4ConnectionStatus s)).
Proof.
  cbv zeta. intros H1 He Hu Hp H2. unfold start_ipv4, mbind, MM_bind, M_bind, call at 1, prof.
  rewrite H1. cbv beta iota.
  change (rq_p (c_rq (s <| c_rq := r1 |>))) with (rq_p r1). rewrite Hu, Hp, (proj2 (Z.ltb_lt 0 e1) He).
  cbv beta iota zeta delta [andb]. unfold set_profile at 1, set at 1, M_upd at 1. cbv beta iota.
  unfold call at 1.
  match goal with |- context [op_SetupDataCall ops IpFamilyV4 ?x] =>
    change x with (r1 <| rq_p := (rq_p r1) <| auth := if auth (rq_p r1) =? 1 then 2 else 1 |> |>) end.
  rewrite H2. cbv beta iota. unfold truth. destruct (Z.eqb_spec e2 0) as [->|Hne].
  - unfold whenM at 1. cbv beta iota delta [negb]. intros H. split; [done|]. intros _.
    unfold mret, MM_ret, M_ret, whenM, call in H. change (0 =? 0) with true in H.
    cbv beta iota delta [negb] in H.
    match type of H with context [op_GetIPAddress ops IpFamilyV4 ?x] => change x with r2 in H end.
    destruct (op_GetIPAddress ops IpFamilyV4 r2) as [[e3 r3]| |]; [|done..].
    exists e3. cbv beta iota in H. unfold whenM in H. destruct (Z.eqb_spec e3 0) as [->|Hne];
      injection H as <-; (split; [done|]); split; intros; first [done|congruence].
  - unfold mret, MM_ret, M_ret, whenM, set_profile, set, M_upd. cbv iota beta delta [negb].
    rewrite ?(proj2 (Z.eqb_neq e2 0) Hne). intros H. split; [|done]. intros _.
    injection H as <-. done.
Qed.

(** *** The idle loop *)

Lemma idle_posts_check {W} (ops : request_table W) clk (s : cm W) :
  sig_q s = [] -> dev_q s = [] ->
  main_round ops clk idle_round s = Ok (false, s <| sig_q := [SIG_EVENT_CHECK] |>).
Proof.
  intros Hs Hd. destruct s as [? ? ? ? ? ? ? ? ? sq dq ? ? ?]. cbn in Hs, Hd. by subst.
Qed.
Lemma serve_signal_eq {W} (ops : request_table W) clk (s : cm W) e q :
  sig_q s = e :: q -> serve_signal ops clk None true s = on_signal ops clk e (s <| sig_q := q |>).
Proof.
  intros H. unfold serve_signal, bad_fd, mbind, MM_bind, M_bind, mret, MM_ret, M_ret, get.
  cbv iota beta. by rewrite H.
Qed.
Lemma no_arrivals {W} (s : cm W) : s <| sig_q := sig_q s ++ [] |> <| dev_q := dev_q s ++ [] |> = s.
Proof. destruct s as [? ? ? ? ? ? ? ? ? sq dq ? ? ?]. cbn. unfold constant. by rewrite !app_nil_r. Qed.
Lemma idle_serves {W} (ops : request_table W) clk (s s' : cm W) e :
  sig_q s = [e] -> dev_q s = [] -> on_signal ops clk e (s <| sig_q := [] |>) = Ok (false, s') ->
  main_round ops clk idle_round s = Ok (false, s').
Proof.
  intros Hs Hd H. unfold main_round, mbind, MM_bind, M_bind, set at 1, M_upd at 1.
  change (r_sigs idle_round) with (@nil sig_event). change (r_devs idle_round) with (@nil dev_event).
  rewrite no_arrivals. cbv beta iota. change (r_fail idle_round) with false. cbv iota. unfold get.
  rewrite Hs, Hd. change (r_bad0 idle_round) with (@None bool). change (r_bad1 idle_round) with (@None bool).
  cbv beta iota delta [nonnil]. by rewrite (serve_signal_eq ops clk s e [] Hs), H.
Qed.

Definition quiet {W} (s : cm W) : Prop := sig_q s = [] /\ dev_q s = [].
Lemma pres_call_quiet {W A} (m : M (rq W) A) : Pres quiet (call m).
Proof.
  intros s a s' H. unfold call. destruct (m (c_rq s)) as [[b r]| |]; [|done..]. by intros [= _ <-].
Qed.
Lemma pres_link_quiet {W} l : Pres (@quiet W) (usbnet_link_change l).
Proof.
  intros s a s' H. rewrite link_change_eq. destruct (_ =? _); intros E; by injection E as _ <-.
Qed.
Lemma pres_check_parts_quiet {W} (ops : request_table W) :
  Pres quiet (check_ipv4 ops) /\ Pres quiet (check_ipv6 ops) /\ Pres quiet (@update_link W)
  /\ forall A (o : option (M (rq W) A)), Pres quiet (call_if o).
Proof.
  unfold check_ipv4, check_ipv6, update_link, check_ipv4_address, call_if.
  split; [|split; [|split]]; intros;
    repeat first [apply pres_call_quiet|apply pres_link_quiet|pres_step]; done.
Qed.
Lemma check_pending {W} (ops : request_table W) (s s1 : cm W) :
  quiet s -> on_check ops s = Ok (tt, s1) -> want_call (rq_p (c_rq s1)) s1 = true ->
  sig_q s1 = [SIG_EVENT_START] /\ dev_q s1 = [].
Proof.
  intros Hq. destruct (pres_check_parts_quiet ops) as (P4 & P6 & Pl & Pc).
  unfold on_check, mbind, MM_bind, M_bind, get, prof. intros H Hw.
  repeat match type of H with
  | match ?m ?x with _ => _ end = _ => destruct (m x) as [[? ?]| |] eqn:?; [|done..]
  end.
  repeat match goal with
  | Hq : quiet ?x, E : ?m ?x = Ok (_, ?y) |- _ =>
      apply (fun P : Pres quiet m => P _ _ _ Hq) in E;
        [clear Hq|first [done|apply Pc|apply pres_when;
           refine (pres_bind quiet (call _) (fun r => CmMain.set _) _ _);
           repeat first [apply pres_call_quiet|pres_step]; done]]
  end.
  apply post_start_eq in H as (E4 & E6 & _ & Er & Eq & Ed).
  match goal with Hq : quiet _ |- _ => destruct Hq as [Q1 Q2] end.
  rewrite Er, (want_call_ext _ _ _ E4 E6) in Hw. rewrite Eq, Ed, Hw, Q1, Q2. done.
Qed.

(** C35. An idle connection manager keeps trying.  With nothing pending, and nothing arriving
    during three rounds, the time-out
    of [poll] posts a check, the next round performs it, and if it leaves an enabled
    family down, the round after that serves a START (both handlers returning: a response of
    the modem that makes a request read outside it is another matter).  Attached (or in loopback) and with
    the time of the last failure's delay over, this START makes a data call: it sends the set-up of IPv4
    if that is enabled and not connected, else of IPv6, in the state that the check left,
    and when the modem accepts it and tells an address the family is connected; only where
    MBIM or AT carry both families over one call, and IPv4 is connected, IPv6 follows it without.
    Before that time it asks the modem for nothing and sets the alarm, which posts the next
    START, for what is left in seconds; not attached it does nothing. *)
Theorem idle_loop_retries {W} (ops : request_table W) clk (s s1 s2 : cm W) :
  sig_q s = [] -> dev_q s = [] ->
  on_check ops (s <| alarm_s := 0 |>) = Ok (tt, s1) ->
  want_call (rq_p (c_rq s1)) s1 = true ->
  on_start ops clk (s1 <| sig_q := [] |> <| alarm_s := 0 |>) = Ok (tt, s2) ->
  main_loop ops clk [idle_round; idle_round; idle_round] s = Ok (false, s2)
  /\ if detached s1 then s2 = s1 <| sig_q := [] |> <| alarm_s := 0 |>
     else if clk (ticks s1) <? SetupCallAllowTime s1
     then c_rq s2 = c_rq s1 /\ alarm_s s2 = u32 (u64 (SetupCallAllowTime s1 - clk (S (ticks s1)) + 999) / 1000)
     else match first_call s1 with
          | Some f => exists e r, op_SetupDataCall ops f (c_rq s1) = Ok (e, r)
              /\ (e = 0 -> exists a r', op_GetIPAddress ops f r = Ok (a, r')
                            /\ (a = 0 -> family_status f s2 = QWDS_PKT_DATA_CONNECTED))
          | None => IPv6ConnectionStatus s2 = QWDS_PKT_DATA_CONNECTED
          end.
Proof.
  intros Hs Hd H1 Hw H2. split.
  2: { pose proof (on_start_cases ops clk _ _ H2) as H. exact (H Hw). }
  destruct (check_pending ops (s <| alarm_s := 0 |>) s1) as [Q1 Q2]; [by split|done|done|].
  cbn [main_loop]. unfold mbind, MM_bind, M_bind. rewrite (idle_posts_check ops clk s Hs Hd).
  rewrite (idle_serves ops clk _ s1 SIG_EVENT_CHECK); [|done|done|].
  - rewrite (idle_serves ops clk s1 s2 SIG_EVENT_START Q1 Q2); [done|].
    unfold on_signal, mbind, MM_bind, M_bind, alarm, set, M_upd. by rewrite H2.
  - unfold on_signal, mbind, MM_bind, M_bind, alarm, set, M_upd.
    match goal with |- context [on_check ops ?x] => replace x with (s <| alarm_s := 0 |>) end.
    + by rewrite H1.
    + destruct s as [? ? ? ? ? ? ? ? ? sq dq ? ? ?]. cbn in Hs. by subst.
Qed.

(** ** Witnesses

    The QMI table over a modem that refuses every request with the error 0x40. *)
Definition refusal : list Z := [1; 19; 0; 0x80; 1; 1; 2; 0; 0; 0x20; 0; 7; 0; 2; 4; 0; 1; 0; 0x40; 0].
Definition refusing : transport unit := fun _ w => Ok ((0, Some refusal), w).
Definition demo_ops : request_table unit := qmi_ops_table refusing 3 None.
Definition demo_profile : PROFILE_T :=
  PROFILE_zero <| enable_ipv4 := 1 |> <| user := Some [117] |> <| password := Some [112] |> <| auth := 1 |>.
Definition demo_cm (ps st4 : Z) : cm unit :=
  mkCm (mkRq statics_init demo_profile tt []) SIM_READY ps st4 QWDS_PKT_DATA_DISCONNECTED 0 0 (-1) 0
    [] [] 0 0 [].
Definition demo_clk (n : nat) : Z := 100 * Z.of_nat n.

Definition outcome {A} (r : res (A * cm unit)) : cm unit :=
  match r with Ok (_, s) => s | _ => demo_cm 0 0 end.
Definition stop_round : round := mkRound [SIG_EVENT_STOP] [] None None false.
Lemma dhcp_follows_link_witness :
  let s' := outcome (qmi_main demo_ops demo_clk 3 [idle_round; stop_round; idle_round] (demo_cm 0 0)) in
  s_link s' = 0 /\ dhcp_running (m_log s') = false.
Proof.
  refine (proj2 (dhcp_follows_link demo_ops demo_clk 3 [idle_round; stop_round; idle_round]
    (demo_cm 0 0) _ true eq_refl _) eq_refl).
  vm_compute. reflexivity.
Defined.

Lemma check_settles_link_witness :
  let s' := outcome (on_check demo_ops (demo_cm 1 QWDS_PKT_DATA_CONNECTED)) in
  s_link s' = 0 /\ last (sig_q s') = Some SIG_EVENT_START.
Proof.
  destruct (check_settles_link demo_ops (demo_cm 1 QWDS_PKT_DATA_CONNECTED)
    (outcome (on_check demo_ops (demo_cm 1 QWDS_PKT_DATA_CONNECTED))) eq_refl) as (H1 & _ & H3).
  split; [exact (H1 eq_refl)|exact (H3 eq_refl)].
Defined.

Lemma retry_backoff_witness :
  let s1 := outcome (on_start demo_ops demo_clk (demo_cm 1 QWDS_PKT_DATA_DISCONNECTED)) in
  alarm_s s1 = 5 /\ SetupCallAllowTime s1 = 5100.
Proof.
  destruct (retry_backoff demo_ops demo_clk (demo_cm 1 QWDS_PKT_DATA_DISCONNECTED)
    (outcome (on_start demo_ops demo_clk (demo_cm 1 QWDS_PKT_DATA_DISCONNECTED))))
    as (_ & H1 & _ & H2 & _); [reflexivity|by left|vm_compute; discriminate|vm_compute; split; discriminate + done|reflexivity|].
  split; [exact H1|exact H2].
Defined.

Lemma auth_fallback_witness :
  let s' := outcome (start_ipv4 demo_ops (demo_cm 1 QWDS_PKT_DATA_DISCONNECTED)) in
  auth (rq_p (c_rq s')) = 1 /\ IPv4ConnectionStatus s' = QWDS_PKT_DATA_DISCONNECTED.
Proof.
  refine (proj1 (auth_fallback demo_ops (demo_cm 1 QWDS_PKT_DATA_DISCONNECTED)
    (outcome (start_ipv4 demo_ops (demo_cm 1 QWDS_PKT_DATA_DISCONNECTED))) 0x40 0x40
    (mkRq (statics_init <| TransactionId := 1 |>) (demo_profile <| curIpFamily := 4 |>) tt [])
    (mkRq (statics_init <| TransactionId := 2 |>)
      (demo_profile <| curIpFamily := 4 |> <| auth := 2 |>) tt [])
    _ _ _ _ _ _) _); reflexivity || discriminate.
Defined.

Definition idle1 : cm unit := outcome (on_check demo_ops (demo_cm 1 QWDS_PKT_DATA_CONNECTED)).
Definition idle2 : cm unit := outcome (on_start demo_ops demo_clk (idle1 <| sig_q := [] |> <| alarm_s := 0 |>)).
Lemma idle_loop_retries_witness :
  main_loop demo_ops demo_clk [idle_round; idle_round; idle_round]
      (demo_cm 1 QWDS_PKT_DATA_CONNECTED) = Ok (false, idle2)
  /\ exists e r, requestSetupDataCall refusing IpFamilyV4 (c_rq idle1) = Ok (e, r).
Proof.
  destruct (idle_loop_retries demo_ops demo_clk (demo_cm 1 QWDS_PKT_DATA_CONNECTED) idle1 idle2
    ltac:(reflexivity) ltac:(reflexivity) ltac:(vm_compute; reflexivity) ltac:(vm_compute; reflexivity)
    ltac:(vm_compute; reflexivity)) as [H1 (e & r & H2 & _)].
  split; [exact H1|exists e, r; exact H2].
Defined.
