(* ===== verification/CmArgs.v ===== *)
(** The command line of the connection manager: [parse_user_input] of main.c.  An
    argument is the list of its bytes before the NUL; [char] is unsigned, as on the
    ARM targets of the firmware. *)
From S2P Require Import Prelude CmTypes QmiRequests.
#[local] Open Scope Z_scope.

(** ** C library *)

(** [s[i]], with the NUL at the end. *)
Definition char_at (s : cstr) (i : nat) : Z := default 0 (s !! i).
Definition strcmp_eq (s : cstr) (t : string) : bool := bool_decide (s = bytes_of_string t).
Definition tolower (c : Z) : Z := if (65 <=? c) && (c <=? 90) then c + 32 else c.
Definition strcasecmp_eq (s : cstr) (t : string) : bool :=
  bool_decide (tolower <$> s = tolower <$> bytes_of_string t).
(** [strncpy(dst, s, n)] into a field of more than [n] bytes. *)
Definition strncpy (n : nat) (s : cstr) : cstr := take n s.

Definition DASH : Z := 45.
Definition CONFIG_DEFAULT_PDP : Z := 1.

(** ** State: the profile and [debug_qmi] *)
Record args := mkArgs { a_p : PROFILE_T; debug_qmi : Z }.
Definition upd (f : PROFILE_T -> PROFILE_T) (a : args) : args := a <| a_p := f (a_p a) |>.

(** [if (has_more_argv()) ... argv[opt++]]: the argument, if there is one that is not
    an option, and what follows it. *)
Definition next_arg (rest : list cstr) : option (cstr * list cstr) :=
  match rest with
  | a :: rest => if char_at a 0 =? DASH then None else Some (a, rest)
  | [] => None
  end.

Definition parse_auth (s : cstr) : option Z :=
  if strcmp_eq s "0" || strcasecmp_eq s "none" then Some 0
  else if strcmp_eq s "1" || strcasecmp_eq s "pap" then Some 1
  else if strcmp_eq s "2" || strcasecmp_eq s "chap" then Some 2
  else if strcmp_eq s "3" || strcasecmp_eq s "MsChapV2" then Some 3
  else None.

Definition is_proxy (s : cstr) : bool :=
  strcmp_eq s "quectel-qmi-proxy" || strcmp_eq s "quectel-mbim-proxy" || strcmp_eq s "qmi-proxy"
  || strcmp_eq s "mbim-proxy" || strcmp_eq s "quectel-atc-proxy".

(** Each option returns the arguments left, or [None] for [return usage(...)]. *)
Definition opt_state : Type := option (list cstr) * args.

Definition opt_s (rest : list cstr) (a : args) : opt_state :=
  let a := upd (fun p => p <| apn := Some [] |> <| user := Some [] |> <| password := Some [] |>) a in
  let '(rest, a) := match next_arg rest with
    | Some (x, rest) => (rest, upd (fun p => p <| apn := Some x |>) a)
    | None => (rest, a) end in
  let '(rest, a) := match next_arg rest with
    | Some (x, rest) => (rest, upd (fun p => p <| user := Some x |>) a)
    | None => (rest, a) end in
  let '(rest, a) := match next_arg rest with
    | Some (x, rest) =>
        let a := upd (fun p => p <| password := Some x |>) a in
        (rest, if char_at x 0 =? 0 then a else upd (fun p => p <| auth := 2 |>) a)
    | None => (rest, a) end in
  match next_arg rest with
  | Some (x, rest) =>
      match parse_auth x with
      | Some n => (Some rest, upd (fun p => p <| auth := n |>) a)
      | None => (None, a)
      end
  | None => (Some rest, a)
  end.

Definition opt_p (rest : list cstr) (a : args) : opt_state :=
  match next_arg rest with
  | Some (x, rest) =>
      if is_proxy x then (Some rest, upd (fun p => p <| proxy := strncpy 31 x |>) a)
      else if (999 <? atoi x) && (atoi x <? 10000) then (Some rest, upd (fun p => p <| pincode := Some x |>) a)
      else (None, a)
  | None => (Some rest, a)
  end.

(** The options that take one argument, if it is there. *)
Definition opt_arg (f : cstr -> PROFILE_T -> PROFILE_T) (rest : list cstr) (a : args) : opt_state :=
  match next_arg rest with
  | Some (x, rest) => (Some rest, upd (f x) a)
  | None => (Some rest, a)
  end.

Definition CHAR_0 : Z := 48.
(** The [switch] on the option letter. *)
Definition parse_opt (c : Z) (rest : list cstr) (a : args) : opt_state :=
  if c =? 115 (* s *) then opt_s rest a
  else if c =? 112 (* p *) then opt_p rest a
  else if c =? 109 (* m *) then opt_arg (fun x p => p <| muxid := char_at x 0 - CHAR_0 + 0x80 |>) rest a
  else if c =? 110 (* n *) then opt_arg (fun x p => p <| pdp := char_at x 0 - CHAR_0 |>) rest a
  else if c =? 102 (* f *) then opt_arg (fun x p => p <| logfile := Some x |>) rest a
  else if c =? 105 (* i *) then opt_arg (fun x p => p <| expect_adapter := strncpy 31 x |>) rest a
  else if c =? 118 (* v *) then (Some rest, a <| debug_qmi := 1 |>)
  else if c =? 108 (* l *) then
    opt_arg (fun x p => let p := p <| replication_factor := atoi x |> in
                        if 0 <? atoi x then p <| loopback_state := 1 |> else p) rest a
  else if c =? 52 (* 4 *) then (Some rest, upd (fun p => p <| enable_ipv4 := 1 |>) a)
  else if c =? 54 (* 6 *) then (Some rest, upd (fun p => p <| enable_ipv6 := 1 |>) a)
  else if c =? 117 (* u *) then opt_arg (fun x p => p <| usblogfile := Some x |>) rest a
  else if c =? 98 (* b *) then (Some rest, upd (fun p => p <| enable_bridge := 1 |>) a)
  else if c =? 107 (* k *) then opt_arg (fun x p => p <| kill_pdp := char_at x 0 - CHAR_0 |>) rest a
  else (None, a).

(** The [while] loop: the result of [parse_user_input] and the state it leaves. *)
Fixpoint parse_loop (fuel : nat) (rest : list cstr) (a : args) : res (Z * args) :=
  match fuel with
  | O => OutOfFuel
  | S fuel =>
      match rest with
      | [] => Ok (1, a)
      | x :: rest =>
          if char_at x 0 =? DASH then
            match parse_opt (char_at x 1) rest a with
            | (Some rest, a) => parse_loop fuel rest a
            | (None, a) => Ok (0, a)
            end
          else Ok (0, a)
      end
  end.

(** A trailing ampersand is dropped. *)
Definition drop_ampersand (argv : list cstr) : list cstr :=
  match last argv with
  | Some x => if strcmp_eq x "&" then take (length argv - 1) argv else argv
  | None => argv
  end.

Definition default_family (a : args) : args :=
  if negb (enable_ipv4 (a_p a) =? 1) && negb (enable_ipv6 (a_p a) =? 1)
  then upd (fun p => p <| enable_ipv4 := 1 |>) a else a.

(** [parse_user_input]; [argv] includes the program name. *)
Definition parse_user_input (argv : list cstr) (a : args) : res (Z * args) :=
  match argv with
  | [] => Fault
  | _ =>
      let a := upd (fun p => p <| pdp := CONFIG_DEFAULT_PDP |>) a in
      let argv := drop_ampersand argv in
      r ← parse_loop (S (length argv)) (drop 1 argv) a;
      mret (if r.1 =? 1 then (1, default_family r.2) else r)
  end.
