(* ===== verification/CmArgsSpec.v ===== *)
(** Properties of [parse_user_input]: it ends on every command line with a usable
    profile or the usage text, and reads back the options it documents. *)
From S2P Require Import Prelude CmTypes QmiRequests CmArgs.
#[local] Open Scope Z_scope.

(** What the rest of the program relies on: the text of a PIN begins, as [atoi] reads it, with
    a number of four digits, the first not 0; what follows the number is not looked at. *)
Definition pin_ok (p : PROFILE_T) : Prop :=
  match pincode p with Some x => 999 < atoi x < 10000 | None => True end.
Definition proxy_ok (p : PROFILE_T) : Prop := proxy p = [] \/ is_proxy (proxy p) = true.
Definition args_ok (a : args) : Prop :=
  0 <= auth (a_p a) <= 3 /\ pin_ok (a_p a) /\ proxy_ok (a_p a)
  /\ (loopback_state (a_p a) = 0 \/ 0 < loopback_state (a_p a)).

Lemma next_arg_len rest x r : next_arg rest = Some (x, r) -> (length r < length rest)%nat.
Proof.
  unfold next_arg. destruct rest as [|y rest]; [done|]. destruct (_ =? _); [done|]. intros [= _ <-]. cbn. lia.
Qed.
Lemma parse_auth_range x n : parse_auth x = Some n -> 0 <= n <= 3.
Proof. unfold parse_auth. repeat case_match; intros; simplify_eq; lia. Qed.

Lemma is_proxy_short x : is_proxy x = true -> strncpy 31 x = x.
Proof.
  unfold is_proxy, strcmp_eq. rewrite !orb_true_iff, !bool_decide_eq_true.
  intros [[[[->| ->]| ->]| ->]| ->]; reflexivity.
Qed.

(** An option consumes arguments and keeps the profile usable. *)
Definition opt_fine (rest : list cstr) (r : opt_state) : Prop :=
  args_ok r.2 /\ forall rest', r.1 = Some rest' -> (length rest' <= length rest)%nat.

Lemma opt_arg_fine f rest a :
  args_ok a -> (forall x a, args_ok a -> args_ok (upd (f x) a)) -> opt_fine rest (opt_arg f rest a).
Proof.
  intros Ha Hf. unfold opt_arg. destruct (next_arg rest) as [[x r]|] eqn:E;
    (split; [cbn [snd]; first [done|by apply Hf]|]).
  - apply next_arg_len in E. intros r' [= <-]. lia.
  - by intros r' [= <-].
Qed.
Lemma opt_p_fine rest a : args_ok a -> opt_fine rest (opt_p rest a).
Proof.
  intros (H1 & H2 & H3 & H4). unfold opt_p. destruct (next_arg rest) as [[x r]|] eqn:E; [|by split; [|intros r' [= <-]]].
  apply next_arg_len in E. destruct (is_proxy x) eqn:Ep.
  - split; [|intros r' [= <-]; lia]. split; [done|]. split; [done|]. split; [|done].
    right. change (is_proxy (strncpy 31 x) = true). by rewrite is_proxy_short.
  - destruct (_ && _) eqn:Ea; [|by split].
    apply andb_true_iff in Ea as [?%Z.ltb_lt ?%Z.ltb_lt].
    split; [|intros r' [= <-]; lia]. split; [done|]. split; [by split|]. by split.
Qed.

(** The four arguments of [-s], one at a time. *)
Lemma opt_s_fine rest a : args_ok a -> opt_fine rest (opt_s rest a).
Proof.
  intros Ha. unfold opt_s.
  set (a0 := upd _ a). assert (H0 : args_ok a0) by exact Ha. clearbody a0. clear a Ha.
  assert (Hstep : forall rest a (f : cstr -> args -> args), args_ok a ->
    (forall x a, args_ok a -> args_ok (f x a)) ->
    let r := match next_arg rest with Some (x, r) => (r, f x a) | None => (rest, a) end in
    args_ok r.2 /\ (length r.1 <= length rest)%nat).
  { intros rest' a f Ha Hf. destruct (next_arg rest') as [[x r]|] eqn:E; [|done].
    apply next_arg_len in E. split; [by apply Hf|cbn; lia]. }
  match goal with |- opt_fine _ (let '(_, _) := ?m in _) => set (r1 := m) end.
  assert (H1 : args_ok r1.2 /\ (length r1.1 <= length rest)%nat).
  { apply (Hstep rest a0 (fun x a => upd (fun p => p <| apn := Some x |>) a)); [done|]. intros x a Ha; exact Ha. }
  destruct r1 as [r1 a1]. cbn [fst snd] in H1. destruct H1 as [H1 L1].
  match goal with |- opt_fine _ (let '(_, _) := ?m in _) => set (r2 := m) end.
  assert (H2 : args_ok r2.2 /\ (length r2.1 <= length r1)%nat).
  { apply (Hstep r1 a1 (fun x a => upd (fun p => p <| user := Some x |>) a)); [done|]. intros x a Ha; exact Ha. }
  destruct r2 as [r2 a2]. cbn [fst snd] in H2. destruct H2 as [H2 L2].
  match goal with |- opt_fine _ (let '(_, _) := ?m in _) => set (r3 := m) end.
  assert (H3 : args_ok r3.2 /\ (length r3.1 <= length r2)%nat).
  { apply (Hstep r2 a2 (fun x a => let a := upd (fun p => p <| password := Some x |>) a in
      if char_at x 0 =? 0 then a else upd (fun p => p <| auth := 2 |>) a)); [done|].
    intros x a Ha. destruct (char_at x 0 =? 0); [exact Ha|]. destruct Ha as (_ & Ha). split; [change (0 <= 2 <= 3); lia|exact Ha]. }
  destruct r3 as [r3 a3]. cbn [fst snd] in H3. destruct H3 as [H3 L3].
  destruct (next_arg r3) as [[x r]|] eqn:E.
  - apply next_arg_len in E. destruct (parse_auth x) as [n|] eqn:En; [|by split].
    apply parse_auth_range in En. split; [|intros r' [= <-]; lia]. destruct H3 as (_ & H3). by split.
  - split; [done|]. intros r' [= <-]. lia.
Qed.

Lemma parse_opt_fine c rest a : args_ok a -> opt_fine rest (parse_opt c rest a).
Proof.
  intros Ha. unfold parse_opt.
  destruct (c =? 115); [by apply opt_s_fine|]. destruct (c =? 112); [by apply opt_p_fine|].
  destruct (c =? 109); [apply opt_arg_fine; [done|intros x b Hb; exact Hb]|].
  destruct (c =? 110); [apply opt_arg_fine; [done|intros x b Hb; exact Hb]|].
  destruct (c =? 102); [apply opt_arg_fine; [done|intros x b Hb; exact Hb]|].
  destruct (c =? 105); [apply opt_arg_fine; [done|intros x b Hb; exact Hb]|].
  destruct (c =? 118); [by split; [|intros r' [= <-]]|].
  destruct (c =? 108).
  { apply opt_arg_fine; [done|]. intros x b (H1 & H2 & H3 & H4). unfold upd. cbv zeta.
    destruct (0 <? atoi x); [|by split]. split; [done|]. split; [done|]. split; [done|]. right. change (0 < 1). lia. }
  destruct (c =? 52); [by split; [|intros r' [= <-]]|].
  destruct (c =? 54); [by split; [|intros r' [= <-]]|].
  destruct (c =? 117); [apply opt_arg_fine; [done|intros x b Hb; exact Hb]|].
  destruct (c =? 98); [by split; [|intros r' [= <-]]|].
  destruct (c =? 107); [apply opt_arg_fine; [done|intros x b Hb; exact Hb]|].
  by split.
Qed.

Lemma parse_loop_fine : forall fuel rest a,
  (length rest < fuel)%nat -> args_ok a ->
  exists r a', parse_loop fuel rest a = Ok (r, a') /\ (r = 0 \/ r = 1) /\ args_ok a'.
Proof.
  induction fuel as [|fuel IH]; intros rest a Hl Ha; [lia|]. cbn [parse_loop].
  destruct rest as [|x rest]; [exists 1, a; auto|]. destruct (_ =? DASH); [|exists 0, a; auto].
  destruct (parse_opt_fine (char_at x 1) rest a Ha) as [H1 H2].
  destruct (parse_opt (char_at x 1) rest a) as [[rest'|] a'].
  - specialize (H2 _ eq_refl). apply IH; [cbn in Hl; lia|done].
  - exists 0, a'. auto.
Qed.

(** C39. Every command line is parsed.  [parse_user_input] ends with 0 (usage was
    printed) or 1; on 1 at least one address family is enabled; and in both cases, if
    this held before (as of the profile [main] starts with, which is all zero), the
    authentication protocol is one of the four documented ones, the text taken for a PIN
    begins with a number from 1000 to 9999 as [atoi] reads it (so [1234abc] passes and
    [0123] does not), and the proxy is none or one of the five that exist. *)
Theorem parse_user_input_total argv a :
  argv <> [] -> args_ok a ->
  exists r a', parse_user_input argv a = Ok (r, a') /\ (r = 0 \/ r = 1) /\ args_ok a'
    /\ (r = 1 -> enable_ipv4 (a_p a') = 1 \/ enable_ipv6 (a_p a') = 1).
Proof.
  intros Hne Ha. unfold parse_user_input. destruct argv as [|x0 argv]; [done|]. clear Hne.
  set (a0 := upd _ a). set (av := drop_ampersand (x0 :: argv)).
  destruct (parse_loop_fine (S (length av)) (drop 1 av) a0) as (r & a' & E & Hr & Ha');
    [rewrite length_drop; lia|exact Ha|].
  rewrite E. unfold mbind, res_bind, mret, res_ret. cbn [fst snd]. destruct Hr as [->| ->].
  - exists 0, a'. split; [done|]. split; [auto|]. split; [done|]. intros; lia.
  - exists 1, (default_family a'). cbn [Z.eqb Pos.eqb]. split; [done|]. split; [auto|].
    unfold default_family. destruct (Z.eqb_spec (enable_ipv4 (a_p a')) 1), (Z.eqb_spec (enable_ipv6 (a_p a')) 1);
      cbn [negb andb]; (split; [exact Ha'|]); intros _; [by left..|by right|by left].
Qed.

(** ** The documented command line

    The options of [usage] with their arguments, how they are written, and what they
    mean.  [-s] takes up to three strings, and after three of them the protocol; a number
    is written with its first digit and the digits that follow it. *)
Inductive option_spec :=
  | Opt_s (given : list cstr) (protocol : option Z)
  | Opt_pin (pin : cstr)
  | Opt_proxy (name : cstr)
  | Opt_f (file : cstr) | Opt_u (file : cstr) | Opt_i (ifname : cstr)
  | Opt_n (pdn : Z) (more : cstr) | Opt_m (idx : Z) (more : cstr) | Opt_k (pdn : Z) (more : cstr)
  | Opt_4 | Opt_6 | Opt_b | Opt_v.

Definition dash (c : Z) : cstr := [DASH; c].
Definition digit (n : Z) : cstr := [CHAR_0 + n].
Definition render (o : option_spec) : list cstr :=
  match o with
  | Opt_s given protocol => dash 115 :: given ++ match protocol with Some n => [digit n] | None => [] end
  | Opt_pin x | Opt_proxy x => [dash 112; x]
  | Opt_f x => [dash 102; x] | Opt_u x => [dash 117; x] | Opt_i x => [dash 105; x]
  | Opt_n n more => [dash 110; digit n ++ more] | Opt_m n more => [dash 109; digit n ++ more]
  | Opt_k n more => [dash 107; digit n ++ more]
  | Opt_4 => [dash 52] | Opt_6 => [dash 54] | Opt_b => [dash 98] | Opt_v => [dash 118]
  end.
(** What [-s] is given; without a protocol, a password that is not empty means CHAP. *)
Definition the_arg (given : list cstr) (i : nat) : cstr := default [] (given !! i).
Definition protocol_of (given : list cstr) (protocol : option Z) (old : Z) : Z :=
  match protocol with Some n => n | None => if char_at (the_arg given 2) 0 =? 0 then old else 2 end.
Definition meaning (o : option_spec) (a : args) : args :=
  match o with
  | Opt_s given protocol =>
      upd (fun p => p <| apn := Some (the_arg given 0) |> <| user := Some (the_arg given 1) |>
                      <| password := Some (the_arg given 2) |> <| auth := protocol_of given protocol (auth p) |>) a
  | Opt_pin x => upd (fun p => p <| pincode := Some x |>) a
  | Opt_proxy x => upd (fun p => p <| proxy := x |>) a
  | Opt_f x => upd (fun p => p <| logfile := Some x |>) a
  | Opt_u x => upd (fun p => p <| usblogfile := Some x |>) a
  | Opt_i x => upd (fun p => p <| expect_adapter := x |>) a
  | Opt_n n _ => upd (fun p => p <| pdp := n |>) a
  | Opt_m n _ => upd (fun p => p <| muxid := 0x80 + n |>) a
  | Opt_k n _ => upd (fun p => p <| kill_pdp := n |>) a
  | Opt_4 => upd (fun p => p <| enable_ipv4 := 1 |>) a
  | Opt_6 => upd (fun p => p <| enable_ipv6 := 1 |>) a
  | Opt_b => upd (fun p => p <| enable_bridge := 1 |>) a
  | Opt_v => a <| debug_qmi := 1 |>
  end.

(** Arguments that do not look like an option or the shell's ampersand. *)
Definition plain (x : cstr) : Prop := char_at x 0 <> DASH /\ x <> bytes_of_string "&".
#[export] Instance plain_dec x : Decision (plain x).
Proof. unfold plain. apply _. Defined.
Definition well_used (o : option_spec) : Prop :=
  match o with
  | Opt_s given protocol => Forall plain given /\ (length given <= 3)%nat
      /\ match protocol with Some n => 0 <= n <= 3 /\ length given = 3%nat | None => True end
  | Opt_pin x => plain x /\ 999 < atoi x < 10000 /\ is_proxy x = false
  | Opt_proxy x => is_proxy x = true
  | Opt_f x | Opt_u x => plain x
  | Opt_i x => plain x /\ (length x <= 31)%nat
  | Opt_n n _ | Opt_m n _ | Opt_k n _ => 0 <= n <= 9
  | Opt_4 | Opt_6 | Opt_b | Opt_v => True
  end.

Lemma next_plain x rest : char_at x 0 <> DASH -> next_arg (x :: rest) = Some (x, rest).
Proof. intros H. unfold next_arg. by destruct (Z.eqb_spec (char_at x 0) DASH). Qed.
Lemma digit_not_dash n : 0 <= n <= 9 -> char_at (digit n) 0 <> DASH.
Proof. intros H. change (CHAR_0 + n <> DASH). unfold CHAR_0, DASH. lia. Qed.
Lemma parse_auth_digit n : 0 <= n <= 3 -> parse_auth (digit n) = Some n.
Proof.
  intros H. assert (n = 0 \/ n = 1 \/ n = 2 \/ n = 3) as [->|[->|[->| ->]]] by lia; reflexivity.
Qed.
Lemma proxy_plain x : is_proxy x = true -> plain x.
Proof.
  unfold is_proxy, strcmp_eq. rewrite !orb_true_iff, !bool_decide_eq_true.
  intros [[[[->| ->]| ->]| ->]| ->]; by apply (bool_decide_unpack _).
Qed.

(** No argument follows: an option does, or nothing. *)
Definition next_option (rest : list cstr) : Prop := match rest with [] => True | x :: _ => char_at x 0 = DASH end.
Lemma next_none rest : next_option rest -> next_arg rest = None.
Proof. unfold next_arg. destruct rest; [done|]. cbn. by intros ->. Qed.
Lemma opt_s_render given protocol rest a : well_used (Opt_s given protocol) -> next_option rest ->
  opt_s (given ++ match protocol with Some n => [digit n] | None => [] end ++ rest) a = (Some rest, meaning (Opt_s given protocol) a).
Proof.
  intros (Hg & Hl & Hp) Hn%next_none. destruct protocol as [n|].
  - destruct Hp as [Hp Hlen]. destruct given as [|x [|y [|z [|]]]]; try discriminate Hlen. repeat (apply Forall_cons in Hg as [[? _] Hg]).
    unfold opt_s. cbn [app]. rewrite (next_plain x), (next_plain y), (next_plain z) by done.
    rewrite next_plain by (apply digit_not_dash; lia). rewrite parse_auth_digit by done. by destruct (char_at z 0 =? 0).
  - cbn [app]. unfold opt_s. destruct given as [|x [|y [|z [|]]]]; cbn [length] in Hl; try lia;
      repeat (apply Forall_cons in Hg as [[? _] Hg]); cbn [app]; rewrite ?next_plain, ?Hn by done.
    + by destruct a as [[]].
    + by destruct a as [[]].
    + by destruct a as [[]].
    + cbn [meaning]. unfold protocol_of. change (the_arg [x; y; z] 2) with z. destruct (char_at z 0 =? 0); by destruct a as [[]].
Qed.
Lemma opt_arg_render f x rest a : char_at x 0 <> DASH -> opt_arg f (x :: rest) a = (Some rest, upd (f x) a).
Proof. intros H. unfold opt_arg. by rewrite next_plain. Qed.

(** The option letter selects the option. *)
Lemma parse_render_one o rest a fuel : well_used o -> next_option rest ->
  parse_loop (S fuel) (render o ++ rest) a = parse_loop fuel rest (meaning o a).
Proof.
  intros H Hr. destruct o; cbn [render app]; cbn [parse_loop];
    change (char_at (dash ?c) 0 =? DASH) with true; cbv iota; change (char_at (dash ?c) 1) with c;
    unfold parse_opt; cbn [Z.eqb Pos.eqb]; try reflexivity;
    try (rewrite opt_arg_render by (by apply digit_not_dash));
    try (change (char_at (digit ?n ++ more) 0) with (CHAR_0 + n)).
  - rewrite <- app_assoc. by rewrite opt_s_render.
  - destruct H as ([Hx _] & [Ha Hb] & Hp). unfold opt_p. rewrite next_plain, Hp by done.
    apply Z.ltb_lt in Ha, Hb. by rewrite Ha, Hb.
  - cbn [well_used] in H. unfold opt_p. rewrite next_plain by (by apply proxy_plain). by rewrite H, is_proxy_short.
  - destruct H as [H _]. by rewrite opt_arg_render.
  - destruct H as [H _]. by rewrite opt_arg_render.
  - destruct H as [[H _] Hl]. rewrite opt_arg_render by done. unfold strncpy. by rewrite take_ge.
  - cbn [meaning]. by replace (CHAR_0 + pdn - CHAR_0) with pdn by lia.
  - cbn [meaning]. by replace (CHAR_0 + idx - CHAR_0 + 128) with (0x80 + idx) by lia.
  - cbn [meaning]. by replace (CHAR_0 + pdn - CHAR_0) with pdn by lia.
Qed.

Lemma render_option o : exists c args, render o = dash c :: args.
Proof. destruct o; cbn; by eexists _, _. Qed.
Lemma next_render os tail : next_option tail -> next_option (concat (render <$> os) ++ tail).
Proof. intros Ht. destruct os as [|o os]; [done|]. cbn. by destruct (render_option o) as (c & args & ->). Qed.
Lemma parse_render os tail : next_option tail -> forall fuel a, Forall well_used os ->
  parse_loop (length os + fuel) (concat (render <$> os) ++ tail) a = parse_loop fuel tail (foldl (fun a o => meaning o a) a os).
Proof.
  intros Ht. induction os as [|o os IH]; intros fuel a Hw; [done|]. rewrite fmap_cons. cbn [concat length Nat.add].
  apply Forall_cons in Hw as [Ho Hw]. rewrite <- app_assoc, parse_render_one by (done || by apply next_render). by apply IH.
Qed.
Lemma render_length os : (length os <= length (concat (render <$> os)))%nat.
Proof.
  induction os as [|o os IH]; [done|]. rewrite fmap_cons. cbn [concat length]. rewrite length_app.
  destruct (render_option o) as (c & args & ->). cbn [length]. lia.
Qed.

Lemma render_plain o x : well_used o -> x ∈ render o -> strcmp_eq x "&" = false.
Proof.
  unfold strcmp_eq. intros Hw Hx. apply bool_decide_eq_false. intros ->.
  assert (Hd : forall n more, 0 <= n <= 9 -> bytes_of_string "&" <> digit n ++ more).
  { intros n more Hn [= E _]. unfold CHAR_0 in E. lia. }
  destruct o; cbn [render well_used] in *;
    [apply elem_of_cons in Hx as [Hx|Hx]; [discriminate Hx|]; apply elem_of_app in Hx as [Hx|Hx]|repeat (apply elem_of_cons in Hx as [Hx|Hx])..];
    try (by apply not_elem_of_nil in Hx); try discriminate Hx;
    try (by apply Hd in Hx; [|lia]); unfold plain in *; try (destruct_and?; congruence).
  - destruct Hw as [Hw _]. rewrite Forall_forall in Hw. by apply Hw in Hx as [_ Hx].
  - destruct Hw as (_ & _ & Hw). destruct protocol; [|by apply not_elem_of_nil in Hx]. apply list_elem_of_singleton in Hx.
    rewrite <- (app_nil_r (digit z)) in Hx. apply Hd in Hx; [done|lia].
  - apply proxy_plain in Hw as [_ Hw]. congruence.
Qed.
Lemma line_plain prog os x : plain prog -> Forall well_used os -> x ∈ prog :: concat (render <$> os) -> strcmp_eq x "&" = false.
Proof.
  intros [_ Hp] Hw [->|Hx]%elem_of_cons; [by apply bool_decide_eq_false|].
  apply list_elem_of_In, in_concat in Hx as (l & Hl & Hx).
  apply list_elem_of_In, list_elem_of_fmap in Hl as (o & -> & Ho). rewrite Forall_forall in Hw.
  apply (render_plain o); [by apply Hw|by apply list_elem_of_In].
Qed.
Lemma drop_ampersand_none argv :
  (forall x, x ∈ argv -> strcmp_eq x "&" = false) -> drop_ampersand argv = argv.
Proof.
  intros H. unfold drop_ampersand. destruct (last argv) as [x|] eqn:E; [|done].
  rewrite H; [done|]. by apply last_Some_elem_of.
Qed.

Lemma drop_ampersand_tail l tail : (forall x, x ∈ l -> strcmp_eq x "&" = false) -> exists tail', drop_ampersand (l ++ tail) = l ++ tail'.
Proof.
  intros H. destruct (decide (tail = [])) as [->|Hne]; [exists []; rewrite app_nil_r; by apply drop_ampersand_none|].
  unfold drop_ampersand. destruct (last (l ++ tail)) as [x|]; [|by eexists]. destruct (strcmp_eq x "&"); [|by eexists].
  exists (take (length tail - 1) tail). rewrite length_app, take_app.
  replace (length l + length tail - 1 - length l)%nat with (length tail - 1)%nat by lia.
  rewrite take_ge; [done|]. destruct tail; [done|cbn; lia].
Qed.

(** C24. The documented options are read back.  A command line written from a list of
    options as [usage] documents them, in any order and number, [-s] with any of its
    arguments, is accepted, and the profile is the one the options mean, applied from left
    to right to the default PDN; IPv4 is enabled when no family was asked for.  Arguments
    do not begin with a dash and are no ampersand, an interface has a name of at most 31
    bytes; of a PDN or an interface number of several digits the first is taken, so only
    numbers of one digit mean themselves; a PIN is one from 1000 to 9999.  After any such
    options, a [-p] with another PIN, one with a leading 0 or of more digits say, is refused. *)
Theorem parse_documented_options prog os a :
  plain prog -> Forall well_used os ->
  parse_user_input (prog :: concat (render <$> os)) a =
    Ok (1, default_family (foldl (fun a o => meaning o a) (upd (fun p => p <| pdp := 1 |>) a) os))
  /\ forall pin more, plain pin -> is_proxy pin = false -> ~ 999 < atoi pin < 10000 ->
     exists a', parse_user_input (prog :: concat (render <$> os) ++ dash 112 :: pin :: more) a = Ok (0, a').
Proof.
  intros Hp Hw. unfold parse_user_input. split.
  - rewrite drop_ampersand_none by (intros x; by apply line_plain). cbv zeta. change (drop 1 (prog :: ?l)) with l.
    rewrite <- (app_nil_r (concat (render <$> os))) at 2. pose proof (render_length os). cbn [length].
    replace (S (S (length (concat (render <$> os))))) with (length os + S (S (length (concat (render <$> os)) - length os)))%nat by lia.
    by rewrite parse_render.
  - intros pin more [Hpin Hpin2] Hx Ha.
    destruct (drop_ampersand_tail (prog :: concat (render <$> os) ++ [dash 112; pin]) more) as (tail & E).
    { intros x Hin. rewrite app_comm_cons in Hin. apply elem_of_app in Hin as [Hin|Hin]; [by eapply line_plain|].
      unfold strcmp_eq. apply bool_decide_eq_false. intros ->. repeat (apply elem_of_cons in Hin as [Hin|Hin]); [discriminate Hin|by symmetry in Hin|by apply not_elem_of_nil in Hin]. }
    rewrite <- app_comm_cons, <- app_assoc in E. cbn [app] in E. rewrite E. rewrite <- app_assoc. cbn [app]. cbv zeta.
    change (drop 1 (prog :: ?l)) with l. pose proof (render_length os). cbn [length]. rewrite length_app. cbn [length].
    match goal with |- context [parse_loop ?n] => replace n with (length os + S (n - length os - 1))%nat by lia end.
    rewrite parse_render by done. cbn [parse_loop]. change (char_at (dash 112) 0 =? DASH) with true. cbv iota.
    change (char_at (dash 112) 1) with 112. unfold parse_opt. cbn [Z.eqb Pos.eqb]. unfold opt_p. rewrite next_plain, Hx by done.
    destruct ((999 <? atoi pin) && (atoi pin <? 10000)) eqn:Eb; [exfalso; apply Ha; lia|]. by eexists.
Qed.

(** A valid PIN that starts with 0 is taken for an unknown argument of [-p]. *)
Lemma pin_with_leading_zero_refused d1 d2 d3 a :
  0 <= d1 <= 9 -> 0 <= d2 <= 9 -> 0 <= d3 <= 9 ->
  exists a', parse_user_input [bytes_of_string "cm"; dash 112; [48; 48 + d1; 48 + d2; 48 + d3]] a = Ok (0, a').
Proof.
  intros H1 H2 H3. set (pin := [48; 48 + d1; 48 + d2; 48 + d3]).
  assert (Ha : atoi pin = 100 * d1 + 10 * d2 + d3).
  { assert (Hd : forall d, 0 <= d <= 9 -> is_digit (48 + d) = true).
    { intros d Hd. unfold is_digit. apply andb_true_iff. split; apply Z.leb_le; lia. }
    assert (Hn : number_of pin = 100 * d1 + 10 * d2 + d3).
    { change (number_of pin) with (atoi_digits 0 [48 + d1; 48 + d2; 48 + d3]). cbn [atoi_digits]. rewrite !Hd by done. lia. }
    rewrite atoi_small; lia. }
  assert (Hp : is_proxy pin = false) by (unfold is_proxy, strcmp_eq; rewrite !bool_decide_false by discriminate; done).
  eexists. unfold parse_user_input. rewrite drop_ampersand_none.
  - cbv zeta. change (drop 1 (?p :: ?l)) with l. cbn [parse_loop length].
    change (char_at (dash 112) 0 =? DASH) with true. cbv iota. change (char_at (dash 112) 1) with 112.
    unfold parse_opt. cbn [Z.eqb Pos.eqb]. unfold opt_p. rewrite next_plain by done.
    rewrite Hp, Ha. destruct (Z.ltb_spec 999 (100 * d1 + 10 * d2 + d3)); [lia|]. reflexivity.
  - intros x Hx. unfold strcmp_eq. apply bool_decide_eq_false. intros ->.
    repeat (apply elem_of_cons in Hx as [Hx|Hx]); try discriminate Hx. by apply not_elem_of_nil in Hx.
Qed.

(** ** Witnesses *)
Definition args0 : args := mkArgs PROFILE_zero 0.
Definition demo_options : list option_spec :=
  [Opt_s [bytes_of_string "internet"; bytes_of_string "u"; bytes_of_string "p"] (Some 1); Opt_s [bytes_of_string "3gnet"] None;
   Opt_pin (bytes_of_string "1234"); Opt_proxy (bytes_of_string "quectel-qmi-proxy"); Opt_n 7 []; Opt_n 2 []; Opt_m 1 []; Opt_6].

Lemma parse_user_input_total_witness :
  exists r a', parse_user_input [bytes_of_string "cm"; dash 52] args0 = Ok (r, a')
    /\ (r = 1 -> enable_ipv4 (a_p a') = 1 \/ enable_ipv6 (a_p a') = 1).
Proof.
  destruct (parse_user_input_total [bytes_of_string "cm"; dash 52] args0) as (r & a' & H1 & _ & _ & H2);
    [discriminate| |by exists r, a'].
  split; [vm_compute; split; discriminate|]. split; [exact I|]. split; [by left|by left].
Defined.

Lemma parse_documented_options_witness :
  exists a', parse_user_input (bytes_of_string "cm" :: concat (render <$> demo_options)) args0 = Ok (1, a')
    /\ apn (a_p a') = Some (bytes_of_string "3gnet") /\ auth (a_p a') = 1 /\ pdp (a_p a') = 2 /\ muxid (a_p a') = 0x81
    /\ enable_ipv4 (a_p a') = 0 /\ enable_ipv6 (a_p a') = 1.
Proof.
  destruct (parse_documented_options (bytes_of_string "cm") demo_options args0) as [E _].
  - by apply (bool_decide_unpack _).
  - unfold demo_options. repeat (apply Forall_cons; split); try apply Forall_nil; try done; cbn [well_used];
      repeat split; try (by apply (bool_decide_unpack _)); try (vm_compute; (lia || discriminate || done)).
    all: repeat (apply Forall_cons; split); try apply Forall_nil; by apply (bool_decide_unpack _).
  - eexists. split; [exact E|]. vm_compute. repeat split.
Defined.
