(* ===== verification/Qmap.v ===== *)
(** The data path of the qmi_wwan_q driver: QMAP framing ([add_qhdr],
    [add_qhdr_v5]), uplink aggregation ([rmnet_usb_tx_agg] and its timer work) and
    the decoding of received aggregates ([qmap_packet_decode]).

    The socket buffers belong to the kernel: they are an interface, [SkbOps], with
    the documented behaviour of its functions in [SkbLaws]; [area] is an instance. *)
From S2P Require Import Prelude.
#[local] Open Scope Z_scope.

(** ** Socket buffers *)

(** [skb_data] are the [skb->len] bytes at [skb->data].  [skb_put] and [skb_push]
    end in [skb_over_panic] and [skb_under_panic] ([Fault]) without room.
    [skb_store] is a C store through [skb->data].  [alloc_skb] and
    [netdev_alloc_skb] are the buffers returned when there is memory. *)
Class SkbOps (S : Type) := {
  skb_data : S -> list Z;
  skb_tailroom : S -> nat;
  skb_headroom : S -> nat;
  skb_put : nat -> S -> res S;
  skb_push : nat -> S -> res S;
  skb_pull : nat -> S -> option S;
  skb_store : nat -> list Z -> S -> S;
  alloc_skb : nat -> S;
  netdev_alloc_skb : nat -> S }.

Class SkbLaws (S : Type) `{SkbOps S} : Prop := {
  put_ok n s : (n <= skb_tailroom s)%nat ->
    exists s' junk, skb_put n s = Ok s' /\ length junk = n /\ skb_data s' = skb_data s ++ junk
      /\ skb_tailroom s' = (skb_tailroom s - n)%nat /\ skb_headroom s' = skb_headroom s;
  put_panic n s : (skb_tailroom s < n)%nat -> skb_put n s = Fault;
  push_ok n s : (n <= skb_headroom s)%nat ->
    exists s' junk, skb_push n s = Ok s' /\ length junk = n /\ skb_data s' = junk ++ skb_data s
      /\ skb_headroom s' = (skb_headroom s - n)%nat /\ skb_tailroom s' = skb_tailroom s;
  push_panic n s : (skb_headroom s < n)%nat -> skb_push n s = Fault;
  pull_ok n s : (n <= length (skb_data s))%nat ->
    exists s', skb_pull n s = Some s' /\ skb_data s' = drop n (skb_data s)
      /\ skb_headroom s' = (skb_headroom s + n)%nat /\ skb_tailroom s' = skb_tailroom s;
  pull_none n s : (length (skb_data s) < n)%nat -> skb_pull n s = None;
  store_ok o bs s : (o + length bs <= length (skb_data s))%nat ->
    skb_data (skb_store o bs s) = take o (skb_data s) ++ bs ++ drop (o + length bs) (skb_data s)
    /\ skb_tailroom (skb_store o bs s) = skb_tailroom s
    /\ skb_headroom (skb_store o bs s) = skb_headroom s;
  alloc_ok n : skb_data (alloc_skb n) = [] /\ (n <= skb_tailroom (alloc_skb n))%nat;
  netdev_alloc_ok n : skb_data (netdev_alloc_skb n) = [] /\ (n <= skb_tailroom (netdev_alloc_skb n))%nat
    /\ (14 <= skb_headroom (netdev_alloc_skb n))%nat }.

(** ** Headers *)

Definition QUECTEL_QMAP_MUX_ID : Z := 0x81.
Definition QUECTEL_WWAN_QMAP : Z := 4.
Definition ETH_HLEN : nat := 14.
Definition ETH_P_IP : Z := 0x0800.
Definition ETH_P_IPV6 : Z := 0x86DD.
Definition RMNET_MAP_HEADER_TYPE_CSUM_OFFLOAD : Z := 2.
(** [sizeof(struct qmap_hdr)], [sizeof(struct rmnet_map_header)] and
    [sizeof(struct rmnet_map_v5_csum_header)] *)
Definition SIZEOF_QMAP_HDR : nat := 4.
Definition SIZEOF_CSUM_HDR : nat := 4.

(** Network byte order. *)
Definition be16 (v : Z) : list Z := [v / 256 mod 256; v mod 256].

(** [struct qmap_hdr] / [struct rmnet_map_header]: [pad_len] in bits 0 to 5,
    [next_hdr] in bit 6 and [cd_bit] in bit 7 of the first byte. *)
Definition map_header (cd next pad mux len : Z) : list Z :=
  [pad mod 64 + 64 * next + 128 * cd; u8 mux] ++ be16 len.
Definition qmap_hdr (pad mux len : Z) : list Z := [u8 pad; u8 mux] ++ be16 len.
(** [struct rmnet_map_v5_csum_header] with only [header_type] set. *)
Definition csum_header : list Z := [2 * RMNET_MAP_HEADER_TYPE_CSUM_OFFLOAD; 0; 0; 0].

Section Driver.
Context {S : Type} `{SkbOps S}.

Definition skb_len (s : S) : nat := length (skb_data s).

(** ** Framing *)

(** The padding to a multiple of four; none when the buffer has no room for it. *)
Definition padding (s : S) : nat :=
  let r := (skb_len s mod 4)%nat in
  let pad := if (r =? 0)%nat then 0%nat else (4 - r)%nat in
  if (skb_tailroom s <? pad)%nat then 0%nat else pad.

Definition add_qhdr (s : S) (mux_id : Z) : res S :=
  let pad := padding s in
  s1 ← (if (pad =? 0)%nat then Ok s else skb_put pad s);
  s2 ← skb_push SIZEOF_QMAP_HDR s1;
  mret (skb_store 0 (qmap_hdr (Z.of_nat pad) mux_id (Z.of_nat (skb_len s2 - SIZEOF_QMAP_HDR))) s2).

Definition add_qhdr_v5 (s : S) (mux_id : Z) : res S :=
  let map_datalen := skb_len s in
  let pad := padding s in
  s1 ← (if (pad =? 0)%nat then Ok s else skb_put pad s);
  s2 ← skb_push (SIZEOF_QMAP_HDR + SIZEOF_CSUM_HDR) s1;
  let s3 := skb_store 0 (map_header 0 1 (Z.of_nat pad) mux_id (Z.of_nat (map_datalen + pad))) s2 in
  mret (skb_store SIZEOF_QMAP_HDR csum_header s3).

(** ** Bridge mode

    A host behind a bridge sends Ethernet frames; the address it uses is taken from its
    DHCP request, and ARP for the network of the modem is answered here. *)

(** The bridge fields of [struct qmap_priv] and of [sQmiWwanQmap]. *)
Record bridge := mkBridge { bridge_mode : Z; bridge_ipv4 : Z; bridge_mac : list Z }.

(** The arguments of [arp_create] for a reply; the buffer it builds goes to the host. *)
Record arp_reply := mkArp {
  dest_ip : list Z; src_ip : list Z; dest_hw : list Z; src_hw : list Z; target_hw : list Z }.

Definition default_modem_addr : list Z := [0x02; 0x50; 0xf3; 0; 0; 0].
Definition ETH_ALEN : nat := 6.
Definition ETH_P_ARP : Z := 0x0806.
Definition ARPHRD_ETHER : Z := 1.
Definition ARPOP_REQUEST : Z := 1.
Definition IPPROTO_UDP : Z := 17.
(** A field in network byte order compared with [htons] of a constant. *)
Definition rdb16 (b : list Z) (o : nat) : res Z :=
  hi ← rd8 b o; lo ← rd8 b (o + 1); mret (256 * hi + lo).
(** [&&] of C: the right side is evaluated when the left side holds. *)
Definition andr (x y : res bool) : res bool := c ← x; if c : bool then y else mret false.

Definition eq_nth (a b : list Z) (i : nat) : bool := bool_decide (a !! i = b !! i).
Definition ipv4_bytes (ip : Z) : list Z :=
  [Z.land (Z.shiftr ip 24) 0xFF; Z.land (Z.shiftr ip 16) 0xFF; Z.land (Z.shiftr ip 8) 0xFF; Z.land ip 0xFF].
(** The addresses [bridge_arp_reply] answers for. *)
Definition arp_target (tip ipv4 : list Z) : bool :=
  eq_nth tip ipv4 0 && eq_nth tip ipv4 1
  && bool_decide ((fun x => Z.land x 0xFC) <$> tip !! 2%nat = (fun x => Z.land x 0xFC) <$> ipv4 !! 2%nat)
  && negb (eq_nth tip ipv4 3).

(** [b] is the frame and [nh] the offset of the network header. *)
Definition bridge_arp_reply (b : list Z) (nh : nat) (ip : Z) : res (option arp_reply * Z) :=
  let ipv4 := ipv4_bytes ip in
  request ← andr (v ← rdb16 b nh; mret (v =? ARPHRD_ETHER))
           (andr (v ← rdb16 b (nh + 2); mret (v =? ETH_P_IP))
           (andr (v ← rdb16 b (nh + 6); mret (v =? ARPOP_REQUEST))
           (andr (v ← rd8 b (nh + 4); mret (v =? 6)) (v ← rd8 b (nh + 5); mret (v =? 4)))));
  if request : bool then
    sha ← rdn b (nh + 8) ETH_ALEN;
    sip ← rdn b (nh + 8 + ETH_ALEN) 4;
    tip ← rdn b (nh + 8 + ETH_ALEN + 4 + ETH_ALEN) 4;
    mret (if arp_target tip ipv4 then Some (mkArp sip tip sha default_modem_addr sha) else None, 1)
  else mret (None, 0).

(** [None]: the frame is not to be sent. *)
Definition bridge_mode_tx_fixup (s : S) (nh : nat) (br : bridge) : res (option S * bridge * option arp_reply) :=
  let b := skb_data s in
  h_proto ← rdb16 b 12;
  if h_proto =? ETH_P_ARP then
    if truth (bridge_ipv4 br)
    then r ← bridge_arp_reply b nh (bridge_ipv4 br); mret (None, br, r.1)
    else mret (None, br, None)
  else
    h_source ← rdn b 6 ETH_ALEN;
    dhcp ← andr (mret (h_proto =? ETH_P_IP))
          (andr (v ← rd8 b (nh + 9); mret (v =? IPPROTO_UDP))
          (andr (a ← rdn b (nh + 12) 4; mret (bool_decide (a = [0; 0; 0; 0])))
                (a ← rdn b (nh + 16) 4; mret (bool_decide (a = [0xFF; 0xFF; 0xFF; 0xFF])))));
    let br := if (dhcp : bool) then br <| bridge_mac := h_source |> else br in
    mret (if bool_decide (h_source = bridge_mac br) then Some s else None, br, None).

(** ** Uplink aggregation *)

Record tx_agg_ctx := mkCtx {
  ul_data_aggregation_max_datagrams : Z; ul_data_aggregation_max_size : Z; dl_minimum_padding : Z }.

(** [struct qmap_priv] with the statistics, what was handed to [dev_queue_xmit] and
    the ARP replies, in order. *)
Record qmap_priv := mkPriv {
  mux_id : Z; qmap_version : Z; ether : bool; p_bridge : bridge;
  agg_skb : option S; agg_count : Z; agg_time : Z;
  tx_errors : Z; timer_armed : bool; xmit : list S; arp_replies : list arp_reply }.

(** What the environment decides during one call: [netdev_xmit_more()], the clock in
    nanoseconds, whether memory is available, whether [dev_queue_xmit] succeeds,
    [skb->protocol] and the offset of the network header. *)
Record tx_env := mkEnv {
  xmit_more : bool; now_ns : nat -> Z; mem_ok : nat -> bool; xmit_ok : bool; protocol : Z;
  network_offset : nat }.

Definition agg_time_limit : Z := 1000000.
Definition agg_bypass_time : Z := 10000000.
(** [diff.tv_sec > 0 || diff.tv_nsec > limit] *)
Definition elapsed (now last limit : Z) : bool :=
  let d := now - last in (0 <? d / 1000000000) || (limit <? d mod 1000000000).

Definition IPPROTO_ICMP : Z := 1.
Definition IPPROTO_TCP : Z := 6.
Definition NEXTHDR_FRAGMENT : Z := 44.
Definition NEXTHDR_ICMP : Z := 58.
(** [th->psh] of the TCP header at [o]. *)
Definition tcp_psh (b : list Z) (o : nat) : res bool :=
  f ← rd8 b (o + 13); mret (truth (Z.land f 8)).
Definition rmnet_usb_tx_agg_skip (proto : Z) (b : list Z) (offset : nat) : res bool :=
  if proto =? ETH_P_IP then
    p ← rd8 b (offset + 9);
    if p =? IPPROTO_TCP then tcp_psh b (offset + 20)
    else mret (p =? IPPROTO_ICMP)
  else if proto =? ETH_P_IPV6 then
    n ← rd8 b (offset + 6);
    if n =? IPPROTO_TCP then tcp_psh b (offset + 40)
    else if n =? NEXTHDR_ICMP then mret true
    else if n =? NEXTHDR_FRAGMENT then f ← rd8 b (offset + 40); mret (f =? NEXTHDR_ICMP)
    else mret false
  else mret false.

(** The test at both places: the offset of the packet comes from its own header. *)
Definition skip_agg (e : tx_env) (s : S) : res bool :=
  if xmit_more e then mret false
  else
    h ← rd8 (skb_data s) 0;
    rmnet_usb_tx_agg_skip (protocol e) (skb_data s)
      (if truth (Z.land h 64) then SIZEOF_QMAP_HDR + SIZEOF_CSUM_HDR else SIZEOF_QMAP_HDR).

Definition queue_xmit (e : tx_env) (s : S) (p : qmap_priv) : qmap_priv :=
  p <| xmit := xmit p ++ [s] |> <| tx_errors := if xmit_ok e then tx_errors p else tx_errors p + 1 |>.

(** [memcpy(skb_put(agg, skb->len), skb->data, skb->len)] *)
Definition append_skb (agg s : S) : res S :=
  a ← skb_put (skb_len s) agg; mret (skb_store (skb_len agg) (skb_data s) a).

(** One pass from [new_packet]; returns the buffer that is still to be handled. *)
Definition agg_pass (ctx : tx_agg_ctx) (e : tx_env) (i : nat) (s : S) (p : qmap_priv)
    : res (option S * qmap_priv) :=
  let now := now_ns e i in
  r ← (match agg_skb p with
       | Some agg =>
           if Z.of_nat (skb_len agg + skb_len s) <? ul_data_aggregation_max_size ctx then
             agg' ← append_skb agg s;
             let p := p <| agg_skb := Some agg' |> <| agg_count := u32 (agg_count p + 1) |> in
             ready ← (if elapsed now (agg_time p) agg_time_limit then mret true
                      else if agg_count p =? ul_data_aggregation_max_datagrams ctx then mret true
                      else skip_agg e s);
             mret (if (ready : bool)
                   then (true, Some agg', None, p <| agg_skb := None |> <| agg_count := 0 |>)
                   else (false, None, None, p))
           else mret (true, Some agg, Some s, p <| agg_skb := None |> <| agg_count := 0 |>)
       | None =>
           ready ← (if elapsed now (agg_time p) agg_bypass_time then mret true else skip_agg e s);
           if (ready : bool) then mret (true, Some s, None, p)
           else if mem_ok e i then
             agg' ← append_skb (alloc_skb (Z.to_nat (ul_data_aggregation_max_size ctx))) s;
             mret (false, None, None, p <| agg_skb := Some agg' |> <| agg_count := u32 (agg_count p + 1) |>)
           else mret (true, Some s, None, p)
       end);
  let '(ready, send, rest, p) := r in
  let p := if (ready : bool) then p <| agg_time := now |> else p in
  mret (rest, match send with Some a => queue_xmit e a p | None => p end).

(** The jumps back to [new_packet]. *)
Fixpoint agg_loop (fuel i : nat) (ctx : tx_agg_ctx) (e : tx_env) (s : S) (p : qmap_priv) : res qmap_priv :=
  match fuel with
  | O => OutOfFuel
  | Datatypes.S fuel =>
      r ← agg_pass ctx e i s p;
      match r.1 with
      | Some s' => agg_loop fuel (Datatypes.S i) ctx e s' r.2
      | None => mret (match agg_skb r.2 with Some _ => r.2 <| timer_armed := true |> | None => r.2 end)
      end
  end.

Definition rmnet_usb_tx_agg (ctx : tx_agg_ctx) (e : tx_env) (s : S) (p : qmap_priv) : res qmap_priv :=
  if ul_data_aggregation_max_datagrams ctx =? 1 then mret (queue_xmit e s p)
  else agg_loop 2 0 ctx e s p.

(** The work queued by the timer. *)
Definition rmnet_usb_tx_agg_work (e : tx_env) (p : qmap_priv) : qmap_priv :=
  let p := p <| timer_armed := false |> in
  match agg_skb p with
  | Some agg => queue_xmit e agg (p <| agg_skb := None |> <| agg_count := 0 |> <| agg_time := now_ns e 0 |>)
  | None => p
  end.

Inductive netdev_tx := NETDEV_TX_OK | NETDEV_TX_BUSY.
Definition rmnet_vnd_start_xmit (real_stopped : bool) (ctx : tx_agg_ctx) (e : tx_env) (s : S) (p : qmap_priv)
    : res (netdev_tx * qmap_priv) :=
  if real_stopped then mret (NETDEV_TX_BUSY, p)
  else
    r ← (if ether p then
           kept ← (if truth (bridge_mode (p_bridge p)) then
                     f ← bridge_mode_tx_fixup s (network_offset e) (p_bridge p);
                     mret (f.1.1, p <| p_bridge := f.1.2 |>
                                    <| arp_replies := arp_replies p ++ option_list f.2 |>)
                   else mret (Some s, p));
           mret (s ← kept.1; skb_pull ETH_HLEN s, kept.2)
         else mret (Some s, p));
    let p := r.2 in
    match r.1 with
    | None => mret (NETDEV_TX_OK, p)
    | Some s =>
        if qmap_version p =? 5 then
          s' ← add_qhdr s (mux_id p); p' ← rmnet_usb_tx_agg ctx e s' p; mret (NETDEV_TX_OK, p')
        else if qmap_version p =? 9 then
          s' ← add_qhdr_v5 s (mux_id p); p' ← rmnet_usb_tx_agg ctx e s' p; mret (NETDEV_TX_OK, p')
        else mret (NETDEV_TX_OK, p)
    end.

Definition EOPNOTSUPP : Z := 95.
(** [qma_setting_store]: the settings the connection manager negotiated; they are
    taken once. *)
Definition qma_setting_store (ok_size : bool) (datagrams size pad : Z) (ctx : tx_agg_ctx) : Z * tx_agg_ctx :=
  if ok_size then
    (0, if (ul_data_aggregation_max_datagrams ctx =? 1) && (1 <? datagrams)
        then mkCtx datagrams size pad else ctx)
  else (- EOPNOTSUPP, ctx).

(** ** Downlink *)

(** [net_bridge]: the bridge fields of the [qmap_priv] of a multiplexed device. *)
Record net_device := mkNet { mtu : Z; is_ether : bool; dev_addr : list Z; net_bridge : bridge }.
Record sQmiWwanQmap := mkQmap {
  mpQmapNetDev : list (option net_device); qmap_mode : Z; q_version : Z; tx_ctx : tx_agg_ctx;
  use_rmnet_usb : bool; q_bridge : bridge }.

(** A decoded packet: the device it is for, [skb->protocol] and the buffer. *)
Definition packet : Type := Z * Z * S.

(** The destination of what arrives: the host behind the bridge, or this one. *)
Definition rx_bridge (q : sQmiWwanQmap) (net : net_device) : bridge :=
  if (1 <? qmap_mode q) || use_rmnet_usb q then net_bridge net else q_bridge q.
Definition bridge_mode_rx_fixup (q : sQmiWwanQmap) (net : net_device) (s : S) : S :=
  skb_store 0 (if truth (bridge_mode (rx_bridge q net)) then bridge_mac (rx_bridge q net) else dev_addr net) s.

(** The copy handed to the network stack. *)
Definition make_packet (q : sQmiWwanQmap) (net : net_device) (len : nat) (src : list Z) (proto : Z) : res S :=
  s ← skb_put len (netdev_alloc_skb len);
  let s := skb_store 0 src s in
  if is_ether net then
    s ← skb_push ETH_HLEN s;
    mret (bridge_mode_rx_fixup q net (skb_store 0 (dev_addr net ++ default_modem_addr ++ be16 proto) s))
  else mret s.

(** What one aggregate header leads to. *)
Inductive decoded := Stop | Skip | Packet (p : packet).

(** The body of the loop up to [skip_pkt]; also the bytes to skip.  [len] is [skb_len]
    as the unsigned number it is compared and used as: the padding is subtracted
    modulo 2^32, so that what is below zero is above every MTU. *)
Definition decode_one (q : sQmiWwanQmap) (mem : bool) (b : list Z) : res (decoded * nat) :=
  h ← rd8 b 0; m ← rd8 b 1; hi ← rd8 b 2; lo ← rd8 b 3;
  let pkt_len := 256 * hi + lo in
  let hdr_size := if truth (Z.land h 64) then (SIZEOF_QMAP_HDR + SIZEOF_CSUM_HDR)%nat else SIZEOF_QMAP_HDR in
  let len := u32 (pkt_len - Z.land h 63 - (if q_version q =? 9 then dl_minimum_padding (tx_ctx q) else 0)) in
  let mux := m - QUECTEL_QMAP_MUX_ID in
  let skip := (Z.to_nat pkt_len + hdr_size)%nat in
  if qmap_mode q <=? u32 mux then mret (Stop, skip)
  else
    match mpQmapNetDev q !! Z.to_nat mux with
    | None => Fault
    | Some None => mret (Skip, skip)
    | Some (Some net) =>
        if mtu net <? len then mret (Stop, skip)
        else if (length b <? skip)%nat then mret (Stop, skip)
        else if truth (Z.land h 128) then mret (Skip, skip)
        else
          v ← rd8 b hdr_size;
          let proto := if Z.land v 240 =? 0x40 then Some ETH_P_IP
                       else if Z.land v 240 =? 0x60 then Some ETH_P_IPV6 else None in
          match proto with
          | None => mret (Stop, skip)
          | Some proto =>
              if mem then
                src ← rdn b hdr_size (Z.to_nat len);
                pk ← make_packet q net (Z.to_nat len) src proto;
                mret (Packet (mux, proto, pk), skip)
              else mret (Stop, skip)
          end
    end.

(** [qmap_packet_decode]; [mem i] says whether the [i]-th allocation succeeds.  When
    [skb_pull] fails it leaves the buffer as it is. *)
Fixpoint qmap_packet_decode (fuel i : nat) (mem : nat -> bool) (q : sQmiWwanQmap) (skb_in : S)
    (skb_chain : list packet) : res (list packet) :=
  match fuel with
  | O => OutOfFuel
  | Datatypes.S fuel =>
      if (skb_len skb_in <=? SIZEOF_QMAP_HDR)%nat then mret skb_chain
      else
        r ← decode_one q (mem i) (skb_data skb_in);
        match r.1 with
        | Stop => mret skb_chain
        | Skip => qmap_packet_decode fuel i mem q (default skb_in (skb_pull r.2 skb_in)) skb_chain
        | Packet pk => qmap_packet_decode fuel (Datatypes.S i) mem q (default skb_in (skb_pull r.2 skb_in))
                         (skb_chain ++ [pk])
        end
  end.
End Driver.

(** ** A buffer with its surroundings: the instance the examples run on *)
Record area := mkArea { a_head : list Z; a_data : list Z; a_tail : list Z }.
#[export] Instance area_skb : SkbOps area := {|
  skb_data := a_data;
  skb_tailroom a := length (a_tail a);
  skb_headroom a := length (a_head a);
  skb_put n a := if (n <=? length (a_tail a))%nat
    then Ok (mkArea (a_head a) (a_data a ++ take n (a_tail a)) (drop n (a_tail a))) else Fault;
  skb_push n a := if (n <=? length (a_head a))%nat
    then Ok (mkArea (take (length (a_head a) - n) (a_head a))
                    (drop (length (a_head a) - n) (a_head a) ++ a_data a) (a_tail a)) else Fault;
  skb_pull n a := if (n <=? length (a_data a))%nat
    then Some (mkArea (a_head a ++ take n (a_data a)) (drop n (a_data a)) (a_tail a)) else None;
  skb_store o bs a := mkArea (a_head a) (take o (a_data a) ++ bs ++ drop (o + length bs) (a_data a)) (a_tail a);
  alloc_skb n := mkArea [] [] (replicate n 0xA5);
  netdev_alloc_skb n := mkArea (replicate 32 0xA5) [] (replicate n 0xA5) |}.

#[export] Instance area_laws : SkbLaws area.
Proof.
  split; unfold skb_put, skb_push, skb_pull, skb_store, skb_data, skb_tailroom, skb_headroom, alloc_skb,
    netdev_alloc_skb, area_skb.
  - intros n [h d t] Hn; cbn in *. rewrite (proj2 (Nat.leb_le _ _) Hn). exists (mkArea h (d ++ take n t) (drop n t)), (take n t).
    cbn. rewrite length_take, length_drop. repeat split; lia.
  - intros n [h d t] Hn; cbn in *. by rewrite (proj2 (Nat.leb_gt _ _) Hn).
  - intros n [h d t] Hn; cbn in *. rewrite (proj2 (Nat.leb_le _ _) Hn).
    exists (mkArea (take (length h - n) h) (drop (length h - n) h ++ d) t), (drop (length h - n) h).
    cbn. rewrite length_take, length_drop. repeat split; lia.
  - intros n [h d t] Hn; cbn in *. by rewrite (proj2 (Nat.leb_gt _ _) Hn).
  - intros n [h d t] Hn; cbn in *. rewrite (proj2 (Nat.leb_le _ _) Hn). exists (mkArea (h ++ take n d) (drop n d) t).
    cbn. rewrite length_app, length_take. repeat split; lia.
  - intros n [h d t] Hn; cbn in *. by rewrite (proj2 (Nat.leb_gt _ _) Hn).
  - by intros o bs [h d t] Hn.
  - intros n. cbn. by rewrite length_replicate.
  - intros n. cbn. rewrite length_replicate. repeat split; lia.
Qed.
