(* ===== verification/QmapSpec.v ===== *)
(** Properties of the QMAP data path: encoding and decoding agree, aggregation loses
    nothing and keeps the order and the negotiated limits, and decoding ends as long
    as every multiplexed device exists. *)
From S2P Require Import Prelude Qmap.
#[local] Open Scope Z_scope.

Section Spec.
Context {S : Type} `{HL : SkbLaws S}.

(** ** Framing *)
Lemma padding_small s : (padding s < 4)%nat.
Proof. unfold padding. destruct (_ =? 0)%nat eqn:E; destruct (_ <? _)%nat; try apply Nat.eqb_neq in E; lia. Qed.
Lemma padding_room s : (padding s <= skb_tailroom s)%nat.
Proof.
  unfold padding. destruct (Nat.ltb_spec (skb_tailroom s) (if (skb_len s mod 4 =? 0)%nat then 0 else 4 - skb_len s mod 4)); lia.
Qed.

(** Padding and pushing [n] header bytes. *)
Lemma pad_push n s :
  (n <= skb_headroom s)%nat ->
  exists s1 s2 hd tl, (if (padding s =? 0)%nat then Ok s else skb_put (padding s) s) = Ok s1
    /\ skb_push n s1 = Ok s2 /\ length hd = n /\ length tl = padding s
    /\ skb_data s2 = hd ++ skb_data s ++ tl.
Proof.
  intros Hn. destruct (Nat.eqb_spec (padding s) 0) as [E|E].
  - destruct (push_ok n s Hn) as (s2 & hd & H1 & H2 & H3 & _). exists s, s2, hd, [].
    rewrite app_nil_r, E. auto.
  - destruct (put_ok (padding s) s (padding_room s)) as (s1 & tl & H1 & H2 & H3 & _ & H5).
    destruct (push_ok n s1) as (s2 & hd & K1 & K2 & K3 & _); [lia|].
    exists s1, s2, hd, tl. rewrite K3, H3. auto.
Qed.
Lemma store_at o bs s pre old post :
  skb_data s = pre ++ old ++ post -> length pre = o -> length old = length bs ->
  skb_data (skb_store o bs s) = pre ++ bs ++ post.
Proof.
  intros E Ho Hl. destruct (store_ok o bs s) as (H1 & _).
  - rewrite E, !length_app. lia.
  - rewrite H1, E, <- Ho, take_app_length, <- Hl, drop_app_add, drop_app_length. done.
Qed.

(** The header of protocol version [v] (5 or 9). *)
Definition frame_hdr (v pad mux len : Z) : list Z :=
  if v =? 5 then qmap_hdr pad mux len else map_header 0 1 pad mux len ++ csum_header.
Definition encode (v : Z) (s : S) (mux : Z) : res S :=
  if v =? 5 then add_qhdr s mux else add_qhdr_v5 s mux.

Lemma encode_ok v s mux :
  (8 <= skb_headroom s)%nat ->
  exists f tl, encode v s mux = Ok f /\ length tl = padding s
    /\ skb_data f = frame_hdr v (Z.of_nat (padding s)) mux (Z.of_nat (skb_len s + padding s)) ++ skb_data s ++ tl.
Proof.
  intros Hh. unfold encode, frame_hdr. destruct (v =? 5).
  - destruct (pad_push 4 s) as (s1 & s2 & hd & tl & H1 & H2 & H3 & H4 & H5); [lia|].
    unfold add_qhdr. rewrite H1. unfold mbind, res_bind. unfold SIZEOF_QMAP_HDR. rewrite H2.
    unfold mret, res_ret. eexists _, tl. split; [done|]. split; [done|].
    rewrite (store_at 0 _ s2 [] hd (skb_data s ++ tl)); [|done|done|by rewrite H3].
    cbn [app]. do 2 f_equal. unfold skb_len. rewrite H5, !length_app. lia.
  - destruct (pad_push 8 s) as (s1 & s2 & hd & tl & H1 & H2 & H3 & H4 & H5); [lia|].
    unfold add_qhdr_v5. rewrite H1. unfold mbind, res_bind. unfold SIZEOF_QMAP_HDR, SIZEOF_CSUM_HDR.
    change (4 + 4)%nat with 8%nat. rewrite H2. unfold mret, res_ret. eexists _, tl. split; [done|]. split; [done|].
    rewrite <- (take_drop 4 hd), <- !app_assoc in H5.
    assert (length (take 4 hd) = 4%nat) by (rewrite length_take; lia).
    assert (length (drop 4 hd) = 4%nat) by (rewrite length_drop; lia).
    match goal with |- skb_data (skb_store 4 _ (skb_store 0 ?h s2)) = _ =>
      assert (E : skb_data (skb_store 0 h s2) = h ++ drop 4 hd ++ skb_data s ++ tl)
        by (apply (store_at 0 _ s2 [] (take 4 hd)); [done|done|done]);
      rewrite (store_at 4 csum_header _ h (drop 4 hd) (skb_data s ++ tl)); [|done|done|done] end.
    by rewrite <- app_assoc.
Qed.

(** ** Decoding *)
Lemma be16_value n : 0 <= n < 65536 -> 256 * (n / 256 mod 256) + n mod 256 = n.
Proof. intros Hn. rewrite (Z.mod_small (n / 256)) by (split; [apply Z.div_pos; lia|apply Z.div_lt_upper_bound; lia]). rewrite <- Z.div_mod; lia. Qed.

(** Where a packet for [net] goes: to the host behind the bridge, or to this one. *)
Definition rx_dest (q : sQmiWwanQmap) (net : net_device) : list Z :=
  if truth (bridge_mode (rx_bridge q net)) then bridge_mac (rx_bridge q net) else dev_addr net.
Definition eth_header (q : sQmiWwanQmap) (net : net_device) (proto : Z) : list Z :=
  if is_ether net then rx_dest q net ++ default_modem_addr ++ be16 proto else [].
(** Addresses of six bytes. *)
Definition addrs_ok (q : sQmiWwanQmap) (net : net_device) : Prop :=
  length (dev_addr net) = ETH_ALEN /\ length (bridge_mac (rx_bridge q net)) = ETH_ALEN.

Lemma length_rx_dest q net : addrs_ok q net -> length (rx_dest q net) = ETH_ALEN.
Proof. intros [H1 H2]. unfold rx_dest. by destruct (truth _). Qed.

Lemma make_packet_ok q net src proto :
  addrs_ok q net ->
  exists pk, make_packet q net (length src) src proto = Ok pk
    /\ skb_data pk = eth_header q net proto ++ src.
Proof.
  intros Ha. pose proof (length_rx_dest q net Ha) as Hr0. destruct Ha as [Hd _].
  unfold make_packet, eth_header.
  destruct (netdev_alloc_ok (length src)) as (A1 & A2 & A3).
  destruct (put_ok (length src) _ A2) as (s1 & junk & H1 & H2 & H3 & _ & H5).
  rewrite H1. unfold mbind, res_bind. rewrite A1 in H3. cbn [app] in H3.
  assert (E : skb_data (skb_store 0 src s1) = src).
  { rewrite (store_at 0 src s1 [] junk []); [by rewrite app_nil_r|by rewrite app_nil_r|done|done]. }
  assert (Hr : (14 <= skb_headroom (skb_store 0 src s1))%nat).
  { destruct (store_ok 0 src s1) as (_ & _ & ->); [rewrite H3; lia|]. rewrite H5. exact A3. }
  destruct (is_ether net); [|by eexists].
  destruct (push_ok ETH_HLEN _ Hr) as (s2 & hd & K1 & K2 & K3 & _). rewrite K1.
  eexists. split; [done|]. unfold bridge_mode_rx_fixup.
  rewrite (store_at 0 (rx_dest q net) _ [] (dev_addr net) ((default_modem_addr ++ be16 proto) ++ src));
    [by rewrite <- !app_assoc| |done|by rewrite Hd, Hr0].
  rewrite (store_at 0 _ s2 [] hd (skb_data (skb_store 0 src s1)));
    [by rewrite E, <- !app_assoc|done|done|by rewrite K2, !length_app, Hd].
Qed.

Definition proto_of (src : list Z) : option Z :=
  match src with
  | v :: _ => if Z.land v 240 =? 0x40 then Some ETH_P_IP
              else if Z.land v 240 =? 0x60 then Some ETH_P_IPV6 else None
  | [] => None
  end.
(** A packet that may be sent to device [i]. *)
Definition sendable (q : sQmiWwanQmap) (i : Z) (net : net_device) (src : list Z) (proto : Z) : Prop :=
  0 <= i < qmap_mode q /\ i < 127 /\ mpQmapNetDev q !! Z.to_nat i = Some (Some net)
  /\ addrs_ok q net /\ proto_of src = Some proto
  /\ Z.of_nat (length src) <= mtu net /\ Z.of_nat (length src) < 65532.

(** The first byte of a header of either version. *)
Lemma first_byte v pad mux len :
  0 <= pad < 4 -> exists h, frame_hdr v pad mux len = h :: drop 1 (frame_hdr v pad mux len)
    /\ Z.land h 63 = pad /\ truth (Z.land h 128) = false
    /\ truth (Z.land h 64) = negb (v =? 5) /\ length (frame_hdr v pad mux len) = if v =? 5 then 4%nat else 8%nat.
Proof.
  intros Hp. unfold frame_hdr. destruct (v =? 5); eexists; (split; [reflexivity|]);
    assert (pad = 0 \/ pad = 1 \/ pad = 2 \/ pad = 3) as [->|[->|[->| ->]]] by lia; done.
Qed.
Lemma hdr_fields v pad mux len rest :
  rd8 (frame_hdr v pad mux len ++ rest) 1 = Ok (u8 mux)
  /\ rd8 (frame_hdr v pad mux len ++ rest) 2 = Ok (len / 256 mod 256)
  /\ rd8 (frame_hdr v pad mux len ++ rest) 3 = Ok (len mod 256).
Proof. unfold frame_hdr. by destruct (v =? 5). Qed.

Lemma decode_frame v q i net src tl rest proto :
  v = 5 \/ (v = 9 /\ dl_minimum_padding (tx_ctx q) = 0) -> q_version q = v ->
  sendable q i net src proto -> (length tl < 4)%nat ->
  let hdr := frame_hdr v (Z.of_nat (length tl)) (QUECTEL_QMAP_MUX_ID + i) (Z.of_nat (length src + length tl)) in
  exists pk, decode_one q true (hdr ++ src ++ tl ++ rest)
      = Ok (Packet (i, proto, pk), (length hdr + length src + length tl)%nat)
    /\ skb_data pk = eth_header q net proto ++ src.
Proof.
  intros Hv Hq (Hi & Hi2 & Hnet & Haddr & Hproto & Hmtu & Hlen) Htl hdr.
  set (pad := Z.of_nat (length tl)) in *. set (len := Z.of_nat (length src + length tl)) in *.
  destruct (first_byte v pad (QUECTEL_QMAP_MUX_ID + i) len) as (h & E & Hp & Hc & Hn & Hl); [lia|].
  destruct (hdr_fields v pad (QUECTEL_QMAP_MUX_ID + i) len (src ++ tl ++ rest)) as (R1 & R2 & R3).
  destruct (make_packet_ok q net src proto Haddr) as (pk & Hpk & Hdata). exists pk. split; [|done].
  fold hdr in E, R1, R2, R3, Hl. unfold decode_one.
  assert (R0 : rd8 (hdr ++ src ++ tl ++ rest) 0 = Ok h) by (by rewrite E).
  rewrite R0, R1, R2, R3. unfold mbind, res_bind. cbv beta iota zeta.
  rewrite be16_value, Hp, Hn, Hc by lia.
  assert (Hpad0 : (if q_version q =? 9 then dl_minimum_padding (tx_ctx q) else 0) = 0).
  { rewrite Hq. destruct Hv as [->|[-> ->]]; done. }
  rewrite Hpad0. replace (len - pad - 0) with (Z.of_nat (length src)) by lia.
  replace (u8 (QUECTEL_QMAP_MUX_ID + i) - QUECTEL_QMAP_MUX_ID) with i
    by (unfold QUECTEL_QMAP_MUX_ID in *; rewrite u8_id by (unfold byte_ok; lia); lia).
  rewrite !u32_id by lia. rewrite (proj2 (Z.leb_gt (qmap_mode q) i)), Hnet by lia.
  rewrite ?u32_id, (proj2 (Z.ltb_ge (mtu net) (Z.of_nat (length src)))), !Nat2Z.id by lia.
  assert (Hsz : (if negb (v =? 5) then (SIZEOF_QMAP_HDR + SIZEOF_CSUM_HDR)%nat else SIZEOF_QMAP_HDR) = length hdr).
  { rewrite Hl. by destruct (v =? 5). }
  rewrite Hsz. replace (Z.to_nat len + length hdr)%nat with (length hdr + length src + length tl)%nat by lia.
  destruct (Nat.ltb_spec (length (hdr ++ src ++ tl ++ rest)) (length hdr + length src + length tl));
    [rewrite !length_app in *; lia|].
  replace (length hdr) with (length hdr + 0)%nat at 1 by lia. rewrite rd8_app_r.
  destruct src as [|v0 src0]; [done|]. change (rd8 ((v0 :: src0) ++ tl ++ rest) 0) with (Ok v0).
  change (proto_of (v0 :: src0)) with (if Z.land v0 240 =? 0x40 then Some ETH_P_IP
              else if Z.land v0 240 =? 0x60 then Some ETH_P_IPV6 else None) in Hproto.
  cbv iota beta. rewrite Hproto, rdn_app, Hpk. done.
Qed.

(** What is to arrive for a buffer [s] sent to device [i]. *)
Definition arrives (q : sQmiWwanQmap) (x : Z * S) (pk : packet (S:=S)) : Prop :=
  exists net proto, sendable q x.1 net (skb_data x.2) proto
    /\ pk.1.1 = x.1 /\ pk.1.2 = proto /\ skb_data pk.2 = eth_header q net proto ++ skb_data x.2.
Definition can_send (q : sQmiWwanQmap) (x : Z * S) : Prop :=
  (8 <= skb_headroom x.2)%nat /\ exists net proto, sendable q x.1 net (skb_data x.2) proto.

Lemma decode_frames v q l : forall fs skb_in chain i fuel,
  v = 5 \/ (v = 9 /\ dl_minimum_padding (tx_ctx q) = 0) -> q_version q = v ->
  Forall (can_send q) l ->
  Forall2 (fun x f => encode v x.2 (QUECTEL_QMAP_MUX_ID + x.1) = Ok f) l fs ->
  skb_data skb_in = concat (skb_data <$> fs) -> (length (skb_data skb_in) < fuel)%nat ->
  exists pks, qmap_packet_decode fuel i (fun _ => true) q skb_in chain = Ok (chain ++ pks)
    /\ Forall2 (arrives q) l pks.
Proof.
  induction l as [|[j s] l IH]; intros fs skb_in chain i [|fuel] Hv Hq Hok Hf E Hfuel; try lia; cbn [qmap_packet_decode].
  - inversion Hf; subst fs. cbn in E. unfold skb_len. rewrite E. exists []. by rewrite app_nil_r.
  - inversion Hf as [|? f ? fs' Hf1 Hfs]; subst. apply Forall_cons in Hok as [[Hh (net & proto & Hs)] Hok].
    cbn [fst snd] in *. rewrite fmap_cons in E. cbn [concat] in E.
    destruct (encode_ok (q_version q) s (QUECTEL_QMAP_MUX_ID + j) Hh) as (f' & tl & E1 & E2 & E3).
    rewrite Hf1 in E1. injection E1 as <-. rewrite <- E2 in E3. rewrite E3, <- !app_assoc in E.
    set (hdr := frame_hdr _ _ _ _) in E. set (rest := concat (skb_data <$> fs')) in E.
    pose proof (padding_small s) as Hpad.
    destruct (decode_frame (q_version q) q j net (skb_data s) tl rest proto Hv eq_refl Hs) as (pk & D1 & D2);
      [lia|]. unfold skb_len in *. fold hdr in D1. rewrite E, D1. clear D1.
    assert (Hlen : (1 <= length (skb_data s))%nat /\ (4 <= length hdr)%nat).
    { destruct Hs as (_ & _ & _ & _ & Hp & _). split; [destruct (skb_data s); [done|cbn; lia]|].
      destruct (first_byte (q_version q) (Z.of_nat (length tl)) (QUECTEL_QMAP_MUX_ID + j)
        (Z.of_nat (length (skb_data s) + length tl))) as (h & _ & _ & _ & _ & Hl); [lia|].
      unfold hdr. rewrite Hl. destruct (q_version q =? 5); lia. }
    assert (Htot : (length hdr + length (skb_data s) + length tl <= length (skb_data skb_in))%nat)
      by (rewrite E, !length_app; lia).
    destruct (Nat.leb_spec (length (hdr ++ skb_data s ++ tl ++ rest)) SIZEOF_QMAP_HDR) as [Hle|_];
      [rewrite !length_app in Hle; unfold SIZEOF_QMAP_HDR in Hle; lia|].
    destruct (pull_ok _ _ Htot) as (s' & P1 & P2 & _ & _).
    unfold mbind, res_bind. cbn [fst snd]. rewrite P1. unfold from_option, id.
    assert (P3 : skb_data s' = rest).
    { rewrite P2, E, !app_assoc, drop_app_length' by (rewrite !length_app; lia). done. }
    destruct (IH fs' s' (chain ++ [((j, proto, pk) : packet (S:=S))]) (Datatypes.S i) fuel Hv eq_refl Hok Hfs P3)
      as (pks & H1 & HP); [rewrite P3; rewrite E, !length_app in Hfuel; lia|].
    exists ((j, proto, pk) :: pks). split; [etransitivity; [exact H1|]; by rewrite <- app_assoc|].
    constructor; [|done]. exists net, proto. auto.
Qed.

(** C1. QMAP encoding and decoding agree.  Buffers that are framed with [add_qhdr]
    (QMAP version 5) or [add_qhdr_v5] (version 9), each for a multiplexed device that
    exists and within its MTU, and sent as one aggregate, are decoded by
    [qmap_packet_decode] into exactly these packets, in order, each for its device,
    with its protocol and unchanged bytes (behind an Ethernet header where the device
    has one); the padding never shows.  (For version 9 the modem is one without a
    minimal downlink padding, the driver's default: [dl_minimum_padding] is 0.) *)
Theorem qmap_roundtrip v q l fs skb_in :
  v = 5 \/ (v = 9 /\ dl_minimum_padding (tx_ctx q) = 0) -> q_version q = v ->
  Forall (can_send q) l ->
  Forall2 (fun x f => encode v x.2 (QUECTEL_QMAP_MUX_ID + x.1) = Ok f) l fs ->
  skb_data skb_in = concat (skb_data <$> fs) ->
  exists pks, qmap_packet_decode (Datatypes.S (length (skb_data skb_in))) 0 (fun _ => true) q skb_in [] = Ok pks
    /\ Forall2 (arrives q) l pks.
Proof.
  intros Hv Hq Hok Hf E.
  destruct (decode_frames v q l fs skb_in [] 0 (Datatypes.S (length (skb_data skb_in))) Hv Hq Hok Hf E) as (pks & H1 & H2);
    [lia|]. by exists pks.
Qed.

(** *** Termination *)
Lemma put_not_fuel n s : skb_put n s <> OutOfFuel.
Proof.
  destruct (Nat.leb_spec n (skb_tailroom s)) as [E|E].
  - destruct (put_ok n s E) as (s' & ? & -> & _). done.
  - by rewrite put_panic.
Qed.
Lemma push_not_fuel n s : skb_push n s <> OutOfFuel.
Proof.
  destruct (Nat.leb_spec n (skb_headroom s)) as [E|E].
  - destruct (push_ok n s E) as (s' & ? & -> & _). done.
  - by rewrite push_panic.
Qed.
Lemma make_packet_not_fuel q net n src proto : make_packet q net n src proto <> OutOfFuel.
Proof.
  unfold make_packet, mbind, res_bind. pose proof (put_not_fuel n (netdev_alloc_skb n)).
  destruct (skb_put _ _); [|done|done]. destruct (is_ether net); [|done].
  match goal with |- context [skb_push ?n ?x] => pose proof (push_not_fuel n x); destruct (skb_push n x) end; done.
Qed.

(** Every multiplexed device is registered. *)
Definition devices_present (q : sQmiWwanQmap) : Prop :=
  forall i, 0 <= i < qmap_mode q -> exists net, mpQmapNetDev q !! Z.to_nat i = Some (Some net).

Lemma decode_one_fuel q mem b : decode_one (S:=S) q mem b <> OutOfFuel.
Proof.
  unfold decode_one, mbind, res_bind, mret, res_ret. intros E.
  repeat case_match; simplify_eq; try (by eapply rd8_not_fuel); try (by eapply make_packet_not_fuel).
  all: unfold rdn in *; repeat case_match; simplify_eq.
Qed.
Lemma mux_present q a :
  devices_present q -> 0 <= qmap_mode q <= QUECTEL_WWAN_QMAP -> byte_ok a ->
  (qmap_mode q <=? u32 (a - QUECTEL_QMAP_MUX_ID)) = false ->
  mpQmapNetDev q !! Z.to_nat (a - QUECTEL_QMAP_MUX_ID) <> Some None.
Proof.
  unfold byte_ok, u32, QUECTEL_QMAP_MUX_ID, QUECTEL_WWAN_QMAP. intros Hd Hm Ha L%Z.leb_gt.
  destruct (decide (129 <= a)) as [Hge|Hge].
  - rewrite Z.mod_small in L by lia. destruct (Hd (a - 129)) as [net Hnet]; [lia|congruence].
  - rewrite <- (Z.mod_add (a - 129) 1), Z.mod_small in L by lia. lia.
Qed.
Lemma decode_one_skip q mem b r skip :
  devices_present q -> 0 <= qmap_mode q <= QUECTEL_WWAN_QMAP -> bytes_ok b ->
  decode_one (S:=S) q mem b = Ok (r, skip) -> r = Stop \/ ((4 <= skip)%nat /\ (skip <= length b)%nat).
Proof.
  intros Hd Hm Hb. unfold decode_one, mbind, res_bind, mret, res_ret. intros E.
  repeat case_match; simplify_eq; auto;
    try (match goal with H : (length b <? _)%nat = false |- _ => apply Nat.ltb_ge in H end;
         right; unfold SIZEOF_QMAP_HDR, SIZEOF_CSUM_HDR in *; lia).
  all: exfalso; match goal with Hn : _ !! Z.to_nat (?a - _) = Some None, R : rd8 _ 1 = Ok ?a |- _ =>
    revert Hn; apply mux_present; [assumption|assumption|eapply rd8_bound; [eassumption|exact R]|assumption] end.
Qed.

(** Decoding ends.  If every multiplexed device is registered, decoding a received
    buffer ends, whatever its bytes are, within as many rounds as it has bytes; it
    returns a list of packets or stops on a bad access. *)
Theorem qmap_decode_terminates q mem skb_in fuel :
  devices_present q -> 0 <= qmap_mode q <= QUECTEL_WWAN_QMAP -> bytes_ok (skb_data skb_in) ->
  (length (skb_data skb_in) < fuel)%nat ->
  qmap_packet_decode fuel 0 mem q skb_in [] <> OutOfFuel.
Proof.
  intros Hd Hm. generalize (@nil (packet (S:=S))) as chain. generalize 0%nat as i.
  intros i chain. revert i chain skb_in.
  induction fuel as [|fuel IH]; intros i chain skb_in Hb Hf; [lia|]. cbn [qmap_packet_decode].
  destruct (_ <=? _)%nat; [done|]. unfold mbind, res_bind.
  destruct (decode_one q (mem i) (skb_data skb_in)) as [[r skip]| |] eqn:E; [|done|by apply decode_one_fuel in E].
  apply decode_one_skip in E; [|done..]. cbn [fst snd].
  destruct E as [->|[E1 E2]]; [done|].
  destruct (pull_ok _ _ E2) as (s' & P1 & P2 & _). rewrite P1. unfold from_option, id.
  assert (Hs : bytes_ok (skb_data s') /\ (length (skb_data s') < fuel)%nat).
  { rewrite P2, length_drop. split; [by apply Forall_drop|lia]. }
  destruct r; [done|apply IH; tauto|apply IH; tauto].
Qed.

(** Decoding can hang.  A header for a multiplexed device that is not registered
    (its slot is NULL) and that announces more bytes than were received is skipped
    without a length check; [skb_pull] then leaves the buffer unchanged, and the loop
    never ends. *)
Theorem qmap_decode_hangs q mem skb_in i h hi lo fuel :
  (4 < length (skb_data skb_in))%nat -> 0 <= i < qmap_mode q -> i < 127 ->
  mpQmapNetDev q !! Z.to_nat i = Some None ->
  rd8 (skb_data skb_in) 0 = Ok h -> rd8 (skb_data skb_in) 1 = Ok (QUECTEL_QMAP_MUX_ID + i) ->
  rd8 (skb_data skb_in) 2 = Ok hi -> rd8 (skb_data skb_in) 3 = Ok lo ->
  Z.of_nat (length (skb_data skb_in)) < 256 * hi + lo + 4 ->
  qmap_packet_decode fuel 0 mem q skb_in [] = OutOfFuel.
Proof.
  intros Hlen Hi Hi2 Hn R0 R1 R2 R3 Hbig.
  generalize (@nil (packet (S:=S))) as chain. generalize 0%nat as k.
  induction fuel as [|fuel IH]; intros k chain; [done|]. cbn [qmap_packet_decode].
  destruct (Nat.leb_spec (skb_len skb_in) SIZEOF_QMAP_HDR); [unfold skb_len, SIZEOF_QMAP_HDR in *; lia|].
  assert (E : exists skip, decode_one (S:=S) q (mem k) (skb_data skb_in) = Ok (Skip, skip)
     /\ (length (skb_data skb_in) < skip)%nat).
  { unfold decode_one. rewrite R0, R1, R2, R3. unfold mbind, res_bind. cbv beta iota zeta.
    replace (QUECTEL_QMAP_MUX_ID + i - QUECTEL_QMAP_MUX_ID) with i by lia.
    unfold u32. rewrite Z.mod_small, (proj2 (Z.leb_gt (qmap_mode q) i)), Hn by lia.
    eexists. split; [done|]. unfold SIZEOF_QMAP_HDR, SIZEOF_CSUM_HDR. destruct (truth _); lia. }
  destruct E as (skip & -> & Hs). unfold mbind, res_bind. cbn [fst snd].
  rewrite pull_none by done. unfold from_option, id. apply IH.
Qed.

(** ** Aggregation *)

(** The bytes on the wire, and those that wait to be sent. *)
Definition pending (p : qmap_priv (S:=S)) : list Z :=
  match agg_skb p with Some a => skb_data a | None => [] end.
Definition wire (p : qmap_priv (S:=S)) : list Z := concat (skb_data <$> xmit p) ++ pending p.

(** The pending aggregate is within the limits and has room left for them. *)
Definition agg_inv (ctx : tx_agg_ctx) (p : qmap_priv (S:=S)) : Prop :=
  match agg_skb p with
  | Some a => Z.of_nat (skb_len a) <= ul_data_aggregation_max_size ctx
              <= Z.of_nat (skb_len a + skb_tailroom a)
              /\ 1 <= agg_count p < ul_data_aggregation_max_datagrams ctx
  | None => agg_count p = 0
  end
  /\ Forall (fun a => Z.of_nat (skb_len a) <= ul_data_aggregation_max_size ctx) (xmit p).
Definition ctx_ok (ctx : tx_agg_ctx) : Prop :=
  1 < ul_data_aggregation_max_datagrams ctx < 4294967296.

(** A frame fits into an aggregate and its headers lie inside it. *)
Definition frame_ok (ctx : tx_agg_ctx) (e : tx_env) (s : S) : Prop :=
  Z.of_nat (skb_len s) <= ul_data_aggregation_max_size ctx /\ exists b, skip_agg e s = Ok b.

Lemma append_skb_ok agg s :
  (skb_len s <= skb_tailroom agg)%nat ->
  exists a, append_skb agg s = Ok a /\ skb_data a = skb_data agg ++ skb_data s
    /\ skb_tailroom a = (skb_tailroom agg - skb_len s)%nat.
Proof.
  intros Hn. unfold append_skb. destruct (put_ok _ _ Hn) as (a & junk & H1 & H2 & H3 & H4 & _).
  rewrite H1. eexists. split; [done|].
  assert (Hs : (skb_len agg + length (skb_data s) <= length (skb_data a))%nat)
    by (rewrite H3, length_app, H2; unfold skb_len; lia).
  split.
  - rewrite (store_at (skb_len agg) (skb_data s) a (skb_data agg) junk []); [by rewrite app_nil_r|by rewrite app_nil_r|done|done].
  - destruct (store_ok _ _ _ Hs) as (_ & -> & _). exact H4.
Qed.

(** The two halves of a pass: sending, and keeping what is pending. *)
Lemma sent_wire e a p ctx :
  agg_skb p = None -> agg_inv ctx p -> Z.of_nat (skb_len a) <= ul_data_aggregation_max_size ctx ->
  agg_inv ctx (queue_xmit e a p) /\ agg_skb (queue_xmit e a p) = None
  /\ wire (queue_xmit e a p) = wire p ++ skb_data a.
Proof.
  unfold agg_inv, wire, pending. intros E [H1 H2] Ha. rewrite E in H1.
  change (agg_skb (queue_xmit e a p)) with (agg_skb p). change (agg_count (queue_xmit e a p)) with (agg_count p).
  change (xmit (queue_xmit e a p)) with (xmit p ++ [a]). rewrite E, fmap_app, concat_app.
  split; [split; [exact H1|]; apply Forall_app; split; [exact H2|by constructor]|]. split; [done|].
  cbn. by rewrite !app_nil_r.
Qed.

Lemma agg_pass_some ctx e i s p agg :
  ctx_ok ctx -> agg_inv ctx p -> frame_ok ctx e s -> agg_skb p = Some agg ->
  exists rest p', agg_pass ctx e i s p = Ok (rest, p') /\ agg_inv ctx p'
    /\ match rest with
       | None => wire p' = wire p ++ skb_data s
       | Some s' => s' = s /\ wire p' = wire p /\ agg_skb p' = None
       end.
Proof.
  intros Hc [H1 H2] [Hf [b Hb]] E. rewrite E in H1. destruct H1 as [[L1 L2] C]. unfold agg_pass. rewrite E.
  unfold ctx_ok in Hc.
  destruct (Z.ltb_spec (Z.of_nat (skb_len agg + skb_len s)) (ul_data_aggregation_max_size ctx)) as [Hlt|Hge].
  - destruct (append_skb_ok agg s) as (a' & A1 & A2 & A3); [lia|]. rewrite A1. unfold mbind, res_bind.
    assert (Hl : skb_len a' = (skb_len agg + skb_len s)%nat) by (unfold skb_len; by rewrite A2, length_app).
    set (p1 := p <| agg_skb := Some a' |> <| agg_count := u32 (agg_count p + 1) |>).
    assert (Hcount : agg_count p1 = agg_count p + 1) by (apply u32_id; lia).
    assert (Hr : exists r, (if elapsed (now_ns e i) (agg_time p1) agg_time_limit then mret true
        else if agg_count p1 =? ul_data_aggregation_max_datagrams ctx then mret true else skip_agg e s) = Ok r
        /\ (r = false -> agg_count p1 <> ul_data_aggregation_max_datagrams ctx)).
    { destruct (elapsed _ _ _); [by exists true|].
      destruct (Z.eqb_spec (agg_count p1) (ul_data_aggregation_max_datagrams ctx)); [by exists true|].
      rewrite Hb. by exists b. }
    destruct Hr as ([] & -> & Hready); unfold mret, res_ret; eexists None, _; (split; [reflexivity|]).
    + destruct (sent_wire e a' (p <| agg_skb := None |> <| agg_count := 0 |> <| agg_time := now_ns e i |>) ctx)
        as (S1 & _ & S2); [done|by split|lia|].
      split; [exact S1|]. etransitivity; [exact S2|]. unfold wire, pending. rewrite E, A2.
      cbn [agg_skb]. change (xmit (_ <| agg_time := _ |>)) with (xmit p). by rewrite app_nil_r, app_assoc.
    + specialize (Hready eq_refl). split.
      * split; [|exact H2]. change (agg_skb p1) with (Some a'). cbv iota. rewrite Hcount in *. split; [|lia]. lia.
      * unfold wire, pending. change (agg_skb p1) with (Some a'). change (xmit p1) with (xmit p).
        rewrite E, A2. by rewrite app_assoc.
  - unfold mbind, res_bind, mret, res_ret. eexists (Some s), _. split; [reflexivity|].
    destruct (sent_wire e agg (p <| agg_skb := None |> <| agg_count := 0 |> <| agg_time := now_ns e i |>) ctx)
      as (S1 & S2 & S3); [done|by split|lia|].
    split; [exact S1|]. split; [done|]. split; [|exact S2]. etransitivity; [exact S3|].
    unfold wire, pending. rewrite E. change (xmit (_ <| agg_time := _ |>)) with (xmit p). cbn [agg_skb]. by rewrite app_nil_r.
Qed.

Lemma agg_pass_none ctx e i s p :
  ctx_ok ctx -> agg_inv ctx p -> frame_ok ctx e s -> agg_skb p = None ->
  exists p', agg_pass ctx e i s p = Ok (None, p') /\ agg_inv ctx p' /\ wire p' = wire p ++ skb_data s.
Proof.
  intros Hc [H1 H2] [Hf [b Hb]] E. pose proof H1 as H1'. rewrite E in H1'. unfold agg_pass. rewrite E.
  unfold ctx_ok in Hc.
  assert (Hr : exists r, (if elapsed (now_ns e i) (agg_time p) agg_bypass_time then mret true
     else skip_agg e s) = Ok r) by (destruct (elapsed _ _ _); [by exists true|rewrite Hb; by exists b]).
  assert (Hsend : agg_inv ctx (queue_xmit e s (p <| agg_time := now_ns e i |>))
     /\ wire (queue_xmit e s (p <| agg_time := now_ns e i |>)) = wire p ++ skb_data s).
  { destruct (sent_wire e s (p <| agg_time := now_ns e i |>) ctx) as (S1 & _ & S2); [done|by split|done|].
    split; [exact S1|exact S2]. }
  destruct Hr as ([] & ->); unfold mbind, res_bind, mret, res_ret; [by eexists|].
  destruct (mem_ok e i); [|by eexists].
  destruct (alloc_ok (Z.to_nat (ul_data_aggregation_max_size ctx))) as [A0 At].
  set (fresh := alloc_skb _) in *.
  destruct (append_skb_ok fresh s) as (a' & A1 & A2 & A3); [lia|]. rewrite A1.
  eexists. split; [reflexivity|]. rewrite A0 in A2. cbn [app] in A2.
  assert (Hl : skb_len a' = skb_len s) by (unfold skb_len; by rewrite A2).
  split.
  - split; [|exact H2].
    change (agg_skb (p <| agg_skb := Some a' |> <| agg_count := u32 (agg_count p + 1) |>)) with (Some a').
    change (agg_count (p <| agg_skb := Some a' |> <| agg_count := u32 (agg_count p + 1) |>)) with (u32 (agg_count p + 1)).
    cbv iota. rewrite H1', u32_id by lia. split; [|lia]. lia.
  - change (concat (skb_data <$> xmit p) ++ skb_data a' = (concat (skb_data <$> xmit p) ++ pending p) ++ skb_data s).
    unfold pending. by rewrite E, A2, app_nil_r.
Qed.

Definition timer_set (p : qmap_priv (S:=S)) : qmap_priv (S:=S) :=
  match agg_skb p with Some _ => p <| timer_armed := true |> | None => p end.
Lemma timer_set_inv ctx p : agg_inv ctx p -> agg_inv ctx (timer_set p) /\ wire (timer_set p) = wire p.
Proof. unfold timer_set. intros H1. destruct (agg_skb p) eqn:E; [|done]. split; [exact H1|done]. Qed.

Lemma tx_agg_ok ctx e s p :
  ctx_ok ctx -> agg_inv ctx p -> frame_ok ctx e s ->
  exists p', rmnet_usb_tx_agg ctx e s p = Ok p' /\ agg_inv ctx p' /\ wire p' = wire p ++ skb_data s.
Proof.
  intros Hc Hi Hf. unfold rmnet_usb_tx_agg. destruct (Z.eqb_spec (ul_data_aggregation_max_datagrams ctx) 1) as [E|_];
    [unfold ctx_ok in Hc; lia|].
  assert (Hlast : forall fuel i p0, agg_inv ctx p0 -> agg_skb p0 = None -> exists p',
    agg_loop (Datatypes.S fuel) i ctx e s p0 = Ok p' /\ agg_inv ctx p' /\ wire p' = wire p0 ++ skb_data s).
  { intros fuel i p0 H0 E0. destruct (agg_pass_none ctx e i s p0 Hc H0 Hf E0) as (p1 & P1 & P2 & P3).
    destruct (timer_set_inv ctx p1 P2) as [T1 T2]. exists (timer_set p1). cbn [agg_loop]. rewrite P1.
    split; [done|]. split; [done|]. by rewrite T2. }
  destruct (agg_skb p) as [agg|] eqn:E; [|by apply Hlast].
  destruct (agg_pass_some ctx e 0 s p agg Hc Hi Hf E) as (rest & p1 & P1 & P2 & P3).
  cbn [agg_loop]. rewrite P1. unfold mbind, res_bind. cbn [fst snd]. destruct rest as [s'|].
  - destruct P3 as (-> & W & E1). destruct (Hlast 0%nat 1%nat p1 P2 E1) as (p' & L1 & L2 & L3).
    exists p'. split; [exact L1|]. split; [done|]. by rewrite L3, W.
  - destruct (timer_set_inv ctx p1 P2) as [T1 T2]. exists (timer_set p1). split; [done|]. split; [done|]. by rewrite T2.
Qed.

(** A history of the uplink: frames handed to the aggregation and runs of the timer
    work. *)
Inductive uplink_event := Tx (e : tx_env) (s : S) | Work (e : tx_env).
Fixpoint uplink_run (ctx : tx_agg_ctx) (es : list uplink_event) (p : qmap_priv (S:=S)) : res (qmap_priv (S:=S)) :=
  match es with
  | [] => mret p
  | Tx e s :: es => p' ← rmnet_usb_tx_agg ctx e s p; uplink_run ctx es p'
  | Work e :: es => uplink_run ctx es (rmnet_usb_tx_agg_work e p)
  end.
Definition frames (es : list uplink_event) : list Z :=
  concat ((fun x => match x with Tx _ s => skb_data s | Work _ => [] end) <$> es).
Definition event_ok (ctx : tx_agg_ctx) (x : uplink_event) : Prop :=
  match x with Tx e s => frame_ok ctx e s | Work _ => True end.

Lemma work_ok ctx e p :
  agg_inv ctx p -> agg_inv ctx (rmnet_usb_tx_agg_work e p) /\ wire (rmnet_usb_tx_agg_work e p) = wire p.
Proof.
  intros [H1 H2]. unfold rmnet_usb_tx_agg_work.
  change (agg_skb (p <| timer_armed := false |>)) with (agg_skb p).
  destruct (agg_skb p) as [agg|] eqn:E.
  - match goal with |- context [queue_xmit e agg ?x] => destruct (sent_wire e agg x ctx) as (S1 & _ & S2) end;
      [done|by split|by destruct H1 as [[? _] _]|].
    split; [exact S1|]. etransitivity; [exact S2|]. unfold wire, pending. rewrite E.
    change (xmit (_ <| agg_time := _ |>)) with (xmit p). cbn [agg_skb]. by rewrite app_nil_r.
  - split.
    + split; [|exact H2]. change (agg_skb (p <| timer_armed := false |>)) with (agg_skb p). by rewrite E.
    + done.
Qed.

(** C2. Uplink aggregation loses nothing.  With the limits the modem negotiated and
    frames within them, any sequence of transmissions and timer runs completes
    without overrunning a buffer; the bytes handed to the USB layer followed by those
    still pending are exactly the frames in the order they were sent; and no
    aggregate exceeds the negotiated size, nor do the pending frames reach the
    negotiated number. *)
Theorem uplink_lossless ctx es p :
  ctx_ok ctx -> agg_inv ctx p -> Forall (event_ok ctx) es ->
  exists p', uplink_run ctx es p = Ok p' /\ wire p' = wire p ++ frames es /\ agg_inv ctx p'.
Proof.
  intros Hc. revert p. induction es as [|[e s|e] es IH]; intros p Hi Hf; cbn [uplink_run].
  - exists p. unfold frames. cbn. by rewrite app_nil_r.
  - apply Forall_cons in Hf as [Hs Hf]. destruct (tx_agg_ok ctx e s p Hc Hi Hs) as (p1 & -> & I1 & W1).
    destruct (IH p1 I1 Hf) as (p' & E & W2 & I2). exists p'. split; [exact E|]. split; [|done].
    rewrite W2, W1, <- app_assoc. done.
  - apply Forall_cons in Hf as [_ Hf]. destruct (work_ok ctx e p Hi) as [I1 W1].
    destruct (IH _ I1 Hf) as (p' & -> & W2 & I2). exists p'. split; [done|]. split; [|done].
    by rewrite W2, W1.
Qed.
End Spec.

(** An IPv4 frame over the limit panics when the allocator returns no more than asked. *)
Lemma oversized_frame_panics :
  let frame := mkArea [] ([0; 0x81; 0; 40; 0x45] ++ zeros 39) [] in
  let e := mkEnv false (fun _ => 0) (fun _ => true) true ETH_P_IP 0 in
  let p := mkPriv 0x81 5 false (mkBridge 0 0 (zeros 6)) None 0 0 0 false [] [] in
  rmnet_usb_tx_agg (mkCtx 11 32 0) e frame p = Fault.
Proof. reflexivity. Qed.

(** ** Witnesses *)
Definition buffer (d : list Z) : area := mkArea (zeros 16) d (zeros 8).
Definition no_bridge : bridge := mkBridge 0 0 (zeros 6).
Definition net0 : net_device := mkNet 1500 false [2; 0; 0; 0; 0; 1] no_bridge.
Definition demo_qmap (v : Z) : sQmiWwanQmap := mkQmap [Some net0; Some net0; None; None] 2 v (mkCtx 11 4096 0) true no_bridge.
Definition ip_packet : list Z := [0x45; 0; 0; 7; 1; 2; 3].
Definition demo_frames : list (Z * area) := [(0, buffer ip_packet); (1, buffer [0x60; 9])].
Definition frame_of (x : Z * area) : area :=
  match encode 5 x.2 (QUECTEL_QMAP_MUX_ID + x.1) with Ok f => f | _ => x.2 end.

Definition demo_agg : area := buffer (concat (skb_data <$> (frame_of <$> demo_frames))).
Lemma demo_can_send : Forall (can_send (demo_qmap 5)) demo_frames.
Proof.
  repeat constructor; cbn; try lia; exists net0; [exists ETH_P_IP|exists ETH_P_IPV6];
    repeat split; vm_compute; (done || lia || discriminate).
Qed.
Lemma qmap_roundtrip_witness :
  exists pks, qmap_packet_decode (S (length (skb_data demo_agg))) 0 (fun _ => true) (demo_qmap 5) demo_agg [] = Ok pks
    /\ Forall2 (arrives (demo_qmap 5)) demo_frames pks.
Proof.
  apply (qmap_roundtrip 5 (demo_qmap 5) demo_frames (frame_of <$> demo_frames)
    demo_agg).
  - by left.
  - reflexivity.
  - apply demo_can_send.
  - repeat constructor.
  - reflexivity.
Defined.

Lemma qmap_decode_terminates_witness :
  let q := mkQmap [Some net0; Some net0; None; None] 2 5 (mkCtx 11 4096 0) true no_bridge in
  qmap_packet_decode 7 0 (fun _ => true) q (buffer [0; 0x82; 0xff; 0xff; 0x45; 0]) [] <> OutOfFuel.
Proof.
  apply (qmap_decode_terminates (mkQmap [Some net0; Some net0; None; None] 2 5 (mkCtx 11 4096 0) true no_bridge)
    (fun _ => true) (buffer [0; 0x82; 0xff; 0xff; 0x45; 0]) 7).
  - intros i Hi. change (qmap_mode _) with 2 in Hi.
    assert (i = 0 \/ i = 1) as [->| ->] by lia; by exists net0.
  - vm_compute. split; discriminate.
  - by apply (bool_decide_unpack _).
  - cbn. lia.
Defined.

Lemma qmap_decode_hangs_witness :
  qmap_packet_decode 1000 0 (fun _ => true) (mkQmap [Some net0; None; None; None] 2 5 (mkCtx 11 4096 0) true no_bridge)
    (buffer [0; 0x82; 0; 8; 0x45; 0]) [] = OutOfFuel.
Proof.
  apply (qmap_decode_hangs (mkQmap [Some net0; None; None; None] 2 5 (mkCtx 11 4096 0) true no_bridge) (fun _ => true)
           (buffer [0; 0x82; 0; 8; 0x45; 0]) 1 0 0 8 1000);
    try reflexivity; try (vm_compute; split; discriminate + done); cbn; lia.
Defined.

Definition demo_priv : qmap_priv (S:=area) := mkPriv 0x81 5 false no_bridge None 0 0 0 false [] [].
Definition demo_env : tx_env := mkEnv true (fun _ => 0) (fun _ => true) true ETH_P_IP 0.
Lemma uplink_lossless_witness :
  exists p', uplink_run (mkCtx 11 64 0) [Tx demo_env (buffer ip_packet); Tx demo_env (buffer [0x60; 9]); Work demo_env]
      demo_priv = Ok p' /\ wire p' = ip_packet ++ [0x60; 9].
Proof.
  destruct (uplink_lossless (mkCtx 11 64 0)
    [Tx demo_env (buffer ip_packet); Tx demo_env (buffer [0x60; 9]); Work demo_env] demo_priv) as (p' & H1 & H2 & _).
  - vm_compute. split; reflexivity.
  - split; [reflexivity|constructor].
  - repeat constructor; try (vm_compute; discriminate); by exists false.
  - exists p'. split; [exact H1|]. rewrite H2. reflexivity.
Defined.
