(* ===== verification/AtTok.v ===== *)
(** The tokenizer of AT response lines (at_tok.c).

    A line is the bytes before its NUL.  The position [char *] in a line is a
    [cursor]: NULL, or the text from there on.  Tokens are values; in C they point into the
    static line of [at_tok_scanf], and every caller reads them before the next call. *)
From S2P Require Import Prelude CmTypes QmiRequests.
#[local] Open Scope Z_scope.

Definition COMMA : Z := 44.
Definition QUOTE : Z := 34.
Definition COLON : Z := 58.
Definition MINUS : Z := 45.

Definition cursor : Type := option cstr.

(** ** C library *)

(** [strchr], [strsep] with one delimiter: the text before it, and the text after it. *)
Fixpoint split_at (c : Z) (s : cstr) : cstr * option cstr :=
  match s with
  | [] => ([], None)
  | x :: s => if x =? c then ([], Some s) else let r := split_at c s in (x :: r.1, r.2)
  end.
Definition strsep (c : Z) (p : cursor) : option cstr * cursor :=
  match p with None => (None, None) | Some s => let r := split_at c s in (Some r.1, r.2) end.

Definition digit_value (c : Z) : option Z :=
  if (48 <=? c) && (c <=? 57) then Some (c - 48)
  else if (97 <=? c) && (c <=? 122) then Some (c - 87)
  else if (65 <=? c) && (c <=? 90) then Some (c - 55) else None.
Definition digit_in (base c : Z) : option Z :=
  match digit_value c with Some d => if d <? base then Some d else None | None => None end.
Fixpoint strto_digits (base acc : Z) (s : cstr) : Z :=
  match s with
  | [] => acc
  | c :: s => match digit_in base c with Some d => strto_digits base (base * acc + d) s | None => acc end
  end.
Fixpoint skip_space (s : cstr) : cstr :=
  match s with [] => [] | c :: s' => if is_space c then skip_space s' else s end.
(** The optional prefix of base 16. *)
Definition strip_0x (base : Z) (s : cstr) : cstr :=
  match s with
  | z :: x :: d :: s' =>
      if (base =? 16) && (z =? 48) && ((x =? 120) || (x =? 88)) && bool_decide (is_Some (digit_in 16 d))
      then d :: s' else s
  | _ => s
  end.
(** Sign and magnitude, or [None] when there is no digit ([end == ret]). *)
Definition strto (base : Z) (s : cstr) : option (bool * Z) :=
  let s := skip_space s in
  let neg := match s with c :: _ => c =? MINUS | [] => false end in
  let s := match s with c :: s' => if (c =? MINUS) || (c =? 43) then s' else s | [] => [] end in
  let s := strip_0x base s in
  match s with
  | c :: _ => if bool_decide (is_Some (digit_in base c)) then Some (neg, strto_digits base 0 s) else None
  | [] => None
  end.
(** On a 64-bit machine; what does not fit is clamped. *)
Definition strtol (base : Z) (s : cstr) : option Z :=
  match strto base s with
  | Some (neg, v) => Some (if neg then Z.max (- 2 ^ 63) (- v) else Z.min (2 ^ 63 - 1) v)
  | None => None
  end.
Definition strtoul (base : Z) (s : cstr) : option Z :=
  match strto base s with
  | Some (neg, v) => Some (if 2 ^ 64 <=? v then 2 ^ 64 - 1 else if neg then (- v) mod 2 ^ 64 else v)
  | None => None
  end.

(** ** at_tok.c *)
Definition at_tok_start (p_cur : cursor) : Z * cursor :=
  match p_cur with
  | None => (-1, None)
  | Some s => match (split_at COLON s).2 with None => (-1, None) | Some r => (0, Some r) end
  end.

Definition skipWhiteSpace (p_cur : cursor) : cursor := skip_space <$> p_cur.
(** To the text after the next comma, or to the end of the line. *)
Definition skipNextComma (p_cur : cursor) : cursor :=
  (fun s => default [] (split_at COMMA s).2) <$> p_cur.

Definition nextTok (p_cur : cursor) : option cstr * cursor :=
  match skipWhiteSpace p_cur with
  | None => (None, None)
  | Some s =>
      match s with
      | c :: s' => if c =? QUOTE then let r := strsep QUOTE (Some s') in (r.1, skipNextComma r.2)
                   else strsep COMMA (Some s)
      | [] => strsep COMMA (Some s)
      end
  end.

(** Result, what is stored in [*p_out] if anything is, and the new position. *)
Definition at_tok_nextint_base (p_cur : cursor) (base : Z) (uns : bool) : Z * option Z * cursor :=
  match p_cur with
  | None => (-1, None, None)
  | Some _ =>
      let r := nextTok p_cur in
      match r.1 with
      | None => (-1, None, r.2)
      | Some t =>
          match (if uns then strtoul base t else strtol base t) with
          | Some l => (0, Some (s32 l), r.2)
          | None => (-1, Some 0, r.2)
          end
      end
  end.
Definition at_tok_nextint (p_cur : cursor) : Z * option Z * cursor := at_tok_nextint_base p_cur 10 false.
Definition at_tok_nexthexint (p_cur : cursor) : Z * option Z * cursor := at_tok_nextint_base p_cur 16 true.
Definition at_tok_nextbool (p_cur : cursor) : Z * option Z * cursor :=
  let '(ret, result, p_cur) := at_tok_nextint p_cur in
  if ret <? 0 then (-1, None, p_cur)
  else match result with
       | Some v => if (v =? 0) || (v =? 1) then (ret, Some v, p_cur) else (-1, None, p_cur)
       | None => (-1, None, p_cur)
       end.
Definition at_tok_nextstr (p_cur : cursor) : Z * option cstr * cursor :=
  match p_cur with
  | None => (-1, None, None)
  | Some _ => let r := nextTok p_cur in (0, r.1, r.2)
  end.
Definition at_tok_hasmore (p_cur : cursor) : bool :=
  match p_cur with Some (_ :: _) => true | _ => false end.
Definition at_tok_count (in_line : cursor) : Z :=
  match in_line with None => 0 | Some s => Z.of_nat (length (filter (fun c => c = COMMA) (s : list Z))) end.

(** ** [at_tok_scanf]

    The format is the C literal.  One slot per argument taken from the list: what is
    stored through it, if anything is (a NULL argument is replaced by a dummy, its slot
    is ignored by the caller). *)
Inductive scanned := SInt (z : Z) | SStr (s : cstr).
#[export] Instance scanned_eq_dec : EqDecision scanned.
Proof. solve_decision. Defined.
Definition slot : Type := option scanned.

Definition scan_int (r : Z * option Z * cursor) : Z * slot * cursor :=
  (r.1.1, SInt <$> r.1.2, r.2).
Definition scan_str (r : Z * option cstr * cursor) : Z * slot * cursor :=
  (r.1.1, SStr <$> r.1.2, r.2).
(** One conversion; [None] for a letter that is none. *)
Definition scan_one (k : Z) (line : cursor) : option (Z * slot * cursor) :=
  if k =? 100 then Some (scan_int (at_tok_nextint line))          (* d *)
  else if k =? 120 then Some (scan_int (at_tok_nexthexint line))  (* x *)
  else if k =? 98 then Some (scan_int (at_tok_nextbool line))     (* b *)
  else if k =? 115 then Some (scan_str (at_tok_nextstr line))     (* s *)
  else None.
(** The text after a field that is only a minus sign. *)
Definition dash_field (line : cursor) : option cursor :=
  match line with
  | Some (c :: d :: s) => if (c =? MINUS) && (d =? COMMA) then Some (Some s) else None
  | _ => None
  end.

Fixpoint scanf_loop (p : cstr) (line : cursor) (n : Z) : Z * list slot :=
  match p with
  | [] => (n, [])
  | c :: p =>
      if (c =? COMMA) || (c =? 32) then scanf_loop p line n
      else if negb (c =? 37) then (n, [])
      else
        match p with
        | [] => (n, [])
        | k :: p =>
            if negb (at_tok_hasmore line) then (n, [None])
            else
              match dash_field line with
              | Some line =>
                  let r := scanf_loop p line (n + 1) in
                  (r.1, (if k =? 100 then Some (SInt (-1)) else None) :: r.2)
              | None =>
                  match scan_one k line with
                  | None => (n, [None])
                  | Some (err, out, line) =>
                      if err <? 0 then (n, [out])
                      else let r := scanf_loop p line (n + 1) in (r.1, out :: r.2)
                  end
              end
        end
  end.
(** [sizeof(s_line) - 1] *)
Definition SIZEOF_s_line_1 : nat := 1023.
Definition at_tok_scanf (in_line : cursor) (fmt : string) : Z * list slot :=
  match in_line with
  | None => (0, [])
  | Some l =>
      let r := at_tok_start (Some (take SIZEOF_s_line_1 l)) in
      if r.1 <? 0 then (0, []) else scanf_loop (bytes_of_string fmt) r.2 0
  end.

(** What a variable holds after the call: the [i]th argument was its address. *)
Definition int_at (i : nat) (old : Z) (outs : list slot) : Z :=
  match outs !! i with Some (Some (SInt z)) => z | _ => old end.
Definition str_at (i : nat) (old : option cstr) (outs : list slot) : option cstr :=
  match outs !! i with Some (Some (SStr s)) => Some s | _ => old end.

(** ** [asprintf("%d")]: the digits of a number *)
Definition digit_char (d : Z) : Z := if d <? 10 then 48 + d else 55 + d.
Fixpoint show_digits (fuel : nat) (base n : Z) (acc : cstr) : cstr :=
  match fuel with
  | O => acc
  | S f => let acc := digit_char (n mod base) :: acc in
           if n <? base then acc else show_digits f base (n / base) acc
  end.
Definition show_nat (base n : Z) : cstr := show_digits (S (Z.to_nat (Z.log2 n))) base n [].
Definition show_int (z : Z) : cstr := if z <? 0 then MINUS :: show_nat 10 (- z) else show_nat 10 z.
