(* ===== verification/NetSys.v ===== *)
(** What the connection manager asks of the system it runs on: files of sysfs and of /etc, the
    commands it runs, and the state of network devices.  The class [NetSys] is the interface;
    udhcpc.c and qmap_bridge_mode.c are modelled against it (Udhcpc, QmapMode), and NetWorld
    is an instance in which the files and the commands are those of the driver qmi_wwan_q.

    A command line is a constructor of [shell_command]; [command_line] is its text. *)
From S2P Require Import Prelude CmTypes QmiRequests AtTok.
#[local] Open Scope Z_scope.
#[local] Abbreviation B := bytes_of_string.

(** ** Text *)

Definition ENOENT : Z := 2.
Definition LF : Z := 10.

(** [snprintf] of the text [t] into a buffer of [size] bytes. *)
Definition snprintf (size : nat) (t : cstr) (buf : list Z) : list Z :=
  let t := take (size - 1) t in t ++ 0 :: drop (S (length t)) buf.

(** "%x", with small letters. *)
Definition small_letter (c : Z) : Z := if (65 <=? c) && (c <=? 90) then c + 32 else c.
Definition show_hex (z : Z) : cstr := small_letter <$> show_nat 16 z.

(** The comparison of [strncmp(s, prefix, strlen(prefix)) == 0]; [strncasecmp] is on the
    text in small letters. *)
Fixpoint begins (prefix s : cstr) : bool :=
  match prefix, s with
  | [], _ => true
  | a :: prefix, b :: s => (a =? b) && begins prefix s
  | _, [] => false
  end.
(** [strstr] finds something. *)
Fixpoint strstr (s needle : cstr) : bool :=
  begins needle s || match s with [] => false | _ :: s => strstr s needle end.

Definition nonnull (s : cstr) : bool := match s with [] => false | _ => true end.
(** [snprintf("/sys/class/net/%s/attr")] *)
Definition sysfs (ifname : cstr) (attr : string) : cstr := B "/sys/class/net/" ++ ifname ++ 47 :: B attr.

(** ** Commands *)
Inductive shell_command :=
  | If_up (dev : cstr) | If_down (dev : cstr) | If_zero (dev : cstr)
  | If_addr (dev ip mask : cstr) | If_addr6 (dev ip : cstr) (prefix : Z)
  | Ip_flush (family : Z) (dev : cstr) | Ip_add (family : Z) (ip : cstr) (prefix : Z) (dev : cstr)
  | Ip_default (family : Z) (gw : option cstr) (dev : cstr)
  | Route_del (dev : cstr) | Route_add (gw dev : cstr) | Route6_add (dev : cstr)
  | Dhcp (dev : cstr).

Definition command_line (c : shell_command) : cstr :=
  match c with
  | If_up dev => B "ifconfig " ++ dev ++ B " up"
  | If_down dev => B "ifconfig " ++ dev ++ B " down"
  | If_zero dev => B "ifconfig " ++ dev ++ B " 0.0.0.0"
  | If_addr dev ip mask => B "ifconfig " ++ dev ++ 32 :: ip ++ B " netmask " ++ mask
  | If_addr6 dev ip prefix => B "ifconfig " ++ dev ++ 32 :: ip ++ 47 :: show_int prefix
  | Ip_flush family dev => B "ip -" ++ show_int family ++ B " address flush dev " ++ dev
  | Ip_add family ip prefix dev =>
      B "ip -" ++ show_int family ++ B " address add " ++ ip ++ 47 :: show_int prefix ++ B " dev " ++ dev
  | Ip_default family None dev => B "ip -" ++ show_int family ++ B " route add default dev " ++ dev
  | Ip_default family (Some gw) dev =>
      B "ip -" ++ show_int family ++ B " route add default via " ++ gw ++ B " dev " ++ dev
  | Route_del dev => B "route del default dev " ++ dev
  | Route_add gw dev => B "route add default gw " ++ gw ++ B " dev " ++ dev
  | Route6_add dev => B "route -A inet6 add default dev " ++ dev
  | Dhcp dev => B "busybox udhcpc -f -n -q -t 5 -i " ++ dev
  end.

(** ** The interface *)

(** How a file is opened. *)
Inductive open_mode := O_RDWR | O_read | O_create.

(** [sys_access] is the [errno] of [access], 0 when it succeeds; [sys_open] the same for
    opening.  [sys_read] is what a file that is open holds ([None]: reading fails), and
    [sys_write] stores a text from its beginning, in a file opened with [O_create] as its
    whole contents.  [sys_run] runs a command and is its status.  [sys_addr] is the address
    of a device in network order, 0 when it has none; [sys_mtu] is [None] when the request
    fails; [sys_rmnet_info] is the request 0x89F3. *)
Class NetSys (W : Type) := {
  sys_access : cstr -> W -> Z;
  sys_open : cstr -> open_mode -> W -> Z;
  sys_read : cstr -> W -> option (list Z);
  sys_write : cstr -> list Z -> W -> W;
  sys_readlink : cstr -> W -> option cstr;
  sys_run : shell_command -> W -> Z * W;
  sys_addr : cstr -> W -> Z;
  sys_flags : cstr -> W -> Z;
  sys_mtu : cstr -> W -> option Z;
  sys_set_mtu : cstr -> Z -> W -> W;
  sys_rmnet_info : cstr -> W -> option RMNET_INFO }.

Definition IFF_UP : Z := 1.

Section Calls.
Context {W : Type} `{NetSys W}.

Definition ask {A} (f : W -> A) : M W A := fun w => Ok (f w, w).
Definition ql_system (c : shell_command) : M W Z := fun w => Ok (sys_run c w).

(** [ql_fread]: the bytes read, at most [size] of them; [ql_fwrite]. *)
Definition ql_fread (filename : cstr) (size : nat) : M W (list Z) :=
  e ← ask (sys_open filename O_read);
  if truth e then mret [] else r ← ask (sys_read filename); mret (take size (default [] r)).
Definition ql_fwrite (filename : cstr) (buf : list Z) : M W unit :=
  e ← ask (sys_open filename O_create);
  if truth e then mret tt else M_upd (sys_write filename buf).
End Calls.
