(* ===== verification/Udhcpc.v ===== *)
(** The configuration of network devices by the connection manager: udhcpc.c, with
    [update_resolv_conf] of util.c and [ql_bridge_mode_detect] of qmap_bridge_mode.c, over the
    interface [NetSys].  The DHCP client is a command whose thread the caller joins; what is
    only printed (the addresses of the P-CSCF, the default route, the carrier) is left out. *)
From S2P Require Import Prelude CmTypes QmiRequests AtTok NetSys.
#[local] Open Scope Z_scope.
#[local] Abbreviation B := bytes_of_string.

(** ** Text of addresses *)

(** The swap of the bytes of an address in host order. *)
Definition qmi2addr (x : Z) : Z :=
  u32 (Z.lor (Z.lor (Z.lor (Z.shiftr x 24) (Z.land (Z.shiftr x 8) 0xff00)) (Z.land (Z.shiftl x 8) 0xff0000)) (Z.shiftl x 24)).

(** The bytes of an address in host order, on a little-endian machine. *)
Definition addr_byte (a k : Z) : Z := Z.land (Z.shiftr a (8 * k)) 0xff.
Definition ipv4Str (a : Z) : cstr :=
  show_nat 10 (addr_byte a 3) ++ 46 :: show_nat 10 (addr_byte a 2)
  ++ 46 :: show_nat 10 (addr_byte a 1) ++ 46 :: show_nat 10 (addr_byte a 0).

Fixpoint ipv6_words (a : list Z) : list Z :=
  match a with hi :: lo :: a => Z.shiftl hi 8 + lo :: ipv6_words a | _ => [] end.
Fixpoint join (sep : Z) (l : list cstr) : cstr :=
  match l with [] => [] | [s] => s | s :: l => s ++ sep :: join sep l end.
Definition ipv6Str (a : list Z) : cstr := join 58 (show_hex <$> ipv6_words a).

(** [update_ip_address_by_qmi] turns the mask into a prefix length by counting. *)
Definition mask_prefix (SubnetMask : Z) : Z :=
  foldl (fun prefix n => if truth (Z.land SubnetMask (Z.shiftl 1 n)) then prefix + 1 else prefix) 0 (seqZ 0 32).

(** ** /etc/resolv.conf *)

Definition MAX_DNS : nat := 16.
Definition resolv_conf : cstr := B "/etc/resolv.conf".
Definition dns_tag (iptype : Z) (ifname : cstr) : cstr := B "# IPV" ++ show_int iptype ++ 32 :: ifname.

(** What successive calls of [fgets] with a buffer of [k + 1] bytes return; [room] is what is
    left in the buffer of the first. *)
Fixpoint fgets_all (k room : nat) (s : cstr) : list cstr :=
  match s with
  | [] => []
  | c :: s =>
      if (c =? LF) || (room <=? 1)%nat then [c] :: fgets_all k k s
      else match fgets_all k (room - 1) s with [] => [[c]] | l :: ls => (c :: l) :: ls end
  end.
(** The newline is cut off, unless it is the whole line. *)
Definition chomp (l : cstr) : cstr :=
  if (1 <? length l)%nat && bool_decide (last l = Some LF) then removelast l else l.

(** The loop over the lines: those that are kept, and how many carried the tag. *)
Fixpoint scan_dns (tag : cstr) (lines : list cstr) (dns_info : list cstr) (dns_match : Z) : list cstr * Z :=
  match lines with
  | [] => (dns_info, dns_match)
  | l :: lines =>
      let l := chomp (until_nul l) in
      if strstr l tag then scan_dns tag lines dns_info (dns_match + 1)
      else let dns_info := dns_info ++ [l] in
           if (length dns_info =? MAX_DNS)%nat then (dns_info, dns_match)
           else scan_dns tag lines dns_info dns_match
  end.
Definition nameserver (tag dns : cstr) : cstr := B "nameserver " ++ dns ++ 32 :: tag ++ [LF].
Definition dns_text (tag : cstr) (dns1 dns2 : option cstr) (dns_info : list cstr) : cstr :=
  default [] (nameserver tag <$> dns1) ++ default [] (nameserver tag <$> dns2)
  ++ concat ((fun l => l ++ [LF]) <$> dns_info).

Section Net.
Context {W : Type} `{NetSys W}.

Definition update_resolv_conf (iptype : Z) (ifname : cstr) (dns1 dns2 : option cstr) : M W unit :=
  let tag := take 63 (dns_tag iptype ifname) in
  e ← ask (sys_open resolv_conf O_read);
  if truth e && negb (e =? ENOENT) then mret tt
  else
    text ← (if truth e then mret [] else r ← ask (sys_read resolv_conf); mret (default [] r));
    let '(dns_info, dns_match) := scan_dns tag (fgets_all 254 254 text) [] 0 in
    if bool_decide (dns1 = None) && (dns_match =? 0) then mret tt
    else
      e ← ask (sys_open resolv_conf O_create);
      M_when (negb (truth e)) (M_upd (sys_write resolv_conf (dns_text tag dns1 dns2 dns_info))).

(** ** Devices *)

Definition ql_set_mtu (ifname : cstr) (ifru_mtu : Z) : M W unit :=
  m ← ask (sys_mtu ifname);
  match m with
  | Some old => if old =? ifru_mtu then mret tt else M_upd (sys_set_mtu ifname ifru_mtu)
  | None => mret tt
  end.
Definition ql_netcard_ipv4_address_check (ifname : cstr) (ip : Z) : M W bool :=
  addr ← ask (sys_addr ifname); mret (addr =? ip).

Definition ql_raw_ip_mode_check (ifname : cstr) (ip : Z) : M W bool :=
  let raw_ip := sysfs ifname "qmi/raw_ip" in
  same ← ql_netcard_ipv4_address_check ifname (qmi2addr ip);
  if same : bool then mret false
  else
    e ← ask (sys_access raw_ip);
    if truth e then mret false
    else
      e ← ask (sys_open raw_ip O_RDWR);
      if truth e then mret false
      else
        r ← ask (sys_read raw_ip);
        let mode := match r with Some (c :: _) => c | _ => 88 end in
        if (mode =? 48) || (mode =? 78) then
          _ ← ql_system (If_down ifname);
          _ ← M_upd (sys_write raw_ip [89; 0]);
          _ ← ql_system (If_up ifname);
          mret true
        else mret false.

(** [link_file] is the buffer of the call, which starts with whatever is on the stack. *)
Definition ql_set_driver_link_state (p : PROFILE_T) (link_file : list Z) (link_state : Z) : M W unit :=
  let path := sysfs (usbnet_adapter p) "link_state" in
  e ← ask (sys_open path O_RDWR);
  if truth e then mret tt
  else
    let new_state := if qmap_mode p <=? 1 then b2z (truth link_state)
                     else (if truth link_state then 0x00 else 0x80) + Z.land (muxid p) 0x7F in
    let link_file := snprintf 128 (show_int new_state ++ [LF]) (snprintf 128 path link_file) in
    _ ← M_upd (sys_write path link_file);
    if (link_state =? 0) && nonnull (qmapnet_adapter p) && negb (bool_decide (qmapnet_adapter p = usbnet_adapter p)) then
      r ← ask (sys_read path);
      (* [rc] is a [size_t]: a failed read counts as a long one *)
      let '(rc, link_file) := match r with
                              | Some b => let b := take 128 b in (Z.of_nat (length b), b ++ drop (length b) link_file)
                              | None => (2 ^ 64 - 1, link_file)
                              end in
      let small := small_letter <$> link_file in
      if (1 <? rc) && (begins (B "0" ++ [LF]) small || begins (B "0x0" ++ [LF]) small)
      then _ ← ql_system (If_down (usbnet_adapter p)); mret tt
      else mret tt
    else mret tt.

(** ** Addresses and routes *)

(** [while(!system(shell_cmd));] *)
Fixpoint route_del_loop (fuel : nat) (ifname : cstr) : M W unit :=
  match fuel with
  | O => M_lift OutOfFuel
  | S f => r ← ql_system (Route_del ifname); if truth r then mret tt else route_del_loop f ifname
  end.

Definition update_ipv4_address (fuel : nat) (ifname ip gw : cstr) (prefix : Z) : M W unit :=
  no_ip ← ask (sys_access (B "/sbin/ip"));
  if negb (truth no_ip) then
    _ ← ql_system (Ip_flush 4 ifname);
    _ ← ql_system (Ip_add 4 ip prefix ifname);
    _ ← ql_system (Ip_default 4 (Some gw) ifname);
    mret tt
  else
    (* a shift by 32 bits or more is undefined *)
    n ← M_lift (if (1 <=? prefix) && (prefix <=? 32)
                then Ok (u32 (Z.shiftl (Z.shiftr 0xFFFFFFFF (32 - prefix)) (32 - prefix))) else Fault);
    _ ← ql_system (If_addr ifname ip (ipv4Str n));
    _ ← route_del_loop fuel ifname;
    _ ← ql_system (Route_add gw ifname);
    mret tt.

Definition update_ipv6_address (ifname ip : cstr) (prefix : Z) : M W unit :=
  no_ip ← ask (sys_access (B "/sbin/ip"));
  if negb (truth no_ip) then
    _ ← ql_system (Ip_flush 6 ifname);
    _ ← ql_system (Ip_add 6 ip prefix ifname);
    _ ← ql_system (Ip_default 6 None ifname);
    mret tt
  else
    _ ← ql_system (If_addr6 ifname ip prefix);
    _ ← ql_system (Route6_add ifname);
    mret tt.

(** The first byte of an address, which says whether it is there. *)
Definition v6_given (a : list Z) : bool := truth (hd 0 a).

Definition update_ipv4_by_qmi (fuel : nat) (ifname : cstr) (v4 : IPV4_T) : M W unit :=
  M_when (truth (v4_Address v4))
    (_ ← update_ipv4_address fuel ifname (ipv4Str (v4_Address v4)) (ipv4Str (v4_Gateway v4))
           (mask_prefix (v4_SubnetMask v4));
     M_when (truth (v4_DnsPrimary v4))
       (update_resolv_conf 4 ifname (Some (ipv4Str (v4_DnsPrimary v4)))
          (Some (ipv4Str (if truth (v4_DnsSecondary v4) then v4_DnsSecondary v4 else v4_DnsPrimary v4))))).
Definition update_ipv6_by_qmi (ifname : cstr) (v6 : IPV6_T) : M W unit :=
  M_when (v6_given (v6_Address v6) && truth (v6_PrefixLengthIPAddr v6))
    (_ ← update_ipv6_address ifname (ipv6Str (v6_Address v6)) (v6_PrefixLengthIPAddr v6);
     M_when (v6_given (v6_DnsPrimary v6))
       (update_resolv_conf 6 ifname (Some (ipv6Str (v6_DnsPrimary v6)))
          (Some (ipv6Str (if v6_given (v6_DnsSecondary v6) then v6_DnsSecondary v6 else v6_DnsPrimary v6))))).
Definition update_ip_address_by_qmi (fuel : nat) (ifname : cstr) (v4 : option IPV4_T) (v6 : option IPV6_T) : M W unit :=
  _ ← match v4 with Some v4 => update_ipv4_by_qmi fuel ifname v4 | None => mret tt end;
  match v6 with Some v6 => update_ipv6_by_qmi ifname v6 | None => mret tt end.

(** ** Bridge mode *)

(** The device the manager configures. *)
Definition net_ifname (p : PROFILE_T) : cstr :=
  if nonnull (qmapnet_adapter p) then qmapnet_adapter p else usbnet_adapter p.
Definition module_parameter (driver : cstr) (name : string) : cstr :=
  B "/sys/module/" ++ driver ++ B "/parameters/" ++ B name.

(** The two files of the attributes, unless they are not there. *)
Definition bridge_files (p : PROFILE_T) : M W (option (cstr * cstr)) :=
  let ipv4_file := sysfs (net_ifname p) "bridge_ipv4" in
  e ← ask (sys_access ipv4_file);
  if negb (truth e) then mret (Some (sysfs (net_ifname p) "bridge_mode", ipv4_file))
  else if negb (e =? ENOENT) then mret None
  else
    let mode_file := module_parameter (driver_name p) "bridge_mode" in
    e ← ask (sys_access mode_file);
    if truth e then mret None else mret (Some (mode_file, module_parameter (driver_name p) "bridge_ipv4")).

Definition ql_bridge_mode_detect (p : PROFILE_T) : M W bool :=
  f ← bridge_files p;
  match f with
  | None => mret false
  | Some (mode_file, ipv4_file) =>
      buf ← ql_fread mode_file 64;
      let in_bridge := match buf with c :: _ => negb (c =? 48) | [] => false end in
      if negb in_bridge then mret false
      else
        let addr := B "0x" ++ show_hex (v4_Address (ipv4 p)) in
        let text := if strstr ipv4_file (B "/sys/class/net/") || (qmap_mode p =? 0) || (qmap_mode p =? 1)
                    then addr else addr ++ 58 :: show_int (muxid p) in
        _ ← ql_fwrite ipv4_file text;
        mret true
  end.

(** ** Start and stop *)

(** The IPv4 part of [udhcpc_start]. *)
Definition udhcpc_ipv4 (fuel : nat) (p : PROFILE_T) (ifname : cstr) : M W unit :=
  match request_ops p with
  | mbim_request_ops => update_ip_address_by_qmi fuel ifname (Some (ipv4 p)) None
  | atc_request_ops => _ ← ql_system (Dhcp ifname); mret tt
  | qmi_request_ops =>
      _ ← ql_system (Dhcp ifname);
      changed ← ql_raw_ip_mode_check ifname (v4_Address (ipv4 p));
      _ ← M_when changed (_ ← ql_system (Dhcp ifname); mret tt);
      same ← ql_netcard_ipv4_address_check ifname (qmi2addr (v4_Address (ipv4 p)));
      M_when (negb same) (update_ip_address_by_qmi fuel ifname (Some (ipv4 p)) None)
  end.
(** The IPv6 part, from the label [set_ipv6] on. *)
Definition set_ipv6 (fuel : nat) (p : PROFILE_T) (ifname : cstr) : M W unit :=
  let v6 := ipv6 p in
  M_when (v6_given (v6_Address v6) && truth (v6_PrefixLengthIPAddr v6))
    (_ ← update_ip_address_by_qmi fuel ifname None (Some v6);
     let dns a := if v6_given a then Some (ipv6Str a) else None in
     M_when (v6_given (v6_DnsPrimary v6) || v6_given (v6_DnsSecondary v6))
       (update_resolv_conf 6 ifname (dns (v6_DnsPrimary v6)) (dns (v6_DnsSecondary v6)))).

Definition udhcpc_start (fuel : nat) (link_file : list Z) (p : PROFILE_T) : M W unit :=
  _ ← ql_set_driver_link_state p link_file 1;
  let ifname := net_ifname p in
  _ ← M_when (truth (rawIP p) && truth (v4_Address (ipv4 p)) && truth (v4_Mtu (ipv4 p)))
        (ql_set_mtu ifname (s32 (v4_Mtu (ipv4 p))));
  _ ← M_when (negb (bool_decide (ifname = usbnet_adapter p)))
        (_ ← ql_system (If_up (usbnet_adapter p));
         flags ← ask (sys_flags ifname);
         M_when (truth (Z.land flags IFF_UP)) (_ ← ql_system (If_down ifname); mret tt));
  _ ← ql_system (If_up ifname);
  bridge ← ql_bridge_mode_detect p;
  if bridge : bool then mret tt
  else
    _ ← M_when (truth (v4_Address (ipv4 p))) (udhcpc_ipv4 fuel p ifname);
    set_ipv6 fuel p ifname.

(** [dibbler_client_alive] is 0: nothing that is compiled sets it. *)
Definition udhcpc_stop (link_file : list Z) (p : PROFILE_T) : M W unit :=
  _ ← ql_set_driver_link_state p link_file 0;
  let ifname := net_ifname p in
  _ ← ql_system (If_zero ifname);
  _ ← ql_system (If_down ifname);
  mret tt.
End Net.
