(* ===== verification/MbimProxy.v ===== *)
(** quectel-mbim-proxy.c: up to 32 clients share one MBIM device.  The proxy writes
    the slot of the client into the top byte of the 32-bit transaction id of a
    request and finds the client of a response by it.  Invariant of the client
    table, the round trip of transaction ids, and what an id of more than 24 bits
    does to it. *)
From S2P Require Import Prelude.
#[local] Open Scope Z_scope.

Definition mbim_msg : Type := list Z.
Definition CM_MAX_CLIENT : nat := 32.
Definition TID_MASK : Z := 0xFFFFFF.
Definition TID_SHIFT : Z := 24.
Definition MBIM_OPEN_MSG : Z := 1.
Definition MBIM_CLOSE_MSG : Z := 2.
Definition MBIM_OPEN_DONE : Z := 0x80000001.
(** Offsets in [MBIM_MESSAGE_HEADER] and [MBIM_OPEN_DONE_T].  The handlers read them
    without a look at the length; of a shorter message the code reads what an
    earlier message left in the static buffer, and the model stops with [Fault]. *)
Definition OFF_MessageType : nat := 0.
Definition OFF_TransactionId : nat := 8.
Definition OFF_Status : nat := 12.

(** [CM_CLIENT_T] *)
Record CM_CLIENT_T := mkClient { client_fd : Z; client_idx : Z }.

(** The descriptors, [cm_clients], what was written where, and what the coming calls of
    [write] return (the whole message is taken when the list is used up). *)
Record mproxy := mkMproxy {
  mbim_dev_fd : Z; mbim_server_fd : Z; cm_clients : list CM_CLIENT_T; written : list (Z * mbim_msg);
  write_rets : list Z }.

(** ** Operations *)

(** Of the message the descriptor takes what [write] says, nothing if it fails; the result
    is the length of the message in any case. *)
Definition non_block_write (fd : Z) (m : mbim_msg) (s : mproxy) : mproxy :=
  let part := match head (write_rets s) with Some ret => take (Z.to_nat ret) m | None => m end in
  s <| written := written s ++ [(fd, part)] |> <| write_rets := tail (write_rets s) |>.

(** The first slot that satisfies a test. *)
Fixpoint find_slot (f : CM_CLIENT_T -> bool) (cs : list CM_CLIENT_T) : option nat :=
  match cs with
  | [] => None
  | c :: cs => if f c then Some 0%nat else S <$> find_slot f cs
  end.

Definition handle_client_connect (fd : Z) (s : mproxy) : mproxy :=
  if fd <? 0 then s
  else match find_slot (fun c => client_fd c <=? 0) (cm_clients s) with
       | Some i => s <| cm_clients := <[i := mkClient fd (Z.of_nat i + 1)]> (cm_clients s) |>
       | None => s
       end.

(** [safe_close] closes a positive descriptor and forgets it. *)
Definition safe_close (c : CM_CLIENT_T) : CM_CLIENT_T :=
  if 0 <? client_fd c then c <| client_fd := -1 |> else c.
Definition handle_client_disconnect (fd : Z) (s : mproxy) : mproxy :=
  match find_slot (fun c => client_fd c =? fd) (cm_clients s) with
  | Some i => s <| cm_clients := alter safe_close i (cm_clients s) |>
  | None => s
  end.

(** [MBIM_OPEN_DONE_T] with status 0. *)
Definition open_done (ty tid : Z) : mbim_msg :=
  enc32 (Z.lor ty 0x80000000) ++ enc32 16 ++ enc32 tid ++ enc32 0.

Definition handle_client_request (fd : Z) (m : mbim_msg) (s : mproxy) : res (Z * mproxy) :=
  TransactionId ← rd32 m OFF_TransactionId;
  match find_slot (fun c => client_fd c =? fd) (cm_clients s) with
  | None => mret (-1, s)
  | Some i =>
      let idx := from_option client_idx 0 (cm_clients s !! i) in
      if idx =? -1 then mret (-1, s)
      else
        ty ← rd32 m OFF_MessageType;
        if (ty =? MBIM_OPEN_MSG) || (ty =? MBIM_CLOSE_MSG) then
          mret (0, non_block_write fd (open_done ty TransactionId) s)
        else
          m' ← wr OFF_TransactionId (enc32 (Z.lor TransactionId (Z.shiftl idx TID_SHIFT))) m;
          mret (0, non_block_write (mbim_dev_fd s) m' s)
  end.

Definition handle_device_response (m : mbim_msg) (s : mproxy) : res mproxy :=
  TransactionId ← rd32 m OFF_TransactionId;
  if TransactionId =? 0 then
    mret (foldl (fun s c => if 0 <? client_fd c then non_block_write (client_fd c) m s else s) s (cm_clients s))
  else
    let idx := Z.shiftr TransactionId TID_SHIFT in
    match find_slot (fun c => (client_idx c =? idx) && (0 <? client_fd c)) (cm_clients s) with
    | Some i =>
        m' ← wr OFF_TransactionId (enc32 (Z.land TransactionId TID_MASK)) m;
        mret (non_block_write (from_option client_fd 0 (cm_clients s !! i)) m' s)
    | None => mret s
    end.

(** ** The poll loop

    What an entry of [pollfds] reports; [EvRead] carries the bytes read, empty for
    the end of the stream or an error. *)
Inductive mpoll_event := EvError (fd : Z) | EvAccept (fd : Z) | EvRead (fd : Z) (bytes : mbim_msg).
(** Go on, leave through [error], or [return] at once. *)
Inductive mflow := Go | Error | Return.

(** [make_server] is the result of [proxy_make_server]. *)
Definition mbim_event (make_server : Z) (e : mpoll_event) (s : mproxy) : res (mflow * mproxy) :=
  match e with
  | EvError fd =>
      if fd =? mbim_dev_fd s then mret (Error, s)
      else if fd =? mbim_server_fd s then mret (Go, s)
      else mret (Go, handle_client_disconnect fd s)
  | EvAccept fd => mret (Go, handle_client_connect fd s)
  | EvRead fd [] => if fd =? mbim_dev_fd s then mret (Error, s) else mret (Return, handle_client_disconnect fd s)
  | EvRead fd m =>
      if fd =? mbim_dev_fd s then
        if mbim_server_fd s =? -1 then
          ty ← rd32 m OFF_MessageType;
          if ty =? MBIM_OPEN_DONE then
            status ← rd32 m OFF_Status;
            if truth status then mret (Error, s) else mret (Go, s <| mbim_server_fd := make_server |>)
          else mret (Go, s)
        else s' ← handle_device_response m s; mret (Go, s')
      else r ← handle_client_request fd m s; mret (Go, r.2)
  end.

Fixpoint mbim_round (make_server : Z) (es : list mpoll_event) (s : mproxy) : res (mflow * mproxy) :=
  match es with
  | [] => mret (Go, s)
  | e :: es =>
      r ← mbim_event make_server e s;
      match r.1 with Go => mbim_round make_server es r.2 | f => mret (f, r.2) end
  end.

Definition mbim_close_all (s : mproxy) : mproxy :=
  s <| mbim_server_fd := if 0 <? mbim_server_fd s then -1 else mbim_server_fd s |>
    <| cm_clients := safe_close <$> cm_clients s |>.

(** [proxy_loop] over the rounds of [poll]; [None] is its failure or time-out. *)
Fixpoint proxy_loop (make_server : Z) (rounds : list (option (list mpoll_event))) (s : mproxy) : res mproxy :=
  if mbim_dev_fd s <=? 0 then mret (mbim_close_all s)
  else match rounds with
  | [] => mret s
  | None :: _ => mret (mbim_close_all s)
  | Some es :: rounds =>
      r ← mbim_round make_server es s;
      match r.1 with
      | Go => proxy_loop make_server rounds r.2
      | Error => mret (mbim_close_all r.2)
      | Return => mret r.2
      end
  end.

(** One turn of the loop in [main]: the table is cleared and the device opened. *)
Definition mbim_open_msg : mbim_msg := enc32 MBIM_OPEN_MSG ++ enc32 16 ++ enc32 1 ++ enc32 4096.
Definition start (dev_fd : Z) : mproxy :=
  non_block_write dev_fd mbim_open_msg (mkMproxy dev_fd (-1) (replicate CM_MAX_CLIENT (mkClient 0 0)) [] []).

(** ** Specification *)

(** Steps after the device was opened: clients come, go and send, the device
    answers, and writes come to fail or to be cut short. *)
Inductive mstep : mproxy -> mproxy -> Prop :=
  | ms_connect s fd : 0 < fd -> fd ∉ (client_fd <$> cm_clients s) -> fd <> mbim_dev_fd s ->
      mstep s (handle_client_connect fd s)
  | ms_disconnect s fd : 0 < fd -> mstep s (handle_client_disconnect fd s)
  | ms_request s s' fd m r : handle_client_request fd m s = Ok (r, s') -> mstep s s'
  | ms_response s s' m : handle_device_response m s = Ok s' -> mstep s s'
  | ms_writes s rets : mstep s (s <| write_rets := rets |>).

(** Slot [i] holds number [i + 1] when it is in use, and no descriptor is used
    twice. *)
Definition table_ok (s : mproxy) : Prop :=
  length (cm_clients s) = CM_MAX_CLIENT
  /\ (forall i c, cm_clients s !! i = Some c -> 0 < client_fd c -> client_idx c = Z.of_nat i + 1)
  /\ (forall i j c d, cm_clients s !! i = Some c -> cm_clients s !! j = Some d ->
        0 < client_fd c -> client_fd c = client_fd d -> i = j).

Lemma find_slot_Some f cs i :
  find_slot f cs = Some i -> exists c, cs !! i = Some c /\ f c = true
    /\ forall j d, (j < i)%nat -> cs !! j = Some d -> f d = false.
Proof.
  revert i. induction cs as [|c cs IH]; intros i; cbn [find_slot]; [done|]. destruct (f c) eqn:E.
  - intros [= <-]. exists c. split; [done|]. split; [done|]. intros; lia.
  - destruct (find_slot f cs) as [k|]; [|done]. intros [= <-].
    destruct (IH k eq_refl) as (d & H1 & H2 & H3). exists d. split; [done|]. split; [done|].
    intros [|j] d' Hj Hd; cbn in Hd; [congruence|]. eapply H3; [|exact Hd]. lia.
Qed.
Lemma find_slot_None f cs : find_slot f cs = None -> forall i c, cs !! i = Some c -> f c = false.
Proof.
  induction cs as [|c cs IH]; intros H [|i] d Hi; cbn in *; try done; destruct (f c) eqn:E; try done; simplify_eq; [done|].
  destruct (find_slot f cs); [done|]. by eapply IH.
Qed.
Lemma find_slot_unique f cs i c :
  cs !! i = Some c -> f c = true -> (forall j d, cs !! j = Some d -> f d = true -> j = i) ->
  find_slot f cs = Some i.
Proof.
  intros Hi Hf Hu. destruct (find_slot f cs) as [k|] eqn:E.
  - apply find_slot_Some in E as (d & H1 & H2 & _). by rewrite (Hu k d H1 H2).
  - by rewrite (find_slot_None _ _ E i c Hi) in Hf.
Qed.
