(* ===== verification/MbimProxySpec.v ===== *)
(** Theorems about quectel-mbim-proxy.c: the client table invariant over every run,
    the round trip of transaction ids below 2^24 under interleaving, and the
    misdelivery of responses to larger ids. *)
From S2P Require Import Prelude MbimProxy.
#[local] Open Scope Z_scope.

(** A message with the fields of [MBIM_MESSAGE_HEADER] in front. *)
Definition mbim_message (ty len tid : Z) (body : mbim_msg) : mbim_msg :=
  enc32 ty ++ enc32 len ++ enc32 tid ++ body.

(** The id the proxy puts into the request of slot [i]. *)
Definition device_tid (i : nat) (tid : Z) : Z := Z.lor tid (Z.shiftl (Z.of_nat i + 1) TID_SHIFT).

(** ** The client table *)
Definition live_at (s : mproxy) (i : nat) (fd : Z) : Prop :=
  0 < fd /\ exists c, cm_clients s !! i = Some c /\ client_fd c = fd.

Lemma table_ok_start dev : table_ok (start dev).
Proof.
  unfold table_ok. change (cm_clients (start dev)) with (replicate CM_MAX_CLIENT (mkClient 0 0)).
  split; [done|]. split.
  - intros i c [-> _]%lookup_replicate H. cbn in H. lia.
  - intros i j c d [-> _]%lookup_replicate _ H. cbn in H. lia.
Qed.

Lemma table_ok_connect fd s :
  table_ok s -> fd ∉ (client_fd <$> cm_clients s) -> table_ok (handle_client_connect fd s).
Proof.
  intros (Hl & Hi & Hu) Hn. unfold handle_client_connect. destruct (fd <? 0); [done|].
  destruct (find_slot _ _) as [k|] eqn:E; [|done]. apply find_slot_Some in E as (c & Hk & _ & _).
  assert (Hother : forall j d, cm_clients s !! j = Some d -> client_fd d <> fd).
  { intros j d Hj <-. apply Hn, list_elem_of_lookup. exists j. by rewrite list_lookup_fmap, Hj. }
  assert (Hkl : (k < length (cm_clients s))%nat) by (by eapply lookup_lt_Some).
  unfold table_ok.
  change (cm_clients (s <| cm_clients := <[k:=mkClient fd (Z.of_nat k + 1)]> (cm_clients s) |>))
    with (<[k:=mkClient fd (Z.of_nat k + 1)]> (cm_clients s)).
  split; [by rewrite length_insert|]. split.
  - intros i d. destruct (decide (i = k)) as [->|]; [|rewrite list_lookup_insert_ne by done; apply Hi].
    rewrite list_lookup_insert_eq by done. by intros [= <-].
  - intros i j d e. destruct (decide (i = k)) as [->|]; destruct (decide (j = k)) as [->|]; [done|..].
    + rewrite list_lookup_insert_eq, list_lookup_insert_ne by done. intros [= <-] Hj _ H.
      by destruct (Hother j e Hj).
    + rewrite list_lookup_insert_ne, list_lookup_insert_eq by done. intros Hd [= <-] _ H.
      by destruct (Hother i d Hd).
    + rewrite !list_lookup_insert_ne by done. apply Hu.
Qed.

Lemma safe_close_live c : 0 < client_fd (safe_close c) -> False.
Proof. unfold safe_close. destruct (Z.ltb_spec 0 (client_fd c)) as [|H]; [done|lia]. Qed.

Lemma table_ok_disconnect fd s : table_ok s -> table_ok (handle_client_disconnect fd s).
Proof.
  intros (Hl & Hi & Hu). unfold handle_client_disconnect.
  destruct (find_slot _ _) as [k|]; [|done].
  assert (Hold : forall i c, alter safe_close k (cm_clients s) !! i = Some c -> 0 < client_fd c ->
    cm_clients s !! i = Some c).
  { intros i c. destruct (decide (i = k)) as [->|]; [|by rewrite list_lookup_alter_ne].
    rewrite list_lookup_alter_eq. destruct (cm_clients s !! k); [|done]. cbn. intros [= <-] H.
    by destruct (safe_close_live _ H). }
  unfold table_ok. change (cm_clients (s <| cm_clients := alter safe_close k (cm_clients s) |>))
    with (alter safe_close k (cm_clients s)).
  split; [by rewrite length_alter|]. split.
  - intros i c H Hp. apply Hi; auto.
  - intros i j c d Hc Hd Hp He. eapply Hu; [..|exact He]; auto. apply Hold; [done|lia].
Qed.

Lemma request_clients fd m r s s' :
  handle_client_request fd m s = Ok (r, s') -> cm_clients s' = cm_clients s /\ mbim_dev_fd s' = mbim_dev_fd s.
Proof.
  unfold handle_client_request, mbind, res_bind, mret, res_ret.
  repeat match goal with |- context [match ?x with _ => _ end] => destruct x; try done end;
    by intros [= _ <-].
Qed.

Lemma broadcast_clients m cs s :
  cm_clients (foldl (fun s c => if 0 <? client_fd c then non_block_write (client_fd c) m s else s) s cs)
  = cm_clients s.
Proof. revert s. induction cs as [|c cs IH]; intros s; cbn; [done|]. rewrite IH. by destruct (0 <? client_fd c). Qed.

Lemma response_clients m s s' : handle_device_response m s = Ok s' -> cm_clients s' = cm_clients s.
Proof.
  unfold handle_device_response, mbind, res_bind, mret, res_ret.
  destruct (rd32 m OFF_TransactionId) as [tid| |]; [|done..].
  destruct (tid =? 0); [intros [= <-]; apply broadcast_clients|].
  destruct (find_slot _ _); [|by intros [= <-]]. destruct (wr _ _ m); [|done..]. by intros [= <-].
Qed.

Lemma table_ok_clients s s' : cm_clients s' = cm_clients s -> table_ok s -> table_ok s'.
Proof. unfold table_ok. by intros ->. Qed.

Lemma table_ok_step s s' : table_ok s -> mstep s s' -> table_ok s'.
Proof.
  intros H St. destruct St as [t fd _ Hn _|t fd _|t t' fd m r Hr|t t' m Hr|t rets].
  - exact (table_ok_connect _ _ H Hn).
  - exact (table_ok_disconnect _ _ H).
  - apply request_clients in Hr as [E _]. by eapply table_ok_clients.
  - apply response_clients in Hr. by eapply table_ok_clients.
  - exact H.
Qed.

Lemma table_ok_reachable dev s : rtc mstep (start dev) s -> table_ok s.
Proof. intros H. eapply (inv_rtc _ _ table_ok_step _ _ H), table_ok_start. Qed.

(** Both look-ups find the slot of a live client. *)
Lemma find_by_fd s i fd : table_ok s -> live_at s i fd ->
  find_slot (fun c => client_fd c =? fd) (cm_clients s) = Some i.
Proof.
  intros (_ & _ & Hu) (Hp & c & Hc & <-). eapply find_slot_unique; [done|apply Z.eqb_refl|].
  intros j d Hd E%Z.eqb_eq. symmetry. by eapply Hu.
Qed.
Lemma find_by_idx s i fd : table_ok s -> live_at s i fd ->
  find_slot (fun c => (client_idx c =? Z.of_nat i + 1) && (0 <? client_fd c)) (cm_clients s) = Some i.
Proof.
  intros (_ & Hi & _) (Hp & c & Hc & <-). eapply find_slot_unique; [done|..].
  - rewrite (Hi _ _ Hc Hp), Z.eqb_refl. by apply Z.ltb_lt.
  - intros j d Hd [E%Z.eqb_eq P%Z.ltb_lt]%andb_true_iff. rewrite (Hi _ _ Hd P) in E. lia.
Qed.

(** ** Transaction ids *)
Lemma device_tid_idx i tid :
  Z.shiftr (device_tid i tid) TID_SHIFT = Z.lor (Z.shiftr tid TID_SHIFT) (Z.of_nat i + 1).
Proof.
  unfold device_tid, TID_SHIFT. rewrite Z.shiftr_lor. f_equal.
  rewrite Z.shiftr_shiftl_l by lia. by rewrite Z.shiftl_0_r.
Qed.
Lemma device_tid_mask i tid : Z.land (device_tid i tid) TID_MASK = Z.land tid TID_MASK.
Proof.
  unfold device_tid, TID_SHIFT. change TID_MASK with (Z.ones 24). rewrite !Z.land_ones by lia.
  apply Z.bits_inj'. intros n Hn. destruct (Z.ltb_spec n 24).
  - rewrite !Z.mod_pow2_bits_low by lia. rewrite Z.lor_spec, Z.shiftl_spec_low by lia. apply orb_false_r.
  - by rewrite !Z.mod_pow2_bits_high by lia.
Qed.
Lemma lor_bound a b n : 0 <= n -> 0 <= a < 2 ^ n -> 0 <= b < 2 ^ n -> 0 <= Z.lor a b < 2 ^ n.
Proof.
  intros Hn Ha Hb.
  destruct (Z.eq_dec a 0) as [->|]; [by rewrite Z.lor_0_l|].
  destruct (Z.eq_dec b 0) as [->|]; [by rewrite Z.lor_0_r|].
  assert (0 <= Z.lor a b) by (apply Z.lor_nonneg; lia). split; [done|].
  destruct (Z.eq_dec (Z.lor a b) 0) as [E|]; [apply Z.lor_eq_0_iff in E; lia|].
  apply Z.log2_lt_pow2; [lia|]. rewrite Z.log2_lor by lia.
  apply Z.max_lub_lt; apply Z.log2_lt_pow2; lia.
Qed.
Lemma device_tid_bound i tid :
  (i < CM_MAX_CLIENT)%nat -> 0 <= tid < 4294967296 -> 0 <= device_tid i tid < 4294967296.
Proof.
  intros Hi Ht. apply (lor_bound _ _ 32); [lia|exact Ht|]. unfold TID_SHIFT, CM_MAX_CLIENT in *.
  rewrite Z.shiftl_mul_pow2 by lia. change (2 ^ 24) with 16777216. change (2 ^ 32) with 4294967296. lia.
Qed.
Lemma device_tid_nonzero i tid : 0 <= tid -> device_tid i tid <> 0.
Proof.
  intros Ht E. assert (H : Z.shiftr (device_tid i tid) TID_SHIFT = 0) by (by rewrite E).
  rewrite device_tid_idx in H. apply Z.lor_eq_0_iff in H as [_ H]. lia.
Qed.

(** ** Requests and responses of well-formed messages *)
Lemma message_tid ty len tid body : 0 <= tid < 4294967296 ->
  rd32 (mbim_message ty len tid body) OFF_TransactionId = Ok tid.
Proof.
  intros H. unfold mbim_message. rewrite (app_assoc (enc32 ty)).
  change OFF_TransactionId with (length (enc32 ty ++ enc32 len) + 0)%nat.
  rewrite rd32_app_r, rd32_enc32. by rewrite u32_id.
Qed.
Lemma message_type ty len tid body : 0 <= ty < 4294967296 ->
  rd32 (mbim_message ty len tid body) OFF_MessageType = Ok ty.
Proof. intros H. unfold mbim_message, OFF_MessageType. rewrite rd32_enc32. by rewrite u32_id. Qed.
Lemma message_set_tid ty len tid tid' body :
  wr OFF_TransactionId (enc32 tid') (mbim_message ty len tid body) = Ok (mbim_message ty len tid' body).
Proof.
  unfold mbim_message. rewrite !(app_assoc (enc32 ty)).
  change OFF_TransactionId with (length (enc32 ty ++ enc32 len)). by apply wr_app.
Qed.

Lemma live_slot s i fd : table_ok s -> live_at s i fd -> (i < CM_MAX_CLIENT)%nat.
Proof. intros (<- & _) (_ & c & Hc & _). by eapply lookup_lt_Some. Qed.

Lemma request_forwarded s i fd ty len tid body :
  table_ok s -> live_at s i fd -> 0 <= ty < 4294967296 -> ty <> MBIM_OPEN_MSG -> ty <> MBIM_CLOSE_MSG ->
  0 <= tid < 4294967296 ->
  handle_client_request fd (mbim_message ty len tid body) s
  = Ok (0, non_block_write (mbim_dev_fd s) (mbim_message ty len (device_tid i tid) body) s).
Proof.
  intros Hs Hl Hty H1 H2 Htid. unfold handle_client_request, mbind, res_bind.
  rewrite message_tid by done. rewrite (find_by_fd s i fd) by done.
  pose proof Hs as (_ & Hidx & _). pose proof Hl as (Hp & c & Hc & Hfd).
  rewrite Hc. cbn [from_option]. rewrite (Hidx i c Hc) by lia.
  destruct (Z.eqb_spec (Z.of_nat i + 1) (-1)); [lia|]. rewrite message_type by done.
  destruct (Z.eqb_spec ty MBIM_OPEN_MSG); [done|]. destruct (Z.eqb_spec ty MBIM_CLOSE_MSG); [done|].
  cbn [orb]. by rewrite message_set_tid.
Qed.

Lemma response_delivered s j fd ty len tid body :
  table_ok s -> live_at s j fd -> 0 < tid < 4294967296 ->
  Z.shiftr tid TID_SHIFT = Z.of_nat j + 1 ->
  handle_device_response (mbim_message ty len tid body) s
  = Ok (non_block_write fd (mbim_message ty len (Z.land tid TID_MASK) body) s).
Proof.
  intros Hs Hl Htid Hidx. unfold handle_device_response, mbind, res_bind.
  rewrite message_tid by lia. destruct (Z.eqb_spec tid 0); [lia|]. rewrite Hidx.
  rewrite (find_by_idx s j fd) by done. pose proof Hl as (_ & c & Hc & <-). rewrite Hc.
  by rewrite message_set_tid.
Qed.

(** The response to the request of slot [i]. *)
Lemma response_returned s i fd ty len tid body :
  table_ok s -> live_at s i fd -> 0 <= tid < 16777216 ->
  handle_device_response (mbim_message ty len (device_tid i tid) body) s
  = Ok (non_block_write fd (mbim_message ty len tid body) s).
Proof.
  intros Hok Hl Htid. assert (Hi : (i < CM_MAX_CLIENT)%nat) by (by eapply live_slot).
  rewrite (response_delivered s i fd); [|done|done|..].
  - rewrite device_tid_mask. change TID_MASK with (Z.ones 24). rewrite Z.land_ones, Z.mod_small by lia. done.
  - pose proof (device_tid_bound i tid Hi ltac:(lia)). pose proof (device_tid_nonzero i tid ltac:(lia)). lia.
  - rewrite device_tid_idx. unfold TID_SHIFT. rewrite Z.shiftr_div_pow2, Z.div_small by lia. done.
Qed.

(** ** The steps are those of the poll loop *)

(** What [poll] and [accept] promise: the descriptors reported are open ones, a
    new descriptor is not in use. *)
Definition mevent_ok (s : mproxy) (e : mpoll_event) : Prop :=
  match e with
  | EvError fd | EvRead fd _ => 0 < fd
  | EvAccept fd => 0 < fd /\ fd ∉ (client_fd <$> cm_clients s) /\ fd <> mbim_dev_fd s
  end.

Lemma mbim_event_step make_server e s f s' :
  mevent_ok s e -> mbim_server_fd s <> -1 -> mbim_event make_server e s = Ok (f, s') -> rtc mstep s s'.
Proof.
  intros He Hsrv. destruct e as [fd|fd|fd [|b m]]; cbn [mbim_event mevent_ok] in *.
  - destruct (fd =? mbim_dev_fd s); [by intros [= _ <-]|].
    destruct (fd =? mbim_server_fd s); intros [= _ <-]; [done|]. by apply rtc_once, ms_disconnect.
  - intros [= _ <-]. destruct He as (H1 & H2 & H3). by apply rtc_once, ms_connect.
  - destruct (fd =? mbim_dev_fd s); intros [= _ <-]; [done|]. by apply rtc_once, ms_disconnect.
  - destruct (fd =? mbim_dev_fd s).
    + destruct (Z.eqb_spec (mbim_server_fd s) (-1)); [done|].
      unfold mbind, res_bind. destruct (handle_device_response _ _) eqn:E; [|done..].
      intros [= _ <-]. by eapply rtc_once, ms_response.
    + unfold mbind, res_bind. destruct (handle_client_request _ _ _) as [[r t]| |] eqn:E; [|done..].
      intros [= _ <-]. by eapply rtc_once, ms_request.
Qed.

(** ** Properties *)

(** C22. Transaction ids survive the proxy.  In every state the proxy can reach, a
    request other than open and close that a connected client sends with an id below
    2^24 goes to the device, changed in the id only; and however many connects,
    disconnects, requests and responses of others come in between, as long as the
    client keeps its slot the response that carries the id seen by the device
    is written to this client, and to nobody else, with the id the client chose.  Writes
    may fail or be cut short at any time; the descriptor then takes that much of it. *)
Theorem mbim_tid_roundtrip dev s i fd ty len tid body :
  rtc mstep (start dev) s -> live_at s i fd ->
  0 <= ty < 4294967296 -> ty <> MBIM_OPEN_MSG -> ty <> MBIM_CLOSE_MSG -> 0 <= tid < 16777216 ->
  exists tid',
    handle_client_request fd (mbim_message ty len tid body) s
    = Ok (0, non_block_write (mbim_dev_fd s) (mbim_message ty len tid' body) s)
    /\ forall s' ty' len' body',
         rtc mstep (non_block_write (mbim_dev_fd s) (mbim_message ty len tid' body) s) s' ->
         live_at s' i fd ->
         handle_device_response (mbim_message ty' len' tid' body') s'
         = Ok (non_block_write fd (mbim_message ty' len' tid body') s').
Proof.
  intros Hs Hl Hty H1 H2 Htid. pose proof (table_ok_reachable _ _ Hs) as Hok.
  exists (device_tid i tid). split; [apply request_forwarded; auto; lia|].
  intros s' ty' len' body' Hs' Hl'. apply response_returned; [|done|done].
  eapply (inv_rtc _ _ table_ok_step _ _ Hs'). by eapply table_ok_clients; [|exact Hok].
Qed.

(** Two clients, descriptors 10 and 11, connected to a proxy of device 5. *)
Definition mbim_demo : mproxy := handle_client_connect 11 (handle_client_connect 10 (start 5)).
Lemma mbim_demo_reachable : rtc mstep (start 5) mbim_demo.
Proof.
  eapply rtc_l; [apply (ms_connect (start 5) 10)|apply rtc_once, (ms_connect (handle_client_connect 10 (start 5)) 11)];
    try done; by apply (bool_decide_unpack _).
Qed.

Lemma mbim_tid_roundtrip_witness :
  exists tid',
    handle_client_request 11 (mbim_message 3 16 7 [1; 2; 3; 4]) mbim_demo
    = Ok (0, non_block_write 5 (mbim_message 3 16 tid' [1; 2; 3; 4]) mbim_demo)
    /\ forall s' ty' len' body',
         rtc mstep (non_block_write 5 (mbim_message 3 16 tid' [1; 2; 3; 4]) mbim_demo) s' ->
         live_at s' 1 11 ->
         handle_device_response (mbim_message ty' len' tid' body') s'
         = Ok (non_block_write 11 (mbim_message ty' len' 7 body') s').
Proof.
  apply (mbim_tid_roundtrip 5 mbim_demo 1 11 3 16 7 [1; 2; 3; 4]); try done; [apply mbim_demo_reachable|].
  split; [done|]. by exists (mkClient 11 2).
Defined.

(** An id of 2^24 or more breaks the proxy: when the top byte of the id, or-ed with
    the number of the sender's slot, is the number of another slot in use, the
    response to the request of the client in slot [i] is written to the client in
    slot [j], with an id neither of them may ever have sent. *)
Theorem mbim_tid_collision dev s i j fd fd' ty len tid body :
  rtc mstep (start dev) s -> live_at s i fd -> live_at s j fd' -> write_rets s = [] ->
  0 <= ty < 4294967296 -> ty <> MBIM_OPEN_MSG -> ty <> MBIM_CLOSE_MSG -> 0 <= tid < 4294967296 ->
  Z.lor (Z.shiftr tid TID_SHIFT) (Z.of_nat i + 1) = Z.of_nat j + 1 ->
  exists tid' s1,
    handle_client_request fd (mbim_message ty len tid body) s = Ok (0, s1)
    /\ written s1 = written s ++ [(mbim_dev_fd s, mbim_message ty len tid' body)]
    /\ forall ty' len' body',
         handle_device_response (mbim_message ty' len' tid' body') s1
         = Ok (non_block_write fd' (mbim_message ty' len' (Z.land tid TID_MASK) body') s1).
Proof.
  intros Hs Hl Hl' Hw Hty H1 H2 Htid Hidx. pose proof (table_ok_reachable _ _ Hs) as Hok.
  assert (Hi : (i < CM_MAX_CLIENT)%nat) by (by eapply live_slot).
  eexists (device_tid i tid), _. split; [by apply request_forwarded|].
  split; [unfold non_block_write; by rewrite Hw|].
  intros ty' len' body'. rewrite (response_delivered _ j fd'); [by rewrite device_tid_mask| |done|..].
  - by eapply table_ok_clients; [|exact Hok].
  - pose proof (device_tid_bound i tid Hi Htid). pose proof (device_tid_nonzero i tid ltac:(lia)). lia.
  - by rewrite device_tid_idx.
Qed.

(** Slot 0 sends id 0x02000005; slot 1 holds number 2 and slot 2 number 3. *)
Lemma mbim_tid_collision_witness :
  exists tid' s1,
    handle_client_request 10 (mbim_message 3 16 0x02000005 []) (handle_client_connect 12 mbim_demo) = Ok (0, s1)
    /\ written s1 = written (handle_client_connect 12 mbim_demo) ++ [(5, mbim_message 3 16 tid' [])]
    /\ forall ty' len' body',
         handle_device_response (mbim_message ty' len' tid' body') s1
         = Ok (non_block_write 12 (mbim_message ty' len' (Z.land 0x02000005 TID_MASK) body') s1).
Proof.
  apply (mbim_tid_collision 5 (handle_client_connect 12 mbim_demo) 0 2 10 12 3 16 0x02000005 []); try done.
  - eapply rtc_r; [apply mbim_demo_reachable|].
    apply (ms_connect mbim_demo 12); try done; by apply (bool_decide_unpack _).
  - split; [done|]. by exists (mkClient 10 1).
  - split; [done|]. by exists (mkClient 12 3).
Defined.
