(* ===== verification/MhiPm.v ===== *)
(** Power management of the PCIe modem driver (quectel_MHI/src/core/mhi_pm.c, with the
    interrupt paths of mhi_main.c that change the power state): the transition
    table and [mhi_tryset_pm_state], the transitions the device reports, reset and
    shut-down, power-up, suspend and resume.

    Registers are read through the argument [hw] and written to a log.  A call of
    [wait_event_timeout] gives the other threads time to run: it is an argument of
    type [wait], what it returned and the state the caller finds afterwards. *)
From S2P Require Import Prelude.
#[local] Open Scope Z_scope.

(** ** States *)
Definition BIT (n : Z) : Z := Z.shiftl 1 n.
Definition MHI_PM_DISABLE : Z := BIT 0.
Definition MHI_PM_POR : Z := BIT 1.
Definition MHI_PM_M0 : Z := BIT 2.
Definition MHI_PM_M2 : Z := BIT 3.
Definition MHI_PM_M3_ENTER : Z := BIT 4.
Definition MHI_PM_M3 : Z := BIT 5.
Definition MHI_PM_M3_EXIT : Z := BIT 6.
Definition MHI_PM_FW_DL_ERR : Z := BIT 7.
Definition MHI_PM_SYS_ERR_DETECT : Z := BIT 8.
Definition MHI_PM_SYS_ERR_PROCESS : Z := BIT 9.
Definition MHI_PM_SHUTDOWN_PROCESS : Z := BIT 10.
Definition MHI_PM_LD_ERR_FATAL_DETECT : Z := BIT 11.

Definition bits (l : list Z) : Z := foldr Z.lor 0 l.
Definition MHI_REG_ACCESS_VALID (s : Z) : bool :=
  truth (Z.land s (bits [MHI_PM_POR; MHI_PM_M0; MHI_PM_M2; MHI_PM_M3_ENTER; MHI_PM_M3_EXIT;
    MHI_PM_SYS_ERR_DETECT; MHI_PM_SYS_ERR_PROCESS; MHI_PM_SHUTDOWN_PROCESS; MHI_PM_FW_DL_ERR])).
Definition MHI_PM_IN_ERROR_STATE (s : Z) : bool := MHI_PM_FW_DL_ERR <=? s.
Definition MHI_PM_IN_FATAL_STATE (s : Z) : bool := s =? MHI_PM_LD_ERR_FATAL_DETECT.
Definition MHI_PM_IN_SUSPEND_STATE (s : Z) : bool :=
  truth (Z.land s (Z.lor MHI_PM_M3_ENTER MHI_PM_M3)).

(** [enum mhi_dev_state], [enum mhi_ee], [enum MHI_ST_TRANSITION] *)
Inductive mhi_dev_state :=
  MHI_STATE_RESET | MHI_STATE_READY | MHI_STATE_M0 | MHI_STATE_M1 | MHI_STATE_M2 | MHI_STATE_M3
  | MHI_STATE_BHI | MHI_STATE_SYS_ERR | MHI_STATE_MAX.
Inductive mhi_ee :=
  MHI_EE_PBL | MHI_EE_SBL | MHI_EE_AMSS | MHI_EE_RDDM | MHI_EE_WFW | MHI_EE_PTHRU | MHI_EE_EDL
  | MHI_EE_FP | MHI_EE_DISABLE_TRANSITION | MHI_EE_MAX.
Inductive MHI_ST_TRANSITION :=
  MHI_ST_TRANSITION_PBL | MHI_ST_TRANSITION_READY | MHI_ST_TRANSITION_SBL
  | MHI_ST_TRANSITION_MISSION_MODE | MHI_ST_TRANSITION_FP.
#[export] Instance mhi_dev_state_eq_dec : EqDecision mhi_dev_state.
Proof. solve_decision. Defined.
#[export] Instance mhi_ee_eq_dec : EqDecision mhi_ee.
Proof. solve_decision. Defined.

Definition MHI_IN_PBL (ee : mhi_ee) : bool :=
  match ee with MHI_EE_PBL | MHI_EE_PTHRU | MHI_EE_EDL => true | _ => false end.
Definition MHI_IN_MISSION_MODE (ee : mhi_ee) : bool :=
  match ee with MHI_EE_AMSS | MHI_EE_WFW => true | _ => false end.
(** [mhi_get_mhi_state(mhi_cntrl) >= MHI_STATE_M0] *)
Definition at_least_M0 (d : mhi_dev_state) : bool :=
  match d with MHI_STATE_RESET | MHI_STATE_READY => false | _ => true end.

(** ** The transition table *)
Definition mhi_state_transitions : list (Z * Z) := [
  (MHI_PM_DISABLE, MHI_PM_POR);
  (MHI_PM_POR, bits [MHI_PM_POR; MHI_PM_DISABLE; MHI_PM_M0; MHI_PM_SYS_ERR_DETECT;
    MHI_PM_SHUTDOWN_PROCESS; MHI_PM_LD_ERR_FATAL_DETECT; MHI_PM_FW_DL_ERR]);
  (MHI_PM_M0, bits [MHI_PM_M2; MHI_PM_M3_ENTER; MHI_PM_SYS_ERR_DETECT;
    MHI_PM_SHUTDOWN_PROCESS; MHI_PM_LD_ERR_FATAL_DETECT; MHI_PM_FW_DL_ERR]);
  (MHI_PM_M2, bits [MHI_PM_M0; MHI_PM_SYS_ERR_DETECT; MHI_PM_SHUTDOWN_PROCESS;
    MHI_PM_LD_ERR_FATAL_DETECT]);
  (MHI_PM_M3_ENTER, bits [MHI_PM_M3; MHI_PM_SYS_ERR_DETECT; MHI_PM_SHUTDOWN_PROCESS;
    MHI_PM_LD_ERR_FATAL_DETECT]);
  (MHI_PM_M3, bits [MHI_PM_M3_EXIT; MHI_PM_SYS_ERR_DETECT; MHI_PM_SHUTDOWN_PROCESS;
    MHI_PM_LD_ERR_FATAL_DETECT]);
  (MHI_PM_M3_EXIT, bits [MHI_PM_M0; MHI_PM_SYS_ERR_DETECT; MHI_PM_SHUTDOWN_PROCESS;
    MHI_PM_LD_ERR_FATAL_DETECT]);
  (MHI_PM_FW_DL_ERR, bits [MHI_PM_FW_DL_ERR; MHI_PM_SYS_ERR_DETECT; MHI_PM_SHUTDOWN_PROCESS;
    MHI_PM_LD_ERR_FATAL_DETECT]);
  (MHI_PM_SYS_ERR_DETECT, bits [MHI_PM_SYS_ERR_PROCESS; MHI_PM_SHUTDOWN_PROCESS;
    MHI_PM_LD_ERR_FATAL_DETECT]);
  (MHI_PM_SYS_ERR_PROCESS, bits [MHI_PM_POR; MHI_PM_SHUTDOWN_PROCESS; MHI_PM_LD_ERR_FATAL_DETECT]);
  (MHI_PM_SHUTDOWN_PROCESS, bits [MHI_PM_DISABLE; MHI_PM_LD_ERR_FATAL_DETECT]);
  (MHI_PM_LD_ERR_FATAL_DETECT, bits [MHI_PM_LD_ERR_FATAL_DETECT; MHI_PM_SHUTDOWN_PROCESS]) ].

(** [find_last_bit] of a word of [size] bits: [size] when no bit is set. *)
Definition find_last_bit (w : Z) (size : nat) : nat :=
  let w := w mod 2 ^ Z.of_nat size in if w =? 0 then size else Z.to_nat (Z.log2 w).

(** The state after the attempt, which is also what is returned. *)
Definition mhi_tryset_pm_state (cur_state state : Z) : Z :=
  let index := find_last_bit cur_state 32 in
  match mhi_state_transitions !! index with
  | None => cur_state
  | Some (from_state, to_states) =>
      if negb (from_state =? cur_state) then cur_state
      else if negb (truth (Z.land to_states state)) then cur_state
      else state
  end.

(** ** The controller

    The log holds what leaves the driver: state requests to MHICTRL, the wake
    doorbell, the doorbells of the rings ([RingDoorbells] stands for the loops over
    event, command and channel rings, whose contents are not modelled, and tells
    whether the mission-mode part was included), the callback of the controller
    driver, scheduled work, creation and removal of the child devices. *)
Inductive mhi_effect :=
  | SetMhiState (s : mhi_dev_state) | WakeDb | RingDoorbells (mission : bool)
  | StatusCb (cb : string) | ScheduleSysErr | ScheduleReady | InitMmio | ConfigRings
  | CreateDevices | DestroyDevices | RuntimeGetPut.

Record mhi_controller := mkMhi {
  pm_state : Z; dev_state : mhi_dev_state; ee : mhi_ee; dev_wake : Z;
  n_M0 : Z; n_M2 : Z; n_M3 : Z;
  transition_list : list MHI_ST_TRANSITION; mhi_log : list mhi_effect }.

(** What the registers read as: state and execution environment, the result of
    reading the two offsets during power-up, and whether [mhi_init_mmio] succeeds. *)
Record hw := mkHw {
  mhi_get_mhi_state : mhi_dev_state; mhi_get_exec_env : mhi_ee; offsets_ret : Z; mmio_ok : bool }.

(** The result of [wait_event_timeout] (whether it was not zero) and the state
    after it. *)
Definition wait : Type := mhi_controller -> bool * mhi_controller.

Definition EIO : Z := 5.
Definition EBUSY : Z := 16.
Definition EINVAL : Z := 22.
Definition ETIMEDOUT : Z := 110.

Definition emit (e : mhi_effect) (s : mhi_controller) : mhi_controller :=
  s <| mhi_log := mhi_log s ++ [e] |>.
Definition mhi_set_mhi_state (d : mhi_dev_state) : mhi_controller -> mhi_controller := emit (SetMhiState d).
(** [mhi_cntrl->pm_state] after [mhi_tryset_pm_state]. *)
Definition tryset (state : Z) (s : mhi_controller) : mhi_controller :=
  s <| pm_state := mhi_tryset_pm_state (pm_state s) state |>.

(** The driver as it is compiled: a doorbell in M2, and no vote is ever counted. *)
Definition mhi_assert_dev_wake (force : bool) (s : mhi_controller) : mhi_controller :=
  if decide (dev_state s = MHI_STATE_M2) then emit WakeDb s else s.
Definition mhi_deassert_dev_wake (override : bool) (s : mhi_controller) : mhi_controller := s.

(** ** Transitions the device reports *)
Definition mhi_pm_m0_transition (s : mhi_controller) : Z * mhi_controller :=
  let s := tryset MHI_PM_M0 (s <| dev_state := MHI_STATE_M0 |>) in
  if negb (pm_state s =? MHI_PM_M0) then (- EIO, s)
  else
    let s := mhi_assert_dev_wake false (s <| n_M0 := n_M0 s + 1 |>) in
    let s := emit (RingDoorbells (MHI_IN_MISSION_MODE (ee s))) s in
    (0, mhi_deassert_dev_wake false s).

Definition mhi_pm_m1_transition (s : mhi_controller) : mhi_controller :=
  let s := tryset MHI_PM_M2 s in
  if pm_state s =? MHI_PM_M2 then
    let s := mhi_set_mhi_state MHI_STATE_M2 s in
    let s := s <| dev_state := MHI_STATE_M2 |> <| n_M2 := n_M2 s + 1 |> in
    if truth (dev_wake s) then mhi_deassert_dev_wake false (mhi_assert_dev_wake true s)
    else emit (StatusCb "MHI_CB_IDLE") s
  else s.

Definition mhi_pm_m3_transition (s : mhi_controller) : Z * mhi_controller :=
  let s := tryset MHI_PM_M3 (s <| dev_state := MHI_STATE_M3 |>) in
  if negb (pm_state s =? MHI_PM_M3) then (- EIO, s) else (0, s <| n_M3 := n_M3 s + 1 |>).

(** The section the event ring, the control task and the interrupt share. *)
Definition sys_err_detect (s : mhi_controller) : mhi_controller :=
  let s := tryset MHI_PM_SYS_ERR_DETECT s in
  if pm_state s =? MHI_PM_SYS_ERR_DETECT then emit ScheduleSysErr s else s.

Definition mhi_queue_state_transition (t : MHI_ST_TRANSITION) (s : mhi_controller) : mhi_controller :=
  s <| transition_list := transition_list s ++ [t] |>.

(** Events of the control ring: a state change or a change of the environment. *)
Inductive ctrl_event := StateChange (d : mhi_dev_state) | EeEvent (e : mhi_ee).
Definition mhi_process_ctrl_event (e : ctrl_event) (s : mhi_controller) : mhi_controller :=
  match e with
  | StateChange MHI_STATE_M0 => (mhi_pm_m0_transition s).2
  | StateChange MHI_STATE_M1 => mhi_pm_m1_transition s
  | StateChange MHI_STATE_M3 => (mhi_pm_m3_transition s).2
  | StateChange MHI_STATE_SYS_ERR => sys_err_detect s
  | StateChange _ => s
  | EeEvent MHI_EE_SBL => mhi_queue_state_transition MHI_ST_TRANSITION_SBL s
  | EeEvent MHI_EE_FP => mhi_queue_state_transition MHI_ST_TRANSITION_FP s
  | EeEvent (MHI_EE_WFW | MHI_EE_AMSS) => mhi_queue_state_transition MHI_ST_TRANSITION_MISSION_MODE s
  | EeEvent MHI_EE_RDDM => emit (StatusCb "MHI_CB_EE_RDDM") s <| ee := MHI_EE_RDDM |>
  | EeEvent _ => s
  end.

Definition mhi_intvec_threaded_handlr (h : hw) (s : mhi_controller) : mhi_controller :=
  let valid := MHI_REG_ACCESS_VALID (pm_state s) in
  let state := if valid then mhi_get_mhi_state h else MHI_STATE_MAX in
  let e := if valid then mhi_get_exec_env h else MHI_EE_MAX in
  if decide (state = MHI_STATE_SYS_ERR) then
    if pm_state s =? MHI_PM_SYS_ERR_DETECT then s
    else
      let s := tryset MHI_PM_SYS_ERR_DETECT s in
      if pm_state s =? MHI_PM_SYS_ERR_DETECT then
        if decide (ee s <> e) then emit ScheduleSysErr s
        else if MHI_IN_PBL e then emit (StatusCb "MHI_CB_FATAL_ERROR") s
        else emit ScheduleSysErr s
      else s
  else s.

(** ** Ready, reset and shut-down *)

(** [reset] and [ready] are the two register fields when the wait ended. *)
Definition mhi_ready_state_transition (h : hw) (w : wait) (reset ready : bool) (s : mhi_controller)
    : Z * mhi_controller :=
  let s := (w s).2 in
  if MHI_PM_IN_FATAL_STATE (pm_state s) then (- EIO, s)
  else if reset || negb ready then (- ETIMEDOUT, s)
  else
    let s := tryset MHI_PM_POR s <| dev_state := MHI_STATE_READY |> in
    if negb (pm_state s =? MHI_PM_POR) then (- EIO, s)
    else if negb (MHI_REG_ACCESS_VALID (pm_state s)) then (- EIO, s)
    else if negb (mmio_ok h) then (- EIO, s)
    else (0, mhi_set_mhi_state MHI_STATE_M0 (emit InitMmio s)).

(** The second half of [mhi_pm_disable_transition]: children removed, workers waited
    for ([w2]), and on to ready or to DISABLE. *)
Definition disable_finish (h : hw) (w2 w3 : wait) (reset ready : bool) (cur_state : Z) (s : mhi_controller)
    : mhi_controller :=
  let s := (w2 (emit DestroyDevices s)).2 in
  if cur_state =? MHI_PM_SYS_ERR_PROCESS then
    if decide (mhi_get_exec_env h = MHI_EE_EDL /\ mhi_get_mhi_state h = MHI_STATE_RESET)
    then tryset MHI_PM_POR (s <| ee := MHI_EE_EDL |>)
    else (mhi_ready_state_transition h w3 reset ready s).2
  else tryset MHI_PM_DISABLE s.

(** [w1] waits for the reset to be over, [in_reset] is the field then; [w2] waits for
    the workers; [w3], [reset] and [ready] belong to [mhi_ready_state_transition]. *)
Definition mhi_pm_disable_transition (h : hw) (w1 w2 w3 : wait) (in_reset reset ready : bool)
    (transition_state : Z) (s : mhi_controller) : mhi_controller :=
  let s := if transition_state =? MHI_PM_SYS_ERR_PROCESS then emit (StatusCb "MHI_CB_SYS_ERROR") s else s in
  let prev_state := pm_state s in
  let s := tryset transition_state s in
  let cur_state := pm_state s in
  if negb (cur_state =? transition_state) then s
  else
    let s := s <| ee := MHI_EE_DISABLE_TRANSITION |> <| dev_state := MHI_STATE_RESET |> in
    if MHI_REG_ACCESS_VALID prev_state then
      let '(ret, s) := w1 (mhi_set_mhi_state MHI_STATE_RESET s) in
      if (negb ret || in_reset) && (cur_state =? MHI_PM_SYS_ERR_PROCESS) then s
      else disable_finish h w2 w3 reset ready cur_state (emit ConfigRings s)
    else disable_finish h w2 w3 reset ready cur_state s.

Definition mhi_pm_sys_err_worker (h : hw) (w1 w2 w3 : wait) (in_reset reset ready : bool)
    : mhi_controller -> mhi_controller :=
  mhi_pm_disable_transition h w1 w2 w3 in_reset reset ready MHI_PM_SYS_ERR_PROCESS.

(** [is_pre_init] tells that the contexts outlive the power cycle; releasing them
    does not touch the state. *)
Definition mhi_power_down (h : hw) (w1 w2 w3 : wait) (in_reset reset ready : bool) (graceful : bool)
    (s : mhi_controller) : mhi_controller :=
  let s := if graceful then s else tryset MHI_PM_LD_ERR_FATAL_DETECT s in
  mhi_pm_disable_transition h w1 w2 w3 in_reset reset ready MHI_PM_SHUTDOWN_PROCESS s.

(** ** Power-up and the workers

    [ctxt_ret] and [irq_ret] are what [mhi_init_dev_ctxt] and [mhi_init_irq_setup]
    return.  The power state is assigned twice, without regard to the table, and
    [pm_lock] is not held in between: other threads run ([w]). *)
Definition mhi_async_power_up (h : hw) (w : wait) (ctxt_ret irq_ret : Z) (pre_init : bool) (s : mhi_controller)
    : Z * mhi_controller :=
  let s := if at_least_M0 (mhi_get_mhi_state h) then mhi_set_mhi_state MHI_STATE_RESET s else s in
  let s := emit ConfigRings s <| pm_state := MHI_PM_DISABLE |> <| dev_state := MHI_STATE_RESET |> in
  let s := (w s).2 in
  if negb pre_init && truth ctxt_ret then (ctxt_ret, s)
  else if negb pre_init && truth irq_ret then (irq_ret, s)
  else if truth (offsets_ret h) then (offsets_ret h, s)
  else
    let s := s <| pm_state := MHI_PM_POR |> <| ee := MHI_EE_MAX |> in
    (0, if MHI_IN_PBL (mhi_get_exec_env h) then emit ScheduleReady s
        else mhi_queue_state_transition MHI_ST_TRANSITION_READY s).

Definition mhi_pm_ready_worker (h : hw) (s : mhi_controller) : mhi_controller :=
  if decide (dev_state s = MHI_STATE_RESET) then
    match (if MHI_REG_ACCESS_VALID (pm_state s) then mhi_get_exec_env h else MHI_EE_MAX) with
    | MHI_EE_PTHRU => emit ScheduleReady s
    | MHI_EE_AMSS | MHI_EE_SBL => mhi_queue_state_transition MHI_ST_TRANSITION_READY s
    | MHI_EE_EDL => mhi_queue_state_transition MHI_ST_TRANSITION_PBL s
    | _ => s
    end
  else s.

Definition __mhi_device_get_sync (w : wait) (s : mhi_controller) : Z * mhi_controller :=
  let s := mhi_assert_dev_wake true s in
  let s := if MHI_PM_IN_SUSPEND_STATE (pm_state s) then emit RuntimeGetPut s else s in
  let '(ret, s) := w s in
  if negb ret || MHI_PM_IN_ERROR_STATE (pm_state s) then (- EIO, mhi_deassert_dev_wake false s)
  else (0, s).

Definition mhi_pm_mission_mode_transition (h : hw) (w : wait) (s : mhi_controller) : Z * mhi_controller :=
  let '(ret, s) := __mhi_device_get_sync w (emit (StatusCb "MHI_CB_EE_MISSION_MODE") s) in
  if truth ret then (ret, s)
  else
    let s := if MHI_REG_ACCESS_VALID (pm_state s) then s <| ee := mhi_get_exec_env h |> else s in
    if negb (MHI_IN_MISSION_MODE (ee s)) then (- EIO, mhi_deassert_dev_wake false s)
    else if MHI_PM_IN_ERROR_STATE (pm_state s) then (- EIO, mhi_deassert_dev_wake false s)
    else (0, mhi_deassert_dev_wake false (emit CreateDevices s)).

(** One item of [mhi_pm_st_worker]. *)
Definition st_item (h : hw) (w : wait) (reset ready : bool) (t : MHI_ST_TRANSITION) (s : mhi_controller)
    : mhi_controller :=
  match t with
  | MHI_ST_TRANSITION_PBL =>
      if MHI_REG_ACCESS_VALID (pm_state s) then s <| ee := mhi_get_exec_env h |> else s
  | MHI_ST_TRANSITION_SBL => emit CreateDevices (s <| ee := MHI_EE_SBL |>)
  | MHI_ST_TRANSITION_MISSION_MODE => (mhi_pm_mission_mode_transition h w s).2
  | MHI_ST_TRANSITION_READY => (mhi_ready_state_transition h w reset ready s).2
  | MHI_ST_TRANSITION_FP => emit CreateDevices (s <| ee := MHI_EE_FP |>)
  end.
(** The worker takes the whole queue; what is queued meanwhile waits for its next run. *)
Definition mhi_pm_st_worker (h : hw) (w : wait) (reset ready : bool) (s : mhi_controller) : mhi_controller :=
  foldl (fun s t => st_item h w reset ready t s) (s <| transition_list := [] |>) (transition_list s).

(** ** Suspend and resume *)
Definition mhi_pm_suspend (w1 w2 : wait) (s : mhi_controller) : Z * mhi_controller :=
  if pm_state s =? MHI_PM_DISABLE then (- EINVAL, s)
  else if MHI_PM_IN_ERROR_STATE (pm_state s) then (- EIO, s)
  else if truth (dev_wake s) then (- EBUSY, s)
  else
    let '(ret, s) := w1 (mhi_assert_dev_wake false s) in
    if negb ret || MHI_PM_IN_ERROR_STATE (pm_state s) then (- EIO, mhi_deassert_dev_wake false s)
    else if 1 <? dev_wake s then (- EBUSY, mhi_deassert_dev_wake false s)
    else
      let s := tryset MHI_PM_M3_ENTER s in
      if negb (pm_state s =? MHI_PM_M3_ENTER) then (- EIO, mhi_deassert_dev_wake false s)
      else
        let '(ret, s) := w2 (mhi_deassert_dev_wake false (mhi_set_mhi_state MHI_STATE_M3 s)) in
        if negb ret || MHI_PM_IN_ERROR_STATE (pm_state s) then (- EIO, s)
        else (0, emit (StatusCb "MHI_CB_LPM_ENTER") s).

Definition mhi_pm_resume (h : hw) (w : wait) (s : mhi_controller) : Z * mhi_controller :=
  if pm_state s =? MHI_PM_DISABLE then (0, s)
  else if MHI_PM_IN_ERROR_STATE (pm_state s) then (- EIO, s)
  else
    let s := tryset MHI_PM_M3_EXIT (emit (StatusCb "MHI_CB_LPM_EXIT") s) in
    if negb (pm_state s =? MHI_PM_M3_EXIT) then (- EIO, s)
    else
      let '(ret, s) := w (mhi_set_mhi_state MHI_STATE_M0 (mhi_assert_dev_wake true s)) in
      let s := mhi_deassert_dev_wake false s in
      if negb ret || MHI_PM_IN_ERROR_STATE (pm_state s) then (- EIO, mhi_intvec_threaded_handlr h s)
      else (0, s).

Definition mhi_debugfs_trigger_reset (w : wait) (s : mhi_controller) : Z * mhi_controller :=
  let '(ret, s) := w (emit RuntimeGetPut s) in
  if negb ret || MHI_PM_IN_ERROR_STATE (pm_state s) then (- EIO, s) else (0, sys_err_detect s).

(** ** The dump of the modem during a kernel panic (mhi_boot.c)

    What it does to the controller, before it programs the transfer of the image and polls
    for its end, neither of which is modelled. *)
Definition __mhi_download_rddm_in_panic (s : mhi_controller) : mhi_controller :=
  mhi_set_mhi_state MHI_STATE_SYS_ERR (s <| pm_state := MHI_PM_LD_ERR_FATAL_DETECT |>).
