(* ===== verification/MhiPmSpec.v ===== *)
(** Theorems about mhi_pm.c: the table is the documented state machine, every
    operation moves along it whatever other threads do, shutting down, and
    suspending and resuming. *)
From S2P Require Import Prelude MhiPm.
#[local] Open Scope Z_scope.

(** ** The documented state machine: the comment above the table *)
Definition pm_states : list Z := [MHI_PM_DISABLE; MHI_PM_POR; MHI_PM_M0; MHI_PM_M2; MHI_PM_M3_ENTER;
  MHI_PM_M3; MHI_PM_M3_EXIT; MHI_PM_FW_DL_ERR; MHI_PM_SYS_ERR_DETECT; MHI_PM_SYS_ERR_PROCESS;
  MHI_PM_SHUTDOWN_PROCESS; MHI_PM_LD_ERR_FATAL_DETECT].

Definition level (s : Z) : nat :=
  if s <=? MHI_PM_FW_DL_ERR then 0 else if s <=? MHI_PM_SYS_ERR_PROCESS then 1
  else if s =? MHI_PM_SHUTDOWN_PROCESS then 2 else 3.
(** The states in which the levels above 0 start. *)
Definition start_states : list Z :=
  [MHI_PM_SYS_ERR_DETECT; MHI_PM_SHUTDOWN_PROCESS; MHI_PM_LD_ERR_FATAL_DETECT].
(** The transitions the comment lists. *)
Definition listed : list (Z * Z) := [
  (MHI_PM_DISABLE, MHI_PM_POR); (MHI_PM_POR, MHI_PM_DISABLE); (MHI_PM_POR, MHI_PM_POR);
  (MHI_PM_POR, MHI_PM_M0); (MHI_PM_M0, MHI_PM_M2); (MHI_PM_M2, MHI_PM_M0);
  (MHI_PM_POR, MHI_PM_FW_DL_ERR); (MHI_PM_FW_DL_ERR, MHI_PM_FW_DL_ERR); (MHI_PM_M0, MHI_PM_FW_DL_ERR);
  (MHI_PM_M0, MHI_PM_M3_ENTER); (MHI_PM_M3_ENTER, MHI_PM_M3); (MHI_PM_M3, MHI_PM_M3_EXIT);
  (MHI_PM_M3_EXIT, MHI_PM_M0);
  (MHI_PM_SYS_ERR_DETECT, MHI_PM_SYS_ERR_PROCESS); (MHI_PM_SYS_ERR_PROCESS, MHI_PM_POR);
  (MHI_PM_SHUTDOWN_PROCESS, MHI_PM_DISABLE);
  (MHI_PM_LD_ERR_FATAL_DETECT, MHI_PM_LD_ERR_FATAL_DETECT);
  (MHI_PM_LD_ERR_FATAL_DETECT, MHI_PM_SHUTDOWN_PROCESS) ].
(** A listed transition, or, except from DISABLE, the start of a higher level. *)
Definition documented (a b : Z) : bool :=
  bool_decide ((a, b) ∈ listed)
  || (negb (a =? MHI_PM_DISABLE) && (level a <? level b)%nat && bool_decide (b ∈ start_states)).

Definition legal (s : Z) : Prop := s ∈ pm_states.
Ltac legal_state := unfold legal; apply (bool_decide_unpack _); by vm_compute.

(** The states that are assigned without regard to the table: by [mhi_async_power_up] and by
    the dump during a kernel panic. *)
Definition assigned_states : list Z := [MHI_PM_DISABLE; MHI_PM_POR; MHI_PM_LD_ERR_FATAL_DETECT].

(** [direct] tells whether there are such assignments. *)
Section Direct.
Context (direct : bool).

(** One attempt to change the state, by any thread, or an assignment. *)
Definition pm_step (a b : Z) : Prop :=
  (exists t, legal t /\ b = mhi_tryset_pm_state a t) \/ direct = true /\ b ∈ assigned_states.

(** What other threads may do to the controller: the same. *)
Definition moves (s s' : mhi_controller) : Prop := rtc pm_step (pm_state s) (pm_state s').
Definition rely (w : wait) : Prop := forall s, moves s (w s).2.

Lemma tryset_table :
  forallb (fun a => forallb (fun b =>
    mhi_tryset_pm_state a b =? (if documented a b then b else a)) pm_states) pm_states = true.
Proof. by vm_compute. Qed.

Lemma tryset_legal a b : legal a -> legal b ->
  mhi_tryset_pm_state a b = (if documented a b then b else a).
Proof.
  intros Ha Hb. pose proof tryset_table as H. rewrite forallb_forall in H.
  specialize (H a (proj1 (list_elem_of_In _ _) Ha)). rewrite forallb_forall in H.
  specialize (H b (proj1 (list_elem_of_In _ _) Hb)). by apply Z.eqb_eq in H.
Qed.

Ltac assigned := apply (bool_decide_unpack _); by vm_compute.
Lemma assigned_legal a : a ∈ assigned_states -> legal a.
Proof. unfold legal, assigned_states, pm_states. set_solver. Qed.
Lemma pm_step_legal a b : legal a -> pm_step a b -> legal b.
Proof.
  intros Ha [(t & Ht & ->)|[_ Hb]]; [|by apply assigned_legal].
  rewrite tryset_legal by done. by destruct (documented a t).
Qed.

(** ** Operations move along the table *)
Lemma moves_refl s : moves s s.
Proof. apply rtc_refl. Qed.
Lemma moves_trans s1 s2 s3 : moves s1 s2 -> moves s2 s3 -> moves s1 s3.
Proof. unfold moves. intros. by etrans. Qed.
(** Only the power state counts. *)
Lemma moves_eq s s1 s2 : moves s s1 -> pm_state s2 = pm_state s1 -> moves s s2.
Proof. unfold moves. by intros H ->. Qed.
Lemma moves_tryset s s' t : legal t -> moves s s' -> moves s (tryset t s').
Proof. intros Ht H. eapply rtc_r; [exact H|]. left. by exists t. Qed.
Lemma moves_assign s s' t : direct = true -> t ∈ assigned_states -> moves s s' -> moves s (s' <| pm_state := t |>).
Proof. intros Hd Ht H. eapply rtc_r; [exact H|]. by right. Qed.
Lemma moves_wait s s' w : rely w -> moves s s' -> moves s (w s').2.
Proof. intros Hw H. eapply moves_trans; [exact H|apply Hw]. Qed.

Lemma assert_pm f s : pm_state (mhi_assert_dev_wake f s) = pm_state s.
Proof. unfold mhi_assert_dev_wake. by case_decide. Qed.

Lemma moves_assert s s' f : moves s s' -> moves s (mhi_assert_dev_wake f s').
Proof. intros H. eapply moves_eq; [exact H|apply assert_pm]. Qed.

Lemma moves_emit s s' e : moves s s' -> moves s (emit e s').
Proof. intros H. by eapply moves_eq. Qed.

Lemma moves_m0 s s' : moves s s' -> moves s (mhi_pm_m0_transition s').2.
Proof.
  intros H. unfold mhi_pm_m0_transition. set (t := tryset _ _).
  assert (moves s t) by (apply moves_tryset; [legal_state|eapply moves_eq; [exact H|done]]).
  destruct (negb _); [done|]. cbn [snd]. unfold mhi_deassert_dev_wake.
  apply moves_emit, moves_assert. by eapply moves_eq.
Qed.
Lemma moves_m1 s s' : moves s s' -> moves s (mhi_pm_m1_transition s').
Proof.
  intros H. unfold mhi_pm_m1_transition. set (t := tryset _ _).
  assert (moves s t) by (apply moves_tryset; [legal_state|done]).
  destruct (_ =? _); [|done]. destruct (truth _).
  - unfold mhi_deassert_dev_wake. apply moves_assert. by eapply moves_eq.
  - by eapply moves_eq.
Qed.
Lemma moves_m3 s s' : moves s s' -> moves s (mhi_pm_m3_transition s').2.
Proof.
  intros H. unfold mhi_pm_m3_transition. set (t := tryset _ _).
  assert (moves s t) by (apply moves_tryset; [legal_state|by eapply moves_eq]).
  destruct (negb _); [done|]. by eapply moves_eq.
Qed.
Lemma moves_sys_err s s' : moves s s' -> moves s (sys_err_detect s').
Proof.
  intros H. unfold sys_err_detect. set (t := tryset _ _).
  assert (moves s t) by (apply moves_tryset; [legal_state|done]).
  destruct (_ =? _); [by eapply moves_eq|done].
Qed.
Lemma moves_ctrl e s s' : moves s s' -> moves s (mhi_process_ctrl_event e s').
Proof.
  intros H. destruct e as [d|e]; [destruct d|destruct e]; cbn [mhi_process_ctrl_event];
    auto using moves_m0, moves_m1, moves_m3, moves_sys_err; by eapply moves_eq.
Qed.
Lemma moves_intvec h s s' : moves s s' -> moves s (mhi_intvec_threaded_handlr h s').
Proof.
  intros H. unfold mhi_intvec_threaded_handlr. set (t := tryset _ _).
  assert (moves s t) by (apply moves_tryset; [legal_state|done]).
  repeat case_decide; repeat (case_match; try done); by eapply moves_eq.
Qed.

Section Operations.
Context (h : hw) (w1 w2 w3 : wait) (in_reset reset ready : bool).
Hypothesis (R1 : rely w1) (R2 : rely w2) (R3 : rely w3).

Lemma moves_ready s s' : moves s s' -> moves s (mhi_ready_state_transition h w3 reset ready s').2.
Proof.
  intros H. unfold mhi_ready_state_transition.
  assert (H' : moves s (w3 s').2) by (by apply moves_wait). revert H'. generalize (w3 s').2. intros s1 H1.
  destruct (MHI_PM_IN_FATAL_STATE _); [done|]. destruct (reset || negb ready); [done|].
  set (t := tryset _ _ <| dev_state := _ |>).
  assert (moves s t) by (eapply (moves_eq _ (tryset MHI_PM_POR s1)); [apply moves_tryset; [legal_state|done]|done]).
  do 3 (case_match; [done|]). by apply moves_emit, moves_emit.
Qed.

Lemma moves_finish c s s' : moves s s' -> moves s (disable_finish h w2 w3 reset ready c s').
Proof.
  intros H. unfold disable_finish.
  assert (H4 : moves s (w2 (emit DestroyDevices s')).2) by (by apply moves_wait, moves_emit).
  revert H4. generalize (w2 (emit DestroyDevices s')).2. intros s4 H4. destruct (_ =? _).
  - case_decide; [|by apply moves_ready]. apply moves_tryset; [legal_state|by eapply moves_eq].
  - apply moves_tryset; [legal_state|done].
Qed.

Lemma moves_disable t s s' : legal t -> moves s s' ->
  moves s (mhi_pm_disable_transition h w1 w2 w3 in_reset reset ready t s').
Proof.
  intros Ht H. unfold mhi_pm_disable_transition.
  set (s0 := if _ =? _ then _ else s'). assert (H0 : moves s s0) by (unfold s0; destruct (_ =? _); [by apply moves_emit|done]).
  clearbody s0. set (s1 := tryset t s0). assert (H1 : moves s s1) by (by apply moves_tryset).
  clearbody s1. destruct (negb _); [done|].
  set (s2 := s1 <| ee := _ |> <| dev_state := _ |>). assert (H2 : moves s s2) by (by eapply moves_eq).
  clearbody s2. destruct (MHI_REG_ACCESS_VALID _); [|by apply moves_finish].
  assert (H3 : moves s (w1 (mhi_set_mhi_state MHI_STATE_RESET s2)).2) by (by apply moves_wait, moves_emit).
  destruct (w1 _) as [ret s3]. destruct (_ && _); [done|]. by apply moves_finish, moves_emit.
Qed.

Lemma moves_power_down g s s' : moves s s' ->
  moves s (mhi_power_down h w1 w2 w3 in_reset reset ready g s').
Proof.
  intros H. unfold mhi_power_down. apply moves_disable; [legal_state|].
  destruct g; [done|]. apply moves_tryset; [legal_state|done].
Qed.

Lemma moves_get_sync s s' : moves s s' -> moves s (__mhi_device_get_sync w1 s').2.
Proof.
  intros H. unfold __mhi_device_get_sync.
  set (s0 := if MHI_PM_IN_SUSPEND_STATE _ then _ else _).
  assert (H0 : moves s s0).
  { unfold s0. destruct (MHI_PM_IN_SUSPEND_STATE _); [apply moves_emit|]; by apply moves_assert. }
  clearbody s0. assert (H1 : moves s (w1 s0).2) by (by apply moves_wait).
  destruct (w1 s0) as [ret s1]. by destruct (_ || _).
Qed.
Lemma moves_mission s s' : moves s s' -> moves s (mhi_pm_mission_mode_transition h w1 s').2.
Proof.
  intros H. unfold mhi_pm_mission_mode_transition.
  assert (H0 : moves s (__mhi_device_get_sync w1 (emit (StatusCb "MHI_CB_EE_MISSION_MODE") s')).2)
    by (by apply moves_get_sync, moves_emit).
  destruct (__mhi_device_get_sync _ _) as [ret s0]. destruct (truth ret); [done|].
  set (s1 := if MHI_REG_ACCESS_VALID _ then _ else _).
  assert (H1 : moves s s1) by (unfold s1; destruct (MHI_REG_ACCESS_VALID _); [by eapply moves_eq|done]).
  clearbody s1. repeat (case_match; try done).
Qed.

Lemma moves_suspend s s' : moves s s' -> moves s (mhi_pm_suspend w1 w2 s').2.
Proof.
  intros H. unfold mhi_pm_suspend. do 3 (case_match; [done|]).
  assert (K1 : moves s (w1 (mhi_assert_dev_wake false s')).2) by (by apply moves_wait, moves_assert).
  destruct (w1 _) as [ret s1]. do 2 (case_match; [done|]).
  set (s2 := tryset _ s1). assert (K2 : moves s s2) by (apply moves_tryset; [legal_state|done]). clearbody s2.
  case_match; [done|]. unfold mhi_deassert_dev_wake.
  assert (K3 : moves s (w2 (mhi_set_mhi_state MHI_STATE_M3 s2)).2) by (by apply moves_wait, moves_emit).
  destruct (w2 _) as [ret' s3]. case_match; [done|]. by apply moves_emit.
Qed.
Lemma moves_resume s s' : moves s s' -> moves s (mhi_pm_resume h w1 s').2.
Proof.
  intros H. unfold mhi_pm_resume. do 2 (case_match; [done|]).
  set (s1 := tryset _ _). assert (K1 : moves s s1) by (apply moves_tryset; [legal_state|by apply moves_emit]).
  clearbody s1. case_match; [done|].
  assert (K2 : moves s (w1 (mhi_set_mhi_state MHI_STATE_M0 (mhi_assert_dev_wake true s1))).2)
    by (by apply moves_wait, moves_emit, moves_assert).
  destruct (w1 _) as [ret s2]. case_match; [by apply moves_intvec|done].
Qed.
Lemma moves_trigger_reset s s' : moves s s' -> moves s (mhi_debugfs_trigger_reset w1 s').2.
Proof.
  intros H. unfold mhi_debugfs_trigger_reset.
  assert (K1 : moves s (w1 (emit RuntimeGetPut s')).2) by (by apply moves_wait, moves_emit).
  destruct (w1 _) as [ret s1]. case_match; [done|]. by apply moves_sys_err.
Qed.
Lemma moves_power_up rc rc' pre s s' : direct = true -> moves s s' ->
  moves s (mhi_async_power_up h w1 rc rc' pre s').2.
Proof.
  intros Hd H. unfold mhi_async_power_up.
  set (s0 := if at_least_M0 _ then _ else s').
  assert (H0 : moves s s0) by (unfold s0; destruct (at_least_M0 _); [by apply moves_emit|done]).
  clearbody s0. set (s1 := emit ConfigRings s0 <| pm_state := _ |> <| dev_state := _ |>).
  assert (H1 : moves s s1).
  { eapply (moves_eq _ (emit ConfigRings s0 <| pm_state := MHI_PM_DISABLE |>)); [|done].
    apply (moves_assign _ (emit ConfigRings s0)); [done|assigned|by apply moves_emit]. }
  clearbody s1. assert (K2 : moves s (w1 s1).2) by (by apply moves_wait).
  revert K2. generalize (w1 s1).2. intros s2 K2. do 3 (case_match; [done|]). cbn [snd].
  assert (K3 : moves s (s2 <| pm_state := MHI_PM_POR |> <| ee := MHI_EE_MAX |>)).
  { eapply (moves_eq _ (s2 <| pm_state := MHI_PM_POR |>)); [|done].
    apply (moves_assign _ s2); [done|assigned|done]. }
  case_match; [by apply moves_emit|by eapply moves_eq].
Qed.
End Operations.

(** Everything that runs, with the other threads running during its waits; power-up and the
    dump only where there are direct assignments. *)
Inductive mhi_step : mhi_controller -> mhi_controller -> Prop :=
  | st_ctrl e s : mhi_step s (mhi_process_ctrl_event e s)
  | st_intvec h s : mhi_step s (mhi_intvec_threaded_handlr h s)
  | st_sys_err h w1 w2 w3 i r d s : rely w1 -> rely w2 -> rely w3 ->
      mhi_step s (mhi_pm_sys_err_worker h w1 w2 w3 i r d s)
  | st_power_down h w1 w2 w3 i r d g s : rely w1 -> rely w2 -> rely w3 ->
      mhi_step s (mhi_power_down h w1 w2 w3 i r d g s)
  | st_ready_worker h s : mhi_step s (mhi_pm_ready_worker h s)
  | st_worker h w r d s : rely w -> mhi_step s (mhi_pm_st_worker h w r d s)
  | st_suspend w1 w2 s : rely w1 -> rely w2 -> mhi_step s (mhi_pm_suspend w1 w2 s).2
  | st_resume h w s : rely w -> mhi_step s (mhi_pm_resume h w s).2
  | st_trigger_reset w s : rely w -> mhi_step s (mhi_debugfs_trigger_reset w s).2
  | st_power_up h w rc rc' pre s : direct = true -> rely w -> mhi_step s (mhi_async_power_up h w rc rc' pre s).2
  | st_panic s : direct = true -> mhi_step s (__mhi_download_rddm_in_panic s).

Lemma moves_ready_worker h s s' : moves s s' -> moves s (mhi_pm_ready_worker h s').
Proof.
  intros H. unfold mhi_pm_ready_worker. case_decide; [|done].
  repeat (case_match; try done); try by apply moves_emit; by eapply moves_eq.
Qed.
Lemma moves_st_worker h w r d s s' : rely w -> moves s s' -> moves s (mhi_pm_st_worker h w r d s').
Proof.
  intros Hw H. unfold mhi_pm_st_worker. assert (H0 : moves s (s' <| transition_list := [] |>)) by (by eapply moves_eq).
  revert H0. generalize (s' <| transition_list := [] |>). induction (transition_list s') as [|t l IH]; intros s1 H1; [done|].
  cbn [foldl]. apply IH. destruct t; cbn [st_item].
  - destruct (MHI_REG_ACCESS_VALID _); [by eapply moves_eq|done].
  - by apply moves_ready.
  - apply moves_emit. by eapply moves_eq.
  - by apply moves_mission.
  - apply moves_emit. by eapply moves_eq.
Qed.

Lemma mhi_step_moves s s' : mhi_step s s' -> moves s s'.
Proof.
  intros H. pose proof (moves_refl s) as R.
  destruct H.
  - by apply moves_ctrl.
  - by apply moves_intvec.
  - apply moves_disable; [done..|legal_state|done].
  - by apply moves_power_down.
  - by apply moves_ready_worker.
  - by apply moves_st_worker.
  - by apply moves_suspend.
  - by apply moves_resume.
  - by apply moves_trigger_reset.
  - by apply moves_power_up.
  - apply moves_emit, (moves_assign _ s); [done|assigned|done].
Qed.

(** A move of the documented state machine, or an assignment. *)
Definition documented_step (a b : Z) : Prop :=
  legal b /\ (documented a b = true \/ direct = true /\ b ∈ assigned_states).
Lemma pm_step_documented a b : legal a -> rtc pm_step a b -> rtc documented_step a b.
Proof.
  intros Hl H. induction H as [|a b c Hab _ IH]; [apply rtc_refl|].
  assert (Hb : legal b) by (by eapply pm_step_legal). specialize (IH Hb).
  destruct Hab as [(t & Ht & ->)|Hd]; [|eapply rtc_l; [|exact IH]; split; [done|by right]].
  rewrite tryset_legal in Hb, IH by done. destruct (documented a t) eqn:E; [|done].
  eapply rtc_l; [|exact IH]. split; [done|by left].
Qed.
Lemma mhi_steps_moves s s' : legal (pm_state s) -> rtc mhi_step s s' -> moves s s'.
Proof.
  intros Hl H. induction H as [|s1 s2 s3 H1 _ IH]; [apply moves_refl|]. apply mhi_step_moves in H1.
  eapply moves_trans; [exact H1|]. apply IH. eapply (inv_rtc _ legal pm_step_legal); [exact H1|done].
Qed.
End Direct.

(** ** Properties *)

(** The table is the documented state machine.  In each of the twelve states
    [mhi_tryset_pm_state] moves to the requested state exactly when the comment above
    the table allows it (a listed transition, or from any state but DISABLE the start
    of a higher level), and otherwise keeps and returns the old state; a word that is
    none of the states is never changed. *)
Theorem tryset_documented cur state :
  legal state -> 0 <= cur < 2 ^ 32 ->
  mhi_tryset_pm_state cur state
  = (if bool_decide (cur ∈ pm_states) && documented cur state then state else cur).
Proof.
  intros Hs Hc. case_bool_decide as Hcur; [by apply tryset_legal|]. cbn [andb].
  unfold mhi_tryset_pm_state. destruct (mhi_state_transitions !! _) as [[from to]|] eqn:E; [|done].
  destruct (Z.eqb_spec from cur) as [->|]; [|done]. destruct Hcur.
  assert (H : Forall (fun x => x.1 ∈ pm_states) mhi_state_transitions) by (by apply (bool_decide_unpack _); vm_compute).
  by apply (Forall_lookup_1 _ _ _ _ H E).
Qed.

Lemma tryset_documented_witness :
  mhi_tryset_pm_state MHI_PM_M2 MHI_PM_M3_ENTER
  = (if bool_decide (MHI_PM_M2 ∈ pm_states) && documented MHI_PM_M2 MHI_PM_M3_ENTER
     then MHI_PM_M3_ENTER else MHI_PM_M2).
Proof. apply tryset_documented; [legal_state|done]. Defined.

(** C23. The driver refines the documented state machine.  Once the controller is in one of
    the twelve states it stays in them, whatever the device reports and reads as, whichever
    of interrupts, control events, workers, power-up and power-down, suspend, resume,
    requested reset and dump of the modem run, however they end, and whatever other threads
    do during their waits (the same operations).  While nobody powers the controller up or
    dumps it, the state moves along documented transitions only; otherwise
    the only other moves are the assignments that [mhi_async_power_up] (to DISABLE and to
    POR) and the dump during a kernel panic (to LD_ERR_FATAL_DETECT) make without regard to
    the table. *)
Theorem mhi_refines_documented direct s s' :
  legal (pm_state s) -> rtc (mhi_step direct) s s' ->
  legal (pm_state s')
  /\ rtc (fun a b => legal b /\
         (documented a b = true \/ direct = true /\ b ∈ [MHI_PM_DISABLE; MHI_PM_POR; MHI_PM_LD_ERR_FATAL_DETECT]))
       (pm_state s) (pm_state s').
Proof.
  intros Hl H. apply mhi_steps_moves in H; [|done].
  split; [by eapply (inv_rtc _ legal (pm_step_legal direct))|]. by apply pm_step_documented.
Qed.

(** A controller in M0, in mission mode. *)
Definition mhi_demo : mhi_controller := mkMhi MHI_PM_M0 MHI_STATE_M0 MHI_EE_AMSS 0 1 0 0 [] [].
Definition hw_demo : hw := mkHw MHI_STATE_SYS_ERR MHI_EE_AMSS 0 true.
(** A wait during which nobody else touches the controller. *)
Definition quiet (w : wait) : Prop := forall s, (w s).2 = s.
Lemma quiet_rely direct w : quiet w -> rely direct w.
Proof. intros Hw s. rewrite Hw. apply moves_refl. Qed.

(** A system error, and the controller is powered up again. *)
Definition mhi_restarted : mhi_controller :=
  (mhi_async_power_up hw_demo (fun s => (true, s)) 0 0 true (mhi_intvec_threaded_handlr hw_demo mhi_demo)).2.
Lemma mhi_refines_documented_witness :
  (legal (pm_state (mhi_intvec_threaded_handlr hw_demo mhi_demo))
   /\ rtc (fun a b => legal b /\ (documented a b = true \/
          false = true /\ b ∈ [MHI_PM_DISABLE; MHI_PM_POR; MHI_PM_LD_ERR_FATAL_DETECT])) MHI_PM_M0 MHI_PM_SYS_ERR_DETECT)
  /\ (pm_state mhi_restarted = MHI_PM_POR /\ legal (pm_state mhi_restarted)).
Proof.
  split.
  - apply (mhi_refines_documented false mhi_demo (mhi_intvec_threaded_handlr hw_demo mhi_demo)).
    + legal_state.
    + apply rtc_once, st_intvec.
  - split; [by vm_compute|]. apply (mhi_refines_documented true mhi_demo mhi_restarted).
    + legal_state.
    + apply (rtc_l _ _ (mhi_intvec_threaded_handlr hw_demo mhi_demo)); [apply st_intvec|].
      apply rtc_once, st_power_up; [done|by apply quiet_rely].
Defined.

(** Power-up leaves POR from whatever state, even that of a controller that was only
    allocated, or DISABLE with the error. *)
Lemma power_up_state h w rc rc' pre s : quiet w ->
  let '(ret, s') := mhi_async_power_up h w rc rc' pre s in
  pm_state s' = if ret =? 0 then MHI_PM_POR else MHI_PM_DISABLE.
Proof.
  intros Hw. unfold mhi_async_power_up. rewrite Hw. unfold truth.
  destruct (Z.eqb_spec rc 0) as [->|E1], (Z.eqb_spec rc' 0) as [->|E2], pre; cbn [negb andb].
  all: try (rewrite (proj2 (Z.eqb_neq rc 0)) by done; done).
  all: try (rewrite (proj2 (Z.eqb_neq rc' 0)) by done; done).
  all: destruct (Z.eqb_spec (offsets_ret h) 0) as [->|E3]; cbn; [by case_match|].
  all: by rewrite (proj2 (Z.eqb_neq (offsets_ret h) 0)) by done.
Qed.

(** From every state but DISABLE the controller can be shut down or declared dead. *)
Lemma tryset_down a t : legal a -> a <> MHI_PM_DISABLE ->
  t = MHI_PM_LD_ERR_FATAL_DETECT \/ t = MHI_PM_SHUTDOWN_PROCESS -> mhi_tryset_pm_state a t = t.
Proof.
  assert (H : Forall (fun a => a <> MHI_PM_DISABLE ->
    mhi_tryset_pm_state a MHI_PM_LD_ERR_FATAL_DETECT = MHI_PM_LD_ERR_FATAL_DETECT
    /\ mhi_tryset_pm_state a MHI_PM_SHUTDOWN_PROCESS = MHI_PM_SHUTDOWN_PROCESS) pm_states)
    by (apply (bool_decide_unpack _); by vm_compute).
  rewrite Forall_forall in H. intros Ha Hn [->| ->]; by apply H.
Qed.

(** Powering down ends in DISABLE.  From every state but DISABLE, where it does
    nothing, and with the reset acknowledged or not, [mhi_power_down] removes the
    child devices and leaves the controller in DISABLE with the device state reset.  It
    asks the device for a reset only in an orderly power-down from a state in which
    the registers are accessible: when the link is dead no register is written. *)
Theorem power_down_disables h w1 w2 w3 in_reset reset ready graceful s :
  legal (pm_state s) -> quiet w1 -> quiet w2 ->
  mhi_power_down h w1 w2 w3 in_reset reset ready graceful s
  = if pm_state s =? MHI_PM_DISABLE then s
    else s <| pm_state := MHI_PM_DISABLE |> <| dev_state := MHI_STATE_RESET |>
           <| ee := MHI_EE_DISABLE_TRANSITION |>
           <| mhi_log := mhi_log s
                ++ (if graceful && MHI_REG_ACCESS_VALID (pm_state s) then [SetMhiState MHI_STATE_RESET; ConfigRings] else [])
                ++ [DestroyDevices] |>.
Proof.
  intros Hl Q1 Q2. destruct s as [pm d e wk a b c tl lg]. change (legal pm) in Hl.
  change (pm_state (mkMhi pm d e wk a b c tl lg)) with pm. unfold mhi_power_down.
  destruct (Z.eqb_spec pm MHI_PM_DISABLE) as [->|Hn]; [by destruct graceful|].
  set (p0 := if graceful then pm else MHI_PM_LD_ERR_FATAL_DETECT).
  assert (E0 : (if graceful then mkMhi pm d e wk a b c tl lg
      else tryset MHI_PM_LD_ERR_FATAL_DETECT (mkMhi pm d e wk a b c tl lg)) = mkMhi p0 d e wk a b c tl lg).
  { unfold p0, tryset. destruct graceful; [done|]. change (pm_state (mkMhi pm d e wk a b c tl lg)) with pm.
    by rewrite tryset_down by auto. }
  rewrite E0. assert (Hp0 : legal p0 /\ p0 <> MHI_PM_DISABLE).
  { unfold p0. destruct graceful; [done|]. split; [legal_state|done]. }
  assert (E1 : tryset MHI_PM_SHUTDOWN_PROCESS (mkMhi p0 d e wk a b c tl lg)
    = mkMhi MHI_PM_SHUTDOWN_PROCESS d e wk a b c tl lg).
  { unfold tryset. change (pm_state (mkMhi p0 d e wk a b c tl lg)) with p0.
    rewrite (tryset_down p0 MHI_PM_SHUTDOWN_PROCESS) by (tauto || (by right)). done. }
  unfold mhi_pm_disable_transition. change (MHI_PM_SHUTDOWN_PROCESS =? MHI_PM_SYS_ERR_PROCESS) with false.
  cbv iota zeta. rewrite E1. change (pm_state (mkMhi p0 d e wk a b c tl lg)) with p0.
  assert (Ha : MHI_REG_ACCESS_VALID p0 = graceful && MHI_REG_ACCESS_VALID pm) by (unfold p0; by destruct graceful).
  rewrite Ha. unfold disable_finish. destruct (graceful && _).
  - rewrite (surjective_pairing (w1 _)), Q1, Q2.
    destruct ((w1 _).1), in_reset; cbn; by rewrite <- !app_assoc.
  - by rewrite Q2.
Qed.

Lemma power_down_disables_witness :
  mhi_power_down hw_demo (fun s => (true, s)) (fun s => (true, s)) (fun s => (true, s)) false false false true mhi_demo
  = mhi_demo <| pm_state := MHI_PM_DISABLE |> <| dev_state := MHI_STATE_RESET |>
      <| ee := MHI_EE_DISABLE_TRANSITION |>
      <| mhi_log := [SetMhiState MHI_STATE_RESET; ConfigRings; DestroyDevices] |>.
Proof.
  apply (power_down_disables hw_demo (fun s => (true, s)) (fun s => (true, s)) (fun s => (true, s))
           false false false true mhi_demo); [legal_state|done|done].
Defined.

(** The device answers a wait with the report of a state. *)
Definition reports (d : mhi_dev_state) : wait := fun s => (true, mhi_process_ctrl_event (StateChange d) s).
Definition silent : wait := fun s => (false, s).

(** Suspend and resume.  From M0, [mhi_pm_suspend] asks the device for M3 and, when it
    reports M3, succeeds in M3; [mhi_pm_resume] then asks for M0 and, when the device
    reports M0, succeeds back in M0 with the doorbells rung.  When the device stays
    silent, the suspend fails and leaves M3_ENTER behind: a resume then fails at once,
    and only a second suspend, which asks for M3 again, leads on to M3. *)
Theorem suspend_resume h w1 w s :
  pm_state s = MHI_PM_M0 -> dev_state s = MHI_STATE_M0 -> dev_wake s = 0 ->
  w1 s = (true, s) ->
  (exists s3, mhi_pm_suspend w1 (reports MHI_STATE_M3) s = (0, s3)
    /\ pm_state s3 = MHI_PM_M3 /\ dev_state s3 = MHI_STATE_M3 /\ n_M3 s3 = n_M3 s + 1
    /\ exists s0, mhi_pm_resume h (reports MHI_STATE_M0) s3 = (0, s0)
        /\ pm_state s0 = MHI_PM_M0 /\ dev_state s0 = MHI_STATE_M0 /\ n_M0 s0 = n_M0 s + 1
        /\ mhi_log s0 = mhi_log s
             ++ [SetMhiState MHI_STATE_M3; StatusCb "MHI_CB_LPM_ENTER"; StatusCb "MHI_CB_LPM_EXIT";
                 SetMhiState MHI_STATE_M0; RingDoorbells (MHI_IN_MISSION_MODE (ee s))])
  /\ (exists s3, mhi_pm_suspend w1 silent s = (- EIO, s3) /\ pm_state s3 = MHI_PM_M3_ENTER
        /\ (mhi_pm_resume h w s3).1 = - EIO
        /\ (forall wa, wa s3 = (true, s3) -> exists s4, mhi_pm_suspend wa (reports MHI_STATE_M3) s3 = (0, s4)
              /\ pm_state s4 = MHI_PM_M3)).
Proof.
  intros Hpm Hd Hw H1. destruct s as [pm d e wk a b c tl lg].
  change (pm = MHI_PM_M0) in Hpm. change (d = MHI_STATE_M0) in Hd. change (wk = 0) in Hw. subst pm d wk.
  set (s := mkMhi _ _ _ _ _ _ _ _ _) in *.
  assert (E : forall w2, mhi_pm_suspend w1 w2 s =
    let '(ret, s) := w2 (mhi_set_mhi_state MHI_STATE_M3 (s <| pm_state := MHI_PM_M3_ENTER |>)) in
    if negb ret || MHI_PM_IN_ERROR_STATE (pm_state s) then (- EIO, s)
    else (0, emit (StatusCb "MHI_CB_LPM_ENTER") s)).
  { intros w2. unfold mhi_pm_suspend. change (mhi_assert_dev_wake false s) with s. by rewrite H1. }
  rewrite !E. clear E H1. subst s. split.
  - eexists. split; [reflexivity|]. do 3 (split; [reflexivity|]). eexists. split; [reflexivity|].
    do 3 (split; [reflexivity|]).
    transitivity (((((lg ++ [SetMhiState MHI_STATE_M3]) ++ [StatusCb "MHI_CB_LPM_ENTER"])
      ++ [StatusCb "MHI_CB_LPM_EXIT"]) ++ [SetMhiState MHI_STATE_M0])
      ++ [RingDoorbells (MHI_IN_MISSION_MODE e)]); [reflexivity|]. rewrite <- !app_assoc. reflexivity.
  - set (t := mkMhi MHI_PM_M3_ENTER MHI_STATE_M0 e 0 a b c tl (lg ++ [SetMhiState MHI_STATE_M3])).
    exists t. do 3 (split; [reflexivity|]). intros wa Hq. unfold mhi_pm_suspend.
    change (mhi_assert_dev_wake false t) with t. rewrite Hq. eexists. by split.
Qed.

Lemma suspend_resume_witness :
  (exists s3, mhi_pm_suspend (fun s => (true, s)) (reports MHI_STATE_M3) mhi_demo = (0, s3)
    /\ pm_state s3 = MHI_PM_M3 /\ dev_state s3 = MHI_STATE_M3 /\ n_M3 s3 = 1
    /\ exists s0, mhi_pm_resume hw_demo (reports MHI_STATE_M0) s3 = (0, s0)
        /\ pm_state s0 = MHI_PM_M0 /\ dev_state s0 = MHI_STATE_M0 /\ n_M0 s0 = 2
        /\ mhi_log s0 = [SetMhiState MHI_STATE_M3; StatusCb "MHI_CB_LPM_ENTER"; StatusCb "MHI_CB_LPM_EXIT";
                         SetMhiState MHI_STATE_M0; RingDoorbells true])
  /\ (exists s3, mhi_pm_suspend (fun s => (true, s)) silent mhi_demo = (- EIO, s3) /\ pm_state s3 = MHI_PM_M3_ENTER
        /\ (mhi_pm_resume hw_demo silent s3).1 = - EIO
        /\ (forall wa, wa s3 = (true, s3) -> exists s4, mhi_pm_suspend wa (reports MHI_STATE_M3) s3 = (0, s4)
              /\ pm_state s4 = MHI_PM_M3)).
Proof. by apply (suspend_resume hw_demo (fun s => (true, s)) silent mhi_demo). Defined.
