(* ===== verification/MbimCm.v ===== *)
(** The MBIM connection manager (mbim-cm.c): the composition of commands, the
    pairing of requests and responses, the tracked states and their indications,
    and the request operations that the main loop uses when the modem works in MBIM
    mode ([mbim_ops_table] is an instance of the interface of CmMain).

    A message is the list of its bytes; all fields are little-endian.  Time-outs
    are not numbers here: how a wait ends is decided by the environment [dev]. *)
From S2P Require Import Prelude QmiTlv CmTypes QmiCompose QmiThread QmiRequests CmMain MbimProxy.
#[local] Open Scope Z_scope.

(** ** Constants *)
Definition UUID_BASIC_CONNECT : string := "a289cc33-bcbb-8b4f-b6b0-133ec2aae6df".
Definition UUID_BASIC_CONNECT_EXT : string := "3d01dcc5-fef5-4d05-0d3a-bef7058e9aaf".
Definition uuid_ext_qmux : string := "d1a30bc2-f97a-6e43-bf65-c7e24fb0f0d3".
Definition UUID_LIBMBIM_PROXY : string := "838cf7fb-8d0d-4d7f-871e-d71dbefbb39b".
Definition UUID_MBIMContextTypeInternet : string := "7E5E2A7E-4E6F-7272-736B-656E7E5E2A7E".

Definition MBIM_CID_CMD_TYPE_QUERY : Z := 0.
Definition MBIM_CID_CMD_TYPE_SET : Z := 1.
Definition MBIM_CID_DEVICE_CAPS : Z := 1.
Definition MBIM_CID_SUBSCRIBER_READY_STATUS : Z := 2.
Definition MBIM_CID_RADIO_STATE : Z := 3.
Definition MBIM_CID_REGISTER_STATE : Z := 9.
Definition MBIM_CID_PACKET_SERVICE : Z := 10.
Definition MBIM_CID_CONNECT : Z := 12.
Definition MBIM_CID_IP_CONFIGURATION : Z := 15.
Definition MBIM_CID_DEVICE_SERVICES : Z := 16.
Definition MBIM_CID_MS_VERSION : Z := 15.
Definition MBIM_CID_PROXY_CONTROL_CONFIGURATION : Z := 1.

Definition MBIM_COMMAND_MSG : Z := 3.
Definition MBIM_CLOSE_DONE : Z := 0x80000002.
Definition MBIM_COMMAND_DONE : Z := 0x80000003.
Definition MBIM_FUNCTION_ERROR_MSG : Z := 0x80000004.
Definition MBIM_INDICATE_STATUS_MSG : Z := 0x80000007.
Definition MBIM_ERROR_NOT_OPENED : Z := 5.

Definition MBIMSubscriberReadyStateNotInitialized : Z := 0.
Definition MBIMSubscriberReadyStateInitialized : Z := 1.
Definition MBIMSubscriberReadyStateSimNotInserted : Z := 2.
Definition MBIMSubscriberReadyStateBadSim : Z := 3.
Definition MBIMSubscriberReadyStateFailure : Z := 4.
Definition MBIMSubscriberReadyStateNotActivated : Z := 5.
Definition MBIMSubscriberReadyStateDeviceLocked : Z := 6.
Definition MBIMRegisterStateUnknown : Z := 0.
Definition MBIMRegisterStateHome : Z := 3.
Definition MBIMRegisterStateRoaming : Z := 4.
Definition MBIMPacketServiceStateUnknown : Z := 0.
Definition MBIMPacketServiceStateAttached : Z := 2.
Definition MBIMPacketServiceActionAttach : Z := 0.
Definition MBIMActivationStateUnknown : Z := 0.
Definition MBIMActivationStateActivated : Z := 1.
Definition MBIMActivationCommandDeactivate : Z := 0.
Definition MBIMActivationCommandActivate : Z := 1.
Definition MBIMCompressionNone : Z := 0.
Definition MBIMAuthProtocolNone : Z := 0.
Definition MBIMContextIPTypeDefault : Z := 0.
Definition MBIMContextIPTypeIPv4 : Z := 1.
Definition MBIMContextIPTypeIPv6 : Z := 2.
Definition MBIMContextIPTypeIPv4AndIPv6 : Z := 4.
Definition MBIMRadioOn : Z := 1.
Definition LIBMBIM_PROXY : cstr := bytes_of_string "mbim-proxy".
Definition QUECTEL_MBIM_PROXY : cstr := bytes_of_string "quectel-mbim-proxy".

(** Sizes and offsets of the packed structures (MessageType and TransactionId are
    those of the proxy). *)
Definition OFF_MessageLength : nat := 4.
Definition OFF_DeviceServiceId : nat := 20.
Definition OFF_CMD_CID : nat := 36.
Definition OFF_CMD_Status : nat := 40.
Definition OFF_CMD_InformationBufferLength : nat := 44.
Definition OFF_InformationBuffer : nat := 48.
Definition OFF_IND_InformationBuffer : nat := 44.
Definition SIZEOF_MBIM_COMMAND_MSG : nat := 48.
Definition SIZEOF_MBIM_SET_CONNECT : nat := 60.
Definition SIZEOF_MBIM_IP_CONFIGURATION_INFO : nat := 60.
Definition SIZEOF_MBIM_LIBQMI_PROXY_CONFIG : nat := 12.

(** ** UUIDs, wide characters, byte order *)

(** The character "-". *)
Definition dash_char : Ascii.ascii := Ascii.ascii_of_N 45.
(** [tolower] of a letter; [sscanf] accepts both cases of a hexadecimal digit. *)
Definition hex_digit (c : Ascii.ascii) : option Z :=
  let n := Z.of_N (Ascii.N_of_ascii c) in
  if (48 <=? n) && (n <=? 57) then Some (n - 48)
  else if (97 <=? n) && (n <=? 102) then Some (n - 87)
  else if (65 <=? n) && (n <=? 70) then Some (n - 55) else None.
(** One step of the format: [true] is "%02x", [false] the literal "-". *)
Fixpoint scan_uuid (fmt : list bool) (s : string) : option (list Z) :=
  match fmt with
  | [] => Some []
  | true :: fmt =>
      match s with
      | String a (String b s) =>
          x ← hex_digit a; y ← hex_digit b; r ← scan_uuid fmt s; Some (16 * x + y :: r)
      | _ => None
      end
  | false :: fmt =>
      match s with
      | String a s => if decide (a = dash_char) then scan_uuid fmt s else None
      | _ => None
      end
  end.
Definition uuid_format : list bool :=
  [true; true; true; true; false; true; true; false; true; true; false; true; true; false;
   true; true; true; true; true; true].
(** [str2uuid]; [None] when the format does not match (the rest of [d] is then
    uninitialised). *)
Definition str2uuid (str : string) : option (list Z) := scan_uuid uuid_format str.

Definition hex_char (d : Z) : Ascii.ascii :=
  Ascii.ascii_of_N (Z.to_N (if d <? 10 then d + 48 else d + 87)).
Fixpoint print_uuid (fmt : list bool) (u : list Z) : string :=
  match fmt, u with
  | true :: fmt, b :: u =>
      String (hex_char (b / 16)) (String (hex_char (b mod 16)) (print_uuid fmt u))
  | false :: fmt, u => String dash_char (print_uuid fmt u)
  | _, _ => EmptyString
  end.
Definition uuid2str (u : list Z) : string := print_uuid uuid_format u.

(** [wchar2char]: every second byte of the source at offset [o], at most
    [dst_len - 1] of them. *)
Definition wchar2char (b : list Z) (o : Z) (src_size : Z) (dst_len : nat) : res cstr :=
  mapM (fun i => rd8 b (Z.to_nat o + 2 * i)) (seq 0 (Nat.min (dst_len - 1) (Z.to_nat (src_size / 2)))).

Definition char2wchar (src : cstr) (src_len dst_len : nat) : list Z :=
  mjoin ((fun c => [c; 0]) <$> take (Nat.min src_len (dst_len / 2)) src).

Definition mbim2qmi_ipv4addr (addr : Z) : Z :=
  Z.lor (Z.lor (Z.lor (Z.shiftr addr 24) (Z.land (Z.shiftr addr 8) 0xff00))
    (Z.land (u32 (Z.shiftl addr 8)) 0xff0000)) (u32 (Z.shiftl addr 24)).

(** ** State

    The file-scope statics.  [mb_events] is what was sent to the main thread,
    [mb_out] what was written to the descriptor, [mb_calls] the number of commands. *)
Record mbim := mkMbim {
  mb_TransactionId : Z; mbim_fd : Z; s_tid_reader : bool;
  mbim_pRequest : option (list Z); mbim_pResponse : option (list Z);
  mbim_open_state : Z;
  ReadyState : Z; RegisterState : Z; PacketServiceState : Z; ActivationState : Z;
  oldReadyState : Z; oldRegisterState : Z; oldPacketServiceState : Z; oldActivationState : Z;
  mbim_apn : option cstr; mbim_user : option cstr; mbim_passwd : option cstr;
  mbim_iptype : Z; mbim_auth : Z; mbim_sessionID : Z; mbim_ms_version : Z;
  qmi_over_mbim_support : Z; qmi_over_mbim_nas : Z; qmi_over_mbim_sk : bool;
  mb_events : list dev_event; mb_out : list (list Z); mb_sk_out : list (list Z); mb_calls : nat }.

Definition mbim_statics : mbim :=
  mkMbim 1 (-1) false None None 0 0 0 0 0 0 0 0 0 None None None 0 0 0 1 0 0 false [] [] [] 0.

Definition MB (A : Type) : Type := M mbim A.
#[export] Instance MB_ret : MRet MB := @M_ret mbim.
#[export] Instance MB_bind : MBind MB := @M_bind mbim.

(** What the reader thread does: a message is read, or the thread quits. *)
Inductive delivery := Msg (m : list Z) | ReaderQuit.
(** What happens around one command: what the reader did since the last one, and,
    for the message that is written, what [write] returns, what the reader does during
    the wait, and how the wait ends (0 after a signal, [ETIMEDOUT] otherwise). *)
Record exchange := mkExchange {
  ex_before : list delivery; ex_write : list Z -> Z;
  ex_during : list Z -> list delivery; ex_wait : list Z -> Z }.

(** ** The reader thread *)
Definition mb_event (e : dev_event) : MB unit := M_upd (fun s => s <| mb_events := mb_events s ++ [e] |>).

(** Indications of the basic-connect service. *)
Definition indication (m : list Z) : MB unit :=
  s ← (M_get : MB mbim);
  CID ← M_lift (rd32 m OFF_CMD_CID);
  if CID =? MBIM_CID_SUBSCRIBER_READY_STATUS then
    v ← M_lift (rd32 m OFF_IND_InformationBuffer);
    if negb (oldReadyState s =? v) then mb_event (Report RIL_UNSOL_RESPONSE_VOICE_NETWORK_STATE_CHANGED)
    else mret tt
  else if CID =? MBIM_CID_REGISTER_STATE then
    v ← M_lift (rd32 m (OFF_IND_InformationBuffer + 4));
    if negb (oldRegisterState s =? v) then mb_event (Report RIL_UNSOL_RESPONSE_VOICE_NETWORK_STATE_CHANGED)
    else mret tt
  else if CID =? MBIM_CID_PACKET_SERVICE then
    v ← M_lift (rd32 m (OFF_IND_InformationBuffer + 4));
    if negb (oldPacketServiceState s =? v) then mb_event (Report RIL_UNSOL_RESPONSE_VOICE_NETWORK_STATE_CHANGED)
    else mret tt
  else if CID =? MBIM_CID_CONNECT then
    id ← M_lift (rd32 m OFF_IND_InformationBuffer);
    if id =? u32 (mbim_sessionID s) then
      v ← M_lift (rd32 m (OFF_IND_InformationBuffer + 4));
      if negb (oldActivationState s =? v) then mb_event (Report RIL_UNSOL_DATA_CALL_LIST_CHANGED)
      else mret tt
    else mret tt
  else mret tt.

(** [mbim_recv_command] with a message: a response to the request in flight, by its
    id alone, replaces what was received before; an indication is looked at; anything
    else is dropped. *)
Definition mbim_recv_command (m : list Z) : MB unit :=
  s ← (M_get : MB mbim);
  matches ← (match mbim_pRequest s with
             | Some req => M_lift (a ← rd32 req OFF_TransactionId; b ← rd32 m OFF_TransactionId; mret (a =? b))
             | None => mret false end);
  if (matches : bool) then
    len ← M_lift (rd32 m OFF_MessageLength);
    copy ← M_lift (rdn m 0 (Z.to_nat len));
    M_upd (fun s => s <| mbim_pResponse := Some copy |>)
  else
    ty ← M_lift (rd32 m OFF_MessageType);
    if ty =? MBIM_INDICATE_STATUS_MSG then
      id ← M_lift (rdn m OFF_DeviceServiceId 16);
      uuid ← M_lift (of_option (str2uuid UUID_BASIC_CONNECT));
      if decide (id = uuid) then indication m else mret tt
    else mret tt.

(** The end of [mbim_read_thread]. *)
Definition mbim_read_quit : MB unit :=
  _ ← (M_upd (fun s => s <| mbim_fd := -1 |>) : MB unit);
  _ ← mb_event RIL_INDICATE_DEVICE_DISCONNECTED;
  M_upd (fun s => s <| s_tid_reader := false |>).

Definition reader_step (d : delivery) : MB unit :=
  match d with Msg m => mbim_recv_command m | ReaderQuit => mbim_read_quit end.
Definition reader_run (l : list delivery) : MB unit :=
  foldr (fun d k => _ ← reader_step d; k) (mret tt) l.

(** The start of [mbim_read_thread]: which session, and whether through a proxy;
    [opened] is what [cm_open_proxy] or [cm_open_dev] returns for the path. *)
Definition mbim_read_start (opened : cstr -> Z) (s : rq mbim) : rq mbim :=
  let p := rq_p s in
  let s := s <| rq_w := (rq_w s) <| s_tid_reader := true |> |> in
  let s := if (1 <? qmap_mode p) && nonnil (qmapnet_adapter p)
           then s <| rq_p := p <| proxy := (if nonnil (proxy p) then proxy p else QUECTEL_MBIM_PROXY) |> |>
                  <| rq_w := (rq_w s) <| mbim_sessionID := pdp p |> |>
           else s in
  let p := rq_p s in
  let fd := opened (if nonnil (proxy p) then proxy p else qmichannel p) in
  if 0 <? fd then s <| rq_w := (rq_w s) <| mbim_fd := fd |> |>
  else s <| rq_w := (rq_w s) <| mbim_fd := -1 |> <| s_tid_reader := false |>
                 <| mb_events := mb_events (rq_w s) ++ [RIL_INDICATE_DEVICE_DISCONNECTED] |> |>.

(** ** Commands

    [junk n] is what [n] bytes of memory happen to hold before they are written;
    allocation succeeds. *)
Section Commands.
Context (dev : nat -> exchange) (junk : nat -> list Z) (sk_write : list Z -> Z).

Definition take_tid : MB Z := fun s =>
  Ok (mb_TransactionId s, s <| mb_TransactionId := u32 (mb_TransactionId s + 1) |>).

Definition compose_open_command (MaxControlTransfer : Z) : MB (list Z) :=
  t ← take_tid; mret (enc32 MBIM_OPEN_MSG ++ enc32 16 ++ enc32 t ++ enc32 MaxControlTransfer).
Definition compose_close_command : MB (list Z) :=
  t ← take_tid; mret (enc32 MBIM_CLOSE_MSG ++ enc32 12 ++ enc32 t).

(** [pInformationBuffer = NULL] leaves the buffer of the message unwritten, and its
    length field zero. *)
Definition compose_basic_connect_command (CID CommandType : Z) (pInformationBuffer : option (list Z))
    (InformationBufferLength : nat) : MB (list Z) :=
  t ← take_tid;
  uuid ← M_lift (of_option (str2uuid UUID_BASIC_CONNECT));
  body ← M_lift (match pInformationBuffer with
                 | Some b => rdn b 0 InformationBufferLength
                 | None => Ok (junk InformationBufferLength) end);
  let n := Z.of_nat InformationBufferLength in
  mret (enc32 MBIM_COMMAND_MSG ++ enc32 (Z.of_nat SIZEOF_MBIM_COMMAND_MSG + n) ++ enc32 t
        ++ enc32 1 ++ enc32 0 ++ uuid ++ enc32 CID ++ enc32 CommandType
        ++ enc32 (match pInformationBuffer with Some _ => n | None => 0 end) ++ body).

Definition with_service (service : string) (m : MB (list Z)) : MB (list Z) :=
  m ← m; uuid ← M_lift (of_option (str2uuid service)); M_lift (wr OFF_DeviceServiceId uuid m).
Definition compose_basic_connect_ext_command (CID CommandType : Z) (b : option (list Z)) (n : nat) : MB (list Z) :=
  with_service UUID_BASIC_CONNECT_EXT (compose_basic_connect_command CID CommandType b n).
Definition compose_qmi_over_mbim_command (CID CommandType : Z) (b : option (list Z)) (n : nat) : MB (list Z) :=
  with_service uuid_ext_qmux (compose_basic_connect_command CID CommandType b n).

(** The id of a request that has just left the 24 bits that the proxy leaves it. *)
Definition reset_tid (req : list Z) : MB (list Z) :=
  t ← M_lift (rd32 req OFF_TransactionId);
  if t =? 0xFFFFFF + 1 then
    _ ← (M_upd (fun s => s <| mb_TransactionId := 1 |>) : MB unit);
    t ← take_tid; M_lift (wr OFF_TransactionId (enc32 t) req)
  else mret req.

Definition mbim_send_command (pRequest : option (list Z)) : MB (Z * option (list Z)) :=
  s0 ← (M_get : MB mbim);
  let ex := dev (mb_calls s0) in
  _ ← (M_upd (fun s => s <| mb_calls := S (mb_calls s) |>) : MB unit);
  _ ← reader_run (ex_before ex);
  s ← (M_get : MB mbim);
  if mbim_fd s <=? 0 then mret (- ENODEV, None)
  else if negb (s_tid_reader s) then mret (- EINVAL, None)
  else
    match pRequest with
    | None => mret (-12, None)
    | Some req =>
        req ← reset_tid req;
        len ← M_lift (rd32 req OFF_MessageLength);
        out ← M_lift (rdn req 0 (Z.to_nat len));
        _ ← (M_upd (fun s => s <| mbim_pRequest := Some req |> <| mbim_pResponse := None |>
                      <| mb_out := mb_out s ++ [take (Z.to_nat (ex_write ex out)) out] |>) : MB unit);
        r ← (if (0 <? ex_write ex out) && (u32 (ex_write ex out) =? len) then
               _ ← reader_run (ex_during ex out);
               s ← (M_get : MB mbim);
               mret (ex_wait ex out, if ex_wait ex out =? 0 then mbim_pResponse s else None)
             else mret (ex_write ex out, None));
        _ ← (M_upd (fun s => s <| mbim_pRequest := None |> <| mbim_pResponse := None |>) : MB unit);
        mret r
    end.

Definition mbim_status_code (pMsgHdr : option (list Z)) : MB Z :=
  match pMsgHdr with
  | None => mret 0
  | Some m =>
      ty ← M_lift (rd32 m OFF_MessageType);
      if (ty =? MBIM_OPEN_DONE) || (ty =? MBIM_CLOSE_DONE) then
        v ← M_lift (rd32 m OFF_Status); mret (s32 v)
      else if ty =? MBIM_COMMAND_DONE then v ← M_lift (rd32 m OFF_CMD_Status); mret (s32 v)
      else if ty =? MBIM_FUNCTION_ERROR_MSG then
        v ← M_lift (rd32 m OFF_Status);
        _ ← (M_when (s32 v =? MBIM_ERROR_NOT_OPENED) (M_upd (fun s => s <| mbim_open_state := 0 |>)) : MB unit);
        mret (s32 v)
      else mret 0
  end.

(** [mbim_check_err]: an early return ([inl]), or the response. *)
Definition mbim_check_err (err : Z) (pCmdDone : option (list Z)) : MB (Z + list Z) :=
  status ← mbim_status_code pCmdDone;
  match pCmdDone with
  | Some d => if truth err then mret (inl err) else if truth status then mret (inl status) else mret (inr d)
  | None => mret (inl (if truth err then err else if truth status then status else 8888))
  end.

(** The common shape of the commands: compose, send, check, interpret. *)
Definition command (req : MB (list Z)) (k : list Z -> MB Z) : MB Z :=
  req ← req;
  r ← mbim_send_command (Some req);
  c ← mbim_check_err r.1 r.2;
  match c with inl e => mret e | inr d => k d end.
(** [if (InformationBufferLength) f], then [err], which is zero here. *)
Definition with_info (f : list Z -> MB unit) (d : list Z) : MB Z :=
  len ← M_lift (rd32 d OFF_CMD_InformationBufferLength);
  _ ← (if truth len then f d else mret tt); mret 0.

Definition mbim_update_state : MB Z := fun s =>
  let chages := b2z (negb (oldReadyState s =? ReadyState s)) + b2z (negb (oldRegisterState s =? RegisterState s))
    + b2z (negb (oldPacketServiceState s =? PacketServiceState s))
    + b2z (negb (oldActivationState s =? ActivationState s)) in
  Ok (chages, s <| oldReadyState := ReadyState s |> <| oldRegisterState := RegisterState s |>
      <| oldPacketServiceState := PacketServiceState s |> <| oldActivationState := ActivationState s |>).
(** Store a field of the information buffer in a state, then [mbim_update_state]. *)
Definition track (o : nat) (set : Z -> mbim -> mbim) (d : list Z) : MB unit :=
  v ← M_lift (rd32 d (OFF_InformationBuffer + o));
  _ ← (M_upd (set v) : MB unit);
  _ ← mbim_update_state; mret tt.
Definition set_ActivationState (v : Z) (s : mbim) : mbim := s <| ActivationState := v |>.
Definition set_PacketServiceState (v : Z) (s : mbim) : mbim := s <| PacketServiceState := v |>.
Definition set_RegisterState (v : Z) (s : mbim) : mbim := s <| RegisterState := v |>.
Definition set_ReadyState (v : Z) (s : mbim) : mbim := s <| ReadyState := v |>.

Definition mbim_open_device (MaxControlTransfer : Z) : MB Z :=
  command (compose_open_command MaxControlTransfer)
    (fun d => v ← M_lift (rd32 d OFF_Status); mret (s32 v)).
Definition mbim_close_device : MB Z :=
  command compose_close_command (fun d => v ← M_lift (rd32 d OFF_Status); mret (s32 v)).

(** Only [SessionId] of the structure on the stack is set. *)
Definition mbim_query_connect (sessionID : Z) : MB Z :=
  command (compose_basic_connect_command MBIM_CID_CONNECT MBIM_CID_CMD_TYPE_QUERY
             (Some (enc32 sessionID ++ junk (SIZEOF_MBIM_SET_CONNECT - 4))) SIZEOF_MBIM_SET_CONNECT)
    (with_info (track 4 set_ActivationState)).

Definition mbim_ms_version_query : MB Z :=
  command (compose_basic_connect_ext_command MBIM_CID_MS_VERSION MBIM_CID_CMD_TYPE_QUERY (Some [0; 1; 0; 2]) 4)
    (with_info (fun d => v ← M_lift (rd8 d (OFF_InformationBuffer + 3));
                         M_upd (fun s => s <| mbim_ms_version := v |>))).

(** The CIDs of one service; the element is at offset [e] of the message. *)
Fixpoint has_cid (d : list Z) (o : nat) (n : nat) (cid : Z) : res bool :=
  match n with
  | O => mret false
  | S n => v ← rd32 d o; r ← has_cid d (o + 4) n cid; mret ((cid =? v) || r)
  end.
(** The loop over the service list: whether version 2 was found, and the state. *)
Fixpoint services_loop (d : list Z) (i n : nat) (mbim_v2_support : bool) : MB bool :=
  match n with
  | O => mret mbim_v2_support
  | S n =>
      offset ← M_lift (rd32 d (OFF_InformationBuffer + 8 + 8 * i));
      let e := (OFF_InformationBuffer + Z.to_nat offset)%nat in
      id ← M_lift (rdn d e 16);
      if decide (Some id = str2uuid UUID_BASIC_CONNECT_EXT) then
        c ← M_lift (rd32 d (e + 24));
        found ← M_lift (has_cid d (e + 28) (Z.to_nat c) MBIM_CID_MS_VERSION);
        services_loop d (S i) n (mbim_v2_support || found)
      else if decide (Some id = str2uuid uuid_ext_qmux) then
        _ ← (M_upd (fun s => s <| qmi_over_mbim_support := 1 |>) : MB unit);
        services_loop d (S i) n mbim_v2_support
      else services_loop d (S i) n mbim_v2_support
  end.
Definition mbim_device_services_query : MB Z :=
  command (compose_basic_connect_command MBIM_CID_DEVICE_SERVICES MBIM_CID_CMD_TYPE_QUERY None 0)
    (fun d =>
      len ← M_lift (rd32 d OFF_CMD_InformationBufferLength);
      v2 ← (if truth len then
              n ← M_lift (rd32 d OFF_InformationBuffer); services_loop d 0 (Z.to_nat n) false
            else mret false);
      _ ← (if (v2 : bool) then mbim_ms_version_query else mret 0);
      mret 0).

Definition mbim_set_radio_state (RadioState : Z) : MB Z :=
  command (compose_basic_connect_command MBIM_CID_RADIO_STATE MBIM_CID_CMD_TYPE_SET (Some (enc32 RadioState)) 4)
    (with_info (fun _ => mret tt)).

Definition mbim_subscriber_status_query : MB Z :=
  command (compose_basic_connect_command MBIM_CID_SUBSCRIBER_READY_STATUS MBIM_CID_CMD_TYPE_QUERY None 0)
    (with_info (fun d =>
      let field o := M_lift (rd32 d (OFF_InformationBuffer + o)) : MB Z in
      let text o n := (o ← field o; n ← field n;
                       M_lift (wchar2char d (Z.of_nat OFF_InformationBuffer + o) n 32)) : MB cstr in
      _ ← text 4%nat 8%nat; _ ← text 12%nat 16%nat; track 0 set_ReadyState d)).

Definition mbim_register_state_query : MB Z :=
  command (compose_basic_connect_command MBIM_CID_REGISTER_STATE MBIM_CID_CMD_TYPE_QUERY None 0)
    (with_info (track 4 set_RegisterState)).
Definition mbim_packet_service_query : MB Z :=
  command (compose_basic_connect_command MBIM_CID_PACKET_SERVICE MBIM_CID_CMD_TYPE_QUERY None 0)
    (with_info (track 4 set_PacketServiceState)).
Definition mbim_packet_service_set (action : Z) : MB Z :=
  command (compose_basic_connect_command MBIM_CID_PACKET_SERVICE MBIM_CID_CMD_TYPE_SET (Some (enc32 action)) 4)
    (with_info (track 4 set_PacketServiceState)).

(** ** The connect command *)
Definition align_32 (len : nat) : nat :=
  (len + (if (len mod 4 =? 0)%nat then 0 else 4 - len mod 4))%nat.
(** [strlen], 0 for NULL *)
Definition str_len (s : option cstr) : nat := length (default [] s).
Definition connect_buflen (a u p : option cstr) : nat :=
  align_32 (align_32 (align_32 (2 * str_len a) + 2 * str_len u) + 2 * str_len p).

(** One string: its size, its offset, its characters; the new [offset] is the number
    of bytes [char2wchar] wrote. *)
Definition put_wide (OFF : nat) (str : option cstr) (buflen : nat) (b : list Z) (offset : nat)
    : res (list Z * nat) :=
  match str with
  | Some ((_ :: _) as s) =>
      b ← wr (OFF + 4) (enc32 (2 * Z.of_nat (length s))) b;
      b ← wr OFF (enc32 (Z.of_nat (offset + SIZEOF_MBIM_SET_CONNECT))) b;
      let w := char2wchar s (length s) (buflen - offset) in
      b ← wr (SIZEOF_MBIM_SET_CONNECT + offset) w b;
      mret (b, length w)
  | _ => mret (b, offset)
  end.
(** [mbim_populate_connect_data]: the structure with its [DataBuffer], and [buflen]. *)
Definition mbim_populate_connect_data (a u p : option cstr) : res (list Z * nat) :=
  let buflen := connect_buflen a u p in
  r ← put_wide 8 a buflen (zeros (SIZEOF_MBIM_SET_CONNECT + buflen)) 0;
  r ← put_wide 16 u buflen r.1 (align_32 r.2);
  r ← put_wide 24 p buflen r.1 (align_32 r.2);
  mret (r.1, buflen).

Definition fill_connect (onoff sessionID auth iptype : Z) (b : list Z) : res (list Z) :=
  b ← wr 0 (enc32 sessionID) b;
  b ← wr 4 (enc32 (if onoff =? 0 then MBIMActivationCommandDeactivate else MBIMActivationCommandActivate)) b;
  b ← wr 32 (enc32 MBIMCompressionNone) b;
  b ← wr 36 (enc32 auth) b;
  b ← wr 40 (enc32 iptype) b;
  uuid ← of_option (str2uuid UUID_MBIMContextTypeInternet);
  wr 44 uuid b.

Definition mbim_set_connect (onoff sessionID : Z) : MB Z :=
  s ← (M_get : MB mbim);
  r ← M_lift (mbim_populate_connect_data (mbim_apn s) (mbim_user s) (mbim_passwd s));
  b ← M_lift (fill_connect onoff sessionID (mbim_auth s) (mbim_iptype s) r.1);
  command (compose_basic_connect_command MBIM_CID_CONNECT MBIM_CID_CMD_TYPE_SET (Some b)
             (SIZEOF_MBIM_SET_CONNECT + r.2))
    (with_info (track 4 set_ActivationState)).

(** ** Commands that read or write the profile *)
#[local] Instance RM_ret : MRet (M (rq mbim)) := @M_ret (rq mbim).
#[local] Instance RM_bind : MBind (M (rq mbim)) := @M_bind (rq mbim).
Definition RM (A : Type) : Type := M (rq mbim) A.

Definition onW {A} (m : MB A) : RM A := fun s =>
  match m (rq_w s) with Ok (a, w) => Ok (a, s <| rq_w := w |>) | Fault => Fault | OutOfFuel => OutOfFuel end.
Definition setp (f : PROFILE_T -> PROFILE_T) : RM unit := M_upd (fun s => s <| rq_p := f (rq_p s) |>).
Definition profile_ : RM PROFILE_T := fun s => Ok (rq_p s, s).
(** [command] with an interpretation that changes the profile. *)
Definition commandP (req : MB (list Z)) (k : list Z -> RM Z) : RM Z :=
  c ← onW (req ← req; r ← mbim_send_command (Some req); mbim_check_err r.1 r.2);
  match c with inl e => mret e | inr d => k d end.
Definition with_infoP (f : list Z -> RM unit) (d : list Z) : RM Z :=
  len ← (M_lift (rd32 d OFF_CMD_InformationBufferLength) : RM Z);
  _ ← (if truth len then f d else mret tt); mret 0.

(** The information buffer: a field, a text behind an offset and a size. *)
Definition info32 (d : list Z) (o : nat) : RM Z := M_lift (rd32 d (OFF_InformationBuffer + o)).
Definition info_text (d : list Z) (o n : nat) (k : cstr -> RM unit) : RM unit :=
  o ← info32 d o; n ← info32 d n;
  if truth o && truth n then
    t ← (M_lift (wchar2char d (Z.of_nat OFF_InformationBuffer + o) n 32) : RM cstr); k t
  else mret tt.
Definition mbim_device_caps_query : RM Z :=
  commandP (compose_basic_connect_command MBIM_CID_DEVICE_CAPS MBIM_CID_CMD_TYPE_QUERY None 0)
    (with_infoP (fun d =>
      _ ← info_text d 40 44 (fun _ => mret tt);
      _ ← info_text d 48 52 (fun t => setp (fun p => p <| BaseBandVersion := until_nul t |>));
      info_text d 56 60 (fun _ => mret tt))).

(** [0xFFFFFFFF>>(32-prefix)<<(32-prefix)]; a shift by 32 or by a negative number is
    undefined. *)
Definition prefix_mask (prefix : Z) : res Z :=
  if (1 <=? prefix) && (prefix <=? 32)
  then Ok (u32 (Z.shiftl (Z.shiftr 0xFFFFFFFF (32 - prefix)) (32 - prefix))) else Fault.

(** A read at an address the modem gives as an offset in the information buffer. *)
Definition at_offset (o : Z) : nat := Z.to_nat (Z.of_nat OFF_InformationBuffer + o).
Definition bit (flags b : Z) : bool := truth (Z.land flags b).
Definition swapped (d : list Z) (o : nat) : RM Z := v ← (M_lift (rd32 d o) : RM Z); mret (mbim2qmi_ipv4addr v).

(** The IPv4 half; the result is [mtu]. *)
Definition ip_config_v4 (d : list Z) (flags : Z) : RM Z :=
  if bit flags 1 then
    a ← info32 d 16; prefix ← (M_lift (rd32 d (at_offset a)) : RM Z);
    gw ← (if bit flags 2 then o ← info32 d 28; mret (Some o) else mret None);
    dns1 ← (if bit flags 4 then o ← info32 d 40; mret (Some o) else mret None);
    dns2 ← (if bit flags 4 then n ← info32 d 36; mret (n =? 2) else mret false);
    mtu ← (if bit flags 8 then info32 d 52 else mret 1500);
    v ← swapped d (at_offset a + 4);
    _ ← setp (fun p => p <| ipv4 := (ipv4 p) <| v4_Address := v |> |>);
    _ ← (match gw with
         | Some o => v ← swapped d (at_offset o); setp (fun p => p <| ipv4 := (ipv4 p) <| v4_Gateway := v |> |>)
         | None => mret tt end);
    m ← (M_lift (prefix_mask (u8 prefix)) : RM Z);
    _ ← setp (fun p => p <| ipv4 := (ipv4 p) <| v4_SubnetMask := mbim2qmi_ipv4addr m |> |>);
    _ ← (match dns1 with
         | Some o => v ← swapped d (at_offset o); setp (fun p => p <| ipv4 := (ipv4 p) <| v4_DnsPrimary := v |> |>)
         | None => mret tt end);
    _ ← (match dns1, dns2 with
         | Some o, true => v ← swapped d (at_offset o + 4);
                           setp (fun p => p <| ipv4 := (ipv4 p) <| v4_DnsSecondary := v |> |>)
         | _, _ => mret tt end);
    _ ← setp (fun p => p <| ipv4 := (ipv4 p) <| v4_Mtu := mbim2qmi_ipv4addr mtu |> |>);
    mret mtu
  else mret 1500.

Definition copy16 (d : list Z) (o : nat) (set : list Z -> IPV6_T -> IPV6_T) : RM unit :=
  v ← (M_lift (rdn d o 16) : RM (list Z)); setp (fun p => p <| ipv6 := set v (ipv6 p) |>).
Definition ip_config_v6 (d : list Z) (flags mtu : Z) : RM unit :=
  if bit flags 1 then
    a ← info32 d 24; prefix ← (M_lift (rd32 d (at_offset a)) : RM Z);
    gw ← (if bit flags 2 then o ← info32 d 32; mret (Some o) else mret None);
    dns1 ← (if bit flags 4 then o ← info32 d 48; mret (Some o) else mret None);
    dns2 ← (if bit flags 4 then n ← info32 d 44; mret (n =? 2) else mret false);
    mtu ← (if bit flags 8 then info32 d 56 else mret mtu);
    _ ← copy16 d (at_offset a + 4) (fun v p => p <| v6_Address := v |>);
    _ ← (match gw with
         | Some o => copy16 d (at_offset o) (fun v p => p <| v6_Gateway := v |>) | None => mret tt end);
    _ ← (match dns1 with
         | Some o => copy16 d (at_offset o) (fun v p => p <| v6_DnsPrimary := v |>) | None => mret tt end);
    _ ← (match dns1, dns2 with
         | Some o, true => copy16 d (at_offset o + 16) (fun v p => p <| v6_DnsSecondary := v |>)
         | _, _ => mret tt end);
    setp (fun p => p <| ipv6 := (ipv6 p) <| v6_PrefixLengthIPAddr := u8 prefix |>
                       <| v6_PrefixLengthGateway := u8 prefix |> <| v6_Mtu := mbim2qmi_ipv4addr mtu |> |>)
  else mret tt.

(** The offsets of the information are those of [MBIM_IP_CONFIGURATION_INFO_T]; the
    memory of request and response is not released on this path. *)
Definition mbim_ip_config (sessionID : Z) : RM Z :=
  commandP (compose_basic_connect_command MBIM_CID_IP_CONFIGURATION MBIM_CID_CMD_TYPE_QUERY
             (Some (enc32 sessionID ++ junk (SIZEOF_MBIM_IP_CONFIGURATION_INFO - 4)))
             SIZEOF_MBIM_IP_CONFIGURATION_INFO)
    (with_infoP (fun d =>
      f4 ← info32 d 4; mtu ← ip_config_v4 d f4;
      f6 ← info32 d 8; ip_config_v6 d f6 mtu)).

(** [InformationBufferLength] of this message stays 0: the buffer is filled in after
    the message is composed. *)
Definition mbim_proxy_configure (d : cstr) : MB Z :=
  command (m ← with_service UUID_LIBMBIM_PROXY
                 (compose_basic_connect_command MBIM_CID_PROXY_CONTROL_CONFIGURATION MBIM_CID_CMD_TYPE_SET None
                    (SIZEOF_MBIM_LIBQMI_PROXY_CONFIG + 2 * length d));
           let w := char2wchar d (length d) (2 * length d) in
           m ← M_lift (wr OFF_InformationBuffer (enc32 (Z.of_nat SIZEOF_MBIM_LIBQMI_PROXY_CONFIG)) m);
           m ← M_lift (wr (OFF_InformationBuffer + 12) w m);
           m ← M_lift (wr (OFF_InformationBuffer + 4) (enc32 (Z.of_nat (length w))) m);
           M_lift (wr (OFF_InformationBuffer + 8) (enc32 15) m))
    (fun _ => mret 0).

(** ** [mbim_init], [mbim_deinit] *)

(** At most [n] attempts to open while they time out. *)
Fixpoint open_loop (n : nat) (retval : Z) : MB Z :=
  match n with
  | O => mret retval
  | S n => retval ← mbim_open_device 4096;
           if retval =? ETIMEDOUT then open_loop n retval else mret retval
  end.
(** [socketpair_ret] is the result of [socketpair]. *)
Definition mbim_init (socketpair_ret : Z) : RM Z :=
  p ← profile_;
  retval ← (if nonnil (proxy p) && bool_decide (proxy p = LIBMBIM_PROXY)
            then onW (mbim_proxy_configure (qmichannel p)) else mret 0);
  if truth retval then mret retval
  else
    retval ← onW (open_loop 10 0);
    if truth retval then mret retval
    else
      retval ← mbim_device_caps_query;
      if truth retval then mret retval
      else
        _ ← onW mbim_update_state;
        retval ← onW mbim_device_services_query;
        if truth retval then mret retval
        else
          _ ← onW mbim_update_state;
          retval ← onW (mbim_set_radio_state MBIMRadioOn);
          if truth retval then mret retval
          else
            _ ← onW mbim_update_state;
            _ ← onW (M_upd (fun s =>
                  if truth (qmi_over_mbim_support s) && (socketpair_ret =? 0)
                  then s <| qmi_over_mbim_sk := true |> else s));
            mret 0.
(** [qmi_over_mbim_nas] stays 0: only the cell reports, which are not compiled in,
    obtain a client.  The descriptors of the socket pair keep their values. *)
Definition mbim_deinit : RM Z := _ ← onW mbim_close_device; mret 0.

(** ** The request operations (static functions of the same names, without the prefix) *)
Definition mbim_requestGetSIMStatus (_ : Z) : RM (Z * Z) :=
  retval ← onW mbim_subscriber_status_query;
  if truth retval then mret (retval, SIM_ABSENT)
  else
    _ ← onW mbim_update_state;
    w ← onW (M_get : MB mbim);
    let r := ReadyState w in
    mret (retval,
      if r =? MBIMSubscriberReadyStateNotInitialized then SIM_NOT_READY
      else if r =? MBIMSubscriberReadyStateInitialized then SIM_READY
      else if r =? MBIMSubscriberReadyStateSimNotInserted then SIM_ABSENT
      else if r =? MBIMSubscriberReadyStateBadSim then SIM_BAD
      else if r =? MBIMSubscriberReadyStateFailure then SIM_ABSENT
      else if r =? MBIMSubscriberReadyStateNotActivated then SIM_ABSENT
      else if r =? MBIMSubscriberReadyStateDeviceLocked then SIM_PIN
      else SIM_ABSENT).

Definition registered (r : Z) : Z := b2z ((r =? MBIMRegisterStateHome) || (r =? MBIMRegisterStateRoaming)).
Definition mbim_requestRegistrationState (_ : Z) : RM (Z * Z) :=
  retval ← onW mbim_register_state_query;
  if truth retval then mret (retval, 0)
  else
    _ ← onW mbim_update_state;
    w ← onW (M_get : MB mbim);
    if registered (RegisterState w) =? 0 then mret (retval, 0)
    else
      retval ← onW mbim_packet_service_query;
      if truth retval then mret (retval, 1)
      else
        w ← onW (M_get : MB mbim);
        if PacketServiceState w =? MBIMPacketServiceStateAttached then mret (retval, 1)
        else _ ← onW (mbim_packet_service_set MBIMPacketServiceActionAttach); mret (retval, 0).

Definition or_keep {A} (new old : option A) : option A := match new with Some _ => new | None => old end.
Definition connect_settings (p : PROFILE_T) (w : mbim) : mbim :=
  let w := w <| mbim_apn := or_keep (apn p) (mbim_apn w) |> <| mbim_user := or_keep (user p) (mbim_user w) |>
             <| mbim_passwd := or_keep (password p) (mbim_passwd w) |>
             <| mbim_auth := if truth (auth p) then auth p else mbim_auth w |> in
  let w := if truth (enable_ipv4 p) then w <| mbim_iptype := MBIMContextIPTypeIPv4 |> else w in
  let w := if truth (enable_ipv6 p) then w <| mbim_iptype := MBIMContextIPTypeIPv6 |> else w in
  if truth (enable_ipv4 p) && truth (enable_ipv6 p) then w <| mbim_iptype := MBIMContextIPTypeIPv4AndIPv6 |> else w.
Definition mbim_requestSetupDataCall (curIpFamily : Z) : RM Z :=
  p ← profile_;
  onW (_ ← (M_upd (connect_settings p) : MB unit); w ← (M_get : MB mbim); mbim_set_connect 1 (mbim_sessionID w)).

Definition connection_status (a : Z) : Z :=
  if a =? MBIMActivationStateUnknown then QWDS_PKT_DATA_UNKNOW
  else if a =? MBIMActivationStateActivated then QWDS_PKT_DATA_CONNECTED
  else QWDS_PKT_DATA_DISCONNECTED.
Definition mbim_requestQueryDataCall (_ curIpFamily : Z) : RM (Z * Z) :=
  onW (w ← (M_get : MB mbim);
       retval ← mbim_query_connect (mbim_sessionID w);
       if truth retval then mret (retval, QWDS_PKT_DATA_DISCONNECTED)
       else w ← (M_get : MB mbim); mret (retval, connection_status (ActivationState w))).

Definition mbim_requestDeactivateDefaultPDP (curIpFamily : Z) : RM Z :=
  onW (w ← (M_get : MB mbim); mbim_set_connect 0 (mbim_sessionID w)).
Definition mbim_requestGetIPAddress (curIpFamily : Z) : RM Z :=
  w ← onW (M_get : MB mbim); mbim_ip_config (mbim_sessionID w).

(** [mbim_request_ops], with [mbim_dev_ops.deinit]. *)
Definition mbim_ops_table : request_table mbim :=
  {| op_BaseBandVersion := Some (mret 0);
     op_SetEthMode := None; op_SetLoopBackState := None;
     op_GetSIMStatus := Some mbim_requestGetSIMStatus;
     op_EnterSimPin := None; op_SetProfile := None; op_GetProfile := None;
     op_RegistrationState := mbim_requestRegistrationState;
     op_SetupDataCall := mbim_requestSetupDataCall;
     op_QueryDataCall := mbim_requestQueryDataCall;
     op_DeactivateDefaultPDP := mbim_requestDeactivateDefaultPDP;
     op_GetIPAddress := mbim_requestGetIPAddress;
     op_GetSignalInfo := None; op_GetCellInfoList := None;
     op_GetICCID := None; op_GetIMSI := None; op_GetCoexWWANState := None;
     op_deinit := Some mbim_deinit |}.

(** QMI over MBIM: the QMI message goes out in a command of its own service, and
    the response is written to the socket pair. *)
Definition qmi_over_mbim_qmidev_send (pQMI : list Z) : MB Z :=
  s ← (M_get : MB mbim);
  len ← M_lift (qmi_len pQMI);
  qt ← M_lift (rd8 pQMI OFF_QMIType);
  pQMI ← M_lift (if qt =? QMUX_TYPE_NAS then wr OFF_ClientId [qmi_over_mbim_nas s] pQMI else Ok pQMI);
  cid ← M_lift (rd8 pQMI OFF_ClientId);
  if negb (qt =? QMUX_TYPE_CTL) && (cid =? 0) then mret (- ENODEV)
  else
    command (compose_qmi_over_mbim_command 1 MBIM_CID_CMD_TYPE_SET (Some pQMI) (Z.to_nat len))
      (fun d =>
        len ← M_lift (rd32 d OFF_CMD_InformationBufferLength);
        if truth len then
          info ← M_lift (rdn d OFF_InformationBuffer (Z.to_nat len));
          _ ← (M_upd (fun s => s <| mb_sk_out := mb_sk_out s ++ [info] |>) : MB unit);
          mret (if sk_write info =? len then 0 else -1)
        else mret (-1)).
End Commands.
