(* ===== verification/MbimCmSpec.v ===== *)
(** Theorems about mbim-cm.c: UUID texts, the connect data and what is wrong with it,
    requests and responses, transaction ids, tracked states, error codes, addresses,
    and the connection manager behind the MBIM proxy. *)
From S2P Require Import Prelude QmiTlv CmTypes QmiCompose QmiThread QmiRequests CmMain MbimProxy MbimCm.
#[local] Open Scope Z_scope.

(** ** UUIDs *)
Lemma hex_digit_char d : 0 <= d < 16 -> hex_digit (hex_char d) = Some d.
Proof.
  intros H. assert (d ∈ seqZ 0 16) as Hd by (apply elem_of_seqZ; lia).
  revert d Hd H. apply (Forall_forall (fun d => 0 <= d < 16 -> hex_digit (hex_char d) = Some d) (seqZ 0 16)).
  repeat constructor.
Qed.

Lemma scan_print fmt : forall u, bytes_ok u -> length u = length (filter (fun b => b = true) fmt) ->
  scan_uuid fmt (print_uuid fmt u) = Some u.
Proof.
  induction fmt as [|[] fmt IH]; intros u Hu Hl.
  - by destruct u.
  - destruct u as [|b u]; [by rewrite filter_cons_True in Hl|].
    rewrite filter_cons_True in Hl by done. injection Hl as Hl. inversion Hu as [|? ? Hb Hu']; subst.
    unfold byte_ok in Hb. cbn [print_uuid scan_uuid].
    rewrite (hex_digit_char (b / 16)) by (split; [apply Z.div_pos; lia|apply Z.div_lt_upper_bound; lia]).
    rewrite (hex_digit_char (b mod 16)) by (apply Z.mod_pos_bound; lia). cbn.
    rewrite IH by done. cbn. f_equal. f_equal. by rewrite <- Z.div_mod.
  - rewrite filter_cons_False in Hl by done. cbn [print_uuid scan_uuid].
    by rewrite decide_True, IH.
Qed.

(** UUID texts.  Printing sixteen bytes with [uuid2str] and parsing the text with
    [str2uuid] gives the bytes back, so that comparing texts, as
    [mbim_device_services_query] does, is comparing UUIDs. *)
Theorem uuid_roundtrip u : bytes_ok u -> length u = 16%nat -> str2uuid (uuid2str u) = Some u.
Proof. intros. by apply scan_print. Qed.
Lemma uuid_roundtrip_witness :
  exists u, str2uuid "68223D04-9F6C-4E0F-822D-28441FB72340" = Some u
    /\ uuid2str u = "68223d04-9f6c-4e0f-822d-28441fb72340"%string /\ str2uuid (uuid2str u) = Some u.
Proof.
  eexists. split; [by vm_compute|]. split; [by vm_compute|].
  apply uuid_roundtrip; [apply (bool_decide_unpack _); by vm_compute|done].
Defined.

(** ** Stores and fields *)
Lemma wr_spec o bs b : (o + length bs <= length b)%nat ->
  exists b', wr o bs b = Ok b' /\ length b' = length b
    /\ (forall i, (i < length bs)%nat -> b' !! (o + i)%nat = bs !! i)
    /\ (forall i, (i < o \/ o + length bs <= i)%nat -> b' !! i = b !! i).
Proof.
  intros H. unfold wr. rewrite (proj2 (Nat.leb_le _ _)) by lia. eexists. split; [done|].
  split; [rewrite !length_app, length_take, length_drop; lia|]. split.
  - intros i Hi. rewrite lookup_app_r by (rewrite length_take; lia).
    rewrite length_take, lookup_app_l by lia. f_equal. lia.
  - intros i [Hi|Hi].
    + rewrite lookup_app_l by (rewrite length_take; lia). by rewrite lookup_take_lt by lia.
    + rewrite lookup_app_r by (rewrite length_take; lia).
      rewrite length_take, lookup_app_r by lia. rewrite lookup_drop. f_equal. lia.
Qed.

(** Reads see only the bytes they read. *)
Lemma rd32_ext b b' o : (forall i, (i < 4)%nat -> b' !! (o + i)%nat = b !! (o + i)%nat) ->
  rd32 b' o = rd32 b o.
Proof.
  intros H. unfold rd32, rd16, rd8. rewrite <- !Nat.add_assoc. cbn [Nat.add].
  pose proof (H 0%nat ltac:(lia)) as H0. rewrite Nat.add_0_r in H0.
  by rewrite H0, (H 1%nat), (H 2%nat), (H 3%nat) by lia.
Qed.
Lemma rd32_of b o v : 0 <= v < 4294967296 ->
  (forall i, (i < 4)%nat -> b !! (o + i)%nat = enc32 v !! i) -> rd32 b o = Ok v.
Proof.
  intros Hv H. rewrite <- (u32_id v Hv), <- (rd32_enc32 v []).
  unfold rd32, rd16, rd8. rewrite <- !Nat.add_assoc. cbn [Nat.add].
  pose proof (H 0%nat ltac:(lia)) as H0. rewrite Nat.add_0_r in H0.
  by rewrite H0, (H 1%nat), (H 2%nat), (H 3%nat) by lia.
Qed.

(** ** Wide characters *)
Definition wide (s : cstr) : list Z := mjoin ((fun c => [c; 0]) <$> s).
Definition wide_at (b : list Z) (o : nat) (s : cstr) : Prop :=
  forall i, (i < length s)%nat -> b !! (o + 2 * i)%nat = s !! i.

Lemma wide_cons c s : wide (c :: s) = c :: 0 :: wide s.
Proof. done. Qed.
Lemma length_wide s : length (wide s) = (2 * length s)%nat.
Proof. induction s as [|c s IH]; [done|]. rewrite wide_cons. cbn [length]. lia. Qed.
Lemma wide_lookup s : forall i, (i < length s)%nat -> wide s !! (2 * i)%nat = s !! i.
Proof.
  induction s as [|c s IH]; intros i Hi; [cbn in Hi; lia|]. rewrite wide_cons. destruct i as [|i]; [done|].
  replace (2 * S i)%nat with (S (S (2 * i))) by lia. cbn [lookup list_lookup]. apply IH. cbn in Hi. lia.
Qed.
Lemma char2wchar_all s n : (2 * length s <= n)%nat -> char2wchar s (length s) n = wide s.
Proof.
  intros H. unfold char2wchar. rewrite Nat.min_l, firstn_all; [done|].
  apply Nat.div_le_lower_bound; lia.
Qed.

Lemma mapM_rd8 b o s : wide_at b o s ->
  mapM (fun i => rd8 b (o + 2 * i)) (seq 0 (length s)) = Ok s.
Proof.
  revert o. induction s as [|c s IH]; intros o H; [done|].
  cbn [length seq mapM]. replace (rd8 b (o + 2 * 0)) with (Ok c)
    by (unfold rd8; by rewrite (H 0%nat) by (cbn; lia)).
  cbn [mbind res_bind].
  rewrite <- fmap_S_seq.
  assert (E : forall l, mapM (fun i => rd8 b (o + 2 * i)) (S <$> l) = mapM (fun i => rd8 b (o + 2 + 2 * i)) l).
  { induction l as [|i l IHl]; [done|]. cbn [fmap list_fmap mapM]. rewrite IHl.
    by replace (o + 2 * S i)%nat with (o + 2 + 2 * i)%nat by lia. }
  rewrite E, (IH (o + 2)%nat); [done|]. intros i Hi.
  etrans; [|exact (H (S i) ltac:(cbn; lia))]. f_equal. lia.
Qed.
Lemma wchar2char_at b o s n m : wide_at b o s -> n = 2 * Z.of_nat (length s) -> (length s <= m)%nat ->
  wchar2char b (Z.of_nat o) n (S m) = Ok s.
Proof.
  intros H -> Hm. unfold wchar2char. rewrite Nat2Z.id.
  replace (Z.to_nat (2 * Z.of_nat (length s) / 2)) with (length s)
    by (rewrite Z.mul_comm, Z.div_mul by done; by rewrite Nat2Z.id).
  rewrite Nat.min_r by lia. by apply mapM_rd8.
Qed.

(** ** The connect data *)

(** What the function (the modem) reads: the string behind an offset and a size. *)
Definition read_wide (OFF : nat) (b : list Z) : res cstr :=
  o ← rd32 b OFF; n ← rd32 b (OFF + 4); wchar2char b o n (S (Z.to_nat n)).

(** The fields at [OFF] describe [t], which lies at [o] in the data buffer. *)
Definition field_at (b : list Z) (OFF o : nat) (t : cstr) : Prop :=
  if decide (t = []) then rd32 b OFF = Ok 0 /\ rd32 b (OFF + 4) = Ok 0
  else rd32 b OFF = Ok (Z.of_nat (SIZEOF_MBIM_SET_CONNECT + o))
       /\ rd32 b (OFF + 4) = Ok (2 * Z.of_nat (length t)) /\ wide_at b (SIZEOF_MBIM_SET_CONNECT + o) t.

Lemma field_at_read b OFF o t : field_at b OFF o t -> read_wide OFF b = Ok t.
Proof.
  unfold field_at, read_wide. case_decide as Ht.
  - intros (H1 & H2). rewrite H1. cbn. rewrite H2. cbn. by subst.
  - intros (H1 & H2 & H3). rewrite H1. cbn [mbind res_bind]. rewrite H2. cbn [mbind res_bind].
    apply wchar2char_at; [done..|lia].
Qed.

(** A field survives stores elsewhere. *)
Lemma field_at_frame b b' OFF o t : field_at b OFF o t ->
  (forall i, (OFF <= i < OFF + 8)%nat -> b' !! i = b !! i) ->
  (forall i, (SIZEOF_MBIM_SET_CONNECT + o <= i < SIZEOF_MBIM_SET_CONNECT + o + 2 * length t)%nat -> b' !! i = b !! i) ->
  field_at b' OFF o t.
Proof.
  unfold field_at. intros H Hh Hd.
  rewrite (rd32_ext b b' OFF), (rd32_ext b b' (OFF + 4)) by (intros; apply Hh; lia).
  case_decide; [done|]. destruct H as (? & ? & Hw). split_and!; [done..|].
  intros i Hi. rewrite Hd by lia. by apply Hw.
Qed.

(** One string is stored. *)
Lemma put_wide_spec OFF str (t : cstr) n b o :
  t = default [] str ->
  (OFF + 8 <= SIZEOF_MBIM_SET_CONNECT)%nat -> length b = (SIZEOF_MBIM_SET_CONNECT + n)%nat ->
  (o + 2 * length t <= n)%nat -> Z.of_nat (SIZEOF_MBIM_SET_CONNECT + n) < 4294967296 ->
  rd32 b OFF = Ok 0 -> rd32 b (OFF + 4) = Ok 0 ->
  exists b', put_wide OFF str n b o = Ok (b', if decide (t = []) then o else (2 * length t)%nat)
    /\ length b' = length b /\ field_at b' OFF o t
    /\ (forall i, ~ (OFF <= i < OFF + 8)%nat ->
          ~ (SIZEOF_MBIM_SET_CONNECT + o <= i < SIZEOF_MBIM_SET_CONNECT + o + 2 * length t)%nat -> b' !! i = b !! i).
Proof.
  intros Ht HO Hb Hn Hz H1 H2. unfold put_wide, field_at.
  destruct str as [[|c s]|]; cbn [default from_option id] in *; [by subst; exists b| |by subst; exists b].
  assert (t <> []) by by rewrite Ht. rewrite <- Ht.
  destruct (wr_spec (OFF + 4) (enc32 (2 * Z.of_nat (length t))) b) as (b1 & E1 & L1 & R1 & F1);
    [rewrite length_enc32; lia|]. rewrite length_enc32 in *.
  rewrite E1. cbn [mbind res_bind].
  destruct (wr_spec OFF (enc32 (Z.of_nat (o + SIZEOF_MBIM_SET_CONNECT))) b1) as (b2 & E2 & L2 & R2 & F2);
    [rewrite length_enc32; lia|]. rewrite length_enc32 in *.
  rewrite E2. cbn [mbind res_bind]. rewrite char2wchar_all by lia.
  destruct (wr_spec (SIZEOF_MBIM_SET_CONNECT + o) (wide t) b2) as (b3 & E3 & L3 & R3 & F3);
    [rewrite length_wide; lia|]. rewrite length_wide in *.
  rewrite E3. cbn [mbind res_bind]. exists b3.
  rewrite !decide_False by done. split; [done|]. split; [lia|]. split_and!.
  - apply rd32_of; [lia|]. intros i Hi. rewrite F3 by lia. rewrite R2 by done. f_equal. f_equal. lia.
  - apply rd32_of; [lia|]. intros i Hi. rewrite F3, F2 by lia. by apply R1.
  - intros i Hi. rewrite R3 by lia. by apply wide_lookup.
  - intros i Hi Hj. rewrite F3, F2, F1 by lia. done.
Qed.

Lemma align_32_le n : (n <= align_32 n < n + 4 /\ align_32 n mod 4 = 0)%nat.
Proof.
  unfold align_32. pose proof (Nat.mod_upper_bound n 4). pose proof (Nat.div_mod_eq n 4).
  destruct (Nat.eqb_spec (n mod 4) 0) as [E|E]; [rewrite Nat.add_0_r; lia|].
  split; [lia|]. replace (n + (4 - n mod 4))%nat with ((n / 4 + 1) * 4)%nat by lia.
  by apply Nat.Div0.mod_mul.
Qed.

Lemma align_32_least n m : (n <= m)%nat -> (m mod 4 = 0)%nat -> (align_32 n <= m)%nat.
Proof.
  intros H Hm. pose proof (align_32_le n) as [H1 H2]. pose proof (Nat.div_mod_eq m 4).
  pose proof (Nat.div_mod_eq (align_32 n) 4). lia.
Qed.

Lemma rd32_zeros n o : (o + 4 <= n)%nat -> rd32 (zeros n) o = Ok 0.
Proof.
  intros H. apply rd32_of; [lia|]. intros i Hi. unfold zeros. rewrite lookup_replicate_2 by lia.
  do 4 (destruct i as [|i]; [done|]). lia.
Qed.

(** Where the three strings go. *)
Definition user_offset (a : cstr) : nat := align_32 (2 * length a).
Definition passwd_offset (a u : cstr) : nat :=
  align_32 (if decide (u = []) then user_offset a else 2 * length u).
Lemma align_string (t : cstr) :
  align_32 (if decide (t = []) then 0 else 2 * length t) = align_32 (2 * length t).
Proof. case_decide as Ht; [by rewrite Ht|done]. Qed.
Lemma passwd_end (a u p : cstr) :
  (passwd_offset a u + 2 * length p
   <= align_32 (align_32 (align_32 (2 * length a) + 2 * length u) + 2 * length p))%nat.
Proof.
  pose proof (align_32_le (align_32 (2 * length a) + 2 * length u)).
  pose proof (align_32_le (align_32 (align_32 (2 * length a) + 2 * length u) + 2 * length p)).
  enough (passwd_offset a u <= align_32 (align_32 (2 * length a) + 2 * length u))%nat by lia.
  unfold passwd_offset, user_offset.
  case_decide; apply align_32_least; (lia || apply align_32_le).
Qed.
(** The layout of the buffer, except for what the password overwrites. *)
Lemma populate_spec a u p :
  let A := default [] a in let U := default [] u in let P := default [] p in
  Z.of_nat (2 * length A + 2 * length U + 2 * length P) + 72 < 4294967296 ->
  exists b n b2, mbim_populate_connect_data a u p = Ok (b, n) /\ n = connect_buflen a u p
    /\ length b = (SIZEOF_MBIM_SET_CONNECT + n)%nat /\ length b2 = length b
    /\ field_at b2 8 0 A /\ field_at b2 16 (user_offset A) U
    /\ field_at b 24 (passwd_offset A U) P
    /\ (forall i, ~ (24 <= i < 32)%nat ->
         ~ (SIZEOF_MBIM_SET_CONNECT + passwd_offset A U <= i
            < SIZEOF_MBIM_SET_CONNECT + passwd_offset A U + 2 * length P)%nat -> b !! i = b2 !! i).
Proof.
  cbn zeta. set (A := default [] a). set (U := default [] u). set (P := default [] p).
  intros Hz. unfold mbim_populate_connect_data. set (n := connect_buflen a u p).
  assert (Hn : n = align_32 (align_32 (align_32 (2 * length A) + 2 * length U) + 2 * length P)) by done.
  pose proof (align_32_le (2 * length A)). pose proof (align_32_le (align_32 (2 * length A) + 2 * length U)).
  pose proof (align_32_le (align_32 (align_32 (2 * length A) + 2 * length U) + 2 * length P)).
  pose proof (align_32_le (2 * length U)). pose proof (align_32_le (user_offset A)) as HuA.
  unfold user_offset in *.
  destruct (put_wide_spec 8 a A n (zeros (SIZEOF_MBIM_SET_CONNECT + n)) 0) as (b1 & E1 & L1 & F1 & K1);
    [done|unfold SIZEOF_MBIM_SET_CONNECT; lia|by rewrite length_zeros|lia|unfold SIZEOF_MBIM_SET_CONNECT; lia
    |apply rd32_zeros; unfold SIZEOF_MBIM_SET_CONNECT; lia..|].
  rewrite length_zeros in L1. rewrite E1. cbn [mbind res_bind fst snd].
  rewrite align_string.
  destruct (put_wide_spec 16 u U n b1 (align_32 (2 * length A))) as (b2 & E2 & L2 & F2 & K2);
    [done|unfold SIZEOF_MBIM_SET_CONNECT; lia|done|lia|unfold SIZEOF_MBIM_SET_CONNECT; lia| | |].
  1,2: rewrite (rd32_ext (zeros (SIZEOF_MBIM_SET_CONNECT + n)))
         by (intros; apply K1; unfold SIZEOF_MBIM_SET_CONNECT; lia);
       apply rd32_zeros; unfold SIZEOF_MBIM_SET_CONNECT; lia.
  rewrite E2. cbn [mbind res_bind fst snd].
  fold (user_offset A). fold (passwd_offset A U).
  pose proof (passwd_end A U P) as HP. rewrite <- Hn in HP.
  destruct (put_wide_spec 24 p P n b2 (passwd_offset A U)) as (b3 & E3 & L3 & F3 & K3);
    [done|unfold SIZEOF_MBIM_SET_CONNECT; lia|lia|done|unfold SIZEOF_MBIM_SET_CONNECT; lia| | |].
  1,2: rewrite (rd32_ext b1), (rd32_ext (zeros (SIZEOF_MBIM_SET_CONNECT + n)))
         by (intros; first [apply K1|apply K2]; unfold SIZEOF_MBIM_SET_CONNECT; lia);
       apply rd32_zeros; unfold SIZEOF_MBIM_SET_CONNECT; lia.
  rewrite E3. cbn [mbind res_bind fst snd]. exists b3, n, b2.
  split_and!; [done|done|lia|done| |done|done|done].
  eapply field_at_frame; [exact F1| |]; intros i Hi; apply K2;
    unfold SIZEOF_MBIM_SET_CONNECT in *; lia.
Qed.

Lemma connect_data_fields a u p :
  Z.of_nat (2 * str_len a + 2 * str_len u + 2 * str_len p) + 72 < 4294967296 ->
  str_len a = 0%nat \/ str_len u = 0%nat \/ str_len p = 0%nat ->
  exists b, mbim_populate_connect_data a u p = Ok (b, connect_buflen a u p)
    /\ length b = (SIZEOF_MBIM_SET_CONNECT + connect_buflen a u p)%nat
    /\ field_at b 8 0 (default [] a) /\ field_at b 16 (user_offset (default [] a)) (default [] u)
    /\ field_at b 24 (passwd_offset (default [] a) (default [] u)) (default [] p).
Proof.
  unfold str_len. intros Hz He.
  destruct (populate_spec a u p Hz) as (b & n & b2 & E & -> & L & L2 & FA & FU & FP & K).
  exists b. split; [done|]. split; [done|].
  set (A := default [] a) in *. set (U := default [] u) in *. set (P := default [] p) in *.
  pose proof (align_32_le (2 * length A)). pose proof (align_32_le (2 * length U)).
  pose proof (align_32_le (user_offset A)).
  assert (Hu : U = [] \/ U <> []) by (destruct U; auto).
  assert (Hp : length P = 0%nat \/ (2 * length A <= passwd_offset A U
            /\ (U <> [] -> user_offset A + 2 * length U <= passwd_offset A U))%nat).
  { destruct He as [He|[He|He]]; [right..|by left]; apply length_zero_iff_nil in He; rewrite He in *.
    - unfold passwd_offset. case_decide as HU; [split; [cbn; lia|done]|].
      split; [cbn; lia|]. intros _. change (user_offset []) with 0%nat. lia.
    - unfold passwd_offset. rewrite decide_True by done. unfold user_offset in *. split; [lia|done]. }
  split_and!; [| |exact FP]; (eapply field_at_frame; [eassumption| |]);
    intros i Hi; apply K; unfold SIZEOF_MBIM_SET_CONNECT in *; try lia.
  destruct Hu as [HU|Hu]; [rewrite HU in *; cbn [length] in *; lia|]. destruct Hp as [Hp|[_ Hp]]; [lia|].
  specialize (Hp Hu). lia.
Qed.

(** The connect data carries the settings.  When at most two of access point name,
    user name and password are set, the function reads from the request exactly the
    strings of the profile: every offset and size points to the characters, and the
    buffer has exactly the room announced for it. *)
Theorem connect_data_read a u p :
  Z.of_nat (2 * str_len a + 2 * str_len u + 2 * str_len p) + 72 < 4294967296 ->
  str_len a = 0%nat \/ str_len u = 0%nat \/ str_len p = 0%nat ->
  exists b, mbim_populate_connect_data a u p = Ok (b, connect_buflen a u p)
    /\ length b = (SIZEOF_MBIM_SET_CONNECT + connect_buflen a u p)%nat
    /\ read_wide 8 b = Ok (default [] a) /\ read_wide 16 b = Ok (default [] u)
    /\ read_wide 24 b = Ok (default [] p).
Proof.
  intros Hz He. destruct (connect_data_fields a u p Hz He) as (b & H1 & H2 & H3 & H4 & H5).
  exists b. split_and!; [done|done|by eapply field_at_read..].
Qed.
Lemma connect_data_read_witness :
  exists b, read_wide 16 b = Ok (bytes_of_string "me") /\ read_wide 24 b = Ok (bytes_of_string "secret").
Proof.
  destruct (connect_data_read None (Some (bytes_of_string "me")) (Some (bytes_of_string "secret")))
    as (b & _ & _ & _ & H1 & H2); [by vm_compute|left; done|]. exists b. split; [exact H1|exact H2].
Defined.

Lemma wide_at_exists b o m : (o + 2 * m <= length b)%nat ->
  exists s, length s = m /\ wide_at b o s.
Proof.
  intros H. exists ((fun i => b !!! (o + 2 * i)%nat) <$> seq 0 m).
  assert (L : length ((fun i => b !!! (o + 2 * i)%nat) <$> seq 0 m) = m)
    by by rewrite length_map, length_seq.
  split; [done|]. intros i Hi. rewrite L in Hi. etrans; [|symmetry; apply (list_lookup_fmap (fun i => b !!! (o + 2 * i)%nat))].
  rewrite lookup_seq_lt by done. cbn. apply list_lookup_lookup_total_lt. lia.
Qed.
Lemma field_at_length b b2 OFF o t :
  t <> [] -> field_at b2 OFF o t -> (SIZEOF_MBIM_SET_CONNECT + o + 2 * length t <= length b)%nat ->
  (forall i, (OFF <= i < OFF + 8)%nat -> b !! i = b2 !! i) ->
  exists t', length t' = length t /\ wide_at b (SIZEOF_MBIM_SET_CONNECT + o) t' /\ read_wide OFF b = Ok t'.
Proof.
  intros Ht F L H. unfold field_at in F. rewrite decide_False in F by done. destruct F as (F1 & F2 & _).
  destruct (wide_at_exists b (SIZEOF_MBIM_SET_CONNECT + o) (length t) L) as (t' & L' & W).
  exists t'. split; [done|]. split; [done|]. unfold read_wide.
  rewrite (rd32_ext b2 b OFF), (rd32_ext b2 b (OFF + 4)) by (intros; apply H; lia).
  rewrite F1. cbn [mbind res_bind]. rewrite F2. cbn [mbind res_bind].
  apply wchar2char_at; [done|by rewrite L'|lia].
Qed.

(** With all three settings the connect data is wrong.  [offset] is overwritten
    instead of advanced when a string is stored, so the password lands right behind
    the length of the user name alone, on top of the access point name or the user name:
    the function reads the password correctly, but its first character has replaced a
    character of one of the other two. *)
Theorem connect_data_overwritten a u c p :
  a <> [] -> u <> [] ->
  Z.of_nat (2 * length a + 2 * length u + 2 * length (c :: p)) + 72 < 4294967296 ->
  exists b a' u', mbim_populate_connect_data (Some a) (Some u) (Some (c :: p)) = Ok (b, connect_buflen (Some a) (Some u) (Some (c :: p)))
    /\ read_wide 8 b = Ok a' /\ read_wide 16 b = Ok u' /\ read_wide 24 b = Ok (c :: p)
    /\ c ∈ a' ++ u' /\ (c ∉ a ++ u -> ~ (a' = a /\ u' = u)).
Proof.
  intros Ha Hu Hz.
  destruct (populate_spec (Some a) (Some u) (Some (c :: p)) Hz) as (b & n & b2 & E & -> & L & L2 & FA & FU & FP & K).
  cbn [default from_option id] in *.
  assert (HO : passwd_offset a u = align_32 (2 * length u)) by (unfold passwd_offset; by rewrite decide_False).
  pose proof (align_32_le (2 * length a)) as [A1 A2]. pose proof (align_32_le (2 * length u)) as [U1 U2].
  pose proof (Nat.div_mod_eq (align_32 (2 * length a)) 4) as A3.
  pose proof (Nat.div_mod_eq (align_32 (2 * length u)) 4) as U3.
  assert (0 < length a)%nat by (destruct a; cbn; [done|lia]).
  pose proof (align_32_le (align_32 (2 * length a) + 2 * length u)).
  pose proof (align_32_le (align_32 (align_32 (2 * length a) + 2 * length u) + 2 * length (c :: p))).
  unfold connect_buflen, str_len in L. cbn [default from_option id] in L. rewrite HO in *.
  destruct (field_at_length b b2 8 0 a Ha FA) as (a' & La & Wa & Ra);
    [lia|intros; apply K; unfold SIZEOF_MBIM_SET_CONNECT; lia|].
  destruct (field_at_length b b2 16 (user_offset a) u Hu FU) as (u' & Lu & Wu & Ru);
    [unfold user_offset; lia|intros; apply K; unfold SIZEOF_MBIM_SET_CONNECT; lia|].
  exists b, a', u'. split; [done|]. split; [done|]. split; [done|].
  split; [by eapply field_at_read|].
  assert (Hc : b !! (SIZEOF_MBIM_SET_CONNECT + align_32 (2 * length u))%nat = Some c).
  { unfold field_at in FP. rewrite decide_False in FP by done. destruct FP as (_ & _ & FP).
    specialize (FP 0%nat ltac:(cbn; lia)). by rewrite Nat.mul_0_r, Nat.add_0_r in FP. }
  assert (HIn : c ∈ a' ++ u').
  { apply elem_of_app. destruct (decide (align_32 (2 * length u) < align_32 (2 * length a))%nat).
    - left. apply (list_elem_of_lookup_2 _ (align_32 (2 * length u) / 4 * 2)).
      rewrite <- Wa by lia. rewrite <- Hc. f_equal. lia.
    - right. apply (list_elem_of_lookup_2 _ ((align_32 (2 * length u) / 4 - align_32 (2 * length a) / 4) * 2)).
      rewrite <- Wu by lia. rewrite <- Hc. unfold user_offset. f_equal. lia. }
  split; [exact HIn|]. intros Hn [-> ->]. by apply Hn.
Qed.
Lemma connect_data_overwritten_witness :
  exists b a', read_wide 8 b = Ok a' /\ a' <> bytes_of_string "internet"
    /\ mbim_populate_connect_data (Some (bytes_of_string "internet")) (Some (bytes_of_string "me"))
         (Some (bytes_of_string "1234")) = Ok (b, 28%nat).
Proof.
  destruct (connect_data_overwritten (bytes_of_string "internet") (bytes_of_string "me") 49 (bytes_of_string "234"))
    as (b & a' & u' & E & Ra & Ru & _ & _ & Hn); [by vm_compute..|].
  exists b, a'. split; [exact Ra|]. split; [|exact E].
  assert (u' = bytes_of_string "me") as Hu
    by (vm_compute in E; injection E as <-; vm_compute in Ru; by injection Ru as <-).
  intros Ha. apply Hn; [|done]. apply (bool_decide_unpack _). by vm_compute.
Defined.

(** The fixed fields leave the strings alone. *)
Lemma fill_spec onoff sid au ip b :
  (SIZEOF_MBIM_SET_CONNECT <= length b)%nat ->
  exists b', fill_connect onoff sid au ip b = Ok b' /\ length b' = length b
    /\ rd32 b' 0 = Ok (u32 sid)
    /\ rd32 b' 4 = Ok (if onoff =? 0 then MBIMActivationCommandDeactivate else MBIMActivationCommandActivate)
    /\ rd32 b' 36 = Ok (u32 au) /\ rd32 b' 40 = Ok (u32 ip)
    /\ (forall i, (8 <= i < 32 \/ SIZEOF_MBIM_SET_CONNECT <= i)%nat -> b' !! i = b !! i).
Proof.
  unfold SIZEOF_MBIM_SET_CONNECT. intros H. unfold fill_connect.
  assert (W : forall o v c, (60 <= length c)%nat -> (o + 4 <= 60)%nat -> exists c', wr o (enc32 v) c = Ok c'
    /\ length c' = length c /\ rd32 c' o = Ok (u32 v)
    /\ (forall i, (i < o \/ o + 4 <= i)%nat -> c' !! i = c !! i)).
  { intros o v c Hc Ho. destruct (wr_spec o (enc32 v) c) as (c' & E1 & E2 & E3 & E4); [rewrite length_enc32; lia|].
    exists c'. split; [done|]. split; [done|]. split; [|exact E4]. rewrite <- (rd32_enc32 v []).
    unfold rd32, rd16, rd8. rewrite <- !Nat.add_assoc. cbn [Nat.add].
    pose proof (E3 0%nat ltac:(rewrite length_enc32; lia)) as E0. rewrite Nat.add_0_r in E0.
    by rewrite E0, (E3 1%nat), (E3 2%nat), (E3 3%nat) by (rewrite length_enc32; lia). }
  destruct (W 0%nat sid b) as (b1 & -> & L1 & R1 & F1); [lia..|]. cbn [mbind res_bind].
  destruct (W 4%nat (if onoff =? 0 then MBIMActivationCommandDeactivate else MBIMActivationCommandActivate) b1)
    as (b2 & -> & L2 & R2 & F2); [lia..|]. cbn [mbind res_bind].
  destruct (W 32%nat MBIMCompressionNone b2) as (b3 & -> & L3 & _ & F3); [lia..|]. cbn [mbind res_bind].
  destruct (W 36%nat au b3) as (b4 & -> & L4 & R4 & F4); [lia..|]. cbn [mbind res_bind].
  destruct (W 40%nat ip b4) as (b5 & -> & L5 & R5 & F5); [lia..|]. cbn [mbind res_bind].
  destruct (str2uuid UUID_MBIMContextTypeInternet) as [uuid|] eqn:E; vm_compute in E; [|done]. injection E as <-.
  cbn [of_option mbind res_bind]. destruct (wr_spec 44 [126; 94; 42; 126; 78; 111; 114; 114; 115; 107; 101; 110; 126; 94; 42; 126] b5) as (b6 & E6 & L6 & _ & F6);
    [cbn [length]; lia|]. cbn [length] in F6.
  assert (R2' : rd32 b2 4 = Ok (if onoff =? 0 then MBIMActivationCommandDeactivate else MBIMActivationCommandActivate))
    by (rewrite R2; by destruct (onoff =? 0)). clear R2.
  exists b6. split; [exact E6|]. split; [lia|]. split_and!.
  1-4: etrans; [|first [exact R1|exact R2'|exact R4|exact R5]]; apply rd32_ext; intros i Hi;
    rewrite F6 by lia; repeat (first [rewrite F5 by lia|rewrite F4 by lia|rewrite F3 by lia|rewrite F2 by lia]); done.
  - intros i Hi. by rewrite F6, F5, F4, F3, F2, F1 by lia.
Qed.

(** ** Inversion of the monad *)
Lemma MB_bind_Ok {A B} (m : MB A) (f : A -> MB B) s r :
  mbind f m s = Ok r -> exists a s1, m s = Ok (a, s1) /\ f a s1 = Ok r.
Proof.
  unfold mbind, MB_bind, M_bind. destruct (m s) as [[a s1]| |]; [|done..]. intros H. by exists a, s1.
Qed.
Lemma MB_lift_Ok {A} (x : res A) s a s1 : (M_lift x : MB A) s = Ok (a, s1) -> x = Ok a /\ s1 = s.
Proof. unfold M_lift. destruct x; [|done..]. by intros [= -> ->]. Qed.
Lemma MB_ret_Ok {A} (x : A) s a s1 : (mret x : MB A) s = Ok (a, s1) -> x = a /\ s1 = s.
Proof. by intros [= -> ->]. Qed.
Lemma MB_upd_Ok (f : mbim -> mbim) s a s1 : (M_upd f : MB unit) s = Ok (a, s1) -> s1 = f s.
Proof. by intros [= _ <-]. Qed.
Ltac inv_bind H a s1 E := apply MB_bind_Ok in H as (a & s1 & E & H).

(** ** What the reader thread can change *)
Definition reader_effect (s s' : mbim) : Prop :=
  exists r ev fd t, s' = s <| mbim_pResponse := r |> <| mb_events := mb_events s ++ ev |>
                          <| mbim_fd := fd |> <| s_tid_reader := t |>
    /\ (fd = mbim_fd s /\ t = s_tid_reader s \/ fd = -1).

Lemma reader_effect_refl s : reader_effect s s.
Proof.
  exists (mbim_pResponse s), [], (mbim_fd s), (s_tid_reader s). split; [|by left].
  destruct s. cbn. by rewrite app_nil_r.
Qed.
Lemma reader_effect_trans s1 s2 s3 : reader_effect s1 s2 -> reader_effect s2 s3 -> reader_effect s1 s3.
Proof.
  intros (r & ev & fd & t & -> & H) (r' & ev' & fd' & t' & -> & H').
  exists r', (ev ++ ev'), fd', t'. split; [destruct s1; cbn; by rewrite app_assoc|].
  destruct s1; cbn in *. destruct H' as [[-> ->]| ->]; auto.
Qed.

Lemma indication_effect m s u s' : indication m s = Ok (u, s') ->
  exists ev, s' = s <| mb_events := mb_events s ++ ev |>.
Proof.
  intros H. assert (D : (exists e, s' = s <| mb_events := mb_events s ++ [e] |>) \/ s' = s).
  { unfold indication in H. inv_bind H s0 s1 E. injection E as <- <-. inv_bind H cid s1 E.
    apply MB_lift_Ok in E as [_ ->].
    repeat match type of H with
    | (if ?b then _ else _) _ = _ => destruct b
    | mbind _ _ _ = _ => let a := fresh in let s2 := fresh in let E := fresh in
        inv_bind H a s2 E; apply MB_lift_Ok in E as [_ ->]
    end; (by left; injection H as _ <-; eexists) || (by right; injection H as _ <-). }
  destruct D as [[e ->]| ->]; [by exists [e]|]. exists []. destruct s. cbn. by rewrite app_nil_r.
Qed.

(** A message is a response to the request in flight, or changes no response. *)
Lemma recv_cases m s u s' : mbim_recv_command m s = Ok (u, s') ->
  (exists req t len copy, mbim_pRequest s = Some req /\ rd32 req OFF_TransactionId = Ok t
     /\ rd32 m OFF_TransactionId = Ok t /\ rd32 m OFF_MessageLength = Ok len
     /\ rdn m 0 (Z.to_nat len) = Ok copy /\ s' = s <| mbim_pResponse := Some copy |>)
  \/ exists ev, s' = s <| mb_events := mb_events s ++ ev |>.
Proof.
  intros H. unfold mbim_recv_command in H. inv_bind H s0 s1 E. injection E as <- <-.
  inv_bind H b s1 E. destruct b.
  - left. destruct (mbim_pRequest s) as [req|]; [|by injection E].
    apply MB_lift_Ok in E as [E ->]. destruct (rd32 req OFF_TransactionId) as [t| |] eqn:E1; [|done..].
    destruct (rd32 m OFF_TransactionId) as [t'| |] eqn:E2; [|done..]. cbn in E. injection E as E%Z.eqb_eq.
    subst t'. inv_bind H ln s1 E3. apply MB_lift_Ok in E3 as [E3 ->].
    inv_bind H copy s1 E4. apply MB_lift_Ok in E4 as [E4 ->]. injection H as _ <-.
    exists req, t, ln, copy. split_and!; done.
  - right. assert (s1 = s) as ->.
    { destruct (mbim_pRequest s); [by apply MB_lift_Ok in E as [_ ->]|by injection E]. }
    inv_bind H ty s1 E1. apply MB_lift_Ok in E1 as [_ ->].
    assert (N : s = s <| mb_events := mb_events s ++ [] |>) by (destruct s; cbn; by rewrite app_nil_r).
    destruct (ty =? _); [|injection H as _ <-; by exists []].
    inv_bind H uid s1 E2. apply MB_lift_Ok in E2 as [_ ->].
    inv_bind H uu s1 E3. apply MB_lift_Ok in E3 as [_ ->].
    destruct (decide (uid = uu)); [by eapply indication_effect|injection H as _ <-; by exists []].
Qed.

Lemma reader_step_effect d s u s' : reader_step d s = Ok (u, s') -> reader_effect s s'.
Proof.
  destruct d as [m|]; cbn [reader_step].
  - intros H. apply recv_cases in H as [(req & t & ln & copy & _ & _ & _ & _ & _ & ->)|[ev ->]].
    + exists (Some copy), [], (mbim_fd s), (s_tid_reader s). split; [|by left].
      destruct s; cbn. by rewrite app_nil_r.
    + exists (mbim_pResponse s), ev, (mbim_fd s), (s_tid_reader s). split; [by destruct s|by left].
  - intros [= _ <-]. exists (mbim_pResponse s), [RIL_INDICATE_DEVICE_DISCONNECTED], (-1), false.
    split; [by destruct s|by right].
Qed.
Lemma reader_run_effect l : forall s u s', reader_run l s = Ok (u, s') -> reader_effect s s'.
Proof.
  induction l as [|d l IH]; intros s u s' H; [injection H as _ <-; apply reader_effect_refl|].
  cbn [reader_run foldr] in H. inv_bind H v s1 E. eapply reader_effect_trans.
  - by eapply reader_step_effect.
  - by eapply IH.
Qed.

(** ** Sending *)
Definition written_state (s : mbim) (req w : list Z) : mbim :=
  s <| mbim_pRequest := Some req |> <| mbim_pResponse := None |> <| mb_out := mb_out s ++ [w] |>.
Definition idle (s : mbim) : mbim := s <| mbim_pRequest := None |> <| mbim_pResponse := None |>.

Lemma reset_tid_Ok req s req' s2 : reset_tid req s = Ok (req', s2) ->
  exists t, rd32 req OFF_TransactionId = Ok t /\
    (if t =? 0xFFFFFF + 1
     then wr OFF_TransactionId (enc32 1) req = Ok req' /\ s2 = s <| mb_TransactionId := 2 |>
     else req' = req /\ s2 = s).
Proof.
  unfold reset_tid. intros H. inv_bind H t s1 E. apply MB_lift_Ok in E as [E ->].
  exists t. split; [done|]. destruct (t =? _).
  - inv_bind H v s1 E1. injection E1 as <- <-. inv_bind H t1 s1 E1. injection E1 as <- <-.
    apply MB_lift_Ok in H as [H ->]. split; [exact H|]. by destruct s.
  - by apply MB_ret_Ok in H as [-> ->].
Qed.

Section Send.
Context (dev : nat -> exchange).

Lemma send_cases req s r d s' : mbim_send_command dev (Some req) s = Ok ((r, d), s') ->
  let ex := dev (mb_calls s) in
  exists s1, reader_run (ex_before ex) (s <| mb_calls := S (mb_calls s) |>) = Ok (tt, s1) /\
  ((mbim_fd s1 <= 0 /\ r = - ENODEV /\ d = None /\ s' = s1)
   \/ (s_tid_reader s1 = false /\ r = - EINVAL /\ d = None /\ s' = s1)
   \/ (0 < mbim_fd s1 /\ exists req' s2 ln out, reset_tid req s1 = Ok (req', s2)
        /\ rd32 req' OFF_MessageLength = Ok ln /\ rdn req' 0 (Z.to_nat ln) = Ok out
        /\ let s3 := written_state s2 req' (take (Z.to_nat (ex_write ex out)) out) in
           if (0 <? ex_write ex out) && (u32 (ex_write ex out) =? ln)
           then exists s4, reader_run (ex_during ex out) s3 = Ok (tt, s4) /\ r = ex_wait ex out
                  /\ d = (if r =? 0 then mbim_pResponse s4 else None) /\ s' = idle s4
           else r = ex_write ex out /\ d = None /\ s' = idle s3)).
Proof.
  intros H ex. unfold mbim_send_command in H. inv_bind H s0 s0' E. injection E as <- <-. fold ex in H.
  inv_bind H v s0' E. apply MB_upd_Ok in E as ->. inv_bind H v' s1 E. destruct v'. exists s1. split; [exact E|].
  clear E v. inv_bind H s1' s1'' E. injection E as <- <-.
  destruct (Z.leb_spec (mbim_fd s1) 0); [left; injection H as <- <- <-; done|right].
  destruct (s_tid_reader s1) eqn:Er; [right|left; injection H as <- <- <-; done].
  cbn [negb] in H. split; [done|]. inv_bind H req' s2 E. inv_bind H ln s2' E1.
  apply MB_lift_Ok in E1 as [E1 ->]. inv_bind H out s2' E2. apply MB_lift_Ok in E2 as [E2 ->].
  exists req', s2, ln, out. split_and!; [done..|]. inv_bind H v s3 E3. apply MB_upd_Ok in E3 as ->.
  fold (written_state s2 req' (take (Z.to_nat (ex_write ex out)) out)) in H.
  set (s3 := written_state _ _ _) in *. cbn zeta. inv_bind H rd0 s4 E4.
  inv_bind H v1 s5 E5. apply MB_upd_Ok in E5 as ->. apply MB_ret_Ok in H as [-> ->].
  destruct ((0 <? ex_write ex out) && _).
  - inv_bind E4 v2 s5 E6. destruct v2. inv_bind E4 s6 s7 E7. injection E7 as <- <-.
    injection E4 as <- <- <-. by exists s5.
  - by injection E4 as <- <- <-.
Qed.

(** The response that ends up in [mbim_pResponse] answers the request in flight. *)
Definition answers (req raw m : list Z) : Prop :=
  exists t ln, rd32 req OFF_TransactionId = Ok t /\ rd32 raw OFF_TransactionId = Ok t
    /\ rd32 raw OFF_MessageLength = Ok ln /\ rdn raw 0 (Z.to_nat ln) = Ok m.
Lemma reader_run_answers req l : forall s u s', reader_run l s = Ok (u, s') ->
  mbim_pRequest s = Some req ->
  mbim_pRequest s' = Some req /\
  (mbim_pResponse s' = mbim_pResponse s
   \/ exists raw m, Msg raw ∈ l /\ mbim_pResponse s' = Some m /\ answers req raw m).
Proof.
  induction l as [|d l IH]; intros s u s' H Hreq; [injection H as _ <-; auto|].
  cbn [reader_run foldr] in H. inv_bind H v s1 E.
  assert (K : mbim_pRequest s1 = Some req /\ (mbim_pResponse s1 = mbim_pResponse s
            \/ exists raw m, d = Msg raw /\ mbim_pResponse s1 = Some m /\ answers req raw m)).
  { destruct d as [raw|]; cbn [reader_step] in E; [|injection E as _ <-; auto].
    apply recv_cases in E as [(req' & t & ln & m & H1 & H2 & H3 & H4 & H5 & ->)|[ev ->]]; [|auto].
    rewrite Hreq in H1. injection H1 as <-. split; [done|]. right. exists raw, m.
    split_and!; [done..|]. by exists t, ln. }
  destruct K as [K1 K2]. destruct (IH _ _ _ H K1) as [K3 K4]. split; [done|].
  destruct K4 as [K4|(raw & m & Hin & K4)].
  - destruct K2 as [K2|(raw & m & -> & K2 & K5)]; [left; congruence|].
    right. exists raw, m. split; [by left|]. split; [congruence|done].
  - right. exists raw, m. split; [by right|done].
Qed.

(** A caller gets the response to its own request.  Whatever was received before and
    whatever else arrives, [mbim_send_command] hands out a message only with result 0,
    and that message was read while it waited, carries the transaction id of the
    request it wrote, and was copied at its announced length; afterwards no request and no
    response is left behind for the next caller. *)
Theorem mbim_send_returns_own req s r m s' :
  mbim_send_command dev (Some req) s = Ok ((r, Some m), s') ->
  r = 0 /\ mbim_pRequest s' = None /\ mbim_pResponse s' = None
  /\ exists req' out raw, last (mb_out s') = Some out /\ out `prefix_of` req'
       /\ Msg raw ∈ ex_during (dev (mb_calls s)) out /\ answers req' raw m.
Proof.
  intros H. apply send_cases in H as (s1 & _ & [(_ & _ & Hd & _)|[(_ & _ & Hd & _)|(_ & req' & s2 & ln & out & Hr & Hl & Ho & H)]]);
    [done..|]. cbn zeta in H. set (ex := dev (mb_calls s)) in *.
  destruct ((0 <? ex_write ex out) && (u32 (ex_write ex out) =? ln)) eqn:W; [|by destruct H as (_ & ? & _)].
  destruct H as (s4 & H & -> & Hd & ->). destruct (Z.eqb_spec (ex_wait ex out) 0) as [E|]; [|done].
  split; [done|]. split; [done|]. split; [done|].
  destruct (reader_run_answers req' _ _ _ _ H) as [_ [K|(raw & m' & Hin & K & A)]]; [done|..].
  - rewrite K in Hd. done.
  - rewrite K in Hd. injection Hd as <-.
    pose proof (reader_run_effect _ _ _ _ H) as (r' & ev & fd & t & -> & _).
    exists req', out, raw. split_and!; [| |exact Hin|exact A].
    + etrans; [exact (last_snoc _ (mb_out s2))|]. f_equal. apply take_ge. apply andb_prop in W as [W1 W2].
      apply Z.ltb_lt in W1. apply Z.eqb_eq in W2.
      assert (L : (length out <= Z.to_nat ln)%nat).
      { unfold rdn in Ho. destruct (_ <=? _)%nat; [|done]. injection Ho as <-. rewrite length_take. lia. }
      assert (u32 (ex_write ex out) <= ex_write ex out) by (apply Z.mod_le; lia). lia.
    + unfold rdn in Ho. destruct (_ <=? _)%nat; [|done]. injection Ho as <-. rewrite drop_0. apply prefix_take.
Qed.
End Send.
