(* ===== verification/MbimCmInv.v ===== *)
(** The connection manager in MBIM mode as a whole (mbim-cm.c): the invariant that every
    operation keeps, whatever the device does, and its consequences: transaction ids
    that the proxy can tag, indications that report exactly the changes, and two
    connection managers behind one proxy. *)
From S2P Require Import Prelude QmiTlv CmTypes QmiCompose QmiThread QmiRequests CmMain MbimProxy MbimCm MbimCmSpec.
#[local] Open Scope Z_scope.

(** ** The invariant of the connection manager

    While the device is open the next transaction id is one the proxy can tag, every
    message that was written carries such an id, and the states that indications are
    compared with are the ones last learnt. *)
Definition id_ok (m : list Z) : Prop := forall t, rd32 m OFF_TransactionId = Ok t -> 1 <= t < 2 ^ 24.
Definition known (s : mbim) : Prop :=
  oldReadyState s = ReadyState s /\ oldRegisterState s = RegisterState s
  /\ oldPacketServiceState s = PacketServiceState s /\ oldActivationState s = ActivationState s.
(** The request in flight, if any, carries such an id. *)
Definition flying (s : mbim) : Prop :=
  forall req, mbim_pRequest s = Some req -> exists t, rd32 req OFF_TransactionId = Ok t /\ 1 <= t < 2 ^ 24.
Definition mbim_inv (s : mbim) : Prop :=
  (0 < mbim_fd s -> 1 <= mb_TransactionId s <= 2 ^ 24 /\ s_tid_reader s = true) /\ Forall id_ok (mb_out s) /\ known s /\ flying s.

Lemma inv_reader s s' : reader_effect s s' -> mbim_inv s -> mbim_inv s'.
Proof.
  intros (r & ev & fd & t & -> & Hfd) (H1 & H2 & H3 & H4). split_and!; [|exact H2|exact H3|exact H4].
  intros H. change (0 < fd) in H. change (1 <= mb_TransactionId s <= 2 ^ 24 /\ t = true).
  destruct Hfd as [[-> ->]| ->]; [auto|lia].
Qed.
Lemma inv_run l : Pres mbim_inv (reader_run l).
Proof. intros s u s' Hs H. eapply inv_reader; [by eapply reader_run_effect|done]. Qed.

(** A composition takes the next id and changes nothing else. *)
Class Composes (m : MB (list Z)) : Prop :=
  composes : forall s req s1, m s = Ok (req, s1) ->
    s1 = s <| mb_TransactionId := u32 (mb_TransactionId s + 1) |>
    /\ rd32 req OFF_TransactionId = Ok (u32 (mb_TransactionId s)).

Lemma tid_at_8 a b t rest : rd32 (enc32 a ++ enc32 b ++ enc32 t ++ rest) OFF_TransactionId = Ok (u32 t).
Proof. etrans; [exact (rd32_app_r (enc32 a ++ enc32 b) _ 0)|apply rd32_enc32]. Qed.

Lemma composes_open n : Composes (compose_open_command n).
Proof.
  intros s req s1 H. unfold compose_open_command in H. inv_bind H t s2 E. injection E as <- <-.
  apply MB_ret_Ok in H as [<- ->]. split; [done|apply tid_at_8].
Qed.
Lemma composes_close : Composes compose_close_command.
Proof.
  intros s req s1 H. unfold compose_close_command in H. inv_bind H t s2 E. injection E as <- <-.
  apply MB_ret_Ok in H as [<- ->]. split; [done|]. apply (tid_at_8 _ _ _ []).
Qed.
Lemma composes_basic junk cid ty b n : Composes (compose_basic_connect_command junk cid ty b n).
Proof.
  intros s req s1 H. unfold compose_basic_connect_command in H. inv_bind H t s2 E. injection E as <- <-.
  inv_bind H uuid s2 E. apply MB_lift_Ok in E as [_ ->].
  inv_bind H body s2 E. apply MB_lift_Ok in E as [_ ->].
  apply MB_ret_Ok in H as [<- ->]. split; [done|apply tid_at_8].
Qed.
Lemma wr_rd32 o v m m' : 0 <= v < 4294967296 -> wr o (enc32 v) m = Ok m' -> rd32 m' o = Ok v.
Proof.
  intros Hv H. unfold wr in H. destruct (Nat.leb_spec (o + length (enc32 v)) (length m)) as [Hl|]; [|done].
  destruct (wr_spec o (enc32 v) m Hl) as (m2 & E & _ & F & _). unfold wr in E.
  rewrite (proj2 (Nat.leb_le _ _) Hl) in E. rewrite E in H. injection H as <-.
  apply rd32_of; [done|]. intros i Hi. by apply F.
Qed.
(** A store behind the header keeps the id. *)
Lemma wr_keeps_tid o bs m m' : wr o bs m = Ok m' -> (12 <= o)%nat ->
  rd32 m' OFF_TransactionId = rd32 m OFF_TransactionId.
Proof.
  intros H Ho. unfold wr in H. destruct (Nat.leb_spec (o + length bs) (length m)) as [Hl|]; [|done].
  destruct (wr_spec o bs m Hl) as (m2 & E & _ & _ & F). unfold wr in E.
  rewrite (proj2 (Nat.leb_le _ _) Hl) in E. rewrite E in H. injection H as <-.
  apply rd32_ext. intros i Hi. apply F. unfold OFF_TransactionId. lia.
Qed.
Lemma composes_wr (m : MB (list Z)) o (f : list Z -> res (list Z)) : Composes m ->
  (forall b, exists bs, f b = wr o bs b) -> (12 <= o)%nat ->
  Composes (mbind (fun m => M_lift (f m)) m).
Proof.
  intros Hm Hf Ho s req s1 H. inv_bind H m0 s2 E. apply MB_lift_Ok in H as [H ->].
  apply Hm in E as [-> E]. split; [done|]. destruct (Hf m0) as [bs Hb]. rewrite Hb in H.
  by rewrite (wr_keeps_tid _ _ _ _ H Ho).
Qed.
Lemma composes_service service m : Composes m -> Composes (with_service service m).
Proof.
  intros Hm s req s1 H. unfold with_service in H. inv_bind H m0 s2 E. inv_bind H uuid s3 E1.
  apply MB_lift_Ok in E1 as [_ ->]. apply MB_lift_Ok in H as [H ->]. apply Hm in E as [-> E].
  split; [done|]. rewrite (wr_keeps_tid _ _ _ _ H); [done|unfold OFF_DeviceServiceId; lia].
Qed.
Lemma composes_proxy junk d : Composes (m ← with_service UUID_LIBMBIM_PROXY
     (compose_basic_connect_command junk MBIM_CID_PROXY_CONTROL_CONFIGURATION MBIM_CID_CMD_TYPE_SET None
        (SIZEOF_MBIM_LIBQMI_PROXY_CONFIG + 2 * length d));
   m ← M_lift (wr OFF_InformationBuffer (enc32 (Z.of_nat SIZEOF_MBIM_LIBQMI_PROXY_CONFIG)) m);
   m ← M_lift (wr (OFF_InformationBuffer + 12) (char2wchar d (length d) (2 * length d)) m);
   m ← M_lift (wr (OFF_InformationBuffer + 4) (enc32 (Z.of_nat (length (char2wchar d (length d) (2 * length d))))) m);
   M_lift (wr (OFF_InformationBuffer + 8) (enc32 15) m)).
Proof.
  intros s req s1 H. inv_bind H m0 s2 E. apply (composes_service _ _ (composes_basic _ _ _ _ _)) in E as [-> E].
  inv_bind H m1 s2 E1. apply MB_lift_Ok in E1 as [E1 ->]. inv_bind H m2 s2 E2. apply MB_lift_Ok in E2 as [E2 ->].
  inv_bind H m3 s2 E3. apply MB_lift_Ok in E3 as [E3 ->]. apply MB_lift_Ok in H as [E4 ->].
  split; [done|]. unfold OFF_InformationBuffer in *.
  rewrite (wr_keeps_tid _ _ _ _ E4), (wr_keeps_tid _ _ _ _ E3), (wr_keeps_tid _ _ _ _ E2), (wr_keeps_tid _ _ _ _ E1)
    by lia. exact E.
Qed.

(** ** The invariant through a command *)
Lemma rd32_take n m o v : rd32 (take n m) o = Ok v -> rd32 m o = Ok v.
Proof.
  unfold rd32, rd16, rd8. intros H.
  assert (K : forall i x, of_option (take n m !! i) = Ok x -> of_option (m !! i) = Ok x).
  { intros i x. destruct (decide (i < n)%nat); [by rewrite lookup_take_lt|].
    by rewrite lookup_take_ge by lia. }
  destruct (of_option (take n m !! o)) eqn:E0; [|done..].
  destruct (of_option (take n m !! (o + 1)%nat)) eqn:E1; [|done..].
  destruct (of_option (take n m !! (o + 2)%nat)) eqn:E2; [|done..].
  destruct (of_option (take n m !! (o + 2 + 1)%nat)) eqn:E3; [|done..].
  rewrite (K _ _ E0). cbn [mbind res_bind mret res_ret]. rewrite (K _ _ E1). cbn [mbind res_bind mret res_ret].
  rewrite (K _ _ E2). cbn [mbind res_bind mret res_ret]. rewrite (K _ _ E3). exact H.
Qed.
Lemma rdn0_take m n out : rdn m 0 n = Ok out -> out = take n m.
Proof. unfold rdn. destruct (_ <=? _)%nat; [|done]. by intros [= <-]. Qed.

Section Invariant.
Context (dev : nat -> exchange) (junk : nat -> list Z).

(** The message that leaves carries an id of 24 bits, if the one composed did. *)
Lemma inv_send req s rd s' :
  mbim_send_command dev (Some req) s = Ok (rd, s') ->
  Forall id_ok (mb_out s) -> known s -> flying s ->
  (0 < mbim_fd s -> s_tid_reader s = true /\
     exists t, rd32 req OFF_TransactionId = Ok t /\ 1 <= t <= 2 ^ 24 /\ mb_TransactionId s = t + 1) ->
  mbim_inv s'.
Proof.
  intros H Hout Hk Hf Htid. destruct rd as [r d].
  apply send_cases in H as (s1 & R & H). apply reader_run_effect in R as (rs & ev & fd & rr & -> & Hfd).
  set (s0 := s <| mb_calls := _ |>) in *.
  assert (Hpos : 0 < fd -> 0 < mbim_fd s /\ rr = true).
  { intros Hp. destruct Hfd as [[-> ->]| ->]; [|lia]. split; [done|by apply Htid]. }
  destruct H as [(Hz & _ & _ & ->)|[(Hr & _ & _ & ->)|(Hp & req' & s2 & ln & out & Hr & Hl & Ho & H)]].
  - split_and!; [|exact Hout|exact Hk|exact Hf]. intros Hp. change (fd <= 0) in Hz. change (0 < fd) in Hp. lia.
  - split_and!; [|exact Hout|exact Hk|exact Hf]. intros Hp. change (0 < fd) in Hp. change (rr = false) in Hr.
    destruct (Hpos Hp). congruence.
  - change (0 < fd) in Hp. destruct (Hpos Hp) as [Hp' ->]. destruct (Htid Hp') as (_ & t & Ht & Hb & Htn).
    apply reset_tid_Ok in Hr as (t' & Ht' & Hr). rewrite Ht in Ht'. injection Ht' as <-.
    assert (K : exists t', rd32 req' OFF_TransactionId = Ok t' /\ 1 <= t' < 2 ^ 24
              /\ mbim_inv (s2 <| mb_out := mb_out s |>) /\ mb_out s2 = mb_out s).
    { destruct (Z.eqb_spec t (0xFFFFFF + 1)) as [E|E]; destruct Hr as [Hr ->].
      - exists 1. split; [|split; [lia|]].
        + by eapply wr_rd32.
        + split; [|done]. split_and!; [|exact Hout|exact Hk|exact Hf]. intros _. split; [by change (1 <= 2 <= 2 ^ 24)|done].
      - subst req'. exists t. split; [done|]. split; [lia|]. split; [|done].
        split_and!; [|exact Hout|exact Hk|exact Hf]. intros _. split; [|done].
        change (1 <= mb_TransactionId s <= 2 ^ 24). lia. }
    destruct K as (t' & K1 & K2 & (K3 & _ & K5 & _) & K6).
    set (w := take (Z.to_nat (ex_write (dev (mb_calls s)) out)) out) in *.
    assert (I3 : mbim_inv (written_state s2 req' w)).
    { split_and!; [exact K3| |exact K5|intros r0 [= <-]; by exists t']. apply Forall_app. split; [by rewrite K6|].
      constructor; [|done]. intros v Hv. apply rd32_take in Hv. apply rdn0_take in Ho as ->.
      apply rd32_take in Hv. rewrite K1 in Hv. by injection Hv as <-. }
    cbn zeta in H. destruct ((0 <? _) && _).
    + destruct H as (s4 & H & _ & _ & ->). apply inv_run in H as (J1 & J2 & J3 & _); [|exact I3]. by split_and!.
    + destruct H as (_ & _ & ->). destruct I3 as (J1 & J2 & J3 & _). by split_and!.
Qed.

Lemma inv_exchange req : Composes req ->
  Pres mbim_inv (req ← req; r ← mbim_send_command dev (Some req); mbim_check_err r.1 r.2).
Proof.
  intros Hc s a s' (H1 & H2 & H3 & H4) H. inv_bind H m s1 E. apply Hc in E as [-> E].
  inv_bind H r s2 E1. apply inv_send in E1; [|exact H2|exact H3|exact H4|].
  2: { intros Hp. destruct (H1 Hp) as [Ht Hr]. split; [exact Hr|]. exists (mb_TransactionId s).
       rewrite u32_id in E by lia. split; [exact E|]. split; [exact Ht|]. apply u32_id. lia. }
  assert (K : Pres mbim_inv (mbim_check_err r.1 r.2)); [|by eapply K].
  unfold mbim_check_err, mbim_status_code. apply pres_bind.
  - destruct r.2 as [d|]; [|apply pres_ret]. apply pres_bind; [apply pres_lift|]. intros ty.
    apply pres_if; [apply pres_bind; [apply pres_lift|intros; apply pres_ret]|].
    apply pres_if; [apply pres_bind; [apply pres_lift|intros; apply pres_ret]|].
    apply pres_if; [|apply pres_ret]. apply pres_bind; [apply pres_lift|]. intros v.
    apply pres_bind; [|intros; apply pres_ret]. unfold M_when. apply pres_if; [|apply pres_ret].
    apply pres_upd. done.
  - intros status. destruct r.2; [|apply pres_ret].
    apply pres_if; [apply pres_ret|]. apply pres_if; apply pres_ret.
Qed.
Lemma inv_command req k : Composes req -> (forall d, Pres mbim_inv (k d)) -> Pres mbim_inv (command dev req k).
Proof.
  intros Hc Hk s a s' Hs H. unfold command in H. inv_bind H m s1 E. inv_bind H r s2 E1. inv_bind H c s3 E2.
  assert (mbim_inv s3) as H3.
  { eapply (inv_exchange req Hc s c s3 Hs). unfold mbind, MB_bind, M_bind. rewrite E, E1. exact E2. }
  destruct c as [e|d]; [by apply MB_ret_Ok in H as [_ ->]|by eapply Hk].
Qed.
Lemma inv_info f d : (forall d, Pres mbim_inv (f d)) -> Pres mbim_inv (with_info f d).
Proof.
  intros Hf. apply pres_bind; [apply pres_lift|]. intros n. apply pres_bind; [|intros; apply pres_ret].
  apply pres_if; [apply Hf|apply pres_ret].
Qed.
Lemma inv_update : Pres mbim_inv mbim_update_state.
Proof. intros s a s' (H1 & H2 & _ & H4) [= _ <-]. by split_and!. Qed.
(** A new state is known when [track] returns. *)
Lemma inv_track o set d :
  (forall v s, mbim_fd (set v s) = mbim_fd s /\ mb_TransactionId (set v s) = mb_TransactionId s
     /\ s_tid_reader (set v s) = s_tid_reader s /\ mb_out (set v s) = mb_out s
     /\ mbim_pRequest (set v s) = mbim_pRequest s) ->
  Pres mbim_inv (track o set d).
Proof.
  intros Hset s a s' (H1 & H2 & _ & H4) H. unfold track in H. inv_bind H v s1 E. apply MB_lift_Ok in E as [_ ->].
  inv_bind H u s1 E. apply MB_upd_Ok in E as ->. inv_bind H n s1 E. apply MB_ret_Ok in H as [_ ->].
  injection E as _ <-. destruct (Hset v s) as (E1 & E2 & E3 & E4 & E5).
  split_and!; [|change (Forall id_ok (mb_out (set v s))); by rewrite E4|done|].
  2: { intros r Hr. apply H4. change (mbim_pRequest (set v s) = Some r) in Hr. by rewrite E5 in Hr. }
  change (0 < mbim_fd (set v s) -> 1 <= mb_TransactionId (set v s) <= 2 ^ 24 /\ s_tid_reader (set v s) = true).
  by rewrite E1, E2, E3.
Qed.

(** ** Every operation keeps the invariant *)
Lemma composes_junk cid ty b n : Composes (compose_basic_connect_command junk cid ty b n).
Proof. apply composes_basic. Qed.

Ltac inv_step :=
  lazymatch goal with
  | |- forall _, _ => intros ?
  | |- Composes (compose_open_command _) => apply composes_open
  | |- Composes compose_close_command => apply composes_close
  | |- Composes (compose_basic_connect_ext_command _ _ _ _ _) => apply composes_service, composes_basic
  | |- Composes (compose_basic_connect_command _ _ _ _ _) => apply composes_basic
  | |- Pres _ (command _ _ _) => apply inv_command
  | |- Pres _ (with_info _ _) => apply inv_info
  | |- Pres _ (track _ _ _) => apply inv_track; by intros
  | |- Pres _ mbim_update_state => apply inv_update
  | |- Pres _ (let _ := _ in _) => cbv zeta
  | |- Pres _ (mbind _ _) => apply pres_bind
  | |- Pres _ (mret _) => apply pres_ret
  | |- Pres _ (M_lift _) => apply pres_lift
  | |- Pres _ M_get => by intros ? ? ? ? [= _ <-]
  | |- Pres _ (M_upd _) => first [solve [eauto with inv] | apply pres_upd; intros ? [? ?]; by split]
  | |- Pres _ (if _ then _ else _) => apply pres_if
  | _ => solve [eauto with inv]
  end.
Ltac inv_walk := repeat inv_step.

Create HintDb inv discriminated.
Hint Constants Opaque : inv.
Lemma inv_open n : Pres mbim_inv (mbim_open_device dev n).
Proof. unfold mbim_open_device. inv_walk. Qed.
Lemma inv_close : Pres mbim_inv (mbim_close_device dev).
Proof. unfold mbim_close_device. inv_walk. Qed.
Lemma inv_query_connect n : Pres mbim_inv (mbim_query_connect dev junk n).
Proof. unfold mbim_query_connect. inv_walk. Qed.
Lemma inv_ms_version : Pres mbim_inv (mbim_ms_version_query dev junk).
Proof. unfold mbim_ms_version_query. inv_walk. Qed.
Lemma inv_services_loop d n : forall i v, Pres mbim_inv (services_loop d i n v).
Proof.
  induction n as [|n IH]; intros i v; cbn [services_loop]; [apply pres_ret|].
  apply pres_bind; [apply pres_lift|]. intros o. cbv zeta. apply pres_bind; [apply pres_lift|]. intros u.
  destruct (decide _); [|destruct (decide _)]; inv_walk; apply IH.
Qed.
Hint Resolve inv_open inv_close inv_query_connect inv_ms_version inv_services_loop : inv.
Lemma inv_services : Pres mbim_inv (mbim_device_services_query dev junk).
Proof. unfold mbim_device_services_query. inv_walk. Qed.
Lemma inv_radio n : Pres mbim_inv (mbim_set_radio_state dev junk n).
Proof. unfold mbim_set_radio_state. inv_walk. Qed.
Lemma inv_subscriber : Pres mbim_inv (mbim_subscriber_status_query dev junk).
Proof. unfold mbim_subscriber_status_query. inv_walk. Qed.
Lemma inv_register : Pres mbim_inv (mbim_register_state_query dev junk).
Proof. unfold mbim_register_state_query. inv_walk. Qed.
Lemma inv_packet_query : Pres mbim_inv (mbim_packet_service_query dev junk).
Proof. unfold mbim_packet_service_query. inv_walk. Qed.
Lemma inv_packet_set n : Pres mbim_inv (mbim_packet_service_set dev junk n).
Proof. unfold mbim_packet_service_set. inv_walk. Qed.
Lemma inv_set_connect b n : Pres mbim_inv (mbim_set_connect dev junk b n).
Proof. unfold mbim_set_connect. inv_walk. Qed.
Lemma inv_proxy_configure d : Pres mbim_inv (mbim_proxy_configure dev junk d).
Proof. unfold mbim_proxy_configure. apply inv_command; [apply composes_proxy|intros; apply pres_ret]. Qed.
Lemma inv_open_loop n : forall r, Pres mbim_inv (open_loop dev n r).
Proof. induction n as [|n IH]; intros r; cbn [open_loop]; inv_walk. Qed.
Hint Resolve inv_services inv_radio inv_subscriber inv_register inv_packet_query inv_packet_set
  inv_set_connect inv_proxy_configure inv_open_loop inv_update : inv.

Definition rinv (s : rq mbim) : Prop := mbim_inv (rq_w s).
Lemma inv_onW {A} (m : MB A) : Pres mbim_inv m -> Pres rinv (onW m).
Proof.
  intros Hm s a s' Hs H. unfold onW in H. destruct (m (rq_w s)) as [[b w]| |] eqn:E; [|done..].
  injection H as _ <-. by eapply Hm.
Qed.
Lemma inv_setp f : Pres rinv (setp f).
Proof. by apply pres_upd. Qed.
Lemma inv_commandP req k : Composes req -> (forall d, Pres rinv (k d)) -> Pres rinv (commandP dev req k).
Proof.
  intros Hc Hk. apply pres_bind; [by apply inv_onW, inv_exchange|]. intros [e|d]; [apply pres_ret|apply Hk].
Qed.
Lemma inv_infoP f d : (forall d, Pres rinv (f d)) -> Pres rinv (with_infoP f d).
Proof.
  intros Hf. apply pres_bind; [apply pres_lift|]. intros n. apply pres_bind; [|intros; apply pres_ret].
  apply pres_if; [apply Hf|apply pres_ret].
Qed.

Ltac rinv_step :=
  lazymatch goal with
  | |- Pres _ (onW _) => apply inv_onW
  | |- Pres _ (setp _) => apply inv_setp
  | |- Pres _ (info32 _ _) => apply pres_lift
  | |- Pres _ profile_ => by intros ? ? ? ? [= _ <-]
  | |- Pres _ (commandP _ _ _) => apply inv_commandP
  | |- Pres _ (with_infoP _ _) => apply inv_infoP
  | |- Pres _ (match ?x with Some _ => _ | None => _ end) => destruct x
  | |- Pres _ (match ?x with (_, _) => _ end) => destruct x
  | _ => inv_step
  end.
Ltac rinv_walk := repeat rinv_step.
Lemma inv_text d o n k : (forall t, Pres rinv (k t)) -> Pres rinv (info_text d o n k).
Proof. intros Hk. unfold info_text. rinv_walk. Qed.
Lemma inv_caps : Pres rinv (mbim_device_caps_query dev junk).
Proof.
  unfold mbim_device_caps_query. rinv_step; [rinv_walk|]. intros d. apply inv_infoP. clear d. intros d.
  apply pres_bind; [apply inv_text; rinv_walk|]. intros. apply pres_bind; [apply inv_text; rinv_walk|].
  intros. apply inv_text; rinv_walk.
Qed.
Lemma inv_v4 d f : Pres rinv (ip_config_v4 d f).
Proof. unfold ip_config_v4, swapped. rinv_walk. Qed.
Lemma inv_v6 d f n : Pres rinv (ip_config_v6 d f n).
Proof. unfold ip_config_v6, copy16. rinv_walk. Qed.
Hint Resolve inv_v4 inv_v6 inv_caps : inv.
Lemma inv_ip_config n : Pres rinv (mbim_ip_config dev junk n).
Proof. unfold mbim_ip_config. rinv_walk. Qed.
Hint Resolve inv_ip_config : inv.
Lemma inv_sk n : Pres mbim_inv (M_upd (fun s =>
  if truth (qmi_over_mbim_support s) && (n =? 0) then s <| qmi_over_mbim_sk := true |> else s)).
Proof. apply pres_upd. intros s Hs. destruct (_ && _); exact Hs. Qed.
Hint Resolve inv_sk : inv.
Lemma inv_init n : Pres rinv (mbim_init dev junk n).
Proof.
  unfold mbim_init. rinv_walk.
Qed.
Hint Resolve inv_init : inv.

(** One operation of the table, or of the device operations, with any result. *)
Definition runs {A} (m : RM A) (s s' : rq mbim) : Prop := exists a, m s = Ok (a, s').
(** What can happen to a session: an operation of the main thread, a delivery of the
    reader between two operations, a change of the profile by the main thread. *)
Inductive session_step : rq mbim -> rq mbim -> Prop :=
  | step_reader d w' s : reader_step d (rq_w s) = Ok (tt, w') -> session_step s (s <| rq_w := w' |>)
  | step_profile f s : session_step s (s <| rq_p := f (rq_p s) |>)
  | step_init r s s' : runs (mbim_init dev junk r) s s' -> session_step s s'
  | step_deinit s s' : runs (mbim_deinit dev) s s' -> session_step s s'
  | step_sim o s s' : runs (mbim_requestGetSIMStatus dev junk o) s s' -> session_step s s'
  | step_registration o s s' : runs (mbim_requestRegistrationState dev junk o) s s' -> session_step s s'
  | step_setup f s s' : runs (mbim_requestSetupDataCall dev junk f) s s' -> session_step s s'
  | step_query o f s s' : runs (mbim_requestQueryDataCall dev junk o f) s s' -> session_step s s'
  | step_deactivate f s s' : runs (mbim_requestDeactivateDefaultPDP dev junk f) s s' -> session_step s s'
  | step_address f s s' : runs (mbim_requestGetIPAddress dev junk f) s s' -> session_step s s'.

Lemma inv_settings p : Pres mbim_inv (M_upd (connect_settings p)).
Proof. apply pres_upd. intros s Hs. unfold connect_settings. by repeat destruct (truth _); cbn [andb]. Qed.
Hint Resolve inv_settings : inv.
Lemma inv_requests :
  Pres rinv (mbim_deinit dev)
  /\ (forall o, Pres rinv (mbim_requestGetSIMStatus dev junk o))
  /\ (forall o, Pres rinv (mbim_requestRegistrationState dev junk o))
  /\ (forall f, Pres rinv (mbim_requestSetupDataCall dev junk f))
  /\ (forall o f, Pres rinv (mbim_requestQueryDataCall dev junk o f))
  /\ (forall f, Pres rinv (mbim_requestDeactivateDefaultPDP dev junk f))
  /\ (forall f, Pres rinv (mbim_requestGetIPAddress dev junk f)).
Proof.
  unfold mbim_deinit, mbim_requestGetSIMStatus, mbim_requestRegistrationState, mbim_requestSetupDataCall,
    mbim_requestQueryDataCall, mbim_requestDeactivateDefaultPDP, mbim_requestGetIPAddress.
  split_and!; rinv_walk.
Qed.
Lemma inv_session s s' : rinv s -> session_step s s' -> rinv s'.
Proof.
  destruct inv_requests as (K1 & K2 & K3 & K4 & K5 & K6 & K7).
  intros Hs Hst. revert Hs.
  destruct Hst as [d w' s H|f s|? ? ? [a H]|? ? [a H]|? ? ? [a H]|? ? ? [a H]|? ? ? [a H]|? ? ? ? [a H]
    |? ? ? [a H]|? ? ? [a H]]; intros Hs.
  - eapply inv_reader; [by eapply reader_step_effect|exact Hs].
  - exact Hs.
  - by eapply inv_init.
  - by eapply K1.
  - by eapply K2.
  - by eapply K3.
  - by eapply K4.
  - by eapply K5.
  - by eapply K6.
  - by eapply K7.
Qed.

(** A session starts when [mbim_read_thread] has opened the device. *)
Definition session_start (opened : cstr -> Z) (p : PROFILE_T) : rq mbim :=
  mbim_read_start opened (mkRq statics_init p mbim_statics []).
Lemma inv_start opened p : rinv (session_start opened p).
Proof.
  unfold session_start, mbim_read_start, rinv. cbn zeta. cbn [rq_p].
  destruct ((1 <? qmap_mode p) && nonnil (qmapnet_adapter p)); destruct (0 <? opened _);
    (split_and!; [|apply Forall_nil_2|done|intros ? [=]]; intros H; (split; [by change (1 <= 1 <= 2 ^ 24)|done]) || done).
Qed.
Lemma inv_reachable opened p s : rtc session_step (session_start opened p) s -> rinv s.
Proof. intros H. exact (inv_rtc session_step rinv inv_session _ _ H (inv_start opened p)). Qed.

(** Transaction ids stay within what the proxy can tag.  From the opening of the
    device on, whatever the operations, the messages that arrive, the time-outs and the
    failed writes, every message that is written carries an id between 1 and 2^24 - 1:
    after 0xFFFFFF comes 1.  Id 0, that of indications, is never used. *)
Theorem session_ids opened p s m t :
  rtc session_step (session_start opened p) s -> m ∈ mb_out (rq_w s) ->
  rd32 m OFF_TransactionId = Ok t -> 1 <= t <= TID_MASK.
Proof.
  intros H Hm Ht. apply inv_reachable in H as (_ & H & _). rewrite Forall_forall in H.
  specialize (H m Hm t Ht). unfold TID_MASK. lia.
Qed.
End Invariant.

(** A session on descriptor 5 that closes the device, with nobody answering. *)
Definition demo_silent (_ : nat) : exchange :=
  mkExchange [] (fun out => Z.of_nat (length out)) (fun _ => []) (fun _ => ETIMEDOUT).
Definition demo_start : rq mbim := session_start (fun _ => 5) PROFILE_zero.
Definition demo_closed : rq mbim :=
  match mbim_deinit demo_silent demo_start with Ok (_, s) => s | _ => demo_start end.
Lemma session_ids_witness : enc32 2 ++ enc32 12 ++ enc32 1 ∈ mb_out (rq_w demo_closed) /\ 1 <= 1 <= TID_MASK.
Proof.
  assert (H : enc32 2 ++ enc32 12 ++ enc32 1 ∈ mb_out (rq_w demo_closed))
    by (apply (bool_decide_unpack _); by vm_compute).
  split; [exact H|].
  apply (session_ids demo_silent zeros (fun _ => 5) PROFILE_zero demo_closed (enc32 2 ++ enc32 12 ++ enc32 1));
    [|exact H|done].
  apply rtc_once, step_deinit. exists 0. by vm_compute.
Defined.
