(* ===== verification/MbimSession.v ===== *)
(** MBIM end to end (mbim-cm.c, with quectel-mbim-proxy.c below it): a response reaches
    its caller, also through the proxy, indications report exactly the changes, a data
    call needs the modem's confirmation, and what becomes of the addresses. *)
From S2P Require Import Prelude QmiTlv CmTypes QmiCompose QmiThread QmiRequests CmMain MbimProxy MbimProxySpec MbimCm MbimCmSpec MbimCmInv.
#[local] Open Scope Z_scope.

Lemma step_to {A B} (m : MB A) (f : A -> MB B) s a s1 : m s = Ok (a, s1) -> mbind f m s = f a s1.
Proof. intros H. unfold mbind, MB_bind, M_bind. by rewrite H. Qed.

Lemma stepR_to {A B} (m : RM A) (f : A -> RM B) s a s1 : m s = Ok (a, s1) -> mbind f m s = f a s1.
Proof. intros H. unfold mbind, RM_bind, M_bind. by rewrite H. Qed.

(** ** A response reaches its caller *)
Lemma recv_own_response m s req t ln copy :
  mbim_pRequest s = Some req -> rd32 req OFF_TransactionId = Ok t -> rd32 m OFF_TransactionId = Ok t ->
  rd32 m OFF_MessageLength = Ok ln -> rdn m 0 (Z.to_nat ln) = Ok copy ->
  mbim_recv_command m s = Ok (tt, s <| mbim_pResponse := Some copy |>).
Proof.
  intros H1 H2 H3 H4 H5. unfold mbim_recv_command, mbind, MB_bind, M_bind, M_get. cbn [mret].
  rewrite H1. unfold res_bind. rewrite H2, H3. cbn. rewrite Z.eqb_refl. rewrite H4. cbn. by rewrite H5.
Qed.

(** Messages that are not for the caller: late responses to other requests. *)
Definition stale (t : Z) (d : delivery) : Prop :=
  exists m ty t', d = Msg m /\ rd32 m OFF_TransactionId = Ok t' /\ t' <> t
    /\ rd32 m OFF_MessageType = Ok ty /\ ty <> MBIM_INDICATE_STATUS_MSG.
Lemma recv_stale t d s req : stale t d ->
  mbim_pRequest s = Some req -> rd32 req OFF_TransactionId = Ok t -> reader_step d s = Ok (tt, s).
Proof.
  intros (m & ty & t' & -> & H1 & H2 & H3 & H4) H5 H6. cbn [reader_step].
  unfold mbim_recv_command, mbind, MB_bind, M_bind, M_get. cbn [mret].
  rewrite H5. unfold res_bind. rewrite H6, H1. cbn. rewrite (proj2 (Z.eqb_neq _ _)) by congruence.
  rewrite H3. cbn. by rewrite (proj2 (Z.eqb_neq _ _)).
Qed.
Lemma run_stale t l : Forall (stale t) l -> forall s req,
  mbim_pRequest s = Some req -> rd32 req OFF_TransactionId = Ok t -> reader_run l s = Ok (tt, s).
Proof.
  induction 1 as [|d l Hd _ IH]; intros s req H1 H2; [done|]. cbn [reader_run foldr].
  unfold mbind, MB_bind, M_bind. rewrite (recv_stale t d s req) by done. by eapply IH.
Qed.
Lemma reader_run_app l1 l2 s s1 : reader_run l1 s = Ok (tt, s1) -> reader_run (l1 ++ l2) s = reader_run l2 s1.
Proof.
  revert s. induction l1 as [|d l IH]; intros s H; [by injection H as ->|].
  cbn [reader_run foldr app] in *. inv_bind H u s2 E. unfold mbind, MB_bind, M_bind. rewrite E. by apply IH.
Qed.

Section Session.
Context (dev : nat -> exchange).

(** What [dev] does around the next command: nothing before it, the whole message is
    written, the wait ends with a signal. *)
Definition answered_by (s : mbim) (req : list Z) (l : list delivery) : Prop :=
  let ex := dev (mb_calls s) in
  ex_before ex = [] /\ ex_write ex req = Z.of_nat (length req) /\ ex_during ex req = l /\ ex_wait ex req = 0.

Lemma rdn_full (m : list Z) : rdn m 0 (length m) = Ok m.
Proof. unfold rdn. rewrite (proj2 (Nat.leb_le _ _)) by done. by rewrite drop_0, firstn_all. Qed.

Lemma send_answered s req s2 req' l t s4 ans :
  0 < mbim_fd s -> s_tid_reader s = true ->
  reset_tid req (s <| mb_calls := S (mb_calls s) |>) = Ok (req', s2) ->
  rd32 req' OFF_TransactionId = Ok t ->
  rd32 req' OFF_MessageLength = Ok (Z.of_nat (length req')) -> 0 < Z.of_nat (length req') < 4294967296 ->
  answered_by s req' l ->
  reader_run l (written_state s2 req' req') = Ok (tt, s4) ->
  mbim_pResponse s4 = Some ans ->
  mbim_send_command dev (Some req) s = Ok ((0, Some ans), idle s4).
Proof.
  intros H1 H2 Hr H3 H4 H5 (E1 & E2 & E3 & E4) H6 H7.
  unfold mbim_send_command. rewrite (step_to _ _ s s s eq_refl).
  rewrite (step_to _ _ _ tt (s <| mb_calls := S (mb_calls s) |>) eq_refl). rewrite E1.
  set (s1 := s <| mb_calls := _ |>) in *.
  rewrite (step_to _ _ s1 tt s1 eq_refl), (step_to _ _ s1 s1 s1 eq_refl).
  change (mbim_fd s1) with (mbim_fd s). change (s_tid_reader s1) with (s_tid_reader s).
  rewrite (proj2 (Z.leb_gt _ _) H1), H2. cbn [negb]. rewrite (step_to _ _ _ _ _ Hr).
  rewrite (step_to _ _ s2 (Z.of_nat (length req')) s2) by (unfold M_lift; by rewrite H4).
  rewrite (step_to _ _ s2 req' s2) by (unfold M_lift; by rewrite Nat2Z.id, rdn_full).
  rewrite E2, E3, E4, Nat2Z.id, firstn_all.
  rewrite (step_to _ _ s2 tt (written_state s2 req' req') eq_refl).
  rewrite (proj2 (Z.ltb_lt _ _)), (u32_id (Z.of_nat _)), Z.eqb_refl by lia. cbn [andb].
  rewrite (step_to _ _ _ (0, Some ans) s4); [by rewrite (step_to _ _ s4 tt (idle s4) eq_refl)|].
  rewrite (step_to _ _ _ _ _ H6), (step_to _ _ s4 s4 s4 eq_refl). cbn. by rewrite H7.
Qed.
End Session.

(** ** Commands and their answers *)

(** A modem that executes a command: it echoes id, service and CID. *)
Definition modem_done (status : Z) (info m : list Z) : list Z :=
  enc32 MBIM_COMMAND_DONE ++ enc32 (48 + Z.of_nat (length info)) ++ take 4 (drop 8 m) ++ enc32 1 ++ enc32 0
  ++ take 20 (drop 20 m) ++ enc32 status ++ enc32 (Z.of_nat (length info)) ++ info.
Lemma modem_done_message status info ty ln t body :
  modem_done status info (mbim_message ty ln t body)
  = mbim_message MBIM_COMMAND_DONE (48 + Z.of_nat (length info)) t
      (enc32 1 ++ enc32 0 ++ take 20 (drop 8 body) ++ enc32 status ++ enc32 (Z.of_nat (length info)) ++ info).
Proof. unfold modem_done, mbim_message. done. Qed.
Lemma length_modem_done status info ty ln t body : (28 <= length body)%nat ->
  length (modem_done status info (mbim_message ty ln t body)) = (48 + length info)%nat.
Proof.
  intros H. rewrite modem_done_message. unfold mbim_message.
  rewrite !length_app, !length_enc32, length_take, length_drop. lia.
Qed.

(** What is written for a command composed in a state of a session. *)
Lemma composed_written junk cid ty b n s req s1 :
  compose_basic_connect_command junk cid ty b n s = Ok (req, s1) ->
  mbim_inv s -> 0 < mbim_fd s -> (forall k, length (junk k) = k) -> Z.of_nat n + 48 < 4294967296 ->
  exists t body s2, 1 <= t < 2 ^ 24
    /\ reset_tid req (s1 <| mb_calls := S (mb_calls s1) |>)
       = Ok (mbim_message MBIM_COMMAND_MSG (48 + Z.of_nat n) t body, s2)
    /\ body = drop 12 req /\ length body = (36 + n)%nat
    /\ 0 < mbim_fd s1 /\ s_tid_reader s1 = true /\ mb_out s2 = mb_out s.
Proof.
  intros H (Hi & _) Hfd Hj Hn. destruct (Hi Hfd) as [Ht Hr]. unfold compose_basic_connect_command in H.
  inv_bind H t s2 E. injection E as <- <-. inv_bind H uuid s2 E. apply MB_lift_Ok in E as [E ->].
  vm_compute in E. injection E as <-. inv_bind H body s2 E. apply MB_lift_Ok in E as [E ->].
  assert (Hb : length body = n).
  { destruct b; [|by injection E as <-]. unfold rdn in E. destruct (_ <=? _)%nat eqn:El; [|done].
    injection E as <-. rewrite length_take. apply Nat.leb_le in El. rewrite drop_0. lia. }
  apply MB_ret_Ok in H as [<- ->].
  lazymatch goal with |- context [reset_tid ?m _] =>
    let rest := lazymatch m with _ ++ _ ++ _ ++ ?r => r end in
    change m with (mbim_message MBIM_COMMAND_MSG (48 + Z.of_nat n) (mb_TransactionId s) rest);
    set (r := rest) end.
  assert (Hl : length r = (36 + n)%nat) by (subst r; rewrite !length_app, !length_enc32, Hb; cbn; lia).
  set (s1 := s <| mb_TransactionId := u32 (mb_TransactionId s + 1) |>). unfold reset_tid.
  set (s2 := s1 <| mb_calls := S (mb_calls s1) |>).
  rewrite (step_to _ _ s2 (mb_TransactionId s) s2) by (unfold M_lift; by rewrite message_tid by lia).
  destruct (Z.eqb_spec (mb_TransactionId s) (0xFFFFFF + 1)).
  - rewrite (step_to _ _ s2 tt (s2 <| mb_TransactionId := 1 |>)) by done.
    set (s3 := s2 <| mb_TransactionId := 1 |>).
    rewrite (step_to _ _ s3 1 (s3 <| mb_TransactionId := 2 |>)) by done.
    exists 1, r, (s3 <| mb_TransactionId := 2 |>). split; [lia|]. unfold M_lift. by rewrite message_set_tid.
  - exists (mb_TransactionId s), r, s2. split; [lia|]. done.
Qed.

(** A message the device is willing to execute: a command with an id of 24 bits. *)
Definition a_command (out : list Z) (t : Z) : Prop :=
  exists ln body, out = mbim_message MBIM_COMMAND_MSG ln t body /\ 1 <= t < 2 ^ 24 /\ (28 <= length body)%nat.
(** Whatever command is written, it is written whole and the modem executes it while the
    caller waits, between late responses to other requests. *)
Definition executes (ex : exchange) (status : Z) (info : list Z) : Prop :=
  ex_before ex = [] /\ forall out t, a_command out t ->
    ex_write ex out = Z.of_nat (length out) /\ ex_wait ex out = 0
    /\ exists pre post, ex_during ex out = pre ++ Msg (modem_done status info out) :: post
         /\ Forall (stale t) (pre ++ post).

Lemma run_answer t pre post a s req :
  Forall (stale t) (pre ++ post) -> mbim_pRequest s = Some req -> rd32 req OFF_TransactionId = Ok t ->
  rd32 a OFF_TransactionId = Ok t -> rd32 a OFF_MessageLength = Ok (Z.of_nat (length a)) ->
  reader_run (pre ++ Msg a :: post) s = Ok (tt, s <| mbim_pResponse := Some a |>).
Proof.
  intros [H1 H2]%Forall_app Hq Hr Ha Hl.
  rewrite (reader_run_app _ _ s s) by (by eapply run_stale). cbn [reader_run foldr reader_step].
  rewrite (step_to _ _ s tt (s <| mbim_pResponse := Some a |>)); [by eapply run_stale|].
  eapply recv_own_response; [done..|]. by rewrite Nat2Z.id, rdn_full.
Qed.
Lemma message_length ty ln t body : 0 <= ln < 4294967296 ->
  rd32 (mbim_message ty ln t body) OFF_MessageLength = Ok ln.
Proof. intros H. etrans; [exact (rd32_app_r (enc32 ty) _ 0)|]. rewrite rd32_enc32. by rewrite u32_id. Qed.

Lemma command_executed dev junk cid ty b n s req s1 status info :
  compose_basic_connect_command junk cid ty b n s = Ok (req, s1) ->
  mbim_inv s -> 0 < mbim_fd s -> (forall k, length (junk k) = k) -> Z.of_nat n + 48 < 4294967296 ->
  Z.of_nat (length info) + 48 < 4294967296 -> executes (dev (mb_calls s1)) status info ->
  exists t s', 1 <= t < 2 ^ 24 /\
    let out := mbim_message MBIM_COMMAND_MSG (48 + Z.of_nat n) t (drop 12 req) in
    mb_out s' = mb_out s ++ [out]
    /\ mbim_send_command dev (Some req) s1 = Ok ((0, Some (modem_done status info out)), s').
Proof.
  intros H Hi Hfd Hj Hn Hinfo (E1 & E2).
  destruct (composed_written _ _ _ _ _ _ _ _ H Hi Hfd Hj Hn) as (t & body & s2 & Ht & Hr & -> & Hl & Hfd1 & Hr1 & Ho).
  set (out := mbim_message MBIM_COMMAND_MSG (48 + Z.of_nat n) t (drop 12 req)) in *.
  assert (Ha : a_command out t) by (eexists _, _; split; [done|]; split; [done|lia]).
  assert (Hlo : length out = (48 + n)%nat) by (unfold out, mbim_message; rewrite !length_app, !length_enc32; lia).
  destruct (E2 out t Ha) as (E3 & E4 & pre & post & E5 & E6).
  exists t. eexists. split; [done|]. cbn zeta.
  assert (Hd : length (modem_done status info out) = (48 + length info)%nat) by (apply length_modem_done; lia).
  assert (Htid : rd32 out OFF_TransactionId = Ok t) by (apply message_tid; lia).
  split; [|eapply (send_answered dev s1 req s2 out _ t _ (modem_done status info out));
    [done|done|exact Hr|exact Htid|rewrite Hlo; unfold out; rewrite message_length by lia; f_equal; lia|lia|
     by split_and!|eapply (run_answer t); [exact E6|done|exact Htid|..]|done]].
  - cbn. by rewrite Ho.
  - unfold out. rewrite modem_done_message. apply message_tid. lia.
  - rewrite Hd. unfold out. rewrite modem_done_message, message_length by lia. f_equal. lia.
Qed.

(** A command is answered.  In every state of a session with an open device, when the
    modem executes a command that is composed and sent, the caller gets the response
    of the modem with result 0, whatever late responses to earlier requests arrive
    before and after it, also when the transaction id wraps around. *)
Theorem mbim_command_answered dev junk opened p s cid ty b n req w1 status info :
  rtc (session_step dev junk) (session_start opened p) s -> 0 < mbim_fd (rq_w s) ->
  compose_basic_connect_command junk cid ty b n (rq_w s) = Ok (req, w1) ->
  (forall k, length (junk k) = k) -> Z.of_nat n + 48 < 4294967296 -> Z.of_nat (length info) + 48 < 4294967296 ->
  executes (dev (mb_calls w1)) status info ->
  exists out w2, mb_out w2 = mb_out (rq_w s) ++ [out] /\ drop 12 out = drop 12 req
    /\ mbim_send_command dev (Some req) w1 = Ok ((0, Some (modem_done status info out)), w2).
Proof.
  intros H Hfd Hc Hj Hn Hinfo He. apply inv_reachable in H.
  destruct (command_executed _ _ _ _ _ _ _ _ _ _ _ Hc H Hfd Hj Hn Hinfo He) as (t & w2 & _ & H1 & H2).
  by eexists _, w2.
Qed.

(** ** Through the proxy *)

(** The exchange of a command with a connection manager behind the proxy: the proxy,
    in state [p], reads the command from the client; the modem executes what the
    proxy writes to the device; later, in state [p2], the proxy reads the response;
    what it writes to the client is what arrives. *)
Definition via_proxy (p p2 : mproxy) (fd : Z) (modem : list Z -> list Z) : exchange :=
  mkExchange [] (fun out => Z.of_nat (length out))
    (fun out =>
       match handle_client_request fd out p with
       | Ok (_, p1) =>
           match last (written p1) with
           | Some (_, m) =>
               match handle_device_response (modem m) p2 with
               | Ok p3 => (fun e : Z * mbim_msg => Msg e.2)
                            <$> filter (fun e => e.1 = fd) (drop (length (written p2)) (written p3))
               | _ => []
               end
           | None => []
           end
       | _ => []
       end)
    (fun _ => 0).

Lemma written_snoc fd m s : write_rets s = [] -> written (non_block_write fd m s) = written s ++ [(fd, m)].
Proof. intros H. unfold non_block_write. by rewrite H. Qed.
Lemma via_proxy_executes d p p2 i fd status info :
  rtc mstep (start d) p -> live_at p i fd -> rtc mstep (start d) p2 -> live_at p2 i fd ->
  write_rets p = [] -> write_rets p2 = [] ->
  executes (via_proxy p p2 fd (modem_done status info)) status info.
Proof.
  intros Hp Hl Hp2 Hl2 Hw Hw2. split; [done|]. intros out t (ln & body & -> & Ht & Hb). split; [done|]. split; [done|].
  exists [], []. split; [|constructor]. cbn [via_proxy ex_during app].
  rewrite (request_forwarded p i fd) by (try done; try lia; by eapply table_ok_reachable).
  rewrite written_snoc, last_snoc, modem_done_message by done.
  rewrite (response_returned p2 i fd) by (try done; try lia; by eapply table_ok_reachable).
  rewrite written_snoc, drop_app_length by done. cbn. by rewrite decide_True by done.
Qed.

(** C21. A connection manager behind the proxy gets the responses to its commands.
    Every command it composes in a session reaches the device with its id changed only,
    and the response of the modem, whatever other clients did at the proxy between
    the two, comes back with the id the connection manager chose and is handed to
    the caller.  (The two writes of the proxy are whole ones; those before, for this
    client and others, may have failed.) *)
Theorem cm_through_proxy dev junk opened pr s cid ty b n req w1 status info d p p2 i fd :
  rtc (session_step dev junk) (session_start opened pr) s -> 0 < mbim_fd (rq_w s) ->
  compose_basic_connect_command junk cid ty b n (rq_w s) = Ok (req, w1) ->
  (forall k, length (junk k) = k) -> Z.of_nat n + 48 < 4294967296 -> Z.of_nat (length info) + 48 < 4294967296 ->
  rtc mstep (start d) p -> live_at p i fd -> rtc mstep (start d) p2 -> live_at p2 i fd ->
  write_rets p = [] -> write_rets p2 = [] ->
  dev (mb_calls w1) = via_proxy p p2 fd (modem_done status info) ->
  exists t w2, 1 <= t <= TID_MASK
    /\ let out := mbim_message MBIM_COMMAND_MSG (48 + Z.of_nat n) t (drop 12 req) in
       handle_client_request fd out p
         = Ok (0, non_block_write (mbim_dev_fd p)
                    (mbim_message MBIM_COMMAND_MSG (48 + Z.of_nat n) (device_tid i t) (drop 12 req)) p)
       /\ mbim_send_command dev (Some req) w1 = Ok ((0, Some (modem_done status info out)), w2).
Proof.
  intros H Hfd Hc Hj Hn Hinfo Hp Hl Hp2 Hl2 Hw Hw2 He. apply inv_reachable in H.
  destruct (command_executed _ _ _ _ _ _ _ _ _ _ _ Hc H Hfd Hj Hn Hinfo
              (eq_ind_r (fun e => executes e status info) (via_proxy_executes d p p2 i fd status info Hp Hl Hp2 Hl2 Hw Hw2) He))
    as (t & w2 & Ht & _ & H2).
  exists t, w2. split; [unfold TID_MASK; lia|]. cbn zeta. split; [|exact H2].
  apply request_forwarded; try done; try lia. by eapply table_ok_reachable.
Qed.

(** ** Indications *)
Definition BASIC_CONNECT : list Z := default [] (str2uuid UUID_BASIC_CONNECT).
(** An indication of the basic-connect service, and its fields in front of [info]. *)
Definition indication_msg (cid : Z) (info : list Z) : list Z :=
  mbim_message MBIM_INDICATE_STATUS_MSG (44 + Z.of_nat (length info)) 0
    (enc32 1 ++ enc32 0 ++ BASIC_CONNECT ++ enc32 cid ++ enc32 (Z.of_nat (length info)) ++ info).
Definition indication_head (info : list Z) : list Z :=
  enc32 MBIM_INDICATE_STATUS_MSG ++ enc32 (44 + Z.of_nat (length info)) ++ enc32 0 ++ enc32 1 ++ enc32 0.
Lemma indication_split cid info : indication_msg cid info
  = indication_head info ++ BASIC_CONNECT ++ enc32 cid ++ enc32 (Z.of_nat (length info)) ++ info.
Proof. unfold indication_msg, mbim_message, indication_head. by rewrite <- !app_assoc. Qed.
Lemma indication_info cid info k : rd32 (indication_msg cid info) (OFF_IND_InformationBuffer + k) = rd32 info k.
Proof. rewrite indication_split, !app_assoc. exact (rd32_app_r _ info k). Qed.
Lemma indication_cid cid info : 0 <= cid < 4294967296 -> rd32 (indication_msg cid info) OFF_CMD_CID = Ok cid.
Proof.
  intros H. rewrite indication_split, (app_assoc _ BASIC_CONNECT).
  etrans; [exact (rd32_app_r _ _ 0)|]. rewrite rd32_enc32. by rewrite u32_id.
Qed.
Lemma indication_service cid info : rdn (indication_msg cid info) OFF_DeviceServiceId 16 = Ok BASIC_CONNECT.
Proof. rewrite indication_split. exact (rdn_app (indication_head info) BASIC_CONNECT _). Qed.

(** The events for a state that was [old] and is now reported as [new]. *)
Definition changed (old new : Z) (e : cm_event) : list dev_event := if old =? new then [] else [Report e].

Lemma recv_indication w cid info : flying w ->
  mbim_recv_command (indication_msg cid info) w = indication (indication_msg cid info) w.
Proof.
  intros Hf. unfold mbim_recv_command. rewrite (step_to _ _ w w w eq_refl).
  rewrite (step_to _ _ w false w).
  - rewrite (step_to _ _ w MBIM_INDICATE_STATUS_MSG w)
      by (unfold M_lift, indication_msg; by rewrite message_type).
    rewrite Z.eqb_refl. rewrite (step_to _ _ w BASIC_CONNECT w) by (unfold M_lift; by rewrite indication_service).
    rewrite (step_to _ _ w BASIC_CONNECT w) by done. by rewrite decide_True.
  - destruct (mbim_pRequest w) as [req|] eqn:E; [|done]. destruct (Hf req E) as (t & Ht & Hb).
    unfold M_lift, mbind, res_bind. rewrite Ht. unfold indication_msg. rewrite message_tid by done.
    cbn. by rewrite (proj2 (Z.eqb_neq t 0)) by lia.
Qed.
Lemma report_changed (b : bool) e w :
  (if negb b then mb_event (Report e) else mret tt : MB unit) w
  = Ok (tt, w <| mb_events := mb_events w ++ (if b then [] else [Report e]) |>).
Proof. destruct b; cbn; [|done]. unfold mret, MB_ret, M_ret. destruct w. cbn. by rewrite app_nil_r. Qed.

Lemma rd32_enc32_app v rest : 0 <= v < 4294967296 -> rd32 (enc32 v ++ rest) 0 = Ok v.
Proof. intros H. rewrite rd32_enc32. by rewrite u32_id. Qed.
Lemma rd32_enc32_second a v rest : 0 <= v < 4294967296 -> rd32 (enc32 a ++ enc32 v ++ rest) 4 = Ok v.
Proof. intros H. etrans; [exact (rd32_app_r (enc32 a) _ 0)|]. by apply rd32_enc32_app. Qed.

(** Indications report exactly the changes.  In every state a session can reach, an
    indication of the subscriber, registration, packet-service or activation state sends
    one event to the main thread when the value differs from the one last learnt by a
    query, and none when it is the same; the activation state of another session
    sends none; nothing else changes. *)
Theorem indications_report dev junk opened p s v e rest :
  rtc (session_step dev junk) (session_start opened p) s ->
  0 <= v < 4294967296 -> 0 <= e < 4294967296 ->
  let w := rq_w s in
  let after l := Ok (tt, w <| mb_events := mb_events w ++ l |>) in
  let VOICE := RIL_UNSOL_RESPONSE_VOICE_NETWORK_STATE_CHANGED in
  mbim_recv_command (indication_msg MBIM_CID_SUBSCRIBER_READY_STATUS (enc32 v ++ rest)) w
    = after (changed (ReadyState w) v VOICE)
  /\ mbim_recv_command (indication_msg MBIM_CID_REGISTER_STATE (enc32 e ++ enc32 v ++ rest)) w
    = after (changed (RegisterState w) v VOICE)
  /\ mbim_recv_command (indication_msg MBIM_CID_PACKET_SERVICE (enc32 e ++ enc32 v ++ rest)) w
    = after (changed (PacketServiceState w) v VOICE)
  /\ mbim_recv_command (indication_msg MBIM_CID_CONNECT (enc32 e ++ enc32 v ++ rest)) w
    = after (if e =? u32 (mbim_sessionID w)
             then changed (ActivationState w) v RIL_UNSOL_DATA_CALL_LIST_CHANGED else []).
Proof.
  intros H Hv He. apply inv_reachable in H as (_ & _ & (K1 & K2 & K3 & K4) & Hf). cbn zeta.
  set (w := rq_w s) in *. rewrite !recv_indication by exact Hf. unfold indication, changed.
  assert (F : forall cid info k x, rd32 info k = Ok x ->
    (M_lift (rd32 (indication_msg cid info) (OFF_IND_InformationBuffer + k)) : MB Z) w = Ok (x, w)).
  { intros cid info k x Hx. unfold M_lift. by rewrite indication_info, Hx. }
  split_and!; rewrite (step_to _ _ w w w eq_refl);
    (erewrite step_to by (unfold M_lift; rewrite indication_cid by done; reflexivity));
    cbn [Z.eqb Pos.eqb MBIM_CID_SUBSCRIBER_READY_STATUS MBIM_CID_REGISTER_STATE MBIM_CID_PACKET_SERVICE MBIM_CID_CONNECT].
  - rewrite (step_to _ _ w v w) by (apply (F _ _ 0%nat); by apply rd32_enc32_app). rewrite K1. apply report_changed.
  - rewrite (step_to _ _ w v w) by (apply F; by apply rd32_enc32_second). rewrite K2. apply report_changed.
  - rewrite (step_to _ _ w v w) by (apply F; by apply rd32_enc32_second). rewrite K3. apply report_changed.
  - rewrite (step_to _ _ w e w) by (apply (F _ _ 0%nat); by apply rd32_enc32_app).
    destruct (e =? u32 _).
    + rewrite (step_to _ _ w v w) by (apply F; by apply rd32_enc32_second). rewrite K4. apply report_changed.
    + by rewrite <- (report_changed true RIL_UNSOL_DATA_CALL_LIST_CHANGED).
Qed.

(** ** Data calls *)
Definition strings_set (w : mbim) : Prop :=
  str_len (mbim_apn w) = 0%nat \/ str_len (mbim_user w) = 0%nat \/ str_len (mbim_passwd w) = 0%nat.
Definition strings_short (w : mbim) : Prop :=
  Z.of_nat (2 * str_len (mbim_apn w) + 2 * str_len (mbim_user w) + 2 * str_len (mbim_passwd w)) + 120 < 4294967296.
Lemma buflen_bound a u p : (connect_buflen a u p <= 2 * str_len a + 2 * str_len u + 2 * str_len p + 12)%nat.
Proof.
  unfold connect_buflen. pose proof (align_32_le (2 * str_len a)).
  pose proof (align_32_le (align_32 (2 * str_len a) + 2 * str_len u)).
  pose proof (align_32_le (align_32 (align_32 (2 * str_len a) + 2 * str_len u) + 2 * str_len p)). lia.
Qed.

(** The parts of a connect request. *)
Definition connect_data_ok (w : mbim) (onoff sid : Z) (b : list Z) : Prop :=
  rd32 b 0 = Ok (u32 sid)
  /\ rd32 b 4 = Ok (if onoff =? 0 then MBIMActivationCommandDeactivate else MBIMActivationCommandActivate)
  /\ rd32 b 36 = Ok (u32 (mbim_auth w)) /\ rd32 b 40 = Ok (u32 (mbim_iptype w))
  /\ read_wide 8 b = Ok (default [] (mbim_apn w)) /\ read_wide 16 b = Ok (default [] (mbim_user w))
  /\ read_wide 24 b = Ok (default [] (mbim_passwd w)).
Lemma connect_data_built w onoff sid : strings_set w -> strings_short w ->
  exists b0 b, mbim_populate_connect_data (mbim_apn w) (mbim_user w) (mbim_passwd w)
      = Ok (b0, connect_buflen (mbim_apn w) (mbim_user w) (mbim_passwd w))
    /\ fill_connect onoff sid (mbim_auth w) (mbim_iptype w) b0 = Ok b
    /\ length b = (SIZEOF_MBIM_SET_CONNECT + connect_buflen (mbim_apn w) (mbim_user w) (mbim_passwd w))%nat
    /\ connect_data_ok w onoff sid b.
Proof.
  intros H1 H2. destruct (connect_data_fields (mbim_apn w) (mbim_user w) (mbim_passwd w))
    as (b0 & E & L & F1 & F2 & F3); [unfold strings_short in H2; lia|exact H1|].
  destruct (fill_spec onoff sid (mbim_auth w) (mbim_iptype w) b0) as (b & E2 & L2 & R1 & R2 & R3 & R4 & K); [lia|].
  exists b0, b. split; [done|]. split; [done|]. split; [lia|].
  split_and!; [done..| | |]; eapply field_at_read; (eapply field_at_frame; [eassumption| |]);
    intros i Hi; apply K; unfold SIZEOF_MBIM_SET_CONNECT in *; lia.
Qed.

(** How a successful response is read. *)
Lemma done_fields status info ty ln t body : (28 <= length body)%nat -> 0 <= status < 4294967296 ->
  Z.of_nat (length info) < 4294967296 ->
  let d := modem_done status info (mbim_message ty ln t body) in
  rd32 d OFF_MessageType = Ok MBIM_COMMAND_DONE /\ rd32 d OFF_CMD_Status = Ok status
  /\ rd32 d OFF_CMD_InformationBufferLength = Ok (Z.of_nat (length info))
  /\ forall k, rd32 d (OFF_InformationBuffer + k) = rd32 info k.
Proof.
  intros Hb Hs Hi. cbn zeta. rewrite modem_done_message. set (c := take 20 (drop 8 body)).
  assert (Hc : length c = 20%nat) by (unfold c; rewrite length_take, length_drop; lia).
  set (h := enc32 MBIM_COMMAND_DONE ++ enc32 (48 + Z.of_nat (length info)) ++ enc32 t ++ enc32 1 ++ enc32 0 ++ c).
  assert (E : mbim_message MBIM_COMMAND_DONE (48 + Z.of_nat (length info)) t
    (enc32 1 ++ enc32 0 ++ c ++ enc32 status ++ enc32 (Z.of_nat (length info)) ++ info)
    = h ++ enc32 status ++ enc32 (Z.of_nat (length info)) ++ info)
    by (unfold mbim_message, h; by rewrite <- !app_assoc).
  assert (Hh : length h = 40%nat) by (unfold h; rewrite !length_app, !length_enc32; lia).
  split; [by apply message_type|]. rewrite E. split_and!.
  - change OFF_CMD_Status with (40 + 0)%nat. rewrite <- Hh, rd32_app_r. by apply rd32_enc32_app.
  - change OFF_CMD_InformationBufferLength with (40 + 4)%nat. rewrite <- Hh, rd32_app_r.
    apply rd32_enc32_second. lia.
  - intros k. change (OFF_InformationBuffer + k)%nat with (40 + (8 + k))%nat. rewrite <- Hh, rd32_app_r.
    exact (rd32_app_r (enc32 status ++ enc32 (Z.of_nat (length info))) info k).
Qed.

(** A command that is executed with status 0 and a buffer is interpreted. *)
Lemma exchange_done dev junk cid ty b n s req s1 info :
  compose_basic_connect_command junk cid ty b n s = Ok (req, s1) ->
  mbim_inv s -> 0 < mbim_fd s -> (forall k, length (junk k) = k) -> Z.of_nat n + 48 < 4294967296 ->
  (0 < length info)%nat -> Z.of_nat (length info) + 48 < 4294967296 -> executes (dev (mb_calls s1)) 0 info ->
  exists out d w,
    (req ← compose_basic_connect_command junk cid ty b n; r ← mbim_send_command dev (Some req);
     mbim_check_err r.1 r.2) s = Ok (inr d, w)
    /\ drop 12 out = drop 12 req /\ mb_out w = mb_out s ++ [out]
    /\ rd32 d OFF_CMD_InformationBufferLength = Ok (Z.of_nat (length info))
    /\ (forall k, rd32 d (OFF_InformationBuffer + k) = rd32 info k).
Proof.
  intros H Hi Hfd Hj Hn Hi0 Hinfo He.
  destruct (command_executed dev junk cid ty b n s req s1 0 info) as (t & w & Ht & Ho & Hs); [done..|].
  set (out := mbim_message MBIM_COMMAND_MSG _ _ _) in *.
  destruct (composed_written _ _ _ _ _ _ _ _ H Hi Hfd Hj Hn) as (? & body & ? & _ & _ & -> & Hl & _).
  destruct (done_fields 0 info MBIM_COMMAND_MSG (48 + Z.of_nat n) t (drop 12 req)) as (F1 & F2 & F3 & F4); [lia..|].
  fold out in F1, F2, F3, F4. exists out, (modem_done 0 info out), w. split; [|by split_and!].
  set (d := modem_done 0 info out) in *.
  rewrite (step_to _ _ _ _ _ H), (step_to _ _ _ _ _ Hs). cbn [fst snd].
  unfold mbim_check_err. rewrite (step_to _ _ w 0 w); [done|]. unfold mbim_status_code.
  rewrite (step_to _ _ w MBIM_COMMAND_DONE w) by (unfold M_lift; by rewrite F1).
  cbn [orb Z.eqb Pos.eqb MBIM_COMMAND_DONE MBIM_OPEN_DONE MBIM_CLOSE_DONE].
  by rewrite (step_to _ _ w 0 w) by (unfold M_lift; by rewrite F2).
Qed.
Lemma command_exchange dev req k s d w :
  (req ← req; r ← mbim_send_command dev (Some req); mbim_check_err r.1 r.2) s = Ok (inr d, w) ->
  command dev req k s = k d w.
Proof.
  intros H. inv_bind H m s1 E. inv_bind H r s2 E1. unfold command.
  by rewrite (step_to _ _ _ _ _ E), (step_to _ _ _ _ _ E1), (step_to _ _ _ _ _ H).
Qed.
Lemma command_done dev junk cid ty b n s req s1 info f r :
  compose_basic_connect_command junk cid ty b n s = Ok (req, s1) ->
  mbim_inv s -> 0 < mbim_fd s -> (forall k, length (junk k) = k) -> Z.of_nat n + 48 < 4294967296 ->
  (0 < length info)%nat -> Z.of_nat (length info) + 48 < 4294967296 -> executes (dev (mb_calls s1)) 0 info ->
  (forall d w, (forall k, rd32 d (OFF_InformationBuffer + k) = rd32 info k) -> f d w = Ok (tt, r w)) ->
  exists out w, command dev (compose_basic_connect_command junk cid ty b n) (with_info f) s = Ok (0, r w)
    /\ drop 12 out = drop 12 req /\ mb_out w = mb_out s ++ [out].
Proof.
  intros H Hi Hfd Hj Hn Hi0 Hinfo He Hf.
  destruct (exchange_done dev junk cid ty b n s req s1 info) as (out & d & w & E & H1 & H2 & H3 & H4); [done..|].
  exists out, w. split; [|done]. rewrite (command_exchange _ _ _ _ _ _ E). unfold with_info.
  rewrite (step_to _ _ w (Z.of_nat (length info)) w) by (unfold M_lift; by rewrite H3).
  unfold truth. rewrite (proj2 (Z.eqb_neq _ 0)) by lia. cbn [negb].
  by rewrite (step_to _ _ w tt (r w)) by by apply Hf.
Qed.
Lemma track_reads o set info v d w :
  rd32 info o = Ok v -> (forall k, rd32 d (OFF_InformationBuffer + k) = rd32 info k) ->
  track o set d w = Ok (tt, match mbim_update_state (set v w) with Ok (_, w') => w' | _ => w end).
Proof.
  intros Hv Hd. unfold track. rewrite (step_to _ _ w v w) by (unfold M_lift; by rewrite Hd, Hv). done.
Qed.

Lemma compose_Ok junk cid ty b n s : rdn b 0 n = Ok b ->
  exists req, compose_basic_connect_command junk cid ty (Some b) n s
      = Ok (req, s <| mb_TransactionId := u32 (mb_TransactionId s + 1) |>)
    /\ drop 48 req = b.
Proof.
  intros H. unfold compose_basic_connect_command.
  rewrite (step_to _ _ s (mb_TransactionId s) (s <| mb_TransactionId := u32 (mb_TransactionId s + 1) |>) eq_refl).
  set (s1 := s <| mb_TransactionId := u32 (mb_TransactionId s + 1) |>).
  destruct (str2uuid UUID_BASIC_CONNECT) as [uuid|] eqn:E; vm_compute in E; [|done]. injection E as <-.
  rewrite (step_to _ _ s1 _ s1 eq_refl). rewrite (step_to _ _ s1 b s1) by (unfold M_lift; by rewrite H).
  eexists. split; [reflexivity|]. done.
Qed.

(** A data call over MBIM.  In every state of a session with an open device, when at
    most two of the three strings are known and the modem executes the request, the
    request that reaches it asks to activate the session's context with the
    authentication, address family and exactly the strings of the profile (or, where the
    profile has none, those of an earlier call), the operation returns 0, and the
    activation state the modem reported is the one later indications are compared with. *)
Theorem mbim_setup_data_call dev junk opened pr s f v e rest :
  rtc (session_step dev junk) (session_start opened pr) s -> 0 < mbim_fd (rq_w s) ->
  let w := connect_settings (rq_p s) (rq_w s) in
  strings_set w -> strings_short w -> (forall k, length (junk k) = k) ->
  0 <= v < 4294967296 -> Z.of_nat (length rest) + 56 < 4294967296 ->
  executes (dev (mb_calls (rq_w s))) 0 (enc32 e ++ enc32 v ++ rest) ->
  exists out s', mbim_requestSetupDataCall dev junk f s = Ok (0, s')
    /\ mb_out (rq_w s') = mb_out (rq_w s) ++ [out]
    /\ connect_data_ok w 1 (mbim_sessionID w) (drop 48 out)
    /\ ActivationState (rq_w s') = v /\ oldActivationState (rq_w s') = v.
Proof.
  intros H Hfd w H1 H2 Hj Hv Hlen He. apply inv_reachable in H.
  assert (Hw : mbim_inv w) by (by eapply (inv_settings (rq_p s) (rq_w s))).
  assert (Ew : mbim_fd w = mbim_fd (rq_w s) /\ mb_calls w = mb_calls (rq_w s) /\ mb_out w = mb_out (rq_w s)).
  { subst w. unfold connect_settings. by repeat destruct (truth _). }
  destruct Ew as (Ew1 & Ew2 & Ew3).
  destruct (connect_data_built w 1 (mbim_sessionID w) H1 H2) as (b0 & b & P1 & P2 & P3 & P4).
  set (n := (SIZEOF_MBIM_SET_CONNECT + _)%nat) in P3.
  assert (Hn : Z.of_nat n + 48 < 4294967296).
  { pose proof (buflen_bound (mbim_apn w) (mbim_user w) (mbim_passwd w)). unfold strings_short in H2.
    subst n. unfold SIZEOF_MBIM_SET_CONNECT. lia. }
  destruct (compose_Ok junk MBIM_CID_CONNECT MBIM_CID_CMD_TYPE_SET b n w) as (req & C1 & C2);
    [rewrite <- P3; apply rdn_full|].
  set (info := enc32 e ++ enc32 v ++ rest) in *.
  assert (Hinfo : length info = (8 + length rest)%nat) by (unfold info; by rewrite !length_app, !length_enc32).
  destruct (command_done dev junk _ _ _ _ _ _ _ info (track 4 set_ActivationState)
    (fun w0 => match mbim_update_state (set_ActivationState v w0) with Ok (_, w') => w' | _ => w0 end) C1 Hw)
    as (out & w1 & D1 & D2 & D3); [lia|done|done|lia|lia|by rewrite <- Ew2 in He|..].
  { intros d w0 Hd. eapply track_reads; [|exact Hd]. by apply rd32_enc32_second. }
  eexists out, _. split; [|split; [|split; [|split]]].
  - unfold mbim_requestSetupDataCall.
    rewrite (stepR_to _ _ s (rq_p s) s eq_refl). unfold onW.
    rewrite (step_to _ _ (rq_w s) tt w eq_refl), (step_to _ _ w w w eq_refl). unfold mbim_set_connect.
    rewrite (step_to _ _ w w w eq_refl).
    rewrite (step_to _ _ w (b0, connect_buflen (mbim_apn w) (mbim_user w) (mbim_passwd w)) w)
      by (unfold M_lift; by rewrite P1). cbn [fst snd].
    rewrite (step_to _ _ w b w) by (unfold M_lift; by rewrite P2). fold n. rewrite D1. reflexivity.
  - transitivity (mb_out w1); [done|]. by rewrite D3, Ew3.
  - replace (drop 48 out) with b; [exact P4|]. rewrite <- C2.
    change (drop 48 req) with (drop (12 + 36) req). change (drop 48 out) with (drop (12 + 36) out).
    by rewrite <- !drop_drop, D2.
  - done.
  - done.
Qed.

(** ** What a result of 0 means *)

(** The status of a response: success, or a message of a type without status. *)
Definition status_zero (m : list Z) : Prop :=
  (rd32 m OFF_MessageType = Ok MBIM_COMMAND_DONE -> exists v, rd32 m OFF_CMD_Status = Ok v /\ s32 v = 0)
  /\ (rd32 m OFF_MessageType = Ok MBIM_FUNCTION_ERROR_MSG -> exists v, rd32 m OFF_Status = Ok v /\ s32 v = 0).
Lemma status_code_zero m s s' : mbim_status_code (Some m) s = Ok (0, s') -> status_zero m /\ mb_out s' = mb_out s
  /\ ActivationState s' = ActivationState s.
Proof.
  intros H. unfold mbim_status_code in H. inv_bind H ty s1 E. apply MB_lift_Ok in E as [E ->].
  unfold status_zero. rewrite E.
  destruct ((ty =? MBIM_OPEN_DONE) || (ty =? MBIM_CLOSE_DONE)) eqn:E1.
  { inv_bind H v s1 E2. apply MB_lift_Ok in E2 as [_ ->]. apply MB_ret_Ok in H as [_ ->].
    split; [|done]. split; intros [= ->]; discriminate E1. }
  destruct (Z.eqb_spec ty MBIM_COMMAND_DONE) as [->|E2].
  { inv_bind H v s1 E3. apply MB_lift_Ok in E3 as [E3 ->]. apply MB_ret_Ok in H as [H ->].
    split; [|done]. split; [|done]. intros _. by exists v. }
  destruct (Z.eqb_spec ty MBIM_FUNCTION_ERROR_MSG) as [->|E3].
  - inv_bind H v s1 E4. apply MB_lift_Ok in E4 as [E4 ->]. inv_bind H u s1 E5. apply MB_ret_Ok in H as [H ->].
    split; [split; [by intros [= ?]|intros _; by exists v]|].
    rewrite H in E5. cbn in E5. by injection E5 as _ <-.
  - apply MB_ret_Ok in H as [_ ->]. split; [|done]. split; by intros [= ?].
Qed.

Lemma command_zero dev req f s s' : command dev req (with_info f) s = Ok (0, s') ->
  exists m s1 d s2 s3 n, req s = Ok (m, s1) /\ mbim_send_command dev (Some m) s1 = Ok ((0, Some d), s2)
    /\ mbim_status_code (Some d) s2 = Ok (0, s3)
    /\ rd32 d OFF_CMD_InformationBufferLength = Ok n /\ (if truth n then f d s3 = Ok (tt, s') else s' = s3).
Proof.
  intros H. unfold command in H. inv_bind H m s1 E. inv_bind H rd0 s2 E1. inv_bind H c s3 E2.
  destruct rd0 as [r o]. unfold mbim_check_err in E2. cbn [fst snd] in E2. inv_bind E2 sta s4 E3. destruct o as [d|].
  - assert (r = 0) as -> by by apply mbim_send_returns_own in E1 as [-> _]. cbn in E2.
    destruct (truth sta) eqn:Es; apply MB_ret_Ok in E2 as [<- ->].
    + apply MB_ret_Ok in H as [-> _]. done.
    + unfold truth in Es. apply negb_false_iff, Z.eqb_eq in Es as ->.
      unfold with_info in H. inv_bind H n s5 E4. apply MB_lift_Ok in E4 as [E4 ->].
      inv_bind H u s5 E5. apply MB_ret_Ok in H as [_ ->]. destruct u.
      exists m, s1, d, s2, s4, n. split_and!; try done. destruct (truth n); [done|]. by apply MB_ret_Ok in E5 as [_ ->].
  - cbn in E3. apply MB_ret_Ok in E3 as [<- ->]. apply MB_ret_Ok in E2 as [<- ->].
    apply MB_ret_Ok in H as [H _]. unfold truth in H. cbn in H. destruct (Z.eqb_spec r 0); cbn in H; lia.
Qed.

Lemma send_keeps_state dev req s rd s' : mbim_send_command dev (Some req) s = Ok (rd, s') ->
  ActivationState s' = ActivationState s.
Proof.
  intros H. destruct rd as [r d]. apply send_cases in H as (s1 & R & H).
  apply reader_run_effect in R as (? & ? & ? & ? & -> & _).
  destruct H as [(_ & _ & _ & ->)|[(_ & _ & _ & ->)|(_ & req' & s2 & ln & out & Hr & _ & _ & H)]]; [done..|].
  apply reset_tid_Ok in Hr as (t & _ & Hr). assert (K : ActivationState s2 = ActivationState s)
    by (destruct (t =? _); by destruct Hr as [_ ->]).
  cbn zeta in H. destruct ((0 <? _) && _).
  - destruct H as (s4 & H & _ & _ & ->). by apply reader_run_effect in H as (? & ? & ? & ? & -> & _).
  - by destruct H as (_ & _ & ->).
Qed.

(** C34. A lost response is never taken for success.  When a data call or its release
    returns 0 over MBIM, a message with the id of the request that was written last
    arrived while the operation waited, its status was success, and the activation state
    is the one it reports, or the old one if it reports none.  (Over QMI a lost response
    does look successful, see [lost_response_looks_successful].) *)
Theorem mbim_success_is_confirmed dev junk onoff sid s s' :
  mbim_set_connect dev junk onoff sid s = Ok (0, s') ->
  exists out req raw m n, last (mb_out s') = Some out /\ out `prefix_of` req
    /\ Msg raw ∈ ex_during (dev (mb_calls s)) out /\ answers req raw m /\ status_zero m
    /\ rd32 m OFF_CMD_InformationBufferLength = Ok n
    /\ (if truth n then rd32 m (OFF_InformationBuffer + 4) = Ok (ActivationState s')
        else ActivationState s' = ActivationState s).
Proof.
  intros H. unfold mbim_set_connect in H. inv_bind H s0 s0' E. injection E as <- <-.
  inv_bind H r s1 E. apply MB_lift_Ok in E as [_ ->]. inv_bind H b s1 E. apply MB_lift_Ok in E as [_ ->].
  apply command_zero in H as (req & s1 & d & s2 & s3 & n & E1 & E2 & E3 & E4 & E5).
  apply composes_basic in E1 as [-> _]. pose proof (send_keeps_state _ _ _ _ _ E2) as K.
  apply mbim_send_returns_own in E2 as (_ & _ & _ & req' & out & raw & H1 & H2 & H3 & H4).
  apply status_code_zero in E3 as (S1 & S2 & S3).
  exists out, req', raw, d, n. split; [|split; [exact H2|split; [exact H3|split; [exact H4|split; [exact S1|split; [exact E4|]]]]]].
  - assert (mb_out s' = mb_out s3) as ->; [|by rewrite S2].
    destruct (truth n); [|by subst]. unfold track in E5. inv_bind E5 v s4 E6. apply MB_lift_Ok in E6 as [_ ->].
    inv_bind E5 u s4 E6. apply MB_upd_Ok in E6 as ->. inv_bind E5 u2 s4 E6. by injection E6 as _ <-; injection E5 as <-.
  - destruct (truth n).
    + unfold track in E5. inv_bind E5 v s4 E6. apply MB_lift_Ok in E6 as [E6 ->].
      inv_bind E5 u s4 E7. apply MB_upd_Ok in E7 as ->. inv_bind E5 u2 s4 E7.
      rewrite E6. by injection E7 as _ <-; injection E5 as <-.
    + subst s'. by rewrite S3, K.
Qed.

(** ** Witnesses: a modem that executes every command, client 11 of the proxy's demo *)
Definition demo_exec (info : list Z) (_ : nat) : exchange :=
  mkExchange [] (fun out => Z.of_nat (length out)) (fun out => [Msg (modem_done 0 info out)]) (fun _ => 0).
Lemma demo_executes info n : executes (demo_exec info n) 0 info.
Proof.
  split; [done|]. intros out t _. split; [done|]. split; [done|]. exists [], []. split; [done|constructor].
Qed.

Lemma indications_report_witness :
  mbim_recv_command (indication_msg MBIM_CID_CONNECT (enc32 0 ++ enc32 1 ++ [])) (rq_w demo_start)
  = Ok (tt, (rq_w demo_start) <| mb_events := [Report RIL_UNSOL_DATA_CALL_LIST_CHANGED] |>).
Proof.
  destruct (indications_report demo_silent zeros (fun _ => 5) PROFILE_zero demo_start 1 0 [])
    as (_ & _ & _ & H); [apply rtc_refl|lia|lia|exact H].
Defined.

Lemma mbim_command_answered_witness :
  exists out w2, mb_out w2 = [out]
    /\ length out = 48%nat /\ exists req w1, compose_basic_connect_command zeros 9 0 None 0 (rq_w demo_start) = Ok (req, w1)
         /\ mbim_send_command (demo_exec []) (Some req) w1 = Ok ((0, Some (modem_done 0 [] out)), w2).
Proof.
  destruct (compose_basic_connect_command zeros 9 0 None 0 (rq_w demo_start)) as [[req w1]| |] eqn:E;
    [|by vm_compute in E..].
  destruct (mbim_command_answered (demo_exec []) zeros (fun _ => 5) PROFILE_zero demo_start 9 0 None 0 req w1 0 [])
    as (out & w2 & H1 & H2 & H3); [apply rtc_refl|done|exact E|apply length_zeros|done|done|apply demo_executes|].
  exists out, w2. split; [exact H1|]. split; [|by exists req, w1].
  vm_compute in E. injection E as <- <-. vm_compute in H3. injection H3 as _ H3. subst w2.
  vm_compute in H1. by injection H1 as <-.
Defined.

Lemma cm_through_proxy_witness :
  exists t w1 w2 req, compose_basic_connect_command zeros 9 0 None 0 (rq_w demo_start) = Ok (req, w1) /\ 1 <= t <= TID_MASK
    /\ mbim_send_command (fun _ => via_proxy mbim_demo mbim_demo 11 (modem_done 0 [])) (Some req) w1
       = Ok ((0, Some (modem_done 0 [] (mbim_message MBIM_COMMAND_MSG 48 t (drop 12 req)))), w2).
Proof.
  destruct (compose_basic_connect_command zeros 9 0 None 0 (rq_w demo_start)) as [[req w1]| |] eqn:E;
    [|by vm_compute in E..].
  assert (L : live_at mbim_demo 1 11) by (split; [done|by exists (mkClient 11 2)]).
  destruct (cm_through_proxy (fun _ => via_proxy mbim_demo mbim_demo 11 (modem_done 0 [])) zeros (fun _ => 5) PROFILE_zero
    demo_start 9 0 None 0 req w1 0 [] 5 mbim_demo mbim_demo 1 11)
    as (t & w2 & H1 & _ & H2); [apply rtc_refl|done|exact E|apply length_zeros|done|done|apply mbim_demo_reachable
      |exact L|apply mbim_demo_reachable|exact L|done|done|done|].
  exists t, w1, w2, req. split; [done|]. split; [exact H1|exact H2].
Defined.

(** An APN without user name and password. *)
Definition demo_call : rq mbim :=
  session_start (fun _ => 5) (PROFILE_zero <| apn := Some (bytes_of_string "internet") |> <| enable_ipv4 := 1 |>).
Lemma mbim_setup_data_call_witness :
  exists out s', mbim_requestSetupDataCall (demo_exec (enc32 0 ++ enc32 1 ++ [])) zeros IpFamilyV4 demo_call = Ok (0, s')
    /\ read_wide 8 (drop 48 out) = Ok (bytes_of_string "internet")
    /\ ActivationState (rq_w s') = MBIMActivationStateActivated.
Proof.
  destruct (mbim_setup_data_call (demo_exec (enc32 0 ++ enc32 1 ++ [])) zeros (fun _ => 5)
    (PROFILE_zero <| apn := Some (bytes_of_string "internet") |> <| enable_ipv4 := 1 |>) demo_call IpFamilyV4 1 0 [])
    as (out & s' & H1 & _ & (_ & _ & _ & _ & H2 & _) & H3 & _);
    [apply rtc_refl|done|right; by left|by vm_compute|apply length_zeros|lia|done|apply demo_executes|].
  exists out, s'. split; [exact H1|]. split; [exact H2|exact H3].
Defined.

Lemma mbim_success_is_confirmed_witness :
  exists s' out, mbim_set_connect (demo_exec (enc32 0 ++ enc32 1)) zeros 1 0 (rq_w demo_call) = Ok (0, s')
    /\ last (mb_out s') = Some out.
Proof.
  destruct (mbim_set_connect (demo_exec (enc32 0 ++ enc32 1)) zeros 1 0 (rq_w demo_call)) as [[r s']| |] eqn:E;
    [|by vm_compute in E..].
  assert (r = 0) as -> by (vm_compute in E; by injection E as <- _).
  destruct (mbim_success_is_confirmed _ _ _ _ _ _ E) as (out & _ & _ & _ & _ & H & _).
  exists s', out. split; [reflexivity|exact H].
Defined.
