(* ===== verification/MbimIpSpec.v ===== *)
(** Addresses over MBIM (mbim-cm.c): the byte order of [mbim2qmi_ipv4addr], and what
    [mbim_ip_config] makes of an IP configuration.  Also the use of the subnet mask in
    udhcpc.c, which counts its bits. *)
From S2P Require Import Prelude QmiTlv CmTypes QmiCompose QmiThread QmiRequests CmMain MbimProxy MbimProxySpec MbimCm MbimCmSpec MbimCmInv MbimSession Udhcpc.
#[local] Open Scope Z_scope.

(** ** Byte order *)
(** The value of four bytes, first byte highest: the form of QMI. *)
Definition be32 (b : list Z) : Z := foldl (fun v x => 256 * v + x) 0 b.
Lemma ipv4addr_bytes x y z w : byte_ok x -> byte_ok y -> byte_ok z -> byte_ok w ->
  mbim2qmi_ipv4addr (x + 256 * y + 65536 * (z + 256 * w)) = be32 [x; y; z; w].
Proof.
  unfold byte_ok, be32. intros Hx Hy Hz Hw. cbn [foldl]. unfold mbim2qmi_ipv4addr.
  set (a := x + 256 * y + 65536 * (z + 256 * w)).
  change 0xff00 with (Z.shiftl (Z.ones 8) 8). change 0xff0000 with (Z.shiftl (Z.ones 8) 16).
  rewrite !land_byte by lia. rewrite !Z.shiftr_div_pow2, !Z.shiftl_mul_pow2 by lia. unfold u32.
  replace (a / 2 ^ 24) with w by (subst a; Z.to_euclidean_division_equations; lia).
  replace (a / 2 ^ 8 / 2 ^ 8 mod 256) with z by (subst a; Z.to_euclidean_division_equations; lia).
  replace ((a * 2 ^ 8) mod 4294967296 / 2 ^ 16 mod 256) with y by (subst a; Z.to_euclidean_division_equations; lia).
  replace ((a * 2 ^ 24) mod 4294967296) with (x * 2 ^ 24) by (subst a; Z.to_euclidean_division_equations; lia).
  rewrite (lor_high w z 8), (lor_high _ y 16), (lor_high _ x 24) by lia. lia.
Qed.

Lemma mask_of_prefix p : 1 <= p <= 32 ->
  exists m, prefix_mask p = Ok m /\ mask_prefix (mbim2qmi_ipv4addr m) = p.
Proof.
  intros H.
  assert (K : forallb (fun p => match prefix_mask p with Ok m => mask_prefix (mbim2qmi_ipv4addr m) =? p | _ => false end)
                (seqZ 1 32) = true) by by vm_compute.
  rewrite forallb_forall in K. specialize (K p ltac:(apply list_elem_of_In, elem_of_seqZ; lia)).
  destruct (prefix_mask p) as [m| |]; [|done..]. exists m. split; [done|by apply Z.eqb_eq].
Qed.

(** ** An IPv4 configuration with address, gateway, two name servers and MTU *)
Definition ip4_ok (a : list Z) : Prop := length a = 4%nat /\ bytes_ok a.
Definition ip_info (sid prefix mtu : Z) (a g d1 d2 : list Z) : list Z :=
  enc32 sid ++ enc32 0xF ++ enc32 0 ++ enc32 1 ++ enc32 60 ++ enc32 0 ++ enc32 0 ++ enc32 68 ++ enc32 0
  ++ enc32 2 ++ enc32 72 ++ enc32 0 ++ enc32 0 ++ enc32 mtu ++ enc32 0
  ++ enc32 prefix ++ a ++ g ++ d1 ++ d2.

Lemma ip4_destruct a : ip4_ok a ->
  exists x y z w, a = [x; y; z; w] /\ byte_ok x /\ byte_ok y /\ byte_ok z /\ byte_ok w.
Proof.
  intros [Hl H]. destruct a as [|x [|y [|z [|w [|]]]]]; try done. exists x, y, z, w. split; [done|].
  unfold bytes_ok in H. rewrite !Forall_cons in H. by destruct_and!.
Qed.

Section V4.
Context (d info : list Z) (Hd : forall k, rd32 d (OFF_InformationBuffer + k) = rd32 info k).

Lemma info32_is s k v : rd32 info k = Ok v -> info32 d k s = Ok (v, s).
Proof. intros H. unfold info32, M_lift. by rewrite Hd, H. Qed.
Lemma at_is (s : rq mbim) o k v : 0 <= o -> rd32 info (Z.to_nat o + k) = Ok v ->
  (M_lift (rd32 d (at_offset o + k)) : RM Z) s = Ok (v, s).
Proof.
  intros Ho H. unfold M_lift, at_offset. rewrite Z2Nat.inj_add, Nat2Z.id, <- Nat.add_assoc, Hd, H by lia. done.
Qed.
Lemma swapped_is (s : rq mbim) o k x y z w : 0 <= o -> byte_ok x -> byte_ok y -> byte_ok z -> byte_ok w ->
  rd32 info (Z.to_nat o + k) = Ok (x + 256 * y + 65536 * (z + 256 * w)) ->
  swapped d (at_offset o + k) s = Ok (be32 [x; y; z; w], s).
Proof.
  intros Ho ? ? ? ? H. unfold swapped. rewrite (stepR_to _ _ s _ s (at_is s o k _ Ho H)).
  by rewrite ipv4addr_bytes.
Qed.
End V4.

Lemma ip_config_v4_reads d sid prefix mtu a g d1 d2 s :
  (forall k, rd32 d (OFF_InformationBuffer + k) = rd32 (ip_info sid prefix mtu a g d1 d2) k) ->
  ip4_ok a -> ip4_ok g -> ip4_ok d1 -> ip4_ok d2 -> 1 <= prefix <= 32 -> 0 <= mtu < 4294967296 ->
  exists m, mask_prefix m = prefix
    /\ ip_config_v4 d 0xF s
       = Ok (mtu, s <| rq_p := (rq_p s) <| ipv4 := mkIPV4 (be32 a) (be32 g) m (be32 d1) (be32 d2) (mbim2qmi_ipv4addr mtu) |> |>).
Proof.
  intros Hd Ha Hg H1 H2 Hp Hm.
  destruct (ip4_destruct a Ha) as (a1 & a2 & a3 & a4 & -> & ? & ? & ? & ?).
  destruct (ip4_destruct g Hg) as (g1 & g2 & g3 & g4 & -> & ? & ? & ? & ?).
  destruct (ip4_destruct d1 H1) as (e1 & e2 & e3 & e4 & -> & ? & ? & ? & ?).
  destruct (ip4_destruct d2 H2) as (f1 & f2 & f3 & f4 & -> & ? & ? & ? & ?).
  destruct (mask_of_prefix prefix Hp) as (mk & Em & Emp). exists (mbim2qmi_ipv4addr mk). split; [done|].
  set (info := ip_info _ _ _ _ _ _ _) in *.
  assert (Rp : rd32 info 60 = Ok prefix) by (cbn; rewrite enc32_value; by rewrite u32_id by lia).
  assert (Rm : rd32 info 52 = Ok mtu) by (cbn; rewrite enc32_value; by rewrite u32_id by lia).
  unfold ip_config_v4. change (bit 0xF 1) with true. change (bit 0xF 2) with true.
  change (bit 0xF 4) with true. change (bit 0xF 8) with true. cbv iota.
  rewrite (stepR_to _ _ s 60 s) by by apply (info32_is d info Hd).
  rewrite (stepR_to _ _ s prefix s) by (rewrite <- (Nat.add_0_r (at_offset 60)); by apply (at_is d info Hd)).
  rewrite (stepR_to _ _ s (Some 68) s) by (rewrite (stepR_to _ _ s 68 s) by (by apply (info32_is d info Hd)); done).
  rewrite (stepR_to _ _ s (Some 72) s) by (rewrite (stepR_to _ _ s 72 s) by (by apply (info32_is d info Hd)); done).
  rewrite (stepR_to _ _ s true s) by (rewrite (stepR_to _ _ s 2 s) by (by apply (info32_is d info Hd)); done).
  rewrite (stepR_to _ _ s mtu s) by by apply (info32_is d info Hd).
  rewrite (stepR_to _ _ s (be32 [a1; a2; a3; a4]) s) by by apply (swapped_is d info Hd).
  assert (Eg : forall t, swapped d (at_offset 68) t = Ok (be32 [g1; g2; g3; g4], t))
    by (intros t; rewrite <- (Nat.add_0_r (at_offset 68)); by apply (swapped_is d info Hd)).
  assert (Ee : forall t, swapped d (at_offset 72) t = Ok (be32 [e1; e2; e3; e4], t))
    by (intros t; rewrite <- (Nat.add_0_r (at_offset 72)); by apply (swapped_is d info Hd)).
  assert (Ef : forall t, swapped d (at_offset 72 + 4) t = Ok (be32 [f1; f2; f3; f4], t))
    by (intros t; by apply (swapped_is d info Hd)).
  rewrite (stepR_to _ _ s tt _ eq_refl).
  erewrite stepR_to by (erewrite stepR_to by apply Eg; reflexivity).
  erewrite stepR_to by (unfold M_lift; rewrite u8_id, Em by (unfold byte_ok; lia); reflexivity).
  erewrite stepR_to by reflexivity.
  erewrite stepR_to by (erewrite stepR_to by apply Ee; reflexivity).
  erewrite stepR_to by (erewrite stepR_to by apply Ef; reflexivity).
  erewrite stepR_to by reflexivity. unfold mret, RM_ret, M_ret. by destruct s as [? [] ? ?].
Qed.

(** Addresses over MBIM.  When the modem answers the query with an IPv4 configuration,
    [requestGetIPAddress] returns 0 and the profile holds the address, the gateway and both
    name servers in the byte order of QMI, and a mask from which udhcpc.c recovers the
    prefix length; the IPv6 part is untouched.  The MTU goes through the same byte swap,
    which it should not: 1500 is stored as 3691315200. *)
Theorem mbim_addresses dev junk opened pr s f sid prefix mtu a g d1 d2 :
  rtc (session_step dev junk) (session_start opened pr) s -> 0 < mbim_fd (rq_w s) ->
  (forall k, length (junk k) = k) -> executes (dev (mb_calls (rq_w s))) 0 (ip_info sid prefix mtu a g d1 d2) ->
  ip4_ok a -> ip4_ok g -> ip4_ok d1 -> ip4_ok d2 -> 1 <= prefix <= 32 -> 0 <= mtu < 4294967296 ->
  exists s' m, mbim_requestGetIPAddress dev junk f s = Ok (0, s')
    /\ ipv4 (rq_p s') = mkIPV4 (be32 a) (be32 g) m (be32 d1) (be32 d2) (mbim2qmi_ipv4addr mtu)
    /\ mask_prefix m = prefix /\ ipv6 (rq_p s') = ipv6 (rq_p s)
    /\ (mtu = 1500 -> v4_Mtu (ipv4 (rq_p s')) = 3691315200).
Proof.
  intros H Hfd Hj He Ha Hg H1 H2 Hp Hm. apply inv_reachable in H.
  set (info := ip_info _ _ _ _ _ _ _) in *.
  assert (Hl : length info = 80%nat).
  { unfold info, ip_info. rewrite !length_app, !length_enc32. destruct Ha, Hg, H1, H2. lia. }
  set (w := rq_w s) in *. set (q := enc32 (mbim_sessionID w) ++ junk 56%nat).
  assert (Hq : rdn q 0 60 = Ok q).
  { replace 60%nat with (length q) by (unfold q; by rewrite length_app, length_enc32, Hj). apply rdn_full. }
  destruct (compose_Ok junk MBIM_CID_IP_CONFIGURATION MBIM_CID_CMD_TYPE_QUERY q 60 w Hq) as (req & C & _).
  destruct (exchange_done dev junk _ _ _ _ _ _ _ info C H Hfd Hj) as (out & d & w1 & E & _ & _ & Hn & Hd);
    [done|lia|lia|exact He|].
  destruct (ip_config_v4_reads d sid prefix mtu a g d1 d2 (s <| rq_w := w1 |>) Hd Ha Hg H1 H2 Hp Hm) as (m & Hmask & Hv4).
  eexists _, m. split; [|split; [|split; [exact Hmask|split]]].
  - unfold mbim_requestGetIPAddress. rewrite (stepR_to _ _ s w s) by (unfold onW; by destruct s).
    unfold mbim_ip_config, commandP. change (SIZEOF_MBIM_IP_CONFIGURATION_INFO - 4)%nat with 56%nat.
    change SIZEOF_MBIM_IP_CONFIGURATION_INFO with 60%nat. fold w. fold q.
    rewrite (stepR_to _ _ s (inr d) (s <| rq_w := w1 |>)) by (unfold onW; fold w; by rewrite E).
    set (s1 := s <| rq_w := w1 |>) in *. unfold with_infoP.
    rewrite (stepR_to _ _ s1 80 s1) by (unfold M_lift; by rewrite Hn, Hl). cbn [truth negb Z.eqb].
    erewrite stepR_to; [reflexivity|].
    rewrite (stepR_to _ _ s1 0xF s1) by by apply (info32_is d info Hd).
    rewrite (stepR_to _ _ _ _ _ Hv4).
    erewrite (stepR_to _ _ _ 0) by by apply (info32_is d info Hd). reflexivity.
  - done.
  - done.
  - intros ->. by vm_compute.
Qed.
Ltac ip4_dec := split; [done|apply (bool_decide_unpack _); vm_compute].
Lemma mbim_addresses_witness :
  exists s' m, mbim_requestGetIPAddress
      (demo_exec (ip_info 0 24 1500 [10; 0; 0; 2] [10; 0; 0; 1] [8; 8; 8; 8] [1; 1; 1; 1])) zeros IpFamilyV4 demo_start = Ok (0, s')
    /\ v4_Address (ipv4 (rq_p s')) = 0x0A000002 /\ mask_prefix m = 24 /\ v4_Mtu (ipv4 (rq_p s')) = 3691315200.
Proof.
  destruct (mbim_addresses (demo_exec (ip_info 0 24 1500 [10; 0; 0; 2] [10; 0; 0; 1] [8; 8; 8; 8] [1; 1; 1; 1])) zeros
    (fun _ => 5) PROFILE_zero demo_start IpFamilyV4 0 24 1500 [10; 0; 0; 2] [10; 0; 0; 1] [8; 8; 8; 8] [1; 1; 1; 1])
    as (s' & m & H1 & H2 & H3 & _ & H4); [apply rtc_refl|done|apply length_zeros|apply demo_executes
    |by ip4_dec|by ip4_dec|by ip4_dec|by ip4_dec|lia|lia|].
  exists s', m. split; [exact H1|]. split; [by rewrite H2|]. split; [exact H3|by apply H4].
Defined.
