(* ===== verification/AtTokSpec.v ===== *)
(** Properties of the AT tokenizer: numbers are read back as they are printed, and
    [at_tok_scanf] reads every field of a line back. *)
From S2P Require Import Prelude CmTypes QmiRequests AtTok.
#[local] Open Scope Z_scope.

Lemma until_nul_app s junk : 0 ∉ s -> until_nul (s ++ 0 :: junk) = s.
Proof.
  induction s as [|c s IH]; intros H; [done|]. cbn. destruct (Z.eqb_spec c 0) as [->|]; [destruct H; by left|].
  rewrite IH; [done|]. intros H'. apply H. by right.
Qed.

(** ** Numbers *)
Lemma digit_in_char base d : 0 <= d < base -> base <= 36 -> digit_in base (digit_char d) = Some d.
Proof.
  intros H Hb. unfold digit_in, digit_value, digit_char. destruct (Z.ltb_spec d 10) as [Hd|Hd].
  - replace ((48 <=? 48 + d) && (48 + d <=? 57)) with true by (symmetry; bool_prop; lia).
    replace (48 + d - 48) with d by lia. destruct (Z.ltb_spec d base); [done|lia].
  - replace ((48 <=? 55 + d) && (55 + d <=? 57)) with false by (symmetry; bool_prop; lia).
    replace ((97 <=? 55 + d) && (55 + d <=? 122)) with false by (symmetry; bool_prop; lia).
    replace ((65 <=? 55 + d) && (55 + d <=? 90)) with true by (symmetry; bool_prop; lia).
    replace (55 + d - 55) with d by lia. destruct (Z.ltb_spec d base); [done|lia].
Qed.

(** A character of a number: a digit of the base. *)
Definition numeral (base c : Z) : Prop := exists d, c = digit_char d /\ 0 <= d < base.
Lemma numeral_char base c : base <= 36 -> numeral base c -> 48 <= c <= 57 \/ 65 <= c <= 54 + base.
Proof. intros Hb (d & -> & H). unfold digit_char. destruct (Z.ltb_spec d 10); lia. Qed.
Lemma numeral_digit base c : base <= 36 -> numeral base c -> is_Some (digit_in base c).
Proof. intros Hb (d & -> & H). rewrite digit_in_char by done. by eexists. Qed.

Lemma show_digits_spec base fuel n acc :
  2 <= base <= 36 -> 0 <= n < 2 ^ Z.of_nat fuel -> (0 < fuel)%nat ->
  exists ds, show_digits fuel base n acc = ds ++ acc /\ ds <> [] /\ Forall (numeral base) ds
    /\ (n = 0 -> ds = [digit_char 0])
    /\ forall a s, strto_digits base a (ds ++ s) = strto_digits base (a * base ^ Z.of_nat (length ds) + n) s.
Proof.
  intros Hb. revert n acc. induction fuel as [|f IH]; intros n acc Hn Hf; [lia|].
  cbn [show_digits]. destruct (Z.ltb_spec n base) as [Hlt|Hge].
  - rewrite Z.mod_small by lia. exists [digit_char n]. split_and!; [done|done| |by intros ->|].
    + apply Forall_singleton. exists n. split; [done|lia].
    + intros a s. cbn [app strto_digits length]. rewrite digit_in_char by lia.
      f_equal. change (Z.of_nat 1) with 1. lia.
  - assert (Hd : 0 <= n mod base < base) by (apply Z.mod_pos_bound; lia).
    assert (Hq : 0 <= n / base < 2 ^ Z.of_nat f).
    { rewrite Nat2Z.inj_succ, Z.pow_succ_r in Hn by lia. split; [apply Z.div_pos; lia|].
      apply Z.div_lt_upper_bound; [lia|]. nia. }
    assert (Hf' : (0 < f)%nat).
    { destruct f; [|lia]. change (2 ^ Z.of_nat 0) with 1 in Hq.
      assert (1 <= n / base) by (apply Z.div_le_lower_bound; lia). lia. }
    destruct (IH (n / base) (digit_char (n mod base) :: acc) Hq Hf') as (ds & -> & Hne & Hds & _ & Hs).
    exists (ds ++ [digit_char (n mod base)]). split_and!.
    + by rewrite <- app_assoc.
    + by destruct ds.
    + apply Forall_app. split; [done|]. apply Forall_singleton. by exists (n mod base).
    + lia.
    + intros a s. rewrite <- app_assoc, Hs. cbn [app strto_digits]. rewrite digit_in_char by lia. f_equal.
      rewrite length_app. cbn [length]. rewrite Nat.add_1_r, Nat2Z.inj_succ, Z.pow_succ_r by lia.
      pose proof (Z.div_mod n base ltac:(lia)). nia.
Qed.

Lemma show_nat_spec base n : 2 <= base <= 36 -> 0 <= n ->
  Forall (numeral base) (show_nat base n) /\ (n = 0 -> show_nat base n = [digit_char 0])
  /\ show_nat base n <> [] /\ strto_digits base 0 (show_nat base n) = n.
Proof.
  intros Hb Hn. destruct (show_digits_spec base (S (Z.to_nat (Z.log2 n))) n [] Hb) as (ds & E & Hne & Hds & H0 & Hs).
  - split; [done|]. rewrite Nat2Z.inj_succ, Z2Nat.id by apply Z.log2_nonneg.
    destruct (Z.eq_dec n 0) as [->|]; [done|]. apply Z.log2_spec. lia.
  - lia.
  - unfold show_nat. rewrite E, app_nil_r. split_and!; [done..|]. specialize (Hs 0 []).
    rewrite app_nil_r in Hs. by rewrite Hs.
Qed.

Lemma skip_space_id s : (forall c, head s = Some c -> is_space c = false) -> skip_space s = s.
Proof. destruct s as [|c s]; [done|]. intros H. cbn. by rewrite (H c). Qed.
Lemma skip_space_blanks k s : (forall c, head s = Some c -> is_space c = false) -> skip_space (replicate k 32 ++ s) = s.
Proof. intros H. induction k as [|k IH]; [by apply skip_space_id|exact IH]. Qed.

Lemma numeral_not c x base : base <= 36 -> numeral base c -> x < 48 -> (c =? x) = false.
Proof. intros Hb Hc Hx. apply Z.eqb_neq. apply numeral_char in Hc; lia. Qed.
Lemma numeral_not_space c base : base <= 36 -> numeral base c -> is_space c = false.
Proof. intros Hb Hc. apply numeral_char in Hc; [|done]. unfold is_space. bool_prop. lia. Qed.

(** A number printed in a base is read back; its first character is a digit. *)
Lemma strto_show base n (neg : bool) : base = 10 \/ base = 16 -> 0 <= n ->
  strto base (if neg then MINUS :: show_nat base n else show_nat base n) = Some (neg, n).
Proof.
  intros Hbase Hn. assert (Hb : 2 <= base <= 36) by (destruct Hbase; lia).
  destruct (show_nat_spec base n Hb Hn) as (Hds & H0 & Hne & Hv).
  assert (Hz : strip_0x base (show_nat base n) = show_nat base n).
  { unfold strip_0x. destruct (show_nat base n) as [|z [|x [|d l]]]; [done..|].
    apply Forall_cons in Hds as [_ Hds]. apply Forall_cons in Hds as [Hx _]. apply numeral_char in Hx; [|lia].
    replace ((x =? 120) || (x =? 88)) with false by (symmetry; bool_prop; lia).
    by rewrite andb_false_r. }
  unfold strto. destruct (show_nat base n) as [|c ds] eqn:E; [done|].
  apply Forall_cons in Hds as [Hc Hds].
  destruct neg.
  - cbn [skip_space is_space MINUS]. change (is_space MINUS) with false. cbn [negb].
    change (MINUS =? MINUS) with true. cbn [orb]. rewrite Hz, Hv.
    by rewrite bool_decide_true by (apply (numeral_digit base); [lia|done]).
  - rewrite skip_space_id by (intros c' [= <-]; apply (numeral_not_space _ base); [lia|done]).
    rewrite (numeral_not c MINUS base), (numeral_not c 43 base) by (done || lia). cbn [orb].
    rewrite Hz, Hv. by rewrite bool_decide_true by (apply (numeral_digit base); [lia|done]).
Qed.
Lemma s32_id z : - 2 ^ 31 <= z < 2 ^ 31 -> s32 z = z.
Proof.
  intros H. unfold s32, u32. destruct (Z.neg_nonneg_cases z).
  - assert (z mod 4294967296 = z + 4294967296) as -> by (symmetry; apply (Z.mod_unique z 4294967296 (-1)); lia).
    destruct (Z.ltb_spec (z + 4294967296) 2147483648); lia.
  - rewrite Z.mod_small by lia. destruct (Z.ltb_spec z 2147483648); lia.
Qed.
Lemma strtol_show z : - 2 ^ 31 <= z < 2 ^ 31 -> strtol 10 (show_int z) = Some z.
Proof.
  intros H. unfold strtol, show_int. destruct (Z.ltb_spec z 0).
  - rewrite (strto_show 10 (- z) true) by (auto; lia). f_equal. lia.
  - rewrite (strto_show 10 z false) by (auto; lia). f_equal. lia.
Qed.
Lemma strtoul_show z : 0 <= z < 2 ^ 32 -> strtoul 16 (show_nat 16 z) = Some z.
Proof.
  intros H. unfold strtoul. rewrite (strto_show 16 z false) by (auto; lia).
  destruct (Z.leb_spec (2 ^ 64) z); [lia|done].
Qed.

(** ** Fields and lines *)
Inductive field :=
  FDec (z : Z) | FHex (z : Z) | FText (s : cstr) | FQuoted (s : cstr) | FQuotedHex (z : Z).
Definition field_text (f : field) : cstr :=
  match f with
  | FDec z => show_int z | FHex z | FQuotedHex z => show_nat 16 z | FText s | FQuoted s => s end.
Definition show_field (f : field) : cstr :=
  match f with FQuoted _ | FQuotedHex _ => QUOTE :: field_text f ++ [QUOTE] | _ => field_text f end.
Definition field_value (f : field) : scanned :=
  match f with
  | FDec z => SInt z | FHex z | FQuotedHex z => SInt (s32 z) | FText s | FQuoted s => SStr s end.
Definition conversion (f : field) : Z := match f with FDec _ => 100 | FHex _ | FQuotedHex _ => 120 | _ => 115 end.
(** Numbers fit; a bare text holds no comma, does not begin like a quoted text or a
    blank, and is not the minus sign that stands for a missing value. *)
Definition field_ok (f : field) : Prop :=
  match f with
  | FDec z => - 2 ^ 31 <= z < 2 ^ 31
  | FHex z | FQuotedHex z => 0 <= z < 2 ^ 32
  | FText s => COMMA ∉ s /\ (forall c, head s = Some c -> is_space c = false /\ c <> QUOTE) /\ s <> [MINUS]
  | FQuoted s => QUOTE ∉ s
  end.
(** Each field may be preceded by blanks. *)
Definition show_blanks (kf : nat * field) : cstr := replicate kf.1 32 ++ show_field kf.2.
Fixpoint show_fields (fs : list (nat * field)) : cstr :=
  match fs with
  | [] => []
  | [f] => show_blanks f
  | f :: fs => show_blanks f ++ COMMA :: show_fields fs
  end.
Definition format_of (fs : list (nat * field)) : cstr := fs ≫= (fun f => [37; conversion f.2]).

Lemma split_at_app c s r : c ∉ s -> split_at c (s ++ c :: r) = (s, Some r).
Proof.
  induction s as [|x s IH]; intros H; cbn [app split_at].
  - by rewrite Z.eqb_refl.
  - destruct (Z.eqb_spec x c) as [->|]; [destruct H; by left|].
    rewrite IH; [done|]. intros H'. apply H. by right.
Qed.
Lemma split_at_none c s : c ∉ s -> split_at c s = (s, None).
Proof.
  induction s as [|x s IH]; intros H; cbn [split_at]; [done|].
  destruct (Z.eqb_spec x c) as [->|]; [destruct H; by left|].
  rewrite IH; [done|]. intros H'. apply H. by right.
Qed.

Lemma show_int_chars z : Forall (fun c => c = MINUS \/ 48 <= c <= 57 \/ 65 <= c <= 70) (show_int z)
  /\ (forall c, head (show_int z) = Some c -> c = MINUS \/ 48 <= c <= 57 \/ 65 <= c <= 70)
  /\ show_int z <> [MINUS] /\ show_int z <> [].
Proof.
  assert (H : forall n, 0 <= n -> Forall (fun c => c = MINUS \/ 48 <= c <= 57 \/ 65 <= c <= 70) (show_nat 10 n)
    /\ show_nat 10 n <> []).
  { intros n Hn. destruct (show_nat_spec 10 n ltac:(lia) Hn) as (H & _ & Hne & _). split; [|done].
    eapply Forall_impl; [exact H|]. intros c Hc. apply numeral_char in Hc; lia. }
  unfold show_int. destruct (Z.ltb_spec z 0).
  - destruct (H (- z) ltac:(lia)) as [H1 H2]. split_and!; [by constructor; [left|]|by intros c [= <-]; left| |done].
    intros [= E]. done.
  - destruct (H z ltac:(lia)) as [H1 H2]. split_and!; [done| | |done].
    + intros c Hc. destruct (show_nat 10 z); [done|]. injection Hc as <-. by apply Forall_cons in H1 as [? _].
    + intros E. destruct (show_nat_spec 10 z ltac:(lia) ltac:(lia)) as (H3 & _). rewrite E in H3.
      apply Forall_cons in H3 as [H3 _]. apply numeral_char in H3; unfold MINUS in *; lia.
Qed.

(** How a field that is not quoted looks to the tokenizer. *)
Definition bare (s : cstr) : Prop :=
  COMMA ∉ s /\ (forall c, head s = Some c -> is_space c = false /\ c <> QUOTE) /\ s <> [MINUS].
Lemma number_bare s :
  Forall (fun c => c = MINUS \/ 48 <= c <= 57 \/ 65 <= c <= 70) s -> s <> [MINUS] -> bare s.
Proof.
  intros H Hm. split_and!; [| |done].
  - intros Hin. rewrite Forall_forall in H. specialize (H _ Hin). unfold COMMA, MINUS in *. lia.
  - intros c Hc. destruct s; [done|]. injection Hc as <-. apply Forall_cons in H as [H _].
    unfold is_space, QUOTE, MINUS in *. bool_prop. lia.
Qed.
Lemma field_bare f : field_ok f ->
  match f with FQuoted _ | FQuotedHex _ => QUOTE ∉ field_text f | _ => bare (show_field f) end.
Proof.
  destruct f as [z|z|s|s|z]; cbn [field_ok show_field field_text]; intros H; [| |exact H|done|].
  - destruct (show_int_chars z) as (H1 & _ & H2 & _). by apply number_bare.
  - destruct (show_nat_spec 16 z ltac:(lia) ltac:(lia)) as (H1 & _ & H2 & _). apply number_bare.
    + eapply Forall_impl; [exact H1|]. intros c Hc. apply numeral_char in Hc; lia.
    + intros E. rewrite E in H1. apply Forall_cons in H1 as [H1 _]. apply numeral_char in H1; unfold MINUS in *; lia.
  - destruct (show_nat_spec 16 z ltac:(lia) ltac:(lia)) as (H1 & _). intros Hin. rewrite Forall_forall in H1.
    specialize (H1 _ Hin). apply numeral_char in H1; unfold QUOTE in *; lia.
Qed.

Lemma nextTok_bare k s tail : bare s -> tail = [] \/ (exists rest, tail = COMMA :: rest) ->
  exists c, nextTok (Some (replicate k 32 ++ s ++ tail)) = (Some s, c)
    /\ (forall rest, tail = COMMA :: rest -> c = Some rest).
Proof.
  intros (Hc & Hh & Hm) Ht.
  assert (H : nextTok (Some (replicate k 32 ++ s ++ tail)) = strsep COMMA (Some (s ++ tail))).
  { unfold nextTok, skipWhiteSpace. cbn [fmap option_fmap option_map]. rewrite skip_space_blanks.
    - destruct (s ++ tail) as [|c l] eqn:E; [done|]. destruct (Z.eqb_spec c QUOTE) as [->|]; [|done].
      destruct s; cbn [app] in E; [destruct Ht as [->|[r ->]]; [done|by injection E]|].
      injection E as -> _. by destruct (Hh QUOTE eq_refl).
    - intros c E. destruct s as [|x s]; cbn [app head] in E.
      + destruct Ht as [->|[r ->]]; [done|by injection E as <-].
      + injection E as <-. by destruct (Hh x eq_refl). }
  rewrite H. cbn [strsep]. destruct Ht as [->|[r ->]].
  - rewrite app_nil_r, split_at_none by done. exists None. split; [done|]. intros rest. done.
  - rewrite split_at_app by done. exists (Some r). split; [done|]. by intros rest [= ->].
Qed.
Lemma nextTok_quoted k s tail : QUOTE ∉ s -> tail = [] \/ (exists rest, tail = COMMA :: rest) ->
  exists c, nextTok (Some (replicate k 32 ++ (QUOTE :: s ++ [QUOTE]) ++ tail)) = (Some s, c)
    /\ (forall rest, tail = COMMA :: rest -> c = Some rest).
Proof.
  intros Hq Ht. unfold nextTok, skipWhiteSpace. cbn [fmap option_fmap option_map].
  rewrite skip_space_blanks by (by intros c [= <-]). cbn [app]. change (QUOTE =? QUOTE) with true.
  cbn [strsep]. rewrite <- app_assoc. cbn [app]. rewrite split_at_app by done. cbn [fst snd].
  eexists. split; [done|]. by intros rest ->.
Qed.
Lemma nextTok_field k f tail : field_ok f -> tail = [] \/ (exists rest, tail = COMMA :: rest) ->
  exists c, nextTok (Some (replicate k 32 ++ show_field f ++ tail)) = (Some (field_text f), c)
    /\ (forall rest, tail = COMMA :: rest -> c = Some rest).
Proof.
  intros Hf Ht. pose proof (field_bare f Hf) as Hb.
  destruct f; [by apply nextTok_bare..|by apply nextTok_quoted|by apply nextTok_quoted].
Qed.

Lemma scan_field k f tail : field_ok f -> tail = [] \/ (exists rest, tail = COMMA :: rest) ->
  exists c, scan_one (conversion f) (Some (show_blanks (k, f) ++ tail)) = Some (0, Some (field_value f), c)
    /\ (forall rest, tail = COMMA :: rest -> c = Some rest).
Proof.
  intros Hf Ht. destruct (nextTok_field k f tail Hf Ht) as (c & E & Hc). exists c. split; [|done].
  unfold show_blanks. cbn [fst snd]. rewrite <- app_assoc.
  destruct f as [z|z|s|s|z]; cbn [conversion];
    unfold scan_one, at_tok_nextint, at_tok_nexthexint, at_tok_nextint_base, at_tok_nextstr; cbn [Z.eqb Pos.eqb];
    rewrite E; cbn [fst snd field_text field_value]; [| |done|done|].
  - rewrite strtol_show by done. unfold scan_int. cbn [fst snd fmap option_fmap option_map]. by rewrite s32_id.
  - by rewrite strtoul_show by done.
  - by rewrite strtoul_show by done.
Qed.

Lemma dash_field_none k f tail : field_ok f -> tail = [] \/ (exists rest, tail = COMMA :: rest) ->
  dash_field (Some (show_blanks (k, f) ++ tail)) = None.
Proof.
  intros Hf Ht. pose proof (field_bare f Hf) as Hb. unfold show_blanks. cbn [fst snd].
  destruct k as [|k]; cbn [replicate app].
  2: { cbn [dash_field]. by destruct (_ ++ _). }
  assert (H : bare (show_field f) -> dash_field (Some (show_field f ++ tail)) = None).
  { intros (Hc & _ & Hm). destruct (show_field f) as [|x [|y l]]; cbn [app dash_field].
    - destruct Ht as [->|[r ->]]; [done|]. by destruct r.
    - destruct Ht as [->|[r ->]]; [done|]. destruct (Z.eqb_spec x MINUS) as [->|]; [done|by destruct r].
    - destruct (Z.eqb_spec y COMMA) as [->|]; [|by rewrite andb_false_r].
      destruct Hc. right. by left. }
  destruct f; [by apply H..| |]; cbn [show_field app dash_field]; by destruct ((_ ++ [QUOTE]) ++ tail).
Qed.

Lemma scanf_field p k f tail n : field_ok f -> tail = [] \/ (exists rest, tail = COMMA :: rest) ->
  show_blanks (k, f) ++ tail <> [] ->
  exists c, scanf_loop (37 :: conversion f :: p) (Some (show_blanks (k, f) ++ tail)) n
      = (let r := scanf_loop p c (n + 1) in (r.1, Some (field_value f) :: r.2))
    /\ (forall rest, tail = COMMA :: rest -> c = Some rest).
Proof.
  intros Hf Ht Hne. destruct (scan_field k f tail Hf Ht) as (c & E & Hc). exists c. split; [|done].
  cbn [scanf_loop]. cbn [Z.eqb Pos.eqb COMMA orb negb].
  rewrite dash_field_none, E by done. cbn [Z.ltb Z.compare].
  destruct (show_blanks (k, f) ++ tail); [done|]. done.
Qed.

Lemma scanf_fields fs n : Forall (fun f => field_ok f.2) fs ->
  (forall f, last fs = Some f -> show_blanks f <> []) ->
  scanf_loop (format_of fs) (Some (show_fields fs)) n
  = (n + Z.of_nat (length fs), (fun f => Some (field_value f.2)) <$> fs).
Proof.
  revert n. induction fs as [|[k f] fs IH]; intros n Hok Hl; [cbn; f_equal; lia|].
  apply Forall_cons in Hok as [Hf Hok]. cbn [snd] in Hf.
  change (format_of ((k, f) :: fs)) with (37 :: conversion f :: format_of fs).
  destruct fs as [|f' fs].
  - replace (show_fields [(k, f)]) with (show_blanks (k, f) ++ []) by apply app_nil_r.
    destruct (scanf_field (format_of []) k f [] n Hf (or_introl eq_refl)) as (c & E & _).
    { rewrite app_nil_r. by apply Hl. }
    etrans; [exact E|done].
  - set (r := show_fields (f' :: fs)) in *.
    change (show_fields ((k, f) :: f' :: fs)) with (show_blanks (k, f) ++ COMMA :: r).
    destruct (scanf_field (format_of (f' :: fs)) k f (COMMA :: r) n Hf (or_intror (ex_intro _ r eq_refl)))
      as (c & E & Hc); [by destruct (show_blanks (k, f))|].
    etrans; [exact E|]. rewrite (Hc r eq_refl).
    etrans; [exact (f_equal (fun r => (r.1, Some (field_value f) :: r.2)) (IH (n + 1) Hok Hl))|].
    cbn [fst snd fmap list_fmap length]. f_equal. lia.
Qed.

Lemma scanf_line prefix fs fmt :
  COLON ∉ prefix -> Forall (fun f => field_ok f.2) fs ->
  (forall f, last fs = Some f -> show_blanks f <> []) ->
  bytes_of_string fmt = format_of fs ->
  (length (prefix ++ COLON :: show_fields fs) <= SIZEOF_s_line_1)%nat ->
  at_tok_scanf (Some (prefix ++ COLON :: show_fields fs)) fmt
  = (Z.of_nat (length fs), (fun f => Some (field_value f.2)) <$> fs).
Proof.
  intros Hp Hok Hl Hfmt Hlen. unfold at_tok_scanf. rewrite take_ge by done. unfold at_tok_start.
  rewrite split_at_app by done. cbn [fst snd Z.ltb Z.compare]. rewrite Hfmt. by rewrite scanf_fields.
Qed.

(** Formats: the conversions of the fields, with commas and blanks anywhere between them. *)
Inductive format_for : cstr -> list (nat * field) -> Prop :=
  | format_nil : format_for [] []
  | format_sep c p fs : c = COMMA \/ c = 32 -> format_for p fs -> format_for (c :: p) fs
  | format_conv p f fs : format_for p fs -> format_for (37 :: conversion f.2 :: p) (f :: fs).
Lemma scanf_format p fs : format_for p fs -> forall line n, scanf_loop p line n = scanf_loop (format_of fs) line n.
Proof.
  induction 1 as [|c p fs Hc _ IH|p f fs _ IH]; intros line n; [done| |].
  - cbn [scanf_loop]. replace ((c =? COMMA) || (c =? 32)) with true by (by destruct Hc as [->| ->]). apply IH.
  - change (format_of (f :: fs)) with (37 :: conversion f.2 :: format_of fs). cbn [scanf_loop].
    change ((37 =? COMMA) || (37 =? 32)) with false. change (negb (37 =? 37)) with false. cbn iota.
    destruct (negb (at_tok_hasmore line)); [done|]. destruct (dash_field line) as [l|]; [by rewrite IH|].
    destruct (scan_one (conversion f.2) line) as [[[err out] l]|]; [|done]. by rewrite IH.
Qed.

(** C15. The AT tokenizer reads back what it is given.  On a line that is a prefix, a
    colon and fields (decimal and hexadecimal numbers, bare and quoted texts, each
    possibly after blanks) separated by commas, [at_tok_scanf] with a format of the
    matching conversions, separated or not, converts every field and stores its value. *)
Theorem at_tok_scanf_roundtrip prefix fs fmt :
  COLON ∉ prefix -> Forall (fun f => field_ok f.2) fs ->
  (forall f, last fs = Some f -> show_blanks f <> []) ->
  format_for (bytes_of_string fmt) fs ->
  (length (prefix ++ COLON :: show_fields fs) <= SIZEOF_s_line_1)%nat ->
  at_tok_scanf (Some (prefix ++ COLON :: show_fields fs)) fmt
  = (Z.of_nat (length fs), (fun f => Some (field_value f.2)) <$> fs).
Proof.
  intros Hp Hok Hl Hfmt Hlen. unfold at_tok_scanf. rewrite take_ge by done. unfold at_tok_start.
  rewrite split_at_app by done. cbn [fst snd Z.ltb Z.compare]. rewrite (scanf_format _ _ Hfmt).
  by rewrite scanf_fields.
Qed.

(** The context report of a modem, with a blank before some fields. *)
Definition demo_fields : list (nat * field) :=
  [(1%nat, FDec 1); (0%nat, FQuoted (bytes_of_string "net")); (2%nat, FHex 160); (0%nat, FDec (-3)); (0%nat, FQuotedHex 41)].
Lemma at_tok_scanf_roundtrip_witness :
  at_tok_scanf (Some (bytes_of_string "+QICSGP" ++ COLON :: show_fields demo_fields)) "%d%s,%x %d%x"
  = (5, [Some (SInt 1); Some (SStr (bytes_of_string "net")); Some (SInt 160); Some (SInt (-3)); Some (SInt 41)]).
Proof.
  apply (at_tok_scanf_roundtrip (bytes_of_string "+QICSGP") demo_fields "%d%s,%x %d%x").
  - apply (bool_decide_unpack _). by vm_compute.
  - repeat constructor; cbn; try lia. apply (bool_decide_unpack _). by vm_compute.
  - by intros f [= <-].
  - change (bytes_of_string "%d%s,%x %d%x") with [37; 100; 37; 115; COMMA; 37; 120; 32; 37; 100; 37; 120].
    apply (format_conv _ (1%nat, FDec 1)), (format_conv _ (0%nat, FQuoted (bytes_of_string "net"))), format_sep; [by left|].
    apply (format_conv _ (2%nat, FHex 160)), format_sep; [by right|].
    apply (format_conv _ (0%nat, FDec (-3))), (format_conv _ (0%nat, FQuotedHex 41)), format_nil.
  - apply Nat.leb_le. by vm_compute.
Defined.
