(* ===== verification/AtChannel.v ===== *)
(** The AT channel (atchannel.c): the line reader with its buffer, the pairing of
    commands with the lines that come back, the variants of sending a command.

    The reader thread is [readerLoop], which turns the chunks that [read] returns into
    events; the thread that sends a command sees the events that arrive while it
    waits. *)
From S2P Require Import Prelude CmTypes QmiThread QmiRequests AtTok.
#[local] Open Scope Z_scope.

Definition AT_ERROR_GENERIC : Z := -1.
Definition AT_ERROR_COMMAND_PENDING : Z := -2.
Definition AT_ERROR_CHANNEL_CLOSED : Z := -3.
Definition AT_ERROR_TIMEOUT : Z := -4.
Definition AT_ERROR_INVALID_RESPONSE : Z := -6.
Definition HANDSHAKE_RETRY_COUNT : nat := 8.
(** [sizeof(cm_recv_buf)] *)
Definition MAX_AT_RESPONSE : nat := 4096.

(** ** The line reader

    [at_input] is what the channel will deliver: a [read] returns at most as many bytes
    of the first chunk as it asked for and leaves the others; after the last chunk the
    channel is closed. *)
Record at_reader := mkReader { s_ATBuffer : list Z; s_ATBufferCur : nat; at_input : list (list Z) }.

(** The C string at an offset of the buffer. *)
Definition strz (b : list Z) (o : nat) : res cstr :=
  if bool_decide (0 ∈ drop o b) then Ok (until_nul (drop o b)) else Fault.

Definition is_eol (c : Z) : bool := (c =? 13) || (c =? 10).
Fixpoint skip_eols (s : list Z) : list Z :=
  match s with [] => [] | c :: s' => if is_eol c then skip_eols s' else s end.
(** The bytes before the next line end, and those after it if there is one. *)
Fixpoint break_eol (s : list Z) : list Z * option (list Z) :=
  match s with
  | [] => ([], None)
  | c :: s => if is_eol c then ([], Some s) else let r := break_eol s in (c :: r.1, r.2)
  end.

(** "skip over leading newlines" *)
Definition skip_newlines (b : list Z) (cur : nat) : res nat :=
  s ← strz b cur; mret (cur + (length s - length (skip_eols s)))%nat.
Definition SMS_PROMPT : cstr := bytes_of_string "> ".
Definition findNextEOL (b : list Z) (cur : nat) : res (option nat) :=
  s ← strz b cur;
  mret (if decide (s = SMS_PROMPT) then Some (cur + 2)%nat
        else match (break_eol s).2 with Some _ => Some (cur + length (break_eol s).1)%nat | None => None end).
(** "a full line in the buffer": the line, and the position behind its end. *)
Definition line_at (b : list Z) (cur p_eol : nat) (input : list (list Z)) : res (option cstr * at_reader) :=
  b ← wr p_eol [0] b; line ← strz b cur; mret (Some line, mkReader b (p_eol + 1) input).

Fixpoint read_loop (fuel : nat) (b : list Z) (cur p_read : nat) (input : list (list Z))
    : res (option cstr * at_reader) :=
  match fuel with
  | O => OutOfFuel
  | S fuel =>
      p ← (if decide (p_read = MAX_AT_RESPONSE)
           then b ← wr 0 [0] b; mret (b, 0%nat, 0%nat) else mret (b, cur, p_read));
      let '(b, cur, p_read) := p : list Z * nat * nat in
      let room := (MAX_AT_RESPONSE - p_read)%nat in
      match input with
      | [] => mret (None, mkReader b cur [])
      | [] :: input => mret (None, mkReader b cur input)
      | c :: input =>
          let input := match drop room c with [] => input | more => more :: input end in
          b ← wr p_read (take room c) b;
          let p_read := (p_read + length (take room c))%nat in
          b ← wr p_read [0] b;
          cur ← skip_newlines b cur;
          p_eol ← findNextEOL b cur;
          match p_eol with
          | Some p_eol => line_at b cur p_eol input
          | None => read_loop fuel b cur p_read input
          end
      end
  end.
Definition read_fuel (input : list (list Z)) : nat := S (length (mjoin input)).
Definition readline (r : at_reader) : res (option cstr * at_reader) :=
  let b := s_ATBuffer r in
  let cur := s_ATBufferCur r in
  let input := at_input r in
  c ← rd8 b cur;
  if c =? 0 then b ← wr 0 [0] b; read_loop (read_fuel input) b 0 0 input
  else
    cur ← skip_newlines b cur;
    p_eol ← findNextEOL b cur;
    match p_eol with
    | Some p_eol => line_at b cur p_eol input
    | None =>
        s ← strz b cur; b ← wr 0 (s ++ [0]) b;
        read_loop (read_fuel input) b 0 (length s) input
    end.

(** ** Lines *)
Fixpoint strStartsWith (line prefix : cstr) : bool :=
  match line, prefix with
  | a :: line, b :: prefix => if a =? b then strStartsWith line prefix else false
  | _, [] => true
  | [], _ :: _ => false
  end.
Definition starts_with_any (line : cstr) (prefixes : list string) : bool :=
  existsb (fun p => strStartsWith line (bytes_of_string p)) prefixes.
Definition s_finalResponsesError : list string :=
  ["ERROR"; "+CMS ERROR:"; "+CME ERROR:"; "NO CARRIER"; "NO ANSWER"; "NO DIALTONE"; "COMMAND NOT SUPPORT"]%string.
(** The second one is [+QIND: "FOTA","END",0]. *)
Definition FOTA_END : cstr :=
  bytes_of_string "+QIND: " ++ QUOTE :: bytes_of_string "FOTA" ++ [QUOTE; COMMA; QUOTE]
  ++ bytes_of_string "END" ++ [QUOTE; COMMA; 48].
Definition s_smsUnsoliciteds : list string := ["+CMT:"; "+CDS:"; "+CBM:"; "+CMTI:"]%string.
Definition isFinalResponseError (line : cstr) : bool := starts_with_any line s_finalResponsesError.
Definition isFinalResponseSuccess (line : cstr) : bool :=
  strStartsWith line (bytes_of_string "OK") || strStartsWith line FOTA_END
  || strStartsWith line (bytes_of_string "CONNECT").
Definition isSMSUnsolicited (line : cstr) : bool := starts_with_any line s_smsUnsoliciteds.

(** What [readerLoop] does with the lines: one line, an unsolicited SMS of two lines, the end. *)
Inductive at_event := Line (line : cstr) | SmsLines (line1 line2 : cstr) | ReaderClosed.
#[export] Instance at_event_eq_dec : EqDecision at_event.
Proof. solve_decision. Defined.
Fixpoint readerLoop (fuel : nat) (r : at_reader) : res (list at_event) :=
  match fuel with
  | O => OutOfFuel
  | S fuel =>
      x ← readline r;
      match x.1 with
      | None => mret [ReaderClosed]
      | Some line =>
          if isSMSUnsolicited line then
            y ← readline x.2;
            match y.1 with
            | None => mret [ReaderClosed]
            | Some line2 => es ← readerLoop fuel y.2; mret (SmsLines line line2 :: es)
            end
          else es ← readerLoop fuel x.2; mret (Line line :: es)
      end
  end.

(** ** Responses *)
Inductive ATCommandType := NO_RESULT | NUMERIC | SINGLELINE | MULTILINE.
#[export] Instance ATCommandType_eq_dec : EqDecision ATCommandType.
Proof. solve_decision. Defined.
Record ATResponse := mkATResponse {
  success : Z; finalResponse : option cstr; p_intermediates : list cstr }.
Definition at_response_new : ATResponse := mkATResponse 0 None [].

(** The statics that describe the command in flight and the channel, what was written,
    the lines given to the handler of unsolicited lines, the number of commands. *)
Record at_chan := mkChan {
  s_type : ATCommandType; s_responsePrefix : option cstr; s_smsPDU : option cstr;
  s_raw_data : option cstr; sp_response : option ATResponse;
  s_readerClosed : bool; s_fd_open : bool; s_atc_proxy : bool;
  at_out : list (list Z); at_unsol : list (cstr * option cstr); at_calls : nat }.
(** After [at_open]. *)
Definition at_opened (proxy : bool) : at_chan :=
  mkChan NO_RESULT None None None None false true proxy [] [] 0.

Definition AT (A : Type) : Type := M at_chan A.
#[export] Instance AT_ret : MRet AT := @M_ret at_chan.
#[export] Instance AT_bind : MBind AT := @M_bind at_chan.

Definition handleUnsolicited (line : cstr) (s : at_chan) : at_chan :=
  s <| at_unsol := at_unsol s ++ [(line, None)] |>.
Definition addIntermediate (line : cstr) (rsp : ATResponse) (s : at_chan) : at_chan :=
  s <| sp_response := Some (rsp <| p_intermediates := line :: p_intermediates rsp |>) |>.
Definition handleFinalResponse (ok : Z) (line : cstr) (rsp : ATResponse) (s : at_chan) : at_chan :=
  s <| sp_response := Some (rsp <| success := ok |> <| finalResponse := Some line |>) |>.
Definition at_write (b : list Z) (s : at_chan) : at_chan := s <| at_out := at_out s ++ [b] |>.
(** [writeraw], [writeCtrlZ] when the channel is open. *)
Definition writeraw (b : cstr) (s : at_chan) : at_chan :=
  if negb (s_fd_open s) || s_readerClosed s then s else at_write b s.
Definition writeCtrlZ (b : cstr) (s : at_chan) : at_chan :=
  if negb (s_fd_open s) || s_readerClosed s then s else at_write (b ++ [26]) s.
(** [strStartsWith] on a prefix that is NULL faults if the line has a first character. *)
Definition has_prefix (line : cstr) (prefix : option cstr) : res bool :=
  match prefix with Some p => Ok (strStartsWith line p) | None => Fault end.
Definition is_nil {A} (l : list A) : bool := match l with [] => true | _ => false end.

Definition processLine (line : cstr) (s : at_chan) : res at_chan :=
  match sp_response s with
  | None => Ok (handleUnsolicited line s)
  | Some rsp =>
      match (match s_raw_data s with
             | Some raw => if decide (line = bytes_of_string "CONNECT") then Some raw else None
             | None => None end) with
      | Some raw => Ok ((writeraw raw s) <| s_raw_data := None |>)
      | None =>
          let reported := if s_atc_proxy s then handleUnsolicited line s else s in
          if isFinalResponseSuccess line then Ok (handleFinalResponse 1 line rsp reported)
          else if isFinalResponseError line then Ok (handleFinalResponse 0 line rsp reported)
          else
            match (match s_smsPDU s with
                   | Some pdu => if decide (line = SMS_PROMPT) then Some pdu else None
                   | None => None end) with
            | Some pdu => Ok ((writeCtrlZ pdu s) <| s_smsPDU := None |>)
            | None =>
                match s_type s with
                | NO_RESULT => Ok (handleUnsolicited line s)
                | NUMERIC =>
                    Ok (if is_nil (p_intermediates rsp) && is_digit (default 0 (head line))
                        then addIntermediate line rsp s else handleUnsolicited line s)
                | SINGLELINE =>
                    if is_nil (p_intermediates rsp) then
                      b ← has_prefix line (s_responsePrefix s);
                      mret (if b : bool then addIntermediate line rsp s else handleUnsolicited line s)
                    else Ok (handleUnsolicited line s)
                | MULTILINE =>
                    b ← has_prefix line (s_responsePrefix s);
                    mret (if b : bool then addIntermediate line rsp s else handleUnsolicited line s)
                end
            end
      end
  end.

(** One event of the reader thread; [s_onReaderClosed] is set. *)
Definition at_event_step (e : at_event) (s : at_chan) : res at_chan :=
  match e with
  | Line line => processLine line s
  | SmsLines l1 l2 => Ok (s <| at_unsol := at_unsol s ++ [(l1, Some l2)] |>)
  | ReaderClosed => Ok (s <| s_readerClosed := true |>)
  end.
Fixpoint at_events (es : list at_event) (s : at_chan) : res at_chan :=
  match es with [] => Ok s | e :: es => s ← at_event_step e s; at_events es s end.
Definition run_events (es : list at_event) : AT unit := fun s => s ← at_events es s; Ok (tt, s).

Definition clearPendingCommand (s : at_chan) : at_chan :=
  s <| sp_response := None |> <| s_responsePrefix := None |> <| s_smsPDU := None |>.
Definition at_open (proxy : bool) (s : at_chan) : at_chan :=
  s <| s_fd_open := true |> <| s_readerClosed := false |> <| s_atc_proxy := proxy |>
    <| s_responsePrefix := None |> <| s_smsPDU := None |> <| sp_response := None |>.
Definition at_close (s : at_chan) : at_chan := s <| s_fd_open := false |> <| s_readerClosed := true |>.

(** ** Commands

    What happens around one command: what the reader did since the last one, whether
    [write] succeeds, and the waits for the final response: the events that arrive during
    each, and what [pthread_cond_timeout_np] returns.  After the waits of the list the
    time-out strikes. *)
Record at_exchange := mkAtExchange {
  ax_before : list at_event; ax_write_ok : bool; ax_waits : list (list at_event * Z) }.

Section Commands.
Context (dev : nat -> at_exchange).

(** The command and the carriage return go out together if they fit [at_command[64]]. *)
Definition writeline (ok : bool) (c : cstr) : AT Z := fun s =>
  if negb (s_fd_open s) || s_readerClosed s then Ok (AT_ERROR_CHANNEL_CLOSED, s)
  else if negb ok then Ok (AT_ERROR_GENERIC, s)
  else Ok (0, if (length c <? 63)%nat then at_write (c ++ [13]) s else at_write [13] (at_write c s)).

(** [while (sp_response->finalResponse == NULL && s_readerClosed == 0)]; with the
    response taken out, in the order of arrival. *)
Fixpoint wait_final (waits : list (list at_event * Z)) : AT (Z + ATResponse) := fun s =>
  match sp_response s with
  | None => Fault
  | Some rsp =>
      if bool_decide (is_Some (finalResponse rsp)) || s_readerClosed s then Ok (inr rsp, s)
      else
        match waits with
        | [] => Ok (inl AT_ERROR_TIMEOUT, s)
        | (es, rc) :: waits =>
            s ← at_events es s;
            if rc =? ETIMEDOUT then Ok (inl AT_ERROR_TIMEOUT, s) else wait_final waits s
        end
  end.
Definition reverseIntermediates (rsp : ATResponse) : ATResponse :=
  rsp <| p_intermediates := reverse (p_intermediates rsp) |>.
Definition clear_pending : AT unit := M_upd clearPendingCommand.

(** [keep] tells whether [pp_outResponse] is not NULL. *)
Definition at_send_command_full_nolock (command : cstr) (type : ATCommandType)
    (responsePrefix smspdu : option cstr) (keep : bool) : AT (Z * option ATResponse) :=
  s ← (M_get : AT at_chan);
  let ex := dev (at_calls s) in
  _ ← (M_upd (fun s => s <| at_calls := S (at_calls s) |>) : AT unit);
  if bool_decide (is_Some (sp_response s)) then _ ← clear_pending; mret (AT_ERROR_COMMAND_PENDING, None)
  else
    err ← writeline (ax_write_ok ex) command;
    if err <? 0 then _ ← clear_pending; mret (err, None)
    else
      _ ← (M_upd (fun s => s <| s_type := type |> <| s_responsePrefix := responsePrefix |>
                   <| s_smsPDU := smspdu |> <| sp_response := Some at_response_new |>) : AT unit);
      r ← wait_final (ax_waits ex);
      match r with
      | inl err => _ ← clear_pending; mret (err, None)
      | inr rsp =>
          s ← (M_get : AT at_chan);
          _ ← clear_pending;
          mret (if s_readerClosed s then AT_ERROR_CHANNEL_CLOSED else 0,
                if keep then Some (reverseIntermediates rsp) else None)
      end.
(** The lock is taken first; the reader has run until then. *)
Definition before_command : AT unit :=
  s ← (M_get : AT at_chan); run_events (ax_before (dev (at_calls s))).
Definition at_send_command_full (command : cstr) (type : ATCommandType)
    (responsePrefix smspdu : option cstr) (keep : bool) : AT (Z * option ATResponse) :=
  _ ← before_command; at_send_command_full_nolock command type responsePrefix smspdu keep.

(** "successful command must have an intermediate response" *)
Definition need_intermediate (r : Z * option ATResponse) : Z * option ATResponse :=
  match r with
  | (err, Some rsp) => if (err =? 0) && (0 <? success rsp) && is_nil (p_intermediates rsp)
                       then (AT_ERROR_INVALID_RESPONSE, None) else (err, Some rsp)
  | r => r
  end.
Definition at_send_command (command : cstr) (keep : bool) : AT (Z * option ATResponse) :=
  at_send_command_full command NO_RESULT None None keep.
Definition at_send_command_singleline (command prefix : cstr) (keep : bool) : AT (Z * option ATResponse) :=
  r ← at_send_command_full command SINGLELINE (Some prefix) None keep; mret (need_intermediate r).
Definition at_send_command_numeric (command : cstr) (keep : bool) : AT (Z * option ATResponse) :=
  r ← at_send_command_full command NUMERIC None None keep; mret (need_intermediate r).
Definition at_send_command_sms (command pdu prefix : cstr) (keep : bool) : AT (Z * option ATResponse) :=
  r ← at_send_command_full command SINGLELINE (Some prefix) (Some pdu) keep; mret (need_intermediate r).
Definition at_send_command_multiline (command prefix : cstr) (keep : bool) : AT (Z * option ATResponse) :=
  at_send_command_full command MULTILINE (Some prefix) None keep.
Definition at_send_command_raw (command raw_data prefix : cstr) (keep : bool) : AT (Z * option ATResponse) :=
  _ ← (M_upd (fun s => s <| s_raw_data := Some raw_data |>) : AT unit);
  at_send_command_full command SINGLELINE (Some prefix) None keep.

(** The lock is held over all attempts. *)
Fixpoint handshake_loop (n : nat) (err : Z) : AT Z :=
  match n with
  | O => mret err
  | S n => r ← at_send_command_full_nolock (bytes_of_string "ATE0Q0V1") NO_RESULT None None false;
           if r.1 =? 0 then mret r.1 else handshake_loop n r.1
  end.
Definition at_handshake : AT Z := _ ← before_command; handshake_loop HANDSHAKE_RETRY_COUNT 0.
End Commands.

Definition CME_ERROR_NON_CME : Z := -1.
Definition CME_SUCCESS : Z := 0.
Definition at_get_cme_error (p_response : option ATResponse) : Z :=
  match p_response with
  | None => CME_ERROR_NON_CME
  | Some rsp =>
      if 0 <? success rsp then CME_SUCCESS
      else
        match finalResponse rsp with
        | Some line =>
            if strStartsWith line (bytes_of_string "+CME ERROR:") then
              let r := at_tok_start (Some line) in
              if r.1 <? 0 then CME_ERROR_NON_CME
              else
                let '(err, ret, _) := at_tok_nextint r.2 in
                if err <? 0 then CME_ERROR_NON_CME else default CME_ERROR_NON_CME ret
            else CME_ERROR_NON_CME
        | None => CME_ERROR_NON_CME
        end
  end.
