(* ===== verification/AtReaderSpec.v ===== *)
(** The line reader of the AT channel: however the bytes are cut into reads, it returns
    the lines of the stream ([lines_of]), as long as the buffer is large enough. *)
From S2P Require Import Prelude CmTypes QmiRequests AtTok AtTokSpec AtChannel.
#[local] Open Scope Z_scope.

(** ** Reference: the lines of a stream of bytes *)

(** The first complete line that is not empty, and what follows its end. *)
Definition first_line (t : list Z) : option (cstr * list Z) :=
  let r := break_eol (skip_eols t) in
  match r.2 with Some rest => Some (r.1, rest) | None => None end.
(** The runs of other bytes that are ended by CR or LF. *)
Fixpoint lines_from (run : cstr) (t : list Z) : list cstr :=
  match t with
  | [] => []
  | c :: t => if is_eol c then (if is_nil run then lines_from [] t else run :: lines_from [] t)
              else lines_from (run ++ [c]) t
  end.
Definition lines_of (t : list Z) : list cstr := lines_from [] t.
(** What [readerLoop] makes of the lines. *)
Fixpoint events_of (ls : list cstr) : list at_event :=
  match ls with
  | [] => [ReaderClosed]
  | l :: ls =>
      if isSMSUnsolicited l then
        match ls with [] => [ReaderClosed] | l2 :: ls => SmsLines l l2 :: events_of ls end
      else Line l :: events_of ls
  end.

(** No line, with the empty ones before it, is longer than [B]. *)
Inductive spaced (B : nat) : list Z -> Prop :=
  | spaced_end t : first_line t = None -> (length t <= B)%nat -> spaced B t
  | spaced_line t l rest :
      first_line t = Some (l, rest) -> (length t <= length rest + B)%nat -> spaced B rest -> spaced B t.
(** The prompt of an SMS is no line: it is returned without waiting for its end. *)
Definition no_prompt (t : list Z) : Prop :=
  forall pre post, t = pre ++ SMS_PROMPT ++ post -> exists p c, pre = p ++ [c] /\ is_eol c = false.

(** ** Line ends *)
Definition eols (e : list Z) : Prop := Forall (fun c => is_eol c = true) e.
Definition no_eol (s : list Z) : Prop := Forall (fun c => is_eol c = false) s.

Lemma skip_eols_app e s : eols e -> skip_eols (e ++ s) = skip_eols s.
Proof. induction 1 as [|c e H _ IH]; [done|]. cbn. by rewrite H. Qed.
Lemma skip_eols_id s : no_eol s -> skip_eols s = s.
Proof. intros H. destruct H as [|c s Hc Hs]; [done|]. cbn. by rewrite Hc. Qed.
Lemma skip_eols_split s : exists e, eols e /\ s = e ++ skip_eols s
  /\ (forall c r, skip_eols s = c :: r -> is_eol c = false).
Proof.
  induction s as [|c s (e & He & E & Hc)].
  - exists []. split_and!; [constructor|done|done].
  - cbn [skip_eols]. destruct (is_eol c) eqn:Ec.
    + exists (c :: e). split_and!; [by constructor|cbn; by f_equal|done].
    + exists []. split_and!; [constructor|done|]. by intros c' r [= <- <-].
Qed.
Lemma break_eol_split s : no_eol (break_eol s).1
  /\ match (break_eol s).2 with
     | Some rest => exists c, is_eol c = true /\ s = (break_eol s).1 ++ c :: rest
     | None => s = (break_eol s).1 end.
Proof.
  induction s as [|c s [H1 H2]]; [by split; [constructor|]|]. cbn [break_eol].
  destruct (is_eol c) eqn:E; [split; [constructor|]; by exists c|]. cbn [fst snd].
  split; [by constructor|]. destruct (break_eol s).2.
  - destruct H2 as (c' & Hc' & H2). exists c'. split; [done|]. cbn. by f_equal.
  - cbn. by f_equal.
Qed.
Lemma break_eol_app l c rest : no_eol l -> is_eol c = true -> break_eol (l ++ c :: rest) = (l, Some rest).
Proof.
  intros H Hc. induction H as [|x l Hx _ IH]; cbn [app break_eol]; [by rewrite Hc|]. by rewrite Hx, IH.
Qed.
Lemma break_eol_none s : no_eol s -> break_eol s = (s, None).
Proof. induction 1 as [|x l Hx _ IH]; cbn [break_eol]; [done|]. by rewrite Hx, IH. Qed.

Lemma first_line_spec t :
  match first_line t with
  | Some (l, rest) => exists e c, eols e /\ no_eol l /\ l <> [] /\ is_eol c = true /\ t = e ++ l ++ c :: rest
  | None => exists e s, eols e /\ no_eol s /\ t = e ++ s
  end.
Proof.
  destruct (skip_eols_split t) as (e & He & E & Hc). unfold first_line.
  destruct (break_eol_split (skip_eols t)) as [Hl Hr]. destruct (break_eol (skip_eols t)) as [l [rest|]]; cbn [fst snd] in *.
  - destruct Hr as (c & Hc' & Hr). exists e, c. split_and!; [done..| |done|congruence].
    intros ->. rewrite (Hc _ _ Hr) in Hc'. done.
  - exists e, l. split_and!; [done..|congruence].
Qed.
Lemma first_line_some e l c rest : eols e -> no_eol l -> l <> [] -> is_eol c = true ->
  first_line (e ++ l ++ c :: rest) = Some (l, rest).
Proof.
  intros He Hl Hne Hc. unfold first_line. rewrite skip_eols_app by done.
  assert (skip_eols (l ++ c :: rest) = l ++ c :: rest) as ->.
  { destruct Hl as [|x l Hx Hl]; [done|]. cbn. by rewrite Hx. }
  by rewrite break_eol_app.
Qed.
Lemma first_line_none e s : eols e -> no_eol s -> first_line (e ++ s) = None.
Proof. intros He Hs. unfold first_line. by rewrite skip_eols_app, skip_eols_id, break_eol_none. Qed.

Lemma lines_from_app run s t : no_eol s -> lines_from run (s ++ t) = lines_from (run ++ s) t.
Proof.
  intros H. revert run. induction H as [|c s Hc _ IH]; intros run; cbn [app lines_from]; [by rewrite app_nil_r|].
  rewrite Hc, IH. by rewrite <- app_assoc.
Qed.
Lemma lines_of_eols e t : eols e -> lines_of (e ++ t) = lines_of t.
Proof. unfold lines_of. induction 1 as [|c e Hc _ IH]; [done|]. cbn. by rewrite Hc. Qed.
Lemma lines_of_first t : lines_of t = match first_line t with Some (l, rest) => l :: lines_of rest | None => [] end.
Proof.
  pose proof (first_line_spec t) as H. destruct (first_line t) as [[l rest]|].
  - destruct H as (e & c & He & Hl & Hne & Hc & ->). rewrite lines_of_eols by done. unfold lines_of.
    rewrite lines_from_app by done. cbn. rewrite Hc. by destruct l.
  - destruct H as (e & s & He & Hs & ->). rewrite lines_of_eols by done. unfold lines_of.
    rewrite <- (app_nil_r s), lines_from_app by done. done.
Qed.

Lemma first_line_prefix p u l rest :
  first_line p = None -> first_line (p ++ u) = Some (l, rest) -> (length rest <= length u)%nat.
Proof.
  intros Hp H. pose proof (first_line_spec (p ++ u)) as S. rewrite H in S.
  destruct S as (e & c & He & Hl & Hne & Hc & E). rewrite !app_assoc, cons_middle, app_assoc in E.
  apply app_eq_inv in E as [(k & Ek & E)|(k & _ & ->)]; [|rewrite length_app; lia].
  rewrite <- !app_assoc in Ek. cbn in Ek.
  rewrite Ek, (first_line_some e l c k He Hl Hne Hc) in Hp. done.
Qed.

Lemma spaced_prefix B p u : first_line p = None -> spaced B (p ++ u) -> (length p <= B)%nat.
Proof.
  intros Hp H. inversion H as [t _ Hl|t l rest Hf Hl _]; subst; rewrite length_app in Hl; [lia|].
  apply first_line_prefix in Hf; [lia|done].
Qed.
Lemma first_line_eols e t : eols e -> first_line (e ++ t) = first_line t.
Proof. intros He. unfold first_line. by rewrite skip_eols_app. Qed.
Lemma spaced_eols B e t : eols e -> spaced B (e ++ t) -> spaced B t.
Proof.
  intros He H. inversion H as [t0 Hn Hl|t0 l rest Hf Hl Hr]; subst; rewrite length_app in Hl; rewrite first_line_eols in * by done.
  - apply spaced_end; [done|lia].
  - eapply spaced_line; [done|lia|done].
Qed.
Lemma spaced_rest B t l rest : spaced B t -> first_line t = Some (l, rest) -> spaced B rest.
Proof. intros H E. inversion H; congruence. Qed.

Lemma no_prompt_drop x t : no_prompt (x ++ t) ->
  x = [] \/ (exists y c, x = y ++ [c] /\ is_eol c = true) -> no_prompt t.
Proof.
  intros H Hx pre post ->. destruct (H (x ++ pre) post) as (p & c & E & Hc); [by rewrite app_assoc|].
  destruct (list_eq_nil_dec pre) as [->|Hne].
  - rewrite app_nil_r in E. destruct Hx as [->|(y & d & -> & Hd)]; [by destruct p|].
    apply app_inj_tail in E as [_ ->]. congruence.
  - destruct pre as [|c0 pre _] using rev_ind; [done|]. rewrite app_assoc in E. apply app_inj_tail in E as [_ ->].
    by exists pre, c.
Qed.
Lemma eols_last e : eols e -> e = [] \/ (exists y c, e = y ++ [c] /\ is_eol c = true).
Proof.
  intros H. destruct e as [|c e _] using rev_ind; [by left|]. right. exists e, c. split; [done|].
  apply Forall_app in H as [_ H]. by apply Forall_cons in H as [H _].
Qed.
Lemma no_prompt_here e t : eols e -> no_prompt (e ++ SMS_PROMPT ++ t) -> False.
Proof.
  intros He H. destruct (H e t eq_refl) as (p & c & -> & Hc).
  apply Forall_app in He as [_ He]. apply Forall_cons in He as [He _]. congruence.
Qed.

(** ** The buffer *)
Lemma strz_here pre s junk : 0 ∉ s -> strz (pre ++ s ++ 0 :: junk) (length pre) = Ok s.
Proof.
  intros H. unfold strz. rewrite drop_app_length, until_nul_app by done.
  rewrite bool_decide_true; [done|]. apply elem_of_app. right. by left.
Qed.
Lemma skip_newlines_here pre e s junk : 0 ∉ e ++ s -> eols e -> (forall c r, s = c :: r -> is_eol c = false) ->
  skip_newlines (pre ++ (e ++ s) ++ 0 :: junk) (length pre) = Ok (length (pre ++ e)).
Proof.
  intros H He Hs. unfold skip_newlines. rewrite strz_here by done. cbn [mbind res_bind mret res_ret].
  rewrite skip_eols_app by done. assert (skip_eols s = s) as ->.
  { destruct s as [|c s]; [done|]. cbn. by rewrite (Hs c s). }
  rewrite !length_app. unfold mret, res_ret. f_equal. lia.
Qed.
Lemma findNextEOL_here pre s junk : 0 ∉ s -> s <> SMS_PROMPT ->
  findNextEOL (pre ++ s ++ 0 :: junk) (length pre)
  = Ok (match (break_eol s).2 with Some _ => Some (length pre + length (break_eol s).1)%nat | None => None end).
Proof.
  intros H Hp. unfold findNextEOL. rewrite strz_here by done. cbn [mbind res_bind]. by rewrite decide_False.
Qed.

(** The buffer holds [s] from the position on, and [t] is still to come in all. *)
Definition reader_at (r : at_reader) (t : list Z) : Prop :=
  length (s_ATBuffer r) = MAX_AT_RESPONSE
  /\ exists pre s junk, s_ATBuffer r = pre ++ s ++ 0 :: junk /\ s_ATBufferCur r = length pre
       /\ t = s ++ mjoin (at_input r).

Lemma line_at_here pre l c s junk input :
  0 ∉ l -> length (pre ++ (l ++ c :: s) ++ 0 :: junk) = MAX_AT_RESPONSE ->
  exists r, line_at (pre ++ (l ++ c :: s) ++ 0 :: junk) (length pre) (length pre + length l) input = Ok (Some l, r)
    /\ reader_at r (s ++ mjoin input) /\ at_input r = input.
Proof.
  intros H Hl. unfold line_at.
  assert (E : wr (length pre + length l) [0] (pre ++ (l ++ c :: s) ++ 0 :: junk)
              = Ok (pre ++ l ++ 0 :: (s ++ 0 :: junk))).
  { replace (pre ++ (l ++ c :: s) ++ 0 :: junk) with ((pre ++ l) ++ [c] ++ (s ++ 0 :: junk)) by (by rewrite <- !app_assoc).
    rewrite <- length_app, wr_app by done. by rewrite <- app_assoc. }
  rewrite E. cbn [mbind res_bind]. rewrite strz_here by done. eexists. split; [done|]. split; [|done].
  split; [cbn; rewrite !length_app in *; cbn [length] in *; rewrite !length_app in *; cbn [length] in *; lia|].
  exists (pre ++ l ++ [0]), s, junk. cbn. split_and!; [by rewrite <- !app_assoc| |done].
  rewrite !length_app. cbn. lia.
Qed.

Lemma MAX_pos : (0 < MAX_AT_RESPONSE)%nat.
Proof. apply Nat.ltb_lt. by vm_compute. Qed.
Lemma wr_nil o b : (o <= length b)%nat -> wr o [] b = Ok b.
Proof.
  intros H. unfold wr. cbn [length]. rewrite Nat.add_0_r. destruct (Nat.leb_spec o (length b)); [|lia].
  by rewrite app_nil_l, take_drop.
Qed.
Lemma write_chunk p j c : length (p ++ j) = MAX_AT_RESPONSE -> (length p + length c < MAX_AT_RESPONSE)%nat ->
  exists b1 junk, wr (length p) c (p ++ j) = Ok b1
    /\ wr (length p + length c) [0] b1 = Ok (p ++ c ++ 0 :: junk)
    /\ length (p ++ c ++ 0 :: junk) = MAX_AT_RESPONSE.
Proof.
  intros Hl Hc. rewrite length_app in Hl. destruct (drop (length c) j) as [|x junk] eqn:E.
  { apply (f_equal length) in E. rewrite length_drop in E. cbn in E. lia. }
  exists (p ++ c ++ x :: junk), junk. rewrite <- (take_drop (length c) j), E. split_and!.
  - apply wr_app. rewrite length_take. apply (f_equal length) in E. rewrite length_drop in E. cbn in E. lia.
  - replace (p ++ c ++ x :: junk) with ((p ++ c) ++ [x] ++ junk) by (by rewrite <- app_assoc).
    rewrite <- length_app, wr_app by done. by rewrite <- app_assoc.
  - apply (f_equal length) in E. rewrite length_drop in E. rewrite !length_app. cbn [length] in *. lia.
Qed.

Section Reader.
Context (B K : nat) (HBK : (B + K < MAX_AT_RESPONSE)%nat).

Definition chunks_ok (input : list (list Z)) : Prop := Forall (fun c => c <> [] /\ (length c <= K)%nat) input.
(** What is known of the stream that is still to come. *)
Definition stream_ok (t : list Z) : Prop := 0 ∉ t /\ no_prompt t /\ spaced B t.

Lemma stream_ok_rest t l rest : stream_ok t -> first_line t = Some (l, rest) -> stream_ok rest /\ (length rest < length t)%nat.
Proof.
  intros (H0 & Hp & Hs) E. pose proof (first_line_spec t) as S. rewrite E in S.
  destruct S as (e & c & He & Hl & Hne & Hc & ->). split; [|rewrite !length_app; cbn; lia]. split_and!.
  - intros H. apply H0. rewrite !elem_of_app. right. right. by right.
  - apply (no_prompt_drop (e ++ l ++ [c])); [by rewrite <- !app_assoc|]. right. exists (e ++ l), c. by rewrite app_assoc.
  - by eapply spaced_rest.
Qed.
Lemma stream_ok_eols e t : eols e -> stream_ok (e ++ t) -> stream_ok t.
Proof.
  intros He (H0 & Hp & Hs). split_and!.
  - intros H. apply H0, elem_of_app. by right.
  - eapply no_prompt_drop; [exact Hp|by apply eols_last].
  - by eapply spaced_eols.
Qed.

(** What a call of the reader does on the stream [t]. *)
Definition reads (t : list Z) (o : res (option cstr * at_reader)) : Prop :=
  match first_line t with
  | Some (l, rest) => exists r, o = Ok (Some l, r) /\ reader_at r rest /\ chunks_ok (at_input r)
  | None => exists r, o = Ok (None, r)
  end.

Lemma reads_eols e t o : eols e -> reads (e ++ t) o <-> reads t o.
Proof. intros He. unfold reads. by rewrite first_line_eols. Qed.

(** The step both halves share: the text at the position is looked at. *)
Lemma look pre s junk input (k : nat -> res (option cstr * at_reader)) :
  length (pre ++ s ++ 0 :: junk) = MAX_AT_RESPONSE -> stream_ok (s ++ mjoin input) -> chunks_ok input ->
  (forall e s1, s = e ++ s1 -> eols e -> no_eol s1 -> reads (s ++ mjoin input) (k (length (pre ++ e)))) ->
  reads (s ++ mjoin input)
    (cur ← skip_newlines (pre ++ s ++ 0 :: junk) (length pre);
     p_eol ← findNextEOL (pre ++ s ++ 0 :: junk) cur;
     match p_eol with Some p => line_at (pre ++ s ++ 0 :: junk) cur p input | None => k cur end).
Proof.
  intros Hlen Ht Hi Hk. destruct (skip_eols_split s) as (e & He & Es & Hc). set (s1 := skip_eols s) in *.
  destruct Ht as (H0 & Hp & Hs).
  assert (H0s : 0 ∉ s) by (intros H; apply H0, elem_of_app; by left).
  assert (H0s1 : 0 ∉ s1) by (intros H; apply H0s; rewrite Es; apply elem_of_app; by right).
  assert (Hb : pre ++ s ++ 0 :: junk = (pre ++ e) ++ s1 ++ 0 :: junk) by (by rewrite Es at 1; rewrite <- !app_assoc).
  rewrite Es at 2. rewrite skip_newlines_here by (by rewrite <- ?Es). cbn [mbind res_bind]. rewrite Hb.
  rewrite findNextEOL_here; [|done|].
  2: { intros Ep. apply (no_prompt_here e (mjoin input) He). by rewrite <- Ep, app_assoc, <- Es. }
  cbn [mbind res_bind]. destruct (break_eol_split s1) as [Hl Hr]. destruct (break_eol s1) as [l [rest1|]]; cbn [fst snd] in *.
  - destruct Hr as (c & Hc' & Hr). assert (Hne : l <> []).
    { intros ->. rewrite (Hc c rest1 Hr) in Hc'. done. }
    assert (Hf : first_line (s ++ mjoin input) = Some (l, rest1 ++ mjoin input)).
    { rewrite Es, Hr, <- !app_assoc. cbn [app]. by apply first_line_some. }
    unfold reads. rewrite Hf, Hr.
    destruct (line_at_here (pre ++ e) l c rest1 junk input) as (r & E & Hat & Ei).
    { intros H. apply H0s1. rewrite Hr. apply elem_of_app. by left. }
    { by rewrite <- Hr, <- Hb. }
    exists r. split; [exact E|]. split; [done|]. by rewrite Ei.
  - apply (Hk e s1); [done|done|]. by rewrite Hr.
Qed.

Lemma read_loop_spec fuel : forall b e s junk input,
  b = e ++ s ++ 0 :: junk -> length b = MAX_AT_RESPONSE -> eols e -> no_eol s ->
  chunks_ok input -> stream_ok (e ++ s ++ mjoin input) -> (length (mjoin input) < fuel)%nat ->
  reads (e ++ s ++ mjoin input) (read_loop fuel b (length e) (length (e ++ s)) input).
Proof.
  induction fuel as [|fuel IH]; intros b e s junk input Eb Hlen He Hs Hi Ht Hf; [lia|].
  assert (HB : (length (e ++ s) <= B)%nat).
  { apply (spaced_prefix _ _ (mjoin input)); [by apply first_line_none|]. rewrite <- app_assoc. apply Ht. }
  cbn [read_loop]. rewrite decide_False by lia. cbn [mbind res_bind mret res_ret].
  destruct input as [|c input].
  { unfold reads. cbn. rewrite app_nil_r, first_line_none by done. by eexists. }
  apply Forall_cons in Hi as [[Hc HcK] Hi]. destruct c as [|c0 c']; [done|]. set (c := c0 :: c') in *.
  rewrite take_ge, drop_ge by lia.
  destruct (write_chunk (e ++ s) (0 :: junk) c) as (b1 & junk' & E1 & E2 & Hlen'); [by rewrite <- app_assoc, <- Eb|lia|].
  replace b with ((e ++ s) ++ 0 :: junk) by (by rewrite <- app_assoc). rewrite E1. cbn [mbind res_bind]. rewrite E2.
  apply reads_eols; [done|].
  replace (s ++ mjoin (c :: input)) with ((s ++ c) ++ mjoin input) by (cbn; by rewrite <- app_assoc).
  assert (Hb : (e ++ s) ++ c ++ 0 :: junk' = e ++ (s ++ c) ++ 0 :: junk') by (by rewrite <- !app_assoc).
  assert (Ht' : stream_ok (e ++ (s ++ c) ++ mjoin input)) by (cbn in Ht; by rewrite <- app_assoc).
  rewrite Hb in *.
  apply (look e (s ++ c) junk' input (fun cur => read_loop fuel (e ++ (s ++ c) ++ 0 :: junk') cur
    (length (e ++ s) + length c) input)); [done|by apply (stream_ok_eols e)|done|].
  intros e1 s1 Es He1 Hs1. apply (reads_eols e); [done|].
  replace (length (e ++ s) + length c)%nat with (length ((e ++ e1) ++ s1))
    by (rewrite <- app_assoc, <- Es, !length_app; lia).
  replace (e ++ (s ++ c) ++ mjoin input) with ((e ++ e1) ++ s1 ++ mjoin input) by (by rewrite Es, <- !app_assoc).
  apply (IH _ (e ++ e1) s1 junk').
  - by rewrite Es, <- !app_assoc.
  - done.
  - by apply Forall_app.
  - done.
  - done.
  - rewrite Es in Ht'. by rewrite <- !app_assoc in Ht' |- *.
  - change (mjoin (c :: input)) with (c ++ mjoin input) in Hf. rewrite length_app in Hf.
    assert (0 < length c)%nat by (cbn; lia). lia.
Qed.

Lemma readline_spec r t : reader_at r t -> stream_ok t -> chunks_ok (at_input r) -> reads t (readline r).
Proof.
  intros (Hlen & pre & s & junk & Eb & Ec & ->) Ht Hi. unfold readline. rewrite Eb, Ec in *.
  destruct s as [|c s].
  - change ([] ++ 0 :: junk) with (0 :: junk) in *. change ([] ++ mjoin (at_input r)) with (mjoin (at_input r)) in *.
    assert (rd8 (pre ++ 0 :: junk) (length pre) = Ok 0) as ->.
    { unfold rd8. by rewrite lookup_app_r, Nat.sub_diag by lia. }
    cbn [mbind res_bind]. change (0 =? 0) with true. cbn iota.
    destruct (write_chunk [] (pre ++ 0 :: junk) []) as (b1 & junk' & E1 & E2 & Hl'); [done|cbn; apply MAX_pos|].
    rewrite (wr_nil 0 _) in E1 by (cbn; lia). injection E1 as <-. cbn [length Nat.add] in E2. rewrite E2. cbn [mbind res_bind].
    apply (read_loop_spec _ _ [] [] junk'); [done..|constructor|constructor|done|done|]. unfold read_fuel. lia.
  - assert (Hc : c <> 0) by (intros ->; destruct Ht as [H0 _]; apply H0; by left).
    assert (rd8 (pre ++ (c :: s) ++ 0 :: junk) (length pre) = Ok c) as ->.
    { unfold rd8. by rewrite lookup_app_r, Nat.sub_diag by lia. }
    cbn [mbind res_bind]. destruct (Z.eqb_spec c 0) as [|_]; [done|].
    apply (look pre (c :: s) junk (at_input r) (fun cur =>
      x ← strz (pre ++ (c :: s) ++ 0 :: junk) cur; b ← wr 0 (x ++ [0]) (pre ++ (c :: s) ++ 0 :: junk);
      read_loop (read_fuel (at_input r)) b 0 (length x) (at_input r))); [done..|].
    intros e s1 Es He Hs1. rewrite Es in *.
    replace (pre ++ (e ++ s1) ++ 0 :: junk) with ((pre ++ e) ++ s1 ++ 0 :: junk) in * by (by rewrite <- !app_assoc).
    rewrite strz_here.
    2: { intros H. destruct Ht as [H0 _]. apply H0. rewrite !elem_of_app. auto. }
    cbn [mbind res_bind].
    assert (Hs1l : (length s1 < MAX_AT_RESPONSE)%nat).
    { rewrite !length_app in Hlen. cbn [length] in Hlen. lia. }
    assert (exists junk', wr 0 (s1 ++ [0]) ((pre ++ e) ++ s1 ++ 0 :: junk) = Ok (s1 ++ 0 :: junk')
      /\ length (s1 ++ 0 :: junk') = MAX_AT_RESPONSE) as (junk' & E & Hl').
    { unfold wr. rewrite Hlen. destruct (Nat.leb_spec (0 + length (s1 ++ [0])) MAX_AT_RESPONSE) as [_|H].
      2: { rewrite length_app in H. cbn in H. lia. }
      eexists. split; [rewrite take_0, app_nil_l, <- app_assoc; reflexivity|].
      rewrite !length_app in *. cbn [length app] in *. rewrite length_drop, !length_app in *. cbn [length] in *. lia. }
    rewrite E. cbn [mbind res_bind]. rewrite <- app_assoc. apply (reads_eols e); [done|].
    apply (read_loop_spec _ _ [] s1 junk'); [done|done|constructor|done|done| |unfold read_fuel; lia].
    apply (stream_ok_eols e); [done|]. by rewrite <- app_assoc in Ht.
Qed.

Lemma readerLoop_spec fuel : forall r t, reader_at r t -> stream_ok t -> chunks_ok (at_input r) ->
  (length t < fuel)%nat -> readerLoop fuel r = Ok (events_of (lines_of t)).
Proof.
  induction fuel as [|fuel IH]; intros r t Hr Ht Hi Hf; [lia|]. cbn [readerLoop].
  pose proof (readline_spec r t Hr Ht Hi) as R. unfold reads in R. rewrite lines_of_first.
  destruct (first_line t) as [[l rest]|] eqn:E; destruct R as (r1 & R); [destruct R as (R & Hr1 & Hi1)|]; rewrite R;
    cbn [mbind res_bind fst snd]; [|done].
  destruct (stream_ok_rest t l rest Ht E) as [Ht1 Hl]. cbn [events_of]. destruct (isSMSUnsolicited l).
  - pose proof (readline_spec r1 rest Hr1 Ht1 Hi1) as R2. unfold reads in R2. rewrite lines_of_first.
    destruct (first_line rest) as [[l2 rest2]|] eqn:E2; destruct R2 as (r2 & R2); [destruct R2 as (R2 & Hr2 & Hi2)|];
      rewrite R2; cbn [mbind res_bind fst snd]; [|done].
    destruct (stream_ok_rest rest l2 rest2 Ht1 E2) as [Ht2 Hl2].
    by rewrite (IH r2 rest2) by (done || lia).
  - by rewrite (IH r1 rest) by (done || lia).
Qed.
End Reader.

(** ** Properties *)

(** C16. The line reader does not depend on how the bytes arrive.  Let [B] bound the
    distance between line ends and [K] the length of a read, together less than the
    buffer; on a stream without NUL and without an SMS prompt the reader thread sees
    exactly the non-empty lines of the concatenated chunks, in order, wherever the
    reads cut them, and then the end; it never runs out of its buffer. *)
Theorem reader_chunking B K buf chunks :
  (B + K < MAX_AT_RESPONSE)%nat -> length buf = MAX_AT_RESPONSE -> buf !! 0%nat = Some 0 ->
  chunks_ok K chunks -> stream_ok B (mjoin chunks) ->
  readerLoop (read_fuel chunks) (mkReader buf 0 chunks) = Ok (events_of (lines_of (mjoin chunks))).
Proof.
  intros HBK Hl H0 Hi Ht. apply (readerLoop_spec B K); [done| |done|done|unfold read_fuel; lia].
  split; [done|]. destruct buf as [|z buf]; [done|]. injection H0 as ->. by exists [], [], buf.
Qed.

(** A response in four reads, cut inside its lines. *)
Definition demo_chunks : list (list Z) :=
  [[13; 10; 43; 67]; bytes_of_string "PIN: READY"; [13; 10; 13; 10; 79]; [75; 13; 10]].
Lemma reader_chunking_witness :
  readerLoop (read_fuel demo_chunks) (mkReader (zeros MAX_AT_RESPONSE) 0 demo_chunks)
  = Ok [Line (bytes_of_string "+CPIN: READY"); Line (bytes_of_string "OK"); ReaderClosed].
Proof.
  apply (reader_chunking 100 100 (zeros MAX_AT_RESPONSE) demo_chunks).
  - apply Nat.ltb_lt. by vm_compute.
  - by vm_compute.
  - done.
  - unfold chunks_ok. apply (bool_decide_unpack _). by vm_compute.
  - split_and!.
    + apply (bool_decide_unpack _). by vm_compute.
    + intros pre post E. exfalso. assert (H : 62 ∈ mjoin demo_chunks).
      { rewrite E. rewrite !elem_of_app. right. left. apply (bool_decide_unpack _). by vm_compute. }
      revert H. apply (bool_decide_unpack (62 ∉ mjoin demo_chunks)). by vm_compute.
    + eapply spaced_line; [by vm_compute|cbn; lia|]. eapply spaced_line; [by vm_compute|cbn; lia|].
      apply spaced_end; [by vm_compute|cbn; lia].
Defined.

Lemma read_loop_fault fuel b cur p c input b1 :
  p <> MAX_AT_RESPONSE -> c <> [] -> wr p (take (MAX_AT_RESPONSE - p) c) b = Ok b1 ->
  wr (p + length (take (MAX_AT_RESPONSE - p) c)) [0] b1 = Fault ->
  read_loop (S fuel) b cur p (c :: input) = Fault.
Proof.
  intros Hp Hc E1 E2. cbn [read_loop]. rewrite decide_False by done. cbn [mbind res_bind mret res_ret].
  destruct c; [done|]. rewrite E1. cbn [mbind res_bind]. by rewrite E2.
Qed.

(** A read that fills the buffer writes behind it: [readline] asks for all the bytes
    that are left and then stores a NUL after what it got. *)
Theorem reader_overflow buf c input :
  length buf = MAX_AT_RESPONSE -> buf !! 0%nat = Some 0 -> (MAX_AT_RESPONSE <= length c)%nat ->
  readline (mkReader buf 0 (c :: input)) = Fault.
Proof.
  pose proof MAX_pos as Hpos. intros Hl H0 Hc. unfold readline. cbn [s_ATBuffer s_ATBufferCur at_input].
  assert (rd8 buf 0 = Ok 0) as -> by (unfold rd8; by rewrite H0). cbn [mbind res_bind].
  change (0 =? 0) with true. cbn iota.
  assert (exists b, wr 0 [0] buf = Ok b) as [b Eb].
  { unfold wr. destruct (Nat.leb_spec (0 + length [0]) (length buf)) as [_|H]; [by eexists|cbn in H; lia]. }
  rewrite Eb. cbn [mbind res_bind]. apply wr_length in Eb as Hb. rewrite Hl in Hb.
  assert (Ht : length (take (MAX_AT_RESPONSE - 0) c) = MAX_AT_RESPONSE) by (rewrite length_take; lia).
  assert (exists b1, wr 0 (take (MAX_AT_RESPONSE - 0) c) b = Ok b1) as [b1 E1].
  { unfold wr. rewrite Ht, Hb, Nat.leb_refl. by eexists. }
  apply wr_length in E1 as Hb1. rewrite Hb in Hb1.
  apply (read_loop_fault _ _ _ _ _ _ b1); [lia|by destruct c; [cbn in Hc; lia|]|done|].
  rewrite Ht. unfold wr. rewrite Hb1. cbn [length].
  by destruct (Nat.leb_spec (0 + MAX_AT_RESPONSE + 1) MAX_AT_RESPONSE); [lia|].
Qed.
Lemma reader_overflow_witness : readline (mkReader (zeros MAX_AT_RESPONSE) 0 [replicate MAX_AT_RESPONSE 65]) = Fault.
Proof.
  apply reader_overflow; [by vm_compute|done|]. rewrite length_replicate. apply le_n.
Defined.

(** After an SMS prompt the position is behind the NUL that ends the data, and a piece of
    an older line is read again: the third line was never sent. *)
Example prompt_rereads_old_bytes :
  readerLoop 20 (mkReader (zeros MAX_AT_RESPONSE) 0
    [bytes_of_string "+CMS ERROR: 500" ++ [13; 10]; SMS_PROMPT; [13; 10] ++ bytes_of_string "OK" ++ [13; 10]])
  = Ok [Line (bytes_of_string "+CMS ERROR: 500"); Line SMS_PROMPT; Line (bytes_of_string "S ERROR: 500");
        Line (bytes_of_string "OK"); ReaderClosed].
Proof. by vm_compute. Qed.
