(* ===== verification/AtChannelSpec.v ===== *)
(** Properties of AT commands: which lines become the response, and that every command
    returns. *)
From S2P Require Import Prelude CmTypes QmiThread QmiRequests AtTok AtChannel.
#[local] Open Scope Z_scope.

(** ** Reference: the lines before the final response, sorted *)
Definition is_final (l : cstr) : bool := isFinalResponseSuccess l || isFinalResponseError l.
(** A line of the kind the command waits for. *)
Definition line_matches (type : ATCommandType) (prefix : option cstr) (l : cstr) : bool :=
  match type, prefix with
  | NO_RESULT, _ => false
  | NUMERIC, _ => is_digit (default 0 (head l))
  | _, Some p => strStartsWith l p
  | _, None => false
  end.
Fixpoint without_first (P : cstr -> bool) (ls : list cstr) : list cstr :=
  match ls with [] => [] | l :: ls => if P l then ls else l :: without_first P ls end.
(** The response has every such line ([MULTILINE]) or the first one; the others are
    unsolicited. *)
Definition responses (type : ATCommandType) (prefix : option cstr) (ls : list cstr) : list cstr :=
  let found := filter (fun l => line_matches type prefix l) ls in
  if decide (type = MULTILINE) then found else take 1 found.
Definition leftovers (type : ATCommandType) (prefix : option cstr) (ls : list cstr) : list cstr :=
  if decide (type = MULTILINE) then filter (fun l => negb (line_matches type prefix l)) ls
  else without_first (line_matches type prefix) ls.

Lemma filter_bool (P : cstr -> bool) l ls :
  filter (fun l => P l) (l :: ls) = if P l then l :: filter (fun l => P l) ls else filter (fun l => P l) ls.
Proof. rewrite filter_cons. by destruct (P l). Qed.
Lemma filter_negb (P : cstr -> bool) l ls :
  filter (fun l => negb (P l)) (l :: ls) = if P l then filter (fun l => negb (P l)) ls else l :: filter (fun l => negb (P l)) ls.
Proof. rewrite filter_cons. by destruct (P l). Qed.

Lemma responses_leftovers type prefix ls : responses type prefix ls ++ leftovers type prefix ls ≡ₚ ls.
Proof.
  unfold responses, leftovers. destruct (decide (type = MULTILINE)).
  - induction ls as [|l ls IH]; [done|]. rewrite filter_bool, filter_negb. destruct (line_matches type prefix l).
    + cbn [app]. by rewrite IH.
    + by rewrite <- Permutation_middle, IH.
  - induction ls as [|l ls IH]; [done|]. rewrite filter_bool. cbn [without_first].
    destruct (line_matches type prefix l); cbn [take app]; [by rewrite take_0|]. by rewrite <- Permutation_middle, IH.
Qed.

Lemma leftovers_sublist type prefix ls : leftovers type prefix ls `sublist_of` ls.
Proof.
  unfold leftovers. destruct (decide (type = MULTILINE)); [apply sublist_filter|].
  induction ls as [|l ls IH]; [constructor|]. cbn [without_first]. destruct (line_matches type prefix l); by constructor.
Qed.

(** ** A command in flight *)
Section Flight.
Context (type : ATCommandType) (prefix : option cstr) (proxy : bool) (out : list (list Z)) (calls : nat).
Context (Hprefix : type = SINGLELINE \/ type = MULTILINE -> is_Some prefix).

(** No SMS and no raw data; [got] is in reverse order. *)
Definition in_flight (got : list cstr) (unsol : list (cstr * option cstr)) : at_chan :=
  mkChan type prefix None None (Some (mkATResponse 0 None got)) false true proxy out unsol calls.

Lemma process_in_flight l got unsol : is_final l = false ->
  processLine l (in_flight got unsol)
  = Ok (if line_matches type prefix l && (is_nil got || bool_decide (type = MULTILINE))
        then in_flight (l :: got) unsol else in_flight got (unsol ++ [(l, None)])).
Proof.
  intros Hl. apply orb_false_iff in Hl as [H1 H2]. unfold processLine, in_flight. cbn [sp_response s_raw_data s_smsPDU].
  rewrite H1, H2. cbn [s_type p_intermediates s_responsePrefix].
  assert (Hp : (type = SINGLELINE \/ type = MULTILINE) -> exists p, prefix = Some p) by (intros H; by destruct (Hprefix H); eexists).
  destruct type; cbn [line_matches andb].
  - done.
  - destruct (is_nil got); cbn [andb orb]; [by destruct (is_digit _)|]. by rewrite andb_false_r.
  - destruct Hp as [p ->]; [by left|]. destruct (is_nil got); cbn [orb]; [|by rewrite andb_false_r].
    cbn. by destruct (strStartsWith l p).
  - destruct Hp as [p ->]; [by right|]. cbn. rewrite orb_true_r, andb_true_r. by destruct (strStartsWith l p).
Qed.

(** The lines picked and left over, given whether one has been picked before. *)
Fixpoint collect (fresh : bool) (ls : list cstr) : list cstr * list cstr :=
  match ls with
  | [] => ([], [])
  | l :: ls =>
      if line_matches type prefix l && (fresh || bool_decide (type = MULTILINE))
      then let r := collect false ls in (l :: r.1, r.2)
      else let r := collect fresh ls in (r.1, l :: r.2)
  end.
Lemma collect_spent ls : type <> MULTILINE -> collect false ls = ([], ls).
Proof.
  intros H. induction ls as [|l ls IH]; [done|]. cbn [collect]. rewrite bool_decide_false by done.
  rewrite andb_false_r, IH. done.
Qed.
Lemma collect_multi fresh ls : type = MULTILINE ->
  collect fresh ls = (filter (fun l => line_matches type prefix l) ls, filter (fun l => negb (line_matches type prefix l)) ls).
Proof.
  intros H. revert fresh. induction ls as [|l ls IH]; intros fresh; [done|]. cbn [collect].
  rewrite bool_decide_true, orb_true_r, andb_true_r by done. rewrite filter_bool, filter_negb, !IH.
  by destruct (line_matches type prefix l).
Qed.
Lemma collect_fresh ls : collect true ls = (responses type prefix ls, leftovers type prefix ls).
Proof.
  unfold responses, leftovers. destruct (decide (type = MULTILINE)) as [H|H]; [by apply collect_multi|].
  induction ls as [|l ls IH]; [done|]. cbn [collect without_first]. rewrite filter_bool.
  cbn [orb]. rewrite andb_true_r. destruct (line_matches type prefix l); cbn [take].
  - rewrite collect_spent by done. cbn [fst snd]. by rewrite take_0.
  - by rewrite IH.
Qed.

Lemma collect_app fresh g ls :
  collect fresh (g ++ ls)
  = (let c := collect fresh g in let d := collect (fresh && is_nil c.1) ls in (c.1 ++ d.1, c.2 ++ d.2)).
Proof.
  revert fresh. induction g as [|l g IH]; intros fresh; cbn [app collect].
  - cbn zeta. cbn [fst snd is_nil app]. rewrite andb_true_r. by destruct (collect fresh ls).
  - destruct (line_matches type prefix l && _); rewrite IH; cbn zeta; cbn [fst snd is_nil app]; [|done].
    by rewrite andb_false_r.
Qed.
Lemma is_nil_app (a b : list cstr) : is_nil (reverse a ++ b) = is_nil b && is_nil a.
Proof.
  destruct a as [|x a]; [by rewrite andb_true_r|]. rewrite reverse_cons, <- app_assoc, andb_false_r.
  by destruct (reverse a).
Qed.

Definition unsolicited (ls : list cstr) : list (cstr * option cstr) := (fun l => (l, None)) <$> ls.
Lemma events_in_flight ls got unsol : Forall (fun l => is_final l = false) ls ->
  let c := collect (is_nil got) ls in
  at_events (Line <$> ls) (in_flight got unsol) = Ok (in_flight (reverse c.1 ++ got) (unsol ++ unsolicited c.2)).
Proof.
  intros H. revert got unsol. induction H as [|l ls Hl _ IH]; intros got unsol.
  - cbn. by rewrite app_nil_r.
  - cbn [fmap list_fmap at_events at_event_step]. rewrite process_in_flight by done. cbn [mbind res_bind].
    cbn zeta in *. cbn [collect]. destruct (line_matches type prefix l && _) eqn:E.
    + rewrite IH. cbn [is_nil fst snd]. by rewrite reverse_cons, <- app_assoc.
    + rewrite IH. cbn [fst snd]. unfold unsolicited. by rewrite <- app_assoc.
Qed.

(** After the final line. *)
Definition answered_by (got : list cstr) (fin : cstr) (unsol : list (cstr * option cstr)) : at_chan :=
  mkChan type prefix None None (Some (mkATResponse (b2z (isFinalResponseSuccess fin)) (Some fin) got)) false true proxy out
    (unsol ++ (if proxy then unsolicited [fin] else [])) calls.
Lemma process_final fin got unsol : is_final fin = true ->
  processLine fin (in_flight got unsol) = Ok (answered_by got fin unsol).
Proof.
  intros H. unfold processLine, in_flight, answered_by. cbn [sp_response s_raw_data s_atc_proxy].
  destruct (isFinalResponseSuccess fin) eqn:E.
  - destruct proxy; cbn; [done|]. by rewrite app_nil_r.
  - unfold is_final in H. rewrite E in H. cbn [orb] in H. rewrite H. destruct proxy; cbn; [done|]. by rewrite app_nil_r.
Qed.

Lemma at_events_app es1 es2 s : at_events (es1 ++ es2) s = (s1 ← at_events es1 s; at_events es2 s1).
Proof.
  revert s. induction es1 as [|e es1 IH]; intros s; [done|]. cbn [app at_events].
  destruct (at_event_step e s) as [s1| |]; cbn [mbind res_bind]; [apply IH|done..].
Qed.

(** The waits: lines in several groups (spurious wake-ups), the last of which ends with
    the final response. *)
Definition waits_for (groups : list (list cstr)) (last : list cstr) (fin : cstr) (rc : Z)
    (more : list (list at_event * Z)) : list (list at_event * Z) :=
  map (fun g : list cstr => (Line <$> g, 0)) groups ++ (Line <$> (last ++ [fin]), rc) :: more.
Lemma wait_final_collects groups last fin rc more : forall got unsol,
  is_final fin = true -> Forall (fun l => is_final l = false) (mjoin groups ++ last) -> rc <> ETIMEDOUT ->
  let c := collect (is_nil got) (mjoin groups ++ last) in
  exists rsp, wait_final (waits_for groups last fin rc more) (in_flight got unsol)
    = Ok (inr rsp, answered_by (reverse c.1 ++ got) fin (unsol ++ unsolicited c.2))
    /\ rsp = mkATResponse (b2z (isFinalResponseSuccess fin)) (Some fin) (reverse c.1 ++ got).
Proof.
  induction groups as [|g groups IH]; intros got unsol Hf Hls Hrc; cbn [mjoin list_join app] in *.
  - change (waits_for [] last fin rc more) with ((Line <$> (last ++ [fin]), rc) :: more).
    cbn [wait_final in_flight sp_response finalResponse s_readerClosed].
    rewrite bool_decide_false by (by intros [? ?]). cbn [orb]. rewrite fmap_app, at_events_app.
    rewrite events_in_flight by done. cbn [mbind res_bind fmap list_fmap at_events at_event_step].
    rewrite process_final by done. cbn [mbind res_bind]. destruct (Z.eqb_spec rc ETIMEDOUT); [done|].
    eexists. split; [|done]. destruct more as [|[es rc'] more]; cbn [wait_final answered_by sp_response finalResponse];
      by rewrite bool_decide_true by by eexists.
  - rewrite <- app_assoc in Hls |- *. apply Forall_app in Hls as [Hg Hls].
    change (waits_for (g :: groups) last fin rc more) with ((Line <$> g, 0) :: waits_for groups last fin rc more).
    cbn [wait_final]. cbn [in_flight sp_response finalResponse s_readerClosed].
    rewrite bool_decide_false by (by intros [? ?]). cbn [orb]. fold (in_flight got unsol).
    rewrite events_in_flight by done. cbn [mbind res_bind]. change (0 =? ETIMEDOUT) with false. cbn iota.
    destruct (IH (reverse (collect (is_nil got) g).1 ++ got) (unsol ++ unsolicited (collect (is_nil got) g).2) Hf Hls Hrc)
      as (rsp & E & ->).
    rewrite E, is_nil_app, (collect_app _ g). cbn [fst snd]. rewrite reverse_app, <- !app_assoc.
    eexists. split; [|done]. unfold unsolicited. by rewrite fmap_app.
Qed.
End Flight.

(** ** Between commands *)
Record idle_chan (s : at_chan) : Prop := {
  idle_rsp : sp_response s = None; idle_raw : s_raw_data s = None;
  idle_fd : s_fd_open s = true; idle_reader : s_readerClosed s = false }.
Lemma events_idle ls ty px pdu raw cl fd proxy out unsol calls :
  at_events (Line <$> ls) (mkChan ty px pdu raw None cl fd proxy out unsol calls)
  = Ok (mkChan ty px pdu raw None cl fd proxy out (unsol ++ unsolicited ls) calls).
Proof.
  revert unsol. induction ls as [|l ls IH]; intros unsol; [cbn; by rewrite app_nil_r|].
  etrans; [apply (IH (unsol ++ [(l, None)]))|]. by rewrite <- app_assoc.
Qed.

(** What is written for a command. *)
Definition written (c : cstr) : list (list Z) := if (length c <? 63)%nat then [c ++ [13]] else [c; [13]].
(** How the wait ends, for the caller. *)
Definition finish (keep : bool) (r : res ((Z + ATResponse) * at_chan)) : res ((Z * option ATResponse) * at_chan) :=
  match r with
  | Ok (inl err, s) => Ok ((err, None), clearPendingCommand s)
  | Ok (inr rsp, s) => Ok ((if s_readerClosed s then AT_ERROR_CHANNEL_CLOSED else 0,
                            if keep then Some (reverseIntermediates rsp) else None), clearPendingCommand s)
  | Fault => Fault | OutOfFuel => OutOfFuel
  end.
Lemma reverse_back a b l : reverseIntermediates (mkATResponse a b (reverse l)) = mkATResponse a b l.
Proof. change (mkATResponse a b (reverse (reverse l)) = mkATResponse a b l). by rewrite reverse_involutive. Qed.
Lemma writeline_open c ty px pdu raw rsp proxy out unsol calls :
  writeline true c (mkChan ty px pdu raw rsp false true proxy out unsol calls)
  = Ok (0, mkChan ty px pdu raw rsp false true proxy (out ++ written c) unsol calls).
Proof. unfold writeline, written. destruct (length c <? 63)%nat; cbn; [done|]. by rewrite <- app_assoc.
Qed.

Lemma nolock_written dev c type prefix pdu keep ty0 px0 pdu0 raw proxy out unsol calls :
  ax_write_ok (dev calls) = true ->
  at_send_command_full_nolock dev c type prefix pdu keep (mkChan ty0 px0 pdu0 raw None false true proxy out unsol calls)
  = finish keep (wait_final (ax_waits (dev calls))
      (mkChan type prefix pdu raw (Some at_response_new) false true proxy (out ++ written c) unsol (S calls))).
Proof.
  intros Hw. unfold at_send_command_full_nolock, mbind, AT_bind, M_bind, M_get, M_upd.
  change (at_calls (mkChan ty0 px0 pdu0 raw None false true proxy out unsol calls)) with calls.
  change (sp_response _) with (@None ATResponse). rewrite bool_decide_false by (by intros [? ?]).
  rewrite Hw. match goal with |- context [writeline true c ?x] =>
    change x with (mkChan ty0 px0 pdu0 raw None false true proxy out unsol (S calls)) end.
  rewrite writeline_open. change (0 <? 0) with false. cbn iota beta.
  match goal with |- context [wait_final _ ?x] => change x with
    (mkChan type prefix pdu raw (Some at_response_new) false true proxy (out ++ written c) unsol (S calls)) end.
  by destruct (wait_final _ _) as [[[err|rsp] s]| |].
Qed.

Lemma at_opened_idle proxy : idle_chan (at_opened proxy).
Proof. by split. Qed.

(** ** Properties *)

Lemma command_collects dev command type prefix keep s ls0 groups last fin rc more :
  idle_chan s -> (type = SINGLELINE \/ type = MULTILINE -> is_Some prefix) ->
  dev (at_calls s) = mkAtExchange (Line <$> ls0) true (waits_for groups last fin rc more) ->
  is_final fin = true -> Forall (fun l => is_final l = false) (mjoin groups ++ last) -> rc <> ETIMEDOUT ->
  exists s', at_send_command_full dev command type prefix None keep s
    = Ok ((0, if keep then Some (mkATResponse (b2z (isFinalResponseSuccess fin)) (Some fin)
                                   (responses type prefix (mjoin groups ++ last))) else None), s')
    /\ idle_chan s' /\ at_out s' = at_out s ++ written command
    /\ at_unsol s' = at_unsol s ++ unsolicited (ls0 ++ leftovers type prefix (mjoin groups ++ last)
                                               ++ (if s_atc_proxy s then [fin] else []))
    /\ at_calls s' = S (at_calls s) /\ s_atc_proxy s' = s_atc_proxy s.
Proof.
  intros [H1 H2 H3 H4] Hp Hdev Hf Hls Hrc. destruct s as [ty0 px0 pdu0 raw0 rsp0 cl0 fd0 proxy out unsol calls].
  cbn in H1, H2, H3, H4, Hdev. subst. unfold at_send_command_full, before_command.
  unfold mbind, AT_bind, M_bind, M_get, run_events. cbn [at_calls]. rewrite Hdev. cbn [ax_before].
  rewrite events_idle. cbn [mbind res_bind]. rewrite nolock_written by by rewrite Hdev.
  rewrite Hdev. cbn [ax_waits].
  destruct (wait_final_collects type prefix proxy (out ++ written command) (S calls) Hp groups last fin rc more
    [] (unsol ++ unsolicited ls0) Hf Hls Hrc) as (rsp & E & ->).
  unfold in_flight, at_response_new in *. rewrite E. cbn [is_nil finish]. rewrite collect_fresh.
  cbn [fst snd]. rewrite app_nil_r.
  rewrite reverse_back. eexists. split; [done|].
  split; [by split|]. split; [done|]. cbn. split; [|done].
  unfold unsolicited. rewrite !fmap_app, <- !app_assoc. by destruct proxy.
Qed.

(** C27. A command collects its response.  When the command is written, and lines that are
    not final and then a final response arrive (whatever wakes the caller in between), the
    result is 0 with the final line, whether it means success, and the lines of the kind
    the command asked for, in the order of arrival; every other line that arrived goes to
    the handler of unsolicited lines, so that each line goes to exactly one of them. *)
Theorem at_command_collects dev command type prefix s ls0 groups last fin rc more :
  let ls := mjoin groups ++ last in
  idle_chan s -> (type = SINGLELINE \/ type = MULTILINE -> is_Some prefix) ->
  dev (at_calls s) = mkAtExchange (Line <$> ls0) true (waits_for groups last fin rc more) ->
  is_final fin = true -> Forall (fun l => is_final l = false) ls -> rc <> ETIMEDOUT ->
  exists s' got left, at_send_command_full dev command type prefix None true s
    = Ok ((0, Some (mkATResponse (b2z (isFinalResponseSuccess fin)) (Some fin) got)), s')
    /\ (if decide (type = MULTILINE) then got = filter (fun l => line_matches type prefix l) ls
        else got = take 1 (filter (fun l => line_matches type prefix l) ls))
    /\ got ++ left ≡ₚ ls /\ left `sublist_of` ls
    /\ at_unsol s' = at_unsol s ++ unsolicited (ls0 ++ left ++ (if s_atc_proxy s then [fin] else []))
    /\ at_out s' = at_out s ++ written command /\ idle_chan s'.
Proof.
  intros ls H Hp Hdev Hf Hls Hrc.
  destruct (command_collects dev command type prefix true s ls0 groups last fin rc more)
    as (s' & E & Hi & Ho & Hu & _); [done..|].
  exists s', (responses type prefix ls), (leftovers type prefix ls). split; [exact E|].
  split; [unfold responses; by destruct (decide _)|]. split; [apply responses_leftovers|].
  split; [apply leftovers_sublist|done].
Qed.

Lemma at_command_collects_witness :
  exists s' got left, at_send_command_full
      (fun _ => mkAtExchange [] true (waits_for [[bytes_of_string "+CREG: 1"]]
        [bytes_of_string "+COPS: 0"; bytes_of_string "+CREG: 2"] (bytes_of_string "OK") 0 []))
      (bytes_of_string "AT+COPS?") SINGLELINE (Some (bytes_of_string "+COPS:")) None true (at_opened false)
    = Ok ((0, Some (mkATResponse 1 (Some (bytes_of_string "OK")) got)), s')
    /\ got = [bytes_of_string "+COPS: 0"] /\ at_unsol s' = unsolicited left.
Proof.
  destruct (at_command_collects
      (fun _ => mkAtExchange [] true (waits_for [[bytes_of_string "+CREG: 1"]]
        [bytes_of_string "+COPS: 0"; bytes_of_string "+CREG: 2"] (bytes_of_string "OK") 0 []))
      (bytes_of_string "AT+COPS?") SINGLELINE (Some (bytes_of_string "+COPS:")) (at_opened false) []
      [[bytes_of_string "+CREG: 1"]] [bytes_of_string "+COPS: 0"; bytes_of_string "+CREG: 2"] (bytes_of_string "OK") 0 [])
    as (s' & got & left & E & G & _ & _ & U & _);
    [apply at_opened_idle|by eexists|done|by vm_compute|by repeat constructor|done|].
  exists s', got, left. split; [exact E|]. split; [exact G|]. rewrite U. cbn. by rewrite app_nil_r.
Defined.

(** ** Every command returns *)

(** A command that waits for lines with a prefix has one. *)
Definition flight_ok (s : at_chan) : Prop :=
  s_type s = SINGLELINE \/ s_type s = MULTILINE -> is_Some (s_responsePrefix s).
Definition same_flight (s s' : at_chan) : Prop :=
  s_type s' = s_type s /\ s_responsePrefix s' = s_responsePrefix s
  /\ (is_Some (sp_response s) <-> is_Some (sp_response s')).

Lemma has_prefix_total line s : flight_ok s -> s_type s = SINGLELINE \/ s_type s = MULTILINE ->
  exists b, has_prefix line (s_responsePrefix s) = Ok b.
Proof. intros H Ht. destruct (H Ht) as [p ->]. by eexists. Qed.
Lemma same_flight_refl s : same_flight s s.
Proof. done. Qed.
Lemma process_total line s : flight_ok s -> exists s', processLine line s = Ok s' /\ same_flight s s'.
Proof.
  intros H. unfold processLine. destruct (sp_response s) as [rsp|] eqn:E; [|eexists; split; [done|by split_and!]].
  assert (Hs : forall x, s_type x = s_type s -> s_responsePrefix x = s_responsePrefix s ->
    is_Some (sp_response x) -> same_flight s x).
  { intros x H1 H2 H3. split_and!; [done..|]. by rewrite E; split. }
  assert (Hi : forall b : bool, same_flight s (if b then addIntermediate line rsp s else handleUnsolicited line s)).
  { intros []; apply Hs; try done; change (is_Some (sp_response s)); rewrite E; by eexists. }
  destruct (match s_raw_data s with Some _ => _ | None => _ end) as [raw|].
  { eexists; split; [done|]. apply Hs; unfold writeraw; destruct (negb (s_fd_open s) || s_readerClosed s); try done;
      change (is_Some (sp_response s)); rewrite E; by eexists. }
  destruct (isFinalResponseSuccess line); [|destruct (isFinalResponseError line)].
  1,2: eexists; split; [done|]; apply Hs; destruct (s_atc_proxy s); try done; by eexists.
  destruct (match s_smsPDU s with Some _ => _ | None => _ end) as [pdu|].
  { eexists; split; [done|]. apply Hs; unfold writeCtrlZ; destruct (negb (s_fd_open s) || s_readerClosed s); try done;
      change (is_Some (sp_response s)); rewrite E; by eexists. }
  destruct (s_type s) eqn:Et.
  - eexists; split; [done|]. apply (Hi false).
  - eexists; split; [done|]. apply Hi.
  - destruct (is_nil _); [|eexists; split; [done|]; apply (Hi false)].
    destruct (has_prefix_total line s H) as [b ->]; [by left|]. eexists. split; [done|]. apply Hi.
  - destruct (has_prefix_total line s H) as [b ->]; [by right|]. eexists. split; [done|]. apply Hi.
Qed.
Lemma same_flight_trans s1 s2 s3 : same_flight s1 s2 -> same_flight s2 s3 -> same_flight s1 s3.
Proof. intros (A1 & A2 & A3) (B1 & B2 & B3). split_and!; [congruence..|]. by rewrite A3. Qed.
Lemma same_flight_ok s s' : same_flight s s' -> flight_ok s -> flight_ok s'.
Proof. unfold flight_ok. intros (-> & -> & _). done. Qed.
Lemma events_total es s : flight_ok s -> exists s', at_events es s = Ok s' /\ same_flight s s'.
Proof.
  revert s. induction es as [|e es IH]; intros s H; [by exists s|]. cbn [at_events].
  assert (exists s1, at_event_step e s = Ok s1 /\ same_flight s s1) as (s1 & -> & S1).
  { destruct e; cbn [at_event_step]; [by apply process_total|by eexists..]. }
  destruct (IH s1) as (s2 & E & S2); [by eapply same_flight_ok|]. exists s2. split; [done|]. by eapply same_flight_trans.
Qed.

(** How the wait for the final response can end. *)
Lemma wait_final_total waits s : flight_ok s -> is_Some (sp_response s) ->
  exists r s', wait_final waits s = Ok (r, s')
    /\ match r with
       | inl err => err = AT_ERROR_TIMEOUT
       | inr rsp => is_Some (finalResponse rsp) \/ s_readerClosed s' = true end.
Proof.
  revert s. induction waits as [|[es rc] waits IH]; intros s H [rsp E]; cbn [wait_final]; rewrite E.
  - case_bool_decide as Hf; cbn [orb]; [exists (inr rsp), s; split; [done|by left]|].
    destruct (s_readerClosed s) eqn:Ec; [exists (inr rsp), s; split; [done|by right]|by eexists _, _].
  - case_bool_decide as Hf; cbn [orb]; [exists (inr rsp), s; split; [done|by left]|].
    destruct (s_readerClosed s) eqn:Ec; [exists (inr rsp), s; split; [done|by right]|].
    destruct (events_total es s H) as (s1 & -> & S1). cbn [mbind res_bind].
    destruct (rc =? ETIMEDOUT); [by eexists _, _|]. apply IH; [by eapply same_flight_ok|].
    apply S1. rewrite E. by eexists.
Qed.

Lemma idle_events_total es s : sp_response s = None -> exists s', at_events es s = Ok s' /\ sp_response s' = None.
Proof.
  revert s. induction es as [|e es IH]; intros s H; [by exists s|]. cbn [at_events].
  destruct e; cbn [at_event_step]; [unfold processLine; rewrite H|..]; cbn [mbind res_bind]; by apply IH.
Qed.
Lemma nolock_refused dev c type prefix pdu keep ty0 px0 pdu0 raw cl fd proxy out unsol calls :
  fd && negb cl && ax_write_ok (dev calls) = false ->
  exists err s', at_send_command_full_nolock dev c type prefix pdu keep (mkChan ty0 px0 pdu0 raw None cl fd proxy out unsol calls)
    = Ok ((err, None), s') /\ (sp_response s' = None /\ at_unsol s' = unsol) /\ (err = AT_ERROR_CHANNEL_CLOSED \/ err = AT_ERROR_GENERIC).
Proof.
  intros H. unfold at_send_command_full_nolock, mbind, AT_bind, M_bind, M_get, M_upd.
  match goal with |- context [bool_decide (is_Some ?x)] => change x with (@None ATResponse) end. rewrite bool_decide_false by (by intros [? ?]).
  unfold writeline.
  match goal with |- context [s_fd_open ?x] => change (s_fd_open x) with fd; change (s_readerClosed x) with cl end.
  match goal with |- context [ax_write_ok ?x] => change (ax_write_ok x) with (ax_write_ok (dev calls)) end.
  destruct fd, cl, (ax_write_ok (dev calls)); cbn [negb orb andb] in *; try done;
    (eexists _, _; split; [done|]; auto).
Qed.

Lemma send_total dev command type prefix pdu keep s :
  sp_response s = None -> (type = SINGLELINE \/ type = MULTILINE -> is_Some prefix) ->
  exists err rsp s', at_send_command_full dev command type prefix pdu keep s = Ok ((err, rsp), s')
    /\ sp_response s' = None
    /\ (err = 0 \/ err = AT_ERROR_GENERIC \/ err = AT_ERROR_CHANNEL_CLOSED \/ err = AT_ERROR_TIMEOUT)
    /\ (err = 0 -> s_readerClosed s' = false
          /\ (keep = true -> exists r, rsp = Some r /\ is_Some (finalResponse r))).
Proof.
  intros H Hp. unfold at_send_command_full, before_command, mbind, AT_bind, M_bind, M_get, run_events.
  assert (exists s1, at_events (ax_before (dev (at_calls s))) s = Ok s1 /\ sp_response s1 = None) as (s1 & -> & H1).
  { destruct (idle_events_total (ax_before (dev (at_calls s))) s H) as (s1 & E & H1). by exists s1. }
  cbn [mbind res_bind]. destruct s1 as [ty0 px0 pdu0 raw rsp0 cl fd proxy out unsol calls]. cbn in H1. subst rsp0.
  destruct (fd && negb cl && ax_write_ok (dev calls)) eqn:Eo.
  - apply andb_true_iff in Eo as [Eo Ew]. apply andb_true_iff in Eo as [-> Ec]. apply negb_true_iff in Ec as ->.
    rewrite nolock_written by done.
    edestruct (wait_final_total (ax_waits (dev calls))
      (mkChan type prefix pdu raw (Some at_response_new) false true proxy (out ++ written command) unsol (S calls)))
      as (r & s2 & -> & Hr); [exact Hp|by eexists|].
    destruct r as [err|rsp]; cbn [finish].
    + eexists _, _, _. split; [done|]. split; [done|]. subst err. split; [by auto|]. done.
    + eexists _, _, _. split; [done|]. split; [done|]. destruct (s_readerClosed s2) eqn:Ec.
      * split; [by auto|]. done.
      * split; [by auto|]. intros _. split; [done|]. intros ->. eexists. split; [done|]. by destruct Hr.
  - destruct (nolock_refused dev command type prefix pdu keep ty0 px0 pdu0 raw cl fd proxy out unsol calls Eo)
      as (err & s2 & -> & H2 & He).
    eexists _, _, _. split; [done|]. split; [apply H2|]. split; [by destruct He as [->| ->]; auto|]. by destruct He as [->| ->].
Qed.

(** C38. Every command returns.  Whatever lines, SMS and end of the channel the reader
    thread reports before and during the command, whether it can be written or not, and
    however the waits end, a command returns with 0, a failed write, a closed channel or
    a time-out, and leaves no command pending; it returns 0 only with the channel open,
    and the response it then gives has its final line. *)
Theorem at_send_total dev command type prefix pdu keep s :
  sp_response s = None -> (type = SINGLELINE \/ type = MULTILINE -> is_Some prefix) ->
  exists err rsp s', at_send_command_full dev command type prefix pdu keep s = Ok ((err, rsp), s')
    /\ sp_response s' = None
    /\ (err = 0 \/ err = AT_ERROR_GENERIC \/ err = AT_ERROR_CHANNEL_CLOSED \/ err = AT_ERROR_TIMEOUT)
    /\ (err = 0 -> s_readerClosed s' = false
          /\ (keep = true -> exists r, rsp = Some r /\ is_Some (finalResponse r))).
Proof. apply send_total. Qed.
Lemma at_send_total_witness :
  exists err rsp s', at_send_command_full (fun _ => mkAtExchange [] true [([Line [65]; ReaderClosed], 0)])
      [65; 84] SINGLELINE (Some [43]) None true (at_opened false) = Ok ((err, rsp), s')
    /\ sp_response s' = None /\ err = AT_ERROR_CHANNEL_CLOSED.
Proof.
  destruct (at_send_total (fun _ => mkAtExchange [] true [([Line [65]; ReaderClosed], 0)])
    [65; 84] SINGLELINE (Some [43]) None true (at_opened false)) as (err & rsp & s' & E & H & _); [done|by eexists|].
  exists err, rsp, s'. split; [exact E|]. split; [exact H|]. vm_compute in E. by injection E as <-.
Defined.
