(* ===== verification/Atc.v ===== *)
(** The AT connection manager (atc.c): start-up, unsolicited results, and the request
    operations that the main loop uses when the modem is driven by AT commands
    ([atc_ops_table] is an instance of the interface of CmMain).

    Tokens and lines are values; [safe_at_response_free] has no counterpart. *)
From S2P Require Import Prelude CmTypes QmiThread QmiRequests CmArgs CmMain AtTok AtChannel.
#[local] Open Scope Z_scope.

Definition CME_OPERATION_NOT_ALLOWED : Z := 3.
Definition CME_SIM_NOT_INSERTED : Z := 10.
Definition CME_FAILURE : Z := 13.

(** The statics of atc.c, the channel, the events sent to the main thread, and what is
    done outside the program: shell commands, and seconds slept. *)
Inductive at_effect := System (cmd : cstr) | Sleep (seconds : Z).
Record atc := mkAtc {
  ac_chan : at_chan; asr_style_atc : Z; s_pdp : Z; donot_exit : Z;
  ac_events : list dev_event; ac_effects : list at_effect }.

Definition AM (A : Type) : Type := M (rq atc) A.
#[export] Instance AM_ret : MRet AM := @M_ret (rq atc).
#[export] Instance AM_bind : MBind AM := @M_bind (rq atc).

(** [onUnsolicited] *)
Definition onUnsolicited (s : cstr) : list dev_event :=
  if strStartsWith s (bytes_of_string "+QNETDEVSTATUS:") then [Report RIL_UNSOL_DATA_CALL_LIST_CHANGED]
  else if strStartsWith s (bytes_of_string "+CGREG:") || strStartsWith s (bytes_of_string "+CEREG:")
          || strStartsWith s (bytes_of_string "+C5GREG:")
       then [Report RIL_UNSOL_RESPONSE_VOICE_NETWORK_STATE_CHANGED]
       else [].
(** A command on the channel; the handler runs on the lines that are not part of it. *)
Definition on_chan {A} (m : AT A) : AM A := fun s =>
  let w := rq_w s in
  match m (ac_chan w) with
  | Ok (a, c) =>
      let fresh := drop (length (at_unsol (ac_chan w))) (at_unsol c) in
      Ok (a, s <| rq_w := w <| ac_chan := c |> <| ac_events := ac_events w ++ (fresh ≫= fun l => onUnsolicited l.1) |> |>)
  | Fault => Fault | OutOfFuel => OutOfFuel
  end.
Definition getw : AM atc := fun s => Ok (rq_w s, s).
Definition updw (f : atc -> atc) : AM unit := M_upd (fun s => s <| rq_w := f (rq_w s) |>).
Definition getprof : AM PROFILE_T := fun s => Ok (rq_p s, s).
Definition updprof (f : PROFILE_T -> PROFILE_T) : AM unit := M_upd (fun s => s <| rq_p := f (rq_p s) |>).
Definition at_effect_ (e : at_effect) : AM unit := updw (fun w => w <| ac_effects := ac_effects w ++ [e] |>).
Definition event_to_main (e : cm_event) : AM unit := updw (fun w => w <| ac_events := ac_events w ++ [Report e] |>).

Definition at_response_error (err : Z) (p_response : option ATResponse) : bool :=
  truth err || match p_response with
               | None => true
               | Some r => negb (bool_decide (is_Some (finalResponse r))) || (success r =? 0) end.
(** [p_response->p_intermediates->line] *)
Definition first_of (p_response : option ATResponse) : res cstr :=
  of_option (r ← p_response; head (p_intermediates r)).
Definition lines_in (p_response : option ATResponse) : list cstr :=
  match p_response with Some r => p_intermediates r | None => [] end.

(** Commands are put together with [asprintf]. *)
Definition B (s : string) : cstr := bytes_of_string s.
Definition quoted (s : cstr) : cstr := QUOTE :: s ++ [QUOTE].

Section Atc.
Context (dev : nat -> at_exchange).

Definition reply : Type := Z * option ATResponse.
Definition send_at (cmd : cstr) (keep : bool) : AM reply := on_chan (at_send_command dev cmd keep).
Definition singleline (cmd prefix : cstr) (keep : bool) : AM reply := on_chan (at_send_command_singleline dev cmd prefix keep).
Definition multiline (cmd prefix : cstr) (keep : bool) : AM reply := on_chan (at_send_command_multiline dev cmd prefix keep).

(** ** Start-up *)
Definition query_netdevstatus : AM Z :=
  r ← singleline (B "AT+QNETDEVSTATUS=?") (B "+QNETDEVSTATUS:") true;
  _ ← (if at_response_error r.1 r.2 then updw (fun w => w <| asr_style_atc := 1 |>) else mret tt);
  mret r.1.
Definition AT_QCFG_NAT : cstr := B "AT+QCFG=" ++ quoted (B "NAT").
(** The NAT setting is brought in line with the style of the modem, which then restarts. *)
Definition check_nat : AM Z :=
  r ← singleline AT_QCFG_NAT (B "+QCFG:") true;
  if at_response_error r.1 r.2 then mret r.1
  else
    w ← getw;
    let new_nat := b2z (truth (asr_style_atc w)) in
    l ← (M_lift (first_of r.2) : AM cstr);
    let '(err, outs) := at_tok_scanf (Some l) "%s%d" in
    _ ← (if (err =? 2) && negb (bool_decide (outs !! 1%nat = Some (Some (SInt new_nat)))) then
           r ← send_at (AT_QCFG_NAT ++ COMMA :: show_int new_nat) true;
           if at_response_error r.1 r.2 then mret tt
           else r ← send_at (B "at+cfun=1,1") false;
                if truth r.1 then mret tt else updw (fun w => w <| donot_exit := 1 |>)
         else mret tt);
    mret 0.
Definition atc_init : AM Z :=
  p ← getprof;
  if nonnil (proxy p) then
    _ ← updw (fun w => w <| s_pdp := pdp p |>); query_netdevstatus
  else
    err ← on_chan (at_handshake dev);
    if truth err then mret err
    else
      _ ← updw (fun w => w <| s_pdp := pdp p |>);
      _ ← singleline (B "AT+QCFG=" ++ quoted (B "usbnet")) (B "+QCFG:") false;
      _ ← multiline (B "AT+QNETDEVCTL=?") (B "+QNETDEVCTL:") false;
      _ ← send_at (B "AT+CGREG=2") false;
      _ ← send_at (B "AT+CEREG=2") false;
      _ ← send_at (B "AT+C5GREG=2") false;
      _ ← query_netdevstatus;
      check_nat.
Definition atc_deinit : AM Z := mret 0.

(** ** [atc_read_thread]

    What [poll] returns: a time-out, an error, or for the port and for the pipe from the
    main thread whether there is an error or a hang-up; the port being readable only makes
    the thread sleep.  [pl_request] is the event that was read from the pipe. *)
Inductive pipe_event := RIL_REQUEST_QUIT | PIPE_SIG_EVENT_STOP | OtherEvent.
Inductive atc_poll := PollTimeout | PollFailed | PollReady (atc_bad ctl_bad : bool) (pl_request : option pipe_event).
Inductive thread_note := RIL_INDICATE_DEVICE_CONNECTED | Note (e : dev_event).
(** Whether the thread leaves its loop; [None] is the wait in [poll] after the script. *)
Fixpoint atc_poll_loop (polls : list atc_poll) (wait_for_request_quit : bool) : option unit :=
  match polls with
  | [] => None
  | PollTimeout :: polls => if wait_for_request_quit then Some tt else atc_poll_loop polls wait_for_request_quit
  | PollFailed :: _ => Some tt
  | PollReady atc_bad ctl_bad request :: polls =>
      if atc_bad || ctl_bad then Some tt
      else match request with
           | Some RIL_REQUEST_QUIT => Some tt
           | Some PIPE_SIG_EVENT_STOP => atc_poll_loop polls true
           | _ => atc_poll_loop polls wait_for_request_quit
           end
  end.
(** [atc_fd] is what [cm_open_dev] returns.  The channel after the thread, and what it
    told the main thread; the lines the channel gets meanwhile are those of the commands. *)
Definition atc_read_thread (atc_fd : Z) (polls : list atc_poll) (c : at_chan) : option (at_chan * list thread_note) :=
  if atc_fd <=? 0 then Some (at_close c, [Note RIL_INDICATE_DEVICE_DISCONNECTED])
  else
    let c := at_open false c in
    _ ← atc_poll_loop polls false;
    Some (at_close c, [RIL_INDICATE_DEVICE_CONNECTED; Note RIL_INDICATE_DEVICE_DISCONNECTED]).

(** ** Version, SIM *)
Definition requestBaseBandVersion_at : AM Z :=
  r ← multiline (B "AT+CGMR") [] true;
  if at_response_error r.1 r.2 then mret (-1)
  else match lines_in r.2 with
       | l :: _ => _ ← updprof (fun p => p <| BaseBandVersion := take 63 l |>); mret 0
       | [] => mret (-1)
       end.

(** What [*pSIMStatus] holds is [old] when it is not set. *)
Definition cpin_status (line : cstr) : option Z :=
  let r := at_tok_start (Some line) in
  if r.1 <? 0 then Some SIM_NOT_READY
  else
    let '(err, tok, _) := at_tok_nextstr r.2 in
    if err <? 0 then Some SIM_NOT_READY
    else
      let t := default [] tok in
      if decide (t = B "SIM PIN") then Some SIM_PIN
      else if decide (t = B "SIM PUK") then Some SIM_PUK
      else if decide (t = B "PH-NET PIN") then None
      else if decide (t = B "READY") then Some SIM_READY else Some SIM_ABSENT.
Definition requestGetSIMStatus_at (old : Z) : AM (Z * Z) :=
  r ← singleline (B "AT+CPIN?") (B "+CPIN:") true;
  let err := r.1 in
  if at_response_error err r.2 then mret (err, SIM_NOT_READY)
  else
    let cme := at_get_cme_error r.2 in
    if cme =? CME_SUCCESS then
      l ← (M_lift (first_of r.2) : AM cstr);
      (* the result variable is that of the last tokenizer call, which is 0 or negative *)
      let tok := at_tok_start (Some l) in
      match cpin_status l with
      | Some st => mret (if tok.1 <? 0 then tok.1 else (at_tok_nextstr tok.2).1.1, st)
      | None => mret (SIM_NETWORK_PERSONALIZATION, old)
      end
    else if (cme =? CME_SIM_NOT_INSERTED) || (cme =? CME_OPERATION_NOT_ALLOWED) || (cme =? CME_FAILURE)
         then mret (err, SIM_ABSENT)
         else mret (err, SIM_NOT_READY).

(** The response is not asked for, so [at_response_error] looks at NULL. *)
Definition requestEnterSimPin_at (pin : cstr) : AM Z :=
  r ← send_at (B "AT+CPIN=" ++ pin) false;
  mret (if at_response_error r.1 None then -1 else 0).

(** ** Profile *)
Definition ipStr : list cstr := [B "NULL"; B "IPV4"; B "IPV6"; B "IPV4V6"].
Definition ip_name (iptype : Z) : res cstr :=
  if (0 <=? iptype) && (iptype <? 4) then of_option (ipStr !! Z.to_nat iptype) else Fault.
Definition same_profile (p : PROFILE_T) : bool :=
  bool_decide (old_apn p = default [] (apn p)) && bool_decide (old_user p = default [] (user p))
  && bool_decide (old_password p = default [] (password p)) && (old_iptype p =? iptype p) && (old_auth p =? auth p).
Definition qicsgp_set (p : PROFILE_T) : cstr :=
  B "AT+QICSGP=" ++ show_int (pdp p) ++ COMMA :: show_int (iptype p) ++ COMMA :: quoted (default [] (apn p))
  ++ COMMA :: quoted (default [] (user p)) ++ COMMA :: quoted (default [] (password p))
  ++ COMMA :: show_int (auth p).
Definition requestSetProfile_at : AM Z :=
  p ← getprof;
  name ← (M_lift (ip_name (iptype p)) : AM cstr);
  if same_profile p then mret 0
  else
    r ← send_at (qicsgp_set p) true;
    _ ← (if at_response_error r.1 r.2 then
           _ ← send_at (B "AT+CGDCONT=" ++ show_int (pdp p) ++ COMMA :: quoted name
                        ++ COMMA :: quoted (default [] (apn p))) true; mret tt
         else mret tt);
    mret 1.

(** The answer to the query, after the default context has been created for a modem that
    answers without a line; nothing bounds the repetition. *)
Fixpoint qicsgp_query (fuel : nat) : AM reply :=
  match fuel with
  | O => fun _ => OutOfFuel
  | S fuel =>
      p ← getprof;
      r ← singleline (B "AT+QICSGP=" ++ show_int (pdp p)) (B "+QICSGP:") true;
      if (r.1 =? AT_ERROR_INVALID_RESPONSE) && bool_decide (r.2 = None) then
        r2 ← send_at (B "AT+QICSGP=" ++ show_int (pdp p) ++ COMMA :: show_int (iptype p)
                      ++ COMMA :: quoted [] ++ COMMA :: quoted [] ++ COMMA :: quoted [] ++ COMMA :: [48]) true;
        if at_response_error r2.1 r2.2 then mret r2 else qicsgp_query fuel
      else mret r
  end.
(** The locals of [requestGetProfile]. *)
Record context := mkContext { c_apn : option cstr; c_user : option cstr; c_password : option cstr; c_auth : Z; c_iptype : Z }.
Definition context_init : context := mkContext (Some []) (Some []) (Some []) 0 1.
(** Five fields are asked for and four expected; only then is [pdp], which nothing has
    set, compared. *)
Definition qicsgp_fields (line : cstr) : res (Z * context) :=
  let '(err, o) := at_tok_scanf (Some line) "%d%s%s%s%d" in
  let c := mkContext (str_at 1 (Some []) o) (str_at 2 (Some []) o) (str_at 3 (Some []) o) (int_at 4 0 o) (int_at 0 1 o) in
  if negb (err =? 4) then mret (-1, c) else Fault.
Fixpoint cgdcont_lines (pdp : Z) (ls : list cstr) (c : context) : res context :=
  match ls with
  | [] => mret c
  | l :: ls =>
      let '(err, o) := at_tok_scanf (Some l) "%d%s%s" in
      if (err =? 3) && (match o !! 0%nat with Some (Some (SInt z)) => z =? pdp | _ => false end) then
        ty ← of_option (str_at 1 None o);
        mret (mkContext (str_at 2 (c_apn c) o) (c_user c) (c_password c) (c_auth c)
               (if strcasecmp_eq ty "IPV4V6" then 3 else if strcasecmp_eq ty "IPV6" then 2 else 1))
      else cgdcont_lines pdp ls (mkContext None (c_user c) (c_password c) (c_auth c) (c_iptype c))
  end.
(** [strncpy] of a text that fills the field leaves no NUL in it. *)
Definition field64 (s : option cstr) : res cstr :=
  let s := default [] s in if (length s <? 64)%nat then mret s else Fault.
Definition store_context (c : context) : AM unit :=
  a ← (M_lift (field64 (c_apn c)) : AM cstr);
  u ← (M_lift (field64 (c_user c)) : AM cstr);
  w ← (M_lift (field64 (c_password c)) : AM cstr);
  _ ← updprof (fun p => p <| old_apn := a |> <| old_user := u |> <| old_password := w |>
                          <| old_auth := c_auth c |> <| old_iptype := c_iptype c |>);
  _ ← (M_lift (ip_name (c_iptype c)) : AM cstr); mret tt.
Definition requestGetProfile_at (fuel : nat) : AM Z :=
  _ ← updprof (fun p => p <| iptype := if truth (enable_ipv4 p) && truth (enable_ipv6 p) then 3
                                       else if truth (enable_ipv6 p) then 2 else 1 |>);
  p ← getprof;
  r ← qicsgp_query fuel;
  x ← (if negb (at_response_error r.1 r.2) then
         l ← (M_lift (first_of r.2) : AM cstr); M_lift (qicsgp_fields l)
       else
         r ← multiline (B "AT+CGDCONT?") (B "+CGDCONT:") true;
         if at_response_error r.1 r.2 then mret (-1, context_init)
         else c ← (M_lift (cgdcont_lines (pdp p) (lines_in r.2) context_init) : AM context); mret (0, c));
  _ ← store_context x.2;
  mret x.1.

(** ** Registration *)

(** The command that asks the registration of an access technology. *)
Definition reg_command (cops_act : Z) : option (cstr * cstr) :=
  if bool_decide (cops_act ∈ [2; 4; 5; 6]) then Some (B "AT+CGREG?", B "+CGREG:")
  else if bool_decide (cops_act ∈ [7; 13]) then Some (B "AT+CEREG?", B "+CEREG:")
  else if bool_decide (cops_act ∈ [10; 11; 12]) then Some (B "AT+C5GREG?", B "+C5GREG:")
  else None.
(** [state] of a line, by the number of its commas; [None] is [goto error].  For two
    commas there are three conversions and four arguments, the first of them NULL. *)
Definition reg_state (line : cstr) : option Z :=
  let commas := at_tok_count (Some line) in
  let scan (fmt : string) (n : Z) :=
    let '(err, o) := at_tok_scanf (Some line) fmt in if err =? n then Some (int_at 1 0 o) else None in
  if commas =? 0 then
    let '(err, out, _) := at_tok_nextint (Some line) in if err <? 0 then None else Some (default 0 out)
  else if commas =? 1 then scan "%d%d" 2
  else if commas =? 2 then scan "%d%x%x" 3
  else if commas =? 3 then scan "%d%d%x%x" 4
  else if (4 <=? commas) && (commas <=? 7) then scan "%d%d%x%x%d" 5
  else None.
Definition COPS_QUERY : cstr := B "AT+COPS=3,0;+COPS?;+COPS=3,1;+COPS?;+COPS=3,2;+COPS?".
Definition requestRegistrationState_at (_ : Z) : AM (Z * Z) :=
  r ← multiline COPS_QUERY (B "+COPS:") true;
  if at_response_error r.1 r.2 then mret (-1, 0)
  else
    let cops_act :=
      match lines_in r.2 with
      | [] => Some (-1)
      | l :: _ => let '(err, o) := at_tok_scanf (Some l) "%d%d%s%d" in
                  if err =? 4 then Some (int_at 3 (-1) o) else None
      end in
    match (a ← cops_act; reg_command a) with
    | None => mret (0, 0)
    | Some (cmd, prefix) =>
        r ← singleline cmd prefix true;
        if at_response_error r.1 r.2 then mret (0, 0)
        else match lines_in r.2 with
             | [] => mret (0, 0)
             | l :: _ => mret (0, match reg_state l with
                                  | Some st => b2z ((st =? 1) || (st =? 5)) | None => 0 end)
             end
    end.

(** ** Data calls *)

(** The state of context [pdp] in the lines of AT+CGACT?, 0 if it is not among them;
    [cid] keeps its value when a line has none. *)
Fixpoint cgact_state (pdp : Z) (ls : list cstr) (cid : Z -> Z) (last : Z) : Z :=
  match ls with
  | [] => 0
  | l :: ls =>
      let '(_, o) := at_tok_scanf (Some l) "%d%d" in
      let c := int_at 0 (cid last) o in
      if c =? pdp then int_at 1 0 o else cgact_state pdp ls cid c
  end.
Definition QNETDEVSTATUS_of (pdp : Z) : cstr := B "AT+QNETDEVSTATUS=" ++ show_int pdp.
(** At most [n] attempts, a second apart; the result is [err]. *)
Fixpoint wait_netdev (n : nat) (pdp err : Z) : AM Z :=
  match n with
  | O => mret err
  | S n =>
      r ← singleline (QNETDEVSTATUS_of pdp) (B "+QNETDEVSTATUS") true;
      if truth r.1 then mret r.1
      else if at_response_error r.1 r.2 then _ ← at_effect_ (Sleep 1); wait_netdev n pdp r.1
      else mret r.1
  end.
(** The command that starts ([on = 1]) or ends the call; the styles differ in the order. *)
Definition netdevctl (asr : bool) (pdp on last : Z) : cstr :=
  B "AT+QNETDEVCTL=" ++
  (if asr then show_int on ++ COMMA :: show_int pdp else show_int pdp ++ COMMA :: show_int on)
  ++ COMMA :: show_int last.
Definition requestSetupDataCall_at (curIpFamily : Z) : AM Z :=
  p ← getprof;
  _ ← (if strStartsWith (BaseBandVersion p) (B "RG801H") || strStartsWith (BaseBandVersion p) (B "EC200H")
       then at_effect_ (System (B "ifconfig " ++ usbnet_adapter p ++ B " up")) else mret tt);
  w ← getw;
  let asr := truth (asr_style_atc w) in
  pre ← (if asr then
           r ← multiline (B "AT+CGACT?") (B "+CGACT:") true;
           if at_response_error r.1 r.2 then mret (Some r.1)
           else if cgact_state (pdp p) (lines_in r.2) (fun _ => 0) 0 =? 0 then
                  r ← send_at (B "AT+CGACT=1," ++ show_int (pdp p)) true;
                  mret (if at_response_error r.1 r.2 then Some r.1 else None)
                else mret None
         else mret None);
  match (pre : option Z) with
  | Some err => mret err
  | None =>
      r ← send_at (netdevctl asr (pdp p) 1 1) true;
      if at_response_error r.1 r.2 then mret r.1
      else
        err ← (if asr then mret r.1 else wait_netdev 15 (pdp p) r.1);
        if negb asr && truth err then mret err
        else _ ← event_to_main RIL_UNSOL_DATA_CALL_LIST_CHANGED; mret err
  end.

(** [sscanf("%d.%d.%d.%d")] and [sscanf("%02X%02X%02X%02X")]: the numbers before the
    first mismatch, the others stay 0. *)
Fixpoint after_digits (base : Z) (s : cstr) : cstr :=
  match s with c :: s' => if bool_decide (is_Some (digit_in base c)) then after_digits base s' else s | [] => [] end.
Definition after_sign (s : cstr) : cstr :=
  match s with c :: s' => if (c =? MINUS) || (c =? 43) then s' else s | [] => [] end.
Fixpoint scan_dotted (n : nat) (s : cstr) : list Z :=
  match n with
  | O => []
  | S n =>
      match strtol 10 s with
      | None => replicate (S n) 0
      | Some v =>
          match after_digits 10 (after_sign (skip_space s)) with
          | 46 :: rest => s32 v :: scan_dotted n rest
          | _ => s32 v :: replicate n 0
          end
      end
  end.
(** Two characters at most for each number (without signs, which no modem sends). *)
Fixpoint scan_hex2 (n : nat) (s : cstr) : list Z :=
  match n with
  | O => []
  | S n =>
      let s := skip_space s in
      let d := take (length (take 2 s) - length (after_digits 16 (take 2 s))) s in
      match d with
      | [] => replicate (S n) 0
      | _ => strto_digits 16 0 d :: scan_hex2 n (drop (length d) s)
      end
  end.
Definition addr_of (a : list Z) : Z :=
  let x i := default 0 (a !! i) in
  u32 (Z.lor (Z.lor (Z.lor (x 0%nat) (Z.shiftl (x 1%nat) 8)) (Z.shiftl (x 2%nat) 16)) (Z.shiftl (x 3%nat) 24)).
Definition ipv4_of_text (t : cstr) : Z :=
  if bool_decide (46 ∈ t) then addr_of (scan_dotted 4 t) else addr_of (reverse (scan_hex2 4 t)).
Definition at_netdevstatus (pdp : Z) : AM Z :=
  r ← singleline (QNETDEVSTATUS_of pdp) (B "+QNETDEVSTATUS") true;
  if at_response_error r.1 r.2 then mret 0
  else match lines_in r.2 with
       | [] => mret 0
       | l :: _ =>
           let '(err, o) := at_tok_scanf (Some l) "%s%s%s%s%s%s%s%s%s%s" in
           mret (if 0 <? err then
                   match str_at 0 None o with Some (c :: t) => ipv4_of_text (c :: t) | _ => 0 end
                 else 0)
       end.

(** The lines of AT+QNETDEVCTL?: [bind] and [state] are those of the last line that was
    read, whichever context it is about.  ([cid] has no initial value, but [state] is not
    zero only after a line has set it.) *)
Fixpoint netdevctl_lines (pdp : Z) (ls : list cstr) (bind state cid : Z) : Z * Z * Z :=
  match ls with
  | [] => (bind, state, cid)
  | l :: ls =>
      let '(err, o) := at_tok_scanf (Some l) "%d%d%d%d" in
      let bind := int_at 0 bind o in
      let state := int_at 3 state o in
      let cid := int_at 1 cid o in
      if (err =? 4) && (cid =? pdp) then netdevctl_lines pdp ls (if bind =? 1 then 1 else 0) state cid
      else netdevctl_lines pdp ls bind state cid
  end.
Definition requestQueryDataCall_at (_ curIpFamily : Z) : AM (Z * Z) :=
  w ← getw;
  let pdp := s_pdp w in
  if negb (truth (asr_style_atc w)) then
    v4 ← at_netdevstatus pdp;
    mret (0, if truth v4 then QWDS_PKT_DATA_CONNECTED else QWDS_PKT_DATA_DISCONNECTED)
  else
    r ← multiline (B "AT+QNETDEVCTL?") (B "+QNETDEVCTL:") true;
    if at_response_error r.1 r.2 then mret (0, QWDS_PKT_DATA_DISCONNECTED)
    else
      let '(bind, state, cid) := netdevctl_lines pdp (lines_in r.2) 0 0 0 in
      if negb (truth bind) || negb (truth state) then mret (0, QWDS_PKT_DATA_DISCONNECTED)
      else
        r ← multiline (B "AT+CGACT?") (B "+CGACT:") true;
        if at_response_error r.1 r.2 then mret (0, QWDS_PKT_DATA_DISCONNECTED)
        else
          let state := cgact_state pdp (lines_in r.2) (fun c => c) cid in
          mret (0, if truth bind && truth state then QWDS_PKT_DATA_CONNECTED else QWDS_PKT_DATA_DISCONNECTED).
Definition requestDeactivateDefaultPDP_at (curIpFamily : Z) : AM Z :=
  p ← getprof; w ← getw;
  _ ← send_at (netdevctl (truth (asr_style_atc w)) (pdp p) 0 0) false; mret 0.

(** ** Addresses *)
Fixpoint cgpaddr_lines (want pdp : Z) (ls : list cstr) : Z :=
  match ls with
  | [] => 0
  | l :: ls =>
      let '(err, o) := at_tok_scanf (Some l) "%d%s%s" in
      let pdp := int_at 0 pdp o in
      if (err <? 2) || negb (pdp =? want) then cgpaddr_lines want pdp ls
      else match str_at 1 None o with
           | Some t => addr_of (scan_dotted 4 t)
           | None => cgpaddr_lines want pdp ls
           end
  end.
Definition requestGetIPAddress_at (curIpFamily : Z) : AM Z :=
  p ← getprof; w ← getw;
  v4 ← (if negb (truth (asr_style_atc w)) then at_netdevstatus (pdp p)
        else
          r ← singleline (B "AT+CGPADDR=" ++ show_int (pdp p)) (B "+CGPADDR:") true;
          mret (if at_response_error r.1 r.2 then 0 else cgpaddr_lines (pdp p) (pdp p) (lines_in r.2)));
  _ ← (if truth v4 && negb (v4_Address (ipv4 p) =? v4)
       then updprof (fun p => p <| ipv4 := (ipv4 p) <| v4_Address := v4 |> |>) else mret tt);
  mret (if truth v4 then 0 else -1).

(** ** Reports for the log: what is left is the commands and the results *)

(** Whether a line of the serving cell names the non-standalone mode; a token that is
    missing there is an uninitialised pointer. *)
Definition qeng_nsa (line : cstr) : res bool :=
  let '(err, o) := at_tok_scanf (Some line) "%s%s" in
  if negb (err =? 2) then mret false
  else
    ty ← of_option (str_at 0 None o);
    if negb (strcmp_eq ty "servingcell") then mret false
    else
      st ← of_option (str_at 1 None o);
      if strcmp_eq st "SEARCH" || strcmp_eq st "LIMSRV" then mret false
      else if strcmp_eq st "NOCONN" || strcmp_eq st "CONNECT" then
        let '(err, o) := at_tok_scanf (Some line) "%s%s%s" in
        if negb (err =? 3) then mret false
        else rat ← of_option (str_at 2 None o); mret (strcmp_eq rat "NR5G-NSA")
      else mret (strcmp_eq st "NR5G-NSA").
Fixpoint any_nsa (ls : list cstr) : res bool :=
  match ls with [] => mret false | l :: ls => a ← qeng_nsa l; b ← any_nsa ls; mret (a || b) end.
Definition requestGetSignalInfo_at : AM Z :=
  r ← singleline (B "at+cops?") (B "+COPS:") true;
  if at_response_error r.1 r.2 then mret (-1)
  else match lines_in r.2 with
       | [] => mret (-1)
       | l :: _ =>
           if negb ((at_tok_scanf (Some l) "%d%d%s%d").1 =? 4) then mret 0
           else
             r ← multiline (B "at+qeng=" ++ quoted (B "servingcell")) (B "+QENG:") true;
             if at_response_error r.1 r.2 then mret 0
             else
               nsa ← (M_lift (any_nsa (lines_in r.2)) : AM bool);
               _ ← (if nsa : bool then _ ← multiline (B "at+qendc") (B "+QENDC:") true; mret tt else mret tt);
               mret 0
       end.
Definition requestGetICCID_at : AM Z :=
  r ← singleline (B "AT+QCCID") (B "+QCCID:") true;
  if at_response_error r.1 r.2 then mret (-1)
  else match lines_in r.2 with
       | [] => mret (-1)
       | l :: _ =>
           let '(err, o) := at_tok_scanf (Some l) "%s" in
           if err =? 1 then
             t ← (M_lift (of_option (str_at 0 None o)) : AM cstr); mret (if is_nil t then -1 else 0)
           else mret (-1)
       end.
Definition requestGetIMSI_at : AM Z :=
  r ← on_chan (at_send_command_numeric dev (B "AT+CIMI") true);
  mret (if at_response_error r.1 r.2 then -1 else match lines_in r.2 with [] => -1 | _ => 0 end).

(** [atc_request_ops], with [atc_dev_ops.deinit]; [fuel] is that of [requestGetProfile]. *)
Definition atc_ops_table (fuel : nat) : request_table atc :=
  {| op_BaseBandVersion := Some requestBaseBandVersion_at;
     op_SetEthMode := None; op_SetLoopBackState := None;
     op_GetSIMStatus := Some requestGetSIMStatus_at;
     op_EnterSimPin := Some requestEnterSimPin_at;
     op_SetProfile := Some requestSetProfile_at;
     op_GetProfile := Some (requestGetProfile_at fuel);
     op_RegistrationState := requestRegistrationState_at;
     op_SetupDataCall := requestSetupDataCall_at;
     op_QueryDataCall := requestQueryDataCall_at;
     op_DeactivateDefaultPDP := requestDeactivateDefaultPDP_at;
     op_GetIPAddress := requestGetIPAddress_at;
     op_GetSignalInfo := Some requestGetSignalInfo_at;
     op_GetCellInfoList := None;
     op_GetICCID := Some requestGetICCID_at; op_GetIMSI := Some requestGetIMSI_at;
     op_GetCoexWWANState := None;
     op_deinit := Some atc_deinit |}.
End Atc.
