(* ===== verification/AtcSpec.v ===== *)
(** Properties of the AT connection manager: what the requests make of the answers of the
    modem. *)
From S2P Require Import Prelude CmTypes QmiThread QmiRequests CmArgs CmMain AtTok AtTokSpec AtChannel AtChannelSpec Atc.
#[local] Open Scope Z_scope.

(** ** One command of a request *)

(** The [k]th command is written and answered with lines that are not final and a final one. *)
Definition replies (dev : nat -> at_exchange) (k : nat) (ls : list cstr) (fin : cstr) : Prop :=
  dev k = mkAtExchange [] true [(Line <$> (ls ++ [fin]), 0)]
  /\ is_final fin = true /\ Forall (fun l => is_final l = false) ls.
Definition at_ready (s : rq atc) : Prop := idle_chan (ac_chan (rq_w s)) /\ s_atc_proxy (ac_chan (rq_w s)) = false.
Definition calls (s : rq atc) : nat := at_calls (ac_chan (rq_w s)).
Definition commands (s : rq atc) : list (list Z) := at_out (ac_chan (rq_w s)).

(** What a command changes: the channel, and the events of the lines that are not its own. *)
Record sent (s s' : rq atc) (cmd : cstr) (left : list cstr) : Prop := {
  sent_ready : at_ready s';
  sent_profile : rq_p s' = rq_p s;
  sent_calls : calls s' = S (calls s);
  sent_out : commands s' = commands s ++ written cmd;
  sent_asr : asr_style_atc (rq_w s') = asr_style_atc (rq_w s);
  sent_pdp : s_pdp (rq_w s') = s_pdp (rq_w s);
  sent_effects : ac_effects (rq_w s') = ac_effects (rq_w s);
  sent_events : ac_events (rq_w s') = ac_events (rq_w s) ++ (left ≫= onUnsolicited) }.

Lemma unsolicited_events ls : (unsolicited ls ≫= fun l => onUnsolicited l.1) = ls ≫= onUnsolicited.
Proof. induction ls as [|l ls IH]; [done|]. exact (f_equal (app (onUnsolicited l)) IH). Qed.

Lemma on_chan_full dev cmd type prefix keep s ls fin :
  at_ready s -> (type = SINGLELINE \/ type = MULTILINE -> is_Some prefix) -> replies dev (calls s) ls fin ->
  exists s', on_chan (at_send_command_full dev cmd type prefix None keep) s
    = Ok ((0, if keep then Some (mkATResponse (b2z (isFinalResponseSuccess fin)) (Some fin) (responses type prefix ls)) else None), s')
    /\ sent s s' cmd (leftovers type prefix ls).
Proof.
  intros [Hi Hx] Hp (Hd & Hf & Hls).
  destruct (command_collects dev cmd type prefix keep (ac_chan (rq_w s)) [] [] ls fin 0 [])
    as (c & E & Hi' & Ho & Hu & Hc & Hx'); [done..|].
  unfold on_chan. rewrite E. eexists. split; [done|]. cbn [mjoin list_join app] in *.
  rewrite Hx, app_nil_r in Hu. rewrite Hx in Hx'.
  split; try done. cbn. by rewrite Hu, drop_app_length, unsolicited_events.
Qed.

Lemma on_chan_map {A B} (m : AT A) (f : A -> B) s :
  on_chan (x ← m; mret (f x)) s = match on_chan m s with Ok (x, s') => Ok (f x, s') | Fault => Fault | OutOfFuel => OutOfFuel end.
Proof. unfold on_chan, mbind, AT_bind, M_bind. by destruct (m (ac_chan (rq_w s))) as [[x c]| |]. Qed.

Definition answer_of (type : ATCommandType) (prefix : cstr) (ls : list cstr) (fin : cstr) : ATResponse :=
  mkATResponse (b2z (isFinalResponseSuccess fin)) (Some fin) (responses type (Some prefix) ls).
Lemma send_at_replies dev cmd keep s ls fin : at_ready s -> replies dev (calls s) ls fin ->
  exists s', send_at dev cmd keep s
    = Ok ((0, if keep then Some (mkATResponse (b2z (isFinalResponseSuccess fin)) (Some fin) []) else None), s') /\ sent s s' cmd ls.
Proof.
  intros Hr Hd. destruct (on_chan_full dev cmd NO_RESULT None keep s ls fin Hr) as (s' & E & H); [by intros [?|?]|done|].
  exists s'. assert (responses NO_RESULT None ls = [] /\ leftovers NO_RESULT None ls = ls) as [E1 E2].
  { clear. induction ls as [|l ls [IH1 IH2]]; [done|]. unfold responses, leftovers in *. cbn in *.
    split; [exact IH1|by f_equal]. }
  rewrite E1 in E. rewrite E2 in H. by split.
Qed.
Lemma multiline_replies dev cmd prefix s ls fin : at_ready s -> replies dev (calls s) ls fin ->
  exists s', multiline dev cmd prefix true s = Ok ((0, Some (answer_of MULTILINE prefix ls fin)), s')
    /\ sent s s' cmd (leftovers MULTILINE (Some prefix) ls).
Proof. intros Hr Hd. apply (on_chan_full dev cmd MULTILINE (Some prefix) true s ls fin Hr); [by eexists|done]. Qed.
Lemma singleline_replies dev cmd prefix keep s ls fin : at_ready s -> replies dev (calls s) ls fin ->
  exists s', singleline dev cmd prefix keep s
    = Ok (need_intermediate (0, if keep then Some (answer_of SINGLELINE prefix ls fin) else None), s')
    /\ sent s s' cmd (leftovers SINGLELINE (Some prefix) ls).
Proof.
  intros Hr Hd. destruct (on_chan_full dev cmd SINGLELINE (Some prefix) keep s ls fin Hr) as (s' & E & H); [by eexists|done|].
  exists s'. split; [|done]. unfold singleline, at_send_command_singleline. rewrite on_chan_map, E. done.
Qed.

(** The usual answers: one line that is wanted and OK, or a refusal. *)
Definition OK_ : cstr := B "OK".
Lemma singleline_one dev cmd prefix s l : at_ready s -> replies dev (calls s) [l] OK_ -> strStartsWith l prefix = true ->
  exists s', singleline dev cmd prefix true s = Ok ((0, Some (mkATResponse 1 (Some OK_) [l])), s') /\ sent s s' cmd [].
Proof.
  intros Hr Hd Hl. destruct (singleline_replies dev cmd prefix true s [l] OK_ Hr Hd) as (s' & E & H). exists s'.
  assert (responses SINGLELINE (Some prefix) [l] = [l] /\ leftovers SINGLELINE (Some prefix) [l] = []) as [E1 E2].
  { unfold responses, leftovers. cbn. by rewrite Hl. }
  unfold answer_of in E. rewrite E1 in E. rewrite E2 in H. by split.
Qed.
Lemma singleline_refused dev cmd prefix s fin : at_ready s -> replies dev (calls s) [] fin -> isFinalResponseSuccess fin = false ->
  exists s', singleline dev cmd prefix true s = Ok ((0, Some (mkATResponse 0 (Some fin) [])), s') /\ sent s s' cmd [].
Proof.
  intros Hr Hd Hf. destruct (singleline_replies dev cmd prefix true s [] fin Hr Hd) as (s' & E & H). exists s'.
  unfold answer_of in E. rewrite Hf in E. by split.
Qed.
Lemma sent_trans_calls s s' cmd left : sent s s' cmd left -> calls s' = S (calls s).
Proof. by intros []. Qed.

Lemma A_bind {A B} (m : AM A) (k : A -> AM B) s a s' : m s = Ok (a, s') -> (x ← m; k x) s = k a s'.
Proof. intros E. unfold mbind, AM_bind, M_bind. by rewrite E. Qed.

Lemma starts_with_app p t : strStartsWith (p ++ t) p = true.
Proof. induction p as [|c p IH]; cbn; [by destruct t|]. by rewrite Z.eqb_refl. Qed.
Lemma ok_success : isFinalResponseSuccess OK_ = true.
Proof. done. Qed.

(** ** SIM *)
(** What "+CPIN: text" means to the caller; a personalised SIM is the result, not the status. *)
Definition cpin_table (t : cstr) : option Z :=
  if decide (t = B "SIM PIN") then Some SIM_PIN
  else if decide (t = B "SIM PUK") then Some SIM_PUK
  else if decide (t = B "PH-NET PIN") then None
  else if decide (t = B "READY") then Some SIM_READY else Some SIM_ABSENT.
Lemma cpin_line t : bare t ->
  cpin_status (B "+CPIN: " ++ t) = cpin_table t
  /\ at_tok_start (@Some cstr (B "+CPIN: " ++ t)) = (0, @Some cstr (32 :: t)) /\ (at_tok_nextstr (@Some cstr (32 :: t))).1.1 = 0.
Proof.
  intros Ht. assert (E : at_tok_start (@Some cstr (B "+CPIN: " ++ t)) = (0, @Some cstr (32 :: t))).
  { change (B "+CPIN: " ++ t) with (B "+CPIN" ++ COLON :: 32 :: t). unfold at_tok_start.
    rewrite split_at_app; [done|]. apply (bool_decide_unpack _). by vm_compute. }
  destruct (nextTok_bare 1 t [] Ht (or_introl eq_refl)) as (c & En & _). rewrite app_nil_r in En.
  change (nextTok (@Some cstr (32 :: t)) = (Some t, c)) in En. split; [|done].
  unfold cpin_status. rewrite E. cbn [fst snd]. change (0 <? 0) with false. cbn iota.
  unfold at_tok_nextstr. rewrite En. cbn [fst snd default]. done.
Qed.

(** SIM status over AT.  When AT+CPIN? is answered with "+CPIN: text" and OK, the
    status is the one of the text, except that a network lock is returned as the result
    and leaves the status unset; when it is refused with any error, "+CME ERROR: 10" (no
    SIM) included, the result is 0 and the status is "not ready": the error codes that
    stand for an absent SIM are never looked at. *)
Theorem at_sim_status dev s old ls fin :
  at_ready s -> replies dev (calls s) ls fin ->
  (exists t, ls = [B "+CPIN: " ++ t] /\ fin = OK_ /\ bare t) \/ (ls = [] /\ isFinalResponseSuccess fin = false) ->
  exists s', requestGetSIMStatus_at dev old s
    = Ok (match ls with
          | [] => (0, SIM_NOT_READY)
          | l :: _ => match cpin_table (drop 7 l) with Some st => (0, st) | None => (SIM_NETWORK_PERSONALIZATION, old) end
          end, s')
    /\ sent s s' (B "AT+CPIN?") [].
Proof.
  intros Hr Hd [(t & -> & -> & Ht)|[-> Hf]].
  - destruct (singleline_one dev (B "AT+CPIN?") (B "+CPIN:") s _ Hr Hd) as (s' & E & H); [done|].
    exists s'. split; [|done]. destruct (cpin_line t Ht) as (E1 & E2 & E3).
    unfold requestGetSIMStatus_at. rewrite (A_bind _ _ _ _ _ E). cbn [fst snd].
    change (at_response_error 0 _) with false. cbn iota. change (at_get_cme_error _) with CME_SUCCESS.
    change (CME_SUCCESS =? CME_SUCCESS) with true. cbn iota.
    rewrite (A_bind _ _ _ (B "+CPIN: " ++ t) s') by done. cbn zeta. rewrite E1, E2. cbn [fst snd].
    change (0 <? 0) with false. cbn iota. rewrite E3. change (drop 7 (B "+CPIN: " ++ t)) with t.
    by destruct (cpin_table t).
  - destruct (singleline_refused dev (B "AT+CPIN?") (B "+CPIN:") s fin Hr Hd Hf) as (s' & E & H).
    exists s'. split; [|done]. unfold requestGetSIMStatus_at. by rewrite (A_bind _ _ _ _ _ E).
Qed.

(** Entering a PIN over AT is always reported as failed: the response is not kept,
    so that the check for an error finds none.  Even when the modem takes the PIN and
    answers OK, the result is -1. *)
Theorem at_pin_never_accepted dev pin s :
  (forall r s', requestEnterSimPin_at dev pin s = Ok (r, s') -> r = -1)
  /\ (at_ready s -> replies dev (calls s) [] OK_ ->
      exists s', requestEnterSimPin_at dev pin s = Ok (-1, s') /\ sent s s' (B "AT+CPIN=" ++ pin) []).
Proof.
  split.
  - intros r s' H. unfold requestEnterSimPin_at, mbind, AM_bind, M_bind in H.
    destruct (send_at _ _ _ s) as [[x s1]| |]; [|done..]. injection H as <- _.
    unfold at_response_error. by destruct (truth x.1).
  - intros Hr Hd. destruct (send_at_replies dev (B "AT+CPIN=" ++ pin) false s [] OK_ Hr Hd) as (s' & E & H).
    exists s'. split; [|done]. unfold requestEnterSimPin_at. by rewrite (A_bind _ _ _ _ _ E).
Qed.

(** ** Data calls *)
Definition no_ifconfig (p : PROFILE_T) : Prop :=
  strStartsWith (BaseBandVersion p) (B "RG801H") = false /\ strStartsWith (BaseBandVersion p) (B "EC200H") = false.

(** A data call over AT.  For a modem that has AT+QNETDEVSTATUS, the call is AT+QNETDEVCTL
    for the context of the profile; when it is confirmed and a status line follows, the
    result is 0 and the main thread is told that the calls have changed.  When the modem
    refuses the call the result is 0 as well, and the main thread is told nothing. *)
Theorem at_setup_data_call dev fam s fin l :
  at_ready s -> asr_style_atc (rq_w s) = 0 -> no_ifconfig (rq_p s) ->
  replies dev (calls s) [] fin ->
  (fin = OK_ -> replies dev (S (calls s)) [l] OK_ /\ strStartsWith l (B "+QNETDEVSTATUS") = true) ->
  fin = OK_ \/ isFinalResponseSuccess fin = false ->
  let call := netdevctl false (pdp (rq_p s)) 1 1 in
  exists s', requestSetupDataCall_at dev fam s = Ok (0, s')
    /\ (fin = OK_ -> commands s' = commands s ++ written call ++ written (QNETDEVSTATUS_of (pdp (rq_p s)))
          /\ ac_events (rq_w s') = ac_events (rq_w s) ++ [Report RIL_UNSOL_DATA_CALL_LIST_CHANGED])
    /\ (fin <> OK_ -> commands s' = commands s ++ written call /\ ac_events (rq_w s') = ac_events (rq_w s)).
Proof.
  intros Hr Ha [Hb1 Hb2] Hd Hl Hfin call. unfold requestSetupDataCall_at.
  rewrite (A_bind getprof _ s (rq_p s) s) by done. rewrite Hb1, Hb2. cbn [orb].
  rewrite (A_bind _ _ s tt s) by done. rewrite (A_bind getw _ s (rq_w s) s) by done. rewrite Ha.
  change (truth 0) with false. cbn zeta. rewrite (A_bind _ _ s None s) by done. fold call.
  destruct (send_at_replies dev call true s [] fin Hr Hd) as (s1 & E1 & H1). rewrite (A_bind _ _ _ _ _ E1).
  cbn [fst snd]. destruct Hfin as [->|Hf].
  - destruct (Hl eq_refl) as [Hd2 Hp]. rewrite <- (sent_calls _ _ _ _ H1) in Hd2.
    destruct (singleline_one dev (QNETDEVSTATUS_of (pdp (rq_p s))) (B "+QNETDEVSTATUS") s1 l (sent_ready _ _ _ _ H1) Hd2 Hp)
      as (s2 & E2 & H2).
    change (at_response_error 0 _) with false. cbn iota.
    assert (E3 : wait_netdev dev 15 (pdp (rq_p s)) 0 s1 = Ok (0, s2)).
    { cbn [wait_netdev]. by rewrite (A_bind _ _ _ _ _ E2). }
    rewrite (A_bind _ _ _ _ _ E3). cbn [negb andb]. change (truth 0) with false. cbn iota.
    eexists. split; [done|]. split; [|done]. intros _. split.
    + change (commands s2 = commands s ++ written call ++ written (QNETDEVSTATUS_of (pdp (rq_p s)))).
      rewrite (sent_out _ _ _ _ H2), (sent_out _ _ _ _ H1). by rewrite <- app_assoc.
    + change (ac_events (rq_w s2) ++ [Report RIL_UNSOL_DATA_CALL_LIST_CHANGED]
        = ac_events (rq_w s) ++ [Report RIL_UNSOL_DATA_CALL_LIST_CHANGED]).
      rewrite (sent_events _ _ _ _ H2), (sent_events _ _ _ _ H1). cbn. by rewrite !app_nil_r.
  - assert (at_response_error 0 (Some (mkATResponse (b2z (isFinalResponseSuccess fin)) (Some fin) [])) = true) as ->
      by by rewrite Hf.
    exists s1. split; [done|]. split; [intros ->; done|]. intros _.
    split; [apply H1|]. rewrite (sent_events _ _ _ _ H1). by rewrite app_nil_r.
Qed.

(** ** Registration *)
Ltac fields_ok := repeat first [apply Forall_nil_2 | apply Forall_cons_2; [assumption|]].
Lemma reg_prefix act cmd prefix : reg_command act = Some (cmd, prefix) ->
  exists name, prefix = name ++ [COLON] /\ COLON ∉ name /\ COMMA ∉ name.
Proof.
  unfold reg_command. intros H. repeat (case_bool_decide; [injection H as _ <-|]); [..|done];
    [exists (B "+CGREG")|exists (B "+CEREG")|exists (B "+C5GREG")];
    (split; [done|split; apply (bool_decide_unpack _); by vm_compute]).
Qed.

(** The commas of a line are those between its fields. *)
Definition comma_free (f : field) : Prop := COMMA ∉ show_field f.
Lemma number_comma_free f : field_ok f -> match f with FQuoted _ => True | _ => comma_free f end.
Proof.
  intros H. pose proof (field_bare f H) as Hb. unfold comma_free.
  destruct f as [z|z|t|t|z]; [apply Hb..|done|]. cbn [show_field]. cbn [field_ok field_text] in *.
  destruct (show_nat_spec 16 z ltac:(lia) ltac:(lia)) as (H1 & _).
  rewrite elem_of_cons, elem_of_app, list_elem_of_singleton. intros [|[Hin|]]; [done| |done].
  rewrite Forall_forall in H1. specialize (H1 _ Hin). apply numeral_char in H1; unfold COMMA in *; lia.
Qed.
Ltac commas_ok := repeat first [apply Forall_nil_2 | apply Forall_cons_2;
  [by first [apply (number_comma_free (FDec _))|apply (number_comma_free (FQuotedHex _))]|]].
Definition commas (l : list Z) : nat := length (filter (fun c => c = COMMA) l).
Lemma commas_app a b : commas (a ++ b) = (commas a + commas b)%nat.
Proof. unfold commas. by rewrite filter_app, length_app. Qed.
Lemma commas_none a : COMMA ∉ a -> commas a = 0%nat.
Proof.
  unfold commas. induction a as [|c a IH]; intros H; [done|]. rewrite filter_cons_False.
  - apply IH. intros H'. apply H. by right.
  - intros ->. apply H. by left.
Qed.
Lemma commas_fields fs : Forall (fun f => comma_free f.2) fs -> fs <> [] -> S (commas (show_fields fs)) = length fs.
Proof.
  induction 1 as [|[k f] fs Hf Hfs IH]; [done|]. intros _. assert (Hb : commas (show_blanks (k, f)) = 0%nat).
  { unfold show_blanks. cbn [fst snd]. rewrite commas_app, (commas_none (show_field f)) by done.
    rewrite commas_none; [done|]. intros Hin. apply elem_of_replicate in Hin as [? _]. done. }
  destruct fs as [|f' fs]; [cbn [show_fields]; by rewrite Hb|].
  change (show_fields ((k, f) :: f' :: fs)) with (show_blanks (k, f) ++ [COMMA] ++ show_fields (f' :: fs)).
  rewrite !commas_app, Hb. change (commas [COMMA]) with 1%nat.
  change (length ((k, f) :: f' :: fs)) with (S (length (f' :: fs))). rewrite <- IH by done. lia.
Qed.

Lemma count_fields name fs : COMMA ∉ name -> Forall (fun f => comma_free f.2) fs -> fs <> [] ->
  at_tok_count (Some (name ++ COLON :: show_fields fs)) = Z.of_nat (length fs) - 1.
Proof.
  intros Hn Hfs Hne. rewrite <- (commas_fields fs) by done. unfold at_tok_count. fold (commas (name ++ COLON :: show_fields fs)).
  rewrite cons_middle, !commas_app, (commas_none name) by done. change (commas [COLON]) with 0%nat. lia.
Qed.

Definition cops_line (mode fmt : Z) (oper : cstr) (act : Z) : cstr :=
  B "+COPS" ++ COLON :: show_fields [(1%nat, FDec mode); (0%nat, FDec fmt); (0%nat, FQuoted oper); (0%nat, FDec act)].
Definition short_line (l : cstr) : Prop := (length l <= SIZEOF_s_line_1)%nat.
Definition int_ok (z : Z) : Prop := - 2 ^ 31 <= z < 2 ^ 31.
Lemma cops_act mode fmt oper act : int_ok mode -> int_ok fmt -> QUOTE ∉ oper -> int_ok act ->
  short_line (cops_line mode fmt oper act) ->
  at_tok_scanf (Some (cops_line mode fmt oper act)) "%d%d%s%d"
  = (4, [Some (SInt mode); Some (SInt fmt); Some (SStr oper); Some (SInt act)]).
Proof.
  intros H1 H2 H3 H4 Hl. apply (scanf_line (B "+COPS") [(1%nat, FDec mode); (0%nat, FDec fmt); (0%nat, FQuoted oper); (0%nat, FDec act)]).
  - apply (bool_decide_unpack _). by vm_compute.
  - fields_ok.
  - intros f [= <-]. unfold show_blanks. cbn. apply show_int_chars.
  - done.
  - exact Hl.
Qed.

(** The first half of the request: the access technology. *)
Lemma registration_after_cops dev old s mode fmt oper act cmd prefix l :
  at_ready s -> replies dev (calls s) [cops_line mode fmt oper act] OK_ ->
  int_ok mode -> int_ok fmt -> QUOTE ∉ oper -> int_ok act -> short_line (cops_line mode fmt oper act) ->
  reg_command act = Some (cmd, prefix) ->
  replies dev (S (calls s)) [prefix ++ l] OK_ ->
  exists s', requestRegistrationState_at dev old s
    = Ok ((0, match reg_state (prefix ++ l) with Some st => b2z ((st =? 1) || (st =? 5)) | None => 0 end), s')
    /\ commands s' = commands s ++ written COPS_QUERY ++ written cmd.
Proof.
  intros Hr Hd H1 H2 H3 H4 Hl Hc Hd2.
  destruct (multiline_replies dev COPS_QUERY (B "+COPS:") s _ OK_ Hr Hd) as (s1 & E1 & S1).
  assert (Er : responses MULTILINE (Some (B "+COPS:")) [cops_line mode fmt oper act] = [cops_line mode fmt oper act]) by done.
  unfold answer_of in E1. rewrite Er in E1. rewrite <- (sent_calls _ _ _ _ S1) in Hd2.
  destruct (singleline_one dev cmd prefix s1 _ (sent_ready _ _ _ _ S1) Hd2 (starts_with_app _ _)) as (s2 & E2 & S2).
  exists s2. split.
  - unfold requestRegistrationState_at. rewrite (A_bind _ _ _ _ _ E1). cbn [fst snd].
    change (at_response_error 0 _) with false. cbn iota. cbn [lines_in p_intermediates].
    rewrite (cops_act mode fmt oper act) by done. cbn [Z.eqb Pos.eqb]. change (int_at 3 (-1) _) with act.
    cbn [mbind option_bind]. rewrite Hc. by rewrite (A_bind _ _ _ _ _ E2).
  - rewrite (sent_out _ _ _ _ S2), (sent_out _ _ _ _ S1). by rewrite <- app_assoc.
Qed.

(** Registration over AT.  When AT+COPS? names an access technology, the registration
    of that technology is asked for, and a line with the report mode and the state, alone
    or with area, cell and technology, makes the modem attached exactly when the state
    is 1 (home) or 5 (roaming). *)
Theorem at_registration dev old s mode fmt oper act cmd prefix n st rest :
  at_ready s -> replies dev (calls s) [cops_line mode fmt oper act] OK_ ->
  int_ok mode -> int_ok fmt -> QUOTE ∉ oper -> int_ok act -> short_line (cops_line mode fmt oper act) ->
  reg_command act = Some (cmd, prefix) -> int_ok n -> int_ok st ->
  rest = [] \/ (exists lac cid a, rest = [(0%nat, FQuotedHex lac); (0%nat, FQuotedHex cid); (0%nat, FDec a)]
                 /\ 0 <= lac < 2 ^ 32 /\ 0 <= cid < 2 ^ 32 /\ int_ok a) ->
  let l := show_fields ((1%nat, FDec n) :: (0%nat, FDec st) :: rest) in
  short_line (prefix ++ l) -> replies dev (S (calls s)) [prefix ++ l] OK_ ->
  exists s', requestRegistrationState_at dev old s = Ok ((0, b2z (bool_decide (st = 1 \/ st = 5))), s')
    /\ commands s' = commands s ++ written COPS_QUERY ++ written cmd.
Proof.
  intros Hr Hd H1 H2 H3 H4 Hs Hc Hn Hst Hrest l Hl Hd2.
  destruct (registration_after_cops dev old s mode fmt oper act cmd prefix l) as (s' & E & Ho); [done..|].
  exists s'. split; [|done]. rewrite E.
  assert (reg_state (prefix ++ l) = Some st) as ->.
  2: { f_equal. f_equal. f_equal. f_equal. case_bool_decide as Hb; destruct (Z.eqb_spec st 1), (Z.eqb_spec st 5); cbn; tauto. }
  destruct (reg_prefix _ _ _ Hc) as (name & -> & Hcol & Hcom). rewrite <- app_assoc in *. cbn [app] in *.
  assert (Hd1 : forall z, show_blanks (0%nat, FDec z) <> []) by (intros z; apply show_int_chars).
  unfold reg_state. destruct Hrest as [->|(lac & cid & a & -> & Hlac & Hcid & Ha)].
  - unfold l in *. rewrite count_fields; [|done| |done].
    2: commas_ok.
    change (Z.of_nat (length _) - 1) with 1. cbn [Z.eqb Pos.eqb]. rewrite (scanf_line name [(1%nat, FDec n); (0%nat, FDec st)]); [done|done| | |done|done].
    + fields_ok.
    + by intros f [= <-].
  - unfold l in *. rewrite count_fields; [|done| |done].
    2: commas_ok.
    change (Z.of_nat (length _) - 1) with 4. cbn [Z.eqb Pos.eqb Z.leb Z.compare Pos.compare Pos.compare_cont andb].
    rewrite (scanf_line name [(1%nat, FDec n); (0%nat, FDec st); (0%nat, FQuotedHex lac); (0%nat, FQuotedHex cid); (0%nat, FDec a)]);
      [done|done| | |done|done].
    + fields_ok.
    + intros f [= <-]. apply Hd1.
Qed.

Lemma strto_sign_letter x s : digit_in 10 x = None -> strto 10 (43 :: x :: s) = None.
Proof.
  intros H. unfold strto. cbn [skip_space is_space]. change (is_space 43) with false. cbn iota.
  change (43 =? MINUS) with false. change (43 =? 43) with true. cbn [orb].
  assert (strip_0x 10 (x :: s) = x :: s) as -> by (unfold strip_0x; by destruct s as [|? [|? ?]]).
  by rewrite H.
Qed.

(** Registration over AT goes wrong on the short reports.  A report of the state with
    area and cell, but without the mode, is scanned into the wrong variables: the area
    code is taken for the state.  A report of the state alone is never understood,
    because the line is read from its prefix on. *)
Theorem at_registration_misread dev old s mode fmt oper act cmd prefix st rest :
  at_ready s -> replies dev (calls s) [cops_line mode fmt oper act] OK_ ->
  int_ok mode -> int_ok fmt -> QUOTE ∉ oper -> int_ok act -> short_line (cops_line mode fmt oper act) ->
  reg_command act = Some (cmd, prefix) -> int_ok st ->
  rest = None \/ (exists lac cid, rest = Some (lac, cid) /\ 0 <= lac < 2 ^ 31 /\ 0 <= cid < 2 ^ 32) ->
  let l := show_fields ((1%nat, FDec st) :: match rest with
             | Some (lac, cid) => [(0%nat, FQuotedHex lac); (0%nat, FQuotedHex cid)] | None => [] end) in
  short_line (prefix ++ l) -> replies dev (S (calls s)) [prefix ++ l] OK_ ->
  exists s', requestRegistrationState_at dev old s
    = Ok ((0, match rest with Some (lac, _) => b2z (bool_decide (lac = 1 \/ lac = 5)) | None => 0 end), s')
    /\ commands s' = commands s ++ written COPS_QUERY ++ written cmd.
Proof.
  intros Hr Hd H1 H2 H3 H4 Hs Hc Hst Hrest l Hl Hd2.
  destruct (registration_after_cops dev old s mode fmt oper act cmd prefix l) as (s' & E & Ho); [done..|].
  exists s'. split; [|done]. rewrite E. clear E Ho Hd2.
  destruct Hrest as [->|(lac & cid & -> & Hlac & Hcid)].
  - assert (reg_state (prefix ++ l) = None) as ->; [|done].
    destruct (reg_prefix _ _ _ Hc) as (name & Ep & Hcol & Hcom).
    assert (Hx : exists x name', name = 43 :: x :: name' /\ digit_in 10 x = None).
    { apply (f_equal (option_map snd)) in Hc. unfold reg_command in Hc. rewrite Ep in Hc.
      repeat (case_bool_decide; [injection Hc as Hc; destruct name as [|? [|? ?]]; try done;
        injection Hc as <- <- _; by eexists _, _|]); done. }
    rewrite Ep in *. unfold reg_state, l. rewrite <- app_assoc. cbn [app]. rewrite count_fields; [|done|commas_ok|done].
    change (Z.of_nat (length _) - 1) with 0. change (0 =? 0) with true. cbn iota.
    set (line := name ++ COLON :: _).
    assert (En : nextTok (@Some cstr line) = (@Some cstr line, None)).
    { destruct Hx as (x & name' & -> & _). unfold nextTok, skipWhiteSpace. cbn [fmap option_fmap option_map].
      rewrite skip_space_id by (by intros c [= <-]). cbn [app]. change (43 =? QUOTE) with false. cbn iota. cbn [strsep].
      rewrite split_at_none; [done|]. change (COMMA ∉ (43 :: x :: name') ++ ([COLON; 32] ++ show_field (FDec st))).
      intros Hin. apply elem_of_app in Hin as [Hin|Hin]; [by apply Hcom in Hin|].
      apply elem_of_app in Hin as [Hin|Hin]; [|by apply (number_comma_free (FDec st) Hst) in Hin].
      revert Hin. by apply (bool_decide_unpack (COMMA ∉ [COLON; 32])); vm_compute. }
    unfold at_tok_nextint, at_tok_nextint_base. rewrite En. cbn [fst snd]. destruct Hx as (x & name' & -> & Hx).
    unfold strtol. unfold line. cbn [app]. by rewrite (strto_sign_letter x _ Hx).
  - assert (reg_state (prefix ++ l) = Some lac) as ->.
    2: { f_equal. f_equal. f_equal. f_equal. case_bool_decide as Hb; destruct (Z.eqb_spec lac 1), (Z.eqb_spec lac 5); cbn; tauto. }
    destruct (reg_prefix _ _ _ Hc) as (name & -> & Hcol & Hcom). rewrite <- app_assoc in *. cbn [app] in *.
    assert (Hlac' : 0 <= lac < 2 ^ 32) by lia.
    unfold reg_state, l in *. rewrite count_fields; [|done|commas_ok|done].
    change (Z.of_nat (length _) - 1) with 2. cbn [Z.eqb Pos.eqb].
    rewrite (scanf_line name [(1%nat, FDec st); (0%nat, FQuotedHex lac); (0%nat, FQuotedHex cid)]); [|done|fields_ok|by intros f [= <-]|done|done].
    change (Some (s32 lac) = Some lac). by rewrite s32_id by lia.
Qed.

(** ** The statements at a concrete modem *)
Definition demo_rq : rq atc :=
  mkRq statics_init (PROFILE_zero <| pdp := 1 |>) (mkAtc (at_opened false) 0 1 0 [] []) [].
Definition answers (l : list (list cstr * cstr)) (k : nat) : at_exchange :=
  match l !! k with
  | Some (ls, fin) => mkAtExchange [] true [(Line <$> (ls ++ [fin]), 0)]
  | None => mkAtExchange [] true []
  end.
Lemma demo_ready : at_ready demo_rq.
Proof. split; [apply at_opened_idle|done]. Qed.
Lemma answers_reply l k ls fin : l !! k = Some (ls, fin) -> is_final fin = true -> Forall (fun l => is_final l = false) ls ->
  replies (answers l) k ls fin.
Proof. intros H Hf Hl. split; [|done]. unfold answers. by rewrite H. Qed.
Ltac answered := apply answers_reply; [reflexivity|reflexivity|repeat first [apply Forall_nil_2|apply Forall_cons_2; [reflexivity|]]].
Definition ready_line : cstr := B "+CPIN: " ++ B "READY".

Lemma at_sim_status_witness :
  exists s', requestGetSIMStatus_at (answers [([ready_line], OK_)]) 0 demo_rq = Ok ((0, SIM_READY), s').
Proof.
  destruct (at_sim_status (answers [([ready_line], OK_)]) demo_rq 0 [ready_line] OK_ demo_ready)
    as (s' & E & _); [answered| |by exists s'].
  left. exists (B "READY"). split; [done|]. split; [done|]. split_and!; [apply (bool_decide_unpack _); by vm_compute| |done].
  by intros c [= <-].
Defined.
Lemma at_pin_never_accepted_witness :
  exists s', requestEnterSimPin_at (answers [([], OK_)]) (B "1234") demo_rq = Ok (-1, s').
Proof.
  destruct (proj2 (at_pin_never_accepted (answers [([], OK_)]) (B "1234") demo_rq) demo_ready) as (s' & E & _); [answered|].
  by exists s'.
Defined.
Lemma at_setup_data_call_witness :
  exists s', requestSetupDataCall_at (answers [([], B "ERROR")]) IpFamilyV4 demo_rq = Ok (0, s') /\ ac_events (rq_w s') = [].
Proof.
  destruct (at_setup_data_call (answers [([], B "ERROR")]) IpFamilyV4 demo_rq (B "ERROR") [] demo_ready) as (s' & E & _ & H);
    [done|by split|answered|by intros H|by right|].
  exists s'. split; [exact E|]. by apply H.
Defined.
Definition demo_cops : cstr := cops_line 0 2 (B "46000") 12.
Definition demo_reg (fs : list (nat * field)) : cstr := B "+C5GREG:" ++ show_fields fs.
Definition demo_answers (fs : list (nat * field)) : nat -> at_exchange := answers [([demo_cops], OK_); ([demo_reg fs], OK_)].
Lemma at_registration_witness :
  exists s', requestRegistrationState_at (demo_answers [(1%nat, FDec 2); (0%nat, FDec 1)]) 0 demo_rq = Ok ((0, 1), s').
Proof.
  destruct (at_registration (demo_answers [(1%nat, FDec 2); (0%nat, FDec 1)]) 0 demo_rq 0 2 (B "46000") 12
    (B "AT+C5GREG?") (B "+C5GREG:") 2 1 []) as (s' & E & _).
  - exact demo_ready.
  - answered.
  - by unfold int_ok.
  - by unfold int_ok.
  - apply (bool_decide_unpack _). by vm_compute.
  - by unfold int_ok.
  - apply (bool_decide_unpack _). by vm_compute.
  - reflexivity.
  - by unfold int_ok.
  - by unfold int_ok.
  - by left.
  - apply (bool_decide_unpack _). by vm_compute.
  - answered.
  - by exists s'.
Defined.
Lemma at_registration_misread_witness :
  exists s', requestRegistrationState_at (demo_answers [(1%nat, FDec 2); (0%nat, FQuotedHex 5); (0%nat, FQuotedHex 77)]) 0 demo_rq
    = Ok ((0, 1), s').
Proof.
  destruct (at_registration_misread (demo_answers [(1%nat, FDec 2); (0%nat, FQuotedHex 5); (0%nat, FQuotedHex 77)]) 0 demo_rq
    0 2 (B "46000") 12 (B "AT+C5GREG?") (B "+C5GREG:") 2 (Some (5, 77))) as (s' & E & _).
  - exact demo_ready.
  - answered.
  - by unfold int_ok.
  - by unfold int_ok.
  - apply (bool_decide_unpack _). by vm_compute.
  - by unfold int_ok.
  - apply (bool_decide_unpack _). by vm_compute.
  - reflexivity.
  - by unfold int_ok.
  - right. by exists 5, 77.
  - apply (bool_decide_unpack _). by vm_compute.
  - answered.
  - by exists s'.
Defined.

(** ** The thread of the port *)
Definition ends_thread (wait : bool) (p : atc_poll) : bool :=
  match p with
  | PollTimeout => wait | PollFailed => true
  | PollReady a c r => a || c || match r with Some RIL_REQUEST_QUIT => true | _ => false end
  end.
Definition asks_stop (p : atc_poll) : bool :=
  match p with PollReady _ _ (Some PIPE_SIG_EVENT_STOP) => true | _ => false end.
Lemma poll_loop_step p polls wait :
  atc_poll_loop (p :: polls) wait = if ends_thread wait p then Some tt else atc_poll_loop polls (wait || asks_stop p).
Proof.
  destruct p as [| |a c [[]|]], wait; cbn [atc_poll_loop ends_thread asks_stop orb];
    try reflexivity; destruct (a || c); reflexivity.
Qed.
Lemma poll_loop_ends pre p post wait :
  ends_thread (wait || existsb asks_stop pre) p = true -> atc_poll_loop (pre ++ p :: post) wait = Some tt.
Proof.
  revert wait. induction pre as [|q pre IH]; intros wait H; cbn [app existsb] in *; rewrite poll_loop_step.
  - rewrite orb_false_r in H. by rewrite H.
  - destruct (ends_thread wait q); [done|]. apply IH. by rewrite <- orb_assoc.
Qed.

(** The end of the AT port.  A thread that opened the port tells the main thread of
    the connection first and of its loss last, and ends as soon as it is asked to quit, a
    descriptor fails, or a second passes after it was asked to stop; from then on every
    command is refused with a closed channel and nothing more is written. *)
Theorem at_port_closed dev fd pre p post (s : rq atc) type prefix pdu keep cmd :
  0 < fd -> ends_thread (existsb asks_stop pre) p = true -> (forall k, ax_before (dev k) = []) ->
  exists c, atc_read_thread fd (pre ++ p :: post) (ac_chan (rq_w s))
      = Some (c, [RIL_INDICATE_DEVICE_CONNECTED; Note RIL_INDICATE_DEVICE_DISCONNECTED])
    /\ exists c', at_send_command_full dev cmd type prefix pdu keep c = Ok ((AT_ERROR_CHANNEL_CLOSED, None), c')
        /\ at_out c' = at_out (ac_chan (rq_w s)).
Proof.
  intros Hfd Hp Hb. unfold atc_read_thread. rewrite (proj2 (Z.leb_gt _ _)) by done.
  rewrite (poll_loop_ends pre p post false) by done. eexists. split; [done|].
  destruct (ac_chan (rq_w s)) as [ty px pdu0 raw rsp cl fd0 proxy out unsol calls].
  unfold at_send_command_full, before_command, mbind, AT_bind, M_bind, M_get, run_events. rewrite Hb.
  eexists. split; [vm_compute; reflexivity|]. reflexivity.
Qed.
Lemma at_port_closed_witness :
  exists c, atc_read_thread 7 [PollTimeout; PollReady false false (Some PIPE_SIG_EVENT_STOP); PollTimeout] (at_opened false)
      = Some (c, [RIL_INDICATE_DEVICE_CONNECTED; Note RIL_INDICATE_DEVICE_DISCONNECTED]).
Proof.
  destruct (at_port_closed (answers []) 7 [PollTimeout; PollReady false false (Some PIPE_SIG_EVENT_STOP)] PollTimeout [] demo_rq
    NO_RESULT None None false []) as (c & E & _); [done|done| |by exists c].
  intros k. unfold answers. by rewrite lookup_nil.
Defined.
