(* ===== verification/AtSettingsSpec.v ===== *)
(** Properties of the AT connection manager: the addresses of a connection and the profile
    of a context, read from the texts of the modem. *)
From S2P Require Import Prelude CmTypes QmiThread QmiRequests CmArgs CmMain AtTok AtTokSpec AtChannel AtChannelSpec Atc AtcSpec.
#[local] Open Scope Z_scope.

(** ** Numbers before a text that does not go on with a digit *)
Definition no_digit (base : Z) (s : cstr) : Prop := forall c, head s = Some c -> digit_in base c = None.

Lemma strto_digits_stop base a s : no_digit base s -> strto_digits base a s = a.
Proof. destruct s as [|c s]; [done|]. intros H. cbn. by rewrite (H c). Qed.
Lemma show_nat_chars z : 0 <= z -> exists c ds, show_nat 10 z = c :: ds /\ Forall (numeral 10) (c :: ds).
Proof.
  intros Hz. destruct (show_nat_spec 10 z ltac:(lia) Hz) as (Hds & _ & Hne & _).
  destruct (show_nat 10 z) as [|c ds]; [done|]. by exists c, ds.
Qed.
Lemma digits_before z s : 0 <= z -> no_digit 10 s -> strto_digits 10 0 (show_nat 10 z ++ s) = z.
Proof.
  intros Hz Hs. destruct (show_digits_spec 10 (S (Z.to_nat (Z.log2 z))) z [] ltac:(lia)) as (ds & E & _ & _ & _ & Hv).
  - split; [done|]. rewrite Nat2Z.inj_succ, Z2Nat.id by apply Z.log2_nonneg.
    destruct (Z.eq_dec z 0) as [->|]; [done|]. apply Z.log2_spec. lia.
  - lia.
  - unfold show_nat. rewrite E, app_nil_r, Hv. by rewrite strto_digits_stop by done.
Qed.
Lemma strtol_before z s : 0 <= z < 2 ^ 31 -> no_digit 10 s -> strtol 10 (show_nat 10 z ++ s) = Some z.
Proof.
  intros Hz Hs. pose proof (digits_before z s ltac:(lia) Hs) as Hv.
  destruct (show_nat_chars z ltac:(lia)) as (c & ds & E & Hds). rewrite E in *. apply Forall_cons in Hds as [Hc _].
  unfold strtol, strto. cbn [app] in *. rewrite skip_space_id by (intros c' [= <-]; by apply (numeral_not_space _ 10)).
  rewrite (numeral_not c MINUS 10), (numeral_not c 43 10) by done. cbn [orb].
  assert (strip_0x 10 (c :: ds ++ s) = c :: ds ++ s) as -> by (unfold strip_0x; by destruct (ds ++ s) as [|? [|? ?]]).
  rewrite bool_decide_true by (by apply (numeral_digit 10)). rewrite Hv. f_equal. lia.
Qed.
Lemma after_number z s : 0 <= z -> no_digit 10 s -> after_digits 10 (after_sign (skip_space (show_nat 10 z ++ s))) = s.
Proof.
  intros Hz Hs. destruct (show_nat_chars z Hz) as (c & ds & -> & Hds). cbn [app].
  rewrite skip_space_id by (intros c' [= <-]; apply Forall_cons in Hds as [Hc _]; by apply (numeral_not_space _ 10)).
  pose proof Hds as Hall. apply Forall_cons in Hall as [Hc _]. unfold after_sign.
  rewrite (numeral_not c MINUS 10), (numeral_not c 43 10) by done. cbn [orb].
  change (c :: ds ++ s) with ((c :: ds) ++ s). induction Hds as [|x l Hx _ IH]; cbn [app after_digits].
  - destruct s as [|y s]; [done|]. cbn. rewrite (Hs y eq_refl). by rewrite bool_decide_false by (by intros [? ?]).
  - rewrite bool_decide_true by (by apply (numeral_digit 10)). exact IH.
Qed.

(** ** Addresses *)
Definition octet (z : Z) : Prop := 0 <= z < 256.
Definition dotted (a b c d : Z) : cstr :=
  show_nat 10 a ++ 46 :: show_nat 10 b ++ 46 :: show_nat 10 c ++ 46 :: show_nat 10 d.
Lemma scan_dotted_step n z s : octet z -> scan_dotted (S n) (show_nat 10 z ++ 46 :: s) = z :: scan_dotted n s.
Proof.
  intros Hz. unfold octet in Hz. assert (Hd : no_digit 10 (46 :: s)) by (by intros c [= <-]).
  cbn [scan_dotted]. rewrite strtol_before, after_number by (done || lia). by rewrite s32_id by lia.
Qed.
Lemma scan_dotted_last z : octet z -> scan_dotted 1 (show_nat 10 z) = [z].
Proof.
  intros Hz. unfold octet in Hz. rewrite <- (app_nil_r (show_nat 10 z)). assert (Hd : no_digit 10 []) by done.
  cbn [scan_dotted]. rewrite strtol_before, after_number by (done || lia). by rewrite s32_id by lia.
Qed.
Lemma scan_dotted_spec a b c d : octet a -> octet b -> octet c -> octet d -> scan_dotted 4 (dotted a b c d) = [a; b; c; d].
Proof. intros. unfold dotted. by rewrite !scan_dotted_step, scan_dotted_last. Qed.
Lemma addr_of_octets a b c d : octet a -> octet b -> octet c -> octet d ->
  addr_of [a; b; c; d] = a + b * 2 ^ 8 + c * 2 ^ 16 + d * 2 ^ 24.
Proof.
  unfold octet. intros. unfold addr_of. cbn [lookup list_lookup default].
  rewrite !Z.shiftl_mul_pow2 by lia. rewrite (lor_high a b), (lor_high _ c), lor_high by lia. apply u32_id. lia.
Qed.
Lemma ipv4_of_dotted a b c d : octet a -> octet b -> octet c -> octet d ->
  ipv4_of_text (dotted a b c d) = a + b * 2 ^ 8 + c * 2 ^ 16 + d * 2 ^ 24.
Proof.
  intros. unfold ipv4_of_text. rewrite bool_decide_true.
  - by rewrite scan_dotted_spec, addr_of_octets.
  - unfold dotted. apply elem_of_app. right. left.
Qed.

(** ** The first token of a line *)
Lemma scanf_count p : forall line n, n <= (scanf_loop p line n).1.
Proof.
  induction p as [p IH] using (induction_ltof1 _ (@length Z)). intros line n. unfold ltof in IH.
  destruct p as [|c p]; [done|]. cbn [scanf_loop]. destruct ((c =? COMMA) || (c =? 32)); [apply IH; cbn; lia|].
  destruct (negb (c =? 37)); [done|]. destruct p as [|k p]; [done|].
  assert (H : forall l m, m <= (scanf_loop p l m).1) by (apply IH; cbn; lia).
  destruct (negb (at_tok_hasmore line)); [done|]. destruct (dash_field line) as [l|]; [cbn [fst]; specialize (H l (n + 1)); lia|].
  destruct (scan_one k line) as [[[err out] l]|]; [|done]. destruct (err <? 0); [done|]. cbn [fst]. specialize (H l (n + 1)). lia.
Qed.
Lemma scanf_first name k f tail fmt p :
  COLON ∉ name -> field_ok f -> show_blanks (k, f) <> [] -> tail = [] \/ (exists rest, tail = COMMA :: rest) ->
  bytes_of_string fmt = 37 :: conversion f :: p ->
  (length (name ++ COLON :: show_blanks (k, f) ++ tail) <= SIZEOF_s_line_1)%nat ->
  exists n outs, at_tok_scanf (Some (name ++ COLON :: show_blanks (k, f) ++ tail)) fmt
    = (n, Some (field_value f) :: outs) /\ 0 < n.
Proof.
  intros Hn Hf Hb Ht Hfmt Hl. unfold at_tok_scanf. rewrite take_ge by done. unfold at_tok_start.
  rewrite split_at_app by done. cbn [fst snd]. change (0 <? 0) with false. cbn iota. rewrite Hfmt.
  destruct (scanf_field p k f tail 0 Hf Ht) as (c & E & _).
  { by destruct (show_blanks (k, f)). }
  eexists _, _. split; [exact E|]. pose proof (scanf_count p c (0 + 1)). cbn in *. lia.
Qed.

(** ** What the modem reports of a connection *)

(** The status line of a context: the address, quoted or not, then the gateway and the others. *)
Definition status_line (addr : field) (tail : cstr) : cstr := B "+QNETDEVSTATUS" ++ COLON :: show_blanks (1%nat, addr) ++ tail.
Definition is_dotted (f : field) (t : cstr) : Prop := f = FText t \/ f = FQuoted t.
Lemma dotted_chars a b c d : octet a -> octet b -> octet c -> octet d ->
  Forall (fun x => x = 46 \/ 48 <= x <= 57) (dotted a b c d) /\ dotted a b c d <> [].
Proof.
  unfold octet. intros Ha Hb Hc Hd.
  assert (H : forall z, 0 <= z < 256 -> Forall (fun x => x = 46 \/ 48 <= x <= 57) (show_nat 10 z)).
  { intros z Hz. destruct (show_nat_chars z ltac:(lia)) as (x & ds & -> & H). eapply Forall_impl; [exact H|].
    intros y Hy. right. apply numeral_char in Hy; lia. }
  split.
  - unfold dotted. repeat first [apply Forall_app; split; [by apply H|]|apply Forall_cons_2; [by left|]]. by apply H.
  - unfold dotted. by destruct (show_nat 10 a).
Qed.
Lemma dotted_field f a b c d : octet a -> octet b -> octet c -> octet d -> is_dotted f (dotted a b c d) ->
  field_ok f /\ field_value f = SStr (dotted a b c d) /\ conversion f = 115.
Proof.
  intros Ha Hb Hc Hd Hf. destruct (dotted_chars a b c d Ha Hb Hc Hd) as [H Hne].
  rewrite Forall_forall in H.
  destruct Hf as [->| ->]; (split; [|done]); cbn [field_ok].
  - split_and!.
    + intros Hin. apply H in Hin. unfold COMMA in Hin. lia.
    + intros x Hx. assert (Hin : x ∈ dotted a b c d) by (destruct (dotted a b c d); [done|injection Hx as ->; left]).
      apply H in Hin. unfold is_space, QUOTE. bool_prop. lia.
    + intros E. assert (Hin : MINUS ∈ dotted a b c d) by (rewrite E; left). apply H in Hin. unfold MINUS in Hin. lia.
  - intros Hin. apply H in Hin. unfold QUOTE in Hin. lia.
Qed.
Lemma netdevstatus_reply dev pdp s f tail a b c d :
  at_ready s -> octet a -> octet b -> octet c -> octet d -> is_dotted f (dotted a b c d) ->
  tail = [] \/ (exists rest, tail = COMMA :: rest) -> short_line (status_line f tail) ->
  replies dev (calls s) [status_line f tail] OK_ ->
  exists s', at_netdevstatus dev pdp s = Ok (a + b * 2 ^ 8 + c * 2 ^ 16 + d * 2 ^ 24, s')
    /\ sent s s' (QNETDEVSTATUS_of pdp) [].
Proof.
  intros Hr Ha Hb Hc Hd Hf Ht Hs Hdev. destruct (dotted_field f a b c d Ha Hb Hc Hd Hf) as (Hok & Hv & Hcv).
  destruct (singleline_one dev (QNETDEVSTATUS_of pdp) (B "+QNETDEVSTATUS") s _ Hr Hdev) as (s' & E & H).
  { apply starts_with_app. }
  exists s'. split; [|done]. unfold at_netdevstatus. rewrite (A_bind _ _ _ _ _ E). cbn [fst snd].
  change (at_response_error 0 _) with false. cbn iota. cbn [lines_in p_intermediates].
  destruct (scanf_first (B "+QNETDEVSTATUS") 1 f tail "%s%s%s%s%s%s%s%s%s%s"
    (bytes_of_string "%s%s%s%s%s%s%s%s%s")) as (n & outs & Es & Hn); [|done|done|done| |done|].
  { apply (bool_decide_unpack _). by vm_compute. }
  { by rewrite Hcv. }
  rewrite Hv in Es. change (at_tok_scanf (@Some cstr (status_line f tail)) "%s%s%s%s%s%s%s%s%s%s"
    = (n, Some (SStr (dotted a b c d)) :: outs)) in Es. rewrite Es, (proj2 (Z.ltb_lt 0 n)) by done.
  unfold str_at. cbn [lookup list_lookup]. pose proof (ipv4_of_dotted a b c d Ha Hb Hc Hd) as Hi.
  destruct (dotted_chars a b c d Ha Hb Hc Hd) as [_ Hne]. destruct (dotted a b c d) as [|x t]; [done|]. by rewrite Hi.
Qed.

(** The address of a connection over AT.  For a modem with AT+QNETDEVSTATUS, when the
    status line of the context starts with a dotted address, quoted or not, whatever
    follows: the data call is reported as connected exactly when the address is not
    0.0.0.0, and reading the addresses then succeeds, with the first number of the text
    in the lowest byte of the profile's address, and changes nothing else of the profile. *)
Theorem at_address dev s f tail a b c d old fam :
  at_ready s -> asr_style_atc (rq_w s) = 0 -> octet a -> octet b -> octet c -> octet d -> is_dotted f (dotted a b c d) ->
  tail = [] \/ (exists rest, tail = COMMA :: rest) -> short_line (status_line f tail) ->
  replies dev (calls s) [status_line f tail] OK_ ->
  let addr := a + b * 2 ^ 8 + c * 2 ^ 16 + d * 2 ^ 24 in
  (exists s', requestQueryDataCall_at dev old fam s
     = Ok ((0, if decide (addr = 0) then QWDS_PKT_DATA_DISCONNECTED else QWDS_PKT_DATA_CONNECTED), s')
     /\ commands s' = commands s ++ written (QNETDEVSTATUS_of (s_pdp (rq_w s))))
  /\ exists s', requestGetIPAddress_at dev fam s = Ok (if decide (addr = 0) then -1 else 0, s')
     /\ commands s' = commands s ++ written (QNETDEVSTATUS_of (pdp (rq_p s)))
     /\ rq_p s' = if decide (addr = 0) then rq_p s else (rq_p s) <| ipv4 := (ipv4 (rq_p s)) <| v4_Address := addr |> |>.
Proof.
  intros Hr Hasr Ha Hb Hc Hd Hf Ht Hs Hdev addr. split.
  - destruct (netdevstatus_reply dev (s_pdp (rq_w s)) s f tail a b c d) as (s' & E & H); [done..|].
    exists s'. split; [|apply H]. unfold requestQueryDataCall_at. rewrite (A_bind getw _ s (rq_w s) s) by done.
    rewrite Hasr. change (negb (truth 0)) with true. cbn iota. rewrite (A_bind _ _ _ _ _ E). fold addr.
    unfold truth. destruct (decide (addr = 0)) as [->|Hn]; [done|]. by rewrite (proj2 (Z.eqb_neq addr 0)).
  - destruct (netdevstatus_reply dev (pdp (rq_p s)) s f tail a b c d) as (s' & E & H); [done..|].
    unfold requestGetIPAddress_at. rewrite (A_bind getprof _ s (rq_p s) s), (A_bind getw _ s (rq_w s) s) by done.
    rewrite Hasr. change (negb (truth 0)) with true. cbn iota. rewrite (A_bind _ _ _ _ _ E). fold addr.
    unfold truth. destruct (decide (addr = 0)) as [E0|Hn].
    + rewrite E0. exists s'. split; [done|]. split; apply H.
    + rewrite (proj2 (Z.eqb_neq addr 0)) by done. cbn [negb andb].
      destruct (Z.eqb_spec (v4_Address (ipv4 (rq_p s))) addr) as [Ea|_]; cbn [negb].
      * exists s'. split; [done|]. split; [apply H|]. rewrite (sent_profile _ _ _ _ H).
        destruct (rq_p s) eqn:Ep. cbn in Ea. subst addr. rewrite <- Ea. by destruct ipv4.
      * eexists. split; [done|]. split; [apply H|]. cbn. by rewrite (sent_profile _ _ _ _ H).
Qed.
Definition demo_status : cstr := status_line (FQuoted (dotted 10 2 0 7)) (COMMA :: dotted 10 2 0 1).
Lemma at_address_witness :
  exists s', requestGetIPAddress_at (answers [([demo_status], OK_)]) IpFamilyV4 demo_rq = Ok (0, s')
    /\ v4_Address (ipv4 (rq_p s')) = 117441034.
Proof.
  destruct (proj2 (at_address (answers [([demo_status], OK_)]) demo_rq (FQuoted (dotted 10 2 0 7))
    (COMMA :: dotted 10 2 0 1) 10 2 0 7 0 IpFamilyV4 demo_ready eq_refl
    ltac:(by unfold octet) ltac:(by unfold octet) ltac:(by unfold octet) ltac:(by unfold octet)
    (or_intror eq_refl) (or_intror (ex_intro _ _ eq_refl))
    ltac:(apply (bool_decide_unpack _); by vm_compute) ltac:(answered))) as (s' & E & _ & Hp).
  exists s'. split; [exact E|]. by rewrite Hp.
Defined.

(** ** The profile *)
(** The report of a context: the fields of AT+QICSGP. *)
Definition context_fields (c : context) : list (nat * field) :=
  [(1%nat, FDec (c_iptype c)); (0%nat, FQuoted (default [] (c_apn c))); (0%nat, FQuoted (default [] (c_user c)));
   (0%nat, FQuoted (default [] (c_password c))); (0%nat, FDec (c_auth c))].
Definition context_line (c : context) : cstr := B "+QICSGP" ++ COLON :: show_fields (context_fields c).
Definition text_ok (t : option cstr) : Prop := QUOTE ∉ default [] t /\ (length (default [] t) < 64)%nat.
Record context_ok (c : context) : Prop := {
  cx_apn : text_ok (c_apn c); cx_user : text_ok (c_user c); cx_password : text_ok (c_password c);
  cx_iptype : 0 <= c_iptype c < 4; cx_auth : int_ok (c_auth c); cx_line : short_line (context_line c) }.
(** The profile after the reading of a context. *)
Definition with_iptype (p : PROFILE_T) : PROFILE_T :=
  p <| iptype := if truth (enable_ipv4 p) && truth (enable_ipv6 p) then 3 else if truth (enable_ipv6 p) then 2 else 1 |>.
Definition with_context (c : context) (p : PROFILE_T) : PROFILE_T :=
  p <| old_apn := default [] (c_apn c) |> <| old_user := default [] (c_user c) |>
    <| old_password := default [] (c_password c) |> <| old_auth := c_auth c |> <| old_iptype := c_iptype c |>.

(** The context as it is read: an absent text is an empty one. *)
Definition read_context (c : context) : context :=
  mkContext (Some (default [] (c_apn c))) (Some (default [] (c_user c))) (Some (default [] (c_password c))) (c_auth c) (c_iptype c).
Lemma qicsgp_line c : context_ok c -> qicsgp_fields (context_line c) = Ok (-1, read_context c).
Proof.
  intros [[Ha _] [Hu _] [Hw _] Hi Hau Hl]. unfold qicsgp_fields, context_line.
  rewrite (scanf_line (B "+QICSGP") (context_fields c)); [done|..|done|exact Hl].
  - apply (bool_decide_unpack _). by vm_compute.
  - unfold context_fields. repeat first [apply Forall_nil_2|apply Forall_cons_2; [cbn; first [assumption|lia]|]].
  - intros f [= <-]. unfold show_blanks. cbn. apply show_int_chars.
Qed.
Lemma field64_ok t : text_ok t -> field64 (Some (default [] t)) = Ok (default [] t).
Proof. intros [_ H]. unfold field64. cbn [default]. by rewrite (proj2 (Nat.ltb_lt _ _)). Qed.
Lemma ip_name_ok i : 0 <= i < 4 -> exists n, ip_name i = Ok n.
Proof.
  intros H. assert (i = 0 \/ i = 1 \/ i = 2 \/ i = 3) as [->|[->|[->| ->]]] by lia; by eexists.
Qed.
Lemma store_context_ok c s : context_ok c ->
  store_context (read_context c) s = Ok (tt, s <| rq_p := with_context c (rq_p s) |>).
Proof.
  intros [Ha Hu Hw Hi _ _]. destruct (ip_name_ok _ Hi) as (n & Hn).
  unfold store_context, mbind, AM_bind, M_bind, M_lift. unfold read_context. cbn [c_apn c_user c_password c_auth c_iptype].
  rewrite !field64_ok by done. unfold updprof, M_upd. by rewrite Hn.
Qed.

Definition same_context (c : context) (p : PROFILE_T) : Prop :=
  default [] (c_apn c) = default [] (apn p) /\ default [] (c_user c) = default [] (user p)
  /\ default [] (c_password c) = default [] (password p) /\ c_auth c = auth p /\ c_iptype c = iptype p.
Lemma same_profile_spec c p : same_profile (with_context c p) = true <-> same_context c p.
Proof.
  unfold same_profile, same_context. rewrite !andb_true_iff, !bool_decide_eq_true, !Z.eqb_eq. cbn. tauto.
Qed.
Lemma qicsgp_query_ok dev fuel s l : at_ready s -> replies dev (calls s) [l] OK_ -> strStartsWith l (B "+QICSGP:") = true ->
  exists s', qicsgp_query dev (S fuel) s = Ok ((0, Some (mkATResponse 1 (Some OK_) [l])), s')
    /\ sent s s' (B "AT+QICSGP=" ++ show_int (pdp (rq_p s))) [].
Proof.
  intros Hr Hd Hl. destruct (singleline_one dev (B "AT+QICSGP=" ++ show_int (pdp (rq_p s))) (B "+QICSGP:") s l Hr Hd Hl) as (s' & E & H).
  exists s'. split; [|done]. cbn [qicsgp_query]. rewrite (A_bind getprof _ s (rq_p s) s) by done.
  rewrite (A_bind _ _ _ _ _ E). done.
Qed.
Lemma get_profile_at dev s c fuel : at_ready s -> context_ok c -> replies dev (calls s) [context_line c] OK_ ->
  exists s1, requestGetProfile_at dev (S fuel) s = Ok (-1, s1)
    /\ rq_p s1 = with_context c (with_iptype (rq_p s)) /\ at_ready s1 /\ calls s1 = S (calls s)
    /\ commands s1 = commands s ++ written (B "AT+QICSGP=" ++ show_int (pdp (rq_p s))).
Proof.
  intros Hr Hc Hd. set (s0 := s <| rq_p := with_iptype (rq_p s) |>).
  destruct (qicsgp_query_ok dev fuel s0 (context_line c)) as (s1 & E & H); [done|done| |].
  { apply (starts_with_app (B "+QICSGP:")). }
  exists (s1 <| rq_p := with_context c (rq_p s1) |>). split.
  - unfold requestGetProfile_at. rewrite (A_bind (updprof _) _ s tt s0) by done.
    rewrite (A_bind getprof _ s0 (rq_p s0) s0) by done. rewrite (A_bind _ _ _ _ _ E). cbn [fst snd].
    change (negb (at_response_error 0 _)) with true. cbn iota.
    rewrite (A_bind _ _ s1 (-1, read_context c) s1).
    2: { rewrite (A_bind _ _ s1 (context_line c) s1) by done. unfold M_lift. by rewrite (qicsgp_line c Hc). }
    rewrite (A_bind _ _ s1 _ _ (store_context_ok c s1 Hc)). done.
  - rewrite (sent_profile _ _ _ _ H). split_and!; [done|apply H|exact (sent_calls _ _ _ _ H)|exact (sent_out _ _ _ _ H)].
Qed.

(** Profile synchronisation over AT.  When the modem reports a context with AT+QICSGP,
    its five fields are stored as the old profile, although the result is -1 (a report
    with exactly four fields is expected).  Setting the profile then writes nothing when
    the context is the one wanted, and otherwise writes AT+QICSGP with the five wanted
    fields once. *)
Theorem at_profile_sync dev s c fuel (p := with_iptype (rq_p s)) :
  at_ready s -> context_ok c -> replies dev (calls s) [context_line c] OK_ ->
  exists s1, requestGetProfile_at dev (S fuel) s = Ok (-1, s1)
    /\ rq_p s1 = with_context c p
    /\ (same_context c p -> requestSetProfile_at dev s1 = Ok (0, s1))
    /\ (~ same_context c p -> replies dev (S (calls s)) [] OK_ ->
        exists s2, requestSetProfile_at dev s1 = Ok (1, s2) /\ rq_p s2 = rq_p s1
          /\ commands s2 = commands s ++ written (B "AT+QICSGP=" ++ show_int (pdp (rq_p s))) ++ written (qicsgp_set p)).
Proof.
  intros Hr Hc Hd. destruct (get_profile_at dev s c fuel Hr Hc Hd) as (s1 & E & Hp & Hr1 & Hn & Ho).
  exists s1. split; [exact E|]. split; [exact Hp|].
  assert (Hi : exists n, ip_name (iptype (rq_p s1)) = Ok n).
  { rewrite Hp. unfold p, with_iptype. cbn. by repeat destruct (truth _); eexists. }
  destruct Hi as (n & Hi).
  split.
  - intros Hs. apply same_profile_spec in Hs. fold p in Hp. rewrite <- Hp in Hs. unfold requestSetProfile_at.
    rewrite (A_bind getprof _ s1 (rq_p s1) s1) by done. rewrite (A_bind _ _ s1 n s1) by (unfold M_lift; by rewrite Hi).
    by rewrite Hs.
  - intros Hs Hd2. rewrite <- Hn in Hd2.
    destruct (send_at_replies dev (qicsgp_set (rq_p s1)) true s1 [] OK_ Hr1 Hd2) as (s2 & E2 & H2).
    exists s2. split; [|split; [apply H2|]].
    + unfold requestSetProfile_at. rewrite (A_bind getprof _ s1 (rq_p s1) s1) by done.
      rewrite (A_bind _ _ s1 n s1) by (unfold M_lift; by rewrite Hi).
      destruct (same_profile (rq_p s1)) eqn:Es; [rewrite Hp in Es; by apply same_profile_spec in Es|].
      rewrite (A_bind _ _ _ _ _ E2). cbn [fst snd]. change (at_response_error 0 _) with false. done.
    + rewrite (sent_out _ _ _ _ H2), Ho, <- app_assoc. by rewrite Hp.
Qed.
Definition demo_context : context := mkContext (Some (B "cmnet")) (Some []) (Some []) 0 1.
Lemma at_profile_sync_witness :
  let s := demo_rq <| rq_p := PROFILE_zero <| pdp := 1 |> <| apn := Some (B "cmnet") |> <| enable_ipv4 := 1 |> |> in
  exists s1, requestGetProfile_at (answers [([context_line demo_context], OK_)]) 1 s = Ok (-1, s1)
    /\ requestSetProfile_at (answers [([context_line demo_context], OK_)]) s1 = Ok (0, s1).
Proof.
  intros s. destruct (at_profile_sync (answers [([context_line demo_context], OK_)]) s demo_context 0)
    as (s1 & E & _ & H & _).
  - exact demo_ready.
  - split; [split; apply (bool_decide_unpack _); by vm_compute|split; apply (bool_decide_unpack _); by vm_compute
      |split; apply (bool_decide_unpack _); by vm_compute|done|done|apply (bool_decide_unpack _); by vm_compute].
  - answered.
  - exists s1. split; [exact E|]. by apply H.
Defined.
