(* ===== verification/UdhcpcSpec.v ===== *)
(** Properties of the configuration of devices: the text of addresses, the commands that set
    an address, and /etc/resolv.conf. *)
From S2P Require Import Prelude CmTypes QmiRequests AtTok AtTokSpec NetSys Udhcpc Atc AtSettingsSpec.
#[local] Open Scope Z_scope.
#[local] Abbreviation B := bytes_of_string.

(** ** Addresses *)

(** An address in host order from its parts, the first part the most significant. *)
Definition host_addr (a b c d : Z) : Z := d + c * 2 ^ 8 + b * 2 ^ 16 + a * 2 ^ 24.
Lemma addr_byte_div a k : 0 <= k -> addr_byte a k = a / 2 ^ (8 * k) mod 256.
Proof. intros Hk. unfold addr_byte. change 0xff with (Z.ones 8). by rewrite Z.land_ones, Z.shiftr_div_pow2 by lia. Qed.

(** Arithmetic on the bytes of an address. *)
Ltac byte_lia :=
  rewrite ?addr_byte_div by lia; cbn [Z.mul Z.pow Z.pow_pos Pos.iter Pos.mul] in *;
  Z.to_euclidean_division_equations; lia.

Lemma host_addr_bytes a b c d : octet a -> octet b -> octet c -> octet d ->
  addr_byte (host_addr a b c d) 3 = a /\ addr_byte (host_addr a b c d) 2 = b
  /\ addr_byte (host_addr a b c d) 1 = c /\ addr_byte (host_addr a b c d) 0 = d.
Proof. unfold octet, host_addr. intros. split_and!; byte_lia. Qed.
Lemma ipv4Str_host a b c d : octet a -> octet b -> octet c -> octet d -> ipv4Str (host_addr a b c d) = dotted a b c d.
Proof. intros Ha Hb Hc Hd. destruct (host_addr_bytes a b c d) as (E1 & E2 & E3 & E4); try done. unfold ipv4Str. by rewrite E1, E2, E3, E4. Qed.

(** Every address is one from parts. *)
Lemma addr_parts x : 0 <= x < 2 ^ 32 ->
  octet (addr_byte x 3) /\ octet (addr_byte x 2) /\ octet (addr_byte x 1) /\ octet (addr_byte x 0)
  /\ host_addr (addr_byte x 3) (addr_byte x 2) (addr_byte x 1) (addr_byte x 0) = x.
Proof. unfold octet, host_addr. intros Hx. split_and!; byte_lia. Qed.

Lemma qmi2addr_host a b c d : octet a -> octet b -> octet c -> octet d ->
  qmi2addr (host_addr a b c d) = host_addr d c b a.
Proof.
  unfold octet, host_addr. intros. unfold qmi2addr. set (x := d + _ + _ + _).
  change 0xff00 with (Z.shiftl (Z.ones 8) 8). change 0xff0000 with (Z.shiftl (Z.ones 8) 16).
  rewrite !land_byte by lia. rewrite !Z.shiftr_div_pow2, !Z.shiftl_mul_pow2 by lia.
  replace (x / 2 ^ 24) with a by (subst x; Z.to_euclidean_division_equations; lia).
  replace (x / 2 ^ 8 / 2 ^ 8 mod 256) with b by (subst x; Z.to_euclidean_division_equations; lia).
  replace ((x * 2 ^ 8) / 2 ^ 16 mod 256) with c by (subst x; Z.to_euclidean_division_equations; lia).
  rewrite (lor_high a b 8), (lor_high _ c 16), (lor_high _ x 24) by lia. unfold u32. subst x.
  Z.to_euclidean_division_equations; lia.
Qed.

(** The text of an address is read back, as its parts and as the address in network order;
    swapping twice is the identity. *)
Theorem ipv4Str_roundtrip x : 0 <= x < 2 ^ 32 ->
  scan_dotted 4 (ipv4Str x) = [addr_byte x 3; addr_byte x 2; addr_byte x 1; addr_byte x 0]
  /\ ipv4_of_text (ipv4Str x) = qmi2addr x /\ qmi2addr (qmi2addr x) = x.
Proof.
  intros Hx. destruct (addr_parts x Hx) as (H3 & H2 & H1 & H0 & E).
  change (ipv4Str x) with (dotted (addr_byte x 3) (addr_byte x 2) (addr_byte x 1) (addr_byte x 0)).
  split; [by apply scan_dotted_spec|]. rewrite ipv4_of_dotted by done.
  assert (Q : qmi2addr x = host_addr (addr_byte x 0) (addr_byte x 1) (addr_byte x 2) (addr_byte x 3)).
  { rewrite <- E at 1. by apply qmi2addr_host. }
  rewrite Q. split; [unfold host_addr; lia|]. by rewrite qmi2addr_host.
Qed.

(** The AT manager keeps an address in network order, where [udhcpc_start] expects host order:
    what it compares the address of the device with is the address the wrong way round. *)
Theorem at_address_reversed a b c d : octet a -> octet b -> octet c -> octet d ->
  ipv4Str (ipv4_of_text (dotted a b c d)) = dotted d c b a
  /\ qmi2addr (ipv4_of_text (dotted a b c d)) = host_addr a b c d.
Proof.
  intros Ha Hb Hc Hd. rewrite ipv4_of_dotted by done.
  replace (a + b * 2 ^ 8 + c * 2 ^ 16 + d * 2 ^ 24) with (host_addr d c b a) by (unfold host_addr; lia).
  split; [by apply ipv4Str_host|by apply qmi2addr_host].
Qed.

(** ** Commands *)

(** The system after a list of commands. *)
Definition run_commands {W} `{NetSys W} (cs : list shell_command) (w : W) : W := foldl (fun w c => (sys_run c w).2) w cs.

(** The netmask of a prefix, as [update_ipv4_address] computes it. *)
Definition prefix_netmask (prefix : Z) : Z := u32 (Z.shiftl (Z.shiftr 0xFFFFFFFF (32 - prefix)) (32 - prefix)).
Lemma netmask_counts prefix : 1 <= prefix <= 32 -> mask_prefix (prefix_netmask prefix) = prefix.
Proof.
  intros H. assert (K : forallb (fun p => mask_prefix (prefix_netmask p) =? p) (seqZ 1 32) = true) by by vm_compute.
  rewrite forallb_forall in K. apply Z.eqb_eq, K, list_elem_of_In, elem_of_seqZ. lia.
Qed.

(** *** The buffers of the command lines *)
Lemma show_digits_short base fuel : forall k n acc,
  1 < base -> 0 <= n < base ^ Z.of_nat (S k) -> (length (show_digits fuel base n acc) <= S k + length acc)%nat.
Proof.
  induction fuel as [|f IH]; intros k n acc Hb Hn; cbn [show_digits]; [lia|].
  destruct (Z.ltb_spec n base) as [L|L]; [cbn; lia|]. destruct k as [|k]; [rewrite Z.pow_1_r in Hn; lia|].
  assert (Hq : 0 <= n / base < base ^ Z.of_nat (S k)).
  { rewrite (Nat2Z.inj_succ (S k)), Z.pow_succ_r in Hn by lia.
    split; [apply Z.div_pos; lia|]. apply Z.div_lt_upper_bound; lia. }
  specialize (IH k (n / base) (digit_char (n mod base) :: acc) Hb Hq). cbn [length] in IH. lia.
Qed.
Lemma show_nat_short base k n : 1 < base -> 0 <= n < base ^ Z.of_nat (S k) -> (length (show_nat base n) <= S k)%nat.
Proof. intros Hb Hn. pose proof (show_digits_short base (S (Z.to_nat (Z.log2 n))) k n [] Hb Hn) as H. cbn [length] in H. unfold show_nat. lia. Qed.
Lemma show_byte_short z : 0 <= z < 256 -> (length (show_nat 10 z) <= 3)%nat.
Proof. intros Hz. apply (show_nat_short 10 2); cbn; lia. Qed.
Lemma show_int_short z : 0 <= z < 256 -> (length (show_int z) <= 3)%nat.
Proof. intros Hz. unfold show_int. rewrite (proj2 (Z.ltb_ge z 0)) by lia. by apply show_byte_short. Qed.
Lemma ipv4Str_short a : (length (ipv4Str a) <= 15)%nat.
Proof.
  assert (Hb : forall k, 0 <= k -> (length (show_nat 10 (addr_byte a k)) <= 3)%nat).
  { intros k Hk. apply show_byte_short. rewrite addr_byte_div by done. by apply Z.mod_pos_bound. }
  pose proof (Hb 0 ltac:(lia)). pose proof (Hb 1 ltac:(lia)). pose proof (Hb 2 ltac:(lia)). pose proof (Hb 3 ltac:(lia)).
  unfold ipv4Str. repeat first [rewrite length_app|progress cbn [length]]. lia.
Qed.
Lemma show_word_short z : 0 <= z < 65536 -> (length (show_hex z) <= 4)%nat.
Proof. intros Hz. unfold show_hex. rewrite length_fmap. apply (show_nat_short 16 3); cbn; lia. Qed.
Lemma ipv6_words_ok n : forall a, bytes_ok a -> length a = (2 * n)%nat ->
  length (ipv6_words a) = n /\ Forall (fun w => 0 <= w < 65536) (ipv6_words a).
Proof.
  induction n as [|n IH]; intros a Ha Hl; [by destruct a|]. destruct a as [|x [|y a]]; try (cbn in Hl; lia).
  apply Forall_cons in Ha as [Hx Ha]. apply Forall_cons in Ha as [Hy Ha]. cbn in Hl. destruct (IH a Ha ltac:(lia)) as [L F].
  cbn [ipv6_words length]. split; [by rewrite L|]. apply Forall_cons_2; [|done]. unfold byte_ok in *. rewrite Z.shiftl_mul_pow2; lia.
Qed.
Lemma join_short k l : Forall (fun s : cstr => (length s <= k)%nat) l -> (length (join 58 l) <= length l * S k - 1)%nat.
Proof.
  induction 1 as [|s l Hs Hl IH]; [done|]. destruct l as [|t l]; [cbn in *; lia|].
  change (join 58 (s :: t :: l)) with (s ++ 58 :: join 58 (t :: l)). rewrite length_app. cbn [length] in *. lia.
Qed.
Lemma ipv6Str_short a : bytes_ok a -> length a = 16%nat -> (length (ipv6Str a) <= 39)%nat.
Proof.
  intros Ha Hl. destruct (ipv6_words_ok 8 a Ha Hl) as [L F]. unfold ipv6Str.
  pose proof (join_short 4 (show_hex <$> ipv6_words a)) as J. rewrite length_fmap, L in J. apply J.
  apply Forall_fmap. eapply Forall_impl; [exact F|]. intros z. apply show_word_short.
Qed.

(** Every command fits its buffer of 128 bytes with the NUL: the name of a device has at most
    31 bytes, a prefix is a byte. *)
Theorem commands_fit dev a m gw a6 prefix :
  (length dev <= 31)%nat -> 0 <= prefix < 256 -> bytes_ok a6 -> length a6 = 16%nat ->
  Forall (fun c => (length (command_line c) < 128)%nat)
    [If_up dev; If_down dev; If_zero dev; If_addr dev (ipv4Str a) (ipv4Str m); If_addr6 dev (ipv6Str a6) prefix;
     Ip_flush 4 dev; Ip_flush 6 dev; Ip_add 4 (ipv4Str a) prefix dev; Ip_add 6 (ipv6Str a6) prefix dev;
     Ip_default 4 (Some (ipv4Str gw)) dev; Ip_default 6 None dev; Route_del dev; Route_add (ipv4Str gw) dev; Route6_add dev; Dhcp dev].
Proof.
  intros Hd Hp Ha Hl. pose proof (ipv4Str_short a). pose proof (ipv4Str_short m). pose proof (ipv4Str_short gw).
  pose proof (ipv6Str_short a6 Ha Hl). pose proof (show_int_short prefix Hp).
  pose proof (show_int_short 4 ltac:(lia)). pose proof (show_int_short 6 ltac:(lia)).
  repeat apply Forall_cons_2; [..|apply Forall_nil_2]; cbn [command_line];
    repeat first [rewrite length_app|progress cbn [length]];
    repeat match goal with |- context [length (bytes_of_string ?s)] =>
      let n := eval vm_compute in (length (bytes_of_string s)) in change (length (bytes_of_string s)) with n end; lia.
Qed.

Section Addresses.
Context {W : Type} `{NetSys W}.

(** Routes are deleted until that fails. *)
Lemma route_del_runs r : forall fuel ifname w,
  (r < fuel)%nat -> (forall k, (k < r)%nat -> (sys_run (Route_del ifname) (run_commands (replicate k (Route_del ifname)) w)).1 = 0) ->
  (sys_run (Route_del ifname) (run_commands (replicate r (Route_del ifname)) w)).1 <> 0 ->
  route_del_loop fuel ifname w = Ok (tt, run_commands (replicate (S r) (Route_del ifname)) w).
Proof.
  induction r as [|r IH]; intros fuel ifname w Hf Hr Hl; (destruct fuel as [|f]; [lia|]);
    cbn [route_del_loop]; unfold mbind, M_bind, ql_system.
  - cbn [replicate run_commands foldl] in Hl |- *. destruct (sys_run _ w) as [s w']. cbn in *.
    unfold truth. by rewrite (proj2 (Z.eqb_neq s 0) Hl).
  - pose proof (Hr 0%nat ltac:(lia)) as H0. cbn [replicate run_commands foldl] in H0 |- *.
    destruct (sys_run (Route_del ifname) w) as [s w'] eqn:E. cbn in H0 |- *. subst s. change (truth 0) with false. cbn iota.
    rewrite (IH f ifname w'); [done|lia| |].
    + intros k Hk. specialize (Hr (S k) ltac:(lia)). cbn [replicate run_commands foldl] in Hr. by rewrite E in Hr.
    + cbn [replicate run_commands foldl] in Hl. by rewrite E in Hl.
Qed.

Lemma sys_bind {A} c (k : Z -> M W A) w : (ql_system c ≫= k) w = k (sys_run c w).1 (sys_run c w).2.
Proof. unfold mbind, M_bind, ql_system. by destruct (sys_run c w). Qed.
Lemma ask_bind {A B} (f : W -> A) (k : A -> M W B) w : (ask f ≫= k) w = k (f w) w.
Proof. done. Qed.
Lemma M_bind_ok {A B} (m : M W A) (k : A -> M W B) w a w' : m w = Ok (a, w') -> (m ≫= k) w = k a w'.
Proof. unfold mbind, M_bind. by intros ->. Qed.

Lemma ip_commands fuel ifname ip gw prefix w :
  sys_access (B "/sbin/ip") w = 0 ->
  update_ipv4_address fuel ifname ip gw prefix w
  = Ok (tt, run_commands [Ip_flush 4 ifname; Ip_add 4 ip prefix ifname; Ip_default 4 (Some gw) ifname] w).
Proof. intros E. unfold update_ipv4_address. rewrite ask_bind, E. change (negb (truth 0)) with true. cbn iota. by rewrite !sys_bind. Qed.
Lemma ifconfig_commands fuel ifname ip gw prefix w r :
  sys_access (B "/sbin/ip") w <> 0 -> 1 <= prefix <= 32 ->
  let set_mask := run_commands [If_addr ifname ip (ipv4Str (prefix_netmask prefix))] w in
  (r < fuel)%nat -> (forall k, (k < r)%nat -> (sys_run (Route_del ifname) (run_commands (replicate k (Route_del ifname)) set_mask)).1 = 0) ->
  (sys_run (Route_del ifname) (run_commands (replicate r (Route_del ifname)) set_mask)).1 <> 0 ->
  update_ipv4_address fuel ifname ip gw prefix w
  = Ok (tt, run_commands ([If_addr ifname ip (ipv4Str (prefix_netmask prefix))] ++ replicate (S r) (Route_del ifname)
                     ++ [Route_add gw ifname]) w).
Proof.
  intros E Hp set_mask Hf Hr Hl. unfold update_ipv4_address. rewrite ask_bind. unfold truth.
  rewrite (proj2 (Z.eqb_neq _ _) E). cbn [negb]. rewrite (proj2 (Z.leb_le 1 prefix)), (proj2 (Z.leb_le prefix 32)) by lia.
  cbn [andb]. fold (prefix_netmask prefix).
  rewrite (M_bind_ok (M_lift (Ok (prefix_netmask prefix))) _ w (prefix_netmask prefix) w eq_refl), sys_bind.
  rewrite (M_bind_ok _ _ _ tt (run_commands (replicate (S r) (Route_del ifname)) set_mask)) by (by apply route_del_runs).
  rewrite sys_bind. unfold run_commands. by rewrite !foldl_app.
Qed.

(** An address is set with the prefix that the mask stands for.  With /sbin/ip the device is
    flushed and gets the address, its prefix and the default route; without it [ifconfig] is
    given the mask of the modem itself, all default routes of the device go and the new one
    comes last. *)
Theorem ipv4_configured fuel ifname prefix v4 w r :
  1 <= prefix <= 32 -> v4_SubnetMask v4 = prefix_netmask prefix -> v4_Address v4 <> 0 -> v4_DnsPrimary v4 = 0 ->
  let addr := ipv4Str (v4_Address v4) in let gw := ipv4Str (v4_Gateway v4) in
  let set_mask := run_commands [If_addr ifname addr (ipv4Str (v4_SubnetMask v4))] w in
  (r < fuel)%nat -> (forall k, (k < r)%nat -> (sys_run (Route_del ifname) (run_commands (replicate k (Route_del ifname)) set_mask)).1 = 0) ->
  (sys_run (Route_del ifname) (run_commands (replicate r (Route_del ifname)) set_mask)).1 <> 0 ->
  update_ip_address_by_qmi fuel ifname (Some v4) None w
  = Ok (tt, if decide (sys_access (B "/sbin/ip") w = 0)
            then run_commands [Ip_flush 4 ifname; Ip_add 4 addr prefix ifname; Ip_default 4 (Some gw) ifname] w
            else run_commands ([If_addr ifname addr (ipv4Str (v4_SubnetMask v4))] ++ replicate (S r) (Route_del ifname)
                          ++ [Route_add gw ifname]) w).
Proof.
  intros Hp Hm Ha Hd addr gw set_mask Hf Hr Hl. unfold update_ip_address_by_qmi, update_ipv4_by_qmi, M_when.
  subst set_mask. rewrite Hm, netmask_counts, Hd in * by done. unfold truth at 1. rewrite (proj2 (Z.eqb_neq _ _) Ha). cbn [negb].
  unfold mbind, M_bind. case_decide as D; [by rewrite ip_commands|by rewrite (ifconfig_commands _ _ _ _ _ w r)].
Qed.
End Addresses.

(** ** /etc/resolv.conf *)

(** A line that is read as it stands, and a file of lines. *)
Definition line_ok (l : cstr) : Prop := l <> [] /\ LF ∉ l /\ 0 ∉ l /\ (length l < 254)%nat.
#[export] Instance line_ok_dec l : Decision (line_ok l).
Proof. unfold line_ok. apply _. Defined.
Definition file_of (ls : list cstr) : cstr := concat ((fun l => l ++ [LF]) <$> ls).
(** The lines that do not carry the tag. *)
Definition foreign (tag : cstr) (ls : list cstr) : list cstr := filter (fun l => strstr l tag = false) ls.
Definition own_line (tag dns : cstr) : cstr := B "nameserver " ++ dns ++ 32 :: tag.
Definition own_lines (tag : cstr) (dns1 dns2 : option cstr) : list cstr :=
  option_list (own_line tag <$> dns1) ++ option_list (own_line tag <$> dns2).

Lemma fgets_line k l : forall room rest,
  LF ∉ l -> (length l < room)%nat -> fgets_all k room (l ++ LF :: rest) = (l ++ [LF]) :: fgets_all k k rest.
Proof.
  induction l as [|c l IH]; intros room rest Hl Hr; cbn [app fgets_all]; [done|].
  apply not_elem_of_cons in Hl as [Hc Hl]. cbn [length] in Hr.
  rewrite (proj2 (Z.eqb_neq c LF)), (proj2 (Nat.leb_gt room 1)) by (congruence || lia). cbn [orb].
  by rewrite IH by (done || lia).
Qed.
Lemma fgets_file ls : Forall line_ok ls -> fgets_all 254 254 (file_of ls) = (fun l => l ++ [LF]) <$> ls.
Proof.
  induction 1 as [|l ls (_ & Hl & _ & Hn) _ IH]; [done|]. unfold file_of in *. cbn [fmap list_fmap concat].
  rewrite <- app_assoc. cbn [app]. by rewrite fgets_line, IH.
Qed.
Lemma until_nul_line l : 0 ∉ l -> until_nul (l ++ [LF]) = l ++ [LF].
Proof.
  induction l as [|c l IH]; [done|]. intros [Hc Hl]%not_elem_of_cons. cbn.
  rewrite (proj2 (Z.eqb_neq c 0)) by congruence. by rewrite IH.
Qed.
Lemma chomp_line l : l <> [] -> chomp (l ++ [LF]) = l.
Proof.
  intros Hl. unfold chomp. rewrite last_snoc, bool_decide_true, length_app, removelast_last by done.
  by destruct l as [|c [|]].
Qed.

Lemma scan_dns_file tag ls : forall info m,
  Forall line_ok ls -> (length info + length (foreign tag ls) < MAX_DNS)%nat ->
  scan_dns tag ((fun l => l ++ [LF]) <$> ls) info m
  = (info ++ foreign tag ls, m + Z.of_nat (length ls - length (foreign tag ls))).
Proof.
  unfold foreign. induction ls as [|l ls IH]; intros info m Hls Hm; cbn [fmap list_fmap scan_dns].
  { rewrite app_nil_r. f_equal. cbn. lia. }
  apply Forall_cons in Hls as [(Hl & _ & H0 & _) Hls]. rewrite until_nul_line, chomp_line by done.
  pose proof (length_filter (fun l => strstr l tag = false) ls) as F.
  rewrite filter_cons in Hm |- *. destruct (strstr l tag) eqn:S; cbn [decide bool_eq_dec] in *.
  - rewrite decide_False in Hm |- * by done. rewrite IH by done. f_equal. cbn [length]. lia.
  - rewrite decide_True in Hm |- * by done. cbn [length] in Hm. rewrite (proj2 (Nat.eqb_neq _ _)) by (rewrite length_app; cbn; lia).
    rewrite IH; [|done|rewrite length_app; cbn; lia]. rewrite <- app_assoc. f_equal.
Qed.

Lemma begins_app p s : begins p (p ++ s) = true.
Proof. induction p as [|c p IH]; [by destruct s|]. cbn. by rewrite Z.eqb_refl. Qed.
Lemma strstr_app pre s post : strstr (pre ++ s ++ post) s = true.
Proof.
  induction pre as [|c pre IH]; cbn [app].
  - destruct (s ++ post) as [|c l] eqn:E; [destruct s; done|]. cbn [strstr]. rewrite <- E, begins_app. done.
  - cbn [strstr]. by rewrite IH, orb_true_r.
Qed.
Lemma own_line_tagged tag dns : strstr (own_line tag dns) tag = true.
Proof.
  unfold own_line. replace (B "nameserver " ++ dns ++ 32 :: tag) with ((B "nameserver " ++ dns ++ [32]) ++ tag ++ []).
  - apply strstr_app.
  - by rewrite app_nil_r, <- !app_assoc.
Qed.
Lemma foreign_own_line tag (o : option cstr) : foreign tag (option_list (own_line tag <$> o)) = [].
Proof.
  destruct o as [d|]; [|done]. change (foreign tag [own_line tag d] = []). unfold foreign.
  rewrite filter_cons_False; [done|]. by rewrite own_line_tagged.
Qed.
Lemma foreign_app tag l k : foreign tag (l ++ k) = foreign tag l ++ foreign tag k.
Proof. apply filter_app. Qed.
Lemma foreign_own tag dns1 dns2 ls : foreign tag (own_lines tag dns1 dns2 ++ foreign tag ls) = foreign tag ls.
Proof.
  unfold own_lines. rewrite !foreign_app, !foreign_own_line. cbn [app]. unfold foreign. by rewrite list_filter_filter_l.
Qed.
Lemma file_of_app l k : file_of (l ++ k) = file_of l ++ file_of k.
Proof. unfold file_of. by rewrite fmap_app, concat_app. Qed.
Lemma nameserver_line tag (o : option cstr) : default [] (nameserver tag <$> o) = file_of (option_list (own_line tag <$> o)).
Proof.
  destruct o as [d|]; [|done]. change (nameserver tag d = (own_line tag d ++ [LF]) ++ []).
  unfold nameserver, own_line. by rewrite app_nil_r, <- !app_assoc.
Qed.
Lemma dns_text_file tag dns1 dns2 ls : dns_text tag dns1 dns2 ls = file_of (own_lines tag dns1 dns2 ++ ls).
Proof. unfold dns_text, own_lines. by rewrite !nameserver_line, !file_of_app, <- app_assoc. Qed.

(** The text of name servers fits a line of the file. *)
Definition dns_ok (tag : cstr) (o : option cstr) : Prop := Forall line_ok (option_list (own_line tag <$> o)).

Section Resolv.
Context {W : Type} `{NetSys W}.

(** The file can be read and written, and holds what was written. *)
Definition file_usable (w : W) : Prop := sys_open resolv_conf O_read w = 0 /\ sys_open resolv_conf O_create w = 0.
Hypothesis write_usable : forall t w, file_usable w -> file_usable (sys_write resolv_conf t w).
Hypothesis read_write : forall t w, sys_read resolv_conf (sys_write resolv_conf t w) = Some t.

Lemma update_file iptype ifname dns1 dns2 ls w :
  let tag := take 63 (dns_tag iptype ifname) in
  file_usable w -> sys_read resolv_conf w = Some (file_of ls) -> Forall line_ok ls ->
  (length (foreign tag ls) < MAX_DNS)%nat -> is_Some dns1 \/ (length (foreign tag ls) < length ls)%nat ->
  update_resolv_conf iptype ifname dns1 dns2 w
  = Ok (tt, sys_write resolv_conf (file_of (own_lines tag dns1 dns2 ++ foreign tag ls)) w).
Proof.
  intros tag [U1 U2] R Hls Hn Hs. unfold update_resolv_conf. fold tag. rewrite ask_bind, U1.
  change (truth 0) with false. cbn [andb]. rewrite (M_bind_ok _ _ w (file_of ls) w).
  2: { unfold mbind, M_bind, ask. by rewrite R. }
  rewrite fgets_file, scan_dns_file by done. cbn [app].
  replace (bool_decide (dns1 = None) && _) with false.
  - rewrite ask_bind, U2. change (M_when (negb (truth 0))) with (fun m : M W unit => m). cbn beta.
    unfold M_upd. by rewrite dns_text_file.
  - symmetry. apply andb_false_iff. destruct Hs as [[d ->]|Hs]; [by left|right]. apply Z.eqb_neq. lia.
Qed.

(** C31. The name servers of a device and a family are those of the last update.  An update
    owns the lines that contain its tag ("# IPV4 wwan0", cut to 63 bytes) anywhere: its own,
    and with them those of a device whose name goes on where its own ends, as wwan0_1 does.
    While the file can be read and written, and whatever its lines were, as long as
    they are under 254 bytes, not blank and without a NUL and fewer than 16 of them do not contain the
    tag, after an update with a primary server, and servers that fit such lines, the file has
    the new servers first and then the lines that do not contain the tag, unchanged and in their
    order; and a second update, with whatever servers, replaces the first. *)
Theorem resolv_conf_updated iptype ifname dns1 dns2 dns1' dns2' ls w :
  let tag := take 63 (dns_tag iptype ifname) in
  file_usable w -> sys_read resolv_conf w = Some (file_of ls) -> Forall line_ok ls ->
  (length (foreign tag ls) < MAX_DNS)%nat -> is_Some dns1 -> dns_ok tag dns1 -> dns_ok tag dns2 ->
  exists w' w'', update_resolv_conf iptype ifname dns1 dns2 w = Ok (tt, w')
    /\ sys_read resolv_conf w' = Some (file_of (own_lines tag dns1 dns2 ++ foreign tag ls))
    /\ update_resolv_conf iptype ifname dns1' dns2' w' = Ok (tt, w'')
    /\ sys_read resolv_conf w'' = Some (file_of (own_lines tag dns1' dns2' ++ foreign tag ls)).
Proof.
  intros tag U R Hls Hn Hs H1 H2. set (ls' := own_lines tag dns1 dns2 ++ foreign tag ls).
  assert (Hls' : Forall line_ok ls').
  { apply Forall_app. split.
    - by apply Forall_app.
    - rewrite Forall_forall in Hls |- *. intros l [_ Hl]%list_elem_of_filter. by apply Hls. }
  assert (F : foreign tag ls' = foreign tag ls) by apply foreign_own.
  assert (L : (length (foreign tag ls) < length ls')%nat).
  { destruct Hs as [d ->]. unfold ls', own_lines. rewrite !length_app. cbn. lia. }
  eexists _, _. split; [apply (update_file _ _ _ _ ls); auto|]. split; [apply read_write|]. split.
  - apply (update_file _ _ _ _ ls'); fold tag; rewrite ?F; auto.
  - rewrite read_write. fold tag. by rewrite F.
Qed.
End Resolv.

Lemma commands_fit_witness : (length (command_line (Ip_add 6 (ipv6Str (replicate 16 255%Z)) 128 (B "wwan0"))) < 128)%nat.
Proof.
  pose proof (commands_fit (B "wwan0") 0 0 0 (replicate 16 255%Z) 128 ltac:(cbn; lia) ltac:(lia) ltac:(by apply (bool_decide_unpack _)) eq_refl) as F.
  rewrite Forall_forall in F. apply F. apply list_elem_of_In. cbn. tauto.
Defined.

(** ** A small system *)

(** Is /sbin/ip there, how many default routes there are, /etc/resolv.conf, and the commands
    so far. *)
Record small_sys := mkSmall { sm_ip : bool; sm_routes : nat; sm_file : list Z; sm_log : list shell_command }.
#[export] Instance small_net : NetSys small_sys := {|
  sys_access f w := if decide (f = B "/sbin/ip") then b2z (negb (sm_ip w)) * ENOENT else ENOENT;
  sys_open f m w := if decide (f = resolv_conf) then 0 else ENOENT;
  sys_read f w := if decide (f = resolv_conf) then Some (sm_file w) else None;
  sys_write f t w := if decide (f = resolv_conf) then w <| sm_file := t |> else w;
  sys_readlink f w := None;
  sys_run c w := match c, sm_routes w with
                 | Route_del _, O => (1, w <| sm_log := sm_log w ++ [c] |>)
                 | Route_del _, S r => (0, w <| sm_routes := r |> <| sm_log := sm_log w ++ [c] |>)
                 | _, _ => (0, w <| sm_log := sm_log w ++ [c] |>)
                 end;
  sys_addr _ _ := 0; sys_flags _ _ := 0; sys_mtu _ _ := None; sys_set_mtu _ _ w := w; sys_rmnet_info _ _ := None |}.
Definition sm (routes : nat) (file : list cstr) : small_sys := mkSmall false routes (file_of file) [].

Lemma ipv4_configured_witness :
  update_ip_address_by_qmi 5 (B "wwan0") (Some (mkIPV4 (host_addr 10 0 0 2) (host_addr 10 0 0 1) 4294967288 0 0 0)) None (sm 1 [])
  = Ok (tt, mkSmall false 0 [] [If_addr (B "wwan0") (B "10.0.0.2") (B "255.255.255.248"); Route_del (B "wwan0");
                                Route_del (B "wwan0"); Route_add (B "10.0.0.1") (B "wwan0")]).
Proof.
  refine (ipv4_configured 5 (B "wwan0") 29 _ (sm 1 []) 1 _ _ _ _ _ _ _); try (by vm_compute); try lia.
  intros k Hk. replace k with 0%nat by lia. by vm_compute.
Defined.

Definition demo_others : list cstr := [B "nameserver 1.1.1.1"; B "nameserver 10.0.0.9 # IPV4 wwan1"].
Lemma resolv_conf_updated_witness :
  exists w' w'', update_resolv_conf 4 (B "wwan0") (Some (B "8.8.8.8")) (Some (B "8.8.4.4")) (sm 0 demo_others) = Ok (tt, w')
    /\ update_resolv_conf 4 (B "wwan0") (Some (B "9.9.9.9")) None w' = Ok (tt, w'')
    /\ sm_file w'' = file_of (B "nameserver 9.9.9.9 # IPV4 wwan0" :: demo_others).
Proof.
  destruct (resolv_conf_updated ltac:(by intros t w [? ?]) ltac:(done) 4 (B "wwan0") (Some (B "8.8.8.8")) (Some (B "8.8.4.4"))
    (Some (B "9.9.9.9")) None demo_others (sm 0 demo_others)) as (w' & w'' & E1 & _ & E2 & R).
  - done.
  - done.
  - by apply (bool_decide_unpack _).
  - by vm_compute; lia.
  - done.
  - by apply (bool_decide_unpack _).
  - by apply (bool_decide_unpack _).
  - exists w', w''. split; [exact E1|]. split; [exact E2|]. injection R as R. rewrite R. by vm_compute.
Defined.

(** What an update does to other files: a blank line becomes two, the seventeenth line goes,
    and so does the line of another device whose name starts with the name of this one. *)
Definition after_update (file : list Z) : list Z :=
  match update_resolv_conf 4 (B "wwan0") (Some (B "8.8.8.8")) None (mkSmall true 0 file []) with
  | Ok (_, w) => sm_file w | _ => [] end.
Definition dns_here : cstr := B "nameserver 8.8.8.8 # IPV4 wwan0".
Lemma blank_lines_double : after_update (file_of [[]; B "search lan"]) = file_of [dns_here; []; []; B "search lan"].
Proof. by vm_compute. Qed.
Lemma seventeenth_line_lost :
  after_update (file_of (replicate 16 (B "# comment") ++ [B "nameserver 1.1.1.1"])) = file_of (dns_here :: replicate 16 (B "# comment")).
Proof. by vm_compute. Qed.
Lemma line_of_another_lost :
  after_update (file_of [B "nameserver 10.0.0.9 # IPV4 wwan0_1"]) = file_of [dns_here].
Proof. by vm_compute. Qed.
