(* ===== verification/MhiRing.v ===== *)
(** Rings, channels and events of the PCIe modem driver (quectel_MHI/src/core/mhi_main.c,
    mhi_init.c, mhi_internal.h): the ring arithmetic, the queueing of transfers, the
    completion of transfers and commands, the event rings, start and stop of channels.

    A pointer is its address; what it points to is an element of the memory of its ring,
    and anything else is [Fault].  The state of power management is that of MhiPm.  What
    the driver does to the outside is a log: doorbells, callbacks of the clients, unmapped
    and released buffers, votes for power. *)
From S2P Require Import Prelude MhiPm.
#[local] Open Scope Z_scope.

Definition ENOMEM : Z := 12.
Definition EOVERFLOW : Z := 75.
Definition ENOTCONN : Z := 107.

(** ** Rings *)
Record mhi_ring := mkRing {
  r_base : Z; r_rp : Z; r_wp : Z; el_size : Z; r_len : Z; r_elements : Z;
  iommu_base : Z; ctxt_wp : Z }.

(** The pointer one element further. *)
Definition ring_next (ring : mhi_ring) (p : Z) : Z :=
  let p := p + el_size ring in if r_base ring + r_len ring <=? p then r_base ring else p.
Definition mhi_add_ring_element (ring : mhi_ring) : mhi_ring := ring <| r_wp := ring_next ring (r_wp ring) |>.
Definition mhi_del_ring_element (ring : mhi_ring) : mhi_ring := ring <| r_rp := ring_next ring (r_rp ring) |>.
Definition get_nr_avail_ring_elements (ring : mhi_ring) : Z :=
  if r_wp ring <? r_rp ring then s32 ((r_rp ring - r_wp ring) / el_size ring - 1)
  else
    let nr_el := s32 ((r_rp ring - r_base ring) / el_size ring) in
    s32 (nr_el + ((r_base ring + r_len ring - r_wp ring) / el_size ring - 1)).
(** [sizeof(struct mhi_tre)], [sizeof(struct mhi_buf_info)] on a 64-bit machine. *)
Definition SIZEOF_MHI_TRE : Z := 16.
Definition SIZEOF_MHI_BUF_INFO : Z := 56.
Definition get_used_ring_elements (rp wp el_num : Z) : Z :=
  if rp <=? wp then u32 ((wp - rp) / SIZEOF_MHI_TRE)
  else u32 (el_num - u32 ((rp - wp) / SIZEOF_MHI_TRE)).
(** Addresses are 64 bits wide. *)
Definition addr64 (z : Z) : Z := z mod 2 ^ 64.
Definition mhi_to_virtual (ring : mhi_ring) (addr : Z) : Z := addr64 (addr - iommu_base ring + r_base ring).
Definition mhi_to_physical (ring : mhi_ring) (p : Z) : Z := addr64 (p - r_base ring + iommu_base ring).
Definition mhi_recycle_ev_ring_element (ring : mhi_ring) : mhi_ring :=
  let wp := ring_next ring (r_wp ring) in
  mhi_del_ring_element (ring <| r_wp := wp |> <| ctxt_wp := addr64 (iommu_base ring + (wp - r_base ring)) |>).
Definition mhi_is_ring_full (ring : mhi_ring) : bool := ring_next ring (r_wp ring) =? r_rp ring.

(** The number of the element a pointer points to. *)
Definition slot_of (ring : mhi_ring) (p : Z) : res nat :=
  let o := p - r_base ring in
  if (0 <=? o) && (o <? r_len ring) && (o mod el_size ring =? 0) then Ok (Z.to_nat (o / el_size ring)) else Fault.

(** ** Descriptors *)
Record mhi_tre := mkTre { t_ptr : Z; dword0 : Z; dword1 : Z }.
Definition byte_of (w shift : Z) : Z := Z.land (Z.shiftr w shift) 255.
Definition MHI_TRE_GET_CMD_CHID (t : mhi_tre) : Z := byte_of (dword1 t) 24.
Definition MHI_TRE_GET_CMD_TYPE (t : mhi_tre) : Z := byte_of (dword1 t) 16.
Definition MHI_TRE_GET_EV_CODE (t : mhi_tre) : Z := byte_of (dword0 t) 24.
Definition MHI_TRE_GET_EV_LEN (t : mhi_tre) : Z := Z.land (dword0 t) 65535.
Definition MHI_TRE_GET_EV_CHID (t : mhi_tre) : Z := byte_of (dword1 t) 24.
Definition MHI_TRE_GET_EV_TYPE (t : mhi_tre) : Z := byte_of (dword1 t) 16.
Definition MHI_TRE_GET_EV_STATE (t : mhi_tre) : Z := byte_of (dword0 t) 24.
Definition MHI_TRE_GET_EV_EXECENV (t : mhi_tre) : Z := byte_of (dword0 t) 24.
Definition MHI_TRE_GET_EV_COOKIE (t : mhi_tre) : Z := u32 (t_ptr t).
Definition MHI_MAX_MTU : Z := 65535.
Definition MHI_TRE_DATA_DWORD0 (len : Z) : Z := Z.land len MHI_MAX_MTU.
Definition MHI_TRE_DATA_DWORD1 (bei ieot ieob chain : bool) : Z :=
  Z.lor (Z.lor (Z.lor (Z.lor (Z.shiftl 2 16) (Z.shiftl (b2z bei) 10)) (Z.shiftl (b2z ieot) 9))
    (Z.shiftl (b2z ieob) 8)) (b2z chain).
Definition MHI_RSCTRE_DATA_PTR (ptr len : Z) : Z := Z.lor (addr64 (Z.shiftl len 48)) ptr.
Definition MHI_PKT_TYPE_COALESCING : Z := 8.
Definition MHI_RSCTRE_DATA_DWORD1 : Z := Z.shiftl MHI_PKT_TYPE_COALESCING 16.
(** [enum MHI_PKT_TYPE], [enum MHI_EV_CCS], [enum mhi_cmd_type], [enum MHI_FLAGS] *)
Definition MHI_PKT_TYPE_STATE_CHANGE_EVENT : Z := 32.
Definition MHI_PKT_TYPE_CMD_COMPLETION_EVENT : Z := 33.
Definition MHI_PKT_TYPE_TX_EVENT : Z := 34.
Definition MHI_PKT_TYPE_RSC_TX_EVENT : Z := 40.
Definition MHI_PKT_TYPE_EE_EVENT : Z := 64.
Definition MHI_PKT_TYPE_STALE_EVENT : Z := 73.
Definition MHI_EV_CC_SUCCESS : Z := 1.
Definition MHI_EV_CC_EOT : Z := 2.
Definition MHI_EV_CC_OVERFLOW : Z := 3.
Definition MHI_EV_CC_EOB : Z := 4.
Definition MHI_EV_CC_OOB : Z := 5.
Definition MHI_EV_CC_DB_MODE : Z := 6.
Definition MHI_EV_CC_BAD_TRE : Z := 17.
Definition MHI_CMD_TYPE_RESET : Z := 16.
Definition MHI_CMD_TYPE_START : Z := 18.
Definition MHI_CMD_TYPE_TSYNC : Z := 24.
Definition MHI_EOB : Z := 0.
Definition MHI_EOT : Z := 1.
Definition MHI_CHAIN : Z := 2.
Definition MHI_TRE_EV_DWORD1 (chid type : Z) : Z := Z.lor (Z.shiftl chid 24) (Z.shiftl type 16).
Definition MHI_TRE_CMD_DWORD1 (chid type : Z) : Z := u32 (Z.lor (Z.shiftl chid 24) (Z.shiftl type 16)).

(** ** Channels and event rings *)
Record mhi_buf_info := mkBufInfo {
  p_addr : Z; v_addr : Z; b_wp : Z; b_len : Z; cb_buf : Z; b_used : bool; pre_mapped : bool }.
Definition mhi_buf_info_zero : mhi_buf_info := mkBufInfo 0 0 0 0 0 false false.
Inductive MHI_XFER_TYPE :=
  MHI_XFER_BUFFER | MHI_XFER_SKB | MHI_XFER_SCLIST | MHI_XFER_NOP | MHI_XFER_DMA | MHI_XFER_RSC_DMA.
Inductive MHI_CH_STATE := MHI_CH_STATE_DISABLED | MHI_CH_STATE_ENABLED.
#[export] Instance MHI_XFER_TYPE_eq_dec : EqDecision MHI_XFER_TYPE.
Proof. solve_decision. Defined.
#[export] Instance MHI_CH_STATE_eq_dec : EqDecision MHI_CH_STATE.
Proof. solve_decision. Defined.

(** [db_brst] tells which of the two functions [process_db] is. *)
Record db_cfg := mkDb { db_brst : bool; db_mode : bool; db_val : Z }.
(** [to_device] is [dir == DMA_TO_DEVICE]; [tres] and [bufs] are the memory of the rings. *)
Record mhi_chan := mkChan {
  chan_id : Z; tre_ring : mhi_ring; tres : list mhi_tre; buf_ring : mhi_ring; bufs : list mhi_buf_info;
  to_device : bool; xfer_type : MHI_XFER_TYPE; intmod : Z; pre_alloc : bool; offload_ch : bool;
  er_index : nat; ee_mask : Z; c_db : db_cfg; ch_state : MHI_CH_STATE; ccs : Z; c_used_elements : Z; rbase : Z }.
(** [er_rp] holds what successive reads of the device's pointer find; the last value stays. *)
Record mhi_event := mkEvent {
  ev_ring : mhi_ring; ev_tres : list mhi_tre; e_db : db_cfg; er_rp : list Z; e_used_elements : Z }.
Record mhi_cmd := mkCmd { cmd_ring : mhi_ring; cmd_tres : list mhi_tre }.

Inductive dp_effect :=
  | ChanDb (chan : nat) (wp : Z) | EventDb (er : nat) (wp : Z) | CmdDb (wp : Z)
  | XferCb (chan : nat) (buf bytes status : Z) | UnmapSingle (addr : Z) | Kfree (buf : Z)
  | RuntimeGet | RuntimePut | WakeGet | WakePut | Complete (chan : nat) | CompleteTsync | Warned.
Record mhi_dp := mkDp {
  dp_ctrl : mhi_controller; pending_pkts : Z; dp_chans : list mhi_chan; dp_events : list mhi_event;
  dp_cmd : mhi_cmd; dp_log : list dp_effect }.

Definition DP (A : Type) : Type := M mhi_dp A.
#[export] Instance DP_ret : MRet DP := @M_ret mhi_dp.
#[export] Instance DP_bind : MBind DP := @M_bind mhi_dp.
Definition dlog (e : dp_effect) : DP unit := M_upd (fun s => s <| dp_log := dp_log s ++ [e] |>).
Definition whenD (b : bool) (m : DP unit) : DP unit := if b then m else mret tt.
Definition liftD {A} (r : res A) : DP A := M_lift r.
Definition get_dp : DP mhi_dp := M_get.
Definition get_chan (c : nat) : DP mhi_chan := s ← get_dp; liftD (of_option (dp_chans s !! c)).
Definition upd_chan (c : nat) (f : mhi_chan -> mhi_chan) : DP unit :=
  M_upd (fun s => s <| dp_chans := alter f c (dp_chans s) |>).
Definition get_event (i : nat) : DP mhi_event := s ← get_dp; liftD (of_option (dp_events s !! i)).
Definition upd_event (i : nat) (f : mhi_event -> mhi_event) : DP unit :=
  M_upd (fun s => s <| dp_events := alter f i (dp_events s) |>).
Definition get_pm : DP Z := s ← get_dp; mret (pm_state (dp_ctrl s)).

(** ** Doorbells *)
Definition MHI_DB_ACCESS_VALID (pm : Z) : bool := truth (Z.land pm MHI_PM_M0).
Definition MHI_EVENT_ACCESS_INVALID (pm : Z) : bool := (pm =? MHI_PM_DISABLE) || MHI_PM_IN_ERROR_STATE pm.
(** [process_db]: whether the register is written, and the new setting. *)
Definition mhi_db_brstmode (db : db_cfg) (wp : Z) : bool * db_cfg :=
  if db_mode db then (true, db <| db_val := wp |> <| db_mode := false |>) else (false, db).
Definition mhi_db_brstmode_disable (db : db_cfg) (wp : Z) : bool * db_cfg := (true, db <| db_val := wp |>).
Definition process_db (db : db_cfg) (wp : Z) : bool * db_cfg :=
  if db_brst db then mhi_db_brstmode db wp else mhi_db_brstmode_disable db wp.

Definition mhi_ring_er_db (i : nat) : DP unit :=
  ev ← get_event i;
  let r := process_db (e_db ev) (ctxt_wp (ev_ring ev)) in
  _ ← upd_event i (fun ev => ev <| e_db := r.2 |>);
  whenD r.1 (dlog (EventDb i (ctxt_wp (ev_ring ev)))).
Definition ring_db (ring : mhi_ring) : Z := addr64 (iommu_base ring + (r_wp ring - r_base ring)).
Definition mhi_ring_cmd_db : DP unit :=
  s ← get_dp;
  let db := ring_db (cmd_ring (dp_cmd s)) in
  _ ← M_upd (fun s => s <| dp_cmd := (dp_cmd s) <| cmd_ring := (cmd_ring (dp_cmd s)) <| ctxt_wp := db |> |> |>);
  dlog (CmdDb db).
Definition mhi_ring_chan_db (c : nat) : DP unit :=
  ch ← get_chan c;
  let db := ring_db (tre_ring ch) in
  let r := process_db (c_db ch) db in
  _ ← upd_chan c (fun ch => ch <| tre_ring := (tre_ring ch) <| ctxt_wp := db |> |> <| c_db := r.2 |>);
  whenD r.1 (dlog (ChanDb c db)).

(** ** Transfers

    [map_single v len] is the bus address of a mapped buffer, if it can be mapped; both
    functions the driver uses return [-ENOMEM] otherwise.  [skb_data] is the data of a
    packet, [kmalloc] the nth allocation of the size of a buffer. *)
Section Transfers.
Context (map_single : Z -> Z -> option Z) (skb_data : Z -> Z) (kmalloc : nat -> option Z).

(** Whether WAKE is asserted for the transfer: "For UL channels always assert WAKE until
    work is done, For DL channels only assert if MHI is in a LPM". *)
Definition asserts_wake (to_device : bool) (pm : Z) : bool := to_device || negb (pm =? MHI_PM_M0).
Definition leave_suspend (pm : Z) : DP unit :=
  whenD (MHI_PM_IN_SUSPEND_STATE pm) (_ ← dlog RuntimeGet; dlog RuntimePut).
(** [if (atomic_inc_return(&pending_pkts) == 1) runtime_get], and its opposite. *)
Definition count_pending (to_device : bool) : DP unit :=
  whenD to_device
    (_ ← M_upd (fun s => s <| pending_pkts := pending_pkts s + 1 |>);
     s ← get_dp; whenD (pending_pkts s =? 1) (dlog RuntimeGet)).
Definition uncount_pending (to_device : bool) : DP unit :=
  whenD to_device
    (_ ← M_upd (fun s => s <| pending_pkts := pending_pkts s - 1 |>);
     s ← get_dp; whenD (pending_pkts s =? 0) (dlog RuntimePut)).
Definition wake_put_if (b : bool) : DP unit := whenD b (dlog WakePut).

(** The element of [buf_ring] and that of [tre_ring] the driver writes next. *)
Definition set_buf (c : nat) (f : mhi_buf_info -> mhi_buf_info) : DP unit :=
  ch ← get_chan c;
  i ← liftD (slot_of (buf_ring ch) (r_wp (buf_ring ch)));
  _ ← liftD (of_option (bufs ch !! i));
  upd_chan c (fun ch => ch <| bufs := alter f i (bufs ch) |>).
Definition set_tre (c : nat) (t : mhi_tre) : DP unit :=
  ch ← get_chan c;
  i ← liftD (slot_of (tre_ring ch) (r_wp (tre_ring ch)));
  _ ← liftD (of_option (tres ch !! i));
  upd_chan c (fun ch => ch <| tres := <[i := t]> (tres ch) |>).
Definition advance (c : nat) : DP unit :=
  upd_chan c (fun ch => ch <| tre_ring := mhi_add_ring_element (tre_ring ch) |>
                           <| buf_ring := mhi_add_ring_element (buf_ring ch) |>).
Definition ring_chan_if_valid (c : nat) : DP unit :=
  pm ← get_pm; whenD (MHI_DB_ACCESS_VALID pm) (mhi_ring_chan_db c).

Definition mhi_queue_skb (c : nat) (skb len : Z) : DP Z :=
  ch ← get_chan c;
  if mhi_is_ring_full (tre_ring ch) then mret (- ENOMEM)
  else
    pm ← get_pm;
    if MHI_PM_IN_ERROR_STATE pm then mret (- EIO)
    else
      _ ← leave_suspend pm;
      let assert_wake := asserts_wake (to_device ch) pm in
      _ ← whenD assert_wake (dlog WakeGet);
      _ ← set_buf c (fun b => b <| v_addr := skb_data skb |> <| cb_buf := skb |>
                                <| b_wp := r_wp (tre_ring ch) |> <| b_len := len |>);
      match map_single (skb_data skb) len with
      | None => _ ← wake_put_if assert_wake; mret (- ENOMEM)
      | Some addr =>
          _ ← set_buf c (fun b => b <| p_addr := addr |>);
          _ ← set_tre c (mkTre addr (MHI_TRE_DATA_DWORD0 len) (MHI_TRE_DATA_DWORD1 true true false false));
          _ ← count_pending (to_device ch);
          _ ← advance c;
          _ ← ring_chan_if_valid c;
          _ ← wake_put_if (negb (to_device ch) && assert_wake);
          mret 0
      end.

(** [buf] is a [struct mhi_buf] whose address for the device is [dma_addr]. *)
Definition mhi_queue_dma (c : nat) (buf dma_addr len : Z) : DP Z :=
  ch ← get_chan c;
  if mhi_is_ring_full (tre_ring ch) then mret (- ENOMEM)
  else
    pm ← get_pm;
    if MHI_PM_IN_ERROR_STATE pm then mret (- EIO)
    else
      _ ← leave_suspend pm;
      let assert_wake := asserts_wake (to_device ch) pm in
      _ ← whenD assert_wake (dlog WakeGet);
      i ← liftD (slot_of (buf_ring ch) (r_wp (buf_ring ch)));
      b ← liftD (of_option (bufs ch !! i));
      _ ← whenD (b_used b) (dlog Warned);
      let rsc := bool_decide (xfer_type ch = MHI_XFER_RSC_DMA) in
      _ ← set_buf c (fun b => b <| p_addr := dma_addr |> <| pre_mapped := true |> <| cb_buf := buf |>
                                <| b_wp := r_wp (tre_ring ch) |> <| b_len := len |>
                                <| b_used := rsc || b_used b |>);
      _ ← set_tre c (if rsc then mkTre (MHI_RSCTRE_DATA_PTR dma_addr len)
                                    (u32 (r_wp (buf_ring ch) - r_base (buf_ring ch))) MHI_RSCTRE_DATA_DWORD1
                     else mkTre dma_addr (MHI_TRE_DATA_DWORD0 len) (MHI_TRE_DATA_DWORD1 true true false false));
      _ ← count_pending (to_device ch);
      _ ← advance c;
      _ ← ring_chan_if_valid c;
      _ ← wake_put_if (negb (to_device ch) && assert_wake);
      mret 0.

Definition mhi_gen_tre (c : nat) (buf cb buf_len flags : Z) : DP Z :=
  ch ← get_chan c;
  _ ← set_buf c (fun b => b <| v_addr := buf |> <| cb_buf := cb |>
                            <| b_wp := r_wp (tre_ring ch) |> <| b_len := buf_len |>);
  match map_single buf buf_len with
  | None => mret (- ENOMEM)
  | Some addr =>
      _ ← set_buf c (fun b => b <| p_addr := addr |>);
      _ ← set_tre c (mkTre addr (MHI_TRE_DATA_DWORD0 buf_len)
                       (MHI_TRE_DATA_DWORD1 (truth (intmod ch)) (truth (Z.land flags MHI_EOT))
                          (truth (Z.land flags MHI_EOB)) (truth (Z.land flags MHI_CHAIN))));
      _ ← advance c;
      mret 0
  end.

Definition mhi_queue_buf (c : nat) (buf len flags : Z) : DP Z :=
  pm ← get_pm;
  if MHI_PM_IN_ERROR_STATE pm then mret (- EIO)
  else
    ch ← get_chan c;
    if mhi_is_ring_full (tre_ring ch) then mret (- ENOMEM)
    else
      ret ← mhi_gen_tre c buf buf len flags;
      if truth ret then mret ret
      else
        _ ← leave_suspend pm;
        let assert_wake := asserts_wake (to_device ch) pm in
        _ ← whenD assert_wake (dlog WakeGet);
        _ ← count_pending (to_device ch);
        _ ← ring_chan_if_valid c;
        _ ← wake_put_if (negb (to_device ch) && assert_wake);
        mret 0.
Definition mhi_queue_sclist : DP Z := mret (- EINVAL).
Definition mhi_queue_nop : DP Z := mret (- EINVAL).

(** [mhi_queue_transfer] calls [queue_xfer] of the channel; [addr] is the address for the
    device of a [struct mhi_buf], for the types that take one. *)
Definition queue_xfer (c : nat) (buf addr len flags : Z) : DP Z :=
  ch ← get_chan c;
  match xfer_type ch with
  | MHI_XFER_BUFFER => mhi_queue_buf c buf len flags
  | MHI_XFER_SKB => mhi_queue_skb c buf len
  | MHI_XFER_SCLIST => mhi_queue_sclist
  | MHI_XFER_NOP => mhi_queue_nop
  | MHI_XFER_DMA | MHI_XFER_RSC_DMA => mhi_queue_dma c buf addr len
  end.
Definition mhi_get_no_free_descriptors (c : nat) : DP Z :=
  ch ← get_chan c;
  mret (if offload_ch ch then 0 else get_nr_avail_ring_elements (tre_ring ch)).

(** ** Completions *)

(** The first buffer in flight: what [parse_xfer_event] does with it. *)
Definition complete_first (c : nat) (status xfer_len : Z) : DP unit :=
  ch ← get_chan c;
  i ← liftD (slot_of (buf_ring ch) (r_rp (buf_ring ch)));
  b ← liftD (of_option (bufs ch !! i));
  _ ← whenD (negb (pre_mapped b)) (dlog (UnmapSingle (p_addr b)));
  _ ← upd_chan c (fun ch => ch <| buf_ring := mhi_del_ring_element (buf_ring ch) |>
                               <| tre_ring := mhi_del_ring_element (tre_ring ch) |>);
  _ ← dlog (XferCb c (cb_buf b) xfer_len status);
  _ ← uncount_pending (to_device ch);
  _ ← wake_put_if (to_device ch);
  whenD (pre_alloc ch)
    (ret ← mhi_queue_buf c (cb_buf b) (b_len b) MHI_EOT;
     whenD (truth ret) (dlog (Kfree (cb_buf b)))).
(** [while (local_rp != dev_rp)] *)
Fixpoint complete_until (fuel : nat) (c : nat) (dev_rp status xfer_len : Z) : DP unit :=
  match fuel with
  | O => fun _ => OutOfFuel
  | S fuel =>
      ch ← get_chan c;
      if r_rp (tre_ring ch) =? dev_rp then mret tt
      else _ ← complete_first c status xfer_len; complete_until fuel c dev_rp status xfer_len
  end.
Definition parse_xfer_event (fuel : nat) (event : mhi_tre) (c : nat) : DP Z :=
  let ev_code := MHI_TRE_GET_EV_CODE event in
  let status := if ev_code =? MHI_EV_CC_OVERFLOW then - EOVERFLOW else 0 in
  ch ← get_chan c;
  _ ← (if negb (bool_decide (ch_state ch = MHI_CH_STATE_ENABLED)) then mret tt
       else if (ev_code =? MHI_EV_CC_OVERFLOW) || (ev_code =? MHI_EV_CC_EOB) || (ev_code =? MHI_EV_CC_EOT) then
              let dev_rp := ring_next (tre_ring ch) (mhi_to_virtual (tre_ring ch) (t_ptr event)) in
              complete_until fuel c dev_rp status (MHI_TRE_GET_EV_LEN event)
       else if (ev_code =? MHI_EV_CC_OOB) || (ev_code =? MHI_EV_CC_DB_MODE) then
              _ ← upd_chan c (fun ch => ch <| c_db := (c_db ch) <| db_mode := true |> |>);
              pm ← get_pm;
              whenD (negb (r_wp (tre_ring ch) =? r_rp (tre_ring ch)) && MHI_DB_ACCESS_VALID pm) (mhi_ring_chan_db c)
       else if ev_code =? MHI_EV_CC_BAD_TRE then dlog Warned
       else mret tt : DP unit);
  mret 0.

Definition parse_rsc_event (event : mhi_tre) (c : nat) : DP Z :=
  let ev_code := MHI_TRE_GET_EV_CODE event in
  let cookie := MHI_TRE_GET_EV_COOKIE event in
  ch ← get_chan c;
  _ ← whenD (r_len (buf_ring ch) <=? cookie) (dlog Warned);
  i ← liftD (slot_of (buf_ring ch) (r_base (buf_ring ch) + cookie));
  b ← liftD (of_option (bufs ch !! i));
  _ ← whenD (bool_decide (ch_state ch = MHI_CH_STATE_ENABLED))
        (_ ← whenD (negb (b_used b)) (dlog Warned);
         _ ← dlog (XferCb c (cb_buf b) (MHI_TRE_GET_EV_LEN event)
                    (if ev_code =? MHI_EV_CC_OVERFLOW then - EOVERFLOW else 0));
         upd_chan c (fun ch => ch <| tre_ring := mhi_del_ring_element (tre_ring ch) |>
                                  <| bufs := alter (fun b => b <| b_used := false |>) i (bufs ch) |>));
  mret 0.

(** ** Commands *)
Inductive MHI_CMD := MHI_CMD_RESET_CHAN | MHI_CMD_START_CHAN | MHI_CMD_TIMSYNC_CFG (er : Z).
Definition cmd_tre (chan : Z) (cmd : MHI_CMD) : mhi_tre :=
  match cmd with
  | MHI_CMD_RESET_CHAN => mkTre 0 0 (MHI_TRE_CMD_DWORD1 chan MHI_CMD_TYPE_RESET)
  | MHI_CMD_START_CHAN => mkTre 0 0 (MHI_TRE_CMD_DWORD1 chan MHI_CMD_TYPE_START)
  | MHI_CMD_TIMSYNC_CFG er => mkTre 0 0 (MHI_TRE_CMD_DWORD1 er MHI_CMD_TYPE_TSYNC)
  end.
Definition mhi_send_cmd (c : option nat) (cmd : MHI_CMD) : DP Z :=
  chan ← (match c with Some c => ch ← get_chan c; mret (chan_id ch) | None => mret 0 end : DP Z);
  s ← get_dp;
  let ring := cmd_ring (dp_cmd s) in
  if get_nr_avail_ring_elements ring =? 0 then mret (- ENOMEM)
  else
    i ← liftD (slot_of ring (r_wp ring));
    _ ← liftD (of_option (cmd_tres (dp_cmd s) !! i));
    _ ← M_upd (fun s => s <| dp_cmd := mkCmd (mhi_add_ring_element ring) (<[i := cmd_tre chan cmd]> (cmd_tres (dp_cmd s))) |>);
    pm ← get_pm;
    _ ← whenD (MHI_DB_ACCESS_VALID pm) mhi_ring_cmd_db;
    mret 0.
Definition mhi_process_cmd_completion (tre : mhi_tre) : DP unit :=
  s ← get_dp;
  let ring := cmd_ring (dp_cmd s) in
  let cmd_pkt := mhi_to_virtual ring (t_ptr tre) in
  _ ← whenD (negb (cmd_pkt =? r_rp ring)) (dlog Warned);
  i ← liftD (slot_of ring cmd_pkt);
  pkt ← liftD (of_option (cmd_tres (dp_cmd s) !! i));
  _ ← (if MHI_TRE_GET_CMD_TYPE pkt =? MHI_CMD_TYPE_TSYNC then dlog CompleteTsync
       else
         let c := Z.to_nat (MHI_TRE_GET_CMD_CHID pkt) in
         _ ← get_chan c;
         _ ← upd_chan c (fun ch => ch <| ccs := MHI_TRE_GET_EV_CODE tre |>);
         dlog (Complete c) : DP unit);
  M_upd (fun s => s <| dp_cmd := (dp_cmd s) <| cmd_ring := mhi_del_ring_element (cmd_ring (dp_cmd s)) |> |>).

(** ** Event rings *)

(** A read of [er_ctxt->rp]. *)
Definition read_er_rp (i : nat) : DP Z :=
  ev ← get_event i;
  match er_rp ev with
  | [] => mret 0
  | [rp] => mret (mhi_to_virtual (ev_ring ev) rp)
  | rp :: rest => _ ← upd_event i (fun ev => ev <| er_rp := rest |>); mret (mhi_to_virtual (ev_ring ev) rp)
  end.
Definition next_event (i : nat) : DP mhi_tre :=
  ev ← get_event i;
  j ← liftD (slot_of (ev_ring ev) (r_rp (ev_ring ev)));
  liftD (of_option (ev_tres ev !! j)).
Definition recycle (i : nat) : DP unit :=
  upd_event i (fun ev => ev <| ev_ring := mhi_recycle_ev_ring_element (ev_ring ev) |>).
Definition local_rp (i : nat) : DP Z := ev ← get_event i; mret (r_rp (ev_ring ev)).
(** The ends of both handlers. *)
Definition ring_er_if_valid (i : nat) : DP unit := pm ← get_pm; whenD (MHI_DB_ACCESS_VALID pm) (mhi_ring_er_db i).
Definition note_used (i : nat) (count : Z) : DP unit :=
  upd_event i (fun ev => if e_used_elements ev <? count then ev <| e_used_elements := count |> else ev).

Definition dev_state_of (v : Z) : option mhi_dev_state :=
  match v with
  | 0 => Some MHI_STATE_RESET | 1 => Some MHI_STATE_READY | 2 => Some MHI_STATE_M0 | 3 => Some MHI_STATE_M1
  | 4 => Some MHI_STATE_M2 | 5 => Some MHI_STATE_M3 | 7 => Some MHI_STATE_BHI | 255 => Some MHI_STATE_SYS_ERR
  | _ => None end.
Definition ee_of (v : Z) : option mhi_ee :=
  match v with
  | 0 => Some MHI_EE_PBL | 1 => Some MHI_EE_SBL | 2 => Some MHI_EE_AMSS | 3 => Some MHI_EE_RDDM
  | 4 => Some MHI_EE_WFW | 5 => Some MHI_EE_PTHRU | 6 => Some MHI_EE_EDL | 7 => Some MHI_EE_FP | _ => None end.
Definition pm_event (e : option ctrl_event) : DP unit :=
  match e with
  | Some e => M_upd (fun s => s <| dp_ctrl := mhi_process_ctrl_event e (dp_ctrl s) |>)
  | None => mret tt
  end.
Definition transfer_event (fuel : nat) (event : mhi_tre) : DP unit :=
  let type := MHI_TRE_GET_EV_TYPE event in
  let c := Z.to_nat (MHI_TRE_GET_EV_CHID event) in
  if type =? MHI_PKT_TYPE_TX_EVENT then _ ← parse_xfer_event fuel event c; mret tt
  else if type =? MHI_PKT_TYPE_RSC_TX_EVENT then _ ← parse_rsc_event event c; mret tt
  else mret tt.
Definition process_ctrl (fuel : nat) (event : mhi_tre) : DP unit :=
  let type := MHI_TRE_GET_EV_TYPE event in
  if type =? MHI_PKT_TYPE_STATE_CHANGE_EVENT then pm_event (StateChange <$> dev_state_of (MHI_TRE_GET_EV_STATE event))
  else if type =? MHI_PKT_TYPE_CMD_COMPLETION_EVENT then mhi_process_cmd_completion event
  else if type =? MHI_PKT_TYPE_EE_EVENT then pm_event (EeEvent <$> ee_of (MHI_TRE_GET_EV_EXECENV event))
  else if (type =? MHI_PKT_TYPE_TX_EVENT) || (type =? MHI_PKT_TYPE_RSC_TX_EVENT) then transfer_event fuel event
  else dlog Warned.

Fixpoint ctrl_ev_loop (fuel : nat) (i : nat) (dev_rp count : Z) : DP Z :=
  match fuel with
  | O => fun _ => OutOfFuel
  | S fuel' =>
      rp ← local_rp i;
      if dev_rp =? rp then mret count
      else
        event ← next_event i;
        _ ← process_ctrl fuel event;
        _ ← recycle i;
        dev_rp ← read_er_rp i;
        ctrl_ev_loop fuel' i dev_rp (count + 1)
  end.
Definition mhi_process_ctrl_ev_ring (fuel : nat) (i : nat) : DP Z :=
  pm ← get_pm;
  if MHI_EVENT_ACCESS_INVALID pm then mret (- EIO)
  else
    dev_rp ← read_er_rp i;
    count ← ctrl_ev_loop fuel i dev_rp 0;
    _ ← note_used i count;
    _ ← ring_er_if_valid i;
    mret count.

(** The loop of the data ring, with [chan_count]; [xfuel] is for the completions. *)
Fixpoint data_ev_loop (fuel xfuel : nat) (i : nat) (dev_rp event_quota count chan_count : Z) : DP Z :=
  match fuel with
  | O => fun _ => OutOfFuel
  | S fuel' =>
      rp ← local_rp i;
      if (dev_rp =? rp) || (event_quota <=? 0) then mret count
      else
        event ← next_event i;
        let type := MHI_TRE_GET_EV_TYPE event in
        let c := Z.to_nat (MHI_TRE_GET_EV_CHID event) in
        ch ← get_chan c;
        _ ← transfer_event xfuel event;
        let event_quota := if (type =? MHI_PKT_TYPE_TX_EVENT) || (type =? MHI_PKT_TYPE_RSC_TX_EVENT)
                           then event_quota - 1 else event_quota in
        ch' ← get_chan c;
        let chan_count := u32 (chan_count + get_used_ring_elements (r_rp (tre_ring ch)) (r_rp (tre_ring ch'))
                                              (r_elements (tre_ring ch'))) in
        _ ← recycle i;
        rp ← local_rp i;
        if (rp =? dev_rp) || (event_quota =? 0) then
          _ ← upd_chan c (fun ch => if c_used_elements ch <? chan_count then ch <| c_used_elements := chan_count |> else ch);
          dev_rp ← read_er_rp i;
          data_ev_loop fuel' xfuel i dev_rp event_quota (count + 1) 0
        else data_ev_loop fuel' xfuel i dev_rp event_quota (count + 1) chan_count
  end.
Definition mhi_process_data_event_ring (fuel : nat) (i : nat) (event_quota : Z) : DP Z :=
  pm ← get_pm;
  if MHI_EVENT_ACCESS_INVALID pm then mret (- EIO)
  else
    dev_rp ← read_er_rp i;
    count ← data_ev_loop fuel fuel i dev_rp event_quota 0 0;
    _ ← note_used i count;
    _ ← ring_er_if_valid i;
    mret count.
Definition U32_MAX : Z := 4294967295.
Definition mhi_ev_task (fuel : nat) (i : nat) : DP unit := _ ← mhi_process_data_event_ring fuel i U32_MAX; mret tt.
Definition mhi_poll (fuel : nat) (dl_chan : nat) (budget : Z) : DP Z :=
  ch ← get_chan dl_chan; mhi_process_data_event_ring fuel (er_index ch) budget.
(** [mhi_ctrl_ev_task]; [dev] is what the registers say. *)
Definition mhi_ctrl_ev_task (fuel : nat) (dev : hw) (i : nat) : DP unit :=
  pm ← get_pm;
  if negb (MHI_REG_ACCESS_VALID pm) then mret tt
  else
    ret ← mhi_process_ctrl_ev_ring fuel i;
    whenD ((ret =? 0) && bool_decide (mhi_get_mhi_state dev = MHI_STATE_SYS_ERR))
      (M_upd (fun s => s <| dp_ctrl := sys_err_detect (dp_ctrl s) |>)).
End Transfers.
