(* ===== verification/MhiChan.v ===== *)
(** Start and stop of the channels of the PCIe modem driver (quectel_MHI/src/core/mhi_main.c,
    mhi_init.c): the rings of a channel, the commands that start and reset it, what becomes
    of the buffers in flight.

    A wait for a command is an argument, as in MhiPm: whether it ended before the time-out,
    and what interrupts and tasklets did to the state meanwhile. *)
From S2P Require Import Prelude MhiPm MhiRing.
#[local] Open Scope Z_scope.

(** [wait_for_completion_timeout]. *)
Definition dp_wait : Type := mhi_dp -> bool * mhi_dp.
Definition wait_completion (w : dp_wait) : DP bool := fun s => Ok (w s).

Section Channels.
Context (map_single : Z -> Z -> option Z) (kmalloc : nat -> option Z).
(** [mem c] is the ring of channel [c] in the control segment, for the CPU and for the
    device; [kzalloc c] what the allocation of its local ring returns. *)
Context (mem : nat -> Z * Z) (kzalloc : nat -> option Z) (buffer_len : Z).

(** [mhi_init_chan_ctxt], [mhi_deinit_chan_ctxt] *)
Definition start_rings (c : nat) (base : Z) (ch : mhi_chan) : mhi_chan :=
  let tre := tre_ring ch in
  let buf := buf_ring ch in
  let tre_base := (mem c).1 in
  let dma := (mem c).2 in
  ch <| tre_ring := mkRing tre_base tre_base tre_base SIZEOF_MHI_TRE (SIZEOF_MHI_TRE * r_elements tre) (r_elements tre) dma dma |>
     <| buf_ring := mkRing base base base SIZEOF_MHI_BUF_INFO (SIZEOF_MHI_BUF_INFO * r_elements buf) (r_elements buf)
                      (iommu_base buf) (ctxt_wp buf) |>
     <| bufs := replicate (Z.to_nat (r_elements buf)) mhi_buf_info_zero |>
     <| c_db := (c_db ch) <| db_mode := true |> |> <| rbase := dma |>.
Definition mhi_init_chan_ctxt (c : nat) : DP Z :=
  _ ← get_chan c;
  match kzalloc c with
  | None => mret (- ENOMEM)
  | Some base => _ ← upd_chan c (start_rings c base); mret 0
  end.
Definition mhi_deinit_chan_ctxt (c : nat) : DP unit :=
  upd_chan c (fun ch => ch <| buf_ring := (buf_ring ch) <| r_base := 0 |> |>
                           <| tre_ring := (tre_ring ch) <| r_base := 0 |> |> <| rbase := 0 |>).

(** [mhi_mark_stale_events]: the events of the channel that have not been handled. *)
Definition stale_event (chan : Z) (t : mhi_tre) : mhi_tre :=
  if (MHI_TRE_GET_EV_TYPE t =? MHI_PKT_TYPE_TX_EVENT) && (chan =? MHI_TRE_GET_EV_CHID t)
  then mkTre (t_ptr t) (dword0 t) (MHI_TRE_EV_DWORD1 chan MHI_PKT_TYPE_STALE_EVENT) else t.
Fixpoint mark_stale (fuel : nat) (ring : mhi_ring) (chan dev_rp rp : Z) (ts : list mhi_tre) : res (list mhi_tre) :=
  match fuel with
  | O => OutOfFuel
  | S fuel =>
      if dev_rp =? rp then Ok ts
      else
        j ← slot_of ring rp;
        _ ← of_option (ts !! j);
        let rp := rp + SIZEOF_MHI_TRE in
        mark_stale fuel ring chan dev_rp (if rp =? r_base ring + r_len ring then r_base ring else rp)
          (alter (stale_event chan) j ts)
  end.
Definition mhi_mark_stale_events (fuel : nat) (i : nat) (chan : Z) : DP unit :=
  dev_rp ← read_er_rp i;
  ev ← get_event i;
  ts ← liftD (mark_stale fuel (ev_ring ev) chan dev_rp (r_rp (ev_ring ev)) (ev_tres ev));
  upd_event i (fun ev => ev <| ev_tres := ts |>).

(** [mhi_reset_data_chan]: the first buffer in flight goes back to the client. *)
Definition return_first (c : nat) : DP unit :=
  ch ← get_chan c;
  i ← liftD (slot_of (buf_ring ch) (r_rp (buf_ring ch)));
  b ← liftD (of_option (bufs ch !! i));
  _ ← uncount_pending (to_device ch);
  _ ← wake_put_if (to_device ch);
  _ ← whenD (negb (pre_mapped b)) (dlog (UnmapSingle (p_addr b)));
  _ ← upd_chan c (fun ch => ch <| buf_ring := mhi_del_ring_element (buf_ring ch) |>
                               <| tre_ring := mhi_del_ring_element (tre_ring ch) |>);
  dlog (if pre_alloc ch then Kfree (cb_buf b) else XferCb c (cb_buf b) 0 (- ENOTCONN)).
Fixpoint mhi_reset_data_chan (fuel : nat) (c : nat) : DP unit :=
  match fuel with
  | O => fun _ => OutOfFuel
  | S fuel =>
      ch ← get_chan c;
      if r_rp (tre_ring ch) =? r_wp (tre_ring ch) then mret tt
      else _ ← return_first c; mhi_reset_data_chan fuel c
  end.
Definition mhi_reset_rsc_chan (c : nat) : DP unit :=
  ch ← get_chan c;
  M_upd (fun s => s <| dp_log := dp_log s ++ (b ← filter (fun b => b_used b = true) (bufs ch);
                                              [XferCb c (cb_buf b) 0 (- ENOTCONN)]) |>
                    <| dp_chans := alter (fun ch => ch <| bufs := (fun b => b <| b_used := false |>) <$> bufs ch |>) c (dp_chans s) |>).
Definition mhi_reset_chan (fuel : nat) (c : nat) : DP unit :=
  ch ← get_chan c;
  if offload_ch ch then mret tt
  else
    _ ← mhi_mark_stale_events fuel (er_index ch) (chan_id ch);
    if bool_decide (xfer_type ch = MHI_XFER_RSC_DMA) then mhi_reset_rsc_chan c else mhi_reset_data_chan fuel c.

(** The wait of the command, its result and the votes around it. *)
Definition __mhi_unprepare_channel (fuel : nat) (w : dp_wait) (c : nat) : DP unit :=
  ch ← get_chan c;
  if negb (bool_decide (ch_state ch = MHI_CH_STATE_ENABLED)) then mret tt
  else
    _ ← upd_chan c (fun ch => ch <| ch_state := MHI_CH_STATE_DISABLED |>);
    pm ← get_pm;
    _ ← (if MHI_PM_IN_ERROR_STATE pm then mret tt
         else
           _ ← dlog WakeGet;
           _ ← dlog RuntimeGet;
           ret ← mhi_send_cmd (Some c) MHI_CMD_RESET_CHAN;
           _ ← (if truth ret then mret tt else _ ← wait_completion w; mret tt : DP unit);
           _ ← dlog RuntimePut;
           dlog WakePut : DP unit);
    ch ← get_chan c;
    if offload_ch ch then mret tt
    else _ ← mhi_reset_chan fuel c; mhi_deinit_chan_ctxt c.

(** Buffers for a channel with [pre_alloc]; the result is that of the last step. *)
Fixpoint pre_allocate (nr_el : nat) (c : nat) : DP Z :=
  match nr_el with
  | O => mret 0
  | S nr_el =>
      match kmalloc nr_el with
      | None => mret (- ENOMEM)
      | Some buf =>
          ret ← mhi_gen_tre map_single c buf buf buffer_len MHI_EOT;
          if truth ret then _ ← dlog (Kfree buf); mret ret else pre_allocate nr_el c
      end
  end.
Definition ee_bit (e : mhi_ee) : Z :=
  BIT match e with
      | MHI_EE_PBL => 0 | MHI_EE_SBL => 1 | MHI_EE_AMSS => 2 | MHI_EE_RDDM => 3 | MHI_EE_WFW => 4
      | MHI_EE_PTHRU => 5 | MHI_EE_EDL => 6 | MHI_EE_FP => 7 | MHI_EE_DISABLE_TRANSITION => 8 | MHI_EE_MAX => 9
      end.
(** [w1] is the wait for the start of the channel, [w2] that of the clean-up. *)
Definition __mhi_prepare_channel (fuel : nat) (w1 w2 : dp_wait) (c : nat) : DP Z :=
  ch ← get_chan c;
  s ← get_dp;
  if negb (truth (Z.land (ee_bit (ee (dp_ctrl s))) (ee_mask ch))) then mret (- ENOTCONN)
  else if negb (bool_decide (ch_state ch = MHI_CH_STATE_DISABLED)) then mret (- EIO)
  else
    ret ← (if offload_ch ch then mret 0 else mhi_init_chan_ctxt c : DP Z);
    if truth ret then mret ret
    else
      let undo ret := _ ← (if offload_ch ch then mret tt else mhi_deinit_chan_ctxt c : DP unit); mret ret in
      pm ← get_pm;
      if MHI_PM_IN_ERROR_STATE pm then undo (- EIO)
      else
        _ ← dlog WakeGet;
        _ ← dlog RuntimeGet;
        ret ← mhi_send_cmd (Some c) MHI_CMD_START_CHAN;
        ret ← (if truth ret then mret ret
               else
                 done ← wait_completion w1;
                 ch' ← get_chan c;
                 mret (if negb done || negb (ccs ch' =? MHI_EV_CC_SUCCESS) then - EIO else 0) : DP Z);
        _ ← dlog RuntimePut;
        if truth ret then _ ← dlog WakePut; undo ret
        else
          _ ← upd_chan c (fun ch => ch <| ch_state := MHI_CH_STATE_ENABLED |>);
          ch' ← get_chan c;
          ret ← (if pre_alloc ch' then
                   ret ← pre_allocate (Z.to_nat (get_nr_avail_ring_elements (tre_ring ch'))) c;
                   if truth ret then mret ret else _ ← ring_chan_if_valid c; mret 0
                 else mret 0 : DP Z);
          _ ← dlog WakePut;
          if truth ret then _ ← __mhi_unprepare_channel fuel w2 c; mret ret else mret 0.

(** The channels of a client; [None] is a missing one. *)
Definition if_chan {A} (c : option nat) (d : A) (f : nat -> DP A) : DP A :=
  match c with Some c => f c | None => mret d end.
Definition mhi_prepare_for_transfer (fuel : nat) (w : nat -> dp_wait) (ul_chan dl_chan : option nat) : DP Z :=
  ret ← if_chan ul_chan 0 (__mhi_prepare_channel fuel (w 0%nat) (w 1%nat));
  if truth ret then mret ret
  else if bool_decide (dl_chan = ul_chan) && bool_decide (is_Some ul_chan) then mret 0
  else
    ret ← if_chan dl_chan 0 (__mhi_prepare_channel fuel (w 2%nat) (w 3%nat));
    if truth ret then _ ← if_chan ul_chan tt (__mhi_unprepare_channel fuel (w 4%nat)); mret ret else mret 0.
Definition mhi_unprepare_from_transfer (fuel : nat) (w : nat -> dp_wait) (ul_chan dl_chan : option nat) : DP unit :=
  _ ← if_chan dl_chan tt (__mhi_unprepare_channel fuel (w 0%nat));
  if bool_decide (dl_chan = ul_chan) && bool_decide (is_Some dl_chan) then mret tt
  else if_chan ul_chan tt (__mhi_unprepare_channel fuel (w 1%nat)).
End Channels.
