(* ===== verification/Cyclic.v ===== *)
(** Rings as arrays: the positions of a ring of [n] elements, and what an array holds from a
    position on.  Shared by the rings of the PCIe driver and by its clients. *)
From S2P Require Import Prelude.

(** The position [j] elements from the start; it never runs more than once around. *)
Definition wrap (n j : nat) : nat := if (j <? n)%nat then j else (j - n)%nat.
Ltac wrap_lia := unfold wrap in *; repeat match goal with
  | |- context [(?a <? ?b)%nat] => destruct (Nat.ltb_spec a b)
  | H : context [(?a <? ?b)%nat] |- _ => destruct (Nat.ltb_spec a b) end; lia.
Lemma wrap_lt n i k : (i < n)%nat -> (k < n)%nat -> (wrap n (i + k) < n)%nat.
Proof. wrap_lia. Qed.
Lemma wrap_pop n i k : (i < n)%nat -> (S k < n)%nat -> wrap n (wrap n (i + 1) + k) = wrap n (i + S k).
Proof. wrap_lia. Qed.
Lemma wrap_push n i k : (i < n)%nat -> (S k < n)%nat -> wrap n (wrap n (i + k) + 1) = wrap n (i + S k).
Proof. wrap_lia. Qed.
Lemma wrap_inj n i j k : (i < n)%nat -> (j < n)%nat -> (k < n)%nat -> wrap n (i + j) = wrap n (i + k) -> j = k.
Proof. wrap_lia. Qed.

(** ** Memory

    [mem] holds [xs] from element [i] on. *)
Definition cyc {A} (mem : list A) (n i : nat) (xs : list A) : Prop :=
  forall j x, xs !! j = Some x -> mem !! wrap n (i + j) = Some x.
Lemma cyc_nil {A} (mem : list A) n i : cyc mem n i [].
Proof. done. Qed.
Lemma cyc_push {A} (mem : list A) n i xs y :
  length mem = n -> (i < n)%nat -> (length xs < n)%nat -> cyc mem n i xs ->
  cyc (<[wrap n (i + length xs) := y]> mem) n i (xs ++ [y]).
Proof.
  intros Hm Hi Hk Hc j x Hj. apply lookup_app_Some in Hj as [Hj|[Hj Hx]].
  - pose proof (lookup_lt_Some _ _ _ Hj). rewrite list_lookup_insert_ne; [by apply Hc|].
    intros E. apply wrap_inj in E; lia.
  - apply list_lookup_singleton_Some in Hx as [Hx ->]. replace j with (length xs) by lia.
    apply list_lookup_insert_eq. rewrite Hm. by apply wrap_lt.
Qed.
Lemma cyc_pop {A} (mem : list A) n i x xs :
  (i < n)%nat -> (S (length xs) < n)%nat -> cyc mem n i (x :: xs) -> mem !! i = Some x /\ cyc mem n (wrap n (i + 1)) xs.
Proof.
  intros Hi Hk Hc. split.
  - specialize (Hc 0%nat x eq_refl). by replace (wrap n (i + 0)) with i in Hc by wrap_lia.
  - intros j y Hj. pose proof (lookup_lt_Some _ _ _ Hj). rewrite wrap_pop by lia. by apply (Hc (S j)).
Qed.
Lemma cyc_outside {A} (mem : list A) n i xs y :
  (i < n)%nat -> (length xs < n)%nat -> cyc mem n i xs -> cyc (<[wrap n (i + length xs) := y]> mem) n i xs.
Proof.
  intros Hi Hk Hc j x Hj. pose proof (lookup_lt_Some _ _ _ Hj). rewrite list_lookup_insert_ne; [by apply Hc|].
  intros E. apply wrap_inj in E; lia.
Qed.
Lemma alter_at {A} (f : A -> A) i (l : list A) x : l !! i = Some x -> alter f i l = <[i := f x]> l.
Proof.
  intros H. rewrite list_insert_alter. apply list_eq. intros j. destruct (decide (j = i)) as [->|Hne].
  - by rewrite !list_lookup_alter_eq, H.
  - by rewrite !list_lookup_alter_ne by done.
Qed.
