(* ===== verification/MhiRingSpec.v ===== *)
(** Properties of the rings of the PCIe modem driver: a ring is a bounded queue, and a
    channel hands the buffers of its client back in the order in which it took them. *)
From S2P Require Import Prelude Cyclic MhiPm MhiRing.
#[local] Open Scope Z_scope.

(** ** Positions

    [n] elements, [i] the first one in use, [k] in use.  A position never runs more than
    once around the ring. *)
Definition pos (r : mhi_ring) (i : nat) : Z := r_base r + el_size r * Z.of_nat i.
Record ring_wf (r : mhi_ring) (n i k : nat) : Prop := {
  rw_el : 0 < el_size r; rw_len : r_len r = el_size r * Z.of_nat n;
  rw_i : (i < n)%nat; rw_k : (k < n)%nat;
  rw_rp : r_rp r = pos r i; rw_wp : r_wp r = pos r (wrap n (i + k)) }.

Lemma pos_inj r i j : 0 < el_size r -> pos r i = pos r j -> i = j.
Proof. unfold pos. nia. Qed.
Lemma next_pos r n i : 0 < el_size r -> r_len r = el_size r * Z.of_nat n -> (i < n)%nat ->
  ring_next r (pos r i) = pos r (wrap n (i + 1)).
Proof.
  intros He Hl Hi. unfold ring_next, pos, wrap. rewrite Hl. destruct (Nat.ltb_spec (i + 1) n) as [Hn|Hn].
  - assert (0 < el_size r * (Z.of_nat n - Z.of_nat i - 1)) by (apply Z.mul_pos_pos; lia).
    rewrite (proj2 (Z.leb_gt _ _)) by lia. rewrite Nat2Z.inj_add. lia.
  - replace n with (S i) by lia. rewrite Nat2Z.inj_succ, Z.mul_succ_r.
    rewrite (proj2 (Z.leb_le _ _)) by lia. replace (i + 1 - S i)%nat with 0%nat by lia. lia.
Qed.
Lemma slot_pos r n i : 0 < el_size r -> r_len r = el_size r * Z.of_nat n -> (i < n)%nat -> slot_of r (pos r i) = Ok i.
Proof.
  intros He Hl Hi. unfold slot_of, pos. replace (r_base r + _ - r_base r) with (Z.of_nat i * el_size r) by lia.
  rewrite Hl, Z.mod_mul, Z.div_mul, Nat2Z.id by lia.
  assert (Z.of_nat i * el_size r < el_size r * Z.of_nat n) by (rewrite Z.mul_comm; apply Z.mul_lt_mono_pos_l; lia).
  by rewrite (proj2 (Z.leb_le _ _)), (proj2 (Z.ltb_lt _ _)) by lia.
Qed.

Section Ring.
Context (r : mhi_ring) (n i k : nat) (H : ring_wf r n i k).

Lemma add_wf : (S k < n)%nat -> ring_wf (mhi_add_ring_element r) n i (S k).
Proof.
  destruct H as [He Hl Hi Hk Hrp Hwp]. intros Hk'. split; [done..|]. cbn. rewrite Hwp, (next_pos r n) by (done || wrap_lia).
  change (pos r (wrap n (wrap n (i + k) + 1)) = pos r (wrap n (i + S k))). by rewrite wrap_push by lia.
Qed.
Lemma del_wf k' : k = S k' -> ring_wf (mhi_del_ring_element r) n (wrap n (i + 1)) k'.
Proof.
  destruct H as [He Hl Hi Hk Hrp Hwp]. intros ->. split; [done|done|wrap_lia|lia|..].
  - cbn. by rewrite Hrp, (next_pos r n) by done.
  - change (r_wp r = pos r (wrap n (wrap n (i + 1) + k'))). by rewrite Hwp, wrap_pop by lia.
Qed.
Lemma full_wf : mhi_is_ring_full r = bool_decide (S k = n).
Proof.
  destruct H as [He Hl Hi Hk Hrp Hwp]. unfold mhi_is_ring_full. rewrite Hwp, (next_pos r n), Hrp by (done || wrap_lia).
  case_bool_decide as E.
  - apply Z.eqb_eq. f_equal. wrap_lia.
  - apply Z.eqb_neq. intros E'. apply pos_inj in E'; [|done]. wrap_lia.
Qed.
Lemma empty_wf : (r_rp r =? r_wp r) = bool_decide (k = 0%nat).
Proof.
  destruct H as [He Hl Hi Hk Hrp Hwp]. rewrite Hrp, Hwp. case_bool_decide as E.
  - apply Z.eqb_eq. f_equal. wrap_lia.
  - apply Z.eqb_neq. intros E'. apply pos_inj in E'; [|done]. wrap_lia.
Qed.
Lemma rp_slot : slot_of r (r_rp r) = Ok i.
Proof. destruct H as [He Hl Hi Hk Hrp Hwp]. rewrite Hrp. by apply (slot_pos r n). Qed.
Lemma wp_slot : slot_of r (r_wp r) = Ok (wrap n (i + k)).
Proof. destruct H as [He Hl Hi Hk Hrp Hwp]. rewrite Hwp. apply (slot_pos r n); [done..|wrap_lia]. Qed.
End Ring.

Lemma pos_div r a b : 0 < el_size r -> (b <= a)%nat -> (pos r a - pos r b) / el_size r = Z.of_nat (a - b).
Proof.
  intros He Hab. unfold pos. replace (_ - _) with (Z.of_nat (a - b) * el_size r) by (rewrite Nat2Z.inj_sub by done; lia).
  apply Z.div_mul. lia.
Qed.
Lemma avail_wf r n i k : ring_wf r n i k -> Z.of_nat n < 2 ^ 31 -> get_nr_avail_ring_elements r = Z.of_nat (n - 1 - k).
Proof.
  intros [He Hl Hi Hk Hrp Hwp] Hn. unfold get_nr_avail_ring_elements.
  assert (Hs : forall z, 0 <= z < 2 ^ 31 -> s32 z = z).
  { intros z Hz. unfold s32. rewrite u32_id by lia. destruct (Z.ltb_spec z 2147483648); lia. }
  rewrite Hrp, Hwp. assert (Hc : (pos r (wrap n (i + k)) <? pos r i) = bool_decide (wrap n (i + k) < i)%nat).
  { case_bool_decide; [apply Z.ltb_lt|apply Z.ltb_ge]; unfold pos; [apply Z.add_lt_mono_l, Z.mul_lt_mono_pos_l|
      apply Z.add_le_mono_l, Z.mul_le_mono_pos_l]; lia. }
  rewrite Hc. case_bool_decide as Hw.
  - rewrite pos_div by (done || lia). rewrite Hs; wrap_lia.
  - replace (r_base r + r_len r) with (pos r n) by (unfold pos; lia).
    replace (r_base r) with (pos r 0) by (unfold pos; lia).
    rewrite !pos_div by (done || wrap_lia). rewrite (Hs (Z.of_nat _)), Hs; wrap_lia.
Qed.

Lemma used_wf r n i k : ring_wf r n i k -> el_size r = SIZEOF_MHI_TRE -> Z.of_nat n < 2 ^ 31 ->
  get_used_ring_elements (r_rp r) (r_wp r) (Z.of_nat n) = Z.of_nat k.
Proof.
  intros [He Hl Hi Hk Hrp Hwp] Hs Hn. unfold get_used_ring_elements. rewrite <- Hs, Hrp, Hwp.
  assert (Hc : (pos r i <=? pos r (wrap n (i + k))) = bool_decide (i <= wrap n (i + k))%nat).
  { case_bool_decide; [apply Z.leb_le|apply Z.leb_gt]; unfold pos; [apply Z.add_le_mono_l, Z.mul_le_mono_pos_l|
      apply Z.add_lt_mono_l, Z.mul_lt_mono_pos_l]; lia. }
  rewrite Hc. case_bool_decide as Hw; rewrite pos_div by (done || lia).
  - rewrite u32_id; wrap_lia.
  - rewrite (u32_id (Z.of_nat (i - _))) by wrap_lia. rewrite u32_id; wrap_lia.
Qed.

(** C37. A ring is a bounded queue: of [n] elements, [k] of them in use, the driver counts
    [n - 1 - k] as free, finds the ring full when none is, counts [k] as used, and one
    element more or less in use is one less or more free, wherever the pointers are and
    however often they have wrapped. *)
Theorem ring_counts r n i k : ring_wf r n i k -> Z.of_nat n < 2 ^ 31 ->
  get_nr_avail_ring_elements r = Z.of_nat (n - 1 - k)
  /\ mhi_is_ring_full r = (get_nr_avail_ring_elements r =? 0)
  /\ (el_size r = SIZEOF_MHI_TRE -> get_used_ring_elements (r_rp r) (r_wp r) (Z.of_nat n) = Z.of_nat k)
  /\ ((S k < n)%nat -> get_nr_avail_ring_elements (mhi_add_ring_element r) = get_nr_avail_ring_elements r - 1)
  /\ ((0 < k)%nat -> get_nr_avail_ring_elements (mhi_del_ring_element r) = get_nr_avail_ring_elements r + 1).
Proof.
  intros H Hn. pose proof (rw_k _ _ _ _ H). rewrite (avail_wf r n i k) by done. split; [done|]. split; [|split; [|split]].
  - rewrite (full_wf r n i k H). case_bool_decide; symmetry; [apply Z.eqb_eq|apply Z.eqb_neq]; lia.
  - intros Hs. by apply (used_wf r n i k).
  - intros Hk. rewrite (avail_wf _ n i (S k)) by (done || by apply add_wf). lia.
  - intros Hk. rewrite (avail_wf _ n (wrap n (i + 1)) (k - 1)) by (done || (apply (del_wf _ _ _ k); [done|lia])). lia.
Qed.
Lemma ring_counts_witness :
  let r := mkRing 4096 (4096 + 96) (4096 + 32) 16 128 8 0 0 in
  get_nr_avail_ring_elements r = Z.of_nat (8 - 1 - 4) /\ mhi_is_ring_full r = (get_nr_avail_ring_elements r =? 0)
  /\ (el_size r = SIZEOF_MHI_TRE -> get_used_ring_elements (r_rp r) (r_wp r) (Z.of_nat 8) = Z.of_nat 4)
  /\ ((5 < 8)%nat -> get_nr_avail_ring_elements (mhi_add_ring_element r) = get_nr_avail_ring_elements r - 1)
  /\ ((0 < 4)%nat -> get_nr_avail_ring_elements (mhi_del_ring_element r) = get_nr_avail_ring_elements r + 1).
Proof.
  apply (ring_counts (mkRing 4096 (4096 + 96) (4096 + 32) 16 128 8 0 0) 8 6 4); [|done].
  split; try lia; unfold pos; cbn; lia.
Defined.

(** ** Channels

    The buffers of [xs] are in flight on the channel, first in first, and the descriptors
    of the ring are theirs. *)
Definition describes (b : mhi_buf_info) (t : mhi_tre) : Prop :=
  t_ptr t = p_addr b /\ dword0 t = MHI_TRE_DATA_DWORD0 (b_len b).
Definition addr_ok (r : mhi_ring) : Prop :=
  0 <= r_base r /\ r_base r + r_len r <= 2 ^ 64 /\ 0 <= iommu_base r /\ iommu_base r + r_len r <= 2 ^ 64.
Definition premaps (ch : mhi_chan) : bool := bool_decide (xfer_type ch = MHI_XFER_DMA).
Record chan_rep (ch : mhi_chan) (n i : nat) (xs : list mhi_buf_info) : Prop := {
  cr_tre : ring_wf (tre_ring ch) n i (length xs); cr_buf : ring_wf (buf_ring ch) n i (length xs);
  cr_tres : length (tres ch) = n; cr_bufs : length (bufs ch) = n;
  cr_xs : cyc (bufs ch) n i xs; cr_ts : exists ts, cyc (tres ch) n i ts /\ Forall2 describes xs ts;
  cr_addr : addr_ok (tre_ring ch); cr_type : xfer_type ch <> MHI_XFER_RSC_DMA }.
(** What no transfer changes. *)
Definition geom (r : mhi_ring) := (r_base r, el_size r, r_len r, iommu_base r).
Definition fixed (ch : mhi_chan) :=
  (geom (tre_ring ch), chan_id ch, to_device ch, xfer_type ch, intmod ch, pre_alloc ch, offload_ch ch, er_index ch,
   (ee_mask ch, ch_state ch, ccs ch)).

Lemma rep_insert_buf ch n i xs b :
  chan_rep ch n i xs -> chan_rep (ch <| bufs := <[wrap n (i + length xs) := b]> (bufs ch) |>) n i xs.
Proof.
  intros [Ht Hb Hlt Hlb Hx Hts Ha Hty]. split; try done.
  - etrans; [apply length_insert|done].
  - apply (cyc_outside (bufs ch)); [apply Ht..|done].
Qed.
Lemma rep_db ch n i xs db d : chan_rep ch n i xs ->
  chan_rep (ch <| tre_ring := (tre_ring ch) <| ctxt_wp := db |> |> <| c_db := d |>) n i xs.
Proof. intros [[He Hl Hi Hk Hrp Hwp] Hb Hlt Hlb Hx Hts Ha Hty]. split; done. Qed.
(** One more element is written and the pointers advance. *)
Lemma rep_push ch n i xs b t :
  chan_rep ch n i xs -> (S (length xs) < n)%nat -> describes b t ->
  chan_rep (ch <| bufs := <[wrap n (i + length xs) := b]> (bufs ch) |> <| tres := <[wrap n (i + length xs) := t]> (tres ch) |>
               <| tre_ring := mhi_add_ring_element (tre_ring ch) |> <| buf_ring := mhi_add_ring_element (buf_ring ch) |>)
    n i (xs ++ [b]).
Proof.
  intros [Ht Hb Hlt Hlb Hx (ts & Hts & Hd) Ha Hty] Hk Hbt.
  assert (Hi : (i < n)%nat) by apply Ht. pose proof (Forall2_length _ _ _ Hd) as Hlen.
  assert (Hn : length (xs ++ [b]) = S (length xs)) by (rewrite length_app, Nat.add_1_r; done).
  split; try done; try rewrite Hn.
  - by apply (add_wf (tre_ring ch) n i).
  - by apply (add_wf (buf_ring ch) n i).
  - etrans; [apply length_insert|done].
  - etrans; [apply length_insert|done].
  - apply (cyc_push (bufs ch)); try done. lia.
  - exists (ts ++ [t]). split; [rewrite Hlen; apply (cyc_push (tres ch)); try done; lia|].
    apply Forall2_app; [done|]. by apply Forall2_cons.
Qed.
Lemma rep_pop ch n i b xs : chan_rep ch n i (b :: xs) ->
  slot_of (buf_ring ch) (r_rp (buf_ring ch)) = Ok i /\ bufs ch !! i = Some b /\ r_rp (tre_ring ch) = pos (tre_ring ch) i
  /\ chan_rep (ch <| buf_ring := mhi_del_ring_element (buf_ring ch) |> <| tre_ring := mhi_del_ring_element (tre_ring ch) |>)
       n (wrap n (i + 1)) xs.
Proof.
  intros [Ht Hb Hlt Hlb Hx (ts & Hts & Hd) Ha Hty]. pose proof Ht as [_ _ Hi Hk _ _]. cbn [length] in Hk.
  destruct (cyc_pop _ _ _ _ _ Hi Hk Hx) as [Hx1 Hx2]. split; [by apply (rp_slot _ n _ _ Hb)|]. split; [done|].
  split; [apply Ht|].
  apply Forall2_cons_inv_l in Hd as (t & ts' & _ & Hd & ->). pose proof (Forall2_length _ _ _ Hd) as Hlen.
  split; try done.
  - by apply (del_wf (tre_ring ch) n i (length (b :: xs))).
  - by apply (del_wf (buf_ring ch) n i (length (b :: xs))).
  - exists ts'. split; [|done]. apply (cyc_pop _ _ _ t); [done|lia|done].
Qed.

(** ** Steps on one channel *)
Definition put (s : mhi_dp) (c : nat) (ch : mhi_chan) (pend : Z) (log : list dp_effect) : mhi_dp :=
  mkDp (dp_ctrl s) pend (<[c := ch]> (dp_chans s)) (dp_events s) (dp_cmd s) log.
Lemma put_self s c ch : dp_chans s !! c = Some ch -> put s c ch (pending_pkts s) (dp_log s) = s.
Proof. intros H. unfold put. rewrite list_insert_id by done. by destruct s. Qed.
Lemma D_bind {A B} (m : DP A) (k : A -> DP B) s a s' : m s = Ok (a, s') -> (x ← m; k x) s = k a s'.
Proof. intros E. unfold mbind, DP_bind, M_bind. by rewrite E. Qed.
Lemma D_bind_inv {A B} (m : DP A) (k : A -> DP B) s b s' :
  (x ← m; k x) s = Ok (b, s') -> exists a s1, m s = Ok (a, s1) /\ k a s1 = Ok (b, s').
Proof. unfold mbind, DP_bind, M_bind. destruct (m s) as [[a s1]| |] eqn:E; try done. eauto. Qed.
Lemma lift_Ok {A} (r : res A) (a : A) (s : mhi_dp) : r = Ok a -> liftD r s = Ok (a, s).
Proof. by intros ->. Qed.

Section Steps.
Context (s : mhi_dp) (c : nat) (Hc : (c < length (dp_chans s))%nat).
Implicit Types (ch : mhi_chan) (log : list dp_effect) (pend : Z).

Lemma get_chan_put ch pend log : get_chan c (put s c ch pend log) = Ok (ch, put s c ch pend log).
Proof.
  unfold get_chan. rewrite (D_bind get_dp _ _ (put s c ch pend log) _) by done. apply lift_Ok. unfold put. cbn [dp_chans].
  by rewrite list_lookup_insert_eq.
Qed.
Lemma upd_chan_put f ch pend log : upd_chan c f (put s c ch pend log) = Ok (tt, put s c (f ch) pend log).
Proof.
  unfold upd_chan, M_upd, put. f_equal. f_equal.
  change (mkDp (dp_ctrl s) pend (alter f c (<[c := ch]> (dp_chans s))) (dp_events s) (dp_cmd s) log
    = mkDp (dp_ctrl s) pend (<[c := f ch]> (dp_chans s)) (dp_events s) (dp_cmd s) log).
  by rewrite (alter_at f c _ ch), list_insert_insert_eq by (by apply list_lookup_insert_eq).
Qed.
Lemma dlog_put e ch pend log : dlog e (put s c ch pend log) = Ok (tt, put s c ch pend (log ++ [e])).
Proof. done. Qed.
Lemma when_log_put b e ch pend log :
  whenD b (dlog e) (put s c ch pend log) = Ok (tt, put s c ch pend (log ++ if b then [e] else [])).
Proof. destruct b; [done|]. cbn [whenD]. by rewrite app_nil_r. Qed.
Lemma get_pm_put ch pend log : get_pm (put s c ch pend log) = Ok (pm_state (dp_ctrl s), put s c ch pend log).
Proof. done. Qed.
Lemma set_buf_put f ch pend log i b :
  slot_of (buf_ring ch) (r_wp (buf_ring ch)) = Ok i -> bufs ch !! i = Some b ->
  set_buf c f (put s c ch pend log) = Ok (tt, put s c (ch <| bufs := <[i := f b]> (bufs ch) |>) pend log).
Proof.
  intros Hi Hb. unfold set_buf. rewrite (D_bind _ _ _ _ _ (get_chan_put ch pend log)).
  rewrite (D_bind _ _ _ _ _ (lift_Ok _ _ _ Hi)). rewrite (D_bind _ _ _ b (put s c ch pend log)) by (by rewrite Hb).
  rewrite upd_chan_put. by rewrite (alter_at f i _ b) by done.
Qed.
Lemma set_tre_put t ch pend log i :
  slot_of (tre_ring ch) (r_wp (tre_ring ch)) = Ok i -> (i < length (tres ch))%nat ->
  set_tre c t (put s c ch pend log) = Ok (tt, put s c (ch <| tres := <[i := t]> (tres ch) |>) pend log).
Proof.
  intros Hi Hlt. unfold set_tre. rewrite (D_bind _ _ _ _ _ (get_chan_put ch pend log)).
  rewrite (D_bind _ _ _ _ _ (lift_Ok _ _ _ Hi)). destruct (lookup_lt_is_Some_2 _ _ Hlt) as [t' Ht].
  rewrite (D_bind _ _ _ t' (put s c ch pend log)) by (by rewrite Ht). by rewrite upd_chan_put.
Qed.
Lemma suspend_put pm ch pend log :
  leave_suspend pm (put s c ch pend log)
  = Ok (tt, put s c ch pend (log ++ if MHI_PM_IN_SUSPEND_STATE pm then [RuntimeGet; RuntimePut] else [])).
Proof.
  unfold leave_suspend. destruct (MHI_PM_IN_SUSPEND_STATE pm); cbn [whenD]; [|by rewrite app_nil_r].
  rewrite (D_bind _ _ _ tt _ (dlog_put RuntimeGet ch pend log)), dlog_put. by rewrite <- app_assoc.
Qed.
Lemma count_put ul ch pend log :
  count_pending ul (put s c ch pend log)
  = Ok (tt, put s c ch (if ul then pend + 1 else pend) (log ++ if ul && (pend + 1 =? 1) then [RuntimeGet] else [])).
Proof.
  unfold count_pending. destruct ul; cbn [whenD andb]; [|by rewrite app_nil_r].
  rewrite (D_bind _ _ _ tt (put s c ch (pend + 1) log)) by done.
  rewrite (D_bind get_dp _ _ (put s c ch (pend + 1) log) _) by done. change (pending_pkts (put s c ch (pend + 1) log)) with (pend + 1).
  apply when_log_put.
Qed.
Lemma uncount_put ul ch pend log :
  uncount_pending ul (put s c ch pend log)
  = Ok (tt, put s c ch (if ul then pend - 1 else pend) (log ++ if ul && (pend - 1 =? 0) then [RuntimePut] else [])).
Proof.
  unfold uncount_pending. destruct ul; cbn [whenD andb]; [|by rewrite app_nil_r].
  rewrite (D_bind _ _ _ tt (put s c ch (pend - 1) log)) by done.
  rewrite (D_bind get_dp _ _ (put s c ch (pend - 1) log) _) by done. change (pending_pkts (put s c ch (pend - 1) log)) with (pend - 1).
  apply when_log_put.
Qed.
(** The doorbell of the channel: the register, if it is written, and nothing else. *)
Lemma ring_db_put ch pend log : exists db d es,
  ring_chan_if_valid c (put s c ch pend log)
  = Ok (tt, put s c (ch <| tre_ring := (tre_ring ch) <| ctxt_wp := db |> |> <| c_db := d |>) pend (log ++ es))
  /\ (es = [] \/ es = [ChanDb c (ring_db (tre_ring ch))]).
Proof.
  unfold ring_chan_if_valid. rewrite (D_bind _ _ _ _ _ (get_pm_put ch pend log)).
  destruct (MHI_DB_ACCESS_VALID (pm_state (dp_ctrl s))); cbn [whenD].
  - unfold mhi_ring_chan_db. rewrite (D_bind _ _ _ _ _ (get_chan_put ch pend log)).
    rewrite (D_bind _ _ _ _ _ (upd_chan_put _ ch pend log)). rewrite when_log_put.
    eexists _, _, _. split; [done|]. destruct (process_db (c_db ch) (ring_db (tre_ring ch))).1; auto.
  - exists (ctxt_wp (tre_ring ch)), (c_db ch), []. split; [|by left]. rewrite app_nil_r.
    by destruct ch as [? [] ? ? ? ? ? ? ? ? ? ? ? ? ? ? ?].
Qed.
End Steps.

(** ** What a transfer does

    The buffers given back to the client of a channel, and the balance of the votes for
    WAKE and for runtime power. *)
Definition callbacks (l : list dp_effect) : list (nat * Z) :=
  l ≫= fun e => match e with XferCb c b _ _ => [(c, b)] | _ => [] end.
Definition handed (c : nat) (l : list dp_effect) : list Z := (filter (fun p => p.1 = c) (callbacks l)).*2.
Definition wake_vote (e : dp_effect) : Z := match e with WakeGet => 1 | WakePut => -1 | _ => 0 end.
Definition run_vote (e : dp_effect) : Z := match e with RuntimeGet => 1 | RuntimePut => -1 | _ => 0 end.
Definition votes (f : dp_effect -> Z) (l : list dp_effect) : Z := foldr (fun e z => f e + z) 0 l.
Lemma votes_app f a b : votes f (a ++ b) = votes f a + votes f b.
Proof.
  induction a as [|e a IH]; [done|]. change (f e + votes f (a ++ b) = f e + votes f a + votes f b). rewrite IH. lia.
Qed.
Lemma callbacks_app a b : callbacks (a ++ b) = callbacks a ++ callbacks b.
Proof. apply bind_app. Qed.
Lemma handed_app c a b : handed c (a ++ b) = handed c a ++ handed c b.
Proof. unfold handed. by rewrite callbacks_app, filter_app, fmap_app. Qed.
Lemma handed_pairs (c c' : nat) (bs : list Z) :
  (filter (fun p => p.1 = c) (pair c' <$> bs)).*2 = if decide (c' = c) then bs else [].
Proof.
  induction bs as [|b bs IH]; [by destruct (decide _)|]. cbn [fmap list_fmap]. rewrite filter_cons. cbn [fst].
  destruct (decide (c' = c)) as [->|]; [|done]. rewrite fmap_cons. cbn [snd]. by f_equal.
Qed.
Definition busy (pend : Z) : Z := b2z (0 <? pend).
Definition load (ch : mhi_chan) (xs : list mhi_buf_info) : Z := if to_device ch then Z.of_nat (length xs) else 0.

(** From a channel with [xs] in flight to one with [xs'] in flight: the client gave the
    buffers [took] and got the buffers [gave], first in first out. *)
Record moved (c n : nat) (ch : mhi_chan) (pend : Z) (xs : list mhi_buf_info) (ch' : mhi_chan) (pend' : Z)
    (effs : list dp_effect) (i' : nat) (xs' : list mhi_buf_info) (took gave : list Z) : Prop := {
  mv_rep : chan_rep ch' n i' xs'; mv_fixed : fixed ch' = fixed ch;
  mv_pend : pend' = pend + load ch xs' - load ch xs;
  mv_fifo : (cb_buf <$> xs) ++ took = gave ++ (cb_buf <$> xs');
  mv_gave : callbacks effs = pair c <$> gave;
  mv_wake : votes wake_vote effs = load ch xs' - load ch xs;
  mv_run : votes run_vote effs = busy pend' - busy pend }.

Lemma fixed_dir ch ch' : fixed ch' = fixed ch -> to_device ch' = to_device ch.
Proof. by intros [=]. Qed.
Lemma fixed_load ch ch' xs : fixed ch' = fixed ch -> load ch' xs = load ch xs.
Proof. intros H. unfold load. by rewrite (fixed_dir _ _ H). Qed.
Lemma moved_stays c n ch pend xs ch' i effs :
  chan_rep ch' n i xs -> fixed ch' = fixed ch -> callbacks effs = [] -> votes wake_vote effs = 0 -> votes run_vote effs = 0 ->
  moved c n ch pend xs ch' pend effs i xs [] [].
Proof. intros Hr Hf Hh Hw Hv. split; try done; try lia. by rewrite app_nil_r. Qed.
Lemma moved_trans c n ch pend xs ch1 pend1 e1 i1 xs1 t1 g1 ch2 pend2 e2 i2 xs2 t2 g2 :
  moved c n ch pend xs ch1 pend1 e1 i1 xs1 t1 g1 -> moved c n ch1 pend1 xs1 ch2 pend2 e2 i2 xs2 t2 g2 ->
  moved c n ch pend xs ch2 pend2 (e1 ++ e2) i2 xs2 (t1 ++ t2) (g1 ++ g2).
Proof.
  intros [R1 F1 P1 Q1 G1 W1 V1] [R2 F2 P2 Q2 G2 W2 V2]. rewrite (fixed_load _ _ xs1 F1), (fixed_load _ _ xs2 F1) in P2, W2.
  split; [done|congruence|lia| | |rewrite votes_app; lia|rewrite votes_app; lia].
  - rewrite app_assoc, Q1, <- app_assoc, Q2. by rewrite app_assoc.
  - rewrite callbacks_app, fmap_app. congruence.
Qed.

(** A buffer enters the channel: its effects beside the doorbell. *)
Lemma moved_push c n ch pend xs ch' i b effs :
  chan_rep ch' n i (xs ++ [b]) -> fixed ch' = fixed ch -> 0 <= pend ->
  callbacks effs = [] -> votes wake_vote effs = (if to_device ch then 1 else 0) ->
  votes run_vote effs = (if to_device ch && (pend + 1 =? 1) then 1 else 0) ->
  moved c n ch pend xs ch' (if to_device ch then pend + 1 else pend) effs i (xs ++ [b]) [cb_buf b] [].
Proof.
  intros Hr Hf Hp Hh Hw Hv. assert (Hl : load ch (xs ++ [b]) = load ch xs + if to_device ch then 1 else 0).
  { unfold load. rewrite length_app. cbn [length]. destruct (to_device ch); lia. }
  split; try done.
  - rewrite Hl. destruct (to_device ch); lia.
  - by rewrite fmap_app.
  - lia.
  - rewrite Hv. unfold busy. destruct (to_device ch); cbn [andb]; [|lia].
    rewrite (proj2 (Z.ltb_lt 0 (pend + 1))) by lia.
    destruct (Z.eqb_spec (pend + 1) 1), (Z.ltb_spec 0 pend); cbn; lia.
Qed.

(** ** Queueing *)
Ltac dstep L := rewrite (D_bind _ _ _ _ _ L).

Section Queue.
Context (map_single : Z -> Z -> option Z) (skb_data : Z -> Z).
Context (s : mhi_dp) (c : nat) (Hc : (c < length (dp_chans s))%nat).
Context (ch : mhi_chan) (n i : nat) (xs : list mhi_buf_info) (R : chan_rep ch n i xs).

#[local] Abbreviation w := (wrap n (i + length xs)).
Lemma rep_slot : exists b, bufs ch !! w = Some b.
Proof.
  destruct R as [[_ _ Hi Hk _ _] _ _ Hlb _ _ _ _]. apply lookup_lt_is_Some_2. rewrite Hlb. by apply wrap_lt.
Qed.
Lemma set_buf_rep f b pend log : bufs ch !! w = Some b ->
  set_buf c f (put s c ch pend log) = Ok (tt, put s c (ch <| bufs := <[w := f b]> (bufs ch) |>) pend log)
  /\ chan_rep (ch <| bufs := <[w := f b]> (bufs ch) |>) n i xs /\ <[w := f b]> (bufs ch) !! w = Some (f b).
Proof.
  intros Hb. split; [|split].
  - apply (set_buf_put s c Hc f ch pend log w); [|done]. by apply (wp_slot _ n), R.
  - by apply rep_insert_buf.
  - apply list_lookup_insert_eq. by eapply lookup_lt_Some.
Qed.
(** The element written becomes one in flight. *)
Lemma write_rep t b pend log : bufs ch !! w = Some b -> describes b t -> (S (length xs) < n)%nat ->
  exists ch1, set_tre c t (put s c ch pend log) = Ok (tt, put s c ch1 pend log)
  /\ (forall pend log, advance c (put s c ch1 pend log)
       = Ok (tt, put s c (ch1 <| tre_ring := mhi_add_ring_element (tre_ring ch1) |>
                              <| buf_ring := mhi_add_ring_element (buf_ring ch1) |>) pend log))
  /\ chan_rep (ch1 <| tre_ring := mhi_add_ring_element (tre_ring ch1) |>
                   <| buf_ring := mhi_add_ring_element (buf_ring ch1) |>) n i (xs ++ [b])
  /\ fixed ch1 = fixed ch.
Proof.
  intros Hb Hd Hk. exists (ch <| tres := <[w := t]> (tres ch) |>). split; [|split; [|split; [|done]]].
  - apply (set_tre_put s c Hc); [by apply (wp_slot _ n), R|]. destruct R as [[_ _ Hi Hl _ _] _ Hlt _ _ _ _ _].
    rewrite Hlt. by apply wrap_lt.
  - intros pend' log'. exact (upd_chan_put s c Hc (fun ch => ch <| tre_ring := mhi_add_ring_element (tre_ring ch) |>
                           <| buf_ring := mhi_add_ring_element (buf_ring ch) |>) _ pend' log').
  - pose proof (rep_push ch n i xs b t R Hk Hd) as H. rewrite (list_insert_id _ _ _ Hb) in H.
    by destruct ch.
Qed.
End Queue.

(** What the log of a transfer may hold beside the packets: nothing is given back. *)
Definition quiet_votes (es : list dp_effect) (wake run : Z) : Prop :=
  callbacks es = [] /\ votes wake_vote es = wake /\ votes run_vote es = run.
Lemma quiet_nil : quiet_votes [] 0 0.
Proof. done. Qed.
Lemma quiet_app (a b : list dp_effect) (wa ra wb rb : Z) : quiet_votes a wa ra -> quiet_votes b wb rb -> quiet_votes (a ++ b) (wa + wb) (ra + rb).
Proof. intros (Ha & Hwa & Hra) (Hb & Hwb & Hrb). split; [by rewrite callbacks_app, Ha, Hb|]. rewrite !votes_app. lia. Qed.
Lemma quiet_wake_get (b : bool) : quiet_votes (if b then [WakeGet] else []) (b2z b) 0.
Proof. by destruct b. Qed.
Lemma quiet_wake_put (b : bool) : quiet_votes (if b then [WakePut] else []) (- b2z b) 0.
Proof. by destruct b. Qed.
Lemma quiet_run_get (b : bool) : quiet_votes (if b then [RuntimeGet] else []) 0 (b2z b).
Proof. by destruct b. Qed.
Lemma quiet_suspend (b : bool) : quiet_votes (if b then [RuntimeGet; RuntimePut] else []) 0 0.
Proof. by destruct b. Qed.
Lemma quiet_db (c : nat) (es : list dp_effect) (wp : Z) : es = [] \/ es = [ChanDb c wp] -> quiet_votes es 0 0.
Proof. by intros [-> | ->]. Qed.

Section Queues.
Context (map_single : Z -> Z -> option Z) (skb_data : Z -> Z).
Context (s : mhi_dp) (c : nat) (Hc : (c < length (dp_chans s))%nat) (n i : nat) (xs : list mhi_buf_info).
Implicit Types (ch : mhi_chan).

Lemma moved_quiet ch ch' pend effs : chan_rep ch' n i xs -> fixed ch' = fixed ch -> quiet_votes effs 0 0 ->
  moved c n ch pend xs ch' pend effs i xs [] [].
Proof. intros Hr Hf (Hh & Hw & Hv). by apply moved_stays. Qed.

(** The end of a queueing: the element is counted, published and its doorbell rung. *)
Lemma db_put ch pend log : chan_rep ch n i xs -> exists ch' es,
  ring_chan_if_valid c (put s c ch pend log) = Ok (tt, put s c ch' pend (log ++ es))
  /\ chan_rep ch' n i xs /\ fixed ch' = fixed ch /\ quiet_votes es 0 0.
Proof.
  intros R. destruct (ring_db_put s c Hc ch pend log) as (db & d & es & E & Hes). eexists _, es. split; [exact E|].
  split; [by apply rep_db|]. split; [done|]. by eapply quiet_db.
Qed.
End Queues.

Section QueueOps.
Context (map_single : Z -> Z -> option Z) (skb_data : Z -> Z).
Context (s : mhi_dp) (c : nat) (Hc : (c < length (dp_chans s))%nat) (n i : nat) (xs : list mhi_buf_info).
Implicit Types (ch : mhi_chan).

Lemma ring_put ch ys pend log wp : chan_rep ch n i ys -> exists ch' es,
  (_ ← ring_chan_if_valid c; _ ← wake_put_if wp; mret 0) (put s c ch pend log) = Ok (0, put s c ch' pend (log ++ es))
  /\ chan_rep ch' n i ys /\ fixed ch' = fixed ch /\ quiet_votes es (- b2z wp) 0.
Proof.
  intros R. destruct (db_put s c Hc n i ys ch pend log R) as (ch' & es & E & R' & F & Q).
  dstep E. dstep (when_log_put s c wp WakePut ch' pend (log ++ es)). eexists ch', _. rewrite <- app_assoc.
  split; [reflexivity|]. split; [done|]. split; [done|]. apply (quiet_app _ _ 0 0 _ 0); [done|apply quiet_wake_put].
Qed.
Lemma count_ring_put ch ys pend log wp : chan_rep ch n i ys -> exists ch' es,
  (_ ← count_pending (to_device ch); _ ← ring_chan_if_valid c; _ ← wake_put_if wp; mret 0) (put s c ch pend log)
    = Ok (0, put s c ch' (if to_device ch then pend + 1 else pend) (log ++ es))
  /\ chan_rep ch' n i ys /\ fixed ch' = fixed ch /\ quiet_votes es (- b2z wp) (b2z (to_device ch && (pend + 1 =? 1))).
Proof.
  intros R. dstep (count_put s c (to_device ch) ch pend log).
  destruct (ring_put ch ys (if to_device ch then pend + 1 else pend)
    (log ++ if to_device ch && (pend + 1 =? 1) then [RuntimeGet] else []) wp R) as (ch' & es & E & R' & F & Q).
  eexists ch', _. rewrite <- app_assoc in E. split; [exact E|]. split; [done|]. split; [done|].
  replace (b2z (_ && _)) with (b2z (to_device ch && (pend + 1 =? 1)) + 0) by lia.
  apply (quiet_app _ _ 0 _ _ 0); [apply quiet_run_get|done].
Qed.
Lemma publish_put ch t b pend log wp : chan_rep ch n i xs -> (S (length xs) < n)%nat ->
  bufs ch !! wrap n (i + length xs) = Some b -> describes b t ->
  exists ch' es, (_ ← set_tre c t; _ ← count_pending (to_device ch); _ ← advance c; _ ← ring_chan_if_valid c;
                  _ ← wake_put_if wp; mret 0) (put s c ch pend log)
    = Ok (0, put s c ch' (if to_device ch then pend + 1 else pend) (log ++ es))
  /\ chan_rep ch' n i (xs ++ [b]) /\ fixed ch' = fixed ch
  /\ quiet_votes es (- b2z wp) (b2z (to_device ch && (pend + 1 =? 1))).
Proof.
  intros R Hk Hb Hd. destruct (write_rep s c Hc ch n i xs R t b pend log Hb Hd Hk) as (ch1 & E1 & E2 & R1 & F1).
  dstep E1. dstep (count_put s c (to_device ch) ch1 pend log). rewrite (D_bind _ _ _ _ _ (E2 _ _)).
  destruct (ring_put _ _ (if to_device ch then pend + 1 else pend)
    (log ++ if to_device ch && (pend + 1 =? 1) then [RuntimeGet] else []) wp R1) as (ch2 & es & E3 & R2 & F2 & Q2).
  eexists ch2, _. rewrite <- app_assoc in E3. split; [exact E3|]. split; [done|]. split; [by rewrite F2|].
  replace (b2z (_ && _)) with (b2z (to_device ch && (pend + 1 =? 1)) + 0) by lia.
  apply (quiet_app _ _ 0 _ _ 0); [apply quiet_run_get|done].
Qed.

Definition room (n : nat) (xs : list mhi_buf_info) : bool := bool_decide (S (length xs) < n)%nat.
Lemma room_full ch : chan_rep ch n i xs -> mhi_is_ring_full (tre_ring ch) = negb (room n xs).
Proof.
  intros R. rewrite (full_wf _ _ _ _ (cr_tre _ _ _ _ R)). destruct R as [[_ _ _ Hk _ _] _ _ _ _ _ _ _].
  unfold room. repeat case_bool_decide; done || lia.
Qed.
(** A queueing that returns [r] accepts the buffer when that is 0 and leaves everything
    as it was otherwise. *)
Definition queued ch pend log (m : DP Z) (buf r : Z) : Prop := exists b ch' pend' es,
  m (put s c ch pend log) = Ok (r, put s c ch' pend' (log ++ es))
  /\ moved c n ch pend xs ch' pend' es i (if r =? 0 then xs ++ [b] else xs) (if r =? 0 then [buf] else []) [].
Lemma queued_refused ch ch' pend log (m : DP Z) es buf r : r <> 0 -> chan_rep ch' n i xs -> fixed ch' = fixed ch ->
  m (put s c ch pend log) = Ok (r, put s c ch' pend (log ++ es)) -> quiet_votes es 0 0 ->
  queued ch pend log m buf r.
Proof.
  intros Hr R F E Q. exists mhi_buf_info_zero, ch', pend, es. split; [done|].
  rewrite (proj2 (Z.eqb_neq _ _) Hr). by apply moved_quiet.
Qed.
Lemma queued_at_once ch pend log (m : DP Z) buf r : r <> 0 -> chan_rep ch n i xs ->
  m (put s c ch pend log) = Ok (r, put s c ch pend log) -> queued ch pend log m buf r.
Proof. intros Hr R E. apply (queued_refused ch ch pend log m []); [done..| |done]. by rewrite app_nil_r. Qed.
Lemma queued_taken ch ch' pend log (m : DP Z) es b : chan_rep ch' n i (xs ++ [b]) -> fixed ch' = fixed ch -> 0 <= pend ->
  m (put s c ch pend log) = Ok (0, put s c ch' (if to_device ch then pend + 1 else pend) (log ++ es)) ->
  quiet_votes es (b2z (to_device ch)) (b2z (to_device ch && (pend + 1 =? 1))) ->
  queued ch pend log m (cb_buf b) 0.
Proof. intros R F Hp E (Hh & Hw & Hv). exists b, ch', (if to_device ch then pend + 1 else pend), es. split; [done|]. by apply moved_push. Qed.

Definition skb_result (pm : Z) (mapped : bool) : Z :=
  if negb (room n xs) then - ENOMEM else if MHI_PM_IN_ERROR_STATE pm then - EIO else if mapped then 0 else - ENOMEM.
(** The votes at the start of a queueing. *)
Definition entry_log (ul : bool) (pm : Z) : list dp_effect :=
  (if MHI_PM_IN_SUSPEND_STATE pm then [RuntimeGet; RuntimePut] else []) ++ (if asserts_wake ul pm then [WakeGet] else []).
Lemma entry_quiet ul pm : quiet_votes (entry_log ul pm) (b2z (asserts_wake ul pm)) 0.
Proof. apply (quiet_app _ _ 0 0 (b2z _) 0); [apply quiet_suspend|apply quiet_wake_get]. Qed.
Lemma entry_put {A} ch pend log ul pm (K : DP A) :
  (_ ← leave_suspend pm; _ ← whenD (asserts_wake ul pm) (dlog WakeGet); K) (put s c ch pend log)
  = K (put s c ch pend (log ++ entry_log ul pm)).
Proof. dstep (suspend_put s c pm ch pend log). by dstep (when_log_put s c (asserts_wake ul pm) WakeGet ch pend
  (log ++ if MHI_PM_IN_SUSPEND_STATE pm then [RuntimeGet; RuntimePut] else [])); rewrite <- app_assoc. Qed.
(** For an uplink channel the vote stays until the completion. *)
Lemma exit_quiet ul pm es0 es run : quiet_votes es0 (b2z (asserts_wake ul pm)) 0 ->
  quiet_votes es (- b2z (negb ul && asserts_wake ul pm)) run -> quiet_votes (es0 ++ es) (b2z ul) run.
Proof.
  intros H0 H1. replace (b2z ul) with (b2z (asserts_wake ul pm) + - b2z (negb ul && asserts_wake ul pm)) by
    (unfold asserts_wake; destruct ul, (pm =? MHI_PM_M0); done).
  replace run with (0 + run) by lia. by apply quiet_app.
Qed.

Lemma taken_put ch ch1 pend log es0 (m : DP Z) pm t b : quiet_votes es0 (b2z (asserts_wake (to_device ch) pm)) 0 -> chan_rep ch1 n i xs -> fixed ch1 = fixed ch -> room n xs = true ->
  bufs ch1 !! wrap n (i + length xs) = Some b -> describes b t -> 0 <= pend ->
  m (put s c ch pend log) = (_ ← set_tre c t; _ ← count_pending (to_device ch); _ ← advance c; _ ← ring_chan_if_valid c;
    _ ← wake_put_if (negb (to_device ch) && asserts_wake (to_device ch) pm); mret 0)
      (put s c ch1 pend (log ++ es0)) ->
  queued ch pend log m (cb_buf b) 0.
Proof.
  intros Q0 R1 F1 Hk Hb Hd Hp E. apply bool_decide_eq_true in Hk. pose proof (fixed_dir _ _ F1) as Hdir.
  destruct (publish_put ch1 t b pend (log ++ es0) (negb (to_device ch) && asserts_wake (to_device ch) pm)
    R1 Hk Hb Hd) as (ch2 & es & E2 & R2 & F2 & Q2). rewrite Hdir in E2, Q2.
  apply (queued_taken ch ch2 pend log m (es0 ++ es)); [done|congruence|done| |].
  - by rewrite E, E2, app_assoc.
  - eapply exit_quiet; done.
Qed.

Lemma skb_queued ch pend log skb len : chan_rep ch n i xs -> 0 <= pend ->
  queued ch pend log (mhi_queue_skb map_single skb_data c skb len) skb
    (skb_result (pm_state (dp_ctrl s)) (bool_decide (is_Some (map_single (skb_data skb) len)))).
Proof.
  intros R Hp. unfold skb_result. set (m := mhi_queue_skb map_single skb_data c skb len).
  destruct (room n xs) eqn:Hk; cbn [negb].
  2:{ apply queued_at_once; [done..|]. unfold m, mhi_queue_skb. dstep (get_chan_put s c Hc ch pend log). by rewrite (room_full ch R), Hk. }
  set (pm := pm_state (dp_ctrl s)). destruct (MHI_PM_IN_ERROR_STATE pm) eqn:He.
  { apply queued_at_once; [done..|]. unfold m, mhi_queue_skb. dstep (get_chan_put s c Hc ch pend log).
    rewrite (room_full ch R), Hk. cbn [negb]. dstep (get_pm_put s c ch pend log). fold pm. by rewrite He. }
  destruct (rep_slot ch n i xs R) as [b0 Hb0].
  set (f1 := fun b => b <| v_addr := skb_data skb |> <| cb_buf := skb |> <| b_wp := r_wp (tre_ring ch) |> <| b_len := len |>).
  set (es0 := entry_log (to_device ch) pm). pose proof (entry_quiet (to_device ch) pm) as Q0. fold es0 in Q0.
  destruct (set_buf_rep s c Hc ch n i xs R f1 b0 pend (log ++ es0) Hb0) as (E1 & R1 & Hb1).
  set (ch1 := ch <| bufs := _ |>) in *. set (aw := asserts_wake (to_device ch) pm) in *.
  assert (E : m (put s c ch pend log) = (match map_single (skb_data skb) len with
    | None => _ ← wake_put_if aw; mret (- ENOMEM)
    | Some addr =>
        _ ← set_buf c (fun b => b <| p_addr := addr |>);
        _ ← set_tre c (mkTre addr (MHI_TRE_DATA_DWORD0 len) (MHI_TRE_DATA_DWORD1 true true false false));
        _ ← count_pending (to_device ch); _ ← advance c; _ ← ring_chan_if_valid c;
        _ ← wake_put_if (negb (to_device ch) && aw); mret 0 end : DP Z) (put s c ch1 pend (log ++ es0))).
  { unfold m, mhi_queue_skb. dstep (get_chan_put s c Hc ch pend log). rewrite (room_full ch R), Hk. cbn [negb].
    dstep (get_pm_put s c ch pend log). fold pm. rewrite He, (entry_put ch pend log (to_device ch) pm). by dstep E1. }
  destruct (map_single (skb_data skb) len) as [addr|].
  - rewrite bool_decide_eq_true_2 by eauto. set (f2 := fun b : mhi_buf_info => b <| p_addr := addr |>) in E.
    destruct (set_buf_rep s c Hc ch1 n i xs R1 f2 (f1 b0) pend (log ++ es0) Hb1) as (E2 & R2 & Hb2).
    rewrite (D_bind _ _ _ _ _ E2) in E.
    refine (taken_put ch _ pend log es0 m pm _ (f2 (f1 b0)) Q0 R2 eq_refl Hk Hb2 _ Hp E). by split.
  - rewrite bool_decide_eq_false_2 by (by intros [? ?]).
    rewrite (D_bind _ _ _ _ _ (when_log_put s c aw WakePut ch1 pend (log ++ es0))), <- app_assoc in E.
    eapply queued_refused; [done|exact R1|done|exact E|].
    replace 0 with (b2z aw + - b2z aw) at 1 by lia. apply (quiet_app _ _ _ 0 _ 0); [done|apply quiet_wake_put].
Qed.


Definition dma_result (pm : Z) : Z :=
  if negb (room n xs) then - ENOMEM else if MHI_PM_IN_ERROR_STATE pm then - EIO else 0.
Lemma dma_queued ch pend log buf addr len : chan_rep ch n i xs -> 0 <= pend ->
  queued ch pend log (mhi_queue_dma c buf addr len) buf (dma_result (pm_state (dp_ctrl s))).
Proof.
  intros R Hp. unfold dma_result. set (m := mhi_queue_dma c buf addr len).
  destruct (room n xs) eqn:Hk; cbn [negb].
  2:{ apply queued_at_once; [done..|]. unfold m, mhi_queue_dma. dstep (get_chan_put s c Hc ch pend log). by rewrite (room_full ch R), Hk. }
  set (pm := pm_state (dp_ctrl s)). destruct (MHI_PM_IN_ERROR_STATE pm) eqn:He.
  { apply queued_at_once; [done..|]. unfold m, mhi_queue_dma. dstep (get_chan_put s c Hc ch pend log).
    rewrite (room_full ch R), Hk. cbn [negb]. dstep (get_pm_put s c ch pend log). fold pm. by rewrite He. }
  destruct (rep_slot ch n i xs R) as [b0 Hb0].
  set (f1 := fun b => b <| p_addr := addr |> <| pre_mapped := true |> <| cb_buf := buf |> <| b_wp := r_wp (tre_ring ch) |>
                        <| b_len := len |> <| b_used := false || b_used b |>).
  set (log0 := log ++ entry_log (to_device ch) pm). set (log1 := log0 ++ if b_used b0 then [Warned] else []).
  destruct (set_buf_rep s c Hc ch n i xs R f1 b0 pend log1 Hb0) as (E1 & R1 & Hb1).
  set (ch1 := ch <| bufs := _ |>) in *. set (t := mkTre addr (MHI_TRE_DATA_DWORD0 len) (MHI_TRE_DATA_DWORD1 true true false false)).
  assert (Hr : bool_decide (xfer_type ch = MHI_XFER_RSC_DMA) = false) by (apply bool_decide_eq_false_2, R).
  assert (Hw : slot_of (buf_ring ch) (r_wp (buf_ring ch)) = Ok (wrap n (i + length xs))) by (apply (wp_slot _ n), R).
  set (fin := _ ← set_tre c t; _ ← count_pending (to_device ch); _ ← advance c; _ ← ring_chan_if_valid c;
    _ ← wake_put_if (negb (to_device ch) && asserts_wake (to_device ch) pm); mret 0 : DP Z).
  assert (E : m (put s c ch pend log) = fin (put s c ch1 pend log1)).
  { unfold m, mhi_queue_dma. dstep (get_chan_put s c Hc ch pend log). rewrite (room_full ch R), Hk. cbn [negb].
    dstep (get_pm_put s c ch pend log). fold pm. rewrite He, (entry_put ch pend log (to_device ch) pm). fold log0.
    dstep (lift_Ok _ _ (put s c ch pend log0) Hw). dstep (lift_Ok _ _ (put s c ch pend log0) (f_equal of_option Hb0)).
    dstep (when_log_put s c (b_used b0) Warned ch pend log0). fold log1. rewrite Hr. by dstep E1. }
  unfold log1, log0 in E. rewrite <- app_assoc in E.
  refine (taken_put ch ch1 pend log _ m pm t (f1 b0) _ R1 eq_refl Hk Hb1 _ Hp E); [|by split].
  replace (b2z _) with (b2z (asserts_wake (to_device ch) pm) + 0) by lia.
  apply (quiet_app _ _ _ 0 0 0); [apply entry_quiet|]. by destruct (b_used b0).
Qed.

Lemma gen_tre_put ch pend log buf cb len flags : chan_rep ch n i xs -> room n xs = true ->
  exists ch' b, mhi_gen_tre map_single c buf cb len flags (put s c ch pend log)
    = Ok (if bool_decide (is_Some (map_single buf len)) then 0 else - ENOMEM, put s c ch' pend log)
  /\ chan_rep ch' n i (if bool_decide (is_Some (map_single buf len)) then xs ++ [b] else xs)
  /\ fixed ch' = fixed ch /\ cb_buf b = cb.
Proof.
  intros R Hk. apply bool_decide_eq_true in Hk. destruct (rep_slot ch n i xs R) as [b0 Hb0].
  set (f1 := fun b => b <| v_addr := buf |> <| cb_buf := cb |> <| b_wp := r_wp (tre_ring ch) |> <| b_len := len |>).
  destruct (set_buf_rep s c Hc ch n i xs R f1 b0 pend log Hb0) as (E1 & R1 & Hb1). set (ch1 := ch <| bufs := _ |>) in *.
  unfold mhi_gen_tre. dstep (get_chan_put s c Hc ch pend log). dstep E1. destruct (map_single buf len) as [addr|].
  - rewrite bool_decide_eq_true_2 by eauto. set (f2 := fun b : mhi_buf_info => b <| p_addr := addr |>).
    destruct (set_buf_rep s c Hc ch1 n i xs R1 f2 (f1 b0) pend log Hb1) as (E2 & R2 & Hb2). dstep E2.
    set (t := mkTre addr _ _). set (ch2 := ch1 <| bufs := _ |>) in *.
    destruct (write_rep s c Hc ch2 n i xs R2 t (f2 (f1 b0)) pend log Hb2) as (ch3 & E3 & E4 & R3 & F3); [by split|done|].
    dstep E3. dstep (E4 pend log). eexists _, _. split; [reflexivity|]. split; [exact R3|]. split; [exact F3|done].
  - rewrite bool_decide_eq_false_2 by (by intros [? ?]). exists ch1, (f1 b0). done.
Qed.

Definition buf_result (pm : Z) (mapped : bool) : Z :=
  if MHI_PM_IN_ERROR_STATE pm then - EIO else if negb (room n xs) then - ENOMEM else if mapped then 0 else - ENOMEM.
Lemma buf_queued ch pend log buf len flags : chan_rep ch n i xs -> 0 <= pend ->
  queued ch pend log (mhi_queue_buf map_single c buf len flags) buf
    (buf_result (pm_state (dp_ctrl s)) (bool_decide (is_Some (map_single buf len)))).
Proof.
  intros R Hp. unfold buf_result. set (m := mhi_queue_buf map_single c buf len flags). set (pm := pm_state (dp_ctrl s)).
  destruct (MHI_PM_IN_ERROR_STATE pm) eqn:He.
  { apply queued_at_once; [done..|]. unfold m, mhi_queue_buf. dstep (get_pm_put s c ch pend log). fold pm. by rewrite He. }
  destruct (room n xs) eqn:Hk; cbn [negb].
  2:{ apply queued_at_once; [done..|]. unfold m, mhi_queue_buf. dstep (get_pm_put s c ch pend log). fold pm. rewrite He.
      dstep (get_chan_put s c Hc ch pend log). by rewrite (room_full ch R), Hk. }
  destruct (gen_tre_put ch pend log buf buf len flags R Hk) as (ch1 & b & E1 & R1 & F1 & Hb).
  assert (E : m (put s c ch pend log) = (ret ← (mret (if bool_decide (is_Some (map_single buf len)) then 0 else - ENOMEM) : DP Z);
    if truth ret then mret ret else
    _ ← leave_suspend pm; _ ← whenD (asserts_wake (to_device ch) pm) (dlog WakeGet); _ ← count_pending (to_device ch);
    _ ← ring_chan_if_valid c; _ ← wake_put_if (negb (to_device ch) && asserts_wake (to_device ch) pm); mret 0)
      (put s c ch1 pend log)).
  { unfold m, mhi_queue_buf. dstep (get_pm_put s c ch pend log). fold pm. rewrite He. dstep (get_chan_put s c Hc ch pend log).
    rewrite (room_full ch R), Hk. cbn [negb]. by dstep E1. }
  destruct (bool_decide (is_Some (map_single buf len))).
  2:{ apply (queued_refused ch ch1 pend log m []); [done|done|done| |done]. by rewrite E, app_nil_r. }
  pose proof (eq_trans E (entry_put ch1 pend log (to_device ch) pm _)) as E2. clear E.
  destruct (count_ring_put ch1 (xs ++ [b]) pend (log ++ entry_log (to_device ch) pm)
    (negb (to_device ch) && asserts_wake (to_device ch) pm) R1) as (ch2 & es & E3 & R2 & F2 & Q2).
  rewrite (fixed_dir _ _ F1) in E3, Q2. rewrite E3, <- app_assoc in E2. rewrite <- Hb.
  eapply queued_taken; [exact R2|congruence|done|exact E2|]. eapply exit_quiet; [apply entry_quiet|done].
Qed.
End QueueOps.
