(* ===== verification/MhiFlowSpec.v ===== *)
(** The transfers of the PCIe modem driver as a system: the clients of the channels queue
    buffers, the device completes them, the driver takes a channel down; whatever the
    order, every buffer comes back once, in order, and the votes for power balance. *)
From S2P Require Import Prelude Cyclic MhiPm MhiRing MhiChan MhiRingSpec.
#[local] Open Scope Z_scope.

(** ** Completion *)
Lemma moved_pop c n ch pend b xs ch' i' effs :
  chan_rep ch' n i' xs -> fixed ch' = fixed ch -> load ch (b :: xs) <= pend ->
  callbacks effs = [(c, cb_buf b)] -> votes wake_vote effs = - b2z (to_device ch) ->
  votes run_vote effs = - b2z (to_device ch && (pend - 1 =? 0)) ->
  moved c n ch pend (b :: xs) ch' (if to_device ch then pend - 1 else pend) effs i' xs [] [cb_buf b].
Proof.
  intros Hr Hf Hp Hh Hw Hv. assert (Hl : load ch (b :: xs) = load ch xs + b2z (to_device ch)).
  { unfold load. cbn [length]. destruct (to_device ch); cbn; lia. }
  assert (0 <= load ch xs) by (unfold load; destruct (to_device ch); lia).
  split; try done.
  - rewrite Hl. destruct (to_device ch); cbn; lia.
  - by rewrite app_nil_r.
  - lia.
  - rewrite Hv. unfold busy. destruct (to_device ch); cbn [andb b2z] in *; [|lia].
    rewrite (proj2 (Z.ltb_lt 0 pend)) by lia.
    destruct (Z.eqb_spec (pend - 1) 0), (Z.ltb_spec 0 (pend - 1)); cbn; lia.
Qed.
Lemma moved_load c n ch pend xs ch' pend' effs i' xs' took gave :
  moved c n ch pend xs ch' pend' effs i' xs' took gave -> load ch xs <= pend -> load ch' xs' <= pend'.
Proof. intros [_ F P _ _ _ _] H. rewrite (fixed_load _ _ _ F). lia. Qed.
Lemma fixed_pos ch ch' i : fixed ch' = fixed ch -> pos (tre_ring ch') i = pos (tre_ring ch) i.
Proof. unfold pos. by intros [= -> ->]. Qed.
Lemma fixed_pre_alloc ch ch' : fixed ch' = fixed ch -> pre_alloc ch' = pre_alloc ch.
Proof. by intros [=]. Qed.

(** ** What the device says *)
Definition nth_ptr (r : mhi_ring) (k : nat) : Z := Nat.iter k (ring_next r) (r_rp r).
Lemma nth_ptr_pos r n i x k : ring_wf r n i x -> (k < n)%nat -> nth_ptr r k = pos r (wrap n (i + k)).
Proof.
  intros [He Hl Hi _ Hrp _]. unfold nth_ptr. induction k as [|k IH]; intros Hk.
  - cbn [Nat.iter nat_rect]. rewrite Hrp. f_equal. wrap_lia.
  - change (ring_next r (Nat.iter k (ring_next r) (r_rp r)) = pos r (wrap n (i + S k))).
    rewrite IH, (next_pos r n) by (done || lia || (apply wrap_lt; lia)). by rewrite wrap_push by lia.
Qed.
Lemma physical_virtual r n i : addr_ok r -> 0 < el_size r -> r_len r = el_size r * Z.of_nat n -> (i < n)%nat ->
  mhi_to_virtual r (mhi_to_physical r (pos r i)) = pos r i.
Proof.
  intros (H1 & H2 & H3 & H4) He Hl Hi. unfold mhi_to_virtual, mhi_to_physical, addr64, pos.
  assert (0 <= el_size r * Z.of_nat i) by (apply Z.mul_nonneg_nonneg; lia).
  assert (el_size r * Z.of_nat i < r_len r) by (rewrite Hl; apply Z.mul_lt_mono_pos_l; lia).
  rewrite (Z.mod_small (r_base r + _ - _ + _)) by lia. rewrite Z.mod_small by lia. lia.
Qed.
Definition tx_event (c code len ptr : Z) : mhi_tre :=
  mkTre ptr (Z.lor (Z.shiftl code 24) len) (MHI_TRE_EV_DWORD1 c MHI_PKT_TYPE_TX_EVENT).
Lemma land_255 z : Z.land z 255 = z mod 256.
Proof. apply (Z.land_ones z 8). lia. Qed.
Lemma tx_event_code c code len ptr : 0 <= code < 256 -> 0 <= len < 65536 -> MHI_TRE_GET_EV_CODE (tx_event c code len ptr) = code.
Proof.
  intros Hc Hl. unfold MHI_TRE_GET_EV_CODE, byte_of. cbn [dword0 tx_event].
  rewrite Z.shiftr_lor, Z.shiftr_shiftl_l, Z.sub_diag, Z.shiftl_0_r by lia.
  rewrite (Z.shiftr_div_pow2 len), (Z.div_small len), Z.lor_0_r, land_255, Z.mod_small by lia. done.
Qed.
Lemma tx_event_chan c code len ptr : 0 <= c < 256 -> MHI_TRE_GET_EV_CHID (tx_event c code len ptr) = c.
Proof.
  intros Hc. unfold MHI_TRE_GET_EV_CHID, byte_of. cbn [dword1 tx_event]. unfold MHI_TRE_EV_DWORD1.
  rewrite Z.shiftr_lor, Z.shiftr_shiftl_l, Z.sub_diag, Z.shiftl_0_r by lia.
  change (Z.shiftr (Z.shiftl MHI_PKT_TYPE_TX_EVENT 16) 24) with 0. by rewrite Z.lor_0_r, land_255, Z.mod_small by lia.
Qed.
Lemma tx_event_type c code len ptr : 0 <= c < 256 -> MHI_TRE_GET_EV_TYPE (tx_event c code len ptr) = MHI_PKT_TYPE_TX_EVENT.
Proof.
  intros Hc. unfold MHI_TRE_GET_EV_TYPE, byte_of. cbn [dword1 tx_event]. unfold MHI_TRE_EV_DWORD1.
  rewrite Z.shiftr_lor, Z.shiftr_shiftl_l by lia. change (Z.shiftr (Z.shiftl MHI_PKT_TYPE_TX_EVENT 16) 16) with 34.
  rewrite Z.land_lor_distr_l, land_255, Z.shiftl_mul_pow2 by lia. change (2 ^ (24 - 16)) with 256. by rewrite Z.mod_mul by lia.
Qed.

Section Complete.
Context (map_single : Z -> Z -> option Z).
Context (s : mhi_dp) (c : nat) (Hc : (c < length (dp_chans s))%nat) (n : nat).
Implicit Types (ch : mhi_chan) (i : nat) (xs : list mhi_buf_info).

Definition pop ch : mhi_chan :=
  ch <| buf_ring := mhi_del_ring_element (buf_ring ch) |> <| tre_ring := mhi_del_ring_element (tre_ring ch) |>.
(** The effects of one completion, before a buffer of a [pre_alloc] channel goes back. *)
Definition completion_log (ul : bool) (b : mhi_buf_info) (pend status len : Z) : list dp_effect :=
  (if negb (pre_mapped b) then [UnmapSingle (p_addr b)] else []) ++ [XferCb c (cb_buf b) len status]
  ++ (if ul && (pend - 1 =? 0) then [RuntimePut] else []) ++ (if ul then [WakePut] else []).
Lemma completion_moves ch i b xs pend status len : chan_rep ch n i (b :: xs) -> load ch (b :: xs) <= pend ->
  moved c n ch pend (b :: xs) (pop ch) (if to_device ch then pend - 1 else pend)
    (completion_log (to_device ch) b pend status len) (wrap n (i + 1)) xs [] [cb_buf b].
Proof.
  intros R Hp. destruct (rep_pop _ _ _ _ _ R) as (_ & _ & _ & R').
  unfold completion_log. apply moved_pop; [done|done|done| | |].
  - destruct (pre_mapped b), (to_device ch), (pend - 1 =? 0); done.
  - destruct (pre_mapped b), (to_device ch), (pend - 1 =? 0); done.
  - destruct (pre_mapped b), (to_device ch), (pend - 1 =? 0); done.
Qed.
Lemma complete_first_put ch i b pend log status len :
  slot_of (buf_ring ch) (r_rp (buf_ring ch)) = Ok i -> bufs ch !! i = Some b ->
  complete_first map_single c status len (put s c ch pend log)
  = whenD (pre_alloc ch) (ret ← mhi_queue_buf map_single c (cb_buf b) (b_len b) MHI_EOT;
                          whenD (truth ret) (dlog (Kfree (cb_buf b))))
      (put s c (pop ch) (if to_device ch then pend - 1 else pend)
        (log ++ completion_log (to_device ch) b pend status len)).
Proof.
  intros Hs Hb. unfold complete_first, completion_log.
  dstep (get_chan_put s c Hc ch pend log). dstep (lift_Ok _ _ (put s c ch pend log) Hs).
  dstep (lift_Ok _ _ (put s c ch pend log) (f_equal of_option Hb)).
  dstep (when_log_put s c (negb (pre_mapped b)) (UnmapSingle (p_addr b)) ch pend log).
  rewrite (D_bind _ _ _ _ _ (upd_chan_put s c Hc _ ch pend _)). fold (pop ch).
  rewrite (D_bind _ _ _ _ _ (dlog_put s c _ _ _ _)), (D_bind _ _ _ _ _ (uncount_put s c _ _ _ _)).
  unfold wake_put_if. rewrite (D_bind _ _ _ _ _ (when_log_put s c _ _ _ _ _)). by rewrite <- !app_assoc.
Qed.
(** The first buffer in flight is completed; a [pre_alloc] channel may take it again. *)
Lemma complete_first_moves ch i b xs pend log status len : chan_rep ch n i (b :: xs) -> load ch (b :: xs) <= pend ->
  exists ch' pend' es new took,
    complete_first map_single c status len (put s c ch pend log) = Ok (tt, put s c ch' pend' (log ++ es))
    /\ moved c n ch pend (b :: xs) ch' pend' es (wrap n (i + 1)) (xs ++ new) took [cb_buf b]
    /\ (pre_alloc ch = false -> new = [] /\ took = []).
Proof.
  intros R Hp. pose proof (completion_moves ch i b xs pend status len R Hp) as M. destruct (rep_pop _ _ _ _ _ R) as (Hs & Hb & _).
  rewrite (complete_first_put ch i b) by done.
  set (ch1 := pop ch) in *. set (pend1 := if to_device ch then pend - 1 else pend) in *.
  set (es1 := completion_log (to_device ch) b pend status len) in *. destruct (pre_alloc ch); cbn [whenD].
  2:{ exists ch1, pend1, es1, [], []. rewrite app_nil_r. done. }
  assert (Hp1 : 0 <= pend1) by (pose proof (moved_load _ _ _ _ _ _ _ _ _ _ _ _ M Hp);
    assert (0 <= load ch1 xs) by (unfold load; destruct (to_device ch1); lia); lia).
  destruct (buf_queued map_single s c Hc n (wrap n (i + 1)) xs ch1 pend1 (log ++ es1) (cb_buf b) (b_len b) MHI_EOT
    (mv_rep _ _ _ _ _ _ _ _ _ _ _ _ M) Hp1) as (b' & ch2 & pend2 & es2 & E2 & M2).
  set (r := buf_result _ _ _ _) in *. dstep E2.
  rewrite when_log_put. set (es3 := if truth r then _ else []).
  assert (Q3 : quiet_votes es3 0 0) by (unfold es3; by destruct (truth r)).
  pose proof (moved_quiet c n _ _ ch2 ch2 pend2 es3 (mv_rep _ _ _ _ _ _ _ _ _ _ _ _ M2) eq_refl Q3) as M3.
  pose proof (moved_trans _ _ _ _ _ _ _ _ _ _ _ _ _ _ _ _ _ _ _ M (moved_trans _ _ _ _ _ _ _ _ _ _ _ _ _ _ _ _ _ _ _ M2 M3)) as M4.
  eexists ch2, pend2, _, (if r =? 0 then [b'] else []), (if r =? 0 then [cb_buf b] else []). rewrite <- !app_assoc. split; [reflexivity|]. split; [|done].
  destruct (r =? 0); [exact M4|]. rewrite app_nil_r. exact M4.
Qed.
(** The loop ends when as many buffers are completed as the device said. *)
Lemma complete_until_moves m : forall fuel ch i xs pend log status len,
  chan_rep ch n i xs -> load ch xs <= pend -> (m <= length xs)%nat -> (m < fuel)%nat ->
  exists ch' pend' es new took,
    complete_until map_single fuel c (pos (tre_ring ch) (wrap n (i + m))) status len (put s c ch pend log)
      = Ok (tt, put s c ch' pend' (log ++ es))
    /\ moved c n ch pend xs ch' pend' es (wrap n (i + m)) (drop m xs ++ new) took (cb_buf <$> take m xs)
    /\ (pre_alloc ch = false -> new = [] /\ took = []).
Proof.
  induction m as [|m IH]; intros [|fuel] ch i xs pend log status len R Hp Hm Hf; try lia.
  all: pose proof (cr_tre _ _ _ _ R) as [He Hl Hi Hk Hrp Hwp].
  - exists ch, pend, [], [], []. cbn [complete_until]. dstep (get_chan_put s c Hc ch pend log).
    replace (wrap n (i + 0)) with i by wrap_lia. rewrite Hrp, Z.eqb_refl, drop_0, !app_nil_r. split; [done|].
    split; [|done]. by apply moved_quiet.
  - destruct xs as [|b xs]; [cbn in Hm; lia|]. cbn [length] in Hm, Hk. cbn [complete_until]. dstep (get_chan_put s c Hc ch pend log).
    rewrite Hrp. rewrite (proj2 (Z.eqb_neq _ _)) by (intros E; apply pos_inj in E; [wrap_lia|done]).
    destruct (complete_first_moves ch i b xs pend log status len R Hp) as (ch1 & pend1 & es1 & new1 & took1 & E1 & M1 & P1).
    dstep E1. pose proof (mv_fixed _ _ _ _ _ _ _ _ _ _ _ _ M1) as F1.
    assert (Ep : pos (tre_ring ch) (wrap n (i + S m)) = pos (tre_ring ch1) (wrap n (wrap n (i + 1) + m))).
    { rewrite wrap_pop by lia. symmetry. by apply fixed_pos. }
    rewrite Ep. destruct (IH fuel ch1 (wrap n (i + 1)) (xs ++ new1) pend1 (log ++ es1) status len) as
      (ch2 & pend2 & es2 & new2 & took2 & E2 & M2 & P2).
    + apply (mv_rep _ _ _ _ _ _ _ _ _ _ _ _ M1).
    + by apply (moved_load _ _ _ _ _ _ _ _ _ _ _ _ M1).
    + rewrite length_app. lia.
    + lia.
    + rewrite wrap_pop in M2 by lia. exists ch2, pend2, (es1 ++ es2), (new1 ++ new2), (took1 ++ took2).
      rewrite app_assoc, E2. split; [done|]. split.
      * pose proof (moved_trans _ _ _ _ _ _ _ _ _ _ _ _ _ _ _ _ _ _ _ M1 M2) as M.
        rewrite drop_app_le, take_app_le, <- app_assoc in M by lia. exact M.
      * intros Ha. destruct (P1 Ha) as [-> ->]. destruct P2 as [-> ->]; [|done]. by rewrite (fixed_pre_alloc _ _ F1).
Qed.

(** An event of the device completes the buffers up to the one it points to. *)
Definition completes (code : Z) : bool := (code =? MHI_EV_CC_OVERFLOW) || (code =? MHI_EV_CC_EOB) || (code =? MHI_EV_CC_EOT).
Definition enabled ch : bool := bool_decide (ch_state ch = MHI_CH_STATE_ENABLED).
Lemma parse_xfer_moves fuel event j ch i xs pend log : chan_rep ch n i xs -> load ch xs <= pend ->
  (enabled ch && completes (MHI_TRE_GET_EV_CODE event) = true ->
    t_ptr event = mhi_to_physical (tre_ring ch) (pos (tre_ring ch) (wrap n (i + j))) /\ (j < length xs)%nat /\ (S j < fuel)%nat) ->
  exists ch' pend' es new took,
    let m := if enabled ch && completes (MHI_TRE_GET_EV_CODE event) then S j else 0%nat in
    parse_xfer_event map_single fuel event c (put s c ch pend log) = Ok (0, put s c ch' pend' (log ++ es))
    /\ moved c n ch pend xs ch' pend' es (wrap n (i + m)) (drop m xs ++ new) took (cb_buf <$> take m xs)
    /\ (pre_alloc ch = false -> new = [] /\ took = []).
Proof.
  intros R Hp Hev. pose proof (cr_tre _ _ _ _ R) as [He Hl Hi Hk Hrp Hwp]. unfold parse_xfer_event.
  rewrite (D_bind _ _ _ _ _ (get_chan_put s c Hc ch pend log)). fold (enabled ch).
  set (code := MHI_TRE_GET_EV_CODE event) in *.
  assert (Hstay : forall r ch' es, r = Ok (0, put s c ch' pend (log ++ es)) -> chan_rep ch' n i xs -> fixed ch' = fixed ch ->
    quiet_votes es 0 0 -> exists ch2 pend' es2 new took,
      (r : res (Z * mhi_dp)) = Ok (0, put s c ch2 pend' (log ++ es2))
      /\ moved c n ch pend xs ch2 pend' es2 (wrap n (i + 0)) (drop 0 xs ++ new) took (cb_buf <$> take 0 xs)
      /\ (pre_alloc ch = false -> new = [] /\ took = [])).
  { intros r ch' es Hr R' F' Q'. exists ch', pend, es, [], []. split; [done|]. split; [|done]. rewrite drop_0, app_nil_r.
    replace (wrap n (i + 0)) with i by wrap_lia. by apply moved_quiet. }
  destruct (enabled ch); cbn [negb andb] in *; [|apply (Hstay _ ch []); [by rewrite app_nil_r|done..]].
  fold (completes code). destruct (completes code).
  - destruct (Hev eq_refl) as (Hptr & Hj & Hf). rewrite Hptr, (physical_virtual _ n), (next_pos _ n), wrap_push
      by (done || lia || (apply wrap_lt; lia) || apply R).
    destruct (complete_until_moves (S j) fuel ch i xs pend log (if code =? MHI_EV_CC_OVERFLOW then - EOVERFLOW else 0)
      (MHI_TRE_GET_EV_LEN event)) as (ch' & pend' & es & new & took & E & M & P); [done|done|lia|lia|].
    exists ch', pend', es, new, took. dstep E. done.
  - destruct ((code =? MHI_EV_CC_OOB) || (code =? MHI_EV_CC_DB_MODE)).
    + set (ch1 := ch <| c_db := (c_db ch) <| db_mode := true |> |>).
      assert (R1 : chan_rep ch1 n i xs) by (destruct R; by split).
      set (more := negb (r_wp (tre_ring ch) =? r_rp (tre_ring ch))).
      destruct (db_put s c Hc n i xs ch1 pend log R1) as (ch2 & es & E2 & R2 & F2 & Q2).
      apply (Hstay _ (if more then ch2 else ch1) (if more then es else [])).
      * refine (D_bind _ (fun _ => mret 0) _ tt _ _). rewrite (D_bind _ _ _ _ _ (upd_chan_put s c Hc _ ch pend log)). fold ch1.
        destruct more; cbn [andb].
        -- exact E2.
        -- by rewrite app_nil_r.
      * by destruct more.
      * by destruct more.
      * by destruct more.
    + destruct (code =? MHI_EV_CC_BAD_TRE); [by apply (Hstay _ ch [Warned])|apply (Hstay _ ch []); [by rewrite app_nil_r|done..]].
Qed.

(** ** Taking the channel down *)
Definition return_log (ul pre : bool) (b : mhi_buf_info) (pend : Z) : list dp_effect :=
  (if ul && (pend - 1 =? 0) then [RuntimePut] else []) ++ (if ul then [WakePut] else [])
  ++ (if negb (pre_mapped b) then [UnmapSingle (p_addr b)] else [])
  ++ [if pre then Kfree (cb_buf b) else XferCb c (cb_buf b) 0 (- ENOTCONN)].
Lemma return_first_put ch i b xs pend log : chan_rep ch n i (b :: xs) ->
  return_first c (put s c ch pend log)
  = Ok (tt, put s c (pop ch) (if to_device ch then pend - 1 else pend) (log ++ return_log (to_device ch) (pre_alloc ch) b pend)).
Proof.
  intros R. destruct (rep_pop _ _ _ _ _ R) as (Hs & Hb & _ & R'). unfold return_first, return_log.
  dstep (get_chan_put s c Hc ch pend log). dstep (lift_Ok _ _ (put s c ch pend log) Hs).
  dstep (lift_Ok _ _ (put s c ch pend log) (f_equal of_option Hb)).
  rewrite (D_bind _ _ _ _ _ (uncount_put s c _ _ _ _)). unfold wake_put_if.
  rewrite (D_bind _ _ _ _ _ (when_log_put s c _ _ _ _ _)), (D_bind _ _ _ _ _ (when_log_put s c _ _ _ _ _)).
  rewrite (D_bind _ _ _ _ _ (upd_chan_put s c Hc _ ch _ _)). fold (pop ch). rewrite dlog_put. by rewrite <- !app_assoc.
Qed.
Lemma return_moves ch i b xs pend : chan_rep ch n i (b :: xs) -> load ch (b :: xs) <= pend -> pre_alloc ch = false ->
  moved c n ch pend (b :: xs) (pop ch) (if to_device ch then pend - 1 else pend)
    (return_log (to_device ch) (pre_alloc ch) b pend) (wrap n (i + 1)) xs [] [cb_buf b].
Proof.
  intros R Hp ->. destruct (rep_pop _ _ _ _ _ R) as (_ & _ & _ & R'). unfold return_log. apply moved_pop; [done|done|done| | |].
  - destruct (pre_mapped b), (to_device ch), (pend - 1 =? 0); done.
  - destruct (pre_mapped b), (to_device ch), (pend - 1 =? 0); done.
  - destruct (pre_mapped b), (to_device ch), (pend - 1 =? 0); done.
Qed.
Lemma reset_data_moves fuel : forall ch i xs pend log, chan_rep ch n i xs -> load ch xs <= pend -> pre_alloc ch = false ->
  (length xs < fuel)%nat -> exists ch' pend' es,
    mhi_reset_data_chan fuel c (put s c ch pend log) = Ok (tt, put s c ch' pend' (log ++ es))
    /\ moved c n ch pend xs ch' pend' es (wrap n (i + length xs)) [] [] (cb_buf <$> xs).
Proof.
  induction fuel as [|fuel IH]; intros ch i xs pend log R Hp Ha Hf; [lia|].
  pose proof (cr_tre _ _ _ _ R) as W. pose proof W as [_ _ Hi Hk _ _]. cbn [mhi_reset_data_chan].
  dstep (get_chan_put s c Hc ch pend log). rewrite (empty_wf _ _ _ _ W). destruct xs as [|b xs]; cbn [length] in *.
  - rewrite bool_decide_eq_true_2 by done. exists ch, pend, []. rewrite app_nil_r. split; [done|].
    replace (wrap n (i + 0)) with i by wrap_lia. by apply moved_quiet.
  - rewrite bool_decide_eq_false_2 by done. dstep (return_first_put ch i b xs pend log R).
    pose proof (return_moves ch i b xs pend R Hp Ha) as M.
    destruct (IH (pop ch) (wrap n (i + 1)) xs (if to_device ch then pend - 1 else pend)
      (log ++ return_log (to_device ch) (pre_alloc ch) b pend)) as (ch2 & pend2 & es2 & E2 & M2).
    + apply (mv_rep _ _ _ _ _ _ _ _ _ _ _ _ M).
    + by apply (moved_load _ _ _ _ _ _ _ _ _ _ _ _ M).
    + done.
    + lia.
    + rewrite wrap_pop in M2 by lia. exists ch2, pend2, (return_log (to_device ch) (pre_alloc ch) b pend ++ es2).
      rewrite app_assoc. split; [exact E2|].
      exact (moved_trans _ _ _ _ _ _ _ _ _ _ _ _ _ _ _ _ _ _ _ M M2).
Qed.

(** ** A pointer that is not an element of the ring *)
Record ring_at ch i : Prop := {
  ra_el : 0 < el_size (tre_ring ch); ra_len : r_len (tre_ring ch) = el_size (tre_ring ch) * Z.of_nat n;
  ra_bel : 0 < el_size (buf_ring ch); ra_blen : r_len (buf_ring ch) = el_size (buf_ring ch) * Z.of_nat n;
  ra_i : (i < n)%nat; ra_rp : r_rp (tre_ring ch) = pos (tre_ring ch) i; ra_brp : r_rp (buf_ring ch) = pos (buf_ring ch) i;
  ra_bufs : length (bufs ch) = n }.
Lemma ring_at_pop ch i : ring_at ch i -> ring_at (pop ch) (wrap n (i + 1)).
Proof.
  intros [He Hl Hb Hbl Hi Hr Hbr Hn]. split; [done..|wrap_lia| | |done].
  - change (ring_next (tre_ring ch) (r_rp (tre_ring ch)) = pos (tre_ring ch) (wrap n (i + 1))). rewrite Hr. by apply next_pos.
  - change (ring_next (buf_ring ch) (r_rp (buf_ring ch)) = pos (buf_ring ch) (wrap n (i + 1))). rewrite Hbr. by apply next_pos.
Qed.
Lemma complete_until_wild p status len fuel : forall ch i pend log, ring_at ch i -> pre_alloc ch = false ->
  (forall j, (j < n)%nat -> p <> pos (tre_ring ch) j) ->
  complete_until map_single fuel c p status len (put s c ch pend log) = OutOfFuel.
Proof.
  induction fuel as [|fuel IH]; intros ch i pend log R Ha Hp; [done|]. pose proof R as [He Hl Hb Hbl Hi Hr Hbr Hn].
  cbn [complete_until]. dstep (get_chan_put s c Hc ch pend log). rewrite Hr, (proj2 (Z.eqb_neq _ _)) by (by apply not_eq_sym, Hp).
  destruct (lookup_lt_is_Some_2 (bufs ch) i) as [b Hbi]; [lia|].
  pose proof (complete_first_put ch i b pend log status len) as E. rewrite Ha in E. cbn [whenD] in E.
  dstep (E ltac:(rewrite Hbr; by apply (slot_pos _ n)) Hbi). by apply (IH (pop ch) (wrap n (i + 1))); [apply ring_at_pop|..].
Qed.
End Complete.

(** A completion event whose pointer is not that of an element of the ring is never done
    with: [parse_xfer_event] does not check the pointer the device wrote, the read pointer
    of the driver passes it by for ever, and each round gives some buffer back to the
    client once more. *)
Theorem wild_event_never_ends map_single s c ch n i event fuel : dp_chans s !! c = Some ch -> ring_at n ch i ->
  pre_alloc ch = false -> ch_state ch = MHI_CH_STATE_ENABLED -> completes (MHI_TRE_GET_EV_CODE event) = true ->
  (forall j, (j < n)%nat -> ring_next (tre_ring ch) (mhi_to_virtual (tre_ring ch) (t_ptr event)) <> pos (tre_ring ch) j) ->
  parse_xfer_event map_single fuel event c s = OutOfFuel.
Proof.
  intros Hch R Ha Hs Hcode Hp. assert (Hc : (c < length (dp_chans s))%nat) by (by eapply lookup_lt_Some).
  rewrite <- (put_self s c ch Hch). unfold parse_xfer_event. rewrite (D_bind _ _ _ _ _ (get_chan_put s c Hc ch _ _)), Hs.
  rewrite bool_decide_eq_true_2 by done. cbn [negb]. fold (completes (MHI_TRE_GET_EV_CODE event)). rewrite Hcode.
  set (m := complete_until _ _ _ _ _ _). assert (E : m (put s c ch (pending_pkts s) (dp_log s)) = OutOfFuel)
    by (by apply (complete_until_wild map_single s c Hc n _ _ _ fuel ch i)).
  unfold mbind, DP_bind, M_bind. by rewrite E.
Qed.
(** A system with an uplink and a downlink channel, with rings of four elements. *)
Definition demo_ring (base el : Z) : mhi_ring := mkRing base base base el (el * 4) 4 (base + 4096) (base + 4096).
Definition demo_chan (id base : Z) (ul : bool) (type : MHI_XFER_TYPE) : mhi_chan :=
  mkChan id (demo_ring base 16) (replicate 4 (mkTre 0 0 0)) (demo_ring (base + 1024) 56) (replicate 4 mhi_buf_info_zero)
    ul type 0 false false 0 4 (mkDb true true 0) MHI_CH_STATE_ENABLED 0 0 0.
Definition demo_dp : mhi_dp :=
  mkDp (mkMhi MHI_PM_M0 MHI_STATE_M0 MHI_EE_AMSS 0 1 0 0 [] []) 0
    [demo_chan 0 65536 true MHI_XFER_SKB; demo_chan 1 131072 false MHI_XFER_BUFFER] []
    (mkCmd (demo_ring 32768 16) (replicate 4 (mkTre 0 0 0))) [].
Lemma wild_event_never_ends_witness : ~ exists fuel r,
  parse_xfer_event (fun v _ => Some v) fuel (tx_event 0 MHI_EV_CC_EOT 60 (65536 + 4096 + 8)) 0 demo_dp = Ok r.
Proof.
  intros (fuel & r & E). rewrite (wild_event_never_ends _ demo_dp 0 (demo_chan 0 65536 true MHI_XFER_SKB) 4 0) in E; try done.
  - split; done || lia.
  - intros j Hj. change (65536 + 24 <> 65536 + 16 * Z.of_nat j). lia.
Defined.
