(* ===== verification/MhiTransferSpec.v ===== *)
(** The transfers of the PCIe modem driver as a system: the clients of the channels queue
    buffers, the device completes them, the driver takes channels down, the power state
    changes; whatever the order, every buffer comes back once and in order, and the votes
    for power balance. *)
From S2P Require Import Prelude Cyclic MhiPm MhiRing MhiChan MhiRingSpec MhiFlowSpec.
#[local] Open Scope Z_scope.

(** ** What can happen *)
Inductive transfer_op :=
  | Queue (c : nat) (buf addr len flags : Z)      (** a client calls [mhi_queue_transfer] *)
  | Device (c : nat) (ptr code len : Z)           (** the device reports the transfer of an element *)
  | TakeDown (c : nat)
  | Power (ctrl : mhi_controller).

Section System.
Context (map_single : Z -> Z -> option Z) (skb_data : Z -> Z).

(** What an operation does, and the buffers the driver accepts. *)
Definition run_op (op : transfer_op) : DP (list (nat * Z)) :=
  match op with
  | Queue c buf addr len flags =>
      r ← queue_xfer map_single skb_data c buf addr len flags; mret (if r =? 0 then [(c, buf)] else [])
  | Device c ptr code len =>
      ch ← get_chan c;
      _ ← transfer_event map_single (S (S (length (bufs ch)))) (tx_event (Z.of_nat c) code len ptr);
      mret []
  | TakeDown c => ch ← get_chan c; _ ← mhi_reset_data_chan (S (length (bufs ch))) c; mret []
  | Power ctrl => _ ← M_upd (fun s => s <| dp_ctrl := ctrl |>); mret []
  end.
(** What the protocol asks of the device.  [parse_xfer_event] checks nothing of this: an
    event that completes transfers of a channel in use must point to an element in flight
    ([wild_event_never_ends] is what another pointer leads to).  Every other event may
    point anywhere.  The fields have their widths, and the channel exists. *)
Definition in_flight (ch : mhi_chan) (k : nat) : bool :=
  forallb (fun j => negb (nth_ptr (tre_ring ch) j =? r_wp (tre_ring ch))) (seq 0 (S k)).
Definition names_in_flight (ch : mhi_chan) (ptr : Z) : bool :=
  existsb (fun k => in_flight ch k && (ptr =? mhi_to_physical (tre_ring ch) (nth_ptr (tre_ring ch) k)))
    (seq 0 (length (bufs ch))).
Definition byte_range (z : Z) : bool := (0 <=? z) && (z <? 256).
Definition possible (s : mhi_dp) (op : transfer_op) : bool :=
  match op with
  | Queue c _ _ _ _ | TakeDown c => bool_decide (is_Some (dp_chans s !! c))
  | Device c ptr code len =>
      match dp_chans s !! c with
      | Some ch => negb (enabled ch && completes code) || names_in_flight ch ptr
      | None => false
      end && byte_range (Z.of_nat c) && byte_range code && (0 <=? len) && (len <? 65536)
  | Power _ => true
  end.
(** A run of the system, with the buffers accepted. *)
Inductive runs : mhi_dp -> list (nat * Z) -> mhi_dp -> Prop :=
  | runs_nil s : runs s [] s
  | runs_op s op a s1 acc s2 :
      possible s op = true -> run_op op s = Ok (a, s1) -> runs s1 acc s2 -> runs s (a ++ acc) s2.

(** ** The invariant *)
Record flight := mkFlight { f_n : nat; f_i : nat; f_xs : list mhi_buf_info }.
Definition started (ch : mhi_chan) (f : flight) : Prop :=
  chan_rep ch (f_n f) (f_i f) (f_xs f) /\ pre_alloc ch = false.
Fixpoint total (chs : list mhi_chan) (F : list flight) : Z :=
  match chs, F with
  | ch :: chs, f :: F => load ch (f_xs f) + total chs F
  | _, _ => 0
  end.
Definition sys_rep (s : mhi_dp) (F : list flight) : Prop :=
  Forall2 started (dp_chans s) F /\ pending_pkts s = total (dp_chans s) F.
Definition taken (c : nat) (a : list (nat * Z)) : list Z := (filter (fun p => p.1 = c) a).*2.
Definition bufs_of (f : flight) : list Z := cb_buf <$> f_xs f.
Record transferred (s : mhi_dp) (F : list flight) (a : list (nat * Z)) (s' : mhi_dp) (F' : list flight)
    (effs : list dp_effect) : Prop := {
  tr_rep : sys_rep s' F'; tr_log : dp_log s' = dp_log s ++ effs;
  tr_fifo : forall c f, F !! c = Some f -> exists f', F' !! c = Some f' /\ f_n f' = f_n f
    /\ bufs_of f ++ taken c a = handed c effs ++ bufs_of f';
  tr_wake : votes wake_vote effs = pending_pkts s' - pending_pkts s;
  tr_run : votes run_vote effs = busy (pending_pkts s') - busy (pending_pkts s) }.

Lemma taken_app c a b : taken c (a ++ b) = taken c a ++ taken c b.
Proof. unfold taken. by rewrite filter_app, fmap_app. Qed.
Lemma load_nonneg ch xs : 0 <= load ch xs.
Proof. unfold load. destruct (to_device ch); lia. Qed.
Lemma total_nonneg chs : forall F, 0 <= total chs F.
Proof. induction chs as [|ch chs IH]; intros [|f F]; cbn; try lia. specialize (IH F). pose proof (load_nonneg ch (f_xs f)). lia. Qed.
Lemma total_at chs : forall F c ch f, chs !! c = Some ch -> F !! c = Some f -> load ch (f_xs f) <= total chs F.
Proof.
  induction chs as [|ch0 chs IH]; intros [|f0 F] [|c] ch f Hc Hf; try done; cbn in *.
  - injection Hc as ->. injection Hf as ->. pose proof (total_nonneg chs F). lia.
  - pose proof (IH F c ch f Hc Hf). pose proof (load_nonneg ch0 (f_xs f0)). lia.
Qed.
Lemma total_insert chs : forall F c ch f ch' f', chs !! c = Some ch -> F !! c = Some f ->
  total (<[c := ch']> chs) (<[c := f']> F) = total chs F - load ch (f_xs f) + load ch' (f_xs f').
Proof.
  induction chs as [|ch0 chs IH]; intros [|f0 F] [|c] ch f ch' f' Hc Hf; try done.
  - injection Hc as ->. injection Hf as ->. cbn. lia.
  - change (load ch0 (f_xs f0) + total (<[c := ch']> chs) (<[c := f']> F)
      = load ch0 (f_xs f0) + total chs F - load ch (f_xs f) + load ch' (f_xs f')).
    rewrite (IH F c ch f ch' f' Hc Hf). lia.
Qed.
Lemma transferred_nil s F : sys_rep s F -> transferred s F [] s F [].
Proof.
  intros R. split; [done|by rewrite app_nil_r| |by rewrite Z.sub_diag|by rewrite Z.sub_diag].
  intros c f Hf. exists f. split; [done|]. split; [done|]. by rewrite app_nil_r.
Qed.
Lemma transferred_trans s F a s1 F1 e1 b s2 F2 e2 :
  transferred s F a s1 F1 e1 -> transferred s1 F1 b s2 F2 e2 -> transferred s F (a ++ b) s2 F2 (e1 ++ e2).
Proof.
  intros [R1 L1 Q1 W1 V1] [R2 L2 Q2 W2 V2]. split; [done|by rewrite L2, L1, app_assoc| |rewrite votes_app; lia|rewrite votes_app; lia].
  intros c f Hf. destruct (Q1 c f Hf) as (f1 & Hf1 & N1 & E1). destruct (Q2 c f1 Hf1) as (f2 & Hf2 & N2 & E2).
  exists f2. split; [done|]. split; [congruence|]. rewrite taken_app, handed_app, app_assoc, E1, <- app_assoc, E2. by rewrite app_assoc.
Qed.

(** A transfer on one channel. *)
Lemma transferred_one s F c ch f ch' pend' es i' xs' took gave :
  sys_rep s F -> dp_chans s !! c = Some ch -> F !! c = Some f ->
  moved c (f_n f) ch (pending_pkts s) (f_xs f) ch' pend' es i' xs' took gave ->
  transferred s F (pair c <$> took) (put s c ch' pend' (dp_log s ++ es)) (<[c := mkFlight (f_n f) i' xs']> F) es.
Proof.
  intros [R Hp] Hch Hf [R' Fx P Q G W V]. pose proof (lookup_lt_Some _ _ _ Hch) as Hlt. pose proof (Forall2_length _ _ _ R) as Hlen.
  pose proof (Forall2_lookup_lr _ _ _ _ _ _ R Hch Hf) as [_ Hpre].
  assert (Hl : load ch' xs' = load ch xs') by (by apply fixed_load).
  split; cbn [pending_pkts dp_log put]; [|done| |lia|done].
  - split; unfold put; cbn [dp_chans pending_pkts].
    + apply Forall2_insert; [done|]. split; [done|]. by rewrite (fixed_pre_alloc _ _ Fx).
    + rewrite (total_insert _ _ _ _ _ _ _ Hch Hf). cbn [f_xs]. lia.
  - intros c2 f2 Hf2. unfold taken, handed. rewrite G, !handed_pairs. destruct (decide (c = c2)) as [<-|Hne].
    + rewrite Hf in Hf2. injection Hf2 as <-. exists (mkFlight (f_n f) i' xs'). split; [|by split].
      apply list_lookup_insert_eq. lia.
    + exists f2. split; [by rewrite list_lookup_insert_ne|]. split; [done|]. by rewrite app_nil_r.
Qed.
Lemma get_chan_at s c ch : dp_chans s !! c = Some ch -> get_chan c s = Ok (ch, s).
Proof. intros H. unfold get_chan. rewrite (D_bind get_dp _ _ s s) by done. by rewrite H. Qed.
Lemma started_at s F c ch : sys_rep s F -> dp_chans s !! c = Some ch -> exists f, F !! c = Some f /\ started ch f
  /\ load ch (f_xs f) <= pending_pkts s /\ put s c ch (pending_pkts s) (dp_log s) = s /\ (c < length (dp_chans s))%nat.
Proof.
  intros [R Hp] Hch. destruct (Forall2_lookup_l _ _ _ _ _ R Hch) as (f & Hf & Hs). exists f. split; [done|]. split; [done|].
  split; [|split; [by apply put_self|by eapply lookup_lt_Some]]. rewrite Hp. by apply (total_at _ _ c).
Qed.

Lemma queue_xfer_queued s c ch n i xs buf addr len flags : (c < length (dp_chans s))%nat -> chan_rep ch n i xs ->
  0 <= pending_pkts s -> dp_chans s !! c = Some ch -> exists r,
  queued s c n i xs ch (pending_pkts s) (dp_log s) (queue_xfer map_single skb_data c buf addr len flags) buf r.
Proof.
  intros Hc R Hp Hch. pose proof (get_chan_put s c Hc ch (pending_pkts s) (dp_log s)) as Hget.
  unfold queued, queue_xfer. rewrite (D_bind _ _ _ _ _ Hget). destruct (xfer_type ch) eqn:Ht.
  - eexists. by apply buf_queued.
  - eexists. by apply skb_queued.
  - exists (- EINVAL). by apply (queued_at_once s c n i xs ch _ _ mhi_queue_sclist).
  - exists (- EINVAL). by apply (queued_at_once s c n i xs ch _ _ mhi_queue_nop).
  - eexists. by apply dma_queued.
  - by destruct R.
Qed.

Lemma in_flight_spec ch n i xs k : chan_rep ch n i xs -> in_flight ch k = true -> (k < length xs)%nat.
Proof.
  intros R H. pose proof (cr_tre _ _ _ _ R) as W. destruct (Nat.lt_ge_cases k (length xs)) as [|Hge]; [done|]. exfalso.
  unfold in_flight in H. rewrite forallb_forall in H. specialize (H (length xs)). rewrite in_seq in H.
  specialize (H ltac:(lia)). rewrite (nth_ptr_pos _ n i (length xs)) in H by (done || apply W).
  by rewrite (rw_wp _ _ _ _ W), Z.eqb_refl in H.
Qed.
Lemma named_flight ch n i xs ptr : chan_rep ch n i xs -> names_in_flight ch ptr = true -> exists k,
  ptr = mhi_to_physical (tre_ring ch) (pos (tre_ring ch) (wrap n (i + k))) /\ (k < length xs)%nat
  /\ (S k < S (S (length (bufs ch))))%nat.
Proof.
  intros R H. pose proof (cr_tre _ _ _ _ R) as W. pose proof (rw_k _ _ _ _ W). apply existsb_exists in H as (k & Hk & H).
  apply in_seq in Hk. apply andb_prop in H as [H1 H2%Z.eqb_eq]. pose proof (in_flight_spec _ _ _ _ _ R H1).
  exists k. rewrite (nth_ptr_pos _ _ _ _ k W) in H2 by lia. split; [done|lia].
Qed.
Lemma transfer_event_tx fuel c code len ptr (s : mhi_dp) r s' : byte_range (Z.of_nat c) = true ->
  parse_xfer_event map_single fuel (tx_event (Z.of_nat c) code len ptr) c s = Ok (r, s') ->
  transfer_event map_single fuel (tx_event (Z.of_nat c) code len ptr) s = Ok (tt, s').
Proof.
  intros Hc E. unfold byte_range in Hc. unfold transfer_event. rewrite tx_event_type, tx_event_chan, Nat2Z.id, Z.eqb_refl by lia.
  by dstep E.
Qed.
(** Every possible operation returns, and does what it should. *)
Lemma run_op_transfers s F op : sys_rep s F -> possible s op = true ->
  exists a s' F' effs, run_op op s = Ok (a, s') /\ transferred s F a s' F' effs.
Proof.
  intros R Hop. destruct op as [c buf addr len flags|c ptr code len|c|ctrl]; cbn [possible run_op] in *.
  - apply bool_decide_eq_true in Hop as [ch Hch]. destruct (started_at _ _ _ _ R Hch) as (f & Hf & [Rf Ha] & Hl & Es & Hc).
    assert (Hp : 0 <= pending_pkts s) by (pose proof (load_nonneg ch (f_xs f)); lia).
    destruct (queue_xfer_queued s c ch _ _ _ buf addr len flags Hc Rf Hp Hch) as (r & b & ch' & pend' & es & E & M).
    rewrite Es in E. dstep E. eexists _, _, _, es. split; [reflexivity|].
    replace (if r =? 0 then [(c, buf)] else []) with (pair c <$> (if r =? 0 then [buf] else [])) by (by destruct (r =? 0)).
    exact (transferred_one s F c ch f _ _ _ _ _ _ _ R Hch Hf M).
  - destruct (dp_chans s !! c) as [ch|] eqn:Hch; [|done]. destruct (started_at _ _ _ _ R Hch) as (f & Hf & [Rf Ha] & Hl & Es & Hc).
    apply andb_prop in Hop as [Hop Hlen2]. apply andb_prop in Hop as [Hop Hlen1]. apply andb_prop in Hop as [Hop Hcode].
    apply andb_prop in Hop as [Hk Hbyte]. dstep (get_chan_at s c ch Hch). set (event := tx_event _ _ _ _).
    assert (Hev : exists k, enabled ch && completes (MHI_TRE_GET_EV_CODE event) = true ->
      t_ptr event = mhi_to_physical (tre_ring ch) (pos (tre_ring ch) (wrap (f_n f) (f_i f + k)))
      /\ (k < length (f_xs f))%nat /\ (S k < S (S (length (bufs ch))))%nat).
    { unfold byte_range in Hcode. unfold event. rewrite tx_event_code by lia.
      apply orb_prop in Hk as [Hk|Hk]; [exists 0%nat; by destruct (enabled ch && completes code)|].
      by destruct (named_flight _ _ _ _ _ Rf Hk) as (k & E1 & E2 & E3); exists k. }
    destruct Hev as (k & Hev).
    destruct (parse_xfer_moves map_single s c Hc (f_n f) (S (S (length (bufs ch)))) event k ch (f_i f) (f_xs f)
      (pending_pkts s) (dp_log s) Rf Hl Hev) as (ch' & pend' & es & new & took & E & M & P).
    rewrite Es in E. destruct (P Ha) as [-> ->]. eexists _, _, _, es. split; [|exact (transferred_one s F c ch f _ _ _ _ _ _ _ R Hch Hf M)].
    rewrite (D_bind _ _ _ _ _ (transfer_event_tx _ _ _ _ _ _ _ _ Hbyte E)). done.
  - apply bool_decide_eq_true in Hop as [ch Hch]. destruct (started_at _ _ _ _ R Hch) as (f & Hf & [Rf Ha] & Hl & Es & Hc).
    dstep (get_chan_at s c ch Hch).
    destruct (reset_data_moves s c Hc (f_n f) (S (length (bufs ch))) ch (f_i f) (f_xs f) (pending_pkts s) (dp_log s) Rf Hl Ha)
      as (ch' & pend' & es & E & M); [rewrite (cr_bufs _ _ _ _ Rf); pose proof (rw_k _ _ _ _ (cr_tre _ _ _ _ Rf)); lia|].
    rewrite Es in E. dstep E. eexists _, _, _, es. split; [reflexivity|]. exact (transferred_one s F c ch f _ _ _ _ _ _ _ R Hch Hf M).
  - eexists _, _, F, []. split; [reflexivity|]. destruct R as [R Hp].
    split; [by split|by rewrite app_nil_r| |by rewrite Z.sub_diag|by rewrite Z.sub_diag].
    intros c f Hf. exists f. split; [done|]. split; [done|]. by rewrite app_nil_r.
Qed.
Lemma runs_transfer s acc s' : runs s acc s' -> forall F, sys_rep s F -> exists F' effs, transferred s F acc s' F' effs.
Proof.
  induction 1 as [s|s op a s1 acc s2 Hop E _ IH]; intros F R.
  - exists F, []. by apply transferred_nil.
  - destruct (run_op_transfers s F op R Hop) as (a' & s1' & F1 & e1 & E' & T1). rewrite E in E'. injection E' as -> ->.
    destruct (IH F1 (tr_rep _ _ _ _ _ _ T1)) as (F2 & e2 & T2). exists F2, (e1 ++ e2). by eapply transferred_trans.
Qed.
End System.

(** ** Properties *)

(** C5. Transfers are first in, first out, with a device that reports no transfer but of an
    element in flight ([possible]; the driver relies on this and does not check it).
    Whatever the clients, such a device and the driver do otherwise, in any order, on
    channels without preallocated buffers and not of type RSC: on every channel those in flight at the
    start, followed by those the driver accepted, are those it gave back to the client, in
    this order, followed by those still in flight, of which there are at most n - 1 on a
    ring of n elements.  And every further such operation returns. *)
Theorem transfers_fifo map_single skb_data s F acc s' : sys_rep s F -> runs map_single skb_data s acc s' ->
  exists (F' : list flight) effs, dp_log s' = dp_log s ++ effs
  /\ (forall c f, F !! c = Some f -> exists f', F' !! c = Some f'
        /\ bufs_of f ++ taken c acc = handed c effs ++ bufs_of f' /\ (length (bufs_of f') < f_n f)%nat)
  /\ (forall op, possible s' op = true -> exists a s'', run_op map_single skb_data op s' = Ok (a, s'')).
Proof.
  intros R H. destruct (runs_transfer _ _ _ _ _ H F R) as (F' & effs & [R' L Q _ _]). exists F', effs. split; [done|]. split.
  - intros c f Hf. destruct (Q c f Hf) as (f' & Hf' & Hn & E). exists f'. split; [done|]. split; [done|].
    destruct R' as [R' _]. destruct (Forall2_lookup_r _ _ _ _ _ R' Hf') as (ch & _ & [Rc _]).
    unfold bufs_of. rewrite length_fmap, <- Hn. apply (cr_tre _ _ _ _ Rc).
  - intros op Hop. destruct (run_op_transfers map_single skb_data s' F' op R' Hop) as (a & s'' & _ & _ & E & _). eauto.
Qed.

(** C17. The votes for power balance, with a device that reports no transfer but of an element
    in flight ([possible]; the driver relies on this and does not check it).  From a state
    with nothing in flight, whatever the clients, such a device and the driver do, in any order:
    the number of packets the driver counts is that of the buffers in flight on uplink
    channels; it holds one vote for WAKE for each of them and one for runtime power if there
    is any, and none when all have come back. *)
Theorem power_votes_balanced map_single skb_data s F acc s' : sys_rep s F -> Forall (fun f => f_xs f = []) F ->
  runs map_single skb_data s acc s' ->
  exists (F' : list flight) effs, dp_log s' = dp_log s ++ effs /\ Forall2 started (dp_chans s') F'
  /\ pending_pkts s' = total (dp_chans s') F' /\ votes wake_vote effs = pending_pkts s'
  /\ votes run_vote effs = (if 0 <? pending_pkts s' then 1 else 0).
Proof.
  intros R Hf H. destruct (runs_transfer _ _ _ _ _ H F R) as (F' & effs & [R' L _ W V]).
  assert (Hp : pending_pkts s = 0).
  { destruct R as [R ->]. clear -R Hf. induction R as [|ch f chs F _ _ IH]; [done|]. apply Forall_cons in Hf as [Hx Hf].
    cbn. rewrite Hx, IH by done. unfold load. by destruct (to_device ch). }
  rewrite Hp in W, V. exists F', effs. split; [done|]. split; [apply R'|]. split; [apply R'|]. split; [lia|].
  rewrite V. unfold busy. by destruct (0 <? pending_pkts s').
Qed.

(** *** Witnesses *)
Definition demo_flights : list flight := [mkFlight 4 0 []; mkFlight 4 0 []].
Lemma demo_chan_rep id base ul type : 0 <= base -> base < 2 ^ 32 -> type <> MHI_XFER_RSC_DMA ->
  chan_rep (demo_chan id base ul type) 4 0 [].
Proof.
  intros H1 H2 H3. split; try done.
  - split; try lia; unfold pos; cbn; lia.
  - split; try lia; unfold pos; cbn; lia.
  - by exists [].
  - unfold addr_ok. cbn. lia.
Qed.
Lemma demo_sys_rep : sys_rep demo_dp demo_flights.
Proof.
  split; [|done]. repeat (apply Forall2_cons; split); try apply Forall2_nil; try done;
    (split; [by apply demo_chan_rep|done]).
Qed.
Definition demo_map (v len : Z) : option Z := Some (v + 2 ^ 40).
Definition demo_transfers : list transfer_op :=
  [Queue 0 501 0 100 0; Queue 1 601 0 2048 1; Queue 0 502 0 60 0; Queue 0 503 0 60 0; Queue 0 504 0 60 0;
   Device 1 (131072 + 4096) 2 1500; Device 0 (65536 + 4096 + 16) 4 60;
   Device 0 7 6 0; Queue 0 504 0 60 0; TakeDown 0].
Definition run_all (ops : list transfer_op) : DP (list (nat * Z)) :=
  fold_right (fun op k => s ← get_dp; if possible s op then a ← run_op demo_map (fun z => z) op; b ← k; mret (a ++ b)
                                      else fun _ => Fault) (mret []) ops.
Lemma run_all_runs ops : forall s acc s', run_all ops s = Ok (acc, s') -> runs demo_map (fun z => z) s acc s'.
Proof.
  induction ops as [|op ops IH]; intros s acc s' E.
  - injection E as <- <-. constructor.
  - cbn [run_all fold_right] in E. rewrite (D_bind get_dp _ s s s) in E by done. destruct (possible s op) eqn:Hop; [|done].
    apply D_bind_inv in E as (a & s1 & E1 & E). apply D_bind_inv in E as (b & s2 & E2 & E). injection E as <- <-.
    apply (runs_op _ _ s op a s1); [done|done|]. by apply IH.
Qed.
Lemma demo_runs : exists acc s', runs demo_map (fun z => z) demo_dp acc s'
  /\ acc = [(0%nat, 501); (1%nat, 601); (0%nat, 502); (0%nat, 503); (0%nat, 504)]
  /\ handed 0 (dp_log s') = [501; 502; 503; 504] /\ handed 1 (dp_log s') = [601] /\ pending_pkts s' = 0.
Proof.
  destruct (run_all demo_transfers demo_dp) as [[acc s']| |] eqn:E; [|by vm_compute in E..].
  exists acc, s'. split; [by apply (run_all_runs demo_transfers)|]. vm_compute in E. injection E as <- <-. by vm_compute.
Qed.
Lemma transfers_fifo_witness : exists acc s', runs demo_map (fun z => z) demo_dp acc s' /\ exists F' effs,
  dp_log s' = dp_log demo_dp ++ effs
  /\ (forall c f, demo_flights !! c = Some f -> exists f', (F' : list flight) !! c = Some f'
        /\ bufs_of f ++ taken c acc = handed c effs ++ bufs_of f' /\ (length (bufs_of f') < f_n f)%nat)
  /\ (forall op, possible s' op = true -> exists a s'', run_op demo_map (fun z => z) op s' = Ok (a, s'')).
Proof.
  destruct demo_runs as (acc & s' & H & _). exists acc, s'. split; [exact H|].
  exact (transfers_fifo demo_map (fun z => z) demo_dp demo_flights acc s' demo_sys_rep H).
Defined.
Lemma power_votes_balanced_witness : exists acc s', runs demo_map (fun z => z) demo_dp acc s' /\ exists (F' : list flight) effs,
  dp_log s' = dp_log demo_dp ++ effs /\ Forall2 started (dp_chans s') F'
  /\ pending_pkts s' = total (dp_chans s') F' /\ votes wake_vote effs = pending_pkts s'
  /\ votes run_vote effs = (if 0 <? pending_pkts s' then 1 else 0).
Proof.
  destruct demo_runs as (acc & s' & H & _). exists acc, s'. split; [exact H|].
  apply (power_votes_balanced demo_map (fun z => z) demo_dp demo_flights acc s' demo_sys_rep); [|exact H].
  by repeat apply Forall_cons_2.
Defined.
