(* ===== verification/MhiEventSpec.v ===== *)
(** The event rings of the PCIe modem driver: whatever the positions and the wrap-around,
    the handler of a ring does what handling the list of its events in order does. *)
From S2P Require Import Prelude Cyclic MhiPm MhiRing MhiRingSpec MhiFlowSpec.
#[local] Open Scope Z_scope.

(** ** Transfers do not touch the event rings *)
Definition with_events (E : list mhi_event) (s : mhi_dp) : mhi_dp :=
  mkDp (dp_ctrl s) (pending_pkts s) (dp_chans s) E (dp_cmd s) (dp_log s).
Definition on_state {A} (f : mhi_dp -> mhi_dp) (r : res (A * mhi_dp)) : res (A * mhi_dp) :=
  match r with Ok (a, s) => Ok (a, f s) | Fault => Fault | OutOfFuel => OutOfFuel end.
Definition framed {A} (m : DP A) : Prop := forall E s, m (with_events E s) = on_state (with_events E) (m s).
Lemma framed_ret {A} (a : A) : framed (mret a).
Proof. done. Qed.
Lemma framed_bind {A B} (m : DP A) (k : A -> DP B) : framed m -> (forall a, framed (k a)) -> framed (m ≫= k).
Proof.
  intros Hm Hk E s. unfold mbind, DP_bind, M_bind. rewrite Hm. destruct (m s) as [[a s1]| |]; [|done|done].
  cbn [on_state]. apply Hk.
Qed.
Lemma framed_upd (f : mhi_dp -> mhi_dp) : (forall E s, f (with_events E s) = with_events E (f s)) -> framed (M_upd f).
Proof. intros H E s. unfold M_upd. by rewrite H. Qed.
Lemma framed_lift {A} (r : res A) : framed (liftD r).
Proof. by destruct r. Qed.
Lemma framed_get {A} (k : mhi_dp -> DP A) : (forall s, framed (k s)) ->
  (forall E s, k (with_events E s) = k s) -> framed (s ← get_dp; k s).
Proof. intros Hk He E s. change (k (with_events E s) (with_events E s) = on_state (with_events E) (k s s)). rewrite He. apply Hk. Qed.
Lemma framed_out {A} : framed (fun _ => OutOfFuel : res (A * mhi_dp)).
Proof. done. Qed.
Lemma framed_when b m : framed m -> framed (whenD b m).
Proof. intros H. destruct b; [done|]. apply framed_ret. Qed.
Create HintDb frame discriminated.
#[export] Hint Constants Opaque : frame.
Ltac framed_step := lazymatch goal with
  | |- framed (get_dp ≫= _) => apply framed_get; [intros ?|done]
  | |- framed (_ ≫= _) => apply framed_bind; [|intros ?]
  | |- framed (mret _) => apply framed_ret
  | |- framed (liftD _) => apply framed_lift
  | |- framed (M_upd _) => apply framed_upd; done
  | |- framed (whenD _ _) => apply framed_when
  | |- framed (match ?x with _ => _ end) => destruct x
  | |- _ => solve [auto with frame nocore] end.
Ltac frame := repeat framed_step.

Lemma framed_get_chan c : framed (get_chan c).
Proof. unfold get_chan. frame. Qed.
Lemma framed_upd_chan c f : framed (upd_chan c f).
Proof. unfold upd_chan. frame. Qed.
Lemma framed_log e : framed (dlog e).
Proof. unfold dlog. frame. Qed.
Lemma framed_pm : framed get_pm.
Proof. unfold get_pm. frame. Qed.
#[export] Hint Resolve framed_get_chan framed_upd_chan framed_log framed_pm : frame.
Lemma framed_chan_db c : framed (mhi_ring_chan_db c).
Proof. unfold mhi_ring_chan_db. frame. Qed.
#[export] Hint Resolve framed_chan_db : frame.
Section Frame.
Context (map_single : Z -> Z -> option Z).
Lemma framed_set_buf c f : framed (set_buf c f).
Proof. unfold set_buf. frame. Qed.
Lemma framed_set_tre c t : framed (set_tre c t).
Proof. unfold set_tre. frame. Qed.
Lemma framed_advance c : framed (advance c).
Proof. unfold advance. frame. Qed.
Lemma framed_ring c : framed (ring_chan_if_valid c).
Proof. unfold ring_chan_if_valid. frame. Qed.
Lemma framed_count b : framed (count_pending b).
Proof. unfold count_pending. frame. Qed.
Lemma framed_uncount b : framed (uncount_pending b).
Proof. unfold uncount_pending. frame. Qed.
Lemma framed_suspend pm : framed (leave_suspend pm).
Proof. unfold leave_suspend. frame. Qed.
#[local] Hint Resolve framed_set_buf framed_set_tre framed_advance framed_ring framed_count framed_uncount framed_suspend : frame.
Lemma framed_gen_tre c buf cb len flags : framed (mhi_gen_tre map_single c buf cb len flags).
Proof. unfold mhi_gen_tre. frame. Qed.
#[local] Hint Resolve framed_gen_tre : frame.
Lemma framed_queue_buf c buf len flags : framed (mhi_queue_buf map_single c buf len flags).
Proof. unfold mhi_queue_buf, wake_put_if. frame. Qed.
#[local] Hint Resolve framed_queue_buf : frame.
Lemma framed_complete_first c status len : framed (complete_first map_single c status len).
Proof. unfold complete_first, wake_put_if. frame. Qed.
#[local] Hint Resolve framed_complete_first : frame.
Lemma framed_complete_until fuel c p status len : framed (complete_until map_single fuel c p status len).
Proof. induction fuel; cbn [complete_until]; [done|]. frame. Qed.
#[local] Hint Resolve framed_complete_until : frame.
Lemma framed_parse_xfer fuel t c : framed (parse_xfer_event map_single fuel t c).
Proof. unfold parse_xfer_event. frame. Qed.
Lemma framed_parse_rsc t c : framed (parse_rsc_event t c).
Proof. unfold parse_rsc_event. frame. Qed.
#[local] Hint Resolve framed_parse_xfer framed_parse_rsc : frame.
Lemma framed_transfer fuel t : framed (transfer_event map_single fuel t).
Proof. unfold transfer_event. frame. Qed.
End Frame.
#[export] Hint Resolve framed_transfer : frame.

(** ** The list of events *)
Lemma framed_events {A} (m : DP A) s a s' : framed m -> m s = Ok (a, s') -> dp_events s' = dp_events s.
Proof.
  intros H E. specialize (H (dp_events s) s). replace (with_events (dp_events s) s) with s in H by (by destruct s).
  rewrite E in H. cbn [on_state] in H. injection H as H. rewrite H. done.
Qed.
Section Handle.
Context (map_single : Z -> Z -> option Z) (xfuel : nat).
Definition ev_chan (t : mhi_tre) : nat := Z.to_nat (MHI_TRE_GET_EV_CHID t).
Definition is_transfer (t : mhi_tre) : bool :=
  (MHI_TRE_GET_EV_TYPE t =? MHI_PKT_TYPE_TX_EVENT) || (MHI_TRE_GET_EV_TYPE t =? MHI_PKT_TYPE_RSC_TX_EVENT).
(** One event, and the number of elements it completed, added to that of the batch. *)
Definition one_event (t : mhi_tre) (used : Z) : DP Z :=
  ch ← get_chan (ev_chan t);
  _ ← transfer_event map_single xfuel t;
  ch' ← get_chan (ev_chan t);
  mret (u32 (used + get_used_ring_elements (r_rp (tre_ring ch)) (r_rp (tre_ring ch')) (r_elements (tre_ring ch')))).
Definition note_batch (c : nat) (used : Z) : DP unit :=
  upd_chan c (fun ch => if c_used_elements ch <? used then ch <| c_used_elements := used |> else ch).
(** The events in order, as long as the budget allows; the result is their number. *)
Fixpoint handle (ts : list mhi_tre) (budget used : Z) : DP nat :=
  match ts with
  | [] => mret 0%nat
  | t :: ts =>
      if budget <=? 0 then mret 0%nat
      else
        used ← one_event t used;
        let budget := if is_transfer t then budget - 1 else budget in
        k ← (if bool_decide (ts = []) || (budget =? 0)
             then _ ← note_batch (ev_chan t) used; handle ts budget 0
             else handle ts budget used);
        mret (S k)
  end.
Lemma framed_handle ts : forall budget used, framed (handle ts budget used).
Proof.
  induction ts as [|t ts IH]; intros budget used; cbn [handle]; [done|].
  unfold one_event, note_batch. frame; auto using framed_ret.
Qed.

(** [ts] are the events the device has written and the driver has not handled. *)
Record events_at (ev : mhi_event) (n i : nat) (ts : list mhi_tre) : Prop := {
  ea_el : 0 < el_size (ev_ring ev); ea_len : r_len (ev_ring ev) = el_size (ev_ring ev) * Z.of_nat n;
  ea_i : (i < n)%nat; ea_k : (length ts < n)%nat; ea_rp : r_rp (ev_ring ev) = pos (ev_ring ev) i;
  ea_ts : cyc (ev_tres ev) n i ts; ea_addr : addr_ok (ev_ring ev);
  ea_dev : er_rp ev = [mhi_to_physical (ev_ring ev) (pos (ev_ring ev) (wrap n (i + length ts)))] }.
Definition recycled (ev : mhi_event) : mhi_event := ev <| ev_ring := mhi_recycle_ev_ring_element (ev_ring ev) |>.
Lemma events_next ev n i t ts : events_at ev n i (t :: ts) ->
  slot_of (ev_ring ev) (r_rp (ev_ring ev)) = Ok i /\ ev_tres ev !! i = Some t
  /\ events_at (recycled ev) n (wrap n (i + 1)) ts.
Proof.
  intros [He Hl Hi Hk Hr Ht Ha Hd]. cbn [length] in *. destruct (cyc_pop _ _ _ _ _ Hi Hk Ht) as [H1 H2].
  split; [rewrite Hr; by apply (slot_pos _ n)|]. split; [done|]. split; try done.
  - wrap_lia.
  - lia.
  - change (ring_next (ev_ring ev) (r_rp (ev_ring ev)) = pos (ev_ring ev) (wrap n (i + 1))). rewrite Hr. by apply next_pos.
  - rewrite wrap_pop by lia. exact Hd.
Qed.
Lemma events_done ev n i ts j : events_at ev n i ts -> (j <= length ts)%nat ->
  (pos (ev_ring ev) (wrap n (i + length ts)) =? pos (ev_ring ev) (wrap n (i + j))) = bool_decide (j = length ts).
Proof.
  intros [He Hl Hi Hk _ _ _ _] Hj. case_bool_decide as E; [apply Z.eqb_eq; by rewrite E|]. apply Z.eqb_neq.
  intros H. apply pos_inj in H; [|done]. apply wrap_inj in H; lia.
Qed.

(** ** The loop *)
Definition put_ev (s : mhi_dp) (e : nat) (ev : mhi_event) : mhi_dp := with_events (<[e := ev]> (dp_events s)) s.
Lemma put_ev_put s e ev ev' : put_ev (put_ev s e ev') e ev = put_ev s e ev.
Proof. unfold put_ev, with_events. cbn [dp_events]. by rewrite list_insert_insert_eq. Qed.
Lemma put_ev_at s e ev : (e < length (dp_events s))%nat -> dp_events (put_ev s e ev) !! e = Some ev.
Proof. intros H. by apply list_lookup_insert_eq. Qed.
Lemma put_ev_self s e ev : dp_events s !! e = Some ev -> put_ev s e ev = s.
Proof. intros H. unfold put_ev, with_events. rewrite list_insert_id by done. by destruct s. Qed.
Lemma get_event_at s e ev : dp_events s !! e = Some ev -> get_event e s = Ok (ev, s).
Proof. intros H. unfold get_event. rewrite (D_bind get_dp _ s s s) by done. by rewrite H. Qed.
Lemma local_rp_at s e ev : dp_events s !! e = Some ev -> local_rp e s = Ok (r_rp (ev_ring ev), s).
Proof. intros H. unfold local_rp. by rewrite (D_bind _ _ _ _ _ (get_event_at s e ev H)). Qed.
Lemma next_event_at s e ev n i t ts : dp_events s !! e = Some ev -> events_at ev n i (t :: ts) -> next_event e s = Ok (t, s).
Proof.
  intros H R. destruct (events_next _ _ _ _ _ R) as (Hs & Ht & _). unfold next_event.
  rewrite (D_bind _ _ _ _ _ (get_event_at s e ev H)), (D_bind _ _ _ _ _ (lift_Ok _ _ s Hs)). by rewrite Ht.
Qed.
Lemma recycle_at s e ev : dp_events s !! e = Some ev -> recycle e s = Ok (tt, put_ev s e (recycled ev)).
Proof.
  intros H. unfold recycle, upd_event, M_upd, put_ev, with_events. f_equal. f_equal. by rewrite (alter_at _ e _ ev H).
Qed.
Lemma read_er_rp_at s e ev n i ts : dp_events s !! e = Some ev -> events_at ev n i ts ->
  read_er_rp e s = Ok (pos (ev_ring ev) (wrap n (i + length ts)), s).
Proof.
  intros H R. pose proof R as [He Hl Hi Hk _ _ Ha Hd]. unfold read_er_rp. rewrite (D_bind _ _ _ _ _ (get_event_at s e ev H)), Hd.
  cbn. by rewrite (physical_virtual _ n) by (done || by apply wrap_lt).
Qed.
Lemma get_chan_inv c s ch s1 : get_chan c s = Ok (ch, s1) -> s1 = s.
Proof.
  unfold get_chan. rewrite (D_bind get_dp _ s s s) by done. by destruct (dp_chans s !! c); intros [=].
Qed.
Lemma one_event_inv t used s u s1 : one_event t used s = Ok (u, s1) -> exists ch ch',
  get_chan (ev_chan t) s = Ok (ch, s) /\ transfer_event map_single xfuel t s = Ok (tt, s1) /\ get_chan (ev_chan t) s1 = Ok (ch', s1)
  /\ u = u32 (used + get_used_ring_elements (r_rp (tre_ring ch)) (r_rp (tre_ring ch')) (r_elements (tre_ring ch'))).
Proof.
  intros E. apply D_bind_inv in E as (ch & s2 & E1 & E). pose proof (get_chan_inv _ _ _ _ E1) as ->.
  apply D_bind_inv in E as ([] & s3 & E2 & E). apply D_bind_inv in E as (ch' & s4 & E3 & E).
  pose proof (get_chan_inv _ _ _ _ E3) as ->. injection E as <- <-. by exists ch, ch'.
Qed.
Lemma framed_Ok {A} (m : DP A) E s a s' : framed m -> m s = Ok (a, s') -> m (with_events E s) = Ok (a, with_events E s').
Proof. intros H Em. by rewrite H, Em. Qed.
Lemma framed_one_event t used : framed (one_event t used).
Proof. unfold one_event. frame. Qed.
Lemma framed_note_batch c used : framed (note_batch c used).
Proof. unfold note_batch. frame. Qed.

(** A computation that leaves the event rings alone does the same after one of them changed. *)
Lemma framed_put {A} (m : DP A) s e ev a s' : framed m -> m s = Ok (a, s') -> m (put_ev s e ev) = Ok (a, put_ev s' e ev).
Proof. intros H Em. unfold put_ev. rewrite <- (framed_events m s a s' H Em) at 1. by apply framed_Ok. Qed.

Lemma data_loop ts : forall fuel s e ev n i budget count used k s',
  dp_events s !! e = Some ev -> events_at ev n i ts -> (length ts < fuel)%nat ->
  handle ts budget used s = Ok (k, s') ->
  data_ev_loop map_single fuel xfuel e (pos (ev_ring ev) (wrap n (i + length ts))) budget count used s
  = Ok (count + Z.of_nat k, put_ev s' e (Nat.iter k recycled ev)).
Proof.
  induction ts as [|t ts IH]; intros [|fuel] s e ev n i budget count used k s' Hev R Hf H; try (cbn in Hf; lia);
    cbn [data_ev_loop handle] in *; rewrite (D_bind _ _ _ _ _ (local_rp_at s e ev Hev)), (ea_rp _ _ _ _ R).
  - injection H as <- <-. replace (wrap n (i + length [])) with i by (destruct R; cbn; wrap_lia).
    rewrite Z.eqb_refl. cbn. rewrite (put_ev_self s e ev Hev). by rewrite Z.add_0_r.
  - pose proof (events_done _ _ _ _ 0 R ltac:(lia)) as Hne. replace (wrap n (i + 0)) with i in Hne by (destruct R; wrap_lia).
    rewrite Hne, bool_decide_eq_false_2 by done. cbn [orb]. destruct (budget <=? 0) eqn:Hb.
    { injection H as <- <-. cbn. rewrite (put_ev_self s e ev Hev). by rewrite Z.add_0_r. }
    apply D_bind_inv in H as (u & s1 & H1 & H). destruct (one_event_inv _ _ _ _ _ H1) as (ch & ch' & G1 & G2 & G3 & ->).
    assert (Hev1 : dp_events s1 !! e = Some ev) by (by rewrite (framed_events _ _ _ _ (framed_one_event t used) H1)).
    rewrite (D_bind _ _ _ _ _ (next_event_at s e ev n i t ts Hev R)). cbv zeta. fold (ev_chan t).
    rewrite (D_bind _ _ _ _ _ G1), (D_bind _ _ _ _ _ G2), (D_bind _ _ _ _ _ G3), (D_bind _ _ _ _ _ (recycle_at s1 e ev Hev1)).
    set (u := u32 _) in *. fold (is_transfer t). set (budget' := if is_transfer t then budget - 1 else budget) in *.
    set (s2 := put_ev s1 e (recycled ev)). assert (Hev2 : dp_events s2 !! e = Some (recycled ev)).
    { apply put_ev_at. by eapply lookup_lt_Some. }
    destruct (events_next _ _ _ _ _ R) as (_ & _ & R2). rewrite (D_bind _ _ _ _ _ (local_rp_at s2 e _ Hev2)), (ea_rp _ _ _ _ R2).
    assert (Hd : pos (ev_ring ev) (wrap n (i + length (t :: ts))) = pos (ev_ring (recycled ev)) (wrap n (wrap n (i + 1) + length ts))).
    { destruct R as [_ _ Hi Hk _ _ _ _]. cbn [length] in *. by rewrite wrap_pop. }
    rewrite Hd. pose proof (events_done _ _ _ _ 0 R2 ltac:(lia)) as Hlast.
    replace (wrap n (wrap n (i + 1) + 0)) with (wrap n (i + 1)) in Hlast by (destruct R2; wrap_lia).
    rewrite Z.eqb_sym in Hlast. rewrite Hlast. replace (bool_decide (0%nat = length ts)) with (bool_decide (ts = []))
      by (by destruct ts). apply D_bind_inv in H as (k1 & s3 & H2 & [= <- <-]).
    assert (Hloop : forall used s4, handle ts budget' used s4 = Ok (k1, s3) -> dp_events s4 = dp_events s1 ->
      data_ev_loop map_single fuel xfuel e (pos (ev_ring (recycled ev)) (wrap n (wrap n (i + 1) + length ts))) budget' (count + 1) used
        (put_ev s4 e (recycled ev)) = Ok (count + Z.of_nat (S k1), put_ev s3 e (Nat.iter (S k1) recycled ev))).
    { intros used' s4 H4 E4. pose proof (framed_put _ _ e (recycled ev) _ _ (framed_handle ts budget' used') H4) as H5.
      rewrite (IH fuel (put_ev s4 e (recycled ev)) e (recycled ev) n (wrap n (i + 1)) budget' (count + 1) used' k1 _
        ltac:(apply put_ev_at; rewrite E4; by eapply lookup_lt_Some) R2 ltac:(cbn in Hf; lia) H5).
      rewrite put_ev_put, Nat.iter_succ_r. f_equal. f_equal. lia. }
    destruct (bool_decide (ts = []) || (budget' =? 0)); [|by apply Hloop].
    apply D_bind_inv in H2 as ([] & s4 & H4 & H5). pose proof (framed_events _ _ _ _ (framed_note_batch _ _) H4) as E4.
    rewrite (D_bind _ _ _ _ _ (framed_put _ _ e (recycled ev) _ _ (framed_note_batch (ev_chan t) u) H4)).
    rewrite (D_bind _ _ _ _ _ (read_er_rp_at _ e (recycled ev) n _ ts
      ltac:(apply put_ev_at; rewrite E4; by eapply lookup_lt_Some) R2)). by apply Hloop.
Qed.
Lemma handle_count ts : forall budget used s k s', handle ts budget used s = Ok (k, s') ->
  (k <= length ts)%nat /\ (Z.of_nat (length ts) <= budget -> k = length ts).
Proof.
  induction ts as [|t ts IH]; intros budget used s k s' H; cbn [handle] in H; [injection H as <- <-; by split|].
  destruct (budget <=? 0) eqn:Hb; [injection H as <- <-; cbn [length]; split; lia|].
  apply D_bind_inv in H as (u & s1 & _ & H). apply D_bind_inv in H as (k1 & s2 & H & [= <- <-]). cbn [length].
  set (budget' := if is_transfer t then budget - 1 else budget) in *.
  assert (Hb' : budget - 1 <= budget') by (unfold budget'; destruct (is_transfer t); lia).
  destruct (bool_decide (ts = []) || (budget' =? 0)).
  - apply D_bind_inv in H as (? & s3 & _ & H). destruct (IH _ _ _ _ _ H). lia.
  - destruct (IH _ _ _ _ _ H). lia.
Qed.
Lemma events_after k : forall ev n i ts, events_at ev n i ts -> (k <= length ts)%nat ->
  events_at (Nat.iter k recycled ev) n (wrap n (i + k)) (drop k ts).
Proof.
  induction k as [|k IH]; intros ev n i ts R Hk.
  - cbn. rewrite drop_0. by replace (wrap n (i + 0)) with i by (destruct R; wrap_lia).
  - destruct ts as [|t ts]; [cbn in Hk; lia|]. destruct (events_next _ _ _ _ _ R) as (_ & _ & R2).
    pose proof (ea_k _ _ _ _ R) as Hn. pose proof (ea_i _ _ _ _ R) as Hi. cbn [length] in *.
    rewrite Nat.iter_succ_r, skipn_cons, <- wrap_pop by lia. apply IH; [done|lia].
Qed.
(** Whether the doorbell of a ring is rung: the power state must allow it, and a doorbell
    in burst mode is rung only when the device asked for it. *)
Definition rings_er (pm : Z) (db : db_cfg) : bool := MHI_DB_ACCESS_VALID pm && (negb (db_brst db) || db_mode db).
Lemma process_db_rings db wp : (process_db db wp).1 = negb (db_brst db) || db_mode db.
Proof. unfold process_db, mhi_db_brstmode, mhi_db_brstmode_disable. by destruct (db_brst db), (db_mode db). Qed.
(** The end of the handler: statistics and the doorbell of the ring. *)
Lemma finish_at s e ev n i ts count : dp_events s !! e = Some ev -> events_at ev n i ts -> exists ev' es,
  (_ ← note_used e count; _ ← ring_er_if_valid e; mret count) s
    = Ok (count, mkDp (dp_ctrl s) (pending_pkts s) (dp_chans s) (<[e := ev']> (dp_events s)) (dp_cmd s) (dp_log s ++ es))
  /\ events_at ev' n i ts /\ r_wp (ev_ring ev') = r_wp (ev_ring ev)
  /\ es = (if rings_er (pm_state (dp_ctrl s)) (e_db ev) then [EventDb e (ctxt_wp (ev_ring ev))] else []).
Proof.
  intros Hev R. pose proof (lookup_lt_Some _ _ _ Hev) as Hlt.
  set (ev1 := if e_used_elements ev <? count then ev <| e_used_elements := count |> else ev).
  assert (R1 : events_at ev1 n i ts) by (unfold ev1; destruct (_ <? _); [destruct R; by split|done]).
  assert (E1 : ev_ring ev1 = ev_ring ev /\ e_db ev1 = e_db ev) by (unfold ev1; by destruct (_ <? _)). destruct E1 as [E1 E1'].
  assert (Hn : note_used e count s = Ok (tt, put_ev s e ev1)).
  { unfold note_used, upd_event, M_upd, put_ev, with_events. by rewrite (alter_at _ e _ ev Hev). }
  rewrite (D_bind _ _ _ _ _ Hn). set (s1 := put_ev s e ev1). assert (Hev1 : dp_events s1 !! e = Some ev1) by (by apply put_ev_at).
  assert (Hpm : get_pm s1 = Ok (pm_state (dp_ctrl s), s1)) by done. unfold ring_er_if_valid, rings_er.
  destruct (MHI_DB_ACCESS_VALID (pm_state (dp_ctrl s))) eqn:Hv.
  - set (r := process_db (e_db ev1) (ctxt_wp (ev_ring ev1))). exists (ev1 <| e_db := r.2 |>), (if r.1 then [EventDb e (ctxt_wp (ev_ring ev))] else []).
    split; [|split; [destruct R1; by split|split; [by rewrite <- E1|]]].
    2:{ unfold r. by rewrite process_db_rings, E1'. }
    assert (Hu : upd_event e (fun ev => ev <| e_db := r.2 |>) s1 = Ok (tt, put_ev s1 e (ev1 <| e_db := r.2 |>))).
    { unfold upd_event, M_upd, put_ev, with_events. by rewrite (alter_at _ e _ ev1 Hev1). }
    assert (Hr : (pm ← get_pm; whenD (MHI_DB_ACCESS_VALID pm) (mhi_ring_er_db e)) s1
      = whenD r.1 (dlog (EventDb e (ctxt_wp (ev_ring ev1)))) (put_ev s1 e (ev1 <| e_db := r.2 |>))).
    { rewrite (D_bind _ _ _ _ _ Hpm), Hv. cbn [whenD]. unfold mhi_ring_er_db.
      rewrite (D_bind _ _ _ _ _ (get_event_at s1 e ev1 Hev1)). cbv zeta. fold r. by rewrite (D_bind _ _ _ _ _ Hu). }
    unfold s1 in *. rewrite put_ev_put in Hr. refine (D_bind _ (fun _ => mret count) _ tt _ _). rewrite Hr, E1.
    destruct r.1; [done|]. cbn [whenD]. by rewrite app_nil_r.
  - exists ev1, []. split; [|split; [done|split; [by rewrite E1|done]]].
    refine (D_bind _ (fun _ => mret count) _ tt _ _). rewrite (D_bind _ _ _ _ _ Hpm), Hv. by rewrite app_nil_r.
Qed.
End Handle.

Lemma recycled_fixed ev k : let ev2 := Nat.iter k recycled ev in
  r_wp (ev_ring ev2) = Nat.iter k (ring_next (ev_ring ev)) (r_wp (ev_ring ev)) /\ e_db ev2 = e_db ev
  /\ r_base (ev_ring ev2) = r_base (ev_ring ev) /\ el_size (ev_ring ev2) = el_size (ev_ring ev)
  /\ r_len (ev_ring ev2) = r_len (ev_ring ev) /\ iommu_base (ev_ring ev2) = iommu_base (ev_ring ev).
Proof.
  induction k as [|k IH]; [done|]. destruct IH as (E1 & E2 & E3 & E4 & E5 & E6). cbv zeta. split; [|done].
  change (ring_next (ev_ring (Nat.iter k recycled ev)) (r_wp (ev_ring (Nat.iter k recycled ev)))
    = ring_next (ev_ring ev) (Nat.iter k (ring_next (ev_ring ev)) (r_wp (ev_ring ev)))).
  rewrite E1. unfold ring_next. by rewrite E3, E4, E5.
Qed.
Lemma recycled_ctxt ev k : ctxt_wp (ev_ring (Nat.iter k recycled ev)) =
  if (k =? 0)%nat then ctxt_wp (ev_ring ev)
  else addr64 (iommu_base (ev_ring ev) + (r_wp (ev_ring (Nat.iter k recycled ev)) - r_base (ev_ring ev))).
Proof.
  destruct k as [|k]; [done|]. destruct (recycled_fixed ev k) as (E1 & E2 & E3 & E4 & E5 & E6).
  change (addr64 (iommu_base (ev_ring (Nat.iter k recycled ev)) +
    (ring_next (ev_ring (Nat.iter k recycled ev)) (r_wp (ev_ring (Nat.iter k recycled ev)))
     - r_base (ev_ring (Nat.iter k recycled ev)))) = addr64 (iommu_base (ev_ring ev) +
    (ring_next (ev_ring (Nat.iter k recycled ev)) (r_wp (ev_ring (Nat.iter k recycled ev))) - r_base (ev_ring ev)))).
  by rewrite E3, E6.
Qed.

(** C19. The handler of a data ring handles its events in order.  In a power state that is no
    error state: when [ts] are the events the device has written and the driver has not
    handled, wherever they lie in the ring, and handling the list in order, as far as the
    budget allows, handles [k] of them, then [mhi_process_data_event_ring] returns [k] with
    exactly that effect; the ring then holds the rest and its write pointer is [k] elements
    further.  Last, the doorbell of the ring is rung, once, with the address the device has
    for the new write pointer (the one last told, if no event was handled), exactly when the power state the events lead to allows it
    and the doorbell is not in burst mode or was asked for.  All events are handled if the
    budget is not below their number. *)
Theorem data_events_in_order map_single fuel s e ev n i ts budget k s' :
  dp_events s !! e = Some ev -> events_at ev n i ts -> (length ts < fuel)%nat ->
  MHI_EVENT_ACCESS_INVALID (pm_state (dp_ctrl s)) = false ->
  handle map_single fuel ts budget 0 s = Ok (k, s') ->
  exists ev' es,
    mhi_process_data_event_ring map_single fuel e budget s
      = Ok (Z.of_nat k, mkDp (dp_ctrl s') (pending_pkts s') (dp_chans s') (<[e := ev']> (dp_events s')) (dp_cmd s') (dp_log s' ++ es))
    /\ events_at ev' n (wrap n (i + k)) (drop k ts)
    /\ r_wp (ev_ring ev') = Nat.iter k (ring_next (ev_ring ev)) (r_wp (ev_ring ev))
    /\ es = (if rings_er (pm_state (dp_ctrl s')) (e_db ev)
             then [EventDb e (if (k =? 0)%nat then ctxt_wp (ev_ring ev)
                              else addr64 (iommu_base (ev_ring ev) + (r_wp (ev_ring ev') - r_base (ev_ring ev))))]
             else [])
    /\ (Z.of_nat (length ts) <= budget -> k = length ts).
Proof.
  intros Hev R Hf Hpm H. destruct (handle_count _ _ _ _ _ _ _ _ H) as [Hk Hall].
  pose proof (events_after k ev n i ts R Hk) as R2. set (ev2 := Nat.iter k recycled ev) in *.
  assert (Hlen : dp_events s' = dp_events s) by (by apply (framed_events _ _ _ _ (framed_handle _ _ _ _ _) H)).
  assert (Hev2 : dp_events (put_ev s' e ev2) !! e = Some ev2) by (apply put_ev_at; rewrite Hlen; by eapply lookup_lt_Some).
  destruct (finish_at _ e ev2 _ _ _ (Z.of_nat k) Hev2 R2) as (ev' & es & E & R3 & W & D). exists ev', es.
  split; [|split; [done|split; [|split; [|done]]]].
  - unfold mhi_process_data_event_ring. assert (Eg : get_pm s = Ok (pm_state (dp_ctrl s), s)) by done.
    rewrite (D_bind _ _ _ _ _ Eg), Hpm, (D_bind _ _ _ _ _ (read_er_rp_at s e ev n i ts Hev R)).
    rewrite (D_bind _ _ _ _ _ (data_loop map_single fuel ts fuel s e ev n i budget 0 0 k s' Hev R Hf H)). fold ev2.
    rewrite Z.add_0_l, E. unfold put_ev. cbn [dp_events with_events]. by rewrite list_insert_insert_eq.
  - rewrite W. by apply recycled_fixed.
  - rewrite D, W. cbn [dp_ctrl put_ev with_events]. unfold ev2. rewrite (proj1 (proj2 (recycled_fixed ev k))).
    by rewrite recycled_ctxt.
Qed.

(** Two packets sent, three events read: the third is of no use to the driver. *)
Definition demo_events : list mhi_tre :=
  [tx_event 0 MHI_EV_CC_EOT 100 (65536 + 4096); tx_event 0 MHI_EV_CC_DB_MODE 0 (65536 + 4096);
   tx_event 0 MHI_EV_CC_EOB 60 (65536 + 4096 + 16)].
Definition demo_event : mhi_event :=
  mkEvent (mkRing 8192 (8192 + 32) (8192 + 16) 16 64 4 16384 (16384 + 16))
    [nth 2 demo_events (mkTre 0 0 0); mkTre 0 0 0; nth 0 demo_events (mkTre 0 0 0); nth 1 demo_events (mkTre 0 0 0)]
    (mkDb true true 0) [16384 + 16] 0.
Definition demo_queue : res (Z * mhi_dp) :=
  (_ ← mhi_queue_skb (fun v _ => Some v) (fun z => z) 0 501 100; mhi_queue_skb (fun v _ => Some v) (fun z => z) 0 502 60 : DP Z)
    (with_events [demo_event] demo_dp).
Lemma demo_event_at : events_at demo_event 4 2 demo_events.
Proof.
  split; try done; try (cbn; lia); try (unfold addr_ok; cbn; lia).
  intros j x Hj. destruct j as [|[|[|j]]]; [by injection Hj as <-..|done].
Qed.
Lemma data_events_in_order_witness : exists s s' ev' es, demo_queue = Ok (0, s)
  /\ mhi_process_data_event_ring (fun v _ => Some v) 8 0 64 s
      = Ok (3, mkDp (dp_ctrl s') (pending_pkts s') (dp_chans s') (<[0%nat := ev']> (dp_events s')) (dp_cmd s') (dp_log s' ++ es))
  /\ pending_pkts s' = 0 /\ handed 0 (dp_log s') = [501; 502] /\ events_at ev' 4 1 [].
Proof.
  destruct demo_queue as [[r s]| |] eqn:Eq; [|by vm_compute in Eq..].
  assert (Hr : r = 0 /\ dp_events s !! 0%nat = Some demo_event /\ MHI_EVENT_ACCESS_INVALID (pm_state (dp_ctrl s)) = false)
    by (vm_compute in Eq; injection Eq as <- <-; by vm_compute). destruct Hr as (-> & Hev & Hpm).
  destruct (handle (fun v _ => Some v) 8 demo_events 64 0 s) as [[k s']| |] eqn:Eh;
    [|by (vm_compute in Eq; injection Eq as <-; vm_compute in Eh)..].
  assert (Hk : k = 3%nat /\ pending_pkts s' = 0 /\ handed 0 (dp_log s') = [501; 502])
    by (vm_compute in Eq; injection Eq as <-; vm_compute in Eh; injection Eh as <- <-; by vm_compute).
  destruct Hk as (-> & Hp & Hh).
  destruct (data_events_in_order (fun v _ => Some v) 8 s 0 demo_event 4 2 demo_events 64 3 s' Hev demo_event_at ltac:(cbn; lia) Hpm Eh)
    as (ev' & es & E & R & _). exists s, s', ev', es. split; [done|]. split; [exact E|]. split; [done|]. split; [done|exact R].
Defined.
