(* ===== verification/MhiChanSpec.v ===== *)
(** Start and stop of the channels of the PCIe modem driver: the commands and their
    completions, the rings of a channel that starts, the buffers of one that stops. *)
From S2P Require Import Prelude Cyclic MhiPm MhiRing MhiChan MhiRingSpec MhiFlowSpec MhiEventSpec.
#[local] Open Scope Z_scope.

(** ** Commands *)
Definition cmd_type (cmd : MHI_CMD) : Z :=
  match cmd with MHI_CMD_RESET_CHAN => MHI_CMD_TYPE_RESET | MHI_CMD_START_CHAN => MHI_CMD_TYPE_START | MHI_CMD_TIMSYNC_CFG _ => MHI_CMD_TYPE_TSYNC end.
Definition for_channel (cmd : MHI_CMD) : bool := match cmd with MHI_CMD_TIMSYNC_CFG _ => false | _ => true end.
(** A channel command says which channel it is for. *)
Lemma cmd_tre_fields c cmd : 0 <= c < 256 -> for_channel cmd = true ->
  MHI_TRE_GET_CMD_CHID (cmd_tre c cmd) = c /\ (MHI_TRE_GET_CMD_TYPE (cmd_tre c cmd) =? MHI_CMD_TYPE_TSYNC) = false.
Proof.
  intros Hc Hf.
  assert (Hall : forallb (fun k => (MHI_TRE_GET_CMD_CHID (cmd_tre (Z.of_nat k) cmd) =? Z.of_nat k)
    && negb (MHI_TRE_GET_CMD_TYPE (cmd_tre (Z.of_nat k) cmd) =? MHI_CMD_TYPE_TSYNC)) (seq 0 256) = true)
    by (destruct cmd; [by vm_compute..|done]).
  rewrite forallb_forall in Hall. specialize (Hall (Z.to_nat c)). rewrite in_seq, Z2Nat.id in Hall by lia.
  specialize (Hall ltac:(lia)). apply andb_prop in Hall as [H1 H2]. apply Z.eqb_eq in H1. by destruct (_ =? MHI_CMD_TYPE_TSYNC).
Qed.

(** [x] commands are on their way, the first of them in element [j]. *)
Record cmd_rep (C : mhi_cmd) (m j x : nat) : Prop := {
  cm_ring : ring_wf (cmd_ring C) m j x; cm_len : length (cmd_tres C) = m; cm_addr : addr_ok (cmd_ring C);
  cm_small : Z.of_nat m < 2 ^ 31 }.
Definition set_up (s : mhi_dp) (c : nat) (ch : mhi_chan) (C : mhi_cmd) (log : list dp_effect) : mhi_dp :=
  mkDp (dp_ctrl s) (pending_pkts s) (<[c := ch]> (dp_chans s)) (dp_events s) C log.

Section Steps.
Context (s : mhi_dp) (c : nat) (Hc : (c < length (dp_chans s))%nat).
Implicit Types (ch : mhi_chan) (C : mhi_cmd) (log : list dp_effect).
Lemma set_up_put ch log : put s c ch (pending_pkts s) log = set_up s c ch (dp_cmd s) log.
Proof. done. Qed.
Lemma set_up_get ch C log : get_chan c (set_up s c ch C log) = Ok (ch, set_up s c ch C log).
Proof.
  unfold get_chan. rewrite (D_bind get_dp _ _ (set_up s c ch C log) _) by done. apply lift_Ok. unfold set_up. cbn [dp_chans].
  by rewrite list_lookup_insert_eq.
Qed.
Lemma set_up_upd f ch C log : upd_chan c f (set_up s c ch C log) = Ok (tt, set_up s c (f ch) C log).
Proof.
  unfold upd_chan, M_upd, set_up. f_equal. f_equal.
  change (mkDp (dp_ctrl s) (pending_pkts s) (alter f c (<[c := ch]> (dp_chans s))) (dp_events s) C log
    = mkDp (dp_ctrl s) (pending_pkts s) (<[c := f ch]> (dp_chans s)) (dp_events s) C log).
  by rewrite (alter_at f c _ ch), list_insert_insert_eq by (by apply list_lookup_insert_eq).
Qed.
Lemma set_up_log e ch C log : dlog e (set_up s c ch C log) = Ok (tt, set_up s c ch C (log ++ [e])).
Proof. done. Qed.

(** The command is written, and announced if the device may be. *)
Lemma send_cmd_at ch C log cmd m j x : cmd_rep C m j x -> (S x < m)%nat -> exists C' es,
  mhi_send_cmd (Some c) cmd (set_up s c ch C log) = Ok (0, set_up s c ch C' (log ++ es))
  /\ cmd_rep C' m j (S x) /\ cmd_tres C' !! wrap m (j + x) = Some (cmd_tre (chan_id ch) cmd)
  /\ quiet_votes es 0 0.
Proof.
  intros [W Hl Ha Hs] Hx. pose proof W as [He Hlen Hj Hk Hrp Hwp].
  set (C1 := mkCmd (mhi_add_ring_element (cmd_ring C)) (<[wrap m (j + x) := cmd_tre (chan_id ch) cmd]> (cmd_tres C))).
  assert (R1 : cmd_rep C1 m j (S x)).
  { split; [by apply add_wf|etrans; [apply length_insert|done]|done|done]. }
  assert (Hlt : (wrap m (j + x) < length (cmd_tres C))%nat) by (rewrite Hl; by apply wrap_lt).
  assert (E1 : mhi_send_cmd (Some c) cmd (set_up s c ch C log)
    = (pm ← get_pm; _ ← whenD (MHI_DB_ACCESS_VALID pm) mhi_ring_cmd_db; mret 0) (set_up s c ch C1 log)).
  { unfold mhi_send_cmd. rewrite (D_bind _ _ _ (chan_id ch) (set_up s c ch C log)) by
      (by rewrite (D_bind _ _ _ _ _ (set_up_get ch C log))).
    rewrite (D_bind get_dp _ _ (set_up s c ch C log) _) by done. cbv zeta. change (dp_cmd (set_up s c ch C log)) with C.
    rewrite (avail_wf _ m j x W Hs), (proj2 (Z.eqb_neq _ _)) by lia.
    rewrite (D_bind _ _ _ _ _ (lift_Ok _ _ (set_up s c ch C log) (wp_slot _ m j x W))).
    destruct (lookup_lt_is_Some_2 _ _ Hlt) as [t Ht].
    by rewrite (D_bind _ _ _ _ _ (lift_Ok _ _ (set_up s c ch C log) (f_equal of_option Ht))). }
  rewrite E1. assert (Epm : get_pm (set_up s c ch C1 log) = Ok (pm_state (dp_ctrl s), set_up s c ch C1 log)) by done.
  rewrite (D_bind _ _ _ _ _ Epm). destruct (MHI_DB_ACCESS_VALID (pm_state (dp_ctrl s))); cbn [whenD].
  - set (db := ring_db (cmd_ring C1)). exists (C1 <| cmd_ring := (cmd_ring C1) <| ctxt_wp := db |> |>), [CmdDb db].
    split; [done|]. split; [|split; [by apply list_lookup_insert_eq|done]]. destruct R1 as [[? ? ? ? ? ?] ? ? ?]. by split.
  - exists C1, []. rewrite app_nil_r. split; [done|]. split; [done|]. split; [by apply list_lookup_insert_eq|done].
Qed.

(** The device completes the first command. *)
Definition cmd_event (C : mhi_cmd) (code : Z) : mhi_tre :=
  mkTre (mhi_to_physical (cmd_ring C) (r_rp (cmd_ring C))) (Z.shiftl code 24) (MHI_TRE_EV_DWORD1 0 MHI_PKT_TYPE_CMD_COMPLETION_EVENT).
Lemma cmd_event_code C code : 0 <= code < 256 -> MHI_TRE_GET_EV_CODE (cmd_event C code) = code.
Proof.
  intros H. unfold MHI_TRE_GET_EV_CODE, byte_of, cmd_event. cbn [dword0].
  by rewrite Z.shiftr_shiftl_l, Z.sub_diag, Z.shiftl_0_r, land_255, Z.mod_small by lia.
Qed.
Lemma cmd_completion_at ch C log cmd m j x code : cmd_rep C m j (S x) -> for_channel cmd = true -> (c < 256)%nat ->
  cmd_tres C !! j = Some (cmd_tre (Z.of_nat c) cmd) -> 0 <= code < 256 -> exists C',
  mhi_process_cmd_completion (cmd_event C code) (set_up s c ch C log)
    = Ok (tt, set_up s c (ch <| ccs := code |>) C' (log ++ [Complete c])) /\ cmd_rep C' m (wrap m (j + 1)) x.
Proof.
  intros [W Hl Ha Hs] Hcmd Hc2 Ht Hcode. pose proof W as [He Hlen Hj Hk Hrp Hwp].
  destruct (cmd_tre_fields (Z.of_nat c) cmd ltac:(lia) Hcmd) as [Hid Hty].
  exists (C <| cmd_ring := mhi_del_ring_element (cmd_ring C) |>). split; [|split; [by apply (del_wf _ _ _ (S x))|done..]].
  unfold mhi_process_cmd_completion. rewrite (D_bind get_dp _ _ (set_up s c ch C log) _) by done. cbv zeta.
  change (dp_cmd (set_up s c ch C log)) with C.
  assert (Hv : mhi_to_virtual (cmd_ring C) (t_ptr (cmd_event C code)) = pos (cmd_ring C) j)
    by (cbn [t_ptr cmd_event]; rewrite Hrp; by apply (physical_virtual _ m)).
  rewrite Hv, Hrp, Z.eqb_refl.
  rewrite (D_bind _ _ _ tt (set_up s c ch C log)) by done.
  rewrite (D_bind _ _ _ _ _ (lift_Ok _ _ (set_up s c ch C log) (slot_pos _ m j He Hlen Hj))).
  rewrite (D_bind _ _ _ _ _ (lift_Ok _ _ (set_up s c ch C log) (f_equal of_option Ht))). rewrite Hty, Hid, Nat2Z.id, (cmd_event_code C code Hcode).
  rewrite (D_bind _ _ _ tt (set_up s c (ch <| ccs := code |>) C (log ++ [Complete c]))); [done|].
  rewrite (D_bind _ _ _ _ _ (set_up_get ch C log)), (D_bind _ _ _ _ _ (set_up_upd _ ch C log)). done.
Qed.
End Steps.

(** ** Start *)

(** What the device answers a command with, or nothing in time. *)
Definition cmd_reply (code : option Z) : dp_wait := fun s =>
  match code with
  | Some code => match mhi_process_cmd_completion (cmd_event (dp_cmd s) code) s with Ok (_, s') => (true, s') | _ => (false, s) end
  | None => (false, s)
  end.
Definition cmd_reply_ok (code : option Z) : Prop := match code with Some code => 0 <= code < 256 | None => True end.
(** A channel that can be started, with [n] elements; no command is on its way. *)
Record startable (mem : nat -> Z * Z) (s : mhi_dp) (c : nat) (ch : mhi_chan) (n m j : nat) : Prop := {
  st_chan : dp_chans s !! c = Some ch; st_id : chan_id ch = Z.of_nat c; st_small : (c < 256)%nat;
  st_off : ch_state ch = MHI_CH_STATE_DISABLED; st_mine : offload_ch ch = false; st_pre : pre_alloc ch = false;
  st_type : xfer_type ch <> MHI_XFER_RSC_DMA;
  st_ee : truth (Z.land (ee_bit (ee (dp_ctrl s))) (ee_mask ch)) = true;
  st_pm : MHI_PM_IN_ERROR_STATE (pm_state (dp_ctrl s)) = false;
  st_n : (0 < n)%nat; st_tre : r_elements (tre_ring ch) = Z.of_nat n; st_buf : r_elements (buf_ring ch) = Z.of_nat n;
  st_mem : length (tres ch) = n; st_cpu : 0 <= (mem c).1 /\ (mem c).1 + SIZEOF_MHI_TRE * Z.of_nat n <= 2 ^ 64;
  st_dev : 0 <= (mem c).2 /\ (mem c).2 + SIZEOF_MHI_TRE * Z.of_nat n <= 2 ^ 64;
  st_cmd : cmd_rep (dp_cmd s) m j 0; st_room : (1 < m)%nat }.

Lemma start_rings_rep mem base s c ch n m j : startable mem s c ch n m j -> chan_rep (start_rings mem c base ch) n 0 [].
Proof.
  intros []. unfold SIZEOF_MHI_TRE in *. assert (Hw : wrap n (0 + length (@nil mhi_buf_info)) = 0%nat) by (cbn [length]; wrap_lia).
  split; try done.
  - split; try rewrite Hw; unfold pos; cbn; unfold SIZEOF_MHI_TRE; rewrite ?st_tre0; lia.
  - split; try rewrite Hw; unfold pos; cbn; unfold SIZEOF_MHI_BUF_INFO; rewrite ?st_buf0; lia.
  - change (length (replicate (Z.to_nat (r_elements (buf_ring ch))) mhi_buf_info_zero) = n). rewrite st_buf0, length_replicate. lia.
  - by exists [].
  - unfold addr_ok. cbn. unfold SIZEOF_MHI_TRE. rewrite st_tre0. lia.
Qed.

Section Commands.
Context (s : mhi_dp) (c : nat) (Hc : (c < length (dp_chans s))%nat) (Hsmall : (c < 256)%nat).
(** A command that is sent and waited for: its result is in the channel. *)
Lemma command_put ch C log cmd m j code : cmd_rep C m j 0 -> (1 < m)%nat -> for_channel cmd = true -> chan_id ch = Z.of_nat c ->
  cmd_reply_ok code -> exists C' C'' es es',
  mhi_send_cmd (Some c) cmd (set_up s c ch C log) = Ok (0, set_up s c ch C' (log ++ es)) /\ quiet_votes es 0 0
  /\ wait_completion (cmd_reply code) (set_up s c ch C' (log ++ es))
     = Ok (bool_decide (is_Some code), set_up s c (match code with Some x => ch <| ccs := x |> | None => ch end) C'' ((log ++ es) ++ es'))
  /\ quiet_votes es' 0 0.
Proof.
  intros R Hm Hcmd Hid Hcode. destruct (send_cmd_at s c Hc ch C log cmd m j 0 R Hm) as (C' & es & E & R' & Ht & Q).
  replace (wrap m (j + 0)) with j in Ht by (destruct R' as [[]]; wrap_lia). rewrite Hid in Ht. destruct code as [x|].
  - destruct (cmd_completion_at s c Hc ch C' (log ++ es) cmd m j 0 x R' Hcmd Hsmall Ht Hcode) as (C'' & E2 & _).
    exists C', C'', es, [Complete c]. split; [done|]. split; [done|]. split; [|done].
    unfold wait_completion, cmd_reply. change (dp_cmd (set_up s c ch C' (log ++ es))) with C'. by rewrite E2.
  - exists C', C', es, []. rewrite app_nil_r. done.
Qed.
End Commands.

Definition started_chan (mem : nat -> Z * Z) (c : nat) (base : Z) (ch : mhi_chan) (code : option Z) : mhi_chan :=
  match code with Some x => start_rings mem c base ch <| ccs := x |> | None => start_rings mem c base ch end.
Definition accepted (code : option Z) : bool := bool_decide (code = Some MHI_EV_CC_SUCCESS).

Section Start.
Context (map_single : Z -> Z -> option Z) (kmalloc : nat -> option Z) (mem : nat -> Z * Z) (kzalloc : nat -> option Z)
  (buffer_len : Z).
Lemma prepare_steps fuel code w2 s c ch n m j base : startable mem s c ch n m j -> kzalloc c = Some base -> cmd_reply_ok code ->
  let ch2 := started_chan mem c base ch code in
  exists C'' es, quiet_votes es 1 0
  /\ __mhi_prepare_channel map_single kmalloc mem kzalloc buffer_len fuel (cmd_reply code) w2 c s
    = (if accepted code then
         (_ ← upd_chan c (fun ch => ch <| ch_state := MHI_CH_STATE_ENABLED |>); _ ← dlog WakePut; mret 0 : DP Z)
       else (_ ← dlog WakePut; _ ← mhi_deinit_chan_ctxt c; mret (- EIO) : DP Z)) (set_up s c ch2 C'' (dp_log s ++ es)).
Proof.
  intros S Hk Hcode ch2. destruct S. assert (Hc : (c < length (dp_chans s))%nat) by (by eapply lookup_lt_Some).
  set (ch1 := start_rings mem c base ch). set (log1 := (dp_log s ++ [WakeGet]) ++ [RuntimeGet]).
  destruct (command_put s c Hc st_small0 ch1 (dp_cmd s) log1 MHI_CMD_START_CHAN m j code st_cmd0 st_room0 eq_refl st_id0 Hcode)
    as (C' & C'' & es & es' & E1 & Q1 & E2 & Q2). fold ch1 ch2 in E2.
  change (match code with Some x => ch1 <| ccs := x |> | None => ch1 end) with ch2 in E2.
  exists C'', ([WakeGet; RuntimeGet] ++ es ++ es' ++ [RuntimePut]). split.
  { apply (quiet_app _ _ 1 1 0 (-1)); [done|]. apply (quiet_app _ _ 0 0 0 (-1)); [done|]. by apply (quiet_app _ _ 0 0 0 (-1)). }
  replace (dp_log s ++ _) with (((log1 ++ es) ++ es') ++ [RuntimePut]) by (unfold log1; by rewrite <- !app_assoc).
  set (log2 := _ ++ [RuntimePut]).
  assert (Es : s = set_up s c ch (dp_cmd s) (dp_log s)) by (unfold set_up; rewrite list_insert_id by done; by destruct s).
  rewrite Es at 1. unfold __mhi_prepare_channel. rewrite (D_bind _ _ _ _ _ (set_up_get s c Hc ch _ _)).
  rewrite (D_bind get_dp _ _ (set_up s c ch (dp_cmd s) (dp_log s)) _) by done.
  change (dp_ctrl (set_up s c ch (dp_cmd s) (dp_log s))) with (dp_ctrl s).
  rewrite st_ee0, st_off0, st_mine0, bool_decide_eq_true_2 by done. cbn [negb].
  assert (Ei : mhi_init_chan_ctxt mem kzalloc c (set_up s c ch (dp_cmd s) (dp_log s)) = Ok (0, set_up s c ch1 (dp_cmd s) (dp_log s))).
  { unfold mhi_init_chan_ctxt. rewrite (D_bind _ _ _ _ _ (set_up_get s c Hc ch _ _)), Hk.
    by rewrite (D_bind _ _ _ _ _ (set_up_upd s c Hc _ ch _ _)). }
  rewrite (D_bind _ _ _ _ _ Ei). cbn [truth Z.eqb negb].
  assert (Epm : get_pm (set_up s c ch1 (dp_cmd s) (dp_log s)) = Ok (pm_state (dp_ctrl s), set_up s c ch1 (dp_cmd s) (dp_log s))) by done.
  rewrite (D_bind _ _ _ _ _ Epm), st_pm0. rewrite (D_bind _ _ _ _ _ (set_up_log s c WakeGet ch1 _ _)).
  rewrite (D_bind _ _ _ _ _ (set_up_log s c RuntimeGet ch1 _ _)). fold log1. rewrite (D_bind _ _ _ _ _ E1). cbn [truth Z.eqb negb].
  set (st := set_up s c ch2 C'' ((log1 ++ es) ++ es')) in *.
  rewrite (D_bind _ _ _ (if accepted code then 0 else - EIO) st).
  2:{ rewrite (D_bind _ _ _ _ _ E2), (D_bind (get_chan c) _ st ch2 st) by (by apply set_up_get). unfold accepted, ch2, started_chan.
      destruct code as [x|]; [|done].
      cbn [ccs]. change (ccs (start_rings mem c base ch <| ccs := x |>)) with x. rewrite bool_decide_eq_true_2 by eauto. cbn [negb orb].
      destruct (Z.eqb_spec x MHI_EV_CC_SUCCESS) as [->|Hx]; [by rewrite bool_decide_eq_true_2|].
      rewrite bool_decide_eq_false_2 by congruence. done. }
  unfold st. rewrite (D_bind _ _ _ _ _ (set_up_log s c RuntimePut ch2 _ _)). fold log2.
  destruct (accepted code); cbn [truth Z.eqb negb].
  - rewrite (D_bind _ _ _ _ _ (set_up_upd s c Hc _ ch2 _ _)), (D_bind _ _ _ _ _ (set_up_upd s c Hc _ ch2 _ _)).
    rewrite (D_bind _ _ _ _ _ (set_up_get s c Hc _ _ _)). replace (pre_alloc _) with (pre_alloc ch) by (unfold ch2, started_chan; by destruct code).
    by rewrite st_pre0.
  - done.
Qed.
(** [__mhi_prepare_channel] starts a channel.  When its rings can be allocated it returns
    0 exactly when the device answers the start command with success, and then the channel
    is enabled with empty rings of all its elements; after any other answer, and after
    none in time, it returns -EIO, the channel stays disabled and its rings are gone.
    Either way its votes for WAKE and for runtime power are taken back. *)
Theorem channel_start fuel code w2 s c ch n m j base : startable mem s c ch n m j -> kzalloc c = Some base -> cmd_reply_ok code ->
  exists s' effs ch',
    __mhi_prepare_channel map_single kmalloc mem kzalloc buffer_len fuel (cmd_reply code) w2 c s
      = Ok (if accepted code then 0 else - EIO, s')
    /\ dp_log s' = dp_log s ++ effs /\ quiet_votes effs 0 0 /\ dp_chans s' = <[c := ch']> (dp_chans s)
    /\ (if accepted code then ch_state ch' = MHI_CH_STATE_ENABLED /\ chan_rep ch' n 0 []
        else ch_state ch' = MHI_CH_STATE_DISABLED /\ r_base (tre_ring ch') = 0 /\ r_base (buf_ring ch') = 0 /\ rbase ch' = 0).
Proof.
  intros S Hk Hcode. pose proof (start_rings_rep mem base s c ch n m j S) as R.
  destruct (prepare_steps fuel code w2 s c ch n m j base S Hk Hcode) as (C & es & Q & E). destruct S.
  assert (Hc : (c < length (dp_chans s))%nat) by (by eapply lookup_lt_Some). set (ch2 := started_chan mem c base ch code) in *.
  assert (R2 : chan_rep ch2 n 0 []) by (unfold ch2, started_chan; destruct code; [destruct R; by split|done]).
  assert (Q2 : quiet_votes (es ++ [WakePut]) 0 0) by (by apply (quiet_app _ _ 1 0 (-1) 0)).
  rewrite E. destruct (accepted code).
  - set (ch3 := ch2 <| ch_state := MHI_CH_STATE_ENABLED |>).
    exists (set_up s c ch3 C ((dp_log s ++ es) ++ [WakePut])), (es ++ [WakePut]), ch3.
    split; [|split; [|split; [exact Q2|split; [done|]]]].
    + rewrite (D_bind _ _ _ _ _ (set_up_upd s c Hc _ ch2 _ _)), (D_bind _ _ _ _ _ (set_up_log s c WakePut _ _ _)). done.
    + by rewrite app_assoc.
    + split; [done|]. destruct R2; by split.
  - set (ch3 := ch2 <| buf_ring := (buf_ring ch2) <| r_base := 0 |> |> <| tre_ring := (tre_ring ch2) <| r_base := 0 |> |> <| rbase := 0 |>).
    exists (set_up s c ch3 C ((dp_log s ++ es) ++ [WakePut])), (es ++ [WakePut]), ch3.
    split; [|split; [|split; [exact Q2|split; [done|]]]].
    + unfold mhi_deinit_chan_ctxt. rewrite (D_bind _ _ _ _ _ (set_up_log s c WakePut _ _ _)), (D_bind _ _ _ _ _ (set_up_upd s c Hc _ ch2 _ _)). done.
    + by rewrite app_assoc.
    + split; [|done]. unfold ch2, started_chan. by destruct code.
Qed.
End Start.

(** ** Stop *)
Lemma lookup_alter_at {A} (f : A -> A) (l : list A) i x : l !! i = Some x -> alter f i l !! i = Some (f x).
Proof. intros H. by rewrite list_lookup_alter_eq, H. Qed.
(** The events of the channel that wait to be handled are marked; nothing else changes. *)
Lemma mark_stale_at chan r n ts : forall fuel i mem, 0 < el_size r -> el_size r = SIZEOF_MHI_TRE -> r_len r = el_size r * Z.of_nat n ->
  (i < n)%nat -> (length ts < n)%nat -> cyc mem n i ts -> (length ts < fuel)%nat -> exists mem',
  mark_stale fuel r chan (pos r (wrap n (i + length ts))) (pos r i) mem = Ok mem'
  /\ cyc mem' n i (stale_event chan <$> ts) /\ length mem' = length mem
  /\ (forall p, (forall k, (k < length ts)%nat -> p <> wrap n (i + k)) -> mem' !! p = mem !! p).
Proof.
  induction ts as [|t ts IH]; intros [|fuel] i mem He Hs Hl Hi Hk Hc Hf; try (cbn [length] in Hf; lia); cbn [mark_stale length] in *.
  - exists mem. replace (wrap n (i + 0)) with i by wrap_lia. by rewrite Z.eqb_refl.
  - destruct (cyc_pop _ _ _ _ _ Hi Hk Hc) as [Ht Hc'].
    rewrite (proj2 (Z.eqb_neq _ _)) by (intros E; apply pos_inj in E; [wrap_lia|done]).
    rewrite (slot_pos r n i He Hl Hi). cbn [mbind res_bind]. rewrite Ht. cbn [of_option mbind res_bind].
    assert (En : (if pos r i + SIZEOF_MHI_TRE =? r_base r + r_len r then r_base r else pos r i + SIZEOF_MHI_TRE)
      = pos r (wrap n (i + 1))).
    { rewrite <- (next_pos r n i He Hl Hi). unfold ring_next. rewrite <- Hs.
      assert (Hb : pos r i + el_size r <= r_base r + r_len r).
      { unfold pos. rewrite Hl. assert (el_size r * Z.of_nat (S i) <= el_size r * Z.of_nat n) by (apply Z.mul_le_mono_nonneg_l; lia).
        rewrite Nat2Z.inj_succ, Z.mul_succ_r in *. lia. }
      destruct (Z.eqb_spec (pos r i + el_size r) (r_base r + r_len r)), (Z.leb_spec (r_base r + r_len r) (pos r i + el_size r)); lia || done. }
    rewrite En, <- (wrap_pop n i) by lia.
    assert (Hc2 : cyc (alter (stale_event chan) i mem) n (wrap n (i + 1)) ts).
    { intros j x Hj. pose proof (lookup_lt_Some _ _ _ Hj). rewrite list_lookup_alter_ne; [by apply Hc'|]. rewrite wrap_pop by lia. wrap_lia. }
    destruct (IH fuel (wrap n (i + 1)) (alter (stale_event chan) i mem) He Hs Hl ltac:(wrap_lia) ltac:(lia) Hc2 ltac:(lia))
      as (mem' & E & H1 & H2 & H3). exists mem'. split; [done|]. split; [|split].
    + intros [|j] x Hj; cbn in Hj.
      * injection Hj as <-. replace (wrap n (i + 0)) with i by wrap_lia. rewrite H3; [by apply lookup_alter_at|].
        intros k Hk2. rewrite wrap_pop by lia. wrap_lia.
      * rewrite <- (wrap_pop n i) by (lia || (apply lookup_lt_Some in Hj; rewrite length_fmap in Hj; lia)). by apply H1.
    + by rewrite H2, length_alter.
    + intros p Hp. rewrite H3.
      * apply list_lookup_alter_ne. intros ->. apply (Hp 0%nat); [lia|]. wrap_lia.
      * intros k Hk2. rewrite wrap_pop by lia. apply Hp. lia.
Qed.
Lemma fixed_state ch ch' : fixed ch' = fixed ch -> ch_state ch' = ch_state ch.
Proof. by intros [=]. Qed.
Lemma set_up_self s c ch : dp_chans s !! c = Some ch -> s = set_up s c ch (dp_cmd s) (dp_log s).
Proof. intros H. unfold set_up. rewrite list_insert_id by done. by destruct s. Qed.

(** A channel that can be stopped: [xs] are in flight, [ts] the events its ring holds. *)
Record stoppable (s : mhi_dp) (c : nat) (ch : mhi_chan) (n i : nat) (xs : list mhi_buf_info) (m j : nat)
    (ev : mhi_event) (en ei : nat) (ts : list mhi_tre) : Prop := {
  sp_chan : dp_chans s !! c = Some ch; sp_id : chan_id ch = Z.of_nat c; sp_small : (c < 256)%nat;
  sp_on : ch_state ch = MHI_CH_STATE_ENABLED; sp_mine : offload_ch ch = false; sp_pre : pre_alloc ch = false;
  sp_rep : chan_rep ch n i xs; sp_load : load ch xs <= pending_pkts s;
  sp_cmd : cmd_rep (dp_cmd s) m j 0; sp_room : (1 < m)%nat;
  sp_ev : dp_events s !! er_index ch = Some ev; sp_events : events_at ev en ei ts; sp_el : el_size (ev_ring ev) = SIZEOF_MHI_TRE }.

Definition off (ch : mhi_chan) (code : option Z) : mhi_chan :=
  let ch := ch <| ch_state := MHI_CH_STATE_DISABLED |> in match code with Some x => ch <| ccs := x |> | None => ch end.
Section Stop.
Context (s : mhi_dp) (c : nat) (ch : mhi_chan) (n i : nat) (xs : list mhi_buf_info) (m j : nat)
  (ev : mhi_event) (en ei : nat) (ts : list mhi_tre) (H : stoppable s c ch n i xs m j ev en ei ts) (code : option Z) (Hcode : cmd_reply_ok code).

Lemma off_rep cd : chan_rep (off ch cd) n i xs.
Proof. destruct (sp_rep _ _ _ _ _ _ _ _ _ _ _ _ H). unfold off. by destruct cd; split. Qed.
Lemma off_load cd : load (off ch cd) xs = load ch xs.
Proof. by destruct cd. Qed.
Lemma off_pre cd : pre_alloc (off ch cd) = pre_alloc ch.
Proof. by destruct cd. Qed.
(** The command, if the device can be asked at all. *)
Lemma stop_command : exists C es cd,
  (pm ← get_pm;
   _ ← (if MHI_PM_IN_ERROR_STATE pm then mret tt
        else
          _ ← dlog WakeGet; _ ← dlog RuntimeGet;
          ret ← mhi_send_cmd (Some c) MHI_CMD_RESET_CHAN;
          _ ← (if truth ret then mret tt else _ ← wait_completion (cmd_reply code); mret tt : DP unit);
          _ ← dlog RuntimePut; dlog WakePut : DP unit); mret tt) (set_up s c (off ch None) (dp_cmd s) (dp_log s))
  = Ok (tt, set_up s c (off ch cd) C (dp_log s ++ es)) /\ quiet_votes es 0 0.
Proof.
  destruct H. assert (Hc : (c < length (dp_chans s))%nat) by (by eapply lookup_lt_Some). set (ch1 := off ch None).
  set (s0 := set_up s c ch1 (dp_cmd s) (dp_log s)). assert (Epm : get_pm s0 = Ok (pm_state (dp_ctrl s), s0)) by done.
  rewrite (D_bind _ _ _ _ _ Epm). destruct (MHI_PM_IN_ERROR_STATE (pm_state (dp_ctrl s))).
  { exists (dp_cmd s), [], None. by rewrite app_nil_r. }
  set (log1 := (dp_log s ++ [WakeGet]) ++ [RuntimeGet]).
  destruct (command_put s c Hc sp_small0 ch1 (dp_cmd s) log1 MHI_CMD_RESET_CHAN m j code sp_cmd0 sp_room0 eq_refl sp_id0 Hcode)
    as (C' & C'' & es & es' & E1 & Q1 & E2 & Q2).
  exists C'', ([WakeGet; RuntimeGet] ++ es ++ es' ++ [RuntimePut; WakePut]), code. split.
  2:{ apply (quiet_app _ _ 1 1 (-1) (-1)); [done|]. apply (quiet_app _ _ 0 0 (-1) (-1)); [done|]. by apply (quiet_app _ _ 0 0 (-1) (-1)). }
  refine (D_bind _ (fun _ => mret tt) _ tt _ _). unfold s0.
  rewrite (D_bind _ _ _ _ _ (set_up_log s c WakeGet ch1 _ _)), (D_bind _ _ _ _ _ (set_up_log s c RuntimeGet ch1 _ _)). fold log1.
  rewrite (D_bind _ _ _ _ _ E1). cbn [truth Z.eqb negb]. fold (off ch code) in E2.
  rewrite (D_bind _ _ _ tt _ (D_bind _ (fun _ => mret tt) _ _ _ E2)).
  rewrite (D_bind _ _ _ _ _ (set_up_log s c RuntimePut _ _ _)), set_up_log. unfold log1. by rewrite <- !app_assoc.
Qed.
(** The events of the channel are marked. *)
Lemma stop_marks fuel s1 : dp_events s1 = dp_events s -> (length ts < fuel)%nat -> exists ev',
  mhi_mark_stale_events fuel (er_index ch) (chan_id ch) s1 = Ok (tt, put_ev s1 (er_index ch) ev')
  /\ events_at ev' en ei (stale_event (chan_id ch) <$> ts).
Proof.
  intros Hs1 Hf. destruct H. rewrite <- Hs1 in sp_ev0. pose proof sp_events0 as [He Hl Hi Hk Hr Ht Ha Hd].
  destruct (mark_stale_at (chan_id ch) (ev_ring ev) en ts fuel ei (ev_tres ev) He sp_el0 Hl Hi Hk Ht Hf) as (mem' & E & H1 & _).
  exists (ev <| ev_tres := mem' |>). split.
  - unfold mhi_mark_stale_events. rewrite (D_bind _ _ _ _ _ (read_er_rp_at s1 _ ev en ei ts sp_ev0 sp_events0)).
    rewrite (D_bind _ _ _ _ _ (get_event_at s1 _ ev sp_ev0)), Hr. rewrite (D_bind _ _ _ _ _ (lift_Ok _ _ s1 E)).
    unfold upd_event, M_upd, put_ev, with_events. by rewrite (alter_at _ _ _ ev sp_ev0).
  - split; rewrite ?length_fmap; done.
Qed.
End Stop.
(** C18. [__mhi_unprepare_channel] stops a channel.  Whatever the device answers to the reset,
    or if it answers nothing, or if it cannot be asked: every buffer in flight goes back to
    the client, once and in order, the count of packets and the votes for power drop by
    theirs, the channel is disabled and its rings are gone, and of the events that wait in
    its event ring those of the channel are marked stale, so that they mean nothing to a
    channel that is started later. *)
Theorem channel_stop fuel code s c ch n i xs m j ev en ei ts : stoppable s c ch n i xs m j ev en ei ts -> cmd_reply_ok code ->
  (length xs < fuel)%nat -> (length ts < fuel)%nat -> exists s' effs ch' ev',
    __mhi_unprepare_channel fuel (cmd_reply code) c s = Ok (tt, s') /\ dp_log s' = dp_log s ++ effs
    /\ callbacks effs = pair c <$> (cb_buf <$> xs) /\ pending_pkts s' = pending_pkts s - load ch xs
    /\ votes wake_vote effs = - load ch xs /\ votes run_vote effs = busy (pending_pkts s') - busy (pending_pkts s)
    /\ dp_chans s' = <[c := ch']> (dp_chans s) /\ ch_state ch' = MHI_CH_STATE_DISABLED
    /\ r_base (tre_ring ch') = 0 /\ r_base (buf_ring ch') = 0
    /\ dp_events s' = <[er_index ch := ev']> (dp_events s) /\ events_at ev' en ei (stale_event (chan_id ch) <$> ts).
Proof.
  intros H Hcode Hfx Hft. destruct (stop_command s c ch n i xs m j ev en ei ts H code Hcode) as (C & es & cd & E1 & Q1).
  apply D_bind_inv in E1 as (pm & s0 & Epm & E1). apply D_bind_inv in E1 as ([] & s1 & E1 & [= ->]).
  set (s1 := set_up s c (off ch cd) C (dp_log s ++ es)) in *.
  destruct (stop_marks s c ch n i xs m j ev en ei ts H fuel s1 eq_refl Hft) as (ev' & E2 & Rev).
  pose proof (off_rep s c ch n i xs m j ev en ei ts H cd) as R. pose proof (sp_chan _ _ _ _ _ _ _ _ _ _ _ _ H) as Hch.
  assert (Hc : (c < length (dp_chans s))%nat) by (by eapply lookup_lt_Some).
  set (s2 := put_ev s1 (er_index ch) ev') in *.
  assert (Hc2 : (c < length (dp_chans s2))%nat) by (unfold s2, s1; cbn [dp_chans put_ev with_events set_up]; by rewrite length_insert).
  assert (Hch2 : dp_chans s2 !! c = Some (off ch cd)) by (by apply list_lookup_insert_eq).
  destruct (reset_data_moves s2 c Hc2 n fuel (off ch cd) i xs (pending_pkts s2) (dp_log s2) R) as (ch3 & pend3 & es3 & E3 & M);
    [by rewrite off_load; apply H|by rewrite off_pre; apply H|done|].
  rewrite (put_self s2 c _ Hch2) in E3. set (s3 := put s2 c ch3 pend3 (dp_log s2 ++ es3)) in *.
  set (ch4 := ch3 <| buf_ring := (buf_ring ch3) <| r_base := 0 |> |> <| tre_ring := (tre_ring ch3) <| r_base := 0 |> |> <| rbase := 0 |>).
  exists (put s2 c ch4 pend3 (dp_log s2 ++ es3)), (es ++ es3), ch4, ev'. destruct M as [_ F P _ G W V]. rewrite (off_load ch []), (off_load ch xs) in P, W.
  assert (L0 : load ch [] = 0) by (unfold load; by destruct (to_device ch)).
  destruct Q1 as (Qc & Qw & Qr). split; [|split; [by rewrite app_assoc|]].
  - rewrite (set_up_self s c ch Hch) at 1. unfold __mhi_unprepare_channel. rewrite (D_bind _ _ _ _ _ (set_up_get s c Hc ch _ _)).
    rewrite (sp_on _ _ _ _ _ _ _ _ _ _ _ _ H), bool_decide_eq_true_2 by done. cbn [negb].
    rewrite (D_bind _ _ _ _ _ (set_up_upd s c Hc _ ch _ _)). fold (off ch None).
    rewrite (D_bind _ _ _ pm _ Epm). rewrite (D_bind _ _ _ _ _ E1).
    rewrite (D_bind (get_chan c) _ s1 (off ch cd) s1) by (by apply set_up_get).
    replace (offload_ch (off ch cd)) with false by (symmetry; destruct cd; apply H).
    rewrite (D_bind (mhi_reset_chan fuel c) _ s1 tt s3); [exact (upd_chan_put s2 c Hc2 _ ch3 pend3 _)|].
    unfold mhi_reset_chan. rewrite (D_bind (get_chan c) _ s1 (off ch cd) s1) by (by apply set_up_get).
    replace (offload_ch (off ch cd)) with false by (symmetry; destruct cd; apply H).
    replace (er_index (off ch cd)) with (er_index ch) by (by destruct cd). replace (chan_id (off ch cd)) with (chan_id ch) by (by destruct cd).
    rewrite (D_bind _ _ _ _ _ E2), bool_decide_eq_false_2 by apply R. exact E3.
  - split; [by rewrite callbacks_app, Qc, G|]. change (pending_pkts s2) with (pending_pkts s) in P, V.
    cbn [pending_pkts put]. split; [lia|]. rewrite !votes_app, Qw, Qr, W, V. split; [lia|]. split; [done|].
    split; [unfold s2, s1; cbn [dp_chans put put_ev with_events set_up]; by rewrite list_insert_insert_eq|].
    split; [|split; [done|split; [done|split; done]]]. change (ch_state ch3 = MHI_CH_STATE_DISABLED). rewrite (fixed_state _ _ F). by destruct cd.
Qed.

(** *** Witnesses *)
Definition demo_off : mhi_dp := demo_dp <| dp_chans := [(demo_chan 0 0 true MHI_XFER_SKB) <| ch_state := MHI_CH_STATE_DISABLED |>] |>.
Definition demo_mem (c : nat) : Z * Z := (65536, 65536 + 4096).
Definition demo_kzalloc (c : nat) : option Z := Some 1048576.
Lemma demo_cmd_rep : cmd_rep (dp_cmd demo_dp) 4 0 0.
Proof.
  split; try done; split; done || (cbn; lia) || (unfold pos; cbn; lia).
Qed.
Lemma demo_startable : startable demo_mem demo_off 0 ((demo_chan 0 0 true MHI_XFER_SKB) <| ch_state := MHI_CH_STATE_DISABLED |>) 4 4 0.
Proof. split; try done; try lia; try (cbn; unfold SIZEOF_MHI_TRE; lia). apply demo_cmd_rep. Qed.
Lemma channel_start_witness : exists s' effs ch',
  __mhi_prepare_channel (fun v _ => Some v) (fun _ => None) demo_mem demo_kzalloc 2048 8 (cmd_reply (Some MHI_EV_CC_SUCCESS)) (cmd_reply None) 0 demo_off
    = Ok (0, s')
  /\ dp_log s' = dp_log demo_off ++ effs /\ quiet_votes effs 0 0 /\ dp_chans s' = <[0%nat := ch']> (dp_chans demo_off)
  /\ ch_state ch' = MHI_CH_STATE_ENABLED /\ chan_rep ch' 4 0 [].
Proof.
  destruct (channel_start (fun v _ => Some v) (fun _ => None) demo_mem demo_kzalloc 2048 8 (Some MHI_EV_CC_SUCCESS) (cmd_reply None)
    demo_off 0 ((demo_chan 0 0 true MHI_XFER_SKB) <| ch_state := MHI_CH_STATE_DISABLED |>) 4 4 0 1048576 demo_startable eq_refl
    ltac:(unfold cmd_reply_ok, MHI_EV_CC_SUCCESS; lia)) as (s' & effs & ch' & H). exists s', effs, ch'. exact H.
Defined.

Lemma demo_stoppable s : demo_queue = Ok (0, s) -> exists ch xs, stoppable s 0 ch 4 0 xs 4 0 demo_event 4 2 demo_events
  /\ cb_buf <$> xs = [501; 502] /\ pending_pkts s - load ch xs = 0 /\ chan_id ch = 0.
Proof.
  intros Eq. exists (nth 0 (dp_chans s) (demo_chan 0 0 true MHI_XFER_SKB)), (take 2 (bufs (nth 0 (dp_chans s) (demo_chan 0 0 true MHI_XFER_SKB)))).
  vm_compute in Eq. injection Eq as <-. split; [|done]. split; try done; try lia; [|apply demo_cmd_rep|apply demo_event_at]. split; try done.
  - split; try done; vm_compute; lia.
  - split; try done; vm_compute; lia.
  - intros [|[|j]] x Hj; [by injection Hj as <-..|done].
  - exists [mkTre 501 100 132608; mkTre 502 60 132608]. split.
    + intros [|[|j]] x Hj; [by injection Hj as <-..|done].
    + repeat (apply Forall2_cons; split; [done|]). done.
Qed.
Lemma channel_stop_witness : exists s s' effs ch' ev', demo_queue = Ok (0, s)
  /\ __mhi_unprepare_channel 8 (cmd_reply None) 0 s = Ok (tt, s') /\ dp_log s' = dp_log s ++ effs
  /\ callbacks effs = [(0%nat, 501); (0%nat, 502)] /\ pending_pkts s' = 0
  /\ ch_state ch' = MHI_CH_STATE_DISABLED /\ dp_chans s' = <[0%nat := ch']> (dp_chans s)
  /\ events_at ev' 4 2 (stale_event 0 <$> demo_events).
Proof.
  destruct demo_queue as [[r s]| |] eqn:Eq; [|by vm_compute in Eq..].
  assert (r = 0) as -> by (vm_compute in Eq; by injection Eq as <- _).
  destruct (demo_stoppable s Eq) as (ch & xs & H & Hx & Hp & Hid).
  destruct (channel_stop 8 None s 0 ch 4 0 xs 4 0 demo_event 4 2 demo_events H I) as
    (s' & effs & ch' & ev' & E & L & Cb & P & _ & _ & D & St & _ & _ & _ & Ev).
  - rewrite <- (length_fmap cb_buf), Hx. cbn. lia.
  - cbn. lia.
  - rewrite Hx in Cb. rewrite Hid in Ev. rewrite Hp in P. exists s, s', effs, ch', ev'.
    split; [done|]. split; [exact E|]. split; [exact L|]. split; [exact Cb|]. split; [exact P|]. split; [exact St|]. by split.
Defined.
