(* ===== verification/AtProxy.v ===== *)
(** quectel-atc-proxy: one AT port shared by several clients (quectel-atc-proxy.c).

    The proxy is a client of the AT channel: what a client writes is a command, and the
    lines of the response come back through the handler of unsolicited lines.  A connection
    is a node of a list with an identity of its own, so that a pointer to a node that has
    been freed is seen.  What [poll], [accept], [read] and [write] return is an argument. *)
From S2P Require Import Prelude CmTypes AtTok AtChannel.
#[local] Open Scope Z_scope.

(** [ATC_PROXY_CONNECTION] *)
Record atc_con := mkCon { con_id : nat; ClientFd : Z }.
(** A send: what [poll] returns for a socket that is not writable, or what [write] returns. *)
Inductive send_outcome := Unwritable (ret : Z) | Wrote (ret : Z).
(** The statics, the channel, what the clients were sent, what the coming sends return
    (everything is written when the list is used up); the descriptors that [accept] returned,
    those of them that are in no connection because [malloc] failed, and those closed. *)
Record atc_proxy := mkAtp {
  atc_dev_fd : Z; atc_proxy_server_fd : Z; atc_proxy_connection : list atc_con; next_con : nat;
  current_client_fd : option nat; asr_style : bool; atp_chan : at_chan; atp_out : list (Z * cstr);
  outcomes : list send_outcome; accepted_fds : list Z; leaked_fds : list Z; closed_fds : list Z }.

Definition AP (A : Type) : Type := M atc_proxy A.
#[export] Instance AP_ret : MRet AP := @M_ret atc_proxy.
#[export] Instance AP_bind : MBind AP := @M_bind atc_proxy.
Definition get_atp : AP atc_proxy := M_get.
Definition upd_atp (f : atc_proxy -> atc_proxy) : AP unit := M_upd f.

(** ** Clients *)
Definition send_atc_to_client (clientFd : Z) (pATC : cstr) : AP Z :=
  p ← get_atp;
  let out ret := upd_atp (fun p => p <| atp_out := atp_out p ++ [(clientFd, take (Z.to_nat ret) pATC)] |>) in
  match outcomes p with
  | [] => let size := Z.of_nat (length pATC) in _ ← out size; mret size
  | o :: rest =>
      _ ← upd_atp (fun p => p <| outcomes := rest |>);
      match o with
      | Unwritable ret => mret ret
      | Wrote ret => _ ← (if ret <? 0 then mret tt else out ret : AP unit); mret ret
      end
  end.
(** [close], [qlist_remove], [free] *)
Definition drop_connection (con : atc_con) : AP unit :=
  upd_atp (fun p => p <| atc_proxy_connection := filter (fun c => con_id c <> con_id con) (atc_proxy_connection p) |>
                   <| closed_fds := closed_fds p ++ [ClientFd con] |>).
Definition CRLF : cstr := [13; 10].
Definition SIZEOF_BUF : nat := 1024.
(** [strcpy], [strcat] into [buf]. *)
Definition unsolicited_text (s : cstr) (sms_pdu : option cstr) : res cstr :=
  let text := s ++ CRLF ++ match sms_pdu with Some pdu => pdu ++ CRLF | None => [] end in
  if (length text <? SIZEOF_BUF)%nat then Ok text else Fault.
Definition send_or_drop (con : atc_con) (buf : cstr) : AP unit :=
  ret ← send_atc_to_client (ClientFd con) buf;
  if ret <? 0 then drop_connection con else mret tt.
Fixpoint send_to_all (cs : list atc_con) (buf : cstr) : AP unit :=
  match cs with
  | [] => mret tt
  | con :: cs => _ ← (if 0 <? ClientFd con then send_or_drop con buf else mret tt : AP unit); send_to_all cs buf
  end.
Definition onUnsolicited_proxy (l : cstr * option cstr) : AP unit :=
  buf ← (M_lift (unsolicited_text l.1 l.2) : AP cstr);
  p ← get_atp;
  match current_client_fd p with
  | Some id =>
      con ← (M_lift (of_option (list_find (fun c => con_id c = id) (atc_proxy_connection p))) : AP (nat * atc_con));
      send_or_drop con.2 buf
  | None => send_to_all (atc_proxy_connection p) buf
  end.
Fixpoint report_lines (ls : list (cstr * option cstr)) : AP unit :=
  match ls with [] => mret tt | l :: ls => _ ← onUnsolicited_proxy l; report_lines ls end.
(** A call into the channel; the handler runs on the lines that come meanwhile. *)
Definition via_chan {A} (m : AT A) : AP A := fun p =>
  '(a, c) ← m (atp_chan p);
  let fresh := drop (length (at_unsol (atp_chan p))) (at_unsol c) in
  '(_, p) ← report_lines fresh (p <| atp_chan := c |>);
  Ok (a, p).

(** The descriptor and the allocation may have failed; without memory for a connection the
    descriptor stays open and nothing knows it. *)
Definition accept_atc_connection (clientfd : Z) (malloc_ok : bool) : AP unit :=
  upd_atp (fun p =>
    let p := p <| accepted_fds := accepted_fds p ++ [clientfd] |> in
    if malloc_ok then p <| atc_proxy_connection := atc_proxy_connection p ++ [mkCon (next_con p) clientfd] |>
                        <| next_con := S (next_con p) |>
    else p <| leaked_fds := leaked_fds p ++ [clientfd] |>).
Definition cleanup_atc_connection (clientfd : Z) : AP unit :=
  p ← get_atp;
  match list_find (fun c => ClientFd c = clientfd) (atc_proxy_connection p) with
  | Some (_, con) =>
      _ ← drop_connection con;
      upd_atp (fun p => if decide (current_client_fd p = Some (con_id con)) then p <| current_client_fd := None |> else p)
  | None => mret tt
  end.

Section Proxy.
Context (dev : nat -> at_exchange).

(** ** Start-up *)
Definition response_error (err : Z) (p_response : option ATResponse) : bool :=
  truth err || match p_response with
               | None => true
               | Some r => negb (bool_decide (is_Some (finalResponse r))) || (success r =? 0) end.
Definition in_quotes (s : string) : cstr := QUOTE :: bytes_of_string s ++ [QUOTE].
Definition QCFG (s : string) : cstr := bytes_of_string "AT+QCFG=" ++ in_quotes s.
Definition proxy_command (s : cstr) (keep : bool) : AP (Z * option ATResponse) := via_chan (at_send_command dev s keep).
(** The network address translation of the modem, for the style of the modem. *)
Definition set_nat (rsp : option ATResponse) : AP unit :=
  p ← get_atp;
  let new_nat := b2z (asr_style p) in
  l ← (M_lift (of_option (r ← rsp; head (p_intermediates r))) : AP cstr);
  let '(err, outs) := at_tok_scanf (Some l) "%s%d" in
  if (err =? 2) && negb (bool_decide (outs !! 1%nat = Some (Some (SInt new_nat)))) then
    r ← proxy_command (QCFG "NAT" ++ COMMA :: show_int new_nat) true;
    if response_error r.1 r.2 then mret tt
    else _ ← proxy_command (bytes_of_string "at+cfun=1,1") false; mret tt
  else mret tt.
Definition atc_proxy_init : AP Z :=
  err ← via_chan (at_handshake dev);
  if truth err then mret err
  else
    _ ← via_chan (at_send_command_singleline dev (QCFG "usbnet") (bytes_of_string "+QCFG:") false);
    _ ← via_chan (at_send_command_multiline dev (bytes_of_string "AT+QNETDEVCTL=?") (bytes_of_string "+QNETDEVCTL:") false);
    _ ← proxy_command (bytes_of_string "AT+CGREG=2") false;
    _ ← proxy_command (bytes_of_string "AT+CEREG=2") false;
    _ ← proxy_command (bytes_of_string "AT+C5GREG=2") false;
    r ← via_chan (at_send_command_singleline dev (bytes_of_string "AT+QNETDEVSTATUS=?") (bytes_of_string "+QNETDEVSTATUS:") true);
    _ ← (if response_error err r.2 then upd_atp (fun p => p <| asr_style := true |>) else mret tt);
    r ← via_chan (at_send_command_singleline dev (QCFG "NAT") (bytes_of_string "+QCFG:") true);
    if response_error r.1 r.2 then mret r.1
    else _ ← set_nat r.2; mret 0.

(** ** The loop *)

(** What a ready descriptor turns out to give: for the server the client and whether memory
    can be allocated, for a client what [read] returns, for the port what the reader thread
    does in the 10 ms that the loop sleeps.  [io_stale] is what is found at
    [pollfds[nevents].fd], one behind the elements that were set. *)
Record ready_io := mkIo { io_accept : Z; io_malloc : bool; io_read : option (list Z); io_lines : list at_event; io_stale : Z }.
Inductive atc_event := Quiet | Broken | Ready (io : ready_io).
Definition MAX_POLLFDS : nat := 66.
Definition SIZEOF_ATC_BUF : nat := 4096.
Definition pollfds (p : atc_proxy) : list Z :=
  take MAX_POLLFDS (atc_dev_fd p :: (if 0 <? atc_proxy_server_fd p then [atc_proxy_server_fd p] else [])
                    ++ (ClientFd <$> atc_proxy_connection p)).
(** The bytes that were read, as a string in a buffer that was all zero. *)
Definition command_text (data : list Z) : res cstr :=
  match list_find (fun b => b = 0) (take SIZEOF_ATC_BUF data) with
  | Some (n, _) => Ok (take n data)
  | None => if (length data <? SIZEOF_ATC_BUF)%nat then Ok data else Fault
  end.
Definition client_command (stale : Z) (data : list Z) : AP unit :=
  _ ← upd_atp (fun p =>
    match list_find (fun c => ClientFd c = stale) (atc_proxy_connection p) with
    | Some (_, con) => p <| current_client_fd := Some (con_id con) |>
    | None => p
    end);
  cmd ← (M_lift (command_text data) : AP cstr);
  _ ← proxy_command cmd false;
  upd_atp (fun p => p <| current_client_fd := None |>).
(** The result tells whether the loop is left. *)
Fixpoint serve (evs : list (Z * atc_event)) : AP bool :=
  match evs with
  | [] => mret false
  | (fd, Quiet) :: evs => serve evs
  | (fd, Broken) :: evs =>
      p ← get_atp;
      if fd =? atc_dev_fd p then mret true
      else _ ← (if fd =? atc_proxy_server_fd p then mret tt else cleanup_atc_connection fd : AP unit); serve evs
  | (fd, Ready io) :: evs =>
      p ← get_atp;
      if fd =? atc_proxy_server_fd p then _ ← accept_atc_connection (io_accept io) (io_malloc io); serve evs
      else if fd =? atc_dev_fd p then _ ← via_chan (run_events (io_lines io)); serve evs
      else
        match io_read io with
        | None | Some [] => _ ← cleanup_atc_connection fd; mret false
        | Some data => _ ← client_command (io_stale io) data; serve evs
        end
  end.
(** A round: [None] if [poll] fails; missing events are [Quiet]. *)
Definition atc_round (rd : option (list atc_event)) : AP bool :=
  p ← get_atp;
  match rd with
  | None => mret true
  | Some evs => serve (zip (pollfds p) evs)
  end.
Fixpoint close_connections (n : nat) : AP unit :=
  match n with
  | O => mret tt
  | S n =>
      p ← get_atp;
      match atc_proxy_connection p with
      | [] => mret tt
      | con :: _ => _ ← cleanup_atc_connection (ClientFd con); close_connections n
      end
  end.
(** The rounds until [atc_proxy_quit] is set, or until the loop is left. *)
Fixpoint atc_rounds (rds : list (option (list atc_event))) : AP unit :=
  match rds with
  | [] => mret tt
  | rd :: rds =>
      p ← get_atp;
      if negb (0 <? atc_dev_fd p) then mret tt
      else stop ← atc_round rd; if (stop : bool) then mret tt else atc_rounds rds
  end.
Definition atc_proxy_loop (rds : list (option (list atc_event))) : AP unit :=
  _ ← upd_atp (fun p => p <| atc_proxy_connection := [] |>);
  _ ← atc_rounds rds;
  _ ← upd_atp (fun p => p <| atp_chan := at_close (atp_chan p) |>);
  p ← get_atp;
  close_connections (length (atc_proxy_connection p)).
End Proxy.
