(* ===== verification/AtProxySpec.v ===== *)
(** quectel-atc-proxy: no connection is lost or closed twice, and where the lines of a
    response go. *)
From S2P Require Import Prelude CmTypes QmiThread AtTok AtChannel AtChannelSpec AtProxy.
#[local] Open Scope Z_scope.

(** ** What the channel reports *)
Section Reports.
Context (P : cstr * option cstr -> Prop).
Definition report_ok (e : at_event) : Prop :=
  match e with Line l => P (l, None) | SmsLines l1 l2 => P (l1, Some l2) | ReaderClosed => True end.
Definition grows (s s' : at_chan) : Prop := exists new, at_unsol s' = at_unsol s ++ new /\ Forall P new.
Lemma grows_refl s s' : at_unsol s' = at_unsol s -> grows s s'.
Proof. intros E. exists []. by rewrite app_nil_r. Qed.
Lemma grows_trans s1 s2 s3 : grows s1 s2 -> grows s2 s3 -> grows s1 s3.
Proof. intros (a & E1 & H1) (b & E2 & H2). exists (a ++ b). rewrite E2, E1, <- app_assoc. split; [done|]. by apply Forall_app. Qed.
Lemma grows_one l s s' : P l -> at_unsol s' = at_unsol s ++ [l] -> grows s s'.
Proof. intros Hl E. exists [l]. split; [done|]. by apply Forall_singleton. Qed.
Lemma process_grows line s s' : P (line, None) -> processLine line s = Ok s' -> grows s s'.
Proof.
  intros Hl E. unfold processLine in E. assert (H1 : grows s (handleUnsolicited line s)) by (by eapply grows_one).
  assert (Hr : forall b rsp, grows s (handleFinalResponse b line rsp (if s_atc_proxy s then handleUnsolicited line s else s)))
    by (intros b rsp; destruct (s_atc_proxy s); [by eapply grows_one|by apply grows_refl]).
  assert (Hw : forall raw, at_unsol (writeraw raw s) = at_unsol s /\ at_unsol (writeCtrlZ raw s) = at_unsol s)
    by (intros raw; unfold writeraw, writeCtrlZ; by destruct (_ || _)).
  assert (Hi : forall (b : bool) rsp, grows s (if b then addIntermediate line rsp s else handleUnsolicited line s))
    by (intros [] rsp; [by apply grows_refl|done]).
  repeat case_match; simplify_eq; first [done | by apply grows_refl | by apply grows_refl; apply Hw
    | destruct (has_prefix line (s_responsePrefix s)) as [[]| |]; [..|done|done]; injection E as <-; first [done | by apply grows_refl]].
Qed.
Lemma events_grow es s s' : Forall report_ok es -> at_events es s = Ok s' -> grows s s'.
Proof.
  intros H. revert s. induction H as [|e es He _ IH]; intros s E; cbn [at_events] in E; [injection E as <-; by apply grows_refl|].
  destruct (at_event_step e s) as [s1| |] eqn:E1; [|done..]. apply (grows_trans _ s1); [|by apply IH].
  destruct e; cbn [at_event_step report_ok] in *; [by eapply process_grows|injection E1 as <-; by eapply grows_one|].
  injection E1 as <-. by apply grows_refl.
Qed.
Lemma wait_grows waits s r s' : Forall (fun w => Forall report_ok w.1) waits -> wait_final waits s = Ok (r, s') -> grows s s'.
Proof.
  intros H. revert s. induction H as [|[es rc] waits He _ IH]; intros s E; cbn [wait_final] in E.
  - repeat case_match; simplify_eq; by apply grows_refl.
  - destruct (sp_response s) as [rsp|]; [|done]. destruct (_ || _); [injection E as <- <-; by apply grows_refl|].
    destruct (at_events es s) as [s1| |] eqn:E1; [|done..]. apply (grows_trans _ s1); [by eapply events_grow|]. cbn [mbind res_bind] in E.
    destruct (rc =? ETIMEDOUT); [injection E as <- <-; by apply grows_refl|]. by apply IH.
Qed.
Definition exchange_ok (ex : at_exchange) : Prop := Forall report_ok (ax_before ex) /\ Forall (fun w => Forall report_ok w.1) (ax_waits ex).
Lemma command_grows dev c type prefix pdu keep s r s' : (forall k, exchange_ok (dev k)) -> sp_response s = None ->
  at_send_command_full dev c type prefix pdu keep s = Ok (r, s') -> grows s s'.
Proof.
  intros Hd Hs E. unfold at_send_command_full, before_command, mbind, AT_bind, M_bind, M_get, run_events in E.
  destruct (at_events (ax_before (dev (at_calls s))) s) as [s1| |] eqn:E1; [|done..]. cbn [mbind res_bind] in E.
  apply (grows_trans _ s1); [eapply events_grow; [apply Hd|done]|].
  assert (H1 : sp_response s1 = None) by (destruct (idle_events_total (ax_before (dev (at_calls s))) s Hs) as (s2 & E2 & H2); congruence). clear E1.
  destruct s1 as [ty0 px0 pdu0 raw rsp0 cl fd proxy out unsol calls]. cbn in H1. subst rsp0.
  destruct (fd && negb cl && ax_write_ok (dev calls)) eqn:Eo.
  - apply andb_true_iff in Eo as [Eo Ew]. apply andb_true_iff in Eo as [-> Ec]. apply negb_true_iff in Ec as ->.
    rewrite nolock_written in E by done. destruct (wait_final _ _) as [[[err|rsp] s2]| |] eqn:E2; [..|done|done];
      injection E as _ <-; pose proof (wait_grows _ _ _ _ (proj2 (Hd calls)) E2) as G; exact G.
  - destruct (nolock_refused dev c type prefix pdu keep ty0 px0 pdu0 raw cl fd proxy out unsol calls Eo) as (err & s2 & E2 & [_ H2] & _).
    rewrite E2 in E. injection E as _ <-. by apply grows_refl.
Qed.
End Reports.

(** ** The connections *)
Lemma filter_id {A} (P : A -> Prop) `{forall x, Decision (P x)} (l : list A) : Forall P l -> filter P l = l.
Proof. induction 1 as [|x l Hx _ IH]; [done|]. rewrite filter_cons. by rewrite decide_True, IH. Qed.

Lemma Forall_kept {A} (P Q : A -> Prop) `{forall x, Decision (P x)} (l : list A) : Forall Q l -> Forall Q (filter P l).
Proof. rewrite !Forall_forall. intros H1 x Hx. apply H1. by apply list_elem_of_filter in Hx as [_ Hx]. Qed.
(** A line that fits [buf]. *)
Definition short (l : cstr * option cstr) : Prop :=
  (length l.1 + 2 + match l.2 with Some pdu => length pdu + 2 | None => 0 end < SIZEOF_BUF)%nat.
Section Connections.
Context (g : Z) (memory : bool) (dev : nat -> at_exchange) (Hdev : forall k, exchange_ok short (dev k)).
Implicit Types (p : atc_proxy) (con : atc_con).
(** Every descriptor that was accepted is that of one connection, or closed, or leaked, and
    none is leaked while there is [memory]; no connection is behind the descriptor [g]. *)
Record atc_inv p : Prop := {
  ai_ids : NoDup (con_id <$> atc_proxy_connection p); ai_new : Forall (fun c => (con_id c < next_con p)%nat) (atc_proxy_connection p);
  ai_fds : accepted_fds p ≡ₚ (ClientFd <$> atc_proxy_connection p) ++ closed_fds p ++ leaked_fds p;
  ai_leaked : memory = true -> leaked_fds p = []; ai_current : current_client_fd p = None;
  ai_stale : Forall (fun c => ClientFd c <> g) (atc_proxy_connection p); ai_chan : sp_response (atp_chan p) = None }.
Definition safe {A} (m : AP A) : Prop := forall p, atc_inv p -> exists a p', m p = Ok (a, p') /\ atc_inv p'.
Lemma P_bind {A B} (m : AP A) (k : A -> AP B) p a p' : m p = Ok (a, p') -> (x ← m; k x) p = k a p'.
Proof. intros E. unfold mbind, AP_bind, M_bind. by rewrite E. Qed.
Lemma safe_ret {A} (a : A) : safe (mret a).
Proof. intros p I. by exists a, p. Qed.
Lemma safe_bind {A B} (m : AP A) (k : A -> AP B) : safe m -> (forall a, safe (k a)) -> safe (x ← m; k x).
Proof.
  intros Hm Hk p I. destruct (Hm p I) as (a & p1 & E & I1). destruct (Hk a p1 I1) as (b & p2 & E2 & I2).
  exists b, p2. by rewrite (P_bind _ _ _ _ _ E).
Qed.
Lemma safe_lift {A} (r : res A) : (exists a, r = Ok a) -> safe (M_lift r : AP A).
Proof. intros [a ->] p I. by exists a, p. Qed.
Lemma safe_upd f : (forall p, atc_inv p -> atc_inv (f p)) -> safe (upd_atp f).
Proof. intros Hf p I. exists tt, (f p). split; [done|by apply Hf]. Qed.

Lemma filter_others (cs : list atc_con) con : NoDup (con_id <$> cs) -> con ∈ cs -> cs ≡ₚ con :: filter (fun c => con_id c <> con_id con) cs.
Proof.
  induction cs as [|c cs IH]; intros Hn Hc; [by apply not_elem_of_nil in Hc|]. cbn [fmap list_fmap] in Hn. apply NoDup_cons in Hn as [Hc0 Hn].
  rewrite filter_cons. destruct (decide (con_id c <> con_id con)) as [Hne|Heq].
  - apply elem_of_cons in Hc as [->|Hc]; [done|]. rewrite (IH Hn Hc) at 1. apply Permutation_swap.
  - apply dec_stable in Heq. assert (c = con) as ->.
    { apply elem_of_cons in Hc as [->|Hc]; [done|]. destruct Hc0. rewrite Heq. by apply list_elem_of_fmap_2. }
    f_equiv. symmetry. rewrite filter_id; [done|]. apply Forall_forall. intros c Hc1 E. destruct Hc0. rewrite <- E. by apply list_elem_of_fmap_2.
Qed.
Definition dropped con p : atc_proxy :=
  p <| atc_proxy_connection := filter (fun c => con_id c <> con_id con) (atc_proxy_connection p) |> <| closed_fds := closed_fds p ++ [ClientFd con] |>.
Lemma drop_inv p con : atc_inv p -> con ∈ atc_proxy_connection p -> atc_inv (dropped con p).
Proof.
  intros [] Hc. split; try done.
  - change (atc_proxy_connection (dropped con p)) with (filter (fun c => con_id c <> con_id con) (atc_proxy_connection p)).
    eapply sublist_NoDup; [exact ai_ids0|apply fmap_sublist, sublist_filter].
  - by apply Forall_kept.
  - change (accepted_fds p ≡ₚ (ClientFd <$> filter (fun c => con_id c <> con_id con) (atc_proxy_connection p)) ++ (closed_fds p ++ [ClientFd con]) ++ leaked_fds p).
    rewrite ai_fds0, (filter_others _ _ ai_ids0 Hc) at 1. cbn [fmap list_fmap]. solve_Permutation.
  - by apply Forall_kept.
Qed.
(** ** Sending *)
Lemma send_at p fd buf : atc_inv p -> exists r p', send_atc_to_client fd buf p = Ok (r, p') /\ atc_inv p'
  /\ atc_proxy_connection p' = atc_proxy_connection p.
Proof.
  intros I. unfold send_atc_to_client. rewrite (P_bind _ _ p p p) by done. destruct (outcomes p) as [|[r|r] rest].
  - eexists _, _. split; [reflexivity|]. split; [|done]. by destruct I.
  - eexists _, _. split; [reflexivity|]. split; [|done]. by destruct I.
  - rewrite (P_bind _ _ _ tt (p <| outcomes := rest |>)) by done.
    destruct (r <? 0); eexists _, _; (split; [reflexivity|]); (split; [|done]); by destruct I.
Qed.
Lemma send_or_drop_at p con buf : atc_inv p -> con ∈ atc_proxy_connection p -> exists p', send_or_drop con buf p = Ok (tt, p') /\ atc_inv p'
  /\ forall c, c ∈ atc_proxy_connection p -> con_id c <> con_id con -> c ∈ atc_proxy_connection p'.
Proof.
  intros I Hc. destruct (send_at p (ClientFd con) buf I) as (r & p1 & E & I1 & Hp). unfold send_or_drop. rewrite (P_bind _ _ _ _ _ E).
  destruct (r <? 0).
  - exists (dropped con p1). split; [done|]. split; [apply drop_inv; [done|by rewrite Hp]|]. intros c Hc2 Hne.
    apply list_elem_of_filter. by rewrite Hp.
  - exists p1. split; [done|]. split; [done|]. by rewrite Hp.
Qed.
Lemma send_to_all_at buf cs : forall p, atc_inv p -> NoDup (con_id <$> cs) -> Forall (fun c => c ∈ atc_proxy_connection p) cs ->
  exists p', send_to_all cs buf p = Ok (tt, p') /\ atc_inv p'.
Proof.
  induction cs as [|c cs IH]; intros p I Hn Hc; [by exists p|]. cbn [fmap list_fmap] in Hn. apply NoDup_cons in Hn as [Hc0 Hn].
  apply Forall_cons in Hc as [Hc1 Hc]. cbn [send_to_all]. destruct (0 <? ClientFd c).
  - destruct (send_or_drop_at p c buf I Hc1) as (p1 & E & I1 & Hk). rewrite (P_bind _ _ _ _ _ E). apply IH; [done..|].
    rewrite Forall_forall in Hc |- *. intros c2 Hc2. apply Hk; [by apply Hc|]. intros E2. destruct Hc0. rewrite <- E2. by apply list_elem_of_fmap_2.
  - rewrite (P_bind _ _ p tt p) by done. by apply IH.
Qed.
Lemma safe_unsolicited l : short l -> safe (onUnsolicited_proxy l).
Proof.
  intros Hl p I. unfold onUnsolicited_proxy. rewrite (P_bind _ _ p (l.1 ++ CRLF ++ match l.2 with Some pdu => pdu ++ CRLF | None => [] end) p).
  2:{ unfold unsolicited_text, short in *. rewrite (proj2 (Nat.ltb_lt _ _)); [done|]. rewrite !length_app. change (length CRLF) with 2%nat.
      destruct l as [l [pdu|]]; cbn [fst snd] in *; [rewrite length_app; change (length CRLF) with 2%nat|cbn [length]]; lia. }
  rewrite (P_bind _ _ p p p), (ai_current _ I) by done.
  destruct (send_to_all_at (l.1 ++ CRLF ++ match l.2 with Some pdu => pdu ++ CRLF | None => [] end) (atc_proxy_connection p) p I)
    as (p' & E & I'); [apply I|by apply Forall_forall|]. by exists tt, p'.
Qed.
Lemma safe_report ls : Forall short ls -> safe (report_lines ls).
Proof. induction 1 as [|l ls Hl _ IH]; [apply safe_ret|]. cbn [report_lines]. apply safe_bind; [by apply safe_unsolicited|done]. Qed.
Lemma safe_chan {A} (m : AT A) : (forall s, sp_response s = None -> exists a s', m s = Ok (a, s') /\ sp_response s' = None /\ grows short s s') ->
  safe (via_chan m).
Proof.
  intros Hm p I. destruct (Hm (atp_chan p) (ai_chan _ I)) as (a & c & E & Hc & new & Hn & Hs).
  destruct (safe_report new Hs (p <| atp_chan := c |>)) as (t & p' & E2 & I2); [by destruct I|]. exists a, p'. split; [|done].
  unfold via_chan. rewrite E. cbn [mbind res_bind]. rewrite Hn, drop_app_length. by rewrite E2.
Qed.
Lemma safe_events es : Forall (report_ok short) es -> safe (via_chan (run_events es)).
Proof.
  intros H. apply safe_chan. intros s Hs. destruct (idle_events_total es s Hs) as (s' & E & Hs'). exists tt, s'.
  unfold run_events. rewrite E. split; [done|]. split; [done|]. by eapply events_grow.
Qed.
Lemma safe_command cmd keep : safe (proxy_command dev cmd keep).
Proof.
  apply safe_chan. intros s Hs. unfold at_send_command.
  destruct (send_total dev cmd NO_RESULT None None keep s Hs) as (err & rsp & s' & E & Hs' & _); [by intros [?|?]|].
  exists (err, rsp), s'. split; [done|]. split; [done|]. by eapply command_grows.
Qed.
Lemma safe_cleanup fd : safe (cleanup_atc_connection fd).
Proof.
  intros p I. unfold cleanup_atc_connection. rewrite (P_bind _ _ p p p) by done.
  destruct (list_find _ (atc_proxy_connection p)) as [[i con]|] eqn:E; [|by exists tt, p].
  apply list_find_Some in E as (E & _). pose proof (drop_inv p con I (list_elem_of_lookup_2 _ _ _ E)) as I2. exists tt, (dropped con p).
  rewrite (P_bind _ _ p tt (dropped con p)) by done. split; [|done]. unfold upd_atp, M_upd.
  change (current_client_fd (dropped con p)) with (current_client_fd p). by rewrite (ai_current _ I).
Qed.
Lemma safe_accept fd ok : fd <> g -> (memory = true -> ok = true) -> safe (accept_atc_connection fd ok).
Proof.
  intros Hg Hok. apply safe_upd. intros p []. destruct ok.
  2:{ split; try done; [|by intros Hm; specialize (Hok Hm)].
      change (accepted_fds p ++ [fd] ≡ₚ (ClientFd <$> atc_proxy_connection p) ++ closed_fds p ++ leaked_fds p ++ [fd]).
      rewrite ai_fds0. solve_Permutation. }
  split; try done.
  - change (NoDup (con_id <$> (atc_proxy_connection p ++ [mkCon (next_con p) fd]))). rewrite fmap_app. apply NoDup_app.
    split; [done|]. split; [|apply NoDup_singleton]. intros i Hi Hi2. apply list_elem_of_singleton in Hi2 as ->.
    apply list_elem_of_fmap in Hi as (c & E & Hc). rewrite Forall_forall in ai_new0. specialize (ai_new0 c Hc). cbn in E. lia.
  - change (Forall (fun c => (con_id c < S (next_con p))%nat) (atc_proxy_connection p ++ [mkCon (next_con p) fd])). apply Forall_app. split.
    + eapply Forall_impl; [exact ai_new0|]. intros c Hc. cbn in Hc. lia.
    + apply Forall_singleton. cbn. lia.
  - change (accepted_fds p ++ [fd] ≡ₚ (ClientFd <$> (atc_proxy_connection p ++ [mkCon (next_con p) fd])) ++ closed_fds p ++ leaked_fds p).
    rewrite ai_fds0, fmap_app. cbn [fmap list_fmap ClientFd]. solve_Permutation.
  - apply Forall_app. split; [done|]. by apply Forall_singleton.
Qed.
Lemma no_stale p : atc_inv p -> list_find (fun c => ClientFd c = g) (atc_proxy_connection p) = None.
Proof. intros I. apply list_find_None. apply I. Qed.
Lemma safe_client data : (exists cmd, command_text data = Ok cmd) -> safe (client_command dev g data).
Proof.
  intros Hd. unfold client_command. apply safe_bind.
  - apply safe_upd. intros p I. by rewrite (no_stale p I).
  - intros _. apply safe_bind; [by apply safe_lift|]. intros cmd. apply safe_bind; [apply safe_command|]. intros _.
    apply safe_upd. by intros p [].
Qed.
(** ** The loop *)
Definition io_ok (io : ready_io) : Prop :=
  io_accept io <> g /\ (memory = true -> io_malloc io = true) /\ io_stale io = g /\ Forall (report_ok short) (io_lines io)
  /\ match io_read io with Some data => exists cmd, command_text data = Ok cmd | None => True end.
Definition event_fine (e : atc_event) : Prop := match e with Ready io => io_ok io | _ => True end.
Lemma safe_serve evs : Forall (fun e => event_fine e.2) evs -> safe (serve dev evs).
Proof.
  induction 1 as [|[fd e] evs He _ IH]; [apply safe_ret|]. cbn [serve]. destruct e as [| |io]; [done|..].
  - apply safe_bind; [intros p I; by exists p, p|intros p]. destruct (fd =? atc_dev_fd p); [apply safe_ret|].
    apply safe_bind; [|done]. destruct (fd =? atc_proxy_server_fd p); [apply safe_ret|apply safe_cleanup].
  - destruct He as (H1 & Hm & H2 & H3 & H4). apply safe_bind; [intros p I; by exists p, p|intros p].
    destruct (fd =? atc_proxy_server_fd p); [apply safe_bind; [by apply safe_accept|done]|].
    destruct (fd =? atc_dev_fd p); [apply safe_bind; [by apply safe_events|done]|].
    assert (Hclean : safe (_ ← cleanup_atc_connection fd; mret false : AP bool)) by (apply safe_bind; [apply safe_cleanup|intros; apply safe_ret]).
    destruct (io_read io) as [[|b data]|]; [done| |done]. rewrite H2. apply safe_bind; [by apply safe_client|done].
Qed.
Definition round_fine (rd : option (list atc_event)) : Prop := match rd with Some evs => Forall event_fine evs | None => True end.
Lemma safe_rounds rds : Forall round_fine rds -> safe (atc_rounds dev rds).
Proof.
  induction 1 as [|rd rds Hr _ IH]; [apply safe_ret|]. cbn [atc_rounds]. apply safe_bind; [intros p I; by exists p, p|intros p].
  destruct (negb _); [apply safe_ret|]. apply safe_bind; [|intros []; [apply safe_ret|done]]. unfold atc_round.
  apply safe_bind; [intros p1 I; by exists p1, p1|intros p1]. destruct rd as [evs|]; [|apply safe_ret]. apply safe_serve.
  apply Forall_forall. intros [fd e] Hin. apply elem_of_zip_r in Hin. by eapply Forall_forall in Hr.
Qed.
Lemma close_connections_at n : forall p, atc_inv p -> (length (atc_proxy_connection p) <= n)%nat ->
  exists p', close_connections n p = Ok (tt, p') /\ atc_inv p' /\ atc_proxy_connection p' = [] /\ accepted_fds p' = accepted_fds p.
Proof.
  induction n as [|n IH]; intros p I Hn; [exists p; by destruct (atc_proxy_connection p); [|cbn in Hn; lia]|].
  cbn [close_connections]. rewrite (P_bind _ _ p p p) by done. destruct (atc_proxy_connection p) as [|con cs] eqn:E; [by exists p|].
  assert (Ec : cleanup_atc_connection (ClientFd con) p = Ok (tt, dropped con p)).
  { unfold cleanup_atc_connection. rewrite (P_bind _ _ p p p), E by done. cbn [list_find]. rewrite decide_True by done.
    rewrite (P_bind _ _ p tt (dropped con p)) by done. unfold upd_atp, M_upd.
    change (current_client_fd (dropped con p)) with (current_client_fd p). by rewrite (ai_current _ I). }
  rewrite (P_bind _ _ _ _ _ Ec). assert (Hin : con ∈ atc_proxy_connection p) by (rewrite E; by left).
  apply (IH (dropped con p)); [by apply drop_inv|].
  pose proof (Permutation_length (filter_others _ con (ai_ids _ I) Hin)) as Hl. rewrite E in Hl at 1. cbn [length] in *.
  change (length (filter (fun c => con_id c <> con_id con) (atc_proxy_connection p)) <= n)%nat. lia.
Qed.
End Connections.

(** ** Where the lines go *)
Section Lines.
Context (dev : nat -> at_exchange).
Implicit Types (p : atc_proxy).
(** The clients that see the lines of a response: the one behind the descriptor [stale], or
    all of them. *)
Definition line_recipients (stale : Z) p : list Z :=
  match list_find (fun c => ClientFd c = stale) (atc_proxy_connection p) with
  | Some (_, con) => [ClientFd con]
  | None => filter (fun fd => 0 < fd) (ClientFd <$> atc_proxy_connection p)
  end.
Definition copies_of (fds : list Z) (l : cstr * option cstr) : list (Z * cstr) :=
  (fun fd => (fd, l.1 ++ CRLF ++ match l.2 with Some pdu => pdu ++ CRLF | None => [] end)) <$> fds.
Lemma out_out p a b : (p <| atp_out := atp_out p ++ a |>) <| atp_out := atp_out (p <| atp_out := atp_out p ++ a |>) ++ b |>
  = p <| atp_out := atp_out p ++ (a ++ b) |>.
Proof. by rewrite (app_assoc (atp_out p) a b). Qed.
Lemma send_fine p fd buf : outcomes p = [] ->
  send_atc_to_client fd buf p = Ok (Z.of_nat (length buf), p <| atp_out := atp_out p ++ [(fd, buf)] |>).
Proof.
  intros H. unfold send_atc_to_client. rewrite (P_bind _ _ p p p), H by done.
  rewrite (P_bind _ _ p tt (p <| atp_out := atp_out p ++ [(fd, buf)] |>)); [done|].
  unfold upd_atp, M_upd. by rewrite Nat2Z.id, firstn_all.
Qed.
Lemma send_one_fine p con buf : outcomes p = [] -> send_or_drop con buf p = Ok (tt, p <| atp_out := atp_out p ++ [(ClientFd con, buf)] |>).
Proof.
  intros H. unfold send_or_drop. rewrite (P_bind _ _ _ _ _ (send_fine p (ClientFd con) buf H)). by rewrite (proj2 (Z.ltb_ge _ _)) by lia.
Qed.
Lemma send_all_fine buf cs : forall p, outcomes p = [] -> send_to_all cs buf p =
  Ok (tt, p <| atp_out := atp_out p ++ ((fun fd => (fd, buf)) <$> filter (fun fd => 0 < fd) (ClientFd <$> cs)) |>).
Proof.
  induction cs as [|con cs IH]; intros p H; cbn [send_to_all fmap list_fmap].
  - cbn. rewrite app_nil_r. by destruct p.
  - rewrite filter_cons. destruct (Z.ltb_spec 0 (ClientFd con)) as [Hp|Hp].
    + rewrite (P_bind _ _ _ _ _ (send_one_fine p con buf H)), IH, decide_True by done.
      by rewrite out_out.
    + rewrite (P_bind _ _ p tt p), IH by done. by rewrite decide_False by lia.
Qed.
(** A report with the connection of [id], or with none, in charge. *)
Definition in_charge (stale : Z) p : atc_proxy :=
  match list_find (fun c => ClientFd c = stale) (atc_proxy_connection p) with
  | Some (_, con) => p <| current_client_fd := Some (con_id con) |>
  | None => p
  end.
Lemma report_one stale l p p0 : outcomes p = [] -> NoDup (con_id <$> atc_proxy_connection p0) -> current_client_fd p0 = None ->
  atc_proxy_connection p = atc_proxy_connection p0 -> current_client_fd p = current_client_fd (in_charge stale p0) -> short l ->
  onUnsolicited_proxy l p = Ok (tt, p <| atp_out := atp_out p ++ copies_of (line_recipients stale p0) l |>).
Proof.
  intros H Hn Hcur Hc He Hl. unfold onUnsolicited_proxy. set (text := l.1 ++ CRLF ++ match l.2 with Some pdu => pdu ++ CRLF | None => [] end).
  rewrite (P_bind _ _ p text p).
  2:{ unfold unsolicited_text, short in *. fold text. rewrite (proj2 (Nat.ltb_lt _ _)); [done|]. unfold text. rewrite !length_app.
      change (length CRLF) with 2%nat. destruct l as [l [pdu|]]; cbn [fst snd] in *; [rewrite length_app; change (length CRLF) with 2%nat|cbn [length]]; lia. }
  rewrite (P_bind _ _ p p p) by done. rewrite He, Hc. unfold in_charge, line_recipients, copies_of. fold text.
  destruct (list_find (fun c => ClientFd c = stale) (atc_proxy_connection p0)) as [[i con]|] eqn:E.
  - change (current_client_fd (p0 <| current_client_fd := Some (con_id con) |>)) with (Some (con_id con)). cbn iota.
    apply list_find_Some in E as (E & _ & _).
    assert (Ef : list_find (fun c => con_id c = con_id con) (atc_proxy_connection p0) = Some (i, con)).
    { apply list_find_Some. split; [done|]. split; [done|]. intros j c Hj Hlt E2. assert (j = i); [|lia].
      apply (NoDup_lookup (con_id <$> atc_proxy_connection p0) j i (con_id c) Hn); rewrite list_lookup_fmap; [by rewrite Hj|by rewrite E, E2]. }
    rewrite Ef, (P_bind _ _ p (i, con) p) by done. by apply send_one_fine.
  - rewrite Hcur. by apply send_all_fine.
Qed.
Lemma report_fine stale ls p0 : NoDup (con_id <$> atc_proxy_connection p0) -> current_client_fd p0 = None -> Forall short ls ->
  forall p, outcomes p = [] -> atc_proxy_connection p = atc_proxy_connection p0 -> current_client_fd p = current_client_fd (in_charge stale p0) ->
  report_lines ls p = Ok (tt, p <| atp_out := atp_out p ++ (ls ≫= copies_of (line_recipients stale p0)) |>).
Proof.
  intros Hn Hcur. induction 1 as [|l ls Hl _ IH]; intros p H Hc He; cbn [report_lines].
  - cbn. rewrite app_nil_r. by destruct p.
  - rewrite (P_bind _ _ _ _ _ (report_one stale l p p0 H Hn Hcur Hc He Hl)), IH by done. by rewrite out_out.
Qed.
Lemma no_result_leftovers ls : leftovers NO_RESULT None ls = ls.
Proof. unfold leftovers. rewrite decide_False by done. induction ls as [|l ls IH]; [done|]. cbn. by rewrite IH. Qed.
End Lines.

(** ** Properties *)

(** C11. The proxy always ends with the descriptor of every connection closed, once.  Whatever
    [poll] reports, whatever clients come, write and go, whatever lines the port gives,
    whatever becomes of the sends and whether there is memory or not: as long as no line is
    longer than the buffer of [onUnsolicited], every command of a client has its end, and the
    descriptor found behind the events is that of no client, each round returns; after the
    loop there is no connection left, and the descriptors that [accept] returned are those
    that were closed, each as often as it was returned, and those it leaked: these are the
    ones it got while [malloc] failed, so that with enough [memory] there are none. *)
Theorem atc_connections_closed g memory dev rds p : (forall k, exchange_ok short (dev k)) -> Forall (round_fine g memory) rds ->
  sp_response (atp_chan p) = None -> current_client_fd p = None -> accepted_fds p = closed_fds p -> leaked_fds p = [] ->
  exists p', atc_proxy_loop dev rds p = Ok (tt, p') /\ atc_proxy_connection p' = []
  /\ accepted_fds p' ≡ₚ closed_fds p' ++ leaked_fds p'
  /\ (memory = true -> leaked_fds p' = []).
Proof.
  intros Hd Hr Hc Hcur Hacc Hleak. set (p0 := p <| atc_proxy_connection := [] |>).
  assert (I0 : atc_inv g memory p0).
  { split; try done; [constructor|]. change (accepted_fds p ≡ₚ [] ++ closed_fds p ++ leaked_fds p). by rewrite Hacc, Hleak, app_nil_r. }
  destruct (safe_rounds g memory dev Hd rds Hr p0 I0) as (t & p1 & E1 & I1).
  set (p2 := p1 <| atp_chan := at_close (atp_chan p1) |>). assert (I2 : atc_inv g memory p2) by (by destruct I1).
  destruct (close_connections_at g memory (length (atc_proxy_connection p2)) p2 I2 ltac:(done)) as (p3 & E3 & I3 & Hnil & _).
  exists p3. split.
  - unfold atc_proxy_loop. rewrite (P_bind _ _ p tt p0), (P_bind _ _ _ _ _ E1), (P_bind _ _ p1 tt p2), (P_bind _ _ p2 p2 p2) by done. exact E3.
  - split; [done|]. split; [by rewrite (ai_fds _ _ _ I3), Hnil|]. apply I3.
Qed.

(** A command of a client.  What it wrote goes to the modem as one command; every line
    that comes until the final response, the unsolicited ones and the final one too, goes
    with CR LF, in order, to every client - not to the one that asked: the connection is
    looked up behind the descriptor that lies one element behind the events, and only if
    that happens to be the descriptor of a client does that client alone get the lines. *)
Theorem atc_response_lines dev stale data cmd p ls0 groups last fin rc more :
  let ls := mjoin groups ++ last in
  command_text data = Ok cmd -> idle_chan (atp_chan p) -> s_atc_proxy (atp_chan p) = true ->
  dev (at_calls (atp_chan p)) = mkAtExchange (Line <$> ls0) true (waits_for groups last fin rc more) ->
  is_final fin = true -> Forall (fun l => is_final l = false) ls -> rc <> ETIMEDOUT ->
  NoDup (con_id <$> atc_proxy_connection p) -> current_client_fd p = None -> outcomes p = [] ->
  Forall short (unsolicited (ls0 ++ ls ++ [fin])) ->
  exists p', client_command dev stale data p = Ok (tt, p')
    /\ at_out (atp_chan p') = at_out (atp_chan p) ++ written cmd /\ idle_chan (atp_chan p')
    /\ atp_out p' = atp_out p ++ (unsolicited (ls0 ++ ls ++ [fin]) ≫= copies_of (line_recipients stale p))
    /\ atc_proxy_connection p' = atc_proxy_connection p /\ current_client_fd p' = None.
Proof.
  intros ls Hcmd Hidle Hproxy Hdev Hf Hls Hrc Hn Hcur Hout Hshort. set (p1 := in_charge stale p).
  assert (Hp1 : atp_chan p1 = atp_chan p /\ outcomes p1 = [] /\ atc_proxy_connection p1 = atc_proxy_connection p /\ atp_out p1 = atp_out p)
    by (unfold p1, in_charge; by destruct (list_find _ _) as [[]|]). destruct Hp1 as (Hc1 & Ho1 & Hl1 & Ha1).
  destruct (command_collects dev cmd NO_RESULT None false (atp_chan p) ls0 groups last fin rc more Hidle ltac:(by intros [?|?]) Hdev Hf Hls Hrc)
    as (c & E & Hi & Hw & Hu & _). rewrite no_result_leftovers, Hproxy in Hu. fold ls in Hu.
  set (p2 := p1 <| atp_chan := c |>). pose proof (report_fine stale _ p Hn Hcur Hshort p2 Ho1 Hl1 eq_refl) as Er.
  set (p3 := p2 <| atp_out := _ |>) in Er. exists (p3 <| current_client_fd := None |>). split.
  - unfold client_command. rewrite (P_bind _ _ p tt p1) by done. rewrite (P_bind _ _ p1 cmd p1) by (by rewrite Hcmd).
    rewrite (P_bind _ _ p1 (0, None) p3); [done|]. unfold proxy_command, via_chan, at_send_command. rewrite Hc1, E.
    cbn [mbind res_bind]. rewrite Hu, drop_app_length. fold p2. by rewrite Er.
  - split; [exact Hw|]. split; [exact Hi|]. split; [|by split].
    rewrite <- Ha1. reflexivity.
Qed.

(** *** Witnesses *)
Definition demo_port (k : nat) : at_exchange :=
  mkAtExchange [] true (waits_for [] [bytes_of_string "+CSQ: 20,99"] (bytes_of_string "OK") 0 []).
Definition demo_io (fd : Z) (data : option (list Z)) : atc_event := Ready (mkIo fd true data [Line (bytes_of_string "RING")] 0).
Definition demo_proxy (sends : list send_outcome) : atc_proxy :=
  mkAtp 3 4 [] 0 None false (at_opened true) [] sends [] [] [].
(** Three clients come, and there is no memory for the last; one asks for the signal, and its
    first answer cannot be written; the other one hangs up; the port goes away. *)
Definition demo_rounds : list (option (list atc_event)) :=
  [Some [Quiet; demo_io 7 None]; Some [Quiet; demo_io 8 None]; Some [Quiet; demo_io 9 None];
   Some [Quiet; Ready (mkIo 10 false None [] 0)];
   Some [demo_io 9 None; Quiet; demo_io 9 (Some (bytes_of_string "AT+CSQ"))]; Some [Quiet; Quiet; Quiet; Broken]; Some [Broken]].
Lemma atc_connections_closed_witness : exists p', atc_proxy_loop demo_port demo_rounds (demo_proxy [Wrote 6; Wrote (-1)]) = Ok (tt, p')
  /\ atc_proxy_connection p' = [] /\ accepted_fds p' ≡ₚ closed_fds p' ++ leaked_fds p' /\ closed_fds p' = [8; 9; 7] /\ leaked_fds p' = [10].
Proof.
  destruct (atc_connections_closed 0 false demo_port demo_rounds (demo_proxy [Wrote 6; Wrote (-1)])) as (p' & E & H1 & H2 & _).
  - intros k. split; [constructor|]. repeat constructor; cbn; lia.
  - repeat (constructor; cbn; try lia; try done); by eexists.
  - done.
  - done.
  - done.
  - done.
  - exists p'. split; [exact E|]. split; [exact H1|]. split; [exact H2|]. vm_compute in E. by injection E as <-.
Defined.
Definition demo_two : atc_proxy := (demo_proxy []) <| atc_proxy_connection := [mkCon 0 7; mkCon 1 8] |>.
Lemma atc_response_lines_witness : exists p',
  client_command demo_port 0 (bytes_of_string "AT+CSQ") demo_two = Ok (tt, p')
  /\ atp_out p' = [(7, bytes_of_string "+CSQ: 20,99" ++ CRLF); (8, bytes_of_string "+CSQ: 20,99" ++ CRLF);
                   (7, bytes_of_string "OK" ++ CRLF); (8, bytes_of_string "OK" ++ CRLF)].
Proof.
  destruct (atc_response_lines demo_port 0 (bytes_of_string "AT+CSQ") (bytes_of_string "AT+CSQ")
    demo_two [] [] [bytes_of_string "+CSQ: 20,99"] (bytes_of_string "OK") 0 [])
    as (p' & E & _ & _ & H & _).
  - done.
  - apply at_opened_idle.
  - done.
  - done.
  - done.
  - by repeat constructor.
  - done.
  - cbn. apply NoDup_cons. split; [|apply NoDup_singleton]. intros H. by apply list_elem_of_singleton in H.
  - done.
  - done.
  - repeat constructor; unfold short, SIZEOF_BUF; cbn; lia.
  - exists p'. split; [exact E|]. rewrite H. by vm_compute.
Defined.
