(* ===== verification/MhiUci.v ===== *)
(** The character devices of the PCIe modem driver (quectel_MHI/src/devices/mhi_uci.c): a
    client of the channels that gives user space the AT, QMI, MBIM and DIAG ports.

    What the device needs of the channels below it is the class [Transfers].  The buffers of
    the downlink are memory that the modem writes and user space reads later: the pending
    list holds references to them, not their contents. *)
From S2P Require Import Prelude MhiPm MhiRing.
#[local] Open Scope Z_scope.

Definition EAGAIN : Z := 11.
Definition ERESTARTSYS : Z := 512.
Definition POLLERR : Z := 8.
Definition POLLHUP : Z := 16.
Definition POLLIN_RDNORM : Z := 65.
Definition POLLOUT_WRNORM : Z := 260.

(** The two channels of a device: [mhi_queue_transfer] and [mhi_get_no_free_descriptors] for
    each direction, start and stop.  A stop hands back what is in flight, on the downlink
    first.  [complete_dl] is what the modem does: it fills the oldest buffer of the downlink. *)
Class Transfers (X : Type) := {
  queue_dl : Z -> Z -> Z -> X -> res (Z * X);
  queue_ul : Z -> Z -> Z -> X -> res (Z * X);
  free_dl : X -> res Z;
  free_ul : X -> res Z;
  prepare : X -> res (Z * X);
  unprepare : X -> res (list Z * list Z * X);
  complete_dl : Z -> X -> res (Z * X) }.

(** [struct uci_buf] in the array: [sl_mem] is what its page holds. *)
Record uci_slot := mkSlot { sl_data : Z; sl_len : Z; sl_mem : list Z }.
(** A buffer in a list: an element of the array, or a copy of its own. *)
Inductive uci_ref := Slot (i : nat) | Copy (data : list Z).
(** The pointer [uci_buf]: [Freed] is one to memory that has been released. *)
Inductive buf_array := NoBufs | Bufs (l : list uci_slot) | Freed.

Section Uci.
Context {X : Type} `{Transfers X}.
(** [copies]: the channel is one of DUN, QMI and MBIM.  [dl_chan] is [pending], [cur_buf] and
    [rx_size]; [kbufs] are the buffers of the uplink with their contents and flags. *)
Record uci_dev := mkUci {
  u_mhi : X; uci_buf : buf_array; nr_trb : nat; nr_trbs : nat; pending : list uci_ref; cur_buf : option uci_ref;
  rx_size : Z; enabled : bool; ref_count : Z; rx_error : Z; bytes_xferd : Z; mtu : Z; copies : bool; has_ul : bool;
  kbufs : list (Z * list Z * Z) }.

Definition UM (A : Type) : Type := M uci_dev A.
#[export] Instance UM_ret : MRet UM := @M_ret uci_dev.
#[export] Instance UM_bind : MBind UM := @M_bind uci_dev.
Definition uget : UM uci_dev := M_get.
Definition uset (f : uci_dev -> uci_dev) : UM unit := M_upd f.
Definition ulift {A} (r : res A) : UM A := M_lift r.
Definition ufault {A} : UM A := fun _ => Fault.
(** A call into the channels. *)
Definition on_mhi {A} (m : X -> res (A * X)) : UM A := fun u =>
  '(a, x) ← m (u_mhi u); Ok (a, u <| u_mhi := x |>).
Definition asks {A} (m : X -> res A) : UM A := fun u => a ← m (u_mhi u); Ok (a, u).
Definition the_bufs : UM (list uci_slot) := fun u => match uci_buf u with Bufs l => Ok (l, u) | _ => Fault end.
Definition get_slot (i : nat) : UM uci_slot := l ← the_bufs; ulift (of_option (l !! i)).
Definition upd_slot (i : nat) (f : uci_slot -> uci_slot) : UM unit :=
  l ← the_bufs; uset (fun u => u <| uci_buf := Bufs (alter f i l) |>).

(** ** Buffers *)

(** [kmalloc_array], and [alloc_pages] for each element; if one fails, the rest of the array
    is not initialised. *)
Fixpoint alloc_slots (pages : nat -> option Z) (i n : nat) : list uci_slot * bool :=
  match n with
  | O => ([], true)
  | S n =>
      match pages i with
      | None => ([], false)
      | Some p => let r := alloc_slots pages (S i) n in (mkSlot p 0 [] :: r.1, r.2)
      end
  end.
Fixpoint queue_slots (i n : nat) (ret : Z) : UM Z :=
  match n with
  | O => mret ret
  | S n =>
      b ← get_slot i;
      u ← uget;
      ret ← on_mhi (queue_dl (sl_data b) (mtu u) MHI_EOT);
      if truth ret then mret ret else queue_slots (S i) n ret
  end.
Definition mhi_queue_inbound (array_ok : bool) (pages : nat -> option Z) : UM Z :=
  n ← asks free_dl;
  u ← uget;
  ok ← (match uci_buf u with
        | NoBufs =>
            let k := Z.to_nat (n + 1) in
            _ ← uset (fun u => u <| nr_trb := 0%nat |> <| nr_trbs := k |>);
            if array_ok then
              let r := alloc_slots pages 0 k in
              _ ← uset (fun u => u <| uci_buf := Bufs r.1 |>); mret r.2
            else mret false
        | _ => mret true
        end : UM bool);
  if negb ok then mret (- ENOMEM) else queue_slots 0 (Z.to_nat n) (- EIO).

(** The element before: the one that user space has finished with. *)
Definition prev_slot (i n : nat) : nat := match i with O => (n - 1)%nat | S i => i end.
Definition requeue (i : nat) : UM Z :=
  u ← uget;
  b ← get_slot (prev_slot i (nr_trbs u));
  on_mhi (queue_dl (sl_data b) (mtu u) MHI_EOT).
(** [__free_pages] for every element, [kfree]; the pointer stays. *)
Definition free_bufs : UM unit :=
  u ← uget;
  (match uci_buf u with
   | NoBufs => mret tt
   | Bufs l => if (length l <? nr_trbs u)%nat then ufault else uset (fun u => u <| uci_buf := Freed |>)
   | Freed => ufault
   end : UM unit).

(** ** Callbacks *)

(** [mhi_dl_xfer_cb] for the buffer at [buf_addr]; [atomic_ok] tells whether a buffer for a
    copy can be allocated. *)
Definition mhi_dl_xfer_cb (atomic_ok : bool) (buf_addr bytes status : Z) : UM unit :=
  u ← uget;
  let i := nr_trb u in
  if match uci_buf u with NoBufs => (i =? 0)%nat | _ => false end then mret tt
  else
    b ← get_slot i;
    if negb (sl_data b =? buf_addr) then uset (fun u => u <| rx_error := u32 (rx_error u + 1) |>)
    else
    _ ← uset (fun u => u <| nr_trb := if (S i =? nr_trbs u)%nat then 0%nat else S i |>);
    if status =? - ENOTCONN then mret tt
    else if (mtu u <? bytes) || (bytes <=? 0) then mret tt
    else
      _ ← uset (fun u => if bytes_xferd u <? bytes then u <| bytes_xferd := bytes |> else u);
      _ ← upd_slot i (fun b => b <| sl_len := bytes |>);
      buf ← (if copies u then
               b ← get_slot i;
               copy ← (if (ref_count u =? 1) || negb atomic_ok then mret None
                       else d ← ulift (rdn (sl_mem b) 0 (Z.to_nat bytes)); mret (Some (Copy d)) : UM (option uci_ref));
               _ ← requeue i; mret copy
             else mret (Some (Slot i)) : UM (option uci_ref));
      match buf with
      | Some r => uset (fun u => u <| pending := pending u ++ [r] |>)
      | None => mret tt
      end.
(** The modem has written [data] into the page at [buf_addr] before. *)
Definition dma_write (buf_addr : Z) (data : list Z) : UM unit :=
  uset (fun u => match uci_buf u with
                 | Bufs l => u <| uci_buf := Bufs ((fun b => if sl_data b =? buf_addr then b <| sl_mem := data |> else b) <$> l) |>
                 | _ => u end).
Definition mhi_ul_xfer_cb (buf_addr : Z) : UM unit :=
  uset (fun u => u <| kbufs := filter (fun k => k.1.1 <> buf_addr) (kbufs u) |>).
(** The callbacks for the buffers that a stop hands back. *)
Fixpoint each (f : Z -> UM unit) (bufs : list Z) : UM unit :=
  match bufs with [] => mret tt | b :: bufs => _ ← f b; each f bufs end.
Definition returned (r : list Z * list Z) : UM unit :=
  _ ← each (fun b => mhi_dl_xfer_cb false b 0 (- ENOTCONN)) r.1; each mhi_ul_xfer_cb r.2.

(** ** Reading and writing

    A wait is an argument: whether a signal ended it, and the state after it. *)
Definition uci_wait : Type := uci_dev -> bool * uci_dev.
Definition wait_interrupted (w : uci_wait) : UM bool := fun u => Ok (w u).
Definition ref_len (r : uci_ref) : UM Z :=
  match r with Slot i => b ← get_slot i; mret (sl_len b) | Copy d => mret (Z.of_nat (length d)) end.
Definition ref_data (r : uci_ref) : UM (list Z) :=
  match r with Slot i => b ← get_slot i; mret (sl_mem b) | Copy d => mret d end.
(** "new read, get the next descriptor from the list" *)
Definition next_buf : UM Z :=
  u ← uget;
  match cur_buf u, pending u with
  | Some _, _ => mret 0
  | None, [] => mret (- EIO)
  | None, r :: rest =>
      n ← ref_len r;
      _ ← uset (fun u => u <| pending := rest |> <| cur_buf := Some r |> <| rx_size := n |>); mret 0
  end.
(** "we finished with this buffer, queue it back to hardware" *)
Definition finish_buf (r : uci_ref) : UM Z :=
  _ ← uset (fun u => u <| cur_buf := None |>);
  u ← uget;
  if enabled u then match r with Slot i => requeue i | Copy _ => mret 0 end else mret (- ERESTARTSYS).
(** What [mhi_uci_read] returns, and the bytes it has stored in the buffer of the caller;
    [uncopied] is the result of [copy_to_user]. *)
Definition mhi_uci_read (nonblock : bool) (w : uci_wait) (count uncopied : Z) : UM (Z * list Z) :=
  u ← uget;
  if truth (rx_error u) then mret (- EINVAL, [])
  else if negb (enabled u) then mret (- ERESTARTSYS, [])
  else
    let must_wait := match cur_buf u, pending u with None, [] => true | _, _ => false end in
    if must_wait && nonblock then mret (- EAGAIN, [])
    else
      stop ← (if must_wait then
                sig ← wait_interrupted w;
                u ← uget; mret (sig || negb (enabled u))
              else mret false : UM bool);
      if (stop : bool) then mret (- ERESTARTSYS, [])
      else
        ret ← next_buf;
        if truth ret then mret (ret, [])
        else
          u ← uget;
          r ← ulift (of_option (cur_buf u));
          n ← ref_len r;
          d ← ref_data r;
          let to_copy := Z.min count (rx_size u) in
          bytes ← ulift (rdn d (Z.to_nat (n - rx_size u)) (Z.to_nat to_copy));
          if truth uncopied then mret (uncopied, bytes)
          else
            _ ← uset (fun u => u <| rx_size := rx_size u - to_copy |>);
            if truth (rx_size u - to_copy) then mret (to_copy, bytes)
            else
              ret ← finish_buf r;
              mret (if truth ret then ret else to_copy, bytes).

(** [mhi_uci_write]: [waits], [kmallocs] and [users] are the waits, the allocations and the
    results of [copy_from_user] of the rounds. *)
Fixpoint write_loop (fuel : nat) (nonblock : bool) (waits : nat -> uci_wait) (kmallocs : nat -> option Z) (users : nat -> Z)
    (k : nat) (buf : list Z) (done : Z) : UM Z :=
  match buf, fuel with
  | [], _ => mret done
  | _, O => fun _ => OutOfFuel
  | _, S fuel =>
      nr_avail ← asks free_ul;
      if (nr_avail =? 0) && nonblock then mret (- EAGAIN)
      else
        sig ← wait_interrupted (waits k);
        u ← uget;
        nr_avail ← asks free_ul;
        if sig || negb (enabled u) then mret (- ERESTARTSYS)
        else
          let xfer_size := Z.min (Z.of_nat (length buf)) (mtu u) in
          let chunk := take (Z.to_nat xfer_size) buf in
          let rest := drop (Z.to_nat xfer_size) buf in
          match kmallocs k with
          | None => mret (- ENOMEM)
          | Some kbuf =>
              if truth (users k) then mret (users k)
              else
                let flags := if (1 <? nr_avail) && truth (Z.of_nat (length rest)) then MHI_CHAIN else MHI_EOT in
                ret ← on_mhi (queue_ul kbuf xfer_size flags);
                if truth ret then mret ret
                else
                  _ ← uset (fun u => u <| kbufs := kbufs u ++ [(kbuf, chunk, flags)] |>);
                  write_loop fuel nonblock waits kmallocs users (S k) rest (done + xfer_size)
          end
  end.
Definition mhi_uci_write (nonblock : bool) (waits : nat -> uci_wait) (kmallocs : nat -> option Z) (users : nat -> Z) (buf : list Z) : UM Z :=
  u ← uget;
  match buf with
  | [] => mret (- EINVAL)
  | _ =>
      if truth (rx_error u) then mret (- EINVAL)
      else if negb (enabled u) then mret (- ERESTARTSYS)
      else write_loop (length buf) nonblock waits kmallocs users 0 buf 0
  end.

(** ** Opening and closing *)
Definition mhi_uci_open (array_ok : bool) (pages : nat -> option Z) : UM Z :=
  u ← uget;
  if negb (enabled u) then mret (- EIO)
  else
    _ ← uset (fun u => u <| ref_count := ref_count u + 1 |>);
    u ← uget;
    if negb (ref_count u =? 1) then mret 0
    else
      ret ← on_mhi prepare;
      if truth ret then _ ← uset (fun u => u <| ref_count := ref_count u - 1 |>); mret ret
      else
        ret ← mhi_queue_inbound array_ok pages;
        if truth ret then
          bufs ← on_mhi unprepare;
          _ ← returned bufs;
          _ ← free_bufs;
          mret ret
        else _ ← uset (fun u => u <| ref_count := ref_count u + 1 |>); mret 0.
Definition mhi_uci_release : UM Z :=
  _ ← uset (fun u => u <| ref_count := ref_count u - 1 |>);
  u ← uget;
  if truth (ref_count u) then mret 0
  else
    _ ← (if enabled u then bufs ← on_mhi unprepare; returned bufs else mret tt : UM unit);
    _ ← free_bufs;
    _ ← uset (fun u => u <| cur_buf := None |>);
    mret 0.
Definition mhi_uci_remove : UM unit :=
  uset (fun u => u <| enabled := false |> <| ref_count := if 0 <? ref_count u then ref_count u - 1 else ref_count u |>).
Definition mhi_uci_poll : UM Z :=
  u ← uget;
  let mask := if negb (enabled u) then POLLERR
              else match pending u, cur_buf u with [], None => 0 | _, _ => POLLIN_RDNORM end in
  if negb (has_ul u) then mret mask
  else
    free ← (if enabled u then asks free_ul else mret 0 : UM Z);
    let mask := if negb (enabled u) then Z.lor mask POLLERR
                else if 0 <? free then Z.lor mask POLLOUT_WRNORM else mask in
    let mask := if negb (enabled u) then Z.lor mask POLLHUP else mask in
    mret (if truth (rx_error u) then Z.lor mask POLLERR else mask).
(** The device as [mhi_uci_probe] leaves it. *)
Definition mhi_uci_probe (x : X) (driver_data dev_mtu : Z) (copies has_ul : bool) : uci_dev :=
  mkUci x NoBufs 0 0 [] None 0 true 0 0 0 (Z.min driver_data dev_mtu) copies has_ul [].
End Uci.
Arguments uci_dev X : clear implicits.
Arguments UM X A : clear implicits.
