(* ===== verification/MhiUciSpec.v ===== *)
(** The character devices of the PCIe modem driver: what user space reads is what the modem
    sent, whatever the sizes of the reads and however long the data waits. *)
From S2P Require Import Prelude Cyclic MhiPm MhiRing MhiUci.
#[local] Open Scope Z_scope.

(** What a device relies on: the downlink is a bounded queue of buffers that accepts a buffer
    as long as there is room.  [holds cap l x]: [l] are in flight, at most [cap] can be. *)
Class TransferLaws (X : Type) `{Transfers X} := {
  holds : nat -> list Z -> X -> Prop;
  law_free cap l x : holds cap l x -> free_dl x = Ok (Z.of_nat (cap - length l));
  law_queue cap l x b len flags : holds cap l x -> (length l < cap)%nat ->
    exists x', queue_dl b len flags x = Ok (0, x') /\ holds cap (l ++ [b]) x';
  law_complete cap b l x len : holds cap (b :: l) x -> 0 < len < 65536 ->
    exists x', complete_dl len x = Ok (b, x') /\ holds cap l x' }.

(** ** What a device is to be: a queue of the transfers that user space has not read

    A transfer can arrive while a buffer is in flight; a device that copies always has one,
    and drops the transfer if it has no memory for the copy ([kmalloc] with [GFP_ATOMIC]). *)
Inductive uci_op := Arrives (data : list Z) (atomic_ok : bool) | Reads (count : Z).
(** Whether an arriving transfer is kept. *)
Definition keeps (copies atomic_ok : bool) : bool := negb copies || atomic_ok.
(** What a read is to do: the return value, the bytes, and what is left. *)
Definition spec_read (count : Z) (q : list (list Z)) : Z * list Z * list (list Z) :=
  match q with
  | [] => ((- EAGAIN, []), [])
  | c :: q => if count <? Z.of_nat (length c) then ((count, take (Z.to_nat count) c), drop (Z.to_nat count) c :: q)
              else ((Z.of_nat (length c), c), q)
  end.
Definition fits (m : Z) (data : list Z) : bool :=
  (0 <? Z.of_nat (length data)) && (Z.of_nat (length data) <=? m) && (Z.of_nat (length data) <? 65536).
Definition spec_uci_op (cap : nat) (m : Z) (copies : bool) (op : uci_op) (q : list (list Z)) : option (list (Z * list Z) * list (list Z)) :=
  match op with
  | Arrives data ok =>
      if fits m data && (copies || (length q <? cap)%nat)
      then Some ([], if keeps copies ok then q ++ [data] else q) else None
  | Reads count => if 0 <=? count then Some ([(spec_read count q).1], (spec_read count q).2) else None
  end.
Fixpoint spec_uci (cap : nat) (m : Z) (copies : bool) (ops : list uci_op) (q : list (list Z)) : option (list (Z * list Z) * list (list Z)) :=
  match ops with
  | [] => Some ([], q)
  | op :: ops => '(a, q) ← spec_uci_op cap m copies op q; '(b, q) ← spec_uci cap m copies ops q; Some (a ++ b, q)
  end.

Section Spec.
Context {X : Type} {T : Transfers X} {L : TransferLaws X}.
Context (m : Z) (cp : bool).
Implicit Types (u : uci_dev X) (bs : list uci_slot) (l : list Z) (r : uci_ref).

Lemma U_bind {A B} (c : UM X A) (k : A -> UM X B) u a u' : c u = Ok (a, u') -> (x ← c; k x) u = k a u'.
Proof. intros E. unfold mbind, UM_bind, M_bind. by rewrite E. Qed.
Ltac ustep L := rewrite (U_bind _ _ _ _ _ L).
Lemma ulift_Ok {A} (c : res A) (a : A) u : c = Ok a -> ulift c u = Ok (a, u).
Proof. by intros ->. Qed.
Lemma uget_at u : uget u = Ok (u, u).
Proof. done. Qed.
Lemma uset_at f u : uset f u = Ok (tt, f u).
Proof. done. Qed.
Lemma the_bufs_at u bs : uci_buf u = Bufs bs -> the_bufs u = Ok (bs, u).
Proof. intros Hb. unfold the_bufs. by rewrite Hb. Qed.
Lemma get_slot_at u bs i b : uci_buf u = Bufs bs -> bs !! i = Some b -> get_slot i u = Ok (b, u).
Proof.
  intros Hb Hi. unfold get_slot. ustep (the_bufs_at u bs Hb). by apply ulift_Ok; rewrite Hi.
Qed.
Lemma on_mhi_at {A} (c : X -> res (A * X)) u a x : c (u_mhi u) = Ok (a, x) -> on_mhi c u = Ok (a, u <| u_mhi := x |>).
Proof. intros E. unfold on_mhi. by rewrite E. Qed.

(** ** The invariant *)
Definition refs u : list uci_ref := option_list (cur_buf u) ++ pending u.
Definition ref_bytes bs r : list Z :=
  match r with Slot i => match bs !! i with Some b => sl_mem b | None => [] end | Copy d => d end.
Definition ref_ok bs r : Prop :=
  ref_bytes bs r <> [] /\
  match r with Slot i => exists b, bs !! i = Some b /\ sl_len b = Z.of_nat (length (sl_mem b)) | Copy _ => True end.
(** The transfers that have arrived and not been read, the first perhaps in part. *)
Definition unread bs u : list (list Z) :=
  match cur_buf u with
  | Some r => [drop (length (ref_bytes bs r) - Z.to_nat (rx_size u)) (ref_bytes bs r)]
  | None => []
  end ++ (ref_bytes bs <$> pending u).
(** A copying device has all of its buffers in flight but one; any other one keeps those that
    user space has not read, behind the one that is spare. *)
Record uci_inv u (cap : nat) bs l : Prop := {
  ui_holds : holds cap l (u_mhi u); ui_bufs : uci_buf u = Bufs bs; ui_len : length bs = S cap; ui_n : nr_trbs u = S cap;
  ui_i : (nr_trb u < S cap)%nat; ui_nodup : NoDup (sl_data <$> bs); ui_l : cyc (sl_data <$> bs) (S cap) (nr_trb u) l;
  ui_on : enabled u = true; ui_mtu : mtu u = m /\ copies u = cp; ui_rx : rx_error u = 0; ui_refs : Forall (ref_ok bs) (refs u);
  ui_cur : forall r, cur_buf u = Some r -> 0 < rx_size u <= Z.of_nat (length (ref_bytes bs r));
  ui_mode : if copies u then length l = cap /\ ref_count u <> 1 /\ Forall (fun r => exists d, r = Copy d) (refs u)
            else (length l + length (refs u) = cap)%nat
                 /\ forall t r, refs u !! t = Some r -> r = Slot (wrap (S cap) (nr_trb u + (S (length l) + t))) }.
Lemma prev_wrap cap i k : (i < S cap)%nat -> (k < cap)%nat -> prev_slot (wrap (S cap) (i + S k)) (S cap) = wrap (S cap) (i + k).
Proof. intros Hi Hk. unfold wrap, prev_slot. destruct (Nat.ltb_spec (i + S k) (S cap)), (Nat.ltb_spec (i + k) (S cap)); try lia.
  - by destruct (i + S k)%nat eqn:E; lia.
  - destruct (i + S k - S cap)%nat eqn:E; lia.
  - destruct (i + S k - S cap)%nat eqn:E; lia.
Qed.
Lemma prev_last k i : (i < S (S k))%nat -> prev_slot i (S (S k)) = wrap (S (S k)) (wrap (S (S k)) (i + 1) + k).
Proof. intros Hi. destruct i as [|i]; cbn [prev_slot Nat.sub]; wrap_lia. Qed.
Lemma ref_len_at u bs r : uci_buf u = Bufs bs -> ref_ok bs r -> ref_len r u = Ok (Z.of_nat (length (ref_bytes bs r)), u).
Proof.
  intros Hb [_ H]. destruct r as [i|d]; [|done]. destruct H as (b & Hi & Hl). unfold ref_len.
  ustep (get_slot_at u bs i b Hb Hi). unfold ref_bytes. by rewrite Hi, Hl.
Qed.
Lemma ref_data_at u bs r : uci_buf u = Bufs bs -> ref_ok bs r -> ref_data r u = Ok (ref_bytes bs r, u).
Proof.
  intros Hb [_ H]. destruct r as [i|d]; [|done]. destruct H as (b & Hi & Hl). unfold ref_data.
  ustep (get_slot_at u bs i b Hb Hi). unfold ref_bytes. by rewrite Hi.
Qed.
(** A buffer is open after [next_buf]. *)
Lemma next_buf_at u cap bs l r rest : uci_inv u cap bs l -> refs u = r :: rest -> exists u1,
  next_buf u = Ok (0, u1) /\ uci_inv u1 cap bs l /\ cur_buf u1 = Some r /\ pending u1 = rest /\ unread bs u1 = unread bs u.
Proof.
  intros I Hr. destruct (cur_buf u) as [r0|] eqn:Hc.
  - assert (r0 = r /\ pending u = rest) as [-> Hp] by (unfold refs in Hr; rewrite Hc in Hr; by injection Hr).
    exists u. split; [|done]. unfold next_buf. ustep (uget_at u). by rewrite Hc.
  - assert (Hp : pending u = r :: rest) by (unfold refs in Hr; by rewrite Hc in Hr).
    destruct I. pose proof ui_refs0 as Hok. rewrite Hr in Hok. apply Forall_cons in Hok as [Hok _].
    set (n := Z.of_nat (length (ref_bytes bs r))).
    exists (u <| pending := rest |> <| cur_buf := Some r |> <| rx_size := n |>).
    assert (Hn : 0 < n) by (unfold n; destruct Hok as [Hne _]; destruct (ref_bytes bs r); [done|cbn; lia]).
    split; [|split; [|split; [done|split; [done|]]]].
    + unfold next_buf. ustep (uget_at u). rewrite Hc, Hp. by ustep (ref_len_at u bs r ui_bufs0 Hok).
    + unfold refs in *. rewrite Hc, Hp in *. split; try done. intros r1 [= <-]. change (0 < n <= n). lia.
    + unfold unread. rewrite Hc, Hp. change (drop (length (ref_bytes bs r) - Z.to_nat n) (ref_bytes bs r) :: (ref_bytes bs <$> rest)
        = ref_bytes bs r :: (ref_bytes bs <$> rest)).
      unfold n. rewrite Nat2Z.id, Nat.sub_diag. by rewrite drop_0.
Qed.

(** ** Reading *)
Lemma requeue_at u cap bs l i : holds cap l (u_mhi u) -> (length l < cap)%nat -> uci_buf u = Bufs bs -> nr_trbs u = length bs ->
  (prev_slot i (length bs) < length bs)%nat -> exists b x,
  requeue i u = Ok (0, u <| u_mhi := x |>) /\ bs !! prev_slot i (length bs) = Some b /\ holds cap (l ++ [sl_data b]) x.
Proof.
  intros Hh Hl Hb Hn Hi. destruct (lookup_lt_is_Some_2 _ _ Hi) as [b Hbi].
  destruct (law_queue cap l (u_mhi u) (sl_data b) (mtu u) MHI_EOT Hh Hl) as (x & E & Hx). exists b, x.
  split; [|done]. unfold requeue. ustep (uget_at u). rewrite Hn. ustep (get_slot_at u bs _ b Hb Hbi). by apply on_mhi_at.
Qed.
(** The address of the element after those in flight. *)
Lemma cyc_snoc {A} (mem : list A) n i xs y : cyc mem n i xs -> mem !! wrap n (i + length xs) = Some y -> cyc mem n i (xs ++ [y]).
Proof.
  intros Hc Hy j x Hj. apply lookup_app_Some in Hj as [Hj|[Hj Hx]]; [by apply Hc|].
  apply list_lookup_singleton_Some in Hx as [Hx <-]. by replace j with (length xs) by lia.
Qed.
Lemma finish_uci_at u cap bs l r n : uci_inv u cap bs l -> cur_buf u = Some r -> exists u' l',
  finish_buf r (u <| rx_size := n |>) = Ok (0, u') /\ uci_inv u' cap bs l' /\ unread bs u' = ref_bytes bs <$> pending u.
Proof.
  intros I Hc. destruct I. set (u1 := u <| rx_size := n |> <| cur_buf := None |>).
  assert (Hr : refs u = r :: pending u) by (unfold refs; by rewrite Hc).
  assert (E : finish_buf r (u <| rx_size := n |>) = (match r with Slot i => requeue i | Copy _ => mret 0 end : UM X Z) u1).
  { unfold finish_buf. rewrite (U_bind _ _ _ tt u1) by done. rewrite (U_bind _ _ _ u1 u1) by done.
    change (enabled u1) with (enabled u). by rewrite ui_on0. }
  rewrite Hr in *. apply Forall_cons in ui_refs0 as [_ Hrest]. destruct (copies u) eqn:Hcp in ui_mode0.
  - destruct ui_mode0 as (Hl & Hrc & Hm). apply Forall_cons in Hm as [[d ->] Hm]. exists u1, l. rewrite E.
    split; [done|]. split; [|done]. split; try done. change (copies u1) with (copies u). by rewrite Hcp.
  - destruct ui_mode0 as (Hl & Hm). cbn [length] in Hl. pose proof (Hm 0%nat r eq_refl) as ->.
    rewrite Nat.add_0_r in *. pose proof (prev_wrap cap (nr_trb u) (length l) ui_i0 ltac:(lia)) as Hprev.
    destruct (requeue_at u1 cap bs l (wrap (S cap) (nr_trb u + S (length l)))) as (b & x & E2 & Hb & Hx);
      [done|lia|done|by rewrite ui_len0|rewrite ui_len0, Hprev; apply wrap_lt; lia|].
    rewrite ui_len0, Hprev in Hb. exists (u1 <| u_mhi := x |>), (l ++ [sl_data b]). rewrite E, E2. split; [done|]. split; [|done].
    split; try done.
    + apply cyc_snoc; [done|]. change (nr_trb (u1 <| u_mhi := x |>)) with (nr_trb u). by rewrite list_lookup_fmap, Hb.
    + change (copies (u1 <| u_mhi := x |>)) with (copies u). rewrite Hcp. change (refs (u1 <| u_mhi := x |>)) with (pending u).
      change (nr_trb (u1 <| u_mhi := x |>)) with (nr_trb u). rewrite length_app. cbn [length]. split; [lia|].
      intros t r Ht. rewrite (Hm (S t) r Ht). do 2 f_equal. lia.
Qed.
(** The copy out of the open buffer; if it is used up, its element goes back. *)
Definition copy_out (count : Z) : UM X (Z * list Z) :=
  u ← uget;
  r ← ulift (of_option (cur_buf u));
  n ← ref_len r;
  d ← ref_data r;
  bytes ← ulift (rdn d (Z.to_nat (n - rx_size u)) (Z.to_nat (Z.min count (rx_size u))));
  let tc := Z.min count (rx_size u) in
  _ ← uset (fun u => u <| rx_size := rx_size u - tc |>);
  if truth (rx_size u - Z.min count (rx_size u)) then mret (Z.min count (rx_size u), bytes)
  else ret ← finish_buf r; mret (if truth ret then ret else Z.min count (rx_size u), bytes).
Lemma spec_read_cons count c q : 0 <= count -> let tc := Z.min count (Z.of_nat (length c)) in
  spec_read count (c :: q) = ((tc, take (Z.to_nat tc) c),
    if truth (Z.of_nat (length c) - tc) then drop (Z.to_nat tc) c :: q else q).
Proof.
  intros H tc. subst tc. unfold spec_read, truth. destruct (Z.ltb_spec count (Z.of_nat (length c))).
  - rewrite Z.min_l by lia. by rewrite (proj2 (Z.eqb_neq _ _)) by lia.
  - rewrite Z.min_r, Z.sub_diag by lia. cbn. by rewrite Nat2Z.id, firstn_all.
Qed.
Lemma copy_at u cap bs l r count : uci_inv u cap bs l -> cur_buf u = Some r -> 0 <= count -> exists u' l',
  copy_out count u = Ok ((spec_read count (unread bs u)).1, u') /\ uci_inv u' cap bs l'
  /\ unread bs u' = (spec_read count (unread bs u)).2.
Proof.
  intros I Hc Hcount. pose proof I as [? ? ? ? ? ? ? ? ? ? Hok Hcur ?]. specialize (Hcur r Hc).
  assert (Hr : ref_ok bs r) by (unfold refs in Hok; rewrite Hc in Hok; by apply Forall_cons in Hok as [? _]).
  set (d := ref_bytes bs r) in *. set (rx := rx_size u) in *. set (tc := Z.min count rx).
  set (o := (length d - Z.to_nat rx)%nat). set (c := drop o d).
  assert (Hlen : Z.of_nat (length c) = rx) by (unfold c; rewrite length_drop; lia).
  assert (Hun : unread bs u = c :: (ref_bytes bs <$> pending u)) by (unfold unread; by rewrite Hc).
  rewrite Hun, spec_read_cons, Hlen by done. fold tc. cbn [fst snd].
  assert (Hrdn : rdn d (Z.to_nat (Z.of_nat (length d) - rx)) (Z.to_nat tc) = Ok (take (Z.to_nat tc) c)).
  { unfold rdn. replace (Z.to_nat (Z.of_nat (length d) - rx)) with o by lia. by rewrite (proj2 (Nat.leb_le _ _)) by lia. }
  set (u1 := u <| rx_size := rx - tc |>). set (bytes := take (Z.to_nat tc) c) in *.
  assert (E : copy_out count u = (if truth (rx - tc) then mret (tc, bytes)
    else ret ← finish_buf r; mret (if truth ret then ret else tc, bytes) : UM X (Z * list Z)) u1).
  { unfold copy_out. ustep (uget_at u). ustep (ulift_Ok (of_option (cur_buf u)) r u ltac:(by rewrite Hc)).
    ustep (ref_len_at u bs r ui_bufs0 Hr). ustep (ref_data_at u bs r ui_bufs0 Hr). fold d rx tc. by ustep (ulift_Ok _ _ u Hrdn). }
  rewrite E. destruct (truth (rx - tc)) eqn:Ht.
  - exists u1, l. split; [done|]. assert (0 < rx - tc) by (unfold truth in Ht; lia). split.
    + split; try done. intros r1 Hr1. change (cur_buf u = Some r1) in Hr1. rewrite Hc in Hr1. injection Hr1 as <-.
      fold d. change (0 < rx - tc <= Z.of_nat (length d)). lia.
    + unfold unread. change (cur_buf u1) with (cur_buf u). rewrite Hc. fold d. change (rx_size u1) with (rx - tc).
      unfold c. rewrite drop_drop. cbn [app]. do 2 f_equal. lia.
  - destruct (finish_uci_at u cap bs l r (rx - tc) I Hc) as (u' & l' & E2 & I2 & Hu2). exists u', l'. by ustep E2.
Qed.
(** A read takes the oldest bytes that are there. *)
Lemma read_at u cap bs l w count : uci_inv u cap bs l -> 0 <= count -> exists u' l',
  mhi_uci_read true w count 0 u = Ok ((spec_read count (unread bs u)).1, u') /\ uci_inv u' cap bs l'
  /\ unread bs u' = (spec_read count (unread bs u)).2.
Proof.
  intros I Hcount. pose proof I as [? ? ? ? ? ? ? ? ? ? ? ? ?]. unfold mhi_uci_read. ustep (uget_at u).
  rewrite ui_rx0, ui_on0. cbn [truth Z.eqb negb]. destruct (refs u) as [|r rest] eqn:Hr.
  { assert (cur_buf u = None /\ pending u = []) as [Hc Hp] by (unfold refs in Hr; destruct (cur_buf u); done).
    unfold unread. rewrite Hc, Hp. exists u, l. split; [done|]. split; [done|]. unfold unread. by rewrite Hc, Hp. }
  replace (match cur_buf u, pending u with None, [] => true | _, _ => false end) with false
    by (unfold refs in Hr; destruct (cur_buf u), (pending u); done).
  cbn [andb]. rewrite (U_bind _ _ _ false u) by done. cbn [negb].
  destruct (next_buf_at u cap bs l r rest I Hr) as (u1 & E1 & I1 & Hc1 & Hp1 & Hu1). ustep E1. cbn [truth Z.eqb negb].
  rewrite <- Hu1. exact (copy_at u1 cap bs l r count I1 Hc1 Hcount).
Qed.

(** ** Arrival *)
Definition arrive (atomic_ok : bool) (data : list Z) : UM X unit :=
  b ← on_mhi (complete_dl (Z.of_nat (length data)));
  _ ← dma_write b data;
  mhi_dl_xfer_cb atomic_ok b (Z.of_nat (length data)) 0.
Lemma dma_one bs j s data : NoDup (sl_data <$> bs) -> bs !! j = Some s ->
  (fun b => if sl_data b =? sl_data s then b <| sl_mem := data |> else b) <$> bs = <[j := s <| sl_mem := data |>]> bs.
Proof.
  intros Hn Hj. apply list_eq. intros i. rewrite list_lookup_fmap. destruct (decide (i = j)) as [->|Hi].
  - rewrite Hj, list_lookup_insert_eq by (by eapply lookup_lt_Some). cbn. by rewrite Z.eqb_refl.
  - rewrite list_lookup_insert_ne by done. destruct (bs !! i) as [b|] eqn:Hb; [|done]. cbn.
    destruct (Z.eqb_spec (sl_data b) (sl_data s)) as [E|]; [|done]. exfalso. apply Hi.
    apply (NoDup_lookup (sl_data <$> bs) i j (sl_data b) Hn); rewrite list_lookup_fmap.
    + by rewrite Hb.
    + by rewrite Hj, E.
Qed.
Lemma data_insert bs j s s' : bs !! j = Some s -> sl_data s' = sl_data s -> sl_data <$> <[j := s']> bs = sl_data <$> bs.
Proof. intros Hj E. rewrite list_fmap_insert, E. apply list_insert_id. by rewrite list_lookup_fmap, Hj. Qed.
Lemma ref_bytes_insert bs j s r : r <> Slot j -> ref_bytes (<[j := s]> bs) r = ref_bytes bs r.
Proof. intros Hr. destruct r as [i|d]; [|done]. unfold ref_bytes. by rewrite list_lookup_insert_ne by congruence. Qed.
Lemma ref_ok_insert bs j s r : r <> Slot j -> ref_ok bs r -> ref_ok (<[j := s]> bs) r.
Proof.
  intros Hr [H1 H2]. split; [by rewrite ref_bytes_insert|]. destruct r as [i|d]; [|done].
  by rewrite list_lookup_insert_ne by congruence.
Qed.
(** No buffer that waits for user space is the one the modem fills next. *)
Lemma refs_elsewhere u cap bs b l r : uci_inv u cap bs (b :: l) -> r ∈ refs u -> r <> Slot (nr_trb u).
Proof.
  intros I Hr. destruct I. destruct (copies u).
  - destruct ui_mode0 as (_ & _ & Hm). rewrite Forall_forall in Hm. by destruct (Hm r Hr) as [d ->].
  - destruct ui_mode0 as [Hl Hm]. apply list_elem_of_lookup in Hr as [t Ht]. rewrite (Hm t r Ht).
    apply lookup_lt_Some in Ht. cbn [length] in Hl. intros [= E]. cbn [length] in E. wrap_lia.
Qed.
Lemma unread_insert u cap bs b l s : uci_inv u cap bs (b :: l) -> unread (<[nr_trb u := s]> bs) u = unread bs u.
Proof.
  intros I. unfold unread. f_equal.
  - destruct (cur_buf u) as [r|] eqn:Hc; [|done]. rewrite ref_bytes_insert; [done|]. eapply refs_elsewhere; [done|].
    unfold refs. rewrite Hc. by left.
  - apply list_fmap_ext. intros i r Hr. apply ref_bytes_insert. eapply refs_elsewhere; [done|].
    unfold refs. apply elem_of_app. right. by eapply list_elem_of_lookup_2.
Qed.
(** The device with a buffer filled, before it decides what to do with it. *)
Definition filled u (x : X) bs (k : nat) (n : Z) : uci_dev X :=
  u <| u_mhi := x |> <| uci_buf := Bufs bs |> <| nr_trb := k |> <| bytes_xferd := n |>.
Definition dispose (ok : bool) (j : nat) (n : Z) : UM X unit :=
  u ← uget;
  buf ← (if copies u then
           b ← get_slot j;
           copy ← (if (ref_count u =? 1) || negb ok then mret None
                   else d ← ulift (rdn (sl_mem b) 0 (Z.to_nat n)); mret (Some (Copy d)) : UM X (option uci_ref));
           _ ← requeue j; mret copy
         else mret (Some (Slot j)) : UM X (option uci_ref));
  match buf with Some r => uset (fun u => u <| pending := pending u ++ [r] |>) | None => mret tt end.
Lemma dispose_here ok u j n : copies u = false -> dispose ok j n u = Ok (tt, u <| pending := pending u ++ [Slot j] |>).
Proof. intros H. unfold dispose. ustep (uget_at u). rewrite H. by rewrite (U_bind _ _ _ (Some (Slot j)) u). Qed.
Lemma dispose_copy ok u cap bs l s j data : copies u = true -> ref_count u <> 1 -> holds cap l (u_mhi u) -> (length l < cap)%nat ->
  uci_buf u = Bufs bs -> nr_trbs u = length bs -> (prev_slot j (length bs) < length bs)%nat -> bs !! j = Some s -> sl_mem s = data ->
  exists b x, dispose ok j (Z.of_nat (length data)) u
      = Ok (tt, u <| u_mhi := x |> <| pending := pending u ++ if ok then [Copy data] else [] |>)
  /\ bs !! prev_slot j (length bs) = Some b /\ holds cap (l ++ [sl_data b]) x.
Proof.
  intros H1 H2 Hh Hl Hb Hn Hp Hj Hd. destruct (requeue_at u cap bs l j Hh Hl Hb Hn Hp) as (b & x & E & ? & ?).
  exists b, x. split; [|done]. unfold dispose. ustep (uget_at u). rewrite H1.
  rewrite (U_bind _ _ _ (if ok then Some (Copy data) else None) (u <| u_mhi := x |>)).
  { destruct ok; [done|]. rewrite app_nil_r. by destruct u. }
  ustep (get_slot_at u bs j s Hb Hj). rewrite (proj2 (Z.eqb_neq _ _) H2). cbn [orb negb].
  rewrite (U_bind _ _ _ (if ok then Some (Copy data) else None) u); [by ustep E|].
  destruct ok; [|done]. cbn [negb]. rewrite (U_bind _ _ _ data u); [done|]. apply ulift_Ok. unfold rdn.
  rewrite Hd, Nat2Z.id, (proj2 (Nat.leb_le _ _)) by lia. by rewrite drop_0, firstn_all.
Qed.
Lemma bytes_max u n : (if bytes_xferd u <? n then u <| bytes_xferd := n |> else u) = u <| bytes_xferd := Z.max (bytes_xferd u) n |>.
Proof.
  destruct (Z.ltb_spec (bytes_xferd u) n); [by rewrite Z.max_r by lia|]. rewrite Z.max_l by lia. by destruct u.
Qed.
Lemma cb_at ok u bs s data n k : uci_buf u = Bufs bs -> bs !! nr_trb u = Some s -> sl_mem s = data ->
  0 < n <= mtu u -> (if (S (nr_trb u) =? nr_trbs u)%nat then 0%nat else S (nr_trb u)) = k ->
  mhi_dl_xfer_cb ok (sl_data s) n 0 u =
  dispose ok (nr_trb u) n (filled u (u_mhi u) (<[nr_trb u := s <| sl_len := n |>]> bs) k (Z.max (bytes_xferd u) n)).
Proof.
  intros Hb Hs Hm Hn Hk. unfold mhi_dl_xfer_cb. ustep (uget_at u). rewrite Hb.
  ustep (get_slot_at u bs _ s Hb Hs). rewrite Z.eqb_refl. cbn [negb].
  rewrite (U_bind _ _ _ tt (u <| nr_trb := k |>)) by (by rewrite uset_at, <- Hk).
  replace (0 =? - ENOTCONN) with false by done. replace ((mtu u <? n) || (n <=? 0)) with false by lia.
  rewrite (U_bind _ _ _ tt (u <| nr_trb := k |> <| bytes_xferd := Z.max (bytes_xferd u) n |>))
    by (rewrite uset_at; do 2 f_equal; exact (bytes_max (u <| nr_trb := k |>) n)).
  rewrite (U_bind _ _ _ tt (filled u (u_mhi u) (<[nr_trb u := s <| sl_len := n |>]> bs) k (Z.max (bytes_xferd u) n))).
  - unfold dispose. rewrite (U_bind _ _ _ _ _ (uget_at _)). reflexivity.
  - unfold upd_slot. rewrite (U_bind _ _ _ bs (u <| nr_trb := k |> <| bytes_xferd := Z.max (bytes_xferd u) n |>))
      by (apply the_bufs_at; exact Hb).
    rewrite uset_at. unfold filled.
    rewrite (alter_at (fun b => b <| sl_len := n |>) (nr_trb u) bs s Hs). by destruct u.
Qed.
(** The modem's write and the callback, up to the choice. *)
Lemma deliver_fill ok u cap bs b l data : uci_inv u cap bs (b :: l) -> data <> [] -> Z.of_nat (length data) <= m ->
  Z.of_nat (length data) < 65536 -> exists s x n,
  let bs' := <[nr_trb u := s]> bs in
  arrive ok data u = dispose ok (nr_trb u) (Z.of_nat (length data)) (filled u x bs' (wrap (S cap) (nr_trb u + 1)) n)
  /\ sl_mem s = data /\ sl_len s = Z.of_nat (length data) /\ holds cap l x /\ sl_data <$> bs' = sl_data <$> bs.
Proof.
  intros I Hd Hmtu Hlen. pose proof I as [? ? ? ? ? ? Hcyc ? ? ? ? ? ?]. set (n := Z.of_nat (length data)) in *.
  assert (Hn : 0 < n) by (unfold n; destruct data; [done|cbn; lia]).
  destruct (law_complete cap b l (u_mhi u) n ui_holds0 ltac:(lia)) as (x & Ex & Hx).
  pose proof (Hcyc 0%nat b eq_refl) as Hb. replace (wrap (S cap) (nr_trb u + 0)) with (nr_trb u) in Hb by wrap_lia.
  rewrite list_lookup_fmap in Hb. destruct (bs !! nr_trb u) as [s|] eqn:Hs; [|done]. injection Hb as <-.
  set (j := nr_trb u) in *. set (s1 := s <| sl_mem := data |>). assert (Hj : (j < length bs)%nat) by lia.
  exists (s1 <| sl_len := n |>), x, (Z.max (bytes_xferd u) n). intros bs'. split; [|split; [done|split; [done|split; [done|]]]].
  - unfold arrive. fold n. ustep (on_mhi_at (complete_dl n) u (sl_data s) x Ex).
    rewrite (U_bind _ _ _ tt (u <| u_mhi := x |> <| uci_buf := Bufs (<[j := s1]> bs) |>)).
    2:{ unfold dma_write. rewrite uset_at. change (uci_buf (u <| u_mhi := x |>)) with (uci_buf u). rewrite ui_bufs0.
        by rewrite (dma_one bs j s data) by done. }
    change (sl_data s) with (sl_data s1).
    rewrite (cb_at ok _ (<[j := s1]> bs) s1 data n (wrap (S cap) (j + 1))).
    + unfold bs'. change (nr_trb (u <| u_mhi := x |> <| uci_buf := Bufs (<[j := s1]> bs) |>)) with j.
      by rewrite list_insert_insert_eq.
    + done.
    + by apply list_lookup_insert_eq.
    + done.
    + change (0 < n <= mtu u). lia.
    + change ((if (S j =? nr_trbs u)%nat then 0%nat else S j) = wrap (S cap) (j + 1)). rewrite ui_n0.
      unfold wrap. destruct (Nat.eqb_spec (S j) (S cap)), (Nat.ltb_spec (j + 1) (S cap)); lia.
  - by apply (data_insert bs j s).
Qed.
Lemma pushed u cap bs b l data s x n ro l' (bs' := <[nr_trb u := s]> bs)
    (u' := (filled u x bs' (wrap (S cap) (nr_trb u + 1)) n) <| pending := pending u ++ option_list ro |>) :
  uci_inv u cap bs (b :: l) -> data <> [] -> (forall r, ro = Some r -> ref_bytes bs' r = data /\ ref_ok bs' r) -> sl_data <$> bs' = sl_data <$> bs ->
  holds cap l' x -> cyc (sl_data <$> bs) (S cap) (wrap (S cap) (nr_trb u + 1)) l' ->
  (if copies u then length l' = cap /\ (forall r, ro = Some r -> exists d, r = Copy d) else l' = l /\ ro = Some (Slot (nr_trb u))) ->
  uci_inv u' cap bs' l' /\ unread bs' u' = unread bs u ++ match ro with Some _ => [data] | None => [] end.
Proof.
  intros I Hd Hro Hdata Hx Hcyc Hmode. pose proof I as [? ? ? ? ? ? ? ? ? ? ? Hcur Hm].
  assert (Hrefs : refs u' = refs u ++ option_list ro) by (unfold refs; apply app_assoc). split.
  - split; try done.
    + unfold bs'. by rewrite length_insert.
    + change (wrap (S cap) (nr_trb u + 1) < S cap)%nat. wrap_lia.
    + by rewrite Hdata.
    + rewrite Hdata. exact Hcyc.
    + rewrite Hrefs. apply Forall_app. split; [|destruct ro; [apply Forall_singleton; by apply Hro|done]]. apply Forall_forall. intros r0 Hr0.
      apply ref_ok_insert; [by eapply refs_elsewhere|]. rewrite Forall_forall in ui_refs0. by apply ui_refs0.
    + intros r0 Hr0. change (cur_buf u = Some r0) in Hr0. unfold bs'. rewrite ref_bytes_insert; [by apply Hcur|].
      eapply refs_elsewhere; [done|]. unfold refs. rewrite Hr0. by left.
    + change (copies u') with (copies u). change (ref_count u') with (ref_count u). rewrite Hrefs. destruct (copies u).
      * destruct Hm as (Hm1 & Hm2 & Hm3). destruct Hmode as [? Hc]. split; [done|]. split; [done|]. apply Forall_app.
        split; [done|]. destruct ro; [apply Forall_singleton; by apply Hc|done].
      * change (nr_trb u') with (wrap (S cap) (nr_trb u + 1)). destruct Hm as (Hm1 & Hm2). destruct Hmode as [-> ->].
        cbn [length] in Hm1, Hm2. rewrite length_app. change (length (option_list (Some (Slot (nr_trb u))))) with 1%nat. split; [lia|]. intros t r0 Ht.
        apply lookup_app_Some in Ht as [Ht|[Ht Ht2]].
        -- pose proof (lookup_lt_Some _ _ _ Ht). rewrite (Hm2 t r0 Ht). f_equal. wrap_lia.
        -- apply list_lookup_singleton_Some in Ht2 as [Ht2 <-]. f_equal. wrap_lia.
  - unfold unread at 1. change (pending u') with (pending u ++ option_list ro). rewrite fmap_app, app_assoc. f_equal.
    + by apply (unread_insert u cap bs b l s).
    + destruct ro as [r|]; [|done]. cbn. by rewrite (proj1 (Hro r eq_refl)).
Qed.
(** What arrives, and is kept, joins the end of what waits. *)
Lemma deliver_at ok u cap bs b l data : uci_inv u cap bs (b :: l) -> data <> [] -> Z.of_nat (length data) <= m ->
  Z.of_nat (length data) < 65536 -> exists u' bs' l',
  arrive ok data u = Ok (tt, u') /\ uci_inv u' cap bs' l'
  /\ unread bs' u' = unread bs u ++ if keeps (copies u) ok then [data] else [].
Proof.
  intros I Hd Hm1 Hm2. destruct (deliver_fill ok u cap bs b l data I Hd Hm1 Hm2) as (s & x & n & E & Hs1 & Hs2 & Hx & Hdata).
  pose proof I as [? ? ? ? ? ? Hcyc ? ? ? ? Hcur Hm]. rewrite E. clear E. set (bs' := <[nr_trb u := s]> bs) in *.
  assert (Hj : bs' !! nr_trb u = Some s) by (apply list_lookup_insert_eq; lia).
  assert (Hcap : (length (b :: l) <= cap)%nat) by (destruct (copies u); lia). cbn [length] in Hcap.
  assert (Hlt : (S (length l) < S cap)%nat) by lia. apply (cyc_pop _ _ _ _ _ ui_i0 Hlt) in Hcyc as [_ Hcyc].
  set (u1 := filled u x bs' (wrap (S cap) (nr_trb u + 1)) n).
  destruct (copies u) eqn:Hcp.
  - destruct Hm as (Hl & Hrc & Hcopies). cbn [length] in Hl.
    assert (Hprev : prev_slot (nr_trb u) (length bs') = wrap (S cap) (wrap (S cap) (nr_trb u + 1) + length l)).
    { unfold bs'. rewrite length_insert, ui_len0, <- Hl. by apply prev_last; lia. }
    destruct (dispose_copy ok u1 cap bs' l s (nr_trb u) data) as (b2 & x' & E & Hb2 & Hx'); try done; try lia.
    { unfold bs'. rewrite length_insert. change (nr_trbs u = length bs). lia. }
    { rewrite Hprev. unfold bs'. rewrite length_insert. wrap_lia. }
    set (ro := if ok then Some (Copy data) else None).
    exists (u1 <| u_mhi := x' |> <| pending := pending u ++ option_list ro |>), bs', (l ++ [sl_data b2]).
    split; [unfold ro; rewrite E; by destruct ok|].
    replace (if keeps true ok then [data] else []) with (match ro with Some _ => [data] | None => [] end) by (by destruct ok).
    apply (pushed u cap bs b l data s x' n ro); try done.
    + unfold ro. intros r Hr. destruct ok; [|done]. by injection Hr as <-.
    + apply cyc_snoc; [done|]. rewrite <- Hprev, <- Hdata, list_lookup_fmap. fold bs'. by rewrite Hb2.
    + rewrite Hcp, length_app. cbn [length]. split; [lia|]. unfold ro. intros r Hr. destruct ok; [|done]. injection Hr as <-. by eexists.
  - exists (u1 <| pending := pending u ++ [Slot (nr_trb u)] |>), bs', l.
    split; [exact (dispose_here ok u1 (nr_trb u) _ Hcp)|].
    apply (pushed u cap bs b l data s x n (Some (Slot (nr_trb u))) l); try done.
    + intros r [= <-]. unfold ref_bytes. fold bs'. rewrite Hj. split; [done|].
      split; [by unfold ref_bytes; rewrite Hj, Hs1|]. exists s. by rewrite Hs1, Hs2.
    + by rewrite Hcp.
Qed.
(** ** Opening *)
Lemma alloc_all pages (addr : nat -> Z) n : (forall i, pages i = Some (addr i)) -> forall i,
  alloc_slots pages i n = ((fun j => mkSlot (addr j) 0 []) <$> seq i n, true).
Proof. intros Hp. induction n as [|n IH]; intros i; [done|]. cbn. by rewrite Hp, IH. Qed.
Lemma queue_slots_at bs cap n : forall i ret u l, uci_buf u = Bufs bs -> (i + n <= length bs)%nat -> holds cap l (u_mhi u) ->
  (length l + n <= cap)%nat -> exists x, queue_slots i n ret u = Ok (if (n =? 0)%nat then ret else 0, u <| u_mhi := x |>)
  /\ holds cap (l ++ (sl_data <$> take n (drop i bs))) x.
Proof.
  induction n as [|n IH]; intros i ret u l Hb Hi Hh Hl.
  - exists (u_mhi u). split; [by destruct u|]. by rewrite take_0, app_nil_r.
  - destruct (lookup_lt_is_Some_2 bs i ltac:(lia)) as [b Hbi].
    destruct (law_queue cap l (u_mhi u) (sl_data b) (mtu u) MHI_EOT Hh ltac:(lia)) as (x & E & Hx).
    destruct (IH (S i) 0 (u <| u_mhi := x |>) (l ++ [sl_data b])) as (x' & E' & Hx'); [done|lia|done|rewrite length_app; cbn; lia|].
    exists x'. split.
    + cbn [queue_slots]. ustep (get_slot_at u bs i b Hb Hbi). ustep (uget_at u).
      rewrite (U_bind _ _ _ 0 (u <| u_mhi := x |>)) by (by apply on_mhi_at).
      change (truth 0) with false. cbn iota. rewrite E'. by destruct n.
    + rewrite (drop_S _ _ _ Hbi). cbn [take fmap list_fmap]. by rewrite <- app_assoc in Hx'.
Qed.
(** Everything is in flight but the last buffer. *)
Lemma fresh_inv u addr cap (bs := (fun j => mkSlot (addr j) 0 []) <$> seq 0 (S cap)) (l := addr <$> seq 0 cap) :
  Inj (=) (=) addr -> holds cap l (u_mhi u) -> uci_buf u = Bufs bs -> nr_trbs u = S cap -> nr_trb u = 0%nat -> enabled u = true ->
  mtu u = m -> copies u = cp -> rx_error u = 0 -> cur_buf u = None -> pending u = [] -> ref_count u <> 1 -> uci_inv u cap bs l /\ unread bs u = [].
Proof.
  intros Hinj Hh Hb Hn Hi Hon Hm Hcp Herr Hc Hp Hrc. assert (Hr : refs u = []) by (unfold refs; by rewrite Hc, Hp).
  assert (Hdata : sl_data <$> bs = addr <$> seq 0 (S cap)) by (unfold bs; by rewrite <- list_fmap_compose).
  assert (Hl : length l = cap) by (unfold l; rewrite length_fmap; apply length_seq).
  split; [|by unfold unread; rewrite Hc, Hp]. split; try done.
  - unfold bs. by rewrite length_fmap, length_seq.
  - lia.
  - rewrite Hdata. apply NoDup_fmap_2; [done|apply NoDup_seq].
  - rewrite Hi, Hdata. intros j b Hj. apply list_lookup_fmap_Some in Hj as (k & -> & Hk). apply lookup_seq in Hk as [-> Hk].
    replace (wrap (S cap) (0 + j)) with j by wrap_lia. rewrite list_lookup_fmap, lookup_seq_lt by lia. done.
  - by rewrite Hr.
  - by rewrite Hc.
  - rewrite Hr. destruct (copies u); [done|]. split; [cbn; lia|done].
Qed.
Lemma open_at pages (addr : nat -> Z) x x0 dd mt ul cap : Z.min dd mt = m -> prepare x = Ok (0, x0) ->
  holds (S cap) [] x0 -> (forall i, pages i = Some (addr i)) -> Inj (=) (=) addr -> exists u' bs l,
  mhi_uci_open true pages (mhi_uci_probe x dd mt cp ul) = Ok (0, u') /\ uci_inv u' (S cap) bs l /\ unread bs u' = [].
Proof.
  intros Hu Hprep Hx0 Hp Hinj. set (u := mhi_uci_probe x dd mt cp ul). set (bs := (fun j => mkSlot (addr j) 0 []) <$> seq 0 (S (S cap))).
  assert (Hlen : length bs = S (S cap)) by (unfold bs; by rewrite length_fmap, length_seq).
  set (u1 := u <| ref_count := 1 |> <| u_mhi := x0 |>).
  set (u2 := u1 <| nr_trb := 0%nat |> <| nr_trbs := S (S cap) |> <| uci_buf := Bufs bs |>).
  destruct (queue_slots_at bs (S cap) (S cap) 0 (- EIO) u2 [] eq_refl ltac:(lia) Hx0 ltac:(cbn; lia)) as (x1 & E & Hx).
  replace ([] ++ (sl_data <$> take (S cap) (drop 0 bs))) with (addr <$> seq 0 (S cap)) in Hx.
  2:{ unfold bs. rewrite drop_0. cbn [app]. rewrite <- fmap_take, <- list_fmap_compose, take_seq. by rewrite Nat.min_l by lia. }
  set (u3 := u2 <| u_mhi := x1 |> <| ref_count := 2 |>). exists u3, bs, (addr <$> seq 0 (S cap)).
  destruct (fresh_inv u3 addr (S cap)) as [I Hun]; try done. split; [|done].
  unfold mhi_uci_open. ustep (uget_at u). cbn [negb enabled u mhi_uci_probe].
  rewrite (U_bind _ _ _ tt (u <| ref_count := 1 |>)) by done. ustep (uget_at (u <| ref_count := 1 |>)).
  change (negb (ref_count (u <| ref_count := 1 |>) =? 1)) with false. cbn iota.
  rewrite (U_bind _ _ _ 0 u1) by (by apply on_mhi_at). change (truth 0) with false. cbn iota.
  rewrite (U_bind _ _ _ 0 (u2 <| u_mhi := x1 |>)); [done|]. unfold mhi_queue_inbound.
  rewrite (U_bind _ _ _ (Z.of_nat (S cap)) u1) by (unfold asks; by rewrite (law_free (S cap) [] (u_mhi u1) Hx0)).
  ustep (uget_at u1). change (uci_buf u1) with NoBufs. cbn iota.
  replace (Z.to_nat (Z.of_nat (S cap) + 1)) with (S (S cap)) by lia. rewrite (alloc_all pages addr _ Hp 0). fold bs.
  rewrite (U_bind _ _ _ true u2) by done. cbn [negb]. by rewrite Nat2Z.id.
Qed.

(** ** Runs *)
Definition run_uci_op (w : uci_wait) (op : uci_op) : UM X (list (Z * list Z)) :=
  match op with
  | Arrives data ok => _ ← arrive ok data; mret []
  | Reads count => r ← mhi_uci_read true w count 0; mret [r]
  end.
Fixpoint run_uci (w : uci_wait) (ops : list uci_op) : UM X (list (Z * list Z)) :=
  match ops with
  | [] => mret []
  | op :: ops => a ← run_uci_op w op; b ← run_uci w ops; mret (a ++ b)
  end.
Lemma length_unread u bs : length (unread bs u) = length (refs u).
Proof. unfold unread, refs. rewrite !length_app, length_fmap. by destruct (cur_buf u). Qed.
Lemma op_at u cap bs l w op outs q : uci_inv u (S cap) bs l -> spec_uci_op (S cap) m cp op (unread bs u) = Some (outs, q) ->
  exists u' bs' l', run_uci_op w op u = Ok (outs, u') /\ uci_inv u' (S cap) bs' l' /\ unread bs' u' = q.
Proof.
  intros I E. destruct op as [data ok|count]; cbn [spec_uci_op run_uci_op] in *.
  - destruct (fits m data) eqn:Hfits; [|done]. destruct (cp || (length (unread bs u) <? S cap)%nat) eqn:Hroom; [|done].
    injection E as <- <-. unfold fits in Hfits. rewrite length_unread in Hroom.
    assert (Hl : (0 < length l)%nat).
    { destruct I. destruct ui_mtu0 as [_ Hcp]. rewrite Hcp in ui_mode0. destruct cp; cbn [orb] in Hroom; destruct ui_mode0 as [Hm0 _]; [|apply Nat.ltb_lt in Hroom]; lia. }
    destruct l as [|b l]; [cbn in Hl; lia|]. destruct (deliver_at ok u (S cap) bs b l data I) as (u' & bs' & l' & E & I' & Hu');
      [by intros ->|lia|lia|]. exists u', bs', l'. ustep E. split; [done|]. split; [done|]. rewrite Hu'.
    destruct I. destruct ui_mtu0 as [_ ->]. destruct (keeps cp ok); [done|]. by rewrite app_nil_r.
  - destruct (Z.leb_spec 0 count); [|done]. destruct (read_at u (S cap) bs l w count I ltac:(done)) as (u' & l' & E2 & I' & Hu').
    injection E as <- <-. exists u', bs, l'. by ustep E2.
Qed.
Lemma run_at w cap ops : forall u bs l outs q, uci_inv u (S cap) bs l -> spec_uci (S cap) m cp ops (unread bs u) = Some (outs, q) ->
  exists u', run_uci w ops u = Ok (outs, u').
Proof.
  induction ops as [|op ops IH]; intros u bs l outs q I E.
  - injection E as <- <-. by exists u.
  - cbn [spec_uci] in E. destruct (spec_uci_op _ _ _ op _) as [[a q1]|] eqn:E1; [|done]. cbn in E.
    destruct (spec_uci _ _ _ ops q1) as [[b q2]|] eqn:E2; [|done]. injection E as <- <-.
    destruct (op_at u cap bs l w op a q1 I E1) as (u1 & bs1 & l1 & R1 & I1 & Hu1). subst q1.
    destruct (IH u1 bs1 l1 b q2 I1 E2) as [u2 R2]. exists u2. cbn [run_uci]. ustep R1. by ustep R2.
Qed.
End Spec.

(** ** Properties *)
(** The bytes of the transfers that are kept. *)
Definition arrived (copies : bool) (ops : list uci_op) : list Z :=
  concat ((fun op => match op with Arrives data ok => if keeps copies ok then data else [] | Reads _ => [] end) <$> ops).
Lemma spec_op_bytes cap m cp op q outs q' : spec_uci_op cap m cp op q = Some (outs, q') ->
  concat q ++ arrived cp [op] = concat outs.*2 ++ concat q'.
Proof.
  unfold arrived. destruct op as [data ok|count]; cbn [spec_uci_op fmap list_fmap concat]; intros E.
  - destruct (fits m data && _); [|done]. injection E as <- <-.
    destruct (keeps cp ok); [by rewrite concat_app|]. cbn [concat app]. by rewrite app_nil_r.
  - destruct (0 <=? count); [|done]. injection E as <- <-. cbn [fmap list_fmap concat]. rewrite !app_nil_r.
    destruct q as [|c q]; [done|]. unfold spec_read. destruct (count <? _); [|done]. cbn [fst snd concat].
    by rewrite app_assoc, take_drop.
Qed.
Lemma spec_bytes cap m cp ops : forall q outs q', spec_uci cap m cp ops q = Some (outs, q') ->
  concat q ++ arrived cp ops = concat outs.*2 ++ concat q'.
Proof.
  induction ops as [|op ops IH]; intros q outs q' E; cbn [spec_uci] in E.
  - injection E as <- <-. unfold arrived. by rewrite app_nil_r.
  - destruct (spec_uci_op _ _ _ op q) as [[a q1]|] eqn:E1; [|done]. cbn in E.
    destruct (spec_uci _ _ _ ops q1) as [[b q2]|] eqn:E2; [|done]. injection E as <- <-.
    replace (arrived cp (op :: ops)) with (arrived cp [op] ++ arrived cp ops) by (unfold arrived; cbn; by rewrite app_nil_r).
    rewrite app_assoc, (spec_op_bytes _ _ _ _ _ _ _ E1), <- app_assoc, (IH _ _ _ E2), app_assoc. by rewrite fmap_app, concat_app.
Qed.

(** C6. A character device is a queue of transfers.  Open a device on any channels that keep
    the promise of [TransferLaws]; whatever transfers the modem completes, of any size that
    fits and whenever it has a buffer, and whatever is read, in any order: every operation
    returns, and a read gives what the queue of the transfers gives: -EAGAIN if it is empty,
    else the oldest bytes, at most what was asked for and never beyond the end of a transfer.
    A device that copies drops the transfers it has no memory for, whenever that happens.
    So the bytes read are, in order, those of the transfers that arrived and were kept, up to
    those still in the queue.  (The pages of the ring are allocated when the device is opened,
    and reads do not wait.) *)
Theorem uci_stream {X} {T : Transfers X} {L : TransferLaws X} pages (addr : nat -> Z) x x0 dd mt cp ul cap w ops outs q :
  prepare x = Ok (0, x0) -> holds (S cap) [] x0 -> (forall i, pages i = Some (addr i)) -> Inj (=) (=) addr ->
  spec_uci (S cap) (Z.min dd mt) cp ops [] = Some (outs, q) -> exists u0 u',
  mhi_uci_open true pages (mhi_uci_probe x dd mt cp ul) = Ok (0, u0) /\ run_uci w ops u0 = Ok (outs, u')
  /\ arrived cp ops = concat outs.*2 ++ concat q.
Proof.
  intros H1 H2 H3 H4 E. destruct (open_at (Z.min dd mt) cp pages addr x x0 dd mt ul cap eq_refl H1 H2 H3 H4) as (u0 & bs & l & Eo & I & Hu).
  rewrite <- Hu in E. destruct (run_at (Z.min dd mt) cp w cap ops u0 bs l outs q I E) as [u' Er]. exists u0, u'.
  rewrite Hu in E. pose proof (spec_bytes _ _ _ _ _ _ _ E). done.
Qed.

(** *** Witnesses

    Channels that are nothing but bounded queues, of at most eight buffers: the capacity, the
    downlink, what is left of the uplink. *)
Record queues := mkQueues { q_cap : nat; q_dl : list Z; q_room : nat }.
Definition put_dl (b len flags : Z) (x : queues) : res (Z * queues) :=
  Ok (if (length (q_dl x) <? q_cap x)%nat then (0, mkQueues (q_cap x) (q_dl x ++ [b]) (q_room x)) else (- ENOMEM, x)).
Definition put_ul (b len flags : Z) (x : queues) : res (Z * queues) :=
  Ok (if (0 <? q_room x)%nat then (0, mkQueues (q_cap x) (q_dl x) (q_room x - 1)) else (- ENOMEM, x)).
#[export] Instance queues_transfers : Transfers queues := {|
  queue_dl := put_dl; queue_ul := put_ul; free_dl := fun x => Ok (Z.of_nat (q_cap x - length (q_dl x)));
  free_ul := fun x => Ok (Z.of_nat (q_room x)); prepare := fun x => Ok (0, x);
  unprepare := fun x => Ok (take 8 (q_dl x), [], mkQueues (q_cap x) [] (q_room x));
  complete_dl := fun len x => match q_dl x with b :: l => Ok (b, mkQueues (q_cap x) l (q_room x)) | [] => Fault end |}.
#[export] Instance queues_laws : TransferLaws queues.
Proof.
  refine {| holds := fun cap l x => q_cap x = cap /\ q_dl x = l |}.
  - by intros cap l x [<- <-].
  - intros cap l x b len flags [<- <-] Hl. exists (mkQueues (q_cap x) (q_dl x ++ [b]) (q_room x)). split; [|done].
    unfold queue_dl, queues_transfers, put_dl. by rewrite (proj2 (Nat.ltb_lt _ _)).
  - intros cap b l x len [Hc Hl] _. exists (mkQueues (q_cap x) l (q_room x)). split; [|done]. unfold complete_dl, queues_transfers. by rewrite Hl.
Defined.
Definition demo_pages (i : nat) : Z := 4096 * Z.of_nat i.
Definition demo_uci_ops : list uci_op :=
  [Reads 4; Arrives [1; 2; 3] true; Reads 2; Arrives [4] true; Reads 9; Arrives [5; 6] true; Reads 9; Reads 9;
   Arrives [7; 8; 9] true; Reads 1].
Definition demo_outs : list (Z * list Z) := [(- 11, []); (2, [1; 2]); (1, [3]); (1, [4]); (2, [5; 6]); (1, [7])].
Lemma demo_inj : Inj (=) (=) demo_pages.
Proof. intros i j H. unfold demo_pages in H. lia. Qed.
Lemma uci_stream_witness : exists u0 u',
  mhi_uci_open true (fun i => Some (demo_pages i)) (mhi_uci_probe (mkQueues 2 [] 4) 8192 4096 false true) = Ok (0, u0)
  /\ run_uci (fun u => (false, u)) demo_uci_ops u0 = Ok (demo_outs, u') /\ arrived false demo_uci_ops = concat demo_outs.*2 ++ concat [[8; 9]].
Proof.
  apply (uci_stream (fun i => Some (demo_pages i)) demo_pages (mkQueues 2 [] 4) (mkQueues 2 [] 4) 8192 4096 false true 1 _ _ _ [[8; 9]]);
    [done|done|done|exact demo_inj|by vm_compute].
Defined.
