(* ===== verification/MhiUciErrSpec.v ===== *)
(** The character devices of the PCIe modem driver: what a write sends, and what becomes of
    a device after an error. *)
From S2P Require Import Prelude Cyclic MhiPm MhiRing MhiUci MhiUciSpec.
#[local] Open Scope Z_scope.
Ltac ustep L := rewrite (U_bind _ _ _ _ _ L).

(** What a device relies on for its uplink: [room r x]: a queue that takes [r] buffers more. *)
Class UplinkLaws (X : Type) `{Transfers X} := {
  room : nat -> X -> Prop;
  law_room r x : room r x -> free_ul x = Ok (Z.of_nat r);
  law_put r b len flags x : room (S r) x -> exists x', queue_ul b len flags x = Ok (0, x') /\ room r x' }.

(** ** Writing *)

(** What is to be sent of [buf], with room for [r] buffers of at most [m] bytes: the pieces in
    order, chained to the next one but for the last. *)
Fixpoint pieces (m : nat) (addr : nat -> Z) (r k : nat) (buf : list Z) : list (Z * list Z * Z) :=
  match r, buf with
  | O, _ | _, [] => []
  | S r, _ => let rest := drop m buf in
      (addr k, take m buf, if (0 <? r)%nat && negb (bool_decide (rest = [])) then MHI_CHAIN else MHI_EOT) :: pieces m addr r (S k) rest
  end.
Lemma pieces_concat m addr r : forall k buf, concat (pieces m addr r k buf).*1.*2 = take (r * m) buf.
Proof.
  induction r as [|r IH]; intros k [|b buf]; try done; [by rewrite take_nil|]. cbn [pieces fmap list_fmap concat fst snd].
  rewrite IH. cbn [Nat.mul]. by rewrite take_take_drop.
Qed.
Lemma pieces_sizes m addr r : forall k buf, (0 < m)%nat -> Forall (fun p => (0 < length p.1.2 <= m)%nat) (pieces m addr r k buf).
Proof.
  induction r as [|r IH]; intros k [|b buf] Hm; try done. cbn [pieces]. apply Forall_cons. split; [|by apply IH].
  cbn [fst snd]. rewrite length_take. cbn [length]. lia.
Qed.
Lemma pieces_flags m addr r : forall k buf, (0 < m)%nat -> (0 < r)%nat -> buf <> [] ->
  exists n, (pieces m addr r k buf).*2 = replicate n MHI_CHAIN ++ [MHI_EOT].
Proof.
  induction r as [|r IH]; intros k buf Hm Hr Hb; [lia|]. destruct buf as [|b buf]; [done|]. cbn [pieces fmap list_fmap snd].
  set (rest := drop m (b :: buf)). destruct (Nat.ltb_spec 0 r); cbn [andb].
  - case_bool_decide as He; cbn [negb].
    + exists 0%nat. rewrite He. by destruct r.
    + destruct (IH (S k) rest Hm ltac:(lia) He) as [n ->]. by exists (S n).
  - exists 0%nat. by replace r with 0%nat by lia.
Qed.

Lemma cut_take {A} (l : list A) m : 0 < m -> take (Z.to_nat (Z.min (Z.of_nat (length l)) m)) l = take (Z.to_nat m) l.
Proof. intros Hm. destruct (Z.min_spec (Z.of_nat (length l)) m) as [[H ->]|[H ->]]; [|done]. rewrite Nat2Z.id, firstn_all, take_ge; [done|lia]. Qed.
Lemma cut_drop {A} (l : list A) m : 0 < m -> drop (Z.to_nat (Z.min (Z.of_nat (length l)) m)) l = drop (Z.to_nat m) l.
Proof. intros Hm. destruct (Z.min_spec (Z.of_nat (length l)) m) as [[H ->]|[H ->]]; [|done]. rewrite Nat2Z.id, drop_all, drop_ge; [done|lia]. Qed.
Lemma chain_flag r (rest : list Z) : (1 <? Z.of_nat (S r)) && truth (Z.of_nat (length rest)) = (0 <? r)%nat && negb (bool_decide (rest = [])).
Proof.
  f_equal; [destruct (Z.ltb_spec 1 (Z.of_nat (S r))), (Nat.ltb_spec 0 r); lia|]. unfold truth. f_equal. by destruct rest.
Qed.

Section Write.
Context {X : Type} {T : Transfers X} {L : UplinkLaws X}.
Context (waits : nat -> @uci_wait X) (kmallocs : nat -> option Z) (users : nat -> Z) (addr : nat -> Z).
Context (Hw : forall k u, waits k u = (false, u)) (Hk : forall k, kmallocs k = Some (addr k)) (Hu : forall k, users k = 0).
Implicit Types (u : uci_dev X).
Lemma asks_at {A} (c : X -> res A) u (a : A) : c (u_mhi u) = Ok a -> asks c u = Ok (a, u).
Proof. intros E. unfold asks. by rewrite E. Qed.
(** One round of the loop. *)
Lemma write_round fuel k b buf done u r : enabled u = true -> room (S r) (u_mhi u) -> exists x, room r x /\
  let n := Z.min (Z.of_nat (length (b :: buf))) (mtu u) in
  let chunk := take (Z.to_nat n) (b :: buf) in
  let rest := drop (Z.to_nat n) (b :: buf) in
  let flags := if (1 <? Z.of_nat (S r)) && truth (Z.of_nat (length rest)) then MHI_CHAIN else MHI_EOT in
  write_loop (S fuel) true waits kmallocs users k (b :: buf) done u
  = write_loop fuel true waits kmallocs users (S k) rest (done + n) (u <| u_mhi := x |> <| kbufs := kbufs u ++ [(addr k, chunk, flags)] |>).
Proof.
  intros Hon Hr. set (n := Z.min (Z.of_nat (length (b :: buf))) (mtu u)). set (rest := drop (Z.to_nat n) (b :: buf)).
  set (flags := if (1 <? Z.of_nat (S r)) && truth (Z.of_nat (length rest)) then MHI_CHAIN else MHI_EOT).
  destruct (law_put r (addr k) n flags (u_mhi u) Hr) as (x & E & Hx). exists x. split; [done|]. cbv zeta.
  cbn [write_loop]. ustep (asks_at free_ul u _ (law_room _ _ Hr)). rewrite (proj2 (Z.eqb_neq _ _)) by lia. cbn [andb].
  rewrite (U_bind _ _ _ false u) by (unfold wait_interrupted; by rewrite Hw). rewrite (U_bind _ _ _ u u) by done.
  ustep (asks_at free_ul u _ (law_room _ _ Hr)). rewrite Hon. cbn [orb negb]. rewrite Hk, Hu. change (truth 0) with false. cbn iota.
  fold n. fold rest. fold flags. ustep (on_mhi_at (queue_ul (addr k) n flags) u 0 x E). change (truth 0) with false. cbn iota.
  by rewrite (U_bind _ _ _ tt (u <| u_mhi := x |> <| kbufs := kbufs u ++ [(addr k, take (Z.to_nat n) (b :: buf), flags)] |>)).
Qed.
Lemma write_loop_at r : forall fuel k buf done u, (length buf <= fuel)%nat -> enabled u = true -> room r (u_mhi u) -> 0 < mtu u -> exists x,
  write_loop fuel true waits kmallocs users k buf done u =
    Ok (if (length buf <=? r * Z.to_nat (mtu u))%nat then done + Z.of_nat (length buf) else - EAGAIN,
        u <| u_mhi := x |> <| kbufs := kbufs u ++ pieces (Z.to_nat (mtu u)) addr r k buf |>).
Proof.
  induction r as [|r IH]; intros fuel k [|b buf] done u Hf Hon Hr Hm.
  - exists (u_mhi u). destruct fuel; cbn; rewrite Z.add_0_r, app_nil_r; by destruct u.
  - destruct fuel as [|fuel]; [cbn in Hf; lia|]. exists (u_mhi u). cbn [write_loop]. ustep (asks_at free_ul u _ (law_room _ _ Hr)).
    cbn [Z.of_nat Z.eqb andb Nat.mul pieces]. rewrite app_nil_r. by destruct u.
  - exists (u_mhi u). destruct fuel; cbn; rewrite Z.add_0_r, app_nil_r; by destruct u.
  - destruct fuel as [|fuel]; [cbn in Hf; lia|]. destruct (write_round fuel k b buf done u r Hon Hr) as (x & Hx & E). cbv zeta in E.
    rewrite E. clear E. rewrite !cut_take, !cut_drop, chain_flag by done. set (m := Z.to_nat (mtu u)).
    set (rest := drop m (b :: buf)). set (piece := (addr k, take m (b :: buf), if (0 <? r)%nat && negb (bool_decide (rest = [])) then MHI_CHAIN else MHI_EOT)).
    set (u1 := u <| u_mhi := x |> <| kbufs := kbufs u ++ [piece] |>).
    assert (Hlen : length rest = (length (b :: buf) - m)%nat) by apply length_drop.
    destruct (IH fuel (S k) rest (done + Z.min (Z.of_nat (length (b :: buf))) (mtu u)) u1) as [x2 E]; [cbn [length] in *; lia|done|done|done|].
    exists x2. rewrite E. change (mtu u1) with (mtu u). fold m. change (kbufs u1) with (kbufs u ++ [piece]). rewrite <- app_assoc.
    cbn [pieces]. fold rest piece. change ([piece] ++ ?l) with (piece :: l). f_equal. f_equal. rewrite Hlen.
    destruct (Nat.leb_spec (length (b :: buf) - m) (r * m)), (Nat.leb_spec (length (b :: buf)) (S r * m)); cbn [Nat.mul] in *; lia.
Qed.
End Write.

(** ** After an error *)
Create HintDb uci_stays.
Section Sticky.
Context {X : Type} {T : Transfers X}.
Implicit Types (u : uci_dev X).
(** An operation after which a device in error is still in error, with at most [n] errors more;
    the counter has 32 bits. *)
Definition stays {A} (n : nat) (m : UM X A) : Prop := forall u a u', 0 < rx_error u -> rx_error u + Z.of_nat n < 2 ^ 32 ->
  m u = Ok (a, u') -> 0 < rx_error u' <= rx_error u + Z.of_nat n.
Lemma stays_ret {A} (a : A) : stays 0 (mret a).
Proof. intros u b u' H _ [= <- <-]. lia. Qed.
(** Both parts of a sequence, where [Q] is what the first part tells the second. *)
Lemma stays_seq {A B} (Q : A -> Prop) i j (m : UM X A) (k : A -> UM X B) : stays i m ->
  (forall u a u', m u = Ok (a, u') -> Q a) -> (forall a, Q a -> stays j (k a)) -> stays (i + j) (x ← m; k x).
Proof.
  intros Hm HQ Hk u b u' H Hw E. unfold mbind, UM_bind, M_bind in E. destruct (m u) as [[a u1]| |] eqn:E1; [|done..].
  pose proof (Hm u a u1 H ltac:(lia) E1). pose proof (Hk a (HQ u a u1 E1) u1 b u' ltac:(lia) ltac:(lia) E). lia.
Qed.
Lemma stays_bind {A B} n (m : UM X A) (k : A -> UM X B) : stays 0 m -> (forall a, stays n (k a)) -> stays n (x ← m; k x).
Proof. intros Hm Hk. by apply (stays_seq (fun _ => True) 0 n). Qed.
Lemma stays_first {A B} n (m : UM X A) (k : A -> UM X B) : stays n m -> (forall a, stays 0 (k a)) -> stays n (x ← m; k x).
Proof. intros Hm Hk. rewrite <- (Nat.add_0_r n). by apply (stays_seq (fun _ => True)). Qed.
Lemma stays_more {A} n (m : UM X A) : stays 0 m -> stays n m.
Proof. intros Hm u a u' H Hw E. pose proof (Hm u a u' H ltac:(lia) E). lia. Qed.
Lemma stays_get : stays 0 uget.
Proof. intros u b u' H _ [= <- <-]. lia. Qed.
Lemma stays_set f : (forall u, rx_error (f u) = rx_error u) -> stays 0 (uset f).
Proof. intros Hf u b u' H _ [= <- <-]. rewrite Hf. lia. Qed.
Lemma stays_lift {A} (r : res A) : stays 0 (ulift r).
Proof. intros u b u' H _ E. destruct r; [|done..]. injection E as <- <-. lia. Qed.
Lemma stays_fault {A} : stays 0 (ufault : UM X A).
Proof. done. Qed.
Lemma stays_on_mhi {A} (m : X -> res (A * X)) : stays 0 (on_mhi m).
Proof.
  intros u b u' H _ E. unfold on_mhi in E. destruct (m (u_mhi u)) as [[a x]| |]; [|done..]. injection E as <- <-.
  change (0 < rx_error u <= rx_error u + 0). lia.
Qed.
Lemma stays_asks {A} (m : X -> res A) : stays 0 (asks m).
Proof. intros u b u' H _ E. unfold asks in E. destruct (m (u_mhi u)); [|done..]. injection E as <- <-. lia. Qed.
Lemma stays_the_bufs : stays 0 the_bufs.
Proof. intros u b u' H _ E. unfold the_bufs in E. destruct (uci_buf u); [done| |done]. injection E as <- <-. lia. Qed.
#[local] Hint Resolve stays_ret stays_get stays_lift stays_fault stays_on_mhi stays_asks stays_the_bufs : uci_stays.
Ltac stay := repeat (first
  [ progress eauto with uci_stays
  | apply stays_set; intros ?; try case_match; done
  | apply stays_bind; [|intros ?]
  | case_match ]).
Ltac branch := match goal with |- stays _ (if ?b then _ else _) => destruct b end.
Lemma stays_error : stays 1 (uset (fun u => u <| rx_error := u32 (rx_error u + 1) |>)).
Proof. intros u a u' H Hw [= <- <-]. change (0 < u32 (rx_error u + 1) <= rx_error u + 1). rewrite u32_id by lia. lia. Qed.
Lemma stays_get_slot i : stays 0 (get_slot i).
Proof. unfold get_slot. stay. Qed.
Lemma stays_upd_slot i f : stays 0 (upd_slot i f).
Proof. unfold upd_slot. stay. Qed.
#[local] Hint Resolve stays_get_slot stays_upd_slot : uci_stays.
Lemma stays_queue_slots n : forall i ret, stays 0 (queue_slots i n ret).
Proof. induction n as [|n IH]; intros i ret; cbn [queue_slots]; stay. Qed.
Lemma stays_requeue i : stays 0 (requeue i).
Proof. unfold requeue. stay. Qed.
Lemma stays_free_bufs : stays 0 free_bufs.
Proof. unfold free_bufs. stay. Qed.
#[local] Hint Resolve stays_queue_slots stays_requeue stays_free_bufs stays_error : uci_stays.
Lemma stays_inbound ok pages : stays 0 (mhi_queue_inbound ok pages).
Proof. unfold mhi_queue_inbound. stay. Qed.
Lemma stays_dl_cb ok buf bytes status : stays 1 (mhi_dl_xfer_cb ok buf bytes status).
Proof.
  unfold mhi_dl_xfer_cb. apply stays_bind; [stay|intros u]. branch; [apply stays_more; stay|].
  apply stays_bind; [stay|intros b]. branch; [stay|]. apply stays_more. stay.
Qed.
Lemma stays_ul_cb buf : stays 0 (mhi_ul_xfer_cb buf).
Proof. unfold mhi_ul_xfer_cb. stay. Qed.
Lemma stays_dma b d : stays 0 (dma_write b d).
Proof. unfold dma_write. stay. Qed.
#[local] Hint Resolve stays_inbound stays_ul_cb stays_dma : uci_stays.
Lemma stays_each f n l : (forall b, stays n (f b)) -> stays (length l * n) (each f l).
Proof.
  intros Hf. induction l as [|b l IH]; cbn [each length Nat.mul]; [stay|]. by apply (stays_seq (fun _ => True)).
Qed.
(** A stop gives back at most [N] buffers of the downlink. *)
Context (N : nat) (HN : forall x (r : list Z * list Z * X), unprepare x = Ok r -> (length r.1.1 <= N)%nat).
Lemma stays_returned r : (length r.1 <= N)%nat -> stays N (returned r).
Proof.
  intros Hr. unfold returned. apply stays_first; [|intros _].
  - intros u a u' H Hw E. pose proof (stays_each _ 1 r.1 (fun b => stays_dl_cb false b 0 (- ENOTCONN)) u a u' H ltac:(lia) E). lia.
  - pose proof (stays_each mhi_ul_xfer_cb 0 r.2 stays_ul_cb) as K. by rewrite Nat.mul_0_r in K.
Qed.
Lemma stays_unprepare {A} (k : list Z * list Z -> UM X A) : (forall r, (length r.1 <= N)%nat -> stays N (k r)) ->
  stays N (r ← on_mhi unprepare; k r).
Proof.
  intros Hk. apply (stays_seq (fun r => (length r.1 <= N)%nat) 0 N); [stay| |done]. intros u r u' E. unfold on_mhi in E.
  destruct (unprepare (u_mhi u)) as [[r' x]| |] eqn:E1; [|done..]. injection E as <- <-. exact (HN _ _ E1).
Qed.
Lemma stays_open ok pages : stays N (mhi_uci_open ok pages).
Proof.
  unfold mhi_uci_open. apply stays_bind; [stay|intros u]. branch; [apply stays_more; stay|].
  apply stays_bind; [stay|intros _]. apply stays_bind; [stay|intros u']. branch; [apply stays_more; stay|].
  apply stays_bind; [stay|intros ret]. branch; [apply stays_more; stay|]. apply stays_bind; [stay|intros ret'].
  branch; [|apply stays_more; stay]. apply stays_unprepare. intros r Hr. apply stays_first; [by apply stays_returned|intros _]. stay.
Qed.
Lemma stays_release : stays N mhi_uci_release.
Proof.
  unfold mhi_uci_release. apply stays_bind; [stay|intros _]. apply stays_bind; [stay|intros u].
  branch; [apply stays_more; stay|]. apply stays_first; [|intros _; stay]. branch; [|apply stays_more; stay].
  apply stays_unprepare. intros r Hr. by apply stays_returned.
Qed.
Lemma stays_remove : stays 0 mhi_uci_remove.
Proof. unfold mhi_uci_remove. stay. Qed.

(** The calls that can come: from the modem, from user space, from the bus. *)
Inductive uci_call :=
  | Completes (atomic_ok : bool) (status : Z) (data : list Z)
  | Sent (buf : Z)
  | ReadCall (nonblock : bool) (w : @uci_wait X) (count uncopied : Z)
  | WriteCall (nonblock : bool) (waits : nat -> @uci_wait X) (kmallocs : nat -> option Z) (users : nat -> Z) (buf : list Z)
  | OpenCall (array_ok : bool) (pages : nat -> option Z)
  | ReleaseCall | RemoveCall.
Definition run_call (call : uci_call) : UM X Z :=
  match call with
  | Completes ok status data =>
      let bytes := Z.of_nat (length data) in
      buf ← on_mhi (complete_dl bytes); _ ← dma_write buf data; _ ← mhi_dl_xfer_cb ok buf bytes status; mret 0
  | Sent buf => _ ← mhi_ul_xfer_cb buf; mret 0
  | ReadCall nonblock w count uncopied => r ← mhi_uci_read nonblock w count uncopied; mret r.1
  | WriteCall nonblock waits kmallocs users buf => mhi_uci_write nonblock waits kmallocs users buf
  | OpenCall array_ok pages => mhi_uci_open array_ok pages
  | ReleaseCall => mhi_uci_release
  | RemoveCall => _ ← mhi_uci_remove; mret 0
  end.
Definition transfers_data (call : uci_call) : bool := match call with ReadCall _ _ _ _ | WriteCall _ _ _ _ _ => true | _ => false end.
Fixpoint run_calls (calls : list uci_call) : UM X (list Z) :=
  match calls with
  | [] => mret []
  | call :: calls => a ← run_call call; b ← run_calls calls; mret (a :: b)
  end.
Lemma read_refused u nonblock w count uncopied : 0 < rx_error u -> mhi_uci_read nonblock w count uncopied u = Ok ((- EINVAL, []), u).
Proof. intros H. unfold mhi_uci_read. rewrite (U_bind _ _ _ u u) by done. unfold truth. by rewrite (proj2 (Z.eqb_neq _ _)) by lia. Qed.
Lemma write_refused u nonblock waits kmallocs users buf : 0 < rx_error u ->
  mhi_uci_write nonblock waits kmallocs users buf u = Ok (- EINVAL, u).
Proof.
  intros H. unfold mhi_uci_write. rewrite (U_bind _ _ _ u u) by done. destruct buf; [done|]. unfold truth.
  by rewrite (proj2 (Z.eqb_neq _ _)) by lia.
Qed.
Lemma call_in_error call u a u' : 0 < rx_error u -> rx_error u + Z.of_nat (S N) < 2 ^ 32 -> run_call call u = Ok (a, u') ->
  0 < rx_error u' <= rx_error u + Z.of_nat (S N) /\ (transfers_data call = true -> a = - EINVAL).
Proof.
  intros H Hw E. destruct call as [ok status data|buf|nonblock w count uncopied|nonblock waits kmallocs users buf|ok pages| |];
    cbn [run_call transfers_data] in *.
  3:{ rewrite (U_bind _ _ _ _ _ (read_refused u nonblock w count uncopied H)) in E. injection E as <- <-. split; [lia|done]. }
  3:{ rewrite write_refused in E by done. injection E as <- <-. split; [lia|done]. }
  all: split; [|done].
  - assert (K : stays 1 (run_call (Completes ok status data))).
    { cbn [run_call]. apply stays_bind; [stay|intros b]. apply stays_bind; [stay|intros _].
      apply stays_first; [apply stays_dl_cb|intros _; stay]. }
    pose proof (K u a u' H ltac:(lia) E). lia.
  - pose proof (stays_bind 0 _ (fun _ => mret 0) (stays_ul_cb buf) (fun _ => stays_ret 0) u a u' H ltac:(lia) E). lia.
  - pose proof (stays_open ok pages u a u' H ltac:(lia) E). lia.
  - pose proof (stays_release u a u' H ltac:(lia) E). lia.
  - pose proof (stays_bind 0 _ (fun _ => mret 0) stays_remove (fun _ => stays_ret 0) u a u' H ltac:(lia) E). lia.
Qed.
Lemma calls_in_error (calls : list uci_call) : forall u outs u', 0 < rx_error u ->
  rx_error u + Z.of_nat (length calls * S N) < 2 ^ 32 -> run_calls calls u = Ok (outs, u') ->
  0 < rx_error u' /\ Forall2 (fun call out => transfers_data call = true -> out = - EINVAL) calls outs.
Proof.
  induction calls as [|call calls IH]; intros u outs u' H Hw E; cbn [run_calls length Nat.mul] in *.
  - by injection E as <- <-.
  - unfold mbind at 1, UM_bind at 1, M_bind at 1 in E. destruct (run_call call u) as [[a u1]| |] eqn:E1; [|done..].
    unfold mbind, UM_bind, M_bind in E. destruct (run_calls calls u1) as [[b u2]| |] eqn:E2; [|done..]. injection E as <- <-.
    destruct (call_in_error call u a u1 H ltac:(lia) E1) as [H1 Ha]. destruct (IH u1 b u2 ltac:(lia) ltac:(lia) E2) as [H2 Hb].
    split; [done|]. by apply Forall2_cons.
Qed.
End Sticky.

(** ** A failed open *)
Section Open.
Context {X : Type} {T : Transfers X}.
Lemma alloc_some_fail pages n : forall i j, (i <= j < i + n)%nat -> pages j = None ->
  exists l, alloc_slots pages i n = (l, false) /\ (length l < n)%nat.
Proof.
  induction n as [|n IH]; intros i j Hj Hp; [lia|]. cbn [alloc_slots]. destruct (pages i) as [p|] eqn:Hi.
  - destruct (IH (S i) j) as (l & E & Hl); [|done|]. { destruct (decide (i = j)) as [->|]; [congruence|lia]. }
    rewrite E. exists (mkSlot p 0 [] :: l). split; [done|cbn; lia].
  - exists []. split; [done|cbn; lia].
Qed.
(** An open that cannot queue buffers, up to its clean-up. *)
Lemma open_fails ok pages x x0 x1 n dd mt cp ul ret u1 : prepare x = Ok (0, x0) ->
  unprepare x0 = Ok ([], [], x1) -> truth ret = true ->
  let u := (mhi_uci_probe x dd mt cp ul) <| ref_count := 1 |> <| u_mhi := x0 |> in
  free_dl x0 = Ok n -> mhi_queue_inbound ok pages u = Ok (ret, u1) -> u_mhi u1 = x0 ->
  mhi_uci_open ok pages (mhi_uci_probe x dd mt cp ul) = (_ ← free_bufs; mret ret : UM X Z) (u1 <| u_mhi := x1 |>).
Proof.
  intros Hprep Hun Hret u Hfree E Hx. set (u0 := mhi_uci_probe x dd mt cp ul) in *. unfold mhi_uci_open.
  rewrite (U_bind _ _ _ u0 u0) by done. cbn [negb enabled u0 mhi_uci_probe].
  rewrite (U_bind _ _ _ tt (u0 <| ref_count := 1 |>)) by done.
  rewrite (U_bind _ _ _ (u0 <| ref_count := 1 |>) (u0 <| ref_count := 1 |>)) by done.
  change (negb (ref_count (u0 <| ref_count := 1 |>) =? 1)) with false. cbn iota.
  rewrite (U_bind _ _ _ 0 u) by (by apply on_mhi_at). change (truth 0) with false. cbn iota. ustep E. rewrite Hret.
  rewrite (U_bind _ _ _ ([], []) (u1 <| u_mhi := x1 |>)) by (apply on_mhi_at; by rewrite Hx).
  by rewrite (U_bind _ _ _ tt (u1 <| u_mhi := x1 |>)).
Qed.
End Open.

(** ** Properties *)

(** A non-blocking write sends the start of what it is given, as much as there is room
    for, in pieces of at most the mtu, in order, chained up to the last one.  It returns the
    length if that is everything, and -EAGAIN otherwise: with the start already sent, so that
    who writes the same again sends it twice. *)
Theorem uci_write_pieces {X} {T : Transfers X} {L : UplinkLaws X} waits kmallocs users (addr : nat -> Z) r buf (u : uci_dev X) :
  (forall k u, waits k u = (false, u)) -> (forall k, kmallocs k = Some (addr k)) -> (forall k, users k = 0) ->
  enabled u = true -> rx_error u = 0 -> 0 < mtu u -> room r (u_mhi u) -> buf <> [] -> exists x,
  let m := Z.to_nat (mtu u) in
  let sent := pieces m addr r 0 buf in
  mhi_uci_write true waits kmallocs users buf u =
    Ok (if (length buf <=? r * m)%nat then Z.of_nat (length buf) else - EAGAIN, u <| u_mhi := x |> <| kbufs := kbufs u ++ sent |>)
  /\ concat sent.*1.*2 = take (r * m) buf /\ Forall (fun p => (0 < length p.1.2 <= m)%nat) sent
  /\ ((0 < r)%nat -> exists n, sent.*2 = replicate n MHI_CHAIN ++ [MHI_EOT]).
Proof.
  intros Hw Hk Hu Hon He Hm Hr Hb.
  destruct (write_loop_at waits kmallocs users addr Hw Hk Hu r (length buf) 0 buf 0 u ltac:(done) Hon Hr Hm) as [x E].
  exists x. cbv zeta. split; [|split; [apply pieces_concat|split; [apply pieces_sizes; lia|intros H; apply pieces_flags; [lia|done|done]]]].
  unfold mhi_uci_write. rewrite (U_bind _ _ _ u u) by done. rewrite He, Hon. destruct buf as [|b buf]; [done|].
  cbn [truth Z.eqb negb]. exact E.
Qed.

(** C40. An error of the downlink is for good.  Once [rx_error] is set, whatever comes, in
    any order - transfers, reads, writes, closing and opening again: as long as the calls
    return, every read and every write is refused with -EINVAL.  (The counter has 32 bits;
    [N] bounds the buffers that a stop gives back, each of which may count one error more.) *)
Theorem uci_error_sticky {X} {T : Transfers X} (N : nat) (calls : list (@uci_call X)) (u : uci_dev X) outs u' :
  (forall x (r : list Z * list Z * X), unprepare x = Ok r -> (length r.1.1 <= N)%nat) ->
  0 < rx_error u -> rx_error u + Z.of_nat (length calls * S N) < 2 ^ 32 -> run_calls calls u = Ok (outs, u') ->
  0 < rx_error u' /\ Forall2 (fun call out => transfers_data call = true -> out = - EINVAL) calls outs.
Proof. intros HN H Hw E. exact (calls_in_error N HN calls u outs u' H Hw E). Qed.

(** An open that fails.  When the array cannot be allocated, open returns -ENOMEM, the
    channels are stopped, but the device counts as open: every later open returns 0 and
    starts nothing.  When the array can be allocated and a page cannot, the clean-up frees
    pages that are not initialised. *)
Theorem uci_failed_open {X} {T : Transfers X} x x0 x1 n dd mt cp ul : prepare x = Ok (0, x0) -> free_dl x0 = Ok n -> 0 <= n ->
  unprepare x0 = Ok ([], [], x1) ->
  let u := mhi_uci_probe x dd mt cp ul : uci_dev X in
  (forall pages, exists u1, mhi_uci_open false pages u = Ok (- ENOMEM, u1) /\ u_mhi u1 = x1 /\ uci_buf u1 = NoBufs
    /\ forall ok pages, mhi_uci_open ok pages u1 = Ok (0, u1 <| ref_count := 2 |>))
  /\ (forall pages i, (i <= Z.to_nat n)%nat -> pages i = None -> mhi_uci_open true pages u = Fault).
Proof.
  intros H1 H2 Hn H3 u. set (u1 := u <| ref_count := 1 |> <| u_mhi := x0 |>).
  set (u2 := u1 <| nr_trb := 0%nat |> <| nr_trbs := Z.to_nat (n + 1) |>).
  pose proof (asks_at free_dl u1 n H2 : asks free_dl u1 = Ok (n, u1)) as Ef. split.
  - intros pages. exists (u2 <| u_mhi := x1 |>). split; [|split; [done|split; [done|intros; by vm_compute]]].
    unfold u. rewrite (open_fails false pages x x0 x1 n dd mt cp ul (- ENOMEM) u2 H1 H3 eq_refl H2); [done| |done]. fold u u1.
    unfold mhi_queue_inbound. ustep Ef. by rewrite (U_bind _ _ _ u1 u1).
  - intros pages i Hi Hp. destruct (alloc_some_fail pages (Z.to_nat (n + 1)) 0 i ltac:(lia) Hp) as (l & El & Hl).
    unfold u. rewrite (open_fails true pages x x0 x1 n dd mt cp ul (- ENOMEM) (u2 <| uci_buf := Bufs l |>) H1 H3 eq_refl H2); [| |done].
    + unfold mbind, UM_bind, M_bind, free_bufs. unfold mbind, UM_bind, M_bind. cbn [uget M_get].
      change (uci_buf _) with (Bufs l) at 1. cbn iota. change (nr_trbs _) with (Z.to_nat (n + 1)). by rewrite (proj2 (Nat.ltb_lt _ _) Hl).
    + fold u u1. unfold mhi_queue_inbound. ustep Ef. rewrite (U_bind _ _ _ u1 u1) by done. change (uci_buf u1) with NoBufs. cbn iota.
      rewrite El. by rewrite (U_bind _ _ _ false (u2 <| uci_buf := Bufs l |>)).
Qed.

(** *** Witnesses *)
#[export] Instance queues_uplink : UplinkLaws queues.
Proof.
  refine {| room := fun r x => q_room x = r |}.
  - by intros r x <-.
  - intros r b len flags x Hx. exists (mkQueues (q_cap x) (q_dl x) r). split; [|done].
    unfold queue_ul, queues_transfers, put_ul. rewrite Hx. cbn. by rewrite Nat.sub_0_r.
Defined.
Definition demo_device : uci_dev queues := mhi_uci_probe (mkQueues 2 [] 3) 8192 4 false true.
Definition demo_write (buf : list Z) : res (Z * uci_dev queues) :=
  mhi_uci_write true (fun _ u => (false, u)) (fun k => Some (demo_pages k)) (fun _ => 0) buf demo_device.
(** Twelve bytes fit, as three buffers; of fourteen the first twelve are sent. *)
Lemma uci_write_pieces_witness : exists x,
  demo_write [1;2;3;4;5;6;7;8;9;10;11;12;13;14] =
    Ok (- 11, demo_device <| u_mhi := x |> <| kbufs := [(0, [1;2;3;4], 2); (4096, [5;6;7;8], 2); (8192, [9;10;11;12], 1)] |>).
Proof.
  destruct (uci_write_pieces (fun _ u => (false, u)) (fun k => Some (demo_pages k)) (fun _ => 0) demo_pages 3
    [1;2;3;4;5;6;7;8;9;10;11;12;13;14] demo_device) as (x & E & _); try done.
  exists x. exact E.
Defined.
(** A transfer without data costs a device its buffer, and two transfers later its life. *)
Definition demo_calls : list (@uci_call queues) :=
  [OpenCall true (fun i => Some (demo_pages i)); Completes true 0 []; Completes true 0 [1; 2; 3];
   ReadCall true (fun u => (false, u)) 9 0; Completes true 0 [4]].
Definition demo_after : list (@uci_call queues) :=
  [ReadCall true (fun u => (false, u)) 9 0; ReleaseCall; OpenCall true (fun i => Some (demo_pages i));
   ReadCall true (fun u => (false, u)) 9 0].
Lemma demo_stops (x : queues) r : unprepare x = Ok r -> (length r.1.1 <= 8)%nat.
Proof. intros [= <-]. cbn. rewrite length_take. lia. Qed.
Lemma uci_error_sticky_witness : exists u u', run_calls demo_calls demo_device = Ok ([0; 0; 0; 3; 0], u) /\ rx_error u = 1
  /\ run_calls demo_after u = Ok ([- 22; 0; 0; - 22], u') /\ 0 < rx_error u'.
Proof.
  destruct (run_calls demo_calls demo_device) as [[outs u]| |] eqn:E; [|by vm_compute in E..].
  destruct (run_calls demo_after u) as [[outs' u']| |] eqn:E'; [|by vm_compute in E; injection E as <- <-; vm_compute in E'..].
  exists u, u'. assert (Hu : rx_error u = 1 /\ outs = [0; 0; 0; 3; 0]) by (vm_compute in E; by injection E as <- <-).
  destruct Hu as [Hu ->]. assert (H0 : 0 < rx_error u) by (rewrite Hu; done).
  destruct (uci_error_sticky 8 demo_after u outs' u' demo_stops H0 ltac:(rewrite Hu; done) E') as [H _]. split; [done|]. split; [done|]. split; [|exact H].
  vm_compute in E. injection E as <-. vm_compute in E'. by injection E' as <- <-.
Defined.
Lemma uci_failed_open_witness : exists u1,
  mhi_uci_open false (fun _ => None) demo_device = Ok (- 12, u1) /\ u_mhi u1 = mkQueues 2 [] 3 /\ uci_buf u1 = NoBufs
  /\ (forall ok pages, mhi_uci_open ok pages u1 = Ok (0, u1 <| ref_count := 2 |>)).
Proof.
  destruct (uci_failed_open (mkQueues 2 [] 3) (mkQueues 2 [] 3) (mkQueues 2 [] 3) 2 8192 4 false true
    ltac:(done) ltac:(done) ltac:(lia) ltac:(done)) as [H _].
  exact (H (fun _ => None)).
Defined.
