(* ===== verification/MhiUciRing.v ===== *)
(** The character devices of the PCIe modem driver on the channels of the driver itself: the
    rings are the queues that a device relies on, so what holds of a device on any such
    queues holds of the whole. *)
From S2P Require Import Prelude Cyclic MhiPm MhiRing MhiChan MhiRingSpec MhiFlowSpec MhiTransferSpec MhiChanSpec MhiUci MhiUciSpec.
#[local] Open Scope Z_scope.

(** ** The two channels of a device *)
Section Ops.
Context (map_single : Z -> Z -> option Z) (kmalloc : nat -> option Z) (mem : nat -> Z * Z) (kzalloc : nat -> option Z).
Context (fuel : nat) (w : nat -> dp_wait) (dl ul : nat).
(** The buffers that a channel gave back since [s]. *)
Definition given (c : nat) (s s' : mhi_dp) : list Z := handed c (drop (length (dp_log s)) (dp_log s')).
(** The event of the device for the oldest transfer of the downlink. *)
Definition oldest_done (len : Z) : DP unit :=
  ch ← get_chan dl;
  transfer_event map_single 2
    (tx_event (Z.of_nat dl) MHI_EV_CC_EOT len (mhi_to_physical (tre_ring ch) (r_rp (tre_ring ch)))).
Definition dp_transfers : Transfers mhi_dp := {|
  queue_dl := mhi_queue_buf map_single dl;
  queue_ul := mhi_queue_buf map_single ul;
  free_dl := fun s => '(n, _) ← mhi_get_no_free_descriptors dl s; Ok n;
  free_ul := fun s => '(n, _) ← mhi_get_no_free_descriptors ul s; Ok n;
  prepare := mhi_prepare_for_transfer map_single kmalloc mem kzalloc 0 fuel w (Some ul) (Some dl);
  unprepare := fun s => '(_, s') ← mhi_unprepare_from_transfer fuel w (Some ul) (Some dl) s; Ok (given dl s s', given ul s s', s');
  complete_dl := fun len s =>
    '(_, s') ← oldest_done len s;
    match given dl s s' with [b] => Ok (b, s') | _ => Fault end |}.
End Ops.

(** ** The rings keep the promise *)
Section Laws.
Context (map_single : Z -> Z -> option Z) (kmalloc : nat -> option Z) (mem : nat -> Z * Z) (kzalloc : nat -> option Z).
Context (fuel : nat) (w : nat -> dp_wait) (dl ul : nat).
Context (Hdl : Z.of_nat dl < 256) (Hmap : forall v len, is_Some (map_single v len)).
(** What a started downlink is, apart from what is in flight. *)
Definition dl_chan (ch : mhi_chan) : Prop :=
  pre_alloc ch = false /\ ch_state ch = MHI_CH_STATE_ENABLED /\ offload_ch ch = false /\ to_device ch = false.
Record dl_holds (cap : nat) (l : list Z) (s : mhi_dp) : Prop := {
  dh_chan : exists ch i xs, dp_chans s !! dl = Some ch /\ chan_rep ch (S cap) i xs /\ dl_chan ch /\ cb_buf <$> xs = l;
  dh_pend : 0 <= pending_pkts s; dh_pm : MHI_PM_IN_ERROR_STATE (pm_state (dp_ctrl s)) = false; dh_cap : Z.of_nat (S cap) < 2 ^ 31 }.
Lemma dl_load ch xs : dl_chan ch -> load ch xs = 0.
Proof. intros (_ & _ & _ & H). unfold load. by rewrite H. Qed.
Lemma dl_fixed ch ch' : fixed ch' = fixed ch -> dl_chan ch -> dl_chan ch'.
Proof. intros F (H1 & H2 & H3 & H4). unfold fixed in F. injection F. intros. unfold dl_chan. repeat split; congruence. Qed.
(** What moves a channel moves what it holds. *)
Lemma dl_moved cap s ch pend' es i' xs xs' took gave ch' : (dl < length (dp_chans s))%nat -> dl_chan ch ->
  0 <= pending_pkts s -> MHI_PM_IN_ERROR_STATE (pm_state (dp_ctrl s)) = false -> Z.of_nat (S cap) < 2 ^ 31 ->
  moved dl (S cap) ch (pending_pkts s) xs ch' pend' es i' xs' took gave ->
  dl_holds cap (cb_buf <$> xs') (put s dl ch' pend' (dp_log s ++ es)).
Proof.
  intros Hlt Hch Hp Hpm Hcap [R F P _ _ _ _]. rewrite !dl_load in P by done. split; try done.
  - exists ch', i', xs'. split; [by apply list_lookup_insert_eq|]. split; [done|]. split; [by eapply dl_fixed|done].
  - cbn. lia.
Qed.
#[local] Existing Instance dp_transfers.
Lemma given_log c s ch' pend' es : given c s (put s dl ch' pend' (dp_log s ++ es)) = handed c es.
Proof. unfold given. cbn [dp_log put]. by rewrite drop_app_length. Qed.
Lemma free_law cap l s : dl_holds cap l s -> ('(n, _) ← mhi_get_no_free_descriptors dl s; Ok n) = Ok (Z.of_nat (cap - length l)).
Proof.
  intros [(ch & i & xs & Hch & R & (_ & _ & Ho & _) & <-) _ _ Hcap]. unfold mhi_get_no_free_descriptors.
  dstep (get_chan_at s dl ch Hch). rewrite Ho, (avail_wf _ (S cap) i (length xs)) by (done || apply R). cbn. rewrite length_fmap. do 2 f_equal. lia.
Qed.
Lemma queue_law cap l s b len flags : dl_holds cap l s -> (length l < cap)%nat -> exists s',
  mhi_queue_buf map_single dl b len flags s = Ok (0, s') /\ dl_holds cap (l ++ [b]) s'.
Proof.
  intros [(ch & i & xs & Hch & R & Hc & <-) Hp Hpm Hcap] Hl. rewrite length_fmap in Hl.
  pose proof (lookup_lt_Some _ _ _ Hch) as Hlt.
  destruct (buf_queued map_single s dl Hlt (S cap) i xs ch (pending_pkts s) (dp_log s) b len flags R Hp)
    as (b' & ch' & pend' & es & E & M).
  rewrite put_self in E by done. unfold buf_result in E, M. rewrite Hpm, bool_decide_true in E, M by done.
  replace (room (S cap) xs) with true in E, M by (unfold room; symmetry; try apply bool_decide_true; lia).
  cbn [negb Z.eqb] in E, M. exists (put s dl ch' pend' (dp_log s ++ es)). split; [done|].
  pose proof (dl_moved cap s ch pend' es i xs (xs ++ [b']) _ _ ch' Hlt Hc Hp Hpm Hcap M) as D.
  pose proof (mv_fifo _ _ _ _ _ _ _ _ _ _ _ _ M) as Hf. cbn [app] in Hf. by rewrite <- Hf in D.
Qed.
Lemma complete_law cap l s b len : dl_holds cap (b :: l) s -> 0 < len < 65536 -> exists s',
  ('(_, s') ← oldest_done map_single dl len s; match given dl s s' with [b] => Ok (b, s') | _ => Fault end) = Ok (b, s')
  /\ dl_holds cap l s'.
Proof.
  intros [(ch & i & xs & Hch & R & Hc & Hxs) Hp Hpm Hcap] Hlen. destruct xs as [|b0 xs]; [done|]. injection Hxs as <- <-.
  pose proof (lookup_lt_Some _ _ _ Hch) as Hlt. pose proof (cr_tre _ _ _ _ R) as W.
  set (event := tx_event (Z.of_nat dl) MHI_EV_CC_EOT len (mhi_to_physical (tre_ring ch) (r_rp (tre_ring ch)))).
  assert (Hcode : MHI_TRE_GET_EV_CODE event = MHI_EV_CC_EOT) by (apply tx_event_code; [done|lia]).
  destruct (parse_xfer_moves map_single s dl Hlt (S cap) 2 event 0 ch i (b0 :: xs) (pending_pkts s) (dp_log s) R)
    as (ch' & pend' & es & new & took & E & M & Hnew).
  { by rewrite dl_load. }
  { intros _. split; [|cbn; lia]. cbn [t_ptr event tx_event]. rewrite (rw_rp _ _ _ _ W). do 2 f_equal. pose proof (rw_i _ _ _ _ W). wrap_lia. }
  destruct Hc as (Hpre & Hst & Hc). destruct (Hnew Hpre) as [-> ->]. rewrite Hcode in M. cbn zeta in M.
  replace (MhiFlowSpec.enabled ch && completes MHI_EV_CC_EOT) with true in M by (unfold MhiFlowSpec.enabled; by rewrite Hst).
  cbn [drop take fmap list_fmap app] in M. rewrite app_nil_r in M. rewrite put_self in E by done.
  exists (put s dl ch' pend' (dp_log s ++ es)). split; [|by eapply dl_moved].
  assert (E2 : oldest_done map_single dl len s = Ok (tt, put s dl ch' pend' (dp_log s ++ es))).
  { unfold oldest_done. dstep (get_chan_at s dl ch Hch). apply (transfer_event_tx map_single 2 dl _ len _ s 0 _); [unfold byte_range; lia|exact E]. }
  rewrite E2. cbn [mbind res_bind]. rewrite given_log. unfold handed. rewrite (mv_gave _ _ _ _ _ _ _ _ _ _ _ _ M), handed_pairs.
  by rewrite decide_True.
Qed.
#[export] Instance dp_laws : @TransferLaws mhi_dp (dp_transfers map_single kmalloc mem kzalloc fuel w dl ul).
Proof.
  refine {| holds := dl_holds |}.
  - exact free_law.
  - exact queue_law.
  - intros. by apply complete_law.
Defined.
End Laws.

(** ** Properties *)

(** C7. The character devices on the rings.  Open a device whose downlink has been started,
    with a ring of n elements, and whose buffers can be mapped for the device.  Let the modem
    complete transfers, none of them empty or longer than the MTU, in any order with reads;
    if the device does not copy, let a transfer come only while fewer than n - 1 are unread,
    for there is no buffer in flight otherwise.  Then the whole - the device, the rings, the
    events, the callbacks - behaves as a queue of the transfers, as in [uci_stream]: every
    operation returns, a read takes the oldest bytes and nothing is lost but the transfers a
    device that copies has no memory for; such a device takes any number of them. *)
Theorem uci_on_rings map_single kmalloc mem kzalloc fuel wc dl ul (T := dp_transfers map_single kmalloc mem kzalloc fuel wc dl ul)
    pages (addr : nat -> Z) s s0 dd mt cp has cap w ops outs q :
  Z.of_nat dl < 256 -> (forall v len, is_Some (map_single v len)) -> prepare s = Ok (0, s0) -> dl_holds dl (S cap) [] s0 ->
  (forall i, pages i = Some (addr i)) -> Inj (=) (=) addr ->
  spec_uci (S cap) (Z.min dd mt) cp ops [] = Some (outs, q) -> exists u0 u',
  mhi_uci_open true pages (mhi_uci_probe s dd mt cp has) = Ok (0, u0) /\ run_uci w ops u0 = Ok (outs, u')
  /\ arrived cp ops = concat outs.*2 ++ concat q.
Proof.
  intros Hdl Hmap H1 H2 H3 H4 E. set (L := dp_laws map_single kmalloc mem kzalloc fuel wc dl ul Hdl Hmap).
  destruct (open_at (L := L) (Z.min dd mt) cp pages addr s s0 dd mt has cap eq_refl H1 H2 H3 H4) as (u0 & bs & l & Eo & I & Hu).
  rewrite <- Hu in E. destruct (run_at (L := L) (Z.min dd mt) cp w cap ops u0 bs l outs q I E) as [u' Er]. exists u0, u'.
  rewrite Hu in E. pose proof (spec_bytes _ _ _ _ _ _ _ E). done.
Qed.

(** *** Witnesses *)
Definition demo_down : mhi_dp := demo_dp <| dp_chans :=
  [(demo_chan 0 0 true MHI_XFER_BUFFER) <| ch_state := MHI_CH_STATE_DISABLED |>;
   (demo_chan 1 0 false MHI_XFER_BUFFER) <| ch_state := MHI_CH_STATE_DISABLED |>] |>.
Definition demo_replies (k : nat) : dp_wait := cmd_reply (if Nat.even k then Some MHI_EV_CC_SUCCESS else None).
Definition demo_place (c : nat) : Z * Z := (65536 * (Z.of_nat c + 1), 1048576 * (Z.of_nat c + 1)).
Definition demo_local (c : nat) : option Z := Some (16777216 * (Z.of_nat c + 1)).
Definition demo_transport : Transfers mhi_dp :=
  dp_transfers demo_map (fun _ => None) demo_place demo_local 8 demo_replies 1 0.
Lemma demo_started : exists s0, @prepare _ demo_transport demo_down = Ok (0, s0) /\ dl_holds 1 3 [] s0.
Proof.
  destruct (@prepare _ demo_transport demo_down) as [[r s0]| |] eqn:E; [|by vm_compute in E..]. exists s0.
  vm_compute in E. injection E as <- <-. split; [done|]. split; try done.
  eexists _, 0%nat, []. split; [reflexivity|]. split; [|done]. split; try done.
  - split; done || (unfold pos; cbn; lia).
  - split; done || (unfold pos; cbn; lia).
  - by exists [].
Qed.
(** As [demo_uci_ops], with a transfer that there is no memory for. *)
Definition ring_ops : list uci_op := demo_uci_ops ++ [Arrives [10; 11] false].
Lemma uci_on_rings_witness : exists s0 (u0 u' : uci_dev mhi_dp), @prepare _ demo_transport demo_down = Ok (0, s0)
  /\ @mhi_uci_open _ demo_transport true (fun i => Some (demo_pages i)) (mhi_uci_probe demo_down 8192 4096 true true) = Ok (0, u0)
  /\ @run_uci _ demo_transport (fun u => (false, u)) ring_ops u0 = Ok (demo_outs, u') /\ arrived true ring_ops = concat demo_outs.*2 ++ concat [[8; 9]].
Proof.
  destruct demo_started as (s0 & E & Hs).
  destruct (uci_on_rings demo_map (fun _ => None) demo_place demo_local 8 demo_replies 1 0 (fun i => Some (demo_pages i)) demo_pages
    demo_down s0 8192 4096 true true 2 (fun u => (false, u)) ring_ops demo_outs [[8; 9]]) as (u0 & u' & H1 & H2 & H3).
  - done.
  - intros v len. by eexists.
  - exact E.
  - exact Hs.
  - done.
  - exact demo_inj.
  - by vm_compute.
  - exact (ex_intro _ s0 (ex_intro _ u0 (ex_intro _ u' (conj E (conj H1 (conj H2 H3)))))).
Defined.
