(* ===== verification/LedNetdev.v ===== *)
(** The network device trigger of LEDs
    (patch/kernel/files/stable/drivers/leds/trigger/ledtrig-netdev.c; nightly is the same).

    The trigger keeps one reference to the device it shows, a work item that polls the
    counters, and the LED in software control or under the control of its driver.  Devices
    are numbers.  What the networking core, the LED core and the driver of the LED answer
    during an operation is an argument ([netdev_env]); what they are told is a log.
    An operation is whole: the lock and [cancel_delayed_work_sync] keep them apart, except
    that the stores of the modes and of the interval do not take the lock. *)
From S2P Require Import Prelude CmTypes QmiRequests AtTok.
#[local] Open Scope Z_scope.

Definition NETDEV_LED_DEFAULT_INTERVAL : Z := 50.
(** [enum led_trigger_netdev_modes] of the kernel: bits of the mode. *)
Definition TRIGGER_NETDEV_LINK : Z := 0.
Definition TRIGGER_NETDEV_LINK_10 : Z := 1.
Definition TRIGGER_NETDEV_LINK_100 : Z := 2.
Definition TRIGGER_NETDEV_LINK_1000 : Z := 3.
Definition TRIGGER_NETDEV_HALF_DUPLEX : Z := 4.
Definition TRIGGER_NETDEV_FULL_DUPLEX : Z := 5.
Definition TRIGGER_NETDEV_TX : Z := 6.
Definition TRIGGER_NETDEV_RX : Z := 7.
Definition IFNAMSIZ : nat := 16.
Definition SPEED_UNKNOWN : Z := -1.
Definition DUPLEX_UNKNOWN : Z := 255.
Definition LED_OFF : Z := 0.
(** [-EINVAL], [-ENOMEM] *)
Definition LED_EINVAL : Z := -22.
Definition LED_ENOMEM : Z := -12.
(** The events of the networking core. *)
Inductive netdev_event :=
  | NETDEV_UP | NETDEV_DOWN | NETDEV_CHANGE | NETDEV_REGISTER | NETDEV_UNREGISTER | NETDEV_CHANGENAME | NETDEV_OTHER.
#[export] Instance netdev_event_eq_dec : EqDecision netdev_event.
Proof. solve_decision. Defined.

(** What the trigger does to the outside. *)
Inductive led_effect :=
  | Hold (d : nat) | Put (d : nat) | Brightness (v : Z) | HwSet (mode : Z) | StopBlink
  | BlinkOneshot (on off : Z) (invert : bool).
(** The driver of the LED; [None] is a function that it does not have. *)
Record led_class := mkLedClass {
  max_brightness : Z; has_control_get : bool; has_control_set : bool; control_is_supported : option (Z -> Z);
  has_get_device : bool; hw_control_trigger : cstr }.
(** The answers during an operation: devices by name, their names, carriers, settings (speed
    and duplex) and counters (sent and received), the brightness of the LED, the device and
    the mode of its driver. *)
Record netdev_env := mkNetEnv {
  dev_by_name : cstr -> option nat; name_of : nat -> cstr; carrier_ok : nat -> bool;
  link_ksettings : nat -> option (Z * Z); stats64 : nat -> Z * Z; cur_brightness : Z;
  hw_device : option nat; hw_mode : Z * Z }.
(** [struct led_netdev_data], with whether it is allocated, the delay of the work item when
    it is scheduled, [blink_brightness] of the LED, and the log. *)
Record led_data := mkLed {
  allocated : bool; work : option Z; net_dev : option nat; device_name : list Z; interval : Z; last_activity : Z;
  mode : Z; link_speed : Z; duplex : Z; carrier_link_up : bool; hw_control : bool;
  blink_brightness : Z; led_out : list led_effect }.

Definition LED (A : Type) : Type := M led_data A.
#[export] Instance LED_ret : MRet LED := @M_ret led_data.
#[export] Instance LED_bind : MBind LED := @M_bind led_data.
Definition get_led : LED led_data := M_get.
Definition upd_led (f : led_data -> led_data) : LED unit := M_upd f.
Definition led_do (x : led_effect) : LED unit := upd_led (fun t => t <| led_out := led_out t ++ [x] |>).
(** Work that is scheduled stays as it is. *)
Definition schedule_delayed_work (delay : Z) : LED unit :=
  upd_led (fun t => match work t with None => t <| work := Some delay |> | Some _ => t end).
Definition cancel_delayed_work_sync : LED unit := upd_led (fun t => t <| work := None |>).
Definition dev_put (o : option nat) : LED unit := match o with Some d => led_do (Put d) | None => mret tt end.
Definition test_bit (bit mode : Z) : bool := Z.testbit mode bit.
(** A text of a buffer, for which the buffer must have a NUL. *)
Definition c_text (b : list Z) : res cstr := if bool_decide (0 ∈ b) then Ok (until_nul b) else Fault.

Section Trigger.
Context (led : led_class) (msecs_to_jiffies jiffies_to_msecs : Z -> Z) (kstrtoul : cstr -> Z * Z).

(** ** The state of the LED *)
Definition wants_traffic (t : led_data) : bool := test_bit TRIGGER_NETDEV_TX (mode t) || test_bit TRIGGER_NETDEV_RX (mode t).
Definition blink_on (t : led_data) : bool :=
  test_bit TRIGGER_NETDEV_LINK (mode t)
  || test_bit TRIGGER_NETDEV_LINK_10 (mode t) && (link_speed t =? 10)
  || test_bit TRIGGER_NETDEV_LINK_100 (mode t) && (link_speed t =? 100)
  || test_bit TRIGGER_NETDEV_LINK_1000 (mode t) && (link_speed t =? 1000)
  || test_bit TRIGGER_NETDEV_HALF_DUPLEX (mode t) && (duplex t =? 0)
  || test_bit TRIGGER_NETDEV_FULL_DUPLEX (mode t) && (duplex t =? 1).
Definition set_blink_brightness (e : netdev_env) : LED unit :=
  upd_led (fun t =>
    let t := if truth (cur_brightness e) then t <| blink_brightness := cur_brightness e |> else t in
    if blink_brightness t =? 0 then t <| blink_brightness := max_brightness led |> else t).
Definition set_baseline_state (e : netdev_env) : LED unit :=
  t ← get_led;
  if hw_control t then
    if has_control_set led then led_do (HwSet (mode t)) else M_lift Fault
  else
    _ ← set_blink_brightness e;
    t ← get_led;
    if negb (carrier_link_up t) then led_do (Brightness LED_OFF)
    else
      _ ← led_do (Brightness (if blink_on t then blink_brightness t else LED_OFF));
      M_when (wants_traffic t) (schedule_delayed_work 0).

(** ** Control by the driver *)
Definition supports_hw_control : bool :=
  has_control_get led && has_control_set led && bool_decide (is_Some (control_is_supported led))
  && bool_decide (hw_control_trigger led = bytes_of_string "netdev").
Definition hw_control_get_device (e : netdev_env) : LED (option nat) :=
  M_lift (if has_get_device led then Ok (hw_device e) else Fault).
Definition validate_net_dev (e : netdev_env) (dev : option nat) : LED bool :=
  d ← hw_control_get_device e;
  mret match d with None => false | Some _ => bool_decide (d = dev) end.
Definition default_interval : Z := msecs_to_jiffies NETDEV_LED_DEFAULT_INTERVAL.
Definition can_hw_control (e : netdev_env) : LED bool :=
  t ← get_led;
  if negb supports_hw_control then mret false
  else if negb (u32 (interval t) =? default_interval) then mret false
  else
    v ← validate_net_dev e (net_dev t);
    if negb v then mret false
    else
      f ← (M_lift (of_option (control_is_supported led)) : LED (Z -> Z));
      mret (f (mode t) =? 0).

(** ** The device *)
Definition get_device_state (e : netdev_env) : LED unit :=
  t ← get_led;
  d ← (M_lift (of_option (net_dev t)) : LED nat);
  upd_led (fun t =>
    let t := t <| carrier_link_up := carrier_ok e d |> in
    if negb (carrier_link_up t) then t
    else match link_ksettings e d with
         | Some (speed, dup) => t <| link_speed := s32 speed |> <| duplex := u8 dup |>
         | None => t
         end).
Definition forget_link (t : led_data) : led_data :=
  t <| carrier_link_up := false |> <| link_speed := SPEED_UNKNOWN |> <| duplex := DUPLEX_UNKNOWN |>.
Definition NEWLINE : Z := 10.
(** [memcpy], the NUL, and the newline at the end. *)
Definition copy_name (name buf : list Z) : res (list Z) :=
  let size := length name in
  buf ← wr 0 name buf;
  buf ← wr size [0] buf;
  if (0 <? size)%nat && bool_decide (buf !! (size - 1)%nat = Some NEWLINE) then wr (size - 1) [0] buf else Ok buf.
Definition lookup_device (e : netdev_env) : LED unit :=
  t ← get_led;
  if bool_decide (device_name t !! 0%nat = Some 0) then mret tt
  else
    name ← (M_lift (c_text (device_name t)) : LED cstr);
    match dev_by_name e name with
    | Some d => _ ← led_do (Hold d); upd_led (fun t => t <| net_dev := Some d |>)
    | None => upd_led (fun t => t <| net_dev := None |>)
    end.
Definition set_device_name (e : netdev_env) (name : list Z) : LED Z :=
  if (IFNAMSIZ <=? length name)%nat then mret LED_EINVAL
  else
    _ ← cancel_delayed_work_sync;
    t ← get_led;
    _ ← (dev_put (net_dev t) : LED unit);
    _ ← upd_led (fun t => t <| net_dev := None |>);
    buf ← (M_lift (copy_name name (device_name t)) : LED (list Z));
    _ ← upd_led (fun t => t <| device_name := buf |>);
    _ ← lookup_device e;
    _ ← upd_led forget_link;
    t ← get_led;
    _ ← M_when (bool_decide (is_Some (net_dev t))) (get_device_state e);
    _ ← upd_led (fun t => t <| last_activity := 0 |>);
    _ ← set_baseline_state e;
    mret 0.

(** ** Attributes *)

(** A show: what it prints, or an error. *)
Definition device_name_show (t : led_data) : res cstr :=
  name ← c_text (device_name t); Ok (name ++ [NEWLINE]).
Definition device_name_store (e : netdev_env) (buf : list Z) : LED Z :=
  ret ← set_device_name e buf;
  mret (if ret <? 0 then ret else Z.of_nat (length buf)).
Definition netdev_mode (attr : Z) : bool :=
  bool_decide (attr ∈ [TRIGGER_NETDEV_LINK; TRIGGER_NETDEV_LINK_10; TRIGGER_NETDEV_LINK_100; TRIGGER_NETDEV_LINK_1000;
                       TRIGGER_NETDEV_HALF_DUPLEX; TRIGGER_NETDEV_FULL_DUPLEX; TRIGGER_NETDEV_TX; TRIGGER_NETDEV_RX]).
Definition netdev_led_attr_show (attr : Z) (t : led_data) : Z + cstr :=
  if netdev_mode attr then inr (show_int (b2z (test_bit attr (mode t))) ++ [NEWLINE]) else inl LED_EINVAL.
Definition set_mode_bit (bit state mode : Z) : Z := if truth state then Z.setbit mode bit else Z.clearbit mode bit.
(** [link] together with a link of a certain speed. *)
Definition mode_conflict (mode : Z) : bool :=
  test_bit TRIGGER_NETDEV_LINK mode
  && (test_bit TRIGGER_NETDEV_LINK_10 mode || test_bit TRIGGER_NETDEV_LINK_100 mode || test_bit TRIGGER_NETDEV_LINK_1000 mode).
Definition netdev_led_attr_store (e : netdev_env) (attr : Z) (buf : list Z) : LED Z :=
  t ← get_led;
  let '(ret, state) := kstrtoul buf in
  if truth ret then mret ret
  else if negb (netdev_mode attr) then mret LED_EINVAL
  else
    let new := set_mode_bit attr state (mode t) in
    if mode_conflict new then mret LED_EINVAL
    else
      _ ← cancel_delayed_work_sync;
      _ ← upd_led (fun t => t <| mode := new |>);
      hw ← can_hw_control e;
      _ ← upd_led (fun t => t <| hw_control := hw |>);
      _ ← set_baseline_state e;
      mret (Z.of_nat (length buf)).
Definition interval_show (t : led_data) : cstr := show_int (u32 (jiffies_to_msecs (interval t))) ++ [NEWLINE].
Definition interval_store (e : netdev_env) (buf : list Z) : LED Z :=
  t ← get_led;
  if hw_control t then mret LED_EINVAL
  else
    let '(ret, value) := kstrtoul buf in
    if truth ret then mret ret
    else
      _ ← M_when ((5 <=? value) && (value <=? 10000))
            (_ ← cancel_delayed_work_sync;
             _ ← upd_led (fun t => t <| interval := s32 (msecs_to_jiffies value) |>);
             set_baseline_state e : LED unit);
      mret (Z.of_nat (length buf)).
Definition offloaded_show (t : led_data) : cstr := show_int (b2z (hw_control t)) ++ [NEWLINE].

(** ** Events *)
Definition name_matches (e : netdev_env) (dev : nat) (t : led_data) : LED bool :=
  name ← (M_lift (c_text (device_name t)) : LED cstr); mret (bool_decide (name_of e dev = name)).
(** The events that are looked at, and whether this one is about the device shown or one of
    its name. *)
Definition concerns (e : netdev_env) (evt : netdev_event) (dev : nat) : LED bool :=
  t ← get_led;
  if bool_decide (Some dev = net_dev t) then mret true
  else match evt with
       | NETDEV_CHANGENAME | NETDEV_REGISTER => name_matches e dev t
       | _ => mret false
       end.
Definition follow_event (e : netdev_env) (evt : netdev_event) (dev : nat) : LED unit :=
  t ← get_led;
  match evt with
  | NETDEV_CHANGENAME | NETDEV_REGISTER =>
      _ ← (dev_put (net_dev t) : LED unit);
      _ ← led_do (Hold dev);
      _ ← upd_led (fun t => t <| net_dev := Some dev |>);
      if decide (evt = NETDEV_CHANGENAME) then get_device_state e else mret tt
  | NETDEV_UNREGISTER =>
      _ ← (dev_put (net_dev t) : LED unit);
      upd_led (fun t => t <| net_dev := None |>)
  | NETDEV_UP | NETDEV_CHANGE => get_device_state e
  | NETDEV_DOWN | NETDEV_OTHER => mret tt
  end.
(** Always [NOTIFY_DONE]. *)
Definition netdev_trig_notify (e : netdev_env) (evt : netdev_event) (dev : nat) : LED unit :=
  if decide (evt = NETDEV_OTHER) then mret tt
  else
    ours ← concerns e evt dev;
    if negb ours then mret tt
    else
      _ ← cancel_delayed_work_sync;
      _ ← upd_led forget_link;
      _ ← follow_event e evt dev;
      set_baseline_state e.
(** The work item runs: it is not scheduled any more. *)
Definition new_activity (e : netdev_env) (d : nat) (t : led_data) : Z :=
  u32 ((if test_bit TRIGGER_NETDEV_TX (mode t) then (stats64 e d).1 else 0)
       + (if test_bit TRIGGER_NETDEV_RX (mode t) then (stats64 e d).2 else 0)).
Definition base_is_on (t : led_data) : bool :=
  test_bit TRIGGER_NETDEV_LINK (mode t) || test_bit TRIGGER_NETDEV_LINK_10 (mode t)
  || test_bit TRIGGER_NETDEV_LINK_100 (mode t) || test_bit TRIGGER_NETDEV_LINK_1000 (mode t)
  || test_bit TRIGGER_NETDEV_HALF_DUPLEX (mode t) || test_bit TRIGGER_NETDEV_FULL_DUPLEX (mode t).
Definition blink_once (activity : Z) : LED unit :=
  t ← get_led;
  let ms := jiffies_to_msecs (interval t) in
  _ ← led_do StopBlink;
  _ ← led_do (BlinkOneshot ms ms (base_is_on t));
  upd_led (fun t => t <| last_activity := activity |>).
Definition netdev_trig_work (e : netdev_env) : LED unit :=
  _ ← cancel_delayed_work_sync;
  t ← get_led;
  match net_dev t with
  | None => led_do (Brightness LED_OFF)
  | Some d =>
      if negb (wants_traffic t) then mret tt
      else
        let activity := new_activity e d t in
        _ ← M_when (negb (last_activity t =? activity)) (blink_once activity);
        schedule_delayed_work (interval t * 2)
  end.

(** ** Activation *)

(** [kzalloc], the fields that are set. *)
Definition fresh_led (t : led_data) : led_data :=
  mkLed true None None (zeros IFNAMSIZ) (s32 default_interval) 0 0 0 0 false false (blink_brightness t) (led_out t).
(** The driver may be in control already. *)
Definition adopt_hw_control (e : netdev_env) : LED unit :=
  if negb supports_hw_control then mret tt
  else
    dev ← hw_control_get_device e;
    match dev with
    | None => mret tt
    | Some d =>
        _ ← set_device_name e (name_of e d);
        _ ← upd_led (fun t => t <| hw_control := true |>);
        let '(rc, m) := hw_mode e in
        M_when (rc =? 0) (upd_led (fun t => t <| mode := m |>))
    end.
Fixpoint replay (evs : list (netdev_event * nat * netdev_env)) : LED unit :=
  match evs with
  | [] => mret tt
  | (evt, dev, e) :: evs => _ ← netdev_trig_notify e evt dev; replay evs
  end.
(** When the notifier is registered and when it is unregistered the networking core reports
    the devices that there are. *)
Definition netdev_trig_activate (e : netdev_env) (alloc_ok : bool) (rc : Z) (evs : list (netdev_event * nat * netdev_env)) : LED Z :=
  if negb alloc_ok then mret LED_ENOMEM
  else
    _ ← upd_led fresh_led;
    _ ← adopt_hw_control e;
    _ ← (if truth rc then upd_led (fun t => t <| allocated := false |>) else replay evs);
    mret rc.
Definition netdev_trig_deactivate (evs : list (netdev_event * nat * netdev_env)) : LED unit :=
  _ ← replay evs;
  _ ← cancel_delayed_work_sync;
  _ ← led_do (Brightness LED_OFF);
  t ← get_led;
  _ ← (dev_put (net_dev t) : LED unit);
  upd_led (fun t => t <| allocated := false |>).

(** ** Everything that can happen, in any order *)
Inductive led_op :=
  | Activate (alloc_ok : bool) (rc : Z) (evs : list (netdev_event * nat * netdev_env))
  | Deactivate (evs : list (netdev_event * nat * netdev_env))
  | StoreName (buf : list Z) | StoreMode (attr : Z) (buf : list Z) | StoreInterval (buf : list Z)
  | Notify (evt : netdev_event) (dev : nat) | Work.
(** The attributes, the events and the work item are there while the data is allocated; the
    work item runs when it is scheduled. *)
Definition led_enabled (op : led_op) (t : led_data) : bool :=
  match op with
  | Activate _ _ _ => negb (allocated t)
  | Work => allocated t && bool_decide (is_Some (work t))
  | _ => allocated t
  end.
Definition led_op_run (op : led_op) (e : netdev_env) : LED Z :=
  match op with
  | Activate alloc_ok rc evs => netdev_trig_activate e alloc_ok rc evs
  | Deactivate evs => _ ← netdev_trig_deactivate evs; mret 0
  | StoreName buf => device_name_store e buf
  | StoreMode attr buf => netdev_led_attr_store e attr buf
  | StoreInterval buf => interval_store e buf
  | Notify evt dev => _ ← netdev_trig_notify e evt dev; mret 0
  | Work => _ ← netdev_trig_work e; mret 0
  end.
End Trigger.
