(* ===== verification/LedNetdevSpec.v ===== *)
(** The LED trigger: it never faults, it keeps exactly one reference to the device it shows, but
    for those that failed activations lose, it takes over the link of that device with its
    events, polls exactly when there is a carrier and something to poll for, and in software
    control the LED is what the link and the mode say. *)
From S2P Require Import Prelude CmTypes QmiRequests AtTok AtTokSpec LedNetdev.
#[local] Open Scope Z_scope.

(** ** Routines that return with a postcondition *)
Definition lands {A} (m : LED A) (t : led_data) (Q : A -> led_data -> Prop) : Prop :=
  exists a t', m t = Ok (a, t') /\ Q a t'.
Lemma lands_ret {A} (a : A) t (Q : A -> led_data -> Prop) : Q a t -> lands (mret a) t Q.
Proof. intros H. by exists a, t. Qed.
Lemma lands_bind {A B} (m : LED A) (f : A -> LED B) t Q : lands m t (fun a t' => lands (f a) t' Q) -> lands (m ≫= f) t Q.
Proof.
  intros (a & t1 & E1 & b & t2 & E2 & H). exists b, t2. split; [|done]. unfold mbind, LED_bind, M_bind. by rewrite E1.
Qed.
Lemma lands_get t (Q : led_data -> led_data -> Prop) : Q t t -> lands get_led t Q.
Proof. intros H. by exists t, t. Qed.
Lemma lands_upd f t (Q : unit -> led_data -> Prop) : Q tt (f t) -> lands (upd_led f) t Q.
Proof. intros H. by exists tt, (f t). Qed.
Lemma lands_lift {A} (r : res A) a t (Q : A -> led_data -> Prop) : r = Ok a -> Q a t -> lands (M_lift r) t Q.
Proof. intros -> H. by exists a, t. Qed.
Lemma lands_when (b : bool) (m : LED unit) t (Q : unit -> led_data -> Prop) :
  (b = true -> lands m t Q) -> (b = false -> Q tt t) -> lands (M_when b m) t Q.
Proof. intros H1 H2. destruct b; [by apply H1|]. by apply lands_ret, H2. Qed.
Lemma lands_mono {A} (m : LED A) t (P Q : A -> led_data -> Prop) : lands m t P -> (forall a t', P a t' -> Q a t') -> lands m t Q.
Proof. intros (a & t' & E & H) HPQ. exists a, t'. split; [done|]. by apply HPQ. Qed.
Lemma lands_then {A B} (m : LED A) (f : A -> LED B) t (P : A -> led_data -> Prop) Q :
  lands m t P -> (forall a t', P a t' -> lands (f a) t' Q) -> lands (m ≫= f) t Q.
Proof. intros H HPQ. apply lands_bind. by eapply lands_mono. Qed.
(** Through the steps that only look at the data or change it. *)
Ltac lands_step :=
  repeat (lazymatch goal with
  | |- lands (mbind _ _) _ _ => apply lands_bind
  | |- lands (mret _) _ _ => apply lands_ret
  | |- lands get_led _ _ => apply lands_get
  | |- lands (upd_led _) _ _ => apply lands_upd
  | |- lands (led_do _) _ _ => apply lands_upd
  | |- lands cancel_delayed_work_sync _ _ => apply lands_upd
  | |- lands (schedule_delayed_work _) _ _ => apply lands_upd
  | |- lands (M_lift (Ok _)) _ _ => eapply lands_lift; [done|]
  end; cbv beta).

(** ** What the log says *)
Definition ref_delta (d : nat) (x : led_effect) : Z :=
  match x with
  | Hold d' => b2z (bool_decide (d' = d))
  | Put d' => - b2z (bool_decide (d' = d))
  | _ => 0
  end.
(** The references to [d] that are held. *)
Definition net_refs (d : nat) (out : list led_effect) : Z := foldr (fun x n => ref_delta d x + n) 0 out.
(** What the LED shows when no blink is under way: the brightness it was set to, or, after a
    blink, what an inverted blink (lit) or a plain one (dark) ends in. *)
Inductive showing := Steady (v : Z) | AfterBlink (invert : bool).
Definition then_shown (s : showing) (x : led_effect) : showing :=
  match x with Brightness w => Steady w | BlinkOneshot _ _ invert => AfterBlink invert | _ => s end.
(** The LED is off at first. *)
Definition shown (out : list led_effect) : showing := foldl then_shown (Steady LED_OFF) out.
Definition is_lit (s : showing) : bool := match s with Steady v => negb (v =? LED_OFF) | AfterBlink invert => invert end.
Lemma refs_app d l l' : net_refs d (l ++ l') = net_refs d l + net_refs d l'.
Proof. unfold net_refs. induction l as [|x l IH]; [done|]. cbn. rewrite IH. lia. Qed.
Lemma refs_snoc d l x : net_refs d (l ++ [x]) = net_refs d l + ref_delta d x.
Proof. rewrite refs_app. cbn. lia. Qed.
Lemma shown_snoc l x : shown (l ++ [x]) = then_shown (shown l) x.
Proof. unfold shown. by rewrite foldl_app. Qed.

(** ** The link as the environment has it *)
Definition link_view : Type := bool * Z * Z.
Definition seen (t : led_data) : link_view := (carrier_link_up t, link_speed t, duplex t).
Definition no_link : link_view := (false, SPEED_UNKNOWN, DUPLEX_UNKNOWN).
(** Carrier, speed and duplex of a device; a link whose settings are refused has neither speed
    nor duplex. *)
Definition link_now (e : netdev_env) (d : nat) : link_view :=
  if carrier_ok e d then
    match link_ksettings e d with Some (speed, dup) => (true, s32 speed, u8 dup) | None => (true, SPEED_UNKNOWN, DUPLEX_UNKNOWN) end
  else no_link.
(** The modes that a link of some speed and duplex answers to. *)
Definition answers (v : link_view) : list (Z * bool) :=
  let '(_, speed, dup) := v in
  [(TRIGGER_NETDEV_LINK, true); (TRIGGER_NETDEV_LINK_10, speed =? 10); (TRIGGER_NETDEV_LINK_100, speed =? 100);
   (TRIGGER_NETDEV_LINK_1000, speed =? 1000); (TRIGGER_NETDEV_HALF_DUPLEX, dup =? 0); (TRIGGER_NETDEV_FULL_DUPLEX, dup =? 1)].
Definition agrees (mode : Z) (v : link_view) : bool := existsb (fun '(bit, yes) => Z.testbit mode bit && yes) (answers v).
(** A mode about the link is set, whether or not the link agrees with it. *)
Definition asks_link (mode : Z) (v : link_view) : bool := existsb (fun '(bit, _) => Z.testbit mode bit) (answers v).
(** The event is about the device that is shown, or makes one of its name appear. *)
Definition ours (e : netdev_env) (evt : netdev_event) (dev : nat) (t : led_data) : bool :=
  bool_decide (Some dev = net_dev t)
  || bool_decide (evt ∈ [NETDEV_CHANGENAME; NETDEV_REGISTER]) && bool_decide (name_of e dev = until_nul (device_name t)).
Definition after_event (e : netdev_env) (evt : netdev_event) (dev : nat) (t : led_data) : link_view :=
  if bool_decide (evt = NETDEV_OTHER) || negb (ours e evt dev t) then seen t
  else if bool_decide (evt ∈ [NETDEV_UP; NETDEV_CHANGE; NETDEV_CHANGENAME]) then link_now e dev else no_link.
(** After a name is stored, with the device that was found. *)
Definition after_name (e : netdev_env) (buf : list Z) (t t' : led_data) : link_view :=
  if (IFNAMSIZ <=? length buf)%nat then seen t
  else match net_dev t' with Some d => link_now e d | None => no_link end.
Lemma answers_on t : carrier_link_up t && blink_on t = carrier_link_up t && agrees (mode t) (seen t).
Proof. unfold blink_on, agrees, seen, answers, test_bit. cbn [existsb]. rewrite !orb_assoc, andb_true_r, orb_false_r. done. Qed.
Lemma asks_on t v : base_is_on t = asks_link (mode t) v.
Proof. destruct v as [[? ?] ?]. unfold base_is_on, asks_link, answers, test_bit. cbn [existsb]. by rewrite !orb_assoc, orb_false_r. Qed.

#[local] Arguments constant {_} _ _ /.
Arguments net_refs : simpl never.
Arguments shown : simpl never.

Lemma c_text_Ok b : 0 ∈ b -> c_text b = Ok (until_nul b).
Proof. intros H. unfold c_text. by rewrite bool_decide_true. Qed.
(** ** The name is read back *)
(** A name, with or without a newline at its end, is what the buffer holds. *)
Lemma copy_name_text (name buf : list Z) (nl : bool) : 0 ∉ name -> NEWLINE ∉ name -> (length name + (if nl then 1 else 0) < IFNAMSIZ)%nat ->
  length buf = IFNAMSIZ -> exists buf', copy_name (name ++ if nl then [NEWLINE] else []) buf = Ok buf' /\ c_text buf' = Ok name.
Proof.
  intros H0 Hn Hl Hb. assert (forall rest, c_text (name ++ 0 :: rest) = Ok name) as Ht.
  { intros rest. rewrite c_text_Ok by set_solver. by rewrite until_nul_app. }
  unfold copy_name. set (text := name ++ _). assert (length text = (length name + (if nl then 1 else 0))%nat) as Et.
  { subst text. rewrite length_app. by destruct nl. }
  assert (wr 0 text buf = Ok (text ++ drop (length text) buf)) as ->.
  { unfold wr. destruct (Nat.leb_spec (0 + length text) (length buf)); [done|lia]. }
  cbn [mbind res_bind]. destruct (drop (length text) buf) as [|x rest] eqn:Ed.
  { apply (f_equal length) in Ed. rewrite length_drop in Ed. cbn in Ed. lia. }
  change (x :: rest) with ([x] ++ rest). rewrite (wr_app text [x] rest [0]) by done. cbn [mbind res_bind]. destruct nl.
  - assert (text = name ++ [NEWLINE]) as -> by done. rewrite Et. destruct (Nat.ltb_spec 0 (length name + 1)); [|lia].
    replace (length name + 1 - 1)%nat with (length name) by lia. rewrite <- app_assoc, lookup_app_r, Nat.sub_diag by lia. cbn.
    eexists. split; [apply (wr_app name [NEWLINE] (0 :: rest) [0]); done|]. apply Ht.
  - assert (text = name) as -> by apply app_nil_r. case_bool_decide as Hx; [|rewrite andb_false_r; eexists; split; [done|apply Ht]].
    destruct (Nat.ltb_spec 0 (length name)); cbn; [|eexists; split; [done|apply Ht]].
    rewrite lookup_app_l in Hx by lia. by apply list_elem_of_lookup_2 in Hx.
Qed.

Section Spec.
Context (led : led_class) (msecs_to_jiffies jiffies_to_msecs : Z -> Z) (kstrtoul : cstr -> Z * Z).
Context (Hdev : supports_hw_control led = true -> has_get_device led = true).
Implicit Types (t : led_data) (e : netdev_env).

Section Lost.
(** The references that were lost earlier. *)
Context (lost : nat -> Z).

(** ** The invariant *)

(** What the LED should show in software control. *)
Definition lit t : bool := carrier_link_up t && blink_on t.
Definition polls t : bool := carrier_link_up t && wants_traffic t && negb (hw_control t).
Definition holds_ref t (d : nat) : Z := b2z (bool_decide (net_dev t = Some d)).
(** While an operation is under way. *)
Record mid t : Prop := {
  mi_alloc : allocated t = true; mi_refs : forall d, net_refs d (led_out t) = lost d + holds_ref t d;
  mi_len : length (device_name t) = IFNAMSIZ; mi_nul : 0 ∈ device_name t;
  mi_hw : hw_control t = true -> has_control_set led = true;
  mi_carrier : carrier_link_up t = true -> is_Some (net_dev t) }.
Definition steady t : Prop := shown (led_out t) = Steady (if lit t then blink_brightness t else LED_OFF).
Record live t : Prop := {
  lv_mid : mid t; lv_polls : is_Some (work t) <-> polls t = true;
  lv_shown : hw_control t = false -> steady t \/ shown (led_out t) = AfterBlink (base_is_on t) /\ carrier_link_up t = true;
  lv_blink : max_brightness led <> 0 -> hw_control t = false -> carrier_link_up t = true -> blink_brightness t <> 0 }.
Record led_idle t : Prop := {
  id_alloc : allocated t = false; id_refs : forall d, net_refs d (led_out t) = lost d; id_shown : shown (led_out t) = Steady LED_OFF }.
Definition led_inv t : Prop := led_idle t \/ live t.

Lemma mid_effect t x : (forall d, ref_delta d x = 0) -> mid t -> mid (t <| led_out := led_out t ++ [x] |>).
Proof.
  intros Hx [H1 H2 H3 H4 H5 H6]. destruct t. split; cbn in *; try done. intros d. by rewrite refs_snoc, Hx, H2, Z.add_0_r.
Qed.
Lemma mid_blink t v : mid t -> mid (t <| blink_brightness := v |>).
Proof. by intros []. Qed.
Lemma mid_work t w : mid t -> mid (t <| work := w |>).
Proof. by intros []. Qed.

(** The baseline: the LED and the work item follow the other fields. *)
Definition settled t t' : Prop := live t' /\ (hw_control t = false -> steady t') /\
  exists w out, t' = t <| work := w |> <| led_out := out |> <| blink_brightness := blink_brightness t' |>.
Lemma set_blink_lands e t : exists v, set_blink_brightness led e t = Ok (tt, t <| blink_brightness := v |>) /\
  (max_brightness led <> 0 -> v <> 0).
Proof.
  unfold set_blink_brightness, upd_led, M_upd, truth. destruct t as [? ? ? ? ? ? ? ? ? ? ? bb ?].
  destruct (Z.eqb_spec (cur_brightness e) 0); cbn.
  - destruct (Z.eqb_spec bb 0); by eexists.
  - destruct (Z.eqb_spec (cur_brightness e) 0); [done|]. by eexists.
Qed.
Lemma settle t v w : mid t -> hw_control t = false -> (max_brightness led <> 0 -> v <> 0) -> (is_Some w <-> polls t = true) ->
  settled t (((t <| blink_brightness := v |>) <| led_out := led_out t ++ [Brightness (if lit t then v else LED_OFF)] |>) <| work := w |>).
Proof.
  intros Ht Hh Hv Hp. set (t' := _ <| work := w |>). assert (steady t') as Hs by (unfold steady; subst t'; destruct t; cbn; by rewrite shown_snoc).
  split; [|split; [done|by eexists _, _]]. split.
  - apply (mid_blink _ v) in Ht. apply (mid_effect _ (Brightness (if lit t then v else LED_OFF))) in Ht; [|done]. exact (mid_work _ w Ht).
  - by destruct t.
  - by left.
  - intros H _ _. by apply Hv.
Qed.
Lemma baseline_lands e t : mid t -> work t = None -> lands (set_baseline_state led e) t (fun _ t' => settled t t').
Proof.
  intros Ht Hw. unfold set_baseline_state. lands_step. destruct (hw_control t) eqn:Eh.
  - rewrite (mi_hw t Ht Eh). lands_step. split; [|split; [by destruct t; cbn in *; subst|destruct t; cbn in *; subst; by eexists _, _]].
    split; [by apply mid_effect|..]; destruct t; cbn in *; subst; [|done..].
    unfold polls. cbn. rewrite andb_false_r. split; [by intros []|done].
  - destruct (set_blink_lands e t) as (v & E & Hv). apply lands_bind. exists tt. eexists. split; [exact E|].
    pose proof (fun w => settle t v w Ht Eh Hv) as Hs. lands_step.
    destruct (carrier_link_up _) eqn:Ec in |- *; cbn [negb]; lands_step; [apply lands_when; intros Et; lands_step|].
    + specialize (Hs (Some 0)). destruct t. cbn in *. subst. apply Hs. unfold polls, wants_traffic in *. cbn in *. by rewrite Et.
    + specialize (Hs None). destruct t. cbn in *. subst. apply Hs. unfold polls, wants_traffic in *. cbn in *. rewrite Et. by split; [intros []|].
    + specialize (Hs None). destruct t. cbn in *. subst. apply Hs. split; [by intros []|done].
Qed.

(** ** Routines *)
Lemma can_hw_lands e t : mid t -> lands (can_hw_control led msecs_to_jiffies e) t (fun hw t' => t' = t /\
  (hw = true -> supports_hw_control led = true /\ hw_device e = net_dev t /\ is_Some (net_dev t))).
Proof.
  intros Ht. unfold can_hw_control. lands_step. destruct (supports_hw_control led) eqn:Es; cbn [negb]; lands_step; [|done].
  destruct (negb (u32 _ =? _)); lands_step; [done|]. unfold validate_net_dev, hw_control_get_device. rewrite Hdev by done. lands_step.
  destruct (hw_device e) as [d|] eqn:Ed; cbn [negb]; lands_step; [|done].
  case_bool_decide as Eq; cbn [negb]; lands_step; [|done].
  unfold supports_hw_control in Es. rewrite !andb_true_iff, !bool_decide_eq_true in Es. destruct Es as [[_ [f Ef]] _].
  rewrite Ef. cbn [of_option]. lands_step. split; [done|]. intros _. by rewrite <- Eq.
Qed.
Lemma get_device_state_lands e t d : mid t -> net_dev t = Some d -> lands (get_device_state e) t (fun _ t' => mid t' /\
  (seen t = no_link -> seen t' = link_now e d) /\
  exists up ls dup, t' = t <| carrier_link_up := up |> <| link_speed := ls |> <| duplex := dup |>).
Proof.
  intros Ht Hd. unfold get_device_state. lands_step. eapply lands_lift; [by rewrite Hd|]. lands_step.
  destruct Ht as [H1 H2 H3 H4 H5 H6], t. cbn in *. subst. destruct (carrier_ok e d) eqn:Ec; cbn [negb].
  - destruct (link_ksettings e d) as [[s dup]|] eqn:Es; (split; [by split|]); (split; [|by eexists _, _, _]);
      unfold link_now; rewrite Ec, Es; [done|]. by intros [= -> -> ->].
  - split; [by split|]. split; [|by eexists _, _, _]. unfold link_now. rewrite Ec. by intros [= -> -> ->].
Qed.
Lemma forget_mid t : mid t -> mid (forget_link t).
Proof. intros [H1 H2 H3 H4 H5 H6]. destruct t. by split. Qed.

(** ** The name *)
Lemma wr_nul o b b' : wr o [0] b = Ok b' -> 0 ∈ b'.
Proof. unfold wr. destruct (_ <=? _)%nat; [|done]. intros [= <-]. set_solver. Qed.
Lemma wr_Ok o bs b : (o + length bs <= length b)%nat -> exists b', wr o bs b = Ok b' /\ length b' = length b.
Proof.
  intros H. destruct (wr o bs b) as [b'| |] eqn:E.
  - exists b'. split; [done|]. by eapply wr_length.
  - unfold wr in E. destruct (Nat.leb_spec (o + length bs) (length b)); [done|lia].
  - unfold wr in E. by destruct (_ <=? _)%nat.
Qed.
Lemma copy_name_Ok name buf : (length name < IFNAMSIZ)%nat -> length buf = IFNAMSIZ ->
  exists buf', copy_name name buf = Ok buf' /\ length buf' = IFNAMSIZ /\ 0 ∈ buf'.
Proof.
  intros Hn Hb. unfold copy_name. destruct (wr_Ok 0 name buf) as (b1 & E1 & L1); [lia|]. rewrite E1. cbn [mbind res_bind].
  destruct (wr_Ok (length name) [0] b1) as (b2 & E2 & L2); [cbn; lia|]. rewrite E2. cbn [mbind res_bind].
  destruct (_ && _) eqn:Ec.
  - apply andb_true_iff in Ec as [Ec _]. apply Nat.ltb_lt in Ec.
    destruct (wr_Ok (length name - 1) [0] b2) as (b3 & E3 & L3); [cbn; lia|]. exists b3. rewrite E3.
    split_and!; [done|lia|]. by eapply wr_nul.
  - exists b2. split_and!; [done|lia|]. by eapply wr_nul.
Qed.
(** No reference is left when the device is given up. *)
Lemma dev_put_lands t : mid t -> lands (dev_put (net_dev t)) t (fun _ t' =>
  exists out, t' = t <| led_out := out |> /\ (forall d, net_refs d out = lost d) /\ shown out = shown (led_out t)).
Proof.
  intros Ht. pose proof (mi_refs t Ht) as Hr. unfold holds_ref in Hr. destruct (net_dev t) as [d|] eqn:Ed; cbn [dev_put]; lands_step.
  - eexists. split; [done|]. rewrite shown_snoc. split; [|done]. intros d'. rewrite refs_snoc, Hr. cbn.
    destruct (decide (d = d')) as [->|]; [rewrite !bool_decide_true by done|rewrite !bool_decide_false by congruence]; unfold b2z; lia.
  - exists (led_out t). split; [by destruct t|]. split; [|done]. intros d. rewrite Hr, bool_decide_false by done. unfold b2z. lia.
Qed.
Lemma refs_held out d : (forall d', net_refs d' out = lost d') ->
  forall d', net_refs d' (out ++ [Hold d]) = lost d' + b2z (bool_decide (Some d = Some d')).
Proof.
  intros H d'. rewrite refs_snoc, H. cbn. by destruct (decide (d = d')) as [->|]; [rewrite !bool_decide_true|rewrite !bool_decide_false by congruence].
Qed.
Lemma lookup_lands e t : net_dev t = None -> 0 ∈ device_name t -> (forall d, net_refs d (led_out t) = lost d) ->
  lands (lookup_device e) t (fun _ t' => exists nd out, t' = t <| net_dev := nd |> <| led_out := out |> /\
    (forall d, net_refs d out = lost d + b2z (bool_decide (nd = Some d))) /\ shown out = shown (led_out t)).
Proof.
  intros Hd Hn Hr. unfold lookup_device. lands_step. case_bool_decide; lands_step; [exists None, (led_out t); split; [by destruct t; cbn in *; subst|split; [intros d; rewrite Hr, bool_decide_false by done; unfold b2z; lia|done]]|].
  eapply lands_lift; [by apply c_text_Ok|]. destruct (dev_by_name e _) as [d|]; lands_step.
  - exists (Some d), (led_out t ++ [Hold d]). split; [by destruct t|]. split; [by apply refs_held|by rewrite shown_snoc].
  - exists None, (led_out t). split; [by destruct t|]. split; [intros d; rewrite Hr, bool_decide_false by done; unfold b2z; lia|done].
Qed.
Lemma set_device_name_lands e name t : mid t -> (length name < IFNAMSIZ)%nat ->
  lands (set_device_name led e name) t (fun r t' => r = 0 /\ live t' /\ (hw_control t = false -> steady t') /\
    hw_control t' = hw_control t /\ mode t' = mode t /\
    copy_name name (device_name t) = Ok (device_name t') /\ seen t' = match net_dev t' with Some d => link_now e d | None => no_link end).
Proof.
  intros Ht Hn. unfold set_device_name. destruct (Nat.leb_spec IFNAMSIZ (length name)); [lia|]. lands_step.
  apply (mid_work _ None) in Ht. set (t0 := t <| work := None |>) in *.
  eapply lands_mono; [by apply dev_put_lands|]. intros _ ? (out & -> & Hr & _). lands_step.
  destruct (copy_name_Ok name (device_name t0)) as (buf & E & Hl & H0); [done|apply Ht|].
  eapply lands_lift; [exact E|]. lands_step.
  eapply lands_mono; [apply lookup_lands; [done..]|]. intros _ ? (nd & out' & -> & Hr' & _). lands_step.
  set (same := fun x => hw_control x = hw_control t /\ mode x = mode t /\ copy_name name (device_name t) = Ok (device_name x)).
  match goal with |- lands _ ?x _ => assert (mid x) as H1; [|assert (work x = None /\ seen x = no_link /\ same x) as (Hw & Hv & Hc) by (by destruct t);
    revert H1 Hw Hv Hc; generalize x; clear dependent buf out out' nd t0; intros t1 Ht1 Hw Hv Hc] end.
  { destruct Ht as [H1 H2 H3 H4 H5 H6], t. split; cbn in *; done. }
  apply (lands_mono _ _ (fun _ x => mid x /\ work x = None /\ same x /\
    seen x = match net_dev x with Some d => link_now e d | None => no_link end)).
  - apply lands_when; intros Hd.
    + apply bool_decide_eq_true in Hd as [d Hd]. eapply lands_mono; [by eapply get_device_state_lands|].
      intros _ t2 (Ht2 & Hv2 & up & ls & dup & E2). split; [done|]. rewrite (Hv2 Hv).
      assert (net_dev t2 = Some d) as -> by (by rewrite E2; destruct t1). rewrite E2. by destruct t1.
    + apply bool_decide_eq_false in Hd. split_and!; [done..|]. destruct (net_dev t1); [by destruct Hd|done].
  - intros _ t2 (Ht2 & Hw2 & Hc2 & Hv2). lands_step.
    eapply lands_mono; [apply baseline_lands; [by destruct Ht2 as [H1 H2 H3 H4 H5 H6], t2|by destruct t2]|].
    intros _ t3 (H3 & Hs & w & out & E). lands_step. split; [done|]. split; [done|]. destruct Hc2 as (C1 & C2 & C3).
    split; [intros Hh; apply Hs; destruct t2; cbn in *; congruence|]. rewrite E. destruct t2; cbn in *; split_and!; done.
Qed.

(** ** Events *)
Lemma concerns_lands e evt dev t : mid t -> evt <> NETDEV_OTHER -> lands (concerns e evt dev) t (fun b t' => t' = t /\ b = ours e evt dev t).
Proof.
  intros Ht Ho. unfold concerns, ours. lands_step. case_bool_decide; lands_step; [done|].
  assert (lands (name_matches e dev t) t (fun b t' => t' = t /\ b = bool_decide (name_of e dev = until_nul (device_name t)))) as Hm.
  { unfold name_matches. lands_step. eapply lands_lift; [by apply c_text_Ok, Ht|]. by lands_step. }
  destruct evt; lands_step; done.
Qed.
Lemma ours_shown e evt dev t : ours e evt dev t = true -> evt <> NETDEV_CHANGENAME -> evt <> NETDEV_REGISTER -> net_dev t = Some dev.
Proof.
  unfold ours. intros H H1 H2. rewrite (bool_decide_false (evt ∈ _)), andb_false_l, orb_false_r in H by set_solver. by apply bool_decide_eq_true in H.
Qed.
Lemma follow_lands e evt dev t : mid t -> seen t = no_link -> work t = None -> evt <> NETDEV_OTHER ->
  (evt <> NETDEV_CHANGENAME -> evt <> NETDEV_REGISTER -> net_dev t = Some dev) ->
  lands (follow_event e evt dev) t (fun _ t' => mid t' /\ work t' = None /\ hw_control t' = hw_control t /\ mode t' = mode t /\
    seen t' = if bool_decide (evt ∈ [NETDEV_UP; NETDEV_CHANGE; NETDEV_CHANGENAME]) then link_now e dev else no_link).
Proof.
  intros Ht Hv Hw Ho Hn. unfold follow_event. lands_step. assert (carrier_link_up t = false) as Hc by (by injection Hv).
  assert (forall t1, mid t1 -> work t1 = None -> seen t1 = no_link -> net_dev t1 = Some dev -> lands (get_device_state e) t1 (fun _ t' => mid t' /\
    work t' = None /\ hw_control t' = hw_control t1 /\ mode t' = mode t1 /\ seen t' = link_now e dev)) as Hg.
  { intros t1 Ht1 Hw1 Hv1 Hd. eapply lands_mono; [by eapply get_device_state_lands|]. intros _ ? (Ht2 & Hv2 & up & ls & dup & ->).
    split; [done|]. rewrite (Hv2 Hv1). by destruct t1. }
  assert (forall out, (forall d, net_refs d out = lost d) -> mid (t <| led_out := out ++ [Hold dev] |> <| net_dev := Some dev |>)) as Hh.
  { intros out Hr. destruct Ht as [H1 H2 H3 H4 H5 H6], t. cbn in *. subst. split; cbn; try done. intros d. by apply refs_held. }
  assert (forall out, (forall d, net_refs d out = lost d) -> mid (t <| led_out := out |> <| net_dev := None |>)) as Hz.
  { intros out Hr. destruct Ht as [H1 H2 H3 H4 H5 H6], t. cbn in *. subst. split; cbn; try done. intros d. rewrite Hr. unfold holds_ref. cbn. rewrite bool_decide_false by done. unfold b2z. lia. }
  destruct evt; lands_step; try done; try (by apply Hg; [..|apply Hn]);
    (eapply lands_mono; [by apply dev_put_lands|]; intros _ ? (out & -> & Hr & _); lands_step).
  - specialize (Hh out Hr). rewrite decide_False by done. lands_step. by destruct t.
  - specialize (Hz out Hr). by destruct t.
  - specialize (Hh out Hr). rewrite decide_True by done. destruct t; cbn in *; subst. by apply Hg.
Qed.
Lemma notify_lands e evt dev t : live t -> lands (netdev_trig_notify led e evt dev) t (fun _ t' => live t' /\
  hw_control t' = hw_control t /\ mode t' = mode t /\ seen t' = after_event e evt dev t).
Proof.
  intros Ht. unfold netdev_trig_notify, after_event. destruct (decide (evt = NETDEV_OTHER)) as [Ho|Ho]; [rewrite bool_decide_true by done; by lands_step|].
  rewrite (bool_decide_false (evt = _)) by done. lands_step. eapply lands_mono; [apply concerns_lands; [apply Ht|done]|]. intros b ? [-> ->]. cbn [orb].
  destruct (ours e evt dev t) eqn:Eo; cbn [negb]; lands_step; [|done].
  assert (mid (forget_link (t <| work := None |>))) as Hm by (by apply forget_mid, mid_work, Ht).
  eapply lands_mono; [apply (follow_lands e evt dev); [done|by destruct t|by destruct t|done|]|].
  { intros H1 H2. rewrite <- (ours_shown e evt dev t) by done. by destruct t. }
  intros _ t2 (Ht2 & Hw2 & Hh2 & Hm2 & Hv2). eapply lands_mono; [by apply baseline_lands|]. intros _ t3 (Ht3 & _ & w & out & E).
  split; [done|]. rewrite <- Hv2, E. destruct t2, t. cbn in *. by subst.
Qed.
Lemma replay_lands evs t : live t -> lands (replay led evs) t (fun _ t' => live t' /\ hw_control t' = hw_control t /\ mode t' = mode t).
Proof.
  revert t. induction evs as [|[[evt dev] e] evs IH]; intros t Ht; cbn [replay]; lands_step; [done|].
  eapply lands_mono; [by apply notify_lands|]. intros _ t1 (Ht1 & E1 & E2 & _). rewrite <- E1, <- E2. by apply IH.
Qed.

(** ** Polling *)

(** The work item of a link that is up: nothing new, or one blink. *)
Lemma live_polled t w a : live t -> polls t = true -> live (t <| work := Some w |> <| last_activity := a |>).
Proof. intros [[] ? ? ?] Hp. destruct t. cbn in *. by repeat split. Qed.
Lemma live_blink t on off : live t -> carrier_link_up t = true ->
  live (t <| led_out := (led_out t ++ [StopBlink]) ++ [BlinkOneshot on off (base_is_on t)] |>).
Proof.
  intros [Hm H3 H4 H5] Hc. split; [|by destruct t|intros _; right; destruct t; cbn in *; by rewrite shown_snoc|by destruct t].
  apply (mid_effect _ StopBlink) in Hm; [|done]. apply (mid_effect _ (BlinkOneshot on off (base_is_on t))) in Hm; [|done].
  by destruct t.
Qed.
Lemma work_lands e t : live t -> is_Some (work t) -> lands (netdev_trig_work jiffies_to_msecs e) t (fun _ t' => live t' /\ seen t' = seen t).
Proof.
  intros Ht Hw. pose proof (proj1 (lv_polls t Ht) Hw) as Hp. pose proof Hp as Hp'. unfold polls in Hp. rewrite !andb_true_iff in Hp. destruct Hp as [[Hc Hx] _].
  unfold netdev_trig_work. lands_step. destruct (mi_carrier t) as [d Hd]; [apply Ht|done|]. change (net_dev (t <| work := None |>)) with (net_dev t).
  rewrite Hd. change (wants_traffic (t <| work := None |>)) with (wants_traffic t). rewrite Hx. cbn [negb]. lands_step.
  apply lands_when; intros _; unfold blink_once; lands_step.
  - set (a := new_activity _ _ _). apply (live_polled t (interval t * 2) a) in Ht; [|done].
    apply (live_blink _ (jiffies_to_msecs (interval t)) (jiffies_to_msecs (interval t))) in Ht; [|by destruct t]. by destruct t.
  - apply (live_polled t (interval t * 2) (last_activity t)) in Ht; [|done]. by destruct t.
Qed.

(** ** Attributes *)
Lemma mode_store_lands e attr buf t : live t -> lands (netdev_led_attr_store led msecs_to_jiffies kstrtoul e attr buf) t (fun r t' => live t' /\ seen t' = seen t /\
  (0 <= r -> (kstrtoul buf).1 = 0 -> netdev_mode attr = true /\ mode t' = set_mode_bit attr (kstrtoul buf).2 (mode t) /\ mode_conflict (mode t') = false)).
Proof.
  intros Ht. unfold netdev_led_attr_store. lands_step. destruct (kstrtoul buf) as [ret state]. unfold truth.
  destruct (Z.eqb_spec ret 0) as [->|Hr]; cbn [negb]; lands_step; [|done].
  destruct (netdev_mode attr) eqn:Ea; cbn [negb]; lands_step; [|split; [done|split; [done|unfold LED_EINVAL; lia]]].
  destruct (mode_conflict _) eqn:Ec; lands_step; [split; [done|split; [done|unfold LED_EINVAL; lia]]|].
  set (t1 := (t <| work := None |>) <| mode := _ |>). assert (mid t1) as Ht1 by (subst t1; by destruct Ht as [[] ? ? ?], t).
  eapply lands_mono; [by apply can_hw_lands|]. intros hw ? [-> Hhw]. lands_step.
  eapply lands_mono; [apply baseline_lands; [|by destruct t]|].
  { destruct Ht1 as [H1 H2 H3 H4 H5 H6]. split; try by destruct t. intros E. destruct hw; [|by destruct t].
    destruct (Hhw eq_refl) as [Hs _]. unfold supports_hw_control in Hs. rewrite !andb_true_iff in Hs. tauto. }
  intros _ t2 (H & _ & w & out & E). lands_step. split; [done|]. rewrite E. subst t1. by destruct t.
Qed.
Lemma interval_store_lands e buf t : live t -> lands (interval_store led msecs_to_jiffies kstrtoul e buf) t (fun _ t' => live t' /\ seen t' = seen t).
Proof.
  intros Ht. unfold interval_store. lands_step. destruct (hw_control t) eqn:Eh; lands_step; [done|].
  destruct (kstrtoul buf) as [ret value]. destruct (truth ret); lands_step; [done|]. apply lands_when; intros _; lands_step; [|done].
  eapply lands_mono; [apply baseline_lands; [|by destruct t]|].
  { by destruct Ht as [[] ? ? ?], t. }
  intros _ t2 (H & _ & w & out & E). lands_step. split; [done|]. rewrite E. by destruct t.
Qed.
Lemma name_store_lands e buf t : live t -> lands (device_name_store led e buf) t (fun _ t' => live t' /\ seen t' = after_name e buf t t').
Proof.
  intros Ht. unfold device_name_store, after_name. lands_step. destruct (Nat.leb_spec IFNAMSIZ (length buf)) as [H|H].
  - unfold set_device_name. destruct (Nat.leb_spec IFNAMSIZ (length buf)); [|lia]. by lands_step.
  - eapply lands_mono; [apply set_device_name_lands; [apply Ht|done]|]. intros r t1 (_ & H1 & _ & _ & _ & _ & H2). by lands_step.
Qed.

(** ** Activation *)
Lemma fresh_live t : led_idle t -> live (fresh_led msecs_to_jiffies t).
Proof.
  intros [H1 H2 H3]. split; [split|..]; cbn; try done.
  - intros d. rewrite H2. unfold holds_ref. cbn. rewrite bool_decide_false by done. unfold b2z. lia.
  - by left.
  - intros _. left. unfold steady, lit. cbn. exact H3.
Qed.
(** Control by the driver is taken over from a LED that is dark and does not poll. *)
Lemma take_over t m : live t -> mode t = 0 -> hw_control t = false -> supports_hw_control led = true ->
  live ((t <| hw_control := true |>) <| mode := m |>).
Proof.
  intros [[] Hp Hs Hb] Hm Hh Es. assert (work t = None) as Hw.
  { destruct (work t) eqn:E; [|done]. destruct Hp as [Hp _]. specialize (Hp ltac:(done)). unfold polls, wants_traffic in Hp. rewrite Hm in Hp.
    by rewrite andb_false_r in Hp. }
  unfold supports_hw_control in Es. rewrite !andb_true_iff in Es. destruct t. cbn in *. subst. split; [split; [done..|by intros _; apply Es|done]|..]; try done. unfold polls. cbn.
  rewrite andb_false_r. split; [by intros []|done].
Qed.
Lemma adopt_lands e t : led_idle t -> lands (adopt_hw_control led e) (fresh_led msecs_to_jiffies t) (fun _ t' => live t' /\
  shown (led_out t') = Steady LED_OFF /\ (supports_hw_control led = false -> net_dev t' = None)).
Proof.
  intros Hi. pose proof (fresh_live t Hi) as Ht. unfold adopt_hw_control.
  destruct (supports_hw_control led) eqn:Es in |- *; cbn [negb]; lands_step; [|split_and!; [done|apply Hi|done]].
  unfold hw_control_get_device. rewrite Hdev by done. lands_step. destruct (hw_device e) as [d|]; lands_step; [|split_and!; [done|apply Hi|done]].
  apply (lands_mono _ _ (fun _ t1 => live t1 /\ shown (led_out t1) = Steady LED_OFF /\ mode t1 = 0 /\ hw_control t1 = false)).
  - destruct (Nat.le_gt_cases IFNAMSIZ (length (name_of e d))) as [H|H].
    + unfold set_device_name. destruct (Nat.leb_spec IFNAMSIZ (length (name_of e d))); [|lia]. lands_step. split_and!; [done|apply Hi|done..].
    + eapply lands_mono; [apply set_device_name_lands; [apply Ht|done]|]. intros r t1 (_ & H1 & Hs & H2 & H3 & _). cbn in Hs, H2, H3.
      split_and!; [done| |done..]. rewrite (Hs eq_refl). unfold lit, blink_on, test_bit. rewrite H3. by rewrite !Z.testbit_0_l, andb_false_r.
  - intros _ t1 (H1 & Hs & H2 & H3). lands_step. destruct (hw_mode e) as [rc m]. apply lands_when; intros _; lands_step.
    + split_and!; [by apply (take_over t1 m)|by destruct t1|done].
    + pose proof (take_over t1 0 H1 H2 H3 Es) as H. split_and!; [destruct t1; cbn in *; by subst|by destruct t1|done].
Qed.
Lemma deactivate_lands evs t : live t -> lands (netdev_trig_deactivate led evs) t (fun _ t' => led_idle t').
Proof.
  intros Ht. unfold netdev_trig_deactivate. lands_step. eapply lands_mono; [by apply replay_lands|]. intros _ t1 [[H1 _ _ _] _]. lands_step.
  eapply lands_mono; [apply dev_put_lands, mid_effect; [done|by apply mid_work]|]. intros _ ? (out & -> & Hr & Hs). lands_step.
  destruct t1. cbn in *. rewrite shown_snoc in Hs. by split.
Qed.

End Lost.

(** ** Everything together *)

(** The reference that is lost with the data when the notifier cannot be registered. *)
Definition leaks (op : led_op) t' : list nat :=
  match op with Activate true rc _ => if truth rc then option_list (net_dev t') else [] | _ => [] end.
Definition lost_count (lost : list nat) (d : nat) : Z := foldr (fun d' n => b2z (bool_decide (d' = d)) + n) 0 lost.
Lemma lost_app l l' d : lost_count (l ++ l') d = lost_count l d + lost_count l' d.
Proof. unfold lost_count. induction l as [|x l IH]; [done|]. cbn. rewrite IH. lia. Qed.
Lemma activate_lands lost e alloc_ok rc evs t : led_idle (lost_count lost) t ->
  lands (netdev_trig_activate led msecs_to_jiffies e alloc_ok rc evs) t (fun _ t' =>
    led_inv (lost_count (lost ++ leaks (Activate alloc_ok rc evs) t')) t' /\
    (supports_hw_control led = false -> leaks (Activate alloc_ok rc evs) t' = [])).
Proof.
  intros Ht. unfold netdev_trig_activate. destruct alloc_ok; cbn [negb leaks]; lands_step; [|rewrite app_nil_r; split; [by left|done]].
  eapply lands_mono; [by apply adopt_lands|]. intros _ t1 (H1 & Hs & H2). lands_step. destruct (truth rc); lands_step.
  - split; [left|intros Hn; specialize (H2 Hn); destruct t1; cbn in *; by subst].
    split; [done| |exact Hs]. intros d. change (net_dev (t1 <| allocated := false |>)) with (net_dev t1).
    change (led_out (t1 <| allocated := false |>)) with (led_out t1). rewrite lost_app, (mi_refs _ t1 (lv_mid _ t1 H1)). unfold holds_ref.
    destruct (net_dev t1) as [d'|]; cbn; [|by rewrite bool_decide_false].
    rewrite Z.add_0_r. by destruct (decide (d' = d)) as [->|]; [rewrite !bool_decide_true|rewrite !bool_decide_false by congruence].
  - rewrite app_nil_r. eapply lands_mono; [by apply replay_lands|]. intros _ t2 [H3 _]. lands_step. split; [by right|done].
Qed.

(** A step, with the devices whose references were lost. *)
Definition led_step (x y : led_data * list nat) : Prop :=
  exists op e r, led_enabled op x.1 = true /\
    led_op_run led msecs_to_jiffies jiffies_to_msecs kstrtoul op e x.1 = Ok (r, y.1) /\ y.2 = x.2 ++ leaks op y.1.
(** The link after an operation; activations and deactivations are told their events. *)
Definition after_op (op : led_op) e t t' : link_view :=
  match op with
  | Notify evt dev => after_event e evt dev t
  | StoreName buf => after_name e buf t t'
  | Activate _ _ _ | Deactivate _ => seen t'
  | StoreMode _ _ | StoreInterval _ | Work => seen t
  end.
Lemma op_lands lost op e t : led_inv (lost_count lost) t -> led_enabled op t = true ->
  lands (led_op_run led msecs_to_jiffies jiffies_to_msecs kstrtoul op e) t (fun _ t' => led_inv (lost_count (lost ++ leaks op t')) t' /\
    seen t' = after_op op e t t' /\ (supports_hw_control led = false -> leaks op t' = [])).
Proof.
  intros [Ht|Ht] He.
  - destruct op; cbn in He; rewrite (id_alloc _ t Ht) in He; try done.
    eapply lands_mono; [by apply (activate_lands lost)|]. intros _ t1 [H1 H2]. done.
  - pose proof (mi_alloc _ t (lv_mid _ t Ht)) as Ha. destruct op; cbn in He; rewrite ?Ha in He; try done; unfold led_op_run; cbn [leaks]; lands_step.
    + eapply lands_mono; [by apply (deactivate_lands (lost_count lost))|]. intros ? t1 H1. lands_step. rewrite app_nil_r. split; [by left|done].
    + eapply lands_mono; [by apply (name_store_lands (lost_count lost))|]. intros r t1 [H1 H2]. rewrite app_nil_r. split; [by right|done].
    + eapply lands_mono; [by apply (mode_store_lands (lost_count lost))|]. intros r t1 (H1 & H2 & _). rewrite app_nil_r. split; [by right|done].
    + eapply lands_mono; [by apply (interval_store_lands (lost_count lost))|]. intros r t1 [H1 H2]. rewrite app_nil_r. split; [by right|done].
    + eapply lands_mono; [by apply (notify_lands (lost_count lost))|]. intros _ t1 (H1 & _ & _ & H2). lands_step. rewrite app_nil_r. split; [by right|done].
    + apply bool_decide_eq_true in He. eapply lands_mono; [by apply (work_lands (lost_count lost))|]. intros _ t1 [H1 H2]. lands_step.
      rewrite app_nil_r. split; [by right|done].
Qed.
Lemma led_reach t t' lost : allocated t = false -> led_out t = [] -> rtc led_step (t, []) (t', lost) ->
  led_inv (lost_count lost) t' /\ (supports_hw_control led = false -> lost = []).
Proof.
  intros Ha Ho Hr. set (I := fun x : led_data * list nat => led_inv (lost_count x.2) x.1 /\ (supports_hw_control led = false -> x.2 = [])).
  apply (inv_rtc led_step I) in Hr; [exact Hr| |split; [left; split; cbn; [done|intros d; by rewrite Ho|by rewrite Ho]|done]].
  intros [x l] [y l'] [Hx Hl] (op & e & r & He & E & El). cbn [fst snd] in *. subst l'. destruct (op_lands l op e x Hx He) as (a & t1 & E1 & H1 & _ & H2).
  rewrite E in E1. simplify_eq. split; [exact H1|]. intros Hn. cbn. by rewrite (Hl Hn), (H2 Hn).
Qed.

(** A run of given operations. *)
Fixpoint led_run (ops : list (led_op * netdev_env)) (x : led_data * list nat) : option (led_data * list nat) :=
  match ops with
  | [] => Some x
  | (op, e) :: ops =>
      if led_enabled op x.1 then
        match led_op_run led msecs_to_jiffies jiffies_to_msecs kstrtoul op e x.1 with
        | Ok (_, t') => led_run ops (t', x.2 ++ leaks op t')
        | _ => None
        end
      else None
  end.
Lemma led_run_steps ops x y : led_run ops x = Some y -> rtc led_step x y.
Proof.
  revert x. induction ops as [|[op e] ops IH]; intros x H; cbn [led_run] in H; [by simplify_eq|].
  destruct (led_enabled op x.1) eqn:He; [|done].
  destruct (led_op_run _ _ _ _ _ _ _) as [[r t1]| |] eqn:E; [|done..]. apply (rtc_l _ _ (t1, x.2 ++ leaks op t1)); [by exists op, e, r|by apply IH].
Qed.

(** C32. The LED trigger keeps the books of its references, for a LED whose driver, if it offers
    control, also tells its device ([Hdev]; the kernel asks this of drivers and the trigger
    relies on it). Whatever names, modes, intervals,
    device events, polls and activations come in whatever order, every operation returns, and
    the references held are one to the device that an active trigger shows, and one for every
    activation that failed to register for events after its driver had named a device, whose
    data is freed with the reference; a LED without control by its driver loses none. *)
Theorem led_references t t' lost : allocated t = false -> led_out t = [] -> rtc led_step (t, []) (t', lost) ->
  (forall d, net_refs d (led_out t') = lost_count lost d + b2z (bool_decide (allocated t' = true /\ net_dev t' = Some d))) /\
  (supports_hw_control led = false -> lost = []) /\
  (forall op e, led_enabled op t' = true ->
     is_Some (match led_op_run led msecs_to_jiffies jiffies_to_msecs kstrtoul op e t' with Ok r => Some r | _ => None end)).
Proof.
  intros Ha Ho Hr. destruct (led_reach t t' lost Ha Ho Hr) as [Ht Hl]. split; [|split; [done|]].
  - intros d. destruct Ht as [Ht|Ht].
    + rewrite (id_refs _ t' Ht), bool_decide_false; [unfold b2z; lia|]. intros [E _]. by rewrite (id_alloc _ t' Ht) in E.
    + pose proof (lv_mid _ t' Ht) as Hm. rewrite (mi_refs _ t' Hm), (mi_alloc _ t' Hm). unfold holds_ref. do 2 f_equal. apply bool_decide_ext. tauto.
  - intros op e He. destruct (op_lands lost op e t' Ht He) as (r & t1 & E & _). by rewrite E.
Qed.

(** C33. The LED follows the link, with a driver as in the property before.  After whatever history,
    an event UP or CHANGE about the device that is shown, a CHANGENAME of that device
    or to the stored name, and a name that is stored and found, take over
    the carrier that the device has at that time and, with a carrier, the speed and duplex
    that its settings have; the other events about it, and a name that is not found, leave no link; and events
    about other devices, new modes and intervals and polls leave the link as it was.  (What an activation
    or deactivation takes over from the events that it replays is not said here.)  From
    that link, in software control and on a LED with a maximal brightness, the LED is set to
    be lit exactly when there is a carrier and a mode that is set agrees with the speed or the
    duplex; after a poll that saw traffic the blink ends with the LED lit when any mode about the
    link is set, agreeing or not.  The counters are polled exactly when there is a carrier and a
    mode asks for traffic, and never under control of the driver of the LED. *)
Theorem led_follows_link t t0 lost op e r t' : allocated t = false -> led_out t = [] -> rtc led_step (t, []) (t0, lost) ->
  max_brightness led <> 0 -> led_enabled op t0 = true ->
  led_op_run led msecs_to_jiffies jiffies_to_msecs kstrtoul op e t0 = Ok (r, t') -> allocated t' = true ->
  let link := after_op op e t0 t' in
  (is_Some (work t') <-> link.1.1 = true /\ wants_traffic t' = true /\ hw_control t' = false) /\
  (hw_control t' = false -> is_lit (shown (led_out t'))
     = link.1.1 && match shown (led_out t') with Steady _ => agrees (mode t') link | AfterBlink _ => asks_link (mode t') link end).
Proof.
  intros Ha Ho Hr Hx He E Ha'. destruct (led_reach t t0 lost Ha Ho Hr) as [Ht0 _].
  destruct (op_lands lost op e t0 Ht0 He) as (r1 & t1 & E1 & Ht & Hv & _). rewrite E in E1. injection E1 as <- <-. rewrite <- Hv.
  destruct Ht as [Ht|Ht]; [by rewrite (id_alloc _ t' Ht) in Ha'|]. cbn [seen fst]. split.
  - rewrite (lv_polls _ t' Ht). unfold polls. rewrite !andb_true_iff, negb_true_iff. tauto.
  - intros Hh. pose proof (lv_blink _ t' Ht Hx Hh) as Hb. destruct (lv_shown _ t' Ht Hh) as [Hs|[Hs Hc]].
    + rewrite Hs. cbn [is_lit]. rewrite <- answers_on. unfold lit. destruct (carrier_link_up t'), (blink_on t'); cbn; try done.
      apply negb_true_iff, Z.eqb_neq. by apply Hb.
    + rewrite Hs, Hc. cbn [is_lit andb]. apply asks_on.
Qed.

(** Each attribute of the mode is read back as it was stored and leaves the others alone. *)
Lemma led_mode_roundtrip lost e attr buf state t r t' : live lost t -> kstrtoul buf = (0, state) ->
  netdev_led_attr_store led msecs_to_jiffies kstrtoul e attr buf t = Ok (r, t') -> 0 <= r ->
  forall attr', netdev_mode attr' = true ->
    netdev_led_attr_show attr' t' = if attr' =? attr then inr (show_int (b2z (truth state)) ++ [NEWLINE]) else netdev_led_attr_show attr' t.
Proof.
  intros Ht Ek E Er attr' Ha'. destruct (mode_store_lands lost e attr buf t Ht) as (r1 & t1 & E1 & _ & _ & H). rewrite E in E1. simplify_eq.
  rewrite Ek in H. cbn [fst snd] in H. destruct (H Er eq_refl) as (Ha & Hm & _). unfold netdev_led_attr_show. rewrite Ha', Hm. unfold set_mode_bit, test_bit.
  assert (forall a, netdev_mode a = true -> 0 <= a) as Hp.
  { intros a H1. apply bool_decide_eq_true in H1. set_unfold in H1. by repeat destruct H1 as [->|H1]. }
  pose proof (Hp attr Ha). pose proof (Hp attr' Ha'). destruct (truth state); destruct (Z.eqb_spec attr' attr) as [->|Hn].
  - by rewrite Z.setbit_eq.
  - by rewrite Z.setbit_neq.
  - by rewrite Z.clearbit_eq.
  - by rewrite Z.clearbit_neq.
Qed.

(** The name of the device is read back, with one newline, whether or not it was stored with
    one. *)
Lemma led_name_roundtrip lost e (name : cstr) (nl : bool) t r t' : live lost t -> 0 ∉ name -> NEWLINE ∉ name -> (length name + 1 < IFNAMSIZ)%nat ->
  device_name_store led e (name ++ if nl then [NEWLINE] else []) t = Ok (r, t') ->
  r = Z.of_nat (length name + if nl then 1 else 0) /\ device_name_show t' = Ok (name ++ [NEWLINE]).
Proof.
  intros Ht H0 Hn Hl E. set (text := name ++ _) in E. assert (length text = (length name + if nl then 1 else 0)%nat) as Et.
  { subst text. rewrite length_app. by destruct nl. }
  destruct (copy_name_text name (device_name t) nl) as (buf & E1 & E2); [done..|destruct nl; lia|apply Ht|].
  assert (lands (device_name_store led e text) t (fun r t' => r = Z.of_nat (length text) /\ device_name t' = buf)) as (r1 & t1 & E3 & -> & Hb).
  { unfold device_name_store. lands_step. eapply lands_mono; [apply set_device_name_lands; [apply Ht|destruct nl; lia]|].
    intros r1 t1 (-> & _ & _ & _ & _ & Hc & _). lands_step. fold text in E1. split; [done|]. rewrite E1 in Hc. by simplify_eq. }
  rewrite E3 in E. simplify_eq. split; [by rewrite Et|]. unfold device_name_show. by rewrite E2.
Qed.

(** ** What is stored and not noticed *)

(** A new name does not end the control by the driver of the LED. *)
Lemma name_keeps_hw_control lost e buf t : live lost t -> lands (device_name_store led e buf) t (fun _ t' => hw_control t' = hw_control t).
Proof.
  intros Ht. unfold device_name_store. lands_step. destruct (Nat.le_gt_cases IFNAMSIZ (length buf)) as [H|H].
  - unfold set_device_name. destruct (Nat.leb_spec IFNAMSIZ (length buf)); [|lia]. by lands_step.
  - eapply lands_mono; [apply set_device_name_lands; [apply Ht|done]|]. intros r t1 (_ & _ & _ & H1 & _). by lands_step.
Qed.
End Spec.


(** ** Runs *)
Definition demo_led (hw : bool) : led_class :=
  mkLedClass 255 hw hw (if hw then Some (fun _ => 0) else None) hw (bytes_of_string "netdev").
Definition demo_net (up : bool) (sent : Z) : netdev_env :=
  mkNetEnv (fun n => if decide (n = bytes_of_string "eth0") then Some 1%nat else if decide (n = bytes_of_string "eth1") then Some 2%nat else None)
    (fun d => bytes_of_string (if decide (d = 1%nat) then "eth0" else "eth1")) (fun _ => up) (fun _ => Some (1000, 1)) (fun _ => (sent, 0)) 0
    (Some 1%nat) (0, 1).
Definition demo_jiffies (ms : Z) : Z := ms / 10.
Definition demo_msecs (j : Z) : Z := j * 10.
Definition demo_number (s : cstr) : Z * Z := (0, match s with c :: _ => c - 48 | [] => 0 end).
Definition led_init : led_data := mkLed false None None [] 0 0 0 0 0 false false 0 [].
Definition demo_led_ops : list (led_op * netdev_env) :=
  [(Activate true 0 [(NETDEV_REGISTER, 1%nat, demo_net true 0)], demo_net true 0); (StoreName (bytes_of_string "eth0"), demo_net true 0);
   (StoreMode TRIGGER_NETDEV_LINK_1000 (bytes_of_string "1"), demo_net true 0); (StoreMode TRIGGER_NETDEV_TX (bytes_of_string "1"), demo_net true 0);
   (Work, demo_net true 7)].
Definition demo_led_run (hw : bool) (ops : list (led_op * netdev_env)) (t : led_data) : option led_data :=
  fst <$> led_run (demo_led hw) demo_jiffies demo_msecs demo_number ops (t, []).
Definition led_demo : led_data := default led_init (demo_led_run false demo_led_ops led_init).
Lemma led_demo_reached : rtc (led_step (demo_led false) demo_jiffies demo_msecs demo_number) (led_init, []) (led_demo, []).
Proof. apply (led_run_steps _ _ _ _ demo_led_ops). vm_compute. reflexivity. Qed.
Lemma demo_led_device (hw : bool) : supports_hw_control (demo_led hw) = true -> has_get_device (demo_led hw) = true.
Proof. by destruct hw. Qed.

(** A LED under control of its driver: an activation that fails, and one that succeeds. *)
Definition demo_failing_ops : list (led_op * netdev_env) :=
  [(Activate true (-17) [], demo_net true 0); (Activate true 0 [], demo_net true 0)].
Definition led_failing : led_data := default led_init (demo_led_run true demo_failing_ops led_init).
Lemma led_references_witness :
  (net_dev led_demo = Some 1%nat /\ net_refs 1 (led_out led_demo) = 1)
  /\ (net_dev led_failing = Some 1%nat /\ net_refs 1 (led_out led_failing) = 2).
Proof.
  split; (split; [by vm_compute|]).
  - apply (proj1 (led_references (demo_led false) demo_jiffies demo_msecs demo_number (demo_led_device false) led_init led_demo []
      ltac:(reflexivity) ltac:(reflexivity) led_demo_reached) 1%nat).
  - apply (proj1 (led_references (demo_led true) demo_jiffies demo_msecs demo_number (demo_led_device true) led_init led_failing [1%nat]
      ltac:(reflexivity) ltac:(reflexivity)
      ltac:(apply (led_run_steps _ _ _ _ demo_failing_ops); vm_compute; reflexivity)) 1%nat).
Defined.
(** The carrier goes away. *)
Definition led_dark : led_data := default led_init (demo_led_run false [(Notify NETDEV_CHANGE 1, demo_net false 7)] led_demo).
Lemma led_follows_link_witness :
  is_lit (shown (led_out led_demo)) = true /\ is_lit (shown (led_out led_dark)) = false /\ (is_Some (work led_dark) -> False).
Proof.
  split; [by vm_compute|].
  destruct (led_follows_link (demo_led false) demo_jiffies demo_msecs demo_number (demo_led_device false) led_init led_demo []
    (Notify NETDEV_CHANGE 1) (demo_net false 7) 0 led_dark
    ltac:(reflexivity) ltac:(reflexivity) led_demo_reached ltac:(discriminate) ltac:(reflexivity) ltac:(vm_compute; reflexivity)
    ltac:(reflexivity)) as [H1 H2].
  split; [exact (H2 ltac:(reflexivity))|]. intros H. by destruct (proj1 H1 H).
Defined.
(** A LED under control of its driver stays so when another device is named: the driver is
    told to show a device that is not its own. *)
Example led_renamed_device_stays_offloaded :
  (fun t => (hw_control t, net_dev t, last (led_out t))) <$>
    demo_led_run true [(Activate true 0 [], demo_net true 0); (StoreName (bytes_of_string "eth1"), demo_net true 0)] led_init
  = Some (true, Some 2%nat, Some (HwSet 1)) /\ hw_device (demo_net true 0) = Some 1%nat.
Proof. by vm_compute. Qed.
(** When the notifier cannot be registered the data is freed with its reference. *)
Example led_failed_registration_leaks :
  match netdev_trig_activate (demo_led true) demo_jiffies (demo_net true 0) true (-17) [] led_init with
  | Ok (r, t) => r = -17 /\ allocated t = false /\ net_refs 1 (led_out t) = 1
  | _ => False
  end.
Proof. vm_compute. done. Qed.
(** A mode for another speed: the LED is dark, and lit from the first packet on. *)
Example led_lit_by_traffic :
  let ops := [(Activate true 0 [], demo_net true 0); (StoreName (bytes_of_string "eth0"), demo_net true 0);
    (StoreMode TRIGGER_NETDEV_LINK_100 (bytes_of_string "1"), demo_net true 0); (StoreMode TRIGGER_NETDEV_TX (bytes_of_string "1"), demo_net true 0)] in
  (fun t => (link_speed t, is_lit (shown (led_out t)))) <$> demo_led_run false ops led_init = Some (1000, false)
  /\ (fun t => is_lit (shown (led_out t))) <$> demo_led_run false (ops ++ [(Work, demo_net true 7)]) led_init = Some true.
Proof. by vm_compute. Qed.
(** The counters are compared in 32 bits: traffic of a multiple of 2^32 packets is not seen. *)
Example led_traffic_wraps :
  led_out <$> demo_led_run false [(Work, demo_net true (7 + 2 ^ 32))] led_demo = Some (led_out led_demo).
Proof. by vm_compute. Qed.
