(* ===== verification/QmiReader.v ===== *)
(** The rest of QmiWwanCM.c: the start of a session with the modem ([QmiWwanInit]) and the
    reader thread ([QmiWwanThread]) with the framing of messages that come through a proxy.

    Both the device and the proxy are opened with O_NONBLOCK.  What [read] finds is the bytes
    that are waiting and, for each call, the bytes that have arrived since the one before. *)
From S2P Require Import Prelude QmiTlv CmTypes QmiCompose QmiThread.
#[local] Open Scope Z_scope.

(** ** The start of a session *)
Definition QMICTL_GET_VERSION_REQ : Z := 0x21.
Definition SYNC_REQ : Z := 0x27.
Definition QMI_MESSAGE_CTL_INTERNAL_PROXY_OPEN : Z := 0xFF00.
Definition LIBQMI_PROXY : cstr := bytes_of_string "qmi-proxy".
Definition QUECTEL_QMI_PROXY : cstr := bytes_of_string "quectel-qmi-proxy".
Definition QUECTEL_QRTR_PROXY : cstr := bytes_of_string "quectel-qrtr-proxy".

Definition CtlLibQmiProxyOpenReq (device_path : cstr) : builder :=
  _ ← st_hdr OFF_CTL_TLV 0x01 (u16 (Z.of_nat (length device_path)));
  _ ← st (OFF_CTL_TLV + 3) device_path;
  mret (u16 (9 + Z.of_nat (length device_path))).
(** The version response: the number of services, and their elements of five bytes. *)
Definition OFF_NumElements : nat := 22.
Definition OFF_TypeVersion : nat := 23.
Definition version_element (rsp : list Z) (i : nat) : res (Z * Z) :=
  QMUXType ← rd8 rsp (OFF_TypeVersion + 5 * i);
  MinorVersion ← rd16 rsp (OFF_TypeVersion + 5 * i + 3);
  mret (QMUXType, MinorVersion).
Fixpoint version_elements (rsp : list Z) (n i : nat) (p : PROFILE_T) : res PROFILE_T :=
  match n with
  | O => mret p
  | S n =>
      '(ty, minor) ← version_element rsp i;
      version_elements rsp n (S i) (if ty =? QMUX_TYPE_WDS_ADMIN then p <| qmap_version := b2z (16 <? minor) |> else p)
  end.
Definition read_versions (rsp : option (list Z)) (p : PROFILE_T) : res PROFILE_T :=
  match rsp with
  | Some rsp =>
      if truth (qmap_mode p) then
        QMUXResult ← rd16 rsp OFF_CTL_QMUXResult;
        QMUXError ← rd16 rsp OFF_CTL_QMUXError;
        if truth QMUXResult || truth QMUXError then mret p
        else n ← rd8 rsp OFF_NumElements; version_elements rsp (Z.to_nat n) 0 p
      else mret p
  | None => mret p
  end.

Section Init.
Context (ctl_send : list Z -> M qmiwwan (Z * option (list Z))) (ctl_sync : list Z -> M qmiwwan Z) (stack : list Z).
Definition libqmi_proxy_open (cdc_wdm : cstr) : M qmiwwan Z :=
  req ← ComposeQCTLMsg stack QMI_MESSAGE_CTL_INTERNAL_PROXY_OPEN (Some (CtlLibQmiProxyOpenReq cdc_wdm));
  '(ret, rsp) ← ctl_send req;
  match rsp with
  | Some rsp =>
      if truth ret then mret (-1)
      else
        QMUXResult ← M_lift (rd16 rsp OFF_CTL_QMUXResult);
        QMUXError ← M_lift (rd16 rsp OFF_CTL_QMUXError);
        mret (if truth QMUXResult || truth QMUXError then -1 else 0)
  | None => mret (-1)
  end.
(** At most ten attempts, a second apart. *)
Fixpoint qmi_sync_loop (n : nat) (ret : Z) : M qmiwwan Z :=
  match n with
  | O => mret ret
  | S n =>
      req ← ComposeQCTLMsg stack SYNC_REQ None;
      ret ← ctl_sync req;
      if ret =? 0 then mret 0 else qmi_sync_loop n ret
  end.
Definition QmiWwanInit (profile : PROFILE_T) : M qmiwwan (Z * PROFILE_T) :=
  ret ← (if bool_decide (proxy profile = LIBQMI_PROXY) then libqmi_proxy_open (qmichannel profile) else mret 0 : M qmiwwan Z);
  if truth ret then mret (ret, profile)
  else
    ret ← (if bool_decide (proxy profile = []) then qmi_sync_loop 10 0 else mret 0 : M qmiwwan Z);
    if truth ret then mret (ret, profile)
    else
      req ← ComposeQCTLMsg stack QMICTL_GET_VERSION_REQ (Some CtlGetVersionReq);
      r ← ctl_send req;
      profile ← M_lift (read_versions r.2 profile);
      profile ← QmiWwanInit_clients ctl_send stack profile;
      mret (0, profile).
End Init.

(** ** Reading *)

(** A descriptor: the bytes that wait, what arrives before each of the coming reads, and
    whether the other side is gone when nothing waits. *)
Record wdm_in := mkWdmIn { inbox : list Z; arrivals : list (list Z); peer_gone : bool }.
Definition SSIZE_MAX : Z := 9223372036854775807.
Definition usize (z : Z) : Z := z mod 18446744073709551616.
(** [read]: what it returns and the bytes it stores. *)
Definition os_read (count : Z) (w : wdm_in) : Z * list Z * wdm_in :=
  if SSIZE_MAX <? count then (-1, [], w)
  else if count =? 0 then (0, [], w)
  else
    let avail := inbox w ++ default [] (head (arrivals w)) in
    let got := take (Z.to_nat count) avail in
    (if bool_decide (avail = []) then (if peer_gone w then 0 else -1) else Z.of_nat (length got), got,
     w <| inbox := drop (Z.to_nat count) avail |> <| arrivals := tail (arrivals w) |>).

Definition SIZEOF_cm_recv_buf : nat := 4096.
(** The reader: its buffer, which keeps the bytes of earlier messages, its descriptor, the
    loop's variable, and what it has told the main thread. *)
Inductive qw_event := RIL_INDICATE_DEVICE_CONNECTED | Device_disconnected.
Record qw_reader := mkQw {
  cm_recv_buf : list Z; qw_in : wdm_in; wait_for_request_quit : bool; qw_events : list qw_event; qw_closed : bool }.
(** The reader and what it shares with the main thread. *)
Definition QW (A : Type) : Type := M (cm_state * qw_reader) A.
#[export] Instance QW_ret : MRet QW := @M_ret (cm_state * qw_reader).
#[export] Instance QW_bind : MBind QW := @M_bind (cm_state * qw_reader).
Definition get_qw : QW qw_reader := fun s => Ok (s.2, s).
Definition upd_qw (f : qw_reader -> qw_reader) : QW unit := fun s => Ok (tt, (s.1, f s.2)).
Definition on_cm {A} (m : M cm_state A) : QW A := fun s => '(a, c) ← m s.1; Ok (a, (c, s.2)).
(** [read] into the buffer at [off]. *)
Definition read_at (off : nat) (count : Z) : QW Z :=
  q ← get_qw;
  let '(n, got, w) := os_read count (qw_in q) in
  buf ← (M_lift (wr off got (cm_recv_buf q)) : QW (list Z));
  _ ← upd_qw (fun q => q <| qw_in := w |> <| cm_recv_buf := buf |>);
  mret n.
Definition announced : QW Z := q ← get_qw; M_lift (rd16 (cm_recv_buf q) OFF_Length).
Definition qmi_proxy_read (size : Z) : QW Z :=
  nreads ← read_at 0 (Z.of_nat SIZEOF_QCQMI_HDR);
  if nreads =? Z.of_nat SIZEOF_QCQMI_HDR then
    len ← announced;
    if len <? size then
      n ← read_at SIZEOF_QCQMI_HDR (usize (len + 1 - Z.of_nat SIZEOF_QCQMI_HDR));
      mret (nreads + n)
    else mret nreads
  else mret nreads.

(** ** The thread *)
Definition starts_with (s t : cstr) : bool := bool_decide (take (length t) s = t).
(** [snprintf(profile->proxy, sizeof(profile->proxy), "%s%c", name, num)] *)
Definition SIZEOF_proxy : nat := 32.
Definition numbered (name : cstr) (num : Z) : cstr := take (SIZEOF_proxy - 1) (name ++ [num]).
Definition proxy_of (profile : PROFILE_T) : res cstr :=
  num ← of_option (last (qmichannel profile));
  mret (if bool_decide (proxy profile <> []) then
          if starts_with (proxy profile) QUECTEL_QMI_PROXY then numbered QUECTEL_QMI_PROXY num else proxy profile
        else if starts_with (qmichannel profile) (bytes_of_string "/dev/mhi_IPCR") then numbered QUECTEL_QRTR_PROXY num
        else if 1 <? qmap_mode profile then numbered QUECTEL_QMI_PROXY num
        else []).

(** What [poll] reports of a descriptor, and what it returns: a number, or the two
    descriptors with what is read from the control pipe when it has something. *)
Record revents := mkRev { POLLIN : bool; POLLHUP_NVAL : bool }.
Inductive control_event := RIL_REQUEST_QUIT | SIG_STOP | Control_other.
#[export] Instance control_event_eq_dec : EqDecision control_event.
Proof. solve_decision. Defined.
Inductive qw_poll := Poll_ret (ret : Z) | Poll_ready (control wdm : revents) (triger_event : option control_event).

Definition qw_message (proxied : bool) : QW unit :=
  nreads ← (if proxied then qmi_proxy_read (Z.of_nat SIZEOF_cm_recv_buf) else read_at 0 (Z.of_nat SIZEOF_cm_recv_buf) : QW Z);
  if nreads <=? 0 then mret tt
  else
    len ← announced;
    if negb (nreads =? len + 1) then mret tt
    else q ← get_qw; on_cm (QmiThreadRecvQMI (Some (cm_recv_buf q))).
(** One turn of the loop; whether the thread goes on. *)
Definition qw_turn (proxied : bool) (p : qw_poll) : QW bool :=
  match p with
  | Poll_ret ret =>
      q ← get_qw;
      if (ret =? 0) && wait_for_request_quit q then _ ← on_cm (QmiThreadRecvQMI None); mret true
      else mret false
  | Poll_ready control wdm triger_event =>
      if POLLHUP_NVAL control then mret false
      else if POLLIN control && bool_decide (triger_event = Some RIL_REQUEST_QUIT) then mret false
      else
        _ ← M_when (POLLIN control && bool_decide (triger_event = Some SIG_STOP)) (upd_qw (fun q => q <| wait_for_request_quit := true |>));
        if POLLHUP_NVAL wdm then mret false
        else _ ← M_when (POLLIN wdm) (qw_message proxied); mret true
  end.
Fixpoint qw_turns (proxied : bool) (ps : list qw_poll) : QW bool :=
  match ps with
  | [] => mret true
  | p :: ps => more ← qw_turn proxied p; if (more : bool) then qw_turns proxied ps else mret false
  end.
Definition qw_tell (e : qw_event) : QW unit := upd_qw (fun q => q <| qw_events := qw_events q ++ [e] |>).
(** The whole thread, with the name of the proxy that it settles on, and whether it is still in
    its loop after the given polls.  Opening may fail. *)
Definition QmiWwanThread (cm_open_proxy cm_open_dev : cstr -> bool) (profile : PROFILE_T) (ps : list qw_poll) : QW (cstr * bool) :=
  name ← (M_lift (proxy_of profile) : QW cstr);
  let proxied := bool_decide (name <> []) in
  if negb (if proxied then cm_open_proxy name else cm_open_dev (qmichannel profile)) then
    _ ← qw_tell Device_disconnected; mret (name, false)
  else
    _ ← qw_tell RIL_INDICATE_DEVICE_CONNECTED;
    more ← qw_turns proxied ps;
    if (more : bool) then mret (name, true)
    else
      _ ← upd_qw (fun q => q <| qw_closed := true |>);
      _ ← qw_tell Device_disconnected;
      _ ← on_cm (QmiThreadRecvQMI None);
      mret (name, false).
