(* ===== verification/QmiReaderSpec.v ===== *)
(** The reader thread: it cuts the stream of a proxy into the messages that were written to
    it, hands each of them on once and in order, and releases the caller when it ends. *)
From S2P Require Import Prelude QmiTlv CmTypes QmiCompose QmiThread QmiReader.
#[local] Open Scope Z_scope.

(** ** Messages with the rest of the buffer behind them *)
Lemma rd8_extend b j o v : rd8 b o = Ok v -> rd8 (b ++ j) o = Ok v.
Proof.
  unfold rd8, of_option. intros H. destruct (b !! o) eqn:E; [|done]. by rewrite (lookup_app_l_Some _ _ _ _ E).
Qed.
Lemma rd16_extend b j o v : rd16 b o = Ok v -> rd16 (b ++ j) o = Ok v.
Proof.
  unfold rd16. destruct (rd8 b o) as [x| |] eqn:Ex; [|done..]. cbn [mbind res_bind].
  destruct (rd8 b (o + 1)) as [y| |] eqn:Ey; [|done..]. by rewrite (rd8_extend _ _ _ _ Ex), (rd8_extend _ _ _ _ Ey).
Qed.
Lemma qmi_len_extend b j v : qmi_len b = Ok v -> qmi_len (b ++ j) = Ok v.
Proof.
  unfold qmi_len. destruct (rd16 b OFF_Length) as [x| |] eqn:Ex; [|done..]. by rewrite (rd16_extend _ _ _ _ Ex).
Qed.
Lemma is_response_extend req m j b : is_response req m = Ok b -> is_response req (m ++ j) = Ok b.
Proof.
  unfold is_response. intros H.
  repeat match goal with
  | H : context [mbind _ (rd8 m ?o)] |- _ => let E := fresh in destruct (rd8 m o) eqn:E in H; [|done..];
      rewrite (rd8_extend _ _ _ _ E); cbn [mbind res_bind] in *
  | H : context [mbind _ (rd16 m ?o)] |- _ => let E := fresh in destruct (rd16 m o) eqn:E in H; [|done..];
      rewrite (rd16_extend _ _ _ _ E); cbn [mbind res_bind] in *
  | H : context [mbind _ ?x] |- context [mbind _ ?x] => destruct x; [|done..]; cbn [mbind res_bind] in *
  | H : context [if ?x then _ else _] |- _ => destruct x
  end; done.
Qed.

(** ** Handing on *)
Definition req_ok (c : cm_state) : Prop := match s_pRequest c with Some r => (9 <= length r)%nat | None => True end.
Lemma is_response_total req m : (9 <= length req)%nat -> (9 <= length m)%nat -> exists b, is_response req m = Ok b.
Proof.
  intros Hr Hm. unfold is_response.
  repeat (match goal with
  | |- context [rd8 ?x ?o] => let v := fresh in destruct (rd8_Ok x o) as [v ->]; [autounfold with off; lia|]
  | |- context [rd16 ?x ?o] => let v := fresh in destruct (rd16_Ok x o) as [v ->]; [autounfold with off; lia|]
  | |- context [if ?x then _ else _] => destruct x
  end; cbn [mbind res_bind]); by eexists.
Qed.
Lemma recv_null_total c : exists c', QmiThreadRecvQMI None c = Ok (tt, c') /\ req_ok c'.
Proof.
  unfold QmiThreadRecvQMI, mbind, M_bind, M_get, M_put, mret, M_ret. destruct (s_pRequest c) eqn:E; eexists; (split; [done|]); [done|].
  unfold req_ok. by rewrite E.
Qed.
Lemma recv_total m n c : req_ok c -> (24 <= length m)%nat -> qmi_len m = Ok n -> n <= Z.of_nat (length m) ->
  exists c', QmiThreadRecvQMI (Some m) c = Ok (tt, c') /\ req_ok c'.
Proof.
  intros Hc Hm En Hn. unfold QmiThreadRecvQMI, mbind, M_bind, M_get, M_put, M_lift, mret, M_ret.
  destruct (report_ok m c Hm) as [c1 E1]. pose proof (report_frame _ _ _ _ E1) as [F1 _].
  assert (req_ok c1) as H1 by (unfold req_ok; by rewrite F1).
  destruct (s_pRequest c) as [req|] eqn:Er; [|by exists c1].
  unfold req_ok in Hc. rewrite Er in Hc. destruct (is_response_total req m) as [[] ->]; [lia..| |by exists c1].
  rewrite En. unfold rdn. destruct (Nat.leb_spec (0 + Z.to_nat n) (length m)); [|lia]. by eexists.
Qed.
Lemma deliver_snoc script m c c1 c2 : deliver script c = Ok (tt, c1) -> QmiThreadRecvQMI m c1 = Ok (tt, c2) ->
  deliver (script ++ [m]) c = Ok (tt, c2).
Proof. intros E1 E2. rewrite deliver_app, E1, deliver_cons, E2. done. Qed.

(** ** The messages of a stream *)

(** A message as it is written to the proxy: it announces its own length, which the buffer holds. *)
Definition qmi_framed (m : list Z) : Prop :=
  (SIZEOF_QCQMI_HDR <= length m <= SIZEOF_cm_recv_buf)%nat /\ qmi_len m = Ok (Z.of_nat (length m)).
(** What is handed on for a message is the buffer, which starts with it. *)
Definition carries (s m : list Z) : Prop := (exists junk, s = m ++ junk) /\ length s = SIZEOF_cm_recv_buf.

Lemma os_read_some n w : 0 < n <= SSIZE_MAX -> inbox w ++ default [] (head (arrivals w)) <> [] ->
  os_read n w = (Z.of_nat (length (take (Z.to_nat n) (inbox w ++ default [] (head (arrivals w))))),
                 take (Z.to_nat n) (inbox w ++ default [] (head (arrivals w))),
                 w <| inbox := drop (Z.to_nat n) (inbox w ++ default [] (head (arrivals w))) |> <| arrivals := tail (arrivals w) |>).
Proof.
  intros Hn Ha. unfold os_read. destruct (Z.ltb_spec SSIZE_MAX n); [lia|]. destruct (Z.eqb_spec n 0); [lia|]. by rewrite bool_decide_false.
Qed.
(** Whole messages wait and whole messages arrive. *)
Definition whole (pending : list (list Z)) (groups : list (list (list Z))) (w : wdm_in) : Prop :=
  inbox w = concat pending /\ arrivals w = @concat Z <$> groups.
Lemma whole_avail pending groups w : whole pending groups w ->
  inbox w ++ default [] (head (arrivals w)) = concat (pending ++ default [] (head groups)) /\
  tail (arrivals w) = @concat Z <$> tail groups.
Proof. intros [-> ->]. rewrite concat_app. by destruct groups. Qed.
Lemma wr_front bs b : (length bs <= length b)%nat -> wr 0 bs b = Ok (bs ++ drop (length bs) b).
Proof. intros H. unfold wr. destruct (Nat.leb_spec (0 + length bs) (length b)); [done|lia]. Qed.

Lemma read_at_run off n c q k got w buf : os_read n (qw_in q) = (k, got, w) -> wr off got (cm_recv_buf q) = Ok buf ->
  read_at off n (c, q) = Ok (k, (c, q <| qw_in := w |> <| cm_recv_buf := buf |>)).
Proof.
  intros E1 E2. unfold read_at, mbind, QW_bind, M_bind, get_qw. cbn [fst snd]. rewrite E1. unfold M_lift. by rewrite E2.
Qed.
Lemma QW_bind_run {A B} (m : QW A) (f : A -> QW B) s a s' : m s = Ok (a, s') -> (m ≫= f) s = f a s'.
Proof. intros E. unfold mbind, QW_bind, M_bind. by rewrite E. Qed.

Lemma announced_run c q l : rd16 (cm_recv_buf q) OFF_Length = Ok l -> announced (c, q) = Ok (l, (c, q)).
Proof. intros E. unfold announced, mbind, QW_bind, M_bind, get_qw, M_lift. cbn [snd]. by rewrite E. Qed.
(** The header of the next message is read. *)
Lemma header_read pending groups m rest c q : whole pending groups (qw_in q) -> length (cm_recv_buf q) = SIZEOF_cm_recv_buf ->
  pending ++ default [] (head groups) = m :: rest -> qmi_framed m ->
  exists q1, read_at 0 6 (c, q) = Ok (6, (c, q1)) /\ inbox (qw_in q1) = drop 6 m ++ concat rest /\
    arrivals (qw_in q1) = @concat Z <$> tail groups /\ cm_recv_buf q1 = take 6 m ++ drop 6 (cm_recv_buf q) /\
    announced (c, q1) = Ok (Z.of_nat (length m) - 1, (c, q1)).
Proof.
  intros Hw Hb Hp [Hl Hn]. destruct (whole_avail _ _ _ Hw) as [Ha Ht]. rewrite Hp in Ha. cbn [concat] in Ha.
  unfold SIZEOF_QCQMI_HDR, SIZEOF_cm_recv_buf in *.
  assert (length (take 6 m) = 6%nat) as L6 by (rewrite length_take; lia).
  assert (os_read 6 (qw_in q) = (6, take 6 m, (qw_in q) <| inbox := drop 6 (m ++ concat rest) |> <| arrivals := tail (arrivals (qw_in q)) |>)) as E1.
  { rewrite os_read_some; [|done|rewrite Ha; by destruct m; cbn in *; [lia|]]. rewrite Ha. change (Z.to_nat 6) with 6%nat.
    rewrite take_app_le by lia. by rewrite L6. }
  assert (wr 0 (take 6 m) (cm_recv_buf q) = Ok (take 6 m ++ drop 6 (cm_recv_buf q))) as Eb1 by (rewrite wr_front by lia; by rewrite L6).
  eexists. split; [eapply read_at_run; [exact E1|exact Eb1]|]. split; [cbn; by rewrite drop_app_le by lia|]. split; [by rewrite <- Ht|]. split; [done|].
  assert (rd16 (take 6 m) OFF_Length = Ok (Z.of_nat (length m) - 1)) as El.
  { unfold qmi_len in Hn. destruct (rd16 m OFF_Length) as [l| |] eqn:E; [|done..]. cbn in Hn. injection Hn as Hn.
    replace (Z.of_nat (length m) - 1) with l by lia. rewrite <- E. unfold rd16, rd8. by rewrite !lookup_take_lt by (unfold OFF_Length; lia). }
  apply announced_run. exact (rd16_extend _ _ _ _ El).
Qed.
(** The rest of a message of which the header has been read. *)
Lemma payload_read (body : list Z) rest groups hdr junk c q : inbox (qw_in q) = body ++ concat rest -> arrivals (qw_in q) = @concat Z <$> groups ->
  cm_recv_buf q = hdr ++ junk -> (length body <= length junk)%nat -> Z.of_nat (length body) <= SSIZE_MAX ->
  exists q1 pending' groups', read_at (length hdr) (Z.of_nat (length body)) (c, q) = Ok (Z.of_nat (length body), (c, q1)) /\
    whole pending' groups' (qw_in q1) /\ pending' ++ concat groups' = rest ++ concat groups /\ (length groups' <= length groups)%nat /\
    cm_recv_buf q1 = hdr ++ body ++ drop (length body) junk.
Proof.
  intros Hi Ha Hb Hl Hs.
  assert (wr (length hdr) body (cm_recv_buf q) = Ok (hdr ++ body ++ drop (length body) junk)) as Ew.
  { rewrite Hb. rewrite <- (take_drop (length body) junk) at 1. apply wr_app. rewrite length_take. lia. }
  destruct body as [|b body].
  - eexists. exists rest, groups. split; [eapply read_at_run; [reflexivity|exact Ew]|]. done.
  - set (n := Z.of_nat (length (b :: body))) in *. assert (Z.to_nat n = length (b :: body)) as En by (subst n; lia).
    assert (inbox (qw_in q) ++ default [] (head (arrivals (qw_in q))) = (b :: body) ++ concat (rest ++ default [] (head groups))) as Hav.
    { rewrite Hi, Ha, concat_app, app_assoc. by destruct groups. }
    assert (os_read n (qw_in q) = (n, b :: body, (qw_in q) <| inbox := concat (rest ++ default [] (head groups)) |>
      <| arrivals := tail (arrivals (qw_in q)) |>)) as Er.
    { rewrite os_read_some; [|subst n; cbn in *; lia|by rewrite Hav]. by rewrite Hav, En, take_app_length, drop_app_length. }
    eexists. exists (rest ++ default [] (head groups)), (tail groups). split; [eapply read_at_run; [exact Er|exact Ew]|].
    split_and!; [split; [done|]|..].
    + cbn. rewrite Ha. by destruct groups.
    + destruct groups; cbn; [by rewrite app_nil_r|by rewrite <- app_assoc].
    + destruct groups; cbn; lia.
    + done.
Qed.

(** One message is read: it is in front of the buffer, and gone from the stream. *)
Lemma proxy_read_message pending groups m rest c q : whole pending groups (qw_in q) -> length (cm_recv_buf q) = SIZEOF_cm_recv_buf ->
  pending ++ default [] (head groups) = m :: rest -> qmi_framed m ->
  exists q' pending' groups', qmi_proxy_read (Z.of_nat SIZEOF_cm_recv_buf) (c, q) = Ok (Z.of_nat (length m), (c, q')) /\
    whole pending' groups' (qw_in q') /\ pending' ++ concat groups' = rest ++ concat (tail groups) /\
    (length groups' <= length groups)%nat /\ length (cm_recv_buf q') = SIZEOF_cm_recv_buf /\ carries (cm_recv_buf q') m.
Proof.
  intros Hw Hb Hp Hm. pose proof Hm as [Hl _]. unfold SIZEOF_QCQMI_HDR, SIZEOF_cm_recv_buf in Hl.
  destruct (header_read _ _ _ _ c _ Hw Hb Hp Hm) as (q1 & E1 & Hi & Ha & Hbuf & Ean). unfold qmi_proxy_read.
  rewrite (QW_bind_run _ _ _ _ _ E1). change (6 =? Z.of_nat SIZEOF_QCQMI_HDR) with true. cbv iota. rewrite (QW_bind_run _ _ _ _ _ Ean).
  destruct (Z.ltb_spec (Z.of_nat (length m) - 1) (Z.of_nat SIZEOF_cm_recv_buf)); [|unfold SIZEOF_cm_recv_buf in *; lia].
  assert (length (take 6 m) = 6%nat) as L6 by (rewrite length_take; lia).
  assert (length (drop 6 m) = (length m - 6)%nat) as Ld by (rewrite length_drop; lia).
  assert (usize (Z.of_nat (length m) - 1 + 1 - Z.of_nat SIZEOF_QCQMI_HDR) = Z.of_nat (length (drop 6 m))) as ->.
  { unfold usize. rewrite Z.mod_small; unfold SIZEOF_QCQMI_HDR in *; lia. }
  destruct (payload_read (drop 6 m) rest (tail groups) (take 6 m) (drop 6 (cm_recv_buf q)) c q1) as (q2 & pending' & groups' & E2 & Hw2 & Hc & Hg & Hbuf2);
    [done..|rewrite !length_drop, Hb; unfold SIZEOF_cm_recv_buf; lia|unfold SSIZE_MAX; lia|].
  rewrite L6 in E2. unfold SIZEOF_QCQMI_HDR. rewrite (QW_bind_run _ _ _ _ _ E2).
  replace (6 + Z.of_nat (length (drop 6 m))) with (Z.of_nat (length m)) by lia.
  exists q2, pending', groups'. split; [done|]. split; [done|]. split; [done|].
  assert (length (cm_recv_buf q2) = SIZEOF_cm_recv_buf) as L2.
  { rewrite Hbuf2, !length_app, !length_drop, L6, Hb. unfold SIZEOF_cm_recv_buf. lia. }
  split; [destruct groups; cbn in *; lia|]. split; [done|]. split; [|done]. rewrite Hbuf2.
  exists (drop (length (drop 6 m)) (drop 6 (cm_recv_buf q))). by rewrite app_assoc, take_drop.
Qed.
(** Nothing waits. *)
Lemma proxy_read_nothing pending groups c q : whole pending groups (qw_in q) -> length (cm_recv_buf q) = SIZEOF_cm_recv_buf ->
  pending ++ default [] (head groups) = [] -> exists n q', qmi_proxy_read (Z.of_nat SIZEOF_cm_recv_buf) (c, q) = Ok (n, (c, q')) /\ n <= 0 /\
    whole [] (tail groups) (qw_in q') /\ cm_recv_buf q' = cm_recv_buf q.
Proof.
  intros Hw Hb Hp. destruct (whole_avail _ _ _ Hw) as [Ha Ht]. rewrite Hp in Ha. cbn [concat] in Ha.
  assert (os_read 6 (qw_in q) = (if peer_gone (qw_in q) then 0 else -1, [], (qw_in q) <| inbox := [] |> <| arrivals := tail (arrivals (qw_in q)) |>)) as E.
  { unfold os_read. destruct (Z.ltb_spec SSIZE_MAX 6); [done|]. change (6 =? 0) with false. cbv iota. rewrite Ha. done. }
  unfold qmi_proxy_read. erewrite QW_bind_run by (eapply (read_at_run 0 6); [exact E|by rewrite wr_front by (cbn; lia)]).
  set (n := if peer_gone (qw_in q) then 0 else -1). assert (n <= 0) by (subst n; destruct (peer_gone _); lia).
  destruct (Z.eqb_spec n (Z.of_nat SIZEOF_QCQMI_HDR)); [unfold SIZEOF_QCQMI_HDR in *; lia|].
  exists n. eexists. split; [done|]. split; [done|]. split; [|by cbn]. split; [done|]. cbn. exact Ht.
Qed.

(** ** The thread *)
Section Thread.
Context (c0 : cm_state) (nulls : bool).
(** [done] has been handed on, [rest] is still in the stream, in [n] pieces that are to arrive;
    NULL has been handed on only if [nulls]. *)
Record reading (done rest : list (list Z)) (n : nat) (c : cm_state) (q : qw_reader) : Prop := {
  rd_script : exists script, deliver script c0 = Ok (tt, c) /\ Forall2 carries (omap id script) done /\ (nulls = false -> None ∉ script);
  rd_stream : exists pending groups, whole pending groups (qw_in q) /\ rest = pending ++ concat groups /\ n = length groups;
  rd_framed : Forall qmi_framed rest; rd_req : req_ok c; rd_buf : length (cm_recv_buf q) = SIZEOF_cm_recv_buf }.
Definition next_message : qw_poll := Poll_ready (mkRev false false) (mkRev true false) None.

Lemma reading_null done rest n c q : nulls = true -> reading done rest n c q ->
  exists c', on_cm (QmiThreadRecvQMI None) (c, q) = Ok (tt, (c', q)) /\ reading done rest n c' q.
Proof.
  intros Hn [(script & Hd & Hs & Hnn) H2 H3 H4 H5]. destruct (recv_null_total c) as (c' & E & Hc). exists c'. unfold on_cm. cbn [fst snd]. rewrite E.
  split; [done|]. split; [|done..]. exists (script ++ [None]). split; [by eapply deliver_snoc|]. rewrite omap_app, app_nil_r. split; [done|congruence].
Qed.
Lemma message_turn done rest n c q : reading done rest n c q ->
  exists done' rest' n' c' q', qw_message true (c, q) = Ok (tt, (c', q')) /\ reading done' rest' n' c' q' /\
    done' ++ rest' = done ++ rest /\ (length rest' + n' <= pred (length rest + n))%nat.
Proof.
  intros [(script & Hd & Hs & Hnn) (pending & groups & Hw & -> & ->) Hf Hc Hb]. unfold qw_message.
  destruct (pending ++ default [] (head groups)) as [|m rest] eqn:Hp.
  - destruct (proxy_read_nothing _ _ c _ Hw Hb Hp) as (k & q' & E & Hk & Hw' & Hb'). rewrite (QW_bind_run _ _ _ _ _ E).
    destruct (Z.leb_spec k 0); [|lia]. exists done, (concat (tail groups)), (length (tail groups)), c, q'. split; [done|].
    apply app_eq_nil in Hp as [-> Hp]. assert (concat groups = concat (tail groups)) as Eg by (destruct groups as [|g groups]; [done|]; cbn in Hp; by subst).
    cbn in *. rewrite Eg in *. split; [split; [by exists script|by exists [], (tail groups)|done|done|by rewrite Hb']|].
    split; [done|]. destruct groups; cbn; lia.
  - assert (pending ++ concat groups = m :: rest ++ concat (tail groups)) as Er.
    { change (m :: rest ++ concat (tail groups)) with ((m :: rest) ++ concat (tail groups)). rewrite <- Hp, <- app_assoc. by destruct groups. }
    rewrite Er in *. apply Forall_cons in Hf as [Hm Hf].
    destruct (proxy_read_message _ _ _ _ c _ Hw Hb Hp Hm) as (q' & pending' & groups' & E & Hw' & Hc' & Hg & Hb' & Hcar).
    rewrite (QW_bind_run _ _ _ _ _ E). destruct Hm as [Hl Hn]. unfold SIZEOF_QCQMI_HDR, SIZEOF_cm_recv_buf in *.
    destruct (Z.leb_spec (Z.of_nat (length m)) 0); [lia|]. pose proof Hcar as [[junk Hj] _].
    assert (announced (c, q') = Ok (Z.of_nat (length m) - 1, (c, q'))) as Ea.
    { apply announced_run. rewrite Hj. apply rd16_extend. unfold qmi_len in Hn. destruct (rd16 m OFF_Length) as [l| |]; [|done..].
      cbn in Hn. injection Hn as Hn. by replace (Z.of_nat (length m) - 1) with l by lia. }
    rewrite (QW_bind_run _ _ _ _ _ Ea). destruct (Z.eqb_spec (Z.of_nat (length m)) (Z.of_nat (length m) - 1 + 1)); [|lia]. cbn [negb].
    destruct (recv_total (cm_recv_buf q') (Z.of_nat (length m)) c Hc) as (c' & E' & Hreq); [lia|rewrite Hj; by apply qmi_len_extend|lia|].
    exists (done ++ [m]), (rest ++ concat (tail groups)), (length groups'), c', q'. split.
    { erewrite QW_bind_run by reflexivity. unfold on_cm. cbn [fst snd]. by rewrite E'. }
    split; [split; [|by exists pending', groups'|done|done|done]|].
    + exists (script ++ [Some (cm_recv_buf q')]). split; [by eapply deliver_snoc|]. rewrite omap_app. split; [|intros Hn'; specialize (Hnn Hn'); set_solver].
      apply Forall2_app; [done|]. by apply Forall2_cons.
    + split; [by rewrite <- app_assoc|]. cbn. lia.
Qed.
Lemma reader_turn p done rest n c q : nulls = true \/ p = next_message -> reading done rest n c q ->
  exists more done' rest' n' c' q', qw_turn true p (c, q) = Ok (more, (c', q')) /\ reading done' rest' n' c' q' /\
    done' ++ rest' = done ++ rest /\ (p = next_message -> more = true /\ (length rest' + n' <= pred (length rest + n))%nat).
Proof.
  intros Hp H. destruct p as [ret|control wdm ev]; unfold qw_turn.
  - erewrite QW_bind_run by reflexivity. destruct (_ && _).
    + destruct (reading_null _ _ _ _ _ ltac:(by destruct Hp) H) as (c' & E & H'). rewrite (QW_bind_run _ _ _ _ _ E). by exists true, done, rest, n, c', q.
    + by exists false, done, rest, n, c, q.
  - destruct (POLLHUP_NVAL control) eqn:E1; [exists false, done, rest, n, c, q; split_and!; try done; by intros [= -> -> ->]|].
    destruct (POLLIN control && _) eqn:E2; [exists false, done, rest, n, c, q; split_and!; try done; by intros [= -> -> ->]|].
    set (b := POLLIN control && _). destruct q as [buf w wait evs cl].
    assert (M_when b (upd_qw (fun q => q <| wait_for_request_quit := true |>)) (c, mkQw buf w wait evs cl)
            = Ok (tt, (c, mkQw buf w (if b then true else wait) evs cl))) as Ew by (by destruct b).
    change (@M_when (cm_state * qw_reader)%type b) with (@M_when (cm_state * qw_reader)%type b). rewrite (QW_bind_run _ _ _ _ _ Ew).
    assert (reading done rest n c (mkQw buf w (if b then true else wait) evs cl)) as H1 by (by destruct H).
    destruct (POLLHUP_NVAL wdm) eqn:E3; [eexists false, done, rest, n, c, _; split_and!; try done; by intros [= -> -> ->]|].
    destruct (POLLIN wdm) eqn:E4; cbn [M_when].
    + destruct (message_turn _ _ _ _ _ H1) as (done' & rest' & n' & c' & q' & E & H' & Hd & Hm). rewrite (QW_bind_run _ _ _ _ _ E).
      by exists true, done', rest', n', c', q'.
    + erewrite QW_bind_run by reflexivity. eexists true, done, rest, n, c, _. split_and!; try done. by intros [= -> -> ->].
Qed.
Lemma reader_turns ps done rest n c q : Forall (fun p => nulls = true \/ p = next_message) ps -> reading done rest n c q ->
  exists more done' rest' n' c' q', qw_turns true ps (c, q) = Ok (more, (c', q')) /\ reading done' rest' n' c' q' /\
    done' ++ rest' = done ++ rest /\
    (Forall (fun p => p = next_message) ps -> (length rest + n <= length ps)%nat -> rest' = []).
Proof.
  intros Hps. revert done rest n c q. induction Hps as [|p ps Hp Hps IH]; intros done rest n c q H; cbn [qw_turns].
  - exists true, done, rest, n, c, q. split_and!; try done. intros _ Hl. by destruct rest; cbn in Hl; [|lia].
  - destruct (reader_turn p _ _ _ _ _ Hp H) as (more & d1 & r1 & n1 & c1 & q1 & E1 & H1 & Hd1 & Hm1). rewrite (QW_bind_run _ _ _ _ _ E1).
    destruct more.
    + destruct (IH _ _ _ _ _ H1) as (more & d2 & r2 & n2 & c2 & q2 & E2 & H2 & Hd2 & Hm2). exists more, d2, r2, n2, c2, q2.
      split_and!; [done..|by rewrite Hd2|]. intros Hf Hl. apply Forall_cons in Hf as [-> Hf]. destruct (Hm1 eq_refl) as [_ Hle].
      apply Hm2; [done|]. cbn in Hl. lia.
    + exists false, d1, r1, n1, c1, q1. split_and!; try done. intros Hf _. apply Forall_cons in Hf as [-> _]. by destruct (Hm1 eq_refl).
Qed.
End Thread.

(** C9. The reader cuts the stream of a proxy into its messages: as long as whole messages are
    written, however many wait at once, the thread never faults, what it has handed on is the
    first messages of the stream, each once and in order, and what it has not read is exactly
    the others; when it is woken often enough nothing is left. *)
Theorem reader_frames c0 q0 groups ps : Forall (Forall qmi_framed) groups -> inbox (qw_in q0) = [] -> arrivals (qw_in q0) = @concat Z <$> groups ->
  length (cm_recv_buf q0) = SIZEOF_cm_recv_buf -> req_ok c0 ->
  exists more script done rest c q, qw_turns true ps (c0, q0) = Ok (more, (c, q)) /\ concat groups = done ++ rest /\
    deliver script c0 = Ok (tt, c) /\ Forall2 carries (omap id script) done /\
    inbox (qw_in q) ++ concat (arrivals (qw_in q)) = concat rest /\
    (Forall (fun p => p = next_message) ps -> (length (concat groups) + length groups <= length ps)%nat -> rest = []).
Proof.
  intros Hf Hi Ha Hb Hc. assert (reading c0 true [] (concat groups) (length groups) c0 q0) as H.
  { split; [by exists []|by exists [], groups|by apply Forall_concat|done|done]. }
  destruct (reader_turns c0 true ps _ _ _ _ _ ltac:(apply Forall_true; by left) H) as (more & d & r & n & c & q & E & [(script & Hd & Hs & _) (pending & gs & [Hp Hg] & Hr & _) _ _ _] & Hdr & Hl).
  exists more, script, d, r, c, q. split_and!; try done. rewrite Hp, Hg, Hr, concat_app. f_equal. clear. induction gs as [|g gs IH]; [done|].
  cbn. by rewrite concat_app, IH.
Qed.

(** ** A request and the reader together *)
Lemma forall2_carries_some script (done : list (list Z)) : None ∉ script -> Forall2 carries (omap id script) done ->
  exists ss, script = Some <$> ss /\ Forall2 carries ss done.
Proof.
  revert done. induction script as [|[x|] script IH]; intros done Hn H; cbn in H; [exists []; by inversion H| |set_solver].
  apply Forall2_cons_inv_l in H as (m & done' & Hx & H & ->). destruct (IH done' ltac:(set_solver) H) as (ss & -> & Hss).
  exists (x :: ss). split; [done|]. by apply Forall2_cons.
Qed.
(** C8. A request whose answer comes through the proxy is answered with exactly the message of
    the modem: whatever messages to others are before and behind it in the stream, whatever
    the sizes of the pieces in which whole messages arrive, when the reader is woken often
    enough the caller gets it. *)
Theorem stream_answers {D} (dev : list Z -> M D (Z * list Z)) req req' d d' s q0 groups ps pre rsp post
    (Hd : dev req d = Ok ((0, req'), d')) (Hreq : (9 <= length req')%nat)
    (Hf : Forall (Forall qmi_framed) groups) (Hi : inbox (qw_in q0) = []) (Ha : arrivals (qw_in q0) = @concat Z <$> groups)
    (Hb : length (cm_recv_buf q0) = SIZEOF_cm_recv_buf)
    (Hg : concat groups = pre ++ rsp :: post) (Hr : is_response req' rsp = Ok true)
    (Hpre : Forall (fun m => is_response req' m = Ok false) pre)
    (Hps : Forall (fun p => p = next_message) ps) (Hn : (length (concat groups) + length groups <= length ps)%nat) :
  exists more script c q s', qw_turns true ps (s <| s_pRequest := Some req' |> <| s_pResponse := None |> <| signalled := false |>, q0) = Ok (more, (c, q)) /\
    deliver script (s <| s_pRequest := Some req' |> <| s_pResponse := None |> <| signalled := false |>) = Ok (tt, c) /\
    QmiThreadSendQMITimeout dev (Some req) true script 0 (s, d) = Ok ((0, Some rsp), (s', d')).
Proof.
  set (c0 := s <| s_pRequest := Some req' |> <| s_pResponse := None |> <| signalled := false |>).
  assert (Forall qmi_framed (concat groups)) as Hfc by (by apply Forall_concat).
  assert (reading c0 false [] (concat groups) (length groups) c0 q0) as H.
  { split; [exists []; split_and!; [done|done|set_solver]|by exists [], groups|done|done|done]. }
  destruct (reader_turns c0 false ps _ _ _ _ _ ltac:(eapply Forall_impl; [exact Hps|]; by right) H)
    as (more & dn & rest & n & c & q & E & [(script & Hdl & Hs & Hnn) _ _ _ _] & Hdr & Hl).
  rewrite (Hl Hps Hn), app_nil_r in Hdr. cbn [app] in Hdr. subst dn.
  destruct (forall2_carries_some script _ (Hnn eq_refl) Hs) as (ss & -> & Hss). rewrite Hg in Hss.
  apply Forall2_app_inv_r in Hss as (ss1 & ss2 & Hs1 & Hs2 & ->). apply Forall2_cons_inv_r in Hs2 as (x & ss3 & [[junk Hx] Hxl] & Hs3 & ->).
  rewrite Hg, Forall_app, Forall_cons in Hfc. destruct Hfc as (_ & [_ Hlen] & _).
  assert (forall l l', Forall2 carries l l' -> Forall msg_ok (Some <$> l)) as Hok.
  { intros l l' H2. apply Forall_fmap. induction H2 as [|y m l l' [_ Hy] _ IH]; constructor; [|done]. cbn. rewrite Hy. unfold SIZEOF_cm_recv_buf. lia. }
  rewrite fmap_app, fmap_cons in *.
  destruct (send_gets_response dev req req' d d' s (Some <$> ss1) x (Z.of_nat (length rsp)) (Some <$> ss3) Hd) as (s' & Es).
  - apply Forall_fmap. clear -Hs1 Hpre. induction Hs1 as [|y m l l' [[j ->] Hy] _ IH]; [done|]. apply Forall_cons in Hpre as [Hm Hpre].
    constructor; [|by apply IH]. eexists. split; [done|]. split; [rewrite Hy; unfold SIZEOF_cm_recv_buf; lia|]. by apply is_response_extend.
  - rewrite Hx. by apply is_response_extend.
  - rewrite Hx. by apply qmi_len_extend.
  - rewrite Hx, length_app. lia.
  - by eapply Hok.
  - replace (take (Z.to_nat (Z.of_nat (length rsp))) x) with rsp in Es by (by rewrite Nat2Z.id, Hx, take_app_length).
    by exists more, ((Some <$> ss1) ++ Some x :: (Some <$> ss3)), c, q, s'.
Qed.

(** ** The end of the thread *)
Lemma recv_signals m c u c' : QmiThreadRecvQMI m c = Ok (u, c') ->
  (s_pRequest c' = s_pRequest c /\ signalled c' = signalled c) \/ (s_pRequest c' = None /\ signalled c' = true).
Proof.
  unfold QmiThreadRecvQMI, report_indication, mbind, M_bind, M_get, M_lift, mret, M_ret, M_put, send_event, M_upd. intros H.
  repeat (case_match; simplify_eq; try (by left); try (by right); try done).
Qed.
Section End_of_thread.
Context (c0 : cm_state) (evs : list qw_event).
(** What the thread does to the shared state is the delivery of some messages. *)
Definition handed_on (s : cm_state * qw_reader) : Prop := (exists script, deliver script c0 = Ok (tt, s.1)) /\ qw_events s.2 = evs.
Lemma handed_recv m : Pres handed_on (on_cm (QmiThreadRecvQMI m)).
Proof.
  intros [c q] [] [c' q'] [[script H] He] E. unfold on_cm in E. cbn [fst snd] in *. destruct (QmiThreadRecvQMI m c) as [[[] c1]| |] eqn:E1; [|done..].
  cbn in E. simplify_eq. split; [|done]. exists (script ++ [m]). by eapply deliver_snoc.
Qed.
Lemma handed_upd f : (forall q, qw_events (f q) = qw_events q) -> Pres handed_on (upd_qw f).
Proof. intros Hf [c q] [] [c' q'] [H He] E. unfold upd_qw in E. cbn in *. simplify_eq. split; [done|]. cbn. by rewrite Hf. Qed.
Lemma handed_get : Pres handed_on get_qw.
Proof. intros [c q] q1 s' H E. unfold get_qw in E. by simplify_eq. Qed.
Ltac handed_step := first
  [ lazymatch goal with
    | |- Pres _ (mbind _ _) => apply pres_bind
    | |- Pres _ (mret _) => apply pres_ret
    | |- Pres _ (if _ then _ else _) => apply pres_if
    | |- Pres _ (M_when _ _) => apply pres_if
    | |- Pres _ (M_lift _) => apply pres_lift
    | |- Pres _ get_qw => apply handed_get
    | |- Pres _ (upd_qw _) => apply handed_upd
    | |- Pres _ (on_cm _) => apply handed_recv
    | |- Pres _ (let '(_, _) := ?x in _) => destruct x
    end | progress intros ].
Lemma handed_turns proxied ps : Pres handed_on (qw_turns proxied ps).
Proof.
  assert (forall off n, Pres handed_on (read_at off n)) as Hr.
  { intros. unfold read_at. apply pres_bind; [apply handed_get|]. intros q. destruct (os_read n (qw_in q)) as [[k got] w]. repeat handed_step. done. }
  assert (Pres handed_on announced) as Ha by (unfold announced; repeat handed_step).
  assert (Pres handed_on (qw_message proxied)) as Hm.
  { unfold qw_message, qmi_proxy_read. repeat first [apply Hr | apply Ha | handed_step]. }
  induction ps as [|p ps IH]; cbn [qw_turns]; repeat first [exact IH | handed_step].
  destruct p; unfold qw_turn; repeat first [exact Hm | handed_step]. done.
Qed.
End End_of_thread.
Lemma deliver_signals script c u c' : deliver script c = Ok (u, c') ->
  (s_pRequest c' = s_pRequest c /\ signalled c' = signalled c) \/ (s_pRequest c' = None /\ signalled c' = true).
Proof.
  revert c. induction script as [|m script IH]; intros c H; [by injection H as _ <-; left|]. rewrite deliver_cons in H.
  destruct (QmiThreadRecvQMI m c) as [[u1 c1]| |] eqn:E; [|done..]. apply recv_signals in E. apply IH in H.
  destruct E as [[E1 E2]|[E1 E2]], H as [[H1 H2]|[H1 H2]]; [left|right|right|right]; split; congruence.
Qed.
(** The last delivery is that of no message: it leaves nobody waiting. *)
Lemma woken_at_end req c0 script c1 c2 : waiting req c0 -> deliver script c0 = Ok (tt, c1) -> QmiThreadRecvQMI None c1 = Ok (tt, c2) ->
  signalled c2 = true /\ exists script, answered req script c2 /\ deliver script c0 = Ok (tt, c2).
Proof.
  intros Hw Hd E2. assert (deliver (script ++ [None]) c0 = Ok (tt, c2)) as Hd2 by (by eapply deliver_snoc).
  assert (s_pRequest c2 = None) as Hn.
  { unfold QmiThreadRecvQMI, mbind, M_bind, M_get, M_put, mret, M_ret in E2. destruct (s_pRequest c1) eqn:E1; by injection E2 as <-. }
  split.
  - destruct Hw as [Hw _]. destruct (deliver_signals _ _ _ _ Hd2) as [[H1 _]|[_ H1]]; congruence.
  - exists (script ++ [None]). split; [|done]. destruct (deliver_waiting req _ _ _ _ Hw Hd2) as [[H1 _]|H1]; [congruence|done].
Qed.
(** ** The thread returns

    Whatever the bytes of the stream are. *)
Definition reader_ok (q : qw_reader) : Prop :=
  length (cm_recv_buf q) = SIZEOF_cm_recv_buf /\ bytes_ok (cm_recv_buf q) /\ bytes_ok (inbox (qw_in q))
  /\ Forall bytes_ok (arrivals (qw_in q)).
Lemma os_read_ok n w k got w' : bytes_ok (inbox w) -> Forall bytes_ok (arrivals w) -> 0 <= n -> os_read n w = (k, got, w') ->
  bytes_ok got /\ bytes_ok (inbox w') /\ Forall bytes_ok (arrivals w') /\ (length got <= Z.to_nat n)%nat /\ k <= n
  /\ (SSIZE_MAX < n -> got = [] /\ k = -1).
Proof.
  intros Hi Ha Hn. unfold os_read. destruct (Z.ltb_spec SSIZE_MAX n); [intros [= <- <- <-]; split_and!; [constructor|done|done|cbn; lia|lia|done]|].
  destruct (Z.eqb_spec n 0); [intros [= <- <- <-]; split_and!; [constructor|done|done|cbn; lia|lia|lia]|]. set (avail := inbox w ++ _).
  assert (bytes_ok avail) as Hav.
  { apply Forall_app. split; [done|]. destruct Ha; cbn; [constructor|done]. }
  intros [= <- <- <-]. split; [by apply Forall_take|]. split; [by apply Forall_drop|]. split; [by destruct Ha|].
  assert (length (take (Z.to_nat n) avail) <= Z.to_nat n)%nat by (rewrite length_take; lia). split; [done|]. split; [|lia].
  destruct (bool_decide _); [destruct (peer_gone w); lia|lia].
Qed.
Lemma read_at_total off n c q : reader_ok q -> 0 <= n -> (Z.of_nat off + n <= Z.of_nat SIZEOF_cm_recv_buf \/ SSIZE_MAX < n) ->
  (off <= SIZEOF_cm_recv_buf)%nat ->
  exists k q', read_at off n (c, q) = Ok (k, (c, q')) /\ reader_ok q' /\ (Z.of_nat off + k <= Z.of_nat SIZEOF_cm_recv_buf).
Proof.
  intros (H1 & H2 & H3 & H4) Hn Hfit Hoff. destruct (os_read n (qw_in q)) as [[k got] w'] eqn:E.
  destruct (os_read_ok _ _ _ _ _ H3 H4 Hn E) as (G1 & G2 & G3 & G4 & G5 & G6).
  assert (off + length got <= length (cm_recv_buf q))%nat as Hl by (rewrite H1; destruct Hfit as [|Hb]; [lia|destruct (G6 Hb) as [-> _]; cbn; lia]).
  assert (wr off got (cm_recv_buf q) = Ok (take off (cm_recv_buf q) ++ got ++ drop (off + length got) (cm_recv_buf q))) as Ew
    by (unfold wr; by rewrite (proj2 (Nat.leb_le _ _) Hl)).
  eexists k, _. split; [eapply read_at_run; [exact E|exact Ew]|]. split.
  - split; [rewrite <- H1; by eapply wr_length|]. split; [|done].
    cbn. repeat (apply Forall_app; split); [by apply Forall_take|done|by apply Forall_drop].
  - destruct Hfit as [|Hb]; [lia|]. destruct (G6 Hb) as [_ ->]. lia.
Qed.
Lemma rd16_range b o v : bytes_ok b -> rd16 b o = Ok v -> 0 <= v < 65536.
Proof.
  unfold rd16. intros Hb E. destruct (rd8 b o) as [x| |] eqn:Ex; [|done..]. cbn [mbind res_bind] in E.
  destruct (rd8 b (o + 1)) as [y| |] eqn:Ey; [|done..]. cbn in E. injection E as <-.
  apply rd8_bound in Ex, Ey; [|done..]. unfold byte_ok in *. lia.
Qed.
Lemma announced_total c q : reader_ok q -> exists l, announced (c, q) = Ok (l, (c, q)) /\ rd16 (cm_recv_buf q) OFF_Length = Ok l /\ 0 <= l < 65536.
Proof.
  intros (H1 & H2 & _). destruct (rd16_Ok (cm_recv_buf q) OFF_Length) as [l E]; [rewrite H1; unfold OFF_Length, SIZEOF_cm_recv_buf; lia|].
  exists l. split; [by apply announced_run|]. split; [done|]. by eapply rd16_range.
Qed.
Lemma proxy_read_total c q : reader_ok q -> exists k q', qmi_proxy_read (Z.of_nat SIZEOF_cm_recv_buf) (c, q) = Ok (k, (c, q'))
  /\ reader_ok q' /\ k <= Z.of_nat SIZEOF_cm_recv_buf.
Proof.
  intros H. unfold qmi_proxy_read. destruct (read_at_total 0 (Z.of_nat SIZEOF_QCQMI_HDR) c q H) as (k & q1 & E & H1 & Hk);
    [unfold SIZEOF_QCQMI_HDR; lia|left; unfold SIZEOF_QCQMI_HDR, SIZEOF_cm_recv_buf; lia|unfold SIZEOF_cm_recv_buf; lia|].
  rewrite (QW_bind_run _ _ _ _ _ E). destruct (Z.eqb_spec k (Z.of_nat SIZEOF_QCQMI_HDR)) as [->|]; [|exists k, q1; split; [done|split; [done|lia]]].
  destruct (announced_total c q1 H1) as (l & El & _ & Hl). rewrite (QW_bind_run _ _ _ _ _ El).
  destruct (Z.ltb_spec l (Z.of_nat SIZEOF_cm_recv_buf)); [|eexists _, q1; split; [done|split; [done|unfold SIZEOF_QCQMI_HDR, SIZEOF_cm_recv_buf; lia]]].
  destruct (read_at_total SIZEOF_QCQMI_HDR (usize (l + 1 - Z.of_nat SIZEOF_QCQMI_HDR)) c q1 H1) as (k2 & q2 & E2 & H2 & Hk2).
  - unfold usize. apply Z.mod_pos_bound. lia.
  - unfold usize, SIZEOF_QCQMI_HDR, SIZEOF_cm_recv_buf, SSIZE_MAX in *. destruct (Z.leb_spec 5 l); [left; rewrite Z.mod_small; lia|right].
    rewrite <- (Z.mod_add _ 1), Z.mod_small; lia.
  - unfold SIZEOF_QCQMI_HDR, SIZEOF_cm_recv_buf. lia.
  - rewrite (QW_bind_run _ _ _ _ _ E2). exists (Z.of_nat SIZEOF_QCQMI_HDR + k2), q2. split; [done|]. split; [done|lia].
Qed.
Lemma on_cm_run {A} (m : M cm_state A) c q a c' : m c = Ok (a, c') -> on_cm m (c, q) = Ok (a, (c', q)).
Proof. intros E. unfold on_cm. cbn [fst snd]. by rewrite E. Qed.
Lemma message_total proxied c q : req_ok c -> reader_ok q -> exists c' q', qw_message proxied (c, q) = Ok (tt, (c', q')) /\ req_ok c' /\ reader_ok q'.
Proof.
  intros Hc H. unfold qw_message.
  assert (exists k q1, (if proxied then qmi_proxy_read (Z.of_nat SIZEOF_cm_recv_buf) else read_at 0 (Z.of_nat SIZEOF_cm_recv_buf) : QW Z) (c, q)
    = Ok (k, (c, q1)) /\ reader_ok q1 /\ k <= Z.of_nat SIZEOF_cm_recv_buf) as (k & q1 & E & H1 & Hk).
  { destruct proxied; [by apply proxy_read_total|]. apply read_at_total; [done|unfold SIZEOF_cm_recv_buf; lia|left; lia|unfold SIZEOF_cm_recv_buf; lia]. }
  rewrite (QW_bind_run _ _ _ _ _ E). destruct (k <=? 0); [by exists c, q1|].
  destruct (announced_total c q1 H1) as (l & El & Er & Hl). rewrite (QW_bind_run _ _ _ _ _ El).
  destruct (Z.eqb_spec k (l + 1)) as [->|]; [|by exists c, q1]. cbn [negb].
  rewrite (QW_bind_run get_qw _ (c, q1) q1 (c, q1) eq_refl).
  destruct (recv_total (cm_recv_buf q1) (l + 1) c Hc) as (c' & E' & Hc').
  - destruct H1 as [-> _]. unfold SIZEOF_cm_recv_buf. lia.
  - unfold qmi_len. by rewrite Er.
  - destruct H1 as [-> _]. done.
  - exists c', q1. split; [by apply on_cm_run|done].
Qed.
Lemma turns_total proxied ps : forall c q, req_ok c -> reader_ok q ->
  exists more c' q', qw_turns proxied ps (c, q) = Ok (more, (c', q')).
Proof.
  induction ps as [|p ps IH]; intros c q Hc Hq; [by exists true, c, q|]. cbn [qw_turns].
  enough (exists more c' q', qw_turn proxied p (c, q) = Ok (more, (c', q')) /\ req_ok c' /\ reader_ok q') as (more & c' & q' & E & Hc' & Hq').
  { rewrite (QW_bind_run _ _ _ _ _ E). destruct more; [by apply IH|by exists false, c', q']. }
  destruct p as [ret|control wdm ev]; cbn [qw_turn].
  - rewrite (QW_bind_run get_qw _ (c, q) q (c, q) eq_refl). destruct (_ && _); [|by exists false, c, q].
    destruct (recv_null_total c) as (c' & E & Hc'). rewrite (QW_bind_run _ _ _ _ _ (on_cm_run _ c q _ _ E)). by exists true, c', q.
  - destruct (POLLHUP_NVAL control); [by exists false, c, q|]. destruct (_ && _); [by exists false, c, q|].
    set (q1 := if POLLIN control && bool_decide (ev = Some SIG_STOP) then q <| wait_for_request_quit := true |> else q).
    assert (reader_ok q1) as H1 by (unfold q1; by destruct (_ && _)).
    rewrite (QW_bind_run _ _ (c, q) tt (c, q1)) by (unfold q1, M_when; by destruct (_ && _)).
    destruct (POLLHUP_NVAL wdm); [by exists false, c, q1|]. unfold M_when. destruct (POLLIN wdm).
    + destruct (message_total proxied c q1 Hc H1) as (c' & q' & E & Hc' & Hq'). rewrite (QW_bind_run _ _ _ _ _ E). by exists true, c', q'.
    + rewrite (QW_bind_run _ _ (c, q1) tt (c, q1) eq_refl). by exists true, c, q1.
Qed.

(** C12. The thread never leaves a caller behind.  Whatever the polls report and whatever the
    bytes of the stream are, the thread of a profile with a channel, while a caller waits for
    the answer to a request with a header, does its turns without a bad access and ends, or is in its loop after them.  If it could not open its descriptor,
    it has only told the main thread that the device is gone, and nobody is woken.  Else it
    has told once that the device came; and when it ends it has closed its descriptor, has
    told once that the device is gone, and a caller that was waiting has been woken, with the
    answer to its own request or with none. *)
Theorem reader_exit open_proxy open_dev profile ps req c0 q0 : waiting req c0 -> (9 <= length req)%nat -> reader_ok q0 ->
  qw_events q0 = [] -> qmichannel profile <> [] ->
  exists name more c q, QmiWwanThread open_proxy open_dev profile ps (c0, q0) = Ok ((name, more), (c, q))
  /\ proxy_of profile = Ok name
  /\ if (match name with [] => open_dev (qmichannel profile) | _ => open_proxy name end) then
       if more then qw_events q = [RIL_INDICATE_DEVICE_CONNECTED]
       else qw_events q = [RIL_INDICATE_DEVICE_CONNECTED; Device_disconnected] /\ qw_closed q = true /\ signalled c = true
            /\ exists script, answered req script c /\ deliver script c0 = Ok (tt, c)
     else more = false /\ qw_events q = [Device_disconnected] /\ c = c0.
Proof.
  intros Hw Hreq Hq0 He Hch. destruct q0 as [buf w wt ev cl]. cbn in He. subst ev.
  assert (exists name, proxy_of profile = Ok name) as [name Hname].
  { unfold proxy_of. destruct (last (qmichannel profile)) eqn:El; [by eexists|]. by apply last_None in El. }
  unfold QmiWwanThread. rewrite Hname. rewrite (QW_bind_run _ _ _ name (c0, mkQw buf w wt [] cl)) by done.
  cbv beta zeta. match goal with |- context [qw_turns ?p ps] => set (proxied := p) end.
  assert (match name with [] => open_dev (qmichannel profile) | _ => open_proxy name end
    = if proxied then open_proxy name else open_dev (qmichannel profile)) as Ho.
  { unfold proxied. destruct name; [by rewrite bool_decide_false by (intros []; done)|by rewrite bool_decide_true]. }
  destruct (if proxied then open_proxy name else open_dev (qmichannel profile)) eqn:Eo; cbn [negb].
  2:{ eexists name, false, c0, _. split; [reflexivity|]. by rewrite Ho. }
  set (q1 := mkQw buf w wt [RIL_INDICATE_DEVICE_CONNECTED] cl).
  rewrite (QW_bind_run (qw_tell _) _ (c0, mkQw buf w wt [] cl) tt (c0, q1) eq_refl).
  assert (req_ok c0) as Hc0 by (unfold req_ok; by rewrite (proj1 Hw)).
  destruct (turns_total proxied ps c0 q1 Hc0 Hq0) as (more & c1 & q2 & Et). rewrite (QW_bind_run _ _ _ _ _ Et).
  destruct (handed_turns c0 [RIL_INDICATE_DEVICE_CONNECTED] proxied ps (c0, q1) more (c1, q2)) as [[script Hd] He2];
    [split; [by exists []|done]|exact Et|]. cbn [fst snd] in Hd, He2.
  destruct more; [exists name, true, c1, q2; split; [done|]; by rewrite Ho|].
  destruct q2 as [buf2 w2 wt2 ev2 cl2]. cbn in He2. subst ev2. destruct (recv_null_total c1) as (c2 & E2 & _).
  eexists name, false, c2, _. split.
  { do 2 erewrite QW_bind_run by reflexivity. rewrite (QW_bind_run _ _ _ _ _ (on_cm_run _ c1 _ _ _ E2)). reflexivity. } split; [done|]. rewrite Ho. split; [done|]. split; [done|].
  by apply (woken_at_end req c0 script c1).
Qed.

(** ** The start of a session *)
Lemma M_bind_run {S A B} (m : M S A) (f : A -> M S B) s a s' : m s = Ok (a, s') -> (m ≫= f) s = f a s'.
Proof. intros E. unfold mbind, M_bind. by rewrite E. Qed.

(** The path of the device reaches the proxy of libqmi; the buffer has room for 241 bytes,
    and the channel name of the profile has at most 31. *)
Lemma compose_proxy_open stack tid path : length stack = 256%nat -> (length path <= 241)%nat ->
  compose_ctl stack QMI_MESSAGE_CTL_INTERNAL_PROXY_OPEN tid (Some (CtlLibQmiProxyOpenReq path))
  = Ok (ctl_bytes tid QMI_MESSAGE_CTL_INTERNAL_PROXY_OPEN (1 :: enc16 (Z.of_nat (length path)) ++ path)).
Proof.
  intros Hs Hp. do 15 (destruct stack as [|? stack]; [discriminate Hs|]). cbn in Hs.
  set (n := length path) in *. assert (length (take n stack) = n) as Ht by (rewrite length_take; lia).
  rewrite <- (take_drop n stack). set (old := take n stack) in *. set (post := drop n stack).
  set (len := Z.of_nat n). set (front := [1; z0; z1; 0; 0; 0; 0; u8 tid; 0; 255; z9; z10; 1; len mod 256; len / 256 mod 256]).
  assert (CtlLibQmiProxyOpenReq path (take 12 front ++ z11 :: z12 :: z13 :: old ++ post) = Ok (9 + len, front ++ path ++ post)) as Eb.
  { unfold CtlLibQmiProxyOpenReq. fold n. rewrite (u16_id (Z.of_nat n)), (u16_id (9 + Z.of_nat n)) by lia. fold len.
    rewrite (M_bind_run _ _ _ tt (front ++ old ++ post)) by reflexivity.
    rewrite (M_bind_run _ _ _ tt (front ++ path ++ post)); [done|]. by apply st_at. }
  set (body := path ++ post) in Eb. assert (n + 15 <= 256)%nat as Hn by lia.
  set (prep := take 12 front ++ z11 :: z12 :: z13 :: old ++ post) in Eb.
  set (finish := (_ ← (r ← CtlLibQmiProxyOpenReq path; st16 OFF_CTL_Length (r - Z.of_nat SIZEOF_QCQMICTL_MSG_HDR));
    b ← M_get; l ← M_lift (rd16 b OFF_CTL_Length); _ ← st16 OFF_Length (l + 6 + 6 - 1);
    b ← M_get; len ← M_lift (qmi_len b); M_lift (rdn b 0 (Z.to_nat len))) : M (list Z) (list Z)).
  change ((r ← finish prep; mret r.1) = Ok (ctl_bytes tid QMI_MESSAGE_CTL_INTERNAL_PROXY_OPEN (1 :: enc16 len ++ path))).
  set (msg := ctl_bytes tid QMI_MESSAGE_CTL_INTERNAL_PROXY_OPEN (1 :: enc16 len ++ path)).
  assert (length msg = n + 15)%nat as Hm by (unfold msg, ctl_bytes; cbn; lia).
  enough (finish prep = Ok (msg, msg ++ post)) as -> by done. unfold finish.
  set (b1 := take 10 front ++ enc16 (9 + len - 6) ++ drop 12 front ++ body).
  rewrite (M_bind_run _ _ _ tt b1); [|by rewrite (M_bind_run _ _ _ (9 + len) (front ++ body))].
  rewrite (M_bind_run _ _ _ b1 b1) by done. rewrite (M_bind_run _ _ _ (u16 (9 + len - 6)) b1).
  2: { unfold M_lift. change (rd16 b1 OFF_CTL_Length) with (rd16 (take 10 front ++ enc16 (9 + len - 6) ++ drop 12 front ++ body) (length (take 10 front) + 0)).
       by rewrite rd16_app_r, rd16_enc16. }
  rewrite u16_id by lia. rewrite (M_bind_run _ _ _ tt (msg ++ post)).
  2: { unfold msg, ctl_bytes. replace (Z.of_nat (length (1 :: enc16 len ++ path))) with (9 + len - 6) by (cbn; lia).
       replace (11 + (9 + len - 6)) with (9 + len - 6 + 6 + 6 - 1) by lia. reflexivity. }
  rewrite (M_bind_run _ _ _ (msg ++ post) (msg ++ post)) by done.
  assert (qmi_len msg = Ok (len + 15)) as El.
  { unfold msg, qmi_len, ctl_bytes. replace (Z.of_nat (length (1 :: enc16 len ++ path))) with (len + 3) by (cbn; lia).
    change OFF_Length with (length [1%Z] + 0)%nat. rewrite rd16_app_r, rd16_enc16. cbn [mbind res_bind]. rewrite u16_id by lia. f_equal. lia. }
  rewrite (M_bind_run _ _ _ (len + 15) (msg ++ post)) by (unfold M_lift; by rewrite (qmi_len_extend _ _ _ El)).
  unfold M_lift. replace (Z.to_nat (len + 15)) with (length msg) by lia.
  change (rdn (msg ++ post) 0 (length msg)) with (rdn ([] ++ msg ++ post) (length (@nil Z)) (length msg)). by rewrite rdn_app.
Qed.
(** Through a proxy the session is never synchronised, which would take the client ids of the
    other users of the proxy away. *)
Lemma proxied_never_syncs ctl_send ctl_sync ctl_sync' stack profile d : proxy profile <> [] ->
  QmiWwanInit ctl_send ctl_sync stack profile d = QmiWwanInit ctl_send ctl_sync' stack profile d.
Proof. intros H. unfold QmiWwanInit. by rewrite (bool_decide_false (proxy profile = [])). Qed.
(** At most ten requests are sent. *)
Lemma qmi_sync_loop_bound ctl_sync stack n ret d r d' (calls : qmiwwan -> nat) :
  (forall req e k e', ctl_sync req e = Ok (k, e') -> calls e' = S (calls e)) ->
  (forall t e, calls (e <| ctl_TransactionId := t |>) = calls e) ->
  qmi_sync_loop ctl_sync stack n ret d = Ok (r, d') -> (calls d' <= calls d + n)%nat.
Proof.
  intros Hc Ht. revert ret d. induction n as [|n IH]; intros ret d E; cbn [qmi_sync_loop] in E; [injection E as _ <-; lia|].
  unfold ComposeQCTLMsg, GetQCTLTransactionId, mbind, M_bind, M_lift in E.
  destruct (compose_ctl _ _ _ _) as [req| |]; [|done..].
  destruct (ctl_sync req _) as [[k d1]| |] eqn:E1; [|done..]. apply Hc in E1. rewrite Ht in E1.
  destruct (k =? 0); [injection E as _ <-; lia|]. apply IH in E. lia.
Qed.

(** ** Runs *)
Definition demo_msg (ty : Z) : list Z := [1; 12; 0; 0; ty; 0; 0; 0; 0; 0; 0; 0; 0].
Definition demo_reader (arriving : list (list Z)) : qw_reader := mkQw (zeros 4096) (mkWdmIn [] arriving false) false [] false.
Lemma demo_framed ty : qmi_framed (demo_msg ty).
Proof. split; [unfold SIZEOF_QCQMI_HDR, SIZEOF_cm_recv_buf; cbn; lia|done]. Qed.
Definition demo_groups : list (list (list Z)) := [[demo_msg 3]; [demo_msg 0; demo_msg 2]].
Lemma demo_groups_framed : Forall (Forall qmi_framed) demo_groups.
Proof. unfold demo_groups. rewrite !Forall_cons, !Forall_nil. split_and!; done || apply demo_framed. Qed.

Lemma reader_frames_witness : exists script c q,
  qw_turns true (replicate 5 next_message) (cm_init, demo_reader (@concat Z <$> demo_groups)) = Ok (true, (c, q)) /\
  Forall2 carries (omap id script) [demo_msg 3; demo_msg 0; demo_msg 2].
Proof.
  destruct (reader_frames cm_init (demo_reader (@concat Z <$> demo_groups)) demo_groups (replicate 5 next_message))
    as (more & script & dn & rest & c & q & E & Hd & _ & Hs & _ & Hl);
    [apply demo_groups_framed|reflexivity|reflexivity|reflexivity|exact I|].
  assert (rest = []) as Hr by (apply Hl; [apply Forall_replicate; reflexivity|cbn; lia]).
  rewrite Hr, app_nil_r in Hd. rewrite <- Hd in Hs. exists script, c, q. split; [|exact Hs].
  assert (more = true) as Hm; [|rewrite Hm in E; exact E].
  clear -E. destruct more; [reflexivity|]. vm_compute in E. discriminate E.
Defined.
Lemma stream_answers_witness : exists script s',
  QmiThreadSendQMITimeout dev_id (Some (zeros 13)) true script 0 (cm_init, tt) = Ok ((0, Some (demo_msg 0)), (s', tt)).
Proof.
  destruct (stream_answers dev_id (zeros 13) (zeros 13) tt tt cm_init (demo_reader (@concat Z <$> demo_groups)) demo_groups
    (replicate 5 next_message) [demo_msg 3] (demo_msg 0) [demo_msg 2]) as (more & script & c & q & s' & _ & _ & E);
    [reflexivity|cbn; lia|apply demo_groups_framed|reflexivity|reflexivity|reflexivity|reflexivity|reflexivity|
     repeat constructor|apply Forall_replicate; reflexivity|cbn; lia|].
  exists script, s'. exact E.
Defined.
Definition demo_reader_profile : PROFILE_T := PROFILE_zero <| qmichannel := bytes_of_string "/dev/cdc-wdm0" |> <| qmap_mode := 4 |>.
Lemma reader_exit_witness :
  let c0 := mkCM (Some (zeros 13)) None false [] in
  exists c q, QmiWwanThread (fun _ => true) (fun _ => false) demo_reader_profile [next_message; Poll_ret (-1)] (c0, demo_reader [demo_msg 3])
      = Ok ((bytes_of_string "quectel-qmi-proxy0", false), (c, q)) /\ signalled c = true.
Proof.
  intros c0.
  destruct (reader_exit (fun _ => true) (fun _ => false) demo_reader_profile [next_message; Poll_ret (-1)] (zeros 13) c0 (demo_reader [demo_msg 3]))
    as (nm & more & c & q & E & Hn & H).
  - exact (conj eq_refl eq_refl).
  - cbn. lia.
  - split; [reflexivity|]. split; [by apply (bool_decide_eq_true_1 _); vm_compute|]. split; [constructor|].
    by apply (bool_decide_eq_true_1 _); vm_compute.
  - reflexivity.
  - discriminate.
  - assert (nm = bytes_of_string "quectel-qmi-proxy0" /\ more = false) as [-> ->].
    { vm_compute in E. injection E as E1 E2 _ _. rewrite <- E1, <- E2. split; reflexivity. }
    exists c, q. split; [exact E|]. exact (proj1 (proj2 (proj2 H))).
Defined.
(** A message of which only a part has arrived is lost: with only its header there the second
    read returns -1, and what comes later is taken for a header. *)
Example split_message_is_lost :
  (fun r => match r with Ok (_, (c, q)) => Some (s_pResponse c, inbox (qw_in q)) | _ => None end)
    (qw_turns true (replicate 4 next_message)
      (mkCM (Some (demo_msg 3)) None false [], demo_reader [take 6 (demo_msg 3); []; drop 6 (demo_msg 3)]))
  = Some (None, []).
Proof. vm_compute. reflexivity. Qed.
