(* ===== verification/WwanFixup.v ===== *)
(** The fix-ups of the qmi_wwan_q driver: what usbnet calls for every buffer on its way
    out and in.  Without multiplexing these are [qmap_qmi_wwan_tx_fixup] and
    [qmap_qmi_wwan_rx_fixup], which deal with the Ethernet header the modem does not
    know; with it [rmnet_usb_tx_fixup], [rmnet_usb_rx_fixup] and the receive handler of
    the device.  Also the Ethernet address, which must not look like an IP header.

    What the kernel's own routines decide is an argument ([eth_prepare_mac_addr_change],
    the random address). *)
From S2P Require Import Prelude Qmap.
#[local] Open Scope Z_scope.

Definition ETH_P_MAP : Z := 0xDA1A.
Definition EADDRNOTAVAIL : Z := 99.

(** ** Ethernet addresses *)

(** [data[0] & 0xd0]: the first nibble is 4 or 6. *)
Definition possibly_iphdr (data : list Z) : bool :=
  match data with b :: _ => Z.land b 0xd0 =? 0x40 | [] => false end.
(** [is_multicast_ether_addr] *)
Definition is_multicast (b0 : Z) : bool := truth (Z.land b0 1).

(** [qmi_wwan_mac_addr]; [prepare] is the result of [eth_prepare_mac_addr_change]. *)
Definition qmi_wwan_mac_addr (prepare : list Z -> Z) (addr : list Z) (net : net_device) : Z * net_device :=
  let ret := prepare addr in
  if ret <? 0 then (ret, net)
  else if possibly_iphdr addr then (- EADDRNOTAVAIL, net)
  else (0, net <| dev_addr := addr |>).

(** The part of [qmi_wwan_bind] that chooses the address; [random] is what
    [eth_hw_addr_random] draws. *)
Definition bind_address (random : list Z) (addr : list Z) : list Z :=
  let addr := if bool_decide (addr = default_modem_addr) then random else addr in
  if possibly_iphdr addr then
    match addr with
    | b :: rest => Z.land (Z.lor b 0x02) 0xbf :: rest
    | [] => []
    end
  else addr.

Section Fixup.
Context {S : Type} `{SkbOps S}.

(** [struct usbnet] as far as the fix-ups read it: the flag FLAG_NOARP of its driver, the
    length of the header of its device, the device, and behind [info->unused] the QMAP
    data with its link state.  [u_slot] tells which entries of [mpQmapNetDev] are the
    device itself, and [u_replies] keeps the replies of the ARP bridge. *)
Record usbnet := mkUsbnet {
  flag_noarp : bool; hard_header_len : nat; u_net : net_device; u_slot : Z -> bool;
  unused : option (sQmiWwanQmap * Z); u_replies : list arp_reply }.

Definition set_bridge (br : bridge) (reply : option arp_reply) (dev : usbnet) : usbnet :=
  dev <| unused := prod_map (fun q => q <| q_bridge := br |>) id <$> unused dev |>
      <| u_replies := u_replies dev ++ option_list reply |>.

(** ** Out *)

(** [nh] is the offset of the network header; [None]: the buffer was freed. *)
Definition qmi_wwan_tx_fixup (dev : usbnet) (nh : nat) (s : S) : res (option S * usbnet) :=
  if negb (flag_noarp dev) then mret (Some s, dev)
  else if (hard_header_len dev =? 0)%nat then mret (Some s, dev)
  else
    qd ← of_option (unused dev);
    kept ← (if truth (bridge_mode (q_bridge qd.1)) then
              f ← bridge_mode_tx_fixup s nh (q_bridge qd.1);
              mret (f.1.1, set_bridge f.1.2 f.2 dev)
            else mret (Some s, dev));
    mret (s ← kept.1; skb_pull ETH_HLEN s, kept.2).

(** With more than one multiplexed device the buffer passes unchanged ([WARN_ON]). *)
Definition qmap_qmi_wwan_tx_fixup (dev : usbnet) (nh : nat) (s : S) : res (option S * usbnet) :=
  match unused dev with
  | None => mret (None, dev)
  | Some (q, link_state) =>
      if truth (qmap_mode q) && negb (truth link_state) then mret (None, dev)
      else if qmap_mode q =? 0 then qmi_wwan_tx_fixup dev nh s
      else if 1 <? qmap_mode q then mret (Some s, dev)
      else
        r ← qmi_wwan_tx_fixup dev nh s;
        match r.1 with
        | None => mret (None, r.2)
        | Some s =>
            f ← (if q_version q =? 5 then add_qhdr s QUECTEL_QMAP_MUX_ID else add_qhdr_v5 s QUECTEL_QMAP_MUX_ID);
            mret (Some f, r.2)
        end
  end.

(** ** In *)

(** Returns what usbnet is told (1: pass the buffer on) and the buffer. *)
Definition qmi_wwan_rx_fixup (dev : usbnet) (s : S) : res (Z * S) :=
  let fix_dest s := qd ← of_option (unused dev); mret (1, bridge_mode_rx_fixup qd.1 (u_net dev) s) in
  if (skb_len s <? hard_header_len dev)%nat then mret (0, s)
  else
    b0 ← rd8 (skb_data s) 0;
    let push proto :=
      if (skb_headroom s <? ETH_HLEN)%nat then mret (0, s)
      else s ← skb_push ETH_HLEN s; fix_dest (skb_store 6 (default_modem_addr ++ be16 proto) s) in
    if Z.land b0 0xf0 =? 0x40 then push ETH_P_IP
    else if Z.land b0 0xf0 =? 0x60 then push ETH_P_IPV6
    else if Z.land b0 0xf0 =? 0x00 then
      if is_multicast b0 then mret (1, s) else fix_dest s
    else mret (1, s).

(** What [usbnet_skb_return] gets for the device: the packets of other devices are only
    warned about. *)
Definition qmap_qmi_wwan_rx_fixup (dev : usbnet) (mem : nat -> bool) (fuel : nat) (s : S) : res (Z * S * list S) :=
  qd ← of_option (unused dev);
  if qmap_mode qd.1 =? 0 then r ← qmi_wwan_rx_fixup dev s; mret (r, [])
  else
    pks ← qmap_packet_decode fuel 0 mem qd.1 s [];
    mret (0, s, snd <$> filter (fun pk => u_slot dev pk.1.1) pks).

(** ** The device under the multiplexed ones *)

(** [proto] is [skb->protocol]. *)
Definition rmnet_usb_tx_fixup (proto : Z) (s : S) : option S :=
  if proto =? ETH_P_MAP then Some s else None.

(** [ethernet]: the type of the device is [ARPHRD_ETHER]. *)
Definition rmnet_usb_rx_fixup (net : net_device) (s : S) : res (Z * S) :=
  if is_ether net && (ETH_HLEN <=? skb_headroom s)%nat then
    s ← skb_push ETH_HLEN s;
    mret (1, skb_store 0 (dev_addr net ++ default_modem_addr ++ be16 ETH_P_MAP) s)
  else mret (0, s).

Inductive rx_result := RX_HANDLER_CONSUMED | RX_HANDLER_PASS.

(** The receive counters of the multiplexed devices: packets and bytes. *)
Definition rx_stats : Type := gmap Z (Z * Z).
Definition rmnet_vnd_update_rx_stats (mux packets bytes : Z) (st : rx_stats) : rx_stats :=
  let old := default (0, 0) (st !! mux) in <[mux := (old.1 + packets, old.2 + bytes)]> st.

(** A decoded packet on its way to [netif_receive_skb]; [net_of] is the device of the
    number it was decoded for. *)
Definition receive_packet (net_of : Z -> option net_device) (pk : packet (S:=S)) (st : rx_stats)
    : option S * rx_stats :=
  let st := rmnet_vnd_update_rx_stats pk.1.1 1 (Z.of_nat (skb_len pk.2)) st in
  match net_of pk.1.1 with
  | Some net => (if is_ether net then skb_pull ETH_HLEN pk.2 else Some pk.2, st)
  | None => (None, st)
  end.
Fixpoint receive_all (net_of : Z -> option net_device) (pks : list (packet (S:=S))) (st : rx_stats)
    : list (Z * Z * option S) * rx_stats :=
  match pks with
  | [] => ([], st)
  | pk :: pks =>
      let '(s, st) := receive_packet net_of pk st in
      let '(out, st) := receive_all net_of pks st in ((pk.1.1, pk.1.2, s) :: out, st)
  end.

(** [rmnet_usb_rx_handler]; [qd] is [None] without a usbnet behind the device. *)
Definition rmnet_usb_rx_handler (loopback : bool) (proto : Z) (q : option sQmiWwanQmap) (mem : nat -> bool)
    (fuel : nat) (skb : option S) (st : rx_stats) : res (rx_result * list (Z * Z * option S) * rx_stats) :=
  match skb with
  | None => mret (RX_HANDLER_CONSUMED, [], st)
  | Some s =>
      if loopback then mret (RX_HANDLER_PASS, [], st)
      else if negb (proto =? ETH_P_MAP) then mret (RX_HANDLER_PASS, [], st)
      else
        match q with
        | None => mret (RX_HANDLER_PASS, [], st)
        | Some q =>
            pks ← qmap_packet_decode fuel 0 mem q s [];
            let r := receive_all (fun mux => mjoin (mpQmapNetDev q !! Z.to_nat mux)) pks st in
            mret (RX_HANDLER_CONSUMED, r.1, r.2)
        end
  end.
End Fixup.
