(* ===== verification/WwanFixupSpec.v ===== *)
(** Properties of the fix-ups of qmi_wwan_q: what is sent comes back as it was, with and
    without multiplexing; Ethernet headers are added exactly where they are missing; the
    bridge lets one host through and answers ARP for the network of the modem. *)
From S2P Require Import Prelude Qmap QmapSpec WwanFixup.
#[local] Open Scope Z_scope.

Section Spec.
Context {S : Type} `{HL : SkbLaws S}.
Implicit Types (dev : usbnet) (s : S) (q : sQmiWwanQmap).

(** ** Without multiplexing *)

(** A raw-IP device with its QMAP data. *)
Definition raw_ip dev q (link : Z) : Prop :=
  unused dev = Some (q, link) /\ flag_noarp dev = true /\ hard_header_len dev = ETH_HLEN.

Lemma pull_header s :
  (ETH_HLEN <= skb_len s)%nat ->
  exists s', skb_pull ETH_HLEN s = Some s' /\ skb_data s' = drop ETH_HLEN (skb_data s)
    /\ (ETH_HLEN <= skb_headroom s')%nat.
Proof.
  intros H1. destruct (pull_ok ETH_HLEN s H1) as (s' & P1 & P2 & P3 & _).
  exists s'. split; [done|]. split; [done|lia].
Qed.
Lemma tx_fixup_plain dev q link nh s :
  raw_ip dev q link -> truth (bridge_mode (q_bridge q)) = false ->
  qmi_wwan_tx_fixup dev nh s = Ok (skb_pull ETH_HLEN s, dev).
Proof.
  intros (U & N & Hh) B. unfold qmi_wwan_tx_fixup. rewrite N, Hh, U. cbn. by rewrite B.
Qed.

(** The header of 14 bytes makes room for the one of QMAP. *)
Lemma tx_fixup_framed dev q link s :
  raw_ip dev q link -> truth (bridge_mode (q_bridge q)) = false -> qmap_mode q = 1 -> link <> 0 ->
  (ETH_HLEN <= skb_len s)%nat ->
  exists s' f, skb_data s' = drop ETH_HLEN (skb_data s) /\ (8 <= skb_headroom s')%nat
    /\ encode (q_version q) s' QUECTEL_QMAP_MUX_ID = Ok f
    /\ forall nh, qmap_qmi_wwan_tx_fixup dev nh s = Ok (Some f, dev).
Proof.
  intros R B M Hl Hs. destruct (pull_header s Hs) as (s' & P1 & P2 & P3). unfold ETH_HLEN in P3.
  destruct (encode_ok (q_version q) s' QUECTEL_QMAP_MUX_ID) as (f & tl & E1 & _); [lia|].
  exists s', f. split; [done|]. split; [lia|]. split; [done|]. intros nh.
  unfold qmap_qmi_wwan_tx_fixup. rewrite (proj1 R), M. unfold truth at 2.
  rewrite (proj2 (Z.eqb_neq link 0) Hl). cbn [negb truth andb Z.eqb Z.ltb Z.compare].
  erewrite tx_fixup_plain by done. rewrite P1. cbn. unfold encode in E1.
  by destruct (q_version q =? 5); rewrite E1.
Qed.

Lemma frames_out dev q link fs :
  raw_ip dev q link -> truth (bridge_mode (q_bridge q)) = false -> qmap_mode q = 1 -> link <> 0 ->
  Forall (fun s => exists net proto, sendable q 0 net (drop ETH_HLEN (skb_data s)) proto) fs ->
  exists ss gs, Forall2 (fun s s' => skb_data s' = drop ETH_HLEN (skb_data s)) fs ss
    /\ Forall (can_send q) (pair 0 <$> ss)
    /\ Forall2 (fun x f => encode (q_version q) x.2 (QUECTEL_QMAP_MUX_ID + x.1) = Ok f) (pair 0 <$> ss) gs
    /\ Forall2 (fun s g => forall nh, qmap_qmi_wwan_tx_fixup dev nh s = Ok (Some g, dev)) fs gs.
Proof.
  intros R B M Hl Hs. induction Hs as [|s fs (net & proto & Hsend) _ IH]; [by exists [], []|].
  destruct IH as (ss & gs & I1 & I2 & I3 & I4).
  assert (Hlen : (ETH_HLEN <= skb_len s)%nat).
  { unfold skb_len. destruct Hsend as (_ & _ & _ & _ & Hp & _).
    destruct (decide (ETH_HLEN <= length (skb_data s))%nat); [done|]. by rewrite drop_ge in Hp by lia. }
  destruct (tx_fixup_framed dev q link s R B M Hl Hlen) as (s' & g & E1 & E2 & E3 & E4).
  exists (s' :: ss), (g :: gs). repeat split; try constructor; try done.
  split; [done|]. cbn. rewrite E1. by exists net, proto.
Qed.
Lemma all_for_device dev (pks : list (packet (S:=S))) :
  u_slot dev 0 = true -> Forall (fun pk => pk.1.1 = 0) pks -> filter (fun pk => u_slot dev pk.1.1) pks = pks.
Proof.
  intros Hslot. induction 1 as [|pk pks E _ IH]; [done|]. rewrite filter_cons, decide_True by (by rewrite E, Hslot).
  f_equal. exact IH.
Qed.

(** What a frame comes back as: the packet in it, behind a header of this device. *)
Definition comes_back q (s pk : S) : Prop :=
  exists net proto, sendable q 0 net (drop ETH_HLEN (skb_data s)) proto
    /\ skb_data pk = eth_header q net proto ++ drop ETH_HLEN (skb_data s).

(** C3. A device without multiplexed ones, in raw-IP mode and not bridging: what is sent
    is what comes back.  While its link is on, Ethernet frames with IP packets that fit
    the device pass [qmap_qmi_wwan_tx_fixup], whatever room their buffers have in front;
    sent as one transfer they are taken apart by [qmap_qmi_wwan_rx_fixup] of such a
    device into the same packets, in order, none lost, each behind an Ethernet header of
    the device.  (QMAP version 5, or 9 with a modem without a minimal downlink padding.)
    While the link is off every frame, of whatever kind, is dropped and the device is
    left as it is. *)
Theorem netdev_roundtrip dev q link fs :
  raw_ip dev q link -> truth (bridge_mode (q_bridge q)) = false -> qmap_mode q = 1 ->
  u_slot dev 0 = true ->
  q_version q = 5 \/ (q_version q = 9 /\ dl_minimum_padding (tx_ctx q) = 0) ->
  Forall (fun s => exists net proto, sendable q 0 net (drop ETH_HLEN (skb_data s)) proto) fs ->
  if truth link then
    exists gs, Forall2 (fun s g => forall nh, qmap_qmi_wwan_tx_fixup dev nh s = Ok (Some g, dev)) fs gs
      /\ forall skb_in, skb_data skb_in = concat (skb_data <$> gs) ->
         exists pks, qmap_qmi_wwan_rx_fixup dev (fun _ => true) (Datatypes.S (skb_len skb_in)) skb_in
           = Ok (0, skb_in, pks) /\ Forall2 (comes_back q) fs pks
  else forall s nh, qmap_qmi_wwan_tx_fixup dev nh s = Ok (None, dev).
Proof.
  intros R B M Hslot Hv Hs. destruct (truth link) eqn:Hl.
  2:{ intros s nh. unfold qmap_qmi_wwan_tx_fixup. by rewrite (proj1 R), M, Hl. }
  apply negb_true_iff, Z.eqb_neq in Hl.
  destruct (frames_out dev q link fs R B M Hl Hs) as (ss & gs & I1 & I2 & I3 & I4).
  exists gs. split; [done|]. intros skb_in E.
  destruct (decode_frames (q_version q) q (pair 0 <$> ss) gs skb_in [] 0 (Datatypes.S (skb_len skb_in))
    Hv eq_refl I2 I3 E) as (pks & D1 & D2); [unfold skb_len; lia|].
  exists (snd <$> pks). split.
  - unfold qmap_qmi_wwan_rx_fixup. rewrite (proj1 R). cbn [of_option mbind res_bind fst snd]. rewrite M. cbn [Z.eqb]. rewrite D1. cbn [mbind res_bind mret res_ret app].
    do 3 f_equal. apply all_for_device; [done|]. eapply Forall2_Forall_r; [exact D2|].
    apply Forall_fmap, Forall_true. by intros x pk (_ & _ & _ & -> & _).
  - apply Forall2_fmap_r. apply Forall2_fmap_l in D2. revert D2 I1. generalize pks. clear.
    intros pks D2 I1. revert pks D2.
    induction I1 as [|s s' fs ss E I1 IH]; intros pks D2; inversion D2 as [|? pk ? pks' A D]; subst; constructor.
    + destruct A as (net & proto & A1 & _ & _ & A4). exists net, proto. cbn [fst snd] in *. by rewrite <- E.
    + by apply IH.
Qed.

(** *** Headers of what arrives *)

(** An address that looks like no IP header is told apart by the first nibble. *)
Lemma not_iphdr b rest :
  possibly_iphdr (b :: rest) = false -> (Z.land b 0xf0 =? 0x40) = false /\ (Z.land b 0xf0 =? 0x60) = false.
Proof.
  cbn. intros E. replace (Z.land b 0xd0) with (Z.land (Z.land b 0xf0) 0xd0) in E by (by rewrite <- Z.land_assoc).
  split; apply Z.eqb_neq; intros F; by rewrite F in E.
Qed.

Lemma fix_dest_data q net s dst rest :
  addrs_ok q net -> skb_data s = dst ++ rest -> length dst = ETH_ALEN ->
  skb_data (bridge_mode_rx_fixup q net s) = rx_dest q net ++ rest.
Proof.
  intros Ha E Hd. unfold bridge_mode_rx_fixup. fold (rx_dest q net).
  rewrite (store_at 0 (rx_dest q net) s [] dst rest); [done|done|done|by rewrite Hd, length_rx_dest].
Qed.

Lemma push_eth q net proto s :
  addrs_ok q net -> (ETH_HLEN <= skb_headroom s)%nat ->
  exists s', skb_push ETH_HLEN s = Ok s'
    /\ skb_data (bridge_mode_rx_fixup q net (skb_store 6 (default_modem_addr ++ be16 proto) s'))
       = rx_dest q net ++ default_modem_addr ++ be16 proto ++ skb_data s.
Proof.
  intros Ha Hh. destruct (push_ok _ _ Hh) as (s' & hd & P1 & P2 & P3 & _). exists s'. split; [done|].
  rewrite <- (take_drop 6 hd), <- app_assoc in P3.
  rewrite (fix_dest_data q net _ (take 6 hd) ((default_modem_addr ++ be16 proto) ++ skb_data s)); [by rewrite <- app_assoc|done| |].
  - apply (store_at 6 _ s' (take 6 hd) (drop 6 hd)); [done| |].
    + rewrite length_take, P2. done.
    + rewrite length_drop, P2. done.
  - by rewrite length_take, P2.
Qed.

Lemma rx_fixup_raw dev q link s proto :
  unused dev = Some (q, link) -> addrs_ok q (u_net dev) -> proto_of (skb_data s) = Some proto ->
  (hard_header_len dev <= skb_len s)%nat ->
  if (skb_headroom s <? ETH_HLEN)%nat then qmi_wwan_rx_fixup dev s = Ok (0, s)
  else exists s', qmi_wwan_rx_fixup dev s = Ok (1, s')
    /\ skb_data s' = rx_dest q (u_net dev) ++ default_modem_addr ++ be16 proto ++ skb_data s.
Proof.
  intros U Ha Hp Hl. unfold qmi_wwan_rx_fixup. rewrite U, (proj2 (Nat.ltb_ge _ _) Hl).
  destruct (skb_data s) as [|b rest] eqn:E; [done|]. change (rd8 (b :: rest) 0) with (Ok b).
  cbn [mbind res_bind of_option mret res_ret fst]. cbn [proto_of] in Hp.
  destruct (Nat.ltb_spec (skb_headroom s) ETH_HLEN) as [Hh|Hh].
  - by destruct (Z.land b 0xf0 =? 0x40), (Z.land b 0xf0 =? 0x60).
  - destruct (push_eth q (u_net dev) proto s Ha Hh) as (s' & -> & P). rewrite E in P.
    destruct (Z.land b 0xf0 =? 0x40); [|destruct (Z.land b 0xf0 =? 0x60); [|done]]; injection Hp as <-; by eexists.
Qed.

Lemma rx_fixup_eth dev q link s dst rest :
  unused dev = Some (q, link) -> addrs_ok q (u_net dev) -> skb_data s = dst ++ rest -> length dst = ETH_ALEN ->
  possibly_iphdr dst = false -> (hard_header_len dev <= skb_len s)%nat ->
  exists s', qmi_wwan_rx_fixup dev s = Ok (1, s')
    /\ skb_data s' = (match dst with b :: _ => if (Z.land b 0xf0 =? 0) && negb (is_multicast b)
                         then rx_dest q (u_net dev) else dst | [] => dst end) ++ rest.
Proof.
  intros U Ha E Hd Hi Hl. unfold qmi_wwan_rx_fixup. rewrite U, (proj2 (Nat.ltb_ge _ _) Hl).
  destruct dst as [|b dst]; [done|]. 
  replace (rd8 (skb_data s) 0) with (Ok b) by (by rewrite E).
  cbn [mbind res_bind of_option mret res_ret fst].
  destruct (not_iphdr _ _ Hi) as [N1 N2]. rewrite N1, N2.
  destruct (Z.land b 0xf0 =? 0); [|by eexists]. destruct (is_multicast b); [by eexists|].
  eexists. split; [done|]. by apply (fix_dest_data q (u_net dev) s (b :: dst)).
Qed.

(** Headers are added exactly where they are missing.  On a device whose own address
    looks like no IP header, a raw IP packet is passed on behind an Ethernet header of
    its protocol (with no room in front it is dropped), and an Ethernet frame for the
    device, or for any other address that looks like no IP header, such as broadcast,
    keeps its length and everything behind the destination; its destination stays or
    becomes that of the host. *)
Theorem rx_header_where_missing dev q link s :
  unused dev = Some (q, link) -> addrs_ok q (u_net dev) -> possibly_iphdr (dev_addr (u_net dev)) = false ->
  (hard_header_len dev <= skb_len s)%nat -> (ETH_HLEN <= skb_headroom s)%nat ->
  (forall proto, proto_of (skb_data s) = Some proto ->
     exists s', qmi_wwan_rx_fixup dev s = Ok (1, s')
       /\ skb_data s' = rx_dest q (u_net dev) ++ default_modem_addr ++ be16 proto ++ skb_data s)
  /\ (forall dst rest, skb_data s = dst ++ rest -> length dst = ETH_ALEN ->
       dst = dev_addr (u_net dev) \/ possibly_iphdr dst = false ->
     exists s' dst', qmi_wwan_rx_fixup dev s = Ok (1, s') /\ skb_data s' = dst' ++ rest
       /\ (dst' = dst \/ dst' = rx_dest q (u_net dev))).
Proof.
  intros U Ha Hd Hl Hh. split.
  - intros proto Hp. pose proof (rx_fixup_raw dev q link s proto U Ha Hp Hl) as F.
    by rewrite (proj2 (Nat.ltb_ge _ _) Hh) in F.
  - intros dst rest E Hlen Hor.
    destruct (rx_fixup_eth dev q link s dst rest U Ha E Hlen) as (s' & F1 & F2); [by destruct Hor as [->|]|done|].
    exists s'. eexists. split; [done|]. split; [exact F2|].
    destruct dst; [by left|]. destruct (_ && _); auto.
Qed.

(** ** The bridge *)

(** The fields of a frame of the LAN, with its network header behind the Ethernet one. *)
Definition etype (f : list Z) : Z := 256 * f !!! 12%nat + f !!! 13%nat.
Definition source (f : list Z) : list Z := take ETH_ALEN (drop 6 f).
Definition dhcp_request (f : list Z) : bool :=
  (etype f =? ETH_P_IP) && (f !!! 23%nat =? IPPROTO_UDP)
  && bool_decide (take 4 (drop 26 f) = [0; 0; 0; 0]) && bool_decide (take 4 (drop 30 f) = [0xFF; 0xFF; 0xFF; 0xFF]).
(** An ARP request for an IPv4 address on Ethernet. *)
Definition arp_request (f : list Z) : bool :=
  (256 * f !!! 14%nat + f !!! 15%nat =? ARPHRD_ETHER) && ((256 * f !!! 16%nat + f !!! 17%nat =? ETH_P_IP)
  && ((256 * f !!! 20%nat + f !!! 21%nat =? ARPOP_REQUEST) && ((f !!! 18%nat =? 6) && (f !!! 19%nat =? 4)))).
(** Frames whose headers are whole. *)
Definition lan_frame (f : list Z) : Prop :=
  (14 <= length f)%nat /\ (etype f = ETH_P_IP -> (34 <= length f)%nat) /\ (etype f = ETH_P_ARP -> (42 <= length f)%nat).

(** What the bridge is to do: the host is the sender of the last DHCP request, and only
    its frames are sent, without their Ethernet header. *)
Definition host_after (host : list Z) (f : list Z) : list Z :=
  if negb (etype f =? ETH_P_ARP) && dhcp_request f then source f else host.
Fixpoint bridged (host : list Z) (fs : list (list Z)) : list (option (list Z)) :=
  match fs with
  | [] => []
  | f :: fs =>
      let host := host_after host f in
      (if negb (etype f =? ETH_P_ARP) && bool_decide (source f = host) then Some (drop ETH_HLEN f) else None)
      :: bridged host fs
  end.
Definition last_host (host : list Z) (fs : list (list Z)) : list Z := foldl host_after host fs.
(** The replies to ARP requests. *)
Definition arp_answer (ip : Z) (f : list Z) : option arp_reply :=
  if (etype f =? ETH_P_ARP) && truth ip && arp_request f && arp_target (take 4 (drop 38 f)) (ipv4_bytes ip)
  then Some (mkArp (take 4 (drop 28 f)) (take 4 (drop 38 f)) (take 6 (drop 22 f)) default_modem_addr (take 6 (drop 22 f)))
  else None.

Lemma rd8_total b o : (o < length b)%nat -> rd8 b o = Ok (b !!! o).
Proof. intros Ho. unfold rd8. apply lookup_lt_is_Some_2 in Ho as [v E]. by rewrite E, (list_lookup_total_correct _ _ _ E). Qed.
Lemma rdb16_total b o : (o + 1 < length b)%nat -> rdb16 b o = Ok (256 * b !!! o + b !!! (o + 1)%nat).
Proof. intros Ho. unfold rdb16. by rewrite !rd8_total by lia. Qed.
Lemma rdn_total b o n : (o + n <= length b)%nat -> rdn b o n = Ok (take n (drop o b)).
Proof. intros Ho. unfold rdn. by rewrite (proj2 (Nat.leb_le _ _) Ho). Qed.
Lemma andr_total a b : andr (Ok a) (Ok b) = Ok (a && b).
Proof. by destruct a. Qed.

Lemma arp_reply_spec f ip :
  etype f = ETH_P_ARP -> truth ip = true -> (42 <= length f)%nat ->
  exists ret, bridge_arp_reply f 14 ip = Ok (arp_answer ip f, ret).
Proof.
  intros E Hip Hl. unfold bridge_arp_reply, arp_answer. rewrite E, Hip.
  rewrite !rdb16_total, !rd8_total, !rdn_total by (unfold ETH_ALEN; lia).
  unfold mbind, res_bind, mret, res_ret. rewrite !andr_total.
  replace (_ && _) with (arp_request f) by reflexivity.
  destruct (arp_request f); [|by eexists]. eexists. reflexivity.
Qed.

Lemma bridge_tx_spec s br :
  lan_frame (skb_data s) ->
  bridge_mode_tx_fixup s 14 br
  = Ok (let f := skb_data s in let host := host_after (bridge_mac br) f in
        (if negb (etype f =? ETH_P_ARP) && bool_decide (source f = host) then Some s else None,
         br <| bridge_mac := host |>, arp_answer (bridge_ipv4 br) f)).
Proof.
  intros (H1 & H2 & H3). set (f := skb_data s) in *. unfold bridge_mode_tx_fixup, host_after. fold f.
  rewrite rdb16_total by lia. cbn [mbind res_bind]. change (256 * f !!! 12%nat + f !!! (12 + 1)%nat) with (etype f).
  destruct br as [mode ip mac]. cbn [bridge_mac bridge_ipv4]. unfold arp_answer at 1.
  destruct (Z.eqb_spec (etype f) ETH_P_ARP) as [E|E]; cbn [negb andb].
  - destruct (truth ip) eqn:T; [|done]. destruct (arp_reply_spec f ip E T (H3 E)) as [ret R].
    rewrite R. unfold arp_answer. rewrite E, T. done.
  - rewrite (rdn_total f 6) by (unfold ETH_ALEN; lia). cbn [mbind res_bind]. fold (source f).
    assert (D : andr (mret (etype f =? ETH_P_IP))
          (andr (v ← rd8 f (14 + 9); mret (v =? IPPROTO_UDP))
          (andr (a ← rdn f (14 + 12) 4; mret (bool_decide (a = [0; 0; 0; 0])))
                (a ← rdn f (14 + 16) 4; mret (bool_decide (a = [0xFF; 0xFF; 0xFF; 0xFF]))))) = Ok (dhcp_request f)).
    { unfold mret at 1, res_ret at 1. unfold dhcp_request. destruct (Z.eqb_spec (etype f) ETH_P_IP) as [I|I]; [|done].
      specialize (H2 I). rewrite rd8_total, !rdn_total by lia. unfold mbind, res_bind, mret, res_ret.
      rewrite !andr_total. cbn [andb Nat.add]. by rewrite andb_assoc. }
    rewrite D. cbn [mbind res_bind]. by destruct (dhcp_request f).
Qed.

(** The frames of the LAN through [qmi_wwan_tx_fixup], one after the other. *)
Fixpoint lan_run dev (fs : list S) : res (list (option S) * usbnet) :=
  match fs with
  | [] => mret ([], dev)
  | s :: fs => r ← qmi_wwan_tx_fixup dev 14 s; r' ← lan_run r.2 fs; mret (r.1 :: r'.1, r'.2)
  end.

Lemma bridged_tx dev q link s :
  raw_ip dev q link -> truth (bridge_mode (q_bridge q)) = true -> lan_frame (skb_data s) ->
  let host := host_after (bridge_mac (q_bridge q)) (skb_data s) in
  exists o, qmi_wwan_tx_fixup dev 14 s
      = Ok (o, set_bridge ((q_bridge q) <| bridge_mac := host |>) (arp_answer (bridge_ipv4 (q_bridge q)) (skb_data s)) dev)
    /\ skb_data <$> o = (if negb (etype (skb_data s) =? ETH_P_ARP) && bool_decide (source (skb_data s) = host)
                         then Some (drop ETH_HLEN (skb_data s)) else None).
Proof.
  intros (U & N & Hh) B Hf host. unfold qmi_wwan_tx_fixup. rewrite N, Hh, U.
  cbn [negb Nat.eqb ETH_HLEN of_option mbind res_bind fst]. rewrite B, bridge_tx_spec by done.
  fold host. unfold mret, res_ret. cbv zeta beta iota. cbn [fst snd]. eexists. split; [reflexivity|].
  destruct (_ && _); [|done]. cbn. destruct (pull_header s (proj1 Hf)) as (s' & -> & P & _). cbn. by rewrite P.
Qed.

(** C28. The bridge lets one host through.  Whatever whole frames the LAN sends, none is
    read past its end; exactly those are sent that come from the host, the sender of the
    last DHCP request, each without its Ethernet header; ARP is never sent but answered
    ([arp_answer]); and what the modem sends is addressed to that host. *)
Theorem bridge_one_host dev q link (fs : list S) :
  raw_ip dev q link -> truth (bridge_mode (q_bridge q)) = true -> qmap_mode q <= 1 -> use_rmnet_usb q = false ->
  Forall (fun s => lan_frame (skb_data s)) fs ->
  let sent := skb_data (S:=S) <$> fs in
  let host := last_host (bridge_mac (q_bridge q)) sent in
  exists (outs : list (option S)) dev' q', lan_run dev fs = Ok (outs, dev') /\ raw_ip dev' q' link
    /\ (fun o : option S => skb_data <$> o) <$> outs = bridged (bridge_mac (q_bridge q)) sent
    /\ u_replies dev' = u_replies dev ++ omap (arp_answer (bridge_ipv4 (q_bridge q))) sent
    /\ forall net, rx_dest q' net = host.
Proof.
  intros R B Hm Hr Hf. revert dev q R B Hm Hr. induction Hf as [|s fs Hs _ IH]; intros dev q R B Hm Hr; cbn -[bridged].
  - exists [], dev, q. rewrite app_nil_r. repeat split; try done; try apply R.
    intros net. unfold rx_dest, rx_bridge. rewrite Hr, (proj2 (Z.ltb_ge 1 _) Hm). cbn. by rewrite B.
  - destruct (bridged_tx dev q link s R B Hs) as (o & T & O). rewrite T.
    set (br := (q_bridge q) <| bridge_mac := _ |>) in *. cbn [mbind res_bind fst snd].
    destruct (IH (set_bridge br (arp_answer (bridge_ipv4 (q_bridge q)) (skb_data s)) dev) (q <| q_bridge := br |>))
      as (outs & dev' & q' & L1 & L2 & L3 & L4 & L5); [|done..|].
    { destruct R as (U & N & Hh). repeat split; [|done|done]. unfold set_bridge. cbn. by rewrite U. }
    rewrite L1. exists (o :: outs), dev', q'. split; [done|]. split; [done|]. split.
    + rewrite fmap_cons, O, L3. reflexivity.
    + split; [|done]. rewrite L4. change (u_replies (set_bridge ?b ?r ?d)) with (u_replies d ++ option_list r).
      rewrite <- app_assoc. f_equal. by destruct (arp_answer _ (skb_data s)).
Qed.

(** ** With multiplexed devices *)

(** What a packet for device [x.1] is when it is handed to the network stack. *)
Definition delivered q (x : Z * S) (o : Z * Z * option S) : Prop :=
  exists net proto, sendable q x.1 net (skb_data x.2) proto
    /\ o.1 = (x.1, proto) /\ skb_data <$> o.2 = Some (skb_data x.2).
Definition packets_of (st : rx_stats) (mux : Z) : Z := (default (0, 0) (st !! mux)).1.

Lemma packets_of_update m k b st mux :
  packets_of (rmnet_vnd_update_rx_stats m k b st) mux = packets_of st mux + (if decide (m = mux) then k else 0).
Proof.
  unfold packets_of, rmnet_vnd_update_rx_stats. case_decide as D; [subst; by rewrite (fin_maps.lookup_insert_eq st)|].
  rewrite (fin_maps.lookup_insert_ne st) by done. by rewrite Z.add_0_r.
Qed.

Lemma receive_all_spec q l : forall pks st,
  Forall2 (arrives q) l pks ->
  let r := receive_all (fun mux => mjoin (mpQmapNetDev q !! Z.to_nat mux)) pks st in
  Forall2 (delivered q) l r.1
  /\ forall mux, packets_of r.2 mux = packets_of st mux + Z.of_nat (length (filter (fun x => x.1 = mux) l)).
Proof.
  induction l as [|x l IH]; intros pks st F; inversion F as [|? pk ? pks' A F']; subst; cbn [receive_all].
  - split; [constructor|]. intros mux. cbn. lia.
  - unfold receive_packet. destruct A as (net & proto & A1 & A2 & A3 & A4).
    pose proof A1 as (_ & _ & Hnet & Haddr & _). rewrite A2, Hnet. cbn [mjoin option_join].
    set (st1 := rmnet_vnd_update_rx_stats _ _ _ st).
    destruct (IH pks' st1 F') as [I1 I2]. destruct (receive_all _ pks' st1) as [out st2]. cbn [fst snd] in *.
    split.
    + constructor; [|done]. exists net, proto. split; [done|]. split; [by rewrite A3|]. cbn [snd].
      unfold eth_header in A4. destruct (is_ether net); [|cbn; by rewrite A4].
      pose proof (length_rx_dest q net Haddr) as Hd.
      destruct (pull_ok ETH_HLEN pk.2) as (s' & -> & P & _); [rewrite A4, !length_app, Hd; unfold ETH_ALEN, ETH_HLEN; cbn; lia|].
      cbn. rewrite P, A4, drop_app_length' by (rewrite !length_app, Hd; done). done.
    + intros mux. rewrite I2, filter_cons. unfold st1. rewrite packets_of_update.
      case_decide; cbn [length]; lia.
Qed.

(** A transfer of the modem goes through the real device: its fix-up puts an Ethernet
    header of type ETH_P_MAP in front, the kernel takes it off again and calls the receive
    handler, which hands every packet of the transfer to its device, in order, as the modem
    sent it and without an Ethernet header, and counts it there. *)
Theorem rmnet_receives real q v l fs s :
  v = 5 \/ (v = 9 /\ dl_minimum_padding (tx_ctx q) = 0) -> q_version q = v ->
  Forall (can_send q) l ->
  Forall2 (fun x f => encode v x.2 (QUECTEL_QMAP_MUX_ID + x.1) = Ok f) l fs ->
  skb_data s = concat (skb_data <$> fs) ->
  is_ether real = true -> length (dev_addr real) = ETH_ALEN -> (ETH_HLEN <= skb_headroom s)%nat ->
  exists s1, rmnet_usb_rx_fixup real s = Ok (1, s1) /\ rdb16 (skb_data s1) 12 = Ok ETH_P_MAP
    /\ forall s2 st, skb_data s2 = drop ETH_HLEN (skb_data s1) ->
       exists out st', rmnet_usb_rx_handler false ETH_P_MAP (Some q) (fun _ => true) (Datatypes.S (skb_len s2)) (Some s2) st
           = Ok (RX_HANDLER_CONSUMED, out, st')
         /\ Forall2 (delivered q) l out
         /\ forall mux, packets_of st' mux = packets_of st mux + Z.of_nat (length (filter (fun x => x.1 = mux) l)).
Proof.
  intros Hv Hq Hok Hf E He Ha Hh. destruct (push_ok _ _ Hh) as (s' & hd & P1 & P2 & P3 & _).
  unfold rmnet_usb_rx_fixup. rewrite He, (proj2 (Nat.leb_le _ _) Hh), P1. cbn [andb mbind res_bind].
  set (hdr := dev_addr real ++ default_modem_addr ++ be16 ETH_P_MAP).
  assert (D : skb_data (skb_store 0 hdr s') = hdr ++ skb_data s).
  { apply (store_at 0 _ s' [] hd); [done|done|]. unfold hdr. by rewrite P2, !length_app, Ha. }
  eexists. split; [reflexivity|]. rewrite D. split.
  - unfold hdr. rewrite <- !app_assoc. unfold rdb16. change 12%nat with (ETH_ALEN + 6)%nat.
    rewrite <- Ha, <- Nat.add_assoc, !rd8_app_r. reflexivity.
  - intros s2 st E2. rewrite drop_app_length' in E2 by (unfold hdr; by rewrite !length_app, Ha). rewrite E in E2.
    destruct (decode_frames v q l fs s2 [] 0 (Datatypes.S (skb_len s2)) Hv Hq Hok Hf E2) as (pks & D1 & D2);
      [unfold skb_len; lia|].
    unfold rmnet_usb_rx_handler. cbn [negb Z.eqb ETH_P_MAP].
    rewrite D1. cbn [mbind res_bind app]. destruct (receive_all_spec q l pks st D2) as [R1 R2].
    eexists _, _. split; [reflexivity|]. split; [exact R1|exact R2].
Qed.
End Spec.

(** *** The addresses of the bridge *)

Definition ip_of (b : list Z) : Z := 16777216 * b !!! 0%nat + 65536 * b !!! 1%nat + 256 * b !!! 2%nat + b !!! 3%nat.

Lemma land_fc c : byte_ok c -> Z.land c 0xFC = 4 * (c / 4).
Proof.
  intros Hc. rewrite (Z.mul_comm 4). change 4 with (2 ^ 2). rewrite <- Z.shiftr_div_pow2, <- Z.shiftl_mul_pow2 by lia.
  rewrite <- Z.ldiff_ones_r by lia. apply Z.bits_inj'. intros n Hn. rewrite Z.land_spec, Z.ldiff_spec.
  destruct (Z.testbit c n) eqn:T; [|done]. cbn [andb].
  assert (n < 8).
  { apply Z.nle_gt. intros L. destruct (decide (c = 0)) as [->|Hz]; [by rewrite Z.bits_0 in T|].
    rewrite Z.bits_above_log2 in T; [done|unfold byte_ok in Hc; lia|]. apply Z.log2_lt_pow2; [unfold byte_ok in Hc; lia|].
    eapply Z.lt_le_trans; [apply Hc|]. by apply (Z.pow_le_mono_r 2 8 n). }
  assert (n = 0 \/ n = 1 \/ n = 2 \/ n = 3 \/ n = 4 \/ n = 5 \/ n = 6 \/ n = 7) as
    [->|[->|[->|[->|[->|[->|[->| ->]]]]]]] by lia; done.
Qed.

Lemma ipv4_bytes_of ip :
  0 <= ip < 4294967296 ->
  exists a b c d, ipv4_bytes ip = [a; b; c; d] /\ ip = 16777216 * a + 65536 * b + 256 * c + d
    /\ byte_ok a /\ byte_ok b /\ byte_ok c /\ byte_ok d.
Proof.
  intros Hi. unfold ipv4_bytes. change 0xFF with (Z.ones 8). rewrite !Z.land_ones, !Z.shiftr_div_pow2 by lia.
  change (2 ^ 8) with 256. change (2 ^ 16) with 65536. change (2 ^ 24) with 16777216. eexists _, _, _, _. split; [done|].
  unfold byte_ok. split; [|repeat split; apply Z.mod_pos_bound; lia].
  pose proof (enc32_value ip) as E. rewrite u32_id in E by lia. lia.
Qed.

(** The bridge answers for the network of 1024 addresses around the address of the modem,
    but for no address that ends in the same byte as that address: also the three others
    of the network. *)
Theorem arp_network tip ip :
  length tip = 4%nat -> bytes_ok tip -> 0 <= ip < 4294967296 ->
  arp_target tip (ipv4_bytes ip) = true <-> ip_of tip / 1024 = ip / 1024 /\ ip_of tip mod 256 <> ip mod 256.
Proof.
  intros Hl Hb Hi. destruct (ipv4_bytes_of ip Hi) as (a & b & c & d & -> & E & A & B & C & D).
  destruct tip as [|a' [|b' [|c' [|d' [|]]]]]; try done.
  apply Forall_cons in Hb as [A' Hb]. apply Forall_cons in Hb as [B' Hb]. apply Forall_cons in Hb as [C' Hb].
  apply Forall_cons in Hb as [D' _]. unfold arp_target, eq_nth. cbn [lookup list_lookup fmap option_fmap option_map].
  change (ip_of [a'; b'; c'; d']) with (16777216 * a' + 65536 * b' + 256 * c' + d').
  rewrite !andb_true_iff, negb_true_iff, bool_decide_eq_false, !bool_decide_eq_true, !land_fc by done.
  unfold byte_ok in *.
  assert (Q : forall a b c d, 0 <= a < 256 -> 0 <= b < 256 -> 0 <= c < 256 -> 0 <= d < 256 ->
    (16777216 * a + 65536 * b + 256 * c + d) / 1024 = 16384 * a + 64 * b + c / 4
    /\ (16777216 * a + 65536 * b + 256 * c + d) mod 256 = d /\ 0 <= c / 4 < 64).
  { clear. intros a b c d Ha Hb Hc Hd. pose proof (Z.div_mod c 4). pose proof (Z.mod_pos_bound c 4).
    split; [|split; [|split; [apply Z.div_pos; lia|apply Z.div_lt_upper_bound; lia]]].
    - symmetry. apply (Z.div_unique _ _ _ (256 * (c mod 4) + d)); lia.
    - symmetry. apply (Z.mod_unique _ _ (65536 * a + 256 * b + c)); lia. }
  subst ip. destruct (Q a b c d) as (-> & -> & ?); [lia..|]. destruct (Q a' b' c' d') as (-> & -> & ?); [lia..|].
  split.
  - intros [[[[= ->] [= ->]] [= F]] G]. split; [lia|congruence].
  - intros [F G]. assert (a' = a /\ b' = b /\ c' / 4 = c / 4) as (-> & -> & ->) by lia.
    repeat split. by intros [= ->].
Qed.

(** ** The Ethernet address *)

(** The addresses of the device: the one [qmi_wwan_bind] leaves, and those user space
    sets. *)
Inductive address_run (random first : list Z) : net_device -> Prop :=
  | address_bound net : dev_addr net = bind_address random first -> address_run random first net
  | address_set net prepare addr : address_run random first net ->
      address_run random first (qmi_wwan_mac_addr prepare addr net).2.

Lemma cleared_bit b : (Z.land (Z.land (Z.lor b 0x02) 0xbf) 0xd0 =? 0x40) = false.
Proof.
  apply Z.eqb_neq. intros E. apply (f_equal (fun z => Z.testbit z 6)) in E.
  rewrite !Z.land_spec in E. rewrite andb_false_r in E. done.
Qed.

(** The address of the device never looks like an IP header, whatever the firmware says
    and whatever user space sets. *)
Theorem address_no_iphdr random first net :
  address_run random first net -> possibly_iphdr (dev_addr net) = false.
Proof.
  induction 1 as [net E|net prepare addr _ IH].
  - rewrite E. unfold bind_address. destruct (possibly_iphdr (if bool_decide _ then _ else _)) eqn:P; [|done].
    destruct (if bool_decide _ then _ else _) as [|b rest]; [done|]. apply cleared_bit.
  - unfold qmi_wwan_mac_addr. destruct (_ <? 0); [done|]. destruct (possibly_iphdr addr) eqn:P; done.
Qed.

(** ** Witnesses *)

Definition eth_frame (src : list Z) (payload : list Z) : list Z := [0xff; 0xff; 0xff; 0xff; 0xff; 0xff] ++ src ++ payload.
Definition own_addr : list Z := [2; 0; 0; 0; 0; 1].
Definition real_net : net_device := mkNet 1500 true own_addr no_bridge.
Definition plain_qmap (mode : Z) (br : bridge) : sQmiWwanQmap :=
  mkQmap [Some real_net; None; None; None] mode 5 (mkCtx 1 1500 0) false br.
Definition plain_dev (mode : Z) (br : bridge) : usbnet :=
  mkUsbnet true 14 real_net (fun i => i =? 0) (Some (plain_qmap mode br, 1)) [].
Definition demo_sent : list area :=
  [mkArea [] (eth_frame own_addr (be16 ETH_P_IP ++ ip_packet)) (zeros 3);
   mkArea [] (eth_frame own_addr (be16 ETH_P_IPV6 ++ [0x60; 9; 9])) []].

Lemma demo_sendable mode br : mode = 1 -> length (bridge_mac br) = ETH_ALEN ->
  Forall (fun s => exists net proto, sendable (plain_qmap mode br) 0 net (drop ETH_HLEN (skb_data s)) proto) demo_sent.
Proof.
  intros -> Hb. repeat constructor; exists real_net; [exists ETH_P_IP|exists ETH_P_IPV6];
    (split; [cbn; lia|]); repeat split; try done; try exact Hb; vm_compute; done || discriminate.
Qed.

Lemma netdev_roundtrip_witness :
  (exists gs, Forall2 (fun s g => forall nh, qmap_qmi_wwan_tx_fixup (plain_dev 1 no_bridge) nh s
      = Ok (Some g, plain_dev 1 no_bridge)) demo_sent gs
    /\ forall skb_in : area, skb_data skb_in = concat (skb_data <$> gs) ->
       exists pks, qmap_qmi_wwan_rx_fixup (plain_dev 1 no_bridge) (fun _ => true) (S (skb_len skb_in)) skb_in
         = Ok (0, skb_in, pks) /\ Forall2 (comes_back (plain_qmap 1 no_bridge)) demo_sent pks).
Proof.
  apply (netdev_roundtrip (plain_dev 1 no_bridge) (plain_qmap 1 no_bridge) 1 demo_sent).
  - repeat split.
  - reflexivity.
  - reflexivity.
  - reflexivity.
  - by left.
  - by apply demo_sendable.
Defined.

Lemma rx_header_where_missing_witness :
  exists s', qmi_wwan_rx_fixup (plain_dev 0 no_bridge) (mkArea (zeros 16) (ip_packet ++ zeros 13) []) = Ok (1, s')
    /\ skb_data s' = own_addr ++ default_modem_addr ++ be16 ETH_P_IP ++ ip_packet ++ zeros 13.
Proof.
  destruct (rx_header_where_missing (plain_dev 0 no_bridge) (plain_qmap 0 no_bridge) 1
    (mkArea (zeros 16) (ip_packet ++ zeros 13) [])) as [R _]; try (split; reflexivity); try reflexivity;
    try (vm_compute; lia).
  by apply (R ETH_P_IP).
Defined.

(** A host asks for an address, another one sends a packet, and then the host does; last
    it asks for the gateway. *)
Definition host_mac : list Z := [0x0a; 1; 2; 3; 4; 5].
Definition dhcp_frame : list Z :=
  eth_frame host_mac (be16 ETH_P_IP ++ [0x45; 0; 0; 20; 0; 0; 0; 0; 64; 17; 0; 0; 0; 0; 0; 0; 0xff; 0xff; 0xff; 0xff]).
Definition data_frame (src : list Z) : list Z :=
  eth_frame src (be16 ETH_P_IP ++ [0x45; 0; 0; 20; 0; 0; 0; 0; 64; 6; 0; 0; 10; 151; 137; 1; 8; 8; 8; 8]).
Definition arp_frame : list Z :=
  eth_frame host_mac (be16 ETH_P_ARP ++ [0; 1; 8; 0; 6; 4; 0; 1] ++ host_mac ++ [10; 151; 137; 1] ++ zeros 6 ++ [10; 151; 138; 2]).
Definition lan_demo : list area := buffer <$> [dhcp_frame; data_frame own_addr; data_frame host_mac; arp_frame].
(** The modem has the address 10.151.137.1. *)
Definition demo_bridge : bridge := mkBridge 1 177703169 (zeros 6).

(** A frame of type IP without an IP header is read past its end. *)
Lemma bridge_short_frame :
  bridge_mode_tx_fixup (buffer (eth_frame host_mac (be16 ETH_P_IP))) 14 demo_bridge = Fault.
Proof. reflexivity. Qed.

Lemma bridge_one_host_witness :
  exists outs dev' q', lan_run (plain_dev 1 demo_bridge) lan_demo = Ok (outs, dev')
    /\ (fun o : option area => skb_data <$> o) <$> outs
       = [Some (drop 14 dhcp_frame); None; Some (drop 14 (data_frame host_mac)); None]
    /\ u_replies dev' = [mkArp [10; 151; 137; 1] [10; 151; 138; 2] host_mac default_modem_addr host_mac]
    /\ forall net, rx_dest q' net = host_mac.
Proof.
  destruct (bridge_one_host (plain_dev 1 demo_bridge) (plain_qmap 1 demo_bridge) 1 lan_demo)
    as (outs & dev' & q' & H1 & _ & H2 & H3 & H4); [by repeat split|reflexivity|cbn; lia|reflexivity| |].
  - repeat constructor; vm_compute; lia || discriminate.
  - exists outs, dev', q'. split; [exact H1|]. split; [exact H2|]. split; [exact H3|exact H4].
Defined.

Lemma rmnet_receives_witness :
  exists s1, rmnet_usb_rx_fixup real_net (mkArea (zeros 16) (skb_data demo_agg) []) = Ok (1, s1).
Proof.
  destruct (rmnet_receives real_net (demo_qmap 5) 5 demo_frames (frame_of <$> demo_frames)
    (mkArea (zeros 16) (skb_data demo_agg) [])) as (s1 & H1 & _);
    [by left|reflexivity|apply demo_can_send|repeat constructor|reflexivity..|vm_compute; lia|by exists s1].
Defined.
