(* ===== verification/WwanLink.v ===== *)
(** The link of the qmi_wwan_q driver: what [qmi_wwan_bind] decides about a modem, the
    multiplexed devices that probing registers on the real one, and the state that opening,
    closing, transmitting and the attribute [link_state] move: carriers and queues.

    usbnet and the network core are the kernel's: what they decide in a call (whether the
    queue of the real device is stopped afterwards, whether memory is there) is an argument,
    and what they do to the flag IFF_UP and to the queue when a device is opened and closed
    is in the steps ([wstep]). *)
From stdpp Require Import pretty.
From S2P Require Import Prelude Qmap WwanFixup.
#[local] Open Scope Z_scope.

(** ** State *)

(** A multiplexed device: its [qmap_priv] and the flags of its [net_device].  The rest of
    [qmap_priv], which aggregates, is that of Qmap. *)
Record port := mkPort {
  p_offset_id : Z; p_mux_id : Z; p_version : Z; p_link_state : Z; p_use_qca_nss : bool;
  p_net : net_device; p_up : bool; p_carrier : bool; p_stopped : bool }.

(** An entry of [mpQmapNetDev]: NULL, the real device, or a multiplexed one. *)
Inductive netdev_slot := SlotNull | SlotReal | SlotQmap (p : port).

(** [RMNET_INFO], for user space. *)
Record RMNET_INFO_q := mkInfo {
  ri_rx_urb_size : Z; ri_qmap_mode : Z; ri_qmap_version : Z; ri_dl_minimum_padding : Z;
  ri_ifname : list string; ri_mux_id : list Z }.

(** [sQmiWwanQmap] and the real device; [bh_pending]: the tasklet [dev->bh] is scheduled. *)
Record wwan := mkWwan {
  real_name : string; real_net : net_device; real_up : bool; real_carrier : bool; real_stopped : bool;
  bh_pending : bool; rx_handler : bool; rx_urb_size : Z;
  w_qmap_mode : Z; w_qmap_size : Z; w_qmap_version : Z; w_link_state : Z; w_use_rmnet_usb : bool;
  w_tx_ctx : tx_agg_ctx; w_bridge : bridge; w_slots : list netdev_slot; rmnet_info : RMNET_INFO_q }.

Definition get_port (w : wwan) (i : nat) : option port :=
  match w_slots w !! i with Some (SlotQmap p) => Some p | _ => None end.
Definition on_port (f : port -> port) (s : netdev_slot) : netdev_slot :=
  match s with SlotQmap p => SlotQmap (f p) | s => s end.
Definition upd_port (i : nat) (f : port -> port) (w : wwan) : wwan :=
  w <| w_slots := alter (on_port f) i (w_slots w) |>.

(** ** Binding *)

(** What the USB core and the firmware say: the result of [qmi_wwan_register_subdriver],
    [FLAG_NOARP] and [data] of the driver, the product, the speed, whether [kzalloc] finds
    memory, the device of [usbnet_probe] with the address of the firmware, and a random
    address. *)
Record bind_env := mkBindEnv {
  be_status : Z; be_noarp : bool; be_data : Z; be_idProduct : Z; be_super_speed : bool;
  be_kzalloc : bool; be_name : string; be_net : net_device; be_random : list Z }.

Definition ENODEV : Z := 19.
Definition ENOBUFS : Z := 105.
Definition ENETDOWN : Z := 100.
Definition ETH_DATA_LEN : Z := 1500.

Definition lte_a_product (id : Z) : bool :=
  existsb (Z.eqb id) [0x0306; 0x030B; 0x0512; 0x0620; 0x0800; 0x0801].

(** The choices for a raw-IP modem: the mode, whether the modem counts as LTE-A, whether the
    multiplexing devices sit on top. *)
Definition bind_lte_a (e : bind_env) : bool :=
  lte_a_product (be_idProduct e) || (4096 <? Z.land (be_data e) 0xFF) || be_super_speed e.
Definition bind_mode (e : bind_env) (qmap_mode : Z) : Z :=
  if bind_lte_a e && (qmap_mode =? 0) then 1 else qmap_mode.
Definition bind_rmnet (e : bind_env) (mode : Z) : bool :=
  (1 <? mode) || (be_idProduct e =? 0x0800) || (be_idProduct e =? 0x0801).

Definition no_info : RMNET_INFO_q := mkInfo 0 0 0 0 (replicate 8 EmptyString) (replicate 8 0).

(** [qmi_wwan_bind], with the module parameters [qmap_mode] and [bridge_mode]; also the
    parameter as it is left. *)
Definition qmi_wwan_bind (e : bind_env) (qmap_mode bridge_mode : Z) : Z * option wwan * Z :=
  let net := (be_net e) <| dev_addr := bind_address (be_random e) (dev_addr (be_net e)) |> in
  let qmap_mode := if QUECTEL_WWAN_QMAP <? qmap_mode then QUECTEL_WWAN_QMAP else qmap_mode in
  if negb (be_status e =? 0) then (be_status e, None, qmap_mode)
  else if negb (be_kzalloc e) then (- ENODEV, None, qmap_mode)
  else
    let w := mkWwan (be_name e) net false true false false false (ETH_DATA_LEN + 14 + 6)
               0 0 0 1 false (mkCtx 0 0 0) (mkBridge bridge_mode 0 (zeros 6))
               (replicate 4 SlotNull) no_info in
    if be_noarp e then
      let mode := bind_mode e qmap_mode in
      let qmap_mode := if bind_lte_a e && (qmap_mode =? 0) then 1 else qmap_mode in
      let w := w <| w_qmap_mode := mode |> in
      if truth mode then
        let size := Z.land (be_data e) 0xFF * 1024 in
        let version := Z.land (Z.shiftr (be_data e) 8) 0xFF in
        (0, Some (w <| w_qmap_version := version |> <| w_qmap_size := size |> <| rx_urb_size := size |>
                    <| w_link_state := b2z (negb (bind_lte_a e)) |>
                    <| w_use_rmnet_usb := bind_rmnet e mode |>
                    <| rmnet_info := mkInfo size mode version 0 (replicate 8 EmptyString) (replicate 8 0) |>
                    <| w_tx_ctx := mkCtx 1 1500 0 |>), qmap_mode)
      else (0, Some w, qmap_mode)
    else (0, Some w, qmap_mode).

(** ** Registration *)
Section Registration.
(** Linux 5.17 or later; the callbacks of the NSS driver are there. *)
Context (linux_5_17 nss_cb : bool).

(** Memory for the device and its counters, the results of [register_netdev] and of
    [nss_create]. *)
Record reg_env := mkRegEnv { re_alloc : bool; re_stats : bool; re_register : Z; re_nss_create : Z }.

(** The device [alloc_netdev] returns after [rmnet_usb_ether_setup] or
    [rmnet_usb_rawip_setup]; its address is still zero. *)
Definition fresh_net (ethernet : bool) (mode : Z) : net_device :=
  mkNet 1500 ethernet (zeros 6) (mkBridge mode 0 (zeros 6)).

Definition qmap_register_device (e : reg_env) (offset_id : Z) (w : wwan) : Z * wwan :=
  if negb (re_alloc e) then (- ENOBUFS, w)
  else
    let mode := b2z (truth (Z.land (bridge_mode (w_bridge w)) (Z.shiftl 1 offset_id))) in
    let use_qca_nss := nss_cb && negb (truth mode) in
    let net := fresh_net (negb use_qca_nss) mode in
    (* before 5.17 a [memcpy] to the new device, then [eth_hw_addr_set] on the real one *)
    let w := if linux_5_17 then w <| real_net := (real_net w) <| dev_addr := dev_addr net |> |> else w in
    let net := if linux_5_17 then net else net <| dev_addr := dev_addr (real_net w) |> in
    if negb (re_stats e) then (- ENOBUFS, w)
    else if re_register e <? 0 then (re_register e, w)
    else
      let p := mkPort offset_id (u8 (QUECTEL_QMAP_MUX_ID + offset_id)) (w_qmap_version w) 0
                 (use_qca_nss && (re_nss_create e =? 0)) net false false false in
      (0, w <| rmnet_info := (rmnet_info w)
                 <| ri_ifname := <[Z.to_nat offset_id := real_name w +:+ "_" +:+ pretty (offset_id + 1)]> (ri_ifname (rmnet_info w)) |>
                 <| ri_mux_id := <[Z.to_nat offset_id := p_mux_id p]> (ri_mux_id (rmnet_info w)) |> |>
            <| w_slots := <[Z.to_nat offset_id := SlotQmap p]> (w_slots w) |>).

Definition qmap_unregister_device (offset_id : Z) (w : wwan) : wwan :=
  match w_slots w !! Z.to_nat offset_id with
  | Some (SlotQmap _) => w <| w_slots := <[Z.to_nat offset_id := SlotNull]> (w_slots w) |>
  | _ => w
  end.

(** The loop over the devices; the results are not looked at. *)
Fixpoint register_all (es : list reg_env) (i : Z) (w : wwan) : wwan :=
  match es with
  | [] => w
  | e :: es => register_all es (i + 1) (qmap_register_device e i w).2
  end.

(** What [qmap_qmi_wwan_probe] does once [usbnet_probe] has bound the device; [env i] is for
    the registration of device [i].  [one_card_mode] is 0: the macro that sets it is off. *)
Definition qmap_qmi_wwan_probe (env : Z -> reg_env) (w : wwan) : wwan :=
  let w :=
    if w_qmap_mode w =? 1 then
      if w_use_rmnet_usb w
      then (qmap_register_device (env 0) 0 (w <| w_slots := <[0%nat := SlotNull]> (w_slots w) |>)).2
      else w <| w_slots := <[0%nat := SlotReal]> (w_slots w) |>
    else if 1 <? w_qmap_mode w then register_all (env <$> seqZ 0 (w_qmap_mode w)) 0 w
    else w in
  let w := w <| rx_handler := w_use_rmnet_usb w |> in
  if w_link_state w =? 0 then w <| real_carrier := false |> else w.
End Registration.

(** [qmap_qmi_wwan_disconnect] up to [usbnet_disconnect]. *)
Definition qmap_qmi_wwan_disconnect (w : wwan) : wwan :=
  let w := w <| w_link_state := 0 |> in
  let w := if 1 <? w_qmap_mode w
           then foldl (fun w i => qmap_unregister_device i w) w (seqZ 0 (w_qmap_mode w)) else w in
  if w_use_rmnet_usb w then (qmap_unregister_device 0 w) <| rx_handler := false |> else w.

(** ** Links *)

Definition netif_carrier (on : bool) (p : port) : port := p <| p_carrier := on |>.

(** The part for the multiplexed device. *)
Definition link_port (on stopped : bool) (p : port) : port :=
  let p := p <| p_link_state := b2z on |> in
  if p_up p then
    if on then
      let p := netif_carrier true p in
      if p_stopped p && negb stopped then p <| p_stopped := false |> else p
    else netif_carrier false p
  else p.

(** [link_state_store]; [v] is the number the attribute was given. *)
Definition link_state_store (v : Z) (w : wwan) : wwan :=
  let v := u32 v in
  let old_link := w_link_state w in
  let off := u32 (Z.land v 0x7F - 1) in
  let multi := 1 <? w_qmap_mode w in
  if multi && (w_qmap_mode w <=? off) then w
  else
    let offset_id := if multi then off else 0 in
    let link := if w_qmap_mode w =? 1 then b2z (truth v)
                else if multi then
                  if truth (Z.land v 0x80) then Z.ldiff old_link (Z.shiftl 1 off) else Z.lor old_link (Z.shiftl 1 off)
                else old_link in
    let w := w <| w_link_state := link |> in
    if old_link =? link then w
    else
      let w := if real_up w && truth link then w <| real_carrier := true |> else w in
      let on := truth (Z.land link (Z.shiftl 1 offset_id)) in
      let w := upd_port (Z.to_nat offset_id) (link_port on (real_stopped w)) w in
      if real_up w && negb (truth link) then w <| real_carrier := false |> else w.

(** [qmap_open] of device [i] *)
Definition qmap_open (i : nat) (w : wwan) : Z * wwan :=
  match get_port w i with
  | None => (0, w)
  | Some p =>
      if negb (real_up w) then (- ENETDOWN, w)
      else if truth (p_link_state p) then
        (0, upd_port i (fun p => let p := netif_carrier true p in
                                 if p_stopped p && negb (real_stopped w) then p <| p_stopped := false |> else p)
              (w <| real_carrier := true |>))
      else (0, w)
  end.
Definition qmap_stop (i : nat) (w : wwan) : wwan := upd_port i (netif_carrier false) w.

(** ** Queues *)

Definition on_ports (f : port -> port) (w : wwan) : wwan :=
  w <| w_slots := imap (fun i s => if Z.of_nat i <? w_qmap_mode w then on_port f s else s) (w_slots w) |>.
Definition qmap_wake_queue (w : wwan) : wwan :=
  if negb (w_use_rmnet_usb w) then w
  else on_ports (fun p => if p_carrier p && p_stopped p then p <| p_stopped := false |> else p) w.

(** The tasklet: [stopped] is the queue of the real device after the tasklet of usbnet. *)
Definition usbnet_bh (stopped : bool) (w : wwan) : wwan :=
  let w := w <| real_stopped := stopped |> <| bh_pending := false |> in
  if negb stopped then qmap_wake_queue w else w.

(** [stopped] is the queue after [usbnet_start_xmit], which may schedule the tasklet. *)
Definition qmi_wwan_start_xmit (stopped scheduled : bool) (w : wwan) : wwan :=
  let w := w <| real_stopped := stopped |> <| bh_pending := bh_pending w || scheduled |> in
  if real_stopped w && w_use_rmnet_usb w then on_ports (fun p => p <| p_stopped := true |>) w else w.

(** The test at the beginning of [rmnet_vnd_start_xmit]. *)
Definition rmnet_vnd_queue (i : nat) (w : wwan) : wwan :=
  if real_stopped w then upd_port i (fun p => p <| p_stopped := true |>) w else w.

(** [retval] is the result of [usbnet_open]; when it is 0 the queue is started and the
    tasklet scheduled. *)
Definition qmi_wwan_open (retval : Z) (w : wwan) : Z * wwan :=
  if retval =? 0 then
    let w := w <| real_stopped := false |> <| bh_pending := true |> in
    (retval, if (w_qmap_mode w =? 1) && truth (w_link_state w) then w <| real_carrier := true |> else w)
  else (retval, w).

(** [callsub]: there is a subdriver to resume; [sub] and [ret] are the results of its
    [resume] and of [usbnet_resume], after which the queue is as [stopped] says. *)
Definition qmi_wwan_resume (callsub : bool) (sub ret : Z) (stopped : bool) (w : wwan) : Z * wwan :=
  if callsub && (sub <? 0) then (sub, w)
  else
    let w := w <| real_stopped := stopped |> in
    (ret, if negb stopped then qmap_wake_queue w else w).

(** ** The other attributes and the requests of user space *)

(** [bridge_mode_store] and [bridge_ipv4_store] of the real device ([None]) or of a
    multiplexed one. *)
Definition upd_bridge (f : bridge -> bridge) (dev : option nat) (w : wwan) : wwan :=
  match dev with
  | Some i => upd_port i (fun p => p <| p_net := (p_net p) <| net_bridge := f (net_bridge (p_net p)) |> |>) w
  | None => w <| w_bridge := f (w_bridge w) |>
  end.
Definition bridge_mode_store (ethernet : bool) (dev : option nat) (v : Z) (w : wwan) : wwan :=
  if ethernet then upd_bridge (fun b => b <| bridge_mode := u32 v |>) dev w else w.
Definition bridge_ipv4_store (dev : option nat) (v : Z) (w : wwan) : wwan :=
  upd_bridge (fun b => b <| bridge_ipv4 := u32 v |>) dev w.

Definition rmnet_vnd_change_mtu (i : nat) (new_mtu : Z) (w : wwan) : Z * wwan :=
  if new_mtu <? 0 then (- 22, w)
  else (0, upd_port i (fun p => p <| p_net := (p_net p) <| mtu := new_mtu |> |>) w).

(** The request of [qmap_ndo_do_ioctl]; [copied] is the number of bytes that could not be
    copied from or to user space. *)
Inductive ioctl := SetLink (v : Z) | SetQmap (ok_size : bool) (datagrams size pad : Z) | GetInfo | OtherRequest.
(** SetLink is 0x89F1, SetQmap 0x89F2, GetInfo 0x89F3. *)
Definition qmap_ndo_do_ioctl (cmd : ioctl) (copied : Z) (w : wwan) : Z * option RMNET_INFO_q * wwan :=
  match cmd with
  | SetLink v => (copied, None, if copied =? 0 then link_state_store v w else w)
  | SetQmap ok d s pd =>
      if copied =? 0 then
        let r := qma_setting_store ok d s pd (w_tx_ctx w) in (r.1, None, w <| w_tx_ctx := r.2 |>)
      else (copied, None, w)
  | GetInfo => if w_use_rmnet_usb w then (copied, Some (rmnet_info w), w) else (- EOPNOTSUPP, None, w)
  | OtherRequest => (- EOPNOTSUPP, None, w)
  end.

(** ** Steps *)

(** One operation of user space, the network core or usbnet.  Opening sets IFF_UP when it
    succeeds and closing clears it; [usbnet_stop] stops the queue and the tasklet. *)
Inductive wstep : wwan -> wwan -> Prop :=
  | ws_link v w : wstep w (link_state_store v w)
  | ws_open i w : (qmap_open i w).1 = 0 ->
      wstep w (upd_port i (fun p => p <| p_up := true |>) (qmap_open i w).2)
  | ws_close i w : wstep w (upd_port i (fun p => p <| p_up := false |>) (qmap_stop i w))
  | ws_real_open r w : (qmi_wwan_open r w).1 = 0 -> wstep w ((qmi_wwan_open r w).2 <| real_up := true |>)
  | ws_real_close w : wstep w (w <| real_stopped := true |> <| bh_pending := false |> <| real_up := false |>)
  | ws_vnd_xmit i w : wstep w (rmnet_vnd_queue i w)
  | ws_xmit stopped scheduled w : real_stopped w = false -> wstep w (qmi_wwan_start_xmit stopped scheduled w)
  | ws_schedule w : wstep w (w <| bh_pending := true |>)
  | ws_bh stopped w : bh_pending w = true -> wstep w (usbnet_bh stopped w)
  | ws_suspend w : wstep w (w <| real_stopped := true |>)
  | ws_resume callsub sub ret stopped w : wstep w (qmi_wwan_resume callsub sub ret stopped w).2
  | ws_bridge_mode e dev v w : wstep w (bridge_mode_store e dev v w)
  | ws_bridge_ipv4 dev v w : wstep w (bridge_ipv4_store dev v w)
  | ws_mtu i m w : wstep w (rmnet_vnd_change_mtu i m w).2
  | ws_ioctl cmd copied w : wstep w (qmap_ndo_do_ioctl cmd copied w).2.

(** What the decoder of received aggregates sees. *)
Definition slot_net (w : wwan) (s : netdev_slot) : option net_device :=
  match s with SlotNull => None | SlotReal => Some (real_net w) | SlotQmap p => Some (p_net p) end.
Definition decoder_view (w : wwan) : sQmiWwanQmap :=
  mkQmap (slot_net w <$> w_slots w) (w_qmap_mode w) (w_qmap_version w) (w_tx_ctx w) (w_use_rmnet_usb w) (w_bridge w).
