(* ===== verification/WwanLinkSpec.v ===== *)
(** Properties of the link of qmi_wwan_q: carriers follow the attribute [link_state], no
    queue stays stopped, received aggregates are decoded to the end once every device is
    registered; and what goes wrong with the addresses and the first link. *)
From S2P Require Import Prelude Qmap QmapSpec WwanFixup WwanLink.
#[local] Open Scope Z_scope.
#[local] Arguments constant {_} _ _ /.

(** ** Devices and their updates *)

Lemma get_port_upd i j f w :
  get_port (upd_port i f w) j = if decide (i = j) then f <$> get_port w j else get_port w j.
Proof.
  unfold get_port, upd_port. cbn. case_decide as D.
  - subst j. rewrite list_lookup_alter_eq. by destruct (w_slots w !! i) as [[]|].
  - by rewrite list_lookup_alter_ne.
Qed.
Lemma get_port_all f w j :
  get_port (on_ports f w) j = if Z.of_nat j <? w_qmap_mode w then f <$> get_port w j else get_port w j.
Proof.
  unfold get_port, on_ports. cbn. rewrite list_lookup_imap. destruct (w_slots w !! j) as [s|]; [|by destruct (_ <? _)].
  cbn. by destruct (_ <? _), s.
Qed.

Lemma truth_bit link i : 0 <= i -> truth (Z.land link (Z.shiftl 1 i)) = Z.testbit link i.
Proof.
  intros Hi. rewrite Z.shiftl_1_l. unfold truth. destruct (Z.testbit link i) eqn:T.
  - apply negb_true_iff, Z.eqb_neq. intros E. apply (f_equal (fun z => Z.testbit z i)) in E.
    rewrite Z.land_spec, T, Z.pow2_bits_true, Z.bits_0 in E by done. done.
  - apply negb_false_iff, Z.eqb_eq, Z.bits_inj'. intros n Hn. rewrite Z.land_spec, Z.bits_0, Z.pow2_bits_eqb by done.
    destruct (Z.eqb_spec i n) as [->|]; [by rewrite T|by rewrite andb_false_r].
Qed.
Lemma bit_kept (up : bool) link off j :
  0 <= off -> 0 <= j -> j <> off ->
  Z.testbit (if up then Z.ldiff link (Z.shiftl 1 off) else Z.lor link (Z.shiftl 1 off)) j = Z.testbit link j.
Proof.
  intros Ho Hj N. rewrite Z.shiftl_1_l.
  destruct up; [rewrite Z.ldiff_spec|rewrite Z.lor_spec]; rewrite Z.pow2_bits_false by done;
    [by rewrite andb_true_r|by rewrite orb_false_r].
Qed.

(** ** The invariant *)

(** Device [i]: its carrier is on exactly while it is up and its link is on; its link is on
    only if bit [i] of [link_state] is set; if it waits with a carrier, the real device
    waits too or the tasklet is about to run. *)
Definition port_st (link mode : Z) (rmnet waits : bool) (i : nat) (p : port) : Prop :=
  p_carrier p = p_up p && truth (p_link_state p)
  /\ (truth (p_link_state p) = true -> Z.testbit link (Z.of_nat i) = true)
  /\ (p_stopped p && p_carrier p = true -> waits = true)
  /\ Z.of_nat i < mode /\ rmnet = true.
Definition waits (w : wwan) : bool := real_stopped w || bh_pending w.
Definition port_ok (w : wwan) : nat -> port -> Prop :=
  port_st (w_link_state w) (w_qmap_mode w) (w_use_rmnet_usb w) (waits w).
Definition ports_ok (w : wwan) : Prop := forall i p, get_port w i = Some p -> port_ok w i p.

(** What an operation may change besides the devices. *)
Lemma ports_ok_frame w w' :
  w_slots w' = w_slots w -> w_qmap_mode w' = w_qmap_mode w -> w_use_rmnet_usb w' = w_use_rmnet_usb w ->
  w_link_state w' = w_link_state w -> (waits w = true -> waits w' = true) -> ports_ok w -> ports_ok w'.
Proof.
  intros E1 E2 E3 E4 E5 H i p G. unfold get_port in G. rewrite E1 in G.
  destruct (H i p G) as (A & B & C & D & F). unfold port_ok. rewrite E2, E3, E4. repeat split; auto.
Qed.

(** An update of device [i], and one of all devices. *)
Lemma ports_ok_upd i f w :
  ports_ok w -> (forall p, get_port w i = Some p -> port_ok w i p -> port_ok w i (f p)) -> ports_ok (upd_port i f w).
Proof.
  intros H Hf j p G. rewrite get_port_upd in G. case_decide as D; [|by apply H].
  subst j. apply fmap_Some in G as (p0 & G & ->). by apply Hf, H.
Qed.
Lemma ports_ok_all f w :
  ports_ok w -> (forall i p, get_port w i = Some p -> port_ok w i p -> port_ok w i (f p)) -> ports_ok (on_ports f w).
Proof.
  intros H Hf j p G. rewrite get_port_all in G. destruct (_ <? _); [|by apply H].
  apply fmap_Some in G as (p0 & G & ->). by apply Hf, H.
Qed.

(** The case analysis on a device. *)
Ltac port_cases p :=
  destruct p as [? ? ? ? ? ? [] [] []]; unfold port_st in *; cbn in *; intuition (congruence || eauto).

(** Waking everybody makes the third part hold whatever the real device does. *)
Lemma ports_ok_wake w bh :
  ports_ok w -> ports_ok (qmap_wake_queue (w <| real_stopped := false |> <| bh_pending := bh |>)).
Proof.
  intros H i p G. set (w1 := w <| real_stopped := false |> <| bh_pending := bh |>) in *.
  unfold qmap_wake_queue in G |- *. change (w_use_rmnet_usb w1) with (w_use_rmnet_usb w) in *.
  destruct (w_use_rmnet_usb w) eqn:R; cbn [negb] in *.
  - rewrite get_port_all in G. change (get_port w1 i) with (get_port w i) in G.
    change (w_qmap_mode w1) with (w_qmap_mode w) in G.
    destruct (get_port w i) as [p0|] eqn:G0; [|by destruct (_ <? _)]. pose proof (H i p0 G0) as Hp.
    rewrite (proj2 (Z.ltb_lt _ _)) in G by apply Hp. injection G as <-.
    change (port_st (w_link_state w) (w_qmap_mode w) (w_use_rmnet_usb w) bh i
      (if p_carrier p0 && p_stopped p0 then p0 <| p_stopped := false |> else p0)).
    unfold port_ok in Hp. port_cases p0.
  - destruct (H i p G) as (_ & _ & _ & _ & F). congruence.
Qed.

(** ** The operations keep it *)

Lemma link_port_ok w link off on :
  ports_ok w -> 0 <= off ->
  (forall j : nat, Z.of_nat j <> off -> Z.of_nat j < w_qmap_mode w ->
     Z.testbit link (Z.of_nat j) = Z.testbit (w_link_state w) (Z.of_nat j)) ->
  on = Z.testbit link off ->
  ports_ok (upd_port (Z.to_nat off) (link_port on (real_stopped w)) (w <| w_link_state := link |>)).
Proof.
  intros H Ho Hj Hon j p G. rewrite get_port_upd in G. change (get_port (w <| w_link_state := link |>) j) with (get_port w j) in G.
  change (port_st link (w_qmap_mode w) (w_use_rmnet_usb w) (waits w) j p).
  case_decide as D.
  - apply fmap_Some in G as (p0 & G & ->). pose proof (H j p0 G) as Hp. unfold port_ok in Hp.
    unfold port_st in *. replace (Z.of_nat j) with off in * by lia. rewrite <- Hon. unfold link_port, waits in *.
    destruct on, (real_stopped w); port_cases p0.
  - destruct (H j p G) as (A & B & C & M & R). unfold port_st. rewrite Hj by lia. auto.
Qed.

(** A store that changes something changes bit [o], device [o] and the carrier of the real
    device. *)
Lemma store_cases v w :
  0 <= w_qmap_mode w ->
  link_state_store v w = w \/ exists o link c,
    0 <= o /\ w_link_state w <> link
    /\ (forall j : nat, Z.of_nat j <> o -> Z.of_nat j < w_qmap_mode w ->
          Z.testbit link (Z.of_nat j) = Z.testbit (w_link_state w) (Z.of_nat j))
    /\ link_state_store v w
       = (upd_port (Z.to_nat o) (link_port (Z.testbit link o) (real_stopped w)) (w <| w_link_state := link |>)) <| real_carrier := c |>.
Proof.
  intros Hm. unfold link_state_store. cbv zeta.
  set (off := u32 (Z.land (u32 v) 0x7F - 1)). assert (Ho : 0 <= off) by apply u32_bound.
  destruct ((1 <? w_qmap_mode w) && (w_qmap_mode w <=? off)); [by left|].
  set (link := if w_qmap_mode w =? 1 then _ else _). destruct (Z.eqb_spec (w_link_state w) link) as [E|N].
  { left. rewrite <- E. by destruct w. }
  right. set (o := if 1 <? w_qmap_mode w then off else 0) in *. assert (Ho' : 0 <= o) by (unfold o; destruct (_ <? _); lia).
  rewrite truth_bit by done. exists o, link, (if real_up w then truth link else real_carrier w). split; [done|]. split; [done|]. split.
  - intros j Nj Lj. unfold link, o in *. destruct (Z.eqb_spec (w_qmap_mode w) 1) as [M|M].
    + rewrite M in *. cbn in Nj. lia.
    + destruct (1 <? w_qmap_mode w); [by apply bit_kept; lia|done].
  - clearbody link o. clear. destruct w as [? ? [] ? ? ? ? ? ? ? ? ? ? ? ? ? ?]; by destruct (truth link).
Qed.

Lemma store_ok' v w : 0 <= w_qmap_mode w -> ports_ok w -> ports_ok (link_state_store v w).
Proof.
  intros Hm H. destruct (store_cases v w Hm) as [->|(o & link & c & Ho & _ & Hj & ->)]; [done|].
  eapply ports_ok_frame; [..|by apply (link_port_ok w link o)]; done.
Qed.

Lemma open_ok i w :
  ports_ok w -> ports_ok (upd_port i (fun p => p <| p_up := true |>) (qmap_open i w).2)
    \/ (qmap_open i w).1 <> 0.
Proof.
  intros H. unfold qmap_open. destruct (get_port w i) as [p0|] eqn:G0.
  2: { left. apply ports_ok_upd; [done|]. intros p G. cbn in G. congruence. }
  destruct (real_up w); [|by right]. left. cbn [negb].
  destruct (truth (p_link_state p0)) eqn:T; cbn [snd]; intros j p G; rewrite !get_port_upd in G;
    case_decide as D; try (by apply H).
  - change (get_port (w <| real_carrier := true |>) j) with (get_port w j) in G. subst j. rewrite G0 in G.
    injection G as <-. pose proof (H i p0 G0) as Hp.
    match goal with |- port_ok ?w' i ?p => change (port_ok w i p) end.
    unfold port_ok, waits in *. cbn in T. destruct (real_stopped w); port_cases p0.
  - subst j. rewrite G0 in G. injection G as <-. pose proof (H i p0 G0) as Hp.
    change (port_ok w i (p0 <| p_up := true |>)). unfold port_ok in *. port_cases p0.
Qed.

Lemma xmit_ok stopped scheduled w :
  real_stopped w = false -> ports_ok w -> ports_ok (qmi_wwan_start_xmit stopped scheduled w).
Proof.
  intros S H. unfold qmi_wwan_start_xmit. set (w1 := w <| real_stopped := _ |> <| bh_pending := _ |>).
  assert (H1 : ports_ok w1).
  { eapply ports_ok_frame; [..|exact H]; try done. unfold waits, w1. cbn. rewrite S. cbn. intros ->. by rewrite orb_true_r. }
  change (real_stopped w1) with stopped. destruct stopped; cbn [andb]; [|done].
  destruct (w_use_rmnet_usb w1); [|done]. apply ports_ok_all; [done|]. intros i p _ Hp.
  unfold port_ok in *. change (waits w1) with true in *. port_cases p.
Qed.

Lemma wake_ok stopped bh w :
  ports_ok w -> let w1 := w <| real_stopped := stopped |> <| bh_pending := bh |> in
  ports_ok (if negb stopped then qmap_wake_queue w1 else w1).
Proof.
  intros H. destruct stopped; cbn [negb]; [|by apply ports_ok_wake]. eapply ports_ok_frame; [..|exact H]; done.
Qed.

Lemma bridge_ok f dev w : ports_ok w -> ports_ok (upd_bridge f dev w).
Proof.
  intros H. destruct dev as [i|]; cbn [upd_bridge]; [|by eapply ports_ok_frame; [..|exact H]].
  apply ports_ok_upd; [done|]. intros p _. by destruct p.
Qed.

(** What never changes after probing. *)
Definition fixed (w : wwan) : Z * bool := (w_qmap_mode w, w_use_rmnet_usb w).
Lemma step_fixed w w' : wstep w w' -> fixed w' = fixed w.
Proof.
  destruct 1; try done; unfold link_state_store, qmap_open, qmi_wwan_open, usbnet_bh, qmi_wwan_start_xmit,
    rmnet_vnd_queue, qmi_wwan_resume, bridge_mode_store, bridge_ipv4_store, upd_bridge, rmnet_vnd_change_mtu,
    qmap_ndo_do_ioctl, link_state_store, qmap_wake_queue; repeat (case_match; try done).
Qed.

Lemma step_ok w w' : wstep w w' -> 0 <= w_qmap_mode w -> ports_ok w -> ports_ok w'.
Proof.
  intros St Hm H. destruct St.
  - by apply store_ok'.
  - destruct (open_ok i w H) as [O|O]; [exact O|congruence].
  - unfold qmap_stop. intros j p G. rewrite !get_port_upd in G. case_decide as D; [|by apply H].
    destruct (get_port w j) as [p0|] eqn:G0; [|done]. injection G as <-. pose proof (H j p0 G0) as Hp.
    change (port_ok w j (netif_carrier false p0 <| p_up := false |>)). unfold port_ok in *. port_cases p0.
  - unfold qmi_wwan_open in *. destruct (Z.eqb_spec r 0); [|done]. cbn [snd].
    destruct (_ && _); (eapply ports_ok_frame; [..|exact H]; try done; by intros _; apply orb_true_r).
  - eapply ports_ok_frame; [..|exact H]; done.
  - unfold rmnet_vnd_queue. destruct (real_stopped w) eqn:S; [|done]. apply ports_ok_upd; [done|]. intros p _ Hp.
    unfold port_ok, waits in *. rewrite S in *. port_cases p.
  - by apply xmit_ok.
  - eapply ports_ok_frame; [..|exact H]; try done. intros _. apply orb_true_r.
  - by apply (wake_ok stopped false).
  - eapply ports_ok_frame; [..|exact H]; done.
  - unfold qmi_wwan_resume. destruct (_ && _); [done|]. by apply (wake_ok stopped (bh_pending w)).
  - unfold bridge_mode_store. destruct e; [by apply bridge_ok|done].
  - by apply bridge_ok.
  - unfold rmnet_vnd_change_mtu. destruct (_ <? _); [done|]. apply ports_ok_upd; [done|]. intros p _. by destruct p.
  - destruct cmd as [v|ok d sz pd| |]; cbn [qmap_ndo_do_ioctl].
    + destruct (copied =? 0); [by apply store_ok'|done].
    + destruct (copied =? 0); [|done]. by eapply ports_ok_frame; [..|exact H].
    + by destruct (w_use_rmnet_usb w).
    + done.
Qed.

(** *** Only [link_state_store] moves links *)

Definition links (w : wwan) : Z * list (option (option Z)) :=
  (w_link_state w, (fun s => match s with SlotNull => None | SlotReal => Some None | SlotQmap p => Some (Some (p_link_state p)) end)
                     <$> w_slots w).

Lemma links_upd i f w : (forall p, p_link_state (f p) = p_link_state p) -> links (upd_port i f w) = links w.
Proof.
  intros Hf. unfold links, upd_port. cbn. f_equal. apply list_eq. intros j. rewrite !list_lookup_fmap.
  destruct (decide (i = j)) as [->|N]; [rewrite list_lookup_alter_eq|by rewrite list_lookup_alter_ne].
  destruct (w_slots w !! j) as [[]|]; cbn; by rewrite ?Hf.
Qed.
Lemma links_all f w : (forall p, p_link_state (f p) = p_link_state p) -> links (on_ports f w) = links w.
Proof.
  intros Hf. unfold links, on_ports. cbn. f_equal. apply list_eq. intros j. rewrite !list_lookup_fmap, list_lookup_imap.
  destruct (w_slots w !! j) as [s|]; [|done]. cbn. destruct (_ <? _), s; cbn; by rewrite ?Hf.
Qed.
Lemma links_wake w : links (qmap_wake_queue w) = links w.
Proof.
  unfold qmap_wake_queue. destruct (negb _); [done|]. apply links_all. intros []. cbn. by destruct (_ && _).
Qed.
Lemma links_bridge f dev w : links (upd_bridge f dev w) = links w.
Proof. destruct dev; [|done]. apply links_upd. by intros []. Qed.
Lemma step_links w w' : wstep w w' -> (exists v, w' = link_state_store v w) \/ links w' = links w.
Proof.
  destruct 1; try (right; done); try (left; by eexists);
    try (lazymatch goal with |- context [qmap_ndo_do_ioctl] => fail | _ => right end).
  - unfold qmap_open. destruct (get_port w i) as [p0|]; [destruct (negb (real_up w)), (truth (p_link_state p0))|];
      cbn [snd]; repeat (rewrite links_upd; [|intros [? ? ? ? ? ? ? ? []]; by destruct (real_stopped w)]); done.
  - unfold qmap_stop. by rewrite !links_upd by (by intros []).
  - unfold qmi_wwan_open in *. destruct (r =? 0); cbn [snd]; [by destruct (_ && _)|done].
  - unfold rmnet_vnd_queue. destruct (real_stopped w); [|done]. apply links_upd. by intros [].
  - unfold qmi_wwan_start_xmit. destruct (_ && _); [|done]. rewrite links_all; [done|]. by intros [].
  - unfold usbnet_bh. destruct stopped; cbn [negb]; [done|]. by rewrite links_wake.
  - unfold qmi_wwan_resume. destruct (_ && _); [done|]. destruct stopped; cbn [negb snd]; [done|]. by rewrite links_wake.
  - unfold bridge_mode_store. destruct e; [by rewrite links_bridge|done].
  - unfold bridge_ipv4_store. by rewrite links_bridge.
  - unfold rmnet_vnd_change_mtu. destruct (_ <? _); [done|]. apply links_upd. by intros [].
  - destruct cmd as [v|ok d sz pd| |]; cbn [qmap_ndo_do_ioctl].
    + destruct (copied =? 0); [left; by eexists|by right].
    + right. by destruct (copied =? 0).
    + right. by destruct (w_use_rmnet_usb w).
    + by right.
Qed.

(** Every device knows its bit of [link_state]. *)
Definition agrees (w : wwan) : Prop :=
  forall i p, get_port w i = Some p -> truth (p_link_state p) = Z.testbit (w_link_state w) (Z.of_nat i).
Lemma agrees_links w w' : links w' = links w -> agrees w -> agrees w'.
Proof.
  intros [= E1 E2] A i p G. unfold get_port in G. apply (f_equal (lookup i)) in E2. rewrite !list_lookup_fmap in E2.
  destruct (w_slots w' !! i) as [[| |p']|]; try done. injection G as ->. cbn in E2.
  destruct (w_slots w !! i) as [[| |q]|] eqn:W; try done. injection E2 as E2. rewrite E1, E2. apply A.
  unfold get_port. by rewrite W.
Qed.
Lemma store_agrees v w : 0 <= w_qmap_mode w -> ports_ok w -> agrees w -> agrees (link_state_store v w).
Proof.
  intros Hm H A. destruct (store_cases v w Hm) as [->|(o & link & c & Ho & _ & Hj & ->)]; [done|].
  intros j p G. change (get_port (upd_port (Z.to_nat o) (link_port (Z.testbit link o) (real_stopped w)) w) j = Some p) in G.
  change (truth (p_link_state p) = Z.testbit link (Z.of_nat j)). rewrite get_port_upd in G. case_decide as D.
  - apply fmap_Some in G as (p0 & G & ->). replace (Z.of_nat j) with o by lia.
    destruct p0 as [? ? ? ? ? ? [] ? []], (Z.testbit link o), (real_stopped w); reflexivity.
  - destruct (H j p G) as (_ & _ & _ & M & _). rewrite Hj by lia. by apply A.
Qed.
Lemma step_agrees w w' : wstep w w' -> 0 <= w_qmap_mode w -> ports_ok w -> agrees w -> agrees w'.
Proof.
  intros [[v ->]|E]%step_links Hm H A; [by apply store_agrees|by eapply agrees_links].
Qed.

(** No step takes a device away. *)
Definition present (w : wwan) (i : nat) : Prop :=
  match w_slots w !! i with Some SlotNull | None => False | _ => True end.
Lemma step_present w w' i : wstep w w' -> 0 <= w_qmap_mode w -> present w i -> present w' i.
Proof.
  unfold present. intros [[v ->]|E]%step_links Hm P.
  - destruct (store_cases v w Hm) as [->|(o & link & c & _ & _ & _ & ->)]; [done|].
    match goal with |- match w_slots ?w' !! i with _ => _ end =>
      change (w_slots w') with (alter (on_port (link_port (Z.testbit link o) (real_stopped w))) (Z.to_nat o) (w_slots w)) end.
    destruct (decide (Z.to_nat o = i)) as [->|N]; [rewrite list_lookup_alter_eq|by rewrite list_lookup_alter_ne].
    by destruct (w_slots w !! i) as [[]|].
  - injection E as _ E. apply (f_equal (lookup i)) in E. rewrite !list_lookup_fmap in E.
    destruct (w_slots w !! i) as [[]|], (w_slots w' !! i) as [[]|]; cbn in *; (done || congruence).
Qed.

(** ** After probing *)

(** A device as it is registered. *)
Definition idle (p : port) : Prop := p_up p = false /\ p_carrier p = false /\ p_stopped p = false /\ p_link_state p = 0.
(** While probing registers devices: those there are idle and within the mode. *)
Definition probing (w : wwan) : Prop :=
  length (w_slots w) = 4%nat /\ forall i p, get_port w i = Some p -> idle p /\ Z.of_nat i < w_qmap_mode w /\ w_use_rmnet_usb w = true.

Section Probe.
Context (linux_5_17 nss_cb : bool).
#[local] Abbreviation register := (qmap_register_device linux_5_17 nss_cb).
#[local] Abbreviation probe := (qmap_qmi_wwan_probe linux_5_17 nss_cb).

(** A registration leaves most fields alone, and the entry as it is or idle. *)
Lemma register_frame e i w : let w' := (register e i w).2 in fixed w' = fixed w /\ w_link_state w' = w_link_state w.
Proof. unfold qmap_register_device, fixed. by destruct (re_alloc e), (re_stats e), (re_register e <? 0), linux_5_17. Qed.
Lemma register_slots e i w :
  (w_slots (register e i w).2 = w_slots w /\ (register e i w).1 <> 0)
  \/ exists p, idle p /\ w_slots (register e i w).2 = <[Z.to_nat i := SlotQmap p]> (w_slots w).
Proof.
  unfold qmap_register_device. destruct (re_alloc e); [|by left].
  destruct (re_stats e); [|left; by destruct linux_5_17].
  destruct (Z.ltb_spec (re_register e) 0); [left; destruct linux_5_17; split; cbn; (done || lia)|].
  right. destruct linux_5_17; eexists; (split; [|reflexivity]); repeat split.
Qed.
Lemma register_probing e i w :
  probing w -> 0 <= i < w_qmap_mode w -> i < 4 -> w_use_rmnet_usb w = true -> probing (register e i w).2.
Proof.
  intros [L H] Hi Hi4 R. destruct (register_frame e i w) as [F1 _]. injection F1 as F1 F1'.
  unfold probing, get_port. rewrite F1, F1'. destruct (register_slots e i w) as [[-> _]|(p0 & I & ->)]; [by split|].
  split; [by rewrite length_insert|]. intros j p G. destruct (decide (Z.to_nat i = j)) as [<-|N].
  - rewrite list_lookup_insert_eq in G by lia. injection G as <-. split; [done|]. split; [lia|done].
  - rewrite list_lookup_insert_ne in G by done. by apply H.
Qed.
Lemma register_all_probing es : forall i w,
  probing w -> 0 <= i -> i + Z.of_nat (length es) <= w_qmap_mode w -> w_qmap_mode w <= 4 -> w_use_rmnet_usb w = true ->
  let w' := register_all linux_5_17 nss_cb es i w in
  probing w' /\ fixed w' = fixed w /\ w_link_state w' = w_link_state w.
Proof.
  induction es as [|e es IH]; intros i w P Hi Hl Hm R; cbn [register_all]; [done|]. cbn [length] in Hl.
  destruct (register_frame e i w) as (F1 & F2). pose proof F1 as F1'. injection F1' as F3 F4.
  destruct (IH (i + 1) (register e i w).2) as (I1 & I2 & I3); rewrite ?F3, ?F4; try lia; [apply register_probing; auto; lia|done|].
  split; [done|]. by rewrite I2, I3.
Qed.

(** What binding leaves. *)
Lemma bind_facts e qm bm st w pm :
  0 <= qm -> qmi_wwan_bind e qm bm = (st, Some w, pm) ->
  w_slots w = replicate 4 SlotNull /\ 0 <= w_qmap_mode w <= 4 /\ (1 < w_qmap_mode w -> w_use_rmnet_usb w = true)
  /\ (w_qmap_mode w <> 0 -> w_link_state w = b2z (negb (bind_lte_a e))).
Proof.
  intros Hq. unfold qmi_wwan_bind. destruct (negb (be_status e =? 0)); [done|]. destruct (negb (be_kzalloc e)); [done|].
  set (m := if QUECTEL_WWAN_QMAP <? qm then _ else _).
  assert (Hm : 0 <= m <= 4) by (unfold m, QUECTEL_WWAN_QMAP; destruct (Z.ltb_spec 4 qm); lia).
  assert (Hb : 0 <= bind_mode e m <= 4) by (unfold bind_mode; destruct (_ && _); lia).
  destruct (be_noarp e); [|intros [= _ <- _]; repeat split; cbn; (done || lia)].
  cbv zeta. unfold truth. destruct (Z.eqb_spec (bind_mode e m) 0) as [Z|Z]; cbn [negb]; intros [= _ <- _]; cbn;
    repeat split; try done; try lia.
  unfold bind_rmnet. intros Hl. by rewrite (proj2 (Z.ltb_lt _ _) Hl).
Qed.

Lemma probe_facts env w :
  w_slots w = replicate 4 SlotNull -> 0 <= w_qmap_mode w <= 4 -> (1 < w_qmap_mode w -> w_use_rmnet_usb w = true) ->
  probing (probe env w) /\ fixed (probe env w) = fixed w /\ w_link_state (probe env w) = w_link_state w.
Proof.
  intros Hs Hm Hr. unfold qmap_qmi_wwan_probe.
  set (w1 := if w_qmap_mode w =? 1 then _ else _).
  assert (H1 : probing w1 /\ fixed w1 = fixed w /\ w_link_state w1 = w_link_state w).
  { assert (Hn : forall v, w_slots v = replicate 4 SlotNull -> probing v).
    { intros v E. unfold probing, get_port. rewrite E. split; [done|]. intros i p. by destruct i as [|[|[|[|]]]]. }
    unfold w1. destruct (Z.eqb_spec (w_qmap_mode w) 1) as [M|M].
    - destruct (w_use_rmnet_usb w) eqn:R.
      + set (v := w <| w_slots := <[0%nat := SlotNull]> (w_slots w) |>).
        assert (Hv : probing v) by (apply Hn; unfold v; cbn; by rewrite Hs).
        destruct (register_frame (env 0) 0 v) as [F1 F2]. split; [|by rewrite F1, F2].
        apply register_probing; [done|change (0 <= 0 < w_qmap_mode w); lia|lia|done].
      + split; [|done]. unfold probing, get_port. cbn. rewrite Hs. split; [done|]. intros i p. by destruct i as [|[|[|[|]]]].
    - destruct (Z.ltb_spec 1 (w_qmap_mode w)) as [L|L]; [|split; [by apply Hn|done]].
      apply register_all_probing; [by apply Hn|done| |lia|by apply Hr]. rewrite length_fmap, length_seqZ. lia. }
  set (w2 := w1 <| rx_handler := w_use_rmnet_usb w1 |>). by destruct (w_link_state w2 =? 0).
Qed.

(** The states of a device from probing on. *)
Definition reachable (e : bind_env) (qm bm : Z) (env : Z -> reg_env) (w : wwan) : Prop :=
  exists w0 st pm, qmi_wwan_bind e qm bm = (st, Some w0, pm) /\ rtc wstep (probe env w0) w.

Lemma rtc_fixed w w' : rtc wstep w w' -> fixed w' = fixed w.
Proof. induction 1 as [|x y z S _ IH]; [done|]. by rewrite IH, (step_fixed x y). Qed.
Lemma rtc_ports_ok w w' : rtc wstep w w' -> 0 <= w_qmap_mode w -> ports_ok w -> ports_ok w'.
Proof.
  induction 1 as [|x y z S _ IH]; [done|]. intros Hm H. apply step_fixed in S as F. injection F as F _.
  apply IH; [lia|]. by eapply step_ok.
Qed.
Lemma reachable_ok e qm bm env w : 0 <= qm -> reachable e qm bm env w -> ports_ok w.
Proof.
  intros Hq (w0 & st & pm & B & R). destruct (bind_facts e qm bm st w0 pm Hq B) as (B1 & B2 & B3 & B4).
  destruct (probe_facts env w0 B1 B2 B3) as (P1 & P2 & P3). injection P2 as P2 P2'.
  eapply rtc_ports_ok; [exact R|lia|]. intros i p G. destruct (proj2 P1 i p G) as ((I1 & I2 & I3 & I4) & I5 & I6).
  unfold port_ok, port_st. rewrite I1, I2, I3, I4. repeat split; done.
Qed.

(** C29. No queue is forgotten.  Whatever user space, the network core and usbnet do after
    probing, in whatever order, a multiplexed device that has its carrier and whose queue
    is stopped waits for something: the queue of the real device is stopped too, or the
    tasklet is scheduled; and when the tasklet runs and finds the queue of the real device
    running, no device with a carrier is left waiting. *)
Theorem no_lost_wakeup e qm bm env w i p :
  0 <= qm -> reachable e qm bm env w -> get_port w i = Some p -> p_carrier p = true ->
  (p_stopped p = true -> real_stopped w = true \/ bh_pending w = true)
  /\ exists p', get_port (usbnet_bh false w) i = Some p' /\ p_stopped p' = false /\ p_carrier p' = true.
Proof.
  intros Hq R G C. pose proof (reachable_ok e qm bm env w Hq R) as H. destruct (H i p G) as (_ & _ & W & M & U). split.
  - intros S. rewrite S, C in W. by apply orb_true_iff, W.
  - unfold usbnet_bh, qmap_wake_queue. cbn [negb]. set (w1 := w <| real_stopped := false |> <| bh_pending := false |>).
    change (w_use_rmnet_usb w1) with (w_use_rmnet_usb w). rewrite U. cbn [negb]. rewrite get_port_all.
    change (get_port w1 i) with (get_port w i). change (w_qmap_mode w1) with (w_qmap_mode w).
    rewrite (proj2 (Z.ltb_lt _ _) M), G. cbn [fmap option_fmap option_map]. eexists. split; [done|].
    rewrite C. cbn [andb]. destruct (p_stopped p) eqn:S; [by destruct p|done].
Qed.

Lemma rtc_agrees w w' : rtc wstep w w' -> 0 <= w_qmap_mode w -> ports_ok w -> agrees w -> agrees w'.
Proof.
  induction 1 as [|x y z S _ IH]; [done|]. intros Hm H A. pose proof (step_fixed x y S) as F. injection F as F _.
  apply IH; [lia|by eapply step_ok|by eapply step_agrees].
Qed.

(** C30. Carriers follow the link.  For a modem that counts as LTE-A, whatever happens after
    probing, a multiplexed device has its carrier exactly while it is up and its bit of
    [link_state] is set. *)
Theorem carrier_follows_link e qm bm env w i p :
  0 <= qm -> bind_lte_a e = true -> reachable e qm bm env w -> get_port w i = Some p ->
  p_carrier p = p_up p && Z.testbit (w_link_state w) (Z.of_nat i).
Proof.
  intros Hq Hl R G. pose proof (reachable_ok e qm bm env w Hq R) as H. destruct (H i p G) as (-> & _).
  f_equal. revert i p G. fold (agrees w). destruct R as (w0 & st & pm & B & R).
  destruct (bind_facts e qm bm st w0 pm Hq B) as (B1 & B2 & B3 & B4).
  destruct (probe_facts env w0 B1 B2 B3) as (P1 & P2 & P3). injection P2 as P2 P2'.
  eapply rtc_agrees; [exact R|lia|eapply reachable_ok; [exact Hq|]; by exists w0, st, pm; split; [exact B|]|].
  intros i p G. destruct (proj2 P1 i p G) as ((I1 & I2 & I3 & I4) & I5 & _).
  rewrite I4, P3, B4, Hl by lia. by rewrite Z.bits_0.
Qed.

(** For any other modem the first link is lost: probing sets bit 0 of [link_state] and no
    device knows, so that reporting the link of the first device changes nothing. *)
Theorem first_link_lost e qm bm env w st pm :
  1 < qm -> be_noarp e = true -> bind_lte_a e = false -> qmi_wwan_bind e qm bm = (st, Some w, pm) ->
  link_state_store 1 (probe env w) = probe env w.
Proof.
  intros Hq Hn Hl B. destruct (bind_facts e qm bm st w pm) as (B1 & B2 & B3 & B4); [lia|done|].
  destruct (probe_facts env w B1 B2 B3) as (P1 & P2 & P3). injection P2 as P2 P2'.
  assert (M : 1 < w_qmap_mode w).
  { revert B. unfold qmi_wwan_bind. destruct (negb (be_status e =? 0)); [done|]. destruct (negb (be_kzalloc e)); [done|].
    rewrite Hn. unfold bind_mode. rewrite Hl. cbn [andb]. unfold QUECTEL_WWAN_QMAP, truth.
    set (m := if 4 <? qm then 4 else qm). assert (1 < m) by (unfold m; destruct (Z.ltb_spec 4 qm); lia).
    cbv zeta. rewrite (proj2 (Z.eqb_neq m 0)) by lia. intros [= _ <- _]. done. }
  set (w' := probe env w) in *. assert (L : w_link_state w' = 1) by (rewrite P3, B4, Hl; [done|lia]).
  rewrite <- P2 in M. clearbody w'. clear -L M. destruct w' as [? ? ? ? ? ? ? ? mode ? ? link ? ? ? ? ?].
  cbn in L, M. subst link. unfold link_state_store. cbn [w_qmap_mode w_link_state].
  rewrite (proj2 (Z.ltb_lt 1 _) M), (proj2 (Z.eqb_neq mode 1)) by lia.
  change (u32 (Z.land (u32 1) 0x7F - 1)) with 0. rewrite (proj2 (Z.leb_gt mode 0)) by lia. reflexivity.
Qed.

(** The size of the aggregates is in kilobytes when it is compared with 4096: it never makes
    a modem count as LTE-A. *)
Lemma size_never_counts e : bind_lte_a e = lte_a_product (be_idProduct e) || be_super_speed e.
Proof.
  unfold bind_lte_a. rewrite (proj2 (Z.ltb_ge 4096 _)); [by rewrite orb_false_r|].
  change 0xFF with (Z.ones 8). rewrite Z.land_ones by lia. pose proof (Z.mod_pos_bound (be_data e) (2 ^ 8)). lia.
Qed.

(** *** Registered devices *)

Definition registers (e : reg_env) : Prop := re_alloc e = true /\ re_stats e = true /\ 0 <= re_register e.

Lemma register_kept e i w j :
  (Z.to_nat i < length (w_slots w))%nat -> present w j \/ (registers e /\ j = Z.to_nat i) ->
  present (register e i w).2 j.
Proof.
  intros Hi Hj. unfold present in *. destruct (register_slots e i w) as [[-> N]|(p & _ & ->)].
  - destruct Hj as [Hj|[(R1 & R2 & R3) ->]]; [done|]. exfalso. apply N. unfold qmap_register_device.
    by rewrite R1, R2, (proj2 (Z.ltb_ge _ _) R3).
  - destruct (decide (Z.to_nat i = j)) as [<-|D]; [by rewrite list_lookup_insert_eq|].
    rewrite list_lookup_insert_ne by done. destruct Hj as [Hj|[_ ->]]; done.
Qed.
Lemma register_all_present es : forall i w (j : nat),
  0 <= i -> (Z.to_nat i + length es <= length (w_slots w))%nat -> Forall registers es ->
  present w j \/ (Z.to_nat i <= j < Z.to_nat i + length es)%nat ->
  present (register_all linux_5_17 nss_cb es i w) j.
Proof.
  induction es as [|e es IH]; intros i w j Hi Hl Hr Hj; cbn [register_all]; [destruct Hj; [done|cbn in *; lia]|].
  apply Forall_cons in Hr as [Hr Hrs]. cbn [length] in *.
  assert (L : length (w_slots (register e i w).2) = length (w_slots w)).
  { destruct (register_slots e i w) as [[-> _]|(p & _ & ->)]; by rewrite ?length_insert. }
  apply IH; [lia|rewrite L; lia|done|]. destruct Hj as [Hj|Hj]; [left; apply register_kept; [lia|auto]|].
  destruct (decide (j = Z.to_nat i)) as [->|N]; [left; apply register_kept; [lia|auto]|right; lia].
Qed.
Lemma probe_present env w j :
  w_slots w = replicate 4 SlotNull -> 0 <= w_qmap_mode w <= 4 -> (forall i, 0 <= i < w_qmap_mode w -> registers (env i)) ->
  Z.of_nat j < w_qmap_mode w -> present (probe env w) j.
Proof.
  intros Hs Hm He Hj. unfold qmap_qmi_wwan_probe. set (w1 := if w_qmap_mode w =? 1 then _ else _).
  assert (P : present w1 j).
  { unfold w1. destruct (Z.eqb_spec (w_qmap_mode w) 1) as [M|M].
    - replace j with 0%nat by lia. destruct (w_use_rmnet_usb w).
      + apply register_kept; [cbn; rewrite Hs; cbn; lia|]. right. split; [apply He; lia|done].
      + unfold present. cbn. by rewrite Hs.
    - rewrite (proj2 (Z.ltb_lt 1 _)) by lia. apply register_all_present; [done| | |].
      + rewrite length_fmap, length_seqZ, Hs. cbn. lia.
      + apply Forall_fmap, Forall_forall. intros i Hi. apply elem_of_seqZ in Hi. cbn. apply He. lia.
      + right. rewrite length_fmap, length_seqZ. lia. }
  set (w2 := w1 <| rx_handler := w_use_rmnet_usb w1 |>). by destruct (w_link_state w2 =? 0).
Qed.

Lemma rtc_present w w' i : rtc wstep w w' -> 0 <= w_qmap_mode w -> present w i -> present w' i.
Proof.
  induction 1 as [|x y z S _ IH]; [done|]. intros Hm P. pose proof (step_fixed x y S) as F. injection F as F _.
  apply IH; [lia|by eapply step_present].
Qed.

(** C36. Decoding ends.  When every registration at probing succeeded, then at any later
    time, whatever has happened since, decoding a received buffer ends, whatever its bytes
    are, within as many rounds as it has bytes. *)
Theorem probed_decoder_terminates {S} `{SkbLaws S} e qm bm env w mem (skb_in : S) fuel :
  0 <= qm -> (forall i, 0 <= i < QUECTEL_WWAN_QMAP -> registers (env i)) -> reachable e qm bm env w ->
  bytes_ok (skb_data skb_in) -> (length (skb_data skb_in) < fuel)%nat ->
  qmap_packet_decode fuel 0 mem (decoder_view w) skb_in [] <> OutOfFuel.
Proof.
  intros Hq He (w0 & st & pm & B & R) Hb Hf. destruct (bind_facts e qm bm st w0 pm Hq B) as (B1 & B2 & B3 & _).
  destruct (probe_facts env w0 B1 B2 B3) as (_ & P2 & _). pose proof (rtc_fixed _ _ R) as F. rewrite P2 in F.
  injection F as F _. injection P2 as P2 _. apply qmap_decode_terminates; [|cbn; unfold QUECTEL_WWAN_QMAP; lia|done|done].
  intros i Hi. cbn in Hi. assert (P : present w (Z.to_nat i)).
  { eapply rtc_present; [exact R|lia|]. apply probe_present; [done|done| |lia]. intros k Hk. apply He.
    unfold QUECTEL_WWAN_QMAP. lia. }
  unfold present in P. cbn. rewrite list_lookup_fmap. destruct (w_slots w !! Z.to_nat i) as [[]|]; try done; by eexists.
Qed.

(** *** Addresses *)

(** Before Linux 5.17 a new device gets the address of the real one; since then the call has
    its arguments the wrong way round: the real device loses its address. *)
Theorem registered_addresses e i w p :
  re_alloc e = true -> w_slots (register e i w).2 = <[Z.to_nat i := SlotQmap p]> (w_slots w) ->
  (Z.to_nat i < length (w_slots w))%nat -> (register e i w).1 = 0 ->
  if linux_5_17 then dev_addr (real_net (register e i w).2) = zeros 6 /\ dev_addr (p_net p) = zeros 6
  else dev_addr (real_net (register e i w).2) = dev_addr (real_net w) /\ dev_addr (p_net p) = dev_addr (real_net w).
Proof.
  intros A E Hi. unfold qmap_register_device in *. rewrite A in *. cbn [negb] in *.
  destruct (re_stats e); [|done]. destruct (re_register e <? 0) eqn:Rg; [intros; cbn in *; apply Z.ltb_lt in Rg; lia|].
  intros _. cbn [negb] in E. apply (f_equal (lookup (Z.to_nat i))) in E. rewrite list_lookup_insert_eq in E by done.
  destruct linux_5_17; cbn in E |- *; rewrite list_lookup_insert_eq in E by done; injection E as <-; split; done.
Qed.
End Probe.

(** A registration that fails leaves its entry empty and the handler of the real device
    registered; a transfer for that device then never ends. *)
Definition good_reg : reg_env := mkRegEnv true true 0 0.
Definition no_memory : reg_env := mkRegEnv false true 0 0.
Definition own_mac : list Z := [2; 0; 0; 0; 0; 1].
Definition demo_bind (product : Z) : bind_env :=
  mkBindEnv 0 true 2335 product false true "wwan0" ((fresh_net true 0) <| dev_addr := own_mac |>) own_mac.
Definition demo_probed (new_kernel : bool) (product mode : Z) (env : Z -> reg_env) : option wwan :=
  qmap_qmi_wwan_probe new_kernel false env <$> (qmi_wwan_bind (demo_bind product) mode 0).1.2.
Lemma failed_registration_hangs fuel :
  exists w, demo_probed false 0x0800 2 (fun i => if i =? 1 then no_memory else good_reg) = Some w /\ rx_handler w = true
    /\ qmap_packet_decode fuel 0 (fun _ => true) (decoder_view w) (buffer [0; 0x82; 0; 8; 0x45; 0]) [] = OutOfFuel.
Proof.
  eexists. split; [reflexivity|]. split; [reflexivity|].
  apply (qmap_decode_hangs _ (fun _ => true) (buffer [0; 0x82; 0; 8; 0x45; 0]) 1 0 0 8 fuel);
    try reflexivity; try (vm_compute; split; discriminate + done); cbn; lia.
Qed.

(** The addresses of the devices after probing, with an old kernel and with a new one. *)
Example addresses_after_probe :
  (fun w => (dev_addr (real_net w), (fun p => dev_addr (p_net p)) <$> get_port w 0))
    <$> demo_probed false 0x0800 2 (fun _ => good_reg) = Some (own_mac, Some own_mac)
  /\ (fun w => (dev_addr (real_net w), (fun p => dev_addr (p_net p)) <$> get_port w 0))
    <$> demo_probed true 0x0800 2 (fun _ => good_reg) = Some (zeros 6, Some (zeros 6)).
Proof. by vm_compute. Qed.

(** ** Witnesses *)

(** Two devices; the real one comes up, the first link too, the first device is opened, and
    usbnet stops the queue. *)
Definition demo_steps (w : wwan) : wwan :=
  rmnet_vnd_queue 0 (qmi_wwan_start_xmit true true (upd_port 0 (fun p => p <| p_up := true |>)
    (qmap_open 0 (link_state_store 1 ((qmi_wwan_open 0 w).2 <| real_up := true |>))).2)).
Definition demo_state : wwan :=
  match demo_probed false 0x0800 2 (fun _ => good_reg) with Some w => demo_steps w | None => mkWwan EmptyString (fresh_net true 0) false false
    false false false 0 0 0 0 0 false (mkCtx 0 0 0) (mkBridge 0 0 []) [] no_info end.
Lemma demo_reachable : reachable false false (demo_bind 0x0800) 2 0 (fun _ => good_reg) demo_state.
Proof.
  eexists _, _, _. split; [reflexivity|]. unfold demo_state, demo_probed. cbn [fst snd fmap option_fmap option_map].
  unfold demo_steps. eapply rtc_l; [by apply (ws_real_open 0)|]. eapply rtc_l; [by apply (ws_link 1)|].
  eapply rtc_l; [by apply (ws_open 0)|]. eapply rtc_l; [by apply (ws_xmit true true)|].
  eapply rtc_once. apply ws_vnd_xmit.
Qed.
Lemma demo_port : exists p, get_port demo_state 0 = Some p /\ p_carrier p = true /\ p_stopped p = true /\ p_up p = true.
Proof. eexists. split; [vm_compute; reflexivity|]. done. Qed.

Lemma no_lost_wakeup_witness :
  exists p, get_port demo_state 0 = Some p /\ p_stopped p = true
    /\ (real_stopped demo_state = true \/ bh_pending demo_state = true)
    /\ exists p', get_port (usbnet_bh false demo_state) 0 = Some p' /\ p_stopped p' = false /\ p_carrier p' = true.
Proof.
  destruct demo_port as (p & G & C & St & _). exists p. split; [exact G|]. split; [exact St|].
  destruct (no_lost_wakeup false false (demo_bind 0x0800) 2 0 (fun _ => good_reg) demo_state 0 p) as [W B];
    [done|apply demo_reachable|exact G|exact C|].
  split; [by apply W|exact B].
Defined.
Lemma carrier_follows_link_witness :
  exists p, get_port demo_state 0 = Some p /\ p_carrier p = p_up p && Z.testbit (w_link_state demo_state) 0.
Proof.
  destruct demo_port as (p & G & _). exists p. split; [exact G|].
  apply (carrier_follows_link false false (demo_bind 0x0800) 2 0 (fun _ => good_reg) demo_state 0 p);
    [done|reflexivity|apply demo_reachable|exact G].
Defined.
Lemma probed_decoder_terminates_witness :
  qmap_packet_decode 7 0 (fun _ => true) (decoder_view demo_state) (buffer [0; 0x82; 0xff; 0xff; 0x45; 0]) [] <> OutOfFuel.
Proof.
  apply (probed_decoder_terminates false false (demo_bind 0x0800) 2 0 (fun _ => good_reg) demo_state).
  - done.
  - intros i _. repeat split; done.
  - apply demo_reachable.
  - by apply (bool_decide_unpack _).
  - cbn. lia.
Defined.
Lemma first_link_lost_witness :
  exists w, demo_probed false 0x0125 2 (fun _ => good_reg) = Some w /\ link_state_store 1 w = w.
Proof.
  eexists. split; [reflexivity|].
  by eapply (first_link_lost false false (demo_bind 0x0125) 2 0 (fun _ => good_reg)).
Defined.
