(* ===== verification/WwanUsb.v ===== *)
(** The USB side of the qmi_wwan_q driver: the subdriver for the control channel, the count of
    those who need the modem awake, suspend and resume as a pair, unbinding, the receive
    handler for the NSS offload and the counters of a device.  What usbnet and the subdriver
    return is an argument; what is done to them is in the state. *)
From S2P Require Import Prelude WwanFixup.
#[local] Open Scope Z_scope.

(** [qmi_wwan_state] with what is visible of its neighbours: whether usbnet and the
    subdriver sleep, [needs_remote_wakeup] of the interface, whether usbnet has the status
    endpoint, and the DTR line of the modem.  An interface is a number. *)
Record usb_state := mkUsb {
  us_subdriver : bool; us_pmcount : Z; us_control : option nat; us_data : option nat; us_status : bool;
  needs_remote_wakeup : bool; usbnet_asleep : bool; subdriver_asleep : bool; dtr : bool }.

Definition USB_EINVAL : Z := 22.
Definition USB_EOPNOTSUPP : Z := 95.

(** ** The subdriver *)

(** [endpoints] is the result of [usbnet_get_endpoints], which sets the status endpoint of a
    combined interface; [registered] is the result of [usb_cdc_wdm_register], negative for an
    error pointer. *)
Definition qmi_wwan_register_subdriver (endpoints : Z) (registered : Z) (u : usb_state) : Z * usb_state :=
  if endpoints <? 0 then (endpoints, u)
  else
    let u := if bool_decide (us_control u <> us_data u) then u <| us_status := true |> else u in
    if negb (us_status u) then (- USB_EINVAL, u)
    else
      let u := u <| us_pmcount := 0 |> in
      if registered <? 0 then (registered, u)
      else (endpoints, u <| us_status := false |> <| us_subdriver := true |>).

(** [autopm] is the result of [usb_autopm_get_interface]; it changes nothing here. *)
Definition qmi_wwan_manage_power (on : bool) (u : usb_state) : Z * usb_state :=
  let u := u <| us_pmcount := s32 (us_pmcount u + (if on then 1 else -1)) |> in
  (0, if (on && (us_pmcount u =? 1)) || (negb on && (us_pmcount u =? 0))
      then u <| needs_remote_wakeup := on |> else u).
(** [dev] is NULL while disconnecting. *)
Definition qmi_wwan_cdc_wdm_manage_power (dev : bool) (on : bool) (u : usb_state) : Z * usb_state :=
  if negb dev then (0, u) else qmi_wwan_manage_power on u.

(** ** Sleep *)

Definition usbnet_suspend (rc : Z) (u : usb_state) : usb_state :=
  if rc <? 0 then u else u <| usbnet_asleep := true |>.
Definition usbnet_resume (rc : Z) (u : usb_state) : usb_state :=
  if rc <? 0 then u else u <| usbnet_asleep := false |>.
Definition sub_suspend (rc : Z) (u : usb_state) : usb_state :=
  if rc <? 0 then u else u <| subdriver_asleep := true |>.
Definition sub_resume (rc : Z) (u : usb_state) : usb_state :=
  if rc <? 0 then u else u <| subdriver_asleep := false |>.

(** The subdriver sleeps with the control interface.  [back] is what the call that undoes
    the first half returns; the driver does not look at it. *)
Definition qmi_wwan_suspend (intf : nat) (usbnet_rc sub_rc back : Z) (u : usb_state) : Z * usb_state :=
  let u := usbnet_suspend usbnet_rc u in
  if usbnet_rc <? 0 then (usbnet_rc, u)
  else
    let sub := bool_decide (us_control u = Some intf) && us_subdriver u in
    let ret := if sub then sub_rc else usbnet_rc in
    let u := if sub then sub_suspend sub_rc u else u in
    (ret, if ret <? 0 then usbnet_resume back u else u).

(** The power half of [qmi_wwan_resume]; the queues are in WwanLink. *)
Definition usb_resume (intf : nat) (sub_rc usbnet_rc back : Z) (u : usb_state) : Z * usb_state :=
  let callsub := bool_decide (us_control u = Some intf) && us_subdriver u in
  let ret := if callsub then sub_rc else 0 in
  let u := if callsub then sub_resume sub_rc u else u in
  if ret <? 0 then (ret, u)
  else
    let u := usbnet_resume usbnet_rc u in
    (usbnet_rc, if (usbnet_rc <? 0) && callsub then sub_suspend back u else u).

(** The interface is bound again instead. *)
Definition qmi_wwan_reset_resume : Z := - USB_EOPNOTSUPP.

(** [configured]: the modem is still there and hears that DTR goes down.  Also the interface
    that is released with this one. *)
Definition qmi_wwan_unbind (configured : bool) (intf : nat) (u : usb_state) : option nat * usb_state :=
  let u := if configured then u <| dtr := false |> else u in
  let other := if bool_decide (us_control u = Some intf) then us_data u else us_control u in
  (if bool_decide (other = Some intf) then None else other,
   u <| us_subdriver := false |> <| us_data := None |> <| us_control := None |>).

(** ** The NSS offload *)

(** [cb0] is [skb->cb[0]]; also whether [nss_tx] took the packet. *)
Definition qca_nss_rx_handler (nss_cb : bool) (skb : bool) (loopback : bool) (cb0 : Z) : rx_result * Z * bool :=
  if negb skb then (RX_HANDLER_CONSUMED, cb0, false)
  else if loopback then (RX_HANDLER_PASS, cb0, false)
  else if cb0 =? 1 then (RX_HANDLER_PASS, 0, false)
  else if nss_cb then (RX_HANDLER_CONSUMED, cb0, true)
  else (RX_HANDLER_PASS, cb0, false).

(** ** Counters *)

(** Per processor: received packets and bytes, sent packets and bytes, 64 bits each. *)
Record stats64 := mkStats { rx_packets : Z; rx_bytes : Z; tx_packets : Z; tx_bytes : Z }.
Definition wrap64 (z : Z) : Z := z mod 18446744073709551616.
Definition rmnet_vnd_update_tx_stats (packets bytes : Z) (s : stats64) : stats64 :=
  s <| tx_packets := wrap64 (tx_packets s + packets) |> <| tx_bytes := wrap64 (tx_bytes s + bytes) |>.
Definition update_rx (packets bytes : Z) (s : stats64) : stats64 :=
  s <| rx_packets := wrap64 (rx_packets s + packets) |> <| rx_bytes := wrap64 (rx_bytes s + bytes) |>.

(** [_rmnet_vnd_get_stats64]: [base] is what [netdev_stats_to_stats64] copied; with the NSS
    offload the offload counts what is received. *)
Definition add_stats (s c : stats64) : stats64 :=
  mkStats (wrap64 (rx_packets s + rx_packets c)) (wrap64 (rx_bytes s + rx_bytes c))
          (wrap64 (tx_packets s + tx_packets c)) (wrap64 (tx_bytes s + tx_bytes c)).
Definition rmnet_vnd_get_stats64 (nss : bool) (base : stats64) (cpus : list stats64) : stats64 :=
  foldl add_stats (if nss then base <| rx_packets := 0 |> <| rx_bytes := 0 |> else base) cpus.
