(* ===== verification/WwanUsbSpec.v ===== *)
(** Properties of the USB side of qmi_wwan_q: the modem may wake the host exactly while
    somebody needs it; suspend and resume leave usbnet and the subdriver in the same state;
    the counters count. *)
From S2P Require Import Prelude WwanFixup WwanUsb.
#[local] Open Scope Z_scope.
#[local] Arguments constant {_} _ _ /.

(** ** Power *)

(** Users that come and go, the subdriver and usbnet alike. *)
Definition power_run (ons : list bool) (u : usb_state) : usb_state :=
  foldl (fun u on => (qmi_wwan_manage_power on u).2) u ons.
Definition users (ons : list bool) : Z := foldr (fun on n => (if (on : bool) then 1 else -1) + n) 0 ons.
(** Nobody leaves who has not come. *)
Fixpoint counted (n : Z) (ons : list bool) : Prop :=
  match ons with
  | [] => 0 <= n
  | on :: ons => 0 <= n /\ counted (n + if on then 1 else -1) ons
  end.

Lemma counted_nonneg n ons : counted n ons -> 0 <= n.
Proof. destruct ons; [done|by intros []]. Qed.
Lemma s32_small n : 0 <= n < 2147483648 -> s32 n = n.
Proof. intros Hn. unfold s32. rewrite u32_id by lia. cbv zeta. by rewrite (proj2 (Z.ltb_lt _ _)) by lia. Qed.

(** Remote wake-up is on exactly while the modem has users. *)
Theorem wakeup_while_used ons : forall u,
  us_pmcount u + Z.of_nat (length ons) < 2147483648 -> counted (us_pmcount u) ons ->
  needs_remote_wakeup u = (0 <? us_pmcount u) ->
  us_pmcount (power_run ons u) = us_pmcount u + users ons
  /\ needs_remote_wakeup (power_run ons u) = (0 <? us_pmcount u + users ons).
Proof.
  induction ons as [|on ons IH]; intros u Hb Hc W; cbn [power_run foldl users foldr].
  - by rewrite Z.add_0_r.
  - destruct Hc as [H0 Hc]. pose proof (counted_nonneg _ _ Hc) as H1. cbn [length] in Hb.
    set (u' := (qmi_wwan_manage_power on u).2).
    assert (E : us_pmcount u' = us_pmcount u + (if on then 1 else -1)
      /\ needs_remote_wakeup u' = (0 <? us_pmcount u + (if on then 1 else -1))).
    { unfold u', qmi_wwan_manage_power. destruct u as [? c ? ? ? w ? ? ?]. cbn in *. subst w.
      rewrite s32_small by (destruct on; lia).
      destruct on; cbn [andb negb orb]; rewrite ?orb_false_r; match goal with |- context [?x =? ?y] => destruct (Z.eqb_spec x y) end; cbn; split; try done; symmetry;
        repeat match goal with
        | |- (0 <? ?x) = false => apply Z.ltb_ge; lia
        | |- (0 <? ?x) = true => apply Z.ltb_lt; lia
        | |- (0 <? _) = (0 <? ?x) => rewrite (proj2 (Z.ltb_lt 0 x)) by lia
        end. }
    destruct E as [E1 E2]. destruct (IH u') as [I1 I2]; [rewrite E1; destruct on; lia|by rewrite E1|by rewrite E1, E2|].
    fold (power_run ons u'). rewrite I1, I2, E1. by rewrite <- !Z.add_assoc.
Qed.

(** Both halves awake, or both asleep (a subdriver that is not there sleeps as little as it is
    awake). *)
Definition in_step (asleep : bool) (intf : nat) (u : usb_state) : Prop :=
  usbnet_asleep u = asleep /\ (us_control u = Some intf -> us_subdriver u = true -> subdriver_asleep u = asleep).

(** Suspend and resume are all or nothing.  From both halves awake, suspending that
    succeeds leaves both asleep and suspending that fails leaves both awake, provided that
    usbnet can be woken again; and resuming the other way round: when it fails both are
    asleep again. *)
Theorem suspend_resume_in_step intf a b back u :
  0 <= back ->
  (in_step false intf u -> in_step (0 <=? (qmi_wwan_suspend intf a b back u).1) intf (qmi_wwan_suspend intf a b back u).2)
  /\ (in_step true intf u -> in_step ((usb_resume intf a b back u).1 <? 0) intf (usb_resume intf a b back u).2).
Proof.
  intros Hb. unfold in_step, qmi_wwan_suspend, usb_resume, usbnet_suspend, usbnet_resume, sub_suspend, sub_resume.
  rewrite (proj2 (Z.ltb_ge back 0) Hb). destruct u as [sub ? ctl ? ? ? ua sa ?].
  destruct (Z.ltb_spec a 0), (Z.ltb_spec b 0), sub; cbn; case_bool_decide; cbn;
    repeat match goal with
    | |- context [?x <? 0] => destruct (Z.ltb_spec x 0); cbn
    | |- context [0 <=? ?x] => destruct (Z.leb_spec 0 x); cbn
    end; try lia; intuition congruence.
Qed.

(** ** Counters *)

(** The sum of one counter over base and processors, before it wraps. *)
Definition total (f : stats64 -> Z) (base : stats64) (cpus : list stats64) : Z :=
  f base + foldr (fun c n => f c + n) 0 cpus.

Lemma wrap64_mod a b : wrap64 (wrap64 a + b) = wrap64 (a + b).
Proof. unfold wrap64. by rewrite Zplus_mod_idemp_l. Qed.
Lemma fold_counter (f : stats64 -> Z) cpus :
  (forall s c, f (add_stats s c) = wrap64 (f s + f c)) ->
  forall base, wrap64 (f (foldl add_stats base cpus)) = wrap64 (total f base cpus).
Proof.
  intros Hf. induction cpus as [|c cpus IH]; intros base; unfold total in *; cbn; [by rewrite Z.add_0_r|].
  rewrite IH, Hf, wrap64_mod. f_equal. lia.
Qed.

Lemma sum_insert (f : stats64 -> Z) cpus k c c' :
  cpus !! k = Some c ->
  foldr (fun c n => f c + n) 0 (<[k := c']> cpus) = foldr (fun c n => f c + n) 0 cpus + (f c' - f c).
Proof.
  revert k. induction cpus as [|d cpus IH]; intros [|k] E; try done; [injection E as ->; cbn; lia|].
  change (<[Datatypes.S k := c']> (d :: cpus)) with (d :: <[k := c']> cpus). cbn [foldr]. rewrite (IH k E). lia.
Qed.

(** Counting a packet on any processor adds it to what is reported, up to the width of the
    counters; nothing else is added. *)
Theorem sent_is_counted nss base cpus k c n bytes :
  cpus !! k = Some c ->
  let before := rmnet_vnd_get_stats64 nss base cpus in
  let after := rmnet_vnd_get_stats64 nss base (<[k := rmnet_vnd_update_tx_stats n bytes c]> cpus) in
  wrap64 (tx_packets after) = wrap64 (tx_packets before + n) /\ wrap64 (tx_bytes after) = wrap64 (tx_bytes before + bytes)
  /\ wrap64 (rx_packets after) = wrap64 (rx_packets before) /\ wrap64 (rx_bytes after) = wrap64 (rx_bytes before).
Proof.
  intros E. unfold rmnet_vnd_get_stats64. set (b0 := if nss then _ else base). cbv zeta.
  assert (G : forall f d, (forall s x, f (add_stats s x) = wrap64 (f s + f x)) ->
    wrap64 (f (rmnet_vnd_update_tx_stats n bytes c)) = wrap64 (f c + d) ->
    wrap64 (f (foldl add_stats b0 (<[k := rmnet_vnd_update_tx_stats n bytes c]> cpus))) = wrap64 (f (foldl add_stats b0 cpus) + d)).
  { intros f d Hf Hd. rewrite fold_counter by done. rewrite <- (wrap64_mod (f _)), fold_counter, wrap64_mod by done.
    unfold total. rewrite (sum_insert f cpus k c) by done.
    set (x := f (rmnet_vnd_update_tx_stats n bytes c)) in *. set (r := foldr _ _ cpus).
    replace (f b0 + (r + (x - f c))) with (x + (f b0 + r - f c)) by lia.
    rewrite <- wrap64_mod, Hd, wrap64_mod. f_equal. lia. }
  assert (Z0 : forall a b, a = wrap64 (b + 0) -> a = wrap64 b) by (intros a b ->; by rewrite Z.add_0_r).
  split; [|split; [|split; apply Z0]]; apply G; try (by intros [] []);
    destruct c; cbn; rewrite ?Z.add_0_r; unfold wrap64; by rewrite ?Z.mod_mod.
Qed.

(** ** Witnesses *)
Definition demo_usb : usb_state := mkUsb true 0 (Some 4%nat) (Some 4%nat) false false false false true.
Lemma wakeup_while_used_witness :
  needs_remote_wakeup (power_run [true; true; false] demo_usb) = true
  /\ needs_remote_wakeup (power_run [true; true; false; false] demo_usb) = false.
Proof.
  split.
  - destruct (wakeup_while_used [true; true; false] demo_usb) as [_ ->]; try done; cbn; lia.
  - destruct (wakeup_while_used [true; true; false; false] demo_usb) as [_ ->]; try done; cbn; lia.
Defined.
Lemma suspend_resume_in_step_witness :
  in_step false 4 demo_usb /\ in_step true 4 (qmi_wwan_suspend 4 0 0 0 demo_usb).2
  /\ in_step false 4 (qmi_wwan_suspend 4 0 (-5) 0 demo_usb).2.
Proof.
  split; [by split|]. split.
  - destruct (suspend_resume_in_step 4 0 0 0 demo_usb) as [S _]; [done|]. by apply S.
  - destruct (suspend_resume_in_step 4 0 (-5) 0 demo_usb) as [S _]; [done|]. by apply S.
Defined.
