(* ===== verification/QmapMode.v ===== *)
(** How the connection manager finds out about multiplexed devices (qmap_bridge_mode.c): which
    driver there is, which device and multiplexing id belong to its data connection, and the
    bridge mode, over the interface [NetSys].  The state is the profile and the system. *)
From S2P Require Import Prelude CmTypes QmiRequests AtTok NetSys.
#[local] Open Scope Z_scope.
#[local] Abbreviation B := bytes_of_string.

Definition WDA_DL_DATA_AGG_QMAP_ENABLED : Z := 5.

(** The text after the last slash. *)
Fixpoint after_last_slash (s : cstr) : option cstr :=
  match s with
  | [] => None
  | c :: s' => match after_last_slash s' with Some t => Some t | None => if c =? 47 then Some s' else None end
  end.
(** The walk back from the end of what [readlink] stored leaves the buffer when there is no
    slash, when [readlink] failed, and when the buffer was filled. *)
Definition driver_of (link : option cstr) : option cstr :=
  match link with Some l => if (510 <=? length l)%nat then None else after_last_slash l | None => None end.

(** "%02d" *)
Definition show_two (z : Z) : cstr := let s := show_int z in if (length s <=? 1)%nat then 48 :: s else s.
(** An entry of an array. *)
Definition entry {A} (l : list A) (i : Z) : res A := if i <? 0 then Fault else of_option (l !! Z.to_nat i).
(** Two characters of add_mux as a number; letters are not foreseen. *)
Definition mux_at (buf : list Z) (i : Z) : res Z :=
  x ← entry buf (5 * i + 2); y ← entry buf (5 * i + 3); mret ((x - 48) * 16 + (y - 48)).

Definition qmidev_is_qmiwwan (qmichannel : cstr) : bool := begins (B "/dev/cdc-wdm") qmichannel.

(** The file with the mode: found, absent, or not accessible, which ends the search. *)
Inductive mode_file := ModeFile (f : cstr) | ModeAbsent | ModeStop.

Section Detect.
Context {W : Type} `{NetSys W}.

Definition MP (A : Type) : Type := M (PROFILE_T * W) A.
Definition sysm {A} (m : M W A) : MP A := fun s =>
  match m s.2 with Ok (a, w) => Ok (a, (s.1, w)) | Fault => Fault | OutOfFuel => OutOfFuel end.
Definition the_profile : MP PROFILE_T := fun s => Ok (s.1, s).
Definition set_profile_by (f : PROFILE_T -> PROFILE_T) : MP unit := M_upd (fun s => (f s.1, s.2)).
#[local] Instance MP_ret : MRet MP := @M_ret (PROFILE_T * W).
#[local] Instance MP_bind : MBind MP := @M_bind (PROFILE_T * W).

Definition ql_enable_qmi_wwan_rawip_mode (p : PROFILE_T) : M W Z :=
  if negb (qmidev_is_qmiwwan (qmichannel p)) then mret 0
  else
    let filename := sysfs (usbnet_adapter p) "qmi/rawip" in
    buf ← ql_fread filename 4;
    match buf with
    | [] => mret 0
    | c :: _ =>
        if (c =? 49) || (c =? 89) then mret 0
        else e ← ask (sys_open filename O_create);
             if truth e then mret 1 else _ ← M_upd (sys_write filename [89]); mret 0
    end.

(** [enable] is the buffer of the call. *)
Definition ql_set_driver_bridge_mode (enable : list Z) (p : PROFILE_T) : M W unit :=
  let dev := if truth (qmap_mode p) then qmapnet_adapter p else usbnet_adapter p in
  ql_fwrite (sysfs dev "bridge_mode") (snprintf 16 (show_two (enable_bridge p) ++ [LF]) enable).

Definition ql_get_driver_rmnet_info : MP unit :=
  p ← the_profile;
  r ← sysm (ask (sys_rmnet_info (usbnet_adapter p)));
  set_profile_by (fun p => p <| rmnet_info := default RMNET_INFO_zero r |>).

(** What the driver says about its devices. *)
Definition use_rmnet_info (info : RMNET_INFO) : MP unit :=
  _ ← set_profile_by (fun p => p <| qmap_mode := rn_qmap_mode info |>);
  if truth (rn_qmap_mode info) then
    p ← the_profile;
    let offset_id := if rn_qmap_mode info =? 1 then 0
                     else if muxid p =? 0 then pdp p - 1 else muxid p - 0x81 in
    mux ← (M_lift (entry (rn_mux_id info) offset_id) : MP Z);
    name ← (M_lift (entry (rn_ifname info) offset_id) : MP cstr);
    set_profile_by (fun p => p <| muxid := mux |> <| qmapnet_adapter := take 31 name |>
                     <| qmap_size := ri_rx_urb_size info |> <| qmap_version := ri_qmap_version info |>)
  else mret tt.

(** The three places where the mode may be. *)
Definition first_file (files : list cstr) : M W mode_file :=
  foldr (fun f k => e ← ask (sys_access f);
                    if negb (truth e) then mret (ModeFile f) else if e =? ENOENT then k else mret ModeStop)
        (mret ModeAbsent) files.
Definition mode_files (p : PROFILE_T) : list cstr :=
  [sysfs (usbnet_adapter p) "qmap_mode"; B "/sys/module/" ++ driver_name p ++ B "/parameters/qmap_mode";
   sysfs (usbnet_adapter p) "device/driver/module/parameters/qmap_mode"].

Definition mode_from_file (f : cstr) : MP unit :=
  buf ← sysm (ql_fread f 128);
  match buf with
  | [] => mret tt
  | _ =>
      let mode := atoi (until_nul buf) in
      _ ← set_profile_by (fun p => p <| qmap_mode := mode |>);
      if 1 <? mode then
        set_profile_by (fun p => let mux := if muxid p =? 0 then pdp p + 0x80 else muxid p in
                       p <| muxid := mux |>
                         <| qmapnet_adapter := take 31 (take 16 (usbnet_adapter p) ++ 46 :: show_int (mux - 0x80)) |>)
      else if mode =? 1 then set_profile_by (fun p => p <| muxid := 0x81 |> <| qmapnet_adapter := usbnet_adapter p |>)
      else mret tt
  end.

(** The devices of the driver of Linux itself. *)
Definition qmimux (i : Z) : cstr := B "qmimux" ++ show_int i.
Definition mode_from_add_mux : MP unit :=
  p ← the_profile;
  e ← sysm (ask (sys_access (B "/sys/class/net/" ++ qmimux (pdp p - 1))));
  if truth e then mret tt
  else
    b ← sysm (ql_fread (sysfs (usbnet_adapter p) "qmi/add_mux") 128);
    let buf := b ++ zeros (128 - length b) in
    if (5 <=? length b)%nat then
      let mode := Z.of_nat (length b) / 5 in
      _ ← set_profile_by (fun p => p <| qmap_mode := mode |>);
      if 1 <? mode then
        let i := if muxid p =? 0 then pdp p - 1 else muxid p - 0x81 in
        mux ← (M_lift (mux_at buf i) : MP Z);
        set_profile_by (fun p => p <| qmapnet_adapter := take 31 (qmimux (if muxid p =? 0 then pdp p - 1 else mux - 0x81)) |>
                         <| muxid := mux |>)
      else
        mux ← (M_lift (mux_at buf 0) : MP Z);
        set_profile_by (fun p => p <| muxid := mux |> <| qmapnet_adapter := qmimux 0 |>)
    else mret tt.

(** From the label [_out] on. *)
Definition qmap_size_of (p : PROFILE_T) : M W Z :=
  if qmap_size p =? 0 then
    let f := sysfs (usbnet_adapter p) "qmap_size" in
    e ← ask (sys_access f);
    if truth e then mret (16 * 1024)
    else buf ← ql_fread f 32; mret (match buf with [] => 16 * 1024 | _ => atoi (until_nul buf) end)
  else mret (qmap_size p).
Definition detect_out (enable : list Z) : MP unit :=
  p ← the_profile;
  _ ← M_when (truth (qmap_mode p))
        (size ← sysm (qmap_size_of p);
         set_profile_by (fun p => p <| qmap_size := size |>
                          <| qmap_version := if qmap_version p =? 0 then WDA_DL_DATA_AGG_QMAP_ENABLED else qmap_version p |>));
  p ← the_profile;
  sysm (ql_set_driver_bridge_mode enable p).

Definition ql_qmi_qmap_mode_detect (enable : list Z) : MP unit :=
  p ← the_profile;
  link ← sysm (ask (sys_readlink (sysfs (usbnet_adapter p) "device/driver")));
  driver ← (M_lift (of_option (driver_of link)) : MP cstr);
  _ ← set_profile_by (fun p => p <| driver_name := take 31 driver |>);
  _ ← ql_get_driver_rmnet_info;
  p ← the_profile;
  _ ← (if truth (ri_size (rmnet_info p)) then use_rmnet_info (rmnet_info p)
       else
         f ← sysm (first_file (mode_files p));
         match f with
         | ModeFile f => mode_from_file f
         | ModeAbsent => M_when (qmidev_is_qmiwwan (qmichannel p)) mode_from_add_mux
         | ModeStop => mret tt
         end);
  detect_out enable.

Definition ql_mbim_usb_vlan_mode_detect : MP unit :=
  p ← the_profile;
  let dev := usbnet_adapter p ++ 46 :: show_int (pdp p) in
  e ← sysm (ask (sys_access (B "/sys/class/net/" ++ dev)));
  if truth e then mret tt
  else set_profile_by (fun p => p <| qmap_mode := 4 |> <| muxid := pdp p |> <| qmapnet_adapter := take 31 dev |>).

Definition ql_mbim_mhi_qmap_mode_detect : MP unit :=
  _ ← ql_get_driver_rmnet_info;
  p ← the_profile;
  let info := rmnet_info p in
  if truth (ri_size info) then
    _ ← set_profile_by (fun p => p <| qmap_mode := rn_qmap_mode info |>);
    if truth (rn_qmap_mode info) then
      name ← (M_lift (entry (rn_ifname info) (if rn_qmap_mode info =? 1 then 0 else pdp p - 1)) : MP cstr);
      set_profile_by (fun p => p <| muxid := pdp p |> <| qmapnet_adapter := name |>
                       <| qmap_size := ri_rx_urb_size info |> <| qmap_version := ri_qmap_version info |>)
    else mret tt
  else mret tt.

Definition ql_qmap_mode_detect (enable : list Z) : MP unit :=
  p ← the_profile;
  if software_interface p =? SOFTWARE_MBIM then
    if hardware_interface p =? HARDWARE_USB then ql_mbim_usb_vlan_mode_detect
    else if hardware_interface p =? HARDWARE_PCIE then ql_mbim_mhi_qmap_mode_detect
    else mret tt
  else if software_interface p =? SOFTWARE_QMI then ql_qmi_qmap_mode_detect enable
  else mret tt.
End Detect.
