(* ===== verification/NetWorld.v ===== *)
(** The system of NetSys with the driver qmi_wwan_q in it: the attribute [link_state] is that
    of WwanLink, and the commands that open and close its devices are its steps.  Everything
    else, files, other devices, addresses, DHCP, is any system [R]. *)
From S2P Require Import Prelude CmTypes QmiRequests AtTok NetSys Udhcpc QmapMode Qmap WwanLink.
#[local] Open Scope Z_scope.
#[local] Abbreviation B := bytes_of_string.

(** The driver of one modem, and the rest. *)
Record world (R : Type) := mkWorld { driver : wwan; rest : R }.
Arguments mkWorld {R}.
Arguments driver {R}.
Arguments rest {R}.

(** ** The text of the attribute *)

(** [simple_strtoul] with base 0. *)
Definition simple_strtoul (s : cstr) : Z :=
  match s with
  | 48 :: x :: d :: _ =>
      if ((x =? 120) || (x =? 88)) && bool_decide (is_Some (digit_in 16 d)) then strto_digits 16 0 (drop 2 s)
      else strto_digits 8 0 s
  | 48 :: _ => strto_digits 8 0 s
  | _ => strto_digits 10 0 s
  end.
Definition link_state_show (w : wwan) : cstr := B "0x" ++ show_hex (w_link_state w) ++ [LF].

(** ** Devices *)

(** The multiplexed device of a name. *)
Definition port_named (name : cstr) (w : wwan) : option nat :=
  fst <$> list_find (fun s => bytes_of_string s = name) (ri_ifname (WwanLink.rmnet_info w)).

(** Opening and closing a device, which the network core does unless it is open or closed.
    The core sets IFF_UP when opening succeeds. *)
Definition dev_open_real (usbnet_open : Z) (w : wwan) : Z * wwan :=
  if real_up w then (0, w)
  else let r := qmi_wwan_open usbnet_open w in
       if r.1 =? 0 then (0, r.2 <| real_up := true |>) else r.
Definition dev_close_real (w : wwan) : wwan :=
  if real_up w then w <| real_stopped := true |> <| bh_pending := false |> <| real_up := false |> else w.
Definition dev_open_port (i : nat) (w : wwan) : Z * wwan :=
  match get_port w i with
  | Some p => if p_up p then (0, w)
              else let r := qmap_open i w in
                   if r.1 =? 0 then (0, upd_port i (fun p => p <| p_up := true |>) r.2) else r
  | None => (1, w)
  end.
Definition dev_close_port (i : nat) (w : wwan) : wwan :=
  match get_port w i with
  | Some p => if p_up p then upd_port i (fun p => p <| p_up := false |>) (qmap_stop i w) else w
  | None => w
  end.

(** [RMNET_INFO] as the manager reads it. *)
Definition to_cm_info (i : RMNET_INFO_q) : RMNET_INFO :=
  mkRMNET 164 (WwanLink.ri_rx_urb_size i) 2 4 (WwanLink.ri_qmap_mode i) (WwanLink.ri_qmap_version i)
    (WwanLink.ri_dl_minimum_padding i) (bytes_of_string <$> WwanLink.ri_ifname i) (WwanLink.ri_mux_id i).

Section World.
(** The result of [usbnet_open], and whether setting an address also opens the device, which
    tools differ in. *)
Context {R : Type} `{NetSys R} (usbnet_open : R -> Z) (address_opens : bool).

Definition real_dev (w : world R) : cstr := bytes_of_string (real_name (driver w)).
Definition link_file (w : world R) : cstr := sysfs (real_dev w) "link_state".

(** A command the driver sees. *)
Definition open_dev (dev : cstr) (w : world R) : option (Z * world R) :=
  if decide (dev = real_dev w) then
    let r := dev_open_real (usbnet_open (rest w)) (driver w) in Some (r.1, w <| driver := r.2 |>)
  else match port_named dev (driver w) with
       | Some i => let r := dev_open_port i (driver w) in Some (r.1, w <| driver := r.2 |>)
       | None => None
       end.
Definition close_dev (dev : cstr) (w : world R) : option (world R) :=
  if decide (dev = real_dev w) then Some (w <| driver := dev_close_real (driver w) |>)
  else match port_named dev (driver w) with
       | Some i => Some (w <| driver := dev_close_port i (driver w) |>)
       | None => None
       end.
Definition run_rest (c : shell_command) (w : world R) : Z * world R :=
  let r := sys_run c (rest w) in (r.1, w <| rest := r.2 |>).
Definition opens (dev : cstr) (w : world R) : world R :=
  if address_opens then match open_dev dev w with Some r => r.2 | None => w end else w.
Definition run_command (c : shell_command) (w : world R) : Z * world R :=
  match c with
  | If_up dev => default (run_rest c w) (open_dev dev w)
  | If_down dev => default (run_rest c w) ((fun w => (0, w)) <$> close_dev dev w)
  | If_zero dev | If_addr dev _ _ => run_rest c (opens dev w)
  | _ => run_rest c w
  end.

Definition dev_flags (dev : cstr) (w : world R) : Z :=
  if decide (dev = real_dev w) then b2z (real_up (driver w)) * IFF_UP
  else match port_named dev (driver w) with
       | Some i => match get_port (driver w) i with Some p => b2z (p_up p) * IFF_UP | None => 0 end
       | None => sys_flags dev (rest w)
       end.

#[local] Instance world_net : NetSys (world R) := {|
  sys_access f w := if decide (f = link_file w) then 0 else sys_access f (rest w);
  sys_open f m w := if decide (f = link_file w) then 0 else sys_open f m (rest w);
  sys_read f w := if decide (f = link_file w) then Some (link_state_show (driver w)) else sys_read f (rest w);
  sys_write f t w := if decide (f = link_file w) then w <| driver := link_state_store (simple_strtoul t) (driver w) |>
                     else w <| rest := sys_write f t (rest w) |>;
  sys_readlink f w := sys_readlink f (rest w);
  sys_run := run_command;
  sys_addr dev w := sys_addr dev (rest w);
  sys_flags := dev_flags;
  sys_mtu dev w := sys_mtu dev (rest w);
  sys_set_mtu dev m w := w <| rest := sys_set_mtu dev m (rest w) |>;
  sys_rmnet_info dev w := if decide (dev = real_dev w) then
                            to_cm_info <$> (qmap_ndo_do_ioctl GetInfo 0 (driver w)).1.2
                          else sys_rmnet_info dev (rest w) |}.

(** ** Connection managers *)

(** What a manager does to its data connection: [udhcpc_start] and [udhcpc_stop] with the
    profile it has then.  [stack] is what the buffers start with. *)
Inductive manager_op := Start (p : PROFILE_T) | Stop (p : PROFILE_T).
Definition op_profile (o : manager_op) : PROFILE_T := match o with Start p | Stop p => p end.
Definition manager_step (fuel : nat) (stack : list Z) (o : manager_op) : M (world R) unit :=
  match o with Start p => udhcpc_start fuel stack p | Stop p => udhcpc_stop stack p end.
Fixpoint managers (fuel : nat) (stack : list Z) (os : list manager_op) : M (world R) unit :=
  match os with
  | [] => mret tt
  | o :: os => _ ← manager_step fuel stack o; managers fuel stack os
  end.
End World.
