(* ===== verification/NetWorldSpec.v ===== *)
(** Several connection managers on one modem: what udhcpc.c writes and runs, and what the
    driver qmi_wwan_q makes of it. *)
From stdpp Require Import pretty.
From S2P Require Import Prelude CmTypes QmiRequests AtTok AtTokSpec NetSys Udhcpc UdhcpcSpec QmapMode Qmap WwanFixup WwanLink WwanLinkSpec NetWorld.
#[local] Open Scope Z_scope.
#[local] Arguments constant {_} _ _ /.
#[local] Abbreviation B := bytes_of_string.

(** ** The driver, as the managers see it *)

Definition switch (i : nat) (b : bool) (f : nat -> bool) (j : nat) : bool := if decide (i = j) then b else f j.
(** What never changes after probing. *)
Definition static (w : wwan) : string * Z * bool * RMNET_INFO_q :=
  (real_name w, w_qmap_mode w, w_use_rmnet_usb w, WwanLink.rmnet_info w).
(** The devices the driver has. *)
Definition devices (w : wwan) : nat := Z.to_nat (w_qmap_mode w).

(** The links [l], the devices [u] that are open, the real device open ([r]) and its carrier. *)
Definition state_is (l u : nat -> bool) (r c : bool) (w : wwan) : Prop :=
  1 < w_qmap_mode w <= 4 /\ real_up w = r /\ real_carrier w = c /\ 0 <= w_link_state w
  /\ (forall j, Z.testbit (w_link_state w) (Z.of_nat j) = bool_decide (j < devices w)%nat && l j)
  /\ forall i, (i < devices w)%nat -> exists p, get_port w i = Some p
       /\ truth (p_link_state p) = l i /\ p_up p = u i /\ p_carrier p = u i && l i.
Definition any (n : nat) (f : nat -> bool) : bool := existsb f (seq 0 n).

Lemma any_switch n i f : (i < n)%nat -> any n (switch i true f) = true.
Proof. intros Hi. unfold any. apply existsb_exists. exists i. split; [apply in_seq; lia|]. unfold switch. by rewrite decide_True. Qed.
Lemma any_ext n f g : (forall j, (j < n)%nat -> f j = g j) -> any n f = any n g.
Proof.
  intros E. unfold any. apply eq_true_iff_eq. rewrite !existsb_exists.
  split; intros (j & Hj & L); exists j; (split; [done|]); apply in_seq in Hj; [rewrite <- E|rewrite E]; (done || lia).
Qed.
Lemma any_here n i f : (i < n)%nat -> f i = true -> any n f = true.
Proof. intros Hi E. unfold any. apply existsb_exists. exists i. split; [apply in_seq; lia|done]. Qed.
Lemma any_less n i f : any n f = false -> any n (switch i false f) = false.
Proof.
  intros E. apply not_true_iff_false. intros (j & Hj & L)%existsb_exists. apply in_seq in Hj. unfold switch in L. case_decide; [done|].
  rewrite (any_here n j f) in E by (done || lia). done.
Qed.
Lemma switch_twice i b b' f j : switch i b (switch i b' f) j = switch i b f j.
Proof. unfold switch. by case_decide. Qed.
Lemma switch_same i f j : switch i (f i) f j = f j.
Proof. unfold switch. case_decide; congruence. Qed.

Lemma link_small l u r c w : state_is l u r c w -> 0 <= w_link_state w < 16.
Proof.
  intros (Hm & _ & _ & H0 & Hb & _). split; [done|].
  destruct (Z.eq_dec (w_link_state w) 0) as [->|N]; [done|]. change 16 with (2 ^ 4). apply Z.log2_lt_pow2; [lia|].
  destruct (Z.lt_ge_cases (Z.log2 (w_link_state w)) 4) as [|G]; [done|exfalso].
  pose proof (Z.bit_log2 (w_link_state w) ltac:(lia)) as T. specialize (Hb (Z.to_nat (Z.log2 (w_link_state w)))).
  rewrite Z2Nat.id, T in Hb by lia. rewrite bool_decide_false in Hb by (unfold devices; lia). done.
Qed.
Lemma any_bits n link l :
  0 <= link -> (forall j, Z.testbit link (Z.of_nat j) = bool_decide (j < n)%nat && l j) -> truth link = any n l.
Proof.
  intros H0 Hb. unfold any. apply eq_true_iff_eq. rewrite existsb_exists. unfold truth. split.
  - intros N%negb_true_iff%Z.eqb_neq. pose proof (Z.bit_log2 link ltac:(lia)) as T.
    pose proof (Z.log2_nonneg link). exists (Z.to_nat (Z.log2 link)).
    specialize (Hb (Z.to_nat (Z.log2 link))). rewrite Z2Nat.id, T in Hb by done.
    symmetry in Hb. apply andb_true_iff in Hb as [B1%bool_decide_eq_true B2]. split; [|done]. apply in_seq. lia.
  - intros (j & Hj%in_seq & L). apply negb_true_iff, Z.eqb_neq. intros Z. specialize (Hb j).
    rewrite Z, Z.bits_0, bool_decide_true, L in Hb by lia. done.
Qed.

Lemma store_numbers i on : (i < 4)%nat ->
  let v := (if on : bool then 0 else 0x80) + (Z.of_nat i + 1) in
  u32 v = v /\ u32 (Z.land v 0x7F - 1) = Z.of_nat i /\ truth (Z.land v 0x80) = negb on.
Proof. intros Hi. do 4 (destruct i as [|i]; [by destruct on|]). lia. Qed.
Definition link_with (on : bool) (link : Z) (i : nat) : Z :=
  if on then Z.lor link (Z.shiftl 1 (Z.of_nat i)) else Z.ldiff link (Z.shiftl 1 (Z.of_nat i)).
Lemma link_with_bit on link i j :
  Z.testbit (link_with on link i) (Z.of_nat j) = if decide (i = j) then on else Z.testbit link (Z.of_nat j).
Proof.
  unfold link_with. case_decide as D.
  - subst j. destruct on; rewrite ?Z.lor_spec, ?Z.ldiff_spec, Z.shiftl_1_l, Z.pow2_bits_true by lia;
      [apply orb_true_r|apply andb_false_r].
  - pose proof (bit_kept (negb on) link (Z.of_nat i) (Z.of_nat j)) as K. destruct on; apply K; lia.
Qed.
Lemma link_with_nonneg on link i : 0 <= link -> 0 <= link_with on link i.
Proof.
  intros H. pose proof (Z.shiftl_nonneg 1 (Z.of_nat i)). unfold link_with.
  destruct on; [apply Z.lor_nonneg; lia|apply Z.ldiff_nonneg; lia].
Qed.

(** A state depends on its links and open devices pointwise. *)
Lemma state_ext l u r c w l' u' :
  (forall j, (j < devices w)%nat -> l' j = l j /\ u' j = u j) -> state_is l u r c w -> state_is l' u' r c w.
Proof.
  intros E (Hm & Hr & Hc & H0 & Hb & Hp). split_and!; try done; try lia.
  - intros j. rewrite Hb. destruct (decide (j < devices w)%nat) as [L|L]; [by rewrite (proj1 (E j L))|].
    by rewrite bool_decide_false.
  - intros i Hi. destruct (E i Hi) as [-> ->]. by apply Hp.
Qed.

(** Device [i] is changed, and fields of the real device. *)
Lemma state_port l u r c w l' u' r' c' i f w' :
  state_is l u r c w -> (i < devices w)%nat ->
  w_slots w' = alter (on_port f) i (w_slots w) -> w_qmap_mode w' = w_qmap_mode w -> real_up w' = r' -> real_carrier w' = c' ->
  0 <= w_link_state w' ->
  (forall j, Z.testbit (w_link_state w') (Z.of_nat j) = bool_decide (j < devices w)%nat && l' j) ->
  (forall j, j <> i -> l' j = l j /\ u' j = u j) ->
  (forall p, truth (p_link_state p) = l i -> p_up p = u i -> p_carrier p = u i && l i ->
     truth (p_link_state (f p)) = l' i /\ p_up (f p) = u' i /\ p_carrier (f p) = u' i && l' i) ->
  state_is l' u' r' c' w'.
Proof.
  intros (Hm & _ & _ & _ & _ & Hp) Hi Hs Hq Hr Hc H0 Hb Hj Hf. unfold state_is, devices in *. rewrite Hq.
  split_and!; try done; try lia. intros j Hjm. destruct (Hp j Hjm) as (p & G & P1 & P2 & P3).
  assert (E : get_port w' j = if decide (i = j) then Some (f p) else Some p).
  { unfold get_port in *. rewrite Hs. destruct (w_slots w !! j) as [[| |q]|] eqn:S; try done. injection G as ->.
    case_decide as D; [subst j; by rewrite list_lookup_alter_eq, S|by rewrite list_lookup_alter_ne, S]. }
  rewrite E. case_decide as D.
  - subst j. exists (f p). split; [done|]. by apply Hf.
  - exists p. destruct (Hj j) as [-> ->]; [congruence|]. done.
Qed.

(** *** A store into link_state, with the numbers that the manager of device [i] writes *)
Lemma store_state l u r c w (i : nat) on :
  state_is l u r c w -> (i < devices w)%nat ->
  let w' := link_state_store ((if on : bool then 0 else 0x80) + (Z.of_nat i + 1)) w in
  state_is (switch i on l) u r (if r && xorb (l i) on then any (devices w) (switch i on l) else c) w' /\ static w' = static w.
Proof.
  intros H Hi. assert (Hi4 : (i < 4)%nat) by (destruct H; unfold devices in Hi; lia).
  destruct (store_numbers i on Hi4) as (V1 & V2 & V3). cbv zeta. set (v := _ + _) in *. unfold link_state_store. rewrite V1, V2, V3.
  pose proof H as (Hm & Hr & Hc & H0 & Hb & Hp).
  rewrite (proj2 (Z.ltb_lt 1 (w_qmap_mode w))), (proj2 (Z.leb_gt _ (Z.of_nat i))), (proj2 (Z.eqb_neq _ 1)) by (unfold devices in Hi; lia).
  cbn [andb negb]. set (link := if negb on then _ else _).
  assert (El : link = link_with on (w_link_state w) i) by (unfold link, link_with; by destruct on).
  assert (Hl : forall j, Z.testbit link (Z.of_nat j) = bool_decide (j < devices w)%nat && switch i on l j).
  { intros j. rewrite El, link_with_bit. unfold switch. case_decide as D; [|apply Hb]. subst j. by rewrite bool_decide_true. }
  assert (Hn : 0 <= link) by (rewrite El; by apply link_with_nonneg). clearbody link. clear El V1 V2 V3 v.
  destruct (Z.eqb_spec (w_link_state w) link) as [E|N].
  { assert (Eon : l i = on).
    { specialize (Hl i). rewrite <- E, Hb, bool_decide_true in Hl by done. unfold switch in Hl. by rewrite decide_True in Hl. }
    rewrite Eon, xorb_nilpotent, andb_false_r. rewrite <- E. split; [|by destruct w].
    apply (state_ext l u).
    - intros j _. split; [|done]. unfold switch. case_decide; congruence.
    - by destruct w. }
  assert (Eon : xorb (l i) on = true).
  { destruct (xorb (l i) on) eqn:X; [done|]. apply xorb_eq in X. exfalso. apply N, Z.bits_inj'. intros n Hn'.
    rewrite <- (Z2Nat.id n) by done. rewrite Hl, Hb. unfold switch. case_decide; congruence. }
  rewrite Eon, andb_true_r.
  assert (Et : truth (Z.land link (Z.shiftl 1 (Z.of_nat i))) = on).
  { rewrite truth_bit, Hl, bool_decide_true by (done || lia). unfold switch. by rewrite decide_True. }
  rewrite Et, Nat2Z.id.
  assert (S : forall w' c', w_slots w' = alter (on_port (link_port on (real_stopped w))) i (w_slots w) ->
            w_qmap_mode w' = w_qmap_mode w -> real_up w' = r -> real_carrier w' = c' -> w_link_state w' = link ->
            state_is (switch i on l) u r c' w').
  { intros w' c' E1 E2 E3 E4 E5. apply (state_port l u r c w _ _ _ _ i (link_port on (real_stopped w))); try done.
    - by rewrite E5.
    - by rewrite E5.
    - intros j Nj. split; [|done]. unfold switch. by rewrite decide_False by congruence.
    - intros p P1 P2 P3. unfold switch. rewrite decide_True by done.
      rewrite <- P2 in *. destruct p as [? ? ? ? ? ? [] ? []], on, (real_stopped w); cbn in *; auto. }
  rewrite <- (any_bits _ link _ Hn Hl).
  destruct w as [wn wnet wup wca wst wbh wrx wurb wmode wsize wver wlink wrm wtx wbr wsl winf]. cbn in Hr, Hc. subst wup wca.
  split; [apply S|]; by destruct r, (truth link).
Qed.

(** *** Opening and closing *)
Lemma open_real_state l u r c w : state_is l u r c w ->
  exists w', dev_open_real 0 w = (0, w') /\ state_is l u true c w' /\ static w' = static w.
Proof.
  intros H. unfold dev_open_real. destruct (real_up w) eqn:E.
  { exists w. destruct H as (H1 & H2 & H3). split; [done|]. split; [|done]. split; [done|]. by split. }
  destruct w as [wn wnet wup wca wst wbh wrx wurb wmode wsize wver wlink wrm wtx wbr wsl winf].
  pose proof H as (Hm & _). cbn in *. unfold qmi_wwan_open. cbn. rewrite (proj2 (Z.eqb_neq wmode 1)) by lia. cbn.
  eexists. split; [reflexivity|]. split; [|done]. destruct H as (H1 & H2 & H3). split; [done|]. by split.
Qed.
Lemma close_real_state l u r c w : state_is l u r c w ->
  state_is l u false c (dev_close_real w) /\ static (dev_close_real w) = static w.
Proof.
  intros H. unfold dev_close_real. destruct (real_up w) eqn:E; [split; [|done]; destruct H as (? & ? & ?); by destruct w|].
  split; [|done]. destruct H as (? & ? & ?). by split.
Qed.

Lemma alter_twice f g i (ss : list netdev_slot) :
  alter (on_port f) i (alter (on_port g) i ss) = alter (on_port (f ∘ g)) i ss.
Proof.
  apply list_eq. intros j. destruct (decide (i = j)) as [->|N].
  - rewrite !list_lookup_alter_eq. by destruct (ss !! j) as [[]|].
  - by rewrite !list_lookup_alter_ne.
Qed.
Lemma open_port_state l u c w i : state_is l u true c w -> (i < devices w)%nat ->
  exists w', dev_open_port i w = (0, w') /\ state_is l (switch i true u) true (c || (negb (u i) && l i)) w' /\ static w' = static w.
Proof.
  intros H Hi. pose proof H as (Hm & Hr & Hc & H0 & Hb & Hp). destruct (Hp i Hi) as (p & G & P1 & P2 & P3).
  unfold dev_open_port. rewrite G, P2. destruct (u i) eqn:Ui; cbn [negb andb].
  { rewrite orb_false_r. exists w. split_and!; try done. apply (state_ext l u); [|done]. intros j _.
    split; [done|]. unfold switch. case_decide; congruence. }
  assert (Hu : forall j, j <> i -> l j = l j /\ switch i true u j = u j).
  { intros j N. split; [done|]. unfold switch. by rewrite decide_False by congruence. }
  unfold qmap_open. rewrite G, Hr, P1. cbn [negb]. destruct (l i) eqn:Li; cbn [fst snd]; rewrite Z.eqb_refl;
    (eexists; split; [reflexivity|]; split; [|done]).
  - rewrite orb_true_r.
    eapply (state_port l u true c w _ _ _ _ i
      ((fun p => p <| p_up := true |>) ∘ (fun p => let p := netif_carrier true p in
         if p_stopped p && negb (real_stopped w) then p <| p_stopped := false |> else p))); try done.
    + unfold upd_port. cbn. apply alter_twice.
    + intros q Q1 Q2 Q3. unfold switch. rewrite decide_True by done. rewrite Li in Q1 |- *.
      destruct q as [? ? ? ? ? ? [] ? []], (real_stopped w); cbn in *; auto.
  - rewrite orb_false_r. apply (state_port l u true c w _ _ _ _ i (fun p => p <| p_up := true |>)); try done.
    intros q Q1 Q2 Q3. unfold switch. rewrite decide_True by done. rewrite Li, Ui in *. by destruct q.
Qed.
Lemma close_port_state l u r c w i : state_is l u r c w -> (i < devices w)%nat ->
  state_is l (switch i false u) r c (dev_close_port i w) /\ static (dev_close_port i w) = static w.
Proof.
  intros H Hi. pose proof H as (Hm & Hr & Hc & H0 & Hb & Hp). destruct (Hp i Hi) as (p & G & P1 & P2 & P3).
  unfold dev_close_port. rewrite G, P2. destruct (u i) eqn:Ui.
  - split; [|done].
    apply (state_port l u r c w _ _ _ _ i ((fun p => p <| p_up := false |>) ∘ netif_carrier false)); try done.
    + unfold upd_port, qmap_stop, upd_port. cbn. apply alter_twice.
    + intros j N. split; [done|]. unfold switch. by rewrite decide_False by congruence.
    + intros q Q1 Q2 Q3. unfold switch. rewrite decide_True by done. by destruct q.
  - split; [|done]. apply (state_ext l u); [|done]. intros j _. split; [done|]. unfold switch. case_decide; congruence.
Qed.

(** ** The system around the driver *)

(** The end of a path tells the attribute [link_state] from other files. *)
Definition tail2 (f : cstr) : cstr := take 2 (reverse f).
Lemma tail2_app pre s : (2 <= length s)%nat -> tail2 (pre ++ s) = tail2 s.
Proof. intros H. unfold tail2. rewrite reverse_app, take_app_le; [done|]. by rewrite length_reverse. Qed.
Lemma tail2_sysfs dev attr : (2 <= length (B attr))%nat -> tail2 (sysfs dev attr) = tail2 (B attr).
Proof.
  intros H. unfold sysfs. rewrite app_assoc. change (47 :: B attr) with ([47] ++ B attr). rewrite app_assoc. by apply tail2_app.
Qed.
Lemma tail2_module d name : (2 <= length (B name))%nat -> tail2 (module_parameter d name) = tail2 (B name).
Proof. intros H. unfold module_parameter. rewrite !app_assoc. by apply tail2_app. Qed.

Section World.
Context {R : Type} `{NetSys R} (usbnet_open : R -> Z) (address_opens : bool).
(** The modem can be opened, and the tools of iproute2 are there. *)
Hypothesis open_ok : forall r, usbnet_open r = 0.
Hypothesis ip_there : forall r, sys_access (B "/sbin/ip") r = 0.
#[local] Instance wn : NetSys (world R) := world_net usbnet_open address_opens.

Lemma not_link f (w : world R) : tail2 f <> tail2 (B "link_state") -> f <> link_file w.
Proof. intros N ->. apply N. apply tail2_sysfs. cbn. lia. Qed.

Lemma world_write f t (w : world R) : f <> link_file w -> sys_write f t w = w <| rest := sys_write f t (rest w) |>.
Proof. intros N. unfold sys_write, wn, world_net at 1. by rewrite decide_False. Qed.
Lemma world_access f (w : world R) : f <> link_file w -> sys_access f w = sys_access f (rest w).
Proof. intros N. unfold sys_access, wn, world_net at 1. by rewrite decide_False. Qed.

(** A routine that ends and leaves the driver as [I] says. *)
Definition Leaves (I : wwan -> Prop) {A} (m : M (world R) A) : Prop :=
  forall w, I (driver w) -> exists a w', m w = Ok (a, w') /\ I (driver w').

Lemma leaves_ret I {A} (a : A) : Leaves I (mret a).
Proof. intros w Hw. by exists a, w. Qed.
Lemma leaves_bind I {A C} (m : M (world R) A) (f : A -> M (world R) C) :
  Leaves I m -> (forall a, Leaves I (f a)) -> Leaves I (m ≫= f).
Proof.
  intros Hm Hf w Hw. destruct (Hm w Hw) as (a & w1 & E & H1). destruct (Hf a w1 H1) as (c & w2 & E2 & H2).
  exists c, w2. split; [|done]. unfold mbind, M_bind. by rewrite E.
Qed.
Lemma leaves_if I (b : bool) {A} (m1 m2 : M (world R) A) : Leaves I m1 -> Leaves I m2 -> Leaves I (if b then m1 else m2).
Proof. by destruct b. Qed.
Lemma leaves_when I b (m : M (world R) unit) : Leaves I m -> Leaves I (M_when b m).
Proof. intros Hm. destruct b; [done|apply leaves_ret]. Qed.
Lemma leaves_ask I {A} (f : world R -> A) : Leaves I (ask f).
Proof. intros w Hw. by eexists _, w. Qed.
Lemma leaves_write I f t : tail2 f <> tail2 (B "link_state") -> Leaves I (M_upd (sys_write f t)).
Proof.
  intros N w Hw. eexists tt, _. split; [reflexivity|]. by rewrite world_write by (by apply not_link).
Qed.
Lemma leaves_mtu I dev m : Leaves I (M_upd (sys_set_mtu dev m)).
Proof. intros w Hw. by eexists tt, _. Qed.
(** Commands the driver does not see. *)
Definition unseen (c : shell_command) : bool :=
  match c with If_up _ | If_down _ | If_zero _ | If_addr _ _ _ => false | _ => true end.
Lemma leaves_run I c : unseen c = true -> Leaves I (ql_system c).
Proof.
  intros Hc w Hw. exists (sys_run c w).1, (sys_run c w).2. split; [unfold ql_system; by destruct (sys_run c w)|].
  replace (sys_run c w) with (run_rest c w) by (by destruct c). done.
Qed.

Ltac leaves :=
  repeat match goal with
         | |- Leaves _ (_ ≫= _) => apply leaves_bind; [|intros ?]
         | |- Leaves _ (mret _) => apply leaves_ret
         | |- Leaves _ (if _ then _ else _) => apply leaves_if
         | |- Leaves _ (M_when _ _) => apply leaves_when
         | |- Leaves _ (ask _) => apply leaves_ask
         | |- Leaves _ (M_upd (sys_set_mtu _ _)) => apply leaves_mtu
         | |- Leaves _ (ql_system _) => by apply leaves_run
         | |- Leaves _ (let '(_, _) := ?e in _) => destruct e
         | |- Leaves _ (match ?e with _ => _ end) => destruct e
         end.

Lemma leaves_resolv I iptype dev d1 d2 : Leaves I (update_resolv_conf iptype dev d1 d2).
Proof. unfold update_resolv_conf. leaves. by apply leaves_write. Qed.
Lemma leaves_v4 I fuel dev ip gw prefix : Leaves I (update_ipv4_address fuel dev ip gw prefix).
Proof.
  intros w Hw. rewrite ip_commands.
  - eexists tt, _. split; [reflexivity|]. exact Hw.
  - rewrite world_access by (by apply not_link). apply ip_there.
Qed.
Lemma leaves_v6 I dev ip prefix : Leaves I (update_ipv6_address dev ip prefix).
Proof. unfold update_ipv6_address. leaves. Qed.
Lemma leaves_by_qmi I fuel dev v4 v6 : Leaves I (update_ip_address_by_qmi fuel dev v4 v6).
Proof.
  unfold update_ip_address_by_qmi, update_ipv4_by_qmi, update_ipv6_by_qmi.
  leaves; auto using leaves_v4, leaves_v6, leaves_resolv.
Qed.
Lemma leaves_set_ipv6 I fuel p dev : Leaves I (set_ipv6 fuel p dev).
Proof. unfold set_ipv6. leaves; auto using leaves_by_qmi, leaves_resolv. Qed.
(** The file that bridge mode writes is never that of the link. *)
Lemma bridge_files_cases p (w : world R) : exists o, bridge_files p w = Ok (o, w)
  /\ forall m f, o = Some (m, f) -> tail2 f <> tail2 (B "link_state").
Proof.
  unfold bridge_files, mbind, M_bind, ask. case_match; [|case_match]; try case_match;
    (eexists; split; [reflexivity|]; intros m f [=]; subst; rewrite ?tail2_sysfs, ?tail2_module by (cbn; lia); done).
Qed.
Lemma leaves_bridge I p : Leaves I (ql_bridge_mode_detect p).
Proof.
  intros w Hw. unfold ql_bridge_mode_detect. destruct (bridge_files_cases p w) as (o & E & Ho).
  unfold mbind at 1, M_bind at 1. rewrite E. destruct o as [[m f]|]; [|by eexists _, _].
  specialize (Ho m f eq_refl). clear E. revert w Hw.
  match goal with |- forall w, _ -> exists a w', ?m w = _ /\ _ => change (Leaves I m) end.
  unfold ql_fread, ql_fwrite. leaves. by apply leaves_write.
Qed.
Lemma leaves_size I p : Leaves I (qmap_size_of p).
Proof. unfold qmap_size_of, ql_fread. leaves. Qed.
Lemma leaves_bridge_mode I enable p : Leaves I (ql_set_driver_bridge_mode enable p).
Proof. unfold ql_set_driver_bridge_mode, ql_fwrite. leaves. apply leaves_write. by rewrite tail2_sysfs by (cbn; lia). Qed.

(** *** Opening and closing by commands *)

Definition at_state (l u : nat -> bool) (r c : bool) (d : wwan) (w : world R) : Prop :=
  state_is l u r c (driver w) /\ static (driver w) = static d.
(** The name of device [i], which is not that of the real one. *)
Definition named (d : wwan) (dev : cstr) (i : nat) : Prop :=
  dev <> bytes_of_string (real_name d) /\ port_named dev d = Some i /\ (i < devices d)%nat.

Lemma static_devices w d : static w = static d -> devices w = devices d.
Proof. intros [=]. unfold devices. congruence. Qed.
Lemma static_named w d dev i : static w = static d -> named d dev i -> named w dev i.
Proof. intros E (N1 & N2 & N3). pose proof (static_devices w d E) as D. injection E as E1 E2 E3 E4. unfold named, port_named. by rewrite E1, E4, D. Qed.

Lemma run_open_port (w : world R) dev i : named (driver w) dev i ->
  sys_run (If_up dev) w = ((dev_open_port i (driver w)).1, w <| driver := (dev_open_port i (driver w)).2 |>)
  /\ (opens usbnet_open address_opens dev w) = if address_opens then w <| driver := (dev_open_port i (driver w)).2 |> else w.
Proof.
  intros (N1 & N2 & _). unfold opens. unfold sys_run, wn, world_net at 1. cbn [run_command]. unfold open_dev, real_dev.
  by rewrite decide_False, N2 by done.
Qed.
Lemma run_close_port (w : world R) dev i : named (driver w) dev i ->
  sys_run (If_down dev) w = (0, w <| driver := dev_close_port i (driver w) |>).
Proof.
  intros (N1 & N2 & _). unfold sys_run, wn, world_net at 1. cbn [run_command]. unfold close_dev, real_dev.
  by rewrite decide_False, N2 by done.
Qed.
Lemma run_open_real (w : world R) : sys_run (If_up (real_dev w)) w
  = ((dev_open_real 0 (driver w)).1, w <| driver := (dev_open_real 0 (driver w)).2 |>).
Proof.
  unfold sys_run, wn, world_net at 1. cbn [run_command]. unfold open_dev. by rewrite decide_True, open_ok by done.
Qed.
Lemma run_close_real (w : world R) : sys_run (If_down (real_dev w)) w = (0, w <| driver := dev_close_real (driver w) |>).
Proof. unfold sys_run, wn, world_net at 1. cbn [run_command]. unfold close_dev. by rewrite decide_True by done. Qed.

Lemma up_port l u c d w dev i : at_state l u true c d w -> named d dev i ->
  at_state l (switch i true u) true (c || (negb (u i) && l i)) d (sys_run (If_up dev) w).2.
Proof.
  intros [Hs E] N. apply (static_named _ _ _ _ E) in N as N'. rewrite (proj1 (run_open_port w dev i N')).
  destruct (open_port_state l u c (driver w) i Hs) as (w' & O & Hs' & E'); [apply N'|]. rewrite O. split; [done|]. cbn. congruence.
Qed.
Lemma down_port l u r c d w dev i : at_state l u r c d w -> named d dev i ->
  at_state l (switch i false u) r c d (sys_run (If_down dev) w).2.
Proof.
  intros [Hs E] N. apply (static_named _ _ _ _ E) in N as N'. rewrite (run_close_port w dev i N').
  destruct (close_port_state l u r c (driver w) i Hs) as [Hs' E']; [apply N'|]. split; [done|]. cbn. congruence.
Qed.
Lemma at_real_dev l u r c d w : at_state l u r c d w -> real_dev w = bytes_of_string (real_name d).
Proof. intros [_ [=]]. unfold real_dev. congruence. Qed.
Lemma up_real l u r c d w : at_state l u r c d w ->
  at_state l u true c d (sys_run (If_up (bytes_of_string (real_name d))) w).2.
Proof.
  intros Ha. rewrite <- (at_real_dev _ _ _ _ _ _ Ha), run_open_real. destruct Ha as [Hs E].
  destruct (open_real_state l u r c (driver w) Hs) as (w' & O & Hs' & E'). rewrite O. split; [done|]. cbn. congruence.
Qed.
Lemma down_real l u r c d w : at_state l u r c d w ->
  at_state l u false c d (sys_run (If_down (bytes_of_string (real_name d))) w).2.
Proof.
  intros Ha. rewrite <- (at_real_dev _ _ _ _ _ _ Ha), run_close_real. destruct Ha as [Hs E].
  destruct (close_real_state l u r c (driver w) Hs) as [Hs' E']. split; [done|]. cbn. congruence.
Qed.
(** Setting an address may open the device, if the real one is open; its link is off. *)
Lemma zero_port l u r c d w dev i : at_state l u r c d w -> named d dev i -> l i = false ->
  exists b, at_state l (switch i b u) r c d (sys_run (If_zero dev) w).2.
Proof.
  intros [Hs E] N Li. apply (static_named _ _ _ _ E) in N as N'.
  assert (Z : sys_run (If_zero dev) w = run_rest (If_zero dev) (opens usbnet_open address_opens dev w)) by done.
  rewrite Z, (proj2 (run_open_port w dev i N')).
  assert (Same : at_state l (switch i (u i) u) r c d w).
  { split; [|done]. apply (state_ext l u); [|done]. intros j _. split; [done|]. unfold switch. case_decide; congruence. }
  destruct address_opens; [|by exists (u i)]. destruct r.
  - destruct (open_port_state l u c (driver w) i Hs) as (w' & O & Hs' & E'); [apply N'|].
    rewrite Li, andb_false_r, orb_false_r in Hs'. exists true. rewrite O. split; [done|]. cbn. congruence.
  - exists (u i). replace (dev_open_port i (driver w)).2 with (driver w); [by destruct w|].
    pose proof Hs as (_ & Hr & _ & _ & _ & Hp). destruct (Hp i) as (p & G & P1 & P2 & P3); [apply N'|].
    unfold dev_open_port, qmap_open. rewrite G, Hr. by destruct (p_up p).
Qed.

(** *** The link of a device *)

(** The profile of the manager of device [i]: the real device, the name and the id of the
    multiplexed one. *)
Definition manages (d : wwan) (i : nat) (p : PROFILE_T) : Prop :=
  usbnet_adapter p = bytes_of_string (real_name d) /\ named d (qmapnet_adapter p) i /\ qmapnet_adapter p <> []
  /\ CmTypes.qmap_mode p = w_qmap_mode d /\ muxid p = 0x81 + Z.of_nat i.
Definition link_text (p : PROFILE_T) (on : bool) (stack : list Z) : list Z :=
  snprintf 128 (show_int ((if on then 0x00 else 0x80) + Z.land (muxid p) 0x7F) ++ [LF])
    (snprintf 128 (sysfs (usbnet_adapter p) "link_state") stack).

(** The driver reads the number that the manager wrote. *)
Lemma link_text_parsed p i on stack : (i < 4)%nat -> muxid p = 0x81 + Z.of_nat i ->
  simple_strtoul (link_text p on stack) = (if on then 0 else 0x80) + (Z.of_nat i + 1).
Proof.
  intros Hi E. unfold link_text. rewrite E. generalize (snprintf 128 (sysfs (usbnet_adapter p) "link_state") stack). intros buf.
  do 4 (destruct i as [|i]; [by destruct on|]). lia.
Qed.
Lemma link_written l u r c d w i p on stack : at_state l u r c d w -> manages d i p ->
  at_state (switch i on l) u r (if r && xorb (l i) on then any (devices d) (switch i on l) else c) d
    (sys_write (sysfs (usbnet_adapter p) "link_state") (link_text p on stack) w).
Proof.
  intros Ha (E1 & (N1 & N2 & Hi) & _ & _ & Em). pose proof (at_real_dev _ _ _ _ _ _ Ha) as Er. destruct Ha as [Hs E].
  pose proof (static_devices _ _ E) as D. unfold sys_write, wn, world_net at 1.
  rewrite decide_True by (unfold link_file; congruence).
  destruct (store_state l u r c (driver w) i on Hs) as [Hs' E']; [lia|].
  rewrite (link_text_parsed p i) by (done || (destruct Hs; unfold devices in *; lia)).
  rewrite D in Hs'. split; [exact Hs'|]. cbn. congruence.
Qed.

(** What the manager reads back says whether every link is off. *)
Lemma shown_link link buf : 0 <= link < 16 ->
  let b := take 128 (B "0x" ++ show_hex link ++ [LF]) in
  (1 <? Z.of_nat (length b)) = true
  /\ begins (B "0" ++ [LF]) (small_letter <$> b ++ drop (length b) buf)
     || begins (B "0x0" ++ [LF]) (small_letter <$> b ++ drop (length b) buf) = negb (truth link).
Proof.
  intros Hl. assert (Hi : exists i : nat, link = Z.of_nat i /\ (i < 16)%nat) by (exists (Z.to_nat link); lia).
  destruct Hi as (i & -> & Hi). do 16 (destruct i as [|i]; [by split|]). lia.
Qed.

Lemma set_link_on l u r c d w i p stack : at_state l u r c d w -> manages d i p ->
  exists w', ql_set_driver_link_state p stack 1 w = Ok (tt, w')
    /\ at_state (switch i true l) u r (if r && negb (l i) then any (devices d) (switch i true l) else c) d w'.
Proof.
  intros Ha Hp. pose proof (link_written _ _ _ _ _ _ _ _ true stack Ha Hp) as L. rewrite xorb_true_r in L.
  destruct Hp as (E1 & _ & _ & Eq & _). unfold ql_set_driver_link_state. rewrite ask_bind.
  replace (sys_open _ _ w) with 0.
  2: { unfold sys_open, wn, world_net at 1. rewrite decide_True; [done|]. unfold link_file. rewrite E1. f_equal. symmetry. by eapply at_real_dev. }
  change (truth 0) with false. cbn iota. rewrite Eq, (proj2 (Z.leb_gt _ 1)) by (destruct Ha as [[? _] [=]]; lia).
  change (1 =? 0) with false. cbn [andb]. eexists. split; [reflexivity|]. exact L.
Qed.
Lemma set_link_off l u r c d w i p stack : at_state l u r c d w -> manages d i p ->
  exists w', ql_set_driver_link_state p stack 0 w = Ok (tt, w')
    /\ let l' := switch i false l in
       at_state l' u (r && any (devices d) l') (if r && l i then any (devices d) l' else c) d w'.
Proof.
  intros Ha Hp. pose proof (link_written _ _ _ _ _ _ _ _ false stack Ha Hp) as L. rewrite xorb_false_r in L.
  destruct Hp as (E1 & (N1 & _) & N2 & Eq & _). unfold ql_set_driver_link_state. rewrite ask_bind.
  assert (Ef : forall w', at_state (switch i false l) u r (if r && l i then any (devices d) (switch i false l) else c) d w' ->
            sysfs (usbnet_adapter p) "link_state" = link_file w').
  { intros w' Hw'. unfold link_file. by rewrite E1, (at_real_dev _ _ _ _ _ _ Hw'). }
  replace (sys_open _ _ w) with 0.
  2: { unfold sys_open, wn, world_net at 1. rewrite decide_True; [done|]. unfold link_file. rewrite E1. f_equal. symmetry. by eapply at_real_dev. }
  change (truth 0) with false. cbn iota. rewrite Eq, (proj2 (Z.leb_gt _ 1)) by (destruct Ha as [[? _] [=]]; lia).
  fold (link_text p false stack). set (w1 := sys_write _ _ w) in *.
  rewrite (M_bind_ok _ _ w tt w1) by done. change (0 =? 0) with true.
  assert (nonnull (qmapnet_adapter p) = true) as -> by (by destruct (qmapnet_adapter p)).
  rewrite bool_decide_false by congruence. cbn [andb negb]. rewrite ask_bind.
  replace (sys_read _ w1) with (Some (link_state_show (driver w1))).
  2: { unfold sys_read, wn, world_net at 1. by rewrite decide_True by (by apply Ef). }
  cbn zeta iota. destruct (shown_link (w_link_state (driver w1)) (link_text p false stack)) as [S1 S2].
  { destruct L as [L _]. by eapply link_small. }
  unfold link_state_show. rewrite S1, S2. cbn [andb].
  assert (Et : truth (w_link_state (driver w1)) = any (devices d) (switch i false l)).
  { destruct L as [L E]. rewrite <- (static_devices _ _ E). destruct L as (_ & _ & _ & H0 & Hb & _). by apply any_bits. }
  rewrite Et. destruct (any (devices d) (switch i false l)); cbn [negb].
  - exists w1. split; [done|]. by rewrite andb_true_r.
  - eexists. split; [by rewrite sys_bind|]. rewrite andb_false_r, E1. by apply (down_real _ _ r).
Qed.

(** ** Start and stop *)

(** Exactly the devices of [run] have their link and are open, with carriers, and the real
    device is open when there is one. *)
Definition shared (run : nat -> bool) (d : wwan) (w : world R) : Prop :=
  at_state run run (any (devices d) run) (any (devices d) run) d w.
Lemma at_state_ext l u r c d w l' u' r' c' :
  (forall j, l' j = l j) -> (forall j, u' j = u j) -> r' = r -> c' = c -> at_state l u r c d w -> at_state l' u' r' c' d w.
Proof. intros E1 E2 -> -> [Hs E]. split; [|done]. apply (state_ext l u); [|done]. by intros j _. Qed.

(** While device [i] runs: the change of the raw-IP mode closes and opens it. *)
Definition running_state (d : wwan) (run : nat -> bool) (dr : wwan) : Prop :=
  state_is run run true true dr /\ static dr = static d.
Lemma leaves_raw run d i dev ip : named d dev i -> run i = true ->
  Leaves (running_state d run) (ql_raw_ip_mode_check dev ip).
Proof.
  intros N Hr. unfold ql_raw_ip_mode_check.
  do 3 (apply leaves_bind; [unfold ql_netcard_ipv4_address_check; leaves|intros ?]; apply leaves_if; [apply leaves_ret|]).
  apply leaves_bind; [apply leaves_ask|intros r]. cbv zeta. apply leaves_if; [|apply leaves_ret].
  intros w Hw. assert (A : at_state run run true true d w) by exact Hw.
  apply (down_port _ _ _ _ _ _ dev i) in A; [|done]. rewrite sys_bind. set (w1 := (sys_run _ w).2) in *.
  assert (Hf : tail2 (sysfs dev "qmi/raw_ip") <> tail2 (B "link_state")) by (by rewrite tail2_sysfs by (cbn; lia)).
  destruct (leaves_write (fun dr => state_is run (switch i false run) true true dr /\ static dr = static d) _ [89; 0] Hf w1 A)
    as ([] & w2 & E & A2).
  rewrite (M_bind_ok _ _ w1 tt w2) by exact E. rewrite sys_bind.
  eexists _, _. split; [reflexivity|]. change (at_state run run true true d (sys_run (If_up dev) w2).2).
  eapply at_state_ext; [..|apply (up_port run (switch i false run) true); [exact A2|exact N]]; try done.
  intros j. rewrite switch_twice. unfold switch. case_decide; congruence.
Qed.
Lemma leaves_ipv4 run d i p fuel : named d (net_ifname p) i -> run i = true ->
  Leaves (running_state d run) (udhcpc_ipv4 fuel p (net_ifname p)).
Proof.
  intros N Hr. unfold udhcpc_ipv4, ql_netcard_ipv4_address_check. leaves; auto using leaves_by_qmi. by apply (leaves_raw _ _ i).
Qed.

Lemma manages_ifname d i p : manages d i p -> net_ifname p = qmapnet_adapter p.
Proof. intros (_ & _ & N & _). unfold net_ifname. by destruct (qmapnet_adapter p). Qed.

Lemma start_shared run d w i p fuel stack : shared run d w -> manages d i p ->
  exists w', udhcpc_start fuel stack p w = Ok (tt, w') /\ shared (switch i true run) d w'.
Proof.
  intros Ha Hp. pose proof Hp as (E1 & N & N2 & _). pose proof N as (Nr & _ & Hi).
  destruct (set_link_on _ _ _ _ _ _ i p stack Ha Hp) as (w1 & L & A1).
  rewrite (any_switch _ i run Hi) in A1.
  apply (at_state_ext _ _ _ _ _ _ (switch i true run) run (any (devices d) run) (any (devices d) run)) in A1; try done.
  2: { by destruct (any (devices d) run), (run i). }
  unfold udhcpc_start. rewrite (M_bind_ok _ _ w tt w1 L), (manages_ifname d i p Hp).
  destruct (leaves_when (fun dr => state_is (switch i true run) run (any (devices d) run) (any (devices d) run) dr /\ static dr = static d)
    (truth (rawIP p) && truth (v4_Address (ipv4 p)) && truth (v4_Mtu (ipv4 p))) (ql_set_mtu (qmapnet_adapter p) (s32 (v4_Mtu (ipv4 p))))
    ltac:(unfold ql_set_mtu; leaves) w1 A1) as ([] & w2 & M2 & A2).
  rewrite (M_bind_ok _ _ w1 tt w2 M2). rewrite bool_decide_false by congruence. cbn [negb M_when].
  set (w3 := (sys_run (If_up (usbnet_adapter p)) w2).2).
  assert (A3 : at_state (switch i true run) run true (any (devices d) run) d w3).
  { unfold w3. rewrite E1. by apply (up_real _ _ _ _ _ _ A2). }
  set (w4 := if run i then (sys_run (If_down (qmapnet_adapter p)) w3).2 else w3).
  assert (E4 : (ql_system (If_up (usbnet_adapter p)) ≫= (fun _ => flags ← ask (sys_flags (qmapnet_adapter p));
            M_when (truth (Z.land flags IFF_UP)) (_ ← ql_system (If_down (qmapnet_adapter p)); mret tt))) w2 = Ok (tt, w4)).
  { rewrite sys_bind. fold w3. rewrite ask_bind. destruct A3 as [S3 D3]. apply (static_named _ _ _ _ D3) in N as (F1 & F2 & F3).
    replace (sys_flags (qmapnet_adapter p) w3) with (b2z (run i) * IFF_UP).
    - unfold w4. destruct (run i); cbn [b2z]; [|done]. change (truth (Z.land (1 * IFF_UP) IFF_UP)) with true. cbn [M_when]. by rewrite sys_bind.
    - unfold sys_flags, wn, world_net at 1. unfold dev_flags, real_dev. rewrite decide_False, F2 by done.
      destruct S3 as (_ & _ & _ & _ & _ & Hq). destruct (Hq i F3) as (q & -> & _ & -> & _). done. }
  rewrite (M_bind_ok _ _ w2 tt w4 E4), sys_bind. set (w5 := (sys_run (If_up (qmapnet_adapter p)) w4).2).
  assert (A5 : running_state d (switch i true run) (driver w5)).
  { assert (A4 : at_state (switch i true run) (switch i false run) true (any (devices d) run) d w4).
    { unfold w4. destruct (run i) eqn:Ri; [by apply down_port|]. eapply at_state_ext; [..|exact A3]; try done.
      intros j. by rewrite <- Ri, switch_same. }
    apply (up_port _ _ _ _ _ (qmapnet_adapter p) i) in A4; [|done].
    eapply at_state_ext; [..|exact A4]; try done.
    - intros j. by rewrite switch_twice.
    - unfold switch. rewrite !decide_True by done. by rewrite orb_true_r. }
  assert (K : Leaves (running_state d (switch i true run))
    (bridge ← ql_bridge_mode_detect p;
     if bridge : bool then mret tt
     else _ ← M_when (truth (v4_Address (ipv4 p))) (udhcpc_ipv4 fuel p (qmapnet_adapter p)); set_ipv6 fuel p (qmapnet_adapter p))).
  { leaves; auto using leaves_bridge, leaves_set_ipv6. rewrite <- (manages_ifname d i p Hp) in N |- *.
    apply (leaves_ipv4 _ _ i); [done|]. unfold switch. by rewrite decide_True. }
  destruct (K w5 A5) as ([] & w6 & E6 & A6). exists w6. split; [exact E6|].
  eapply at_state_ext; [..|exact A6]; try done; by apply any_switch.
Qed.

Lemma stop_shared run d w i p stack : shared run d w -> manages d i p ->
  exists w', udhcpc_stop stack p w = Ok (tt, w') /\ shared (switch i false run) d w'.
Proof.
  intros Ha Hp. pose proof Hp as (E1 & N & N2 & _). pose proof N as (Nr & _ & Hi).
  destruct (set_link_off _ _ _ _ _ _ i p stack Ha Hp) as (w1 & L & A1). cbv zeta in A1.
  set (l' := switch i false run) in *.
  assert (A2 : at_state l' run (any (devices d) l') (any (devices d) l') d w1).
  { eapply at_state_ext; [..|exact A1]; try done.
    - destruct (any (devices d) run) eqn:An; [done|]. by apply any_less.
    - destruct (run i) eqn:Ri.
      + by rewrite (any_here _ i run).
      + rewrite andb_false_r. apply any_ext. intros j _. unfold l'. by rewrite <- Ri, switch_same. }
  destruct (zero_port _ _ _ _ _ _ (qmapnet_adapter p) i A2 N) as (b & A3).
  { unfold l', switch. by rewrite decide_True. }
  apply (down_port _ _ _ _ _ _ (qmapnet_adapter p) i) in A3; [|done].
  unfold udhcpc_stop. rewrite (M_bind_ok _ _ w tt w1 L), (manages_ifname d i p Hp), !sys_bind.
  eexists. split; [reflexivity|]. eapply at_state_ext; [..|exact A3]; try done. intros j. by rewrite switch_twice.
Qed.

(** ** Several managers *)

(** The devices that run after a list of operations: those whose last operation is a start. *)
Definition op_device (o : manager_op) : nat := Z.to_nat (muxid (op_profile o) - 0x81).
Definition op_starts (o : manager_op) : bool := match o with Start _ => true | Stop _ => false end.
Definition running (os : list manager_op) (run : nat -> bool) : nat -> bool :=
  foldl (fun run o => switch (op_device o) (op_starts o) run) run os.

Lemma managers_shared fuel stack d os : forall run w,
  shared run d w -> Forall (fun o => exists i, manages d i (op_profile o)) os ->
  exists w', managers usbnet_open address_opens fuel stack os w = Ok (tt, w') /\ shared (running os run) d w'.
Proof.
  induction os as [|o os IH]; intros run w Ha Hos; cbn [managers running foldl]; [by exists w|].
  apply Forall_cons in Hos as [(i & Hp) Hos].
  assert (Ei : op_device o = i) by (destruct Hp as (_ & _ & _ & _ & Em); unfold op_device; rewrite Em; lia).
  assert (S : exists w1, manager_step usbnet_open address_opens fuel stack o w = Ok (tt, w1) /\ shared (switch (op_device o) (op_starts o) run) d w1).
  { rewrite Ei. destruct o as [p|p]; [by apply start_shared|by apply stop_shared]. }
  destruct S as (w1 & E & A). destruct (IH _ w1 A Hos) as (w2 & E2 & A2). exists w2. split; [|exact A2].
  by rewrite (M_bind_ok _ _ w tt w1 E).
Qed.
End World.

(** ** The devices after probing *)

Lemma bytes_of_append s t : bytes_of_string (s +:+ t) = bytes_of_string s ++ bytes_of_string t.
Proof.
  induction s as [|c s IH]; [done|]. change (bytes_of_string (String c s +:+ t)) with (Z.of_N (Ascii.N_of_ascii c) :: bytes_of_string (s +:+ t)).
  by rewrite IH.
Qed.
Definition port_name (base : string) (i : nat) : string := base +:+ "_" +:+ pretty (Z.of_nat i + 1).
Lemma port_name_bytes base i : (i < 4)%nat -> bytes_of_string (port_name base i) = bytes_of_string base ++ [95; 49 + Z.of_nat i].
Proof. intros Hi. unfold port_name. rewrite bytes_of_append. f_equal. do 4 (destruct i as [|i]; [by vm_compute|]); lia. Qed.

(** Device [i] as probing leaves it. *)
Definition fresh_port (base : string) (w : wwan) (i : nat) : Prop :=
  (exists p, get_port w i = Some p /\ idle p)
  /\ WwanLink.ri_ifname (WwanLink.rmnet_info w) !! i = Some (port_name base i)
  /\ WwanLink.ri_mux_id (WwanLink.rmnet_info w) !! i = Some (0x81 + Z.of_nat i).
(** What registering does not touch, with the sizes of the tables. *)
Definition around (w : wwan) : string * bool * Z * Z * (Z * bool) * (nat * nat * nat) :=
  (real_name w, real_up w, w_link_state w, WwanLink.ri_qmap_mode (WwanLink.rmnet_info w), fixed w,
   (length (w_slots w), length (WwanLink.ri_ifname (WwanLink.rmnet_info w)), length (WwanLink.ri_mux_id (WwanLink.rmnet_info w)))).
Definition sized (w : wwan) : Prop := (around w).2 = (4%nat, 8%nat, 8%nat).

Section Probed.
Context (linux_5_17 nss_cb : bool).
#[local] Abbreviation register := (qmap_register_device linux_5_17 nss_cb).

Lemma register_good e (i : nat) w :
  registers e -> (i < 4)%nat -> sized w ->
  let w' := (register e (Z.of_nat i) w).2 in
  around w' = around w /\ fresh_port (real_name w) w' i /\ forall j, fresh_port (real_name w) w j -> fresh_port (real_name w) w' j.
Proof.
  intros (R1 & R2 & R3) Hi [= L1 L2 L3].
  destruct w as [wn wnet wup wca wst wbh wrx wurb wmode wsize wver wlink wrm wtx wbr wsl [w1 w2 w3 w4 wif wmux]]. cbn in L1, L2, L3.
  unfold qmap_register_device. rewrite R1, R2, (proj2 (Z.ltb_ge _ _) R3). cbn [negb].
  cbv zeta. unfold around, fixed, fresh_port, get_port.
  destruct linux_5_17; cbn; rewrite !length_insert, !Nat2Z.id, L1, L2, L3;
  (split; [done|]; split;
   [ rewrite !list_lookup_insert_eq by lia; split_and!;
     [by eexists|done|do 4 (destruct i as [|i]; [done|]); lia]
   | intros j (P & N & M); destruct (decide (i = j)) as [->|D];
     [ rewrite !list_lookup_insert_eq by lia; split_and!;
       [by eexists|done|do 4 (destruct j as [|j]; [done|]); lia]
     | by rewrite !list_lookup_insert_ne ]]).
Qed.
Lemma register_all_good es : forall (i : nat) w,
  Forall registers es -> (i + length es <= 4)%nat -> sized w ->
  let w' := register_all linux_5_17 nss_cb es (Z.of_nat i) w in
  around w' = around w /\ forall j, fresh_port (real_name w) w j \/ (i <= j < i + length es)%nat -> fresh_port (real_name w) w' j.
Proof.
  induction es as [|e es IH]; intros i w He Hi Hs; cbn [register_all length] in *.
  { split; [done|]. intros j [?|?]; [done|lia]. }
  apply Forall_cons in He as [He Hes]. destruct (register_good e i w He ltac:(lia) Hs) as (A & F & K).
  set (w1 := (register e (Z.of_nat i) w).2) in *. pose proof (f_equal (fun x => x.1.1.1.1.1) A) as N. cbn in N.
  assert (Hs1 : sized w1) by (unfold sized in *; congruence).
  replace (Z.of_nat i + 1) with (Z.of_nat (S i)) by lia.
  destruct (IH (S i) w1 Hes ltac:(lia) Hs1) as [A2 K2]. rewrite N in K2. split; [congruence|].
  intros j [Fj|Hj]; apply K2; [by left; apply K|]. destruct (decide (j = i)) as [->|D]; [by left|right; lia].
Qed.

(** An LTE-A modem with several devices, as binding and as probing leave it. *)
Lemma bound_several e qm bm st w pm :
  0 <= qm -> qmi_wwan_bind e qm bm = (st, Some w, pm) -> bind_lte_a e = true -> 1 < w_qmap_mode w ->
  sized w /\ around w = (be_name e, false, 0, w_qmap_mode w, (w_qmap_mode w, true), (4%nat, 8%nat, 8%nat))
  /\ w_qmap_mode w <= 4 /\ w_slots w = replicate 4 SlotNull.
Proof.
  intros Hq Bd La Hm. destruct (bind_facts e qm bm st w pm Hq Bd) as (B1 & B2 & B3 & B4).
  assert (Ha : around w = (be_name e, false, 0, w_qmap_mode w, (w_qmap_mode w, true), (4%nat, 8%nat, 8%nat))).
  { specialize (B3 Hm). specialize (B4 ltac:(lia)). rewrite La in B4. unfold around, fixed. rewrite B1, B3, B4.
    revert Bd Hm. clear. unfold qmi_wwan_bind. destruct (negb (be_status e =? 0)); [done|]. destruct (negb (be_kzalloc e)); [done|].
    destruct (be_noarp e); [|intros [= _ <- _]; cbn; lia]. cbv zeta.
    destruct (truth _) eqn:T; intros [= _ <- _]; cbn; [done|]. intros Hm. unfold truth in T.
    apply negb_false_iff, Z.eqb_eq in T. lia. }
  split_and!; try done; try lia. unfold sized. by rewrite Ha.
Qed.
Lemma probed_state e qm bm st w0 pm env :
  0 <= qm -> qmi_wwan_bind e qm bm = (st, Some w0, pm) -> bind_lte_a e = true -> 1 < w_qmap_mode w0 ->
  (forall i, 0 <= i < w_qmap_mode w0 -> registers (env i)) ->
  let d := qmap_qmi_wwan_probe linux_5_17 nss_cb env w0 in
  state_is (fun _ => false) (fun _ => false) false false d
  /\ around d = around w0 /\ forall i, (i < devices d)%nat -> fresh_port (be_name e) d i.
Proof.
  intros Hq Bd La Hm He. destruct (bound_several e qm bm st w0 pm Hq Bd La Hm) as (Hs & Ha & H4 & Hsl).
  unfold qmap_qmi_wwan_probe. rewrite (proj2 (Z.eqb_neq _ 1)), (proj2 (Z.ltb_lt 1 _)) by lia.
  set (w1 := register_all _ _ _ _ w0).
  destruct (register_all_good (env <$> seqZ 0 (w_qmap_mode w0)) 0 w0) as [A F].
  { apply Forall_fmap, Forall_forall. intros i Hi%elem_of_seqZ. apply He. lia. }
  { rewrite length_fmap, length_seqZ. lia. }
  { done. }
  change (register_all _ _ _ _ w0) with w1 in A, F. rewrite length_fmap, length_seqZ in F.
  rewrite Ha in A. pose proof A as A'. unfold around, fixed in A'. injection A' as N U L I M Us _ _ _.
  replace (real_name w0) with (be_name e) in F by (unfold around in Ha; congruence).
  clearbody w1. cbv zeta. rewrite (proj2 (Z.eqb_eq (w_link_state (w1 <| rx_handler := w_use_rmnet_usb w1 |>)) 0)) by exact L.
  set (d := w1 <| rx_handler := _ |> <| real_carrier := _ |>).
  assert (Ed : around d = around w1) by done. rewrite Ed, A, <- Ha. split; [|split; [done|]].
  - unfold state_is, devices. change (w_qmap_mode d) with (w_qmap_mode w1). change (w_link_state d) with (w_link_state w1).
    rewrite M, L. split_and!; try done; try lia.
    + intros j. rewrite Z.bits_0. by rewrite andb_false_r.
    + intros i Hi. destruct (F i) as ((p & G & I1 & I2 & I3 & I4) & _); [right; lia|].
      exists p. split; [exact G|]. rewrite I1, I2, I4. done.
  - intros i Hi. apply (F i). right. unfold devices in Hi. change (w_qmap_mode d) with (w_qmap_mode w1) in Hi. rewrite M in Hi. lia.
Qed.
End Probed.

(** ** Names *)
Lemma fresh_named d i :
  (forall j, (j < devices d)%nat -> fresh_port (real_name d) d j) -> (devices d <= 4)%nat -> (i < devices d)%nat ->
  named d (bytes_of_string (port_name (real_name d) i)) i.
Proof.
  intros F H4 Hi. rewrite port_name_bytes by lia. split_and!; [|unfold port_named|done].
  - intros E. apply (f_equal length) in E. rewrite length_app in E. cbn in E. lia.
  - set (n := bytes_of_string (real_name d) ++ [95; 49 + Z.of_nat i]).
    assert (Fi : list_find (fun s => bytes_of_string s = n) (WwanLink.ri_ifname (WwanLink.rmnet_info d)) = Some (i, port_name (real_name d) i)).
    { apply list_find_Some. split_and!; [apply F; lia|by apply port_name_bytes; lia|].
      intros j y Hy Lj. destruct (F j ltac:(lia)) as (_ & N & _). rewrite N in Hy. injection Hy as <-.
      rewrite port_name_bytes by lia. unfold n. intros E%app_inv_head. injection E as E. lia. }
    by rewrite Fi.
Qed.

Lemma entry_nat {A} (l : list A) i x : l !! i = Some x -> entry l (Z.of_nat i) = Ok x.
Proof. intros E. unfold entry. rewrite (proj2 (Z.ltb_ge _ 0)), Nat2Z.id, E by lia. done. Qed.

Section Shared.
Context {R : Type} `{NetSys R} (usbnet_open : R -> Z) (address_opens linux_5_17 nss_cb : bool).
#[local] Abbreviation probe := (qmap_qmi_wwan_probe linux_5_17 nss_cb).

(** C4. Connection managers that share a modem do not disturb each other.  On an LTE-A
    modem with several devices, where opening the real device succeeds and /sbin/ip is there,
    whatever the managers of these devices do, in whatever order, with whatever addresses and
    whichever kind of modem they talk to: every start and every stop returns, and then exactly
    the devices whose manager started last, and did not stop since, are open, have their link
    and their carrier; the real device is open, with its carrier, as long as there is one of
    them. *)
Theorem shared_modem e qm bm st w0 pm env os r fuel stack :
  (forall r, usbnet_open r = 0) -> (forall r, sys_access (B "/sbin/ip") r = 0) ->
  0 <= qm -> qmi_wwan_bind e qm bm = (st, Some w0, pm) -> bind_lte_a e = true -> 1 < w_qmap_mode w0 ->
  (forall i, 0 <= i < w_qmap_mode w0 -> registers (env i)) ->
  let d := probe env w0 in
  Forall (fun o => exists i, manages d i (op_profile o)) os ->
  exists w', managers usbnet_open address_opens fuel stack os (mkWorld d r) = Ok (tt, w')
    /\ let run := running os (fun _ => false) in
       (forall i, (i < devices d)%nat -> exists p, get_port (driver w') i = Some p /\ p_up p = run i /\ p_carrier p = run i
          /\ Z.testbit (w_link_state (driver w')) (Z.of_nat i) = run i)
       /\ real_up (driver w') = any (devices d) run /\ real_carrier (driver w') = any (devices d) run.
Proof.
  intros Ho Hi Hq Bd La Hm He d Hos. destruct (probed_state linux_5_17 nss_cb e qm bm st w0 pm env Hq Bd La Hm He) as (S & _ & _).
  fold d in S. assert (Z : any (devices d) (fun _ => false) = false).
  { unfold any. apply not_true_iff_false. intros (j & _ & Hj)%existsb_exists. done. }
  assert (A : shared (fun _ => false) d (mkWorld d r)) by (unfold shared; rewrite Z; by split).
  destruct (managers_shared usbnet_open address_opens Ho Hi fuel stack d os _ _ A Hos) as (w' & E & [S' D']).
  exists w'. split; [exact E|]. destruct S' as (_ & S2 & S3 & _ & S5 & S6). split_and!; try done. intros i Hi'.
  rewrite (static_devices _ _ D') in S5, S6. destruct (S6 i Hi') as (p & G & _ & P2 & P3). exists p.
  rewrite S5, bool_decide_true, P2, P3, andb_diag by done. done.
Qed.

#[local] Instance wn' : NetSys (world R) := world_net usbnet_open address_opens.
Lemma prof_bind {A C} (m : MP A) (k : A -> MP C) (s : PROFILE_T * world R) a s' : m s = Ok (a, s') -> (@mbind MP MP_bind A C k m) s = k a s'.
Proof. unfold mbind, MP_bind, M_bind. by intros ->. Qed.
Lemma sysm_ok {A} (m : M (world R) A) p w a w' : m w = Ok (a, w') -> sysm m (p, w) = Ok (a, (p, w')).
Proof. intros E. unfold sysm. cbn. by rewrite E. Qed.

(** The end of detection: the device, its id and the mode stay, and so does the driver. *)
Lemma detect_out_keeps enable p w : exists p' w', detect_out enable (p, w) = Ok (tt, (p', w')) /\ driver w' = driver w
  /\ usbnet_adapter p' = usbnet_adapter p /\ qmapnet_adapter p' = qmapnet_adapter p
  /\ CmTypes.qmap_mode p' = CmTypes.qmap_mode p /\ muxid p' = muxid p.
Proof.
  unfold detect_out. rewrite (prof_bind the_profile _ (p, w) p (p, w) eq_refl). set (when := M_when _ _).
  assert (E : exists p1 w1, when (p, w) = Ok (tt, (p1, w1)) /\ driver w1 = driver w
    /\ usbnet_adapter p1 = usbnet_adapter p /\ qmapnet_adapter p1 = qmapnet_adapter p
    /\ CmTypes.qmap_mode p1 = CmTypes.qmap_mode p /\ muxid p1 = muxid p).
  { unfold when, M_when. destruct (truth (CmTypes.qmap_mode p)); [|by exists p, w].
    assert (K : Leaves (fun d => d = driver w) (qmap_size_of p)) by apply leaves_size.
    destruct (K w eq_refl) as (size & w1 & E & D). rewrite (prof_bind _ _ _ _ _ (sysm_ok _ p _ _ _ E)).
    eexists _, w1. split; [reflexivity|]. by destruct p. }
  destruct E as (p1 & w1 & E & D & E1 & E2 & E3 & E4). rewrite (prof_bind when _ _ tt (p1, w1) E), (prof_bind the_profile _ (p1, w1) p1 (p1, w1) eq_refl).
  assert (K : Leaves (fun d => d = driver w) (ql_set_driver_bridge_mode enable p1)) by apply leaves_bridge_mode.
  destruct (K w1 D) as ([] & w2 & E5 & D2). exists p1, w2. rewrite (sysm_ok _ _ _ _ _ E5). auto 10.
Qed.

(** Each manager finds its own device.  The manager of data connection [i + 1] on such a
    modem learns from the driver the name and the id of device [i], whatever the attributes
    of other drivers say; detecting changes nothing in the driver. *)
Theorem detect_manages e qm bm st w0 pm env (i : nat) p r enable l drv :
  0 <= qm -> qmi_wwan_bind e qm bm = (st, Some w0, pm) -> bind_lte_a e = true -> 1 < w_qmap_mode w0 ->
  (forall i, 0 <= i < w_qmap_mode w0 -> registers (env i)) ->
  let d := probe env w0 in
  Z.of_nat i < w_qmap_mode w0 -> (length (bytes_of_string (be_name e)) <= 13)%nat ->
  software_interface p = SOFTWARE_QMI -> usbnet_adapter p = bytes_of_string (be_name e) ->
  pdp p = Z.of_nat i + 1 -> muxid p = 0 ->
  sys_readlink (sysfs (usbnet_adapter p) "device/driver") r = Some l -> driver_of (Some l) = Some drv ->
  exists p' w', @ql_qmap_mode_detect _ (world_net usbnet_open address_opens) enable (p, mkWorld d r) = Ok (tt, (p', w'))
    /\ driver w' = d /\ manages d i p'.
Proof.
  intros Hq Bd La Hm He d Hi Hlen Hsw Hu Hpdp Hmux Hlink Hdrv.
  destruct (probed_state linux_5_17 nss_cb e qm bm st w0 pm env Hq Bd La Hm He) as (S & A & F). fold d in S, A, F.
  destruct (bound_several e qm bm st w0 pm Hq Bd La Hm) as (_ & Ha & H4 & _). rewrite Ha in A. unfold around, fixed in A.
  injection A as N _ _ I M U _ _ _. assert (Hd : (i < devices d)%nat) by (unfold devices; lia).
  destruct (F i Hd) as (_ & Fn & Fm).
  assert (Nm : named d (bytes_of_string (port_name (real_name d) i)) i).
  { apply fresh_named; [by rewrite N|unfold devices; lia|done]. }
  set (w := mkWorld d r). change (@ql_qmap_mode_detect _ _ enable (p, w)) with (ql_qmap_mode_detect enable (p, w)).
  unfold ql_qmap_mode_detect. rewrite (prof_bind the_profile _ (p, w) p (p, w) eq_refl), Hsw. change (SOFTWARE_QMI =? SOFTWARE_MBIM) with false.
  change (SOFTWARE_QMI =? SOFTWARE_QMI) with true. cbn iota. unfold ql_qmi_qmap_mode_detect.
  rewrite (prof_bind the_profile _ (p, w) p (p, w) eq_refl), (prof_bind _ _ _ _ _ (sysm_ok (ask (sys_readlink _)) p w _ w eq_refl)).
  change (sys_readlink _ w) with (sys_readlink (sysfs (usbnet_adapter p) "device/driver") r). rewrite Hlink.
  rewrite Hdrv, (prof_bind (M_lift (of_option (Some drv))) _ (p, w) drv (p, w) eq_refl).
  set (p1 := p <| driver_name := take 31 drv |>). rewrite (prof_bind _ _ _ tt (p1, w)) by done.
  set (info := to_cm_info (WwanLink.rmnet_info d)). set (p2 := p1 <| CmTypes.rmnet_info := info |>).
  rewrite (prof_bind ql_get_driver_rmnet_info _ _ tt (p2, w)).
  2: { unfold ql_get_driver_rmnet_info. rewrite (prof_bind the_profile _ (p1, w) p1 (p1, w) eq_refl), (prof_bind _ _ _ (Some info) (p1, w)); [done|].
       apply sysm_ok. unfold ask, sys_rmnet_info, wn', world_net at 1. unfold real_dev.
       rewrite decide_True by (by cbn; rewrite N; destruct p). cbn. by rewrite U. }
  rewrite (prof_bind the_profile _ (p2, w) p2 (p2, w) eq_refl). change (truth (ri_size (CmTypes.rmnet_info p2))) with true. cbn iota.
  change (CmTypes.rmnet_info p2) with info.
  set (p4 := p2 <| CmTypes.qmap_mode := rn_qmap_mode info |> <| muxid := 0x81 + Z.of_nat i |>
       <| qmapnet_adapter := take 31 (bytes_of_string (port_name (be_name e) i)) |>
       <| qmap_size := CmTypes.ri_rx_urb_size info |> <| CmTypes.qmap_version := CmTypes.ri_qmap_version info |>).
  assert (E : use_rmnet_info info (p2, w) = Ok (tt, (p4, w))).
  { assert (I' : rn_qmap_mode info = w_qmap_mode w0) by exact I. unfold use_rmnet_info. unfold p4. rewrite !I'.
    set (p3 := p2 <| CmTypes.qmap_mode := w_qmap_mode w0 |>).
    rewrite (prof_bind (set_profile_by _) _ (p2, w) tt (p3, w) eq_refl). unfold truth. rewrite (proj2 (Z.eqb_neq _ 0)) by lia. cbn [negb].
    rewrite (prof_bind the_profile _ (p3, w) p3 (p3, w) eq_refl), (proj2 (Z.eqb_neq _ 1)) by lia.
    change (muxid p3) with (muxid p). change (pdp p3) with (pdp p). rewrite Hmux, Hpdp, Z.eqb_refl.
    replace (Z.of_nat i + 1 - 1) with (Z.of_nat i) by lia.
    rewrite (prof_bind (M_lift (entry (rn_mux_id info) _)) _ (p3, w) (129 + Z.of_nat i) (p3, w)).
    2: { by rewrite (entry_nat (rn_mux_id info) i _ Fm). }
    rewrite (prof_bind (M_lift (entry (rn_ifname info) _)) _ (p3, w) (bytes_of_string (port_name (be_name e) i)) (p3, w)); [done|].
    rewrite (entry_nat _ _ (bytes_of_string (port_name (be_name e) i))); [done|]. unfold info, to_cm_info. cbn. by rewrite list_lookup_fmap, Fn. }
  rewrite (prof_bind _ _ (p2, w) tt (p4, w) E).
  destruct (detect_out_keeps enable p4 w) as (p5 & w5 & E5 & D5 & F1 & F2 & F3 & F4). exists p5, w5.
  split; [exact E5|]. split; [exact D5|]. unfold manages. rewrite F1, F2, F3, F4.
  assert (Q : qmapnet_adapter p4 = bytes_of_string (port_name (real_name d) i)).
  { change (qmapnet_adapter p4) with (take 31 (bytes_of_string (port_name (be_name e) i))). rewrite N. apply take_ge.
    rewrite port_name_bytes, length_app by (unfold devices in Hd; lia). cbn. lia. }
  rewrite Q. split_and!; [|done| | |done].
  - change (usbnet_adapter p4) with (usbnet_adapter p). by rewrite N.
  - rewrite port_name_bytes by (unfold devices in Hd; lia). by destruct (bytes_of_string (real_name d)).
  - change (CmTypes.qmap_mode p4) with (rn_qmap_mode info). rewrite M. exact I.
Qed.
End Shared.

(** ** Witnesses *)

(** A system with iproute2 and a link to the driver, where nothing else succeeds. *)
#[export] Instance bare_net : NetSys unit := {|
  sys_access f _ := if decide (f = B "/sbin/ip") then 0 else ENOENT; sys_open _ _ _ := ENOENT;
  sys_read _ _ := None; sys_write _ _ w := w; sys_readlink _ _ := Some (B "../../../bus/usb/drivers/qmi_wwan_q");
  sys_run _ w := (1, w); sys_addr _ _ := 0; sys_flags _ _ := 0; sys_mtu _ _ := None; sys_set_mtu _ _ w := w;
  sys_rmnet_info _ _ := None |}.
Definition demo_bound : wwan :=
  match (qmi_wwan_bind (demo_bind 0x0800) 2 0).1.2 with Some w => w | None => demo_state end.
Definition demo_modem : wwan := qmap_qmi_wwan_probe false false (fun _ => good_reg) demo_bound.
Definition demo_manager (i : nat) : PROFILE_T :=
  PROFILE_zero <| usbnet_adapter := B "wwan0" |> <| qmapnet_adapter := bytes_of_string (port_name "wwan0" i) |>
    <| CmTypes.qmap_mode := 2 |> <| muxid := 0x81 + Z.of_nat i |>
    <| ipv4 := mkIPV4 (host_addr 10 0 0 2) (host_addr 10 0 0 1) 4294967288 0 0 0 |>.
Lemma demo_manages i : (i < 2)%nat -> manages demo_modem i (demo_manager i).
Proof.
  intros Hi. do 2 (destruct i as [|i]; [split_and!; [by vm_compute|split_and!; [by vm_compute|by vm_compute|by vm_compute; lia]|by vm_compute..]|]).
  lia.
Qed.
Definition demo_manager_ops : list manager_op := [Start (demo_manager 0); Start (demo_manager 1); Stop (demo_manager 0)].
Lemma demo_managed : Forall (fun o => exists i, manages demo_modem i (op_profile o)) demo_manager_ops.
Proof.
  assert (H0 := demo_manages 0 ltac:(lia)). assert (H1 := demo_manages 1 ltac:(lia)). unfold demo_manager_ops.
  repeat apply Forall_cons_2; [by exists 0%nat|by exists 1%nat|by exists 0%nat|apply Forall_nil_2].
Qed.

Lemma shared_modem_witness :
  exists w', managers (fun _ => 0) true 0 [] demo_manager_ops (mkWorld demo_modem tt) = Ok (tt, w')
    /\ (exists p, get_port (driver w') 0 = Some p /\ p_up p = false /\ p_carrier p = false)
    /\ (exists p, get_port (driver w') 1 = Some p /\ p_up p = true /\ p_carrier p = true)
    /\ real_up (driver w') = true.
Proof.
  destruct (shared_modem (fun _ => 0) true false false (demo_bind 0x0800) 2 0 0 demo_bound 2 (fun _ => good_reg) demo_manager_ops tt 0 [])
    as (w' & E & P & U & _).
  - done.
  - by intros [].
  - lia.
  - by vm_compute.
  - done.
  - done.
  - intros i _. by repeat split.
  - exact demo_managed.
  - exists w'. split; [exact E|]. split_and!; [| |rewrite U; vm_compute; reflexivity].
    + destruct (P 0%nat) as (p & G & P1 & P2 & _); [vm_compute; lia|]. exists p.
      split; [exact G|]. rewrite P1, P2. split; vm_compute; reflexivity.
    + destruct (P 1%nat) as (p & G & P1 & P2 & _); [vm_compute; lia|]. exists p.
      split; [exact G|]. rewrite P1, P2. split; vm_compute; reflexivity.
Defined.

Definition demo_user : PROFILE_T :=
  PROFILE_zero <| usbnet_adapter := B "wwan0" |> <| software_interface := SOFTWARE_QMI |> <| pdp := 2 |>.
Lemma detect_manages_witness :
  exists p' w', @ql_qmap_mode_detect _ (world_net (fun _ => 0) false) [] (demo_user, mkWorld demo_modem tt) = Ok (tt, (p', w'))
    /\ manages demo_modem 1 p'.
Proof.
  destruct (detect_manages (fun _ => 0) false false false (demo_bind 0x0800) 2 0 0 demo_bound 2 (fun _ => good_reg) 1 demo_user tt []
    (B "../../../bus/usb/drivers/qmi_wwan_q") (B "qmi_wwan_q")) as (p' & w' & E & _ & M).
  - lia.
  - by vm_compute.
  - done.
  - done.
  - intros i _. by repeat split.
  - done.
  - vm_compute. lia.
  - done.
  - done.
  - done.
  - done.
  - done.
  - done.
  - exists p', w'. split; [exact E|exact M].
Defined.

(** The characters of an id are taken for decimal digits: an id with a letter is misread. *)
Example mux_letters : mux_at (B "0x8a" ++ [LF]) 0 = Ok 177.
Proof. reflexivity. Qed.
